(* ===== verification/_CoqProject ===== *)
-Q . S2P
Prelude.v
Ordered.v
Ypatch.v
Kubernetes.v
ApiTypes.v
Consts.v
Labeller.v
Status.v
Checks.v
CypressActions.v
ApiProxy.v
Resources.v
Services.v
ConfigMaps.v
InitJob.v
Components.v
YtsaurusClient.v
PodsManager.v
UpdateModes.v
Master.v
ServerComponents.v
AgentComponents.v
Rolling.v
UpdatePlan.v
ComponentManager.v
ImageHeater.v
Timbertruck.v
Validators.v
ServerImpl.v
UpdateFlow.v
Reconciler.v
Releases.v
Values.v
Logging.v
Connection.v
LogDelivery.v
CriConfig.v
Pods.v
ServerPods.v
NodeConfig.v
ServerConfigs.v
Generator.v
Assembly.v
Microservices.v
Constructors.v
