(* ===== verification/Prelude.v ===== *)
(** * Verification of the YTsaurus Kubernetes operator

    The operator turns a [Ytsaurus] custom resource into a running cluster: stateful sets,
    services and config maps for some twenty kinds of components.  Its controller is called
    with the resource whenever something changes, looks at every component, moves the
    state machine of the cluster by at most one step, lets the components that may make
    progress create or change their objects, and stores what it has to remember in the
    conditions of the resource.  A webhook rejects resources the controller could not
    handle safely.  The development translates the Go code of this control plane into
    functions and proves what makes it correct.

    ** The parts and where they are modelled

    - [Prelude.v] (this file): notations for Go, the state monad [go] of effectful code
      with its stepping and framing tactics, 32-bit integers, strings, stable sorting.
    - [Ordered.v], [Ypatch.v]: src/pkg/ypatch, ordered YSON documents with their encoding and
      merging decoding, patches of Cypress, their computation and their application through
      the client of the cluster.
    - [Kubernetes.v]: conditions, pods and the operations of apimachinery the operator
      relies on, as the class [MetaConditions] with laws [MetaConditionsLaws].
    - [ApiTypes.v]: src/api/v1 and src/pkg/consts, the specification and status of the
      resource with the enumerations of states, component types, classes and strategies.
    - [Consts.v]: src/pkg/consts, ports, mount points, file names, variables and defaults.
    - [Labeller.v]: src/pkg/labeller, names, addresses, labels and condition types.
    - [Status.v], [Components.v]: src/pkg/components/component.go, the statuses components
      report, and the interfaces [podsManager], [server] and [Component] as records of
      operations over the world.
    - [Checks.v]: src/pkg/checks, the health of master quorums and the merging of conditions.
    - [CypressActions.v]: the requests to a running cluster (tablet cells, safe mode, bundle
      controller, users, instance counts) of ytsaurus_client.go, helpers.go and precheck.go.
    - [ApiProxy.v]: src/pkg/apiproxy, the [World] of a pass (the fetched resource, the
      events, the clock, the statuses of the components, and an abstract environment) and
      the operations on the status of the resource.
    - [Resources.v]: the object half of the proxy and src/pkg/resources, a managed object
      kept beside the object being built, over a client that is a parameter.
    - [ConfigMaps.v]: src/pkg/components/config_map_builder.go, generation, overrides,
      hashes and the decision to reload.
    - [Services.v]: src/pkg/resources, the services before the pods and their ports.
    - [InitJob.v]: src/pkg/components/init_job.go, jobs that run a script once per reason.
    - [YtsaurusClient.v]: src/pkg/components/ytsaurus_client.go, the component that talks to
      the running cluster: health checks, the steps of an update, Cypress patches.
    - [Master.v]: src/pkg/components/master.go, master cells, their registration and scripts.
    - [ServerComponents.v]: the components that are a server with little around it (nodes,
      proxies, discovery, controller agents, caches, and the remote variants), with the checks
      made before their pods are taken away.
    - [AgentComponents.v]: scheduler, query tracker, queue agent and YQL agent, which keep
      state in the cluster.
    - [PodsManager.v]: src/pkg/components/pods_manager.go and the parts of server.go that
      count pods and judge the progress of an update.
    - [UpdateModes.v], [Rolling.v]: src/pkg/components/helpers.go, the bulk, rolling and
      OnDelete strategies; what a pass of the rolling handler asks for, and its passes over a
      stateful set that follows it.
    - [UpdatePlan.v], [ComponentManager.v]: src/controllers/component_manager.go, which
      components may update, the statuses at the start of a pass and the syncs at its end.
    - [ImageHeater.v]: src/pkg/components/image_heater.go, the daemon sets that pull images to
      the nodes before an update, with their plan, hashes and statuses.
    - [Timbertruck.v], [LogDelivery.v]: src/pkg/components/timbertruck.go, who delivers structured
      logs, and the component that prepares the queues, producers, export directories and the user
      of log delivery in the cluster.
    - [Validators.v]: src/validators, every check of the admission webhook.
    - [ServerImpl.v]: src/pkg/components/server.go, the server over a stateful set, its
      config map and its services.
    - [Pods.v]: src/pkg/components/volume.go and the secrets and bundles of src/pkg/resources,
      containers, volumes, mounts and pod specifications.
    - [ServerPods.v]: the pod specification of servers (server.go, serveroptions.go) with what
      components add to it: certificates, log delivery, the uploader and host affinity of
      masters, tokens, and the container runtime of exec nodes (exec_node_base.go).
    - [Microservices.v]: microservice.go, ui.go and strawberry_controller.go of
      src/pkg/components, the web interface and the controller of cliques as deployments.
    - [UpdateFlow.v]: src/controllers/update_flow_steps.go, the graph of update steps as a
      mutable heap and the walk through it.
    - [Reconciler.v]: src/controllers/ytsaurus_controller.go, the whole reconcile pass.
    - [Releases.v]: the other controllers of src/controllers: CHYT and SPYT releases with their
      jobs, and the nodes and gateways that join a remote cluster.
    - [Values.v]: what the configurations are made of: resource quantities, floating point
      numbers, documents, and the monad [outcome] of generators, which return, fail or panic.
    - [Logging.v]: src/pkg/ytconfig/logging.go and timbertruck.go, rules and writers of loggers,
      the configuration of the log delivery sidecar.
    - [Connection.v]: common.go, cell_id.go, keyring.go and the first half of generator.go in
      src/pkg/ytconfig: generators of local and remote clusters, addresses, cell ids, TLS,
      the connection to the cluster every server has.
    - [CriConfig.v], [NodeConfig.v]: cri.go and node.go of src/pkg/ytconfig, container services,
      and the configurations of data, exec and tablet nodes.
    - [ServerConfigs.v]: the configurations of masters, proxies and all other servers.
    - [Generator.v]: [GetComponentNames] and [GetComponentConfig], the interface of the
      generator, and the theorems about all configurations of a cluster.
    - [Assembly.v], [Constructors.v]: [NewComponentManager], which components a cluster has, in
      which order and with which references to each other, and the constructors it calls: the
      server, its ports, probe and files, services, jobs and secrets of each component.

    A reconcile pass ([Reconcile]) fetches the resource, builds the components, asks the
    component manager for their statuses ([FetchStatus]), moves the state machine
    ([reconcileStates], with [execute] of the update flow while the cluster updates), and
    ends with [cm_Sync], which calls back the components through the [Component] interface,
    implemented by [YtsaurusClient.v], [Master.v], [ServerComponents.v],
    [AgentComponents.v], [LogDelivery.v] and [Microservices.v]; these act through the [server] interface, implemented in
    [ServerImpl.v] over [Resources.v] and [ConfigMaps.v], run jobs ([InitJob.v]) and send
    requests to the cluster ([CypressActions.v], [Ypatch.v]).

    The configurations the servers start with come from a generator ([NewGenerator],
    [NewRemoteNodeGenerator]) made from the resource in the same pass; [ConfigMaps.v] takes
    them as documents, and [Generator.v] says what they hold for a resource the webhook of
    [Validators.v] has accepted.

    ** How code becomes definitions

    A Go method that reads or writes the objects it shares with others is a computation of
    the monad [go World]: the world holds the one [Ytsaurus] object of the pass, so a
    mutation is seen by everyone after it, as in the code.  A result with an error is a
    pair with an [option error], and the state reached before the error is kept.  A string
    enumeration is an inductive type with a constructor for any other string; a nil pointer
    is [None]; an [int32] is a [Z] with every arithmetic result wrapped by [i32].  Code
    outside the repository (apimachinery, the Kubernetes client, the YTsaurus client, YSON and
    YAML libraries, go-cmp, semantic versions, uuids) is a class or a section variable with its documented behaviour as
    laws, and every theorem that uses a law has a witness with a concrete instance
    ([ReferenceMeta], [MemKube], [SrvKube], [JobKube], [TextCodec], [FlatCypress],
    [CellCluster], [TableCypress], [DepKube], [DevWebhook], [ReferenceQuantity], [ReferenceUUID], [ReferenceVersions]).
    A quantity of Kubernetes is opaque with its two conversions; a float is a mantissa with an
    exponent, rounded after each operation as the hardware does.  A configuration is a record
    with the fields of the Go structure; a generator that may return an error or panic yields
    an [outcome].  The components
    themselves are arbitrary values of the interface in the theorems about the manager and
    the reconciler.

    Most loops are over lists, and a pass does a bounded number of steps; waiting is done by
    being called again.  Three definitions carry fuel: the YSON decoder of [Ordered.v], whose
    round trip shows that for every document some amount, and any larger one, is enough; the
    retry of [SetNode] in [Ypatch.v], which [SetNode_terminates] bounds by the length of the
    path; and the port loop
    of [Services.v], where [tcp_ports_exact] shows that more fuel adds nothing.  The other
    termination theorems are about sequences of passes: [update_flow_terminates] bounds the number of steps of an update,
    [rolling_completes] the moves of a rolling update, [ready_pass_settles] and
    [config_sync_converges] say that a second pass has nothing left to write.  Bounds of
    integers are stated where they matter: fewer than 2^31 pods ([PodsManager.v]), counts
    below 2^30 where the code doubles them ([Validators.v]).

    ** What the theorems show

    - The state machine: every transition of the cluster state is one of a fixed relation
      and has its guard ([Reconcile_transitions]); an update starts exactly when a
      component needs it, the plan allows it and the cluster may update
      ([Sync_starts_update]); conditions stay sorted and unique ([Sync_keeps_conditions]).
    - The update flow: the graph built by mutation is the documented list of states with
      one fork ([flow_trees_refine_lists]); the walk ends ([update_flow_terminates]); pods
      are removed only after the preparations the components need ([flowStates_safe]);
      every waiting state has the condition that ends it ([flow_states_have_conditions]).
    - The update plan: concurrency limits are kept and every component is placed once
      ([applyUpdatePlan_spec]).
    - Rolling updates: a pass asks for exactly the start of the new revision, the next instance or
      nothing, within the unavailability budget ([handleRolling_requests]), and over a healthy
      stateful set the passes complete the update ([rolling_completes]).
    - Pods and servers: counting, readiness, removal protocol, OnDelete completion, the
      requests a server sends ([server_requests]).
    - The webhook: what an accepted resource guarantees ([accepted_...]): quorum
      intersection across a resize of a cell of several masters, well-formed plans, TLS-only transports,
      distinct names, visible mounts, resolvable log delivery.
    - Memory of the operator: conditions, names and labels round trip and do not collide.
    - The contract of components: what the theorems about the manager and the reconciler assume of
      an arbitrary component is shown for all but the masters, over a server that writes nothing to
      the cluster resource ([server_component_frame],
      [agent_component_frame], [client_component_frame], [timbertruck_component_frame],
      [micro_component_frame]); the components of [ServerComponents.v] start nothing before the
      masters run ([masters_first]); the manager of an accepted cluster has exactly the components
      the specification asks for, each after those it waits for and, Kafka proxies apart, with a name
      of its own, and all their constructors return ([cluster_assembled]); pods, probes and services
      name the ports the configuration makes a server listen on ([servers_exposed]).
    - Pods: what the containers the operator makes mount is there, once
      ([component_pods_well_formed]); sidecars see the directories of their server
      ([shared_locations_exact]); the certificates a configuration names are mounted where it
      names them ([keyring_files_mounted]).
    - Deployments: the web interface and the controller of cliques are deployed as specified
      ([microservice_deployed]) and not before the cluster is ready for them
      ([microservice_prerequisites]).
    - Evidence: a step of an update is reported done only after the requests or the job run of
      this update that it stands for ([handleUpdatingState_evidence],
      [RunUpdateScript_fresh], [ij_Sync_no_overlap], [qt_update_evidence]); an update is
      declared possible exactly when quorums, chunks and bundles are healthy
      ([UpdateIsPossible_exact], [MasterQuorumHealth_exact]).
    - Requests to the cluster: tablet cells come back exactly ([RecoverTableCells_exact],
      [initBundles_exact]); the check before the pod of an exec node goes
      drains it ([exec_precheck_drains]), though a check that passed once is not repeated
      ([prechecks_once]); patches stop at the first error, keep their guards and are
      recorded truthfully ([ApplyPatchSet_outcome], [master_patch_guarded],
      [CypressPatchApplied_sound]); a cell that is not registered has no pods
      ([unregistered_cell_held]).
    - Log delivery: what the sidecars are configured to write to has been created, its mount
      requested, when the operator says so ([log_queues_prepared]).
    - Documents: encoding and decoding are inverse, decoding over a document merges
      ([yson_roundtrip_and_overlay]).
    - Images and releases: the heater reaches the set of daemon sets the update needs
      ([heaters_converge]) and an update waits for them ([heated_before_update]); a release is
      reported finished only after its jobs ([chyt_release_sound]).
    - Configurations: every accepted cluster can be configured ([accepted_cluster_configures]);
      secure transports reach every server but those the findings name
      ([secure_cluster_configured]); servers know the registered master cells
      ([unregistered_cells_hidden]) by ids that can be read back ([cell_id_roundtrip]); nodes
      configured from the description of a remote cluster see the same cluster
      ([remote_view_agrees]); logging sections are well formed, files do not collide and the
      sidecar follows them ([logging_well_formed], [log_files_distinct],
      [delivery_follows_writers]); disk thresholds and job slots are in bounds
      ([store_watermarks], [exec_node_slots]); job proxies get secrets they can read
      ([job_proxy_secrets]) and nodes the socket their container service listens on
      ([cri_endpoint_agrees]).

    ** What is not modelled

    Configurations are not encoded: the YSON text of a record is the work of a library, and the
    script that prepares control groups is a fixed text.  The constructors
    of [Constructors.v] make descriptions of the objects of a component; the components of
    [Master.v], [ServerComponents.v], [AgentComponents.v] and [LogDelivery.v] are records over
    arbitrary servers and objects.  The stateful set controller, the defaults of the API server beyond
    those the laws name, and the mounting of tables are outside.  [ServerImpl.v] keeps of the stateful set what the operator reads back, [ServerPods.v]
    builds the pod specification and shows that the two agree.  The pods of init jobs have
    their command, image, configuration and reason.  The access control lists of the schema and
    the medium quotas come from the specification as they are.  The JSON encoding of ordered
    documents, logging, metrics, generated deep copies, command-line handling and manager
    registration are left out: they are I/O, generated, or do not influence the cluster. *)

From stdpp Require Export base tactics list strings sorting gmap pretty.
From Stdlib Require Export ZArith Lia.

(** ** Notations of the Go subset used by the sources *)

Declare Scope go_scope.
Delimit Scope go_scope with go.

(** Go's [==] and [!=] on comparable values. *)
Notation "x == y" := (bool_decide (x = y)) (at level 70, no associativity) : go_scope.
Notation "x != y" := (negb (bool_decide (x = y))) (at level 70, no associativity) : go_scope.

Open Scope go_scope.

(** Go errors carry a message; [None : option error] is Go's [nil]. *)
Abbreviation error := string (only parsing).

(** [ptr.Deref(p, d)]. *)
Definition Deref {A} (p : option A) (d : A) : A := default d p.

(** ** The state monad of the effectful code

    A Go method that reads and mutates the objects reachable from its receiver
    becomes a function of the world it runs in; a result [(A, error)] becomes a
    value of [A * option error]. *)

Definition go (S A : Type) : Type := S → A * S.

#[global] Instance go_ret {S} : MRet (go S) := λ A x s, (x, s).
#[global] Instance go_bind {S} : MBind (go S) := λ A B f m s, let '(x, s') := m s in f x s'.

Definition gets {S A} (f : S → A) : go S A := λ s, (f s, s).
Definition modify {S} (f : S → S) : go S unit := λ s, (tt, f s).

(** The value a computation returns, and the world it leaves. *)
Definition val_of {S A} (m : go S A) (s : S) : A := (m s).1.
Definition run {S A} (m : go S A) (s : S) : S := (m s).2.

Lemma go_bind_run {S A B} (m : go S A) (f : A → go S B) s :
  (m ≫= f) s = f (val_of m s) (run m s).
Proof. unfold mbind, go_bind, val_of, run. by destruct (m s). Qed.

Lemma go_bind_eq {S A B} (m : go S A) (f : A → go S B) s x s' :
  m s = (x, s') → (m ≫= f) s = f x s'.
Proof. intros H. by rewrite go_bind_run; unfold val_of, run; rewrite H. Qed.

Lemma run_bind {S A B} (m : go S A) (f : A → go S B) s :
  run (m ≫= f) s = run (f (val_of m s)) (run m s).
Proof. unfold run at 1. by rewrite go_bind_run. Qed.

Lemma val_bind {S A B} (m : go S A) (f : A → go S B) s :
  val_of (m ≫= f) s = val_of (f (val_of m s)) (run m s).
Proof. unfold val_of at 1. by rewrite go_bind_run. Qed.

Lemma val_ret {S A} (x : A) (s : S) : val_of (mret x) s = x.
Proof. reflexivity. Qed.

Lemma run_ret {S A} (x : A) (s : S) : run (mret x) s = s.
Proof. reflexivity. Qed.

Lemma val_gets {S A} (f : S → A) s : val_of (gets f) s = f s.
Proof. reflexivity. Qed.

Lemma run_gets {S A} (f : S → A) s : run (gets f) s = s.
Proof. reflexivity. Qed.

Lemma go_eta {S A} (m : go S A) s : m s = (val_of m s, run m s).
Proof. apply surjective_pairing. Qed.

(** Step through a computation. *)
Create Rewrite HintDb go.
#[export] Hint Rewrite @go_bind_run @val_bind @run_bind @val_gets @run_gets @val_ret @run_ret : go.
Ltac go_step := autorewrite with go; cbv beta.

(** A loop over a list for its effects. *)
Fixpoint mapM_unit {S A} (f : A → go S unit) (l : list A) : go S unit :=
  match l with [] => mret tt | x :: l => f x ;; mapM_unit f l end.

(** A computation that keeps an observation of the world. *)
Definition preserves {S O A} (obs : S → O) (m : go S A) : Prop :=
  ∀ s, obs (run m s) = obs s.

Lemma preserves_ret {S O A} (obs : S → O) (x : A) : preserves obs (mret x : go S A).
Proof. done. Qed.

Lemma preserves_gets {S O A} (obs : S → O) (f : S → A) : preserves obs (gets f).
Proof. done. Qed.

Lemma preserves_bind {S O A B} (obs : S → O) (m : go S A) (f : A → go S B) :
  preserves obs m → (∀ x, preserves obs (f x)) → preserves obs (m ≫= f).
Proof. intros Hm Hf s. rewrite run_bind. by rewrite (Hf _ _), (Hm s). Qed.

Lemma preserves_modify {S O} (obs : S → O) (f : S → S) :
  (∀ s, obs (f s) = obs s) → preserves obs (modify f).
Proof. intros H s. apply H. Qed.

Lemma preserves_if {S O A} (obs : S → O) (b : bool) (m1 m2 : go S A) :
  preserves obs m1 → preserves obs m2 → preserves obs (if b then m1 else m2).
Proof. by destruct b. Qed.

Create HintDb go_preserves discriminated.
#[export] Hint Resolve preserves_ret preserves_gets preserves_bind preserves_if : go_preserves.

Lemma preserves_match_option {S O A B} (obs : S → O) (x : option B) (m1 : B → go S A) (m2 : go S A) :
  (∀ e, preserves obs (m1 e)) → preserves obs m2 →
  preserves obs (match x with Some e => m1 e | None => m2 end).
Proof. by destruct x. Qed.

(** A computation built from pieces that keep an observation keeps it: the pieces are
    looked up in [go_preserves], the rest is taken apart. *)
Ltac go_frame :=
  repeat first
    [ progress intros
    | solve [eauto with go_preserves typeclass_instances]
    | apply preserves_ret | apply preserves_gets | apply preserves_bind | apply preserves_if
    | apply preserves_match_option
    | match goal with |- preserves _ (let '(_, _) := ?x in _) => destruct x end
    | match goal with |- preserves _ (match ?x with _ => _ end) => destruct x end ].

(** A computation that keeps a property of the world. *)
Definition keeps {S A} (P : S → Prop) (m : go S A) : Prop := ∀ s, P s → P (run m s).

Lemma keeps_ret {S A} (P : S → Prop) (x : A) : keeps P (mret x : go S A).
Proof. by intros s. Qed.

Lemma keeps_gets {S A} (P : S → Prop) (f : S → A) : keeps P (gets f).
Proof. by intros s. Qed.

Lemma keeps_bind {S A B} (P : S → Prop) (m : go S A) (f : A → go S B) :
  keeps P m → (∀ x, keeps P (f x)) → keeps P (m ≫= f).
Proof. intros Hm Hf s Hs. rewrite run_bind. by apply Hf, Hm. Qed.

Lemma keeps_match_option {S A B} (P : S → Prop) (x : option B) (m1 : B → go S A) (m2 : go S A) :
  (∀ e, keeps P (m1 e)) → keeps P m2 → keeps P (match x with Some e => m1 e | None => m2 end).
Proof. by destruct x. Qed.

Create HintDb go_keeps discriminated.
#[export] Hint Resolve keeps_ret keeps_gets : go_keeps.

Ltac go_keeps :=
  repeat first
    [ progress intros
    | solve [eauto with go_keeps typeclass_instances]
    | apply keeps_ret | apply keeps_gets | apply keeps_bind | apply keeps_match_option
    | match goal with |- keeps _ (let '(_, _) := ?x in _) => destruct x end
    | match goal with |- keeps _ (match ?x with _ => _ end) => destruct x end ].

(** A computation whose result has a property, whatever the world. *)
Definition yields {S A} (P : A → Prop) (m : go S A) : Prop := ∀ s, P (val_of m s).

Lemma yields_ret {S A} (P : A → Prop) (x : A) : P x → yields P (mret x : go S A).
Proof. by intros H s. Qed.

Lemma yields_bind {S A B} (P : B → Prop) (m : go S A) (f : A → go S B) :
  (∀ x, yields P (f x)) → yields P (m ≫= f).
Proof. intros H s. rewrite val_bind. apply H. Qed.

(** Go through the branches of a computation to its results. *)
Ltac go_yields :=
  repeat first
    [ progress intros
    | apply yields_ret; done
    | apply yields_bind
    | match goal with |- yields _ (let '(_, _) := ?x in _) => destruct x end
    | match goal with |- yields _ (match ?x with _ => _ end) => destruct x end ].

(** ** Fixed-width integers

    A Go [int32] is a [Z]; every arithmetic result is wrapped to 32 bits in two's
    complement. *)

Definition wrap_signed (w z : Z) : Z := (z + 2 ^ (w - 1)) mod 2 ^ w - 2 ^ (w - 1).

Definition i32 (z : Z) : Z := wrap_signed 32 z.

Definition in_i32 (z : Z) : Prop := (- 2 ^ 31 ≤ z < 2 ^ 31)%Z.

Lemma i32_id z : in_i32 z → i32 z = z.
Proof. unfold in_i32, i32, wrap_signed. intros H. rewrite Z.mod_small; lia. Qed.

Lemma i32_range z : in_i32 (i32 z).
Proof.
  unfold in_i32, i32, wrap_signed.
  pose proof (Z.mod_pos_bound (z + 2 ^ (32 - 1)) (2 ^ 32)). lia.
Qed.

(** ** Strings *)

(** [strings.Join]. *)
Fixpoint strings_Join (l : list string) (sep : string) : string :=
  match l with
  | [] => ""
  | [x] => x
  | x :: rest => x +:+ sep +:+ strings_Join rest sep
  end.

(** [%v] of a slice of strings. *)
Definition fmt_strings (l : list string) : string := "[" +:+ strings_Join l " " +:+ "]".

(** [%d] and [%v] of an integer. *)
Definition fmt_d (z : Z) : string := pretty z.

(** [%q] of a string that needs no escape: names, states and label values. *)
Definition fmt_q (s : string) : string :=
  String (Ascii.ascii_of_nat 34) (s +:+ String (Ascii.ascii_of_nat 34) "").

(** A line feed. *)
Definition newline : string := String (Ascii.ascii_of_nat 10) "".

Lemma string_app_cons a s t : String a s +:+ t = String a (s +:+ t).
Proof. reflexivity. Qed.

Lemma string_app_nil_r s : s +:+ "" = s.
Proof. induction s as [|a s IH]; [done|]. by rewrite string_app_cons, IH. Qed.

Lemma string_app_assoc s t u : (s +:+ t) +:+ u = s +:+ (t +:+ u).
Proof. induction s as [|a s IH]; [done|]. by rewrite !string_app_cons, IH. Qed.

Lemma string_length_app s t : String.length (s +:+ t) = (String.length s + String.length t)%nat.
Proof. induction s as [|a s IH]; [done|]. rewrite string_app_cons. cbn. by rewrite IH. Qed.

Lemma string_app_inj s1 s2 t1 t2 :
  String.length s1 = String.length s2 → s1 +:+ t1 = s2 +:+ t2 → s1 = s2 ∧ t1 = t2.
Proof.
  revert s2. induction s1 as [|a s1 IH]; intros [|b s2] Hlen Heq; try done.
  rewrite !string_app_cons in Heq. cbn in *. simplify_eq. destruct (IH s2) as [-> ->]; auto.
Qed.

Lemma string_app_inj_l s t u : s +:+ t = s +:+ u → t = u.
Proof. intros H. by apply string_app_inj in H as [_ ->]. Qed.

Lemma string_app_inj_r s1 s2 t : s1 +:+ t = s2 +:+ t → s1 = s2.
Proof.
  intros H. assert (String.length s1 = String.length s2) as Hl.
  { pose proof (f_equal String.length H) as Hl. rewrite !string_length_app in Hl. lia. }
  by apply (string_app_inj s1 s2 t t Hl) in H as [-> _].
Qed.

(** ** Lists *)

(** [slices.ContainsFunc]. *)
Definition ContainsFunc {A} (l : list A) (f : A → bool) : bool := existsb f l.

Lemma ContainsFunc_true {A} (l : list A) f :
  ContainsFunc l f = true ↔ ∃ x, x ∈ l ∧ f x = true.
Proof.
  unfold ContainsFunc. rewrite existsb_exists.
  split; intros (x & Hx & Hf); exists x; by rewrite list_elem_of_In in *.
Qed.

Lemma ContainsFunc_false {A} (l : list A) f :
  ContainsFunc l f = false ↔ ∀ x, x ∈ l → f x = false.
Proof.
  rewrite <- not_true_iff_false, ContainsFunc_true. split.
  - intros H x Hx. destruct (f x) eqn:E; [|done]. destruct H. eauto.
  - intros H (x & Hx & Hf). rewrite (H x Hx) in Hf. done.
Qed.

(** *** [slices.SortStableFunc]

    The three-way comparison is an integer, as in the [cmp] package; the stable
    sort is specified by insertion: each element goes after every element that
    does not compare greater. *)

Fixpoint insert_stable {A} (cmp : A → A → Z) (x : A) (l : list A) : list A :=
  match l with
  | [] => [x]
  | y :: l' => if (cmp x y <=? 0)%Z then x :: l else y :: insert_stable cmp x l'
  end.

Fixpoint SortStableFunc {A} (cmp : A → A → Z) (l : list A) : list A :=
  match l with
  | [] => []
  | x :: l' => insert_stable cmp x (SortStableFunc cmp l')
  end.

Lemma insert_stable_Permutation {A} (cmp : A → A → Z) x l :
  insert_stable cmp x l ≡ₚ x :: l.
Proof.
  induction l as [|y l IH]; [done|]. cbn. destruct (_ <=? _)%Z; [done|].
  rewrite IH. constructor.
Qed.

Lemma SortStableFunc_Permutation {A} (cmp : A → A → Z) l : SortStableFunc cmp l ≡ₚ l.
Proof.
  induction l as [|x l IH]; [done|]. cbn. by rewrite insert_stable_Permutation, IH.
Qed.

(** A three-way comparison that orders: sign-antisymmetric and transitive. *)
Record cmp_ok {A} (cmp : A → A → Z) : Prop := {
  cmp_total : ∀ x y, (0 < cmp x y)%Z → (cmp y x ≤ 0)%Z;
  cmp_trans : ∀ x y z, (cmp x y ≤ 0)%Z → (cmp y z ≤ 0)%Z → (cmp x z ≤ 0)%Z;
}.

Section stable_sort.
Context {A : Type} (cmp : A → A → Z) (Hcmp : cmp_ok cmp).

Let R (x y : A) : Prop := (cmp x y ≤ 0)%Z.

Lemma insert_stable_sorted x l :
  StronglySorted R l → StronglySorted R (insert_stable cmp x l).
Proof.
  induction 1 as [|y l Hl IH Hy]; cbn; [by repeat constructor|].
  destruct (Z.leb_spec (cmp x y) 0) as [Hle|Hlt].
  - constructor; [by constructor|]. constructor; [done|].
    eapply Forall_impl; [exact Hy|]. intros z. by apply (cmp_trans cmp Hcmp).
  - constructor; [done|]. rewrite insert_stable_Permutation. constructor; [|done].
    by apply (cmp_total cmp Hcmp).
Qed.

Lemma SortStableFunc_sorted l : StronglySorted R (SortStableFunc cmp l).
Proof. induction l as [|x l IH]; cbn; [constructor|]. by apply insert_stable_sorted. Qed.

End stable_sort.

(** ** Tactics *)

(** Case analysis on every [bool_decide] and boolean connective in sight. *)
Ltac bool_cases :=
  repeat match goal with
  | |- context [bool_decide ?P] => case_bool_decide
  | H : context [bool_decide ?P] |- _ => case_bool_decide
  end.

(** Decide equality on an enumeration. *)
Ltac enum_cases := intros; repeat case_match; simplify_eq; try done.
