(* ===== verification/Ordered.v ===== *)
(** * Ordered YSON values (src/pkg/ypatch/ordered.go)

    Values whose maps remember the order of their keys, their encoding as YSON and the
    decoding of YSON into an existing value, which merges: this is how configuration
    overrides are applied.  The YSON reader is a parameter; what it will return is the list
    of tokens of the document, and a decoder reads a value from the front of it.

    Decoding is a recursion over the document: the Go functions call each other without a
    bound, here each call takes one unit of fuel, and the theorems show that some amount
    is enough for a document whatever comes after it.  After an error the value being
    decoded is dropped, as every caller does. *)

From S2P Require Import Prelude.

(** ** Values *)

(** [OrderedMap]: a Go map, possibly nil, with the list of its keys. *)
Record OrderedMap (A : Type) := mkOrderedMap {
  omap_Values : option (gmap string A);
  omap_Keys : list string;
}.
Arguments mkOrderedMap {A} _ _.
Arguments omap_Values {A} _.
Arguments omap_Keys {A} _.

(** The dynamic types of an [any] the package handles; [VMap] is [map[string]any]. *)
Inductive Any : Type :=
  | VNil
  | VBool (b : bool)
  | VString (s : string)
  | VInt64 (z : Z)
  | VUint64 (z : Z)
  | VFloat64 (bits : Z)
  | VList (l : list Any)
  | VMap (m : gmap string Any)
  | VOrderedMap (m : OrderedMap Any)
  | VOrderedValue (Attributes : OrderedMap Any) (Value : Any).

(** ** The operations of an ordered map *)

Section ordered_map.
Context {A : Type}.

Definition OrderedMapZero : OrderedMap A := mkOrderedMap None [].

(** The Go map, nil being empty for reading. *)
Definition omap_map (m : OrderedMap A) : gmap string A := default ∅ (omap_Values m).

Definition omap_Get (m : OrderedMap A) (key : string) : option A := omap_map m !! key.

Definition omap_Set (key : string) (value : A) (m : OrderedMap A) : OrderedMap A :=
  let values := omap_map m in
  let keys := match values !! key with Some _ => omap_Keys m | None => omap_Keys m ++ [key] end in
  mkOrderedMap (Some (<[key := value]> values)) keys.

(** [slices.Index] and [slices.Delete] of one position. *)
Fixpoint slice_remove (key : string) (keys : list string) : list string :=
  match keys with
  | [] => []
  | k :: rest => if k == key then rest else k :: slice_remove key rest
  end.

Definition omap_Delete (key : string) (m : OrderedMap A) : option A * OrderedMap A :=
  match omap_map m !! key with
  | Some value => (Some value, mkOrderedMap (Some (delete key (omap_map m))) (slice_remove key (omap_Keys m)))
  | None => (None, m)
  end.

End ordered_map.

Definition omap_GetValue (m : OrderedMap Any) (key : string) : option Any :=
  match omap_map m !! key with
  | Some (VOrderedValue _ value) => Some value
  | other => other
  end.

Definition omap_GetMap (m : OrderedMap Any) (key : string) : option (OrderedMap Any) :=
  match omap_map m !! key with
  | Some (VOrderedMap value) => Some value
  | _ => None
  end.

(** [slices.Sorted] of strings. *)
Definition string_compare (a b : string) : Z :=
  match String.compare a b with Lt => -1 | Eq => 0 | Gt => 1 end.

Definition sorted_keys {A} (m : gmap string A) : list string :=
  SortStableFunc string_compare (map_to_list m).*1.

Definition omap_Merge (x : gmap string Any) (m : OrderedMap Any) : OrderedMap Any :=
  foldl (λ m key, omap_Set key (default VNil (x !! key)) m) m (sorted_keys x).

(** ** YSON documents *)

Inductive literal : Type :=
  | TypeEntity | TypeBool (b : bool) | TypeString (s : string)
  | TypeInt64 (z : Z) | TypeUint64 (z : Z) | TypeFloat64 (bits : Z).

Inductive token : Type :=
  | TBeginMap | TEndMap | TBeginList | TEndList | TBeginAttrs | TEndAttrs
  | TKey (k : string) | TLiteral (l : literal).

(** The events of the YSON reader. *)
Inductive YsonEvent : Type :=
  | EventBeginMap | EventEndMap | EventBeginList | EventEndList
  | EventBeginAttrs | EventEndAttrs | EventKey | EventLiteral | EventEOF.

#[global] Instance YsonEvent_eq_dec : EqDecision YsonEvent.
Proof. solve_decision. Defined.

Definition event_of (t : token) : YsonEvent :=
  match t with
  | TBeginMap => EventBeginMap | TEndMap => EventEndMap
  | TBeginList => EventBeginList | TEndList => EventEndList
  | TBeginAttrs => EventBeginAttrs | TEndAttrs => EventEndAttrs
  | TKey _ => EventKey | TLiteral _ => EventLiteral
  end.

(** [yson.Reader]: [r_String] is the last key read; [r_Literal] is [Type] with the accessor
    of that type. *)
Class YsonReader (R : Type) := {
  r_Next : go R (error + YsonEvent);
  r_Undo : YsonEvent → go R unit;
  r_NextKey : go R (error + bool);
  r_NextListItem : go R (error + bool);
  r_String : R → string;
  r_Literal : R → literal;
}.

(** [pending r] are the tokens the reader has not returned yet. *)
Class YsonReaderLaws (R : Type) `{!YsonReader R} (pending : R → list token) : Prop := {
  next_token : ∀ r t ts, pending r = t :: ts →
    ∃ r', r_Next r = (inr (event_of t), r') ∧ pending r' = ts ∧
      match t with TLiteral l => r_Literal r' = l | _ => True end;
  undo_next : ∀ r e, val_of r_Next r = inr e → pending (run (r_Undo e) (run r_Next r)) = pending r;
  next_key : ∀ r k ts, pending r = TKey k :: ts →
    ∃ r', r_NextKey r = (inr true, r') ∧ pending r' = ts ∧ r_String r' = k;
  next_key_end : ∀ r t ts, pending r = t :: ts → t = TEndMap ∨ t = TEndAttrs →
    ∃ r', r_NextKey r = (inr false, r') ∧ pending r' = t :: ts;
  next_item : ∀ r t ts, pending r = t :: ts → t ≠ TEndList →
    ∃ r', r_NextListItem r = (inr true, r') ∧ pending r' = t :: ts;
  next_item_end : ∀ r ts, pending r = TEndList :: ts →
    ∃ r', r_NextListItem r = (inr false, r') ∧ pending r' = TEndList :: ts;
}.

(** *** Encoding

    The calls [MarshalYSON] makes on the writer; [w.Any] of an ordered value or map calls
    [MarshalYSON] again, of a list or a scalar it writes the value itself, of a Go map its
    entries in an order that is not specified. *)

Definition marshal_body (keys : list string) (values : gmap string (list token)) : list token :=
  concat (map (λ key, TKey key :: default [TLiteral TypeEntity] (values !! key)) keys).

Fixpoint MarshalYSON (v : Any) : list token :=
  match v with
  | VNil => [TLiteral TypeEntity]
  | VBool b => [TLiteral (TypeBool b)]
  | VString s => [TLiteral (TypeString s)]
  | VInt64 z => [TLiteral (TypeInt64 z)]
  | VUint64 z => [TLiteral (TypeUint64 z)]
  | VFloat64 z => [TLiteral (TypeFloat64 z)]
  | VList l => TBeginList :: concat (map MarshalYSON l) ++ [TEndList]
  | VMap m => TBeginMap :: marshal_body (map_to_list m).*1 (MarshalYSON <$> m) ++ [TEndMap]
  | VOrderedMap m =>
      TBeginMap :: match omap_Values m with
                   | Some values => marshal_body (omap_Keys m) (MarshalYSON <$> values)
                   | None => marshal_body (omap_Keys m) ∅
                   end ++ [TEndMap]
  | VOrderedValue a value =>
      match omap_Values a with
      | Some values => TBeginAttrs :: marshal_body (omap_Keys a) (MarshalYSON <$> values) ++ [TEndAttrs]
      | None => []
      end ++ MarshalYSON value
  end.

(** *** Decoding *)

Section decode.
Context {R : Type} `{YsonReader R}.

Definition event_string (e : YsonEvent) : string :=
  match e with
  | EventBeginMap => "begin map" | EventEndMap => "end map" | EventBeginList => "begin list"
  | EventEndList => "end list" | EventBeginAttrs => "begin attrs" | EventEndAttrs => "end attrs"
  | EventKey => "key" | EventLiteral => "literal" | EventEOF => "eof"
  end.

Definition expectEvent (expected : YsonEvent) : go R (option error) :=
  event ← r_Next;
  mret (match event with
        | inl err => Some err
        | inr event => if event != expected
                       then Some ("expected YSON event " +:+ event_string expected +:+ ", got " +:+ event_string event)
                       else None
        end).

Definition peekEvent : go R YsonEvent :=
  event ← r_Next;
  match event with
  | inl _ => mret EventEOF
  | inr event => r_Undo event ;; mret event
  end.

Definition literal_value (l : literal) : Any :=
  match l with
  | TypeEntity => VNil | TypeBool b => VBool b | TypeString s => VString s
  | TypeInt64 z => VInt64 z | TypeUint64 z => VUint64 z | TypeFloat64 z => VFloat64 z
  end.

(** Continue after a result that may be an error. *)
Definition bind_ok {A B} (m : go R (error + A)) (k : A → go R (error + B)) : go R (error + B) :=
  x ← m; match x with inl err => mret (inl err) | inr x => k x end.

Definition expect {A} (expected : YsonEvent) (x : A) : go R (error + A) :=
  err ← expectEvent expected; mret (match err with Some err => inl err | None => inr x end).

Definition out_of_fuel {A} : go R (error + A) := mret (inl "out of fuel").

Fixpoint decodeAny (fuel : nat) : go R (error + Any) :=
  match fuel with O => out_of_fuel | S fuel =>
    bind_ok r_Next (λ event,
    match event with
    | EventBeginAttrs =>
        r_Undo event ;;
        bind_ok (UnmarshalYSON_value fuel OrderedMapZero VNil) (λ '(a, v), mret (inr (VOrderedValue a v)))
    | EventBeginMap =>
        bind_ok (unmarshalBody fuel OrderedMapZero) (λ m, expect EventEndMap (VOrderedMap m))
    | EventBeginList =>
        bind_ok (decodeItems fuel []) (λ l, expect EventEndList (VList l))
    | EventLiteral => r ← gets id; mret (inr (literal_value (r_Literal r)))
    | _ => mret (inl ("unexpected YSON event " +:+ event_string event))
    end)
  end

(** The loop over the items of a list. *)
with decodeItems (fuel : nat) (list : list Any) : go R (error + (Datatypes.list Any)) :=
  match fuel with O => out_of_fuel | S fuel =>
    bind_ok r_NextListItem (λ hasItem,
    if hasItem : bool
    then bind_ok (decodeAny fuel) (λ item, decodeItems fuel (list ++ [item]))
    else mret (inr list))
  end

with decodeInto (fuel : nat) (value : Any) : go R (error + Any) :=
  match fuel with O => out_of_fuel | S fuel =>
    match value with
    | VOrderedValue a v =>
        bind_ok (UnmarshalYSON_value fuel a v) (λ '(a, v), mret (inr (VOrderedValue a v)))
    | VOrderedMap m =>
        event ← peekEvent;
        match event with
        | EventBeginMap => bind_ok (UnmarshalYSON_map fuel m) (λ m, mret (inr (VOrderedMap m)))
        | EventBeginAttrs =>
            bind_ok (UnmarshalYSON_value fuel OrderedMapZero value) (λ '(a, v), mret (inr (VOrderedValue a v)))
        | _ => decodeAny fuel
        end
    | _ => decodeAny fuel
    end
  end

with UnmarshalYSON_map (fuel : nat) (m : OrderedMap Any) : go R (error + OrderedMap Any) :=
  match fuel with O => out_of_fuel | S fuel =>
    err ← expectEvent EventBeginMap;
    match err with
    | Some err => mret (inl err)
    | None => bind_ok (unmarshalBody fuel m) (λ m, expect EventEndMap m)
    end
  end

with unmarshalBody (fuel : nat) (m : OrderedMap Any) : go R (error + OrderedMap Any) :=
  match fuel with O => out_of_fuel | S fuel =>
    bind_ok r_NextKey (λ hasKey,
    if negb hasKey then mret (inr m)
    else
      key ← gets r_String;
      bind_ok (decodeInto fuel (default VNil (omap_Get m key))) (λ value,
      unmarshalBody fuel (omap_Set key value m)))
  end

(** The attributes and the value of an [OrderedValue]. *)
with UnmarshalYSON_value (fuel : nat) (a : OrderedMap Any) (v : Any) : go R (error + (OrderedMap Any * Any)) :=
  match fuel with O => out_of_fuel | S fuel =>
    bind_ok r_Next (λ event,
    bind_ok
      (if event == EventBeginAttrs then
         let a := mkOrderedMap (Some (omap_map a)) (omap_Keys a) in
         bind_ok (unmarshalBody fuel a) (λ a, expect EventEndAttrs a)
       else r_Undo event ;; mret (inr a)) (λ a,
    bind_ok (decodeInto fuel v) (λ v, mret (inr (a, v)))))
  end.

End decode.

(** ** The invariant of an ordered map: the keys are those of the Go map, each once *)

Section ordered_map_facts.
Context {A : Type}.
Implicit Types (m : OrderedMap A).

Definition keys_ok m : Prop :=
  NoDup (omap_Keys m) ∧ ∀ k, k ∈ omap_Keys m ↔ is_Some (omap_map m !! k).

Lemma keys_ok_zero : keys_ok (OrderedMapZero (A:=A)).
Proof.
  split; [constructor|]. intros k. cbn. rewrite lookup_empty. split; [by intros ?%elem_of_nil|by intros []].
Qed.

Lemma omap_Get_zero k : omap_Get (OrderedMapZero (A:=A)) k = None.
Proof. apply lookup_empty. Qed.

Lemma omap_Set_map key value m : omap_map (omap_Set key value m) = <[key := value]> (omap_map m).
Proof. reflexivity. Qed.

Lemma omap_Set_Keys key value m :
  omap_Keys (omap_Set key value m) =
    if decide (is_Some (omap_map m !! key)) then omap_Keys m else omap_Keys m ++ [key].
Proof.
  unfold omap_Set. cbn. destruct (omap_map m !! key) as [v|] eqn:E.
  - by rewrite decide_True by eauto.
  - by rewrite decide_False by (intros []; done).
Qed.

Lemma omap_Set_ok key value m : keys_ok m → keys_ok (omap_Set key value m).
Proof.
  intros [Hn Hk]. unfold keys_ok. rewrite omap_Set_map, omap_Set_Keys.
  assert (∀ k, is_Some (<[key := value]> (omap_map m) !! k) ↔ k = key ∨ is_Some (omap_map m !! k)) as Hi.
  { intros k. rewrite lookup_insert_is_Some'. naive_solver. }
  setoid_rewrite Hi. destruct (decide (is_Some (omap_map m !! key))) as [Hd|Hd].
  - split; [done|]. intros k. rewrite Hk. naive_solver.
  - split.
    + apply NoDup_app. split_and!; [done| |apply NoDup_singleton].
      intros k Hin ->%list_elem_of_singleton. by apply Hd, Hk.
    + intros k. rewrite elem_of_app, list_elem_of_singleton, Hk. naive_solver.
Qed.

Lemma slice_remove_In key keys k : NoDup keys → k ∈ slice_remove key keys ↔ k ∈ keys ∧ k ≠ key.
Proof.
  induction 1 as [|x keys Hx Hn IH]; cbn; [by rewrite elem_of_nil; naive_solver|].
  destruct (bool_decide_reflect (x = key)) as [->|Hne].
  - rewrite elem_of_cons. split; [|naive_solver]. intros Hk. split; [by right|]. by intros ->.
  - rewrite !elem_of_cons, IH. naive_solver.
Qed.

Lemma slice_remove_NoDup key keys : NoDup keys → NoDup (slice_remove key keys).
Proof.
  induction 1 as [|x keys Hx Hn IH]; cbn; [constructor|]. case_bool_decide; [done|].
  constructor; [|done]. rewrite slice_remove_In by done. naive_solver.
Qed.

Lemma omap_Delete_ok key m : keys_ok m → keys_ok (omap_Delete key m).2.
Proof.
  intros [Hn Hk]. unfold omap_Delete. destruct (omap_map m !! key) as [v|] eqn:E; [|done]. split; cbn.
  - by apply slice_remove_NoDup.
  - intros k. rewrite slice_remove_In, Hk by done. unfold omap_map. cbn.
    rewrite lookup_delete_is_Some. naive_solver.
Qed.

(** Setting a list of keys in turn, each to a value that may depend on the one it had. *)
Definition set_all (f : string → option A → A) (keys : list string) (m : OrderedMap A) : OrderedMap A :=
  foldl (λ m key, omap_Set key (f key (omap_Get m key)) m) m keys.

Lemma set_all_ok f keys m : keys_ok m → keys_ok (set_all f keys m).
Proof.
  revert m. induction keys as [|k keys IH]; intros m Hm; [done|]. by apply IH, omap_Set_ok.
Qed.

Lemma set_all_lookup f keys m k :
  NoDup keys →
  omap_Get (set_all f keys m) k = if decide (k ∈ keys) then Some (f k (omap_Get m k)) else omap_Get m k.
Proof.
  intros Hn. revert m. induction Hn as [|x keys Hx Hn IH]; intros m.
  { by rewrite decide_False by apply not_elem_of_nil. }
  cbn [set_all foldl]. fold (set_all f keys (omap_Set x (f x (omap_Get m x)) m)). rewrite IH.
  assert (omap_Get (omap_Set x (f x (omap_Get m x)) m) k =
          <[x := f x (omap_Get m x)]> (omap_map m) !! k) as -> by done.
  destruct (decide (k ∈ keys)) as [Hk|Hk].
  - rewrite decide_True by by right. rewrite lookup_insert_ne by (by intros ->). done.
  - destruct (decide (k = x)) as [->|Hne].
    + rewrite decide_True by left. by rewrite lookup_insert_eq.
    + rewrite decide_False by (by intros [->|?]%elem_of_cons). by rewrite lookup_insert_ne.
Qed.

Lemma list_filter_ext (P Q : string → Prop) `{!∀ x, Decision (P x), !∀ x, Decision (Q x)} (l : list string) :
  (∀ x, x ∈ l → P x ↔ Q x) → filter P l = filter Q l.
Proof.
  induction l as [|x l IH]; intros HPQ; [done|]. rewrite !filter_cons, IH by (intros y Hy; apply HPQ; by right).
  assert (P x ↔ Q x) as Hx by (apply HPQ; left).
  destruct (decide (P x)) as [Hp|Hp], (decide (Q x)) as [Hq|Hq]; tauto.
Qed.

(** Keys that are there keep their position, new ones follow in order. *)
Lemma set_all_Keys f keys m :
  NoDup keys →
  omap_Keys (set_all f keys m) = omap_Keys m ++ filter (λ k, omap_Get m k = None) keys.
Proof.
  intros Hn. revert m. induction Hn as [|x keys Hx Hn IH]; intros m; [by rewrite app_nil_r|].
  cbn [set_all foldl]. fold (set_all f keys (omap_Set x (f x (omap_Get m x)) m)). rewrite IH, omap_Set_Keys, filter_cons.
  assert (filter (λ k, omap_Get (omap_Set x (f x (omap_Get m x)) m) k = None) keys =
          filter (λ k, omap_Get m k = None) keys) as ->.
  { apply list_filter_ext. intros k Hk. unfold omap_Get. rewrite omap_Set_map, lookup_insert_ne; [done|].
    by intros ->. }
  change (omap_Get m x) with (omap_map m !! x).
  destruct (decide (is_Some (omap_map m !! x))) as [[v Hv]|Hd], (decide (omap_map m !! x = None)) as [E|E].
  - by rewrite Hv in E.
  - done.
  - by rewrite <- app_assoc.
  - by apply not_eq_None_Some in E.
Qed.

Lemma set_all_Values f keys m :
  omap_Values (set_all f keys m) = None ↔ keys = [] ∧ omap_Values m = None.
Proof.
  destruct keys as [|k keys]; cbn; [naive_solver|]. split; [|by intros []]. intros H. exfalso.
  assert (∀ ks m', omap_Values m' ≠ None → omap_Values (set_all f ks m') ≠ None) as Hne.
  { induction ks as [|k' ks IH]; intros m' Hm'; [done|]. by apply IH. }
  by eapply Hne; [|exact H].
Qed.

End ordered_map_facts.

(** ** Overlaying a value

    What decoding a document into an existing value is meant to do: maps are merged key by
    key, attributes too, and anything else is replaced, except that the attributes of a
    value stay when the document gives none. *)

Definition overlay_keys (keys : list string) (f : gmap string (Any → Any)) : OrderedMap Any → OrderedMap Any :=
  set_all (λ key old, match f !! key with Some g => g (default VNil old) | None => VNil end) keys.

Fixpoint overlay (new : Any) : Any → Any :=
  fix into (old : Any) : Any :=
    match old, new with
    | VOrderedValue a0 v0, VOrderedValue a v =>
        VOrderedValue
          (overlay_keys (omap_Keys a)
             (match omap_Values a with Some values => overlay <$> values | None => ∅ end)
             (mkOrderedMap (Some (omap_map a0)) (omap_Keys a0)))
          (overlay v v0)
    | VOrderedValue a0 v0, _ => VOrderedValue a0 (into v0)
    | VOrderedMap _, VOrderedValue a v => VOrderedValue a (overlay v old)
    | VOrderedMap m0, VOrderedMap m =>
        VOrderedMap (overlay_keys (omap_Keys m)
          (match omap_Values m with Some values => overlay <$> values | None => ∅ end) m0)
    | _, _ => new
    end.

(** Values a document can denote: lists, maps that are nil exactly when they are empty and
    attributes that are never nil, with consistent keys throughout. *)
Inductive canonical : Any → Prop :=
  | canon_nil : canonical VNil
  | canon_bool b : canonical (VBool b)
  | canon_string s : canonical (VString s)
  | canon_int z : canonical (VInt64 z)
  | canon_uint z : canonical (VUint64 z)
  | canon_float z : canonical (VFloat64 z)
  | canon_list l : (∀ v, v ∈ l → canonical v) → canonical (VList l)
  | canon_map m :
      keys_ok m → (omap_Values m = None ↔ omap_Keys m = []) →
      (∀ k v, omap_Get m k = Some v → canonical v) → canonical (VOrderedMap m)
  | canon_value a v :
      keys_ok a → is_Some (omap_Values a) →
      (∀ k w, omap_Get a k = Some w → canonical w) → canonical v → canonical (VOrderedValue a v).

Lemma overlay_nil new : overlay new VNil = new.
Proof. by destruct new. Qed.

Section decoding.
Context {R : Type} `{YR : YsonReader R} (pending : R → list token) `{YL : !YsonReaderLaws R pending}.

(** With enough fuel, [m] reads exactly [ts] and returns [x], whatever follows. *)
Definition decodes {A} (m : nat → go R (error + A)) (x : A) (ts : list token) : Prop :=
  ∃ n, ∀ fuel, n ≤ fuel → ∀ r rest, pending r = ts ++ rest →
    ∃ r', m fuel r = (inr x, r') ∧ pending r' = rest.

Lemma bind_ok_step {A B} (m : go R (error + A)) (k : A → go R (error + B)) r x r' :
  m r = (inr x, r') → bind_ok m k r = k x r'.
Proof. intros Hm. unfold bind_ok. by rewrite (go_bind_eq _ _ _ _ _ Hm). Qed.

Lemma expectEvent_ok r t ts :
  pending r = t :: ts → ∃ r', expectEvent (event_of t) r = (None, r') ∧ pending r' = ts.
Proof.
  intros Hr. destruct (next_token r t ts Hr) as (r' & Hn & Hp & _). exists r'. split; [|done].
  unfold expectEvent. rewrite (go_bind_eq _ _ _ _ _ Hn). cbn. by rewrite bool_decide_true.
Qed.

Lemma expect_ok {A} (x : A) r t ts :
  pending r = t :: ts → ∃ r', expect (event_of t) x r = (inr x, r') ∧ pending r' = ts.
Proof.
  intros Hr. destruct (expectEvent_ok r t ts Hr) as (r' & He & Hp). exists r'. split; [|done].
  unfold expect. by rewrite (go_bind_eq _ _ _ _ _ He).
Qed.

Lemma peekEvent_ok r t ts :
  pending r = t :: ts → ∃ r', peekEvent r = (event_of t, r') ∧ pending r' = t :: ts.
Proof.
  intros Hr. destruct (next_token r t ts Hr) as (r1 & Hn & Hp & _).
  pose proof (undo_next r (event_of t)) as Hu. unfold val_of, run in Hu. rewrite Hn in Hu. cbn in Hu.
  exists (r_Undo (event_of t) r1).2. rewrite <- Hr, <- Hu by done. split; [|done].
  unfold peekEvent. rewrite (go_bind_eq _ _ _ _ _ Hn), go_bind_run. done.
Qed.

(** Reading the next event and putting it back. *)
Lemma next_undo_ok r t ts :
  pending r = t :: ts →
  ∃ r1 r2, r_Next r = (inr (event_of t), r1) ∧ r_Undo (event_of t) r1 = (tt, r2) ∧ pending r2 = t :: ts.
Proof.
  intros Hr. destruct (next_token r t ts Hr) as (r1 & Hn & Hp & _).
  pose proof (undo_next r (event_of t)) as Hu. unfold val_of, run in Hu. rewrite Hn in Hu. cbn in Hu.
  exists r1, (r_Undo (event_of t) r1).2. split_and!; [done| |by rewrite Hu by done].
  by destruct (r_Undo (event_of t) r1) as [[] r2].
Qed.

(** *** Maps *)

(** The encoder and the overlay of the values of a map, by key. *)
Definition marshal_values (m : OrderedMap Any) : gmap string (list token) := MarshalYSON <$> omap_map m.
Definition overlay_values (m : OrderedMap Any) : gmap string (Any → Any) := overlay <$> omap_map m.

Lemma marshal_map m :
  MarshalYSON (VOrderedMap m) = TBeginMap :: marshal_body (omap_Keys m) (marshal_values m) ++ [TEndMap].
Proof. unfold marshal_values, omap_map. cbn. destruct (omap_Values m); cbn; [done|]. by rewrite fmap_empty. Qed.

Lemma marshal_value a v :
  is_Some (omap_Values a) →
  MarshalYSON (VOrderedValue a v) =
    TBeginAttrs :: marshal_body (omap_Keys a) (marshal_values a) ++ TEndAttrs :: MarshalYSON v.
Proof.
  intros [values Hv]. unfold marshal_values, omap_map. cbn. rewrite Hv. cbn. by rewrite <- app_assoc.
Qed.

Lemma overlay_values_eq m :
  overlay_values m = match omap_Values m with Some values => overlay <$> values | None => ∅ end.
Proof. unfold overlay_values, omap_map. destruct (omap_Values m); cbn; [done|]. by rewrite fmap_empty. Qed.

Lemma overlay_fresh m (m0 : OrderedMap Any) :
  keys_ok m → omap_Keys m0 = [] → omap_map m0 = ∅ →
  (omap_Values m = None ↔ omap_Keys m = [] ∧ omap_Values m0 = None) →
  overlay_keys (omap_Keys m) (overlay_values m) m0 = m.
Proof.
  intros [Hn Hk] Hk0 Hm0 Hnone. set (m' := overlay_keys _ _ _).
  assert (∀ k, omap_Get m0 k = None) as Hget by (intros k; unfold omap_Get; by rewrite Hm0).
  assert (omap_Keys m' = omap_Keys m) as HK.
  { unfold m', overlay_keys. rewrite set_all_Keys, Hk0 by done. cbn.
    rewrite (list_filter_ext _ (λ _, True)) by (by intros k _; rewrite Hget).
    clear. induction (omap_Keys m) as [|k l IH]; [done|]. rewrite filter_cons_True by done. by rewrite IH. }
  assert (omap_map m' = omap_map m) as HM.
  { apply map_eq. intros k. change (omap_Get m' k = omap_Get m k). unfold m', overlay_keys.
    rewrite set_all_lookup, Hget by done. unfold overlay_values. rewrite lookup_fmap.
    unfold omap_Get. destruct (decide (k ∈ omap_Keys m)) as [Hin|Hin].
    - apply Hk in Hin as [v Hv]. rewrite Hv. cbn. by rewrite overlay_nil.
    - rewrite Hk, eq_None_not_Some in *. by apply eq_None_not_Some in Hin. }
  assert (omap_Values m' = None ↔ omap_Values m = None) as HV.
  { unfold m', overlay_keys. rewrite set_all_Values. symmetry. exact Hnone. }
  destruct m' as [v' k'], m as [v k]. cbn in HK. subst k'. f_equal.
  unfold omap_map in HM. cbn in HM, HV. destruct v' as [v'|], v as [v|]; cbn in HM; try done.
  - by rewrite HM.
  - by destruct HV as [_ HV]; specialize (HV eq_refl).
  - by destruct HV as [HV _]; specialize (HV eq_refl).
Qed.

Lemma decodes_body keys toks (g : gmap string (Any → Any)) :
  (∀ k, k ∈ keys → ∃ ts gk, toks !! k = Some ts ∧ g !! k = Some gk ∧
     ∀ old, decodes (λ f, decodeInto f old) (gk old) ts) →
  ∀ m0, ∃ n, ∀ fuel, n ≤ fuel → ∀ r t rest, t = TEndMap ∨ t = TEndAttrs →
    pending r = marshal_body keys toks ++ t :: rest →
    ∃ r', unmarshalBody fuel m0 r = (inr (overlay_keys keys g m0), r') ∧ pending r' = t :: rest.
Proof.
  induction keys as [|k keys IH]; intros Hall m0.
  - exists 1. intros [|fuel] Hf r t rest Ht Hr; [lia|].
    destruct (next_key_end r t rest Hr Ht) as (r' & Hn & Hp). exists r'. split; [|done].
    cbn [unmarshalBody]. by rewrite (bind_ok_step _ _ _ _ _ Hn).
  - destruct (Hall k) as (ts & gk & Hts & Hg & Hd); [left|].
    destruct (Hd (default VNil (omap_Get m0 k))) as [n1 H1].
    destruct (IH (λ k' Hk', Hall k' (list_elem_of_further _ _ _ Hk')) (omap_Set k (gk (default VNil (omap_Get m0 k))) m0))
      as [n2 H2].
    exists (S (n1 + n2)). intros [|fuel] Hf r t rest Ht Hr; [lia|].
    unfold marshal_body in Hr. cbn in Hr. rewrite Hts in Hr. cbn in Hr. rewrite <- app_assoc in Hr.
    destruct (next_key r k _ Hr) as (r1 & Hn & Hp1 & Hs).
    destruct (H1 fuel ltac:(lia) r1 _ Hp1) as (r2 & Hdec & Hp2).
    destruct (H2 fuel ltac:(lia) r2 t rest Ht Hp2) as (r3 & Hbody & Hp3).
    exists r3. split; [|done]. cbn [unmarshalBody]. rewrite (bind_ok_step _ _ _ _ _ Hn). cbn [negb].
    rewrite go_bind_run. unfold val_of, run, gets. cbn [fst snd]. rewrite Hs, (bind_ok_step _ _ _ _ _ Hdec), Hbody.
    unfold overlay_keys, set_all. cbn [foldl]. by rewrite Hg.
Qed.

(** The values of a canonical map decode key by key. *)
Lemma canonical_values m :
  keys_ok m →
  (∀ k v, omap_Get m k = Some v → ∀ old, decodes (λ f, decodeInto f old) (overlay v old) (MarshalYSON v)) →
  ∀ k, k ∈ omap_Keys m → ∃ ts gk, marshal_values m !! k = Some ts ∧ overlay_values m !! k = Some gk ∧
    ∀ old, decodes (λ f, decodeInto f old) (gk old) ts.
Proof.
  intros [_ Hk] Hall k [v Hv]%Hk. exists (MarshalYSON v), (overlay v).
  unfold marshal_values, overlay_values. rewrite !lookup_fmap, Hv. cbn. split_and!; [done..|]. by apply Hall with k.
Qed.

(** *** Into an existing value *)

Lemma decodes_fresh old x ts :
  match old with VOrderedValue _ _ | VOrderedMap _ => False | _ => True end →
  decodes decodeAny x ts → decodes (λ f, decodeInto f old) x ts.
Proof.
  intros Hold [n Hd]. exists (S n). intros [|fuel] Hf r rest Hr; [lia|].
  destruct (Hd fuel ltac:(lia) r rest Hr) as (r' & Hdec & Hp). exists r'. split; [|done].
  by destruct old; cbn [decodeInto].
Qed.

Lemma decodes_over_map m0 x ts t ts' :
  ts = t :: ts' → event_of t ≠ EventBeginMap → event_of t ≠ EventBeginAttrs →
  decodes decodeAny x ts → decodes (λ f, decodeInto f (VOrderedMap m0)) x ts.
Proof.
  intros -> H1 H2 [n Hd]. exists (S n). intros [|fuel] Hf r rest Hr; [lia|].
  destruct (peekEvent_ok r _ _ Hr) as (r1 & Hpk & Hp1).
  destruct (Hd fuel ltac:(lia) r1 rest Hp1) as (r' & Hdec & Hp). exists r'. split; [|done].
  cbn [decodeInto]. rewrite (go_bind_eq _ _ _ _ _ Hpk). by destruct (event_of t).
Qed.

Lemma value_plain a0 v0 x ts t ts' :
  ts = t :: ts' → event_of t ≠ EventBeginAttrs →
  decodes (λ f, decodeInto f v0) x ts → decodes (λ f, UnmarshalYSON_value f a0 v0) (a0, x) ts.
Proof.
  intros -> H1 [n Hd]. exists (S n). intros [|fuel] Hf r rest Hr; [lia|].
  destruct (next_undo_ok r _ _ Hr) as (r1 & r2 & Hn & Hu & Hp2).
  destruct (Hd fuel ltac:(lia) r2 rest Hp2) as (r' & Hdec & Hp). exists r'. split; [|done].
  cbn [UnmarshalYSON_value]. rewrite (bind_ok_step _ _ _ _ _ Hn), bool_decide_false by done.
  rewrite (bind_ok_step _ _ _ a0 r2) by (by rewrite (go_bind_eq _ _ _ _ _ Hu)).
  by rewrite (bind_ok_step _ _ _ _ _ Hdec).
Qed.

Lemma value_attrs a v a0 v0 x :
  keys_ok a → is_Some (omap_Values a) →
  (∀ k w, omap_Get a k = Some w → ∀ old, decodes (λ f, decodeInto f old) (overlay w old) (MarshalYSON w)) →
  decodes (λ f, decodeInto f v0) x (MarshalYSON v) →
  decodes (λ f, UnmarshalYSON_value f a0 v0)
    (overlay_keys (omap_Keys a) (overlay_values a) (mkOrderedMap (Some (omap_map a0)) (omap_Keys a0)), x)
    (MarshalYSON (VOrderedValue a v)).
Proof.
  intros Hk Hs Hall [n1 H1]. rewrite marshal_value by done.
  destruct (decodes_body _ _ _ (canonical_values a Hk Hall) (mkOrderedMap (Some (omap_map a0)) (omap_Keys a0)))
    as [n2 H2].
  exists (S (n1 + n2)). intros [|fuel] Hf r rest Hr; [lia|]. cbn in Hr. rewrite <- app_assoc in Hr.
  destruct (next_token r _ _ Hr) as (r1 & Hn & Hp1 & _).
  destruct (H2 fuel ltac:(lia) r1 TEndAttrs (MarshalYSON v ++ rest)) as (r2 & Hb & Hp2); [by right|by rewrite Hp1|].
  destruct (expect_ok (overlay_keys (omap_Keys a) (overlay_values a)
    (mkOrderedMap (Some (omap_map a0)) (omap_Keys a0))) r2 _ _ Hp2) as (r3 & He & Hp3).
  destruct (H1 fuel ltac:(lia) r3 rest Hp3) as (r' & Hdec & Hp). exists r'. split; [|done].
  cbn [UnmarshalYSON_value]. rewrite (bind_ok_step _ _ _ _ _ Hn). cbn [event_of]. rewrite bool_decide_true by done.
  erewrite bind_ok_step; [by rewrite (bind_ok_step _ _ _ _ _ Hdec)|].
  by rewrite (bind_ok_step _ _ _ _ _ Hb).
Qed.

(** Wrapping the pair in a value. *)
Lemma decodes_into_value a0 v0 a x ts :
  decodes (λ f, UnmarshalYSON_value f a0 v0) (a, x) ts →
  decodes (λ f, decodeInto f (VOrderedValue a0 v0)) (VOrderedValue a x) ts.
Proof.
  intros [n Hd]. exists (S n). intros [|fuel] Hf r rest Hr; [lia|].
  destruct (Hd fuel ltac:(lia) r rest Hr) as (r' & Hdec & Hp). exists r'. split; [|done].
  cbn [decodeInto]. by rewrite (bind_ok_step _ _ _ _ _ Hdec).
Qed.

Lemma decodes_map_attrs m0 a x t ts :
  event_of t = EventBeginAttrs →
  decodes (λ f, UnmarshalYSON_value f OrderedMapZero (VOrderedMap m0)) (a, x) (t :: ts) →
  decodes (λ f, decodeInto f (VOrderedMap m0)) (VOrderedValue a x) (t :: ts).
Proof.
  intros Ht [n Hd]. exists (S n). intros [|fuel] Hf r rest Hr; [lia|].
  destruct (peekEvent_ok r _ _ Hr) as (r1 & Hpk & Hp1).
  destruct (Hd fuel ltac:(lia) r1 rest Hp1) as (r' & Hdec & Hp). exists r'. split; [|done].
  cbn [decodeInto]. rewrite (go_bind_eq _ _ _ _ _ Hpk), Ht. by rewrite (bind_ok_step _ _ _ _ _ Hdec).
Qed.

Lemma decodes_any_attrs a x t ts :
  event_of t = EventBeginAttrs →
  decodes (λ f, UnmarshalYSON_value f OrderedMapZero VNil) (a, x) (t :: ts) →
  decodes decodeAny (VOrderedValue a x) (t :: ts).
Proof.
  intros Ht [n Hd]. exists (S n). intros [|fuel] Hf r rest Hr; [lia|].
  destruct (next_undo_ok r _ _ Hr) as (r1 & r2 & Hn & Hu & Hp2).
  destruct (Hd fuel ltac:(lia) r2 rest Hp2) as (r' & Hdec & Hp). exists r'. split; [|done].
  cbn [decodeAny]. rewrite (bind_ok_step _ _ _ _ _ Hn), Ht in *.
  rewrite (go_bind_eq _ _ _ _ _ Hu). by rewrite (bind_ok_step _ _ _ _ _ Hdec).
Qed.

Lemma decodes_any_map m :
  keys_ok m → (omap_Values m = None ↔ omap_Keys m = []) →
  (∀ k w, omap_Get m k = Some w → ∀ old, decodes (λ f, decodeInto f old) (overlay w old) (MarshalYSON w)) →
  decodes decodeAny (VOrderedMap m) (MarshalYSON (VOrderedMap m)).
Proof.
  intros Hk Hnone Hall. rewrite marshal_map.
  destruct (decodes_body _ _ _ (canonical_values m Hk Hall) OrderedMapZero) as [n Hb].
  rewrite overlay_fresh in Hb by (cbn; tauto).
  exists (S n). intros [|fuel] Hf r rest Hr; [lia|]. cbn in Hr. rewrite <- app_assoc in Hr.
  destruct (next_token r _ _ Hr) as (r1 & Hn & Hp1 & _).
  destruct (Hb fuel ltac:(lia) r1 TEndMap rest) as (r2 & Hd & Hp2); [by left|done|].
  destruct (expect_ok (VOrderedMap m) r2 _ _ Hp2) as (r3 & He & Hp3). exists r3. split; [|done].
  cbn [decodeAny]. rewrite (bind_ok_step _ _ _ _ _ Hn). cbn [event_of]. by rewrite (bind_ok_step _ _ _ _ _ Hd).
Qed.

Lemma decodes_map_map m m0 :
  keys_ok m →
  (∀ k w, omap_Get m k = Some w → ∀ old, decodes (λ f, decodeInto f old) (overlay w old) (MarshalYSON w)) →
  decodes (λ f, decodeInto f (VOrderedMap m0))
    (VOrderedMap (overlay_keys (omap_Keys m) (overlay_values m) m0)) (MarshalYSON (VOrderedMap m)).
Proof.
  intros Hk Hall. rewrite marshal_map.
  destruct (decodes_body _ _ _ (canonical_values m Hk Hall) m0) as [n Hb].
  exists (S (S n)). intros [|[|fuel]] Hf r rest Hr; [lia..|]. cbn in Hr. rewrite <- app_assoc in Hr.
  destruct (peekEvent_ok r _ _ Hr) as (r1 & Hpk & Hp1).
  destruct (expectEvent_ok r1 _ _ Hp1) as (r2 & He & Hp2).
  destruct (Hb fuel ltac:(lia) r2 TEndMap rest) as (r3 & Hd & Hp3); [by left|done|].
  destruct (expect_ok (overlay_keys (omap_Keys m) (overlay_values m) m0) r3 _ _ Hp3) as (r4 & He4 & Hp4).
  exists r4. split; [|done]. cbn [decodeInto UnmarshalYSON_map]. rewrite (go_bind_eq _ _ _ _ _ Hpk). cbn [event_of].
  erewrite bind_ok_step; [reflexivity|]. rewrite (go_bind_eq _ _ _ _ _ He). by rewrite (bind_ok_step _ _ _ _ _ Hd).
Qed.

(** *** Lists and literals *)

Lemma decodes_literal l : decodes decodeAny (literal_value l) [TLiteral l].
Proof.
  exists 1. intros [|fuel] Hf r rest Hr; [lia|]. destruct (next_token r _ _ Hr) as (r1 & Hn & Hp1 & Hl).
  exists r1. split; [|done]. cbn [decodeAny]. rewrite (bind_ok_step _ _ _ _ _ Hn). cbn [event_of].
  rewrite go_bind_run. unfold val_of, run, gets. cbn. by rewrite Hl.
Qed.

Lemma decodes_items l :
  (∀ v, v ∈ l → decodes decodeAny v (MarshalYSON v) ∧ ∃ t ts, MarshalYSON v = t :: ts ∧ t ≠ TEndList) →
  ∀ acc, ∃ n, ∀ fuel, n ≤ fuel → ∀ r rest, pending r = concat (map MarshalYSON l) ++ TEndList :: rest →
    ∃ r', decodeItems fuel acc r = (inr (acc ++ l), r') ∧ pending r' = TEndList :: rest.
Proof.
  induction l as [|v l IH]; intros Hall acc.
  - exists 1. intros [|fuel] Hf r rest Hr; [lia|]. destruct (next_item_end r _ Hr) as (r' & Hn & Hp).
    exists r'. split; [|done]. cbn [decodeItems]. rewrite (bind_ok_step _ _ _ _ _ Hn). by rewrite app_nil_r.
  - destruct (Hall v) as [[n1 H1] (t & ts & Hts & Ht)]; [left|].
    destruct (IH (λ v' Hv', Hall v' (list_elem_of_further _ _ _ Hv')) (acc ++ [v])) as [n2 H2].
    exists (S (n1 + n2)). intros [|fuel] Hf r rest Hr; [lia|]. cbn in Hr. rewrite <- app_assoc in Hr.
    assert (pending r = t :: ts ++ concat (map MarshalYSON l) ++ TEndList :: rest) as Hr' by by rewrite Hr, Hts.
    destruct (next_item r _ _ Hr' Ht) as (r1 & Hn & Hp1).
    destruct (H1 fuel ltac:(lia) r1 (concat (map MarshalYSON l) ++ TEndList :: rest)) as (r2 & Hd & Hp2);
      [by rewrite Hp1, Hts|].
    destruct (H2 fuel ltac:(lia) r2 rest Hp2) as (r3 & Hi & Hp3). exists r3. split; [|done].
    cbn [decodeItems]. rewrite (bind_ok_step _ _ _ _ _ Hn), (bind_ok_step _ _ _ _ _ Hd), Hi. by rewrite <- app_assoc.
Qed.

Lemma decodes_list l :
  (∀ v, v ∈ l → decodes decodeAny v (MarshalYSON v) ∧ ∃ t ts, MarshalYSON v = t :: ts ∧ t ≠ TEndList) →
  decodes decodeAny (VList l) (MarshalYSON (VList l)).
Proof.
  intros Hall. destruct (decodes_items l Hall []) as [n Hi]. exists (S n). intros [|fuel] Hf r rest Hr; [lia|].
  cbn in Hr. rewrite <- app_assoc in Hr. destruct (next_token r _ _ Hr) as (r1 & Hn & Hp1 & _).
  destruct (Hi fuel ltac:(lia) r1 rest Hp1) as (r2 & Hd & Hp2).
  destruct (expect_ok (VList l) r2 _ _ Hp2) as (r3 & He & Hp3). exists r3. split; [|done].
  cbn [decodeAny]. rewrite (bind_ok_step _ _ _ _ _ Hn). cbn [event_of]. by rewrite (bind_ok_step _ _ _ _ _ Hd).
Qed.

(** *** Every document *)

(** A document that is neither a map nor has attributes replaces what is there. *)
Lemma decodes_plain new t ts :
  MarshalYSON new = t :: ts → event_of t ≠ EventBeginMap → event_of t ≠ EventBeginAttrs →
  match new with VOrderedValue _ _ | VOrderedMap _ => False | _ => True end →
  decodes decodeAny new (MarshalYSON new) →
  ∀ old, decodes (λ f, decodeInto f old) (overlay new old) (MarshalYSON new).
Proof.
  intros Ht H1 H2 Hnew Hd old. induction old as [| | | | | | | |m0|a0 v0 IH].
  1-8: replace (overlay new _) with new by (by destruct new); by apply decodes_fresh.
  - replace (overlay new _) with new by (by destruct new). by eapply decodes_over_map.
  - replace (overlay new _) with (VOrderedValue a0 (overlay new v0)) by (by destruct new).
    eapply decodes_into_value, value_plain; done.
Qed.

Lemma marshal_head v : canonical v → ∃ t ts, MarshalYSON v = t :: ts ∧ t ≠ TEndList.
Proof.
  destruct 1; first [by eexists _, _|rewrite marshal_value by done; by eexists _, _].
Qed.

Lemma decode_canonical new :
  canonical new →
  decodes decodeAny new (MarshalYSON new) ∧
  ∀ old, decodes (λ f, decodeInto f old) (overlay new old) (MarshalYSON new).
Proof.
  induction 1 as [|b|s|z|z|z|l Hl IH|m Hk Hnone Hm IH|a v Hk Hs Ha IHa Hv [IHany IHv]].
  1: pose proof (decodes_literal TypeEntity) as Hd.
  2: pose proof (decodes_literal (TypeBool b)) as Hd.
  3: pose proof (decodes_literal (TypeString s)) as Hd.
  4: pose proof (decodes_literal (TypeInt64 z)) as Hd.
  5: pose proof (decodes_literal (TypeUint64 z)) as Hd.
  6: pose proof (decodes_literal (TypeFloat64 z)) as Hd.
  1-6: split; [exact Hd|]; by eapply decodes_plain.
  - assert (decodes decodeAny (VList l) (MarshalYSON (VList l))) as Hd.
    { apply decodes_list. intros v Hv. split; [by apply IH|by apply marshal_head, Hl]. }
    split; [done|]. by eapply decodes_plain.
  - assert (decodes decodeAny (VOrderedMap m) (MarshalYSON (VOrderedMap m))) as Hd.
    { apply decodes_any_map; [done..|]. intros k w Hw. by apply (IH k). }
    split; [done|]. intros old. induction old as [| | | | | | | |m0|a0 v0 IHold].
    1-8: by apply decodes_fresh.
    + cbn [overlay]. rewrite <- overlay_values_eq. apply decodes_map_map; [done|]. intros k w Hw. by apply (IH k).
    + cbn [overlay]. eapply decodes_into_value, value_plain; [by rewrite marshal_map|done|exact IHold].
  - assert (∀ a0 v0, decodes (λ f, UnmarshalYSON_value f a0 v0)
      (overlay_keys (omap_Keys a) (overlay_values a) (mkOrderedMap (Some (omap_map a0)) (omap_Keys a0)), overlay v v0)
      (MarshalYSON (VOrderedValue a v))) as Hval.
    { intros a0 v0. apply value_attrs; [done..| |done]. intros k w Hw. by apply (IHa k). }
    assert (∀ v0, decodes (λ f, UnmarshalYSON_value f OrderedMapZero v0) (a, overlay v v0)
      (MarshalYSON (VOrderedValue a v))) as Hfresh.
    { intros v0. specialize (Hval OrderedMapZero v0). rewrite overlay_fresh in Hval; [done..|].
      destruct Hs as [values ->]. cbn. naive_solver. }
    assert (decodes decodeAny (VOrderedValue a v) (MarshalYSON (VOrderedValue a v))) as Hd.
    { specialize (Hfresh VNil). rewrite overlay_nil in Hfresh. rewrite marshal_value in * by done.
      by apply decodes_any_attrs. }
    split; [done|]. intros old. destruct old as [| | | | | | | |m0|a0 v0].
    1-8: by apply decodes_fresh.
    + cbn [overlay]. specialize (Hfresh (VOrderedMap m0)). rewrite marshal_value in * by done.
      by apply decodes_map_attrs.
    + cbn [overlay]. rewrite <- overlay_values_eq. by apply decodes_into_value.
Qed.

(** C39.  YSON values round trip and overrides merge.  Decoding the encoding of a value gives
    the value back, with the order of all keys; decoding it into an existing value gives
    their overlay.  Both read exactly the document, with any reader that returns its tokens
    and any sufficient amount of fuel. *)
Theorem yson_roundtrip_and_overlay new old :
  canonical new →
  ∃ n, ∀ fuel, n ≤ fuel → ∀ r rest, pending r = MarshalYSON new ++ rest →
    (∃ r', decodeAny fuel r = (inr new, r') ∧ pending r' = rest) ∧
    (∃ r', decodeInto fuel old r = (inr (overlay new old), r') ∧ pending r' = rest).
Proof.
  intros Hc. destruct (decode_canonical new Hc) as [[n1 H1] Hinto]. destruct (Hinto old) as [n2 H2].
  exists (n1 + n2). intros fuel Hf r rest Hr. split; [apply H1|apply H2]; [lia|done|lia|done].
Qed.

End decoding.

(** An override changes what it names and nothing else.  In the overlay of two maps,
    a key the override does not have keeps its value, a key it has gets the overlay of the
    two values, the keys of the base keep their order and come first, followed by the new
    keys in the order of the override; the keys stay consistent with the map. *)
Theorem overlay_map_spec (base override : OrderedMap Any) :
  keys_ok base → keys_ok override →
  ∃ m, overlay (VOrderedMap override) (VOrderedMap base) = VOrderedMap m ∧ keys_ok m ∧
    (∀ k, omap_Get m k = match omap_Get override k with
                         | Some v => Some (overlay v (default VNil (omap_Get base k)))
                         | None => omap_Get base k
                         end) ∧
    omap_Keys m = omap_Keys base ++ filter (λ k, omap_Get base k = None) (omap_Keys override).
Proof.
  intros Hb [Hn Hk]. cbn [overlay]. rewrite <- overlay_values_eq. eexists. split; [done|].
  unfold overlay_keys. split_and!; [by apply set_all_ok| |by apply set_all_Keys].
  intros k. rewrite set_all_lookup by done. unfold overlay_values. rewrite lookup_fmap.
  change (omap_Get override k) with (omap_map override !! k).
  destruct (decide (k ∈ omap_Keys override)) as [Hin|Hin].
  - apply Hk in Hin as [v Hv]. by rewrite Hv.
  - rewrite Hk, <- eq_None_not_Some in Hin. by rewrite Hin.
Qed.

(** ** A reader over a list of tokens *)

Record ListReader := mkListReader { lr_rest : list token; lr_last : option token }.

#[global] Instance ListReader_reader : YsonReader ListReader := {
  r_Next r := match lr_rest r with
              | t :: ts => (inr (event_of t), mkListReader ts (Some t))
              | [] => (inr EventEOF, mkListReader [] None)
              end;
  r_Undo _ r := (tt, match lr_last r with
                     | Some t => mkListReader (t :: lr_rest r) None
                     | None => r
                     end);
  r_NextKey r := match lr_rest r with
                 | TKey k :: ts => (inr true, mkListReader ts (Some (TKey k)))
                 | _ => (inr false, r)
                 end;
  r_NextListItem r := match lr_rest r with
                      | TEndList :: _ => (inr false, r)
                      | _ => (inr true, r)
                      end;
  r_String r := match lr_last r with Some (TKey k) => k | _ => "" end;
  r_Literal r := match lr_last r with Some (TLiteral l) => l | _ => TypeEntity end;
}.

#[global] Instance ListReader_laws : YsonReaderLaws ListReader lr_rest.
Proof.
  split.
  - intros r t ts Hr. eexists. cbn. rewrite Hr. split_and!; [done..|]. by destruct t.
  - intros r e. unfold val_of, run. cbn. by destruct (lr_rest r).
  - intros r k ts Hr. eexists. cbn. by rewrite Hr.
  - intros r t ts Hr [->| ->]; eexists; cbn; rewrite Hr; by split.
  - intros r t ts Hr Ht. eexists. cbn. rewrite Hr. by destruct t.
  - intros r ts Hr. eexists. cbn. rewrite Hr. by split.
Qed.

(** A base configuration and an override, as in [TestOrderedOverrideMergesContent]. *)
Definition example_base : OrderedMap Any :=
  omap_Set "last5" (VInt64 2) (omap_Set "nested2" (VOrderedMap
    (omap_Set "x2" (VInt64 2) (omap_Set "y1" (VInt64 1) OrderedMapZero)))
    (omap_Set "first1" (VInt64 1) OrderedMapZero)).

Definition example_override : OrderedMap Any :=
  omap_Set "first1" (VInt64 4) (omap_Set "nested2" (VOrderedMap
    (omap_Set "y1" (VInt64 4) (omap_Set "z3" (VInt64 3) OrderedMapZero))) OrderedMapZero).

Lemma example_map_canonical m :
  (∃ m', m = omap_Set "y1" (VInt64 4) (omap_Set "z3" (VInt64 3) m') ∧ m' = OrderedMapZero) → canonical (VOrderedMap m).
Proof.
  intros (m' & -> & ->). constructor.
  - repeat apply omap_Set_ok. apply keys_ok_zero.
  - done.
  - intros k v. unfold omap_Get. rewrite !omap_Set_map. intros Hv.
    apply lookup_insert_Some in Hv as [[_ <-]|[_ Hv]]; [constructor|].
    apply lookup_insert_Some in Hv as [[_ <-]|[_ Hv]]; [constructor|]. by pose proof (omap_Get_zero (A:=Any) k) as Hz; unfold omap_Get in Hz; rewrite Hz in Hv.
Qed.

Lemma example_override_canonical : canonical (VOrderedMap example_override).
Proof.
  constructor.
  - repeat apply omap_Set_ok. apply keys_ok_zero.
  - done.
  - intros k v. unfold omap_Get, example_override. rewrite !omap_Set_map. intros Hv.
    apply lookup_insert_Some in Hv as [[_ <-]|[_ Hv]]; [constructor|].
    apply lookup_insert_Some in Hv as [[_ <-]|[_ Hv]]; [apply example_map_canonical; eauto|].
    by pose proof (omap_Get_zero (A:=Any) k) as Hz; unfold omap_Get in Hz; rewrite Hz in Hv.
Qed.

Lemma yson_roundtrip_and_overlay_witness :
  ∃ fuel, (decodeInto fuel (VOrderedMap example_base)
    (mkListReader (MarshalYSON (VOrderedMap example_override)) None)).1 =
    inr (overlay (VOrderedMap example_override) (VOrderedMap example_base)).
Proof.
  destruct (yson_roundtrip_and_overlay lr_rest (VOrderedMap example_override) (VOrderedMap example_base)
    example_override_canonical) as [n Hn].
  exists n. destruct (Hn n ltac:(lia) (mkListReader (MarshalYSON (VOrderedMap example_override)) None) [])
    as [_ (r' & Hd & _)]; [by rewrite app_nil_r|]. by rewrite Hd.
Defined.

Lemma overlay_map_spec_witness :
  ∃ m, overlay (VOrderedMap example_override) (VOrderedMap example_base) = VOrderedMap m ∧
    omap_Keys m = ["first1"; "nested2"; "last5"].
Proof.
  destruct (overlay_map_spec example_base example_override) as (m & Ho & _ & _ & Hk).
  - repeat apply omap_Set_ok. apply keys_ok_zero.
  - repeat apply omap_Set_ok. apply keys_ok_zero.
  - exists m. split; [exact Ho|]. rewrite Hk. vm_compute. reflexivity.
Defined.
