(* ===== verification/Ypatch.v ===== *)
(** * Cypress patches (src/pkg/ypatch: patch.go, diff.go, apply.go)

    A patch is a list of operations on the nodes under a path, a patch set a map from paths
    to patches; a patch is built from two values by the comparison library and applied to
    Cypress by the cluster's client.  Both are parameters: the client with the answers it
    gives, the comparison with the calls it makes on its reporter. *)

From S2P Require Import Prelude Ordered.

(** ** The Cypress client *)

(** An error of the client with what [yterrors] finds in it: [yt_resolve] is
    [ContainsResolveError], [yt_present] is [ContainsErrorCode] of
    [CodeAlreadyPresentInGroup]; wrapping with [%w] does not change them. *)
Record yterror := mkYtError { yt_message : error; yt_resolve : bool; yt_present : bool }.

Definition errorf (e : error) : yterror := mkYtError e false false.
Definition wrapf (prefix : string) (e : yterror) : yterror :=
  mkYtError (prefix +:+ yt_message e) (yt_resolve e) (yt_present e).

(** The transaction, access tracking, mutating and prerequisite options are zero in every
    call. *)
Record SetNodeOptions := mkSetNodeOptions { sno_Recursive : bool; sno_Force : bool }.
Record RemoveNodeOptions := mkRemoveNodeOptions { rno_Recursive : bool; rno_Force : bool }.
Record CreateNodeOptions := mkCreateNodeOptions {
  cno_Recursive : bool;
  cno_IgnoreExisting : bool;
  cno_Attributes : gmap string Any;
}.
Record CreateObjectOptions := mkCreateObjectOptions {
  coo_IgnoreExisting : bool;
  coo_Attributes : gmap string Any;
}.

(** [yt.Client]; the type of a created node or object is its name, [ListNode] takes the
    attributes to return with the children. *)
Class CypressClient (E : Type) := {
  cy_GetNode : string → go E (yterror + Any);
  cy_SetNode : string → Any → option SetNodeOptions → go E (option yterror);
  cy_RemoveNode : string → option RemoveNodeOptions → go E (option yterror);
  cy_CreateNode : string → string → CreateNodeOptions → go E (option yterror);
  cy_ListNode : string → list string → go E (yterror + Any);
  cy_CreateObject : string → CreateObjectOptions → go E (option yterror);
  cy_AddMember : string → string → go E (option yterror);
}.

(** The client decodes what it reads into the variable it is given. *)
Class YsonDecode (A : Type) := { yson_decode : Any → error + A }.

Section typed_reads.
Context {E A : Type} {CC : CypressClient E} {D : YsonDecode A}.

Definition decoded (result : yterror + Any) : yterror + A :=
  match result with
  | inl err => inl err
  | inr v => match yson_decode v with inl err => inl (errorf err) | inr x => inr x end
  end.

Definition GetNode (path : string) : go E (yterror + A) :=
  result ← cy_GetNode path; mret (decoded result).

Definition ListNode (path : string) (attributes : list string) : go E (yterror + A) :=
  result ← cy_ListNode path attributes; mret (decoded result).

End typed_reads.

(** Reading leaves the cluster alone. *)
Class CypressReads (E : Type) `{!CypressClient E} : Prop := {
  GetNode_reads : ∀ path e, run (cy_GetNode path) e = e;
  ListNode_reads : ∀ path attributes e, run (cy_ListNode path attributes) e = e;
}.

(** The package [ypath]: [Child] and [ListIndex] append to a path; [Split] cuts the last
    token of a path, with its separator, off. *)
Class Ypath := {
  path_Child : string → string → string;
  path_ListIndex : string → Z → string;
  path_Split : string → error + (string * string);
  path_SplitTokens : string → error + list string;
}.

Class YpathLaws (Y : Ypath) : Prop := {
  Split_parts : ∀ path parent child, path_Split path = inr (parent, child) → path = parent +:+ child;
  Split_child : ∀ path parent child, path_Split path = inr (parent, child) → child ≠ "";
}.

(** ** Patches (patch.go) *)

(** A [PatchOp] is a string; any other one than the six named ones is unknown. *)
Inductive PatchOp : Type :=
  | PatchOpAdd | PatchOpCopy | PatchOpMove | PatchOpRemove | PatchOpReplace | PatchOpTest
  | PatchOpOther (s : string).

Record PatchOperation := mkPatchOperation {
  op_Op : PatchOp;
  op_Path : string;
  op_From : string;
  op_Value : Any;
}.

Abbreviation Patch := (list PatchOperation) (only parsing).
Abbreviation PatchSet := (gmap string (list PatchOperation)) (only parsing).

(** Indexing a missing key yields the nil slice. *)
Definition AddPatch (path : string) (patch : Patch) (p : PatchSet) : PatchSet :=
  <[path := default [] (p !! path) ++ patch]> p.

(** The order of the iteration over the added set does not matter: its keys are distinct. *)
Definition AddPatchSet (patchSet : PatchSet) (p : PatchSet) : PatchSet :=
  map_fold AddPatch p patchSet.

Definition Add (path : string) (value : Any) : PatchOperation := mkPatchOperation PatchOpAdd path "" value.
Definition Copy (path from : string) : PatchOperation := mkPatchOperation PatchOpCopy path from VNil.
Definition Move (path from : string) : PatchOperation := mkPatchOperation PatchOpMove path from VNil.
Definition Remove (path : string) : PatchOperation := mkPatchOperation PatchOpRemove path "" VNil.
Definition Replace (path : string) (value : Any) : PatchOperation := mkPatchOperation PatchOpReplace path "" value.
Definition Test (path : string) (value : Any) : PatchOperation := mkPatchOperation PatchOpTest path "" value.

Definition ReplaceOrRemove {T} (to_any : T → Any) (path : string) (value : option T) : PatchOperation :=
  match value with
  | None => Remove path
  | Some value => Replace path (to_any value)
  end.

(** ** Building a patch (diff.go) *)

(** [cmp.PathStep]: the kind of the step and its two values, an invalid value being [None]. *)
Inductive StepKind : Type :=
  | StructField (Name : string)
  | MapIndex (Key : string)
  | SliceIndex (before after : Z)
  | OtherStep.

Record PathStep := mkPathStep { step_kind : StepKind; step_Values : option Any * option Any }.

(** The calls of the comparison on its reporter; [Report] with [Result.Equal]. *)
Inductive CmpCall : Type := CallPushStep (step : PathStep) | CallPopStep | CallReport (equal : bool).

(** [cmp.Equal] with the calls it makes. *)
Class GoCmp := {
  cmp_Equal : Any → Any → bool;
  cmp_calls : Any → Any → list CmpCall;
}.

Definition call_equal (c : CmpCall) : bool := match c with CallReport equal => equal | _ => true end.

(** A report happens inside a step, and the values are equal if no report says otherwise. *)
Definition call_depth (n : option nat) (c : CmpCall) : option nat :=
  n ← n;
  match c, n with
  | CallPushStep _, _ => Some (S n)
  | CallPopStep, S n => Some n
  | CallReport _, S _ => Some n
  | _, _ => None
  end.

Class GoCmpLaws (G : GoCmp) : Prop := {
  cmp_nested : ∀ x y, is_Some (foldl call_depth (Some 0%nat) (cmp_calls x y));
  cmp_reports : ∀ x y, cmp_Equal x y = forallb call_equal (cmp_calls x y);
}.

Record patchReporter := mkPatchReporter {
  rep_path : list PathStep;
  rep_patch : Patch;
  rep_withTest : bool;
}.

Record PatchOptions := mkPatchOptions { po_WithTest : bool }.

Section diff.
Context {Y : Ypath}.

Definition PushStep (step : PathStep) (r : patchReporter) : patchReporter :=
  mkPatchReporter (rep_path r ++ [step]) (rep_patch r) (rep_withTest r).

(** The slice expression of an empty path panics, here it stays empty. *)
Definition PopStep (r : patchReporter) : patchReporter :=
  mkPatchReporter (take (length (rep_path r) - 1) (rep_path r)) (rep_patch r) (rep_withTest r).

Definition step_path (after : option Any) (path : string) (step : PathStep) : string :=
  match step_kind step with
  | StructField name => path_Child path name
  | MapIndex key => path_Child path key
  | SliceIndex indexBefore indexAfter =>
      path_ListIndex path (match after with Some _ => indexAfter | None => indexBefore end)
  | OtherStep => path
  end.

(** A difference between two invalid values is not reported; [Interface] would panic. *)
Definition Report (equal : bool) (r : patchReporter) : patchReporter :=
  if equal then r else
  let '(before, after) := default (None, None) (step_Values <$> last (rep_path r)) in
  let path := foldl (step_path after) "" (rep_path r) in
  let test before := if rep_withTest r then [Test path before] else [] in
  let ops :=
    match before, after with
    | None, None => [Add path VNil]
    | None, Some after => [Add path after]
    | Some before, None => test before ++ [Remove path]
    | Some before, Some after => test before ++ [Replace path after]
    end in
  mkPatchReporter (rep_path r) (rep_patch r ++ ops) (rep_withTest r).

Definition reporter_call (r : patchReporter) (c : CmpCall) : patchReporter :=
  match c with
  | CallPushStep step => PushStep step r
  | CallPopStep => PopStep r
  | CallReport equal => Report equal r
  end.

Context {G : GoCmp}.

(** The nil patch is the empty one. *)
Definition BuildPatch (before after : Any) (options : option PatchOptions) : Patch :=
  let options := default (mkPatchOptions false) options in
  let reporter := mkPatchReporter [] [] (po_WithTest options) in
  let reporter := foldl reporter_call reporter (cmp_calls before after) in
  if cmp_Equal before after then [] else rep_patch reporter.

End diff.

(** ** Applying a patch (apply.go) *)

(** [strings.Contains] and the slice [s[n:]]. *)
Definition strings_Contains (s sub : string) : bool :=
  match String.index 0 sub s with Some _ => true | None => false end.

Definition slice_from (n : nat) (s : string) : string := String.substring n (String.length s - n) s.

Definition PatchOp_string (op : PatchOp) : string :=
  match op with
  | PatchOpAdd => "add" | PatchOpCopy => "copy" | PatchOpMove => "move" | PatchOpRemove => "remove"
  | PatchOpReplace => "replace" | PatchOpTest => "test" | PatchOpOther s => s
  end.

Section apply.
Context {E : Type} {CC : CypressClient E} {Y : Ypath} {G : GoCmp}.

(** The code looks at the first token of a path that was split without an error, and would panic if
    there were none.  The model relies on [SplitTokens] not to return an empty list; it takes such a
    path as not absolute. *)
Definition ypathIsAbsolute (path : string) : bool :=
  match path_SplitTokens path with
  | inr (token :: _) => token == "/"
  | _ => false
  end.

(** The labelled loop: a round either returns or continues with a shorter path.  [None]
    means that the fuel ran out. *)
Fixpoint SetNode_retry (fuel : nat) (dst : string) (value : Any) (options : option SetNodeOptions)
    : go E (option (option yterror)) :=
  match fuel with O => mret None | S fuel =>
    err ← cy_SetNode dst value options;
    match err, options with
    | Some e, Some o =>
        if yt_resolve e && sno_Recursive o && strings_Contains dst "/@" then
          match path_Split dst with
          | inl err2 => mret (Some (Some (errorf err2)))
          | inr (parent, child) =>
              if negb (String.prefix "/@" child)
              then SetNode_retry fuel parent (VMap {[ slice_from 1 child := value ]}) options
              else
                err ← cy_CreateNode parent "map_node"
                        (mkCreateNodeOptions true false {[ slice_from 2 child := value ]});
                mret (Some err)
          end
        else mret (Some err)
    | _, _ => mret (Some err)
    end
  end.

Definition target_SetNode (dst : string) (value : Any) (options : option SetNodeOptions) : go E (option yterror) :=
  err ← SetNode_retry (S (String.length dst)) dst value options;
  mret (match err with Some err => err | None => Some (errorf "out of fuel") end).

Definition setOpts : SetNodeOptions := mkSetNodeOptions true false.
Definition removeOpts : RemoveNodeOptions := mkRemoveNodeOptions true true.

(** The body of the switch over the kind of an operation. *)
Definition apply_op (DryRun : bool) (path : string) (op : PatchOperation) : go E (option yterror) :=
  let dst := path +:+ op_Path op in
  match op_Op op with
  | PatchOpAdd | PatchOpReplace =>
      if DryRun then mret None else target_SetNode dst (op_Value op) (Some setOpts)
  | PatchOpCopy | PatchOpMove =>
      let src := if ypathIsAbsolute (op_From op) then op_From op else path +:+ op_From op in
      tmp ← cy_GetNode src;
      match tmp with
      | inl err => mret (Some err)
      | inr tmp =>
          if DryRun then mret None else
          err ← target_SetNode dst tmp (Some setOpts);
          match err, op_Op op with
          | None, PatchOpMove => cy_RemoveNode src (Some removeOpts)
          | _, _ => mret err
          end
      end
  | PatchOpRemove => if DryRun then mret None else cy_RemoveNode dst (Some removeOpts)
  | PatchOpTest =>
      tmp ← cy_GetNode dst;
      mret (match tmp with
            | inl err => Some err
            | inr tmp =>
                match BuildPatch tmp (op_Value op) (Some (mkPatchOptions true)) with
                | [] => None
                | _ => Some (errorf "test failed")
                end
            end)
  | PatchOpOther s => mret (Some (errorf ("unknown patch operation: " +:+ s)))
  end.

Definition step_error (i : nat) (dst : string) (err : yterror) : yterror :=
  wrapf ("patch step " +:+ fmt_d (Z.of_nat i) +:+ " failed for path " +:+ dst +:+ ": ") err.

(** The loop over the operations from position [i] on. *)
Fixpoint apply_ops (DryRun : bool) (path : string) (i : nat) (patch : Patch) : go E (option yterror) :=
  match patch with
  | [] => mret None
  | op :: patch =>
      err ← apply_op DryRun path op;
      match err with
      | Some err => mret (Some (step_error i (path +:+ op_Path op) err))
      | None => apply_ops DryRun path (S i) patch
      end
  end.

Definition ApplyPatch (DryRun : bool) (path : string) (patch : Patch) : go E (option yterror) :=
  apply_ops DryRun path 0 patch.

Fixpoint apply_keys (DryRun : bool) (path : string) (patchSet : PatchSet) (keys : list string)
    : go E (option yterror) :=
  match keys with
  | [] => mret None
  | patchPath :: keys =>
      err ← ApplyPatch DryRun (path +:+ patchPath) (default [] (patchSet !! patchPath));
      match err with
      | Some err => mret (Some err)
      | None => apply_keys DryRun path patchSet keys
      end
  end.

Definition ApplyPatchSet (DryRun : bool) (path : string) (patchSet : PatchSet) : go E (option yterror) :=
  apply_keys DryRun path patchSet (sorted_keys patchSet).

End apply.

(** ** Merging patch sets *)

Lemma AddPatch_lookup path patch (p : PatchSet) k :
  AddPatch path patch p !! k = if decide (k = path) then Some (default [] (p !! path) ++ patch) else p !! k.
Proof. unfold AddPatch. rewrite lookup_insert. by repeat case_decide. Qed.

(** Every added patch follows what its path had; the other paths keep theirs. *)
Lemma AddPatchSet_lookup (q p : PatchSet) k :
  AddPatchSet q p !! k =
    match q !! k with Some patch => Some (default [] (p !! k) ++ patch) | None => p !! k end.
Proof.
  revert k. unfold AddPatchSet.
  apply (map_fold_weak_ind (λ r (q : PatchSet), ∀ k, r !! k =
    match q !! k with Some patch => Some (default [] (p !! k) ++ patch) | None => p !! k end)).
  - intros k. by rewrite lookup_empty.
  - intros path patch q' r Hpath IH k. rewrite AddPatch_lookup, lookup_insert.
    destruct (decide (k = path)) as [->|Hk].
    + rewrite decide_True by done. by rewrite IH, Hpath.
    + rewrite decide_False by done. apply IH.
Qed.

(** ** Building a patch *)

Section diff_facts.
Context {Y : Ypath} {G : GoCmp} {GL : GoCmpLaws G}.

Definition is_test (op : PatchOperation) : bool := match op_Op op with PatchOpTest => true | _ => false end.

(** The reporters with and without tests go along. *)
Lemma reporter_calls_tests calls (r1 r2 : patchReporter) :
  rep_path r1 = rep_path r2 → rep_withTest r1 = true → rep_withTest r2 = false →
  filter (λ op, is_test op = false) (rep_patch r1) = rep_patch r2 →
  filter (λ op, is_test op = false) (rep_patch (foldl reporter_call r1 calls)) =
    rep_patch (foldl reporter_call r2 calls).
Proof.
  revert r1 r2. induction calls as [|c calls IH]; intros r1 r2 Hp H1 H2 Hf; [done|].
  cbn [foldl]. apply IH; destruct c as [s| |[]]; cbn; rewrite ?Hp; try done.
  all: unfold Report; rewrite ?Hp; destruct (default _ _) as [[] []]; cbn; try done.
  all: rewrite ?H1, ?H2, filter_app, Hf; done.
Qed.

Lemma reporter_calls_grow calls (r : patchReporter) :
  rep_patch (foldl reporter_call r calls) = [] → forallb call_equal calls = true ∧ rep_patch r = [].
Proof.
  revert r. induction calls as [|c calls IH]; intros r; [done|]. cbn [foldl]. intros [Hc Hr]%IH.
  cbn [forallb]. rewrite Hc. destruct c as [s| |[]]; cbn in *; try done.
  unfold Report in Hr. destruct (default _ _) as [[] []]; cbn in Hr; apply app_eq_nil in Hr as [_ Hr];
    try done; by apply app_eq_nil in Hr as [].
Qed.

(** A patch is empty exactly when the values are equal. *)
Lemma BuildPatch_nil before after options : BuildPatch before after options = [] ↔ cmp_Equal before after = true.
Proof.
  unfold BuildPatch. destruct (cmp_Equal before after) eqn:He; [done|]. split; [|done].
  intros [Hc _]%reporter_calls_grow. by rewrite cmp_reports, Hc in He.
Qed.

(** The tests are the only thing [WithTest] adds. *)
Lemma BuildPatch_tests before after :
  filter (λ op, is_test op = false) (BuildPatch before after (Some (mkPatchOptions true))) =
    BuildPatch before after None.
Proof. unfold BuildPatch. destruct (cmp_Equal before after); [done|]. by apply reporter_calls_tests. Qed.

End diff_facts.

(** ** Applying *)

Section apply_facts.
Context {E : Type} {CC : CypressClient E} {Y : Ypath} {G : GoCmp}.

Lemma SetNode_retry_enough {YL : YpathLaws Y} fuel dst value options e :
  (String.length dst < fuel)%nat →
  SetNode_retry fuel dst value options e =
    (Some (val_of (target_SetNode dst value options) e), run (target_SetNode dst value options) e).
Proof.
  intros Hf. unfold target_SetNode. go_step.
  assert (∀ n m dst value e, (String.length dst < n)%nat → (String.length dst < m)%nat →
    SetNode_retry n dst value options e = SetNode_retry m dst value options e ∧
    is_Some (val_of (SetNode_retry n dst value options) e)) as Hind.
  { clear -YL. induction n as [|n IH]; intros m dst value e Hn Hm; [lia|]. destruct m as [|m]; [lia|].
    cbn [SetNode_retry]. rewrite !go_bind_run, val_bind.
    destruct (val_of (cy_SetNode dst value options) e) as [er|]; [|by eauto].
    destruct options as [o|]; [|by eauto]. destruct (_ && _ && _); [|by eauto].
    destruct (path_Split dst) as [err2|[parent child]] eqn:Hs; [by eauto|].
    destruct (negb _); [|by rewrite go_bind_run, val_bind; eauto].
    apply IH; pose proof (f_equal String.length (Split_parts _ _ _ Hs)) as Hl;
      pose proof (Split_child _ _ _ Hs) as Hc; rewrite string_length_app in Hl;
      destruct child; cbn in Hl; try done; lia. }
  destruct (Hind fuel (S (String.length dst)) dst value e) as [Heq [r Hr]]; [lia|lia|].
  unfold val_of in Hr. rewrite Heq in *. unfold val_of, run. rewrite Hr. apply injective_projections; [exact Hr|done].
Qed.

(** Setting a node terminates: every retry drops a token of the path, so that one
    round more than the path has characters is enough; the result does not depend on how
    many more rounds are allowed, and it is never the lack of rounds. *)
Theorem SetNode_terminates {YL : YpathLaws Y} dst value options e :
  ∃ result e', ∀ fuel, (String.length dst < fuel)%nat →
    SetNode_retry fuel dst value options e = (Some result, e') ∧
    target_SetNode dst value options e = (result, e').
Proof.
  exists (val_of (target_SetNode dst value options) e), (run (target_SetNode dst value options) e).
  intros fuel Hf. split; [by apply SetNode_retry_enough|apply go_eta].
Qed.

(** The operations of a patch set with their positions, in the order of application. *)
Definition patch_steps (k : string) (i : nat) (patch : Patch) : list (string * nat * PatchOperation) :=
  imap (λ j op, (k, (i + j)%nat, op)) patch.

Definition patch_set_steps (ps : PatchSet) (keys : list string) : list (string * nat * PatchOperation) :=
  concat (map (λ k, patch_steps k 0 (default [] (ps !! k))) keys).

(** A sequence of steps that all succeed. *)
Inductive applied (dry : bool) (path : string) : list (string * nat * PatchOperation) → E → E → Prop :=
  | applied_nil e : applied dry path [] e e
  | applied_cons k i op steps e e' e'' :
      apply_op dry (path +:+ k) op e = (None, e') →
      applied dry path steps e' e'' →
      applied dry path ((k, i, op) :: steps) e e''.

Definition outcome (dry : bool) (path : string) (steps : list (string * nat * PatchOperation)) (e : E)
    (r : option yterror * E) : Prop :=
  match r with
  | (None, e') => applied dry path steps e e'
  | (Some err, e') => ∃ done k i op rest e1 cause,
      steps = done ++ (k, i, op) :: rest ∧ applied dry path done e e1 ∧
      apply_op dry (path +:+ k) op e1 = (Some cause, e') ∧
      err = step_error i ((path +:+ k) +:+ op_Path op) cause
  end.

Lemma outcome_cons dry path k i op steps e e' r :
  apply_op dry (path +:+ k) op e = (None, e') →
  outcome dry path steps e' r → outcome dry path ((k, i, op) :: steps) e r.
Proof.
  intros Hop. destruct r as [[err|] e'']; cbn; [|by econstructor].
  intros (done & k' & i' & op' & rest & e1 & cause & -> & Hd & Ha & ->).
  exists ((k, i, op) :: done), k', i', op', rest, e1, cause. split_and!; try done. by econstructor.
Qed.

Lemma patch_steps_cons k i op patch : patch_steps k i (op :: patch) = (k, i, op) :: patch_steps k (S i) patch.
Proof.
  unfold patch_steps. cbn. rewrite Nat.add_0_r. f_equal. apply imap_ext. intros j x _. cbn. do 2 f_equal. lia.
Qed.

Lemma apply_ops_outcome dry path k i patch e rest (r : option yterror * E → option yterror * E) :
  (∀ e', outcome dry path rest e' (r (None, e'))) →
  (∀ err e', r (Some err, e') = (Some err, e')) →
  outcome dry path (patch_steps k i patch ++ rest) e (r (apply_ops dry (path +:+ k) i patch e)).
Proof.
  intros Hr He. revert i e. induction patch as [|op patch IH]; intros i e; [apply Hr|].
  rewrite patch_steps_cons. cbn [apply_ops]. rewrite go_bind_run. unfold val_of, run.
  destruct (apply_op dry (path +:+ k) op e) as [[err|] e'] eqn:Hop; cbn [fst snd].
  - change (outcome dry path ((k, i, op) :: patch_steps k (S i) patch ++ rest) e
      (r (Some (step_error i ((path +:+ k) +:+ op_Path op) err), e'))). rewrite He. cbn.
    exists [], k, i, op, (patch_steps k (S i) patch ++ rest), e, err. split_and!; try done. constructor.
  - eapply outcome_cons; [exact Hop|apply IH].
Qed.

Lemma apply_keys_outcome dry path (ps : PatchSet) keys e :
  outcome dry path (patch_set_steps ps keys) e (apply_keys dry path ps keys e).
Proof.
  revert e. induction keys as [|k keys IH]; intros e; [constructor|].
  cbn [apply_keys patch_set_steps map concat].
  pose proof (apply_ops_outcome dry path k 0 (default [] (ps !! k)) e (patch_set_steps ps keys)
    (λ r, match r with (Some err, e') => (Some err, e') | (None, e') => apply_keys dry path ps keys e' end)
    IH ltac:(done)) as Ho.
  unfold ApplyPatch. rewrite go_bind_run. unfold val_of, run.
  by destruct (apply_ops dry (path +:+ k) 0 _ e) as [[err|] e'].
Qed.

(** C37.  Applying a patch set runs its operations path by path in the order of the paths and
    within a path in the order of the patch, and stops at the first that fails: on success
    every operation was carried out; on failure the operations before the failing one were,
    none after it, and the error names the position of the failing operation in its patch
    and the path it worked on, and keeps the cause. *)
Theorem ApplyPatchSet_outcome dry path (ps : PatchSet) e :
  match ApplyPatchSet dry path ps e with
  | (None, e') => applied dry path (patch_set_steps ps (sorted_keys ps)) e e'
  | (Some err, e') => ∃ done k i op rest e1 cause,
      patch_set_steps ps (sorted_keys ps) = done ++ (k, i, op) :: rest ∧
      applied dry path done e e1 ∧
      apply_op dry (path +:+ k) op e1 = (Some cause, e') ∧
      err = step_error i ((path +:+ k) +:+ op_Path op) cause
  end.
Proof. exact (apply_keys_outcome dry path ps (sorted_keys ps) e). Qed.

(** ** Dry runs and tests *)

Lemma apply_op_dry_run {CR : CypressReads E} path op e : run (apply_op true path op) e = e.
Proof.
  unfold apply_op. destruct (op_Op op); try done; rewrite run_bind, GetNode_reads; by destruct (val_of _ _).
Qed.

Lemma applied_dry_run {CR : CypressReads E} path steps e e' : applied true path steps e e' → e' = e.
Proof.
  induction 1 as [|k i op steps e e' e'' Hop _ IH]; [done|]. rewrite IH.
  pose proof (apply_op_dry_run (path +:+ k) op e) as Hr. unfold run in Hr. by rewrite Hop in Hr.
Qed.

(** A dry run of a patch set changes nothing in the cluster. *)
Lemma ApplyPatchSet_dry_run {CR : CypressReads E} path (ps : PatchSet) e :
  run (ApplyPatchSet true path ps) e = e.
Proof.
  pose proof (apply_keys_outcome true path ps (sorted_keys ps) e) as Ho. unfold run, ApplyPatchSet.
  destruct (apply_keys _ _ _ _ _) as [[err|] e']; cbn in *; [|by apply applied_dry_run in Ho].
  destruct Ho as (done & k & i & op & rest & e1 & cause & _ & Hd & Hop & _).
  apply applied_dry_run in Hd as ->. pose proof (apply_op_dry_run (path +:+ k) op e) as Hr.
  unfold run in Hr. by rewrite Hop in Hr.
Qed.

(** A test operation succeeds exactly when the node is there and equal to the value. *)
Lemma apply_op_test {GL : GoCmpLaws G} dry path p v e :
  val_of (apply_op dry path (Test p v)) e = None ↔
    ∃ tmp, val_of (cy_GetNode (path +:+ p)) e = inr tmp ∧ cmp_Equal tmp v = true.
Proof.
  unfold apply_op. cbn [op_Op Test op_Path op_Value]. go_step.
  destruct (val_of (cy_GetNode (path +:+ p)) e) as [err|tmp]; [split; [done|by intros (? & ? & _)]|].
  pose proof (BuildPatch_nil tmp v (Some (mkPatchOptions true))) as Hb.
  destruct (BuildPatch tmp v _); split; try done.
  - intros _. exists tmp. split; [done|by apply Hb].
  - intros (tmp' & [= <-] & Heq). by apply Hb in Heq.
Qed.

End apply_facts.

(** ** The order of the paths *)

Lemma string_compare_ok : cmp_ok string_compare.
Proof.
  assert (∀ x y, (string_compare x y ≤ 0)%Z ↔ String.le x y) as Hle.
  { intros x y. unfold string_compare, String.le, String.leb. destruct (String.compare x y); naive_solver lia. }
  split.
  - intros x y Hlt. unfold string_compare in *. rewrite String.compare_antisym.
    destruct (String.compare x y); cbn in *; lia.
  - intros x y z Hxy Hyz. apply Hle in Hxy, Hyz. apply Hle. by transitivity y.
Qed.

Lemma sorted_keys_elem {A} (m : gmap string A) k : k ∈ sorted_keys m ↔ is_Some (m !! k).
Proof.
  unfold sorted_keys. rewrite SortStableFunc_Permutation, list_elem_of_fmap. split.
  - intros ([k' x] & -> & Hx). apply elem_of_map_to_list in Hx. cbn. by exists x.
  - intros [x Hx]. exists (k, x). split; [done|]. by apply elem_of_map_to_list.
Qed.

Lemma sorted_keys_NoDup {A} (m : gmap string A) : NoDup (sorted_keys m).
Proof. unfold sorted_keys. rewrite SortStableFunc_Permutation. apply NoDup_fst_map_to_list. Qed.

(** The position of every path: each once, the smaller ones first. *)
Lemma sorted_keys_split {A} (m : gmap string A) a b :
  is_Some (m !! a) → is_Some (m !! b) → (string_compare a b < 0)%Z →
  ∃ l1 l2 l3, sorted_keys m = l1 ++ a :: l2 ++ b :: l3.
Proof.
  intros Ha%sorted_keys_elem Hb%sorted_keys_elem Hlt.
  pose proof (SortStableFunc_sorted _ string_compare_ok (map_to_list m).*1) as Hs. fold (sorted_keys m) in Hs.
  apply list_elem_of_split in Ha as (l1 & l2 & Heq). rewrite Heq in *.
  apply elem_of_app in Hb as [Hb|Hb].
  - exfalso. apply StronglySorted_app in Hs as [Hs _].
    specialize (Hs b a Hb ltac:(left)). cbn in Hs. unfold string_compare in *.
    rewrite String.compare_antisym in Hs. destruct (String.compare a b); cbn in *; lia.
  - apply elem_of_cons in Hb as [->|Hb].
    + exfalso. revert Hlt. unfold string_compare. pose proof (String.compare_antisym a a).
      by destruct (String.compare a a).
    + apply list_elem_of_split in Hb as (l3 & l4 & ->). by exists l1, l3, l4.
Qed.

Section order_facts.
Context {E : Type} {CC : CypressClient E} {Y : Ypath} {G : GoCmp}.

Lemma applied_app dry path steps1 steps2 (e e'' : E) :
  applied dry path (steps1 ++ steps2) e e'' ↔
    ∃ e', applied dry path steps1 e e' ∧ applied dry path steps2 e' e''.
Proof.
  revert e. induction steps1 as [|[[k i] op] steps1 IH]; intros e; cbn.
  - split; [intros H; exists e; split; [constructor|done]|]. intros (e1 & Hn & H). inversion Hn; subst; exact H.
  - split.
    + intros H. inversion H as [|? ? ? ? ? ? ? Hop Hrest]; subst. apply IH in Hrest as (e1 & H1 & H2).
      exists e1. split; [by econstructor|done].
    + intros (e1 & H1 & H2). inversion H1 as [|? ? ? ? ? ? ? Hop Hrest]; subst. econstructor; [done|].
      apply IH. by exists e1.
Qed.

(** The patches under paths that start with attributes, such as [<>//sys/clusters],
    see the effect of every patch under a plain path: when a patch set was applied, all
    operations of any path ["//..."] were carried out, in order, before the first operation
    of any path ["<>//..."]. *)
Theorem attributed_paths_last dry path (ps : PatchSet) p1 p2 a b (e e' : E) :
  ps !! ("//" +:+ a) = Some p1 → ps !! ("<>//" +:+ b) = Some p2 →
  ApplyPatchSet dry path ps e = (None, e') →
  ∃ before between after e1 e2 e3 e4,
    patch_set_steps ps (sorted_keys ps) =
      before ++ patch_steps ("//" +:+ a) 0 p1 ++ between ++ patch_steps ("<>//" +:+ b) 0 p2 ++ after ∧
    applied dry path before e e1 ∧
    applied dry path (patch_steps ("//" +:+ a) 0 p1) e1 e2 ∧
    applied dry path between e2 e3 ∧
    applied dry path (patch_steps ("<>//" +:+ b) 0 p2) e3 e4 ∧
    applied dry path after e4 e'.
Proof.
  intros H1 H2 Ha. pose proof (apply_keys_outcome dry path ps (sorted_keys ps) e) as Ho.
  unfold ApplyPatchSet in Ha. rewrite Ha in Ho. cbn in Ho.
  destruct (sorted_keys_split ps ("//" +:+ a) ("<>//" +:+ b)) as (l1 & l2 & l3 & Hk); [by eauto..|done|].
  assert (patch_set_steps ps (sorted_keys ps) = patch_set_steps ps l1 ++ patch_steps ("//" +:+ a) 0 p1 ++
    patch_set_steps ps l2 ++ patch_steps ("<>//" +:+ b) 0 p2 ++ patch_set_steps ps l3) as Hs.
  { rewrite Hk. unfold patch_set_steps. rewrite map_app, concat_app. cbn [map concat].
    rewrite map_app, concat_app. cbn [map concat]. by rewrite H1, H2. }
  rewrite Hs in Ho. repeat (apply applied_app in Ho as (? & ? & Ho)).
  do 7 eexists. split_and!; [exact Hs|done..].
Qed.

End order_facts.

(** ** A cluster that is a map from paths to values *)

Section example.

Definition FlatCypress : Type := gmap string Any.

Definition flat_missing (path : string) : yterror := mkYtError ("no such node: " +:+ path) true false.

#[export] Instance flat_client : CypressClient FlatCypress := {
  cy_GetNode path := λ e, (match e !! path with Some v => inr v | None => inl (flat_missing path) end, e);
  cy_SetNode path v _ := λ e, (None, <[path := v]> e);
  cy_RemoveNode path _ := λ e, (None, delete path e);
  cy_CreateNode path _ _ := λ e, (None, <[path := VMap ∅]> e);
  cy_ListNode path _ := λ e, (match e !! path with Some v => inr v | None => inl (flat_missing path) end, e);
  cy_CreateObject _ _ := λ e, (None, e);
  cy_AddMember _ _ := λ e, (None, e);
}.

#[export] Instance flat_reads : CypressReads FlatCypress.
Proof. split; done. Qed.

Definition slash : Ascii.ascii := Ascii.ascii_of_nat 47.

(** Cut at the last slash. *)
Fixpoint flat_split (path : string) : option (string * string) :=
  match path with
  | "" => None
  | String c rest =>
      match flat_split rest with
      | Some (p, q) => Some (String c p, q)
      | None => if Ascii.eqb c slash then Some ("", path) else None
      end
  end.

Definition flat_ypath : Ypath := {|
  path_Child path name := path +:+ "/" +:+ name;
  path_ListIndex path i := path +:+ "/" +:+ fmt_d i;
  path_Split path := match flat_split path with Some r => inr r | None => inl "no slash" end;
  path_SplitTokens path := if String.prefix "//" path then inr ["/"; path] else inr [path];
|}.

#[export] Instance flat_ypath_laws : YpathLaws flat_ypath.
Proof.
  assert (∀ path parent child, flat_split path = Some (parent, child) → path = parent +:+ child ∧ child ≠ "") as H.
  { induction path as [|c rest IH]; cbn; [done|]. intros parent child.
    destruct (flat_split rest) as [[p q]|]; [|by destruct (Ascii.eqb c slash); intros [= <- <-]].
    intros [= <- <-]. destruct (IH p q eq_refl) as [-> ?]. done. }
  split; intros path parent child; cbn; destruct (flat_split path) as [[? ?]|] eqn:Hs; intros [= <- <-];
    by apply H in Hs as [? ?].
Qed.

(** A comparison of strings, anything else being different. *)
Definition flat_cmp : GoCmp := {|
  cmp_Equal x y := match x, y with VString a, VString b => bool_decide (a = b) | _, _ => false end;
  cmp_calls x y := [CallPushStep (mkPathStep OtherStep (Some x, Some y));
    CallReport (match x, y with VString a, VString b => bool_decide (a = b) | _, _ => false end); CallPopStep];
|}.

#[export] Instance flat_cmp_laws : GoCmpLaws flat_cmp.
Proof. split; intros x y; cbn; [by eauto|]. by destruct x, y; cbn; rewrite ?andb_true_r. Qed.

Definition example_patch_set : PatchSet :=
  {[ "//sys" := [Add "/@cluster_connection" (VString "conn")];
     "<>//sys/clusters" := [Copy "/demo" "//sys/@cluster_connection"] ]}.

End example.

Lemma SetNode_terminates_witness : ∃ result e', ∀ fuel, (String.length "//sys/@a/b" < fuel)%nat →
  SetNode_retry (Y:=flat_ypath) fuel "//sys/@a/b" VNil (Some setOpts) (∅ : FlatCypress) = (Some result, e') ∧
  target_SetNode (Y:=flat_ypath) "//sys/@a/b" VNil (Some setOpts) (∅ : FlatCypress) = (result, e').
Proof. apply (SetNode_terminates (Y:=flat_ypath) "//sys/@a/b" VNil (Some setOpts) (∅ : FlatCypress)). Defined.

(** The copy under the attributed path finds the value the other patch has written. *)
Lemma attributed_paths_last_witness :
  ∃ before between after e1 e2 e3 e4,
    patch_set_steps example_patch_set (sorted_keys example_patch_set) =
      before ++ patch_steps ("//" +:+ "sys") 0 [Add "/@cluster_connection" (VString "conn")] ++
      between ++ patch_steps ("<>//" +:+ "sys/clusters") 0 [Copy "/demo" "//sys/@cluster_connection"] ++ after ∧
    applied (Y:=flat_ypath) (G:=flat_cmp) false "" before (∅ : FlatCypress) e1 ∧
    applied (Y:=flat_ypath) (G:=flat_cmp) false ""
      (patch_steps ("//" +:+ "sys") 0 [Add "/@cluster_connection" (VString "conn")]) e1 e2 ∧
    applied (Y:=flat_ypath) (G:=flat_cmp) false "" between e2 e3 ∧
    applied (Y:=flat_ypath) (G:=flat_cmp) false ""
      (patch_steps ("<>//" +:+ "sys/clusters") 0 [Copy "/demo" "//sys/@cluster_connection"]) e3 e4 ∧
    applied (Y:=flat_ypath) (G:=flat_cmp) false "" after e4
      (<["<>//sys/clusters/demo" := VString "conn"]> {["//sys/@cluster_connection" := VString "conn"]}).
Proof.
  apply (attributed_paths_last (Y:=flat_ypath) (G:=flat_cmp) false "" example_patch_set
    [Add "/@cluster_connection" (VString "conn")] [Copy "/demo" "//sys/@cluster_connection"]
    "sys" "sys/clusters"); vm_compute; reflexivity.
Defined.

Lemma example_AddPatchSet :
  AddPatchSet {["//a" := [Remove "/x"]]} {["//a" := [Add "/x" VNil]; "//b" := []]} =
    {["//a" := [Add "/x" VNil; Remove "/x"]; "//b" := []]}.
Proof. vm_compute. reflexivity. Qed.
