(* ===== verification/Kubernetes.v ===== *)
(** * Kubernetes API machinery the operator builds on

    The operator keeps its memory in [metav1.Condition] lists and manipulates them with
    [k8s.io/apimachinery/pkg/api/meta], which is not part of this repository.  The
    operations are therefore a parameter of the development (class [MetaConditions]) with
    their documented behaviour as laws (class [MetaConditionsLaws]); [ReferenceMeta] is a
    function that satisfies them, used to evaluate the model on concrete inputs. *)

From S2P Require Import Prelude.

(** ** Quantities

    [resource.Quantity] is a fixed-point number of at most nine decimal places; the record
    holds it as a count of nano units. *)

Record Quantity := mkQuantity { q_nano : Z }.

#[global] Instance Quantity_eq_dec : EqDecision Quantity.
Proof. solve_decision. Defined.

(** The zero value of the struct. *)
Definition QuantityZero : Quantity := mkQuantity 0.

(** ** Conditions *)

Inductive ConditionStatus : Type := ConditionTrue | ConditionFalse | ConditionUnknown.

#[global] Instance ConditionStatus_eq_dec : EqDecision ConditionStatus.
Proof. solve_decision. Defined.

(** Times are seconds; zero is the zero [metav1.Time]. *)
Record Condition := mkCondition {
  cond_Type : string;
  cond_Status : ConditionStatus;
  cond_ObservedGeneration : Z;
  cond_LastTransitionTime : Z;
  cond_Reason : string;
  cond_Message : string;
}.

#[global] Instance Condition_eq_dec : EqDecision Condition.
Proof. solve_decision. Defined.

(** A condition literal as the sources write it: type, status, reason and message, the
    other fields zero. *)
Definition condition (type : string) (status : ConditionStatus) (reason message : string) : Condition :=
  mkCondition type status 0 0 reason message.

Definition set_ObservedGeneration (g : Z) (c : Condition) : Condition :=
  mkCondition (cond_Type c) (cond_Status c) g (cond_LastTransitionTime c)
    (cond_Reason c) (cond_Message c).

(** The fields of a condition other than its transition time. *)
Definition cond_content (c : Condition) : string * ConditionStatus * Z * string * string :=
  (cond_Type c, cond_Status c, cond_ObservedGeneration c, cond_Reason c, cond_Message c).

(** ** The operations of [apimachinery/pkg/api/meta] *)

Class MetaConditions := {
  FindStatusCondition : list Condition → string → option Condition;
  (** [meta.SetStatusCondition(&conditions, c)] at time [now]: the new list and whether
      it has changed. *)
  meta_SetStatusCondition : Z → list Condition → Condition → list Condition * bool;
  meta_RemoveStatusCondition : list Condition → string → list Condition;
}.

Definition meta_IsStatusConditionPresentAndEqual `{MetaConditions}
    (l : list Condition) (t : string) (st : ConditionStatus) : bool :=
  match FindStatusCondition l t with
  | Some c => cond_Status c == st
  | None => false
  end.

Definition meta_IsStatusConditionTrue `{MetaConditions} l t :=
  meta_IsStatusConditionPresentAndEqual l t ConditionTrue.

Definition meta_IsStatusConditionFalse `{MetaConditions} l t :=
  meta_IsStatusConditionPresentAndEqual l t ConditionFalse.

(** The list invariant the API server enforces on conditions: [type] is the list-map key. *)
Definition unique_types (l : list Condition) : Prop := NoDup (cond_Type <$> l).

(** What the package documents:
    - [FindStatusCondition] "finds the conditionType in conditions";
    - [SetStatusCondition] "sets the corresponding condition in conditions to newCondition
      and returns true if the conditions are changed by this call": an existing condition
      of the type is updated in place, with the transition time moved only when the status
      differs, otherwise the condition is appended;
    - [RemoveStatusCondition] "removes the corresponding conditionType from conditions". *)
Class MetaConditionsLaws (MC : MetaConditions) : Prop := {
  find_Some : ∀ l t c, FindStatusCondition l t = Some c → c ∈ l ∧ cond_Type c = t;
  find_None : ∀ l t, FindStatusCondition l t = None → ∀ c, c ∈ l → cond_Type c ≠ t;
  set_unique : ∀ now l c, unique_types l → unique_types (meta_SetStatusCondition now l c).1;
  set_same : ∀ now l c, unique_types l →
    ∃ c', FindStatusCondition (meta_SetStatusCondition now l c).1 (cond_Type c) = Some c' ∧
          cond_content c' = cond_content c;
  set_other : ∀ now l c t, unique_types l → t ≠ cond_Type c →
    FindStatusCondition (meta_SetStatusCondition now l c).1 t = FindStatusCondition l t;
  set_unchanged : ∀ now l c, (meta_SetStatusCondition now l c).2 = false →
    (meta_SetStatusCondition now l c).1 = l;
  set_idempotent : ∀ now l c old, unique_types l →
    FindStatusCondition l (cond_Type c) = Some old → cond_content old = cond_content c →
    (meta_SetStatusCondition now l c).2 = false;
  remove_unique : ∀ l t, unique_types l → unique_types (meta_RemoveStatusCondition l t);
  remove_same : ∀ l t, FindStatusCondition (meta_RemoveStatusCondition l t) t = None;
  remove_other : ∀ l t t', unique_types l → t' ≠ t →
    FindStatusCondition (meta_RemoveStatusCondition l t) t' = FindStatusCondition l t';
}.

(** *** Consequences of the laws *)

Section find_facts.
Context {MC : MetaConditions} {ML : MetaConditionsLaws MC}.

(** A lookup does not depend on the order of a list with unique types. *)
Lemma find_elem l c : unique_types l → c ∈ l → FindStatusCondition l (cond_Type c) = Some c.
Proof.
  intros Hu Hc. destruct (FindStatusCondition l (cond_Type c)) as [c'|] eqn:E.
  - apply find_Some in E as [Hc' Ht]. f_equal.
    apply list_elem_of_lookup in Hc as [i Hi]. apply list_elem_of_lookup in Hc' as [j Hj].
    assert (i = j) as ->; [|naive_solver].
    eapply NoDup_lookup; [exact Hu| |]; rewrite list_lookup_fmap.
    + by rewrite Hi.
    + by rewrite Hj; cbn; rewrite Ht.
  - exfalso. by apply (find_None l _ E c).
Qed.

Lemma find_Permutation l l' t :
  unique_types l → l ≡ₚ l' → FindStatusCondition l' t = FindStatusCondition l t.
Proof.
  intros Hu Hp. assert (unique_types l') as Hu'.
  { unfold unique_types in *. by rewrite <- Hp. }
  destruct (FindStatusCondition l t) as [c|] eqn:E.
  - apply find_Some in E as [Hc <-]. apply find_elem; [done|]. by rewrite <- Hp.
  - destruct (FindStatusCondition l' t) as [c|] eqn:E'; [|done].
    apply find_Some in E' as [Hc Ht]. rewrite <- Hp in Hc.
    by destruct (find_None l t E c).
Qed.

Lemma unique_types_Permutation l l' : l ≡ₚ l' → unique_types l → unique_types l'.
Proof. intros Hp. unfold unique_types. by rewrite Hp. Qed.

End find_facts.

(** ** A model of the laws *)

Section reference_meta.

Fixpoint ref_find (l : list Condition) (t : string) : option Condition :=
  match l with
  | [] => None
  | c :: l' => if cond_Type c == t then Some c else ref_find l' t
  end.

Definition ref_updated (now : Z) (old c : Condition) : Condition :=
  mkCondition (cond_Type c) (cond_Status c) (cond_ObservedGeneration c)
    (if cond_Status old == cond_Status c then cond_LastTransitionTime old
     else if cond_LastTransitionTime c == 0%Z then now else cond_LastTransitionTime c)
    (cond_Reason c) (cond_Message c).

Fixpoint ref_set (now : Z) (l : list Condition) (c : Condition) : list Condition * bool :=
  match l with
  | [] => ([if cond_LastTransitionTime c == 0%Z
            then mkCondition (cond_Type c) (cond_Status c) (cond_ObservedGeneration c) now
                   (cond_Reason c) (cond_Message c)
            else c], true)
  | old :: l' =>
      if cond_Type old == cond_Type c
      then (ref_updated now old c :: l', negb (ref_updated now old c == old))
      else let '(l'', b) := ref_set now l' c in (old :: l'', b)
  end.

Definition ref_remove (l : list Condition) (t : string) : list Condition :=
  filter (λ c, cond_Type c ≠ t) l.

End reference_meta.

#[global] Instance ReferenceMeta : MetaConditions := {
  FindStatusCondition := ref_find;
  meta_SetStatusCondition := ref_set;
  meta_RemoveStatusCondition := ref_remove;
}.

Lemma ref_find_Some l t c : ref_find l t = Some c → c ∈ l ∧ cond_Type c = t.
Proof.
  induction l as [|x l IH]; cbn; [done|]. case_bool_decide; [intros [= <-]; by split; [left|]|].
  intros H'. destruct (IH H'). split; [by right|done].
Qed.

Lemma ref_find_None l t : ref_find l t = None → ∀ c, c ∈ l → cond_Type c ≠ t.
Proof.
  induction l as [|x l IH]; cbn; [intros _ c Hc; by apply elem_of_nil in Hc|].
  case_bool_decide; [done|]. intros H' c [->|Hc]%elem_of_cons; auto.
Qed.

Lemma ref_set_types now l c :
  cond_Type <$> (ref_set now l c).1 =
    if decide (cond_Type c ∈ cond_Type <$> l) then cond_Type <$> l
    else (cond_Type <$> l) ++ [cond_Type c].
Proof.
  induction l as [|x l IH].
  - rewrite decide_False by apply not_elem_of_nil. cbn. by case_bool_decide.
  - cbn [ref_set]. rewrite !fmap_cons. case_bool_decide as E; cbn.
    + rewrite decide_True by (rewrite elem_of_cons; by left). by rewrite E.
    + destruct (ref_set now l c) as [l' b] eqn:E'. cbn in *. rewrite IH.
      destruct (decide (cond_Type c ∈ cond_Type <$> l)) as [Hd|Hd].
      * by rewrite decide_True by (rewrite elem_of_cons; by right).
      * by rewrite decide_False by (rewrite elem_of_cons; intros [?|?]; congruence).
Qed.

Lemma ref_set_same now l c :
  ∃ c', ref_find (ref_set now l c).1 (cond_Type c) = Some c' ∧ cond_content c' = cond_content c.
Proof.
  assert (bool_decide (cond_Type c = cond_Type c) = true) as Hc by by rewrite bool_decide_eq_true.
  induction l as [|x l IH]; cbn.
  - destruct (_ == 0%Z); cbn; rewrite Hc; eauto.
  - destruct (bool_decide_reflect (cond_Type x = cond_Type c)) as [E|E]; cbn.
    { rewrite Hc. eauto. }
    destruct (ref_set now l c) as [l' b]. cbn in *. by rewrite (bool_decide_eq_false_2 _ E).
Qed.

Lemma ref_set_other now l c t :
  t ≠ cond_Type c → ref_find (ref_set now l c).1 t = ref_find l t.
Proof.
  intros Ht. assert (bool_decide (cond_Type c = t) = false) as Hc.
  { rewrite bool_decide_eq_false. congruence. }
  induction l as [|x l IH]; cbn.
  - destruct (_ == 0%Z); cbn; by rewrite Hc.
  - destruct (bool_decide_reflect (cond_Type x = cond_Type c)) as [E|E]; cbn.
    { by rewrite E, Hc. }
    destruct (ref_set now l c) as [l' b]. cbn in *. by rewrite IH.
Qed.

Lemma ref_set_unchanged now l c : (ref_set now l c).2 = false → (ref_set now l c).1 = l.
Proof.
  induction l as [|x l IH]; cbn; [done|]. case_bool_decide as E; cbn.
  - rewrite negb_false_iff, bool_decide_eq_true. by intros ->.
  - destruct (ref_set now l c) as [l' b]. cbn in *. intros ->. by rewrite IH.
Qed.

Lemma ref_set_idempotent now l c old :
  ref_find l (cond_Type c) = Some old → cond_content old = cond_content c →
  (ref_set now l c).2 = false.
Proof.
  induction l as [|x l IH]; cbn; [done|]. case_bool_decide as E; cbn.
  - intros [= ->] Hc. rewrite negb_false_iff, bool_decide_eq_true.
    destruct old, c. unfold cond_content, ref_updated in *. cbn in *. simplify_eq.
    by rewrite bool_decide_eq_true_2.
  - destruct (ref_set now l c) as [l' b]. cbn in *. auto.
Qed.

Lemma ref_find_remove l t t' :
  ref_find (ref_remove l t) t' = if t == t' then None else ref_find l t'.
Proof.
  unfold ref_remove. induction l as [|x l IH]; [by case_bool_decide|].
  rewrite filter_cons. destruct (decide (cond_Type x ≠ t)) as [Hd|Hd]; cbn [ref_find];
    rewrite IH.
  - destruct (bool_decide_reflect (cond_Type x = t')); [|done].
    rewrite bool_decide_eq_false_2; congruence.
  - destruct (bool_decide_reflect (t = t')) as [->|Hne]; [done|].
    rewrite bool_decide_eq_false_2; [done|]. apply dec_stable in Hd. congruence.
Qed.

#[global] Instance ReferenceMeta_laws : MetaConditionsLaws ReferenceMeta.
Proof.
  split; cbn.
  - apply ref_find_Some.
  - apply ref_find_None.
  - intros now l c Hu. unfold unique_types in *. rewrite ref_set_types.
    case_decide as Hd; [done|]. apply NoDup_app. split; [done|]. split.
    + intros x Hx Hx'. apply list_elem_of_singleton in Hx' as ->. done.
    + apply NoDup_singleton.
  - intros. apply ref_set_same.
  - intros. by apply ref_set_other.
  - apply ref_set_unchanged.
  - intros now l c old _. apply ref_set_idempotent.
  - intros l t Hu. unfold unique_types, ref_remove in *.
    induction l as [|x l IH]; [done|]. rewrite fmap_cons, NoDup_cons in Hu.
    destruct Hu as [Hx Hu]. rewrite filter_cons. case_decide; [|by apply IH].
    rewrite fmap_cons, NoDup_cons. split; [|by apply IH].
    rewrite list_elem_of_fmap. intros (y & Hy & Hin). apply list_elem_of_filter in Hin as [_ Hin].
    apply Hx. rewrite list_elem_of_fmap. eauto.
  - intros l t. rewrite ref_find_remove. by rewrite bool_decide_eq_true_2.
  - intros l t t' _ Hne. rewrite ref_find_remove. by rewrite bool_decide_eq_false_2.
Qed.
