(* ===== verification/ApiTypes.v ===== *)
(** * The API types (src/api/v1, src/pkg/consts)

    The string enumerations of the custom resource become inductive types with one
    constructor per Go constant and an [...Other] constructor for any other string the
    API server may hold; [..._string] is the Go conversion to [string].  Structs become
    records that keep the fields the modelled code reads or writes, each field named
    after the struct and the Go field. *)

From S2P Require Import Prelude Kubernetes.

(** ** Component types and classes (components.go) *)

Inductive ComponentType : Type :=
  | BundleControllerType | ControllerAgentType | ChytType | ClusterConnectionType
  | CypressProxyType | DataNodeType | DiscoveryType | ExecNodeType | HttpProxyType
  | ImageHeaterType | KafkaProxyType | MasterCacheType | MasterType
  | NativeClientConfigType | OffshoreDataGatewayType | QueryTrackerType | QueueAgentType
  | RpcProxyType | SchedulerType | SpytType | StrawberryControllerType
  | TabletBalancerType | TabletNodeType | TcpProxyType | TimbertruckType | UIType
  | YqlAgentType | YtsaurusClientType
  | ComponentTypeOther (s : string).

#[global] Instance ComponentType_eq_dec : EqDecision ComponentType.
Proof. solve_decision. Defined.

Definition ComponentType_string (t : ComponentType) : string :=
  match t with
  | BundleControllerType => "BundleController"
  | ControllerAgentType => "ControllerAgent"
  | ChytType => "CHYT"
  | ClusterConnectionType => "ClusterConnection"
  | CypressProxyType => "CypressProxy"
  | DataNodeType => "DataNode"
  | DiscoveryType => "Discovery"
  | ExecNodeType => "ExecNode"
  | HttpProxyType => "HttpProxy"
  | ImageHeaterType => "ImageHeater"
  | KafkaProxyType => "KafkaProxy"
  | MasterCacheType => "MasterCache"
  | MasterType => "Master"
  | NativeClientConfigType => "NativeClientConfig"
  | OffshoreDataGatewayType => "OffshoreDataGateway"
  | QueryTrackerType => "QueryTracker"
  | QueueAgentType => "QueueAgent"
  | RpcProxyType => "RpcProxy"
  | SchedulerType => "Scheduler"
  | SpytType => "SPYT"
  | StrawberryControllerType => "StrawberryController"
  | TabletBalancerType => "TabletBalancer"
  | TabletNodeType => "TabletNode"
  | TcpProxyType => "TcpProxy"
  | TimbertruckType => "Timbertruck"
  | UIType => "UI"
  | YqlAgentType => "YqlAgent"
  | YtsaurusClientType => "YtsaurusClient"
  | ComponentTypeOther s => s
  end.

(** The empty component type of a selector that names none. *)
Definition ComponentTypeEmpty : ComponentType := ComponentTypeOther "".

Inductive ComponentClass : Type :=
  | ComponentClassUnspecified | ComponentClassNothing | ComponentClassEverything
  | ComponentClassStateless | ComponentClassOther (s : string).

#[global] Instance ComponentClass_eq_dec : EqDecision ComponentClass.
Proof. solve_decision. Defined.

Definition ComponentClass_string (c : ComponentClass) : string :=
  match c with
  | ComponentClassUnspecified => ""
  | ComponentClassNothing => "Nothing"
  | ComponentClassEverything => "Everything"
  | ComponentClassStateless => "Stateless"
  | ComponentClassOther s => s
  end.

Record Component := mkComponent { component_Type : ComponentType; component_Name : string }.

#[global] Instance Component_eq_dec : EqDecision Component.
Proof. solve_decision. Defined.

Definition LocalComponentTypes : list ComponentType :=
  [ BundleControllerType; TabletBalancerType; ControllerAgentType; DataNodeType;
    DiscoveryType; ExecNodeType; HttpProxyType; MasterCacheType; MasterType;
    QueryTrackerType; QueueAgentType; RpcProxyType; SchedulerType;
    StrawberryControllerType; TabletNodeType; TcpProxyType; KafkaProxyType;
    YqlAgentType; ClusterConnectionType; NativeClientConfigType; ImageHeaterType ].

(** ** Cluster maintenance *)

Inductive ClusterShutdown : Type :=
  | ClusterShutdownNone | ClusterShutdownCompute | ClusterShutdownEverything
  | ClusterShutdownExceptMasters | ClusterShutdownTablets
  | ClusterShutdownOther (s : string).

#[global] Instance ClusterShutdown_eq_dec : EqDecision ClusterShutdown.
Proof. solve_decision. Defined.

Definition ClusterShutdown_string (s : ClusterShutdown) : string :=
  match s with
  | ClusterShutdownNone => ""
  | ClusterShutdownCompute => "Compute"
  | ClusterShutdownEverything => "Everything"
  | ClusterShutdownExceptMasters => "ExceptMasters"
  | ClusterShutdownTablets => "Tablets"
  | ClusterShutdownOther s => s
  end.

Record ClusterMaintenance := mkClusterMaintenance {
  cmt_Shutdown : ClusterShutdown;
  cmt_AssignMasterCellsRoles : bool;
}.

(** The zero value of the Go struct. *)
Definition ClusterMaintenanceZero : ClusterMaintenance :=
  mkClusterMaintenance ClusterShutdownNone false.

(** ** Cluster states and update states *)

Inductive ClusterState : Type :=
  | ClusterStateEmpty
  | ClusterStateCreated | ClusterStateInitializing | ClusterStatePreparing
  | ClusterStateRunning | ClusterStateReconfiguration | ClusterStateMaintenance
  | ClusterStateUpdating | ClusterStateUpdateCanceled | ClusterStateUpdateBlocked
  | ClusterStateUpdateFinished
  | ClusterStateOther (s : string).

#[global] Instance ClusterState_eq_dec : EqDecision ClusterState.
Proof. solve_decision. Defined.

Definition ClusterState_string (s : ClusterState) : string :=
  match s with
  | ClusterStateEmpty => ""
  | ClusterStateCreated => "Created"
  | ClusterStateInitializing => "Initializing"
  | ClusterStatePreparing => "Preparing"
  | ClusterStateRunning => "Running"
  | ClusterStateReconfiguration => "Reconfiguration"
  | ClusterStateMaintenance => "Maintenance"
  | ClusterStateUpdating => "Updating"
  | ClusterStateUpdateCanceled => "UpdateCanceled"
  | ClusterStateUpdateBlocked => "UpdateBlocked"
  | ClusterStateUpdateFinished => "UpdateFinished"
  | ClusterStateOther s => s
  end.

Inductive UpdateState : Type :=
  | UpdateStateUndefined
  | UpdateStateNone
  | UpdateStateWaitingForImageHeater
  | UpdateStatePossibilityCheck
  | UpdateStateImpossibleToStart
  | UpdateStateWaitingForSafeModeEnabled
  | UpdateStateWaitingForTabletCellsSaving
  | UpdateStateWaitingForTabletCellsRemovingStart
  | UpdateStateWaitingForTabletCellsRemoved
  | UpdateStateWaitingForImaginaryChunksAbsence
  | UpdateStateWaitingForSnapshots
  | UpdateStateWaitingForPodsRemoval
  | UpdateStateWaitingForPodsCreation
  | UpdateStateWaitingForMasterReady
  | UpdateStateWaitingForMasterEnterReadOnly
  | UpdateStateWaitingForMasterExitReadOnly
  | UpdateStateWaitingForMasterCellsEnterReadOnly
  | UpdateStateWaitingForMasterCellsExitReadOnly
  | UpdateStateWaitingForMasterCellsPreparation
  | UpdateStateWaitingForMasterCellsAcception
  | UpdateStateWaitingForMasterCellsRegistration
  | UpdateStateWaitingForMasterCellsSettlement
  | UpdateStateWaitingForMasterCellsCompletion
  | UpdateStateWaitingForCypressPatch
  | UpdateStateWaitingForTabletCellsRecovery
  | UpdateStateWaitingForOpArchiveUpdate
  | UpdateStateWaitingForSidecarsInitializingPrepare
  | UpdateStateWaitingForSidecarsInitialize
  | UpdateStateWaitingForQTStateUpdatingPrepare
  | UpdateStateWaitingForQTStateUpdate
  | UpdateStateWaitingForQAStateUpdatingPrepare
  | UpdateStateWaitingForQAStateUpdate
  | UpdateStateWaitingForYqlaUpdate
  | UpdateStateWaitingForSafeModeDisabled
  | UpdateStateWaitingForTimbertruckPrepared
  | UpdateStateOther (s : string).

#[global] Instance UpdateState_eq_dec : EqDecision UpdateState.
Proof. solve_decision. Defined.

Definition UpdateState_string (s : UpdateState) : string :=
  match s with
  | UpdateStateUndefined => ""
  | UpdateStateNone => "None"
  | UpdateStateWaitingForImageHeater => "WaitingForImageHeater"
  | UpdateStatePossibilityCheck => "PossibilityCheck"
  | UpdateStateImpossibleToStart => "ImpossibleToStart"
  | UpdateStateWaitingForSafeModeEnabled => "WaitingForSafeModeEnabled"
  | UpdateStateWaitingForTabletCellsSaving => "WaitingForTabletCellsSaving"
  | UpdateStateWaitingForTabletCellsRemovingStart => "WaitingForTabletCellsRemovingStart"
  | UpdateStateWaitingForTabletCellsRemoved => "WaitingForTabletCellsRemoved"
  | UpdateStateWaitingForImaginaryChunksAbsence => "WaitingForImaginaryChunksAbsence"
  | UpdateStateWaitingForSnapshots => "WaitingForSnapshots"
  | UpdateStateWaitingForPodsRemoval => "WaitingForPodsRemoval"
  | UpdateStateWaitingForPodsCreation => "WaitingForPodsCreation"
  | UpdateStateWaitingForMasterReady => "WaitingForMasterReady"
  | UpdateStateWaitingForMasterEnterReadOnly => "WaitingForMasterEnterReadOnly"
  | UpdateStateWaitingForMasterExitReadOnly => "WaitingForMasterExitReadOnly"
  | UpdateStateWaitingForMasterCellsEnterReadOnly => "WaitingForMasterCellsEnterReadOnly"
  | UpdateStateWaitingForMasterCellsExitReadOnly => "WaitingForMasterCellsExitReadOnly"
  | UpdateStateWaitingForMasterCellsPreparation => "WaitingForMasterCellsPreparation"
  | UpdateStateWaitingForMasterCellsAcception => "WaitingForMasterCellsAcception"
  | UpdateStateWaitingForMasterCellsRegistration => "WaitingForMasterCellsRegistration"
  | UpdateStateWaitingForMasterCellsSettlement => "WaitingForMasterCellsSettlement"
  | UpdateStateWaitingForMasterCellsCompletion => "WaitingForMasterCellsCompletion"
  | UpdateStateWaitingForCypressPatch => "WaitingForCypressPatch"
  | UpdateStateWaitingForTabletCellsRecovery => "WaitingForTabletCellsRecovery"
  | UpdateStateWaitingForOpArchiveUpdate => "WaitingForOpArchiveUpdate"
  | UpdateStateWaitingForSidecarsInitializingPrepare =>
      "WaitingForSidecarsInitializingPrepare"
  | UpdateStateWaitingForSidecarsInitialize => "WaitingForSidecarsInitialize"
  | UpdateStateWaitingForQTStateUpdatingPrepare => "WaitingForQTStateUpdatingPrepare"
  | UpdateStateWaitingForQTStateUpdate => "WaitingForQTStateUpdate"
  | UpdateStateWaitingForQAStateUpdatingPrepare => "WaitingForQAStateUpdatingPrepare"
  | UpdateStateWaitingForQAStateUpdate => "WaitingForQAStateUpdate"
  | UpdateStateWaitingForYqlaUpdate => "WaitingForYqlaUpdate"
  | UpdateStateWaitingForSafeModeDisabled => "WaitingForSafeModeDisabled"
  | UpdateStateWaitingForTimbertruckPrepared => "WaitingForTimbertruckPrepared"
  | UpdateStateOther s => s
  end.

(** ** Update strategies and selectors *)

Inductive ComponentUpdateModeType : Type :=
  | ComponentUpdateModeTypeNone
  | ComponentUpdateModeTypeBulkUpdate
  | ComponentUpdateModeTypeRollingUpdate
  | ComponentUpdateModeTypeOnDelete.

#[global] Instance ComponentUpdateModeType_eq_dec : EqDecision ComponentUpdateModeType.
Proof. solve_decision. Defined.

(** The Go values are pointers to empty structs: only their presence matters. *)
Record ComponentUpdateStrategy := mkStrategy {
  strat_RunPreChecks : option bool;
  strat_RollingUpdate : option unit;
  strat_OnDelete : option unit;
}.

Definition ComponentUpdateStrategy_Type (m : ComponentUpdateStrategy) : ComponentUpdateModeType :=
  match strat_RollingUpdate m, strat_OnDelete m with
  | Some _, _ => ComponentUpdateModeTypeRollingUpdate
  | None, Some _ => ComponentUpdateModeTypeOnDelete
  | None, None => ComponentUpdateModeTypeBulkUpdate
  end.

Record ComponentUpdateSelector := mkSelector {
  sel_Class : ComponentClass;
  sel_Component : Component;
  sel_Concurrency : option Z;
  sel_Strategy : option ComponentUpdateStrategy;
}.

(** The empty Go string is [ComponentUpdateModeTypeNone]. *)
Definition GetUpdateStrategyType (selector : option ComponentUpdateSelector) : ComponentUpdateModeType :=
  match selector with
  | None => ComponentUpdateModeTypeNone
  | Some s =>
      match sel_Strategy s with
      | None => ComponentUpdateModeTypeNone
      | Some m => ComponentUpdateStrategy_Type m
      end
  end.

(** The zero value of the selector struct. *)
Definition SelectorZero : ComponentUpdateSelector :=
  mkSelector ComponentClassUnspecified (mkComponent ComponentTypeEmpty "") None None.

(** ** Master cells (ytsaurus_config.go) *)

Record MasterCellMaintenanceInfo := mkMasterCellMaintenanceInfo {
  mcm_CellTag : Z;
  mcm_Unregistered : bool;
}.

Inductive MasterCellRole : Type :=
  | MasterCellRoleCypressNodeHost | MasterCellRoleTransactionCoordinator
  | MasterCellRoleChunkHost | MasterCellRoleDedicatedChunkHost
  | MasterCellRoleOther (s : string).

#[global] Instance MasterCellRole_eq_dec : EqDecision MasterCellRole.
Proof. solve_decision. Defined.

Definition GetMasterCellRoles (roles : option (list MasterCellRole)) (isPrimary isMulticell : bool)
    : list MasterCellRole :=
  match roles with
  | Some roles => roles
  | None =>
      if isPrimary && isMulticell then
        [MasterCellRoleCypressNodeHost; MasterCellRoleTransactionCoordinator]
      else if isPrimary then
        [MasterCellRoleCypressNodeHost; MasterCellRoleTransactionCoordinator;
         MasterCellRoleChunkHost]
      else
        [MasterCellRoleCypressNodeHost; MasterCellRoleChunkHost]
  end.

(** ** Locations and volume mounts *)

Inductive LocationType : Type :=
  | LocationTypeChunkStore | LocationTypeChunkCache | LocationTypeSlots | LocationTypeLogs
  | LocationTypeMasterChangelogs | LocationTypeMasterSnapshots | LocationTypeImageCache
  | LocationTypeJobProxyLogs | LocationTypeInitJobLogs
  | LocationTypeOther (s : string).

#[global] Instance LocationType_eq_dec : EqDecision LocationType.
Proof. solve_decision. Defined.

Definition LocationType_string (t : LocationType) : string :=
  match t with
  | LocationTypeChunkStore => "ChunkStore"
  | LocationTypeChunkCache => "ChunkCache"
  | LocationTypeSlots => "Slots"
  | LocationTypeLogs => "Logs"
  | LocationTypeMasterChangelogs => "MasterChangelogs"
  | LocationTypeMasterSnapshots => "MasterSnapshots"
  | LocationTypeImageCache => "ImageCache"
  | LocationTypeJobProxyLogs => "JobProxyLogs"
  | LocationTypeInitJobLogs => "InitJobLogs"
  | LocationTypeOther s => s
  end.

Record LocationSpec := mkLocationSpec {
  loc_LocationType : LocationType;
  loc_Path : string;
  loc_Medium : string;
  loc_Quota : option Quantity;
  loc_LowWatermark : option Quantity;
  loc_MaxTrashMilliseconds : option Z;
}.

Fixpoint FindFirstLocation (locations : list LocationSpec) (t : LocationType) : option LocationSpec :=
  match locations with
  | [] => None
  | location :: rest =>
      if loc_LocationType location == t then Some location else FindFirstLocation rest t
  end.

Definition FindAllLocations (locations : list LocationSpec) (t : LocationType) : list LocationSpec :=
  List.filter (λ location, loc_LocationType location == t) locations.

(** [corev1.VolumeMount]. *)
Record VolumeMount := mkVolumeMount {
  vm_Name : string;
  vm_MountPath : string;
  vm_MountPropagation : option string;
  vm_ReadOnly : bool;
  vm_SubPath : string;
  vm_SubPathExpr : string;
}.

(** A mount of a whole volume. *)
Definition volumeMount (name path : string) (readOnly : bool) : VolumeMount :=
  mkVolumeMount name path None readOnly "" "".

(** [corev1.ResourceRequirements] and [corev1.VolumeResourceRequirements]. *)
Record ResourceRequirements := mkResourceRequirements {
  rr_Requests : gmap string Quantity;
  rr_Limits : gmap string Quantity;
}.

Definition ResourceRequirementsZero : ResourceRequirements := mkResourceRequirements ∅ ∅.

(** The template of a persistent volume claim: its name and [Spec.Resources]. *)
Record EmbeddedPersistentVolumeClaim := mkEmbeddedPersistentVolumeClaim {
  pvc_Name : string;
  pvc_Resources : ResourceRequirements;
}.

(** Of the sources of a volume, those whose size the operator reads: [EmptyDir] with its
    [SizeLimit], [Ephemeral] with the resources of its claim template. *)
Record Volume := mkVolume {
  vol_Name : string;
  vol_EmptyDir : option (option Quantity);
  vol_Ephemeral : option (option ResourceRequirements);
}.

(** [corev1.KeyToPath]. *)
Record KeyToPath := mkKeyToPath { ktp_Key : string; ktp_Path : string; ktp_Mode : option Z }.

(** A reference to a key of a config map or a secret. *)
Record FileObjectReference := mkFileObjectReference {
  for_Kind : string;
  for_Name : string;
  for_Key : string;
  for_Items : list KeyToPath;
}.

(** ** Component specifications *)

Record RPCTransportSpec := mkRPCTransportSpec {
  rpct_TLSSecret : option string;
  rpct_TLSClientSecret : option string;
  rpct_TLSRequired : bool;
  rpct_TLSInsecure : bool;
  rpct_TLSPeerAlternativeHostName : string;
}.

Definition RPCTransportSpecZero : RPCTransportSpec := mkRPCTransportSpec None None false false "".

Record TimbertruckSpec := mkTimbertruckSpec {
  tts_Image : option string;
  tts_DirectoryPath : option string;
}.

Record HydraPersistenceUploaderSpec := mkHydraPersistenceUploaderSpec {
  hpu_Image : option string;
}.

(** *** Loggers *)

Abbreviation LogLevel := string (only parsing).
Definition LogLevelTrace : LogLevel := "trace".
Definition LogLevelDebug : LogLevel := "debug".
Definition LogLevelInfo : LogLevel := "info".
Definition LogLevelWarning : LogLevel := "warning".
Definition LogLevelError : LogLevel := "error".

Abbreviation LogWriterType := string (only parsing).
Definition LogWriterTypeFile : LogWriterType := "file".
Definition LogWriterTypeStderr : LogWriterType := "stderr".

Abbreviation LogFormat := string (only parsing).
Definition LogFormatPlainText : LogFormat := "plain_text".
Definition LogFormatYson : LogFormat := "yson".
Definition LogFormatJson : LogFormat := "json".

Abbreviation LogCompression := string (only parsing).
Definition LogCompressionNone : LogCompression := "none".
Definition LogCompressionGzip : LogCompression := "gzip".
Definition LogCompressionZstd : LogCompression := "zstd".

Definition CategoriesFilterTypeExclude := "exclude".
Definition CategoriesFilterTypeInclude := "include".

Record CategoriesFilter := mkCategoriesFilter {
  cf_Type : string;
  cf_Values : list string;
}.

Record LogRotationPolicySpec := mkLogRotationPolicySpec {
  lrs_RotationPeriodMilliseconds : option Z;
  lrs_MaxSegmentSize : option Quantity;
  lrs_MaxTotalSizeToKeep : option Quantity;
  lrs_MaxSegmentCountToKeep : option Z;
}.

Record BaseLoggerSpec := mkBaseLoggerSpec {
  bl_Name : string;
  bl_Format : LogFormat;
  bl_MinLogLevel : LogLevel;
  bl_Compression : LogCompression;
  bl_UseTimestampSuffix : bool;
  bl_UseDateTimeSuffix : bool;
  bl_EnableAnchorProfiling : option bool;
  bl_RotationPolicy : option LogRotationPolicySpec;
}.

(** The zero value with a name, as the schema fills it in. *)
Definition BaseLoggerNamed (name : string) : BaseLoggerSpec :=
  mkBaseLoggerSpec name LogFormatPlainText LogLevelInfo LogCompressionNone false false None None.

Record TextLoggerSpec := mkTextLoggerSpec {
  tl_BaseLoggerSpec : BaseLoggerSpec;
  tl_WriterType : LogWriterType;
  tl_CategoriesFilter : option CategoriesFilter;
}.

Record StructuredLoggerSpec := mkStructuredLoggerSpec {
  sl_BaseLoggerSpec : BaseLoggerSpec;
  sl_Category : option string;
  sl_CategoriesFilter : option CategoriesFilter;
  sl_EnableDelivery : option bool;
}.

Definition sl_Name (l : StructuredLoggerSpec) : string := bl_Name (sl_BaseLoggerSpec l).

Inductive JobProxyLoggingMode : Type :=
  | JobProxyLoggingModeSimple | JobProxyLoggingModePerJobDirectory | JobProxyLoggingModeOther (s : string).

#[global] Instance JobProxyLoggingMode_eq_dec : EqDecision JobProxyLoggingMode.
Proof. solve_decision. Defined.

Definition JobProxyLoggingMode_string (m : JobProxyLoggingMode) : string :=
  match m with
  | JobProxyLoggingModeSimple => "simple"
  | JobProxyLoggingModePerJobDirectory => "per_job_directory"
  | JobProxyLoggingModeOther s => s
  end.

Record JobProxyLogManagerSpec := mkJobProxyLogManagerSpec {
  jlm_Mode : JobProxyLoggingMode;
  jlm_LogsStoragePeriodMilliseconds : option Z;
  jlm_DirectoryTraversalConcurrency : option Z;
  jlm_JobProxyLogSymlinksPath : option string;
}.

(** *** Metrics and tracing *)

Record MetricShard := mkMetricShard { msh_Filter : list string; msh_GridStep : Z }.

Record MetricExporter := mkMetricExporter {
  me_Host : option string;
  me_InstanceTags : gmap string string;
  me_Shards : gmap string MetricShard;
  me_GridStep : Z;
}.

Record TracingSpec := mkTracingSpec {
  tr_CollectorAddress : string;
  tr_MaxMemory : option Quantity;
  tr_ProcessTags : gmap string string;
}.

(** [corev1.Toleration]. *)
Record Toleration := mkToleration {
  tol_Key : string;
  tol_Operator : string;
  tol_Value : string;
  tol_Effect : string;
  tol_TolerationSeconds : option Z;
}.

(** [corev1.PodDNSConfig]; an option is a name with an optional value. *)
Record PodDNSConfig := mkPodDNSConfig {
  dns_Nameservers : list string;
  dns_Searches : list string;
  dns_Options : list (string * option string);
}.

Record PodSpec := mkPodSpec {
  ps_PodLabels : gmap string string;
  ps_PodAnnotations : gmap string string;
  ps_HostNetwork : option bool;
  ps_NodeSelector : gmap string string;
  ps_Tolerations : list Toleration;
  ps_RuntimeClassName : option string;
  ps_TerminationGracePeriodSeconds : option Z;
  ps_SetHostnameAsFQDN : option bool;
  ps_DNSPolicy : option string;
  ps_DNSConfig : option PodDNSConfig;
}.

(** [corev1.NodeSelectorRequirement] and the match expressions of a [NodeSelectorTerm]. *)
Record NodeSelectorRequirement := mkNodeSelectorRequirement {
  nsr_Key : string;
  nsr_Operator : string;
  nsr_Values : list string;
}.

Definition NodeSelectorTerm : Type := list NodeSelectorRequirement.

(** [corev1.Affinity]: of [NodeAffinity] the required terms, of [PodAntiAffinity] only its
    presence is read. *)
Record Affinity := mkAffinity {
  aff_NodeAffinity : option (option (list NodeSelectorTerm));
  aff_PodAntiAffinity : option unit;
}.

(** The parameters of a readiness probe. *)
Record HealthcheckProbeParams := mkHealthcheckProbeParams {
  hpp_InitialDelaySeconds : Z;
  hpp_TimeoutSeconds : Z;
  hpp_PeriodSeconds : Z;
  hpp_SuccessThreshold : Z;
  hpp_FailureThreshold : Z;
}.

Definition HealthcheckProbeParamsZero : HealthcheckProbeParams := mkHealthcheckProbeParams 0 0 0 0 0.

Record InstanceSpec := mkInstanceSpec {
  is_PodSpec : PodSpec;
  is_Image : option string;
  is_VolumeMounts : list VolumeMount;
  is_InstanceCount : Z;
  is_MinReadyInstanceCount : option Z;
  is_Locations : list LocationSpec;
  is_EnableAntiAffinity : option bool;
  is_StructuredLoggers : list StructuredLoggerSpec;
  is_Affinity : option Affinity;
  is_NativeTransport : option RPCTransportSpec;
  is_Volumes : list Volume;
  is_Resources : ResourceRequirements;
  is_VolumeClaimTemplates : list EmbeddedPersistentVolumeClaim;
  is_MonitoringPort : option Z;
  is_MetricExporter : option MetricExporter;
  is_Loggers : list TextLoggerSpec;
  is_EntrypointWrapper : list string;
  is_ReadinessProbeParams : option HealthcheckProbeParams;
}.

(** A [uint16] cell tag is a [Z]. *)
Record MasterConnectionSpec := mkMasterConnectionSpec {
  mc_CellTag : Z;
  mc_HostAddresses : list string;
}.

Record MastersSpec := mkMastersSpec {
  ms_InstanceSpec : InstanceSpec;
  ms_CellTag : Z;
  ms_HostAddresses : list string;
  ms_Roles : option (list MasterCellRole);
  ms_HydraPersistenceUploader : option HydraPersistenceUploaderSpec;
  ms_Timbertruck : option TimbertruckSpec;
  ms_Sidecars : list string;
  ms_MaxSnapshotCountToKeep : option Z;
  ms_MaxChangelogCountToKeep : option Z;
  ms_HostAddressLabel : string;
}.

Definition ms_MasterConnectionSpec (s : MastersSpec) : MasterConnectionSpec :=
  mkMasterConnectionSpec (ms_CellTag s) (ms_HostAddresses s).

(** [corev1.ServiceType]; the empty string is left to the API server. *)
Inductive ServiceType : Type :=
  | ServiceTypeEmpty | ServiceTypeClusterIP | ServiceTypeNodePort | ServiceTypeLoadBalancer
  | ServiceTypeOther (s : string).

#[global] Instance ServiceType_eq_dec : EqDecision ServiceType.
Proof. solve_decision. Defined.

Record CHYTProxySpec := mkCHYTProxySpec {
  chp_HttpPort : option Z;
  chp_HttpNodePort : option Z;
  chp_HttpsPort : option Z;
  chp_HttpsNodePort : option Z;
}.

Definition CHYTProxySpecZero : CHYTProxySpec := mkCHYTProxySpec None None None None.

Record HTTPProxiesSpec := mkHTTPProxiesSpec {
  hps_InstanceSpec : InstanceSpec;
  hps_Role : string;
  hps_HTTPSSecret : option string;
  hps_DisableHTTP : bool;
  hps_HttpPort : option Z;
  hps_HttpsPort : option Z;
  hps_ChytProxy : option CHYTProxySpec;
  hps_ServiceType : ServiceType;
  hps_HttpNodePort : option Z;
  hps_HttpsNodePort : option Z;
}.

Record RPCProxiesSpec := mkRPCProxiesSpec {
  rps_InstanceSpec : InstanceSpec;
  rps_Role : string;
  rps_Transport : RPCTransportSpec;
  rps_ServiceType : option ServiceType;
  rps_NodePort : option Z;
}.

Record TCPProxiesSpec := mkTCPProxiesSpec {
  tps_InstanceSpec : InstanceSpec;
  tps_ServiceType : option ServiceType;
  tps_MinPort : Z;
  tps_PortCount : Z;
  tps_Role : string;
}.

Record KafkaProxiesSpec := mkKafkaProxiesSpec {
  kps_InstanceSpec : InstanceSpec;
  kps_ServiceType : option ServiceType;
  kps_Role : string;
}.

Record ClusterNodesSpec := mkClusterNodesSpec {
  cns_Tags : list string;
  cns_Rack : string;
}.

Definition ClusterNodesSpecZero : ClusterNodesSpec := mkClusterNodesSpec [] "".

Record DataNodesSpec := mkDataNodesSpec {
  dns_InstanceSpec : InstanceSpec;
  dns_ClusterNodesSpec : ClusterNodesSpec;
  dns_Name : string;
}.

(** *** The environment of jobs *)

Inductive CRIServiceType : Type :=
  | CRIServiceNone | CRIServiceContainerd | CRIServiceCRIO | CRIServiceOther (s : string).

#[global] Instance CRIServiceType_eq_dec : EqDecision CRIServiceType.
Proof. solve_decision. Defined.

Definition CRIServiceType_string (t : CRIServiceType) : string :=
  match t with
  | CRIServiceNone => "none"
  | CRIServiceContainerd => "containerd"
  | CRIServiceCRIO => "crio"
  | CRIServiceOther s => s
  end.

Record CRIJobEnvironmentSpec := mkCRIJobEnvironmentSpec {
  cri_CRIService : option CRIServiceType;
  cri_MonitoringPort : option Z;
  cri_EntrypointWrapper : list string;
  cri_SandboxImage : option string;
  cri_APIRetryTimeoutSeconds : option Z;
  cri_CRINamespace : option string;
  cri_BaseCgroup : option string;
  cri_DeprecatedCgroupV1 : bool;
  cri_RegistryConfigPath : option string;
  cri_ImageSizeEstimation : option Z;
  cri_ImageCompressionRatioEstimation : option Z;
  cri_AlwaysPullLatestImage : option bool;
  cri_ImagePullPeriodSeconds : option Z;
  cri_ImagePullSecret : option string;
}.

Definition CRIJobEnvironmentSpecZero : CRIJobEnvironmentSpec :=
  mkCRIJobEnvironmentSpec None None [] None None None None false None None None None None None.

(** A [metav1.Duration] in nanoseconds. *)
Record NRIPluginsSpec := mkNRIPluginsSpec {
  nri_SocketPath : option string;
  nri_PluginDir : option string;
  nri_ConfigDir : option string;
  nri_RegistrationTimeout : option Z;
  nri_RequestTimeout : option Z;
}.

Inductive GPUInfoProviderType : Type :=
  | GPUInfoProviderNvidiaSMI | GPUInfoProviderGPUAgent | GPUInfoProviderNvGpuManager
  | GPUInfoProviderOther (s : string).

#[global] Instance GPUInfoProviderType_eq_dec : EqDecision GPUInfoProviderType.
Proof. solve_decision. Defined.

Record GPUManagerSpec := mkGPUManagerSpec { gms_GPUInfoProvider : option GPUInfoProviderType }.

(** The runtimes are pointers to empty structs. *)
Record JobRuntimeSpec := mkJobRuntimeSpec {
  jrs_Nvidia : option unit;
  jrs_Metax : option unit;
}.

Record JobEnvironmentSpec := mkJobEnvironmentSpec {
  jes_Isolated : option bool;
  jes_UserSlots : option Z;
  jes_CRI : option CRIJobEnvironmentSpec;
  jes_NRI : option NRIPluginsSpec;
  jes_UseArtifactBinds : option bool;
  jes_DoNotSetUserId : option bool;
  jes_Runtime : option JobRuntimeSpec;
}.

Record JobNetworkSpec := mkJobNetworkSpec {
  jns_NetworkCapacity : option Z;
  jns_StartPort : option Z;
  jns_PortCount : option Z;
}.

Definition JobNetworkSpecZero : JobNetworkSpec := mkJobNetworkSpec None None None.

Record ExecNodesSpec := mkExecNodesSpec {
  ens_InstanceSpec : InstanceSpec;
  ens_ClusterNodesSpec : ClusterNodesSpec;
  ens_Name : string;
  ens_InitContainers : list string;
  ens_Sidecars : list string;
  ens_Privileged : bool;
  ens_GPUManager : option GPUManagerSpec;
  ens_JobProxyLoggers : list TextLoggerSpec;
  ens_JobProxyLogManager : option JobProxyLogManagerSpec;
  ens_JobResources : option ResourceRequirements;
  ens_JobNetwork : option JobNetworkSpec;
  ens_JobEnvironment : option JobEnvironmentSpec;
  ens_JobHTTPSCertificateSecret : option string;
}.

Record TabletNodesSpec := mkTabletNodesSpec {
  tns_InstanceSpec : InstanceSpec;
  tns_ClusterNodesSpec : ClusterNodesSpec;
  tns_Name : string;
  tns_TabletCellSlots : option Z;
}.

(** *** Services *)

Record UIClusterURLsSpec := mkUIClusterURLsSpec {
  uus_Icon : string;
  uus_Icon2x : string;
  uus_IconBig : option string;
}.



(** A variable of a container: a value, a field of the pod or a key of a secret. *)
Inductive EnvSource :=
  | EnvValue (value : string)
  | EnvField (fieldPath : string)
  | EnvSecretKey (secret key : string)
  | EnvConfigMapKey (configMap key : string)
  | EnvResourceField (container resource : string).

Record EnvVar := mkEnvVar { env_Name : string; env_Source : EnvSource }.

Record UISpec := mkUISpec {
  ui_PodSpec : PodSpec;
  ui_Image : option string;
  ui_ServiceType : ServiceType;
  ui_HttpNodePort : option Z;
  ui_UseInsecureCookies : bool;
  ui_Resources : ResourceRequirements;
  ui_InstanceCount : Z;
  ui_ExtraEnvVariables : list EnvVar;
  ui_Secure : bool;
  ui_ExternalProxy : option string;
  ui_OdinBaseUrl : option string;
  ui_Environment : string;
  ui_Theme : string;
  ui_Description : option string;
  ui_Group : option string;
  ui_URLs : option UIClusterURLsSpec;
  ui_DirectDownload : option bool;
}.

(** [ControllerFamilies] is [None] when the slice is nil. *)
Record StrawberryControllerSpec := mkStrawberryControllerSpec {
  sbc_PodSpec : PodSpec;
  sbc_Resources : ResourceRequirements;
  sbc_Image : option string;
  sbc_LogToStderr : bool;
  sbc_ExternalProxy : option string;
  sbc_ControllerFamilies : option (list string);
  sbc_DefaultRouteFamily : option string;
}.

Record YQLGatewayAttrSpec := mkYQLGatewayAttrSpec { yga_Name : string; yga_Value : string }.

Record YQLDQEngineSpec := mkYQLDQEngineSpec {
  dqe_MaxJobs : option Z;
  dqe_JobsPerOperation : option Z;
  dqe_WorkerCapacity : option Z;
  dqe_Pool : string;
  dqe_PoolTrees : list string;
  dqe_SchedulingTagFilter : string;
  dqe_CPULimit : option Quantity;
  dqe_MemoryLimit : option Quantity;
  dqe_CacheSize : option Quantity;
  dqe_UseTmpFS : option bool;
  dqe_UploadReplicationFactor : option Z;
  dqe_GatewayDefaultSettings : list YQLGatewayAttrSpec;
}.

Record YQLAgentSpec := mkYQLAgentSpec {
  yqs_InstanceSpec : InstanceSpec;
  yqs_DQEngine : option YQLDQEngineSpec;
}.

Record MasterCachesSpec := mkMasterCachesSpec {
  mcs_InstanceSpec : InstanceSpec;
  mcs_HostAddresses : list string;
  mcs_HostAddressesMasterCaches : list string;
}.

Record CypressProxiesSpec := mkCypressProxiesSpec {
  cps_InstanceSpec : InstanceSpec;
  cps_Disable : option bool;
}.

Record OauthUserLoginTransformation := mkOauthUserLoginTransformation {
  olt_MatchPattern : string;
  olt_Replacement : string;
}.

Record OauthUserInfoHandlerSpec := mkOauthUserInfoHandlerSpec {
  oui_Endpoint : string;
  oui_LoginField : string;
  oui_ErrorField : option string;
  oui_LoginTransformations : list OauthUserLoginTransformation;
}.

Record OauthServiceSpec := mkOauthServiceSpec {
  oas_Host : string;
  oas_Port : Z;
  oas_Secure : bool;
  oas_UserInfo : OauthUserInfoHandlerSpec;
  oas_DisableUserCreation : option bool;
}.

(** *** The cluster *)

Record ClusterFeatures := mkClusterFeatures {
  cf_RPCProxyHavePublicAddress : bool;
  cf_HTTPProxyHaveHTTPSAddress : bool;
  cf_SecureClusterTransports : bool;
  cf_EnableImageHeater : bool;
  cf_HTTPProxyHaveChytAddress : bool;
  cf_EnableAnchorProfilingByDefault : bool;
}.

Definition ClusterFeaturesZero : ClusterFeatures := mkClusterFeatures false false false false false false.

Record CommonSpec := mkCommonSpec {
  cs_CoreImage : string;
  cs_ClusterFeatures : option ClusterFeatures;
  cs_ClusterMaintenance : option ClusterMaintenance;
  cs_Timbertruck : option TimbertruckSpec;
  cs_NativeTransport : option RPCTransportSpec;
  cs_EphemeralCluster : bool;
  cs_ExtraPodAnnotations : gmap string string;
  cs_ConfigOverrides : option string;
  cs_JobImage : option string;
  cs_CARootBundle : option FileObjectReference;
  cs_CABundle : option FileObjectReference;
  cs_Tracing : option TracingSpec;
  cs_UseIPv6 : bool;
  cs_UseIPv4 : bool;
  cs_KeepSocket : option bool;
  cs_ForceTCP : option bool;
  cs_UseShortNames : bool;
  cs_UsePorto : bool;
  cs_ImagePullSecrets : list string;
}.

Record YtsaurusSpec := mkYtsaurusSpec {
  spec_CommonSpec : CommonSpec;
  spec_PodSpec : PodSpec;
  spec_RequiresOperatorVersion : string;
  spec_IsManaged : option bool;
  spec_UpdatePlan : list ComponentUpdateSelector;
  spec_Discovery : InstanceSpec;
  spec_PrimaryMasters : MastersSpec;
  spec_SecondaryMasters : list MastersSpec;
  spec_MasterCaches : option MasterCachesSpec;
  spec_HTTPProxies : list HTTPProxiesSpec;
  spec_RPCProxies : list RPCProxiesSpec;
  spec_TCPProxies : list TCPProxiesSpec;
  spec_KafkaProxies : list KafkaProxiesSpec;
  spec_DataNodes : list DataNodesSpec;
  spec_ExecNodes : list ExecNodesSpec;
  spec_Schedulers : option InstanceSpec;
  spec_ControllerAgents : option InstanceSpec;
  spec_TabletNodes : list TabletNodesSpec;
  spec_StrawberryController : option StrawberryControllerSpec;
  spec_QueryTrackers : option InstanceSpec;
  spec_Spyt : bool;
  spec_YQLAgents : option YQLAgentSpec;
  spec_QueueAgents : option InstanceSpec;
  spec_CypressProxies : option CypressProxiesSpec;
  spec_BundleController : option InstanceSpec;
  spec_TabletBalancer : option InstanceSpec;
  spec_UI : option UISpec;
  spec_OauthService : option OauthServiceSpec;
  spec_UIImage : string;
}.

(** ** Status *)

Record TabletCellBundleInfo := mkTabletCellBundleInfo {
  tcb_Name : string;
  tcb_TabletCellCount : Z;
}.

Record BundleControllerInfo := mkBundleControllerInfo { bci_Disabled : option bool }.

Record UpdateStatus := mkUpdateStatus {
  us_State : UpdateState;
  us_UpdatingComponents : list Component;
  us_UpdatingComponentsSummary : string;
  us_BlockedComponentsSummary : string;
  us_Conditions : list Condition;
  us_MasterCellsMaintenance : list MasterCellMaintenanceInfo;
  us_TabletCellBundles : list TabletCellBundleInfo;
  us_BundleController : option BundleControllerInfo;
}.

Record YtsaurusStatus := mkYtsaurusStatus {
  st_State : ClusterState;
  st_Conditions : list Condition;
  st_ObservedGeneration : Z;
  st_UpdateStatus : UpdateStatus;
}.

Record Ytsaurus := mkYtsaurus {
  yts_Name : string;
  yts_Namespace : string;
  yts_Generation : Z;
  yts_Spec : YtsaurusSpec;
  yts_Status : YtsaurusStatus;
}.

Definition GetUpdatePlan (r : Ytsaurus) : list ComponentUpdateSelector :=
  match spec_UpdatePlan (yts_Spec r) with
  | [] => [mkSelector ComponentClassNothing (mkComponent ComponentTypeEmpty "") None None]
  | plan => plan
  end.

(** ** Field updates *)

Definition us_set_State (x : UpdateState) (u : UpdateStatus) : UpdateStatus :=
  mkUpdateStatus x (us_UpdatingComponents u) (us_UpdatingComponentsSummary u)
    (us_BlockedComponentsSummary u) (us_Conditions u) (us_MasterCellsMaintenance u)
    (us_TabletCellBundles u) (us_BundleController u).

Definition us_set_UpdatingComponents (x : list Component) (summary : string) (u : UpdateStatus)
    : UpdateStatus :=
  mkUpdateStatus (us_State u) x summary (us_BlockedComponentsSummary u) (us_Conditions u)
    (us_MasterCellsMaintenance u) (us_TabletCellBundles u) (us_BundleController u).

Definition us_set_BlockedComponentsSummary (x : string) (u : UpdateStatus) : UpdateStatus :=
  mkUpdateStatus (us_State u) (us_UpdatingComponents u) (us_UpdatingComponentsSummary u) x
    (us_Conditions u) (us_MasterCellsMaintenance u) (us_TabletCellBundles u)
    (us_BundleController u).

Definition us_set_Conditions (x : list Condition) (u : UpdateStatus) : UpdateStatus :=
  mkUpdateStatus (us_State u) (us_UpdatingComponents u) (us_UpdatingComponentsSummary u)
    (us_BlockedComponentsSummary u) x (us_MasterCellsMaintenance u) (us_TabletCellBundles u)
    (us_BundleController u).

Definition us_set_Tablets (bc : option BundleControllerInfo) (x : list TabletCellBundleInfo)
    (u : UpdateStatus) : UpdateStatus :=
  mkUpdateStatus (us_State u) (us_UpdatingComponents u) (us_UpdatingComponentsSummary u)
    (us_BlockedComponentsSummary u) (us_Conditions u) (us_MasterCellsMaintenance u) x bc.

Definition us_set_MasterCellsMaintenance (x : list MasterCellMaintenanceInfo) (u : UpdateStatus)
    : UpdateStatus :=
  mkUpdateStatus (us_State u) (us_UpdatingComponents u) (us_UpdatingComponentsSummary u)
    (us_BlockedComponentsSummary u) (us_Conditions u) x (us_TabletCellBundles u)
    (us_BundleController u).

Definition st_set_State (x : ClusterState) (s : YtsaurusStatus) : YtsaurusStatus :=
  mkYtsaurusStatus x (st_Conditions s) (st_ObservedGeneration s) (st_UpdateStatus s).

Definition st_set_Conditions (x : list Condition) (s : YtsaurusStatus) : YtsaurusStatus :=
  mkYtsaurusStatus (st_State s) x (st_ObservedGeneration s) (st_UpdateStatus s).

Definition st_set_ObservedGeneration (x : Z) (s : YtsaurusStatus) : YtsaurusStatus :=
  mkYtsaurusStatus (st_State s) (st_Conditions s) x (st_UpdateStatus s).

Definition st_set_UpdateStatus (f : UpdateStatus → UpdateStatus) (s : YtsaurusStatus)
    : YtsaurusStatus :=
  mkYtsaurusStatus (st_State s) (st_Conditions s) (st_ObservedGeneration s)
    (f (st_UpdateStatus s)).

Definition yts_set_Status (f : YtsaurusStatus → YtsaurusStatus) (y : Ytsaurus) : Ytsaurus :=
  mkYtsaurus (yts_Name y) (yts_Namespace y) (yts_Generation y) (yts_Spec y) (f (yts_Status y)).

(** ** Zero values

    The zero values of the Go structs, from which concrete resources are built. *)

Definition PodSpecZero : PodSpec := mkPodSpec ∅ ∅ None ∅ [] None None None None None.

Definition InstanceSpecZero : InstanceSpec :=
  mkInstanceSpec PodSpecZero None [] 0 None [] None [] None None [] ResourceRequirementsZero [] None None []
    [] None.

Definition MastersSpecZero : MastersSpec := mkMastersSpec InstanceSpecZero 0 [] None None None [] None None "".

Definition CommonSpecZero : CommonSpec :=
  mkCommonSpec "" None None None None false ∅ None None None None None false false None None false false [].

Definition YtsaurusSpecZero : YtsaurusSpec :=
  mkYtsaurusSpec CommonSpecZero PodSpecZero "" None [] InstanceSpecZero MastersSpecZero [] None
    [] [] [] [] [] [] None None [] None None false None None None None None None None "".

(** The same resource with another update plan. *)
Definition spec_set_UpdatePlan (plan : list ComponentUpdateSelector) (z : YtsaurusSpec) : YtsaurusSpec :=
  mkYtsaurusSpec (spec_CommonSpec z) (spec_PodSpec z) (spec_RequiresOperatorVersion z) (spec_IsManaged z) plan
    (spec_Discovery z) (spec_PrimaryMasters z) (spec_SecondaryMasters z) (spec_MasterCaches z) (spec_HTTPProxies z)
    (spec_RPCProxies z) (spec_TCPProxies z) (spec_KafkaProxies z) (spec_DataNodes z) (spec_ExecNodes z)
    (spec_Schedulers z) (spec_ControllerAgents z) (spec_TabletNodes z) (spec_StrawberryController z)
    (spec_QueryTrackers z) (spec_Spyt z) (spec_YQLAgents z) (spec_QueueAgents z) (spec_CypressProxies z)
    (spec_BundleController z) (spec_TabletBalancer z) (spec_UI z) (spec_OauthService z) (spec_UIImage z).

Definition is_set_InstanceCount (n : Z) (i : InstanceSpec) : InstanceSpec :=
  mkInstanceSpec (is_PodSpec i) (is_Image i) (is_VolumeMounts i) n (is_MinReadyInstanceCount i)
    (is_Locations i) (is_EnableAntiAffinity i) (is_StructuredLoggers i) (is_Affinity i) (is_NativeTransport i)
    (is_Volumes i) (is_Resources i) (is_VolumeClaimTemplates i) (is_MonitoringPort i) (is_MetricExporter i)
    (is_Loggers i) (is_EntrypointWrapper i) (is_ReadinessProbeParams i).

Definition UpdateStatusZero : UpdateStatus := mkUpdateStatus UpdateStateUndefined [] "" "" [] [] [] None.

Definition YtsaurusStatusZero : YtsaurusStatus := mkYtsaurusStatus ClusterStateEmpty [] 0 UpdateStatusZero.

Definition YtsaurusZero : Ytsaurus := mkYtsaurus "" "" 0 YtsaurusSpecZero YtsaurusStatusZero.
