(* ===== verification/Consts.v ===== *)
(** * Constants (src/pkg/consts)

    Ports and their names (address.go), mount points, file and variable names (cmd.go, env.go),
    defaults (defaults.go), and the keys of TLS secrets, which are those of Kubernetes. *)

From S2P Require Import Prelude.

(** ** Ports *)

Definition YTMonitoringServicePortName := "ytsaurus-metrics".
Definition KafkaPortName := "kafka".
Definition YTRPCPortName := "rpc".
Definition YTPublicRPCPortName := "public-rpc".
Definition HTTPPortName := "http".
Definition HTTPSPortName := "https".
Definition CHYTHttpProxyName := "chyt-http".
Definition CHYTHttpsProxyName := "chyt-https".

Definition YTMonitoringPort : Z := 10000.
Definition DiscoveryRPCPort : Z := 9020.
Definition DiscoveryMonitoringPort : Z := 10020.
Definition MasterRPCPort : Z := 9010.
Definition MasterMonitoringPort : Z := 10010.
Definition SchedulerRPCPort : Z := 9011.
Definition SchedulerMonitoringPort : Z := 10011.
Definition ControllerAgentRPCPort : Z := 9014.
Definition ControllerAgentMonitoringPort : Z := 10014.
Definition DataNodeRPCPort : Z := 9012.
Definition DataNodeMonitoringPort : Z := 10012.
Definition TabletNodeRPCPort : Z := 9022.
Definition TabletNodeMonitoringPort : Z := 10022.
Definition ExecNodeRPCPort : Z := 9029.
Definition ExecNodeMonitoringPort : Z := 10029.
Definition OffshoreDataGatewayRPCPort : Z := 9032.
Definition OffshoreDataGatewayMonitoringPort : Z := 10032.
Definition CRIServiceMonitoringPort : Z := 10026.
Definition DataNodeSkynetPort : Z := 11012.
Definition TabletNodeSkynetPort : Z := 11022.
Definition ExecNodeSkynetPort : Z := 11029.
Definition RPCProxyPublicRPCPort : Z := 9013.
Definition RPCProxyInternalRPCPort : Z := 9023.
Definition RPCProxyMonitoringPort : Z := 10013.
Definition HTTPProxyRPCPort : Z := 9016.
Definition HTTPProxyMonitoringPort : Z := 10016.
Definition HTTPProxyHTTPPort : Z := 80.
Definition HTTPProxyHTTPSPort : Z := 443.
Definition HTTPProxyChytHttpPort : Z := 8123.
Definition HTTPProxyChytHttpsPort : Z := 8443.
Definition TCPProxyMonitoringPort : Z := 10017.
Definition QueryTrackerRPCPort : Z := 9028.
Definition QueryTrackerMonitoringPort : Z := 10028.
Definition YQLAgentRPCPort : Z := 9019.
Definition YQLAgentMonitoringPort : Z := 10019.
Definition YQLAgentDQInterconnectPort : Z := 9035.
Definition YQLAgentDQgRPCPort : Z := 9036.
Definition QueueAgentRPCPort : Z := 9030.
Definition QueueAgentMonitoringPort : Z := 10030.
Definition StrawberryHTTPAPIPort : Z := 80.
Definition MasterCachesRPCPort : Z := 9018.
Definition MasterCachesMonitoringPort : Z := 10018.
Definition KafkaProxyMonitoringPort : Z := 10033.
Definition KafkaProxyKafkaPort : Z := 9034.
Definition KafkaProxyRPCPort : Z := 9033.
Definition CypressProxyRPCPort : Z := 9031.
Definition CypressProxyMonitoringPort : Z := 10031.
Definition BundleControllerRPCPort : Z := 9025.
Definition BundleControllerMonitoringPort : Z := 10025.
Definition TabletBalancerRPCPort : Z := 9024.
Definition TabletBalancerMonitoringPort : Z := 10024.

(** ** Mount points, files and variables *)

Definition ConfigMountPoint := "/config".
Definition HTTPSSecretMountPoint := "/tls/https_secret".
Definition RPCProxySecretMountPoint := "/tls/rpc_secret".
Definition BusServerSecretMountPoint := "/tls/bus_secret".
Definition BusClientSecretMountPoint := "/tls/bus_client_secret".
Definition CABundleMountPoint := "/tls/ca_bundle".
Definition CARootBundleMountPoint := "/etc/ssl/certs".
Definition JobHTTPSSecretMountPoint := "/etc/ssl/ytsaurus-job-https".
Definition SecretsMountBase := "/var/run/secrets".
Definition CABundleFileName := "ca.crt".
Definition CARootBundleFileName := "ca-certificates.crt".
Definition TokenFileName := "token".
Definition DefaultCABundlePath := "/etc/ssl/certs/ca-certificates.crt".
Definition BusCABundleVaultName := "YT_BUS_CA_BUNDLE".
Definition BusClientCertificateVaultName := "YT_BUS_CLIENT_CERTIFICATE".
Definition BusClientPrivateKeyVaultName := "YT_BUS_CLIENT_PRIVATE_KEY".
Definition BusServerCertificateVaultName := "YT_BUS_SERVER_CERTIFICATE".
Definition BusServerPrivateKeyVaultName := "YT_BUS_SERVER_PRIVATE_KEY".
Definition SecureVaultEnvPrefix := "YT_SECURE_VAULT_".
Definition ENV_K8S_POD_NAME := "K8S_POD_NAME".
Definition ENV_K8S_NODE_NAME := "K8S_NODE_NAME".
Definition ENV_K8S_POD_NAMESPACE := "K8S_POD_NAMESPACE".
Definition DefaultHTTPProxyRole := "default".

(** [corev1.TLSCertKey] and [corev1.TLSPrivateKeyKey]. *)
Definition TLSCertKey := "tls.crt".
Definition TLSPrivateKeyKey := "tls.key".

(** ** Containers and volumes of pods (cmd.go) *)

Definition ConfigTemplateMountPoint := "/config_template".
Definition UIClustersConfigMountPoint := "/opt/app".
Definition UICustomConfigMountPoint := "/opt/app/dist/server/configs/custom".
Definition UISecretsMountPoint := "/opt/app/secrets".
Definition UIVaultMountPoint := "/vault".
Definition TimbertruckConfigMountPoint := "/etc/timbertruck".
Definition PostprocessConfigContainerName := "postprocess-config".
Definition PrepareLocationsContainerName := "prepare-locations".
Definition PrepareSecretContainerName := "prepare-secret".
Definition UIContainerName := "yt-ui".
Definition StrawberryContainerName := "strawberry".
Definition JobsContainerName := "jobs".
Definition PostprocessConfigScriptName := "postprocess-config.sh".
Definition UISecretFileName := "yt-interface-secret.json".
Definition ClientConfigPathEnv := "YT_DRIVER_CONFIG_PATH".
Definition ConfigTemplateVolumeName := "config-template".
Definition ConfigVolumeName := "config".
Definition HTTPSSecretVolumeName := "https-secret".
Definition RPCProxySecretVolumeName := "rpc-secret".
Definition BusServerSecretVolumeName := "bus-secret".
Definition BusClientSecretVolumeName := "bus-client-secret".
Definition CARootBundleVolumeName := "ca-root-bundle".
Definition CABundleVolumeName := "ca-bundle".
Definition JobHTTPSSecretVolumeName := "job-https-secret".
Definition UIVaultVolumeName := "vault".
Definition UISecretsVolumeName := "secrets".
Definition CRIOConfigVolumeName := "config-crio".
Definition ContainerdConfigVolumeName := "config-containerd".
Definition DockerSecretVolumeName := "image-pull-secret".
Definition UIHTTPPort : Z := 80.
Definition YTMonitoringContainerPortName := "metrics".
Definition CRIServiceMonitoringPortName := "cri-metrics".
Definition SSLCertFileKey := "SSL_CERT_FILE".
Definition SSLCertDirKey := "SSL_CERT_DIR".
Definition RequestsCABundleKey := "REQUESTS_CA_BUNDLE".
Definition YQLAgentTokenVolumeName := "yql-agent-secret".
Definition YQLExecTokenVolumeName := "yql-agent-exec-secret".
