(* ===== verification/Labeller.v ===== *)
(** * Component names, labels and addresses (src/pkg/labeller, src/pkg/consts)

    Every Kubernetes object, address and status condition of a component is named after
    its type and instance group.  The operator keeps its progress in conditions that it
    finds again by name, so names of different components must not collide.  Functions
    that panic on some component types return [option]. *)

From S2P Require Import Prelude Kubernetes ApiTypes.

(** ** Names of component types (names.go, labels.go) *)

Definition DefaultName : string := "default".

Definition ComponentServicePrefix (component : ComponentType) : option string :=
  match component with
  | BundleControllerType => Some "bundle-controllers"
  | TabletBalancerType => Some "tablet-balancers"
  | ControllerAgentType => Some "controller-agents"
  | CypressProxyType => Some "cypress-proxies"
  | DataNodeType => Some "data-nodes"
  | DiscoveryType => Some "discovery"
  | ExecNodeType => Some "exec-nodes"
  | HttpProxyType => Some "http-proxies"
  | MasterCacheType => Some "master-caches"
  | MasterType => Some "masters"
  | QueryTrackerType => Some "query-trackers"
  | QueueAgentType => Some "queue-agents"
  | RpcProxyType => Some "rpc-proxies"
  | SchedulerType => Some "schedulers"
  | StrawberryControllerType => Some "strawberry"
  | TabletNodeType => Some "tablet-nodes"
  | OffshoreDataGatewayType => Some "offshore-data-gateways"
  | TcpProxyType => Some "tcp-proxies"
  | KafkaProxyType => Some "kafka-proxies"
  | YqlAgentType => Some "yql-agents"
  | TimbertruckType => Some "timbertrucks"
  | _ => None
  end.

Definition GetServiceKebabCase (component : ComponentType) : option string :=
  match component with
  | BundleControllerType => Some "bundle-controller"
  | TabletBalancerType => Some "tablet-balancer"
  | ControllerAgentType => Some "controller-agent"
  | CypressProxyType => Some "cypress-proxy"
  | DataNodeType => Some "data-node"
  | DiscoveryType => Some "discovery"
  | ExecNodeType => Some "exec-node"
  | HttpProxyType => Some "http-proxy"
  | MasterCacheType => Some "master-cache"
  | MasterType => Some "master"
  | QueryTrackerType => Some "query-tracker"
  | QueueAgentType => Some "queue-agent"
  | RpcProxyType => Some "rpc-proxy"
  | SchedulerType => Some "scheduler"
  | StrawberryControllerType => Some "strawberry-controller"
  | TabletNodeType => Some "tablet-node"
  | OffshoreDataGatewayType => Some "offshore-data-gateway"
  | TcpProxyType => Some "tcp-proxy"
  | KafkaProxyType => Some "kafka-proxy"
  | YqlAgentType => Some "yql-agent"
  | TimbertruckType => Some "timbertruck"
  | _ => None
  end.

Definition GetStatefulSetPrefix (component : ComponentType) : string :=
  match component with
  | BundleControllerType => "bc"
  | TabletBalancerType => "tb"
  | ControllerAgentType => "ca"
  | CypressProxyType => "cyp"
  | DataNodeType => "dnd"
  | DiscoveryType => "ds"
  | ExecNodeType => "end"
  | HttpProxyType => "hp"
  | MasterCacheType => "msc"
  | MasterType => "ms"
  | QueryTrackerType => "qt"
  | QueueAgentType => "qa"
  | RpcProxyType => "rp"
  | SchedulerType => "sch"
  | TabletNodeType => "tnd"
  | OffshoreDataGatewayType => "odg"
  | TcpProxyType => "tp"
  | KafkaProxyType => "kp"
  | YqlAgentType => "yqla"
  | TimbertruckType => "tt"
  | _ => ""
  end.

Definition GetMicroservicePrefix (component : ComponentType) : string :=
  match component with
  | StrawberryControllerType => "strawberry"
  | UIType => "ui"
  | _ => ""
  end.

Definition GetDaemonSetPrefix (component : ComponentType) : string :=
  if component == ImageHeaterType then "ih" else "".

Definition consts_GetShortName (component : ComponentType) : string :=
  let stsPrefix := GetStatefulSetPrefix component in
  if stsPrefix != "" then stsPrefix else
  let dsPrefix := GetDaemonSetPrefix component in
  if dsPrefix != "" then dsPrefix else
  GetMicroservicePrefix component.

Definition ComponentStatefulSetPrefix (component : ComponentType) : option string :=
  let shortTypeName := GetStatefulSetPrefix component in
  if shortTypeName != "" then Some shortTypeName else None.

Definition ComponentLabel (component : ComponentType) : option string :=
  match component with
  | MasterType => Some "yt-master"
  | MasterCacheType => Some "yt-master-cache"
  | CypressProxyType => Some "yt-cypress-proxy"
  | DiscoveryType => Some "yt-discovery"
  | SchedulerType => Some "yt-scheduler"
  | ControllerAgentType => Some "yt-controller-agent"
  | DataNodeType => Some "yt-data-node"
  | ExecNodeType => Some "yt-exec-node"
  | TabletNodeType => Some "yt-tablet-node"
  | OffshoreDataGatewayType => Some "yt-offshore-data-gateway"
  | HttpProxyType => Some "yt-http-proxy"
  | RpcProxyType => Some "yt-rpc-proxy"
  | TcpProxyType => Some "yt-tcp-proxy"
  | KafkaProxyType => Some "yt-kafka-proxy"
  | QueueAgentType => Some "yt-queue-agent"
  | QueryTrackerType => Some "yt-query-tracker"
  | YqlAgentType => Some "yt-yql-agent"
  | StrawberryControllerType => Some "yt-strawberry-controller"
  | BundleControllerType => Some "yt-bundle-controller"
  | TabletBalancerType => Some "yt-tablet-balancer"
  | ChytType => Some "yt-chyt"
  | SpytType => Some "yt-spyt"
  | YtsaurusClientType => Some "yt-client"
  | UIType => Some "yt-ui"
  | TimbertruckType => Some "yt-timbertruck"
  | ImageHeaterType => Some "yt-image-heater"
  | _ => None
  end.

(** ** The labeller *)

Record Labeller := mkLabeller {
  lab_Namespace : string;
  lab_ClusterName : string;
  lab_ResourceName : string;
  lab_ComponentType : ComponentType;
  lab_InstanceGroup : string;
  lab_ClusterDomain : string;
  lab_Annotations : gmap string string;
  lab_UseShortNames : bool;
}.

(** The zero value of the struct. *)
Definition LabellerZero : Labeller :=
  mkLabeller "" "" "" ComponentTypeEmpty "" "" ∅ false.

Definition ForComponent (l : Labeller) (component : ComponentType) (instanceGroup : string) : Labeller :=
  mkLabeller (lab_Namespace l) (lab_ClusterName l) (lab_ResourceName l) component instanceGroup
    (lab_ClusterDomain l) (lab_Annotations l) (lab_UseShortNames l).

Definition lab_set_UseShortNames (b : bool) (l : Labeller) : Labeller :=
  mkLabeller (lab_Namespace l) (lab_ClusterName l) (lab_ResourceName l) (lab_ComponentType l)
    (lab_InstanceGroup l) (lab_ClusterDomain l) (lab_Annotations l) b.

Definition GetCellName (l : Labeller) (cellTag : Z) : string := fmt_d cellTag.

Definition getGroupName (l : Labeller) (name : string) : string :=
  if (lab_InstanceGroup l != "") && (lab_InstanceGroup l != DefaultName)
  then name +:+ "-" +:+ lab_InstanceGroup l
  else name.

Definition getName (l : Labeller) (name infix : string) : string :=
  let name := getGroupName l name in
  let name := if infix != "" then name +:+ "-" +:+ infix else name in
  if negb (lab_UseShortNames l) then name +:+ "-" +:+ lab_ResourceName l else name.

Definition GetFullComponentName (l : Labeller) : string :=
  getGroupName l (ComponentType_string (lab_ComponentType l)).

Definition GetInstanceGroup (l : Labeller) : string :=
  if lab_InstanceGroup l == DefaultName then "" else lab_InstanceGroup l.

Definition GetComponentShortName (l : Labeller) : string :=
  getName l (consts_GetShortName (lab_ComponentType l)) "".

Definition GetServerStatefulSetName (l : Labeller) : option string :=
  p ← ComponentStatefulSetPrefix (lab_ComponentType l); Some (getName l p "").

Definition GetHeadlessServiceName (l : Labeller) : option string :=
  p ← ComponentServicePrefix (lab_ComponentType l); Some (getName l p "").

Definition GetBalancerServiceName (l : Labeller) : option string :=
  p ← ComponentServicePrefix (lab_ComponentType l); Some (getName l p "lb").

Definition svc_address (l : Labeller) (service : string) : string :=
  service +:+ "." +:+ lab_Namespace l +:+ ".svc." +:+ lab_ClusterDomain l.

Definition GetHeadlessServiceAddress (l : Labeller) : option string :=
  s ← GetHeadlessServiceName l; Some (svc_address l s).

Definition GetBalancerServiceAddress (l : Labeller) : option string :=
  s ← GetBalancerServiceName l; Some (svc_address l s).

Definition GetInstanceAddressWildcard (l : Labeller) : option string :=
  s ← GetHeadlessServiceName l; Some ("*." +:+ svc_address l s).

Definition GetInstanceAddressPort (l : Labeller) (index port : Z) : option string :=
  sts ← GetServerStatefulSetName l;
  s ← GetHeadlessServiceName l;
  Some (sts +:+ "-" +:+ fmt_d index +:+ "." +:+ svc_address l s +:+ ":" +:+ fmt_d port).

(** [make] panics on a negative length. *)
Definition GetInstanceAddresses (l : Labeller) (instanceCount port : Z) : option (list string) :=
  if (instanceCount <? 0)%Z then None
  else mapM (λ index, GetInstanceAddressPort l index port) (seqZ 0 instanceCount).

Definition GetComponentLabel (l : Labeller) : option string := ComponentLabel (lab_ComponentType l).

Definition GetFullComponentLabel (l : Labeller) : option string :=
  getGroupName l <$> GetComponentLabel l.

Definition GetMonitoringServiceName (l : Labeller) : option string :=
  (λ s, s +:+ "-monitoring") <$> GetFullComponentLabel l.

Definition GetServerConfigName (l : Labeller) : option string :=
  (λ s, "ytserver-" +:+ s) <$> GetServiceKebabCase (lab_ComponentType l).

Definition GetCypressPatchConfigMapName (l : Labeller) : string := getName l "yt-cypress-patch" "".

Definition GetCypressPatchFileName (l : Labeller) (name : string) : option string :=
  (λ s, s +:+ "-" +:+ name) <$> GetFullComponentLabel l.

Definition GetSecretName (l : Labeller) : option string :=
  (λ s, s +:+ "-secret") <$> GetFullComponentLabel l.

Definition GetSidecarSecretName (l : Labeller) (name : string) : option string :=
  (λ s, s +:+ "-" +:+ name +:+ "-secret") <$> GetFullComponentLabel l.

Definition GetMainConfigMapName (l : Labeller) : option string :=
  (λ s, s +:+ "-config") <$> GetFullComponentLabel l.

Definition GetSidecarConfigMapName (l : Labeller) (name : string) : option string :=
  (λ s, s +:+ "-" +:+ name +:+ "-config") <$> GetFullComponentLabel l.

Definition GetInitJobName (l : Labeller) (name : string) : option string :=
  (λ s, s +:+ "-init-job-" +:+ name) <$> GetFullComponentLabel l.

Definition GetInitJobConfigMapName (l : Labeller) (name : string) : option string :=
  (λ s, s +:+ "-init-job-" +:+ name +:+ "-config") <$> GetFullComponentLabel l.

(** ** Condition names (conditions.go) *)

Definition ConditionReady := "Ready".
Definition ConditionInitJobCompleted := "InitJobCompleted".
Definition ConditionQuorumCheck := "-QuorumCheck".
Definition ConditionBulkUpdateModeStarted := "BulkUpdateModeStarted".
Definition ConditionWaitingOnDeleteUpdate := "WaitingOnDeleteUpdate".
Definition ConditionRollingBudgetExhausted := "RollingBudgetExhausted".
Definition ConditionPreChecksRunning := "PreChecksRunning".
Definition ConditionScalingDown := "ScalingDown".
Definition ConditionScalingUp := "ScalingUp".
Definition ConditionPodsUpdated := "PodsUpdated".
Definition ConditionPodsRemoved := "PodsRemoved".
Definition ConditionPodsRemovingStarted := "PodsRemovingStarted".
Definition ConditionUpdateStateComplete := "Complete".

Definition GetCondition (l : Labeller) (suffix : string) : string :=
  GetFullComponentName l +:+ suffix.

Definition GetReadyCondition l := GetCondition l ConditionReady.
Definition GetInitJobCompletedCondition l (name : string) :=
  name +:+ GetCondition l ConditionInitJobCompleted.
Definition GetPodsRemovingStartedCondition l := GetCondition l ConditionPodsRemovingStarted.
Definition GetPodsRemovedCondition l := GetCondition l ConditionPodsRemoved.
Definition GetPodsUpdatedCondition l := GetCondition l ConditionPodsUpdated.
Definition GetPreChecksRunningCondition l := GetCondition l ConditionPreChecksRunning.
Definition GetScalingDownCondition l := GetCondition l ConditionScalingDown.
Definition GetScalingUpCondition l := GetCondition l ConditionScalingUp.
Definition GetWaitingOnDeleteUpdateCondition l := GetCondition l ConditionWaitingOnDeleteUpdate.
Definition GetRollingBudgetExhaustedCondition l := GetCondition l ConditionRollingBudgetExhausted.

(** The phases of a component: the suffixes passed to [GetCondition]. *)
Definition component_conditions : list string :=
  [ ConditionReady; ConditionInitJobCompleted; ConditionQuorumCheck;
    ConditionBulkUpdateModeStarted; ConditionWaitingOnDeleteUpdate;
    ConditionRollingBudgetExhausted; ConditionPreChecksRunning; ConditionScalingDown;
    ConditionScalingUp; ConditionPodsUpdated; ConditionPodsRemoved;
    ConditionPodsRemovingStarted ].

(** ** Labels *)

Definition YTClusterLabelName := "ytsaurus.tech/cluster-name".
Definition YTComponentLabelName := "yt_component".
Definition YTMetricsLabelName := "yt_metrics".

Definition GetInstanceLabelValue (l : Labeller) (isInitJob : bool) : option string :=
  label ← GetFullComponentLabel l;
  let result := lab_ResourceName l +:+ "-" +:+ label in
  Some (if isInitJob then result +:+ "-" +:+ "init-job" else result).

Definition GetComponentTypeLabelValue (l : Labeller) (isInitJob : bool) : option string :=
  label ← GetComponentLabel l;
  Some (if isInitJob then label +:+ "-" +:+ "init-job" else label).

Definition GetPartOfLabelValue (l : Labeller) : string := "yt-" +:+ lab_ClusterName l.

Definition GetSelectorLabelMap (l : Labeller) : option (gmap string string) :=
  v ← GetInstanceLabelValue l false; Some {[ YTComponentLabelName := v ]}.

Definition GetMetaLabelMap (l : Labeller) (isInitJob : bool) : option (gmap string string) :=
  name ← GetComponentTypeLabelValue l isInitJob;
  component ← GetFullComponentLabel l;
  instance ← GetInstanceLabelValue l isInitJob;
  Some (list_to_map
    [ ("app.kubernetes.io/name", name);
      ("app.kubernetes.io/component", component);
      ("app.kubernetes.io/part-of", GetPartOfLabelValue l);
      ("app.kubernetes.io/managed-by", "ytsaurus-k8s-operator");
      (YTClusterLabelName, lab_ClusterName l);
      (YTComponentLabelName, instance) ]).

Definition GetMonitoringMetaLabelMap (l : Labeller) : option (gmap string string) :=
  labels ← GetMetaLabelMap l false; Some (<[ YTMetricsLabelName := "true" ]> labels).

(** ** Names do not collide *)

(** A type the operator declares, as opposed to an arbitrary string. *)
Definition known_type (t : ComponentType) : bool :=
  match t with ComponentTypeOther _ => false | _ => true end.

(** The identity of a component inside its resource. *)
Definition component_key (l : Labeller) : ComponentType * string :=
  (lab_ComponentType l, GetInstanceGroup l).

Definition dash : Ascii.ascii := Ascii.ascii_of_nat 45.

Fixpoint has_dash (s : string) : bool :=
  match s with
  | EmptyString => false
  | String a s' => bool_decide (a = dash) || has_dash s'
  end.

(** [t] is a suffix of [u]. *)
Fixpoint suffixb (t u : string) : bool :=
  (t == u) || match u with EmptyString => false | String _ u' => suffixb t u' end.

Section name_lemmas.

Definition group_suffix (g : string) : string := if g == "" then "" else "-" +:+ g.

Lemma getGroupName_suffix l name :
  getGroupName l name = name +:+ group_suffix (GetInstanceGroup l).
Proof.
  unfold getGroupName, GetInstanceGroup, group_suffix.
  destruct (bool_decide_reflect (lab_InstanceGroup l = "")) as [E|E].
  - rewrite E. cbn. by rewrite string_app_nil_r.
  - destruct (bool_decide_reflect (lab_InstanceGroup l = DefaultName)) as [E'|E']; cbn.
    + by rewrite string_app_nil_r.
    + by rewrite (bool_decide_eq_false_2 _ E).
Qed.

Lemma group_suffix_head g a s : a ≠ dash → group_suffix g ≠ String a s.
Proof.
  intros Ha. unfold group_suffix. destruct (g == ""); [done|].
  rewrite string_app_cons. intros [= <- _]. by apply Ha.
Qed.

Lemma group_suffix_inj g1 g2 : group_suffix g1 = group_suffix g2 → g1 = g2.
Proof.
  unfold group_suffix.
  destruct (bool_decide_reflect (g1 = "")), (bool_decide_reflect (g2 = "")); simplify_eq; try done.
  apply (string_app_inj_l "-" g1 g2).
Qed.

Lemma dash_split s1 s2 g1 g2 :
  has_dash s1 = false → has_dash s2 = false →
  s1 +:+ group_suffix g1 = s2 +:+ group_suffix g2 → s1 = s2 ∧ g1 = g2.
Proof.
  revert s2. induction s1 as [|a s1 IH]; intros [|b s2] H1 H2 Heq.
  - split; [done|]. by apply group_suffix_inj.
  - cbn in H2. apply orb_false_iff in H2 as [Hb _]. apply bool_decide_eq_false in Hb.
    rewrite string_app_cons in Heq. by apply group_suffix_head in Heq.
  - cbn in H1. apply orb_false_iff in H1 as [Ha _]. apply bool_decide_eq_false in Ha.
    rewrite string_app_cons in Heq. symmetry in Heq. by apply group_suffix_head in Heq.
  - rewrite !string_app_cons in Heq. injection Heq as -> Heq. cbn in H1, H2.
    apply orb_false_iff in H1 as [_ H1]. apply orb_false_iff in H2 as [_ H2].
    by destruct (IH s2 H1 H2 Heq) as [-> ->].
Qed.

Lemma known_type_no_dash t : known_type t = true → has_dash (ComponentType_string t) = false.
Proof. by destruct t. Qed.

Lemma ComponentType_string_inj t1 t2 :
  known_type t1 = true → known_type t2 = true →
  ComponentType_string t1 = ComponentType_string t2 → t1 = t2.
Proof. by destruct t1, t2. Qed.

Lemma GetFullComponentName_inj l1 l2 :
  known_type (lab_ComponentType l1) = true → known_type (lab_ComponentType l2) = true →
  GetFullComponentName l1 = GetFullComponentName l2 → component_key l1 = component_key l2.
Proof.
  intros H1 H2. unfold GetFullComponentName, component_key. rewrite !getGroupName_suffix.
  intros Heq. apply dash_split in Heq as [Ht ->]; [|by apply known_type_no_dash..].
  apply ComponentType_string_inj in Ht; [|done..]. by rewrite Ht.
Qed.

Lemma suffixb_refl t : suffixb t t = true.
Proof. destruct t; cbn; by rewrite bool_decide_eq_true_2. Qed.

Lemma suffixb_app s t : suffixb t (s +:+ t) = true.
Proof.
  induction s as [|a s IH]; [apply suffixb_refl|]. rewrite string_app_cons. cbn.
  rewrite IH. apply orb_true_r.
Qed.

Lemma app_eq_suffix s1 s2 t1 t2 :
  s1 +:+ t1 = s2 +:+ t2 → suffixb t1 t2 = true ∨ suffixb t2 t1 = true.
Proof.
  revert s2. induction s1 as [|a s1 IH]; intros [|b s2] Heq; cbn in Heq.
  - left. change (t1 = t2) in Heq. rewrite Heq. apply suffixb_refl.
  - right. change (t1 = String b s2 +:+ t2) in Heq. rewrite Heq. apply suffixb_app.
  - left. change (String a s1 +:+ t1 = t2) in Heq. rewrite <- Heq. apply suffixb_app.
  - rewrite !string_app_cons in Heq. injection Heq as _ Heq. by apply IH in Heq.
Qed.

Lemma component_conditions_suffix_free s1 s2 :
  s1 ∈ component_conditions → s2 ∈ component_conditions → suffixb s1 s2 = true → s1 = s2.
Proof.
  intros H1 H2.
  assert (Forall (λ s1, Forall (λ s2, implb (suffixb s1 s2) (s1 == s2) = true)
    component_conditions) component_conditions) as Hall.
  { repeat constructor. }
  rewrite Forall_forall in Hall. specialize (Hall s1 H1).
  rewrite Forall_forall in Hall. specialize (Hall s2 H2). cbn in Hall.
  intros Hs. rewrite Hs in Hall. by apply bool_decide_eq_true in Hall.
Qed.

Lemma GetStatefulSetPrefix_inj t1 t2 :
  GetStatefulSetPrefix t1 ≠ "" → GetStatefulSetPrefix t1 = GetStatefulSetPrefix t2 → t1 = t2.
Proof. by destruct t1, t2. Qed.

Lemma GetStatefulSetPrefix_no_dash t : has_dash (GetStatefulSetPrefix t) = false.
Proof. by destruct t. Qed.

Lemma getName_group l name :
  getName l name "" = name +:+ group_suffix (GetInstanceGroup l) +:+
    (if lab_UseShortNames l then "" else "-" +:+ lab_ResourceName l).
Proof.
  unfold getName. rewrite getGroupName_suffix. change ("" != "") with false. cbv iota zeta.
  destruct (lab_UseShortNames l); cbv iota beta delta [negb].
  - by rewrite string_app_nil_r.
  - by rewrite string_app_assoc.
Qed.

End name_lemmas.

(** A status condition belongs to one phase of one component: two components of
    declared types whose condition names coincide, for any two of the phases the operator
    tracks, are the same component in the same phase.  Progress recorded for one component
    (pods removed, pods updated, ready) can therefore never be read as another's. *)
Theorem condition_names_injective l1 l2 s1 s2 :
  known_type (lab_ComponentType l1) = true → known_type (lab_ComponentType l2) = true →
  s1 ∈ component_conditions → s2 ∈ component_conditions →
  GetCondition l1 s1 = GetCondition l2 s2 →
  component_key l1 = component_key l2 ∧ s1 = s2.
Proof.
  intros Hk1 Hk2 Hs1 Hs2 Heq. unfold GetCondition in Heq.
  assert (s1 = s2) as ->.
  { destruct (app_eq_suffix _ _ _ _ Heq) as [H|H]; [|symmetry];
      eapply component_conditions_suffix_free; eauto. }
  apply string_app_inj_r in Heq. by split; [apply GetFullComponentName_inj|].
Qed.

Definition example_labeller (t : ComponentType) (group : string) : Labeller :=
  mkLabeller "default" "cluster" "cluster" t group "cluster.local" ∅ false.

Lemma condition_names_injective_witness :
  component_key (example_labeller DataNodeType "default") =
    component_key (example_labeller DataNodeType "") ∧ ConditionPodsRemoved = ConditionPodsRemoved.
Proof.
  apply (condition_names_injective (example_labeller DataNodeType "default")
    (example_labeller DataNodeType "")); 
    try reflexivity; apply (bool_decide_unpack _); vm_compute; exact I.
Defined.

(** The stateful sets of one resource never collide: two components of the same
    resource that own a stateful set of the same name have the same type and the same
    instance group (where the group "default" is the unnamed one).  One component's update
    can therefore never rewrite another's pods. *)
Theorem statefulset_names_injective l1 l2 n :
  lab_ResourceName l1 = lab_ResourceName l2 → lab_UseShortNames l1 = lab_UseShortNames l2 →
  GetServerStatefulSetName l1 = Some n → GetServerStatefulSetName l2 = Some n →
  component_key l1 = component_key l2.
Proof.
  unfold GetServerStatefulSetName, ComponentStatefulSetPrefix, component_key.
  intros Hr Hu. destruct (bool_decide_reflect (GetStatefulSetPrefix (lab_ComponentType l1) = ""))
    as [|E1]; [done|].
  destruct (bool_decide_reflect (GetStatefulSetPrefix (lab_ComponentType l2) = "")); [done|].
  cbn. rewrite !getName_group, Hr, Hu. intros [= <-] [= Heq].
  rewrite <- !string_app_assoc in Heq. apply string_app_inj_r in Heq.
  apply dash_split in Heq as [Hp ->]; [|apply GetStatefulSetPrefix_no_dash..].
  symmetry in Hp. apply GetStatefulSetPrefix_inj in Hp; [|done]. by rewrite Hp.
Qed.

Lemma statefulset_names_injective_witness :
  component_key (example_labeller TabletNodeType "default") =
    component_key (example_labeller TabletNodeType "").
Proof.
  apply (statefulset_names_injective (example_labeller TabletNodeType "default")
    (example_labeller TabletNodeType "") "tnd-cluster"); reflexivity.
Defined.

(** The pods of a component carry the labels its selector asks for, and the pods of
    its init jobs do not match that selector: listing the pods of a component never counts
    a job's pod as a server. *)
Theorem selector_matches_only_servers l selector labels jobLabels :
  GetSelectorLabelMap l = Some selector →
  GetMetaLabelMap l false = Some labels → GetMetaLabelMap l true = Some jobLabels →
  selector ⊆ labels ∧ ¬ (selector ⊆ jobLabels).
Proof.
  unfold GetSelectorLabelMap, GetMetaLabelMap, GetInstanceLabelValue, GetComponentTypeLabelValue,
    GetFullComponentLabel.
  destruct (GetComponentLabel l) as [label|];
    cbn [fmap option_fmap option_map mbind option_bind]; [|done].
  intros [= <-] [= <-] [= <-]. split.
  - apply map_singleton_subseteq_l. by rewrite !lookup_insert_ne by done; rewrite lookup_insert_eq.
  - rewrite map_singleton_subseteq_l. rewrite !lookup_insert_ne by done. rewrite lookup_insert_eq.
    intros [= Heq%(f_equal String.length)].
    repeat (rewrite string_length_app in Heq || rewrite string_app_cons in Heq; cbn in Heq). lia.
Qed.

Lemma selector_matches_only_servers_witness :
  ∃ labels jobLabels : gmap string string,
    {[ YTComponentLabelName := "cluster-yt-master" ]} ⊆ labels ∧
    ¬ ({[ YTComponentLabelName := "cluster-yt-master" ]} ⊆ jobLabels).
Proof.
  eexists _, _.
  apply (selector_matches_only_servers (example_labeller MasterType "")); reflexivity.
Defined.
