(* ===== verification/Status.v ===== *)
(** * Component statuses (src/pkg/components/component.go)

    What a component reports about its reconciliation, and the constructors of these
    reports.  A Go format call becomes the concatenation it produces. *)

From S2P Require Import Prelude.

Inductive SyncStatus : Type :=
  | SyncStatusUndefined | SyncStatusReady | SyncStatusStarted | SyncStatusBlocked
  | SyncStatusPending | SyncStatusNeedUpdate | SyncStatusUpdating
  | SyncStatusOther (s : string).

#[global] Instance SyncStatus_eq_dec : EqDecision SyncStatus.
Proof. solve_decision. Defined.

Definition SyncStatus_string (s : SyncStatus) : string :=
  match s with
  | SyncStatusUndefined => ""
  | SyncStatusReady => "Ready"
  | SyncStatusStarted => "Started"
  | SyncStatusBlocked => "Blocked"
  | SyncStatusPending => "Pending"
  | SyncStatusNeedUpdate => "NeedUpdate"
  | SyncStatusUpdating => "Updating"
  | SyncStatusOther s => s
  end.

(** The conversion [SyncStatus(s)] of a string. *)
Definition to_SyncStatus (s : string) : SyncStatus :=
  if s == "" then SyncStatusUndefined
  else if s == "Ready" then SyncStatusReady
  else if s == "Started" then SyncStatusStarted
  else if s == "Blocked" then SyncStatusBlocked
  else if s == "Pending" then SyncStatusPending
  else if s == "NeedUpdate" then SyncStatusNeedUpdate
  else if s == "Updating" then SyncStatusUpdating
  else SyncStatusOther s.

Record ComponentStatus := mkComponentStatus {
  cs_Component : string;
  cs_SyncStatus : SyncStatus;
  cs_Message : string;
}.

#[global] Instance ComponentStatus_eq_dec : EqDecision ComponentStatus.
Proof. solve_decision. Defined.

(** The zero value of the Go struct. *)
Definition ComponentStatusZero : ComponentStatus := mkComponentStatus "" SyncStatusUndefined "".

Definition IsUndefined (cs : ComponentStatus) : bool := cs_SyncStatus cs == SyncStatusUndefined.
Definition IsReady (cs : ComponentStatus) : bool := cs_SyncStatus cs == SyncStatusReady.
Definition IsNeedUpdate (cs : ComponentStatus) : bool := cs_SyncStatus cs == SyncStatusNeedUpdate.
Definition IsRunning (cs : ComponentStatus) : bool :=
  (cs_SyncStatus cs == SyncStatusReady) || (cs_SyncStatus cs == SyncStatusNeedUpdate).

(** The formatted message is an argument. *)
Definition ComponentStatusSprintf (status : SyncStatus) (message : string) : ComponentStatus :=
  mkComponentStatus "" status message.

Definition Blocker (cs : ComponentStatus) : ComponentStatus :=
  ComponentStatusSprintf SyncStatusBlocked
    ("Blocked by " +:+ cs_Component cs +:+ ": " +:+ SyncStatus_string (cs_SyncStatus cs) +:+ ", "
       +:+ cs_Message cs).

Definition ComponentStatusReady : ComponentStatus := mkComponentStatus "" SyncStatusReady "Ready".
Definition ComponentStatusReadyAfter (m : string) := ComponentStatusSprintf SyncStatusReady m.
Definition ComponentStatusStarted (m : string) := ComponentStatusSprintf SyncStatusStarted m.
Definition ComponentStatusBlocked (m : string) := ComponentStatusSprintf SyncStatusBlocked m.
Definition ComponentStatusBlockedBy (m : string) := ComponentStatusBlocked ("Blocked by " +:+ m).
Definition ComponentStatusPending (m : string) := ComponentStatusSprintf SyncStatusPending m.
Definition ComponentStatusNeedUpdate (m : string) := ComponentStatusSprintf SyncStatusNeedUpdate m.
Definition ComponentStatusUpdating (m : string) := ComponentStatusSprintf SyncStatusUpdating m.
Definition ComponentStatusWaitingFor (m : string) :=
  ComponentStatusSprintf SyncStatusPending ("Waiting for " +:+ m).
Definition ComponentStatusUpdateStep (m : string) :=
  ComponentStatusSprintf SyncStatusUpdating ("Updating " +:+ m).

(** [runtime.Caller] supplies the position of the call, here an argument. *)
Definition SimpleStatus (status : SyncStatus) (position : string) : ComponentStatus :=
  ComponentStatusSprintf status (SyncStatus_string status +:+ " at " +:+ position).

Lemma to_SyncStatus_string s :
  match s with SyncStatusOther _ => False | _ => True end →
  to_SyncStatus (SyncStatus_string s) = s.
Proof. by destruct s. Qed.
