(* ===== verification/Checks.v ===== *)
(** * Health checks (src/pkg/checks, src/pkg/consts/cypress.go)

    A check becomes a condition that is true, false or, when the check could not be made,
    unknown; the conditions of several checks are merged into one.  The quorum check of a
    group of masters reads their state from the cluster. *)

From S2P Require Import Prelude Kubernetes ApiTypes Ordered Ypatch.

(** ** Conditions (conditions.go) *)

Definition MakeCondition (conditionType : string) (ok : bool) (msg : string) (err : option error) : Condition :=
  match err with
  | Some err => condition conditionType ConditionUnknown "Error" (msg +:+ " Error: " +:+ err)
  | None => if ok then condition conditionType ConditionTrue "OK" msg
            else condition conditionType ConditionFalse "Failure" msg
  end.

Definition merge_step (getter : string → option Condition) (output : Condition) (input : string) : Condition :=
  let cond := Deref (getter input) (condition input ConditionUnknown "Unknown" "Status not found") in
  if cond_Status cond != ConditionTrue then
    let replace := (cond_Status cond == ConditionFalse) || (cond_Status output == ConditionTrue) in
    mkCondition (cond_Type output)
      (if replace then cond_Status cond else cond_Status output)
      (cond_ObservedGeneration output) (cond_LastTransitionTime output)
      (if replace then cond_Reason cond else cond_Reason output)
      (cond_Message output +:+ cond_Type cond +:+ " " +:+ cond_Reason cond +:+ ": " +:+ cond_Message cond +:+ newline)
  else output.

Definition MergeConditions (output : Condition) (getter : string → option Condition) (inputs : list string)
    : Condition :=
  foldl (merge_step getter) output inputs.

(** ** Paths (consts/cypress.go) *)

Definition ClusterMastersPath := "//sys/cluster_masters".
Definition PrimaryMastersPath := "//sys/primary_masters".
Definition SecondaryMastersPath := "//sys/secondary_masters".
Definition MasterHydraPath := "orchid/monitoring/hydra".
Definition TabletCellsPath := "//sys/tablet_cells".
Definition EnableTabletCellDecommissionPath :=
  "//sys/@config/tablet_manager/tablet_cell_decommissioner/enable_tablet_cell_decommission".
Definition LostVitalChunksCountPath := "//sys/lost_vital_chunks/@count".
Definition QuorumMissingChunksCountPath := "//sys/quorum_missing_chunks/@count".

Definition ComponentCypressPath (component : ComponentType) : string :=
  match component with
  | ControllerAgentType => "//sys/controller_agents/instances"
  | DataNodeType => "//sys/data_nodes"
  | DiscoveryType => "//sys/discovery_servers"
  | ExecNodeType => "//sys/exec_nodes"
  | HttpProxyType => "//sys/http_proxies"
  | MasterCacheType => "//sys/master_caches"
  | MasterType => ClusterMastersPath
  | QueryTrackerType => "//sys/query_tracker/instances"
  | QueueAgentType => "//sys/queue_agents/instances"
  | RpcProxyType => "//sys/rpc_proxies"
  | SchedulerType => "//sys/scheduler/instances"
  | TabletNodeType => "//sys/tablet_nodes"
  | TcpProxyType => "//sys/tcp_proxies/instances"
  | KafkaProxyType => "//sys/kafka_proxies/instances"
  | YqlAgentType => "//sys/yql_agent/instances"
  | _ => ""
  end.

(** ** Masters (master.go) *)

Inductive MasterState : Type := MasterStateLeading | MasterStateFollowing | MasterStateOther (s : string).

#[global] Instance MasterState_eq_dec : EqDecision MasterState.
Proof. solve_decision. Defined.

Record MasterHydra := mkMasterHydra {
  hydra_State : MasterState;
  hydra_SelfID : Z;
  hydra_LeaderID : Z;
  hydra_Voting : bool;
  hydra_Active : bool;
  hydra_ActiveLeader : bool;
  hydra_ActiveFollower : bool;
  hydra_BuildingSnapshot : bool;
  hydra_EnteringReadOnlyMode : bool;
  hydra_LastSnapshotReadOnly : bool;
  hydra_ReadOnly : bool;
}.

Record MasterAddressWithAttributes := mkMasterAddress { ma_Address : string; ma_Maintenance : bool }.

(** The four lists the loop fills. *)
Record quorum_report := mkQuorumReport {
  q_leaders : list string;
  q_followers : list string;
  q_inactive : list string;
  q_maintenance : list string;
}.

Definition report_master (master : MasterAddressWithAttributes) (hydra : MasterHydra) (q : quorum_report)
    : quorum_report :=
  let name := "[" +:+ fmt_d (hydra_SelfID hydra) +:+ "] " +:+ ma_Address master in
  mkQuorumReport
    (if hydra_State hydra == MasterStateLeading then q_leaders q ++ [name] else q_leaders q)
    (if hydra_State hydra == MasterStateFollowing then q_followers q ++ [name] else q_followers q)
    (if negb (hydra_Active hydra) then q_inactive q ++ [name] else q_inactive q)
    (if ma_Maintenance master then q_maintenance q ++ [name] else q_maintenance q).

Definition len {A} (l : list A) : Z := Z.of_nat (length l).

(** The verdict over the report: whether the quorum is fine, and the note. *)
Definition quorum_verdict (requiredCount : Z) (q : quorum_report) : bool * string :=
  if len (q_maintenance q) != 0%Z then (false, "There is a master in maintenance")
  else if len (q_inactive q) != 0%Z then (false, "There is a non-active master")
  else if len (q_leaders q) != 1%Z then (false, "There is no single leader")
  else if (len (q_followers q) + 1 <? requiredCount)%Z then (false, "Not enough followers")
  else (true, "Quorum is OK").

Section quorum.
Context {E : Type} {CC : CypressClient E} {Y : Ypath}.
Context {DM : YsonDecode (list MasterAddressWithAttributes)} {DH : YsonDecode MasterHydra}.

Definition hydraPath (mastersPath : string) (master : MasterAddressWithAttributes) : string :=
  path_Child (path_Child mastersPath (ma_Address master)) MasterHydraPath.

Fixpoint read_masters (mastersPath : string) (masters : list MasterAddressWithAttributes) (q : quorum_report)
    : go E (yterror + quorum_report) :=
  match masters with
  | [] => mret (inr q)
  | master :: masters =>
      hydra ← GetNode (hydraPath mastersPath master);
      match hydra with
      | inl err => mret (inl err)
      | inr hydra => read_masters mastersPath masters (report_master master hydra q)
      end
  end.

Definition MasterQuorumHealth (mastersPath : string) (totalCount requiredCount : Z)
    : go E (bool * string * option error) :=
  masters ← ListNode mastersPath ["maintenance"];
  match masters with
  | inl err => mret (false, "", Some (yt_message err))
  | inr masters =>
      report ← read_masters mastersPath masters (mkQuorumReport [] [] [] []);
      mret (match report with
            | inl err => (false, "", Some (yt_message err))
            | inr q =>
                let '(ok, note) := quorum_verdict requiredCount q in
                (ok, note +:+ ": leaders/followers/required/total=" +:+ fmt_d (len (q_leaders q)) +:+ "/" +:+
                     fmt_d (len (q_followers q)) +:+ "/" +:+ fmt_d requiredCount +:+ "/" +:+ fmt_d totalCount +:+
                     ", leaders=" +:+ fmt_strings (q_leaders q) +:+ ", followers=" +:+ fmt_strings (q_followers q) +:+
                     ", inactive=" +:+ fmt_strings (q_inactive q) +:+ ", maintenance=" +:+ fmt_strings (q_maintenance q),
                 None)
            end)
  end.

End quorum.

(** ** Merging *)

(** The status of an input, a missing condition being unknown. *)
Definition input_status (getter : string → option Condition) (input : string) : ConditionStatus :=
  match getter input with Some c => cond_Status c | None => ConditionUnknown end.

(** False wins over unknown, unknown over true. *)
Definition status_meet (a b : ConditionStatus) : ConditionStatus :=
  match a, b with
  | ConditionFalse, _ | _, ConditionFalse => ConditionFalse
  | ConditionUnknown, _ | _, ConditionUnknown => ConditionUnknown
  | _, _ => ConditionTrue
  end.

Lemma merge_step_status getter output input :
  cond_Status (merge_step getter output input) = status_meet (cond_Status output) (input_status getter input).
Proof.
  unfold merge_step, input_status, Deref. destruct output as [t s g l r m].
  destruct (getter input) as [[t' s' g' l' r' m']|]; [by destruct s, s'|by destruct s].
Qed.

Lemma MergeConditions_status getter output inputs :
  cond_Status (MergeConditions output getter inputs) =
    foldl status_meet (cond_Status output) (map (input_status getter) inputs).
Proof.
  unfold MergeConditions. revert output. induction inputs as [|i inputs IH]; intros output; [done|].
  cbn [foldl map]. by rewrite IH, merge_step_status.
Qed.

Lemma status_meet_all l s :
  foldl status_meet s l = ConditionTrue ↔ s = ConditionTrue ∧ Forall (eq ConditionTrue) l.
Proof.
  revert s. induction l as [|x l IH]; intros s; cbn.
  - split; [intros ->; by split|by intros [-> _]].
  - rewrite IH, Forall_cons. destruct s, x; naive_solver.
Qed.

Lemma status_meet_any l s :
  foldl status_meet s l = ConditionFalse ↔ s = ConditionFalse ∨ Exists (eq ConditionFalse) l.
Proof.
  revert s. induction l as [|x l IH]; intros s; cbn.
  - rewrite Exists_nil. naive_solver.
  - rewrite IH, Exists_cons. destruct s, x; naive_solver.
Qed.

Lemma MergeConditions_Type getter output inputs : cond_Type (MergeConditions output getter inputs) = cond_Type output.
Proof.
  unfold MergeConditions. revert output. induction inputs as [|i inputs IH]; intros output; [done|].
  cbn [foldl]. rewrite IH. unfold merge_step. by case_match.
Qed.

Lemma MergeConditions_true getter output inputs :
  cond_Status output = ConditionTrue →
  cond_Status (MergeConditions output getter inputs) = ConditionTrue ↔
    ∀ i, i ∈ inputs → input_status getter i = ConditionTrue.
Proof.
  intros Ht. rewrite MergeConditions_status, Ht, status_meet_all, Forall_map, Forall_forall.
  split; [intros [_ H] i Hi; symmetry; by apply H|]. intros H. split; [done|]. intros i Hi. symmetry. by apply H.
Qed.

(** Merging the conditions of several checks into one that starts as true: the result
    is true exactly when every check is there and true, false exactly when some check is
    false, and unknown in the remaining case, when some check is missing or unknown and
    none is false; it keeps the type it started with. *)
Theorem MergeConditions_spec getter output inputs :
  cond_Status output = ConditionTrue →
  let merged := MergeConditions output getter inputs in
  (cond_Status merged = ConditionTrue ↔
     ∀ i, i ∈ inputs → ∃ c, getter i = Some c ∧ cond_Status c = ConditionTrue) ∧
  (cond_Status merged = ConditionFalse ↔
     ∃ i c, i ∈ inputs ∧ getter i = Some c ∧ cond_Status c = ConditionFalse) ∧
  cond_Type merged = cond_Type output.
Proof.
  intros Ht. cbv zeta. rewrite MergeConditions_status, Ht, status_meet_all, status_meet_any, MergeConditions_Type.
  split_and!; [| |done].
  - rewrite Forall_map, Forall_forall. split.
    + intros [_ H] i Hi. specialize (H i Hi). unfold input_status in H. destruct (getter i) as [c|]; [|done]. by exists c.
    + intros H. split; [done|]. intros i Hi. destruct (H i Hi) as (c & Hc & Hs). unfold input_status. by rewrite Hc.
  - rewrite Exists_exists. split.
    + intros [?|(s & Hs & <-)]; [done|]. apply list_elem_of_fmap in Hs as (i & Hi & Hin).
      exists i. unfold input_status in Hi. destruct (getter i) as [c|]; [|done]. by exists c.
    + intros (i & c & Hi & Hg & Hs). right. exists ConditionFalse. split; [|done].
      apply list_elem_of_fmap. exists i. unfold input_status. by rewrite Hg.
Qed.

Lemma MergeConditions_spec_witness :
  cond_Status (MergeConditions (condition "UpdateIsPossible" ConditionTrue "HealthChecks" "")
    (λ t, if t == "Lost" then Some (condition "Lost" ConditionFalse "Failure" "7 chunks") else None)
    ["Quorum"; "Lost"]) = ConditionFalse.
Proof.
  apply (MergeConditions_spec _ (condition "UpdateIsPossible" ConditionTrue "HealthChecks" "")); [reflexivity|].
  exists "Lost", (condition "Lost" ConditionFalse "Failure" "7 chunks"). split; [|split; reflexivity].
  apply (bool_decide_unpack _). vm_compute. exact I.
Defined.

(** ** The quorum *)

(** The number of masters in a state. *)
Definition count_state (s : MasterState) (hydras : list MasterHydra) : Z :=
  len (filter (λ h, hydra_State h = s) hydras).

(** What the operator takes for a healthy quorum. *)
Definition quorum_healthy (requiredCount : Z) (masters : list MasterAddressWithAttributes)
    (hydras : list MasterHydra) : Prop :=
  Forall (λ m, ma_Maintenance m = false) masters ∧ Forall (λ h, hydra_Active h = true) hydras ∧
  count_state MasterStateLeading hydras = 1%Z ∧
  (requiredCount ≤ count_state MasterStateFollowing hydras + 1)%Z.

Lemma len_app {A} (l l' : list A) : len (l ++ l') = (len l + len l')%Z.
Proof. unfold len. rewrite length_app. lia. Qed.

Lemma len_one {A} (x : A) : len [x] = 1%Z.
Proof. reflexivity. Qed.

Lemma len_zero {A} (l : list A) : len l = 0%Z ↔ l = [].
Proof. unfold len. destruct l; cbn; [done|]. split; [lia|done]. Qed.

Lemma count_state_cons s h hydras :
  count_state s (h :: hydras) = ((if decide (hydra_State h = s) then 1 else 0) + count_state s hydras)%Z.
Proof. unfold count_state. rewrite filter_cons. case_decide; [|lia]. unfold len. rewrite length_cons. lia. Qed.

Section quorum_facts.
Context {E : Type} {CC : CypressClient E} {Y : Ypath}.
Context {DM : YsonDecode (list MasterAddressWithAttributes)} {DH : YsonDecode MasterHydra}.
Context {CR : CypressReads E}.

Lemma GetNode_run {A} {D : YsonDecode A} path (e : E) : run (GetNode (A:=A) path) e = e.
Proof. unfold GetNode. rewrite run_bind. apply GetNode_reads. Qed.

Lemma ListNode_run {A} {D : YsonDecode A} path attributes (e : E) : run (ListNode (A:=A) path attributes) e = e.
Proof. unfold ListNode. rewrite run_bind. apply ListNode_reads. Qed.

(** What the loop has read and how the report counts it. *)
Lemma read_masters_spec mastersPath masters q (e : E) q' :
  val_of (read_masters mastersPath masters q) e = inr q' →
  ∃ hydras,
    Forall2 (λ m h, val_of (GetNode (hydraPath mastersPath m)) e = inr h) masters hydras ∧
    len (q_leaders q') = (len (q_leaders q) + count_state MasterStateLeading hydras)%Z ∧
    len (q_followers q') = (len (q_followers q) + count_state MasterStateFollowing hydras)%Z ∧
    (q_inactive q' = [] ↔ q_inactive q = [] ∧ Forall (λ h, hydra_Active h = true) hydras) ∧
    (q_maintenance q' = [] ↔ q_maintenance q = [] ∧ Forall (λ m, ma_Maintenance m = false) masters).
Proof.
  revert q. induction masters as [|m masters IH]; intros q.
  - intros [= <-]. exists []. split_and!; [done|apply eq_sym, Z.add_0_r|apply eq_sym, Z.add_0_r|..]; naive_solver.
  - cbn [read_masters]. go_step. destruct (val_of (GetNode (hydraPath mastersPath m)) e) as [err|h] eqn:Hh; [done|].
    rewrite GetNode_run. intros (hydras & HF & Hl & Hf & Hi & Hm)%IH. exists (h :: hydras).
    rewrite !count_state_cons, !Forall_cons. cbn [report_master q_leaders q_followers q_inactive q_maintenance] in *.
    rewrite Hl, Hf, Hi, Hm. split_and!; [by constructor|..].
    + destruct (bool_decide_reflect (hydra_State h = MasterStateLeading)) as [Hs|Hs];
        [rewrite decide_True by done|rewrite decide_False by done]; rewrite ?len_app, ?len_one; lia.
    + destruct (bool_decide_reflect (hydra_State h = MasterStateFollowing)) as [Hs|Hs];
        [rewrite decide_True by done|rewrite decide_False by done]; rewrite ?len_app, ?len_one; lia.
    + destruct (hydra_Active h); cbn; [naive_solver|]. split; [|naive_solver]. by intros [[]%app_eq_nil _].
    + destruct (ma_Maintenance m); cbn; [|naive_solver]. split; [|naive_solver]. by intros [[]%app_eq_nil _].
Qed.

Lemma quorum_verdict_ok requiredCount q :
  (quorum_verdict requiredCount q).1 = true ↔
    q_maintenance q = [] ∧ q_inactive q = [] ∧ len (q_leaders q) = 1%Z ∧
    (requiredCount ≤ len (q_followers q) + 1)%Z.
Proof.
  unfold quorum_verdict. rewrite <- !len_zero.
  destruct (bool_decide_reflect (len (q_maintenance q) = 0%Z)); cbn; [|naive_solver].
  destruct (bool_decide_reflect (len (q_inactive q) = 0%Z)); cbn; [|naive_solver].
  destruct (bool_decide_reflect (len (q_leaders q) = 1%Z)); cbn; [|naive_solver].
  destruct (Z.ltb_spec (len (q_followers q) + 1) requiredCount) as [Hlt|Hle]; cbn [fst].
  - split; [done|]. intros (_ & _ & _ & ?). lia.
  - split; [intros _; by split_and!|done].
Qed.

(** C30.  The quorum check is exact: when it reports no error it has read the list of masters
    and the state of every one of them, and it reports a healthy quorum if and only if none
    is in maintenance, all are active, exactly one is leading, and the leader with its
    followers are at least as many as required. *)
Theorem MasterQuorumHealth_exact mastersPath totalCount requiredCount ok msg (e : E) :
  val_of (MasterQuorumHealth mastersPath totalCount requiredCount) e = (ok, msg, None) →
  ∃ masters hydras,
    val_of (ListNode mastersPath ["maintenance"]) e = inr masters ∧
    Forall2 (λ m h, val_of (GetNode (hydraPath mastersPath m)) e = inr h) masters hydras ∧
    (ok = true ↔ quorum_healthy requiredCount masters hydras).
Proof.
  unfold MasterQuorumHealth. go_step.
  destruct (val_of (ListNode mastersPath ["maintenance"]) e) as [err|masters]; [done|].
  go_step. rewrite ListNode_run. destruct (val_of (read_masters _ _ _) e) as [err|q] eqn:Hq; [done|].
  apply read_masters_spec in Hq as (hydras & HF & Hl & Hf & Hi & Hm). cbn [q_leaders q_followers] in *.
  pose proof (quorum_verdict_ok requiredCount q) as Hv. destruct (quorum_verdict requiredCount q) as [ok' note].
  intros [= <- _]. exists masters, hydras. split_and!; [done|done|]. rewrite Hv, Hi, Hm. unfold quorum_healthy.
  rewrite Hl, Hf. cbn. naive_solver.
Qed.

Lemma read_masters_run mastersPath masters q (e : E) : run (read_masters mastersPath masters q) e = e.
Proof.
  revert q. induction masters as [|m masters IH]; intros q; [done|]. cbn [read_masters]. go_step.
  rewrite GetNode_run. by destruct (val_of _ _).
Qed.

Lemma MasterQuorumHealth_run mastersPath totalCount requiredCount (e : E) :
  run (MasterQuorumHealth mastersPath totalCount requiredCount) e = e.
Proof.
  unfold MasterQuorumHealth. go_step. rewrite ListNode_run. destruct (val_of _ _); [done|]. go_step.
  apply read_masters_run.
Qed.

End quorum_facts.

(** Three masters, the second leading. *)
Section quorum_example.

#[local] Instance decode_masters : YsonDecode (list MasterAddressWithAttributes) := {|
  yson_decode v := match v with
    | VList l => inr (map (λ x, match x with
        | VOrderedValue _ (VString a) => mkMasterAddress a true
        | VString a => mkMasterAddress a false
        | _ => mkMasterAddress "" false end) l)
    | _ => inl "not a list"
    end
|}.

#[local] Instance decode_hydra : YsonDecode MasterHydra := {|
  yson_decode v := match v with
    | VString s =>
        let state := if s == "leading" then MasterStateLeading
                     else if s == "following" then MasterStateFollowing else MasterStateOther s in
        inr (mkMasterHydra state 0 0 true true false false false false false false)
    | _ => inl "not a state"
    end
|}.

Definition example_masters : FlatCypress :=
  {[ "//sys/primary_masters" := VList [VString "m0"; VString "m1"; VString "m2"];
     "//sys/primary_masters/m0/orchid/monitoring/hydra" := VString "following";
     "//sys/primary_masters/m1/orchid/monitoring/hydra" := VString "leading";
     "//sys/primary_masters/m2/orchid/monitoring/hydra" := VString "following" ]}.

Lemma MasterQuorumHealth_exact_witness : ∃ masters hydras,
  Forall2 (λ m h, val_of (GetNode (hydraPath (Y:=flat_ypath) "//sys/primary_masters" m)) example_masters = inr h)
    masters hydras ∧
  quorum_healthy 2 masters hydras.
Proof.
  destruct (MasterQuorumHealth_exact (Y:=flat_ypath) "//sys/primary_masters" 3 2 true
    "Quorum is OK: leaders/followers/required/total=1/2/2/3, leaders=[[0] m1], followers=[[0] m0 [0] m2], inactive=[], maintenance=[]"
    example_masters) as (masters & hydras & _ & HF & Hok); [vm_compute; reflexivity|].
  exists masters, hydras. split; [exact HF|apply Hok; reflexivity].
Defined.

End quorum_example.
