(* ===== verification/CypressActions.v ===== *)
(** * Actions on the cluster (src/pkg/components: ytsaurus_client.go, helpers.go, precheck.go)

    What the operator asks of a running YTsaurus cluster during an update: safe mode, the
    tablet cells, the bundle controller, chunk locations, users and instance counts.  Every
    action is a sequence of requests of the cluster's client; what a read returns is decoded
    by the client. *)

From S2P Require Import Prelude Kubernetes ApiTypes Ordered Ypatch Checks.

Record TabletCellBundleHealth := mkBundleHealth { bh_Name : string; bh_Health : string }.

Record DataNodeMeta := mkDataNodeMeta {
  dn_Name : string;
  dn_UseImaginaryChunks : bool;
  dn_State : string;
}.

Definition disableBundleControllerPath := "//sys/@disable_bundle_controller".
Definition realChunkLocationPath := "//sys/@config/node_tracker/enable_real_chunk_locations".
Definition tabletCellBundlesPath := "//sys/tablet_cell_bundles".
Definition safeModePath := "//sys/@enable_safe_mode".

Section actions.
Context {E : Type} {CC : CypressClient E} {Y : Ypath}.
Context {DB : YsonDecode bool} {DZ : YsonDecode Z} {DS : YsonDecode string} {DL : YsonDecode (list string)}.
Context {DT : YsonDecode (list TabletCellBundleInfo)} {DH : YsonDecode (list TabletCellBundleHealth)}.
Context {DN : YsonDecode (list DataNodeMeta)}.

(** ** Safe mode *)

Definition EnableSafeMode : go E (option yterror) := cy_SetNode safeModePath (VBool true) None.
Definition DisableSafeMode : go E (option yterror) := cy_SetNode safeModePath (VBool false) None.

(** ** Tablet cells *)

Definition GetTabletCells : go E (yterror + list TabletCellBundleInfo) :=
  ListNode tabletCellBundlesPath ["tablet_cell_count"].

(** The loop over the cells breaks at the first error. *)
Fixpoint remove_cells (tabletCells : list string) : go E (option yterror) :=
  match tabletCells with
  | [] => mret None
  | tabletCell :: rest =>
      err ← cy_RemoveNode (path_Child TabletCellsPath tabletCell) None;
      match err with
      | Some err => mret (Some err)
      | None => remove_cells rest
      end
  end.

(** The error of switching the decommission on again is logged only. *)
Definition RemoveTabletCells : go E (option yterror) :=
  tabletCells ← ListNode TabletCellsPath [];
  match tabletCells with
  | inl err => mret (Some err)
  | inr [] => mret None
  | inr tabletCells =>
      err ← cy_SetNode EnableTabletCellDecommissionPath (VBool false) None;
      match err with
      | Some err => mret (Some err)
      | None =>
          err ← remove_cells tabletCells;
          cy_SetNode EnableTabletCellDecommissionPath (VBool true) None ;;
          mret err
      end
  end.

Definition AreTabletCellsRemoved : go E (Z * option yterror) :=
  tabletCells ← ListNode TabletCellsPath [];
  mret (match tabletCells with
        | inl err => (0%Z, Some err)
        | inr tabletCells => (len (A:=string) tabletCells, None)
        end).

Definition tabletCellCountPath (bundle : string) : string :=
  tabletCellBundlesPath +:+ "/" +:+ bundle +:+ "/@tablet_cell_count".

Fixpoint create_cells (bundle : string) (n : nat) : go E (option yterror) :=
  match n with
  | O => mret None
  | S n =>
      err ← cy_CreateObject "tablet_cell"
              (mkCreateObjectOptions false {[ "tablet_cell_bundle" := VString bundle ]});
      match err with
      | Some err => mret (Some err)
      | None => create_cells bundle n
      end
  end.

Definition CreateTabletCells (bundle : string) (tabletCellCount : Z) : go E (option yterror) :=
  initTabletCellCount ← GetNode (tabletCellCountPath bundle);
  match initTabletCellCount with
  | inl err => mret (Some err)
  | inr initTabletCellCount => create_cells bundle (Z.to_nat (tabletCellCount - initTabletCellCount))
  end.

Fixpoint RecoverTableCells (bundles : list TabletCellBundleInfo) : go E (option yterror) :=
  match bundles with
  | [] => mret None
  | bundle :: bundles =>
      err ← CreateTabletCells (tcb_Name bundle) (tcb_TabletCellCount bundle);
      match err with
      | Some err => mret (Some err)
      | None => RecoverTableCells bundles
      end
  end.

Definition GetNotGoodTabletCellBundles : go E (yterror + list string) :=
  tabletCellBundles ← ListNode tabletCellBundlesPath ["health"];
  mret (match tabletCellBundles with
        | inl err => inl err
        | inr l => inr (bh_Name <$> filter (λ b, bh_Health b ≠ "good") l)
        end).

Definition WaitTabletCellHealth (cellID : string) : go E (bool * option yterror) :=
  cellHealth ← GetNode (TabletCellsPath +:+ "/" +:+ cellID +:+ "/@health");
  mret (match cellHealth with
        | inl err => (false, Some err)
        | inr cellHealth => (cellHealth == "good", None)
        end).

(** ** The bundle controller *)

Definition IsBundleControllerDisabled : go E (yterror + option bool) :=
  disabled ← GetNode disableBundleControllerPath;
  mret (match disabled with
        | inl err => if yt_resolve err then inr None
                     else inl (wrapf ("failed to get " +:+ disableBundleControllerPath +:+ ": ") err)
        | inr disabled => inr (Some disabled)
        end).

Definition SetBundleControllerDisabled (disabled : option bool) : go E (option yterror) :=
  match disabled with
  | Some disabled =>
      err ← cy_SetNode disableBundleControllerPath (VBool disabled) None;
      mret (wrapf ("failed to set " +:+ disableBundleControllerPath +:+ ": ") <$> err)
  | None =>
      err ← cy_RemoveNode disableBundleControllerPath (Some (mkRemoveNodeOptions false true));
      mret (wrapf ("failed to remove " +:+ disableBundleControllerPath +:+ ": ") <$> err)
  end.

(** ** Chunk locations *)

Definition ensureRealChunkLocationsEnabled : go E (option yterror) :=
  enabled ← GetNode realChunkLocationPath;
  match enabled with
  | inl err =>
      mret (if yt_resolve err then None
            else Some (wrapf ("failed to get " +:+ realChunkLocationPath +:+ ": ") err))
  | inr true => mret None
  | inr false =>
      err ← cy_SetNode realChunkLocationPath (VBool true) None;
      mret (wrapf ("failed to set " +:+ realChunkLocationPath +:+ ": ") <$> err)
  end.

Definition getDataNodesInfo : go E (yterror + list DataNodeMeta) :=
  dndMeta ← ListNode (ComponentCypressPath DataNodeType) ["use_imaginary_chunk_locations"; "state"];
  mret (match dndMeta with
        | inl err => inl (wrapf "failed to list data_nodes: " err)
        | inr l => inr l
        end).

Definition areActiveDataNodesWithImaginaryChunksExist : go E (bool * option yterror) :=
  dndMeta ← getDataNodesInfo;
  mret (match dndMeta with
        | inl err => (false, Some err)
        | inr dndMeta =>
            (negb (len (filter (λ dnd, dn_UseImaginaryChunks dnd = true ∧ dn_State dnd ≠ "offline") dndMeta) == 0%Z),
             None)
        end).

(** ** Users and instances *)

Context (sha256String : string → string) (path_Attr : string → string → string).

Definition CreateUser (userName token : string) (isSuperuser : bool) : go E (option yterror) :=
  err ← cy_CreateObject "user" (mkCreateObjectOptions true {[ "name" := VString userName ]});
  match err with
  | Some err => mret (Some err)
  | None =>
      err ← (if token != "" then
               let tokenPath := "//sys/cypress_tokens/" +:+ sha256String token in
               err ← cy_CreateNode tokenPath "map_node" (mkCreateNodeOptions false true ∅);
               match err with
               | Some err => mret (Some err)
               | None => cy_SetNode (path_Attr tokenPath "user") (VString userName) None
               end
             else mret None);
      match err with
      | Some err => mret (Some err)
      | None =>
          if isSuperuser then
            err ← cy_AddMember "superusers" userName;
            mret (match err with Some err => if yt_present err then None else Some err | None => None end)
          else mret None
      end
  end.

(** [ready] is [ytClient != nil]; [name] the text of the component type. *)
Definition IsInstanceCountEqualYTSpec (ready : bool) (componentType : ComponentType) (name : string)
    (expectedCount : Z) : go E (option yterror) :=
  if negb ready then mret (Some (errorf "YT client is not available")) else
  let cypressPath := ComponentCypressPath componentType in
  instances ← ListNode cypressPath [];
  mret (match instances with
        | inl err => Some (wrapf ("failed to list " +:+ name +:+ " instances from " +:+ cypressPath +:+ ": ") err)
        | inr instances =>
            let actualCount := len (A:=string) instances in
            if actualCount != expectedCount then
              Some (errorf (name +:+ " instance count mismatch: expected " +:+ fmt_d expectedCount +:+ ", got " +:+
                            fmt_d actualCount +:+ " instances in " +:+ cypressPath))
            else None
        end).

(** [createUserCommand]: the shell commands that create a user. *)
Definition createUserCommand (userName password token : string) (isSuperuser : bool) : list string :=
  let q := String (Ascii.ascii_of_nat 34) "" in
  ["/usr/bin/yt create user --attributes '{name=" +:+ q +:+ userName +:+ q +:+ "}' --ignore-existing"] ++
  (if isSuperuser then
     ["/usr/bin/yt add-member " +:+ userName +:+ " superusers || true";
      "while [ " +:+ q +:+ "$(/usr/bin/yt check-permission --format json " +:+ userName +:+ " administer /)" +:+ q +:+
      " != '{" +:+ q +:+ "action" +:+ q +:+ ":" +:+ q +:+ "allow" +:+ q +:+ "}' ] ; do sleep 1 ; done"]
   else []) ++
  (if password != "" then
     ["/usr/bin/yt execute set_user_password '{user=" +:+ userName +:+ ";new_password_sha256=" +:+ q +:+
      sha256String password +:+ q +:+ "}'"]
   else []) ++
  (if token != "" then
     ["/usr/bin/yt create map_node '//sys/cypress_tokens/" +:+ sha256String token +:+ "' --ignore-existing";
      "/usr/bin/yt set '//sys/cypress_tokens/" +:+ sha256String token +:+ "/@user' '" +:+ userName +:+ "'"]
   else []).

End actions.

(** ** Tablet cells are restored to the saved counts *)

Definition cell_options (bundle : string) : CreateObjectOptions :=
  mkCreateObjectOptions false {[ "tablet_cell_bundle" := VString bundle ]}.

(** The number of cells of each bundle: the count attribute shows it, a created cell adds one
    to its bundle; a request that fails may have been carried out or not. *)
Class TabletCellLaws (E : Type) `{!CypressClient E} `{!YsonDecode Z} (cells : E → string → Z) : Prop := {
  count_read : ∀ bundle e n, val_of (GetNode (tabletCellCountPath bundle)) e = inr n → n = cells e bundle;
  create_cell : ∀ bundle e, val_of (cy_CreateObject "tablet_cell" (cell_options bundle)) e = None →
    cells (run (cy_CreateObject "tablet_cell" (cell_options bundle)) e) bundle = (cells e bundle + 1)%Z;
  create_cell_any : ∀ bundle e,
    (cells e bundle ≤ cells (run (cy_CreateObject "tablet_cell" (cell_options bundle)) e) bundle
       ≤ cells e bundle + 1)%Z;
  create_cell_other : ∀ bundle e other, other ≠ bundle →
    cells (run (cy_CreateObject "tablet_cell" (cell_options bundle)) e) other = cells e other;
}.

Section tablet_cells.
Context {E : Type} {CC : CypressClient E} {CR : CypressReads E} {DZ : YsonDecode Z}.
Context (cells : E → string → Z) {TL : TabletCellLaws E cells}.

Lemma create_cells_spec bundle n e :
  let e' := run (create_cells bundle n) e in
  (cells e bundle ≤ cells e' bundle ≤ cells e bundle + Z.of_nat n)%Z ∧
  (val_of (create_cells bundle n) e = None → cells e' bundle = (cells e bundle + Z.of_nat n)%Z) ∧
  ∀ other, other ≠ bundle → cells e' other = cells e other.
Proof.
  cbv zeta. revert e. induction n as [|n IH]; intros e.
  - change (run (create_cells bundle 0) e) with e. split_and!; [lia|lia|lia|done].
  - cbn [create_cells]. go_step. fold (cell_options bundle).
    pose proof (create_cell bundle e) as Hc. pose proof (create_cell_any bundle e) as Ha.
    pose proof (create_cell_other bundle e) as Ho.
    destruct (val_of (cy_CreateObject "tablet_cell" (cell_options bundle)) e) as [err|].
    + go_step. split_and!; [lia|lia|done|done].
    + destruct (IH (run (cy_CreateObject "tablet_cell" (cell_options bundle)) e)) as (H1 & H2 & H3).
      specialize (Hc eq_refl). split_and!; [lia|lia|intros Hv; specialize (H2 Hv); lia|].
      intros other Hne. by rewrite H3, Ho.
Qed.

Lemma CreateTabletCells_spec bundle count e :
  let e' := run (CreateTabletCells bundle count) e in
  (cells e bundle ≤ cells e' bundle ≤ cells e bundle `max` count)%Z ∧
  (val_of (CreateTabletCells bundle count) e = None → cells e' bundle = (cells e bundle `max` count)%Z) ∧
  ∀ other, other ≠ bundle → cells e' other = cells e other.
Proof.
  cbv zeta. unfold CreateTabletCells. go_step. rewrite GetNode_run.
  destruct (val_of (GetNode (tabletCellCountPath bundle)) e) as [err|init] eqn:Hi.
  - go_step. split_and!; [lia|lia|done|done].
  - apply count_read in Hi as ->. destruct (create_cells_spec bundle (Z.to_nat (count - cells e bundle)) e) as (H1 & H2 & H3).
    split_and!; [lia|lia|intros Hv; specialize (H2 Hv); lia|done].
Qed.

(** Recovering the tablet cells brings every saved bundle back to its saved count and
    nothing else: whatever happens, a bundle ends with at least the cells it had and at most
    the larger of that and the saved count, and the bundles that were not saved keep theirs;
    when no error is reported every saved bundle has exactly the larger of the two, so that
    after the removal of all cells it has the saved count.  An attempt that failed half way
    and is repeated therefore creates no cell too many. *)
Theorem RecoverTableCells_exact bundles e :
  NoDup (tcb_Name <$> bundles) →
  let e' := run (RecoverTableCells bundles) e in
  (∀ b, b ∈ bundles →
     (cells e (tcb_Name b) ≤ cells e' (tcb_Name b) ≤ cells e (tcb_Name b) `max` tcb_TabletCellCount b)%Z) ∧
  (val_of (RecoverTableCells bundles) e = None → ∀ b, b ∈ bundles →
     cells e' (tcb_Name b) = (cells e (tcb_Name b) `max` tcb_TabletCellCount b)%Z) ∧
  (∀ other, other ∉ tcb_Name <$> bundles → cells e' other = cells e other).
Proof.
  cbv zeta. revert e. induction bundles as [|b bundles IH]; intros e Hnd.
  - split_and!; [by intros ? ?%elem_of_nil|by intros _ ? ?%elem_of_nil|done].
  - rewrite fmap_cons in *. apply NoDup_cons in Hnd as [Hb Hnd]. cbn [RecoverTableCells]. go_step.
    destruct (CreateTabletCells_spec (tcb_Name b) (tcb_TabletCellCount b) e) as (H1 & H2 & H3).
    set (e1 := run (CreateTabletCells _ _) e) in *.
    assert (∀ b0, b0 ∈ bundles → tcb_Name b0 ≠ tcb_Name b) as Hne.
    { intros b0 Hb0 Heq. apply Hb. rewrite <- Heq. apply list_elem_of_fmap. by exists b0. }
    destruct (val_of (CreateTabletCells (tcb_Name b) (tcb_TabletCellCount b)) e) as [err|].
    + go_step. split_and!; [|done|].
      * intros b0 [->|Hb0]%elem_of_cons; [lia|]. rewrite H3 by by apply Hne. lia.
      * intros other Ho. apply H3. intros ->. apply Ho. left.
    + specialize (H2 eq_refl). destruct (IH e1 Hnd) as (I1 & I2 & I3). split_and!.
      * intros b0 [->|Hb0]%elem_of_cons; [rewrite I3 by done; lia|].
        rewrite <- (H3 (tcb_Name b0)) by by apply Hne. by apply I1.
      * intros Hv b0 [->|Hb0]%elem_of_cons; [by rewrite I3|].
        rewrite <- (H3 (tcb_Name b0)) by by apply Hne. by apply I2.
      * intros other Ho. rewrite not_elem_of_cons in Ho. destruct Ho as [Ho1 Ho2].
        rewrite I3 by done. by apply H3.
Qed.

End tablet_cells.

(** ** What the removal of cells has done when it reports no error

    The cells were listed and, if there are any, the decommission was switched off and every cell
    was removed. *)

Section removal.
Context {E : Type} {CC : CypressClient E} {Y : Ypath} {DL : YsonDecode (list string)}.

Definition cells_removal_done (e : E) : Prop :=
  let listed := run (ListNode (A:=list string) TabletCellsPath []) e in
  let disable := cy_SetNode EnableTabletCellDecommissionPath (VBool false) None in
  ∃ cells, val_of (ListNode TabletCellsPath []) e = inr cells ∧
    (cells = [] ∨ val_of disable listed = None ∧ val_of (remove_cells cells) (run disable listed) = None).

Lemma RemoveTabletCells_done e : val_of RemoveTabletCells e = None ↔ cells_removal_done e.
Proof.
  unfold RemoveTabletCells, cells_removal_done. cbv zeta. go_step.
  destruct (val_of (ListNode TabletCellsPath []) e) as [err|[|cell cells]]; [|naive_solver|].
  { split; [done|]. intros (cells & [=] & _). }
  go_step. destruct (val_of (cy_SetNode _ _ _) _) as [err|].
  { split; [done|]. intros (cells' & [= <-] & [|[]]); done. }
  go_step. split; [by eauto|]. intros (cells' & [= <-] & [|[]]); done.
Qed.

End removal.

(** ** Decommissioning is switched on again *)

Section decommission.
Context {E : Type} {CC : CypressClient E} {Y : Ypath} {CR : CypressReads E} {DL : YsonDecode (list string)}.

Definition enable_decommission : go E (option yterror) :=
  cy_SetNode EnableTabletCellDecommissionPath (VBool true) None.
Definition disable_decommission : go E (option yterror) :=
  cy_SetNode EnableTabletCellDecommissionPath (VBool false) None.

(** Once the decommission was switched off for the removal of cells, the last request of the
    removal is to switch it on again, also when the removal of a cell failed. *)
Lemma RemoveTabletCells_enables e :
  (∀ cell cells, val_of (ListNode TabletCellsPath []) e = inr (cell :: cells) →
     val_of disable_decommission e = None →
     ∃ e1, e1 = run (remove_cells (cell :: cells)) (run disable_decommission e) ∧
       run RemoveTabletCells e = run enable_decommission e1) ∧
  (val_of (ListNode (A:=list string) TabletCellsPath []) e = inr [] → run RemoveTabletCells e = e).
Proof.
  unfold RemoveTabletCells, disable_decommission. split.
  - intros cell cells Hl Hd. eexists. split; [done|]. go_step. rewrite Hl. go_step. rewrite ListNode_run, Hd. by go_step.
  - intros Hl. go_step. rewrite Hl. rewrite run_ret. apply ListNode_run.
Qed.

(** The failure of that last request is not reported. *)
Lemma RemoveTabletCells_hides_error e cell cells err :
  val_of (ListNode TabletCellsPath []) e = inr (cell :: cells) →
  val_of disable_decommission e = None →
  let e1 := run disable_decommission e in
  val_of (remove_cells (cell :: cells)) e1 = None →
  val_of enable_decommission (run (remove_cells (cell :: cells)) e1) = Some err →
  val_of RemoveTabletCells e = None.
Proof.
  intros Hl Hd e1 Hr _. unfold RemoveTabletCells. go_step. rewrite Hl. go_step. rewrite ListNode_run.
  unfold disable_decommission in *. rewrite Hd. go_step. exact Hr.
Qed.

End decommission.

(** ** The instances of a component *)

(** The pre-check passes exactly when as many instances are registered as are wanted. *)
Lemma IsInstanceCountEqualYTSpec_ok {E} {CC : CypressClient E} {DL : YsonDecode (list string)}
    ready t name expected (e : E) :
  val_of (IsInstanceCountEqualYTSpec ready t name expected) e = None ↔
    ready = true ∧ ∃ instances, val_of (ListNode (ComponentCypressPath t) []) e = inr instances ∧
      len (A:=string) instances = expected.
Proof.
  unfold IsInstanceCountEqualYTSpec. destruct ready; cbn [negb]; [|split; [done|by intros []]]. go_step.
  destruct (val_of (ListNode (ComponentCypressPath t) []) e) as [err|l]; [naive_solver|].
  destruct (bool_decide_reflect (len l = expected)); cbn; naive_solver.
Qed.

(** ** A cluster of tablet cells *)

Section cells_example.

Definition CellCluster : Type := gmap string Z.

#[local] Instance cell_client : CypressClient CellCluster := {|
  cy_GetNode path := λ e,
    (match List.find (λ p, tabletCellCountPath p.1 == path) (map_to_list e) with
     | Some (_, n) => inr (VInt64 n)
     | None => inl (flat_missing path)
     end, e);
  cy_SetNode _ _ _ := λ e, (None, e);
  cy_RemoveNode _ _ := λ e, (None, e);
  cy_CreateNode _ _ _ := λ e, (None, e);
  cy_ListNode path _ := λ e, (inl (flat_missing path), e);
  cy_CreateObject _ o := λ e,
    match coo_Attributes o !! "tablet_cell_bundle" with
    | Some (VString b) => (None, <[b := (default 0 (e !! b) + 1)%Z]> e)
    | _ => (Some (errorf "no bundle"), e)
    end;
  cy_AddMember _ _ := λ e, (None, e);
|}.

#[local] Instance cell_reads : CypressReads CellCluster.
Proof. split; done. Qed.

#[local] Instance decode_int : YsonDecode Z := {| yson_decode v := match v with VInt64 z => inr z | _ => inl "int" end |}.

Definition cell_count (e : CellCluster) (b : string) : Z := default 0%Z (e !! b).

Lemma tabletCellCountPath_inj b b' : tabletCellCountPath b = tabletCellCountPath b' → b = b'.
Proof. unfold tabletCellCountPath. by intros ?%string_app_inj_l%string_app_inj_l%string_app_inj_r. Qed.

Lemma cell_count_insert (e : gmap string Z) b n b' :
  cell_count (<[b := n]> e) b' = if decide (b' = b) then n else cell_count e b'.
Proof. unfold cell_count, CellCluster. rewrite lookup_insert. repeat case_decide; by subst. Qed.

Lemma cell_created b (e : CellCluster) :
  cy_CreateObject "tablet_cell" (cell_options b) e = (None, <[b := (cell_count e b + 1)%Z]> e).
Proof. reflexivity. Qed.

#[local] Instance cell_laws : TabletCellLaws CellCluster cell_count.
Proof.
  split.
  - intros b e n. unfold GetNode. go_step. unfold val_of. cbn.
    destruct (List.find _ _) as [[b' n']|] eqn:Hf; [|done]. intros [= ->].
    apply find_some in Hf as [Hin Hp]. apply bool_decide_eq_true in Hp. cbn in Hp.
    apply tabletCellCountPath_inj in Hp as ->. apply list_elem_of_In, elem_of_map_to_list in Hin.
    unfold cell_count, CellCluster. by rewrite Hin.
  - intros b e _. unfold run. rewrite cell_created. cbn [snd]. by rewrite cell_count_insert, decide_True by done.
  - intros b e. unfold run. rewrite cell_created. cbn [snd]. rewrite cell_count_insert, decide_True by done. lia.
  - intros b e o Ho. unfold run. rewrite cell_created. cbn [snd]. by rewrite cell_count_insert, decide_False.
Qed.

(** Two bundles whose cells were removed, the first one partly recovered before. *)
Lemma RecoverTableCells_exact_witness :
  cell_count (run (RecoverTableCells [mkTabletCellBundleInfo "default" 3; mkTabletCellBundleInfo "sys" 2])
    ({[ "default" := 1%Z; "sys" := 0%Z ]} : CellCluster)) "default" = 3%Z ∧
  cell_count (run (RecoverTableCells [mkTabletCellBundleInfo "default" 3; mkTabletCellBundleInfo "sys" 2])
    ({[ "default" := 1%Z; "sys" := 0%Z ]} : CellCluster)) "sys" = 2%Z.
Proof.
  destruct (RecoverTableCells_exact cell_count [mkTabletCellBundleInfo "default" 3; mkTabletCellBundleInfo "sys" 2]
    ({[ "default" := 1%Z; "sys" := 0%Z ]} : CellCluster)) as (_ & H & _).
  { apply (bool_decide_unpack _). vm_compute. exact I. }
  specialize (H ltac:(vm_compute; reflexivity)). split.
  - apply (H (mkTabletCellBundleInfo "default" 3)). left.
  - apply (H (mkTabletCellBundleInfo "sys" 2)). right. left.
Defined.

End cells_example.
