(* ===== verification/ApiProxy.v ===== *)
(** * The operator's view of the cluster resource (src/pkg/apiproxy)

    [World] is the memory a reconcile pass runs in: the [Ytsaurus] object it has fetched
    and mutates, the events it records, the clock, the statuses the components of the
    pass hold, and an abstract environment for the Kubernetes API and the YTsaurus
    cluster.  [apiproxy.Ytsaurus] and the [apiProxy] embedded in it are the operations
    on it; logging and metrics leave no trace. *)

From S2P Require Import Prelude Kubernetes ApiTypes Labeller Status.

(** ** The world of a reconcile pass *)

Inductive EventType : Type := EventTypeNormal | EventTypeWarning.

Record Event := mkEvent { ev_Type : EventType; ev_Reason : string; ev_Message : string }.

Record World (E : Type) := mkWorld {
  w_yts : Ytsaurus;
  w_events : list Event;
  w_now : Z;
  w_statuses : gmap nat ComponentStatus;
  w_env : E;
}.
Arguments mkWorld {E} _ _ _ _ _.
Arguments w_yts {E} _.
Arguments w_events {E} _.
Arguments w_now {E} _.
Arguments w_statuses {E} _.
Arguments w_env {E} _.

(** The part of the Kubernetes client that writes the status subresource, and the version
    the operator was built with. *)
Class StatusClient (E : Type) := {
  Status_Update : Ytsaurus → E → option error * E;
  GetVersion : string;
}.

Definition ConditionOperatorVersion := "OperatorVersion".
Definition ConditionReadyToWork := "ReadyToWork".
Definition ConditionClusterMaintenance := "ClusterMaintenance".
Definition ConditionImageHeaterReady := "ImageHeaterReady".
Definition ConditionImageHeaterComplete := "ImageHeaterComplete".
Definition ConditionUpdateIsPossible := "UpdateIsPossible".
Definition ConditionSafeModeEnabled := "SafeModeEnabled".
Definition ConditionTabletCellsSaved := "TabletCellsSaved".
Definition ConditionTabletCellsRemovingStarted := "TabletCellsRemovingStarted".
Definition ConditionTabletCellsRemoved := "TabletCellsRemoved".
Definition ConditionSnaphotsSaved := "SnaphotsSaved".
Definition ConditionTabletCellsRecovered := "TabletCellsRecovered".
Definition ConditionQTStateUpdated := "QTStateUpdated".
Definition ConditionQTStatePreparedForUpdating := "QTStatePreparedForUpdating".
Definition ConditionQAStateUpdated := "QAStateUpdated".
Definition ConditionQAStatePreparedForUpdating := "QAStatePreparedForUpdating".
Definition ConditionSafeModeDisabled := "SafeModeDisabled".
Definition ConditionDataNodesWithImaginaryChunksAbsent := "DataNodesWithImaginaryChunksAbsent".
Definition ConditionCypressPatchApplied := "CypressPatchApplied".
Definition ConditionTimbertruckPrepared := "TimbertruckPrepared".
Definition ConditionMasterCellsPreparation := "MasterCellsPreparation".
Definition ConditionMasterCellsRegistration := "MasterCellsRegistration".
Definition ConditionMasterCellsCompletion := "MasterCellsCompletion".
Definition ConditionMasterCellsInitialized := "MasterCellsInitialized".
Definition ConditionTimbertruckUserInitialized := "TimbertruckUserInitialized".
Definition ConditionMastersQuorumCheck := "MastersQuorumCheck".
Definition ConditionLostVitalChunksCheck := "LostVitalChunksCheck".
Definition ConditionQuorumMissingChunksCheck := "QuorumMissingChunksCheck".
Definition ConditionTabletCellBundlesHealthCheck := "TabletCellBundlesHealthCheck".
Definition ConditionRealChunksAttributeEnabled := "RealChunksAttributeEnabled".
Definition ConditionDataNodesNeedPodsRemoval := "DataNodesNeedPodsRemoval".

(** [sortConditions]: true, false, unknown, then by transition time. *)
Definition statusOrder_Index (s : ConditionStatus) : Z :=
  match s with ConditionTrue => 0 | ConditionFalse => 1 | ConditionUnknown => 2 end.

Definition cmp_Compare (x y : Z) : Z := if (x <? y)%Z then -1 else if (y <? x)%Z then 1 else 0.

Definition compareConditions (a b : Condition) : Z :=
  let diff := cmp_Compare (statusOrder_Index (cond_Status a)) (statusOrder_Index (cond_Status b)) in
  if diff != 0%Z then diff
  else cmp_Compare (cond_LastTransitionTime a) (cond_LastTransitionTime b).

Definition sortConditions (conditions : list Condition) : list Condition :=
  SortStableFunc compareConditions conditions.

Section apiproxy.
Context {E : Type} {MC : MetaConditions} {SC : StatusClient E}.

Abbreviation W := (World E).

Definition w_set_yts (f : Ytsaurus → Ytsaurus) (w : W) : W :=
  mkWorld (f (w_yts w)) (w_events w) (w_now w) (w_statuses w) (w_env w).

Definition w_set_status (f : YtsaurusStatus → YtsaurusStatus) : W → W := w_set_yts (yts_set_Status f).

Definition w_set_update_status (f : UpdateStatus → UpdateStatus) : W → W :=
  w_set_status (st_set_UpdateStatus f).

Definition w_set_env (e : E) (w : W) : W :=
  mkWorld (w_yts w) (w_events w) (w_now w) (w_statuses w) e.

Definition w_add_event (e : Event) (w : W) : W :=
  mkWorld (w_yts w) (w_events w ++ [e]) (w_now w) (w_statuses w) (w_env w).

Definition w_set_component_status (id : nat) (s : ComponentStatus) (w : W) : W :=
  mkWorld (w_yts w) (w_events w) (w_now w) (<[id := s]> (w_statuses w)) (w_env w).

Definition w_status (w : W) : YtsaurusStatus := yts_Status (w_yts w).
Definition w_update_status (w : W) : UpdateStatus := st_UpdateStatus (w_status w).

(** An operation of the environment lifted to the world. *)
Definition in_env {A} (f : go E A) : go W A := λ w,
  let '(x, e) := f (w_env w) in (x, w_set_env e w).

(** ** apiProxy (proxy.go) *)

Definition RecordWarning (reason message : string) : go W unit :=
  modify (w_add_event (mkEvent EventTypeWarning reason message)).

Definition RecordNormal (reason message : string) : go W unit :=
  modify (w_add_event (mkEvent EventTypeNormal reason message)).

Definition SetStatusCondition (condition : Condition) : go W unit := λ w,
  let condition := set_ObservedGeneration (yts_Generation (w_yts w)) condition in
  let conditions := (meta_SetStatusCondition (w_now w) (st_Conditions (w_status w)) condition).1 in
  (tt, w_set_status (st_set_Conditions (sortConditions conditions)) w).

Definition RemoveStatusCondition (conditionType : string) : go W unit :=
  modify (λ w, w_set_status
    (st_set_Conditions (meta_RemoveStatusCondition (st_Conditions (w_status w)) conditionType)) w).

Definition GetStatusCondition (w : W) (conditionType : string) : option Condition :=
  FindStatusCondition (st_Conditions (w_status w)) conditionType.

Definition IsStatusConditionTrue (w : W) (conditionType : string) : bool :=
  meta_IsStatusConditionTrue (st_Conditions (w_status w)) conditionType.

Definition IsStatusConditionFalse (w : W) (conditionType : string) : bool :=
  meta_IsStatusConditionFalse (st_Conditions (w_status w)) conditionType.

Definition IsStatusConditionTrueAndObservedGeneration (w : W) (conditionType : string) : bool :=
  match GetStatusCondition w conditionType with
  | Some cond => (cond_Status cond == ConditionTrue) &&
                 (cond_ObservedGeneration cond == yts_Generation (w_yts w))
  | None => false
  end.

Definition updateOperatorVersion : go W bool := λ w,
  let operatorVersion := GetVersion in
  let conditions := st_Conditions (w_status w) in
  let conditions :=
    match FindStatusCondition conditions ConditionOperatorVersion with
    | Some c => if cond_Message c != operatorVersion
                then meta_RemoveStatusCondition conditions ConditionOperatorVersion
                else conditions
    | None => conditions
    end in
  let '(conditions, changed) := meta_SetStatusCondition (w_now w) conditions
    (set_ObservedGeneration (yts_Generation (w_yts w))
       (condition ConditionOperatorVersion ConditionTrue "Observed" operatorVersion)) in
  (changed, w_set_status (st_set_Conditions conditions) w).

Definition UpdateStatus_ : go W (option error) :=
  updateOperatorVersion ;;
  y ← gets w_yts; in_env (Status_Update y).

Definition observeGeneration : go W bool := λ w,
  let generation := yts_Generation (w_yts w) in
  if st_ObservedGeneration (w_status w) != generation
  then (true, w_set_status (st_set_ObservedGeneration generation) w)
  else (false, w).

Definition SyncObservedGeneration : go W bool :=
  updated ← observeGeneration;
  changed ← updateOperatorVersion;
  mret (if changed : bool then true else updated).

(** ** Ytsaurus (ytsaurus.go) *)

Definition GetClusterFeatures (w : W) : ClusterFeatures :=
  Deref (cs_ClusterFeatures (spec_CommonSpec (yts_Spec (w_yts w)))) ClusterFeaturesZero.

Definition GetClusterMaintenance (w : W) : ClusterMaintenance :=
  Deref (cs_ClusterMaintenance (spec_CommonSpec (yts_Spec (w_yts w)))) ClusterMaintenanceZero.

Definition GetClusterState (w : W) : ClusterState := st_State (w_status w).

Definition IsInitializing (w : W) : bool := GetClusterState w == ClusterStateInitializing.

Definition IsReadyToWork (w : W) : bool :=
  match GetClusterState w with
  | ClusterStateRunning | ClusterStateUpdateBlocked => true
  | _ => false
  end.

Definition IsReadyToUpdate (w : W) : bool :=
  match GetClusterState w with
  | ClusterStatePreparing | ClusterStateRunning | ClusterStateUpdateBlocked
  | ClusterStateMaintenance => true
  | _ => false
  end.

Definition IsReadyForInitJobs (w : W) : bool :=
  match GetClusterState w with
  | ClusterStateInitializing | ClusterStatePreparing | ClusterStateRunning
  | ClusterStateReconfiguration | ClusterStateMaintenance | ClusterStateUpdateBlocked => true
  | _ => false
  end.

Definition IsUpdating (w : W) : bool := GetClusterState w == ClusterStateUpdating.

Definition SetClusterState (clusterState : ClusterState) : go W bool := λ w,
  if GetClusterState w == clusterState then (false, w) else
  let w := w_set_status (st_set_State clusterState) w in
  let readyToWork := if IsReadyToWork w then ConditionTrue else ConditionFalse in
  let message := "Cluster state is " +:+ ClusterState_string clusterState in
  (SetStatusCondition (condition ConditionReadyToWork readyToWork
                         (ClusterState_string clusterState) message) ;;
   RecordNormal "ClusterState" message ;;
   mret true) w.

Definition GetUpdateState (w : W) : UpdateState := us_State (w_update_status w).

Definition SetUpdateState (updateState : UpdateState) : go W unit :=
  modify (w_set_update_status (us_set_State updateState)).

Definition GetUpdatingComponents (w : W) : list Component := us_UpdatingComponents (w_update_status w).

Definition IsUpdatingComponent (w : W) (componentType : ComponentType) (componentName : string) : bool :=
  ContainsFunc (GetUpdatingComponents w) (λ component,
    (component_Type component == componentType) && (component_Name component == componentName)).

Definition IsUpdateStatusConditionTrue (w : W) (c : string) : bool :=
  meta_IsStatusConditionTrue (us_Conditions (w_update_status w)) c.

Definition IsUpdateStatusConditionFalse (w : W) (c : string) : bool :=
  meta_IsStatusConditionFalse (us_Conditions (w_update_status w)) c.

Definition GetUpdateStatusCondition (w : W) (c : string) : option Condition :=
  FindStatusCondition (us_Conditions (w_update_status w)) c.

Definition SetUpdateStatusCondition (c : Condition) : go W unit :=
  modify (λ w, w_set_update_status (us_set_Conditions
    (sortConditions (meta_SetStatusCondition (w_now w) (us_Conditions (w_update_status w)) c).1)) w).

Definition getLabelerComponentName (component : Component) : string :=
  let l := ForComponent LabellerZero (component_Type component) (component_Name component) in
  GetComponentShortName (lab_set_UseShortNames true l).

Definition BuildComponentsSummary (components : list Component) : string :=
  match components with
  | [] => ""
  | _ => "{" +:+ strings_Join (getLabelerComponentName <$> components) " " +:+ "}"
  end.

Definition SetUpdatingComponents (canUpdate : list Component) : go W unit :=
  modify (w_set_update_status (us_set_UpdatingComponents canUpdate (BuildComponentsSummary canUpdate))).

(** The selector list is scanned for the first match that has a strategy. *)
Fixpoint firstPreChecks (plan : list ComponentUpdateSelector) (componentType : ComponentType)
    (componentName : string) : bool :=
  match plan with
  | [] => true
  | selector :: rest =>
      if (component_Type (sel_Component selector) == componentType) &&
         ((component_Name (sel_Component selector) == "") ||
          (component_Name (sel_Component selector) == componentName))
      then match sel_Strategy selector with
           | Some strategy => Deref (strat_RunPreChecks strategy) true
           | None => firstPreChecks rest componentType componentName
           end
      else firstPreChecks rest componentType componentName
  end.

Definition shouldEnablePreChecksFromSpec (w : W) (componentType : ComponentType) (componentName : string)
    : bool :=
  firstPreChecks (spec_UpdatePlan (yts_Spec (w_yts w))) componentType componentName.

Definition ShouldRunPreChecks (w : W) (componentType : ComponentType) (componentName : string) : bool :=
  if negb (shouldEnablePreChecksFromSpec w componentType componentName) then false else
  match FindStatusCondition (us_Conditions (w_update_status w)) (componentName +:+ "Ready") with
  | Some cond => negb (cond_Status cond == ConditionTrue)
  | None => true
  end.

Definition SetBlockedComponents (components : list Component) : go W bool := λ w,
  let summary := BuildComponentsSummary components in
  if us_BlockedComponentsSummary (w_update_status w) == summary then (false, w)
  else (true, w_set_update_status (us_set_BlockedComponentsSummary summary) w).

Definition ClearUpdateStatus : go W unit :=
  modify (w_set_update_status (λ u,
    mkUpdateStatus UpdateStateUndefined [] "" (us_BlockedComponentsSummary u) []
      (us_MasterCellsMaintenance u) [] None)).

Definition LogUpdate (message : string) : go W unit := RecordNormal "Update" message.

Definition SaveClusterState (clusterState : ClusterState) : go W (option error) :=
  SetClusterState clusterState ;; UpdateStatus_.

Definition SaveUpdateState (updateState : UpdateState) : go W (option error) :=
  SetUpdateState updateState ;; UpdateStatus_.

Definition GetUpdateStateCompleteCondition (updateState : UpdateState) : string :=
  UpdateState_string updateState +:+ ConditionUpdateStateComplete.

(** [time.Duration.String] of a whole number of seconds. *)
Definition duration_String (seconds : Z) : string :=
  let a := Z.abs seconds in
  (if (seconds <? 0)%Z then "-" else "") +:+
  (if (3600 <=? a)%Z then fmt_d (a / 3600) +:+ "h" else "") +:+
  (if (60 <=? a)%Z then fmt_d (a mod 3600 / 60) +:+ "m" else "") +:+
  fmt_d (a mod 60) +:+ "s".

Definition UpdateOnDeleteComponentsSummary (waitingOnDeleteConditionType : string)
    (includeWaitinDuration : bool) : go W unit := λ w,
  if GetUpdateState w != UpdateStateWaitingForPodsRemoval then (tt, w) else
  let part (component : Component) : list string :=
    match FindStatusCondition (us_Conditions (w_update_status w)) waitingOnDeleteConditionType with
    | Some cond =>
        if cond_Status cond == ConditionTrue then
          let componentName := getLabelerComponentName component in
          if includeWaitinDuration
          then ["{" +:+ componentName +:+ " (waiting " +:+
                duration_String (w_now w - cond_LastTransitionTime cond) +:+ ")}"]
          else ["{" +:+ componentName +:+ "}"]
        else []
    | None => []
    end in
  match GetUpdatingComponents w ≫= part with
  | [] => (tt, w)
  | summaryParts => (tt, w_set_update_status (λ u,
      us_set_UpdatingComponents (us_UpdatingComponents u) (strings_Join summaryParts ", ") u) w)
  end.

Fixpoint findImageHeater (plan : list ComponentUpdateSelector) (target : string) (planned : bool)
    : option ComponentUpdateSelector * bool :=
  match plan with
  | [] => (None, planned)
  | selector :: rest =>
      if component_Type (sel_Component selector) == ImageHeaterType then
        let name := component_Name (sel_Component selector) in
        if (name == "") || (target == "") || (name == target) then (Some selector, true)
        else findImageHeater rest target true
      else findImageHeater rest target planned
  end.

Definition GetImageHeater (w : W) (target : string) : option ComponentUpdateSelector :=
  match findImageHeater (spec_UpdatePlan (yts_Spec (w_yts w))) target false with
  | (Some selector, _) => Some selector
  | (None, planned) =>
      if negb planned && cf_EnableImageHeater (GetClusterFeatures w) then Some SelectorZero else None
  end.

End apiproxy.

(** ** Frame: what an operation leaves alone

    [w_core] is what decides where the cluster is: the desired state, the cluster state,
    the update state and the components being updated. *)

Section frame.
Context {E : Type} {MC : MetaConditions} {SC : StatusClient E}.

Abbreviation W := (World E).

Definition w_core (w : W) : string * Z * YtsaurusSpec * ClusterState * UpdateState * list Component :=
  (yts_Name (w_yts w), yts_Generation (w_yts w), yts_Spec (w_yts w), GetClusterState w,
   GetUpdateState w, GetUpdatingComponents w).

(** The status conditions and the update conditions, as the operator reads them. *)
Definition w_conditions (w : W) : list Condition := st_Conditions (w_status w).
Definition w_update_conditions (w : W) : list Condition := us_Conditions (w_update_status w).

Lemma in_env_run {A} (f : go E A) w : in_env f w = ((f (w_env w)).1, w_set_env (f (w_env w)).2 w).
Proof. unfold in_env. by destruct (f (w_env w)). Qed.

Lemma val_in_env {A} (f : go E A) w : val_of (in_env f) w = val_of f (w_env w).
Proof. unfold val_of at 1. by rewrite in_env_run. Qed.

Lemma run_in_env {A} (f : go E A) w : run (in_env f) w = w_set_env (run f (w_env w)) w.
Proof. unfold run at 1. by rewrite in_env_run. Qed.

Lemma in_env_yts {A} (f : go E A) : preserves w_yts (in_env f).
Proof. intros w. unfold run. by rewrite in_env_run. Qed.

Lemma core_of_yts {A} (m : go W A) : preserves w_yts m → preserves w_core m.
Proof.
  intros H w. unfold w_core, GetClusterState, GetUpdateState, GetUpdatingComponents,
    w_update_status, w_status. by rewrite (H w).
Qed.

Lemma conditions_of_yts {A} (m : go W A) : preserves w_yts m → preserves w_conditions m.
Proof. intros H w. unfold w_conditions, w_status. by rewrite (H w). Qed.

Lemma update_conditions_of_yts {A} (m : go W A) : preserves w_yts m → preserves w_update_conditions m.
Proof. intros H w. unfold w_update_conditions, w_update_status, w_status. by rewrite (H w). Qed.

Lemma RecordNormal_yts r m : preserves w_yts (RecordNormal (E:=E) r m).
Proof. done. Qed.

Lemma RecordWarning_yts r m : preserves w_yts (RecordWarning (E:=E) r m).
Proof. done. Qed.

Lemma SetStatusCondition_core c : preserves w_core (SetStatusCondition (E:=E) c).
Proof. done. Qed.

Lemma SetStatusCondition_update c : preserves w_update_status (SetStatusCondition (E:=E) c).
Proof. done. Qed.

Lemma RemoveStatusCondition_core t : preserves w_core (RemoveStatusCondition (E:=E) t).
Proof. done. Qed.

Lemma RemoveStatusCondition_update t : preserves w_update_status (RemoveStatusCondition (E:=E) t).
Proof. done. Qed.

Lemma SetUpdateStatusCondition_core c : preserves w_core (SetUpdateStatusCondition (E:=E) c).
Proof. done. Qed.

Lemma SetUpdateStatusCondition_conditions c : preserves w_conditions (SetUpdateStatusCondition (E:=E) c).
Proof. done. Qed.

Lemma updateOperatorVersion_core : preserves w_core (updateOperatorVersion (E:=E)).
Proof. intros w. unfold run, updateOperatorVersion. by case_match. Qed.

Lemma updateOperatorVersion_update : preserves w_update_status (updateOperatorVersion (E:=E)).
Proof. intros w. unfold run, updateOperatorVersion. by case_match. Qed.

Lemma UpdateStatus_core : preserves w_core (UpdateStatus_ (E:=E)).
Proof.
  unfold UpdateStatus_. apply preserves_bind; [apply updateOperatorVersion_core|]. intros _.
  apply preserves_bind; [apply preserves_gets|]. intros y. apply core_of_yts, in_env_yts.
Qed.

Lemma update_status_of_yts {A} (m : go W A) : preserves w_yts m → preserves w_update_status m.
Proof. intros H w. unfold w_update_status, w_status. by rewrite (H w). Qed.

Lemma UpdateStatus_update : preserves w_update_status (UpdateStatus_ (E:=E)).
Proof.
  unfold UpdateStatus_. apply preserves_bind; [apply updateOperatorVersion_update|]. intros _.
  apply preserves_bind; [apply preserves_gets|]. intros y. apply update_status_of_yts, in_env_yts.
Qed.

Lemma UpdateOnDeleteComponentsSummary_core t b :
  preserves w_core (UpdateOnDeleteComponentsSummary (E:=E) t b).
Proof. intros w. unfold run, UpdateOnDeleteComponentsSummary. by repeat case_match. Qed.

Lemma SetBlockedComponents_core l : preserves w_core (SetBlockedComponents (E:=E) l).
Proof. intros w. unfold run, SetBlockedComponents. by case_match. Qed.

Lemma SyncObservedGeneration_core : preserves w_core (SyncObservedGeneration (E:=E)).
Proof.
  unfold SyncObservedGeneration. apply preserves_bind.
  - intros w. unfold run, observeGeneration. by case_match.
  - intros b. apply preserves_bind; [apply updateOperatorVersion_core|]. intros. apply preserves_ret.
Qed.

End frame.

#[export] Hint Resolve in_env_yts RecordNormal_yts RecordWarning_yts SetStatusCondition_core
  SetStatusCondition_update RemoveStatusCondition_core RemoveStatusCondition_update
  SetUpdateStatusCondition_core SetUpdateStatusCondition_conditions UpdateStatus_core
  UpdateStatus_update UpdateOnDeleteComponentsSummary_core SetBlockedComponents_core
  SyncObservedGeneration_core core_of_yts conditions_of_yts update_conditions_of_yts
  update_status_of_yts : go_preserves.

(** ** Conditions are kept as a sorted map

    [cond_le] is the order conditions are shown in. *)

Definition cond_le (a b : Condition) : Prop := (compareConditions a b ≤ 0)%Z.

Lemma cmp_Compare_le x y : (cmp_Compare x y ≤ 0 ↔ x ≤ y)%Z.
Proof. unfold cmp_Compare. destruct (Z.ltb_spec x y), (Z.ltb_spec y x); lia. Qed.

Lemma cmp_Compare_zero x y : (cmp_Compare x y = 0 ↔ x = y)%Z.
Proof. unfold cmp_Compare. destruct (Z.ltb_spec x y), (Z.ltb_spec y x); lia. Qed.

(** The comparison is the lexicographic order of status rank and transition time. *)
Lemma compareConditions_le a b :
  (compareConditions a b ≤ 0)%Z ↔
    (statusOrder_Index (cond_Status a) < statusOrder_Index (cond_Status b))%Z ∨
    (statusOrder_Index (cond_Status a) = statusOrder_Index (cond_Status b) ∧
     cond_LastTransitionTime a ≤ cond_LastTransitionTime b)%Z.
Proof.
  unfold compareConditions. cbv zeta.
  pose proof (cmp_Compare_le (statusOrder_Index (cond_Status a)) (statusOrder_Index (cond_Status b))).
  pose proof (cmp_Compare_zero (statusOrder_Index (cond_Status a)) (statusOrder_Index (cond_Status b))).
  pose proof (cmp_Compare_le (cond_LastTransitionTime a) (cond_LastTransitionTime b)).
  destruct (bool_decide_reflect (cmp_Compare (statusOrder_Index (cond_Status a))
    (statusOrder_Index (cond_Status b)) = 0%Z)); cbn; lia.
Qed.

Lemma compareConditions_ok : cmp_ok compareConditions.
Proof.
  split.
  - intros x y H. apply compareConditions_le. apply Z.nle_gt in H.
    rewrite compareConditions_le in H. lia.
  - intros x y z. rewrite !compareConditions_le. lia.
Qed.

Section condition_map.
Context {E : Type} {MC : MetaConditions} {ML : MetaConditionsLaws MC} {SC : StatusClient E}.

Abbreviation W := (World E).

(** The invariant of the persisted conditions. *)
Definition conditions_ok (w : W) : Prop :=
  unique_types (w_conditions w) ∧ unique_types (w_update_conditions w).

Lemma sortConditions_find l t :
  unique_types l → FindStatusCondition (sortConditions l) t = FindStatusCondition l t.
Proof.
  intros Hu. apply find_Permutation; [done|]. symmetry. apply SortStableFunc_Permutation.
Qed.

Lemma sortConditions_unique l : unique_types l → unique_types (sortConditions l).
Proof. apply unique_types_Permutation. symmetry. apply SortStableFunc_Permutation. Qed.

Lemma sortConditions_sorted l : StronglySorted cond_le (sortConditions l).
Proof. apply (SortStableFunc_sorted _ compareConditions_ok). Qed.

Lemma SetUpdateStatusCondition_find_same c (w : W) :
  unique_types (w_update_conditions w) →
  ∃ c', GetUpdateStatusCondition (run (SetUpdateStatusCondition c) w) (cond_Type c) = Some c' ∧
        cond_content c' = cond_content c.
Proof.
  intros Hu. unfold GetUpdateStatusCondition, run, SetUpdateStatusCondition. cbn.
  rewrite sortConditions_find by by apply set_unique. by apply set_same.
Qed.

Lemma SetUpdateStatusCondition_find_other c (w : W) t :
  unique_types (w_update_conditions w) → t ≠ cond_Type c →
  GetUpdateStatusCondition (run (SetUpdateStatusCondition c) w) t = GetUpdateStatusCondition w t.
Proof.
  intros Hu Ht. unfold GetUpdateStatusCondition, run, SetUpdateStatusCondition. cbn.
  rewrite sortConditions_find by by apply set_unique. by apply set_other.
Qed.

Lemma SetUpdateStatusCondition_unique c (w : W) :
  unique_types (w_update_conditions w) →
  unique_types (w_update_conditions (run (SetUpdateStatusCondition c) w)).
Proof. intros Hu. apply sortConditions_unique. by apply set_unique. Qed.

Lemma IsUpdateStatusConditionTrue_find (w : W) t :
  IsUpdateStatusConditionTrue w t =
    match GetUpdateStatusCondition w t with
    | Some c => cond_Status c == ConditionTrue
    | None => false
    end.
Proof. reflexivity. Qed.

Lemma IsStatusConditionTrue_find (w : W) t :
  IsStatusConditionTrue w t =
    match GetStatusCondition w t with
    | Some c => cond_Status c == ConditionTrue
    | None => false
    end.
Proof. reflexivity. Qed.

(** Reading a condition that was just set. *)
Lemma IsUpdateStatusConditionTrue_set c (w : W) t :
  unique_types (w_update_conditions w) →
  IsUpdateStatusConditionTrue (run (SetUpdateStatusCondition c) w) t =
    if t == cond_Type c then cond_Status c == ConditionTrue else IsUpdateStatusConditionTrue w t.
Proof.
  intros Hu. rewrite !IsUpdateStatusConditionTrue_find.
  destruct (bool_decide_reflect (t = cond_Type c)) as [->|Ht].
  - destruct (SetUpdateStatusCondition_find_same c w Hu) as (c' & -> & Hcc).
    by injection Hcc as _ -> _ _ _.
  - by rewrite SetUpdateStatusCondition_find_other.
Qed.

Lemma SetStatusCondition_find c (w : W) :
  unique_types (w_conditions w) →
  (∃ c', GetStatusCondition (run (SetStatusCondition c) w) (cond_Type c) = Some c' ∧
     cond_content c' = cond_content (set_ObservedGeneration (yts_Generation (w_yts w)) c)) ∧
  (∀ t, t ≠ cond_Type c →
     GetStatusCondition (run (SetStatusCondition c) w) t = GetStatusCondition w t).
Proof.
  intros Hu. split; [|intros t Ht]; unfold GetStatusCondition, run, SetStatusCondition; cbn;
    rewrite sortConditions_find by by apply set_unique.
  - apply (set_same (w_now w) _ (set_ObservedGeneration (yts_Generation (w_yts w)) c)). done.
  - by apply set_other.
Qed.

Lemma SetStatusCondition_unique c (w : W) :
  unique_types (w_conditions w) → unique_types (w_conditions (run (SetStatusCondition c) w)).
Proof. intros Hu. apply sortConditions_unique. by apply set_unique. Qed.

(** [SetStatusCondition] treats the status as a map kept in display order: from
    conditions with unique types it leaves conditions with unique types, sorted by status
    and transition time, in which the given type holds the given status, reason and message
    stamped with the current generation, and every other type reads as before. *)
Theorem SetStatusCondition_spec c (w : W) :
  unique_types (w_conditions w) →
  let w' := run (SetStatusCondition c) w in
  unique_types (w_conditions w') ∧ StronglySorted cond_le (w_conditions w') ∧
  (∃ c', GetStatusCondition w' (cond_Type c) = Some c' ∧
     cond_content c' = cond_content (set_ObservedGeneration (yts_Generation (w_yts w)) c)) ∧
  (∀ t, t ≠ cond_Type c → GetStatusCondition w' t = GetStatusCondition w t) ∧
  w_update_status w' = w_update_status w ∧ GetClusterState w' = GetClusterState w.
Proof.
  intros Hu. cbn zeta. destruct (SetStatusCondition_find c w Hu).
  split_and!; try done; [by apply SetStatusCondition_unique|apply sortConditions_sorted].
Qed.

Lemma IsStatusConditionTrue_set c (w : W) t :
  unique_types (w_conditions w) →
  IsStatusConditionTrue (run (SetStatusCondition c) w) t =
    if t == cond_Type c then cond_Status c == ConditionTrue else IsStatusConditionTrue w t.
Proof.
  intros Hu. rewrite !IsStatusConditionTrue_find.
  destruct (SetStatusCondition_find c w Hu) as [(c' & Hc & Hcc) Hother].
  destruct (bool_decide_reflect (t = cond_Type c)) as [->|Ht].
  - rewrite Hc. by injection Hcc as _ -> _ _ _.
  - by rewrite Hother.
Qed.

(** The ReadyToWork condition mirrors the cluster state. *)
Definition ready_coherent (w : W) : Prop :=
  IsStatusConditionTrue w ConditionReadyToWork = IsReadyToWork w.

Lemma SetClusterState_changed s (w : W) :
  GetClusterState w ≠ s →
  let w1 := w_set_status (st_set_State s) w in
  let message := "Cluster state is " +:+ ClusterState_string s in
  SetClusterState s w =
    (true, w_add_event (mkEvent EventTypeNormal "ClusterState" message)
      (run (SetStatusCondition (condition ConditionReadyToWork
        (if IsReadyToWork w1 then ConditionTrue else ConditionFalse)
        (ClusterState_string s) message)) w1)).
Proof. intros H. unfold SetClusterState. by rewrite (bool_decide_eq_false_2 _ H). Qed.

Lemma SetClusterState_same s (w : W) : GetClusterState w = s → SetClusterState s w = (false, w).
Proof. intros H. unfold SetClusterState. by rewrite (bool_decide_eq_true_2 _ H). Qed.

(** A change of the cluster state is announced exactly once and truthfully:
    [SetClusterState] reports whether the state differed; when it did, the new state is
    stored, the ReadyToWork condition is true exactly in the states Running and
    UpdateBlocked, and one event is recorded; when it did not, nothing changes. *)
Theorem SetClusterState_spec s (w : W) :
  unique_types (w_conditions w) →
  let '(changed, w') := SetClusterState s w in
  changed = negb (GetClusterState w == s) ∧ GetClusterState w' = s ∧
  (if changed
   then ready_coherent w' ∧ ∃ e, w_events w' = w_events w ++ [e]
   else w' = w) ∧
  w_update_status w' = w_update_status w ∧ unique_types (w_conditions w').
Proof.
  intros Hu. destruct (bool_decide_reflect (GetClusterState w = s)) as [E1|E1].
  - rewrite SetClusterState_same by done. by split_and!.
  - rewrite SetClusterState_changed by done. cbv zeta. split_and!; try done.
    + unfold ready_coherent. etrans; [apply IsStatusConditionTrue_set; exact Hu|].
      cbn. by destruct (IsReadyToWork _).
    + by eexists.
    + apply SetStatusCondition_unique. exact Hu.
Qed.

(** The conditions [updateOperatorVersion] starts from: without an outdated version. *)
Definition operatorVersionBase (w : W) : list Condition :=
  match FindStatusCondition (w_conditions w) ConditionOperatorVersion with
  | Some c => if cond_Message c != GetVersion
              then meta_RemoveStatusCondition (w_conditions w) ConditionOperatorVersion
              else w_conditions w
  | None => w_conditions w
  end.

Lemma operatorVersionBase_unique (w : W) :
  unique_types (w_conditions w) → unique_types (operatorVersionBase w).
Proof. intros Hu. unfold operatorVersionBase. repeat case_match; try done. by apply remove_unique. Qed.

Lemma updateOperatorVersion_run (w : W) :
  run updateOperatorVersion w = w_set_status (st_set_Conditions
    (meta_SetStatusCondition (w_now w) (operatorVersionBase w)
       (set_ObservedGeneration (yts_Generation (w_yts w))
          (condition ConditionOperatorVersion ConditionTrue "Observed" GetVersion))).1) w.
Proof.
  unfold run, updateOperatorVersion, operatorVersionBase, w_conditions.
  by destruct (meta_SetStatusCondition _ _ _).
Qed.

(** Once the operator version is recorded, recording it again changes nothing. *)
Lemma updateOperatorVersion_spec (w : W) :
  unique_types (w_conditions w) →
  let w' := run updateOperatorVersion w in
  unique_types (w_conditions w') ∧ updateOperatorVersion w' = (false, w').
Proof.
  intros Hu. cbv zeta. rewrite updateOperatorVersion_run.
  pose proof (operatorVersionBase_unique w Hu) as Huc.
  set (conds := operatorVersionBase w) in *. set (c := set_ObservedGeneration _ _).
  pose proof (set_unique (w_now w) conds c Huc) as Hu'.
  destruct (set_same (w_now w) conds c Huc) as (c' & Hc' & Hcc).
  set (l := (meta_SetStatusCondition (w_now w) conds c).1) in *.
  split; [done|]. set (w1 := w_set_status (st_set_Conditions l) w). unfold updateOperatorVersion.
  change (st_Conditions (w_status w1)) with l.
  change ConditionOperatorVersion with (cond_Type c) at 1. rewrite Hc'.
  assert (cond_Message c' = GetVersion) as -> by by injection Hcc.
  rewrite (bool_decide_eq_true_2 _ eq_refl). cbn [negb].
  change (set_ObservedGeneration (yts_Generation (w_yts w1)) _) with c.
  change (w_now w1) with (w_now w).
  pose proof (set_idempotent (w_now w) l c c' Hu' Hc' Hcc) as Hsame.
  pose proof (set_unchanged (w_now w) l c Hsame) as Hl.
  destruct (meta_SetStatusCondition (w_now w) l c) as [l' b']. cbn in Hsame, Hl. subst b' l'.
  done.
Qed.

(** The two halves of the invariant as properties an operation keeps. *)
Definition status_unique (w : W) : Prop := unique_types (w_conditions w).
Definition update_unique (w : W) : Prop := unique_types (w_update_conditions w).

Lemma status_unique_of_yts {A} (m : go W A) : preserves w_yts m → keeps status_unique m.
Proof. intros H w. unfold status_unique. by rewrite (conditions_of_yts m H w). Qed.

Lemma update_unique_of_yts {A} (m : go W A) : preserves w_yts m → keeps update_unique m.
Proof. intros H w. unfold update_unique. by rewrite (update_conditions_of_yts m H w). Qed.

Lemma SetStatusCondition_keeps c : keeps status_unique (SetStatusCondition (E:=E) c).
Proof. intros w. apply SetStatusCondition_unique. Qed.

Lemma SetStatusCondition_keeps_update c : keeps update_unique (SetStatusCondition (E:=E) c).
Proof. by intros w. Qed.

Lemma SetUpdateStatusCondition_keeps c : keeps status_unique (SetUpdateStatusCondition (E:=E) c).
Proof. by intros w. Qed.

Lemma SetUpdateStatusCondition_keeps_update c : keeps update_unique (SetUpdateStatusCondition (E:=E) c).
Proof. intros w. apply SetUpdateStatusCondition_unique. Qed.

Lemma UpdateOnDeleteComponentsSummary_keeps_update t b :
  keeps update_unique (UpdateOnDeleteComponentsSummary (E:=E) t b).
Proof. intros w. unfold run, UpdateOnDeleteComponentsSummary. by repeat case_match. Qed.

Lemma conditions_ok_of {A} (m : go W A) :
  keeps status_unique m → keeps update_unique m → keeps conditions_ok m.
Proof. intros H1 H2 w [Hs Hu]. split; [by apply H1|by apply H2]. Qed.

Lemma conditions_ok_of_yts {A} (m : go W A) : preserves w_yts m → keeps conditions_ok m.
Proof. intros H. apply conditions_ok_of; [by apply status_unique_of_yts|by apply update_unique_of_yts]. Qed.

Lemma SetStatusCondition_ok c : keeps conditions_ok (SetStatusCondition (E:=E) c).
Proof. apply conditions_ok_of; [apply SetStatusCondition_keeps|apply SetStatusCondition_keeps_update]. Qed.

Lemma SetUpdateStatusCondition_ok c : keeps conditions_ok (SetUpdateStatusCondition (E:=E) c).
Proof.
  apply conditions_ok_of; [apply SetUpdateStatusCondition_keeps|apply SetUpdateStatusCondition_keeps_update].
Qed.

Lemma RemoveStatusCondition_ok t : keeps conditions_ok (RemoveStatusCondition (E:=E) t).
Proof. intros w [Hs Hu]. split; [by apply remove_unique|done]. Qed.

Lemma updateOperatorVersion_ok : keeps conditions_ok (updateOperatorVersion (E:=E)).
Proof.
  intros w [Hs Hu]. split; [by apply updateOperatorVersion_spec|].
  unfold w_update_conditions. by rewrite (updateOperatorVersion_update w).
Qed.

Lemma UpdateStatus_ok : keeps conditions_ok (UpdateStatus_ (E:=E)).
Proof.
  unfold UpdateStatus_. apply keeps_bind; [apply updateOperatorVersion_ok|]. intros _.
  apply keeps_bind; [apply keeps_gets|]. intros y. apply conditions_ok_of_yts, in_env_yts.
Qed.

Lemma SyncObservedGeneration_ok : keeps conditions_ok (SyncObservedGeneration (E:=E)).
Proof.
  unfold SyncObservedGeneration. apply keeps_bind.
  - intros w. unfold run, observeGeneration. by case_match.
  - intros b. apply keeps_bind; [apply updateOperatorVersion_ok|]. intros. apply keeps_ret.
Qed.

Lemma SetBlockedComponents_ok l : keeps conditions_ok (SetBlockedComponents (E:=E) l).
Proof. intros w. unfold run, SetBlockedComponents. by case_match. Qed.

Lemma SetUpdatingComponents_ok l : keeps conditions_ok (SetUpdatingComponents (E:=E) l).
Proof. by intros w. Qed.

Lemma SetUpdateState_ok s : keeps conditions_ok (SetUpdateState (E:=E) s).
Proof. by intros w. Qed.

Lemma SetClusterState_ok s : keeps conditions_ok (SetClusterState (E:=E) s).
Proof.
  intros w Hw. unfold run. destruct (bool_decide_reflect (GetClusterState w = s)) as [H|H].
  - by rewrite SetClusterState_same.
  - rewrite SetClusterState_changed by done. by apply SetStatusCondition_ok.
Qed.

Lemma ClearUpdateStatus_ok : keeps conditions_ok (ClearUpdateStatus (E:=E)).
Proof. intros w [Hs _]. split; [done|]. apply NoDup_nil_2. Qed.

(** Recording the operator version leaves every other condition as it is. *)
Lemma updateOperatorVersion_other t (w : W) :
  unique_types (w_conditions w) → t ≠ ConditionOperatorVersion →
  GetStatusCondition (run updateOperatorVersion w) t = GetStatusCondition w t.
Proof.
  intros Hu Ht. rewrite updateOperatorVersion_run.
  change (GetStatusCondition (w_set_status (st_set_Conditions ?l) w) t) with (FindStatusCondition l t).
  rewrite set_other; [|by apply operatorVersionBase_unique|done].
  unfold operatorVersionBase, GetStatusCondition. fold (w_conditions w).
  repeat case_match; try done. by apply remove_other.
Qed.

(** Confirming the observed generation converges: after [SyncObservedGeneration] the
    status carries the current generation, and calling it again at the same time reports no
    change and leaves the object as it is, so it never asks for a status update twice. *)
Theorem SyncObservedGeneration_converges (w : W) :
  unique_types (w_conditions w) →
  let w' := run SyncObservedGeneration w in
  st_ObservedGeneration (w_status w') = yts_Generation (w_yts w') ∧
  SyncObservedGeneration w' = (false, w').
Proof.
  intros Hu. cbv zeta. unfold SyncObservedGeneration. rewrite run_bind.
  set (w1 := run observeGeneration w).
  assert (st_ObservedGeneration (w_status w1) = yts_Generation (w_yts w1) ∧
    unique_types (w_conditions w1)) as [Hg1 Hu1].
  { subst w1. unfold run, observeGeneration.
    by destruct (bool_decide_reflect (st_ObservedGeneration (w_status w) = yts_Generation (w_yts w))). }
  destruct (updateOperatorVersion_spec w1 Hu1) as [Hu2 Hup].
  rewrite run_bind. set (w2 := run updateOperatorVersion w1) in *.
  assert (st_ObservedGeneration (w_status w2) = yts_Generation (w_yts w2)) as Hg2.
  { subst w2. unfold run, updateOperatorVersion. by destruct (meta_SetStatusCondition _ _ _). }
  split; [done|]. rewrite go_bind_run.
  assert (observeGeneration w2 = (false, w2)) as Ho.
  { unfold observeGeneration. by rewrite (bool_decide_eq_true_2 _ Hg2). }
  unfold val_of, run. cbn. rewrite Ho. cbn. rewrite go_bind_run. unfold val_of, run.
  by rewrite Hup.
Qed.

(** Finishing or cancelling an update forgets everything about it except the blocked
    components and the registration state of master cells: the conditions collected during
    the update are gone, so no step of the next update can be satisfied by this one, while
    cells that are being added stay marked. *)
Theorem ClearUpdateStatus_spec (w : W) :
  let w' := run ClearUpdateStatus w in
  GetUpdateState w' = UpdateStateUndefined ∧ GetUpdatingComponents w' = [] ∧
  (∀ t, IsUpdateStatusConditionTrue w' t = false) ∧
  us_TabletCellBundles (w_update_status w') = [] ∧
  us_MasterCellsMaintenance (w_update_status w') = us_MasterCellsMaintenance (w_update_status w) ∧
  us_BlockedComponentsSummary (w_update_status w') = us_BlockedComponentsSummary (w_update_status w) ∧
  w_conditions w' = w_conditions w ∧ GetClusterState w' = GetClusterState w.
Proof.
  cbv zeta. split_and!; try done. intros t.
  rewrite IsUpdateStatusConditionTrue_find. unfold GetUpdateStatusCondition. cbn.
  destruct (FindStatusCondition [] t) as [c|] eqn:E1; [|done].
  apply find_Some in E1 as [Hc _]. by apply elem_of_nil in Hc.
Qed.

End condition_map.

#[export] Hint Resolve status_unique_of_yts update_unique_of_yts SetStatusCondition_keeps
  SetStatusCondition_keeps_update SetUpdateStatusCondition_keeps
  SetUpdateStatusCondition_keeps_update UpdateOnDeleteComponentsSummary_keeps_update : go_keeps.
#[export] Hint Resolve conditions_ok_of_yts SetStatusCondition_ok SetUpdateStatusCondition_ok
  RemoveStatusCondition_ok UpdateStatus_ok SyncObservedGeneration_ok SetBlockedComponents_ok
  SetUpdatingComponents_ok SetUpdateState_ok SetClusterState_ok ClearUpdateStatus_ok : go_keeps.
#[export] Hint Resolve RecordNormal_yts RecordWarning_yts in_env_yts : go_keeps.

(** ** Confined computations

    What the components of a pass may do to the shared state: act on the environment, record
    events and set or remove conditions.  The core of the cluster resource, the statuses the
    components hold and the uniqueness of condition types stay. *)

Section confined.
Context {E : Type} {MC : MetaConditions}.

Definition confined {A} (m : go (World E) A) : Prop :=
  preserves w_core m ∧ preserves w_statuses m ∧ keeps conditions_ok m.

Lemma confined_ret {A} (x : A) : confined (mret x).
Proof. split_and!; [done|done|apply keeps_ret]. Qed.

Lemma confined_gets {A} (f : World E → A) : confined (gets f).
Proof. split_and!; [done|done|apply keeps_gets]. Qed.

Lemma confined_bind {A B} (m : go (World E) A) (f : A → go (World E) B) :
  confined m → (∀ x, confined (f x)) → confined (m ≫= f).
Proof.
  intros (H1 & H2 & H3) Hf. split_and!; [apply preserves_bind|apply preserves_bind|apply keeps_bind]; try done;
    intros x; by destruct (Hf x) as (? & ? & ?).
Qed.

Lemma confined_yts {A} (m : go (World E) A) :
  (∀ w, w_yts (run m w) = w_yts w ∧ w_statuses (run m w) = w_statuses w) → confined m.
Proof.
  intros H. assert (preserves w_yts m) as Hy by (intros w; apply H).
  split_and!; [by apply core_of_yts|by intros w; apply H|by apply conditions_ok_of_yts].
Qed.

Lemma confined_in_env {A} (f : go E A) : confined (in_env f).
Proof. apply confined_yts. intros w. by rewrite run_in_env. Qed.

Lemma confined_set_env (f : World E → E) : confined (modify (λ w, w_set_env (f w) w)).
Proof. by apply confined_yts. Qed.

Lemma confined_RecordNormal r m : confined (RecordNormal (E:=E) r m).
Proof. by apply confined_yts. Qed.

Lemma confined_RecordWarning r m : confined (RecordWarning (E:=E) r m).
Proof. by apply confined_yts. Qed.

Context {ML : MetaConditionsLaws MC}.

Lemma confined_SetStatusCondition c : confined (SetStatusCondition (E:=E) c).
Proof. split_and!; [apply SetStatusCondition_core|done|apply SetStatusCondition_ok]. Qed.

Lemma confined_SetUpdateStatusCondition c : confined (SetUpdateStatusCondition (E:=E) c).
Proof. split_and!; [apply SetUpdateStatusCondition_core|done|apply SetUpdateStatusCondition_ok]. Qed.

Lemma confined_RemoveStatusCondition t : confined (RemoveStatusCondition (E:=E) t).
Proof. split_and!; [apply RemoveStatusCondition_core|done|apply RemoveStatusCondition_ok]. Qed.

End confined.

Create HintDb confined discriminated.
#[export] Hint Resolve confined_ret confined_gets confined_in_env confined_set_env confined_RecordNormal
  confined_RecordWarning confined_SetStatusCondition confined_SetUpdateStatusCondition
  confined_RemoveStatusCondition : confined.

Ltac go_confined :=
  repeat first
    [ progress intros
    | solve [eauto with confined typeclass_instances]
    | apply confined_bind
    | match goal with |- confined (let '(_, _) := ?x in _) => destruct x end
    | match goal with |- confined (match ?x with _ => _ end) => destruct x end ].

(** ** Concrete worlds *)

(** A status subresource that accepts every write. *)
#[global] Instance AcceptingClient : StatusClient unit := {
  Status_Update := λ _ e, (None, e);
  GetVersion := "0.30.0";
}.

Definition example_yts : Ytsaurus :=
  mkYtsaurus "minisaurus" "default" 7 YtsaurusSpecZero
    (mkYtsaurusStatus ClusterStatePreparing
       [mkCondition ConditionReadyToWork ConditionFalse 6 100 "Preparing" "Cluster state is Preparing";
        mkCondition ConditionUpdateIsPossible ConditionTrue 6 90 "OK" ""] 6 UpdateStatusZero).

Definition example_world : World unit := mkWorld example_yts [] 200 ∅ tt.

Lemma example_world_unique : unique_types (w_conditions example_world).
Proof. apply (bool_decide_unpack _). vm_compute. exact I. Qed.

Lemma SetStatusCondition_spec_witness :
  (∃ c', GetStatusCondition (run (SetStatusCondition
            (condition "MasterReady" ConditionTrue "Ready" "Ready")) example_world) "MasterReady" = Some c' ∧
     cond_content c' = ("MasterReady", ConditionTrue, 7%Z, "Ready", "Ready")).
Proof.
  apply (SetStatusCondition_spec (condition "MasterReady" ConditionTrue "Ready" "Ready") example_world).
  apply example_world_unique.
Defined.

Lemma SetClusterState_spec_witness :
  ready_coherent (run (SetClusterState ClusterStateRunning) example_world).
Proof.
  pose proof (SetClusterState_spec ClusterStateRunning example_world example_world_unique) as H.
  exact (proj1 (proj1 (proj2 (proj2 H)))).
Defined.

Lemma SyncObservedGeneration_converges_witness :
  val_of SyncObservedGeneration example_world = true ∧
  val_of SyncObservedGeneration (run SyncObservedGeneration example_world) = false.
Proof.
  split; [reflexivity|].
  pose proof (SyncObservedGeneration_converges example_world example_world_unique) as [_ H].
  unfold val_of at 1. by rewrite H.
Defined.

Lemma ClearUpdateStatus_spec_witness :
  IsUpdateStatusConditionTrue (run ClearUpdateStatus example_world) ConditionReadyToWork = false.
Proof. exact (proj1 (proj2 (proj2 (ClearUpdateStatus_spec example_world))) ConditionReadyToWork). Defined.
