(* ===== verification/Resources.v ===== *)
(** * Managed Kubernetes objects (src/pkg/apiproxy/proxy.go, src/pkg/resources)

    The object half of the API proxy (fetch, create, update, delete) and the base of every
    managed resource, which keeps the object as it was fetched beside the object it builds.
    The Kubernetes client is a parameter; the resources live in the memory part of the
    environment and are reached through lenses, so that an operation that mutates an object
    in place changes what every holder of it sees. *)

From S2P Require Import Prelude Kubernetes ApiTypes Labeller ApiProxy.

(** ** Memory cells *)

Record lens (E A : Type) := mkLens { lget : E → A; lset : A → E → E }.
Arguments mkLens {E A} _ _.
Arguments lget {E A} _ _.
Arguments lset {E A} _ _ _.

Class LensLaws {E A} (l : lens E A) : Prop := {
  lget_lset : ∀ a e, lget l (lset l a e) = a;
  lset_lget : ∀ e, lset l (lget l e) e = e;
}.

(** Two cells that do not overlap. *)
Class Disjoint_lenses {E A B} (l : lens E A) (k : lens E B) : Prop := {
  disjoint_l : ∀ a e, lget k (lset l a e) = lget k e;
  disjoint_r : ∀ b e, lget l (lset k b e) = lget l e;
}.

(** ** Objects *)

Record ObjectMeta := mkObjectMeta {
  om_Name : string;
  om_ResourceVersion : string;
  om_Annotations : gmap string string;
  om_Finalizers : list string;
}.

Definition ObjectMetaZero : ObjectMeta := mkObjectMeta "" "" ∅ [].

(** [client.Object]: the metadata of an object and its Go type name. *)
Class KubeObject (T : Type) := {
  obj_meta : T → ObjectMeta;
  obj_set_meta : ObjectMeta → T → T;
  obj_type : string;
}.

Section object.
Context {T : Type} `{KubeObject T}.

Definition GetName (o : T) : string := om_Name (obj_meta o).
Definition GetResourceVersion (o : T) : string := om_ResourceVersion (obj_meta o).
Definition obj_GetAnnotations (o : T) : gmap string string := om_Annotations (obj_meta o).

Definition SetResourceVersion (v : string) (o : T) : T :=
  let m := obj_meta o in
  obj_set_meta (mkObjectMeta (om_Name m) v (om_Annotations m) (om_Finalizers m)) o.

Definition SetAnnotations (a : gmap string string) (o : T) : T :=
  let m := obj_meta o in
  obj_set_meta (mkObjectMeta (om_Name m) (om_ResourceVersion m) a (om_Finalizers m)) o.

Definition SetFinalizers (l : list string) (o : T) : T :=
  let m := obj_meta o in
  obj_set_meta (mkObjectMeta (om_Name m) (om_ResourceVersion m) (om_Annotations m) l) o.

(** [metav1.SetMetaDataAnnotation]. *)
Definition SetMetaDataAnnotation (ann value : string) (o : T) : T :=
  SetAnnotations (<[ann := value]> (obj_GetAnnotations o)) o.

End object.

(** ** The Kubernetes client *)

Inductive apierror : Type := NotFound | APIError (e : error).

Class KubeClient (E T : Type) := {
  client_Get : string → go E (apierror + T);
  (** Writing fills in the object that is passed. *)
  client_Create : T → go E (option error * T);
  client_Update : T → go E (option error * T);
  client_Delete : T → go E (option apierror);
  SetControllerReference : Ytsaurus → T → error + T;
}.

Definition ObservedGenerationAnnotationName := "ytsaurus.tech/observed-generation".
Definition InstanceHashAnnotationName := "ytsaurus.tech/instance-hash".

Section proxy.
Context {E : Type} {MC : MetaConditions} {SC : StatusClient E}.
Context {T : Type} `{KubeObject T} `{KubeClient E T}.

Abbreviation W := (World E).

(** The object given to [client.Get] is overwritten only on success. *)
Definition FetchObject (name : string) (obj : T) : go W (option error * T) :=
  result ← in_env (client_Get name);
  mret (match result with
        | inr fetched => (None, fetched)
        | inl NotFound => (None, obj)
        | inl (APIError e) => (Some e, obj)
        end).

Definition IsObjectUpdated (w : W) (obj : T) : bool :=
  default "" (obj_GetAnnotations obj !! ObservedGenerationAnnotationName)
    == fmt_d (yts_Generation (w_yts w)).

Definition updateObject (obj : T) : go W (option error * T) :=
  y ← gets w_yts;
  match SetControllerReference (E:=E) y obj with
  | inl err => mret (Some err, obj)
  | inr obj =>
      '(err, obj) ← in_env (client_Update obj);
      match err with
      | Some e =>
          RecordWarning "Reconciliation" ("Failed to update YT object " +:+ GetName obj +:+ ": " +:+ e) ;;
          mret (Some e, obj)
      | None =>
          RecordNormal "Reconciliation" ("Updated YT object " +:+ GetName obj +:+ " (" +:+ obj_type (T:=T) +:+ ")") ;;
          mret (None, obj)
      end
  end.

Definition createAndReferenceObject (obj : T) : go W (option error * T) :=
  y ← gets w_yts;
  match SetControllerReference (E:=E) y obj with
  | inl err => mret (Some err, obj)
  | inr obj =>
      '(err, obj) ← in_env (client_Create obj);
      match err with
      | Some e =>
          RecordWarning "Reconciliation" ("Failed to create YT object " +:+ GetName obj +:+ ": " +:+ e) ;;
          mret (Some e, obj)
      | None =>
          RecordNormal "Reconciliation" ("Created YT object " +:+ GetName obj +:+ " (" +:+ obj_type (T:=T) +:+ ")") ;;
          mret (None, obj)
      end
  end.

(** The result is the error and the new object as it is left in memory. *)
Definition SyncObject (oldObj newObj : T) : go W (option error * T) :=
  if GetName newObj == "" then
    mret (Some ("cannot sync uninitialized object, object type " +:+ obj_type (T:=T)), newObj)
  else
    generation ← gets (λ w, yts_Generation (w_yts w));
    let newObj := SetMetaDataAnnotation ObservedGenerationAnnotationName (fmt_d generation) newObj in
    if GetResourceVersion oldObj == "" then createAndReferenceObject newObj
    else
      let newObj := SetResourceVersion (GetResourceVersion oldObj) newObj in
      let newObj := SetFinalizers (om_Finalizers (obj_meta oldObj)) newObj in
      updateObject newObj.

Definition DeleteObject (obj : T) : go W (option error) :=
  err ← in_env (client_Delete obj);
  match err with
  | Some (APIError e) =>
      RecordWarning "Reconciliation" ("Failed to delete YT object " +:+ GetName obj +:+ ": " +:+ e) ;;
      mret (Some e)
  | _ =>
      RecordNormal "Reconciliation" ("Deleted YT object " +:+ GetName obj +:+ " (" +:+ obj_type (T:=T) +:+ ")") ;;
      mret None
  end.

(** ** [BaseManagedResource] (resource.go) *)

Record ManagedResource := mkManagedResource {
  res_name : string;
  res_oldObject : T;
  res_newObject : T;
}.

Definition res_set_old (o : T) (r : ManagedResource) : ManagedResource :=
  mkManagedResource (res_name r) o (res_newObject r).
Definition res_set_new (o : T) (r : ManagedResource) : ManagedResource :=
  mkManagedResource (res_name r) (res_oldObject r) o.

Context (cell : lens E ManagedResource).

Definition resource (w : W) : ManagedResource := lget cell (w_env w).
Definition in_resource (f : ManagedResource → ManagedResource) : go W unit :=
  modify (λ w, w_set_env (lset cell (f (resource w)) (w_env w)) w).

Definition OldObject (w : W) : T := res_oldObject (resource w).
Definition NewObject (w : W) : T := res_newObject (resource w).

Definition resource_Fetch : go W (option error) :=
  in_resource (λ r, res_set_old (SetResourceVersion "" (res_oldObject r)) r) ;;
  name ← gets (λ w, res_name (resource w));
  old ← gets OldObject;
  '(err, obj) ← FetchObject name old;
  in_resource (res_set_old obj) ;;
  mret err.

Definition resource_Exists (w : W) : bool := GetResourceVersion (OldObject w) != "".

Definition IsAnnotationChanged (w : W) (ann : string) : bool :=
  obj_GetAnnotations (OldObject w) !! ann != obj_GetAnnotations (NewObject w) !! ann.

Definition resource_IsUpdated (w : W) : bool := IsObjectUpdated w (OldObject w).

Definition resource_Sync : go W (option error) :=
  old ← gets OldObject;
  new ← gets NewObject;
  '(err, obj) ← SyncObject old new;
  in_resource (res_set_new obj) ;;
  mret err.

Definition resource_Delete : go W (option error) :=
  old ← gets OldObject; DeleteObject old.

End proxy.
Arguments ManagedResource T : clear implicits.
Arguments mkManagedResource {T} _ _ _.

(** ** Groups of resources

    [resources.Fetch], [Exists] and [Sync] go through a list in which a nil pointer is
    skipped, and stop at the first error. *)

Section groups.
Context {E : Type}.

Abbreviation W := (World E).

Fixpoint resources_seq (objects : list (option (go W (option error)))) : go W (option error) :=
  match objects with
  | [] => mret None
  | None :: rest => resources_seq rest
  | Some op :: rest =>
      err ← op;
      match err with
      | Some e => mret (Some e)
      | None => resources_seq rest
      end
  end.

Lemma resources_seq_preserves {O} (obs : W → O) objects :
  Forall (λ o, match o with Some op => preserves obs op | None => True end) objects →
  preserves obs (resources_seq objects).
Proof.
  induction 1 as [|o objects Ho _ IH]; cbn [resources_seq]; [apply preserves_ret|].
  destruct o as [op|]; [|done]. apply preserves_bind; [done|]. intros [e|]; [apply preserves_ret|done].
Qed.

Definition resources_Fetch (objects : list (option (go W (option error)))) : go W (option error) :=
  resources_seq objects.
Definition resources_Sync (objects : list (option (go W (option error)))) : go W (option error) :=
  resources_seq objects.

Definition resources_Exists (w : W) (objects : list (option (W → bool))) : bool :=
  forallb (λ o, match o with Some exists_ => exists_ w | None => true end) objects.

End groups.

(** ** What the client promises

    A successful write is what a later read returns, with a resource version: the same [content],
    the part of an object that the API server stores as it is or that is taken up to the fields it
    fills in, and the same annotations of the operator's own domain (Kubernetes adds annotations of
    its own to some objects).  A write leaves other names and the memory of the operator alone;
    setting the controller reference changes only the owner. *)

Definition own_annotation (name : string) : Prop := String.prefix "ytsaurus.tech/" name = true.

Definition same_annotations (a b : gmap string string) : Prop :=
  ∀ name, own_annotation name → a !! name = b !! name.

Class KubeClientLaws (E T C : Type) `{KubeObject T} `{!KubeClient E T} (content : T → C) : Prop := {
  content_set_meta : ∀ m (o : T), content (obj_set_meta m o) = content o;
  meta_set_meta : ∀ m (o : T), obj_meta (obj_set_meta m o) = m;
  get_pure : ∀ name e, run (client_Get (E:=E) (T:=T) name) e = e;
  set_owner_content : ∀ y (o o' : T), SetControllerReference (E:=E) y o = inr o' →
    content o' = content o ∧ obj_meta o' = obj_meta o;
  create_get : ∀ (o : T) e, (val_of (client_Create o) e).1 = None →
    ∃ o', val_of (client_Get (GetName o)) (run (client_Create o) e) = inr o' ∧
      content o' = content o ∧ same_annotations (obj_GetAnnotations o') (obj_GetAnnotations o) ∧ GetResourceVersion o' ≠ "";
  update_get : ∀ (o : T) e, (val_of (client_Update o) e).1 = None →
    ∃ o', val_of (client_Get (GetName o)) (run (client_Update o) e) = inr o' ∧
      content o' = content o ∧ same_annotations (obj_GetAnnotations o') (obj_GetAnnotations o) ∧ GetResourceVersion o' ≠ "";
  create_other : ∀ (o : T) e name, name ≠ GetName o →
    val_of (client_Get (E:=E) (T:=T) name) (run (client_Create o) e) = val_of (client_Get name) e;
  update_other : ∀ (o : T) e name, name ≠ GetName o →
    val_of (client_Get (E:=E) (T:=T) name) (run (client_Update o) e) = val_of (client_Get name) e;
}.

(** The client does not touch a cell of the operator's memory, nor does it depend on it. *)
Class ClientMemory (E T : Type) `{!KubeClient E T} {A} (mem : lens E A) : Prop := {
  create_mem : ∀ o : T, preserves (lget mem) (client_Create (E:=E) o);
  update_mem : ∀ o : T, preserves (lget mem) (client_Update (E:=E) o);
  get_mem : ∀ name a e, val_of (client_Get (E:=E) (T:=T) name) (lset mem a e) = val_of (client_Get name) e;
}.

Section facts.
Context {E : Type} {MC : MetaConditions} {SC : StatusClient E}.
Context {T C : Type} `{HO : KubeObject T} `{HK : !KubeClient E T} (content : T → C).
Context (cell : lens E (ManagedResource T)) `{HKL : !KubeClientLaws E T C content}.

Abbreviation W := (World E).

Lemma in_resource_yts f : preserves w_yts (in_resource cell f).
Proof. done. Qed.

Lemma updateObject_yts (o : T) : preserves w_yts (updateObject (E:=E) o).
Proof. unfold updateObject. go_frame. Qed.

Lemma createAndReferenceObject_yts (o : T) : preserves w_yts (createAndReferenceObject (E:=E) o).
Proof. unfold createAndReferenceObject. go_frame. Qed.

Lemma SyncObject_yts (old new : T) : preserves w_yts (SyncObject (E:=E) old new).
Proof.
  pose proof updateObject_yts. pose proof createAndReferenceObject_yts. unfold SyncObject. go_frame.
Qed.

Lemma resource_Fetch_yts : preserves w_yts (resource_Fetch cell).
Proof. pose proof in_resource_yts. unfold resource_Fetch, FetchObject. go_frame. Qed.

Lemma resource_Sync_yts : preserves w_yts (resource_Sync cell).
Proof. pose proof in_resource_yts. pose proof SyncObject_yts. unfold resource_Sync. go_frame. Qed.

Lemma set_meta_content m (o : T) : content (obj_set_meta m o) = content o.
Proof. apply content_set_meta. Qed.

Lemma set_meta_meta m (o : T) : obj_meta (obj_set_meta m o) = m.
Proof. apply (meta_set_meta (content:=content)). Qed.

(** A read-back of the object [new] written under its own name. *)
Definition readable (name : string) (c : C) (a : gmap string string) (e : E) : Prop :=
  ∃ o', val_of (client_Get (T:=T) name) e = inr o' ∧ content o' = c ∧
    same_annotations (obj_GetAnnotations o') a ∧ GetResourceVersion o' ≠ "".

Lemma updateObject_readable (o : T) (w : W) :
  (val_of (updateObject o) w).1 = None →
  readable (GetName o) (content o) (obj_GetAnnotations o) (w_env (run (updateObject o) w)).
Proof.
  unfold updateObject. go_step. destruct (SetControllerReference (w_yts w) o) as [e|o'] eqn:Ho; [by go_step|].
  destruct (set_owner_content _ _ _ Ho) as [Hc Hm]. go_step. rewrite val_in_env, run_in_env.
  pose proof (update_get o' (w_env w)) as Hu.
  destruct (val_of (client_Update o') (w_env w)) as [[e|] o'']; go_step; [done|].
  intros _. destruct (Hu eq_refl) as (o1 & Hg & Hc1 & Ha1 & Hv). unfold GetName in *. rewrite Hm in Hg.
  exists o1. unfold obj_GetAnnotations in *. rewrite Hm in Ha1. rewrite Hc in Hc1. by split_and!.
Qed.

Lemma createAndReferenceObject_readable (o : T) (w : W) :
  (val_of (createAndReferenceObject o) w).1 = None →
  readable (GetName o) (content o) (obj_GetAnnotations o) (w_env (run (createAndReferenceObject o) w)).
Proof.
  unfold createAndReferenceObject. go_step.
  destruct (SetControllerReference (w_yts w) o) as [e|o'] eqn:Ho; [by go_step|].
  destruct (set_owner_content _ _ _ Ho) as [Hc Hm]. go_step. rewrite val_in_env, run_in_env.
  pose proof (create_get o' (w_env w)) as Hu.
  destruct (val_of (client_Create o') (w_env w)) as [[e|] o'']; go_step; [done|].
  intros _. destruct (Hu eq_refl) as (o1 & Hg & Hc1 & Ha1 & Hv). unfold GetName in *. rewrite Hm in Hg.
  exists o1. unfold obj_GetAnnotations in *. rewrite Hm in Ha1. rewrite Hc in Hc1. by split_and!.
Qed.

Lemma SyncObject_readable (old new : T) (w : W) :
  (val_of (SyncObject old new) w).1 = None →
  readable (GetName new) (content new)
    (<[ObservedGenerationAnnotationName := fmt_d (yts_Generation (w_yts w))]> (obj_GetAnnotations new))
    (w_env (run (SyncObject old new) w)).
Proof.
  unfold SyncObject. case_match; [done|]. go_step.
  set (new1 := SetMetaDataAnnotation _ _ new).
  assert (GetName new1 = GetName new ∧ content new1 = content new ∧
    obj_GetAnnotations new1 = <[ObservedGenerationAnnotationName := fmt_d (yts_Generation (w_yts w))]>
      (obj_GetAnnotations new)) as (Hn & Hc & Ha).
  { subst new1. unfold SetMetaDataAnnotation, SetAnnotations, GetName, obj_GetAnnotations.
    by rewrite set_meta_meta, set_meta_content. }
  rewrite <- Hn, <- Hc, <- Ha. case_match; intros Herr; [by apply createAndReferenceObject_readable|].
  set (new2 := SetFinalizers _ _) in *.
  assert (GetName new2 = GetName new1 ∧ content new2 = content new1 ∧
    obj_GetAnnotations new2 = obj_GetAnnotations new1) as (Hn' & Hc' & Ha').
  { subst new2. unfold SetFinalizers, SetResourceVersion, GetName, obj_GetAnnotations.
    by rewrite !set_meta_meta, !set_meta_content. }
  rewrite <- Hn', <- Hc', <- Ha'. by apply updateObject_readable.
Qed.

(** A write leaves the other names as they are. *)
Lemma SyncObject_other (old new : T) (w : W) name :
  name ≠ GetName new →
  val_of (client_Get (T:=T) name) (w_env (run (SyncObject old new) w)) = val_of (client_Get name) (w_env w).
Proof.
  intros Hne. unfold SyncObject. case_match; [done|]. go_step.
  set (new1 := SetMetaDataAnnotation _ _ new).
  assert (name ≠ GetName new1) as Hne1.
  { subst new1. unfold SetMetaDataAnnotation, SetAnnotations, GetName. by rewrite set_meta_meta. }
  assert (∀ o o' : T, name ≠ GetName o → SetControllerReference (E:=E) (w_yts w) o = inr o' → name ≠ GetName o')
    as Howner.
  { intros o o' Ho Hset. destruct (set_owner_content _ _ _ Hset) as [_ Hm]. unfold GetName in *. by rewrite Hm. }
  case_match.
  - unfold createAndReferenceObject. go_step. destruct (SetControllerReference _ new1) as [e|o'] eqn:Ho; [done|].
    go_step. rewrite val_in_env, run_in_env. destruct (val_of (client_Create o') (w_env w)) as [[e|] ?]; go_step;
      by apply create_other, (Howner _ _ Hne1 Ho).
  - set (new2 := SetFinalizers _ _).
    assert (name ≠ GetName new2) as Hne2.
    { subst new2. unfold SetFinalizers, SetResourceVersion, GetName in *. by rewrite !set_meta_meta. }
    unfold updateObject. go_step. destruct (SetControllerReference _ new2) as [e|o'] eqn:Ho; [done|].
    go_step. rewrite val_in_env, run_in_env. destruct (val_of (client_Update o') (w_env w)) as [[e|] ?]; go_step;
      by apply update_other, (Howner _ _ Hne2 Ho).
Qed.

(** ... and the memory of the operator. *)
Lemma SyncObject_mem {A} (mem : lens E A) `{!ClientMemory E T mem} (old new : T) (w : W) :
  lget mem (w_env (run (SyncObject old new) w)) = lget mem (w_env w).
Proof.
  unfold SyncObject, createAndReferenceObject, updateObject. case_match; [done|]. go_step.
  case_match; go_step; (destruct (SetControllerReference _ _) as [e|o']; [done|]); go_step;
    rewrite val_in_env, run_in_env; destruct (val_of _ _) as [[e|] ?]; go_step;
    [apply create_mem|apply create_mem|apply update_mem|apply update_mem].
Qed.

End facts.

(** ** The operations of a resource are confined *)

Section confined.
Context {E : Type} {MC : MetaConditions} {ML : MetaConditionsLaws MC} {SC : StatusClient E}.
Context {T : Type} `{HO : KubeObject T} `{HK : !KubeClient E T}.

Lemma confined_in_resource (cell : lens E (ManagedResource T)) f : confined (in_resource cell f).
Proof. apply confined_set_env. Qed.

Lemma confined_FetchObject name (o : T) : confined (FetchObject (E:=E) name o).
Proof. unfold FetchObject. go_confined. Qed.

Lemma confined_SyncObject (old new : T) : confined (SyncObject (E:=E) old new).
Proof. unfold SyncObject, createAndReferenceObject, updateObject. go_confined. Qed.

Lemma confined_DeleteObject (o : T) : confined (DeleteObject (E:=E) o).
Proof. unfold DeleteObject. go_confined. Qed.

Lemma confined_resource_Fetch (cell : lens E (ManagedResource T)) : confined (resource_Fetch cell).
Proof. pose proof confined_in_resource. pose proof confined_FetchObject. unfold resource_Fetch. go_confined. Qed.

Lemma confined_resource_Sync (cell : lens E (ManagedResource T)) : confined (resource_Sync cell).
Proof. pose proof confined_in_resource. pose proof confined_SyncObject. unfold resource_Sync. go_confined. Qed.

Lemma confined_resource_Delete (cell : lens E (ManagedResource T)) : confined (resource_Delete cell).
Proof. pose proof confined_DeleteObject. unfold resource_Delete. go_confined. Qed.

Lemma confined_resources_seq (objects : list (option (go (World E) (option error)))) :
  Forall (λ o, match o with Some op => confined op | None => True end) objects → confined (resources_seq objects).
Proof.
  induction 1 as [|o objects Ho _ IH]; cbn [resources_seq]; [apply confined_ret|].
  destruct o as [op|]; [|done]. apply confined_bind; [done|]. intros [e|]; [apply confined_ret|done].
Qed.

End confined.

#[export] Hint Resolve confined_in_resource confined_FetchObject confined_SyncObject confined_DeleteObject
  confined_resource_Fetch confined_resource_Sync confined_resource_Delete : confined.
