(* ===== verification/Services.v ===== *)
(** * Kubernetes services (src/pkg/resources: http_service.go, rpc_service.go, tcp_service.go,
    headless_service.go, monitoring_service.go)

    The services the operator puts before the pods of a component: what each [Build] writes
    into the new object, with the ports computed from the specification. *)

From S2P Require Import Prelude Kubernetes ApiTypes Consts Labeller ApiProxy Resources.

(** ** Objects *)

(** [TargetPort] is always a number here; node port 0 is chosen by the API server. *)
Record ServicePort := mkServicePort {
  sp_Name : string;
  sp_Port : Z;
  sp_TargetPort : Z;
  sp_NodePort : Z;
}.

(** [ss_Selector] is [None] for a component type without a label, where the code panics. *)
Record ServiceSpec := mkServiceSpec {
  ss_Type : ServiceType;
  ss_ClusterIP : string;
  ss_Selector : option (gmap string string);
  ss_Ports : list ServicePort;
  ss_PublishNotReadyAddresses : bool;
}.

Definition ServiceSpecZero : ServiceSpec := mkServiceSpec ServiceTypeEmpty "" None [] false.

Record Service := mkService { svc_meta : ObjectMeta; svc_Spec : ServiceSpec }.

Definition ServiceZero : Service := mkService ObjectMetaZero ServiceSpecZero.

#[global] Instance Service_object : KubeObject Service := {
  obj_meta := svc_meta;
  obj_set_meta m o := mkService m (svc_Spec o);
  obj_type := "*v1.Service";
}.

(** ** Ports *)

(** A port that forwards to the same number, with a node port where one is asked for. *)
Definition forward (name : string) (port : Z) (nodePort : option Z) : ServicePort :=
  mkServicePort name port port (Deref nodePort 0%Z).

Record HTTPService := mkHTTPService {
  hs_DisableHTTP : bool;  (* of the transport *)
  hs_HTTPSSecret : option string;  (* of the transport *)
  hs_httpPort : option Z;
  hs_httpsPort : option Z;
  hs_httpNodePort : option Z;
  hs_httpsNodePort : option Z;
  hs_chytHttpProxyPort : option Z;
  hs_chytHttpProxyNodePort : option Z;
  hs_chytHttpsProxyPort : option Z;
  hs_chytHttpsProxyNodePort : option Z;
}.

Definition http_ports (s : HTTPService) : list ServicePort :=
  match hs_chytHttpProxyPort s with
  | Some port => [forward CHYTHttpProxyName port (hs_chytHttpProxyNodePort s)]
  | None => []
  end ++
  (if hs_DisableHTTP s then []
   else [forward HTTPPortName (Deref (hs_httpPort s) HTTPProxyHTTPPort) (hs_httpNodePort s)]) ++
  match hs_HTTPSSecret s with
  | Some _ =>
      forward HTTPSPortName (Deref (hs_httpsPort s) HTTPProxyHTTPSPort) (hs_httpsNodePort s) ::
      match hs_chytHttpsProxyPort s with
      | Some port => [forward CHYTHttpsProxyName port (hs_chytHttpsProxyNodePort s)]
      | None => []
      end
  | None => []
  end.

Record TCPService := mkTCPService {
  ts_serviceType : ServiceType;
  ts_portCount : Z;
  ts_minPort : Z;
}.

Definition tcp_port (s : TCPService) (port : Z) : ServicePort :=
  mkServicePort ("tcp-" +:+ fmt_d port) port port (if ts_serviceType s == ServiceTypeNodePort then port else 0%Z).

(** [for port := s.minPort; port < s.minPort+s.portCount; port++] on [int32]: the bound may
    wrap around, the counter does not, since it stays below the bound. *)
Fixpoint tcp_loop (s : TCPService) (fuel : nat) (port : Z) : list ServicePort :=
  match fuel with
  | O => []
  | S fuel =>
      if (port <? i32 (ts_minPort s + ts_portCount s))%Z
      then tcp_port s port :: tcp_loop s fuel (i32 (port + 1))
      else []
  end.

(** As many iterations as there are numbers between the start and the bound. *)
Definition tcp_ports (s : TCPService) : list ServicePort :=
  tcp_loop s (Z.to_nat (i32 (ts_minPort s + ts_portCount s) - ts_minPort s)) (ts_minPort s).

(** ** Build *)

Section build.
Context {E : Type} (l : Labeller) (cell : lens E (ManagedResource Service)).

Abbreviation W := (World E).

(** [GetObjectMeta] and the new specification. *)
Definition service_Build (spec : ServiceSpec) : go W unit :=
  in_resource cell (λ r, res_set_new (mkService (mkObjectMeta (res_name r) "" (lab_Annotations l) []) spec) r).

Definition http_Build (s : HTTPService) : go W unit :=
  service_Build (mkServiceSpec ServiceTypeEmpty "" (GetSelectorLabelMap l) (http_ports s) false).

Definition rpc_Build (Ports : list ServicePort) : go W unit :=
  service_Build (mkServiceSpec ServiceTypeEmpty "" (GetSelectorLabelMap l) Ports false).

Definition tcp_Build (s : TCPService) : go W unit :=
  service_Build (mkServiceSpec (ts_serviceType s) "" (GetSelectorLabelMap l) (tcp_ports s) false).

Definition headless_Build : go W unit :=
  service_Build (mkServiceSpec ServiceTypeEmpty "None" (GetSelectorLabelMap l) [] true).

(** [GetServiceMeta] carries no annotations. *)
Definition monitoring_Build (ports : list ServicePort) : go W unit :=
  in_resource cell (λ r, res_set_new
    (mkService (mkObjectMeta (res_name r) "" ∅ [])
       (mkServiceSpec ServiceTypeEmpty "" (GetSelectorLabelMap l) ports false)) r).

(** [s.Spec.Type = t] on the object that was built. *)
Definition set_type (t : ServiceType) : go W unit :=
  in_resource cell (λ r,
    let o := res_newObject r in
    let spec := svc_Spec o in
    res_set_new (mkService (svc_meta o) (mkServiceSpec t (ss_ClusterIP spec) (ss_Selector spec) (ss_Ports spec)
      (ss_PublishNotReadyAddresses spec))) r).

End build.

Definition newMonitoringPorts (monitoringTargetPort : Z) : list ServicePort :=
  [mkServicePort YTMonitoringServicePortName YTMonitoringPort monitoringTargetPort 0].

(** [AddPort]. *)
Definition AddPort (port : ServicePort) (ports : list ServicePort) : list ServicePort := ports ++ [port].

(** ** Facts *)

(** The ports of an HTTP service have distinct names. *)
Lemma http_ports_names s : NoDup (sp_Name <$> http_ports s).
Proof.
  apply (bool_decide_unpack _). unfold http_ports.
  destruct (hs_chytHttpProxyPort s), (hs_DisableHTTP s), (hs_HTTPSSecret s), (hs_chytHttpsProxyPort s);
    vm_compute; exact I.
Qed.

(** HTTPS is served exactly when there is a certificate, HTTP unless it is disabled. *)
Lemma http_ports_served s :
  (HTTPSPortName ∈ sp_Name <$> http_ports s ↔ is_Some (hs_HTTPSSecret s)) ∧
  (HTTPPortName ∈ sp_Name <$> http_ports s ↔ hs_DisableHTTP s = false).
Proof.
  unfold http_ports.
  destruct (hs_chytHttpProxyPort s), (hs_DisableHTTP s), (hs_HTTPSSecret s), (hs_chytHttpsProxyPort s);
    cbn; rewrite ?elem_of_cons, ?elem_of_nil, <- ?not_eq_None_Some; split; split; naive_solver.
Qed.

(** A sum past the largest [int32] becomes negative. *)
Lemma i32_wraps z : (2 ^ 31 ≤ z < 2 ^ 32)%Z → i32 z = (z - 2 ^ 32)%Z.
Proof.
  intros H. unfold i32, wrap_signed. replace (z + 2 ^ (32 - 1))%Z with (z - 2 ^ 31 + 1 * 2 ^ 32)%Z by lia.
  rewrite Z.mod_add by lia. rewrite Z.mod_small; lia.
Qed.

(** Any fuel that covers the distance to the bound gives all the ports. *)
Lemma tcp_loop_enough s fuel port :
  in_i32 port → (i32 (ts_minPort s + ts_portCount s) - port ≤ Z.of_nat fuel)%Z →
  tcp_loop s fuel port = tcp_port s <$> seqZ port (i32 (ts_minPort s + ts_portCount s) - port).
Proof.
  revert port. set (bound := i32 (ts_minPort s + ts_portCount s)).
  assert (in_i32 bound) as Hb by apply i32_range.
  induction fuel as [|fuel IH]; intros port Hp Hf; cbn [tcp_loop]; fold bound.
  - by rewrite seqZ_nil by lia.
  - destruct (Z.ltb_spec port bound) as [Hlt|Hge]; [|by rewrite seqZ_nil by lia].
    assert (in_i32 (port + 1)) as Hs by (unfold in_i32 in *; lia).
    rewrite i32_id by done. rewrite IH by (done || lia).
    rewrite (seqZ_cons port (bound - port)) by lia. cbn. do 2 f_equal. f_equal; lia.
Qed.

(** A TCP service exposes every port from the first for the number asked for, once each
    under its own name (and, for a service on the nodes, on the same port of the nodes), as
    long as the last port fits in 32 bits; past that the sum wraps around and the service has
    no ports at all.  More iterations than the loop is given would add nothing. *)
Theorem tcp_ports_exact s :
  in_i32 (ts_minPort s) → in_i32 (ts_portCount s) → (0 ≤ ts_portCount s)%Z →
  tcp_ports s = (if bool_decide (in_i32 (ts_minPort s + ts_portCount s))
                 then tcp_port s <$> seqZ (ts_minPort s) (ts_portCount s) else []) ∧
  NoDup (sp_Name <$> tcp_ports s) ∧
  (ts_serviceType s = ServiceTypeNodePort → Forall (λ p, sp_NodePort p = sp_Port p) (tcp_ports s)) ∧
  ∀ more, tcp_loop s (Z.to_nat (i32 (ts_minPort s + ts_portCount s) - ts_minPort s) + more) (ts_minPort s) = tcp_ports s.
Proof.
  intros Hm Hc Hn. set (bound := i32 (ts_minPort s + ts_portCount s)).
  assert (tcp_ports s = tcp_port s <$> seqZ (ts_minPort s) (bound - ts_minPort s)) as Hp.
  { apply tcp_loop_enough; [done|]. fold bound. lia. }
  split; [|split; [|split]].
  - rewrite Hp. case_bool_decide as Hi.
    + unfold bound. rewrite (i32_id _ Hi). do 2 f_equal. lia.
    + rewrite seqZ_nil; [done|]. unfold bound. unfold in_i32 in *. rewrite i32_wraps by lia. lia.
  - rewrite Hp, <- list_fmap_compose. apply NoDup_fmap_2; [|apply NoDup_seqZ].
    intros a b Hab. cbn in Hab. apply (inj (String.append "tcp-")) in Hab. by apply (inj (pretty (A:=Z))).
  - intros Ht. rewrite Hp. apply Forall_fmap, Forall_forall. intros p _. cbn. by rewrite bool_decide_true.
  - intros more. rewrite Hp. apply tcp_loop_enough; [done|]. fold bound. lia.
Qed.

Definition example_tcp : TCPService := mkTCPService ServiceTypeNodePort 3 32000.

Lemma tcp_ports_exact_witness :
  sp_Name <$> tcp_ports example_tcp = ["tcp-32000"; "tcp-32001"; "tcp-32002"] ∧
  NoDup (sp_Name <$> tcp_ports example_tcp) ∧
  (ts_serviceType example_tcp = ServiceTypeNodePort → Forall (λ p, sp_NodePort p = sp_Port p) (tcp_ports example_tcp)).
Proof.
  split; [by vm_compute|].
  destruct (tcp_ports_exact example_tcp) as (_ & Hn & Ht & _);
    [unfold in_i32; cbn; lia|unfold in_i32; cbn; lia|cbn; lia|].
  split; [exact Hn|exact Ht].
Defined.
