(* ===== verification/ConfigMaps.v ===== *)
(** * Configuration maps (src/pkg/components/config_map_builder.go)

    A builder turns the generated configuration of a component, with the overrides of the
    user applied in a fixed order, into a config map, and tells whether the stored one is
    out of date.  The YSON, YAML, JSON, TOML and diff libraries are parameters. *)

From S2P Require Import Prelude Kubernetes ApiTypes Labeller Status ApiProxy Resources.

Inductive ConfigFormat : Type :=
  | ConfigFormatText | ConfigFormatYson | ConfigFormatJson | ConfigFormatJsonWithJsPrologue
  | ConfigFormatToml | ConfigFormatYaml | ConfigFormatHeader | ConfigFormatFooter.

Definition JsPrologue := "module.exports = ".
Definition ConfigOverridesHeaderPrefix := "header-".
Definition ConfigOverridesFooterPrefix := "footer-".
Definition YtserverAllConfigOverrideName := "ytserver-all".
Definition ConfigOverridesVersionAnnotationName := "ytsaurus.tech/config-overrides-version".
Definition ConfigHashAnnotationName := "ytsaurus.tech/config-hash".
Definition InitJobReasonAnnotationName := "ytsaurus.tech/init-job-reason".

(** A Go byte slice: [None] is nil, which is distinct from an empty slice. *)
Abbreviation bytes := (option string).
Definition bytes_string (b : bytes) : string := default "" b.
(** [bytes.Equal] does not tell nil from empty. *)
Definition bytes_Equal (a b : bytes) : bool := bytes_string a == bytes_string b.
(** [slices.Concat] of two slices is nil when both are empty. *)
Definition slices_Concat (a b : bytes) : bytes :=
  let s := bytes_string a +:+ bytes_string b in if s == "" then None else Some s.

(** A generator of a file.  In the code [Generator] is a closure over the specification, which the
    constructor of the component makes anew in every pass of the reconciler; here it is the result
    that closure gives.  A builder stands for one specification: results that differ between passes
    are those of different builders. *)
Record ConfigGenerator := mkConfigGenerator {
  cg_FileName : string;
  cg_ConfigOverridesName : string;
  cg_GlobalOverridesName : string;
  cg_Format : ConfigFormat;
  cg_Generator : error + bytes;
}.

Definition YsonConfigGenerator (fileName : string) (generator : error + bytes) : ConfigGenerator :=
  mkConfigGenerator fileName "" "" ConfigFormatYson generator.

Definition JoinTextLines (text : list string) : bytes :=
  Some (foldr (λ line rest, line +:+ newline +:+ rest) "" text).

Definition TextConfigGenerator (fileName : string) (generator : error + list string) : ConfigGenerator :=
  mkConfigGenerator fileName "" "" ConfigFormatText
    (match generator with inl err => inl err | inr text => inr (JoinTextLines text) end).

(** [GetServerConfigName] panics on a component without a server; [None]. *)
Definition ServerConfigGenerator (l : Labeller) (generator : error + bytes) : option ConfigGenerator :=
  configName ← GetServerConfigName l;
  Some (mkConfigGenerator (configName +:+ ".yson") configName YtserverAllConfigOverrideName
          ConfigFormatYson generator).

(** ** The libraries *)

Class ConfigCodec := {
  (** [ypatch.OrderedValue]; decoding into a value merges. *)
  ordered : Type;
  ordered_zero : ordered;
  yson_Unmarshal_ordered : string → ordered → error + ordered;
  yson_MarshalFormat : ordered → error + string;
  any : Type;
  yson_Unmarshal : string → error + any;
  yson_Marshal : any → error + string;
  yaml_UnmarshalStrict : string → error + any;
  json_Marshal : any → error + string;
  toml_Encode : any → error + string;
  yaml_Marshal : any → error + string;
  difflib_GetUnifiedDiffString : string → string → string → string → error + string;
  resources_Hash : gmap string string → error + string;
}.

Definition error_bind {A B} (m : error + A) (f : A → error + B) : error + B :=
  match m with inl e => inl e | inr x => f x end.
Definition error_map {A B} (f : A → B) (m : error + A) : error + B :=
  match m with inl e => inl e | inr x => inr (f x) end.

Section codec.
Context {CC : ConfigCodec}.

Definition overrideYsonConfigs (base overrides : bytes) (format : ConfigFormat) : error + bytes :=
  match format with
  | ConfigFormatHeader => inr (slices_Concat overrides base)
  | ConfigFormatFooter => inr (slices_Concat base overrides)
  | _ =>
      error_bind (yson_Unmarshal_ordered (bytes_string base) ordered_zero) (λ config,
      error_bind
        (match format with
         | ConfigFormatYaml =>
             error_bind (yaml_UnmarshalStrict (bytes_string overrides)) yson_Marshal
         | _ => inr (bytes_string overrides)
         end) (λ overrides,
      error_bind (yson_Unmarshal_ordered overrides config) (λ config,
      error_map Some (yson_MarshalFormat config))))
  end.

(** The last step of [getConfig]. *)
Definition convertConfig (format : ConfigFormat) (config : bytes) : error + bytes :=
  match format with
  | ConfigFormatJson =>
      error_bind (yson_Unmarshal (bytes_string config)) (λ c, error_map Some (json_Marshal c))
  | ConfigFormatJsonWithJsPrologue =>
      error_bind (yson_Unmarshal (bytes_string config)) (λ c,
        error_map (λ json, Some (JsPrologue +:+ json)) (json_Marshal c))
  | ConfigFormatToml =>
      error_bind (yson_Unmarshal (bytes_string config)) (λ c, error_map Some (toml_Encode c))
  | ConfigFormatYaml =>
      error_bind (yson_Unmarshal (bytes_string config)) (λ c, error_map Some (yaml_Marshal c))
  | _ => inr config
  end.

End codec.

(** ** Config maps as objects *)

Record ConfigMap := mkConfigMap { cm_meta : ObjectMeta; cm_Data : gmap string string }.

Definition ConfigMapZero : ConfigMap := mkConfigMap ObjectMetaZero ∅.

#[global] Instance ConfigMap_object : KubeObject ConfigMap := {
  obj_meta := cm_meta;
  obj_set_meta m o := mkConfigMap m (cm_Data o);
  obj_type := "*v1.ConfigMap";
}.

Section builder.
Context {CC : ConfigCodec} {E : Type} {MC : MetaConditions} {SC : StatusClient E}.
Context `{HK : !KubeClient E ConfigMap}.

Abbreviation W := (World E).

(** The fields of the builder that do not change, and the cells of those that do. *)
Record ConfigMapBuilder := mkConfigMapBuilder {
  cb_labeller : Labeller;
  cb_name : string;
  cb_configOverrides : option string;
  cb_generators : list ConfigGenerator;
  cb_configMap : lens E (ManagedResource ConfigMap);
  cb_overridesMap : lens E ConfigMap;
}.

(** The memory of a new builder. *)
Definition newConfigMap (name : string) : ManagedResource ConfigMap :=
  mkManagedResource name ConfigMapZero ConfigMapZero.

Definition NewConfigMapBuilder (h : ConfigMapBuilder) : go W unit :=
  modify (λ w, w_set_env (lset (cb_configMap h) (newConfigMap (cb_name h))
    (lset (cb_overridesMap h) ConfigMapZero (w_env w))) w).

Context (h : ConfigMapBuilder).

Definition AddGenerator (fileName : string) (format : ConfigFormat) (generator : error + bytes)
    : ConfigMapBuilder :=
  mkConfigMapBuilder (cb_labeller h) (cb_name h) (cb_configOverrides h)
    (cb_generators h ++ [mkConfigGenerator fileName "" "" format generator])
    (cb_configMap h) (cb_overridesMap h).

Definition overridesMap (w : W) : ConfigMap := lget (cb_overridesMap h) (w_env w).

Definition GetConfigMapName (w : W) : string := res_name (resource (cb_configMap h) w).

(** The names under which overrides of a file are looked up, in the order they apply. *)
Definition overrideNames (name : string) (d : ConfigGenerator) : list (string * ConfigFormat) :=
  [ (cg_GlobalOverridesName d +:+ ".yaml", ConfigFormatYaml);
    (cg_GlobalOverridesName d +:+ ".yson", ConfigFormatYson);
    (cg_ConfigOverridesName d +:+ ".yaml", ConfigFormatYaml);
    (cg_FileName d, ConfigFormatYson);
    (name +:+ "--" +:+ cg_ConfigOverridesName d +:+ ".yaml", ConfigFormatYaml);
    (name +:+ "--" +:+ cg_FileName d, ConfigFormatYson);
    (ConfigOverridesHeaderPrefix +:+ cg_FileName d, ConfigFormatHeader);
    (ConfigOverridesFooterPrefix +:+ cg_FileName d, ConfigFormatFooter);
    (name +:+ "--" +:+ ConfigOverridesHeaderPrefix +:+ cg_FileName d, ConfigFormatHeader);
    (name +:+ "--" +:+ ConfigOverridesFooterPrefix +:+ cg_FileName d, ConfigFormatFooter) ].

Fixpoint applyOverrides (name : string) (d : ConfigGenerator) (data : gmap string string)
    (overrides : list (string * ConfigFormat)) (config : bytes) : go W (error + bytes) :=
  match overrides with
  | [] => mret (inr config)
  | (oname, format) :: rest =>
      match data !! oname with
      | None => applyOverrides name d data rest config
      | Some value =>
          match overrideYsonConfigs config (Some value) format with
          | inl err =>
              RecordWarning "Failure" ("Cannot apply configmap/" +:+ name +:+ " " +:+ fmt_q (cg_FileName d) +:+
                " override " +:+ fmt_q oname +:+ ": " +:+ err) ;;
              mret (inl ("failed to apply configmap/" +:+ name +:+ " " +:+ fmt_q (cg_FileName d) +:+
                " override " +:+ fmt_q oname +:+ ": " +:+ err))
          | inr config =>
              RecordNormal "Override" ("Applied configmap/" +:+ name +:+ " " +:+ fmt_q (cg_FileName d) +:+
                " override " +:+ fmt_q oname) ;;
              applyOverrides name d data rest config
          end
      end
  end.

Definition getConfig (d : ConfigGenerator) : go W (error + bytes) :=
  name ← gets GetConfigMapName;
  match cg_Generator d with
  | inl err =>
      RecordWarning "Failure" ("Cannot build configmap/" +:+ name +:+ " " +:+ fmt_q (cg_FileName d) +:+
        ": " +:+ err) ;;
      mret (inl ("failed to generate configmap/" +:+ name +:+ " " +:+ fmt_q (cg_FileName d) +:+ ": " +:+ err))
  | inr config =>
      overrides ← gets overridesMap;
      result ← (if GetResourceVersion overrides != ""
                then applyOverrides name d (cm_Data overrides) (overrideNames name d) config
                else mret (inr config));
      mret (error_bind result (convertConfig (cg_Format d)))
  end.

Definition getCurrentConfigValue (w : W) (fileName : string) : bytes :=
  if negb (resource_Exists (cb_configMap h) w) then None
  else cm_Data (OldObject (cb_configMap h) w) !! fileName.

Definition getAnnotation (w : W) (ann : string) : string :=
  default "" (obj_GetAnnotations (OldObject (cb_configMap h) w) !! ann).

Definition setAnnotation (ann value : string) : go W unit :=
  in_resource (cb_configMap h) (λ r, res_set_new (SetMetaDataAnnotation ann value (res_newObject r)) r).

Fixpoint needReloadLoop (generators : list ConfigGenerator) : go W (option (ComponentStatus * option error)) :=
  match generators with
  | [] => mret None
  | d :: rest =>
      newConfig ← getConfig d;
      match newConfig with
      | inl err =>
          mret (Some (ComponentStatusBlocked ("Config " +:+ cg_FileName d +:+ " generation error: " +:+ err),
                      Some err))
      | inr newConfig =>
          curConfig ← gets (λ w, getCurrentConfigValue w (cg_FileName d));
          if (curConfig == None) && (newConfig != None) then
            RecordNormal "Reconciliation" ("Config " +:+ cg_FileName d +:+ " needs creation") ;;
            mret (Some (ComponentStatusNeedUpdate ("Config " +:+ cg_FileName d +:+ " needs creation"), None))
          else if negb (bytes_Equal curConfig newConfig) then
            match difflib_GetUnifiedDiffString (bytes_string curConfig) (bytes_string newConfig)
                    ("old/" +:+ cg_FileName d) ("new/" +:+ cg_FileName d) with
            | inl err =>
                mret (Some (ComponentStatusBlocked
                  ("Config " +:+ cg_FileName d +:+ " diff generation error: " +:+ err), Some err))
            | inr diff =>
                RecordNormal "Reconciliation"
                  ("Config " +:+ cg_FileName d +:+ " needs reload. Diff:" +:+ newline +:+ diff) ;;
                mret (Some (ComponentStatusNeedUpdate ("Config " +:+ cg_FileName d +:+ " needs reload"), None))
            end
          else needReloadLoop rest
      end
  end.

Definition needReload : go W (ComponentStatus * option error) :=
  stopped ← needReloadLoop (cb_generators h);
  match stopped with
  | Some result => mret result
  | None =>
      changed ← gets (λ w, IsAnnotationChanged (cb_configMap h) w InitJobReasonAnnotationName);
      mret (if changed : bool
            then (ComponentStatusNeedUpdate ("Annotation " +:+ InitJobReasonAnnotationName +:+ " changed"), None)
            else (ComponentStatusReady, None))
  end.

(** [resources.ConfigMap.Build]: a new object with the metadata of the labeller. *)
Definition resource_Build : go W unit :=
  in_resource (cb_configMap h) (λ r,
    res_set_new (mkConfigMap (mkObjectMeta (res_name r) "" (lab_Annotations (cb_labeller h)) []) ∅) r).

Fixpoint buildLoop (generators : list ConfigGenerator) : go W (option error) :=
  match generators with
  | [] => mret None
  | d :: rest =>
      cm ← gets (NewObject (cb_configMap h));
      if bool_decide (is_Some (cm_Data cm !! cg_FileName d)) then
        mret (Some ("duplicate config generator: " +:+ cg_FileName d))
      else
        data ← getConfig d;
        match data with
        | inl err => mret (Some err)
        | inr None => buildLoop rest
        | inr (Some data) =>
            in_resource (cb_configMap h) (λ r, res_set_new
              (mkConfigMap (cm_meta (res_newObject r))
                 (<[cg_FileName d := data]> (cm_Data (res_newObject r)))) r) ;;
            buildLoop rest
        end
  end.

Definition Build : go W (option error) :=
  resource_Build ;;
  version ← gets (λ w, GetResourceVersion (overridesMap w));
  (if version != "" then setAnnotation ConfigOverridesVersionAnnotationName version else mret tt) ;;
  err ← buildLoop (cb_generators h);
  match err with
  | Some e => mret (Some e)
  | None =>
      cm ← gets (NewObject (cb_configMap h));
      match resources_Hash (cm_Data cm) with
      | inl err => mret (Some err)
      | inr currentHash => setAnnotation ConfigHashAnnotationName currentHash ;; mret None
      end
  end.

Definition cb_Exists (w : W) : bool := resource_Exists (cb_configMap h) w.

Definition cb_Sync : go W (option error) :=
  '(status, err) ← needReload;
  match err with
  | Some e => mret (Some e)
  | None =>
      exists_ ← gets cb_Exists;
      if exists_ && negb (IsNeedUpdate status) then mret None
      else resource_Sync (cb_configMap h)
  end.

Definition cb_Fetch : go W (option error) :=
  err ← match cb_configOverrides h with
        | Some name =>
            ov ← gets overridesMap;
            '(err, obj) ← FetchObject name ov;
            modify (λ w, w_set_env (lset (cb_overridesMap h) obj (w_env w)) w) ;;
            mret err
        | None => mret None
        end;
  match err with
  | Some e => mret (Some e)
  | None => resource_Fetch (cb_configMap h)
  end.

End builder.
Arguments ConfigMapBuilder E : clear implicits.

(** ** The value of a configuration *)

Section values.
Context {CC : ConfigCodec}.

Fixpoint pureOverrides (name : string) (d : ConfigGenerator) (data : gmap string string)
    (overrides : list (string * ConfigFormat)) (config : bytes) : error + bytes :=
  match overrides with
  | [] => inr config
  | (oname, format) :: rest =>
      match data !! oname with
      | None => pureOverrides name d data rest config
      | Some value =>
          match overrideYsonConfigs config (Some value) format with
          | inl err => inl ("failed to apply configmap/" +:+ name +:+ " " +:+ fmt_q (cg_FileName d) +:+
                            " override " +:+ fmt_q oname +:+ ": " +:+ err)
          | inr config => pureOverrides name d data rest config
          end
      end
  end.

(** What [getConfig] returns: a function of the name, the overrides and the generator. *)
Definition configValue (name : string) (overrides : ConfigMap) (d : ConfigGenerator) : error + bytes :=
  match cg_Generator d with
  | inl err => inl ("failed to generate configmap/" +:+ name +:+ " " +:+ fmt_q (cg_FileName d) +:+ ": " +:+ err)
  | inr config =>
      error_bind (if GetResourceVersion overrides != ""
                  then pureOverrides name d (cm_Data overrides) (overrideNames name d) config
                  else inr config) (convertConfig (cg_Format d))
  end.

(** A stored value that needs no reload. *)
Definition up_to_date (cur new : bytes) : bool :=
  negb ((cur == None) && (new != None)) && bytes_Equal cur new.

Lemma up_to_date_refl b : up_to_date b b = true.
Proof.
  unfold up_to_date, bytes_Equal. rewrite (bool_decide_eq_true_2 (bytes_string b = bytes_string b)) by done.
  destruct b; [done|]. by rewrite (bool_decide_eq_true_2 (@None string = None)).
Qed.

End values.

Section convergence.
Context {CC : ConfigCodec} {E : Type} {MC : MetaConditions} {SC : StatusClient E}.
Context `{HK : !KubeClient E ConfigMap} `{HKL : !KubeClientLaws E ConfigMap _ cm_Data}.
Context (h : ConfigMapBuilder E).

Abbreviation W := (World E).
Abbreviation cell := (cb_configMap h).
Abbreviation ovcell := (cb_overridesMap h).

Context `{HL : !LensLaws cell} `{HL2 : !LensLaws ovcell} `{HD : !Disjoint_lenses cell ovcell}.
Context `{HM : !ClientMemory E ConfigMap cell} `{HM2 : !ClientMemory E ConfigMap ovcell}.

Lemma applyOverrides_env name d data l config : preserves (w_env (E:=E)) (applyOverrides name d data l config).
Proof.
  revert config. induction l as [|[oname format] l IH]; intros config; cbn [applyOverrides]; [done|].
  destruct (data !! oname); [|apply IH]. destruct (overrideYsonConfigs _ _ _); [done|].
  intros w. rewrite run_bind. by rewrite (IH _ _).
Qed.

Lemma applyOverrides_val name d data l config (w : W) :
  val_of (applyOverrides name d data l config) w = pureOverrides name d data l config.
Proof.
  revert config w. induction l as [|[oname format] l IH]; intros config w;
    cbn [applyOverrides pureOverrides]; [done|].
  destruct (data !! oname); [|apply IH]. destruct (overrideYsonConfigs _ _ _); [done|].
  rewrite val_bind. apply IH.
Qed.

Lemma getConfig_env d : preserves (w_env (E:=E)) (getConfig h d).
Proof.
  unfold getConfig. intros w. go_step. destruct (cg_Generator d); [done|]. go_step.
  case_match; go_step; [apply applyOverrides_env|done].
Qed.

Lemma getConfig_val d (w : W) :
  val_of (getConfig h d) w = configValue (GetConfigMapName h w) (overridesMap h w) d.
Proof.
  unfold getConfig, configValue. go_step. destruct (cg_Generator d); [done|]. go_step.
  case_match; go_step; [by rewrite applyOverrides_val|done].
Qed.

(** *** Checking *)

(** The stored data agrees with the generators. *)
Definition agrees (w : W) (d : ConfigGenerator) : Prop :=
  ∃ new, configValue (GetConfigMapName h w) (overridesMap h w) d = inr new ∧
    up_to_date (getCurrentConfigValue h w (cg_FileName d)) new = true.

Lemma agrees_env (w1 w2 : W) d : w_env w1 = w_env w2 → agrees w1 d → agrees w2 d.
Proof.
  unfold agrees, GetConfigMapName, overridesMap, getCurrentConfigValue, resource_Exists, OldObject, resource.
  by intros ->.
Qed.

Lemma needReloadLoop_env gs : preserves (w_env (E:=E)) (needReloadLoop h gs).
Proof.
  assert (∀ r m, preserves (w_env (E:=E)) (RecordNormal r m)) by done.
  pose proof getConfig_env. induction gs as [|d gs IH]; cbn [needReloadLoop]; [done|]. go_frame.
Qed.

Lemma needReloadLoop_None gs (w : W) :
  val_of (needReloadLoop h gs) w = None ↔ ∀ d, d ∈ gs → agrees w d.
Proof.
  revert w. induction gs as [|d gs IH]; intros w; cbn [needReloadLoop].
  { split; [intros _ d Hd; by apply elem_of_nil in Hd|done]. }
  setoid_rewrite elem_of_cons. rewrite val_bind, getConfig_val.
  pose proof (getConfig_env d w) as Henv. set (w1 := run (getConfig h d) w) in *.
  destruct (configValue _ _ d) as [err|new] eqn:Hv.
  { split; [done|]. intros H. destruct (H d (or_introl eq_refl)) as (new & Hnew & _). congruence. }
  rewrite val_bind, val_gets, run_gets. cbv beta.
  assert (getCurrentConfigValue h w1 (cg_FileName d) = getCurrentConfigValue h w (cg_FileName d)) as ->.
  { unfold getCurrentConfigValue, resource_Exists, OldObject, resource. by rewrite Henv. }
  set (cur := getCurrentConfigValue h w (cg_FileName d)).
  assert (up_to_date cur new = true ↔ agrees w d) as Hup.
  { unfold agrees. rewrite Hv. fold cur. naive_solver. }
  unfold up_to_date in Hup. destruct ((cur == None) && (new != None)); cbn [negb andb] in *.
  { rewrite val_bind, val_ret. split; [done|]. intros H. exfalso.
    by apply (diff_true_false (eq_sym (proj2 Hup (H d (or_introl eq_refl))))). }
  destruct (bytes_Equal cur new); cbn [negb] in *.
  - rewrite IH. split; [|intros H d' Hd'; apply (agrees_env w); [by rewrite Henv|by apply H; right]].
    intros H d' [->|Hd']; [by apply Hup|]. by apply (agrees_env w1), H.
  - split; [by case_match; rewrite ?val_bind|]. intros H. exfalso.
    by apply (diff_true_false (eq_sym (proj2 Hup (H d (or_introl eq_refl))))).
Qed.

Lemma needReload_env : preserves (w_env (E:=E)) (needReload h).
Proof.
  intros w. unfold needReload. go_step. case_match; go_step; apply needReloadLoop_env.
Qed.

Lemma annotation_env (w1 w2 : W) t : w_env w1 = w_env w2 → IsAnnotationChanged cell w1 t = IsAnnotationChanged cell w2 t.
Proof. unfold IsAnnotationChanged, OldObject, NewObject, resource. by intros ->. Qed.

(** The answer is Ready exactly when every file and the annotation agree. *)
Lemma needReload_Ready (w : W) :
  val_of (needReload h) w = (ComponentStatusReady, None) ↔
    (∀ d, d ∈ cb_generators h → agrees w d) ∧
    IsAnnotationChanged cell w InitJobReasonAnnotationName = false.
Proof.
  unfold needReload. rewrite val_bind, <- needReloadLoop_None.
  pose proof (needReloadLoop_env (cb_generators h) w) as Henv.
  destruct (val_of (needReloadLoop h (cb_generators h)) w) as [r|] eqn:Hr.
  - rewrite val_ret. split; [|by intros [? _]]. intros ->. exfalso.
    (* the loop never stops with Ready *)
    clear Henv. revert w Hr. induction (cb_generators h) as [|d gs IH]; intros w; cbn [needReloadLoop]; [done|].
    rewrite val_bind. destruct (val_of (getConfig h d) w) as [err|new]; [done|].
    rewrite val_bind, val_gets, run_gets. case_match; [done|]. case_match; [by case_match|]. apply IH.
  - rewrite val_bind, val_gets, run_gets, val_ret, (annotation_env _ w) by done.
    destruct (IsAnnotationChanged cell w _); naive_solver.
Qed.

(** *** Building *)

(** What building leaves alone. *)
Record same_view (w w' : W) : Prop := {
  sv_overrides : overridesMap h w' = overridesMap h w;
  sv_name : GetConfigMapName h w' = GetConfigMapName h w;
  sv_old : OldObject cell w' = OldObject cell w;
  sv_get : ∀ n, val_of (client_Get (T:=ConfigMap) n) (w_env w') = val_of (client_Get n) (w_env w);
}.

Lemma same_view_refl w : same_view w w.
Proof. by split. Qed.

Lemma same_view_trans w1 w2 w3 : same_view w1 w2 → same_view w2 w3 → same_view w1 w3.
Proof. intros [O1 N1 D1 G1] [O2 N2 D2 G2]. split; [congruence..|]. intros n. by rewrite G2. Qed.

Lemma same_view_env w w' : w_env w' = w_env w → same_view w w'.
Proof.
  intros H. split; unfold overridesMap, GetConfigMapName, OldObject, resource; by rewrite H.
Qed.

Lemma in_resource_resource f (w : W) : resource cell (run (in_resource cell f) w) = f (resource cell w).
Proof. unfold resource, in_resource. cbn. apply lget_lset. Qed.

Lemma in_resource_new f (w : W) :
  (∀ r, res_name (f r) = res_name r ∧ res_oldObject (f r) = res_oldObject r) →
  same_view w (run (in_resource cell f) w).
Proof.
  intros Hf. split; unfold GetConfigMapName, OldObject; rewrite ?in_resource_resource; try apply Hf.
  - unfold overridesMap, in_resource. cbn. apply disjoint_l.
  - intros n. unfold in_resource. cbn. apply get_mem.
Qed.

Lemma configValue_view w w' d :
  same_view w w' →
  configValue (GetConfigMapName h w') (overridesMap h w') d =
  configValue (GetConfigMapName h w) (overridesMap h w) d.
Proof. by intros [-> -> _ _]. Qed.

Lemma getConfig_view d (w : W) :
  same_view w (run (getConfig h d) w) ∧ NewObject cell (run (getConfig h d) w) = NewObject cell w.
Proof.
  pose proof (getConfig_env d w) as H. split; [by apply same_view_env|].
  unfold NewObject, resource. by rewrite H.
Qed.

Lemma buildLoop_spec gs (w : W) :
  NoDup (cg_FileName <$> gs) →
  (∀ d, d ∈ gs → cm_Data (NewObject cell w) !! cg_FileName d = None) →
  val_of (buildLoop h gs) w = None →
  let w' := run (buildLoop h gs) w in
  same_view w w' ∧ cm_meta (NewObject cell w') = cm_meta (NewObject cell w) ∧
  (∀ d, d ∈ gs → configValue (GetConfigMapName h w) (overridesMap h w) d =
                   inr (cm_Data (NewObject cell w') !! cg_FileName d)) ∧
  (∀ f, f ∉ cg_FileName <$> gs → cm_Data (NewObject cell w') !! f = cm_Data (NewObject cell w) !! f).
Proof.
  cbv zeta. revert w. induction gs as [|d gs IH]; intros w Hn Hd Hv.
  { split_and!; [apply same_view_refl|done| |done]. intros d Hin. by apply elem_of_nil in Hin. }
  cbn [fmap list_fmap] in Hn. apply NoDup_cons in Hn as [Hfresh Hn].
  cbn [buildLoop] in Hv |- *. rewrite val_bind, val_gets, run_gets in Hv.
  rewrite run_bind, val_gets, run_gets. cbv beta in *.
  rewrite bool_decide_eq_false_2 in Hv |- * by (rewrite (Hd d) by (by left); by intros [? ?]).
  rewrite val_bind, getConfig_val in Hv. rewrite run_bind, getConfig_val.
  destruct (getConfig_view d w) as [Hview1 Hnew1]. set (w1 := run (getConfig h d) w) in *.
  destruct (configValue (GetConfigMapName h w) (overridesMap h w) d) as [err|[data|]] eqn:Hval; [done| |].
  - rewrite val_bind in Hv. rewrite run_bind. set (w2 := run (in_resource _ _) w1) in *.
    assert (same_view w w2) as Hview2.
    { eapply same_view_trans; [exact Hview1|]. subst w2. by apply in_resource_new. }
    assert (cm_meta (NewObject cell w2) = cm_meta (NewObject cell w) ∧
      cm_Data (NewObject cell w2) = <[cg_FileName d := data]> (cm_Data (NewObject cell w))) as [Hm2 Hd2].
    { subst w2. unfold NewObject at 1 3. rewrite in_resource_resource. cbn.
      change (res_newObject (resource cell w1)) with (NewObject cell w1). by rewrite Hnew1. }
    destruct (IH w2 Hn) as (Hv3 & Hm3 & Hin3 & Hout3); [|done|].
    { intros d' Hd'. rewrite Hd2, lookup_insert_ne; [by apply Hd; right|].
      intros Heq. apply Hfresh. rewrite Heq. by apply list_elem_of_fmap_2. }
    split_and!; [by eapply same_view_trans|congruence| |].
    + intros d' [->|Hd']%elem_of_cons.
      * rewrite Hout3 by done. rewrite Hd2, lookup_insert_eq. done.
      * rewrite <- (Hin3 d' Hd'). symmetry. by apply configValue_view.
    + intros f. rewrite fmap_cons, not_elem_of_cons. intros [Hf1 Hf2]. by rewrite Hout3, Hd2, lookup_insert_ne.
  - destruct (IH w1 Hn) as (Hv3 & Hm3 & Hin3 & Hout3); [|done|].
    { intros d' Hd'. rewrite Hnew1. by apply Hd; right. }
    split_and!; [by eapply same_view_trans|congruence| |].
    + intros d' [->|Hd']%elem_of_cons.
      * rewrite Hout3 by done. rewrite Hnew1, (Hd d) by (by left). done.
      * rewrite <- (Hin3 d' Hd'). symmetry. by apply configValue_view.
    + intros f. rewrite fmap_cons, not_elem_of_cons. intros [Hf1 Hf2]. by rewrite Hout3, Hnew1.
Qed.

Lemma setAnnotation_spec ann value (w : W) :
  let w' := run (setAnnotation h ann value) w in
  same_view w w' ∧ cm_Data (NewObject cell w') = cm_Data (NewObject cell w) ∧
  GetName (NewObject cell w') = GetName (NewObject cell w) ∧
  obj_GetAnnotations (NewObject cell w') = <[ann := value]> (obj_GetAnnotations (NewObject cell w)).
Proof.
  cbv zeta. unfold setAnnotation. split; [by apply in_resource_new|].
  unfold NewObject. rewrite in_resource_resource. done.
Qed.

(** A successful build: the new object carries the name of the map, exactly the generated
    files, their hash, and no reason for an init job unless the labeller adds one. *)
Lemma Build_spec (w : W) :
  NoDup (cg_FileName <$> cb_generators h) →
  val_of (Build h) w = None →
  let w' := run (Build h) w in
  same_view w w' ∧ GetName (NewObject cell w') = GetConfigMapName h w ∧
  (lab_Annotations (cb_labeller h) !! InitJobReasonAnnotationName = None →
   obj_GetAnnotations (NewObject cell w') !! InitJobReasonAnnotationName = None) ∧
  (∀ d, d ∈ cb_generators h → configValue (GetConfigMapName h w) (overridesMap h w) d =
                                inr (cm_Data (NewObject cell w') !! cg_FileName d)) ∧
  (∀ f, f ∉ cg_FileName <$> cb_generators h → cm_Data (NewObject cell w') !! f = None) ∧
  ∃ hash, resources_Hash (cm_Data (NewObject cell w')) = inr hash ∧
    obj_GetAnnotations (NewObject cell w') !! ConfigHashAnnotationName = Some hash.
Proof.
  intros Hn Hv. cbv zeta. unfold Build in Hv |- *. rewrite val_bind in Hv. rewrite run_bind.
  set (w1 := run (resource_Build h) w) in *.
  assert (same_view w w1) as Hview1 by by apply in_resource_new.
  assert (NewObject cell w1 = mkConfigMap (mkObjectMeta (GetConfigMapName h w) "" (lab_Annotations (cb_labeller h)) []) ∅)
    as Hnew1.
  { unfold NewObject at 1. subst w1. unfold resource_Build. by rewrite in_resource_resource. }
  rewrite val_bind, val_gets, run_gets, val_bind in Hv. rewrite run_bind, val_gets, run_gets, run_bind.
  set (w2 := run (if _ != _ then _ else _) w1) in *.
  assert (same_view w1 w2 ∧ cm_Data (NewObject cell w2) = ∅ ∧ GetName (NewObject cell w2) = GetConfigMapName h w ∧
    (lab_Annotations (cb_labeller h) !! InitJobReasonAnnotationName = None →
     obj_GetAnnotations (NewObject cell w2) !! InitJobReasonAnnotationName = None)) as (Hview2 & Hd2 & Hn2 & Ha2).
  { subst w2. destruct (GetResourceVersion (overridesMap h w1) != "").
    - destruct (setAnnotation_spec ConfigOverridesVersionAnnotationName
        (GetResourceVersion (overridesMap h w1)) w1) as (? & -> & -> & ->).
      rewrite Hnew1. split_and!; [done..|]. by rewrite lookup_insert_ne.
    - rewrite run_ret, Hnew1. split_and!; [apply same_view_refl|done..]. }
  rewrite val_bind in Hv. rewrite run_bind.
  destruct (val_of (buildLoop h (cb_generators h)) w2) as [err|] eqn:Hloop; [done|].
  destruct (buildLoop_spec (cb_generators h) w2 Hn) as (Hview3 & Hm3 & Hin3 & Hout3); [|done|].
  { intros d _. by rewrite Hd2, lookup_empty. }
  set (w3 := run (buildLoop h (cb_generators h)) w2) in *.
  rewrite val_bind, val_gets, run_gets in Hv. rewrite run_bind, val_gets, run_gets.
  destruct (resources_Hash (cm_Data (NewObject cell w3))) as [err|hash] eqn:Hhash; [done|].
  rewrite run_bind, run_ret.
  destruct (setAnnotation_spec ConfigHashAnnotationName hash w3) as (Hview4 & Hd4 & Hn4 & Ha4).
  set (w4 := run (setAnnotation h _ _) w3) in *. unfold GetName, obj_GetAnnotations in *.
  change (obj_meta (NewObject cell w3)) with (cm_meta (NewObject cell w3)) in *.
  assert (same_view w w2) as Hview12 by by eapply same_view_trans.
  split_and!.
  - eapply same_view_trans; [exact Hview12|]. by eapply same_view_trans.
  - rewrite Hn4, Hm3. exact Hn2.
  - rewrite Ha4, Hm3, lookup_insert_ne by done. exact Ha2.
  - intros d Hd. rewrite Hd4, <- (Hin3 d Hd). symmetry. by apply configValue_view.
  - intros f Hf. by rewrite Hd4, Hout3, Hd2.
  - exists hash. by rewrite Hd4, Ha4, lookup_insert_eq.
Qed.

(** *** A pass *)

Definition fetched_of (r : apierror + ConfigMap) : ConfigMap :=
  match r with inr o => o | inl _ => ConfigMapZero end.
Definition failed (r : apierror + ConfigMap) : Prop := ∃ e, r = inl (APIError e).
Definition stored (w : W) (name : string) : apierror + ConfigMap := val_of (client_Get name) (w_env w).
Definition fetched_overrides (w : W) : ConfigMap :=
  match cb_configOverrides h with Some n => fetched_of (stored w n) | None => ConfigMapZero end.

(** A new builder that has fetched its objects. *)
Definition fetchPass : go W (option error) := NewConfigMapBuilder h ;; cb_Fetch h.

Lemma resource_Fetch_spec (w : W) :
  OldObject cell w = ConfigMapZero →
  let w' := run (resource_Fetch cell) w in
  let r := stored w (GetConfigMapName h w) in
  (val_of (resource_Fetch cell) w = None ↔ ¬ failed r) ∧
  overridesMap h w' = overridesMap h w ∧ GetConfigMapName h w' = GetConfigMapName h w ∧
  OldObject cell w' = fetched_of r ∧ NewObject cell w' = NewObject cell w ∧
  ∀ n, stored w' n = stored w n.
Proof.
  intros Hold. cbv zeta. unfold resource_Fetch, FetchObject. rewrite val_bind, run_bind.
  set (w1 := run (in_resource cell _) w).
  assert (resource cell w1 = mkManagedResource (GetConfigMapName h w) ConfigMapZero (NewObject cell w)) as Hr1.
  { subst w1. rewrite in_resource_resource. unfold res_set_old. f_equal.
    change (res_oldObject (resource cell w)) with (OldObject cell w). by rewrite Hold. }
  assert (∀ n, val_of (client_Get (T:=ConfigMap) n) (w_env w1) = stored w n) as Hg1.
  { intros n. subst w1. unfold in_resource. cbn. apply get_mem. }
  assert (overridesMap h w1 = overridesMap h w) as Ho1.
  { subst w1. unfold overridesMap, in_resource. cbn. apply disjoint_l. }
  go_step. rewrite val_in_env, run_in_env, get_pure. unfold OldObject at 1 2. rewrite Hr1. cbn [res_name res_oldObject].
  rewrite Hg1. set (r := stored w (GetConfigMapName h w)).
  assert (∀ obj, let w2 := run (in_resource cell (res_set_old obj)) (w_set_env (w_env w1) w1) in
    overridesMap h w2 = overridesMap h w ∧ GetConfigMapName h w2 = GetConfigMapName h w ∧
    OldObject cell w2 = obj ∧ NewObject cell w2 = NewObject cell w ∧ ∀ n, stored w2 n = stored w n) as Hset.
  { intros obj. cbv zeta. unfold GetConfigMapName, OldObject, NewObject. rewrite in_resource_resource.
    change (resource cell (w_set_env (w_env w1) w1)) with (resource cell w1). rewrite Hr1. split_and!; try done.
    - unfold overridesMap, in_resource. cbn. rewrite disjoint_l. exact Ho1.
    - intros n. unfold stored at 1, in_resource. cbn. rewrite get_mem. apply Hg1. }
  assert (OldObject cell w1 = ConfigMapZero) as Hold1 by (unfold OldObject; by rewrite Hr1).
  clearbody r. unfold failed.
  destruct r as [[|e]|o]; cbn [fetched_of]; go_step; rewrite ?Hold1; (split; [|apply Hset]).
  - split; [by intros _ [? ?]|done].
  - split; [done|]. intros Hn. exfalso. apply Hn. by eexists.
  - split; [by intros _ [? ?]|done].
Qed.

Lemma fetchPass_spec (w : W) :
  let w' := run fetchPass w in
  let failed_overrides := ∃ n, cb_configOverrides h = Some n ∧ failed (stored w n) in
  (val_of fetchPass w = None ↔ ¬ failed_overrides ∧ ¬ failed (stored w (cb_name h))) ∧
  (val_of fetchPass w = None →
   overridesMap h w' = fetched_overrides w ∧ GetConfigMapName h w' = cb_name h ∧
   OldObject cell w' = fetched_of (stored w (cb_name h)) ∧ NewObject cell w' = ConfigMapZero ∧
   ∀ n, stored w' n = stored w n).
Proof.
  cbv zeta. unfold fetchPass. rewrite val_bind, run_bind. set (w0 := run (NewConfigMapBuilder h) w).
  assert (resource cell w0 = newConfigMap (cb_name h)) as Hr0.
  { unfold resource, w0, NewConfigMapBuilder. cbn. apply lget_lset. }
  assert (overridesMap h w0 = ConfigMapZero) as Ho0.
  { unfold overridesMap, w0, NewConfigMapBuilder. cbn. rewrite disjoint_l. apply lget_lset. }
  assert (∀ n, stored w0 n = stored w n) as Hg0.
  { intros n. unfold stored, w0, NewConfigMapBuilder. cbn. by rewrite !get_mem. }
  unfold cb_Fetch, fetched_overrides. destruct (cb_configOverrides h) as [n|] eqn:Hov.
  2: { rewrite val_bind, run_bind, val_ret, run_ret.
    destruct (resource_Fetch_spec w0) as (Hval & Ho & Hn & Hold & Hnew & Hg).
    { unfold OldObject. by rewrite Hr0. }
    unfold GetConfigMapName at 1 in Hval. rewrite Hr0 in Hval. cbn [res_name newConfigMap] in Hval. rewrite Hg0 in Hval.
    split; [rewrite Hval; naive_solver|]. intros _. rewrite Ho, Hn, Hold, Hnew.
    unfold GetConfigMapName, NewObject. rewrite Hr0, Ho0, Hg0. cbn [res_name res_newObject newConfigMap]. split_and!; try done.
    intros n. by rewrite Hg. }
  unfold FetchObject. rewrite val_bind, run_bind.
  repeat (go_step; rewrite ?val_in_env, ?run_in_env, ?get_pure).
  change (val_of (client_Get n) (w_env w0)) with (stored w0 n).
  rewrite Hg0, Ho0. change (w_set_env (w_env w0) w0) with w0.
  assert (∀ obj, let w1 := run (modify (λ w1 : W, w_set_env (lset ovcell obj (w_env w1)) w1)) w0 in
    resource cell w1 = newConfigMap (cb_name h) ∧ overridesMap h w1 = obj ∧ ∀ n, stored w1 n = stored w n) as Hset.
  { intros obj. cbv zeta. split_and!.
    - unfold resource. cbn. rewrite disjoint_r. exact Hr0.
    - unfold overridesMap. cbn. apply lget_lset.
    - intros n'. unfold stored at 1. cbn. rewrite get_mem. apply Hg0. }
  assert (∀ obj, fetched_of (stored w n) = obj → ¬ failed (stored w n) →
    let w1 := run (modify (λ w1 : W, w_set_env (lset ovcell obj (w_env w1)) w1)) w0 in
    let w' := run (resource_Fetch cell) w1 in
    (val_of (resource_Fetch cell) w1 = None ↔
      ¬ (∃ n, cb_configOverrides h = Some n ∧ failed (stored w n)) ∧ ¬ failed (stored w (cb_name h))) ∧
    (val_of (resource_Fetch cell) w1 = None →
     overridesMap h w' = fetched_of (stored w n) ∧ GetConfigMapName h w' = cb_name h ∧
     OldObject cell w' = fetched_of (stored w (cb_name h)) ∧ NewObject cell w' = ConfigMapZero ∧
     ∀ n, stored w' n = stored w n)) as Hgo.
  { intros obj Hobj Hnf. cbv zeta. destruct (Hset obj) as (Hr1 & Ho1 & Hg1).
    set (w1 := run (modify _) w0) in *.
    destruct (resource_Fetch_spec w1) as (Hval & Ho & Hn & Hold & Hnew & Hg).
    { unfold OldObject. by rewrite Hr1. }
    unfold GetConfigMapName at 1 in Hval. rewrite Hr1 in Hval. cbn [res_name newConfigMap] in Hval. rewrite Hg1 in Hval.
    split; [rewrite Hval, Hov; naive_solver|]. intros _. rewrite Ho, Hn, Hold, Hnew.
    unfold GetConfigMapName, NewObject. rewrite Hr1, Ho1, Hg1. cbn [res_name res_newObject newConfigMap]. split_and!; try done.
    intros n'. by rewrite Hg. }
  rewrite <- Hov.
  destruct (stored w n) as [[|e]|o] eqn:Hs; cbn [fetched_of] in *.
  - rewrite !val_bind, !run_bind, !val_ret, !run_ret. apply (Hgo ConfigMapZero); [done|]. by intros [? ?].
  - rewrite !val_bind, !run_bind, !val_ret, !run_ret. split; [|done]. split; [done|]. intros [Hf _].
    exfalso. apply Hf. exists n. rewrite Hs. split; [done|]. by eexists.
  - rewrite !val_bind, !run_bind, !val_ret, !run_ret. apply (Hgo o); [done|]. by intros [? ?].
Qed.

(** A whole pass over the config map: fetch, build, sync. *)
Definition syncPass : go W (option error) :=
  err ← fetchPass;
  match err with
  | Some e => mret (Some e)
  | None =>
      err ← Build h;
      match err with
      | Some e => mret (Some e)
      | None => cb_Sync h
      end
  end.

Lemma needReload_cases (w : W) status :
  val_of (needReload h) w = (status, None) → status = ComponentStatusReady ∨ IsNeedUpdate status = true.
Proof.
  unfold needReload. rewrite val_bind.
  assert (∀ gs w, match val_of (needReloadLoop h gs) w with
                  | Some (st, None) => IsNeedUpdate st = true | _ => True end) as Hloop.
  { clear w. intros gs. induction gs as [|d gs IH]; intros w; cbn [needReloadLoop]; [done|].
    rewrite val_bind. destruct (val_of (getConfig h d) w) as [err|new]; [done|].
    rewrite val_bind, val_gets, run_gets. cbv beta.
    destruct ((_ == None) && (_ != None)); [done|]. destruct (negb _); [|apply IH].
    by destruct (difflib_GetUnifiedDiffString _ _ _ _). }
  specialize (Hloop (cb_generators h) w).
  destruct (val_of (needReloadLoop h (cb_generators h)) w) as [[st [e|]]|].
  - done.
  - rewrite val_ret. intros [= ->]. by right.
  - rewrite val_bind, val_ret. case_match; intros [= <-]; [by right|by left].
Qed.

(** What a pass reads back decides whether the next one has anything to do. *)
Lemma fetched_agrees (w w' : W) :
  (∀ n, cb_configOverrides h = Some n → stored w' n = stored w n) →
  ¬ (∃ n, cb_configOverrides h = Some n ∧ failed (stored w n)) →
  ¬ failed (stored w' (cb_name h)) →
  let old := fetched_of (stored w' (cb_name h)) in
  (∀ d, d ∈ cb_generators h → ∃ new,
     configValue (cb_name h) (fetched_overrides w) d = inr new ∧
     up_to_date (if negb (GetResourceVersion old != "") then None else cm_Data old !! cg_FileName d) new = true) →
  obj_GetAnnotations old !! InitJobReasonAnnotationName = None →
  val_of fetchPass w' = None ∧
  val_of (needReload h) (run fetchPass w') = (ComponentStatusReady, None).
Proof.
  intros Hov Hf1 Hf2. cbv zeta. intros Hagree Hann. destruct (fetchPass_spec w') as [Hiff Hpost].
  assert (val_of fetchPass w' = None) as Hok.
  { apply Hiff. split; [|done]. intros (n & Hn & Hfail). apply Hf1. exists n. by rewrite <- (Hov n Hn). }
  split; [done|]. destruct (Hpost Hok) as (Ho & Hname & Hold & Hnew & _). apply needReload_Ready. split.
  - intros d Hd. destruct (Hagree d Hd) as (new & Hval & Hup). exists new. rewrite Ho, Hname.
    assert (fetched_overrides w' = fetched_overrides w) as ->.
    { unfold fetched_overrides. destruct (cb_configOverrides h) as [n|] eqn:Hn; [|done]. by rewrite Hov. }
    split; [done|]. unfold getCurrentConfigValue, resource_Exists. by rewrite Hold.
  - unfold IsAnnotationChanged. rewrite Hold, Hnew, Hann. done.
Qed.

(** C32.  A configuration that has been written is up to date.  When a pass over a config map
    (fetch it and the overrides, build, sync) succeeds, the next pass finds the map, and
    every file in it, equal to what it would generate: it reports Ready, so a component is
    never driven through an update again for a configuration it already has.  This relies
    on file names being distinct, on the overrides living in another map, and on no extra
    annotation claiming the one that marks init jobs. *)
Theorem config_sync_converges (w : W) :
  NoDup (cg_FileName <$> cb_generators h) →
  lab_Annotations (cb_labeller h) !! InitJobReasonAnnotationName = None →
  cb_configOverrides h ≠ Some (cb_name h) →
  val_of syncPass w = None →
  let w' := run syncPass w in
  val_of fetchPass w' = None ∧
  val_of (needReload h) (run fetchPass w') = (ComponentStatusReady, None).
Proof.
  intros Hn Hl Hne Hv. cbv zeta. unfold syncPass in Hv |- *. rewrite val_bind in Hv. rewrite run_bind.
  destruct (fetchPass_spec w) as [Hiff Hpost]. destruct (val_of fetchPass w) as [e|]; [done|].
  destruct (proj1 Hiff eq_refl) as [Hf1 Hf2].
  destruct (Hpost eq_refl) as (Ho1 & Hname1 & Hold1 & Hnew1 & Hg1).
  set (w1 := run fetchPass w) in *. rewrite val_bind in Hv. rewrite run_bind.
  destruct (val_of (Build h) w1) as [e|] eqn:Hbuild; [done|].
  destruct (Build_spec w1 Hn Hbuild) as ([Ho2 Hname2 Hold2 Hg2] & Hobj & Hann & Hdata & _). specialize (Hann Hl).
  set (w2 := run (Build h) w1) in *. rewrite Hname1, Ho1 in Hdata. rewrite Hname1 in Hobj.
  unfold cb_Sync in Hv |- *. rewrite val_bind in Hv. rewrite run_bind.
  pose proof (needReload_env w2) as Henv. set (w3 := run (needReload h) w2) in *.
  assert (∀ n, stored w3 n = stored w n) as Hg3.
  { intros n. unfold stored at 1. rewrite Henv, Hg2. apply Hg1. }
  destruct (val_of (needReload h) w2) as [status [e|]] eqn:Hreload; [done|].
  rewrite val_bind, val_gets, run_gets in Hv. rewrite run_bind, val_gets, run_gets.
  destruct (cb_Exists h w3 && negb (IsNeedUpdate status)) eqn:Hskip.
  - apply andb_prop in Hskip as [_ Hnu%negb_true_iff].
    destruct (needReload_cases w2 status Hreload) as [->|]; [|congruence].
    apply needReload_Ready in Hreload as [Hag Hch]. rewrite run_ret. apply (fetched_agrees w w3); try done.
    + by rewrite Hg3.
    + intros d Hd. destruct (Hag d Hd) as (new & Hval & Hup). exists new.
      rewrite Hname2, Hname1, Ho2, Ho1 in Hval. split; [done|].
      unfold getCurrentConfigValue, resource_Exists in Hup. rewrite Hold2, Hold1 in Hup. by rewrite Hg3.
    + unfold IsAnnotationChanged in Hch. rewrite Hann, Hold2, Hold1 in Hch. rewrite Hg3.
      by apply negb_false_iff, bool_decide_eq_true in Hch.
  - unfold resource_Sync in Hv |- *. repeat (rewrite val_bind, val_gets, run_gets in Hv).
    repeat (rewrite run_bind, val_gets, run_gets). rewrite val_bind in Hv. rewrite run_bind.
    assert (NewObject cell w3 = NewObject cell w2) as Hnew3 by (unfold NewObject, resource; by rewrite Henv).
    pose proof (SyncObject_readable cm_Data (OldObject cell w3) (NewObject cell w3) w3) as Hread.
    pose proof (SyncObject_other cm_Data (OldObject cell w3) (NewObject cell w3) w3) as Hother.
    rewrite Hnew3, Hobj in Hread, Hother. rewrite Hnew3 in Hv |- *.
    destruct (val_of (SyncObject (OldObject cell w3) (NewObject cell w2)) w3) as [err obj].
    rewrite val_bind, val_ret in Hv. subst err. destruct (Hread eq_refl) as (o' & Hget & Hc & Ha & Hrv).
    rewrite run_bind, run_ret. set (w4 := run (SyncObject _ _) w3) in *.
    assert (∀ n, stored (run (in_resource cell (res_set_new obj)) w4) n = val_of (client_Get n) (w_env w4)) as Hg4.
    { intros n. unfold stored, in_resource. cbn. apply get_mem. }
    apply (fetched_agrees w); try done.
    + intros n Hno. rewrite Hg4, Hother by congruence. apply Hg3.
    + rewrite Hg4, Hget. by intros [? ?].
    + intros d Hd. eexists. split; [by apply Hdata|]. rewrite Hg4, Hget. cbn [fetched_of].
      rewrite (bool_decide_eq_false_2 _ Hrv). cbn [negb]. rewrite Hc. apply up_to_date_refl.
    + rewrite Hg4, Hget. cbn [fetched_of]. rewrite (Ha InitJobReasonAnnotationName eq_refl), lookup_insert_ne by done. exact Hann.
Qed.

End convergence.

(** ** An API server in memory *)

Record MemKube := mkMemKube {
  mk_store : gmap string ConfigMap;
  mk_configMap : ManagedResource ConfigMap;
  mk_overrides : ConfigMap;
}.

Definition mk_cell : lens MemKube (ManagedResource ConfigMap) :=
  mkLens mk_configMap (λ a e, mkMemKube (mk_store e) a (mk_overrides e)).
Definition mk_ovcell : lens MemKube ConfigMap :=
  mkLens mk_overrides (λ a e, mkMemKube (mk_store e) (mk_configMap e) a).

#[global] Instance mk_cell_laws : LensLaws mk_cell.
Proof. split; [done|]. by intros []. Qed.
#[global] Instance mk_ovcell_laws : LensLaws mk_ovcell.
Proof. split; [done|]. by intros []. Qed.
#[global] Instance mk_cells_disjoint : Disjoint_lenses mk_cell mk_ovcell.
Proof. by split. Qed.

Definition mk_put (o : ConfigMap) (e : MemKube) : MemKube :=
  mkMemKube (<[GetName o := SetResourceVersion "1" o]> (mk_store e)) (mk_configMap e) (mk_overrides e).

#[global] Instance MemKube_client : KubeClient MemKube ConfigMap := {
  client_Get name e := (match mk_store e !! name with Some o => inr o | None => inl NotFound end, e);
  client_Create o e :=
    match mk_store e !! GetName o with
    | Some _ => ((Some "already exists", o), e)
    | None => ((None, SetResourceVersion "1" o), mk_put o e)
    end;
  client_Update o e :=
    match mk_store e !! GetName o with
    | None => ((Some "not found", o), e)
    | Some _ => ((None, SetResourceVersion "1" o), mk_put o e)
    end;
  client_Delete o e :=
    (None, mkMemKube (delete (GetName o) (mk_store e)) (mk_configMap e) (mk_overrides e));
  SetControllerReference _ o := inr o;
}.

#[global] Instance MemKube_laws : KubeClientLaws MemKube ConfigMap _ cm_Data.
Proof.
  split; try done.
  - by intros y o o' [= ->].
  - intros o e. unfold val_of, run. cbn. destruct (mk_store e !! GetName o); [done|]. intros _.
    exists (SetResourceVersion "1" o). cbn. by rewrite lookup_insert_eq.
  - intros o e. unfold val_of, run. cbn. destruct (mk_store e !! GetName o); [|done]. intros _.
    exists (SetResourceVersion "1" o). cbn. by rewrite lookup_insert_eq.
  - intros o e name Hne. unfold val_of, run. cbn. destruct (mk_store e !! GetName o); [done|].
    cbn. by rewrite lookup_insert_ne.
  - intros o e name Hne. unfold val_of, run. cbn. destruct (mk_store e !! GetName o); [|done].
    cbn. by rewrite lookup_insert_ne.
Qed.

#[global] Instance MemKube_mem : ClientMemory MemKube ConfigMap mk_cell.
Proof. split; try done; intros o e; unfold run; cbn; by destruct (mk_store e !! GetName o). Qed.
#[global] Instance MemKube_mem_ov : ClientMemory MemKube ConfigMap mk_ovcell.
Proof. split; try done; intros o e; unfold run; cbn; by destruct (mk_store e !! GetName o). Qed.

#[global] Instance MemKube_status : StatusClient MemKube := {
  Status_Update := λ _ e, (None, e);
  GetVersion := "0.30.0";
}.

(** Documents that are their own text: decoding into a value appends. *)
#[global] Instance TextCodec : ConfigCodec := {
  ordered := string;
  ordered_zero := "";
  yson_Unmarshal_ordered s v := inr (v +:+ s);
  yson_MarshalFormat v := inr v;
  any := string;
  yson_Unmarshal s := inr s;
  yson_Marshal s := inr s;
  yaml_UnmarshalStrict s := inr s;
  json_Marshal s := inr s;
  toml_Encode s := inr s;
  yaml_Marshal s := inr s;
  difflib_GetUnifiedDiffString a b _ _ := inr (a +:+ b);
  resources_Hash m := inr (fmt_d (Z.of_nat (size m)));
}.

Definition example_builder : ConfigMapBuilder MemKube :=
  mkConfigMapBuilder (example_labeller MasterType "") "yt-master-config" (Some "overrides")
    [mkConfigGenerator "ytserver-master.yson" "ytserver-master" YtserverAllConfigOverrideName
       ConfigFormatYson (inr (Some "{a=1}"))] mk_cell mk_ovcell.

(** A server that holds overrides and an outdated map. *)
Definition example_kube : World MemKube :=
  mkWorld example_yts [] 200 ∅ (mkMemKube
    {[ "overrides" := mkConfigMap (mkObjectMeta "overrides" "5" ∅ []) {[ "ytserver-all.yson" := "{b=2}" ]};
       "yt-master-config" := mkConfigMap (mkObjectMeta "yt-master-config" "4" ∅ [])
                               {[ "ytserver-master.yson" := "{}" ]} ]}
    (newConfigMap "") ConfigMapZero).

Lemma config_sync_converges_witness :
  cm_Data (fetched_of (stored (run (syncPass example_builder) example_kube) "yt-master-config"))
    !! "ytserver-master.yson" = Some "{a=1}{b=2}" ∧
  val_of (needReload example_builder)
    (run (fetchPass example_builder) (run (syncPass example_builder) example_kube)) =
    (ComponentStatusReady, None).
Proof.
  split; [vm_compute; reflexivity|].
  apply (config_sync_converges example_builder example_kube); try (vm_compute; reflexivity); [|discriminate].
  apply (bool_decide_unpack _). vm_compute. exact I.
Defined.
