(* ===== verification/InitJob.v ===== *)
(** * Init jobs (src/pkg/components/init_job.go, src/pkg/resources/job.go)

    A component runs scripts against the cluster as Kubernetes jobs: for the first start and
    in steps of an update.  A status condition of the cluster resource is the checkpoint of
    a job: its reason says what the job runs for, its status whether it is done.  Kubernetes
    is reached through the managed resources of the job and of its config map.

    Of the job object the model has the metadata, the command, the image, the config map of
    the script and the reason; the remaining fields of the pod template are not modelled. *)

From S2P Require Import Prelude Kubernetes ApiTypes Consts Labeller Status ApiProxy Resources ConfigMaps.

(** ** Jobs (resources/job.go) *)

Inductive JobConditionType : Type := JobComplete | JobFailed | JobConditionOther (s : string).

#[global] Instance JobConditionType_eq_dec : EqDecision JobConditionType.
Proof. solve_decision. Defined.

Record JobStatus := mkJobStatus {
  jst_Conditions : list (JobConditionType * ConditionStatus);
  jst_Active : Z;
  jst_Failed : Z;
  jst_StartTime : option Z;
  jst_CompletionTime : option Z;
}.

Definition JobStatusZero : JobStatus := mkJobStatus [] 0 0 None None.

Record JobSpec := mkJobSpec {
  jsp_Image : string;
  jsp_Command : list string;
  jsp_ConfigMap : string;
  jsp_TemplateAnnotations : gmap string string;
}.

Definition JobSpecZero : JobSpec := mkJobSpec "" [] "" ∅.

Record Job := mkJob { job_meta : ObjectMeta; job_Spec : JobSpec; job_Status : JobStatus }.

Definition JobZero : Job := mkJob ObjectMetaZero JobSpecZero JobStatusZero.

#[global] Instance Job_object : KubeObject Job := {
  obj_meta := job_meta;
  obj_set_meta m o := mkJob m (job_Spec o) (job_Status o);
  obj_type := "*v1.Job";
}.

Definition job_IsStatusConditionTrue (j : Job) (conditionType : JobConditionType) : bool :=
  ContainsFunc (jst_Conditions (job_Status j)) (λ c, (c.1 == conditionType) && (c.2 == ConditionTrue)).

Definition IsComplete (j : Job) : bool := job_IsStatusConditionTrue j JobComplete.
Definition IsFailed (j : Job) : bool := job_IsStatusConditionTrue j JobFailed.

(** [Duration] as the text it is printed as; an unknown duration is one negative nanosecond. *)
Definition Duration (j : Job) : string :=
  match jst_StartTime (job_Status j), jst_CompletionTime (job_Status j) with
  | Some start, Some completion => duration_String (completion - start)
  | _, _ => "-1ns"
  end.

(** ** Init jobs (init_job.go) *)

Definition InitJobDefaultReason := "InitJob".
Definition InitJobScriptName := "init-job-script.sh".
Definition ClientConfigFileName := "client.yson".

(** [path.Join] of a clean path and a file name. *)
Definition path_Join (dir file : string) : string := dir +:+ "/" +:+ file.

Definition initJobPrologue : string :=
  "#!/bin/bash" +:+ newline +:+
  "# YTsaurus init job script generated by ytsaurus-k8s-operator" +:+ newline +:+ newline +:+
  "set -eux -o pipefail" +:+ newline.

Definition initJobWithNativeDriverPrologue : string :=
  strings_Join
    [initJobPrologue; "export YT_DRIVER_CONFIG_PATH=" +:+ path_Join ConfigMountPoint ClientConfigFileName] newline.

(** The fields that change after construction; [jm_built] is [builtJob != nil]. *)
Record initJobMem := mkInitJobMem { jm_reason : string; jm_scriptFileName : string; jm_built : bool }.

Section init_job.
Context {CC : ConfigCodec} {E : Type} {MC : MetaConditions} {SC : StatusClient E}.
Context `{HKC : !KubeClient E ConfigMap} `{HKJ : !KubeClient E Job}.

Abbreviation W := (World E).

Record InitJob := mkInitJob {
  ij_labeller : Labeller;
  ij_statusCondition : string;
  ij_image : string;
  ij_logFilePath : string;
  ij_configs : ConfigMapBuilder E;
  ij_job : lens E (ManagedResource Job);
  ij_mem : lens E initJobMem;
}.

(** The fields of a new init job: the names come from the labeller. *)
Definition NewInitJob (l : Labeller) (name jobName configMapName image logDir : string)
    (configOverrides : option string) (generators : list ConfigGenerator)
    (cm : lens E (ManagedResource ConfigMap)) (ov : lens E ConfigMap)
    (job : lens E (ManagedResource Job)) (mem : lens E initJobMem) : InitJob :=
  mkInitJob l (GetInitJobCompletedCondition l name) image
    (if logDir == "" then "" else path_Join logDir (jobName +:+ ".log"))
    (mkConfigMapBuilder l configMapName configOverrides generators cm ov) job mem.

Definition newInitJobMem : initJobMem := mkInitJobMem InitJobDefaultReason InitJobScriptName false.

Context (j : InitJob).

Definition jmem (w : W) : initJobMem := lget (ij_mem j) (w_env w).
Definition in_jmem (f : initJobMem → initJobMem) : go W unit :=
  modify (λ w, w_set_env (lset (ij_mem j) (f (jmem w)) (w_env w)) w).

Definition oldJob (w : W) : Job := OldObject (ij_job j) w.

Definition AddScript (fileName : string) (generator : error + list string) : ConfigMapBuilder E :=
  AddGenerator (ij_configs j) fileName ConfigFormatText (error_map JoinTextLines generator).

Definition AddInitJobScript (generator : string) : ConfigMapBuilder E :=
  AddGenerator (ij_configs j) InitJobScriptName ConfigFormatText (inr (JoinTextLines [generator])).

Definition ij_Name (w : W) : string := res_name (resource (ij_job j) w).

Definition Restart : go W unit := RemoveStatusCondition (ij_statusCondition j).

Definition ij_Fetch : go W (option error) :=
  resources_Fetch [Some (resource_Fetch (ij_job j)); Some (cb_Fetch (ij_configs j))].

Definition ij_Exists (w : W) : bool :=
  resources_Exists w [Some (resource_Exists (ij_job j)); Some (cb_Exists (ij_configs j))].

Definition IsCompleted (w : W) : bool := ij_Exists w && IsStatusConditionTrue w (ij_statusCondition j).

(** [resources.Job.Build] and the fields [InitJob.Build] fills in. *)
Definition ij_Build : go W unit :=
  m ← gets jmem;
  if jm_built m then mret tt else
  configMapName ← gets (GetConfigMapName (ij_configs j));
  let scriptFilePath := path_Join ConfigMountPoint (jm_scriptFileName m) in
  let command :=
    if ij_logFilePath j != ""
    then ["/bin/bash"; "-euxc"; "exec &> >(tee -a " +:+ ij_logFilePath j +:+ "); . " +:+ scriptFilePath]
    else ["/bin/bash"; "-eux"; scriptFilePath] in
  in_resource (ij_job j) (λ r,
    let meta := mkObjectMeta (res_name r) "" (lab_Annotations (ij_labeller j)) [] in
    let spec := mkJobSpec (ij_image j) command configMapName
                  (<[InitJobReasonAnnotationName := jm_reason m]> (lab_Annotations (ij_labeller j))) in
    res_set_new (SetMetaDataAnnotation InitJobReasonAnnotationName (jm_reason m)
                   (mkJob meta spec (job_Status (res_newObject r)))) r) ;;
  in_jmem (λ m, mkInitJobMem (jm_reason m) (jm_scriptFileName m) true).

(** [DeleteForeground] and [DeleteBackground] differ in the propagation policy they pass to
    the API server. *)
Definition start (dry isStarted isRestarted : bool) : go W (ComponentStatus * option error) :=
  name ← gets ij_Name;
  reason ← gets (λ w, jm_reason (jmem w));
  if dry then mret (ComponentStatusWaitingFor ("job " +:+ name +:+ " start for reason " +:+ reason), None) else
  jobExists ← gets (resource_Exists (ij_job j));
  if jobExists : bool then
    err ← resource_Delete (ij_job j);
    mret (ComponentStatusWaitingFor ("job " +:+ name +:+ " delete for reason " +:+ reason), err)
  else
  configsExist ← gets (cb_Exists (ij_configs j));
  configName ← gets (GetConfigMapName (ij_configs j));
  if isRestarted && configsExist then
    err ← resource_Delete (cb_configMap (ij_configs j));
    mret (ComponentStatusWaitingFor ("job " +:+ name +:+ " configmap " +:+ configName +:+ " delete"), err)
  else if negb isStarted then
    SetStatusCondition (condition (ij_statusCondition j) ConditionFalse reason ("Job " +:+ name +:+ " starting")) ;;
    mret (ComponentStatusWaitingFor ("job " +:+ name +:+ " starting for reason " +:+ reason), None)
  else
  let configStatus :=
    ComponentStatusWaitingFor ("job " +:+ name +:+ " configmap " +:+ configName +:+ " for reason " +:+ reason) in
  err ← Build (ij_configs j);
  match err with
  | Some err => mret (configStatus, Some err)
  | None =>
      annotation ← gets (λ w, getAnnotation (ij_configs j) w InitJobReasonAnnotationName);
      err ← (if negb configsExist || (annotation != reason) then
               setAnnotation (ij_configs j) InitJobReasonAnnotationName reason ;;
               cb_Sync (ij_configs j)
             else mret None);
      match err with
      | Some err => mret (configStatus, Some err)
      | None =>
          ij_Build ;;
          err ← resource_Sync (ij_job j);
          match err with
          | Some err =>
              mret (ComponentStatusWaitingFor ("job " +:+ name +:+ " start for reason " +:+ reason), Some err)
          | None =>
              let message := "Job " +:+ name +:+ " started" in
              RecordNormal reason message ;;
              SetStatusCondition (condition (ij_statusCondition j) ConditionFalse reason message) ;;
              mret (ComponentStatusWaitingFor ("job " +:+ name +:+ " condition " +:+ ij_statusCondition j +:+
                " for reason " +:+ reason +:+ " completion"), None)
          end
      end
  end.

Definition ij_Sync (dry : bool) : go W (ComponentStatus * option error) :=
  name ← gets ij_Name;
  reason ← gets (λ w, jm_reason (jmem w));
  condition_ ← gets (λ w, GetStatusCondition w (ij_statusCondition j));
  isExists ← gets ij_Exists;
  old ← gets oldJob;
  let isStarted := match condition_ with Some c => cond_Reason c == reason | None => false end in
  let isCompleted :=
    match condition_ with
    | Some c => (cond_Reason c == reason) && (cond_Status c == ConditionTrue)
    | None => false
    end in
  if isExists && isCompleted then
    mret (ComponentStatusReadyAfter ("Job " +:+ name +:+ " condition " +:+ ij_statusCondition j +:+
      " for reason " +:+ reason +:+ " completed in " +:+ Duration old), None)
  else if negb isStarted || negb isExists || IsFailed old then
    start dry isStarted (match condition_ with None => true | Some _ => false end)
  else if negb (IsComplete old) then
    let status := ComponentStatusWaitingFor ("job " +:+ name +:+ " condition " +:+ ij_statusCondition j +:+
      " for reason " +:+ reason +:+ " completion, active: " +:+ fmt_d (jst_Active (job_Status old)) +:+
      ", failed: " +:+ fmt_d (jst_Failed (job_Status old))) in
    (if dry then mret tt else
       SetStatusCondition (condition (ij_statusCondition j) ConditionFalse reason (cs_Message status))) ;;
    mret (status, None)
  else
    (if dry then mret tt else
       let message := "Job " +:+ name +:+ " completed in " +:+ Duration old in
       RecordNormal reason message ;;
       SetStatusCondition (condition (ij_statusCondition j) ConditionTrue reason message)) ;;
    mret (ComponentStatusWaitingFor ("job " +:+ name +:+ " condition " +:+ ij_statusCondition j +:+
      " for reason " +:+ reason), None).

(** [complete] may replace the status. *)
Definition RunScript (dry : bool) (reason scriptFileName : string)
    (complete : option (ComponentStatus → go W ComponentStatus)) : go W (ComponentStatus * option error) :=
  if negb (ContainsFunc (cb_generators (ij_configs j)) (λ g, cg_FileName g == scriptFileName)) then
    let err := "generator not found: " +:+ scriptFileName in
    mret (ComponentStatusBlocked err, Some err)
  else
  in_jmem (λ _, mkInitJobMem reason scriptFileName false) ;;
  '(status, err) ← ij_Sync dry;
  match err, complete with
  | None, Some complete =>
      if IsReady status then status ← complete status; mret (status, None) else mret (status, None)
  | _, _ => mret (status, err)
  end.

Definition RunUpdateScript (dry : bool) (updateState : UpdateState) (scriptFileName : string)
    (complete : option (go W unit)) : go W (ComponentStatus * option error) :=
  let updateCondition := GetUpdateStateCompleteCondition updateState in
  name ← gets ij_Name;
  started ← gets (λ w, GetUpdateStatusCondition w updateCondition);
  if (started == None) && dry then
    mret (ComponentStatusWaitingFor ("job " +:+ name +:+ " start for update " +:+ UpdateState_string updateState), None)
  else
  (if started == None then
     Restart ;;
     SetUpdateStatusCondition (condition updateCondition ConditionFalse "JobStarting" ("Job " +:+ name +:+ " is starting"))
   else mret tt) ;;
  RunScript dry (UpdateState_string updateState) scriptFileName (Some (λ status,
    if dry then mret (ComponentStatusWaitingFor ("update condition " +:+ updateCondition +:+ " after completing job"))
    else
      match complete with Some complete => complete | None => mret tt end ;;
      old ← gets oldJob;
      let status := ComponentStatusReadyAfter ("Job " +:+ name +:+ " for update " +:+ UpdateState_string updateState +:+
        " is complete in " +:+ Duration old) in
      LogUpdate (cs_Message status) ;;
      SetUpdateStatusCondition (condition updateCondition ConditionTrue "JobComplete" (cs_Message status)) ;;
      mret status)).

End init_job.

(** ** What an init job does *)

Section init_job_facts.
Context {CC : ConfigCodec} {E : Type} {MC : MetaConditions} {ML : MetaConditionsLaws MC} {SC : StatusClient E}.
Context `{HKC : !KubeClient E ConfigMap} `{HKJ : !KubeClient E Job}.

Abbreviation W := (World E).

Implicit Types (j : InitJob (E:=E)) (w : W).

(** *** Frames *)

Lemma DeleteObject_yts {T} `{KubeObject T} `{!KubeClient E T} (o : T) : preserves w_yts (DeleteObject (E:=E) o).
Proof. unfold DeleteObject. go_frame. Qed.

Lemma resource_Delete_yts {T} `{KubeObject T} `{!KubeClient E T} (c : lens E (ManagedResource T)) :
  preserves w_yts (resource_Delete c).
Proof. unfold resource_Delete. pose proof (DeleteObject_yts (T:=T)). go_frame. Qed.

Lemma applyOverrides_yts name d data l config : preserves w_yts (applyOverrides (E:=E) name d data l config).
Proof. revert config. induction l as [|[n f] l IH]; intros config; cbn [applyOverrides]; go_frame. Qed.

Lemma getConfig_yts (h : ConfigMapBuilder E) d : preserves w_yts (getConfig h d).
Proof. pose proof applyOverrides_yts. unfold getConfig. go_frame. Qed.

Lemma cb_setAnnotation_yts (h : ConfigMapBuilder E) a v : preserves w_yts (setAnnotation h a v).
Proof. apply in_resource_yts. Qed.

Lemma buildLoop_yts (h : ConfigMapBuilder E) l : preserves w_yts (buildLoop h l).
Proof.
  pose proof getConfig_yts. pose proof (in_resource_yts (cb_configMap h)).
  induction l as [|d l IH]; cbn [buildLoop]; go_frame.
Qed.

Lemma Build_yts (h : ConfigMapBuilder E) : preserves w_yts (Build h).
Proof.
  pose proof (in_resource_yts (cb_configMap h)). pose proof buildLoop_yts. pose proof cb_setAnnotation_yts.
  unfold Build, resource_Build. go_frame.
Qed.

Lemma needReload_yts (h : ConfigMapBuilder E) : preserves w_yts (needReload h).
Proof.
  pose proof getConfig_yts. unfold needReload. apply preserves_bind; [|go_frame].
  generalize (cb_generators h). intros l. induction l as [|d l IH]; cbn [needReloadLoop]; go_frame.
Qed.

Lemma cb_Sync_yts (h : ConfigMapBuilder E) : preserves w_yts (cb_Sync h).
Proof. pose proof needReload_yts. pose proof (resource_Sync_yts (cb_configMap h)). unfold cb_Sync. go_frame. Qed.

Lemma in_jmem_yts j f : preserves w_yts (in_jmem j f).
Proof. done. Qed.

Lemma ij_Build_yts j : preserves w_yts (ij_Build j).
Proof. pose proof (in_resource_yts (ij_job j)). pose proof in_jmem_yts. unfold ij_Build. go_frame. Qed.

Lemma start_update j dry a b : preserves w_update_status (start j dry a b).
Proof.
  pose proof (λ c, update_status_of_yts _ (resource_Delete_yts (T:=Job) c)).
  pose proof (λ c, update_status_of_yts _ (resource_Delete_yts (T:=ConfigMap) c)).
  pose proof (λ h, update_status_of_yts _ (Build_yts h)).
  pose proof (λ h, update_status_of_yts _ (cb_Sync_yts h)).
  pose proof (λ h a v, update_status_of_yts _ (cb_setAnnotation_yts h a v)).
  pose proof (λ j, update_status_of_yts _ (ij_Build_yts j)).
  pose proof (λ c, update_status_of_yts _ (resource_Sync_yts (T:=Job) c)).
  unfold start. go_frame.
Qed.

Lemma ij_Sync_update j dry : preserves w_update_status (ij_Sync j dry).
Proof. pose proof start_update. unfold ij_Sync. go_frame. Qed.

(** *** Readiness *)

Lemma start_not_ready j dry a b : yields (λ r, IsReady r.1 = false) (start j dry a b).
Proof. unfold start. go_yields. Qed.

(** The checkpoint of the job: done, for the reason it runs for now. *)
Definition checkpointed j w (reason : string) : Prop :=
  ∃ c, GetStatusCondition w (ij_statusCondition j) = Some c ∧ cond_Reason c = reason ∧ cond_Status c = ConditionTrue.

Lemma ij_Sync_ready j dry w :
  IsReady (val_of (ij_Sync j dry) w).1 = true ↔ ij_Exists j w = true ∧ checkpointed j w (jm_reason (jmem j w)).
Proof.
  unfold ij_Sync. go_step. unfold checkpointed.
  destruct (ij_Exists j w); cbn [andb negb orb].
  2: { rewrite orb_true_r. cbn [orb]. rewrite start_not_ready. naive_solver. }
  destruct (GetStatusCondition w (ij_statusCondition j)) as [c|]; cbn [andb negb orb].
  2: { rewrite start_not_ready. naive_solver. }
  destruct (bool_decide_reflect (cond_Reason c = jm_reason (jmem j w))) as [Hr|Hr]; cbn [andb negb orb].
  2: { rewrite start_not_ready. naive_solver. }
  destruct (bool_decide_reflect (cond_Status c = ConditionTrue)) as [Hs|Hs]; cbn [andb negb orb].
  { rewrite val_ret. naive_solver. }
  assert (¬ (true = true ∧ ∃ c0, Some c = Some c0 ∧ cond_Reason c0 = jm_reason (jmem j w) ∧
    cond_Status c0 = ConditionTrue)) as Hno by naive_solver.
  destruct (IsFailed (oldJob j w)); [rewrite start_not_ready; naive_solver|].
  destruct (IsComplete (oldJob j w)); cbn [negb]; go_step; naive_solver.
Qed.

(** *** A dry pass looks only *)

Lemma ij_Sync_dry j w : run (ij_Sync j true) w = w.
Proof.
  unfold ij_Sync, start. go_step. by repeat case_match.
Qed.

(** An init job never runs twice at a time, and never without a checkpoint.  In a dry
    pass, or while a job object is there, or before the status condition carries the reason
    the job runs for, the only thing a pass does to Kubernetes is to delete: the job if
    there is one, otherwise the config map of its script.  So a new job is written only when
    the previous one is gone and the condition has been recorded for the new reason. *)
Theorem ij_Sync_no_overlap j dry w :
  dry = true ∨ resource_Exists (ij_job j) w = true ∨
    (∀ c, GetStatusCondition w (ij_statusCondition j) = Some c → cond_Reason c ≠ jm_reason (jmem j w)) →
  let env' := w_env (run (ij_Sync j dry) w) in
  env' = w_env w ∨
  (dry = false ∧ resource_Exists (ij_job j) w = true ∧ env' = run (client_Delete (oldJob j w)) (w_env w)) ∨
  (dry = false ∧ resource_Exists (ij_job j) w = false ∧ cb_Exists (ij_configs j) w = true ∧
   env' = run (client_Delete (OldObject (cb_configMap (ij_configs j)) w)) (w_env w)).
Proof.
  intros Hw. destruct dry; [left; by rewrite ij_Sync_dry|]. destruct Hw as [?|Hw]; [done|]. cbv zeta.
  assert (∀ a b, (resource_Exists (ij_job j) w = true ∨ a = false) →
    let env' := w_env (run (start j false a b) w) in
    env' = w_env w ∨
    (resource_Exists (ij_job j) w = true ∧ env' = run (client_Delete (oldJob j w)) (w_env w)) ∨
    (resource_Exists (ij_job j) w = false ∧ cb_Exists (ij_configs j) w = true ∧
     env' = run (client_Delete (OldObject (cb_configMap (ij_configs j)) w)) (w_env w))) as Hstart.
  { intros a b Hab. unfold start, resource_Delete, DeleteObject. go_step.
    destruct (resource_Exists (ij_job j) w) eqn:Hj.
    { go_step. rewrite val_in_env, run_in_env. right. left. split; [done|]. by repeat case_match. }
    destruct Hab as [?| ->]; [done|]. go_step. cbn [negb].
    destruct b, (cb_Exists (ij_configs j) w) eqn:Hc; cbn [andb]; go_step; [|by left..].
    rewrite val_in_env, run_in_env. right. right. split_and!; [done..|]. by repeat case_match. }
  unfold ij_Sync. go_step.
  assert (∀ b, resource_Exists (ij_job j) w = true ∨
    match GetStatusCondition w (ij_statusCondition j) with
    | Some c => cond_Reason c == jm_reason (jmem j w) | None => b end = false ∨ b = true) as Hs.
  { intros b. destruct Hw as [Hw|Hw]; [by left|right]. destruct (GetStatusCondition _ _) as [c|]; [|by destruct b; auto].
    left. apply bool_decide_eq_false_2. by apply Hw. }
  specialize (Hs false). destruct (_ && _); [by left|].
  destruct (negb _ || negb _ || _).
  { destruct (Hstart (match GetStatusCondition w (ij_statusCondition j) with
      | Some c => cond_Reason c == jm_reason (jmem j w) | None => false end)
      (match GetStatusCondition w (ij_statusCondition j) with None => true | Some _ => false end)) as [H|[H|H]];
      naive_solver. }
  left. by repeat case_match.
Qed.

(** *** Update scripts *)

Lemma RemoveStatusCondition_gone t w : GetStatusCondition (run (RemoveStatusCondition t) w) t = None.
Proof. apply remove_same. Qed.

Section update_scripts.
Context j (Hmem : LensLaws (ij_mem j)) (Hjob : Disjoint_lenses (ij_mem j) (ij_job j))
  (Hcm : Disjoint_lenses (ij_mem j) (cb_configMap (ij_configs j))).

Lemma in_jmem_Exists f w : ij_Exists j (run (in_jmem j f) w) = ij_Exists j w.
Proof.
  unfold ij_Exists, resources_Exists, cb_Exists, resource_Exists, OldObject, resource, run, in_jmem. cbn.
  by rewrite (disjoint_l (Disjoint_lenses:=Hjob)), (disjoint_l (Disjoint_lenses:=Hcm)).
Qed.

Lemma in_jmem_reason m w : jmem j (run (in_jmem j (λ _, m)) w) = m.
Proof. unfold jmem, run, in_jmem. cbn. apply lget_lset. Qed.

(** A script that does not complete leaves the conditions of the update alone. *)
Lemma RunScript_update dry reason file complete w :
  (ij_Exists j w = true ∧ checkpointed j w reason) ∨
  w_update_status (run (RunScript j dry reason file complete) w) = w_update_status w.
Proof.
  unfold RunScript. case_match; [by right|]. go_step.
  pose proof (ij_Sync_ready j dry (run (in_jmem j (λ _, mkInitJobMem reason file false)) w)) as Hr.
  rewrite in_jmem_Exists, in_jmem_reason in Hr. set (w1 := run (in_jmem j _) w) in *. cbn [jm_reason] in Hr.
  assert (checkpointed j w1 reason ↔ checkpointed j w reason) as Hcp by done. rewrite Hcp in Hr.
  pose proof (ij_Sync_update j dry w1) as Hu. change (w_update_status w1) with (w_update_status w) in Hu.
  destruct (val_of (ij_Sync j dry) w1) as [status [err|]]; cbn [fst] in Hr; [by right|].
  destruct complete as [complete|]; [|by right]. destruct (IsReady status); [|by right]. left. by apply Hr.
Qed.

(** C24.  A step of an update that runs a script is complete only after the script has run for
    this very step: the completion condition of the step becomes true only if it was
    recorded before that the step has started, which also restarts the job, and the job and
    its config map exist and the job's own condition is true with the step as its reason.
    So a job that completed in an earlier update is never taken for this one. *)
Theorem RunUpdateScript_fresh updateState file complete w :
  update_unique w →
  let updateCondition := GetUpdateStateCompleteCondition updateState in
  IsUpdateStatusConditionTrue w updateCondition = false →
  IsUpdateStatusConditionTrue (run (RunUpdateScript j false updateState file complete) w) updateCondition = true →
  is_Some (GetUpdateStatusCondition w updateCondition) ∧ ij_Exists j w = true ∧
  checkpointed j w (UpdateState_string updateState).
Proof.
  intros Hu. cbv zeta. set (t := GetUpdateStateCompleteCondition updateState). intros Hf.
  unfold RunUpdateScript. fold t. go_step.
  destruct (bool_decide_reflect (GetUpdateStatusCondition w t = None)) as [Hn|Hn]; cbn [andb].
  - go_step. set (w1 := run (Restart j) w). set (c := condition t _ _ _). set (w2 := run (SetUpdateStatusCondition c) w1).
    assert (IsUpdateStatusConditionTrue w2 t = false) as H2.
    { subst w2. rewrite IsUpdateStatusConditionTrue_set by done. by rewrite bool_decide_eq_true_2 by done. }
    set (k := Some _). intros Ht. exfalso.
    destruct (RunScript_update false (UpdateState_string updateState) file k w2) as [[_ (c0 & Hc0 & _)]|Heq].
    + change (GetStatusCondition w2 (ij_statusCondition j)) with (GetStatusCondition w1 (ij_statusCondition j)) in Hc0.
      unfold w1, Restart in Hc0. by rewrite RemoveStatusCondition_gone in Hc0.
    + unfold IsUpdateStatusConditionTrue in Ht, H2. rewrite Heq in Ht. by rewrite H2 in Ht.
  - go_step. set (k := Some _). intros Ht. split; [by destruct (GetUpdateStatusCondition w t); [eauto|]|].
    destruct (RunScript_update false (UpdateState_string updateState) file k w) as [H|Heq]; [exact H|].
    exfalso. unfold IsUpdateStatusConditionTrue in Ht, Hf. rewrite Heq in Ht. by rewrite Hf in Ht.
Qed.

End update_scripts.

End init_job_facts.

(** ** Building config maps and running jobs is confined *)

Section confined.
Context {CC : ConfigCodec} {E : Type} {MC : MetaConditions} {ML : MetaConditionsLaws MC} {SC : StatusClient E}.
Context `{HKC : !KubeClient E ConfigMap} `{HKJ : !KubeClient E Job}.

Implicit Types (h : ConfigMapBuilder E) (j : InitJob (E:=E)).

Lemma confined_applyOverrides name d data l config : confined (applyOverrides (E:=E) name d data l config).
Proof. revert config. induction l as [|[n f] l IH]; intros config; cbn [applyOverrides]; go_confined. Qed.

Lemma confined_getConfig h d : confined (getConfig h d).
Proof. pose proof confined_applyOverrides. unfold getConfig. go_confined. Qed.

Lemma confined_setAnnotation h a v : confined (setAnnotation h a v).
Proof. apply confined_in_resource. Qed.

Lemma confined_buildLoop h l : confined (buildLoop h l).
Proof. pose proof confined_getConfig. induction l as [|d l IH]; cbn [buildLoop]; go_confined. Qed.

Lemma confined_Build h : confined (Build h).
Proof. pose proof confined_buildLoop. pose proof confined_setAnnotation. unfold Build, resource_Build. go_confined. Qed.

Lemma confined_needReload h : confined (needReload h).
Proof.
  pose proof confined_getConfig. unfold needReload. apply confined_bind; [|go_confined].
  generalize (cb_generators h). intros l. induction l as [|d l IH]; cbn [needReloadLoop]; go_confined.
Qed.

Lemma confined_cb_Sync h : confined (cb_Sync h).
Proof. pose proof confined_needReload. unfold cb_Sync. go_confined. Qed.

Lemma confined_cb_Fetch h : confined (cb_Fetch h).
Proof. unfold cb_Fetch. go_confined. Qed.

Lemma confined_in_jmem j f : confined (in_jmem j f).
Proof. apply confined_set_env. Qed.

Lemma confined_ij_Fetch j : confined (ij_Fetch j).
Proof.
  apply confined_resources_seq.
  apply Forall_cons. split; [apply confined_resource_Fetch|]. apply Forall_singleton. apply confined_cb_Fetch.
Qed.

Lemma confined_ij_Sync j dry : confined (ij_Sync j dry).
Proof.
  pose proof confined_Build. pose proof confined_cb_Sync. pose proof confined_setAnnotation. pose proof confined_in_jmem.
  unfold ij_Sync, start, ij_Build. go_confined.
Qed.

Lemma confined_RunScript j dry reason file complete :
  (∀ k s, complete = Some k → confined (k s)) → confined (RunScript j dry reason file complete).
Proof.
  intros Hk. pose proof confined_ij_Sync. pose proof confined_in_jmem. unfold RunScript. case_match; [go_confined|].
  apply confined_bind; [go_confined|]. intros _. apply confined_bind; [go_confined|]. intros [s [err|]]; [go_confined|].
  destruct complete as [k|]; [|go_confined]. specialize (Hk k s eq_refl). go_confined.
Qed.

Lemma confined_RunUpdateScript j dry state file complete :
  (∀ k, complete = Some k → confined k) → confined (RunUpdateScript j dry state file complete).
Proof.
  intros Hk. unfold RunUpdateScript. apply confined_bind; [go_confined|]. intros name. apply confined_bind; [go_confined|].
  intros c. case_match; [go_confined|]. apply confined_bind; [unfold Restart; go_confined|]. intros _.
  apply confined_RunScript. intros k s [= <-]. destruct dry; [go_confined|].
  apply confined_bind; [destruct complete; [by apply Hk|go_confined]|]. intros _. unfold LogUpdate. go_confined.
Qed.

End confined.

#[export] Hint Resolve confined_Build confined_cb_Sync confined_cb_Fetch confined_needReload confined_setAnnotation
  confined_ij_Fetch confined_ij_Sync : confined.

(** ** A job on a small Kubernetes *)

Section init_job_example.

(** One job and one config map. *)
Record JobKube := mkJobKube {
  jk_storedJob : option Job;
  jk_storedCm : option ConfigMap;
  jk_job : ManagedResource Job;
  jk_cm : ManagedResource ConfigMap;
  jk_overrides : ConfigMap;
  jk_mem : initJobMem;
}.

Definition jk_job_cell : lens JobKube (ManagedResource Job) :=
  mkLens jk_job (λ a e, mkJobKube (jk_storedJob e) (jk_storedCm e) a (jk_cm e) (jk_overrides e) (jk_mem e)).
Definition jk_cm_cell : lens JobKube (ManagedResource ConfigMap) :=
  mkLens jk_cm (λ a e, mkJobKube (jk_storedJob e) (jk_storedCm e) (jk_job e) a (jk_overrides e) (jk_mem e)).
Definition jk_ov_cell : lens JobKube ConfigMap :=
  mkLens jk_overrides (λ a e, mkJobKube (jk_storedJob e) (jk_storedCm e) (jk_job e) (jk_cm e) a (jk_mem e)).
Definition jk_mem_cell : lens JobKube initJobMem :=
  mkLens jk_mem (λ a e, mkJobKube (jk_storedJob e) (jk_storedCm e) (jk_job e) (jk_cm e) (jk_overrides e) a).

Definition jk_set_job (o : option Job) (e : JobKube) : JobKube :=
  mkJobKube o (jk_storedCm e) (jk_job e) (jk_cm e) (jk_overrides e) (jk_mem e).
Definition jk_set_cm (o : option ConfigMap) (e : JobKube) : JobKube :=
  mkJobKube (jk_storedJob e) o (jk_job e) (jk_cm e) (jk_overrides e) (jk_mem e).

#[export] Instance jk_jobs : KubeClient JobKube Job := {
  client_Get _ := λ e, (match jk_storedJob e with Some o => inr o | None => inl NotFound end, e);
  client_Create o := λ e, (None, o, jk_set_job (Some (SetResourceVersion "1" o)) e);
  client_Update o := λ e, (None, o, jk_set_job (Some o) e);
  client_Delete _ := λ e, (None, jk_set_job None e);
  SetControllerReference _ o := inr o;
}.

#[export] Instance jk_cms : KubeClient JobKube ConfigMap := {
  client_Get _ := λ e, (match jk_storedCm e with Some o => inr o | None => inl NotFound end, e);
  client_Create o := λ e, (None, o, jk_set_cm (Some (SetResourceVersion "1" o)) e);
  client_Update o := λ e, (None, o, jk_set_cm (Some o) e);
  client_Delete _ := λ e, (None, jk_set_cm None e);
  SetControllerReference _ o := inr o;
}.

#[export] Instance jk_status : StatusClient JobKube := { Status_Update _ e := (None, e); GetVersion := "1" }.

Definition example_init_job : InitJob (E:=JobKube) :=
  NewInitJob (example_labeller MasterType "") "default" "yt-master-init-job-default"
    "master-init-job-config" "image" "" None [TextConfigGenerator "update.sh" (inr ["true"])]
    jk_cm_cell jk_ov_cell jk_job_cell jk_mem_cell.

Definition example_job_world (env : JobKube) : World JobKube := mkWorld example_yts [] 200 ∅ env.

Definition example_job_env : JobKube :=
  mkJobKube None None (mkManagedResource "yt-master-init-job-default" JobZero JobZero)
    (newConfigMap "master-init-job-config") ConfigMapZero newInitJobMem.

(** The job controller lets a job that was started complete. *)
Definition controller : go (World JobKube) unit := modify (λ w,
  let e := w_env w in
  w_set_env (jk_set_job ((λ o, mkJob (job_meta o) (job_Spec o)
    (mkJobStatus [(JobComplete, ConditionTrue)] 0 0 (Some 10%Z) (Some 75%Z))) <$> jk_storedJob e) e) w).

(** A pass of the operator over the update step, then of the controller. *)
Definition example_pass : go (World JobKube) (ComponentStatus * option error) :=
  ij_Fetch example_init_job ;;
  r ← RunUpdateScript example_init_job false UpdateStateWaitingForMasterExitReadOnly "update.sh" None;
  controller ;;
  mret r.

Fixpoint example_passes (n : nat) (w : World JobKube) : World JobKube :=
  match n with O => w | S n => example_passes n (run example_pass w) end.

End init_job_example.

(** The world before the pass that finds the job complete. *)
Definition example_before_last : World JobKube :=
  run (ij_Fetch example_init_job) (example_passes 3 (example_job_world example_job_env)).

(** Four passes run the job of an update step from nothing to its completion. *)
Lemma example_job_completes :
  IsUpdateStatusConditionTrue (example_passes 4 (example_job_world example_job_env))
    (GetUpdateStateCompleteCondition UpdateStateWaitingForMasterExitReadOnly) = true.
Proof. vm_compute. reflexivity. Qed.

Lemma ij_Sync_no_overlap_witness :
  resource_Exists (ij_job example_init_job) example_before_last = true ∧
  (w_env (run (ij_Sync example_init_job false) example_before_last) = w_env example_before_last ∨
   (false = false ∧ resource_Exists (ij_job example_init_job) example_before_last = true ∧
    w_env (run (ij_Sync example_init_job false) example_before_last) =
      run (client_Delete (oldJob example_init_job example_before_last)) (w_env example_before_last)) ∨
   (false = false ∧ resource_Exists (ij_job example_init_job) example_before_last = false ∧
    cb_Exists (ij_configs example_init_job) example_before_last = true ∧
    w_env (run (ij_Sync example_init_job false) example_before_last) =
      run (client_Delete (OldObject (cb_configMap (ij_configs example_init_job)) example_before_last))
        (w_env example_before_last))).
Proof.
  split; [vm_compute; reflexivity|].
  apply (ij_Sync_no_overlap example_init_job false example_before_last). right. left. vm_compute. reflexivity.
Defined.

Lemma RunUpdateScript_fresh_witness :
  is_Some (GetUpdateStatusCondition example_before_last
    (GetUpdateStateCompleteCondition UpdateStateWaitingForMasterExitReadOnly)) ∧
  ij_Exists example_init_job example_before_last = true ∧
  checkpointed example_init_job example_before_last (UpdateState_string UpdateStateWaitingForMasterExitReadOnly).
Proof.
  apply (RunUpdateScript_fresh example_init_job ltac:(split; [done|by intros []]) ltac:(split; done)
    ltac:(split; done) UpdateStateWaitingForMasterExitReadOnly "update.sh" None example_before_last).
  - apply (bool_decide_unpack _). vm_compute. exact I.
  - vm_compute. reflexivity.
  - vm_compute. reflexivity.
Defined.
