(* ===== verification/Components.v ===== *)
(** * Components and the servers under them (src/pkg/components)

    The Go interfaces [podsManager], [server] and [Component] become records of
    operations over the world, so that the code that drives them (the update handlers,
    the component manager) is proved against the interface; [component] is the base
    structure every implementation embeds. *)

From S2P Require Import Prelude Kubernetes ApiTypes Labeller Status ApiProxy.

(** ** Pods *)

(** [corev1.PodConditionType]: the two the sources read. *)
Inductive PodConditionType : Type := PodScheduled | PodReady | PodConditionOther (s : string).

#[global] Instance PodConditionType_eq_dec : EqDecision PodConditionType.
Proof. solve_decision. Defined.

Record ContainerStatus := mkContainerStatus {
  ctr_Name : string;
  ctr_Started : option bool;
  ctr_Running : bool;  (* State.Running != nil *)
  ctr_Ready : bool;
}.

Record Pod := mkPod {
  pod_Name : string;
  pod_Labels : gmap string string;
  pod_DeletionTimestamp : option Z;
  pod_Containers : list string;  (* names of Spec.Containers *)
  pod_Conditions : list (PodConditionType * ConditionStatus);
  pod_ContainerStatuses : list ContainerStatus;
}.

(** ** Interfaces *)

Inductive StatefulSetUpdateStrategyType : Type :=
  | RollingUpdateStatefulSetStrategyType | OnDeleteStatefulSetStrategyType
  | StatefulSetStrategyOther (s : string).

#[global] Instance StatefulSetUpdateStrategyType_eq_dec : EqDecision StatefulSetUpdateStrategyType.
Proof. solve_decision. Defined.

Record stsRollingStatus := mkRollingStatus {
  roll_partition : Z;
  roll_availableReplicas : Z;
  roll_updatedReplicas : Z;
  roll_totalCount : Z;
  roll_updateRevision : string;
  roll_currentRevision : string;
}.

Record podsManager (W : Type) := mkPodsManager {
  getInstanceCount : W → Z;
  setInstanceCount : Z → go W unit;
  getMinReadyInstanceCount : W → Z → Z;
  getPodAnnotation : W → string → string;
  listPods : go W (list Pod * option error);
  pm_removePods : go W (option error);
  arePodsUpdatedToNewRevision : go W bool;
}.
Arguments getInstanceCount {W} _ _.
Arguments setInstanceCount {W} _ _ _.
Arguments getMinReadyInstanceCount {W} _ _ _.
Arguments getPodAnnotation {W} _ _ _.
Arguments listPods {W} _ _.
Arguments pm_removePods {W} _ _.
Arguments arePodsUpdatedToNewRevision {W} _ _.

Record server (W : Type) := mkServer {
  srv_pods : podsManager W;
  srv_Fetch : go W (option error);
  srv_Exists : W → bool;
  srv_Sync : go W (option error);
  setUpdateStrategy : StatefulSetUpdateStrategyType → Z → Z → go W unit;
  getRollingUpdateStatus : go W (option stsRollingStatus * option error);
  needUpdate : W → ComponentStatus;
  needSync : W → bool → bool;
}.
Arguments srv_pods {W} _.
Arguments srv_Fetch {W} _ _.
Arguments srv_Exists {W} _ _.
Arguments srv_Sync {W} _ _.
Arguments setUpdateStrategy {W} _ _ _ _ _.
Arguments getRollingUpdateStatus {W} _ _.
Arguments needUpdate {W} _ _.
Arguments needSync {W} _ _ _.

(** The base structure [component]: [cmp_id] stands for the pointer through which its
    [status] field is shared, [cmp_local] is [c.ytsaurus != nil]. *)
Record component := mkBase {
  cmp_id : nat;
  cmp_labeller : Labeller;
  cmp_local : bool;
}.

(** The interface [Component]. *)
Record ComponentI (W : Type) := mkComponentI {
  ci_base : component;
  ci_Fetch : go W (option error);
  ci_NeedUpdate : go W ComponentStatus;
  ci_Sync : bool → go W (ComponentStatus * option error);
  ci_UpdatePreCheck : go W ComponentStatus;
}.
Arguments ci_base {W} _.
Arguments ci_Fetch {W} _ _.
Arguments ci_NeedUpdate {W} _ _.
Arguments ci_Sync {W} _ _ _.
Arguments ci_UpdatePreCheck {W} _ _.

(** ** The base component (component.go) *)

Section component.
Context {E : Type} {MC : MetaConditions} {SC : StatusClient E}.

Abbreviation W := (World E).

Definition GetFullName (c : component) : string := GetFullComponentName (cmp_labeller c).
Definition GetShortName (c : component) : string := GetInstanceGroup (cmp_labeller c).
Definition GetType (c : component) : ComponentType := lab_ComponentType (cmp_labeller c).
Definition GetComponent (c : component) : Component := mkComponent (GetType c) (GetShortName c).

Definition GetStatus (w : W) (c : component) : ComponentStatus :=
  let status := default ComponentStatusZero (w_statuses w !! cmp_id c) in
  if cs_SyncStatus status == SyncStatusUndefined
  then mkComponentStatus (GetFullName c) SyncStatusUndefined "BUG: component status undefined"
  else status.

Definition SetStatus (c : component) (status : ComponentStatus) : go W unit :=
  modify (w_set_component_status (cmp_id c)
    (mkComponentStatus (GetFullName c) (cs_SyncStatus status) (cs_Message status))).

Definition component_GetReadyCondition (w : W) (c : component) : ComponentStatus :=
  match GetStatusCondition w (GetReadyCondition (cmp_labeller c)) with
  | None => mkComponentStatus (GetFullName c) SyncStatusUndefined "Status unknown"
  | Some cond =>
      match cond_Status cond with
      | ConditionUnknown => mkComponentStatus (GetFullName c) SyncStatusUndefined (cond_Message cond)
      | ConditionTrue => mkComponentStatus (GetFullName c) SyncStatusReady (cond_Message cond)
      | ConditionFalse =>
          mkComponentStatus (GetFullName c) (to_SyncStatus (cond_Reason cond)) (cond_Message cond)
      end
  end.

Definition SetReadyCondition (c : component) (status : ComponentStatus) : go W unit :=
  let ready := if cs_SyncStatus status == SyncStatusReady then ConditionTrue else ConditionFalse in
  SetStatusCondition (condition (GetReadyCondition (cmp_labeller c)) ready
    (SyncStatus_string (cs_SyncStatus status)) (cs_Message status)).

Definition IsUpdatingResources (w : W) (c : component) : bool :=
  if negb (cmp_local c) then true else
  IsUpdating w && IsUpdatingComponent w (GetType c) (GetShortName c) &&
  (GetUpdateState w == UpdateStateWaitingForPodsCreation).

(** [serverComponent.NeedSync]. *)
Definition NeedSync (w : W) (c : component) (s : server W) : bool := needSync s w (IsUpdatingResources w c).

(** [components.IsUpdatingComponent]. *)
Definition components_IsUpdatingComponent (w : W) (c : component) : bool :=
  IsUpdatingComponent w (GetType c) (GetShortName c).

End component.

(** ** Promises of the interfaces

    The operations of a server act on Kubernetes and on its own memory, never on the
    cluster resource; the operations of a component may add conditions to it but leave
    its core, the reported statuses and the uniqueness of condition types alone; a pre-check
    only looks. *)

Class PodsManagerFrame {E} (p : podsManager (World E)) : Prop := {
  setInstanceCount_frame : ∀ n, preserves w_yts (setInstanceCount p n);
  listPods_frame : preserves w_yts (listPods p);
  pm_removePods_frame : preserves w_yts (pm_removePods p);
  arePodsUpdated_frame : preserves w_yts (arePodsUpdatedToNewRevision p);
}.

Class ServerFrame {E} (s : server (World E)) : Prop := {
  srv_pods_frame :: PodsManagerFrame (srv_pods s);
  srv_Fetch_frame : preserves w_yts (srv_Fetch s);
  srv_Sync_frame : preserves w_yts (srv_Sync s);
  setUpdateStrategy_frame : ∀ t p m, preserves w_yts (setUpdateStrategy s t p m);
  getRollingUpdateStatus_frame : preserves w_yts (getRollingUpdateStatus s);
}.

Class ComponentFrame {E} {MC : MetaConditions} (c : ComponentI (World E)) : Prop := {
  ci_Fetch_frame : preserves w_core (ci_Fetch c);
  ci_NeedUpdate_frame : preserves w_core (ci_NeedUpdate c);
  ci_Sync_frame : ∀ dry, preserves w_core (ci_Sync c dry);
  ci_UpdatePreCheck_frame : preserves w_yts (ci_UpdatePreCheck c);
  ci_Fetch_statuses : preserves w_statuses (ci_Fetch c);
  ci_NeedUpdate_statuses : preserves w_statuses (ci_NeedUpdate c);
  ci_Sync_statuses : ∀ dry, preserves w_statuses (ci_Sync c dry);
  ci_Fetch_unique : keeps conditions_ok (ci_Fetch c);
  ci_NeedUpdate_unique : keeps conditions_ok (ci_NeedUpdate c);
  ci_Sync_unique : ∀ dry, keeps conditions_ok (ci_Sync c dry);
}.

#[export] Hint Resolve setInstanceCount_frame listPods_frame pm_removePods_frame arePodsUpdated_frame srv_Fetch_frame
  srv_Sync_frame setUpdateStrategy_frame getRollingUpdateStatus_frame ci_Fetch_frame
  ci_NeedUpdate_frame ci_Sync_frame ci_UpdatePreCheck_frame ci_Fetch_statuses
  ci_NeedUpdate_statuses ci_Sync_statuses : go_preserves.
#[export] Hint Resolve ci_Fetch_unique ci_NeedUpdate_unique ci_Sync_unique : go_keeps.

#[export] Hint Resolve setInstanceCount_frame listPods_frame pm_removePods_frame
  arePodsUpdated_frame srv_Fetch_frame srv_Sync_frame setUpdateStrategy_frame
  getRollingUpdateStatus_frame ci_UpdatePreCheck_frame : go_keeps.

Section component_facts.
Context {E : Type} {MC : MetaConditions} {ML : MetaConditionsLaws MC} {SC : StatusClient E}.

Abbreviation W := (World E).

Lemma SetStatus_yts c s : preserves w_yts (SetStatus (E:=E) c s).
Proof. done. Qed.

Lemma SetReadyCondition_core c s : preserves w_core (SetReadyCondition (E:=E) c s).
Proof. apply SetStatusCondition_core. Qed.

(** A component status survives the status object: the status stored with
    [SetReadyCondition] reads back from the Ready condition of the component with the same
    sync status and message, under the full name of the component. *)
Theorem ReadyCondition_roundtrip c status (w : W) :
  unique_types (w_conditions w) →
  match cs_SyncStatus status with SyncStatusOther _ => False | _ => True end →
  component_GetReadyCondition (run (SetReadyCondition c status) w) c =
    mkComponentStatus (GetFullName c) (cs_SyncStatus status) (cs_Message status).
Proof.
  intros Hu Hs. unfold component_GetReadyCondition, SetReadyCondition.
  set (cond := condition _ _ _ _).
  destruct (SetStatusCondition_find cond w Hu) as [(c' & Hc & Hcc) _].
  change (cond_Type cond) with (GetReadyCondition (cmp_labeller c)) in Hc. rewrite Hc.
  unfold cond_content in Hcc. injection Hcc as _ Hst _ Hr Hm. rewrite Hst, Hr, Hm.
  destruct (bool_decide_reflect (cs_SyncStatus status = SyncStatusReady)) as [->|_]; [done|].
  by rewrite to_SyncStatus_string.
Qed.

(** A status that was set is the one the component reports, unless it is undefined. *)
Lemma SetStatus_GetStatus c status (w : W) :
  cs_SyncStatus status ≠ SyncStatusUndefined →
  GetStatus (run (SetStatus c status) w) c =
    mkComponentStatus (GetFullName c) (cs_SyncStatus status) (cs_Message status).
Proof.
  intros Hs. unfold GetStatus, run, SetStatus. cbn. rewrite lookup_insert_eq. cbn.
  by rewrite (bool_decide_eq_false_2 _ Hs).
Qed.

End component_facts.

#[export] Hint Resolve SetStatus_yts SetReadyCondition_core : go_preserves.

Definition example_component (id : nat) (t : ComponentType) (group : string) : component :=
  mkBase id (example_labeller t group) true.

Lemma ReadyCondition_roundtrip_witness :
  component_GetReadyCondition (run (SetReadyCondition (example_component 0 DataNodeType "ssd")
    (ComponentStatusBlocked "no pods")) example_world) (example_component 0 DataNodeType "ssd") =
  mkComponentStatus "DataNode-ssd" SyncStatusBlocked "no pods".
Proof.
  apply (ReadyCondition_roundtrip (example_component 0 DataNodeType "ssd")
    (ComponentStatusBlocked "no pods") example_world); [apply example_world_unique|exact I].
Defined.
