(* ===== verification/YtsaurusClient.v ===== *)
(** * The YTsaurus client component (src/pkg/components/ytsaurus_client.go,
    src/pkg/resources/string_secret.go)

    The component that talks to the running cluster: it creates its user and token, checks
    the health of the cluster, applies the Cypress patches of all components and carries out
    the steps of an update that are requests to the cluster.  The client and the YSON codec
    of patches are parameters; the other components are seen through their labellers, their
    patches and the status of the HTTP proxy. *)

From S2P Require Import Prelude Kubernetes ApiTypes Labeller Status Ordered Ypatch Checks CypressActions ApiProxy Resources ConfigMaps InitJob Components.

(** ** String secrets (string_secret.go) *)

Record Secret := mkSecret {
  sec_meta : ObjectMeta;
  sec_Type : string;
  sec_Data : gmap string string;
  sec_StringData : gmap string string;
}.

Definition SecretZero : Secret := mkSecret ObjectMetaZero "" ∅ ∅.

#[global] Instance Secret_object : KubeObject Secret := {
  obj_meta := sec_meta;
  obj_set_meta m o := mkSecret m (sec_Type o) (sec_Data o) (sec_StringData o);
  obj_type := "*v1.Secret";
}.

Definition TokenSecretKey := "YT_TOKEN".
Definition DescriptionAnnotationName := "kubernetes.io/description".
Definition CypressPatchFileName := "cypress-patch.yson".
Definition PendingCypressPatchFileName := "pending-cypress-patch.yson".
Definition PreviousCypressPatchFileName := "previous-cypress-patch.yson".
Definition YtsaurusOperatorUserName := "robot-ytsaurus-k8s-operator".

(** The value of a key of a secret that was fetched. *)
Definition GetValue (s : Secret) (key : string) : option string :=
  match sec_Data s !! key with
  | Some value => Some value
  | None => sec_StringData s !! key
  end.

Section string_secret.
Context {E : Type} `{HKS : !KubeClient E Secret}.

Definition secret_NeedSync (cell : lens E (ManagedResource Secret)) (w : World E) (key value : string) : bool :=
  if negb (resource_Exists cell w) then true else
  match GetValue (OldObject cell w) key with
  | None => true
  | Some v => if value == "" then false else value != v
  end.

Definition secret_Build (l : Labeller) (cell : lens E (ManagedResource Secret)) : go (World E) unit :=
  in_resource cell (λ r, res_set_new
    (mkSecret (mkObjectMeta (res_name r) "" (lab_Annotations l) []) "Opaque"
       (sec_Data (res_newObject r)) (sec_StringData (res_newObject r))) r).

End string_secret.

(** ** The component *)

(** What the client sees of a group of masters. *)
Record MasterCell (W : Type) := mkMasterCell {
  mc_path : string;
  mc_labeller : Labeller;
  mc_pods : podsManager W;
}.
Arguments mc_path {W} _.
Arguments mc_labeller {W} _.
Arguments mc_pods {W} _.

(** What it sees of a component when it collects the patches; no patch is nil. *)
Record CypressComponent (W : Type) := mkCypressComponent {
  cyc_base : component;
  cyc_GetCypressPatch : W → option PatchSet;
}.
Arguments cyc_base {W} _.
Arguments cyc_GetCypressPatch {W} _ _.

(** YSON of patch sets. *)
Class PatchCodec := {
  patch_Unmarshal : string → error + PatchSet;
  patch_Marshal : option PatchSet → error + string;
}.

(** What the client component takes from its surroundings: a token generator, the
    construction of the cluster client, hashing and the position of a call. *)
Class ClientDeps (E : Type) := {
  GenerateToken : go E string;
  NewClient : go E (option error);
  sha256 : string → string;
  caller : Z → string;
}.

Record YtsaurusClient (E : Type) := mkYtsaurusClient {
  yc_base : component;
  yc_masters : list (MasterCell (World E));
  yc_httpProxy : component;
  yc_getAllComponents : list (CypressComponent (World E));
  yc_configOverrides : option (lens E (ManagedResource ConfigMap));
  yc_cypressPatch : lens E (ManagedResource ConfigMap);
  yc_initUserJob : InitJob (E:=E);
  yc_secret : lens E (ManagedResource Secret);
  yc_hasClient : lens E bool;
}.
Arguments mkYtsaurusClient {E} _ _ _ _ _ _ _ _ _.
Arguments yc_base {E} _.
Arguments yc_masters {E} _.
Arguments yc_httpProxy {E} _.
Arguments yc_getAllComponents {E} _.
Arguments yc_configOverrides {E} _.
Arguments yc_cypressPatch {E} _.
Arguments yc_initUserJob {E} _.
Arguments yc_secret {E} _.
Arguments yc_hasClient {E} _.

(** The message of an error of the cluster's client. *)
Definition err_of (e : option yterror) : option error := yt_message <$> e.

(** [errors.Join]: nil errors are dropped, the messages are joined by line feeds. *)
Definition errors_Join (errs : list (option error)) : option error :=
  match omap id errs with
  | [] => None
  | l => Some (strings_Join l newline)
  end.

(** The fields of the update status the client fills in. *)
Definition us_set_saved (bundles : list TabletCellBundleInfo) (b : option BundleControllerInfo)
    (u : UpdateStatus) : UpdateStatus :=
  mkUpdateStatus (us_State u) (us_UpdatingComponents u) (us_UpdatingComponentsSummary u)
    (us_BlockedComponentsSummary u) (us_Conditions u) (us_MasterCellsMaintenance u) bundles b.

Section client.
Context {E : Type} {MC : MetaConditions} {SC : StatusClient E} {CF : ConfigCodec}.
Context {CC : CypressClient E} {Y : Ypath} {G : GoCmp} {PC : PatchCodec} {CD : ClientDeps E}.
Context `{HKC : !KubeClient E ConfigMap} `{HKJ : !KubeClient E Job} `{HKS : !KubeClient E Secret}.
Context {DB : YsonDecode bool} {DZ : YsonDecode Z} {DL : YsonDecode (list string)}.
Context {DT : YsonDecode (list TabletCellBundleInfo)} {DTH : YsonDecode (list TabletCellBundleHealth)}.
Context {DN : YsonDecode (list DataNodeMeta)}.
Context {DM : YsonDecode (list MasterAddressWithAttributes)} {DH : YsonDecode MasterHydra}.

Abbreviation W := (World E).

Context (yc : YtsaurusClient E).

Definition yc_Fetch (httpProxyFetch : go W (option error)) : go W (option error) :=
  resources_Fetch [ Some (resource_Fetch (yc_secret yc)); Some (ij_Fetch (yc_initUserJob yc));
    Some httpProxyFetch; resource_Fetch <$> yc_configOverrides yc; Some (resource_Fetch (yc_cypressPatch yc)) ].

Definition createInitUserScript (w : W) : string :=
  let token := default "" (GetValue (OldObject (yc_secret yc) w) TokenSecretKey) in
  initJobWithNativeDriverPrologue +:+ newline +:+
  strings_Join (createUserCommand sha256 YtsaurusOperatorUserName "" token true) newline.

Definition ShouldSkipCypressOperations (w : W) : bool :=
  let spec := yts_Spec (w_yts w) in
  cs_EphemeralCluster (spec_CommonSpec spec) &&
  (Deref (is_MinReadyInstanceCount (ms_InstanceSpec (spec_PrimaryMasters spec))) 1%Z == 0%Z).

(** *** Health checks *)

Definition ReportCondition (conditionType : string) (ok : bool) (msg : string) (err : option error)
    : go W (option error) :=
  current ← gets (λ w, IsStatusConditionTrue w conditionType);
  (if current != ok then RecordNormal conditionType msg else mret tt) ;;
  SetStatusCondition (MakeCondition conditionType ok msg err) ;;
  mret err.

Definition quorumCondition (cell : MasterCell W) : string := GetCondition (mc_labeller cell) ConditionQuorumCheck.

(** The loop over the cells: the errors it collects. *)
Fixpoint quorumChecks (cells : list (MasterCell W)) : go W (list (option error)) :=
  match cells with
  | [] => mret []
  | cell :: cells =>
      total ← gets (getInstanceCount (mc_pods cell));
      required ← gets (λ w, getMinReadyInstanceCount (mc_pods cell) w 0);
      '(ok, msg, err) ← in_env (MasterQuorumHealth (mc_path cell) total required);
      err ← ReportCondition (quorumCondition cell) ok msg err;
      errs ← quorumChecks cells;
      mret (err :: errs)
  end.

Definition UpdateMasterQuorumCheck : go W (option error) :=
  errs ← quorumChecks (yc_masters yc);
  getter ← gets GetStatusCondition;
  SetStatusCondition (MergeConditions (condition ConditionMastersQuorumCheck ConditionTrue "Update" "")
    getter (quorumCondition <$> yc_masters yc)) ;;
  mret (errors_Join errs).

Definition UpdateCounterHealthCheck (counterPath conditionType : string) : go W (option error) :=
  result ← in_env (GetNode counterPath);
  let '(value, err) := match result with inl err => (0%Z, Some (yt_message err)) | inr value => (value, None) end in
  ReportCondition conditionType (value == 0%Z) (counterPath +:+ " = " +:+ fmt_d value) err.

Definition UpdateTabletCellBundlesHealthCheck : go W (option error) :=
  result ← in_env GetNotGoodTabletCellBundles;
  let '(notGoodBundles, err) := match result with inl err => ([], Some (yt_message err)) | inr l => (l, None) end in
  let msg :=
    match notGoodBundles with
    | [] => ""
    | _ => "Tablet cell bundles (" +:+ fmt_strings notGoodBundles +:+ ") aren't in 'good' health"
    end in
  ReportCondition ConditionTabletCellBundlesHealthCheck (msg == "") msg err.

Definition healthChecks : list string :=
  [ConditionMastersQuorumCheck; ConditionLostVitalChunksCheck; ConditionQuorumMissingChunksCheck;
   ConditionTabletCellBundlesHealthCheck].

Definition UpdateClusterHealthChecks : go W (option error) :=
  skip ← gets ShouldSkipCypressOperations;
  if negb skip then
    e1 ← UpdateMasterQuorumCheck;
    e2 ← UpdateCounterHealthCheck LostVitalChunksCountPath ConditionLostVitalChunksCheck;
    e3 ← UpdateCounterHealthCheck QuorumMissingChunksCountPath ConditionQuorumMissingChunksCheck;
    e4 ← UpdateTabletCellBundlesHealthCheck;
    getter ← gets GetStatusCondition;
    SetStatusCondition (MergeConditions (condition ConditionUpdateIsPossible ConditionTrue "HealthChecks" "")
      getter healthChecks) ;;
    mret (errors_Join [e1; e2; e3; e4])
  else
    SetStatusCondition (condition ConditionUpdateIsPossible ConditionTrue "HealthChecks" "Cypress operations skipped") ;;
    mret None.

(** *** Cypress patches *)

Definition yc_GetCypressPatch : PatchSet :=
  {[ "<>//sys/clusters" :=
       [Copy ("/" +:+ lab_ClusterName (cmp_labeller (yc_base yc))) "//sys/@cluster_connection"] ]}.

(** The overrides, when their config map is there. *)
Definition overrides_of (w : W) : option ConfigMap :=
  cell ← yc_configOverrides yc;
  if resource_Exists cell w then Some (OldObject cell w) else None.

(** The name of a patch file; the label of a component of the cluster exists. *)
Definition patchFile (l : Labeller) (name : string) : string := default "" (GetCypressPatchFileName l name).

(** The variables of [BuildCypressPatch]. *)
Record patchBuild := mkPatchBuild {
  pb_Data : gmap string string;
  pb_current : PatchSet;
  pb_pending : PatchSet;
  pb_description : string;
}.

Definition pb_set (name data : string) (b : patchBuild) : patchBuild :=
  mkPatchBuild (<[name := data]> (pb_Data b)) (pb_current b) (pb_pending b) (pb_description b).
Definition pb_add_current (p : PatchSet) (b : patchBuild) : patchBuild :=
  mkPatchBuild (pb_Data b) (AddPatchSet p (pb_current b)) (pb_pending b) (pb_description b).

Definition data_of (data : gmap string string) (name : string) : string := default "" (data !! name).

(** The patch of a component with its override. *)
Definition overriddenPatch (overrides : option ConfigMap) (patchFileName : string) (patch : option PatchSet)
    : error + option PatchSet :=
  match overrides ≫= λ o, cm_Data o !! patchFileName with
  | None => inr patch
  | Some data =>
      match patch_Unmarshal data with
      | inl err => inl ("cannot parse cypress patch override " +:+ patchFileName +:+ ": " +:+ err)
      | inr override =>
          inr (Some (match patch with None => override | Some patch => AddPatchSet override patch end))
      end
  end.

(** The body of the loop over the components; [old] is the stored data, [fresh] whether the
    component's patch is to be applied as it is now. *)
Definition build_component (overrides : option ConfigMap) (old : gmap string string) (fresh : bool)
    (l : Labeller) (componentPatch : option PatchSet) (b : patchBuild) : error + patchBuild :=
  let patchFileName := patchFile l CypressPatchFileName in
  let pendingFileName := patchFile l PendingCypressPatchFileName in
  let previousFileName := patchFile l PreviousCypressPatchFileName in
  error_bind (overriddenPatch overrides patchFileName componentPatch) (λ componentPatch,
  match patch_Marshal componentPatch with
  | inl err => inl ("cannot format component cypress patch " +:+ patchFileName +:+ ": " +:+ err)
  | inr componentPatchData =>
      let patch := default ∅ componentPatch in
      if fresh then
        let b := pb_add_current patch (pb_set patchFileName componentPatchData b) in
        let previousData := data_of old patchFileName in
        let previousData := if componentPatchData == previousData then data_of old previousFileName else previousData in
        inr (if previousData != "" then pb_set previousFileName previousData b else b)
      else
        error_bind
          (match old !! patchFileName with
           | Some data =>
               match patch_Unmarshal data with
               | inl err => inl ("cannot parse current cypress patch " +:+ patchFileName +:+ ": " +:+ err)
               | inr savedPatch => inr (pb_set patchFileName data (pb_add_current savedPatch b))
               end
           | None => inr b
           end) (λ b,
        let savedPatchData := data_of old patchFileName in
        let b :=
          if componentPatchData != savedPatchData then
            mkPatchBuild (<[pendingFileName := componentPatchData]> (pb_Data b)) (pb_current b)
              (AddPatchSet patch (pb_pending b))
              (pb_description b +:+ "pending: " +:+ default "" (GetFullComponentLabel l) +:+ newline)
          else b in
        inr (match old !! previousFileName with
             | Some data => pb_set previousFileName data b
             | None => b
             end))
  end).

Fixpoint build_components (w : W) (overrides : option ConfigMap) (old : gmap string string) (patchExists : bool)
    (components : list (CypressComponent W)) (b : patchBuild) : error + patchBuild :=
  match components with
  | [] => inr b
  | c :: components =>
      let fresh := negb patchExists || components_IsUpdatingComponent w (cyc_base c)
                   || (GetClusterState w == ClusterStateInitializing) in
      error_bind (build_component overrides old fresh (cmp_labeller (cyc_base c)) (cyc_GetCypressPatch c w) b)
        (build_components w overrides old patchExists components)
  end.

(** The part after the loop. *)
Definition build_global (overrides : option ConfigMap) (old : gmap string string) (b : patchBuild)
    : error + patchBuild :=
  error_bind
    (match overrides ≫= λ o, cm_Data o !! CypressPatchFileName with
     | Some data =>
         match patch_Unmarshal data with
         | inl err => inl ("cannot parse cypress patch override " +:+ CypressPatchFileName +:+ ": " +:+ err)
         | inr patch => inr (pb_add_current patch b)
         end
     | None => inr b
     end) (λ b,
  match patch_Marshal (Some (pb_current b)) with
  | inl err => inl ("cannot format current cypress patch " +:+ CypressPatchFileName +:+ ": " +:+ err)
  | inr currentPatchData =>
      let b := pb_set CypressPatchFileName currentPatchData b in
      error_bind
        (if bool_decide (pb_pending b = ∅) then inr b else
         match patch_Marshal (Some (pb_pending b)) with
         | inl err => inl ("cannot format pending cypress patch " +:+ PendingCypressPatchFileName +:+ ": " +:+ err)
         | inr pendingPatchData => inr (pb_set PendingCypressPatchFileName pendingPatchData b)
         end) (λ b,
      let previousPatchData := data_of old CypressPatchFileName in
      let previousPatchData :=
        if currentPatchData == previousPatchData then data_of old PreviousCypressPatchFileName else previousPatchData in
      inr (if previousPatchData != "" then pb_set PreviousCypressPatchFileName previousPatchData b else b))
  end).

(** The config map and the patch to apply.  After an error the object under construction is
    dropped: the next call starts it over. *)
Definition BuildCypressPatch (w : W) : error + (ConfigMap * PatchSet) :=
  let r := resource (yc_cypressPatch yc) w in
  let overrides := overrides_of w in
  let old := cm_Data (OldObject (yc_cypressPatch yc) w) in
  let exists_ := resource_Exists (yc_cypressPatch yc) w in
  let meta := mkObjectMeta (res_name r) "" (lab_Annotations (cmp_labeller (yc_base yc))) [] in
  let '(cp, description) :=
    match overrides with
    | Some o =>
        let version := GetResourceVersion o in
        (SetMetaDataAnnotation ConfigOverridesVersionAnnotationName version (mkConfigMap meta ∅),
         "overrides-version: " +:+ version +:+ newline)
    | None => (mkConfigMap meta ∅, "")
    end in
  error_bind (build_components w overrides old exists_ (yc_getAllComponents yc)
    (mkPatchBuild ∅ ∅ ∅ description)) (λ b,
  error_bind (build_global overrides old b) (λ b,
  inr (SetMetaDataAnnotation DescriptionAnnotationName (pb_description b) (mkConfigMap (cm_meta cp) (pb_Data b)),
       pb_current b))).

Definition SyncCypressPatch : go W (option error) :=
  build ← gets BuildCypressPatch;
  now ← gets w_now;
  let applied_condition status reason message :=
    mkCondition ConditionCypressPatchApplied status 0 now reason message in
  match build with
  | inl err =>
      RecordWarning "CypressPatch" ("Failed to build cypress patch: " +:+ err) ;;
      SetStatusCondition (applied_condition ConditionFalse "PatchBuildFailed" ("Error: " +:+ err)) ;;
      mret None
  | inr (cp, patch) =>
      in_resource (yc_cypressPatch yc) (res_set_new cp) ;;
      err ← resource_Sync (yc_cypressPatch yc);
      match err with
      | Some err => mret (Some err)
      | None =>
          skip ← gets ShouldSkipCypressOperations;
          if skip : bool then
            RecordNormal "CypressPatch" "Skip patch apply in test" ;; mret None
          else
            err ← in_env (ApplyPatchSet false "" patch);
            match err with
            | None =>
                RecordNormal "CypressPatch" "patch applied" ;;
                SetStatusCondition (applied_condition ConditionTrue "PatchApplied"
                  ("Description: " +:+ default "" (obj_GetAnnotations cp !! DescriptionAnnotationName))) ;;
                mret None
            | Some err =>
                RecordWarning "CypressPatch" ("Failed to apply cypress patch: " +:+ yt_message err) ;;
                SetStatusCondition (applied_condition ConditionFalse "PatchApplyFailed" ("Error: " +:+ yt_message err)) ;;
                mret None
            end
      end
  end.

Definition NeedSyncCypressPatch (w : W) : ComponentStatus :=
  let name := res_name (resource (yc_cypressPatch yc) w) in
  if negb (resource_Exists (yc_cypressPatch yc) w) then ComponentStatusPending ("Need to create " +:+ name) else
  let outdated :=
    match overrides_of w with
    | Some o => GetResourceVersion o !=
        default "" (obj_GetAnnotations (OldObject (yc_cypressPatch yc) w) !! ConfigOverridesVersionAnnotationName)
    | None => false
    end in
  if outdated then ComponentStatusPending ("Need to update overrides in " +:+ name)
  else if negb (IsStatusConditionTrue w ConditionCypressPatchApplied) then
    if ShouldSkipCypressOperations w then ComponentStatusReadyAfter "Cypress patch applying is skipped"
    else ComponentStatusPending "Need to apply cypress patch"
  else ComponentStatusReadyAfter "Cypress patch is up to date and applied".

(** *** Steps of an update *)

Definition simple_updating (line : Z) : ComponentStatus := SimpleStatus SyncStatusUpdating (caller (E:=E) line).

Definition complete_step (conditionType message : string) (line : Z) : go W (ComponentStatus * option error) :=
  SetUpdateStatusCondition (condition conditionType ConditionTrue "Update" message) ;;
  mret (simple_updating line, None).

(** Run a request; on success complete the step. *)
Definition request_step (action : go E (option yterror)) (errLine : Z) (conditionType message : string) (line : Z)
    : go W (ComponentStatus * option error) :=
  err ← in_env action;
  match err with
  | Some err => mret (simple_updating errLine, Some (yt_message err))
  | None => complete_step conditionType message line
  end.

Definition handleUpdatingState (dry : bool) : go W (ComponentStatus * option error) :=
  state ← gets GetUpdateState;
  if dry then
    mret (match state with
          | UpdateStatePossibilityCheck
          | UpdateStateWaitingForSafeModeEnabled | UpdateStateWaitingForSafeModeDisabled
          | UpdateStateWaitingForTabletCellsSaving | UpdateStateWaitingForTabletCellsRecovery
          | UpdateStateWaitingForTabletCellsRemovingStart | UpdateStateWaitingForTabletCellsRemoved
          | UpdateStateWaitingForImaginaryChunksAbsence
          | UpdateStateWaitingForCypressPatch => (ComponentStatusUpdating "Ytsaurus client actions", None)
          | _ => (ComponentStatusReady, None)
          end)
  else
  w ← gets id;
  let done t := IsUpdateStatusConditionTrue w t in
  let fallthrough := mret (simple_updating 339, None) in
  match state with
  | UpdateStatePossibilityCheck =>
      err ← UpdateClusterHealthChecks; mret (simple_updating 159, err)
  | UpdateStateWaitingForSafeModeEnabled =>
      if done ConditionSafeModeEnabled then fallthrough else
      request_step EnableSafeMode 165 ConditionSafeModeEnabled "Safe mode was enabled" 175
  | UpdateStateWaitingForTabletCellsSaving =>
      if done ConditionTabletCellsSaved then fallthrough else
      bundleControllerDisabled ← in_env IsBundleControllerDisabled;
      match bundleControllerDisabled with
      | inl err => mret (simple_updating 182, Some (yt_message err))
      | inr bundleControllerDisabled =>
          tabletCellBundles ← in_env GetTabletCells;
          match tabletCellBundles with
          | inl err => mret (simple_updating 187, Some (yt_message err))
          | inr tabletCellBundles =>
              modify (w_set_update_status
                (us_set_saved tabletCellBundles (Some (mkBundleControllerInfo bundleControllerDisabled)))) ;;
              complete_step ConditionTabletCellsSaved "Tablet cells were saved" 201
          end
      end
  | UpdateStateWaitingForTabletCellsRemovingStart =>
      if done ConditionTabletCellsRemovingStarted then fallthrough else
      err ← in_env (SetBundleControllerDisabled (Some true));
      match err with
      | Some err => mret (simple_updating 208, Some (yt_message err))
      | None =>
          request_step RemoveTabletCells 213 ConditionTabletCellsRemovingStarted
            "Tablet cells removing was started" 222
      end
  | UpdateStateWaitingForTabletCellsRemoved =>
      if done ConditionTabletCellsRemoved then fallthrough else
      '(count, err) ← in_env AreTabletCellsRemoved;
      match err with
      | Some err => mret (simple_updating 228, Some (yt_message err))
      | None =>
          if count != 0%Z then
            mret (ComponentStatusUpdating ("Waiting for decommission of " +:+ fmt_d count +:+ " tablet cells"), None)
          else complete_step ConditionTabletCellsRemoved "Tablet cells were removed" 238
      end
  | UpdateStateWaitingForImaginaryChunksAbsence =>
      if negb (done ConditionRealChunksAttributeEnabled) then
        request_step ensureRealChunkLocationsEnabled 244 ConditionRealChunksAttributeEnabled
          "Real chunk locations attribute is set to true" 252
      else if negb (done ConditionDataNodesWithImaginaryChunksAbsent) then
        '(haveImaginaryChunks, err) ← in_env areActiveDataNodesWithImaginaryChunksExist;
        if negb haveImaginaryChunks then
          SetUpdateStatusCondition (condition ConditionDataNodesWithImaginaryChunksAbsent ConditionTrue "Update"
            "No active data nodes with imaginary chunks found") ;;
          mret (simple_updating 266, err_of err)
        else
          (if negb (done ConditionDataNodesNeedPodsRemoval) then
             SetUpdateStatusCondition (condition ConditionDataNodesNeedPodsRemoval ConditionTrue "Update"
               "Some data nodes have imaginary chunks and need to be restarted")
           else mret tt) ;;
          mret (simple_updating 280, None)
      else fallthrough
  | UpdateStateWaitingForTabletCellsRecovery =>
      if done ConditionTabletCellsRecovered then fallthrough else
      err ← (if done ConditionTabletCellsSaved
             then in_env (RecoverTableCells (us_TabletCellBundles (w_update_status w)))
             else mret None);
      match err with
      | Some err => mret (simple_updating 288, Some (yt_message err))
      | None =>
          err ← match us_BundleController (w_update_status w) with
                | Some b => in_env (SetBundleControllerDisabled (bci_Disabled b))
                | None => mret None
                end;
          match err with
          | Some err => mret (simple_updating 295, Some (yt_message err))
          | None => complete_step ConditionTabletCellsRecovered "Tablet cells recovered" 305
          end
      end
  | UpdateStateWaitingForSafeModeDisabled =>
      if done ConditionSafeModeDisabled then fallthrough else
      request_step DisableSafeMode 312 ConditionSafeModeDisabled "Safe mode disabled" 321
  | UpdateStateWaitingForCypressPatch =>
      if done ConditionCypressPatchApplied then fallthrough else
      err ← SyncCypressPatch;
      match err with
      | Some err => mret (simple_updating 327, Some err)
      | None => complete_step ConditionCypressPatchApplied "Cypress patches applied" 335
      end
  | _ => fallthrough
  end.

(** *** The pass *)

Definition yc_NeedSync : bool := false.
Definition yc_NeedUpdate : ComponentStatus := ComponentStatusReady.

Definition yc_Sync (dry : bool) : go W (ComponentStatus * option error) :=
  hpStatus ← gets (λ w, GetStatus w (yc_httpProxy yc));
  if negb (IsRunning hpStatus) then mret (Blocker hpStatus, None) else
  shutdown ← gets (λ w, cmt_Shutdown (GetClusterMaintenance w));
  match shutdown with
  | ClusterShutdownEverything | ClusterShutdownExceptMasters =>
      mret (ComponentStatusReadyAfter "HTTP proxy is shutdown", None)
  | _ =>
  needSecret ← gets (λ w, secret_NeedSync (yc_secret yc) w TokenSecretKey "");
  if needSecret : bool then
    name ← gets (λ w, res_name (resource (yc_secret yc) w));
    err ← (if dry then mret None else
             secret_Build (cmp_labeller (yc_base yc)) (yc_secret yc) ;;
             token ← in_env GenerateToken;
             in_resource (yc_secret yc) (λ r, res_set_new
               (mkSecret (sec_meta (res_newObject r)) (sec_Type (res_newObject r)) (sec_Data (res_newObject r))
                  {[ TokenSecretKey := token ]}) r) ;;
             resource_Sync (yc_secret yc));
    mret (ComponentStatusWaitingFor name, err)
  else
  '(status, err) ← ij_Sync (yc_initUserJob yc) dry;
  if negb (bool_decide (err = None)) || negb (IsReady status) then mret (status, err) else
  hasClient ← gets (λ w, lget (yc_hasClient yc) (w_env w));
  err ← (if hasClient : bool then mret None else
           err ← in_env NewClient;
           modify (λ w, w_set_env (lset (yc_hasClient yc) (bool_decide (err = None)) (w_env w)) w) ;;
           mret err);
  match err with
  | Some err => mret (ComponentStatusWaitingFor "ytClient init", Some err)
  | None =>
      updating ← gets IsUpdating;
      if updating : bool then handleUpdatingState dry else
      status ← gets NeedSyncCypressPatch;
      if negb (IsReady status) then
        err ← (if dry then mret None else SyncCypressPatch);
        mret (match err with Some err => (ComponentStatusPending "error", Some err) | None => (status, None) end)
      else
      possible ← gets (λ w, IsStatusConditionTrueAndObservedGeneration w ConditionUpdateIsPossible);
      if (possible : bool) then mret (ComponentStatusReady, None)
      else if dry then mret (ComponentStatusPending "Cluster health checks", None)
      else UpdateClusterHealthChecks ;; mret (ComponentStatusReady, None)
  end
  end.

End client.

(** ** Health *)

(** The status of a condition, as the health checks look at it. *)
Definition cond_status {E} {MC : MetaConditions} (w : World E) (t : string) : option ConditionStatus :=
  cond_Status <$> GetStatusCondition w t.

Section health.
Context {E : Type} {MC : MetaConditions} {ML : MetaConditionsLaws MC} {SC : StatusClient E}.
Context {CC : CypressClient E} {CR : CypressReads E} {Y : Ypath}.
Context {DZ : YsonDecode Z} {DTH : YsonDecode (list TabletCellBundleHealth)}.
Context {DM : YsonDecode (list MasterAddressWithAttributes)} {DH : YsonDecode MasterHydra}.

Abbreviation W := (World E).
Implicit Types (w : W).

Lemma cond_status_set c w t :
  status_unique w →
  cond_status (run (SetStatusCondition c) w) t = if t == cond_Type c then Some (cond_Status c) else cond_status w t.
Proof.
  intros Hu. unfold cond_status. destruct (SetStatusCondition_find c w Hu) as [(c' & Hc & Hcc) Ho].
  destruct (bool_decide_reflect (t = cond_Type c)) as [->|Ht]; [|by rewrite Ho].
  rewrite Hc. cbn. f_equal. by injection Hcc as _ -> _ _ _.
Qed.

Lemma cond_status_true w t : IsStatusConditionTrue w t = true ↔ cond_status w t = Some ConditionTrue.
Proof.
  rewrite IsStatusConditionTrue_find. unfold cond_status. destruct (GetStatusCondition w t) as [c|]; cbn; [|done].
  rewrite bool_decide_eq_true. split; [by intros ->|by intros [= ->]].
Qed.

Lemma input_cond_status w t :
  input_status (GetStatusCondition w) t = ConditionTrue ↔ cond_status w t = Some ConditionTrue.
Proof. unfold input_status, cond_status. destruct (GetStatusCondition w t); cbn; [|done]. split; [by intros ->|by intros [= ->]]. Qed.

(** What a step of the checks does to the world: [t] gets a status, the rest stays. *)
Definition reports (t : string) (s : ConditionStatus) w w' : Prop :=
  status_unique w' ∧ w_env w' = w_env w ∧ yts_Spec (w_yts w') = yts_Spec (w_yts w) ∧
  ∀ t', cond_status w' t' = if t' == t then Some s else cond_status w t'.

Lemma SetStatusCondition_reports c w :
  status_unique w → reports (cond_Type c) (cond_Status c) w (run (SetStatusCondition c) w).
Proof.
  intros Hu. split_and!; [by apply SetStatusCondition_keeps|done|done|]. intros t. by apply cond_status_set.
Qed.

Definition check_status (ok : bool) (err : option error) : ConditionStatus :=
  match err with Some _ => ConditionUnknown | None => if ok then ConditionTrue else ConditionFalse end.

Lemma check_status_true ok err : check_status ok err = ConditionTrue ↔ ok = true ∧ err = None.
Proof. destruct err, ok; cbn; intuition done. Qed.

Lemma ReportCondition_reports t ok msg err w :
  status_unique w → reports t (check_status ok err) w (run (ReportCondition t ok msg err) w).
Proof.
  intros Hu. unfold ReportCondition. go_step. set (w1 := run (if negb _ then _ else mret tt) w).
  assert (w_yts w1 = w_yts w ∧ w_env w1 = w_env w) as [Hy He] by (subst w1; by destruct (negb _)).
  assert (status_unique w1) as Hu1 by (unfold status_unique, w_conditions, w_status; by rewrite Hy).
  pose proof (SetStatusCondition_reports (MakeCondition t ok msg err) w1 Hu1) as (H1 & H2 & H3 & H4).
  split_and!; [done|by rewrite H2|by rewrite H3, Hy|]. intros t'. rewrite H4.
  assert (cond_Type (MakeCondition t ok msg err) = t) as -> by by destruct err, ok.
  assert (cond_Status (MakeCondition t ok msg err) = check_status ok err) as -> by by destruct err, ok.
  case_match; [done|]. unfold cond_status, GetStatusCondition, w_status. by rewrite Hy.
Qed.

(** The counters of a group of masters are in the memory of the operator. *)
Definition counts_in_env (cell : MasterCell W) : Prop :=
  ∀ w w', w_env w = w_env w' →
    getInstanceCount (mc_pods cell) w = getInstanceCount (mc_pods cell) w' ∧
    getMinReadyInstanceCount (mc_pods cell) w 0 = getMinReadyInstanceCount (mc_pods cell) w' 0.

Definition quorum_of w (cell : MasterCell W) : bool * string * option error :=
  val_of (MasterQuorumHealth (mc_path cell) (getInstanceCount (mc_pods cell) w)
    (getMinReadyInstanceCount (mc_pods cell) w 0)) (w_env w).

Lemma quorum_of_env w w' cell : counts_in_env cell → w_env w' = w_env w → quorum_of w' cell = quorum_of w cell.
Proof. intros Hc He. unfold quorum_of. destruct (Hc w' w He) as [-> ->]. by rewrite He. Qed.

Definition quorum_status w cell : ConditionStatus := check_status (quorum_of w cell).1.1 (quorum_of w cell).2.

Lemma quorumChecks_reports cells w :
  status_unique w → NoDup (quorumCondition <$> cells) → Forall counts_in_env cells →
  let w' := run (quorumChecks cells) w in
  status_unique w' ∧ w_env w' = w_env w ∧ yts_Spec (w_yts w') = yts_Spec (w_yts w) ∧
  (∀ t, t ∉ quorumCondition <$> cells → cond_status w' t = cond_status w t) ∧
  (∀ cell, cell ∈ cells → cond_status w' (quorumCondition cell) = Some (quorum_status w cell)).
Proof.
  cbv zeta. revert w. induction cells as [|cell cells IH]; intros w Hu Hnd Hc.
  - split_and!; [done..|]. by intros ? ?%elem_of_nil.
  - rewrite fmap_cons in *. apply NoDup_cons in Hnd as [Hn Hnd]. apply Forall_cons in Hc as [Hc1 Hc].
    cbn [quorumChecks]. go_step. rewrite val_in_env, run_in_env, MasterQuorumHealth_run.
    fold (quorum_of w cell). assert (w_set_env (w_env w) w = w) as -> by by destruct w.
    destruct (quorum_of w cell) as [[ok msg] err] eqn:Hq. go_step.
    destruct (ReportCondition_reports (quorumCondition cell) ok msg err w Hu) as (R1 & R2 & R3 & R4).
    set (w1 := run (ReportCondition _ _ _ _) w) in *.
    destruct (IH w1 R1 Hnd Hc) as (I1 & I2 & I3 & I4 & I5).
    split_and!; [done|by rewrite I2|by rewrite I3|..].
    + intros t Ht. apply not_elem_of_cons in Ht as [Ht1 Ht2]. rewrite I4, R4 by done.
      by rewrite bool_decide_eq_false_2.
    + intros cell' [->|Hin]%elem_of_cons.
      * rewrite I4, R4, bool_decide_eq_true_2 by done. unfold quorum_status. by rewrite Hq.
      * rewrite I5 by done. unfold quorum_status. rewrite (quorum_of_env w w1); [done|by eapply Forall_forall|done].
Qed.

Context (yc : YtsaurusClient E) `{HKC : !KubeClient E ConfigMap}.

(** A check whose condition is true exactly when [P] holds. *)
Definition checks (t : string) (P : Prop) w w' : Prop :=
  ∃ s, reports t s w w' ∧ (s = ConditionTrue ↔ P).

Lemma UpdateMasterQuorumCheck_checks w :
  status_unique w → NoDup (quorumCondition <$> yc_masters yc) → Forall counts_in_env (yc_masters yc) →
  let w' := run (UpdateMasterQuorumCheck yc) w in
  status_unique w' ∧ w_env w' = w_env w ∧ yts_Spec (w_yts w') = yts_Spec (w_yts w) ∧
  (cond_status w' ConditionMastersQuorumCheck = Some ConditionTrue ↔
   ∀ cell, cell ∈ yc_masters yc → quorum_status w cell = ConditionTrue).
Proof.
  intros Hu Hnd Hc. cbv zeta. unfold UpdateMasterQuorumCheck. go_step.
  destruct (quorumChecks_reports (yc_masters yc) w Hu Hnd Hc) as (H1 & H2 & H3 & _ & H5).
  set (w1 := run (quorumChecks _) w) in *. set (c := MergeConditions _ _ _).
  destruct (SetStatusCondition_reports c w1 H1) as (R1 & R2 & R3 & R4).
  split_and!; [done|by rewrite R2|by rewrite R3|]. rewrite R4.
  assert (cond_Type c = ConditionMastersQuorumCheck) as -> by apply MergeConditions_Type.
  rewrite bool_decide_eq_true_2 by done.
  assert (cond_Status c = ConditionTrue ↔ ∀ cell, cell ∈ yc_masters yc → quorum_status w cell = ConditionTrue) as Hs.
  { subst c. rewrite MergeConditions_true by done. split.
    - intros H cell Hcell. specialize (H (quorumCondition cell)). rewrite input_cond_status, H5 in H by done.
      injection H; [done|]. apply list_elem_of_fmap. by exists cell.
    - intros H t (cell & -> & Hcell)%list_elem_of_fmap. rewrite input_cond_status, H5 by done. f_equal. by apply H. }
  rewrite <- Hs. split; [by intros [= ->]|by intros ->].
Qed.

Lemma UpdateCounterHealthCheck_checks path t w :
  status_unique w →
  checks t (val_of (GetNode path) (w_env w) = inr 0%Z) w (run (UpdateCounterHealthCheck path t) w).
Proof.
  intros Hu. unfold UpdateCounterHealthCheck. go_step. rewrite val_in_env, run_in_env, GetNode_run.
  assert (w_set_env (w_env w) w = w) as -> by by destruct w.
  destruct (val_of (GetNode path) (w_env w)) as [err|v]; eexists; (split; [by apply ReportCondition_reports|]);
    rewrite check_status_true; [by split; [intros []|]|].
  rewrite bool_decide_eq_true. split; [by intros [-> _]|by intros [= ->]].
Qed.

Lemma GetNotGoodTabletCellBundles_run (e : E) : run GetNotGoodTabletCellBundles e = e.
Proof. unfold GetNotGoodTabletCellBundles. go_step. apply ListNode_run. Qed.

Lemma UpdateTabletCellBundlesHealthCheck_checks w :
  status_unique w →
  checks ConditionTabletCellBundlesHealthCheck (val_of GetNotGoodTabletCellBundles (w_env w) = inr []) w
    (run UpdateTabletCellBundlesHealthCheck w).
Proof.
  intros Hu. unfold UpdateTabletCellBundlesHealthCheck. go_step.
  rewrite val_in_env, run_in_env, GetNotGoodTabletCellBundles_run.
  assert (w_set_env (w_env w) w = w) as -> by by destruct w.
  destruct (val_of GetNotGoodTabletCellBundles (w_env w)) as [err|v]; eexists;
    (split; [by apply ReportCondition_reports|]); rewrite check_status_true; [by split; [intros []|]|].
  rewrite bool_decide_eq_true. destruct v; [done|]. split; [by intros [[=] _]|done].
Qed.

(** What a healthy cluster is. *)
Definition cluster_healthy w : Prop :=
  (∀ cell, cell ∈ yc_masters yc → ∃ msg, quorum_of w cell = (true, msg, None)) ∧
  val_of (GetNode LostVitalChunksCountPath) (w_env w) = inr 0%Z ∧
  val_of (GetNode QuorumMissingChunksCountPath) (w_env w) = inr 0%Z ∧
  val_of GetNotGoodTabletCellBundles (w_env w) = inr [].

Lemma quorum_status_true w cell : quorum_status w cell = ConditionTrue ↔ ∃ msg, quorum_of w cell = (true, msg, None).
Proof.
  unfold quorum_status. rewrite check_status_true. destruct (quorum_of w cell) as [[ok msg] err]; cbn. split.
  - intros [-> ->]. by exists msg.
  - by intros (? & [= -> _ ->]).
Qed.

(** C29.  An update is reported possible exactly when the cluster is healthy: after the health
    checks, on a cluster whose masters are expected to be alive, the condition
    [UpdateIsPossible] is true if and only if the quorum check of the primary and of every
    secondary cell succeeded, no vital chunks are lost, no chunks miss their quorum and
    every tablet cell bundle is in good health; a check that could not be made is not
    taken for a success. *)
Theorem UpdateIsPossible_exact w :
  status_unique w → NoDup (quorumCondition <$> yc_masters yc) → Forall counts_in_env (yc_masters yc) →
  ShouldSkipCypressOperations w = false →
  IsStatusConditionTrue (run (UpdateClusterHealthChecks yc) w) ConditionUpdateIsPossible = true ↔ cluster_healthy w.
Proof.
  intros Hu Hnd Hc Hskip. unfold UpdateClusterHealthChecks. go_step. rewrite Hskip. cbn [negb]. go_step.
  destruct (UpdateMasterQuorumCheck_checks w Hu Hnd Hc) as (U1 & E1 & _ & S1).
  set (w1 := run (UpdateMasterQuorumCheck yc) w) in *.
  destruct (UpdateCounterHealthCheck_checks LostVitalChunksCountPath ConditionLostVitalChunksCheck w1 U1)
    as (s2 & (U2 & E2 & _ & T2) & S2). set (w2 := run (UpdateCounterHealthCheck _ _) w1) in *.
  destruct (UpdateCounterHealthCheck_checks QuorumMissingChunksCountPath ConditionQuorumMissingChunksCheck w2 U2)
    as (s3 & (U3 & E3 & _ & T3) & S3). set (w3 := run (UpdateCounterHealthCheck _ _) w2) in *.
  destruct (UpdateTabletCellBundlesHealthCheck_checks w3 U3) as (s4 & (U4 & E4 & _ & T4) & S4).
  set (w4 := run UpdateTabletCellBundlesHealthCheck w3) in *. set (c := MergeConditions _ _ _).
  rewrite cond_status_true, cond_status_set by done.
  assert (cond_Type c = ConditionUpdateIsPossible) as -> by apply MergeConditions_Type.
  rewrite bool_decide_eq_true_2 by done.
  assert (cond_Status c = ConditionTrue ↔ ∀ t, t ∈ healthChecks → cond_status w4 t = Some ConditionTrue) as Hm.
  { subst c. rewrite MergeConditions_true by done. by setoid_rewrite input_cond_status. }
  assert ((∀ t, t ∈ healthChecks → cond_status w4 t = Some ConditionTrue) ↔ cluster_healthy w) as Hh.
  { unfold healthChecks, cluster_healthy. setoid_rewrite elem_of_cons. setoid_rewrite elem_of_cons.
    setoid_rewrite elem_of_cons. setoid_rewrite list_elem_of_singleton.
    rewrite E3, E2, E1 in S4. rewrite E2, E1 in S3. rewrite E1 in S2. rewrite <- S2, <- S3, <- S4.
    setoid_rewrite <- quorum_status_true. rewrite <- S1.
    assert (cond_status w4 ConditionTabletCellBundlesHealthCheck = Some s4) as H4 by by rewrite T4.
    assert (cond_status w4 ConditionQuorumMissingChunksCheck = Some s3) as H3 by by rewrite T4; cbn; rewrite T3.
    assert (cond_status w4 ConditionLostVitalChunksCheck = Some s2) as H2 by by rewrite T4; cbn; rewrite T3; cbn; rewrite T2.
    assert (cond_status w4 ConditionMastersQuorumCheck = cond_status w1 ConditionMastersQuorumCheck) as H1
      by by rewrite T4; cbn; rewrite T3; cbn; rewrite T2.
    split.
    - intros H. rewrite <- H1. split; [by apply H; left|].
      pose proof (H ConditionLostVitalChunksCheck ltac:(auto)) as [= ->]%(eq_trans (eq_sym H2)).
      pose proof (H ConditionQuorumMissingChunksCheck ltac:(auto)) as [= ->]%(eq_trans (eq_sym H3)).
      pose proof (H ConditionTabletCellBundlesHealthCheck ltac:(auto)) as [= ->]%(eq_trans (eq_sym H4)). done.
    - intros (Q1 & -> & -> & ->) t [->|[->|[->| ->]]]; [by rewrite H1|done..]. }
  rewrite <- Hh, <- Hm. split; [by intros [= ->]|by intros ->].
Qed.

End health.

(** ** Patches *)

Section patches.
Context {E : Type} {MC : MetaConditions} {ML : MetaConditionsLaws MC} {SC : StatusClient E} {CF : ConfigCodec}.
Context {CC : CypressClient E} {Y : Ypath} {G : GoCmp} {PC : PatchCodec}.
Context `{HKC : !KubeClient E ConfigMap}.

Abbreviation W := (World E).
Implicit Types (w : W).

(** The patch of a component that is taken into the patch of the cluster: its present one,
    with the override of the user, when the component is fresh; otherwise the saved one. *)
Inductive chosen_patch (overrides : option ConfigMap) (old : gmap string string) (fresh : bool) (l : Labeller)
    (patch : option PatchSet) : PatchSet → Prop :=
  | chosen_fresh p : fresh = true →
      overriddenPatch overrides (patchFile l CypressPatchFileName) patch = inr p →
      chosen_patch overrides old fresh l patch (default ∅ p)
  | chosen_saved data saved : fresh = false →
      old !! patchFile l CypressPatchFileName = Some data → patch_Unmarshal data = inr saved →
      chosen_patch overrides old fresh l patch saved
  | chosen_none : fresh = false → old !! patchFile l CypressPatchFileName = None →
      chosen_patch overrides old fresh l patch ∅.

Lemma AddPatchSet_empty (p : PatchSet) : AddPatchSet ∅ p = p.
Proof. apply map_fold_empty. Qed.

Lemma build_component_current overrides old fresh l patch b b' :
  build_component overrides old fresh l patch b = inr b' →
  ∃ p, chosen_patch overrides old fresh l patch p ∧ pb_current b' = AddPatchSet p (pb_current b).
Proof.
  unfold build_component. destruct (overriddenPatch _ _ _) as [err|p] eqn:Hp; [done|]. cbn [error_bind].
  destruct (patch_Marshal p) as [err|data]; [done|]. destruct fresh.
  - intros H. exists (default ∅ p). split; [by constructor|]. by case_match; simplify_eq.
  - destruct (old !! patchFile l CypressPatchFileName) as [saved|] eqn:Ho.
    + destruct (patch_Unmarshal saved) as [err|sp] eqn:Hs; [done|]. cbn [error_bind]. intros H.
      exists sp. split; [by eapply chosen_saved|]. repeat case_match; by simplify_eq.
    + cbn [error_bind]. intros H. exists ∅. split; [by apply chosen_none|]. rewrite AddPatchSet_empty.
      repeat case_match; by simplify_eq.
Qed.

(** Whether the patch of a component is taken as it is now. *)
Definition fresh_component w (patchExists : bool) (c : CypressComponent W) : bool :=
  negb patchExists || components_IsUpdatingComponent w (cyc_base c) || (GetClusterState w == ClusterStateInitializing).

Definition merge_patches (ps : list PatchSet) (p : PatchSet) : PatchSet := foldl (λ acc q, AddPatchSet q acc) p ps.

Lemma build_components_current w overrides old patchExists components b b' :
  build_components w overrides old patchExists components b = inr b' →
  ∃ ps, Forall2 (λ c p, chosen_patch overrides old (fresh_component w patchExists c) (cmp_labeller (cyc_base c))
                          (cyc_GetCypressPatch c w) p) components ps ∧
    pb_current b' = merge_patches ps (pb_current b).
Proof.
  revert b. induction components as [|c components IH]; intros b; cbn [build_components].
  - intros [= <-]. by exists [].
  - fold (fresh_component w patchExists c).
    destruct (build_component _ _ _ _ _ _) as [err|b1] eqn:Hb; [done|]. cbn [error_bind].
    apply build_component_current in Hb as (p & Hp & Hc). intros (ps & Hps & Hcs)%IH.
    exists (p :: ps). split; [by constructor|]. rewrite Hcs, Hc. done.
Qed.

(** The user's patch for the whole cluster. *)
Definition global_override (overrides : option ConfigMap) (g : PatchSet) : Prop :=
  match overrides ≫= λ o, cm_Data o !! CypressPatchFileName with
  | Some data => patch_Unmarshal data = inr g
  | None => g = ∅
  end.

Lemma build_global_current overrides old b b' :
  build_global overrides old b = inr b' →
  ∃ g data, global_override overrides g ∧ pb_current b' = AddPatchSet g (pb_current b) ∧
    patch_Marshal (Some (pb_current b')) = inr data ∧ pb_Data b' !! CypressPatchFileName = Some data.
Proof.
  unfold build_global, global_override.
  destruct (overrides ≫= _) as [od|].
  - destruct (patch_Unmarshal od) as [err|g]; [done|]. cbn [error_bind].
    destruct (patch_Marshal _) as [err|data] eqn:Hm; [done|]. intros H. exists g, data. split; [done|].
    destruct (bool_decide _); [|destruct (patch_Marshal (Some (pb_pending _))) as [|pd]; [done|]];
      cbn [error_bind] in H; injection H as <-; case_match; cbn in *; rewrite ?lookup_insert_ne by done;
      by rewrite lookup_insert_eq.
  - cbn [error_bind]. destruct (patch_Marshal _) as [err|data] eqn:Hm; [done|]. intros H.
    exists ∅, data. split; [done|]. rewrite AddPatchSet_empty.
    destruct (bool_decide _); [|destruct (patch_Marshal (Some (pb_pending _))) as [|pd]; [done|]];
      cbn [error_bind] in H; injection H as <-; case_match; cbn in *; rewrite ?lookup_insert_ne by done;
      by rewrite lookup_insert_eq.
Qed.

Context (yc : YtsaurusClient E).

(** The patch that is applied, and what is stored of it. *)
Definition patch_of_cluster w (cp : ConfigMap) (patch : PatchSet) : Prop :=
  ∃ ps g data,
    Forall2 (λ c p, chosen_patch (overrides_of yc w) (cm_Data (OldObject (yc_cypressPatch yc) w))
       (fresh_component w (resource_Exists (yc_cypressPatch yc) w) c) (cmp_labeller (cyc_base c))
       (cyc_GetCypressPatch c w) p) (yc_getAllComponents yc) ps ∧
    global_override (overrides_of yc w) g ∧
    patch = AddPatchSet g (merge_patches ps ∅) ∧
    patch_Marshal (Some patch) = inr data ∧ cm_Data cp !! CypressPatchFileName = Some data.

Lemma BuildCypressPatch_patch w cp patch :
  BuildCypressPatch yc w = inr (cp, patch) → patch_of_cluster w cp patch.
Proof.
  unfold BuildCypressPatch. set (pair := match overrides_of yc w with Some _ => _ | None => _ end).
  destruct pair as [cp0 description]. destruct (build_components _ _ _ _ _ _) as [err|b] eqn:Hb; [done|].
  cbn [error_bind]. destruct (build_global _ _ _) as [err|b'] eqn:Hg; [done|]. cbn [error_bind]. intros [= <- <-].
  apply build_components_current in Hb as (ps & Hps & Hc). apply build_global_current in Hg as (g & data & Hg & Hc' & Hm & Hd).
  exists ps, g, data. split_and!; [done|done|by rewrite Hc', Hc|done|done].
Qed.

(** *** Applying *)


(** C38.  The condition [CypressPatchApplied] tells the truth: from a status with at most one
    condition of each type, in which it is not set, synchronising the patch makes it true only if the
    patch was built, its config map was synchronised without an error, and the whole patch was applied
    to the cluster without an error.  The applied patch consists of the patches of the components, then
    the user's patch for the cluster, in this order under every path, and the config map holds its
    text.  Of a component it has the present patch with the user's override when there is no config map
    of the patch yet, when the component is being updated, or while the cluster initializes; otherwise
    the patch that the config map has saved for it, and none if it has saved none, which is the case of
    a component added to a running cluster until it is updated. *)
Theorem CypressPatchApplied_sound w :
  status_unique w → IsStatusConditionTrue w ConditionCypressPatchApplied = false →
  IsStatusConditionTrue (run (SyncCypressPatch yc) w) ConditionCypressPatchApplied = true →
  ∃ cp patch e, patch_of_cluster w cp patch ∧
    let w1 := run (in_resource (yc_cypressPatch yc) (res_set_new cp)) w in
    val_of (resource_Sync (yc_cypressPatch yc)) w1 = None ∧
    e = w_env (run (resource_Sync (yc_cypressPatch yc)) w1) ∧
    val_of (ApplyPatchSet false "" patch) e = None ∧
    w_env (run (SyncCypressPatch yc) w) = run (ApplyPatchSet false "" patch) e.
Proof.
  intros Hu Hf Ht. unfold SyncCypressPatch in *. revert Ht. go_step.
  destruct (BuildCypressPatch yc w) as [err|[cp patch]] eqn:Hb.
  { go_step. rewrite IsStatusConditionTrue_set by done. by cbn. }
  apply BuildCypressPatch_patch in Hb. go_step. set (w1 := run (in_resource _ _) w).
  pose proof (resource_Sync_yts (yc_cypressPatch yc) w1) as Hy. change (w_yts w1) with (w_yts w) in Hy.
  set (w2 := run (resource_Sync _) w1) in *.
  assert (∀ w', w_yts w' = w_yts w → status_unique w') as Huy.
  { intros w' Hw'. unfold status_unique, w_conditions, w_status. by rewrite Hw'. }
  assert (∀ w', w_yts w' = w_yts w → IsStatusConditionTrue w' ConditionCypressPatchApplied = false) as Hfy.
  { intros w' Hw'. unfold IsStatusConditionTrue, w_status in *. by rewrite Hw'. }
  destruct (val_of (resource_Sync (yc_cypressPatch yc)) w1) as [err|] eqn:Hs.
  { go_step. by rewrite (Hfy w2 Hy). }
  go_step. destruct (ShouldSkipCypressOperations w2).
  { go_step. by rewrite Hfy. }
  go_step. rewrite val_in_env, run_in_env.
  destruct (val_of (ApplyPatchSet false "" patch) (w_env w2)) as [err|] eqn:Ha; go_step.
  - rewrite IsStatusConditionTrue_set by by apply Huy. by cbn.
  - intros _. exists cp, patch, (w_env w2). by split_and!.
Qed.

End patches.

(** ** Steps of an update *)

Section update_steps.
Context {E : Type} {MC : MetaConditions} {ML : MetaConditionsLaws MC} {SC : StatusClient E} {CF : ConfigCodec}.
Context {CC : CypressClient E} {Y : Ypath} {G : GoCmp} {PC : PatchCodec} {CD : ClientDeps E}.
Context `{HKC : !KubeClient E ConfigMap} `{HKJ : !KubeClient E Job} `{HKS : !KubeClient E Secret}.
Context {DB : YsonDecode bool} {DZ : YsonDecode Z} {DL : YsonDecode (list string)}.
Context {DT : YsonDecode (list TabletCellBundleInfo)} {DTH : YsonDecode (list TabletCellBundleHealth)}.
Context {DN : YsonDecode (list DataNodeMeta)}.
Context {DM : YsonDecode (list MasterAddressWithAttributes)} {DH : YsonDecode MasterHydra}.

Abbreviation W := (World E).
Implicit Types (w : W).
Context (yc : YtsaurusClient E).

(** *** Frames *)




(** *** Evidence

    What the client has found out about the cluster when it completes a step. *)





Ltac env_step := go_step; rewrite ?val_in_env, ?run_in_env; cbn [w_env w_set_env].



(** The absence of imaginary chunks is recorded although the data nodes could not be listed. *)
Lemma imaginary_chunks_error w err :
  update_unique w →
  GetUpdateState w = UpdateStateWaitingForImaginaryChunksAbsence →
  IsUpdateStatusConditionTrue w ConditionRealChunksAttributeEnabled = true →
  IsUpdateStatusConditionTrue w ConditionDataNodesWithImaginaryChunksAbsent = false →
  val_of getDataNodesInfo (w_env w) = inl err →
  IsUpdateStatusConditionTrue (run (handleUpdatingState yc false) w) ConditionDataNodesWithImaginaryChunksAbsent = true.
Proof.
  intros Hu Hs H1 H2 Hl. unfold handleUpdatingState. go_step. cbn [id]. rewrite Hs, H1, H2. cbn [negb]. env_step.
  unfold areActiveDataNodesWithImaginaryChunksExist. go_step. rewrite Hl. cbn [negb]. go_step.
  by rewrite IsUpdateStatusConditionTrue_set.
Qed.

End update_steps.

(** ** The client as a component *)

Section client_component.
Context {E : Type} {MC : MetaConditions} {ML : MetaConditionsLaws MC} {SC : StatusClient E} {CF : ConfigCodec}.
Context {CC : CypressClient E} {Y : Ypath} {G : GoCmp} {PC : PatchCodec} {CD : ClientDeps E}.
Context `{HKC : !KubeClient E ConfigMap} `{HKJ : !KubeClient E Job} `{HKS : !KubeClient E Secret}.
Context {DB : YsonDecode bool} {DZ : YsonDecode Z} {DL : YsonDecode (list string)}.
Context {DT : YsonDecode (list TabletCellBundleInfo)} {DTH : YsonDecode (list TabletCellBundleHealth)}.
Context {DN : YsonDecode (list DataNodeMeta)}.
Context {DM : YsonDecode (list MasterAddressWithAttributes)} {DH : YsonDecode MasterHydra}.

Context (yc : YtsaurusClient E) (httpProxyFetch : go (World E) (option error)).

Definition client_component : ComponentI (World E) :=
  mkComponentI _ (yc_base yc) (yc_Fetch yc httpProxyFetch) (mret yc_NeedUpdate) (yc_Sync yc)
    (mret ComponentStatusReady).

Lemma confined_ReportCondition t ok msg err : confined (ReportCondition (E:=E) t ok msg err).
Proof. unfold ReportCondition. go_confined. Qed.

Lemma confined_quorumChecks cells : confined (quorumChecks (E:=E) cells).
Proof. pose proof confined_ReportCondition. induction cells as [|c cells IH]; cbn [quorumChecks]; go_confined. Qed.

Lemma confined_UpdateClusterHealthChecks : confined (UpdateClusterHealthChecks yc).
Proof.
  pose proof confined_ReportCondition. pose proof confined_quorumChecks.
  unfold UpdateClusterHealthChecks, UpdateMasterQuorumCheck, UpdateCounterHealthCheck,
    UpdateTabletCellBundlesHealthCheck. go_confined.
Qed.

Lemma confined_SyncCypressPatch : confined (SyncCypressPatch yc).
Proof. unfold SyncCypressPatch. go_confined. Qed.

Lemma confined_saved l b : confined (modify (w_set_update_status (us_set_saved l b)) : go (World E) unit).
Proof. split_and!; [done|done|by intros w]. Qed.

Lemma confined_handleUpdatingState dry : confined (handleUpdatingState yc dry).
Proof.
  pose proof confined_UpdateClusterHealthChecks. pose proof confined_SyncCypressPatch. pose proof confined_saved.
  unfold handleUpdatingState, request_step, complete_step. go_confined.
Qed.

Lemma confined_yc_Sync dry : confined (yc_Sync yc dry).
Proof.
  pose proof confined_UpdateClusterHealthChecks. pose proof confined_SyncCypressPatch.
  pose proof confined_handleUpdatingState. unfold yc_Sync, secret_Build. go_confined.
Qed.

Lemma confined_yc_Fetch : confined httpProxyFetch → confined (yc_Fetch yc httpProxyFetch).
Proof.
  intros Hh. apply confined_resources_seq. repeat (apply Forall_cons; split); try apply Forall_nil; try done.
  - apply confined_resource_Fetch.
  - apply confined_ij_Fetch.
  - destruct (yc_configOverrides yc); [apply confined_resource_Fetch|done].
  - apply confined_resource_Fetch.
Qed.

(** The client keeps what the component manager and the update flow rely on. *)
#[export] Instance client_component_frame : confined httpProxyFetch → ComponentFrame client_component.
Proof.
  intros Hh. destruct (confined_yc_Fetch Hh) as (F1 & F2 & F3).
  split; cbn [ci_Fetch ci_NeedUpdate ci_Sync ci_UpdatePreCheck client_component]; try done.
  - intros dry. apply (confined_yc_Sync dry).
  - intros dry. apply (confined_yc_Sync dry).
  - apply keeps_ret.
  - intros dry. apply (confined_yc_Sync dry).
Qed.

End client_component.

(** ** A client of a cluster that is a map *)

Section client_example.

Definition const_lens {E A} (x : A) : lens E A := mkLens (λ _, x) (λ _ e, e).

#[local] Instance flat_status : StatusClient FlatCypress := { Status_Update _ e := (None, e); GetVersion := "1" }.

#[local] Instance flat_cms : KubeClient FlatCypress ConfigMap := {
  client_Get _ := λ e, (inl NotFound, e);
  client_Create o := λ e, (None, o, e);
  client_Update o := λ e, (None, o, e);
  client_Delete _ := λ e, (None, e);
  SetControllerReference _ o := inr o;
}.

#[local] Instance flat_codec : PatchCodec := {|
  patch_Unmarshal _ := inr ∅;
  patch_Marshal _ := inr "patch";
|}.

#[local] Instance flat_deps : ClientDeps FlatCypress := {|
  GenerateToken := mret "token"; NewClient := mret None; sha256 s := s; caller line := fmt_d line |}.

#[local] Instance flat_decode_bool : YsonDecode bool := {| yson_decode v := match v with VBool b => inr b | _ => inl "bool" end |}.
#[local] Instance flat_decode_int : YsonDecode Z := {| yson_decode v := match v with VInt64 z => inr z | _ => inl "int" end |}.
#[local] Instance flat_decode_strings : YsonDecode (list string) := {| yson_decode _ := inr [] |}.
#[local] Instance flat_decode_bundles : YsonDecode (list TabletCellBundleInfo) := {| yson_decode _ := inr [] |}.
#[local] Instance flat_decode_health : YsonDecode (list TabletCellBundleHealth) := {| yson_decode _ := inr [mkBundleHealth "sys" "good"] |}.
#[local] Instance flat_decode_nodes : YsonDecode (list DataNodeMeta) := {| yson_decode _ := inr [] |}.
#[local] Instance flat_decode_masters : YsonDecode (list MasterAddressWithAttributes) := {| yson_decode _ := inr [mkMasterAddress "m0" false] |}.
#[local] Instance flat_decode_hydra : YsonDecode MasterHydra :=
  {| yson_decode _ := inr (mkMasterHydra MasterStateLeading 0 0 true true true false false false false false) |}.

Definition example_init_user : InitJob (E:=FlatCypress) :=
  mkInitJob (example_labeller YtsaurusClientType "") "userInitJobCompleted" "image" ""
    (mkConfigMapBuilder (example_labeller YtsaurusClientType "") "client-config" None []
       (const_lens (newConfigMap "client-config")) (const_lens ConfigMapZero))
    (const_lens (mkManagedResource "client-job" JobZero JobZero)) (const_lens newInitJobMem).

(** One master cell, and a component with a patch. *)
Definition example_master_pods : podsManager (World FlatCypress) :=
  mkPodsManager _ (λ _, 1%Z) (λ _, mret tt) (λ _ _, 1%Z) (λ _ _, "") (mret ([], None)) (mret None) (mret true).

Definition example_patch_cm : ConfigMap := mkConfigMap (mkObjectMeta "cypress-patch" "" ∅ []) ∅.

Definition example_client : YtsaurusClient FlatCypress :=
  mkYtsaurusClient (example_component 1 YtsaurusClientType "")
    [mkMasterCell _ "//sys/primary_masters" (example_labeller MasterType "") example_master_pods]
    (example_component 2 HttpProxyType "")
    [mkCypressComponent _ (example_component 3 MasterType "")
       (λ _, Some {[ "//sys" := [Add "/@cluster_name" (VString "demo")] ]})]
    None (const_lens (mkManagedResource "cypress-patch" ConfigMapZero example_patch_cm)) example_init_user
    (const_lens (mkManagedResource "secret" SecretZero SecretZero)) (const_lens true).

Definition example_cypress : FlatCypress :=
  {[ "//sys/primary_masters" := VNil; "//sys/primary_masters/m0/orchid/monitoring/hydra" := VNil;
     LostVitalChunksCountPath := VInt64 0; QuorumMissingChunksCountPath := VInt64 0;
     tabletCellBundlesPath := VNil ]}.

Definition example_client_world : World FlatCypress :=
  w_set_update_status (us_set_State UpdateStateWaitingForSafeModeEnabled) (mkWorld example_yts [] 200 ∅ example_cypress).

Lemma UpdateIsPossible_exact_witness : cluster_healthy (Y:=flat_ypath) example_client example_client_world.
Proof.
  apply (UpdateIsPossible_exact (Y:=flat_ypath) example_client example_client_world).
  - apply (bool_decide_unpack _). vm_compute. exact I.
  - apply (bool_decide_unpack _). vm_compute. exact I.
  - apply Forall_singleton. intros w w' _. split; reflexivity.
  - reflexivity.
  - vm_compute. reflexivity.
Defined.

Lemma CypressPatchApplied_sound_witness :
  ∃ cp patch e, patch_of_cluster example_client example_client_world cp patch ∧
    let w1 := run (in_resource (yc_cypressPatch example_client) (res_set_new cp)) example_client_world in
    val_of (resource_Sync (yc_cypressPatch example_client)) w1 = None ∧
    e = w_env (run (resource_Sync (yc_cypressPatch example_client)) w1) ∧
    val_of (ApplyPatchSet (Y:=flat_ypath) (G:=flat_cmp) false "" patch) e = None ∧
    w_env (run (SyncCypressPatch (Y:=flat_ypath) (G:=flat_cmp) example_client) example_client_world) =
      run (ApplyPatchSet (Y:=flat_ypath) (G:=flat_cmp) false "" patch) e.
Proof.
  apply (CypressPatchApplied_sound (Y:=flat_ypath) (G:=flat_cmp) example_client example_client_world).
  - apply (bool_decide_unpack _). vm_compute. exact I.
  - vm_compute. reflexivity.
  - vm_compute. reflexivity.
Defined.


End client_example.
