(* ===== verification/PodsManager.v ===== *)
(** * Pods: counting, readiness, removal and update progress
    (src/pkg/components/pods_manager.go, server.go)

    Counters are Go [int32]: every increment is wrapped.  The theorems assume fewer than
    2^31 pods, which the API cannot exceed because [replicas] is an [int32] itself. *)

From S2P Require Import Prelude Kubernetes ApiTypes Labeller Status ApiProxy Components.

(** ** Pod predicates *)

Definition podConditionIsTrue (pod : Pod) (conditionType : PodConditionType) : bool :=
  ContainsFunc (pod_Conditions pod) (λ c, (c.1 == conditionType) && (c.2 == ConditionTrue)).

Definition podIsTerminating (pod : Pod) : bool :=
  match pod_DeletionTimestamp pod with
  | None => false
  | Some t => negb (t == 0%Z)
  end.

Definition podIsScheduled (pod : Pod) : bool := podConditionIsTrue pod PodScheduled.

Definition podContainerIsRunning (pod : Pod) (name : string) : bool :=
  ContainsFunc (pod_ContainerStatuses pod) (λ s,
    (ctr_Name s == name) && Deref (ctr_Started s) false && ctr_Running s).

Definition podContainerIsReady (pod : Pod) (name : string) : bool :=
  ContainsFunc (pod_ContainerStatuses pod) (λ s, (ctr_Name s == name) && ctr_Ready s).

Definition podContainerNames (pod : Pod) (names : list string) : list string :=
  match names with [] => pod_Containers pod | _ => names end.

(** ** Counting *)

Record PodCounts := mkPodCounts {
  pc_pending : Z; pc_scheduled : Z; pc_running : Z; pc_ready : Z; pc_terminating : Z;
}.

Definition inc (b : bool) (z : Z) : Z := if b then i32 (z + 1) else z.

(** The inner loop: both flags over the names. *)
Definition containersState (pod : Pod) (names : list string) : bool * bool :=
  fold_left (λ '(running, ready) name,
    (running && podContainerIsRunning pod name, ready && podContainerIsReady pod name))
    names (true, true).

(** One iteration of the outer loop. *)
Definition countPod (containerNames : list string) (c : PodCounts) (pod : Pod) : PodCounts :=
  if podIsTerminating pod then
    mkPodCounts (pc_pending c) (pc_scheduled c) (pc_running c) (pc_ready c) (i32 (pc_terminating c + 1))
  else if podIsScheduled pod then
    let '(containersAreRunning, containersAreReady) :=
      containersState pod (podContainerNames pod containerNames) in
    mkPodCounts (pc_pending c) (i32 (pc_scheduled c + 1))
      (inc containersAreRunning (pc_running c)) (inc containersAreReady (pc_ready c))
      (pc_terminating c)
  else
    mkPodCounts (i32 (pc_pending c + 1)) (pc_scheduled c) (pc_running c) (pc_ready c)
      (pc_terminating c).

Definition countPods (pods : list Pod) (containerNames : list string) : PodCounts :=
  fold_left (countPod containerNames) pods (mkPodCounts 0 0 0 0 0).

(** *** What the counters count *)

Definition pods_count (f : Pod → bool) (pods : list Pod) : Z := Z.of_nat (length (List.filter f pods)).

Definition pod_alive_scheduled (pod : Pod) : bool := negb (podIsTerminating pod) && podIsScheduled pod.
Definition pod_pending (pod : Pod) : bool := negb (podIsTerminating pod) && negb (podIsScheduled pod).

Definition pod_running (names : list string) (pod : Pod) : bool :=
  pod_alive_scheduled pod && forallb (podContainerIsRunning pod) (podContainerNames pod names).
Definition pod_ready (names : list string) (pod : Pod) : bool :=
  pod_alive_scheduled pod && forallb (podContainerIsReady pod) (podContainerNames pod names).

Definition counts_spec (names : list string) (pods : list Pod) : PodCounts :=
  mkPodCounts (pods_count pod_pending pods) (pods_count pod_alive_scheduled pods)
    (pods_count (pod_running names) pods) (pods_count (pod_ready names) pods)
    (pods_count podIsTerminating pods).

Lemma containersState_spec pod names :
  containersState pod names =
    (forallb (podContainerIsRunning pod) names, forallb (podContainerIsReady pod) names).
Proof.
  unfold containersState.
  assert (∀ a b, fold_left (λ '(running, ready) name,
    (running && podContainerIsRunning pod name, ready && podContainerIsReady pod name)) names (a, b) =
    (a && forallb (podContainerIsRunning pod) names, b && forallb (podContainerIsReady pod) names))
    as H; [|by rewrite H].
  induction names as [|n names IH]; intros a b; cbn; [by rewrite !andb_true_r|].
  by rewrite IH, !andb_assoc.
Qed.

Lemma pods_count_app f pods pod :
  pods_count f (pods ++ [pod]) = (pods_count f pods + if f pod then 1 else 0)%Z.
Proof.
  unfold pods_count. rewrite List.filter_app, length_app. cbn. destruct (f pod); cbn; lia.
Qed.

Lemma pods_count_bound f pods : (0 ≤ pods_count f pods ≤ Z.of_nat (length pods))%Z.
Proof. unfold pods_count. pose proof (filter_length_le f pods). lia. Qed.

Lemma i32_count f pods z :
  (Z.of_nat (length pods) < 2 ^ 31 - 1)%Z → (0 ≤ z ≤ 1)%Z →
  i32 (pods_count f pods + z) = (pods_count f pods + z)%Z.
Proof. intros H ?. apply i32_id. pose proof (pods_count_bound f pods). unfold in_i32. lia. Qed.

Lemma countPods_counts pods names :
  (Z.of_nat (length pods) < 2 ^ 31)%Z → countPods pods names = counts_spec names pods.
Proof.
  unfold countPods. induction pods as [|pod pods IH] using rev_ind; intros Hlen; [done|].
  rewrite length_app in Hlen. cbn in Hlen. rewrite fold_left_app. cbn. rewrite IH by lia.
  unfold counts_spec. rewrite !pods_count_app. unfold countPod, inc, pod_pending,
    pod_running, pod_ready, pod_alive_scheduled. rewrite containersState_spec.
  destruct (podIsTerminating pod), (podIsScheduled pod); cbn;
    repeat case_match; rewrite ?i32_count by lia; by rewrite ?Z.add_0_r.
Qed.

(** ** Readiness of the pods of a component *)

Section arePodsReady.
Context {E : Type}.

Abbreviation W := (World E).

Definition arePodsReady (manager : podsManager W) (containerNames : list string)
    : go W (ComponentStatus * option error) :=
  '(pods, err) ← listPods manager;
  match err with
  | Some e => mret (ComponentStatusBlocked ("Cannot list pods: " +:+ e), Some e)
  | None =>
      w ← gets id;
      let instanceCount := getInstanceCount manager w in
      let minReadyCount := getMinReadyInstanceCount manager w 0 in
      let c := countPods pods containerNames in
      let podsCount := Z.of_nat (length pods) in
      mret (
        if (instanceCount <? podsCount)%Z then
          ComponentStatusBlocked ("Too many pods: " +:+ fmt_d podsCount +:+ " of " +:+
            fmt_d instanceCount +:+ ", running " +:+ fmt_d (pc_running c) +:+ ", terminating " +:+
            fmt_d (pc_terminating c))
        else if (pc_running c <? minReadyCount)%Z then
          ComponentStatusBlocked ("Not enough running pods: " +:+ fmt_d (pc_running c) +:+ " of " +:+
            fmt_d instanceCount +:+ ", pending " +:+ fmt_d (pc_pending c) +:+ ", scheduled " +:+
            fmt_d (pc_scheduled c) +:+ ", need " +:+ fmt_d minReadyCount)
        else if (pc_ready c <? minReadyCount)%Z then
          ComponentStatusStarted ("Not enough ready pods: " +:+ fmt_d (pc_ready c) +:+ " of " +:+
            fmt_d instanceCount +:+ ", running " +:+ fmt_d (pc_running c) +:+ ", need " +:+
            fmt_d minReadyCount)
        else
          ComponentStatusReadyAfter ("Pods are ready: " +:+ fmt_d (pc_ready c) +:+ " of " +:+
            fmt_d instanceCount +:+ ", running " +:+ fmt_d (pc_running c) +:+ ", need " +:+
            fmt_d minReadyCount), None)
  end.

Lemma arePodsReady_frame manager names `{!PodsManagerFrame manager} :
  preserves w_yts (arePodsReady manager names).
Proof.
  unfold arePodsReady. apply preserves_bind; [auto with go_preserves|]. intros [pods []]; [done|].
  apply preserves_bind; [done|]. done.
Qed.

(** ** Removal of pods *)

Context {MC : MetaConditions} {SC : StatusClient E}.

Definition removePods (manager : podsManager W) (c : component) : go W (option error) :=
  let removingStarted := GetPodsRemovingStartedCondition (cmp_labeller c) in
  started ← gets (λ w, IsUpdateStatusConditionTrue w removingStarted);
  if negb started then
    err ← pm_removePods manager;
    match err with
    | Some e => mret (Some e)
    | None =>
        SetUpdateStatusCondition
          (condition removingStarted ConditionTrue "Update" "Pods removing was started") ;;
        mret None
    end
  else
    '(pods, err) ← listPods manager;
    match err with
    | Some e => mret (Some e)
    | None =>
        if length pods == 0%nat then
          SetUpdateStatusCondition
            (condition (GetPodsRemovedCondition (cmp_labeller c)) ConditionTrue "Update" "Pods removed") ;;
          mret None
        else mret None
    end.

End arePodsReady.

(** ** Update progress of a stateful set (server.go) *)

Definition StatefulSetRevisionLabel := "controller-revision-hash".

Fixpoint onDeleteLoop (pods : list Pod) (updateRevision : string) (readyCount : Z) : Z + string :=
  match pods with
  | [] => inl readyCount
  | pod :: rest =>
      let podRevision := Deref (pod_Labels pod !! StatefulSetRevisionLabel) "" in
      if podRevision != updateRevision then
        inr ("pod " +:+ pod_Name pod +:+ " not updated: revision " +:+ fmt_q podRevision +:+
             " != updateRevision " +:+ fmt_q updateRevision)
      else
        onDeleteLoop rest updateRevision
          (inc (podIsScheduled pod && podConditionIsTrue pod PodReady) readyCount)
  end.

Definition evaluateOnDeleteCompletion (pods : list Pod) (updateRevision : string) (replicas minReady : Z)
    : bool * string :=
  if Z.of_nat (length pods) != replicas then
    (false, "pod count mismatch: expected " +:+ fmt_d replicas +:+ ", got " +:+
            fmt_d (Z.of_nat (length pods)))
  else
    match onDeleteLoop pods updateRevision 0 with
    | inr waitReason => (false, waitReason)
    | inl readyCount =>
        if (readyCount <? minReady)%Z then
          (false, "not enough ready pods: " +:+ fmt_d readyCount +:+ " ready < minReady " +:+
                  fmt_d minReady)
        else (true, "")
    end.

Definition IsFinished (s : stsRollingStatus) : bool :=
  (roll_partition s == 0%Z) && (roll_updatedReplicas s == roll_totalCount s).

Definition UnavailableReplicas (s : stsRollingStatus) : Z :=
  Z.max 0 (i32 (roll_totalCount s - roll_availableReplicas s)).

Definition InProgressReplicas (s : stsRollingStatus) : Z :=
  Z.max 0 (i32 (i32 (roll_totalCount s - roll_partition s) - roll_updatedReplicas s)).

Definition UnavailableOrInProgressReplicas (s : stsRollingStatus) : Z :=
  Z.max (UnavailableReplicas s) (InProgressReplicas s).

(** [serverImpl.getMinReadyInstanceCount]. *)
Definition minReadyInstanceCount (instanceCount : Z) (minReady : option Z) (margin : Z) : Z :=
  let bound := Z.max (i32 (instanceCount - margin)) 0 in
  Z.min (Deref minReady bound) bound.

Definition pod_at_revision (updateRevision : string) (pod : Pod) : bool :=
  Deref (pod_Labels pod !! StatefulSetRevisionLabel) "" == updateRevision.

Definition pod_scheduled_ready (pod : Pod) : bool :=
  podIsScheduled pod && podConditionIsTrue pod PodReady.

Lemma pods_count_cons f pod pods :
  pods_count f (pod :: pods) = ((if f pod then 1 else 0) + pods_count f pods)%Z.
Proof. unfold pods_count. cbn. destruct (f pod); cbn; lia. Qed.

Lemma onDeleteLoop_spec pods rev n :
  (0 ≤ n)%Z → (n + Z.of_nat (length pods) < 2 ^ 31)%Z →
  match onDeleteLoop pods rev n with
  | inl ready => forallb (pod_at_revision rev) pods = true ∧ ready = (n + pods_count pod_scheduled_ready pods)%Z
  | inr _ => forallb (pod_at_revision rev) pods = false
  end.
Proof.
  revert n. induction pods as [|pod pods IH]; intros n Hn Hlen; cbn [onDeleteLoop].
  - split; [done|]. unfold pods_count. cbn. lia.
  - unfold length in Hlen; fold (length pods) in Hlen. cbn [forallb].
    unfold pod_at_revision at 1 3. destruct (_ == rev); cbn [negb andb]; [|done].
    rewrite pods_count_cons. unfold pod_scheduled_ready at 1. unfold inc.
    destruct (podIsScheduled pod && podConditionIsTrue pod PodReady).
    + rewrite i32_id by (unfold in_i32; lia). specialize (IH (n + 1)%Z).
      case_match; [|by apply IH; lia]. destruct IH as [? ->]; [lia..|]. split; [done|lia].
    + specialize (IH n). case_match; [|by apply IH; lia]. destruct IH as [? ->]; [lia..|].
      split; [done|lia].
Qed.

(** The pod counters are exact and conserve pods: below 2^31 pods the five wrapped
    [int32] counters equal the number of pods in each class, the pending, scheduled and
    terminating pods partition the list, and running or ready pods are scheduled ones. *)
Theorem countPods_spec pods names :
  (Z.of_nat (length pods) < 2 ^ 31)%Z →
  let c := countPods pods names in
  c = counts_spec names pods ∧
  (pc_pending c + pc_scheduled c + pc_terminating c = Z.of_nat (length pods))%Z ∧
  (0 ≤ pc_running c ≤ pc_scheduled c)%Z ∧ (0 ≤ pc_ready c ≤ pc_scheduled c)%Z.
Proof.
  intros Hlen. cbv zeta. rewrite countPods_counts by done. split; [done|].
  unfold counts_spec. cbn. clear Hlen. induction pods as [|pod pods IH]; [done|].
  rewrite !pods_count_cons. cbn [length].
  unfold pod_pending, pod_running, pod_ready, pod_alive_scheduled in *.
  destruct (podIsTerminating pod), (podIsScheduled pod); cbn [negb andb]; try lia.
  repeat case_match; lia.
Qed.

(** An OnDelete update is complete exactly when the user has recreated every pod: the
    number of pods is the number of replicas, each carries the new revision, and at least
    [minReady] of them are scheduled and ready. *)
Theorem evaluateOnDeleteCompletion_spec pods rev replicas minReady :
  (Z.of_nat (length pods) < 2 ^ 31)%Z →
  (evaluateOnDeleteCompletion pods rev replicas minReady).1 = true ↔
    Z.of_nat (length pods) = replicas ∧
    (∀ pod, pod ∈ pods → pod_Labels pod !! StatefulSetRevisionLabel = Some rev ∨
                         (pod_Labels pod !! StatefulSetRevisionLabel = None ∧ rev = "")) ∧
    (minReady ≤ pods_count pod_scheduled_ready pods)%Z.
Proof.
  intros Hlen. unfold evaluateOnDeleteCompletion.
  assert (forallb (pod_at_revision rev) pods = true ↔ ∀ pod, pod ∈ pods →
    pod_Labels pod !! StatefulSetRevisionLabel = Some rev ∨
    (pod_Labels pod !! StatefulSetRevisionLabel = None ∧ rev = "")) as Hrev.
  { rewrite forallb_forall. unfold pod_at_revision. split; intros H pod Hpod;
      rewrite ?list_elem_of_In in Hpod; specialize (H pod); rewrite ?list_elem_of_In in H;
      specialize (H Hpod); destruct (_ !! _); cbn in *; rewrite ?bool_decide_eq_true in *;
      naive_solver. }
  rewrite <- Hrev. clear Hrev.
  destruct (bool_decide_reflect (Z.of_nat (length pods) = replicas)) as [Hr|Hr]; cbn [negb];
    [|cbn; naive_solver].
  pose proof (onDeleteLoop_spec pods rev 0 ltac:(lia) ltac:(lia)) as Hloop.
  destruct (onDeleteLoop pods rev 0) as [ready|]; cbn.
  - destruct Hloop as [-> ->]. destruct (Z.ltb_spec (0 + pods_count pod_scheduled_ready pods) minReady);
      cbn; naive_solver lia.
  - rewrite Hloop. naive_solver.
Qed.

Lemma minReadyInstanceCount_bounds n minReady margin :
  (0 ≤ n < 2 ^ 31)%Z → (0 ≤ margin < 2 ^ 31)%Z →
  (minReadyInstanceCount n minReady margin ≤ Z.max (n - margin) 0)%Z.
Proof.
  intros Hn Hm. unfold minReadyInstanceCount. rewrite i32_id by (unfold in_i32; lia). lia.
Qed.

(** ** Correctness of readiness and removal *)

Section pods_theorems.
Context {E : Type} {MC : MetaConditions} {ML : MetaConditionsLaws MC} {SC : StatusClient E}.

Abbreviation W := (World E).

(** [ArePodsReady] reports what its interface documents.  After a successful listing
    of [pods] (seen in the world [w'] the listing leaves): Blocked when there are more pods
    than instances or fewer running pods than the minimum; Started when enough pods run but
    too few are ready; Ready when enough pods are ready.  A listing error is returned and
    reported as Blocked. *)
Theorem arePodsReady_spec (manager : podsManager W) names w pods err :
  val_of (listPods manager) w = (pods, err) → (Z.of_nat (length pods) < 2 ^ 31)%Z →
  let w' := run (listPods manager) w in
  let enough := getMinReadyInstanceCount manager w' 0 in
  let '(status, err') := val_of (arePodsReady manager names) w in
  err' = err ∧
  match err with
  | Some _ => cs_SyncStatus status = SyncStatusBlocked
  | None =>
      cs_SyncStatus status =
        if (getInstanceCount manager w' <? Z.of_nat (length pods))%Z then SyncStatusBlocked
        else if (pods_count (pod_running names) pods <? enough)%Z then SyncStatusBlocked
        else if (pods_count (pod_ready names) pods <? enough)%Z then SyncStatusStarted
        else SyncStatusReady
  end.
Proof.
  intros Hl Hlen. cbv zeta. unfold arePodsReady. rewrite val_bind, Hl.
  destruct err as [e|]; [done|]. go_step. split; [done|].
  rewrite countPods_counts by done. unfold id. cbn [counts_spec pc_running pc_ready].
  by repeat case_match.
Qed.

(** What [removePods] does to the two conditions of its protocol. *)
Definition removing_started (w : W) (c : component) : bool :=
  IsUpdateStatusConditionTrue w (GetPodsRemovingStartedCondition (cmp_labeller c)).
Definition pods_removed (w : W) (c : component) : bool :=
  IsUpdateStatusConditionTrue w (GetPodsRemovedCondition (cmp_labeller c)).

Lemma removed_is_not_started l : GetPodsRemovedCondition l ≠ GetPodsRemovingStartedCondition l.
Proof. intros H. by apply string_app_inj_l in H. Qed.

Lemma update_conditions_unique_yts {A} (m : go W A) w :
  preserves w_yts m → unique_types (w_update_conditions w) →
  unique_types (w_update_conditions (run m w)).
Proof. intros Hm. by rewrite (update_conditions_of_yts m Hm w). Qed.

Lemma condition_true_yts {A} (m : go W A) w t :
  preserves w_yts m → IsUpdateStatusConditionTrue (run m w) t = IsUpdateStatusConditionTrue w t.
Proof. intros Hm. unfold IsUpdateStatusConditionTrue, w_update_status, w_status. by rewrite (Hm w). Qed.

(** Pods are removed in two phases.  While removal has not started, the stateful set is
    asked to drop its pods, and only success of that request marks removal as started;
    afterwards the request is not repeated and PodsRemoved becomes true exactly when the
    pods are listed and none is left.  An error of either request is returned and changes
    no condition. *)
Theorem removePods_protocol (manager : podsManager W) c w `{!PodsManagerFrame manager} :
  unique_types (w_update_conditions w) →
  let '(err, w') := removePods manager c w in
  if removing_started w c then
    err = (val_of (listPods manager) w).2 ∧ w_env w' = w_env (run (listPods manager) w) ∧
    removing_started w' c = true ∧
    pods_removed w' c = pods_removed w c ||
      bool_decide (err = None ∧ (val_of (listPods manager) w).1 = [])
  else
    err = val_of (pm_removePods manager) w ∧ w_env w' = w_env (run (pm_removePods manager) w) ∧
    removing_started w' c = bool_decide (err = None) ∧ pods_removed w' c = pods_removed w c.
Proof.
  intros Hu. unfold removePods. rewrite go_bind_run. change (val_of (gets ?f) w) with (f w).
  change (run (gets ?f) w) with w. cbv beta.
  change (IsUpdateStatusConditionTrue w (GetPodsRemovingStartedCondition (cmp_labeller c)))
    with (removing_started w c).
  destruct (removing_started w c) eqn:Hs; cbn [negb].
  - rewrite go_bind_run. destruct (val_of (listPods manager) w) as [pods err] eqn:Hl.
    pose proof (listPods_frame (p:=manager)) as Hf.
    destruct err as [e|]; [|destruct (bool_decide_reflect (length pods = 0%nat)) as [Hp|Hp]].
    + unfold removing_started, pods_removed. cbn. rewrite !(condition_true_yts _ _ _ Hf).
      split_and!; try done. by rewrite orb_false_r.
    + apply nil_length_inv in Hp as ->. rewrite go_bind_run.
      unfold removing_started, pods_removed. cbn [mret go_ret].
      rewrite !IsUpdateStatusConditionTrue_set by by apply update_conditions_unique_yts.
      cbn [cond_Type cond_Status condition].
      rewrite bool_decide_eq_false_2 by (apply not_eq_sym, removed_is_not_started).
      rewrite (bool_decide_eq_true_2 (_ = _)) by done. rewrite (condition_true_yts _ _ _ Hf).
      split_and!; try done. by rewrite orb_true_r.
    + unfold removing_started, pods_removed. cbn. rewrite !(condition_true_yts _ _ _ Hf).
      split_and!; try done. rewrite bool_decide_eq_false_2, orb_false_r; [done|].
      intros [_ ->]. by apply Hp.
  - rewrite go_bind_run. pose proof (pm_removePods_frame (p:=manager)) as Hf.
    destruct (val_of (pm_removePods manager) w) as [e|] eqn:Hr.
    + unfold removing_started, pods_removed. cbn. rewrite !(condition_true_yts _ _ _ Hf). by split_and!.
    + rewrite go_bind_run. unfold removing_started, pods_removed. cbn [mret go_ret].
      rewrite !IsUpdateStatusConditionTrue_set by by apply update_conditions_unique_yts.
      cbn [cond_Type cond_Status condition].
      rewrite (bool_decide_eq_false_2 _ (removed_is_not_started (cmp_labeller c))).
      rewrite (bool_decide_eq_true_2 (_ = GetPodsRemovingStartedCondition _)) by done.
      by rewrite (condition_true_yts _ _ _ Hf).
Qed.

End pods_theorems.

(** ** Concrete pods *)

Definition example_pod (name revision : string) (ready : bool) : Pod :=
  mkPod name {[ StatefulSetRevisionLabel := revision ]} None ["ytserver"]
    [(PodScheduled, ConditionTrue); (PodReady, if ready then ConditionTrue else ConditionFalse)]
    [mkContainerStatus "ytserver" (Some true) true ready].

(** A manager of a fixed list of pods. *)
Definition fixed_manager (pods : list Pod) (instanceCount : Z) (minReady : option Z)
    : podsManager (World unit) := {|
  getInstanceCount := λ _, instanceCount;
  setInstanceCount := λ _, mret tt;
  getMinReadyInstanceCount := λ _ margin, minReadyInstanceCount instanceCount minReady margin;
  getPodAnnotation := λ _ _, "";
  listPods := mret (pods, None);
  pm_removePods := mret None;
  arePodsUpdatedToNewRevision := mret false;
|}.

#[global] Instance fixed_manager_frame pods n m : PodsManagerFrame (fixed_manager pods n m).
Proof. by split. Qed.

Definition example_pods : list Pod :=
  [example_pod "dnd-0" "r2" true; example_pod "dnd-1" "r2" false; example_pod "dnd-2" "r2" true].

Lemma countPods_spec_witness :
  countPods example_pods [] = mkPodCounts 0 3 3 2 0 ∧
  countPods example_pods [] = counts_spec [] example_pods.
Proof. split; [reflexivity|]. apply (countPods_spec example_pods []). reflexivity. Defined.

Lemma evaluateOnDeleteCompletion_spec_witness :
  (evaluateOnDeleteCompletion example_pods "r2" 3 2).1 = true ∧
  (2 ≤ pods_count pod_scheduled_ready example_pods)%Z.
Proof.
  split; [reflexivity|].
  exact (proj2 (proj2 (proj1 (evaluateOnDeleteCompletion_spec example_pods "r2" 3 2 eq_refl) eq_refl))).
Defined.

Lemma arePodsReady_spec_witness :
  cs_SyncStatus (val_of (arePodsReady (fixed_manager example_pods 3 (Some 3%Z)) []) example_world).1 =
    SyncStatusStarted.
Proof.
  exact (proj2 (arePodsReady_spec (fixed_manager example_pods 3 (Some 3%Z)) [] example_world
    example_pods None eq_refl eq_refl)).
Defined.

Lemma removePods_protocol_witness :
  removing_started (removePods (fixed_manager [] 3 None) (example_component 0 DataNodeType "")
    example_world).2 (example_component 0 DataNodeType "") = true.
Proof.
  pose proof (removePods_protocol (fixed_manager [] 3 None) (example_component 0 DataNodeType "")
    example_world ltac:(apply (bool_decide_unpack _); vm_compute; exact I)) as H.
  exact (proj1 (proj2 (proj2 H))).
Defined.
