(* ===== verification/UpdateModes.v ===== *)
(** * Update strategies of a component (src/pkg/components/helpers.go)

    How one component goes through the pods-removal phase of a cluster update: all pods
    at once (bulk), pod by pod under an unavailability budget (rolling), or waiting for
    the user to delete them (OnDelete).  A handler returns [None] where the Go code
    returns a nil status, letting the component handle the state itself. *)

From S2P Require Import Prelude Kubernetes ApiTypes Labeller Status ApiProxy Components PodsManager.

Section handlers.
Context {E : Type} {MC : MetaConditions} {SC : StatusClient E}.

Abbreviation W := (World E).
Abbreviation result := (option ComponentStatus * option error)%type.

(** ** The update plan seen from a component *)

Definition selectorNames (selector : ComponentUpdateSelector) (componentType : ComponentType)
    (componentName : string) : bool :=
  (component_Type (sel_Component selector) == componentType) &&
  ((component_Name (sel_Component selector) == "") ||
   (component_Name (sel_Component selector) == componentName)).

Fixpoint planUsesNewUpdateMode (plan : list ComponentUpdateSelector) (componentType : ComponentType)
    (componentName : string) : bool :=
  match plan with
  | [] => false
  | selector :: rest =>
      if selectorNames selector componentType componentName
      then match sel_Strategy selector with Some _ => true | None => false end
      else planUsesNewUpdateMode rest componentType componentName
  end.

Definition doesComponentUseNewUpdateMode (w : W) : ComponentType → string → bool :=
  planUsesNewUpdateMode (spec_UpdatePlan (yts_Spec (w_yts w))).

Fixpoint planUpdateStrategy (plan : list ComponentUpdateSelector) (componentType : ComponentType)
    (componentName : string) : ComponentUpdateModeType :=
  match plan with
  | [] => ComponentUpdateModeTypeNone
  | selector :: rest =>
      if selectorNames selector componentType componentName
      then match sel_Strategy selector with
           | Some strategy => ComponentUpdateStrategy_Type strategy
           | None => planUpdateStrategy rest componentType componentName
           end
      else planUpdateStrategy rest componentType componentName
  end.

Definition getComponentUpdateStrategy (w : W) : ComponentType → string → ComponentUpdateModeType :=
  planUpdateStrategy (spec_UpdatePlan (yts_Spec (w_yts w))).

(** ** Pre-checks *)

Definition runPrechecks (cmp : ComponentI W) : go W result :=
  let l := cmp_labeller (ci_base cmp) in
  SetUpdateStatusCondition
    (condition (GetPreChecksRunningCondition l) ConditionTrue "RunningPreChecks" "running pre-checks") ;;
  preCheckStatus ← ci_UpdatePreCheck cmp;
  if cs_SyncStatus preCheckStatus != SyncStatusReady then
    let msg := if cs_Message preCheckStatus == "" then "pre-checks failed" else cs_Message preCheckStatus in
    SetUpdateStatusCondition
      (condition (GetReadyCondition l) ConditionFalse "PreChecksFailed" msg) ;;
    mret (Some (ComponentStatusBlocked msg), None)
  else
    SetUpdateStatusCondition
      (condition (GetReadyCondition l) ConditionTrue "PreChecksCompleted" "pre-checks completed") ;;
    mret (None, None).

(** [if ytsaurus.ShouldRunPreChecks(...) { if status, err := runPrechecks(...); status != nil
    { return status, err } }], then [k]. *)
Definition withPrechecks (cmp : ComponentI W) (k : go W result) : go W result :=
  should ← gets (λ w, ShouldRunPreChecks w (GetType (ci_base cmp)) (GetFullName (ci_base cmp)));
  if should : bool then
    '(status, err) ← runPrechecks cmp;
    match status with
    | Some s => mret (Some s, err)
    | None => k
    end
  else k.

(** ** Handlers *)

Definition handleUpdatingClusterState (cmp : ComponentI W) (server : server W) (dry : bool) : go W result :=
  updating ← gets (λ w, components_IsUpdatingComponent w (ci_base cmp));
  state ← gets GetUpdateState;
  if updating : bool then
    if state == UpdateStateWaitingForPodsRemoval then
      err ← (if negb dry then removePods (srv_pods server) (ci_base cmp) else mret None);
      mret (Some (ComponentStatusUpdateStep "pods removal"), err)
    else if state != UpdateStateWaitingForPodsCreation then
      mret (Some ComponentStatusReady, None)
    else mret (None, None)
  else mret (Some (ComponentStatusReadyAfter "Not updating component"), None).

Definition handleBulkUpdatingClusterState (cmp : ComponentI W) (server : server W) (dry : bool)
    : go W result :=
  let l := cmp_labeller (ci_base cmp) in
  state ← gets GetUpdateState;
  match state with
  | UpdateStateWaitingForPodsRemoval =>
      newMode ← gets (λ w, doesComponentUseNewUpdateMode w (GetType (ci_base cmp)) (GetFullName (ci_base cmp)));
      if negb newMode then
        err ← (if negb dry then removePods (srv_pods server) (ci_base cmp) else mret None);
        mret (Some (ComponentStatusUpdateStep "pods removal"), err)
      else
        SetUpdateStatusCondition
          (condition (GetCondition l ConditionBulkUpdateModeStarted) ConditionTrue
             "BulkUpdateModeStarted" "bulk update mode started") ;;
        withPrechecks cmp (
          err ← (if negb dry then
                   SetUpdateStatusCondition
                     (condition (GetScalingDownCondition l) ConditionTrue "RemovingPods" "removing pods") ;;
                   removePods (srv_pods server) (ci_base cmp)
                 else mret None);
          mret (Some (ComponentStatusUpdateStep "pods removal"), err))
  | UpdateStateWaitingForPodsCreation =>
      SetUpdateStatusCondition
        (condition (GetScalingUpCondition l) ConditionTrue "CreatingPods" "creating new pods") ;;
      mret (None, None)
  | _ => mret (None, None)
  end.

Definition setPodsUpdatedCondition (cmp : ComponentI W) : go W unit :=
  SetUpdateStatusCondition
    (condition (GetPodsUpdatedCondition (cmp_labeller (ci_base cmp))) ConditionTrue
       ConditionPodsUpdated "All pods updated").

Definition setRollingBudgetExhaustedCondition (cmp : ComponentI W)
    (maxUnavailable effectiveUnavailable partition : Z) : go W unit :=
  SetUpdateStatusCondition
    (condition (GetRollingBudgetExhaustedCondition (cmp_labeller (ci_base cmp))) ConditionTrue
       "BudgetExhausted"
       ("rolling update is paused: budget exhausted (effectiveUnavailable=" +:+
        fmt_d effectiveUnavailable +:+ ", maxUnavailable=" +:+ fmt_d maxUnavailable +:+
        ", partition=" +:+ fmt_d partition +:+ ")")).

Definition handleOnDeleteUpdatingClusterState (cmp : ComponentI W) (server : server W) (dry : bool)
    : go W result :=
  let l := cmp_labeller (ci_base cmp) in
  let onDeleteWaitingCondition := GetWaitingOnDeleteUpdateCondition l in
  state ← gets GetUpdateState;
  if state != UpdateStateWaitingForPodsRemoval then mret (None, None) else
  if dry then
    waiting ← gets (λ w, IsUpdateStatusConditionTrue w onDeleteWaitingCondition);
    if negb waiting then mret (Some (ComponentStatusWaitingFor "OnDelete mode setup"), None)
    else mret (Some (ComponentStatusWaitingFor "manual pod update by user"), None)
  else
    withPrechecks cmp (
      setUpdateStrategy server OnDeleteStatefulSetStrategyType 0 0 ;;
      err ← srv_Sync server;
      match err with
      | Some e => mret (Some (ComponentStatusBlocked "Failed to sync StatefulSet"), Some e)
      | None =>
          err ← srv_Fetch server;
          match err with
          | Some e => mret (Some (ComponentStatusBlocked "Failed to fetch StatefulSet"), Some e)
          | None =>
              SetUpdateStatusCondition
                (condition onDeleteWaitingCondition ConditionTrue "OnDeleteModeStarted"
                   "OnDelete update mode started, StatefulSet synced, waiting for manual pod update") ;;
              updated ← arePodsUpdatedToNewRevision (srv_pods server);
              if updated : bool then
                SetUpdateStatusCondition
                  (condition (GetPodsUpdatedCondition l) ConditionTrue ConditionPodsUpdated
                     "All pods have been updated to new revision") ;;
                UpdateOnDeleteComponentsSummary onDeleteWaitingCondition false ;;
                mret (None, None)
              else
                UpdateOnDeleteComponentsSummary onDeleteWaitingCondition true ;;
                mret (Some (ComponentStatusUpdateStep "pods removal"), None)
          end
      end).

(** The unavailability budget of a rolling update: a margin of at least one instance. *)
Definition rollingMaxUnavailable (server : server W) (w : W) : Z :=
  i32 (getInstanceCount (srv_pods server) w - getMinReadyInstanceCount (srv_pods server) w 1).

Definition handleRollingUpdatingClusterState (cmp : ComponentI W) (server : server W) (dry : bool)
    : go W result :=
  let name := GetFullName (ci_base cmp) in
  state ← gets GetUpdateState;
  if state != UpdateStateWaitingForPodsRemoval then mret (None, None) else
  maxUnavailable ← gets (rollingMaxUnavailable server);
  if (maxUnavailable <=? 0)%Z then
    mret (Some (ComponentStatusBlocked
      ("instanceCount - minReadyInstanceCount must be positive for rolling update on " +:+ name)), None)
  else if dry then mret (Some (ComponentStatusUpdateStep "rolling update"), None)
  else
    '(status, err) ← getRollingUpdateStatus server;
    match err, status with
    | Some _, _ | None, None =>
        mret (Some (ComponentStatusUpdateStep "rolling update is not ready"), err)
    | None, Some roll =>
        update ← gets (needUpdate server);
        if IsNeedUpdate update then
          setUpdateStrategy server RollingUpdateStatefulSetStrategyType (roll_totalCount roll) maxUnavailable ;;
          err ← srv_Sync server;
          match err with
          | Some e =>
              mret (Some (ComponentStatusBlocked ("failed to initialize rolling update for " +:+ name)), Some e)
          | None => mret (Some (ComponentStatusUpdateStep "rolling started"), None)
          end
        else if IsFinished roll then
          setPodsUpdatedCondition cmp ;; mret (None, None)
        else
          let progress := Some (ComponentStatusUpdating
            ("Rolling update: " +:+ fmt_d (roll_updatedReplicas roll) +:+ " of " +:+
             fmt_d (roll_totalCount roll) +:+ " pods")) in
          let wasted := UnavailableOrInProgressReplicas roll in
          if (maxUnavailable <=? wasted)%Z then
            setRollingBudgetExhaustedCondition cmp maxUnavailable wasted (roll_partition roll) ;;
            mret (progress, None)
          else if roll_partition roll != 0%Z then
            withPrechecks cmp (
              setUpdateStrategy server RollingUpdateStatefulSetStrategyType
                (i32 (roll_partition roll - 1)) maxUnavailable ;;
              err ← srv_Sync server;
              match err with
              | Some e =>
                  mret (Some (ComponentStatusBlocked
                    ("failed to advance rolling update partition for " +:+ name)), Some e)
              | None => mret (progress, None)
              end)
          else mret (progress, None)
    end.

Definition dispatchComponentUpdate (cmp : ComponentI W) (server : server W) (dry : bool) : go W result :=
  updating ← gets (λ w, components_IsUpdatingComponent w (ci_base cmp));
  if negb updating then mret (Some (ComponentStatusReadyAfter "Not updating component"), None) else
  strategy ← gets (λ w, getComponentUpdateStrategy w (GetType (ci_base cmp)) (GetShortName (ci_base cmp)));
  match strategy with
  | ComponentUpdateModeTypeRollingUpdate => handleRollingUpdatingClusterState cmp server dry
  | ComponentUpdateModeTypeOnDelete => handleOnDeleteUpdatingClusterState cmp server dry
  | _ => handleBulkUpdatingClusterState cmp server dry
  end.

End handlers.

(** ** What the handlers leave alone *)

Section frame.
Context {E : Type} {MC : MetaConditions} {SC : StatusClient E}.

Abbreviation W := (World E).

Section with_server.
Context (cmp : ComponentI W) (server : server W).
Context `{!ServerFrame server} `{!ComponentFrame cmp}.

Lemma removePods_core c : preserves w_core (removePods (srv_pods server) c).
Proof. unfold removePods. go_frame. Qed.

Lemma runPrechecks_core : preserves w_core (runPrechecks cmp).
Proof. unfold runPrechecks. go_frame. Qed.

Lemma handleUpdatingClusterState_core dry : preserves w_core (handleUpdatingClusterState cmp server dry).
Proof. pose proof removePods_core. unfold handleUpdatingClusterState. go_frame. Qed.

Lemma handleBulkUpdatingClusterState_core dry :
  preserves w_core (handleBulkUpdatingClusterState cmp server dry).
Proof. pose proof removePods_core. unfold handleBulkUpdatingClusterState. go_frame. Qed.

Lemma handleOnDeleteUpdatingClusterState_core dry :
  preserves w_core (handleOnDeleteUpdatingClusterState cmp server dry).
Proof. unfold handleOnDeleteUpdatingClusterState. go_frame. Qed.

Lemma handleRollingUpdatingClusterState_core dry :
  preserves w_core (handleRollingUpdatingClusterState cmp server dry).
Proof. unfold handleRollingUpdatingClusterState. go_frame. Qed.

Lemma dispatchComponentUpdate_core dry : preserves w_core (dispatchComponentUpdate cmp server dry).
Proof.
  pose proof handleRollingUpdatingClusterState_core. pose proof handleOnDeleteUpdatingClusterState_core.
  pose proof handleBulkUpdatingClusterState_core. unfold dispatchComponentUpdate. go_frame.
Qed.

End with_server.
End frame.

#[export] Hint Resolve removePods_core handleUpdatingClusterState_core dispatchComponentUpdate_core
  : go_preserves.
