(* ===== verification/Master.v ===== *)
(** * Masters (src/pkg/components/master.go, the script helpers of helpers.go)

    A master component is the masters of one cell.  The primary one runs the scripts of the
    cluster's initialization and of the master steps of an update; a secondary cell that is
    added to a running cluster is kept down until the primary has opened the registration of
    cells.  The server, the init job and the secret are those of the other files; building
    the pod template, the generated configuration and the YSON encoding are parameters. *)

From S2P Require Import Prelude Kubernetes ApiTypes Labeller Status Ordered Ypatch Checks CypressActions ApiProxy Resources ConfigMaps InitJob Components YtsaurusClient PodsManager UpdateModes.

(** ** Names *)

Definition PhaseCellsInitialization := "CellsInitialization".
Definition PhaseCellsRolesAssignment := "CellsRolesAssignment".
Definition PhaseCellsRolesAssigned := "CellsRolesAssigned".
Definition PhaseClusterInitialization := "ClusterInitialization".
Definition PhaseClusterReconfiguration := "ClusterReconfiguration".
Definition PhaseCellRegistration := "CellRegistration".
Definition InstancePhaseAnnotationName := "ytsaurus.tech/instance-phase".
Definition YTCellTagLabelName := "ytsaurus.tech/cell-tag".
Definition YTCellIDLabelName := "ytsaurus.tech/cell-id".

Definition MasterCellsInitializationScriptName := "master-cells-initialization.sh".
Definition ClusterInitializationScriptName := "cluster-initialization.sh".
Definition MasterEnterReadOnlyScriptName := "master-enter-read-only.sh".
Definition MasterExitReadOnlyScriptName := "master-exit-read-only.sh".
Definition MasterCellsPreparationScriptName := "master-cells-preparation.sh".
Definition MasterCellsWaitRegistrationScriptName := "master-cells-wait-registration.sh".
Definition MasterCellsSettlementScriptName := "master-cells-settlement.sh".
Definition MasterCellsCompletionScriptName := "master-cells-completion.sh".

(** ** Scripts *)

Abbreviation Script := (error + list string)%type (only parsing).

(** [JoinTextGenerators]. *)
Fixpoint JoinTextGenerators (generators : list Script) : Script :=
  match generators with
  | [] => inr []
  | generator :: rest =>
      error_bind generator (λ text, error_map (app text) (JoinTextGenerators rest))
  end.

Definition RunIfCondition (condition : string) (commands : list string) : string :=
  strings_Join (["if [ " +:+ condition +:+ " ]; then"] ++ commands ++ ["fi"]) newline.

Definition RunIfNonexistent (path : string) (commands : list string) : string :=
  RunIfCondition ("$(/usr/bin/yt exists " +:+ path +:+ ") = 'false'") commands.

Definition RunIfExists (path : string) (commands : list string) : string :=
  RunIfCondition ("$(/usr/bin/yt exists " +:+ path +:+ ") = 'true'") commands.

Definition SetWithIgnoreExisting (path value : string) : string :=
  RunIfNonexistent path ["/usr/bin/yt set " +:+ path +:+ " " +:+ value].

Definition masterEnterReadOnly :=
  "YT_LOG_LEVEL=Debug /usr/bin/yt execute build_master_snapshots '{ set_read_only=%true; wait_for_snapshot_completion=%true; retry=%true; }'".
Definition masterExitReadOnly := "YT_LOG_LEVEL=Debug /usr/bin/yt execute master_exit_read_only '{}'".

(** The commands that show the state of every master of the cells. *)
Definition scriptDumpCellOrchids {Y : Ypath} (cypressPath : string) (addresses : list string) : Script :=
  inr (addresses ≫= λ address,
    let path := path_Child cypressPath address in
    ["/usr/bin/yt get '" +:+ path_Child path "orchid/monitoring/election" +:+ "' || :";
     "/usr/bin/yt get '" +:+ path_Child path MasterHydraPath +:+ "' || :"]).

Definition scriptDumpAllOrchids {Y : Ypath} (cells : list (string * list string)) : list Script :=
  (λ cell, scriptDumpCellOrchids cell.1 cell.2) <$> cells.

Definition scriptEnterReadOnly {Y : Ypath} (cells : list (string * list string)) : Script :=
  JoinTextGenerators [inr [initJobWithNativeDriverPrologue]; JoinTextGenerators (scriptDumpAllOrchids cells);
    inr [masterEnterReadOnly]].

Definition scriptExitReadOnly {Y : Ypath} (cells : list (string * list string)) : Script :=
  JoinTextGenerators [inr [initJobWithNativeDriverPrologue]; JoinTextGenerators (scriptDumpAllOrchids cells);
    inr [masterExitReadOnly]].

Definition scriptMasterCellsPreparation : Script :=
  inr [initJobWithNativeDriverPrologue;
       "/usr/bin/yt set //sys/@provision_lock %true";
       "/usr/bin/yt set //sys/@config/chunk_manager/enable_chunk_refresh %false";
       "/usr/bin/yt set //sys/@config/chunk_manager/enable_chunk_requisition_update %false";
       "/usr/bin/yt set //sys/@config/multicell_manager/testing/allow_master_cell_with_empty_role %true";
       "/usr/bin/yt set //sys/@config/multicell_manager/remove_secondary_cell_default_roles %true"].

Definition scriptMasterCellsCompletion : Script :=
  inr [initJobWithNativeDriverPrologue;
       "/usr/bin/yt set //sys/@config/chunk_manager/enable_chunk_refresh %true";
       "/usr/bin/yt set //sys/@config/chunk_manager/enable_chunk_requisition_update %true";
       "/usr/bin/yt remove //sys/@provision_lock -f"].

Definition quote : string := String (Ascii.ascii_of_nat 34) "".

(** [tags] is the sorted JSON list of the registered cell tags. *)
Definition scriptWaitingMasterCellsRegistation (secondaries : nat) (tags : string) : Script :=
  let registeredCells := "//sys/@registered_master_cell_tags" in
  inr [initJobWithNativeDriverPrologue;
       match secondaries with
       | O => "while test " +:+ quote +:+ "$(/usr/bin/yt get --format json " +:+ registeredCells +:+ ")" +:+ quote +:+
              " != '[]'; do sleep 1; done"
       | _ => "while test " +:+ quote +:+ "$(/usr/bin/yt get --format json " +:+ registeredCells +:+
              " | jq -c sort)" +:+ quote +:+ " != '" +:+ tags +:+ "'; do sleep 1; done"
       end].

(** [config] is the YSON of the cell descriptors. *)
Definition scriptMasterCellDescriptors (config : error + string) : Script :=
  error_bind config (λ config,
    inr [RunIfNonexistent "//sys/@provision_lock" ["exit 1"];
         "test " +:+ quote +:+ "$(/usr/bin/yt get //sys/@dynamically_propagated_masters_cell_tags)" +:+ quote +:+ " = '[]'";
         "/usr/bin/yt set //sys/@config/multicell_manager/cell_descriptors '" +:+ config +:+ "'";
         "/usr/bin/yt set //sys/@config/multicell_manager/remove_secondary_cell_default_roles %true"]).

Definition scriptMasterCellsInitialization (secondaries : nat) (tags : string) (config : error + string) : Script :=
  JoinTextGenerators [inr [initJobWithNativeDriverPrologue];
    scriptWaitingMasterCellsRegistation secondaries tags;
    scriptMasterCellDescriptors config;
    inr [masterEnterReadOnly]].

(** [secondaryMasters] is the YSON of the secondary masters of the cluster connection. *)
Definition scriptMasterCellsSettlement (config secondaryMasters : error + string) : Script :=
  error_bind secondaryMasters (λ secondaryMasters,
    JoinTextGenerators [inr [initJobWithNativeDriverPrologue]; scriptMasterCellDescriptors config;
      inr ["/usr/bin/yt set //sys/@cluster_connection/secondary_masters '" +:+ secondaryMasters +:+ "'"]]).

(** *** Media *)

Definition DefaultMedium := "default".
Definition mediumInitQuota : Z := Z.shiftl 1 30.

Definition add_media (locations : list string) (media : gset string) : gset string :=
  foldl (λ media medium, if (medium != "") && (medium != DefaultMedium) then {[ medium ]} ∪ media else media)
    media locations.

(** The media to create: the default primary one and those of the locations of the data and
    the exec nodes, given by their media, in the order of their names. *)
Definition getExtraMedia (defaultPrimaryMedium : option string) (dataNodes execNodes : list (list string))
    : list string :=
  let media := match defaultPrimaryMedium with Some m => {[ m ]} | None => ∅ end in
  let media := foldl (λ media locations, add_media locations media) media (dataNodes ++ execNodes) in
  SortStableFunc string_compare (elements media).

(** [attr] is the YSON of a medium's attributes. *)
Definition initMedia (attr : string → string) (defaultPrimaryMedium : option string) (media : list string) : string :=
  strings_Join
    ((media ≫= λ medium,
        let quotaPath := "//sys/accounts/sys/@resource_limits/disk_space_per_medium/" +:+ medium in
        ["/usr/bin/yt get //sys/media/" +:+ medium +:+ "/@name || /usr/bin/yt create domestic_medium --attr '" +:+
           attr medium +:+ "' || /usr/bin/yt create medium --attr '" +:+ attr medium +:+ "'";
         "/usr/bin/yt get " +:+ quotaPath +:+ " || /usr/bin/yt set " +:+ quotaPath +:+ " " +:+ fmt_d mediumInitQuota]) ++
     match defaultPrimaryMedium with
     | Some m => ["/usr/bin/yt set //@primary_medium '" +:+ m +:+ "'"]
     | None => []
     end) newline.

Definition initGroups : string := "/usr/bin/yt create group --attr '{name=admins}' --ignore-existing".

(** *** The initialization of the cluster *)

(** What [scriptInitialization] is made of: texts of other functions and of the generated
    connection, and whether the cluster is initializing. *)
Record initialization := mkInitialization {
  ini_connConfig : error + string;
  ini_schemaACLs : error + string;
  ini_uploaderUser : error + string;
  ini_clusterName : string;
  ini_media : string;
  ini_adminUser : list string;
  ini_initializing : bool;
}.

Definition fmt_t (b : bool) : string := if b then "true" else "false".

Definition scriptInitialization (i : initialization) : Script :=
  error_bind (ini_connConfig i) (λ connConfig,
  error_bind (match ini_schemaACLs i with
              | inl err => inl ("failed to create init schema ACLs commands: " +:+ err)
              | inr c => inr c end) (λ schemaACLs,
  error_bind (match ini_uploaderUser i with
              | inl err => inl ("failed to create init hydra persistence uploader user commands: " +:+ err)
              | inr c => inr c end) (λ uploaderUser,
  let initCommands :=
    [masterExitReadOnly; initGroups;
     RunIfExists "//sys/@provision_lock" [schemaACLs];
     "/usr/bin/yt create scheduler_pool_tree --attributes '{name=default; config={nodes_filter=" +:+ quote +:+ quote +:+ "}}' --ignore-existing";
     SetWithIgnoreExisting "//sys/pool_trees/@default_tree" "default";
     RunIfNonexistent "//sys/pools" ["/usr/bin/yt link //sys/pool_trees/default //sys/pools"];
     RunIfNonexistent "//sys/pool_trees/default/research"
       ["/usr/bin/yt create scheduler_pool --attributes '{name=research; pool_tree=default}'"];
     "/usr/bin/yt create map_node //home --ignore-existing";
     RunIfExists "//sys/@provision_lock" ["/usr/bin/yt set //sys/@cluster_connection '" +:+ connConfig +:+ "'"];
     RunIfExists "//sys/@provision_lock" ["/usr/bin/yt set //sys/@cluster_name '" +:+ ini_clusterName i +:+ "'"];
     ini_media i] ++ ini_adminUser i in
  inr [initJobWithNativeDriverPrologue;
       RunIfCondition ("'" +:+ fmt_t (ini_initializing i) +:+ "' = 'true'") initCommands;
       uploaderUser;
       "/usr/bin/yt remove //sys/@provision_lock -f"]))).

(** ** The component *)

(** What a master sees of the masters of another cell. *)
Record MasterRef := mkMasterRef { mr_base : component; mr_spec : MastersSpec }.

Record Master (E : Type) := mkMaster {
  mas_base : component;
  mas_spec : MastersSpec;
  mas_server : server (World E);
  mas_initJob : InitJob (E:=E);
  mas_uploaderSecret : option (lens E (ManagedResource Secret));
  mas_secondaryMasters : list MasterRef;
  mas_cellID : string;
  (** [buildStatefulSet] with the given labels and annotations added to the pod template and
      the containers and affinity of the master; the error of a sidecar that cannot be
      decoded. *)
  mas_buildPod : list (string * string) → list (string * string) → go (World E) (option error);
}.
Arguments mkMaster {E} _ _ _ _ _ _ _ _.
Arguments mas_base {E} _.
Arguments mas_spec {E} _.
Arguments mas_server {E} _.
Arguments mas_initJob {E} _.
Arguments mas_uploaderSecret {E} _.
Arguments mas_secondaryMasters {E} _.
Arguments mas_cellID {E} _.
Arguments mas_buildPod {E} _ _ _ _.

(** The init job of the primary master has a generator for each of these scripts. *)
Definition master_scripts : list string :=
  [MasterCellsInitializationScriptName; ClusterInitializationScriptName; MasterEnterReadOnlyScriptName;
   MasterExitReadOnlyScriptName; MasterCellsPreparationScriptName; MasterCellsWaitRegistrationScriptName;
   MasterCellsSettlementScriptName; MasterCellsCompletionScriptName].

(** [%+v] of the maintenance list. *)
Definition fmt_maintenance (l : list MasterCellMaintenanceInfo) : string :=
  fmt_strings ((λ i, "{CellTag:" +:+ fmt_d (mcm_CellTag i) +:+ " Unregistered:" +:+ fmt_t (mcm_Unregistered i) +:+ "}") <$> l).

Section master.
Context {E : Type} {MC : MetaConditions} {SC : StatusClient E} {CF : ConfigCodec} {Y : Ypath} {CD : ClientDeps E}.
Context `{HKC : !KubeClient E ConfigMap} `{HKJ : !KubeClient E Job} `{HKS : !KubeClient E Secret}.

Abbreviation W := (World E).

(** *** Cells that are not registered *)

Definition IsUnregistered (w : W) (spec : MastersSpec) : bool :=
  ContainsFunc (us_MasterCellsMaintenance (w_update_status w)) (λ info,
    (mcm_CellTag info == ms_CellTag spec) && mcm_Unregistered info).

Definition SetUnregistered (spec : MastersSpec) (unregistered : bool) : go W unit :=
  maintenance ← gets (λ w, us_MasterCellsMaintenance (w_update_status w));
  let maintenance := filter (λ info, mcm_CellTag info ≠ ms_CellTag spec) maintenance in
  let maintenance :=
    if unregistered then maintenance ++ [mkMasterCellMaintenanceInfo (ms_CellTag spec) true] else maintenance in
  modify (w_set_update_status (us_set_MasterCellsMaintenance maintenance)) ;;
  RecordNormal "MasterCell" ("Maintenance " +:+ fmt_maintenance maintenance).

Context (m : Master E).

Definition IsPrimary : bool := lab_InstanceGroup (cmp_labeller (mas_base m)) == "".

Definition GetCypressPath : string :=
  if IsPrimary then PrimaryMastersPath
  else path_Child SecondaryMastersPath (lab_InstanceGroup (cmp_labeller (mas_base m))).

Definition master_ArePodsReady : go W (ComponentStatus * option error) :=
  arePodsReady (srv_pods (mas_server m)) ["ytserver"].

Definition master_NeedUpdate (w : W) : ComponentStatus :=
  let t name := IsStatusConditionTrue w name in
  let shutdown := cmt_Shutdown (GetClusterMaintenance w) == ClusterShutdownExceptMasters in
  if shutdown && t ConditionMasterCellsPreparation then ComponentStatusNeedUpdate "Master cells preparation"
  else if shutdown && t ConditionMasterCellsRegistration then ComponentStatusNeedUpdate "Master cells registration"
  else if shutdown && t ConditionMasterCellsCompletion then ComponentStatusNeedUpdate "Master cells completion"
  else if negb IsPrimary && IsUnregistered w (mas_spec m) && negb (t ConditionMasterCellsRegistration) then
    ComponentStatusBlocked ("Secondary master cell " +:+ lab_InstanceGroup (cmp_labeller (mas_base m)) +:+
      " cannot register yet")
  else needUpdate (mas_server m) w.

(** What the handlers of an update look at: the identity and the (default) pre-check. *)
Definition master_self : ComponentI W :=
  mkComponentI _ (mas_base m) (mret None) (gets master_NeedUpdate) (λ _, mret (ComponentStatusReady, None))
    (mret ComponentStatusReady).

(** *** Pods *)

Definition doServerSync : go W (option error) :=
  initializing ← gets IsInitializing;
  initialized ← gets (λ w, IsStatusConditionTrue w ConditionMasterCellsInitialized);
  let labels :=
    [(YTCellTagLabelName, GetCellName (cmp_labeller (mas_base m)) (ms_CellTag (mas_spec m)));
     (YTCellIDLabelName, mas_cellID m)] in
  let annotations :=
    if initializing && negb initialized then [(InstancePhaseAnnotationName, PhaseCellsInitialization)] else [] in
  err ← mas_buildPod m labels annotations;
  match err with
  | Some err => mret (Some err)
  | None => srv_Sync (mas_server m)
  end.

Definition ServerSync (dry : bool) : go W (ComponentStatus * option error) :=
  needSync ← gets (λ w, NeedSync w (mas_base m) (mas_server m));
  phase ← gets (λ w, IsInitializing w && IsStatusConditionTrue w ConditionMasterCellsInitialized &&
    (getPodAnnotation (srv_pods (mas_server m)) w InstancePhaseAnnotationName == PhaseCellsInitialization));
  if needSync || phase then
    err ← (if dry then mret None else doServerSync);
    mret (ComponentStatusWaitingFor "components", err)
  else mret (ComponentStatusReady, None).

(** *** The initialization of the cluster *)

Definition runInitPhaseJobs (dry : bool) : go W (ComponentStatus * option error) :=
  initialized ← gets (λ w, IsStatusConditionTrue w ConditionMasterCellsInitialized);
  if negb initialized then
    RunScript (mas_initJob m) dry PhaseCellsInitialization MasterCellsInitializationScriptName (Some (λ _,
      SetStatusCondition (condition ConditionMasterCellsInitialized ConditionTrue PhaseCellsInitialization
        "Master cell roles initialized") ;;
      mret (ComponentStatusWaitingFor "cluster initialization")))
  else RunScript (mas_initJob m) dry PhaseClusterInitialization ClusterInitializationScriptName None.

(** *** The steps of an update *)

(** The states of the primary master with the script and what its completion does; [None] for
    the other states. *)
Definition primaryScript (updateState : UpdateState) : option (string * option (go W unit)) :=
  match updateState with
  | UpdateStateWaitingForSnapshots =>
      Some (MasterEnterReadOnlyScriptName, Some
        (SetUpdateStatusCondition (condition ConditionSnaphotsSaved ConditionTrue "Update"
           "Master read-only snapshots were built")))
  | UpdateStateWaitingForMasterEnterReadOnly | UpdateStateWaitingForMasterCellsEnterReadOnly =>
      Some (MasterEnterReadOnlyScriptName, None)
  | UpdateStateWaitingForMasterExitReadOnly | UpdateStateWaitingForMasterCellsExitReadOnly =>
      Some (MasterExitReadOnlyScriptName, None)
  | UpdateStateWaitingForSidecarsInitialize => Some (ClusterInitializationScriptName, None)
  | UpdateStateWaitingForMasterCellsPreparation => Some (MasterCellsPreparationScriptName, None)
  | UpdateStateWaitingForMasterCellsRegistration =>
      Some (MasterCellsWaitRegistrationScriptName, Some (
        mapM_unit (λ secondary,
          unregistered ← gets (λ w, IsUnregistered w (mr_spec secondary));
          if (0 <? is_InstanceCount (ms_InstanceSpec (mr_spec secondary)))%Z && unregistered
          then SetUnregistered (mr_spec secondary) false else mret tt) (mas_secondaryMasters m) ;;
        RemoveStatusCondition ConditionMasterCellsRegistration))
  | UpdateStateWaitingForMasterCellsSettlement =>
      Some (MasterCellsSettlementScriptName, Some (
        SetStatusCondition (condition ConditionMasterCellsInitialized ConditionTrue PhaseCellsRolesAssignment
          "Master cells roles assignment complete") ;;
        SetStatusCondition (condition ConditionMasterCellsCompletion ConditionTrue PhaseCellRegistration
          "Master cells completion is pending")))
  | UpdateStateWaitingForMasterCellsCompletion =>
      Some (MasterCellsCompletionScriptName, Some (RemoveStatusCondition ConditionMasterCellsCompletion))
  | _ => None
  end.

Definition openRegistration (dry : bool) (updateState : UpdateState) : go W (ComponentStatus * option error) :=
  (if dry then mret tt else
     RemoveStatusCondition ConditionMasterCellsPreparation ;;
     SetStatusCondition (condition ConditionMasterCellsRegistration ConditionTrue PhaseCellRegistration
       "Master cells registration is open") ;;
     SetUpdateStatusCondition (condition (GetUpdateStateCompleteCondition updateState) ConditionTrue "Complete" "Done")) ;;
  mret (ComponentStatusWaitingFor "opening master cell registration", None).

(** The part of [Sync] under [IsUpdating]; [None] continues with the server. *)
Definition syncUpdating (dry : bool) : go W (option (ComponentStatus * option error)) :=
  updating ← gets (λ w, components_IsUpdatingComponent w (mas_base m));
  if negb updating then mret (Some (ComponentStatusReadyAfter "Not updating component", None)) else
  updateState ← gets GetUpdateState;
  if IsPrimary && (updateState == UpdateStateWaitingForMasterCellsAcception) then
    r ← openRegistration dry updateState; mret (Some r)
  else
  match (if IsPrimary then primaryScript updateState else None) with
  | Some (script, complete) =>
      r ← RunUpdateScript (mas_initJob m) dry updateState script complete; mret (Some r)
  | None =>
      match updateState with
      | UpdateStateWaitingForPodsRemoval =>
          strategy ← gets (λ w, getComponentUpdateStrategy w MasterType (GetShortName (mas_base m)));
          '(status, err) ← match strategy with
                           | ComponentUpdateModeTypeOnDelete =>
                               handleOnDeleteUpdatingClusterState master_self (mas_server m) dry
                           | _ => handleBulkUpdatingClusterState master_self (mas_server m) dry
                           end;
          mret (match status with Some status => Some (status, err) | None => None end)
      | UpdateStateWaitingForMasterReady | UpdateStateWaitingForMasterCellsRegistration => mret None
      | _ => mret (Some (ComponentStatusReadyAfter "No actions required for this update state", None))
      end
  end.

(** The token of the uploader; [None] when there is nothing to do. *)
Definition syncUploaderSecret (dry : bool) : go W (option (ComponentStatus * option error)) :=
  match mas_uploaderSecret m with
  | None => mret None
  | Some secret =>
      need ← gets (λ w, secret_NeedSync secret w TokenSecretKey "");
      if negb need then mret None else
      name ← gets (λ w, res_name (resource secret w));
      err ← (if dry then mret None else
               token ← in_env GenerateToken;
               secret_Build (cmp_labeller (mas_base m)) secret ;;
               in_resource secret (λ r, res_set_new
                 (mkSecret (sec_meta (res_newObject r)) (sec_Type (res_newObject r)) (sec_Data (res_newObject r))
                    {[ TokenSecretKey := token ]}) r) ;;
               resource_Sync secret);
      mret (Some (ComponentStatusWaitingFor name, err))
  end.

(** The checks of a secondary cell outside the initialization of the cluster. *)
Definition syncRegistration (dry : bool) : go W (option (ComponentStatus * option error)) :=
  unregistered ← gets (λ w, IsUnregistered w (mas_spec m));
  let initiated := (0 <? is_InstanceCount (ms_InstanceSpec (mas_spec m)))%Z in
  if negb IsPrimary && negb initiated && negb unregistered then
    (if dry then mret tt else SetUnregistered (mas_spec m) true) ;;
    mret (Some (ComponentStatusWaitingFor "marking secondary master cell unregistered", None))
  else if negb IsPrimary && initiated && unregistered then
    preparation ← gets (λ w, IsStatusConditionTrue w ConditionMasterCellsPreparation);
    registration ← gets (λ w, IsStatusConditionTrue w ConditionMasterCellsRegistration);
    if negb registration && negb preparation then
      (if dry then mret tt else
         SetStatusCondition (condition ConditionMasterCellsPreparation ConditionTrue PhaseClusterReconfiguration
           "Secondary master cells registration is pending")) ;;
      mret (Some (ComponentStatusWaitingFor "starting secondary master cell registration", None))
    else
      (if negb registration then setInstanceCount (srv_pods (mas_server m)) 0 else mret tt) ;;
      mret None
  else mret None.

(** The bookkeeping of the assignment of cell roles, which a dry pass does too. *)
Definition syncCellRoles : go W unit :=
  maintenance ← gets GetClusterMaintenance;
  cellsInitialized ← gets (λ w, GetStatusCondition w ConditionMasterCellsInitialized);
  if (cmt_Shutdown maintenance == ClusterShutdownExceptMasters) && cmt_AssignMasterCellsRoles maintenance then
    if match cellsInitialized with Some c => cond_Reason c != PhaseCellsRolesAssignment | None => true end then
      SetStatusCondition (condition ConditionMasterCellsInitialized ConditionFalse PhaseCellsRolesAssignment
        "Master cells roles assignment is pending") ;;
      SetStatusCondition (condition ConditionMasterCellsPreparation ConditionTrue PhaseClusterReconfiguration
        "Master cells roles assignment is pending")
    else mret tt
  else if match cellsInitialized with
          | Some c => (cond_Reason c == PhaseCellsRolesAssignment) && (cond_Status c == ConditionTrue)
          | None => false end then
    SetStatusCondition (condition ConditionMasterCellsInitialized ConditionTrue PhaseCellsRolesAssigned
      "Master cells roles assigned")
  else mret tt.

(** The first secondary master that is not running. *)
Definition blockingSecondary (w : W) : option ComponentStatus :=
  head (filter (λ s, IsRunning s = false) ((λ r, GetStatus w (mr_base r)) <$> mas_secondaryMasters m)).

(** *** Patches *)

(** The masters of a cell in the generated connection of the cluster. *)
Record connMasterCell := mkConnMasterCell { ccell_CellID : string; ccell_Addresses : Any; ccell_Peers : Any }.

Record ClusterConnection := mkClusterConnection {
  conn_PrimaryMaster : connMasterCell;
  conn_SecondaryMasters : list connMasterCell;
  conn_BusClient : option Any;
}.

(** [slices.IndexFunc] over the secondary masters, with the cell found. *)
Definition cellIndex (conn : ClusterConnection) : option (nat * connMasterCell) :=
  list_find (λ cell, ccell_CellID cell = mas_cellID m) (conn_SecondaryMasters conn).

Definition cellPath (index : nat) : string := path_Child "/secondary_masters" (fmt_d (Z.of_nat index)).

Definition master_patch (conn : ClusterConnection) : Patch :=
  if IsPrimary then
    [Test "/primary_master/cell_id" (VString (mas_cellID m));
     Replace "/primary_master/addresses" (ccell_Addresses (conn_PrimaryMaster conn));
     Replace "/primary_master/peers" (ccell_Peers (conn_PrimaryMaster conn));
     ReplaceOrRemove id "/bus_client" (conn_BusClient conn)]
  else
    match cellIndex conn with
    | Some (index, cell) =>
        [Test (path_Child (cellPath index) "cell_id") (VString (mas_cellID m));
         Replace (path_Child (cellPath index) "addresses") (ccell_Addresses cell);
         Replace (path_Child (cellPath index) "peers") (ccell_Peers cell)]
    | None => []
    end.

Definition master_GetCypressPatch (conn : ClusterConnection) : PatchSet :=
  {[ "//sys/@cluster_connection" := master_patch conn ]}.

(** Where the identifier of the cell is in the connection. *)
Definition cellIDPath (conn : ClusterConnection) : string :=
  if IsPrimary then "/primary_master/cell_id"
  else match cellIndex conn with Some (index, _) => path_Child (cellPath index) "cell_id" | None => "" end.

(** Stop with a status that is not ready, or an error. *)
Definition unless_ready (step rest : go W (ComponentStatus * option error)) : go W (ComponentStatus * option error) :=
  '(status, err) ← step;
  if negb (IsReady status) || negb (bool_decide (err = None)) then mret (status, err) else rest.

Definition syncServer (dry : bool) : go W (ComponentStatus * option error) :=
  unless_ready (ServerSync dry) (
  unless_ready master_ArePodsReady (
  blocker ← gets blockingSecondary;
  match blocker with
  | Some status => mret (Blocker status, None)
  | None =>
      initializing ← gets IsInitializing;
      if IsPrimary && initializing then unless_ready (runInitPhaseJobs dry) (mret (ComponentStatusReady, None))
      else mret (ComponentStatusReady, None)
  end)).

(** Return what the step has decided, or continue. *)
Definition or_else (step : go W (option (ComponentStatus * option error)))
    (rest : go W (ComponentStatus * option error)) : go W (ComponentStatus * option error) :=
  r ← step; match r with Some r => mret r | None => rest end.

Definition master_Sync (dry : bool) : go W (ComponentStatus * option error) :=
  updating ← gets IsUpdating;
  or_else (if updating : bool then syncUpdating dry else mret None) (
  or_else (syncUploaderSecret dry) (
  initializing ← gets IsInitializing;
  or_else (if initializing : bool then mret None else
             r ← syncRegistration dry;
             match r with Some r => mret (Some r) | None => syncCellRoles ;; mret None end)
  (syncServer dry))).

End master.

(** ** Facts *)

(** Every step of an update that runs a script on the primary master has a generator for it. *)
Lemma primaryScript_exists {E} {MC : MetaConditions} (m : Master E) state script complete :
  primaryScript m state = Some (script, complete) → script ∈ master_scripts.
Proof. destruct state; cbn; intros [=]; subst; apply (bool_decide_unpack _); vm_compute; exact I. Qed.

(** *** Media *)

Lemma elem_of_add_media locations (media : gset string) x :
  x ∈ add_media locations media ↔ x ∈ media ∨ (x ∈ locations ∧ x ≠ "" ∧ x ≠ DefaultMedium).
Proof.
  revert media. induction locations as [|l locations IH]; intros media; cbn.
  { split; [by left|]. intros [?|(?%elem_of_nil & _)]; done. }
  fold (add_media locations (if (l != "") && (l != DefaultMedium) then {[ l ]} ∪ media else media)).
  rewrite IH, elem_of_cons.
  destruct (bool_decide_reflect (l = "")) as [H1|H1], (bool_decide_reflect (l = DefaultMedium)) as [H2|H2];
    cbn [negb andb]; rewrite ?elem_of_union, ?elem_of_singleton; naive_solver.
Qed.

(** The media to create are each listed once, in order, and are exactly the default primary
    medium and the named media of the locations other than the default one. *)
Lemma getExtraMedia_spec d dataNodes execNodes :
  NoDup (getExtraMedia d dataNodes execNodes) ∧
  StronglySorted (λ x y, (string_compare x y ≤ 0)%Z) (getExtraMedia d dataNodes execNodes) ∧
  ∀ x, x ∈ getExtraMedia d dataNodes execNodes ↔
    d = Some x ∨ (x ≠ "" ∧ x ≠ DefaultMedium ∧ ∃ locations, locations ∈ dataNodes ++ execNodes ∧ x ∈ locations).
Proof.
  unfold getExtraMedia. split_and!.
  - rewrite SortStableFunc_Permutation. apply NoDup_elements.
  - apply SortStableFunc_sorted, string_compare_ok.
  - intros x. rewrite SortStableFunc_Permutation, elem_of_elements.
    generalize (dataNodes ++ execNodes). intros nodes.
    assert (∀ media : gset string, x ∈ foldl (λ media locations, add_media locations media) media nodes ↔
      x ∈ media ∨ (x ≠ "" ∧ x ≠ DefaultMedium ∧ ∃ locations, locations ∈ nodes ∧ x ∈ locations)) as ->.
    { induction nodes as [|l nodes IH]; intros media; cbn [foldl].
      - split; [by left|]. by intros [?|(_ & _ & ? & ?%elem_of_nil & _)].
      - rewrite IH, elem_of_add_media. setoid_rewrite elem_of_cons. naive_solver. }
    destruct d as [d|]; rewrite ?elem_of_singleton, ?elem_of_empty; naive_solver.
Qed.

(** *** Cells that are not registered *)

Section master_facts.
Context {E : Type} {MC : MetaConditions} {ML : MetaConditionsLaws MC} {SC : StatusClient E} {CF : ConfigCodec}.
Context {Y : Ypath} {CD : ClientDeps E}.
Context `{HKC : !KubeClient E ConfigMap} `{HKJ : !KubeClient E Job} `{HKS : !KubeClient E Secret}.

Abbreviation W := (World E).
Implicit Types (w : W) (m : Master E).

Lemma SetUnregistered_list spec b w :
  us_MasterCellsMaintenance (w_update_status (run (SetUnregistered spec b) w)) =
    let kept := filter (λ info, mcm_CellTag info ≠ ms_CellTag spec) (us_MasterCellsMaintenance (w_update_status w)) in
    if b then kept ++ [mkMasterCellMaintenanceInfo (ms_CellTag spec) true] else kept.
Proof. reflexivity. Qed.

(** The list of cells under maintenance is a set of tags. *)
Lemma SetUnregistered_IsUnregistered spec b spec' w :
  IsUnregistered (run (SetUnregistered spec b) w) spec' =
    if ms_CellTag spec' == ms_CellTag spec then b else IsUnregistered w spec'.
Proof.
  unfold IsUnregistered. rewrite SetUnregistered_list. generalize (us_MasterCellsMaintenance (w_update_status w)). intros l.
  assert (∀ t, ContainsFunc (filter (λ info, mcm_CellTag info ≠ ms_CellTag spec) l)
      (λ info, (mcm_CellTag info == t) && mcm_Unregistered info) =
    if t == ms_CellTag spec then false else ContainsFunc l (λ info, (mcm_CellTag info == t) && mcm_Unregistered info)) as Hl.
  { intros t. induction l as [|i l IH]; [by case_match|]. rewrite filter_cons. unfold ContainsFunc in *. cbn [existsb].
    destruct (decide (mcm_CellTag i ≠ ms_CellTag spec)) as [Hd|Hd]; cbn [existsb]; rewrite IH.
    - destruct (bool_decide_reflect (t = ms_CellTag spec)) as [Ht|Ht]; [|done].
      by rewrite bool_decide_eq_false_2 by congruence.
    - apply dec_stable in Hd. destruct (bool_decide_reflect (t = ms_CellTag spec)) as [Ht|Ht]; [done|].
      by rewrite bool_decide_eq_false_2 by congruence. }
  destruct b; [|by rewrite Hl]. unfold ContainsFunc in *. rewrite existsb_app, Hl. cbn [existsb mcm_CellTag mcm_Unregistered].
  destruct (bool_decide_reflect (ms_CellTag spec' = ms_CellTag spec)) as [->|Hn]; cbn [orb].
  - by rewrite bool_decide_eq_true_2.
  - rewrite bool_decide_eq_false_2 by congruence. by rewrite orb_false_r.
Qed.

(** The number of instances is in the memory of the operator. *)
Class ServerCounts m : Prop := {
  count_set : ∀ n w, getInstanceCount (srv_pods (mas_server m)) (run (setInstanceCount (srv_pods (mas_server m)) n) w) = n;
  count_env : ∀ w w', w_env w = w_env w' →
    getInstanceCount (srv_pods (mas_server m)) w = getInstanceCount (srv_pods (mas_server m)) w';
}.

Lemma syncCellRoles_env w : w_env (run syncCellRoles w) = w_env w.
Proof. unfold syncCellRoles. go_step. by repeat case_match. Qed.

Lemma syncUploaderSecret_None m dry w :
  val_of (syncUploaderSecret m dry) w = None → run (syncUploaderSecret m dry) w = w.
Proof.
  unfold syncUploaderSecret. destruct (mas_uploaderSecret m) as [secret|]; [|done]. go_step.
  destruct (negb _); [done|]. by go_step.
Qed.

(** A pass outside an update, step by step. *)
Lemma master_Sync_steps m dry w :
  IsUpdating w = false →
  master_Sync m dry w =
    match val_of (syncUploaderSecret m dry) w with
    | Some r => (r, run (syncUploaderSecret m dry) w)
    | None =>
        if IsInitializing w then syncServer m dry w else
        match val_of (syncRegistration m dry) w with
        | Some r => (r, run (syncRegistration m dry) w)
        | None => syncServer m dry (run syncCellRoles (run (syncRegistration m dry) w))
        end
    end.
Proof.
  intros Hup. unfold master_Sync, or_else. rewrite go_bind_run, val_gets, run_gets, Hup.
  rewrite go_bind_run, val_ret, run_ret, go_bind_run. pose proof (syncUploaderSecret_None m dry w) as Hs.
  destruct (val_of (syncUploaderSecret m dry) w) as [r|]; [done|]. rewrite Hs by done.
  rewrite go_bind_run, val_gets, run_gets. destruct (IsInitializing w); [done|].
  rewrite go_bind_run, val_bind, run_bind. destruct (val_of (syncRegistration m dry) w); [done|]. by rewrite val_bind, run_bind, val_ret, run_ret.
Qed.

(** C31.  The masters of a new secondary cell are not started before the primary master has
    opened the registration of cells: in a pass over a running cluster, for a secondary cell
    that has instances, is marked as unregistered and whose registration is not open, either
    the pass ends before it touches the server, with the token of the uploader or with the
    request for the preparation of cells, or it goes on with the number of instances of the
    server set to zero. *)
Theorem unregistered_cell_held m w :
  ServerCounts m → IsPrimary m = false → IsUpdating w = false → IsInitializing w = false →
  (0 < is_InstanceCount (ms_InstanceSpec (mas_spec m)))%Z →
  IsUnregistered w (mas_spec m) = true →
  IsStatusConditionTrue w ConditionMasterCellsRegistration = false →
  (∃ r w1, syncUploaderSecret m false w = (Some r, w1) ∧ master_Sync m false w = (r, w1)) ∨
  (IsStatusConditionTrue w ConditionMasterCellsPreparation = false ∧
   IsReady (val_of (master_Sync m false) w).1 = false ∧ w_env (run (master_Sync m false) w) = w_env w) ∨
  (∃ w1, getInstanceCount (srv_pods (mas_server m)) w1 = 0%Z ∧ master_Sync m false w = syncServer m false w1).
Proof.
  intros HC Hp Hup Hin Hn Hreg Hopen.
  change (val_of (master_Sync m false) w) with (master_Sync m false w).1.
  change (run (master_Sync m false) w) with (master_Sync m false w).2. rewrite master_Sync_steps, Hin by done.
  destruct (val_of (syncUploaderSecret m false) w) as [r|] eqn:Hu.
  { left. exists r, (run (syncUploaderSecret m false) w). split; [by rewrite go_eta, Hu|done]. }
  right. clear Hu.
  apply Z.ltb_lt in Hn. unfold syncRegistration. go_step. rewrite Hp, Hreg, Hn. cbn [negb andb].
  go_step. rewrite Hopen. cbn [negb andb].
  destruct (IsStatusConditionTrue w ConditionMasterCellsPreparation); cbn [negb].
  - right. go_step. eexists. split; [|reflexivity].
    rewrite (count_env _ (run (setInstanceCount (srv_pods (mas_server m)) 0) w)); [apply count_set|].
    by rewrite syncCellRoles_env.
  - left. by go_step.
Qed.

(** *** The initialization of the cluster *)

Lemma unless_ready_ready (step rest : go W (ComponentStatus * option error)) w :
  IsReady (val_of (unless_ready step rest) w).1 = true → (val_of (unless_ready step rest) w).2 = None →
  IsReady (val_of step w).1 = true ∧ (val_of step w).2 = None ∧
  val_of (unless_ready step rest) w = val_of rest (run step w).
Proof.
  unfold unless_ready. rewrite val_bind. destruct (val_of step w) as [status err]. cbn [fst snd].
  destruct (IsReady status) eqn:Hr, (bool_decide_reflect (err = None)) as [->|He]; cbn [negb orb]; rewrite ?val_ret; cbn;
    intros H1 H2; try congruence. done.
Qed.

Section initialization.
Context m (Hmem : LensLaws (ij_mem (mas_initJob m))) (HS : PodsManagerFrame (srv_pods (mas_server m))).

Lemma RunScript_ready dry reason file w :
  IsReady (val_of (RunScript (mas_initJob m) dry reason file None) w).1 = true →
  checkpointed (mas_initJob m) w reason.
Proof.
  unfold RunScript. case_match; [done|]. go_step. set (w1 := run (in_jmem _ _) w).
  pose proof (ij_Sync_ready (mas_initJob m) dry w1) as Hr.
  assert (jm_reason (jmem (mas_initJob m) w1) = reason) as Hreason.
  { subst w1. by rewrite (in_jmem_reason (mas_initJob m) Hmem). }
  rewrite Hreason in Hr. destruct (val_of (ij_Sync (mas_initJob m) dry) w1) as [status [err|]]; cbn in *;
    intros Hready; by apply Hr in Hready as [_ ?].
Qed.

Lemma runInitPhaseJobs_ready dry w :
  IsReady (val_of (runInitPhaseJobs m dry) w).1 = true → (val_of (runInitPhaseJobs m dry) w).2 = None →
  IsStatusConditionTrue w ConditionMasterCellsInitialized = true ∧
  checkpointed (mas_initJob m) w PhaseClusterInitialization.
Proof.
  unfold runInitPhaseJobs. go_step.
  destruct (IsStatusConditionTrue w ConditionMasterCellsInitialized); cbn [negb].
  - intros Hready _. split; [done|]. by eapply RunScript_ready.
  - unfold RunScript. case_match; [done|]. go_step.
    destruct (val_of (ij_Sync _ _) _) as [status [err|]]; [done|].
    destruct (IsReady status) eqn:Hs; go_step; [done|]. cbn. congruence.
Qed.

(** While the cluster is initializing, the primary master is reported ready only when the
    cluster has been set up: a pass that ends ready and without an error has found the pods
    ready, the cells initialized and the initialization script of the cluster completed for
    its own phase, in that order. *)
Theorem master_ready_initialized dry w :
  IsPrimary m = true → IsInitializing w = true →
  IsReady (val_of (master_Sync m dry) w).1 = true → (val_of (master_Sync m dry) w).2 = None →
  IsReady (val_of (master_ArePodsReady m) w).1 = true ∧
  IsStatusConditionTrue w ConditionMasterCellsInitialized = true ∧
  checkpointed (mas_initJob m) w PhaseClusterInitialization.
Proof.
  intros Hp Hin.
  assert (IsUpdating w = false) as Hup.
  { unfold IsInitializing, IsUpdating in *. apply bool_decide_eq_true in Hin. by rewrite Hin. }
  change (val_of (master_Sync m dry) w) with (master_Sync m dry w).1. rewrite master_Sync_steps, Hin by done.
  destruct (val_of (syncUploaderSecret m dry) w) as [r|] eqn:Hu.
  { assert (IsReady r.1 = false) as Hr; [|cbn; congruence]. revert Hu. unfold syncUploaderSecret.
    destruct (mas_uploaderSecret m); [|done]. go_step. destruct (negb _); [done|]. go_step. by intros [= <-]. }
  change (syncServer m dry w).1 with (val_of (syncServer m dry) w). unfold syncServer. intros H1 H2.
  destruct (unless_ready_ready _ _ _ H1 H2) as (S1 & S2 & Heq). rewrite Heq in H1, H2. clear Heq.
  assert (run (ServerSync m dry) w = w) as Hw.
  { revert S1. unfold ServerSync. go_step. case_match; go_step; done. }
  rewrite Hw in *. destruct (unless_ready_ready _ _ _ H1 H2) as (P1 & _ & Heq). rewrite Heq in H1, H2. clear Heq.
  assert (w_yts (run (master_ArePodsReady m) w) = w_yts w) as Hy.
  { unfold master_ArePodsReady, arePodsReady. go_step. pose proof (listPods_frame (PodsManagerFrame:=HS) w) as Hl.
    by destruct (val_of (listPods _) w) as [pods [err|]]. }
  set (w1 := run (master_ArePodsReady m) w) in *. rewrite val_bind, val_gets, run_gets in H1, H2.
  destruct (blockingSecondary m w1); [done|]. rewrite val_bind, val_gets, run_gets, Hp in H1, H2.
  assert (IsInitializing w1 = true) as Hin1 by (unfold IsInitializing, GetClusterState, w_status in *; by rewrite Hy).
  rewrite Hin1 in H1, H2. cbn [andb] in H1, H2. destruct (unless_ready_ready _ _ _ H1 H2) as (I1 & I2 & _).
  apply runInitPhaseJobs_ready in I1 as [C1 C2]; [|done]. split; [done|].
  unfold IsStatusConditionTrue, checkpointed, GetStatusCondition, w_status in *. by rewrite Hy in *.
Qed.

End initialization.

End master_facts.

(** ** Patches of the masters *)

Section master_patch.
Context {E : Type} {CC : CypressClient E} {CR : CypressReads E} {Y : Ypath} {G : GoCmp} {GL : GoCmpLaws G}.

(** A patch that starts with a test does nothing when the test fails. *)
Lemma guarded_patch dry path p v (ops : Patch) (e : E) :
  val_of (apply_op dry path (Test p v)) e ≠ None →
  run (ApplyPatch dry path (Test p v :: ops)) e = e ∧ val_of (ApplyPatch dry path (Test p v :: ops)) e ≠ None.
Proof.
  intros Ht. unfold ApplyPatch. cbn [apply_ops]. rewrite val_bind, run_bind.
  assert (run (apply_op dry path (Test p v)) e = e) as Hr.
  { unfold apply_op. cbn [op_Op Test]. rewrite run_bind. by rewrite GetNode_reads. }
  rewrite Hr. by destruct (val_of (apply_op dry path (Test p v)) e).
Qed.

(** The operator never rewrites the connection of another cell: when the cluster's
    connection holds a different cell identifier, or none, applying the patch of a master
    fails and leaves the cluster as it is.  This holds for the primary master and for every
    secondary cell that is in the generated connection. *)
Theorem master_patch_guarded (m : Master E) conn dry (e : E) patch :
  master_GetCypressPatch m conn !! "//sys/@cluster_connection" = Some patch → patch ≠ [] →
  (∀ v, val_of (cy_GetNode ("//sys/@cluster_connection" +:+ cellIDPath m conn)) e = inr v →
     cmp_Equal v (VString (mas_cellID m)) = false) →
  run (ApplyPatchSet dry "" (master_GetCypressPatch m conn)) e = e ∧
  val_of (ApplyPatchSet dry "" (master_GetCypressPatch m conn)) e ≠ None.
Proof.
  intros Hp Hne Hid.
  assert (∃ ops, patch = Test (cellIDPath m conn) (VString (mas_cellID m)) :: ops) as [ops ->].
  { revert Hp. unfold master_GetCypressPatch. rewrite lookup_singleton_eq. intros [= <-]. revert Hne.
    unfold master_patch, cellIDPath. destruct (IsPrimary m); [by eexists|].
    destruct (cellIndex m conn) as [[i c]|]; [by eexists|done]. }
  assert (ApplyPatchSet dry "" (master_GetCypressPatch m conn) e =
    ApplyPatch dry "//sys/@cluster_connection" (Test (cellIDPath m conn) (VString (mas_cellID m)) :: ops) e) as Heq.
  { unfold ApplyPatchSet, sorted_keys. unfold master_GetCypressPatch in *. rewrite map_to_list_singleton.
    cbn [fmap list_fmap fst SortStableFunc insert_stable apply_keys]. rewrite Hp. cbn [default from_option].
    rewrite go_bind_run, (go_eta (ApplyPatch _ _ _)). by destruct (val_of (ApplyPatch _ _ _) e). }
  unfold run, val_of. rewrite Heq. fold (run (ApplyPatch dry "//sys/@cluster_connection"
    (Test (cellIDPath m conn) (VString (mas_cellID m)) :: ops)) e). apply guarded_patch.
  rewrite apply_op_test. intros (v & Hv & He). by rewrite (Hid v Hv) in He.
Qed.

End master_patch.

(** ** Concrete masters *)

Section master_example.

(** The memory of an init job and the number of instances. *)
Definition MasterEnv : Type := initJobMem * Z.

#[local] Instance env_status : StatusClient MasterEnv := { Status_Update _ e := (None, e); GetVersion := "1" }.
#[local] Instance env_deps : ClientDeps MasterEnv := {|
  GenerateToken := mret "token"; NewClient := mret None; sha256 s := s; caller line := fmt_d line |}.
#[local] Instance env_client {T} : KubeClient MasterEnv T := {|
  client_Get _ := mret (inl NotFound);
  client_Create o := mret (None, o);
  client_Update o := mret (None, o);
  client_Delete _ := mret None;
  SetControllerReference _ o := inr o;
|}.

Definition env_mem : lens MasterEnv initJobMem := mkLens fst (λ a e, (a, e.2)).

#[local] Instance env_mem_laws : LensLaws env_mem.
Proof. split; [done|]. by intros []. Qed.

Definition env_pods : podsManager (World MasterEnv) :=
  mkPodsManager _ (λ w, (w_env w).2) (λ n, modify (λ w, w_set_env ((w_env w).1, n) w)) (λ _ _, 0%Z) (λ _ _, "")
    (mret ([], None)) (mret None) (mret true).

#[local] Instance env_pods_frame : PodsManagerFrame env_pods.
Proof. split; done. Qed.

Definition env_server : server (World MasterEnv) :=
  mkServer _ env_pods (mret None) (λ _, true) (mret None) (λ _ _ _, mret tt) (mret (None, None))
    (λ _, ComponentStatusReady) (λ _ _, false).

Definition stored_job : Job := mkJob (mkObjectMeta "job" "1" ∅ []) JobSpecZero JobStatusZero.
Definition stored_cm : ConfigMap := mkConfigMap (mkObjectMeta "config" "1" ∅ []) ∅.

Definition env_job : InitJob (E:=MasterEnv) :=
  mkInitJob (example_labeller MasterType "") "MasterInitJob" "image" ""
    (mkConfigMapBuilder (example_labeller MasterType "") "config" None
       [TextConfigGenerator ClusterInitializationScriptName (inr ["true"])]
       (const_lens (mkManagedResource "config" stored_cm stored_cm)) (const_lens ConfigMapZero))
    (const_lens (mkManagedResource "job" stored_job stored_job)) env_mem.

Definition with_count (n : Z) : MastersSpec :=
  let s := spec_PrimaryMasters YtsaurusSpecZero in
  let i := ms_InstanceSpec s in
  mkMastersSpec (is_set_InstanceCount n i) 2 (ms_HostAddresses s) (ms_Roles s) (ms_HydraPersistenceUploader s)
    (ms_Timbertruck s) (ms_Sidecars s) (ms_MaxSnapshotCountToKeep s) (ms_MaxChangelogCountToKeep s)
    (ms_HostAddressLabel s).

Definition example_master (group : string) : Master MasterEnv :=
  mkMaster (example_component 0 MasterType group) (with_count 3) env_server env_job None [] "cell-2" (λ _ _, mret None).

#[local] Instance env_counts group : ServerCounts (example_master group).
Proof. split; [done|]. intros w w' He. exact (f_equal snd He). Qed.

(** A running cluster with an unregistered cell whose preparation was requested. *)
Definition example_unregistered : World MasterEnv :=
  run (SetStatusCondition (condition ConditionMasterCellsPreparation ConditionTrue "" ""))
    (run (SetUnregistered (with_count 3) true) (mkWorld example_yts [] 200 ∅ (newInitJobMem, 3%Z))).

Lemma unregistered_cell_held_witness :
  (∃ r w1, syncUploaderSecret (example_master "2") false example_unregistered = (Some r, w1) ∧
     master_Sync (example_master "2") false example_unregistered = (r, w1)) ∨
  (IsStatusConditionTrue example_unregistered ConditionMasterCellsPreparation = false ∧
   IsReady (val_of (master_Sync (example_master "2") false) example_unregistered).1 = false ∧
   w_env (run (master_Sync (example_master "2") false) example_unregistered) = w_env example_unregistered) ∨
  (∃ w1, getInstanceCount (srv_pods (mas_server (example_master "2"))) w1 = 0%Z ∧
     master_Sync (example_master "2") false example_unregistered = syncServer (example_master "2") false w1).
Proof.
  apply (unregistered_cell_held (example_master "2") example_unregistered); [apply _|vm_compute; reflexivity..].
Defined.

Example example_unregistered_count : (w_env (run (master_Sync (example_master "2") false) example_unregistered)).2 = 0%Z.
Proof. vm_compute. reflexivity. Qed.

Definition example_initialized : World MasterEnv :=
  run (SetStatusCondition (condition "MasterInitJob" ConditionTrue PhaseClusterInitialization ""))
    (run (SetStatusCondition (condition ConditionMasterCellsInitialized ConditionTrue PhaseCellsInitialization ""))
       (w_set_status (st_set_State ClusterStateInitializing) (mkWorld example_yts [] 200 ∅ (newInitJobMem, 0%Z)))).

Lemma master_ready_initialized_witness :
  IsReady (val_of (master_ArePodsReady (example_master "")) example_initialized).1 = true ∧
  IsStatusConditionTrue example_initialized ConditionMasterCellsInitialized = true ∧
  checkpointed (mas_initJob (example_master "")) example_initialized PhaseClusterInitialization.
Proof.
  apply (master_ready_initialized (example_master "") env_mem_laws env_pods_frame false example_initialized);
    vm_compute; reflexivity.
Defined.

(** A cluster whose connection belongs to another cell. *)
Definition other_cell : FlatCypress := {[ "//sys/@cluster_connection/primary_master/cell_id" := VString "cell-1" ]}.

Definition flat_master : Master FlatCypress :=
  mkMaster (example_component 0 MasterType "") (with_count 3)
    (mkServer _ example_master_pods (mret None) (λ _, true) (mret None) (λ _ _ _, mret tt) (mret (None, None))
      (λ _, ComponentStatusReady) (λ _ _, false))
    example_init_user None [] "cell-2" (λ _ _, mret None).

Definition example_conn : ClusterConnection :=
  mkClusterConnection (mkConnMasterCell "cell-2" (VList [VString "m0"]) (VList [])) [] None.

Lemma master_patch_guarded_witness :
  run (ApplyPatchSet (Y:=flat_ypath) (G:=flat_cmp) false "" (master_GetCypressPatch (Y:=flat_ypath) flat_master example_conn)) other_cell
    = other_cell.
Proof.
  apply (master_patch_guarded (Y:=flat_ypath) (G:=flat_cmp) flat_master example_conn false other_cell
    (master_patch (Y:=flat_ypath) flat_master example_conn)).
  - vm_compute. reflexivity.
  - discriminate.
  - intros v Hv. vm_compute in Hv. injection Hv as <-. vm_compute. reflexivity.
Defined.

End master_example.
