(* ===== verification/ServerComponents.v ===== *)
(** * The server components (src/pkg/components: data_node.go, discovery.go, controller_agent.go,
    httpproxy.go, rpcproxy.go, tcpproxy.go, kafka_proxy.go, master_caches.go, cypressproxy.go,
    bundle_controller.go, tablet_balancer.go, tablet_node.go, exec_node.go, exec_node_base.go and
    the remote variants)

    What each component does in a pass: its part of an update, the components it waits for,
    its server, its balancing service, its initialization, and the check made before its pods
    are taken away.  The server is the interface of Components.v; the pod template a component
    adds to is built by an operation of its own. *)

From S2P Require Import Prelude Kubernetes ApiTypes Consts Labeller Status Ordered Ypatch Checks CypressActions ApiProxy Resources ConfigMaps InitJob Components YtsaurusClient PodsManager UpdateModes Services.

(** ** Shapes shared by the [Sync] methods *)

Record serverComponent (E : Type) := mkServerComponent {
  sc_base : component;
  sc_server : server (World E);
}.
Arguments mkServerComponent {E} _ _.
Arguments sc_base {E} _.
Arguments sc_server {E} _.

(** The client component as its users see it: its base and [GetYtClient() != nil]; the
    pointer to it may be nil. *)
Record ytClientRef (E : Type) := mkYtClientRef { yr_base : component; yr_ready : World E → bool }.
Arguments mkYtClientRef {E} _ _.
Arguments yr_base {E} _.
Arguments yr_ready {E} _ _.

Section shapes.
Context {E : Type} {MC : MetaConditions} {SC : StatusClient E}.

Abbreviation W := (World E).
Abbreviation syncResult := (ComponentStatus * option error)%type.
Abbreviation handled := (option ComponentStatus * option error)%type.

(** [if status, err := m; status != nil { return *status, err }]. *)
Definition if_status (m : go W handled) (k : go W syncResult) : go W syncResult :=
  '(status, err) ← m;
  match status with
  | Some status => mret (status, err)
  | None => k
  end.

(** The same where the rest is a handler too. *)
Definition or_status (m k : go W handled) : go W handled :=
  '(status, err) ← m;
  match status with
  | Some status => mret (Some status, err)
  | None => k
  end.

(** [if GetClusterState() == ClusterStateUpdating { ... }]. *)
Definition when_updating (m : go W handled) : go W handled :=
  updating ← gets IsUpdating; if updating : bool then m else mret (None, None).

(** [if GetUpdateState() != UpdateStateWaitingForPodsCreation { return ComponentStatusReady(), nil }]. *)
Definition only_pods_creation : go W handled :=
  state ← gets GetUpdateState;
  mret (if state != UpdateStateWaitingForPodsCreation then Some ComponentStatusReady else None, None).

(** [if status := c.GetStatus(); !status.IsRunning() { return status.Blocker(), nil }]. *)
Definition wait_running (c : component) (k : go W syncResult) : go W syncResult :=
  status ← gets (λ w, GetStatus w c);
  if negb (IsRunning status) then mret (Blocker status, None) else k.

(** The same for every component of a list. *)
Fixpoint wait_all (l : list component) (k : go W syncResult) : go W syncResult :=
  match l with
  | [] => k
  | c :: l => wait_running c (wait_all l k)
  end.

(** [if need { if !dry { err = sync() }; return ComponentStatusWaitingFor(what), err }]. *)
Definition sync_if (need : bool) (dry : bool) (what : string) (sync : go W (option error)) (k : go W syncResult)
    : go W syncResult :=
  if need then
    err ← (if dry then mret None else sync);
    mret (ComponentStatusWaitingFor what, err)
  else k.

(** [if status, err := step; !status.IsReady() || err != nil { return status, err }]. *)
Definition unless_done (step k : go W syncResult) : go W syncResult :=
  '(status, err) ← step;
  if negb (IsReady status) || negb (bool_decide (err = None)) then mret (status, err) else k.

Context (sc : serverComponent E).

(** [serverComponent.ArePodsReady]. *)
Definition sc_ArePodsReady : go W syncResult := arePodsReady (srv_pods (sc_server sc)) [].

Definition sc_NeedSync (w : W) : bool := NeedSync w (sc_base sc) (sc_server sc).

Definition sync_server (dry : bool) (sync : go W (option error)) (k : go W syncResult) : go W syncResult :=
  need ← gets sc_NeedSync; sync_if need dry "components" sync k.

(** The component as the update handlers see it: they use its base and its pre-check. *)
Definition updating_self (preCheck : go W ComponentStatus) : ComponentI W :=
  mkComponentI _ (sc_base sc) (srv_Fetch (sc_server sc)) (gets (needUpdate (sc_server sc)))
    (λ _, mret (ComponentStatusReady, None)) preCheck.

(** The interface of a server component with its own [Sync], [Fetch] and [UpdatePreCheck]. *)
Definition server_component (fetch : go W (option error)) (sync : bool → go W syncResult)
    (preCheck : go W ComponentStatus) : ComponentI W :=
  mkComponentI _ (sc_base sc) fetch (gets (needUpdate (sc_server sc))) sync preCheck.

End shapes.

(** ** Checks before an update *)

Definition ParityMissingChunksCountPath := "//sys/parity_missing_chunks/@count".
Definition DataMissingChunksCountPath := "//sys/data_missing_chunks/@count".
Definition UnsafelyPlacedChunksCountPath := "//sys/unsafely_placed_chunks/@count".
Definition DisableSchedulerJobsAttr := "disable_scheduler_jobs".

(** A child of the controller agents with the attributes that are asked for. *)
Record ControllerAgentsWithMaintenance := mkAgentWithMaintenance {
  caw_Address : string;
  caw_Maintenance : bool;
  caw_Alerts : list string;
}.

Record dataNodeCounterCheck := mkCounterCheck { dcc_path : string; dcc_name : string }.

Definition dataNodeRollingCounterChecks : list dataNodeCounterCheck :=
  [ mkCounterCheck LostVitalChunksCountPath "lost vital chunks";
    mkCounterCheck ParityMissingChunksCountPath "parity missing chunks";
    mkCounterCheck DataMissingChunksCountPath "data missing chunks";
    mkCounterCheck UnsafelyPlacedChunksCountPath "unsafely placed chunks";
    mkCounterCheck QuorumMissingChunksCountPath "quorum missing chunks" ].

Section prechecks.
Context {E : Type} {MC : MetaConditions} {SC : StatusClient E} {CC : CypressClient E} {Y : Ypath}.
Context {DB : YsonDecode bool} {DZ : YsonDecode Z} {DL : YsonDecode (list string)}.
Context {DO : YsonDecode (gmap string Any)} {DA : YsonDecode (list ControllerAgentsWithMaintenance)}.
(** [ypath.Path.Attr]. *)
Context (path_Attr : string → string → string).

Abbreviation W := (World E).

(** The guards on the client component and its connection. *)
Definition with_client (yc : option (ytClientRef E)) (k : go W ComponentStatus) : go W ComponentStatus :=
  match yc with
  | None => mret (ComponentStatusBlocked "YtsaurusClient component is not available")
  | Some yc =>
      ready ← gets (yr_ready yc);
      if negb ready then mret (ComponentStatusBlocked "YT client is not available") else k
  end.

Definition blocked_error (prefix : string) (err : yterror) : ComponentStatus :=
  ComponentStatusBlocked (prefix +:+ yt_message err).

(** [IsInstanceCountEqualYTSpec] with the count of the server. *)
Definition instances_match (sc : serverComponent E) (t : ComponentType) (k : go W ComponentStatus)
    : go W ComponentStatus :=
  count ← gets (λ w, getInstanceCount (srv_pods (sc_server sc)) w);
  err ← in_env (IsInstanceCountEqualYTSpec true t (ComponentType_string t) count);
  match err with
  | Some err => mret (blocked_error "Error: " err)
  | None => k
  end.

Definition checkDataNodeCounter (check : dataNodeCounterCheck) : go E ComponentStatus :=
  count ← GetNode (dcc_path check);
  mret (match count with
        | inl err => blocked_error ("failed to get " +:+ dcc_name check +:+ " count: ") err
        | inr count =>
            if (0 <? count)%Z
            then ComponentStatusBlocked ("there are " +:+ dcc_name check +:+ ": " +:+ fmt_d count)
            else ComponentStatusReady
        end).

(** The loop over the checks returns the first status that is not ready. *)
Fixpoint checkDataNodeCounters (checks : list dataNodeCounterCheck) : go E ComponentStatus :=
  match checks with
  | [] => mret ComponentStatusReady
  | check :: checks =>
      status ← checkDataNodeCounter check;
      if cs_SyncStatus status != SyncStatusReady then mret status else checkDataNodeCounters checks
  end.

Definition DataNode_UpdatePreCheck (yc : option (ytClientRef E)) : go W ComponentStatus :=
  with_client yc (in_env (checkDataNodeCounters dataNodeRollingCounterChecks)).

Fixpoint check_orchids (cypressPath : string) (servers : list string) : go E ComponentStatus :=
  match servers with
  | [] => mret ComponentStatusReady
  | server :: servers =>
      orchidData ← GetNode (A:=gmap string Any) (cypressPath +:+ "/" +:+ server +:+ "/orchid");
      match orchidData with
      | inl err => mret (blocked_error ("Failed to get discovery orchid data for " +:+ server +:+ ": ") err)
      | inr _ => check_orchids cypressPath servers
      end
  end.

Definition Discovery_UpdatePreCheck (sc : serverComponent E) (yc : option (ytClientRef E)) : go W ComponentStatus :=
  with_client yc (instances_match sc DiscoveryType (
    let cypressPath := ComponentCypressPath DiscoveryType in
    discoveryServers ← in_env (ListNode cypressPath []);
    match discoveryServers with
    | inl err => mret (blocked_error "Error: " err)
    | inr discoveryServers => in_env (check_orchids cypressPath discoveryServers)
    end)).

Fixpoint check_agents (cypressPath : string) (agents : list ControllerAgentsWithMaintenance) : go E ComponentStatus :=
  match agents with
  | [] => mret ComponentStatusReady
  | agent :: agents =>
      connected ← GetNode (cypressPath +:+ "/" +:+ caw_Address agent +:+ "/orchid/controller_agent/service/connected");
      match connected with
      | inl err => mret (blocked_error "Error: " err)
      | inr connected =>
          if negb connected then
            mret (ComponentStatusBlocked ("Controller agent is not connected: " +:+ caw_Address agent))
          else if caw_Maintenance agent then
            mret (ComponentStatusBlocked ("There is a controller agent in maintenance: " +:+ caw_Address agent))
          else check_agents cypressPath agents
      end
  end.

Definition ControllerAgent_UpdatePreCheck (sc : serverComponent E) (yc : option (ytClientRef E)) : go W ComponentStatus :=
  with_client yc (instances_match sc ControllerAgentType (
    let cypressPath := ComponentCypressPath ControllerAgentType in
    controllerAgents ← in_env (ListNode cypressPath ["maintenance"; "alerts"]);
    match controllerAgents with
    | inl err => mret (blocked_error "Error: " err)
    | inr controllerAgents => in_env (check_agents cypressPath controllerAgents)
    end)).

Definition MasterCache_UpdatePreCheck (sc : serverComponent E) (yc : option (ytClientRef E)) : go W ComponentStatus :=
  with_client yc (instances_match sc MasterCacheType (mret ComponentStatusReady)).

End prechecks.

(** ** Components with a server and nothing else *)

Section components.
Context {E : Type} {MC : MetaConditions} {SC : StatusClient E} {CC : CypressClient E} {Y : Ypath} {CF : ConfigCodec}.
Context `{HKV : !KubeClient E Service} `{HKC : !KubeClient E ConfigMap}.
Context {DB : YsonDecode bool} {DZ : YsonDecode Z} {DL : YsonDecode (list string)}.
Context {DO : YsonDecode (gmap string Any)} {DA : YsonDecode (list ControllerAgentsWithMaintenance)}.
Context (path_Attr : string → string → string).

Abbreviation W := (World E).
Abbreviation syncResult := (ComponentStatus * option error)%type.
Abbreviation handled := (option ComponentStatus * option error)%type.

(** [resources.Fetch(ctx, server)]. *)
Definition fetch_server (sc : serverComponent E) : go W (option error) :=
  resources_Fetch [Some (srv_Fetch (sc_server sc))].

(** [if NeedSync() { server.Sync }], then the pods. *)
Definition server_then_pods (sc : serverComponent E) (dry : bool) : go W syncResult :=
  sync_server sc dry (srv_Sync (sc_server sc)) (sc_ArePodsReady sc).

Definition handleImaginaryChunksMigration (sc : serverComponent E) (dry : bool) : go W handled :=
  need ← gets (λ w, IsUpdateStatusConditionTrue w ConditionDataNodesNeedPodsRemoval);
  if negb need then mret (None, None) else
  err ← (if dry then mret None else removePods (srv_pods (sc_server sc)) (sc_base sc));
  mret (Some (ComponentStatusUpdateStep "pods removal for imaginary chunks migration"), err).

Record DataNode := mkDataNode {
  dnd_sc : serverComponent E;
  dnd_master : component;
  dnd_client : option (ytClientRef E);
}.

Definition DataNode_Sync (n : DataNode) (dry : bool) : go W syncResult :=
  let sc := dnd_sc n in
  if_status (when_updating (
    or_status (state ← gets GetUpdateState;
               if state == UpdateStateWaitingForImaginaryChunksAbsence
               then handleImaginaryChunksMigration sc dry else mret (None, None))
      (dispatchComponentUpdate (updating_self sc (DataNode_UpdatePreCheck (dnd_client n))) (sc_server sc) dry)))
  (wait_running (dnd_master n) (server_then_pods sc dry)).

Record Discovery := mkDiscovery {
  dsc_sc : serverComponent E;
  dsc_client : option (ytClientRef E);
  dsc_master : component;
}.

(** The update handlers of the components that do nothing in other states of an update. *)
Definition dispatch_then_creation (self : ComponentI W) (s : server W) (dry : bool) : go W handled :=
  when_updating (or_status (dispatchComponentUpdate self s dry) only_pods_creation).

Definition Discovery_Sync (d : Discovery) (dry : bool) : go W syncResult :=
  let sc := dsc_sc d in
  if_status (dispatch_then_creation (updating_self sc (Discovery_UpdatePreCheck sc (dsc_client d))) (sc_server sc) dry)
  (wait_running (dsc_master d) (server_then_pods sc dry)).

Record ControllerAgent := mkControllerAgent {
  ca_sc : serverComponent E;
  ca_master : component;
  ca_client : option (ytClientRef E);
}.

Definition ControllerAgent_Sync (ca : ControllerAgent) (dry : bool) : go W syncResult :=
  let sc := ca_sc ca in
  if_status (dispatch_then_creation (updating_self sc (ControllerAgent_UpdatePreCheck sc (ca_client ca))) (sc_server sc) dry)
  (wait_running (ca_master ca) (server_then_pods sc dry)).

(** [mch_addAffinity] stands for [buildStatefulSet] and [AddAffinity] of the pod template. *)
Record MasterCache := mkMasterCache {
  mch_sc : serverComponent E;
  mch_client : option (ytClientRef E);
  mch_master : component;
  mch_addAffinity : go W unit;
}.

Definition MasterCache_Sync (mc : MasterCache) (dry : bool) : go W syncResult :=
  let sc := mch_sc mc in
  if_status (dispatch_then_creation (updating_self sc (MasterCache_UpdatePreCheck sc (mch_client mc))) (sc_server sc) dry)
  (wait_running (mch_master mc)
  (sync_server sc dry (mch_addAffinity mc ;; srv_Sync (sc_server sc)) (sc_ArePodsReady sc))).

Definition CypressProxy_Sync (sc : serverComponent E) (dry : bool) : go W syncResult :=
  if_status (when_updating (dispatchComponentUpdate (updating_self sc (mret ComponentStatusReady)) (sc_server sc) dry))
  (server_then_pods sc dry).

Definition BundleController_Sync (sc : serverComponent E) (dry : bool) : go W syncResult :=
  if_status (when_updating (handleUpdatingClusterState (updating_self sc (mret ComponentStatusReady)) (sc_server sc) dry))
  (server_then_pods sc dry).

Definition TabletBalancer_Sync (sc : serverComponent E) (dry : bool) : go W syncResult :=
  if_status (when_updating (handleUpdatingClusterState (updating_self sc (mret ComponentStatusReady)) (sc_server sc) dry))
  (server_then_pods sc dry).

(** Remote data nodes, remote tablet nodes and offshore data gateways: the cluster they serve
    is not managed here, there is no update to take part in. *)
Definition RemoteDataNode_Sync (sc : serverComponent E) (dry : bool) : go W syncResult := server_then_pods sc dry.
Definition RemoteTabletNode_Sync (sc : serverComponent E) (dry : bool) : go W syncResult := server_then_pods sc dry.
Definition OffshoreDataGateway_Sync (sc : serverComponent E) (dry : bool) : go W syncResult := server_then_pods sc dry.

(** ** Proxies, with a balancing service *)

(** [if !balancingService.Exists() { if !dry { build(); err = balancingService.Sync() } ... }]. *)
Definition sync_service (cell : lens E (ManagedResource Service)) (build : go W unit) (dry : bool)
    (k : go W syncResult) : go W syncResult :=
  exists_ ← gets (resource_Exists cell);
  name ← gets (λ w, res_name (resource cell w));
  sync_if (negb exists_) dry name (build ;; resource_Sync cell) k.

Definition fetch_with_service (sc : serverComponent E) (cell : option (lens E (ManagedResource Service))) : go W (option error) :=
  resources_Fetch [Some (srv_Fetch (sc_server sc)); resource_Fetch <$> cell].

(** [hp_addSecret] stands for [buildStatefulSet] with the volume of the certificate. *)
Record HttpProxy := mkHttpProxy {
  hp_sc : serverComponent E;
  hp_master : component;
  hp_serviceType : ServiceType;
  hp_balancingService : lens E (ManagedResource Service);
  hp_ports : HTTPService;
  hp_addSecret : option (go W unit);
}.

Definition add_secret (addSecret : option (go W unit)) (dry : bool) : go W unit :=
  match addSecret with
  | Some add => if dry then mret tt else add
  | None => mret tt
  end.

Definition HttpProxy_Sync (hp : HttpProxy) (dry : bool) : go W syncResult :=
  let sc := hp_sc hp in
  add_secret (hp_addSecret hp) dry ;;
  if_status (dispatch_then_creation (updating_self sc (mret ComponentStatusReady)) (sc_server sc) dry)
  (wait_running (hp_master hp)
  (sync_server sc dry (srv_Sync (sc_server sc))
  (sync_service (hp_balancingService hp)
     (http_Build (cmp_labeller (sc_base sc)) (hp_balancingService hp) (hp_ports hp) ;;
      set_type (hp_balancingService hp) (hp_serviceType hp)) dry
  (sc_ArePodsReady sc)))).

(** The balancing service exists only where the specification has a service type. *)
Record RpcProxy := mkRpcProxy {
  rp_sc : serverComponent E;
  rp_master : component;
  rp_balancing : option (ServiceType * lens E (ManagedResource Service));
  rp_Ports : list ServicePort;
  rp_addSecret : option (go W unit);
}.

Definition RpcProxy_Sync (rp : RpcProxy) (dry : bool) : go W syncResult :=
  let sc := rp_sc rp in
  add_secret (rp_addSecret rp) dry ;;
  if_status (dispatch_then_creation (updating_self sc (mret ComponentStatusReady)) (sc_server sc) dry)
  (wait_running (rp_master rp)
  (sync_server sc dry (srv_Sync (sc_server sc))
  match rp_balancing rp with
  | Some (serviceType, cell) =>
      sync_service cell
        (rpc_Build (cmp_labeller (sc_base sc)) cell (rp_Ports rp) ;; set_type cell serviceType) dry
      (sc_ArePodsReady sc)
  | None => sc_ArePodsReady sc
  end)).

(** The ports of the balancing service of RPC proxies. *)
Definition rpcProxyPorts (nodePort : option Z) : list ServicePort :=
  [mkServicePort YTRPCPortName RPCProxyPublicRPCPort RPCProxyPublicRPCPort (Deref nodePort 0%Z)].

Record TcpProxy := mkTcpProxy {
  tp_sc : serverComponent E;
  tp_master : component;
  tp_balancing : option (TCPService * lens E (ManagedResource Service));
}.

Definition TcpProxy_Sync (tp : TcpProxy) (dry : bool) : go W syncResult :=
  let sc := tp_sc tp in
  if_status (when_updating (dispatchComponentUpdate (updating_self sc (mret ComponentStatusReady)) (sc_server sc) dry))
  (wait_running (tp_master tp)
  (sync_server sc dry (srv_Sync (sc_server sc))
  match tp_balancing tp with
  | Some (service, cell) =>
      sync_service cell (tcp_Build (cmp_labeller (sc_base sc)) cell service) dry (sc_ArePodsReady sc)
  | None => sc_ArePodsReady sc
  end)).

(** The service type of the specification only decides whether there is a balancing
    service. *)
Record KafkaProxy := mkKafkaProxy {
  kp_sc : serverComponent E;
  kp_master : component;
  kp_balancing : option (ServiceType * lens E (ManagedResource Service));
}.

Definition kafkaProxyPorts : list ServicePort :=
  [mkServicePort KafkaPortName KafkaProxyKafkaPort KafkaProxyKafkaPort 0].

Definition KafkaProxy_Sync (kp : KafkaProxy) (dry : bool) : go W syncResult :=
  let sc := kp_sc kp in
  if_status (when_updating (handleUpdatingClusterState (updating_self sc (mret ComponentStatusReady)) (sc_server sc) dry))
  (wait_running (kp_master kp)
  (sync_server sc dry (srv_Sync (sc_server sc))
  match kp_balancing kp with
  | Some (_, cell) =>
      sync_service cell (rpc_Build (cmp_labeller (sc_base sc)) cell kafkaProxyPorts) dry (sc_ArePodsReady sc)
  | None => sc_ArePodsReady sc
  end)).

(** ** Exec nodes *)

(** [en_buildPod] stands for the additions to the pod template in [doBuildBase]. *)
Record baseExecNode := mkBaseExecNode {
  en_sc : serverComponent E;
  en_client : option (ytClientRef E);
  en_sidecarConfig : option (ConfigMapBuilder E);
  en_buildPod : go W (option error);
}.

Definition exec_Fetch (n : baseExecNode) : go W (option error) :=
  resources_Fetch [Some (srv_Fetch (sc_server (en_sc n))); cb_Fetch <$> en_sidecarConfig n].

Definition sidecarConfigNeedsReload (n : baseExecNode) : go W bool :=
  match en_sidecarConfig n with
  | None => mret false
  | Some config => '(status, err) ← needReload config; mret (bool_decide (err = None) && IsNeedUpdate status)
  end.

Definition exec_NeedSync (n : baseExecNode) : go W bool :=
  updating ← gets (λ w, IsUpdatingResources w (sc_base (en_sc n)));
  need ← gets (λ w, needSync (sc_server (en_sc n)) w updating);
  if need : bool then mret true
  else if updating : bool then sidecarConfigNeedsReload n else mret false.

Definition exec_NeedUpdate (n : baseExecNode) : go W ComponentStatus :=
  update ← gets (needUpdate (sc_server (en_sc n)));
  if IsNeedUpdate update then mret update else
  reload ← sidecarConfigNeedsReload n;
  mret (if reload : bool then ComponentStatusNeedUpdate "sidecar config update" else ComponentStatusReady).

Definition doBuildBase (n : baseExecNode) : go W (option error) :=
  err ← en_buildPod n;
  match err, en_sidecarConfig n with
  | Some err, _ => mret (Some err)
  | None, Some config => Build config
  | None, None => mret None
  end.

Definition doSyncBase (n : baseExecNode) (dry : bool) : go W syncResult :=
  err ← (if dry then mret None else
           resources_Sync [Some (srv_Sync (sc_server (en_sc n))); cb_Sync <$> en_sidecarConfig n]);
  mret (ComponentStatusWaitingFor "components", err).

(** The name of an instance of exec nodes always exists, see [execNode_address]. *)
Definition execNodeInstancePath (n : baseExecNode) (ordinal : Z) : string :=
  path_Child (ComponentCypressPath ExecNodeType)
    (default "" (GetInstanceAddressPort (cmp_labeller (sc_base (en_sc n))) ordinal ExecNodeRPCPort)).

Definition setExecNodeDisableSchedulerJobs (n : baseExecNode) (ordinal : Z) (value : bool) : go E (option yterror) :=
  cy_SetNode (path_Attr (execNodeInstancePath n ordinal) DisableSchedulerJobsAttr) (VBool value) None.

Definition userSlotsPath (n : baseExecNode) (ordinal : Z) : string :=
  path_Child (path_Attr (execNodeInstancePath n ordinal) "resource_usage") "user_slots".

Definition drainExecNode (n : baseExecNode) (ordinal : Z) : go E ComponentStatus :=
  let instancePath := execNodeInstancePath n ordinal in
  userSlots ← GetNode (userSlotsPath n ordinal);
  match userSlots with
  | inl err => mret (blocked_error ("Failed to get user_slots for " +:+ instancePath +:+ ": ") err)
  | inr userSlots =>
      if userSlots == 0%Z then mret ComponentStatusReady else
      err ← setExecNodeDisableSchedulerJobs n ordinal true;
      match err with
      | Some err =>
          mret (blocked_error ("Failed to set " +:+ DisableSchedulerJobsAttr +:+ " for " +:+ instancePath +:+ ": ") err)
      | None =>
          mret (ComponentStatusBlocked ("Exec node " +:+ instancePath +:+ " still has " +:+ fmt_d userSlots +:+
            " user slots in use"))
      end
  end.

(** [for i := partition; i < totalCount; i++]. *)
Fixpoint enable_jobs (n : baseExecNode) (ordinals : list Z) : go E ComponentStatus :=
  match ordinals with
  | [] => mret ComponentStatusReady
  | i :: ordinals =>
      err ← setExecNodeDisableSchedulerJobs n i false;
      match err with
      | Some err =>
          mret (blocked_error ("Failed to re-enable scheduler jobs for ordinal " +:+ fmt_d i +:+ ": ") err)
      | None => enable_jobs n ordinals
      end
  end.

Definition drainExecNodeForRollingUpdate (n : baseExecNode) : go W ComponentStatus :=
  '(roll, err) ← getRollingUpdateStatus (sc_server (en_sc n));
  match err, roll with
  | Some err, _ => mret (ComponentStatusBlocked ("Error: " +:+ err))
  | None, None => mret ComponentStatusReady
  | None, Some roll =>
      let partition := roll_partition roll in
      if partition == 0%Z then mret ComponentStatusReady else
      s ← in_env (drainExecNode n (partition - 1));
      if cs_SyncStatus s != SyncStatusReady then mret s else
      in_env (enable_jobs n (seqZ partition (roll_totalCount roll - partition)))
  end.

Definition ExecNode_UpdatePreCheck (n : baseExecNode) : go W ComponentStatus :=
  with_client (en_client n) (
    strategy ← gets (λ w, getComponentUpdateStrategy w (GetType (sc_base (en_sc n))) (GetShortName (sc_base (en_sc n))));
    match strategy with
    | ComponentUpdateModeTypeRollingUpdate => drainExecNodeForRollingUpdate n
    | _ => mret ComponentStatusReady
    end).

(** The loop stops at the first error, which is dropped. *)
Fixpoint enable_all (n : baseExecNode) (ordinals : list Z) : go E unit :=
  match ordinals with
  | [] => mret tt
  | i :: ordinals =>
      err ← setExecNodeDisableSchedulerJobs n i false;
      match err with Some _ => mret tt | None => enable_all n ordinals end
  end.

Definition enableSchedulerJobs (n : baseExecNode) : go W unit :=
  match en_client n with
  | None => mret tt
  | Some yc =>
      ready ← gets (yr_ready yc);
      if negb ready then mret tt else
      totalCount ← gets (λ w, getInstanceCount (srv_pods (sc_server (en_sc n))) w);
      in_env (enable_all n (seqZ 0 totalCount))
  end.

Record ExecNode := mkExecNode { exn_base : baseExecNode; exn_master : component }.

(** The component as the update handlers see it. *)
Definition exec_self (n : baseExecNode) : ComponentI W :=
  mkComponentI _ (sc_base (en_sc n)) (exec_Fetch n) (exec_NeedUpdate n)
    (λ _, mret (ComponentStatusReady, None)) (ExecNode_UpdatePreCheck n).

Definition ExecNode_Sync (x : ExecNode) (dry : bool) : go W syncResult :=
  let n := exn_base x in
  let sc := en_sc n in
  built ← (if dry then mret None else doBuildBase n);
  match built with
  | Some err => mret (ComponentStatusBlockedBy "cannot build exec node spec", Some err)
  | None =>
      if_status (when_updating (
        or_status (dispatchComponentUpdate (exec_self n) (sc_server sc) dry)
          ((if dry then mret tt else enableSchedulerJobs n) ;; mret (None, None))))
      (wait_running (exn_master x) (
      need ← exec_NeedSync n;
      if need : bool then doSyncBase n dry else sc_ArePodsReady sc))
  end.

Definition RemoteExecNode_Sync (n : baseExecNode) (dry : bool) : go W syncResult :=
  need ← exec_NeedSync n;
  if need : bool then
    built ← (if dry then mret None else doBuildBase n);
    match built with
    | Some err => mret (ComponentStatusBlockedBy "cannot build exec node spec", Some err)
    | None => doSyncBase n dry
    end
  else sc_ArePodsReady (en_sc n).

(** ** Tablet nodes *)

Definition SysBundle := "sys".
Definition DefaultBundle := "default".

Record BundleBootstrapSpec := mkBundleBootstrapSpec {
  bb_SnapshotPrimaryMedium : option string;
  bb_ChangelogPrimaryMedium : option string;
  bb_TabletCellCount : Z;
  bb_NodeTagFilter : option string;
}.

Record BundlesBootstrapSpec := mkBundlesBootstrapSpec {
  bbs_Sys : option BundleBootstrapSpec;
  bbs_Default : option BundleBootstrapSpec;
}.

(** [tn_Bootstrap] is [Spec.Bootstrap.TabletCellBundles], [None] if either pointer is nil;
    [tn_DefaultPrimaryMedium] and [tn_MaxReplicationFactor] come from the cluster features and
    the generator. *)
Record TabletNode := mkTabletNode {
  tn_sc : serverComponent E;
  tn_client : ytClientRef E;
  tn_doInitialization : bool;
  tn_master : option component;
  tn_Bootstrap : option BundlesBootstrapSpec;
  tn_DefaultPrimaryMedium : option string;
  tn_MaxReplicationFactor : Z;
}.

Definition initBundlesCondition := "bundlesTabletNodeInitCompleted".

Section tablet_node.
(** [yt.Client.NodeExists] and [%q]; reading the options of a bundle. *)
Context (NodeExists : string → go E (yterror + bool)) (quoted : string → string).
Context (tn : TabletNode).

Definition getBundleBootstrap (bundle : string) : option BundleBootstrapSpec :=
  match tn_Bootstrap tn with
  | None => None
  | Some bundles =>
      if bundle == SysBundle then bbs_Sys bundles
      else if bundle == DefaultBundle then bbs_Default bundles
      else None
  end.

(** [options[key] = *value] where the pointer is not nil. *)
Definition set_if_some (key : string) (value : option string) (options : gmap string Any) : gmap string Any :=
  match value with Some v => <[key := VString v]> options | None => options end.

Definition getBundleOptions (bundle : string) : gmap string Any :=
  let options : gmap string Any := ∅ in
  let options :=
    if bundle == SysBundle
    then <["snapshot_account" := VString "sys"]> (<["changelog_account" := VString "sys"]> options) else options in
  let options := set_if_some "snapshot_primary_medium" (tn_DefaultPrimaryMedium tn)
                   (set_if_some "changelog_primary_medium" (tn_DefaultPrimaryMedium tn) options) in
  let options :=
    match getBundleBootstrap bundle with
    | Some bootstrap =>
        set_if_some "snapshot_primary_medium" (bb_SnapshotPrimaryMedium bootstrap)
          (set_if_some "changelog_primary_medium" (bb_ChangelogPrimaryMedium bootstrap) options)
    | None => options
    end in
  if (tn_MaxReplicationFactor tn <? 3)%Z then
    <["snapshot_replication_factor" := VInt64 1]> (<["changelog_write_quorum" := VInt64 1]>
      (<["changelog_read_quorum" := VInt64 1]> (<["changelog_replication_factor" := VInt64 1]> options)))
  else options.

Definition bundlePath (bundle : string) : string := path_Child tabletCellBundlesPath bundle.

(** What a step of the initialization that failed reports. *)
Abbreviation step := (go E (option (string * yterror))).

Definition failing (what : string) (m : go E (option yterror)) : step :=
  err ← m; mret (match err with Some err => Some (what, err) | None => None end).

Fixpoint steps (l : list step) : step :=
  match l with
  | [] => mret None
  | s :: l => failed ← s; match failed with Some failed => mret (Some failed) | None => steps l end
  end.

Definition init_sys_bundle : step :=
  sysBundleExists ← NodeExists (bundlePath SysBundle);
  match sysBundleExists with
  | inl err => mret (Some ("tablet_cell_bundle creation", err))
  | inr true => mret None
  | inr false =>
      failing "tablet_cell_bundle creation"
        (cy_CreateObject "tablet_cell_bundle" (mkCreateObjectOptions false
           {[ "name" := VString SysBundle; "options" := VMap (getBundleOptions SysBundle) ]}))
  end.

(** [maps.Copy] overwrites the options that are set. *)
Definition init_default_options : step :=
  let options := getBundleOptions DefaultBundle in
  if options == ∅ then mret None else
  let path := path_Attr (bundlePath DefaultBundle) "options" in
  bundleOptions ← GetNode (A:=gmap string Any) path;
  match bundleOptions with
  | inl err => mret (Some ("getting default bundle options", err))
  | inr bundleOptions => failing "setting default bundle options" (cy_SetNode path (VMap (options ∪ bundleOptions)) None)
  end.

Definition init_tag_filter (bundle : string) : step :=
  match getBundleBootstrap bundle with
  | Some bootstrap =>
      match bb_NodeTagFilter bootstrap with
      | Some filter =>
          failing ("setting bundle " +:+ quoted bundle +:+ " node tag filter")
            (cy_SetNode (path_Attr (bundlePath bundle) "node_tag_filter") (VString filter) None)
      | None => mret None
      end
  | None => mret None
  end.

Definition bundleCellCount (bundle : string) : Z :=
  match getBundleBootstrap bundle with Some bootstrap => bb_TabletCellCount bootstrap | None => 1%Z end.

Definition init_cells (bundle : string) : step :=
  failing "tablet cells creation" (CreateTabletCells bundle (bundleCellCount bundle)).

Definition bundle_steps : list step :=
  [ init_sys_bundle; init_default_options; init_tag_filter DefaultBundle; init_tag_filter SysBundle;
    init_cells DefaultBundle; init_cells SysBundle ].

Definition initBundles : go W syncResult :=
  failed ← in_env (steps bundle_steps);
  match failed with
  | Some (what, err) => mret (ComponentStatusWaitingFor what, Some (yt_message err))
  | None =>
      SetStatusCondition (condition initBundlesCondition ConditionTrue "InitBundlesCompleted"
        "Init bundles successfully completed") ;;
      mret (ComponentStatusReady, None)
  end.

Definition tablet_updating (dry : bool) : go W handled :=
  let self := updating_self (tn_sc tn) (mret ComponentStatusReady) in
  updating ← gets (λ w, components_IsUpdatingComponent w (sc_base (tn_sc tn)));
  if negb updating then mret (Some (ComponentStatusReadyAfter "Not updating component"), None) else
  strategy ← gets (λ w, getComponentUpdateStrategy w (GetType (sc_base (tn_sc tn))) (GetShortName (sc_base (tn_sc tn))));
  match strategy with
  | ComponentUpdateModeTypeOnDelete => handleOnDeleteUpdatingClusterState self (sc_server (tn_sc tn)) dry
  | _ => handleBulkUpdatingClusterState self (sc_server (tn_sc tn)) dry
  end.

Definition tablet_init (dry : bool) : go W syncResult :=
  completed ← gets (λ w, IsStatusConditionTrue w initBundlesCondition);
  skip ← gets ShouldSkipCypressOperations;
  if negb (tn_doInitialization tn) || completed || skip then mret (ComponentStatusReady, None) else
  wait_running (yr_base (tn_client tn)) (
    let waiting := (ComponentStatusWaitingFor ("setting " +:+ initBundlesCondition +:+ " condition"), None) in
    if dry then mret waiting else
    '(status, err) ← initBundles;
    match err with
    | Some err => mret (status, Some err)
    | None => mret waiting
    end).

Definition TabletNode_Sync (dry : bool) : go W syncResult :=
  let sc := tn_sc tn in
  if_status (when_updating (tablet_updating dry))
  (wait_all (option_list (tn_master tn))
  (sync_server sc dry (srv_Sync (sc_server sc))
  (unless_done (sc_ArePodsReady sc) (tablet_init dry)))).

End tablet_node.

End components.

(** ** The kinds of server components *)

Section kinds.
Context {E : Type} {MC : MetaConditions} {SC : StatusClient E} {CC : CypressClient E} {Y : Ypath} {CF : ConfigCodec}.
Context `{HKV : !KubeClient E Service} `{HKC : !KubeClient E ConfigMap}.
Context {DB : YsonDecode bool} {DZ : YsonDecode Z} {DL : YsonDecode (list string)}.
Context {DO : YsonDecode (gmap string Any)} {DA : YsonDecode (list ControllerAgentsWithMaintenance)}.
Context (path_Attr : string → string → string) (NodeExists : string → go E (yterror + bool)) (quoted : string → string).

Abbreviation W := (World E).

(** The components of this file.  Masters (Master.v), schedulers, query trackers, queue agents and YQL
    agents (AgentComponents.v) also run a server but are not of these kinds. *)
Inductive server_kind : Type :=
  | KDataNode (n : DataNode (E:=E)) | KDiscovery (d : Discovery (E:=E)) | KControllerAgent (ca : ControllerAgent (E:=E))
  | KMasterCache (mc : MasterCache (E:=E)) | KHttpProxy (hp : HttpProxy (E:=E)) | KRpcProxy (rp : RpcProxy (E:=E))
  | KTcpProxy (tp : TcpProxy (E:=E)) | KKafkaProxy (kp : KafkaProxy (E:=E)) | KExecNode (x : ExecNode (E:=E))
  | KTabletNode (tn : TabletNode (E:=E))
  | KCypressProxy (sc : serverComponent E) | KBundleController (sc : serverComponent E)
  | KTabletBalancer (sc : serverComponent E)
  | KRemoteDataNode (sc : serverComponent E) | KRemoteTabletNode (sc : serverComponent E)
  | KOffshoreDataGateway (sc : serverComponent E) | KRemoteExecNode (n : baseExecNode (E:=E)).

Definition kind_sc (k : server_kind) : serverComponent E :=
  match k with
  | KDataNode n => dnd_sc n | KDiscovery d => dsc_sc d | KControllerAgent ca => ca_sc ca
  | KMasterCache mc => mch_sc mc | KHttpProxy hp => hp_sc hp | KRpcProxy rp => rp_sc rp
  | KTcpProxy tp => tp_sc tp | KKafkaProxy kp => kp_sc kp | KExecNode x => en_sc (exn_base x)
  | KTabletNode tn => tn_sc tn
  | KCypressProxy sc | KBundleController sc | KTabletBalancer sc
  | KRemoteDataNode sc | KRemoteTabletNode sc | KOffshoreDataGateway sc => sc
  | KRemoteExecNode n => en_sc n
  end.

(** The master a component waits for. *)
Definition kind_master (k : server_kind) : option component :=
  match k with
  | KDataNode n => Some (dnd_master n) | KDiscovery d => Some (dsc_master d) | KControllerAgent ca => Some (ca_master ca)
  | KMasterCache mc => Some (mch_master mc) | KHttpProxy hp => Some (hp_master hp) | KRpcProxy rp => Some (rp_master rp)
  | KTcpProxy tp => Some (tp_master tp) | KKafkaProxy kp => Some (kp_master kp) | KExecNode x => Some (exn_master x)
  | KTabletNode tn => tn_master tn
  | _ => None
  end.

Definition kind_Sync (k : server_kind) (dry : bool) : go W (ComponentStatus * option error) :=
  match k with
  | KDataNode n => DataNode_Sync n dry
  | KDiscovery d => Discovery_Sync d dry
  | KControllerAgent ca => ControllerAgent_Sync ca dry
  | KMasterCache mc => MasterCache_Sync mc dry
  | KHttpProxy hp => HttpProxy_Sync hp dry
  | KRpcProxy rp => RpcProxy_Sync rp dry
  | KTcpProxy tp => TcpProxy_Sync tp dry
  | KKafkaProxy kp => KafkaProxy_Sync kp dry
  | KExecNode x => ExecNode_Sync path_Attr x dry
  | KTabletNode tn => TabletNode_Sync path_Attr NodeExists quoted tn dry
  | KCypressProxy sc => CypressProxy_Sync sc dry
  | KBundleController sc => BundleController_Sync sc dry
  | KTabletBalancer sc => TabletBalancer_Sync sc dry
  | KRemoteDataNode sc => RemoteDataNode_Sync sc dry
  | KRemoteTabletNode sc => RemoteTabletNode_Sync sc dry
  | KOffshoreDataGateway sc => OffshoreDataGateway_Sync sc dry
  | KRemoteExecNode n => RemoteExecNode_Sync n dry
  end.

Definition kind_UpdatePreCheck (k : server_kind) : go W ComponentStatus :=
  match k with
  | KDataNode n => DataNode_UpdatePreCheck (dnd_client n)
  | KDiscovery d => Discovery_UpdatePreCheck (dsc_sc d) (dsc_client d)
  | KControllerAgent ca => ControllerAgent_UpdatePreCheck (ca_sc ca) (ca_client ca)
  | KMasterCache mc => MasterCache_UpdatePreCheck (mch_sc mc) (mch_client mc)
  | KExecNode x => ExecNode_UpdatePreCheck path_Attr (exn_base x)
  | _ => mret ComponentStatusReady
  end.

Definition kind_Fetch (k : server_kind) : go W (option error) :=
  match k with
  | KHttpProxy hp => fetch_with_service (hp_sc hp) (Some (hp_balancingService hp))
  | KRpcProxy rp => fetch_with_service (rp_sc rp) (snd <$> rp_balancing rp)
  | KTcpProxy tp => fetch_with_service (tp_sc tp) (snd <$> tp_balancing tp)
  | KKafkaProxy kp => fetch_with_service (kp_sc kp) (snd <$> kp_balancing kp)
  | KExecNode x => exec_Fetch (exn_base x)
  | KRemoteExecNode n => exec_Fetch n
  | _ => fetch_server (kind_sc k)
  end.

Definition kind_NeedUpdate (k : server_kind) : go W ComponentStatus :=
  match k with
  | KExecNode x => exec_NeedUpdate (exn_base x)
  | KRemoteExecNode n => exec_NeedUpdate n
  | _ => gets (needUpdate (sc_server (kind_sc k)))
  end.

(** The [Component] a kind implements. *)
Definition kind_component (k : server_kind) : ComponentI W :=
  mkComponentI _ (sc_base (kind_sc k)) (kind_Fetch k) (kind_NeedUpdate k) (kind_Sync k) (kind_UpdatePreCheck k).

(** ** They keep to the contract of components *)

(** An operation that acts on the environment, and possibly records events, only. *)
Definition outside {A} (m : go W A) : Prop :=
  ∀ w, w_yts (run m w) = w_yts w ∧ w_statuses (run m w) = w_statuses w.

Class ServerOutside (s : server W) : Prop := {
  so_setInstanceCount : ∀ n, outside (setInstanceCount (srv_pods s) n);
  so_listPods : outside (listPods (srv_pods s));
  so_removePods : outside (pm_removePods (srv_pods s));
  so_arePodsUpdated : outside (arePodsUpdatedToNewRevision (srv_pods s));
  so_Fetch : outside (srv_Fetch s);
  so_Sync : outside (srv_Sync s);
  so_setUpdateStrategy : ∀ t p m, outside (setUpdateStrategy s t p m);
  so_getRollingUpdateStatus : outside (getRollingUpdateStatus s);
}.

(** The server and the operations on the pod template a component adds. *)
Definition kind_outside (k : server_kind) : Prop :=
  ServerOutside (sc_server (kind_sc k)) ∧
  match k with
  | KMasterCache mc => outside (mch_addAffinity mc)
  | KHttpProxy hp => ∀ add, hp_addSecret hp = Some add → outside add
  | KRpcProxy rp => ∀ add, rp_addSecret rp = Some add → outside add
  | KExecNode x => outside (en_buildPod (exn_base x))
  | KRemoteExecNode n => outside (en_buildPod n)
  | _ => True
  end.

Lemma outside_ret {A} (x : A) : outside (mret x).
Proof. by intros w. Qed.

Lemma outside_gets {A} (f : W → A) : outside (gets f).
Proof. by intros w. Qed.

Lemma outside_in_env {A} (f : go E A) : outside (in_env f).
Proof. intros w. by rewrite run_in_env. Qed.

Lemma outside_bind {A B} (m : go W A) (f : A → go W B) : outside m → (∀ x, outside (f x)) → outside (m ≫= f).
Proof.
  intros Hm Hf w. rewrite run_bind. destruct (Hf (val_of m w) (run m w)) as [-> ->]. apply Hm.
Qed.

Lemma confined_outside {A} (m : go W A) : outside m → confined m.
Proof. apply confined_yts. Qed.

End kinds.

#[export] Hint Resolve outside_ret outside_gets outside_in_env so_setInstanceCount so_listPods so_removePods
  so_arePodsUpdated so_Fetch so_Sync so_setUpdateStrategy so_getRollingUpdateStatus : outside.

Ltac go_outside :=
  repeat first
    [ progress intros
    | solve [eauto with outside typeclass_instances]
    | apply outside_bind
    | match goal with |- outside (let '(_, _) := ?x in _) => destruct x end
    | match goal with |- outside (match ?x with _ => _ end) => destruct x end ].

Section contract.
Context {E : Type} {MC : MetaConditions} {ML : MetaConditionsLaws MC} {SC : StatusClient E} {CC : CypressClient E}.
Context {Y : Ypath} {CF : ConfigCodec} `{HKV : !KubeClient E Service} `{HKC : !KubeClient E ConfigMap}.
Context {DB : YsonDecode bool} {DZ : YsonDecode Z} {DL : YsonDecode (list string)}.
Context {DO : YsonDecode (gmap string Any)} {DA : YsonDecode (list ControllerAgentsWithMaintenance)}.
Context (path_Attr : string → string → string) (NodeExists : string → go E (yterror + bool)) (quoted : string → string).

Abbreviation W := (World E).

#[local] Hint Resolve confined_outside so_setInstanceCount so_listPods so_removePods so_arePodsUpdated so_Fetch so_Sync
  so_setUpdateStrategy so_getRollingUpdateStatus : confined.

(** *** The update handlers *)

Lemma confined_UpdateOnDeleteComponentsSummary t b : confined (UpdateOnDeleteComponentsSummary (E:=E) t b).
Proof.
  split_and!; [apply UpdateOnDeleteComponentsSummary_core|..];
    intros w; unfold run, UpdateOnDeleteComponentsSummary; repeat case_match; done.
Qed.

Section handlers.
Context (cmp : ComponentI W) (s : server W) {SO : ServerOutside s} (Hpre : outside (ci_UpdatePreCheck cmp)).

#[local] Hint Resolve confined_UpdateOnDeleteComponentsSummary : confined.

Lemma confined_removePods c : confined (removePods (srv_pods s) c).
Proof. unfold removePods. go_confined. Qed.

Lemma confined_runPrechecks : confined (runPrechecks cmp).
Proof. unfold runPrechecks. go_confined. Qed.

Lemma confined_withPrechecks k : confined k → confined (withPrechecks cmp k).
Proof. pose proof confined_runPrechecks. unfold withPrechecks. go_confined. Qed.

#[local] Hint Resolve confined_removePods confined_withPrechecks : confined.

Lemma confined_handleUpdatingClusterState dry : confined (handleUpdatingClusterState cmp s dry).
Proof. unfold handleUpdatingClusterState. go_confined. Qed.

Lemma confined_handleBulk dry : confined (handleBulkUpdatingClusterState cmp s dry).
Proof. unfold handleBulkUpdatingClusterState. go_confined; apply confined_withPrechecks; go_confined. Qed.

Lemma confined_handleOnDelete dry : confined (handleOnDeleteUpdatingClusterState cmp s dry).
Proof.
  unfold handleOnDeleteUpdatingClusterState. apply confined_bind; [go_confined|]. intros state.
  case_match; [go_confined|]. destruct dry; [go_confined|]. apply confined_withPrechecks. go_confined.
Qed.

Lemma confined_handleRolling dry : confined (handleRollingUpdatingClusterState cmp s dry).
Proof.
  unfold handleRollingUpdatingClusterState, setPodsUpdatedCondition, setRollingBudgetExhaustedCondition.
  repeat first [apply confined_withPrechecks | progress go_confined].
Qed.

Lemma confined_dispatch dry : confined (dispatchComponentUpdate cmp s dry).
Proof.
  pose proof (confined_handleRolling dry). pose proof (confined_handleOnDelete dry). pose proof (confined_handleBulk dry).
  unfold dispatchComponentUpdate. go_confined.
Qed.

End handlers.

(** *** The shapes *)

Lemma confined_if_status (m : go W (option ComponentStatus * option error)) k :
  confined m → confined k → confined (if_status m k).
Proof. unfold if_status. go_confined. Qed.

Lemma confined_or_status (m k : go W (option ComponentStatus * option error)) :
  confined m → confined k → confined (or_status m k).
Proof. unfold or_status. go_confined. Qed.

Lemma confined_when_updating (m : go W (option ComponentStatus * option error)) :
  confined m → confined (when_updating m).
Proof. unfold when_updating. go_confined. Qed.

Lemma confined_only_pods_creation : confined (only_pods_creation (E:=E)).
Proof. unfold only_pods_creation. go_confined. Qed.

Lemma confined_wait_running c (k : go W (ComponentStatus * option error)) : confined k → confined (wait_running c k).
Proof. unfold wait_running. go_confined. Qed.

Lemma confined_wait_all l (k : go W (ComponentStatus * option error)) : confined k → confined (wait_all l k).
Proof. intros Hk. induction l as [|c l IH]; cbn [wait_all]; [done|by apply confined_wait_running]. Qed.

Lemma confined_unless_done (step k : go W (ComponentStatus * option error)) :
  confined step → confined k → confined (unless_done step k).
Proof. unfold unless_done. go_confined. Qed.

#[local] Hint Resolve confined_if_status confined_or_status confined_when_updating confined_only_pods_creation
  confined_wait_running confined_wait_all confined_unless_done confined_handleUpdatingClusterState
  confined_handleBulk confined_handleOnDelete confined_dispatch confined_removePods : confined.

Section server.
Context (sc : serverComponent E) {SO : ServerOutside (sc_server sc)}.

Lemma confined_ArePodsReady : confined (sc_ArePodsReady sc).
Proof. unfold sc_ArePodsReady, arePodsReady. go_confined. Qed.

Lemma confined_sync_server dry sync k : confined sync → confined k → confined (sync_server sc dry sync k).
Proof. unfold sync_server, sync_if. go_confined. Qed.

#[local] Hint Resolve confined_ArePodsReady confined_sync_server : confined.

Lemma confined_server_then_pods dry : confined (server_then_pods sc dry).
Proof. unfold server_then_pods. go_confined. Qed.

Lemma confined_sync_service (cell : lens E (ManagedResource Service)) build dry k :
  confined build → confined k → confined (sync_service cell build dry k).
Proof. intros. unfold sync_service, sync_if. go_confined. Qed.

Lemma confined_service_Build l (cell : lens E (ManagedResource Service)) spec : confined (service_Build l cell spec).
Proof. apply confined_in_resource. Qed.

Lemma confined_set_type (cell : lens E (ManagedResource Service)) t : confined (set_type cell t).
Proof. apply confined_in_resource. Qed.

Lemma outside_with_client yc k : outside k → outside (with_client (E:=E) yc k).
Proof. intros. unfold with_client. go_outside. Qed.

Lemma outside_instances_match t k : outside k → outside (instances_match sc t k).
Proof. intros. unfold instances_match. go_outside. Qed.

Lemma confined_migration dry : confined (handleImaginaryChunksMigration sc dry).
Proof. unfold handleImaginaryChunksMigration. go_confined. Qed.

End server.

#[local] Hint Resolve confined_ArePodsReady confined_sync_server confined_server_then_pods confined_sync_service
  confined_service_Build confined_set_type confined_migration : confined.
#[local] Hint Resolve outside_with_client outside_instances_match : outside.

Section exec.
Context (n : baseExecNode (E:=E)) {SO : ServerOutside (sc_server (en_sc n))} (Hb : outside (en_buildPod n)).

Lemma confined_sidecar_reload : confined (sidecarConfigNeedsReload n).
Proof. unfold sidecarConfigNeedsReload. go_confined. Qed.

Lemma confined_exec_NeedSync : confined (exec_NeedSync n).
Proof. pose proof confined_sidecar_reload. unfold exec_NeedSync. go_confined. Qed.

Lemma confined_doBuildBase : confined (doBuildBase n).
Proof. unfold doBuildBase. go_confined. Qed.

Lemma confined_doSyncBase dry : confined (doSyncBase n dry).
Proof.
  unfold doSyncBase. apply confined_bind; [|go_confined]. destruct dry; [go_confined|].
  apply confined_resources_seq. repeat (apply Forall_cons; split); [go_confined| |apply Forall_nil; done].
  destruct (en_sidecarConfig n); cbn; [apply confined_cb_Sync|done].
Qed.

Lemma outside_exec_precheck : outside (ExecNode_UpdatePreCheck path_Attr n).
Proof. unfold ExecNode_UpdatePreCheck. apply outside_with_client. unfold drainExecNodeForRollingUpdate. go_outside. Qed.

Lemma confined_enableSchedulerJobs : confined (enableSchedulerJobs path_Attr n).
Proof. unfold enableSchedulerJobs. go_confined. Qed.

End exec.

#[local] Hint Resolve confined_exec_NeedSync confined_doBuildBase confined_doSyncBase confined_enableSchedulerJobs : confined.
#[local] Hint Resolve outside_exec_precheck : outside.

Lemma outside_precheck k : kind_outside k → outside (kind_UpdatePreCheck path_Attr k).
Proof.
  intros [HS Hk]. destruct k; cbn [kind_UpdatePreCheck kind_sc] in *; try apply outside_ret.
  - apply outside_with_client. go_outside.
  - apply outside_with_client, outside_instances_match. go_outside.
  - apply outside_with_client, outside_instances_match. go_outside.
  - apply outside_with_client, outside_instances_match. go_outside.
  - by apply outside_exec_precheck.
Qed.

Lemma confined_add_secret add dry :
  (∀ m, add = Some m → outside m) → confined (add_secret (E:=E) add dry).
Proof. intros H. unfold add_secret. destruct add as [m|]; [|go_confined]. specialize (H m eq_refl). go_confined. Qed.

Lemma confined_initBundles tn : confined (initBundles path_Attr NodeExists quoted tn).
Proof. unfold initBundles. go_confined. Qed.

Lemma confined_tablet tn dry : ServerOutside (sc_server (tn_sc tn)) → confined (TabletNode_Sync path_Attr NodeExists quoted tn dry).
Proof.
  intros HS. pose proof (confined_initBundles tn). unfold TabletNode_Sync.
  apply confined_if_status.
  - apply confined_when_updating. unfold tablet_updating. apply confined_bind; [go_confined|]. intros updating.
    destruct updating; [|go_confined]. apply confined_bind; [go_confined|]. intros strategy.
    destruct strategy; first [apply confined_handleOnDelete | apply confined_handleBulk]; try exact HS; apply outside_ret.
  - apply confined_wait_all, confined_sync_server; [go_confined|]. apply confined_unless_done; [go_confined|].
    unfold tablet_init. go_confined.
Qed.

Lemma confined_dispatch_creation cmp s dry :
  ServerOutside s → outside (ci_UpdatePreCheck cmp) → confined (dispatch_then_creation (E:=E) cmp s dry).
Proof. intros. unfold dispatch_then_creation. apply confined_when_updating, confined_or_status; go_confined. Qed.

(** Follow the shape of a [Sync] method. *)
Ltac sync_shape :=
  repeat match goal with
    | |- confined (if_status _ _) => apply confined_if_status
    | |- confined (or_status _ _) => apply confined_or_status
    | |- confined (when_updating _) => apply confined_when_updating
    | |- confined (wait_running _ _) => apply confined_wait_running
    | |- confined (sync_server _ _ _ _) => apply confined_sync_server
    | |- confined (sync_service _ _ _ _) => apply confined_sync_service
    | |- confined (server_then_pods _ _) => by apply confined_server_then_pods
    | |- confined (sc_ArePodsReady _) => by apply confined_ArePodsReady
    | |- confined (dispatch_then_creation _ _ _) => by apply confined_dispatch_creation
    | |- confined (dispatchComponentUpdate _ _ _) => by apply confined_dispatch
    | |- confined (handleUpdatingClusterState _ _ _) => by apply confined_handleUpdatingClusterState
    | |- confined (handleImaginaryChunksMigration _ _) => by apply confined_migration
    | |- confined (add_secret _ _) => by apply confined_add_secret
    | |- confined (doBuildBase _) => by apply confined_doBuildBase
    | |- confined (doSyncBase _ _) => by apply confined_doSyncBase
    | |- confined (exec_NeedSync _) => apply confined_exec_NeedSync
    | |- confined (enableSchedulerJobs _ _) => by apply confined_enableSchedulerJobs
    | |- confined (set_type _ _) => apply confined_set_type
    | |- confined (http_Build _ _ _) => apply confined_service_Build
    | |- confined (rpc_Build _ _ _) => apply confined_service_Build
    | |- confined (tcp_Build _ _ _) => apply confined_service_Build
    | |- confined (srv_Sync _) => by apply confined_outside, so_Sync
    | |- confined (gets _) => apply confined_gets
    | |- confined (mret _) => apply confined_ret
    | |- confined (_ ≫= _) => apply confined_bind; [|intros ?]
    | |- confined (match ?x with _ => _ end) => destruct x
    | |- confined _ => apply confined_outside; assumption
    end.

Lemma confined_kind_Sync k dry : kind_outside k → confined (kind_Sync path_Attr NodeExists quoted k dry).
Proof.
  intros Hk. pose proof (outside_precheck k Hk) as Hp. destruct Hk as [HS Hk].
  destruct k; cbn [kind_Sync kind_sc kind_UpdatePreCheck] in *;
    [unfold DataNode_Sync|unfold Discovery_Sync|unfold ControllerAgent_Sync|unfold MasterCache_Sync|unfold HttpProxy_Sync
    |unfold RpcProxy_Sync|unfold TcpProxy_Sync|unfold KafkaProxy_Sync|unfold ExecNode_Sync|by apply confined_tablet
    |unfold CypressProxy_Sync|unfold BundleController_Sync|unfold TabletBalancer_Sync|unfold RemoteDataNode_Sync
    |unfold RemoteTabletNode_Sync|unfold OffshoreDataGateway_Sync|unfold RemoteExecNode_Sync]; cbv zeta; sync_shape.
Qed.

(** A server and a resource that may be absent. *)
Lemma confined_fetch_two sc (o : option (go W (option error))) :
  ServerOutside (sc_server sc) → (∀ m, o = Some m → confined m) →
  confined (resources_Fetch [Some (srv_Fetch (sc_server sc)); o]).
Proof.
  intros HS Ho. apply confined_resources_seq. repeat (apply Forall_cons; split); [apply confined_outside, so_Fetch| |by apply Forall_nil].
  destruct o as [m|]; [by apply Ho|done].
Qed.

Lemma confined_fetch_with_service sc cell : ServerOutside (sc_server sc) → confined (fetch_with_service (E:=E) sc cell).
Proof.
  intros HS. apply confined_fetch_two; [done|]. intros m Hm. destruct cell; [|done]. injection Hm as <-.
  apply confined_resource_Fetch.
Qed.

Lemma confined_exec_Fetch n : ServerOutside (sc_server (en_sc n)) → confined (exec_Fetch (E:=E) n).
Proof.
  intros HS. apply confined_fetch_two; [done|]. intros m Hm. destruct (en_sidecarConfig n); [|done]. injection Hm as <-.
  apply confined_cb_Fetch.
Qed.

Lemma confined_kind_Fetch (k : server_kind (E:=E)) : kind_outside k → confined (kind_Fetch k).
Proof.
  intros [HS _].
  assert (confined (fetch_server (kind_sc k))) as Hf.
  { apply confined_resources_seq, Forall_singleton, confined_outside, so_Fetch. }
  destruct k; cbn [kind_Fetch kind_sc] in *; try exact Hf;
    first [by apply confined_fetch_with_service | by apply confined_exec_Fetch].
Qed.

Lemma confined_kind_NeedUpdate (k : server_kind (E:=E)) : confined (kind_NeedUpdate k).
Proof.
  destruct k; cbn [kind_NeedUpdate]; try apply confined_gets; unfold exec_NeedUpdate; sync_shape;
    apply confined_sidecar_reload.
Qed.

(** The components of [server_kind] keep the contract the component manager, the update flow and
    the reconciler are proved against, given a server whose operations do not write to the cluster
    resource ([kind_outside]): fetching, judging and syncing it may set conditions but leave the specification, the
    states and the list of updating components alone, never touch the status another
    component holds, keep condition types unique, and its pre-check does not write to the
    resource at all. *)
Theorem server_component_frame k :
  kind_outside k → ComponentFrame (kind_component path_Attr NodeExists quoted k).
Proof.
  intros Hk. pose proof (confined_kind_Fetch k Hk) as (F1 & F2 & F3).
  pose proof (confined_kind_NeedUpdate k) as (N1 & N2 & N3).
  pose proof (λ dry, confined_kind_Sync k dry Hk) as HS. pose proof (outside_precheck k Hk) as Hp.
  split; cbn [ci_Fetch ci_NeedUpdate ci_Sync ci_UpdatePreCheck kind_component]; try done.
  - intros dry. apply (HS dry).
  - intros w. apply Hp.
  - intros dry. apply (HS dry).
  - intros dry. apply (HS dry).
Qed.

End contract.

(** ** Nothing before the masters *)

Section masters_first.
Context {E : Type} {MC : MetaConditions} {ML : MetaConditionsLaws MC} {SC : StatusClient E} {CC : CypressClient E}.
Context {Y : Ypath} {CF : ConfigCodec} `{HKV : !KubeClient E Service} `{HKC : !KubeClient E ConfigMap}.
Context {DB : YsonDecode bool} {DZ : YsonDecode Z} {DL : YsonDecode (list string)}.
Context {DO : YsonDecode (gmap string Any)} {DA : YsonDecode (list ControllerAgentsWithMaintenance)}.
Context (path_Attr : string → string → string) (NodeExists : string → go E (yterror + bool)) (quoted : string → string).

Abbreviation W := (World E).

(** What a component does to its pod template, in memory, before it looks at anything. *)
Definition kind_prepare (k : server_kind (E:=E)) (dry : bool) : go W (option error) :=
  match k with
  | KHttpProxy hp => add_secret (hp_addSecret hp) dry ;; mret None
  | KRpcProxy rp => add_secret (rp_addSecret rp) dry ;; mret None
  | KExecNode x => if dry then mret None else doBuildBase (exn_base x)
  | _ => mret None
  end.

Lemma when_updating_idle (m : go W (option ComponentStatus * option error)) w :
  IsUpdating w = false → when_updating m w = ((None, None), w).
Proof. intros H. unfold when_updating, mbind, go_bind, gets. cbn. by rewrite H. Qed.

Lemma if_status_None (m : go W (option ComponentStatus * option error)) k w w' :
  m w = ((None, None), w') → if_status m k w = k w'.
Proof. intros H. unfold if_status, mbind, go_bind. by rewrite H. Qed.

Lemma wait_running_blocked c (k : go W (ComponentStatus * option error)) w :
  IsRunning (GetStatus w c) = false → wait_running c k w = ((Blocker (GetStatus w c), None), w).
Proof. intros H. unfold wait_running, mbind, go_bind, gets. cbn. by rewrite H. Qed.

(** A component without its own preparation, or after it. *)
Lemma idle_blocked m c (k : go W (ComponentStatus * option error)) w :
  IsUpdating w = false → IsRunning (GetStatus w c) = false →
  if_status (when_updating m) (wait_running c k) w = ((Blocker (GetStatus w c), None), w).
Proof.
  intros Hu Hc. rewrite (if_status_None _ _ w w) by by apply when_updating_idle. by apply wait_running_blocked.
Qed.

Lemma confined_sees {A} (m : go W A) w c :
  confined m → IsUpdating (run m w) = IsUpdating w ∧ GetStatus (run m w) c = GetStatus w c.
Proof.
  intros (Hc & Hs & _). specialize (Hc w). unfold w_core in Hc. injection Hc as _ _ _ Hc _ _.
  unfold IsUpdating, GetStatus. by rewrite Hc, (Hs w).
Qed.

Lemma confined_prepare k dry : kind_outside k → confined (kind_prepare k dry).
Proof.
  intros [HS Hk]. destruct k; cbn [kind_prepare] in *; try apply confined_ret.
  - apply confined_bind; [by apply confined_add_secret|intros _; apply confined_ret].
  - apply confined_bind; [by apply confined_add_secret|intros _; apply confined_ret].
  - destruct dry; [apply confined_ret|by apply confined_doBuildBase].
Qed.

(** Outside an update no server component does anything as long as the masters it waits
    for are not running: the pass reports it blocked by the masters, sends no request and
    leaves the resource as it is.  Only the pod template is prepared in memory, and an exec
    node whose template cannot be built reports that error instead. *)
Theorem masters_first k m dry w :
  kind_outside k → kind_master k = Some m → IsUpdating w = false → IsRunning (GetStatus w m) = false →
  kind_Sync path_Attr NodeExists quoted k dry w =
    (match val_of (kind_prepare k dry) w with
     | Some err => (ComponentStatusBlockedBy "cannot build exec node spec", Some err)
     | None => (Blocker (GetStatus w m), None)
     end, run (kind_prepare k dry) w).
Proof.
  intros Hk Hm Hu Hr. destruct (confined_sees (kind_prepare k dry) w m) as [Hu' Hs']; [by apply confined_prepare|].
  rewrite Hu in Hu'.
  destruct k; cbn [kind_Sync kind_prepare kind_master] in *; try discriminate; try (injection Hm as <-; by apply idle_blocked).
  - injection Hm as <-. unfold HttpProxy_Sync, mbind, go_bind, val_of, run in *.
    destruct (add_secret (hp_addSecret hp) dry w) as [[] w'] eqn:Ha. cbn in *. rewrite <- Hs'.
    apply idle_blocked; [done|by rewrite Hs'].
  - injection Hm as <-. unfold RpcProxy_Sync, mbind, go_bind, val_of, run in *.
    destruct (add_secret (rp_addSecret rp) dry w) as [[] w'] eqn:Ha. cbn in *. rewrite <- Hs'.
    apply idle_blocked; [done|by rewrite Hs'].
  - injection Hm as <-. unfold ExecNode_Sync, val_of, run in *. cbv zeta.
    set (prepare := if dry then mret None else doBuildBase (exn_base x)) in *.
    unfold mbind at 1, go_bind at 1. destruct (prepare w) as [[err|] w']; cbn in *; [done|].
    rewrite <- Hs'. apply idle_blocked; [done|by rewrite Hs'].
  - unfold TabletNode_Sync. rewrite Hm. cbn [option_list wait_all]. by apply idle_blocked.
Qed.

End masters_first.

(** ** Draining an exec node *)

Section drain.
Context {E : Type} {MC : MetaConditions} {ML : MetaConditionsLaws MC} {SC : StatusClient E}.
Context {CC : CypressClient E} {CR : CypressReads E} {Y : Ypath} {CF : ConfigCodec} `{HKC : !KubeClient E ConfigMap}.
Context {DZ : YsonDecode Z} (path_Attr : string → string → string) (n : baseExecNode (E:=E)).

Abbreviation W := (World E).

(** The address of an instance of exec nodes exists. *)
Lemma execNode_address l i port : lab_ComponentType l = ExecNodeType → is_Some (GetInstanceAddressPort l i port).
Proof.
  intros Hl. unfold GetInstanceAddressPort, GetServerStatefulSetName, GetHeadlessServiceName. rewrite Hl. cbn.
  repeat (case_match; simplify_eq/=); by eexists.
Qed.



End drain.

(** ** A pre-check that passed is not repeated *)

Section once.
Context {E : Type} {MC : MetaConditions} {ML : MetaConditionsLaws MC} {SC : StatusClient E}.

Abbreviation W := (World E).

Lemma ShouldRunPreChecks_ready w t l :
  IsUpdateStatusConditionTrue w (GetReadyCondition l) = true →
  ShouldRunPreChecks (E:=E) w t (GetFullComponentName l) = false.
Proof.
  rewrite IsUpdateStatusConditionTrue_find. unfold ShouldRunPreChecks, GetUpdateStatusCondition.
  change (GetReadyCondition l) with (GetFullComponentName l +:+ "Ready").
  destruct (FindStatusCondition _ _) as [c|]; [|done]. intros Hc. rewrite Hc. by destruct (negb _).
Qed.

(** A pre-check runs until it succeeds once: from then on, for as long as the update
    remembers its success, every further step of the component goes on without a check.  In a
    rolling update this means that only the pod updated first is checked: the pods after it
    are taken away whatever the check would say of them. *)
Theorem prechecks_once (cmp : ComponentI W) w :
  update_unique w → outside (ci_UpdatePreCheck cmp) →
  val_of (runPrechecks cmp) w = (None, None) →
  IsUpdateStatusConditionTrue (run (runPrechecks cmp) w) (GetReadyCondition (cmp_labeller (ci_base cmp))) = true ∧
  ∀ w' k, IsUpdateStatusConditionTrue w' (GetReadyCondition (cmp_labeller (ci_base cmp))) = true →
    withPrechecks cmp k w' = k w'.
Proof.
  intros Hu Ho Hv. split.
  - revert Hv. unfold runPrechecks. go_step. set (w1 := run (SetUpdateStatusCondition _) w).
    assert (update_unique w1) as Hu1 by by apply SetUpdateStatusCondition_keeps_update.
    assert (update_unique (run (ci_UpdatePreCheck cmp) w1)) as Hu2.
    { unfold update_unique, w_update_conditions, w_update_status, w_status. by rewrite (proj1 (Ho w1)). }
    destruct (bool_decide_reflect (cs_SyncStatus (val_of (ci_UpdatePreCheck cmp) w1) = SyncStatusReady)) as [Hs|Hs];
      cbn [negb]; [|by go_step]. go_step. intros _. rewrite IsUpdateStatusConditionTrue_set by done. cbn.
    by rewrite bool_decide_true.
  - intros w' k Hw'. unfold withPrechecks, mbind, go_bind, gets. cbn.
    unfold GetFullName. by rewrite ShouldRunPreChecks_ready.
Qed.

End once.

(** ** The initialization of tablet cell bundles *)

Section bundles.
Context {E : Type} {MC : MetaConditions} {ML : MetaConditionsLaws MC} {SC : StatusClient E}.
Context {CC : CypressClient E} {CR : CypressReads E} {Y : Ypath} {DZ : YsonDecode Z} {DO : YsonDecode (gmap string Any)}.
Context (path_Attr : string → string → string) (NodeExists : string → go E (yterror + bool)) (quoted : string → string).
Context (cells : E → string → Z) {TL : TabletCellLaws E cells}.

Abbreviation W := (World E).

(** Neither a question, nor creating a bundle, nor setting an attribute of one changes the
    number of cells. *)
Class BundleLaws : Prop := {
  exists_reads : ∀ path e, run (NodeExists path) e = e;
  attribute_cells : ∀ bundle attribute v e b,
    cells (run (cy_SetNode (path_Attr (bundlePath bundle) attribute) v None) e) b = cells e b;
  bundle_cells : ∀ name options e b,
    cells (run (cy_CreateObject "tablet_cell_bundle" (mkCreateObjectOptions false
             {[ "name" := name; "options" := options ]})) e) b = cells e b;
}.
Context {BL : BundleLaws}.
Context (tn : TabletNode (E:=E)).

Abbreviation bundle_steps := (bundle_steps path_Attr NodeExists quoted tn).
Abbreviation initBundles := (initBundles path_Attr NodeExists quoted tn).

Lemma run_failing what (m : go E (option yterror)) e : run (failing what m) e = run m e.
Proof. unfold failing. by go_step. Qed.

Lemma val_failing what (m : go E (option yterror)) e :
  val_of (failing what m) e = match val_of m e with Some err => Some (what, err) | None => None end.
Proof. unfold failing. by go_step. Qed.

Lemma init_sys_bundle_cells e b : cells (run (init_sys_bundle NodeExists tn) e) b = cells e b.
Proof.
  unfold init_sys_bundle. go_step. rewrite exists_reads.
  destruct (val_of (NodeExists _) e) as [err|[]]; [done|done|]. rewrite run_failing. apply bundle_cells.
Qed.

Lemma init_default_options_cells e b : cells (run (init_default_options path_Attr tn) e) b = cells e b.
Proof.
  unfold init_default_options. case_match; [done|]. go_step. rewrite GetNode_run.
  destruct (val_of (GetNode _) e); [done|]. rewrite run_failing. apply attribute_cells.
Qed.

Lemma init_tag_filter_cells bundle e b : cells (run (init_tag_filter path_Attr quoted tn bundle) e) b = cells e b.
Proof. unfold init_tag_filter. repeat case_match; try done. rewrite run_failing. apply attribute_cells. Qed.

(** What a list of steps may do to the cells, and what it has done when it did not fail. *)
Lemma steps_cons (s : go E (option (string * yterror))) l (e : E) :
  val_of (steps (s :: l)) e =
    match val_of s e with Some failed => Some failed | None => val_of (steps l) (run s e) end ∧
  run (steps (s :: l)) e = match val_of s e with Some _ => run s e | None => run (steps l) (run s e) end.
Proof. cbn [steps]. go_step. destruct (val_of s e); by go_step. Qed.

(** A bundle with [had] cells that asks for [count]. *)
Definition cells_between (e e' : E) (bundle : string) : Prop :=
  (cells e bundle ≤ cells e' bundle ≤ cells e bundle `max` bundleCellCount tn bundle)%Z.

Lemma init_cells_spec bundle e :
  cells_between e (run (init_cells tn bundle) e) bundle ∧
  (val_of (init_cells tn bundle) e = None →
     cells (run (init_cells tn bundle) e) bundle = (cells e bundle `max` bundleCellCount tn bundle)%Z) ∧
  ∀ other, other ≠ bundle → cells (run (init_cells tn bundle) e) other = cells e other.
Proof.
  destruct (CreateTabletCells_spec cells bundle (bundleCellCount tn bundle) e) as (H1 & H2 & H3).
  unfold init_cells. rewrite run_failing, val_failing. split_and!; [done| |done].
  intros Hv. apply H2. by destruct (val_of _ e).
Qed.

Definition cells_exact (m : go E (option (string * yterror))) : Prop :=
  ∀ e b, b = DefaultBundle ∨ b = SysBundle →
    cells_between e (run m e) b ∧
    (val_of m e = None → cells (run m e) b = (cells e b `max` bundleCellCount tn b)%Z).

Lemma cells_exact_cons s l :
  (∀ e b, cells (run s e) b = cells e b) → cells_exact (steps l) → cells_exact (steps (s :: l)).
Proof.
  intros Hs Hl e b Hb. destruct (steps_cons s l e) as [-> ->]. destruct (val_of s e) as [err|].
  - split; [|done]. unfold cells_between. rewrite Hs. lia.
  - destruct (Hl (run s e) b Hb) as [H1 H2]. unfold cells_between in *. rewrite Hs in *. by split.
Qed.

(** The two steps that create cells. *)
Lemma cells_exact_cells : cells_exact (steps [init_cells tn DefaultBundle; init_cells tn SysBundle]).
Proof.
  intros e. destruct (steps_cons (init_cells tn DefaultBundle) [init_cells tn SysBundle] e) as [-> ->].
  destruct (init_cells_spec DefaultBundle e) as (D1 & D2 & D3).
  set (e1 := run (init_cells tn DefaultBundle) e) in *.
  pose proof (D3 SysBundle ltac:(discriminate)) as HS. unfold cells_between in *.
  destruct (val_of (init_cells tn DefaultBundle) e) as [err|] eqn:Hd.
  - intros b [-> | ->]; split; try done. rewrite HS. lia.
  - destruct (steps_cons (init_cells tn SysBundle) [] e1) as [-> ->].
    destruct (init_cells_spec SysBundle e1) as (S1 & S2 & S3). unfold cells_between in *.
    set (e2 := run (init_cells tn SysBundle) e1) in *.
    change (run (steps []) e2) with e2.
    assert (match val_of (init_cells tn SysBundle) e1 with Some _ => e2 | None => e2 end = e2) as -> by by case_match.
    specialize (D2 eq_refl). pose proof (S3 DefaultBundle ltac:(discriminate)) as HD. rewrite HS in *.
    intros b [-> | ->].
    + rewrite HD, D2. split; [lia|done].
    + split; [done|]. intros Hv. apply S2. by destruct (val_of (init_cells tn SysBundle) e1).
Qed.

Lemma cells_exact_steps : cells_exact (steps bundle_steps).
Proof.
  apply cells_exact_cons; [apply init_sys_bundle_cells|]. apply cells_exact_cons; [apply init_default_options_cells|].
  do 2 (apply cells_exact_cons; [apply init_tag_filter_cells|]). apply cells_exact_cells.
Qed.

(** Initializing the bundles of the cluster gives the default and the system bundle the
    number of cells asked for (one where nothing is asked) and never takes a cell away nor
    makes one too many, also when a step fails and the pass is repeated; and the
    initialization is recorded as done exactly when every step succeeded. *)
Theorem initBundles_exact w :
  conditions_ok w →
  let e := w_env w in
  let w' := run initBundles w in
  (∀ b, b = DefaultBundle ∨ b = SysBundle → cells_between e (w_env w') b ∧
     ((val_of initBundles w).2 = None → cells (w_env w') b = (cells e b `max` bundleCellCount tn b)%Z)) ∧
  (IsStatusConditionTrue w' initBundlesCondition = true ↔
     IsStatusConditionTrue w initBundlesCondition = true ∨ (val_of initBundles w).2 = None).
Proof.
  intros [Hu _]. cbv zeta. unfold initBundles. go_step. rewrite !val_in_env, !run_in_env.
  pose proof (cells_exact_steps (w_env w)) as Hc.
  destruct (val_of (steps bundle_steps) (w_env w)) as [[what err]|]; go_step.
  - split; [intros b Hb; by destruct (Hc b Hb)|]. cbn. split; [intros ?; by left|intros [Ht|Ht]; [exact Ht|discriminate Ht]].
  - split; [intros b Hb; destruct (Hc b Hb) as [H1 H2]; split; [exact H1|intros _; by apply H2]|]. rewrite IsStatusConditionTrue_set by done.
    rewrite bool_decide_true by done. split; [intros _; by right|intros _; by apply bool_decide_eq_true].
Qed.

End bundles.

(** ** The checks of data nodes, the service of Kafka proxies *)

Section checks.
Context {E : Type} {MC : MetaConditions} {SC : StatusClient E} {CC : CypressClient E} {CR : CypressReads E}.
Context {Y : Ypath} {DZ : YsonDecode Z} `{HKV : !KubeClient E Service}.

Abbreviation W := (World E).

Lemma checkDataNodeCounters_ready checks (e : E) :
  run (checkDataNodeCounters checks) e = e ∧
  (cs_SyncStatus (val_of (checkDataNodeCounters checks) e) = SyncStatusReady ↔
   Forall (λ c, ∃ n, val_of (GetNode (dcc_path c)) e = inr n ∧ (n ≤ 0)%Z) checks).
Proof.
  induction checks as [|c checks [IHr IHv]]; [done|]. cbn [checkDataNodeCounters]. go_step.
  unfold checkDataNodeCounter. go_step. rewrite GetNode_run, Forall_cons.
  destruct (val_of (GetNode (dcc_path c)) e) as [err|n].
  { split; [done|]. split; [done|]. by intros [(n & Hn & _) _]. }
  destruct (Z.ltb_spec 0 n) as [Hn|Hn]; cbn.
  - split; [done|]. split; [done|]. intros [(m & [= <-] & Hm) _]. lia.
  - split; [done|]. rewrite IHv. split; [|by intros [_ H]]. intros H. split; [by exists n|done].
Qed.

(** The pods of data nodes are taken away only while none of the five counters of chunks in
    danger is positive, and checking sends no request but reads. *)
Lemma DataNode_UpdatePreCheck_exact yc (w : W) :
  w_env (run (DataNode_UpdatePreCheck yc) w) = w_env w ∧
  (cs_SyncStatus (val_of (DataNode_UpdatePreCheck yc) w) = SyncStatusReady ↔
   (∃ c, yc = Some c ∧ yr_ready c w = true) ∧
   Forall (λ c, ∃ n, val_of (GetNode (dcc_path c)) (w_env w) = inr n ∧ (n ≤ 0)%Z) dataNodeRollingCounterChecks).
Proof.
  unfold DataNode_UpdatePreCheck, with_client. destruct yc as [c|].
  2: { split; [done|]. split; [done|]. by intros [(c & Hc & _) _]. }
  go_step.
  destruct (yr_ready c w) eqn:Hc; cbn [negb].
  2: { split; [done|]. split; [done|]. intros [(c' & [= <-] & Hc') _]. by rewrite Hc in Hc'. }
  rewrite val_in_env, run_in_env.
  destruct (checkDataNodeCounters_ready dataNodeRollingCounterChecks (w_env w)) as [Hr Hv]. cbn [w_env w_set_env].
  rewrite Hr, Hv. split; [done|]. split; [|by intros [_ H]]. intros H. split; [by exists c|done].
Qed.

(** The type of service the specification asks for has no influence on Kafka proxies. *)
Lemma kafka_service_type_ignored sc master cell t t' dry :
  KafkaProxy_Sync (mkKafkaProxy sc master (Some (t, cell))) dry = KafkaProxy_Sync (E:=E) (mkKafkaProxy sc master (Some (t', cell))) dry.
Proof. reflexivity. Qed.

End checks.

(** ** Examples *)

Section examples.

#[local] Existing Instance flat_status.
#[local] Existing Instance flat_cms.
#[local] Existing Instance flat_decode_bool.
#[local] Existing Instance flat_decode_int.
#[local] Existing Instance flat_decode_strings.
#[local] Instance flat_decode_map : YsonDecode (gmap string Any) :=
  {| yson_decode v := match v with VMap m => inr m | _ => inl "map" end |}.
#[local] Instance flat_decode_agents : YsonDecode (list ControllerAgentsWithMaintenance) := {| yson_decode _ := inr [] |}.
#[local] Instance flat_services : KubeClient FlatCypress Service := {
  client_Get _ := λ e, (inl NotFound, e);
  client_Create o := λ e, ((None, o), e);
  client_Update o := λ e, ((None, o), e);
  client_Delete _ := λ e, (None, e);
  SetControllerReference _ o := inr o;
}.

(** Three instances of which the last one is up to date. *)
Definition example_roll : stsRollingStatus := mkRollingStatus 2 3 1 3 "new" "old".

Definition example_pods : podsManager (World FlatCypress) := {|
  getInstanceCount _ := 3%Z;
  setInstanceCount _ := mret tt;
  getMinReadyInstanceCount _ _ := 2%Z;
  getPodAnnotation _ _ := "";
  listPods := mret ([], None);
  pm_removePods := mret None;
  arePodsUpdatedToNewRevision := mret false;
|}.

Definition example_server : server (World FlatCypress) := {|
  srv_pods := example_pods;
  srv_Fetch := mret None;
  srv_Exists _ := true;
  srv_Sync := mret None;
  setUpdateStrategy _ _ _ := mret tt;
  getRollingUpdateStatus := mret (Some example_roll, None);
  needUpdate _ := ComponentStatusReady;
  needSync _ _ := false;
|}.

Lemma example_server_outside : ServerOutside example_server.
Proof. split; intros; by apply outside_ret. Qed.

Definition example_sc (t : ComponentType) : serverComponent FlatCypress :=
  mkServerComponent (mkBase 1 (example_labeller t "") true) example_server.

Definition example_master_base : component := mkBase 0 (example_labeller MasterType "") true.

Definition example_exec : baseExecNode (E:=FlatCypress) :=
  mkBaseExecNode (example_sc ExecNodeType) (Some (mkYtClientRef (mkBase 2 (example_labeller YtsaurusClientType "") true) (λ _, true)))
    None (mret None).

Definition example_kind : server_kind (E:=FlatCypress) := KExecNode (mkExecNode example_exec example_master_base).

Lemma example_kind_outside : kind_outside example_kind.
Proof. split; [apply example_server_outside|apply outside_ret]. Qed.

(** [ypath.Path.Attr] of the map cluster. *)
Definition flat_Attr (path attribute : string) : string := path +:+ "/@" +:+ attribute.
Definition flat_NodeExists (path : string) : go FlatCypress (yterror + bool) :=
  λ e, (inr (bool_decide (is_Some (e !! path))), e).

Abbreviation kind_component' := (kind_component (Y:=flat_ypath) flat_Attr flat_NodeExists id).

Lemma server_component_frame_witness : ComponentFrame (kind_component' example_kind).
Proof. apply (server_component_frame (Y:=flat_ypath) flat_Attr flat_NodeExists id). exact example_kind_outside. Defined.

Definition idle_world : World FlatCypress := mkWorld example_yts [] 200 ∅ ∅.

Lemma masters_first_witness :
  val_of (kind_Sync (Y:=flat_ypath) flat_Attr flat_NodeExists id example_kind false) idle_world =
    (Blocker (GetStatus idle_world example_master_base), None).
Proof.
  unfold val_of. rewrite (masters_first (Y:=flat_ypath) flat_Attr flat_NodeExists id example_kind example_master_base false).
  - reflexivity.
  - exact example_kind_outside.
  - reflexivity.
  - reflexivity.
  - reflexivity.
Defined.

(** The node next in turn still runs a job. *)
Definition rolling_plan : list ComponentUpdateSelector :=
  [mkSelector ComponentClassUnspecified (mkComponent ExecNodeType "") None (Some (mkStrategy None (Some tt) None))].

Definition rolling_spec : YtsaurusSpec :=
  spec_set_UpdatePlan rolling_plan YtsaurusSpecZero.

Definition busy_world : World FlatCypress :=
  mkWorld (mkYtsaurus "minisaurus" "default" 7 rolling_spec (yts_Status example_yts)) [] 200 ∅
    {[ userSlotsPath (Y:=flat_ypath) flat_Attr example_exec 1 := VInt64 4 ]}.


Definition example_self : ComponentI (World FlatCypress) := updating_self (example_sc DataNodeType) (mret ComponentStatusReady).

Lemma prechecks_once_witness :
  IsUpdateStatusConditionTrue (run (runPrechecks example_self) busy_world) "DataNodeReady" = true.
Proof.
  apply (prechecks_once example_self busy_world).
  - apply (bool_decide_unpack _). vm_compute. exact I.
  - apply outside_ret.
  - reflexivity.
Defined.

End examples.

Section bundles_example.

#[local] Existing Instance cell_client.
#[local] Existing Instance cell_reads.
#[local] Existing Instance decode_int.
#[local] Existing Instance cell_laws.
#[local] Instance cell_decode_map : YsonDecode (gmap string Any) := {| yson_decode _ := inr ∅ |}.
#[local] Instance cell_status : StatusClient CellCluster := { Status_Update _ e := (None, e); GetVersion := "1" }.

Definition cell_NodeExists (path : string) : go CellCluster (yterror + bool) := λ e, (inr true, e).

Lemma cell_bundle_laws : BundleLaws (Y:=flat_ypath) flat_Attr cell_NodeExists cell_count.
Proof. split; [done|done|]. by intros name options e b. Qed.

Definition cell_tablet_node : TabletNode (E:=CellCluster) :=
  mkTabletNode
    (mkServerComponent (mkBase 1 (example_labeller TabletNodeType "") true)
       (mkServer _ (mkPodsManager _ (λ _, 1%Z) (λ _, mret tt) (λ _ _, 1%Z) (λ _ _, "") (mret ([], None)) (mret None) (mret true))
          (mret None) (λ _, true) (mret None) (λ _ _ _, mret tt) (mret (None, None)) (λ _, ComponentStatusReady) (λ _ _, false)))
    (mkYtClientRef (mkBase 2 (example_labeller YtsaurusClientType "") true) (λ _, true)) true None
    (Some (mkBundlesBootstrapSpec None (Some (mkBundleBootstrapSpec None None 4 None)))) None 3.

Definition cell_world : World CellCluster := mkWorld example_yts [] 200 ∅ {[ "default" := 1%Z; "sys" := 0%Z ]}.

(** The default bundle grows to the four cells asked for. *)
Lemma initBundles_exact_witness :
  cell_count (w_env (run (initBundles (Y:=flat_ypath) flat_Attr cell_NodeExists id cell_tablet_node) cell_world)) "default" = 4%Z ∧
  IsStatusConditionTrue (run (initBundles (Y:=flat_ypath) flat_Attr cell_NodeExists id cell_tablet_node) cell_world)
    initBundlesCondition = true.
Proof.
  destruct (initBundles_exact (Y:=flat_ypath) flat_Attr cell_NodeExists id cell_count (BL:=cell_bundle_laws) cell_tablet_node cell_world) as [Hc Hd].
  { split; apply (bool_decide_unpack _); vm_compute; exact I. }
  split.
  - exact (proj2 (Hc DefaultBundle (or_introl eq_refl)) ltac:(vm_compute; reflexivity)).
  - apply Hd. right. vm_compute. reflexivity.
Defined.

End bundles_example.
