(* ===== verification/AgentComponents.v ===== *)
(** * Components with an initialization of their own (src/pkg/components: scheduler.go,
    query_tracker.go, queue_agent.go, yql_agent.go)

    Schedulers, query trackers, queue agents and YQL agents keep state in the cluster: a token
    in a secret, a user, documents in Cypress and tables prepared by a job that is run again
    during an update.  Their [Sync] methods run these steps in order and report the update
    steps they own as done. *)

From S2P Require Import Prelude Kubernetes ApiTypes Labeller Status Ordered Ypatch Checks CypressActions ApiProxy Resources ConfigMaps InitJob Components YtsaurusClient PodsManager UpdateModes Services Master ServerComponents.

Definition OperationsArchiveInitializationScriptName := "operations-archive-initialization.sh".
Definition OperationsArchiveUpdateScriptName := "operations-archive-update.sh".
Definition YQLAgentInitializationScriptName := "yql-agent-initialization.sh".
Definition YQLAgentUpdateScriptName := "yql-agent-update.sh".

Definition schedulerAlertsPath := "//sys/scheduler/@alerts".
Definition orchidPath := "//sys/scheduler/orchid".
Definition queryTrackerInitCondition := "queryTrackerInitCompleted".
Definition queueAgentInitCondition := "queueAgentInitCompleted".
Definition clusterConnectionPath := "//sys/@cluster_connection".

Section agents.
Context {E : Type} {MC : MetaConditions} {SC : StatusClient E} {CC : CypressClient E} {Y : Ypath} {CF : ConfigCodec}.
Context {CD : ClientDeps E}.
Context `{HKC : !KubeClient E ConfigMap} `{HKJ : !KubeClient E Job} `{HKS : !KubeClient E Secret}.
Context {DB : YsonDecode bool} {DZ : YsonDecode Z} {DL : YsonDecode (list string)}.
Context {DO : YsonDecode (gmap string Any)} {DV : YsonDecode (list Any)}.
(** [ypath.Path.Attr], the text of a list of values, and the position of a call that
    [SimpleStatus] reports. *)
Context (path_Attr : string → string → string) (fmt_any : list Any → string) (position : string → Z → string).

Abbreviation W := (World E).
Abbreviation syncResult := (ComponentStatus * option error)%type.
Abbreviation handled := (option ComponentStatus * option error)%type.

(** ** Shared steps *)

(** [if secret.NeedSync(TokenSecretKey, "") { ... }]: a fresh token. *)
Definition sync_secret (c : component) (secret : lens E (ManagedResource Secret)) (dry : bool)
    (k : go W syncResult) : go W syncResult :=
  need ← gets (λ w, secret_NeedSync secret w TokenSecretKey "");
  name ← gets (λ w, res_name (resource secret w));
  sync_if need dry name (
    secret_Build (cmp_labeller c) secret ;;
    token ← in_env GenerateToken;
    in_resource secret (λ r, res_set_new
      (mkSecret (sec_meta (res_newObject r)) (sec_Type (res_newObject r)) (sec_Data (res_newObject r))
         {[ TokenSecretKey := token ]}) r) ;;
    resource_Sync secret) k.

(** The same where the token is generated before the secret is built and stored in a form of
    the component's own. *)
Definition sync_token (c : component) (secret : lens E (ManagedResource Secret)) (data : string → gmap string string)
    (dry : bool) (k : go W syncResult) : go W syncResult :=
  need ← gets (λ w, secret_NeedSync secret w TokenSecretKey "");
  name ← gets (λ w, res_name (resource secret w));
  sync_if need dry name (
    token ← in_env GenerateToken;
    secret_Build (cmp_labeller c) secret ;;
    in_resource secret (λ r, res_set_new
      (mkSecret (sec_meta (res_newObject r)) (sec_Type (res_newObject r)) (sec_Data (res_newObject r)) (data token)) r) ;;
    resource_Sync secret) k.

(** The token as it was fetched. *)
Definition secret_token (secret : lens E (ManagedResource Secret)) (w : W) : string :=
  default "" (GetValue (OldObject secret w) TokenSecretKey).

(** Requests of the client in order; the first error ends them. *)
Fixpoint requests (l : list (go E (option yterror))) : go E (option yterror) :=
  match l with
  | [] => mret None
  | r :: l => err ← r; match err with Some err => mret (Some err) | None => requests l end
  end.

(** A call of a method of the client when the pointer is nil. *)
Definition nil_client : error := "runtime error: invalid memory address or nil pointer dereference".

Definition on_client (ready : bool) (r : go E (option yterror)) : go W (option error) :=
  if ready then err ← in_env r; mret (err_of err) else mret (Some nil_client).

(** [init] of the query tracker and the queue agent copies the connection of the cluster into
    the table of clusters. *)
Definition copy_connection (clusterName : string) : go E (option yterror) :=
  connection ← GetNode (A:=gmap string Any) clusterConnectionPath;
  match connection with
  | inl err => mret (Some err)
  | inr connection => cy_SetNode ("//sys/clusters/" +:+ clusterName) (VMap connection) None
  end.

Definition strings_any (l : list string) : Any := VList (VString <$> l).

(** ** Schedulers *)

Record Scheduler := mkScheduler {
  sch_sc : serverComponent E;
  sch_master : component;
  sch_tabletNodes : list component;
  sch_client : option (ytClientRef E);
  sch_initUserJob : InitJob (E:=E);
  sch_initOpArchiveJob : InitJob (E:=E);
  sch_secret : lens E (ManagedResource Secret);
}.

Definition Scheduler_UpdatePreCheck (yc : option (ytClientRef E)) : go W ComponentStatus :=
  with_client yc (in_env (
    schedulerAlerts ← GetNode (A:=list Any) schedulerAlertsPath;
    match schedulerAlerts with
    | inl err => mret (blocked_error "Could not check scheduler alerts: " err)
    | inr schedulerAlerts =>
        let alertCount := Z.of_nat (length schedulerAlerts) in
        if (0 <? alertCount)%Z then
          mret (ComponentStatusBlocked ("Scheduler has " +:+ fmt_d alertCount +:+ " alerts: " +:+ fmt_any schedulerAlerts))
        else
          orchidData ← GetNode (A:=gmap string Any) orchidPath;
          mret (match orchidData with
                | inl err => blocked_error "Failed to get scheduler orchid data: " err
                | inr _ => ComponentStatusReady
                end)
    end)).

Definition initOpArchive (s : Scheduler) (dry : bool) : go W syncResult :=
  match sch_tabletNodes s with
  | [] => mret (ComponentStatusReady, None)
  | tabletNodes =>
      '(status, err) ← ij_Sync (sch_initUserJob s) dry;
      if cs_SyncStatus status != SyncStatusReady then mret (status, err) else
      wait_all tabletNodes
        (RunScript (sch_initOpArchiveJob s) dry "InitOperationsArchive" OperationsArchiveInitializationScriptName None)
  end.

Definition scheduler_updating (s : Scheduler) (dry : bool) : go W handled :=
  let sc := sch_sc s in
  updating ← gets (λ w, components_IsUpdatingComponent w (sc_base sc));
  if negb updating then mret (Some (ComponentStatusReadyAfter "Not updating component"), None) else
  updateState ← gets GetUpdateState;
  match updateState with
  | UpdateStateWaitingForPodsRemoval | UpdateStateWaitingForPodsCreation =>
      dispatchComponentUpdate (updating_self sc (Scheduler_UpdatePreCheck (sch_client s))) (sc_server sc) dry
  | UpdateStateWaitingForOpArchiveUpdate =>
      '(status, err) ← RunUpdateScript (sch_initOpArchiveJob s) dry updateState OperationsArchiveUpdateScriptName None;
      mret (Some status, err)
  | _ => mret (Some ComponentStatusReady, None)
  end.

Definition Scheduler_Sync (s : Scheduler) (dry : bool) : go W syncResult :=
  let sc := sch_sc s in
  if_status (when_updating (scheduler_updating s dry))
  (wait_running (sch_master s)
  (sync_secret (sc_base sc) (sch_secret s) dry
  (sync_server sc dry (srv_Sync (sc_server sc))
  (unless_done (sc_ArePodsReady sc) (
    ready ← gets IsReadyForInitJobs;
    completed ← gets (IsCompleted (sch_initOpArchiveJob s));
    if ready && negb completed then unless_done (initOpArchive s dry) (mret (ComponentStatusReady, None))
    else mret (ComponentStatusReady, None)))))).

Definition Scheduler_Fetch (s : Scheduler) : go W (option error) :=
  resources_Fetch [Some (srv_Fetch (sc_server (sch_sc s))); Some (ij_Fetch (sch_initOpArchiveJob s));
    Some (ij_Fetch (sch_initUserJob s)); Some (resource_Fetch (sch_secret s))].

(** *** Its scripts *)

Definition scheduler_createInitUserScript (s : Scheduler) (w : W) : string :=
  strings_Join (initJobWithNativeDriverPrologue ::
    createUserCommand sha256 "operation_archivarius" "" (secret_token (sch_secret s) w) true) newline.

Definition setInitOpArchivePath : string :=
  newline +:+ "export INIT_OP_ARCHIVE=/usr/bin/init_operations_archive" +:+ newline +:+
  "if [ ! -f $INIT_OP_ARCHIVE ]; then" +:+ newline +:+
  "export INIT_OP_ARCHIVE=/usr/bin/init_operation_archive" +:+ newline +:+ "fi" +:+ newline.

Definition scriptInitOperationsArchive (httpProxiesAddress : string) : list string :=
  [ initJobWithNativeDriverPrologue;
    setInitOpArchivePath;
    "$INIT_OP_ARCHIVE --force --latest --proxy " +:+ httpProxiesAddress;
    SetWithIgnoreExisting "//sys/cluster_nodes/@config"
      ("'{" +:+ quote +:+ "%true" +:+ quote +:+ " = {job_agent={enable_job_reporter=%true}}}'") ].

(** ** Query trackers *)

Record QueryTracker := mkQueryTracker {
  qt_sc : serverComponent E;
  qt_client : option (ytClientRef E);
  qt_tabletNodes : list component;
  qt_initQTState : InitJob (E:=E);
  qt_secret : lens E (ManagedResource Secret);
  qt_addresses : list string;  (* GetQueryTrackerAddresses of the generator *)
}.

Section query_tracker.
Context (qt : QueryTracker).

Definition qt_clusterName : string := lab_ClusterName (cmp_labeller (sc_base (qt_sc qt))).

Definition QueryTracker_UpdatePreCheck : go W ComponentStatus :=
  match qt_client qt with
  | None => mret (ComponentStatusBlocked "YtsaurusClient component is not available")
  | Some yc =>
      ready ← gets (yr_ready yc);
      count ← gets (λ w, getInstanceCount (srv_pods (sc_server (qt_sc qt))) w);
      err ← in_env (IsInstanceCountEqualYTSpec ready QueryTrackerType (ComponentType_string QueryTrackerType) count);
      mret (match err with Some err => blocked_error "Error: " err | None => ComponentStatusReady end)
  end.

Definition default_cluster : Any := VMap {[ "default_cluster" := VString qt_clusterName ]}.

(** An entry of an access control list. *)
Definition ace (subjects permissions : list string) (inheritance : option string) : Any :=
  VMap (match inheritance with Some i => {[ "inheritance_mode" := VString i ]} | None => ∅ end ∪
        {[ "action" := VString "allow"; "subjects" := strings_any subjects; "permissions" := strings_any permissions ]}).

(** An access control object of the namespace [queries]. *)
Definition queries_object (name : string) (principal_acl : option Any) : go E (option yterror) :=
  cy_CreateObject "access_control_object" (mkCreateObjectOptions true
    (match principal_acl with Some acl => {[ "principal_acl" := VList [acl] ]} | None => ∅ end ∪
     {[ "name" := VString name; "namespace" := VString "queries" ]})).

Definition qt_init : go E (option yterror) :=
  requests
    [ cy_CreateNode "//sys/query_tracker/config" "document" (mkCreateNodeOptions true true
        {[ "value" := VMap {[ "query_tracker" := VMap
             {[ "ql_engine" := default_cluster; "chyt_engine" := default_cluster; "spyt_engine" := default_cluster ]} ]} ]});
      cy_SetNode "//sys/@cluster_connection/query_tracker" (VMap {[ "stages" := VMap {[ "production" := VMap
        {[ "root" := VString "//sys/query_tracker"; "user" := VString "query_tracker";
           "channel" := VMap {[ "addresses" := strings_any (qt_addresses qt) ]} ]} ]} ]}) None;
      copy_connection qt_clusterName;
      cy_CreateObject "access_control_object_namespace" (mkCreateObjectOptions true
        {[ "name" := VString "queries";
           "acl" := VList [ace ["owner"] ["read"; "write"; "administer"; "remove"] (Some "immediate_descendants_only");
                           ace ["users"] ["modify_children"] (Some "object_only")] ]});
      queries_object "nobody" None;
      queries_object "everyone" (Some (ace ["everyone"] ["read"; "use"] None));
      queries_object "everyone-use" (Some (ace ["everyone"] ["use"] None));
      queries_object "everyone-share" (Some (ace ["everyone"] ["read"; "use"] None)) ].

Definition qt_updateState (dry : bool) : go W handled :=
  state ← gets GetUpdateState;
  completed ← gets (IsCompleted (qt_initQTState qt));
  match state with
  | UpdateStateWaitingForQTStateUpdatingPrepare =>
      (if dry then mret tt else
         Restart (qt_initQTState qt) ;;
         SetUpdateStatusCondition (condition ConditionQTStatePreparedForUpdating ConditionTrue
           "QTStatePreparedForUpdating" "Query Tracker state prepared for updating")) ;;
      mret (Some (SimpleStatus SyncStatusUpdating (position "query_tracker.go" 435)), None)
  | UpdateStateWaitingForQTStateUpdate =>
      if negb completed then mret (None, None) else
      (if dry then mret tt else
         SetUpdateStatusCondition (condition ConditionQTStateUpdated ConditionTrue "QTStateUpdated"
           "Query tracker state updated")) ;;
      mret (Some (SimpleStatus SyncStatusUpdating (position "query_tracker.go" 443)), None)
  | _ => mret (None, None)
  end.

(** After [setup] has found its client: the user, the documents, the condition, the job. *)
Definition qt_initialize (dry : bool) : go W syncResult :=
  w ← gets id;
  let updating := IsUpdating w in
  let ready := match qt_client qt with Some yc => yr_ready yc w | None => false end in
  userErr ← (if dry || updating then mret None else
               on_client ready (CreateUser sha256 path_Attr "query_tracker" (secret_token (qt_secret qt) w) true));
  match userErr with
  | Some err => mret (ComponentStatusWaitingFor "create qt user", Some err)
  | None =>
      initErr ← (if dry then mret None else on_client ready qt_init);
      match initErr with
      | Some err => mret (ComponentStatusWaitingFor (GetFullName (sc_base (qt_sc qt)) +:+ " initialization"), Some err)
      | None =>
          (if dry then mret tt else
             SetStatusCondition (condition queryTrackerInitCondition ConditionTrue "InitQueryTrackerCompleted"
               "Init query tracker successfully completed") ;;
             ij_Build (qt_initQTState qt)) ;;
          '(status, err) ← ij_Sync (qt_initQTState qt) dry;
          if negb (bool_decide (err = None)) || (cs_SyncStatus status != SyncStatusReady) then mret (status, err) else
          initialized ← gets (λ w, IsStatusConditionTrue w queryTrackerInitCondition);
          mret (if initialized : bool then ComponentStatusReady
                else ComponentStatusWaitingFor ("setting " +:+ queryTrackerInitCondition +:+ " condition"), None)
      end
  end.

Definition qt_setup (dry : bool) : go W syncResult :=
  count ← gets (λ w, getInstanceCount (srv_pods (sc_server (qt_sc qt))) w);
  if count == 0%Z then mret (ComponentStatusReady, None) else
  match qt_tabletNodes qt with
  | [] => mret (ComponentStatusBlockedBy "tablet nodes", Some "cannot initialize query tracker without tablet nodes")
  | tabletNodes =>
      wait_all tabletNodes (
        skip ← gets ShouldSkipCypressOperations;
        if skip : bool then mret (ComponentStatusReady, None) else
        ready ← gets (λ w, match qt_client qt with Some yc => yr_ready yc w | None => false end);
        if negb dry && negb ready then mret (ComponentStatusWaitingFor "getting yt client", None)
        else qt_initialize dry)
  end.

(** The states of an update in which the rest of [Sync] runs. *)
Definition qt_updating (dry : bool) : go W handled :=
  let sc := qt_sc qt in
  updating ← gets (λ w, components_IsUpdatingComponent w (sc_base sc));
  if negb updating then mret (Some (ComponentStatusReadyAfter "Not updating component"), None) else
  or_status (handleBulkUpdatingClusterState (updating_self sc QueryTracker_UpdatePreCheck) (sc_server sc) dry)
  (or_status (qt_updateState dry) (
    state ← gets GetUpdateState;
    mret (if (state != UpdateStateWaitingForPodsCreation) && (state != UpdateStateWaitingForQTStateUpdate)
          then Some ComponentStatusReady else None, None))).

Definition QueryTracker_Sync (dry : bool) : go W syncResult :=
  let sc := qt_sc qt in
  if_status (when_updating (qt_updating dry))
  (sync_secret (sc_base sc) (qt_secret qt) dry
  (unless_done (qt_setup dry)
  (sync_server sc dry (srv_Sync (sc_server sc))
  (unless_done (sc_ArePodsReady sc) (mret (ComponentStatusReady, None)))))).

Definition QueryTracker_Fetch : go W (option error) :=
  resources_Fetch [Some (srv_Fetch (sc_server (qt_sc qt))); Some (ij_Fetch (qt_initQTState qt));
    Some (resource_Fetch (qt_secret qt))].

Definition createInitQueryTrackerStateScript (httpProxiesAddress : string) : list string :=
  let path := "/usr/bin/init_query_tracker_state" in
  [ initJobWithNativeDriverPrologue;
    "if [[ -f " +:+ quote +:+ path +:+ quote +:+ " ]]; then " +:+ path +:+ " --force --latest --proxy " +:+
      httpProxiesAddress +:+ "; fi" ].

End query_tracker.

(** ** Queue agents *)

Record QueueAgent := mkQueueAgent {
  qa_sc : serverComponent E;
  qa_client : option (ytClientRef E);
  qa_master : component;
  qa_tabletNodes : list component;
  qa_initQAStateJob : InitJob (E:=E);
  qa_secret : lens E (ManagedResource Secret);
  qa_addresses : list string;  (* GetQueueAgentAddresses of the generator *)
}.

Section queue_agent.
Context (qa : QueueAgent).

Definition qa_clusterName : string := lab_ClusterName (cmp_labeller (sc_base (qa_sc qa))).

Definition QueueAgent_UpdatePreCheck : go W ComponentStatus :=
  match qa_client qa with
  | None => mret (ComponentStatusBlocked "YtsaurusClient component is not available")
  | Some yc =>
      ready ← gets (yr_ready yc);
      count ← gets (λ w, getInstanceCount (srv_pods (sc_server (qa_sc qa))) w);
      err ← in_env (IsInstanceCountEqualYTSpec ready QueueAgentType (ComponentType_string QueueAgentType) count);
      mret (match err with Some err => blocked_error "Error: " err | None => ComponentStatusReady end)
  end.

Definition qa_init : go E (option yterror) :=
  requests
    [ cy_CreateNode "//sys/queue_agents/config" "document" (mkCreateNodeOptions true true
        {[ "value" := VMap
             {[ "queue_agent" := VMap {[ "controller" := VMap {[ "enable_automatic_trimming" := VBool true ]} ]};
                "cypress_synchronizer" := VMap
                  {[ "policy" := VString "watching"; "clusters" := strings_any [qa_clusterName] ]} ]} ]});
      cy_SetNode "//sys/@cluster_connection/queue_agent" (VMap
        {[ "stages" := VMap {[ "production" := VMap {[ "addresses" := strings_any (qa_addresses qa) ]} ]};
           "queue_consumer_registration_manager" := VMap
             {[ "resolve_symlinks" := VBool true; "resolve_replicas" := VBool true ]} ]}) None;
      copy_connection qa_clusterName ].

Definition needQAStateInit : bool := negb (bool_decide (qa_tabletNodes qa = [])).

Definition setConditionQAStatePreparedForUpdating : go W unit :=
  SetUpdateStatusCondition (condition ConditionQAStatePreparedForUpdating ConditionTrue "QAStatePreparedForUpdating"
    "Queue agent state prepared for updating").

Definition setConditionQAStateUpdated : go W unit :=
  SetUpdateStatusCondition (condition ConditionQAStateUpdated ConditionTrue "QAStateUpdated" "Queue agent state updated").

Definition updateQAState (dry : bool) : go W handled :=
  state ← gets GetUpdateState;
  completed ← gets (IsCompleted (qa_initQAStateJob qa));
  let updating line : go W handled := mret (Some (SimpleStatus SyncStatusUpdating (position "queue_agent.go" line)), None) in
  match state with
  | UpdateStateWaitingForQAStateUpdatingPrepare =>
      if negb needQAStateInit then
        (if dry then mret tt else setConditionQAStatePreparedForUpdating) ;; updating 377%Z
      else
        (if dry then mret tt else Restart (qa_initQAStateJob qa) ;; setConditionQAStatePreparedForUpdating) ;; updating 383%Z
  | UpdateStateWaitingForQAStateUpdate =>
      if negb needQAStateInit then
        (if dry then mret tt else setConditionQAStateUpdated) ;; updating 389%Z
      else if negb completed then mret (None, None)
      else (if dry then mret tt else setConditionQAStateUpdated) ;; updating 397%Z
  | _ => mret (None, None)
  end.

Definition initQAState (dry : bool) : go W syncResult :=
  wait_all (qa_tabletNodes qa) (
    (if dry then mret tt else ij_Build (qa_initQAStateJob qa)) ;;
    ij_Sync (qa_initQAStateJob qa) dry).

Definition qa_updating (dry : bool) : go W handled :=
  let sc := qa_sc qa in
  updating ← gets (λ w, components_IsUpdatingComponent w (sc_base sc));
  if negb updating then mret (Some (ComponentStatusReadyAfter "Not updating component"), None) else
  or_status (handleBulkUpdatingClusterState (updating_self sc QueueAgent_UpdatePreCheck) (sc_server sc) dry)
  (or_status (updateQAState dry) (
    state ← gets GetUpdateState;
    mret (if (state != UpdateStateWaitingForPodsCreation) && (state != UpdateStateWaitingForQAStateUpdate)
          then Some ComponentStatusReady else None, None))).

(** The end of [Sync]: the job, then the documents; the client is nil during an update. *)
Definition qa_finish (dry : bool) : go W syncResult :=
  unless_done (initQAState dry) (
    initialized ← gets (λ w, IsStatusConditionTrue w queueAgentInitCondition);
    if initialized : bool then mret (ComponentStatusReady, None) else
    let waiting := ComponentStatusWaitingFor ("setting " +:+ queueAgentInitCondition +:+ " condition") in
    if dry then mret (waiting, None) else
    hasClient ← gets (λ w, negb (IsUpdating w) &&
      match qa_client qa with Some yc => yr_ready yc w | None => false end);
    err ← on_client hasClient qa_init;
    match err with
    | Some err => mret (ComponentStatusWaitingFor (GetFullName (sc_base (qa_sc qa)) +:+ " initialization"), Some err)
    | None =>
        SetStatusCondition (condition queueAgentInitCondition ConditionTrue "InitQueueAgentCompleted"
          "Init queue agent successfully completed") ;;
        mret (waiting, None)
    end).

(** The user, outside an update. *)
Definition qa_user (dry : bool) (k : go W syncResult) : go W syncResult :=
  updating ← gets IsUpdating;
  if updating : bool then k else
  match qa_client qa with
  | None => mret (ComponentStatusBlocked nil_client, Some nil_client)
  | Some yc =>
      wait_running (yr_base yc) (
        if dry then k else
        w ← gets id;
        err ← on_client (yr_ready yc w) (CreateUser sha256 path_Attr "queue_agent" (secret_token (qa_secret qa) w) true);
        match err with
        | Some err => mret (ComponentStatusWaitingFor "create qa user", Some err)
        | None => k
        end)
  end.

(** The condition on tablet nodes. *)
Definition qa_wait_tablet_nodes (k : go W syncResult) : go W syncResult :=
  match qa_tabletNodes qa with
  | [] => mret (ComponentStatusBlockedBy "tablet nodes", Some "cannot initialize queue agent without tablet nodes")
  | tabletNodes => wait_all tabletNodes k
  end.

Definition QueueAgent_Sync (dry : bool) : go W syncResult :=
  let sc := qa_sc qa in
  if_status (when_updating (qa_updating dry))
  (wait_running (qa_master qa)
  (qa_wait_tablet_nodes
  (sync_secret (sc_base sc) (qa_secret qa) dry
  (sync_server sc dry (srv_Sync (sc_server sc))
  (unless_done (sc_ArePodsReady sc) (
    creation ← gets (λ w, IsUpdating w && (GetUpdateState w == UpdateStateWaitingForPodsCreation));
    idle ← gets (λ w, (getInstanceCount (srv_pods (sc_server sc)) w == 0%Z) || ShouldSkipCypressOperations w);
    if creation || idle then mret (ComponentStatusReady, None)
    else qa_user dry (qa_finish dry))))))).

Definition QueueAgent_Fetch : go W (option error) :=
  resources_Fetch [Some (srv_Fetch (sc_server (qa_sc qa))); Some (ij_Fetch (qa_initQAStateJob qa));
    Some (resource_Fetch (qa_secret qa))].

Definition createInitQAStateScript (proxy : string) : list string :=
  let path := "/usr/bin/init_queue_agent_state" in
  [ initJobWithNativeDriverPrologue;
    "if [ ! -f " +:+ path +:+ " ]; then";
    "echo " +:+ quote +:+ path +:+ " doesn't exist, nothing to do" +:+ quote;
    "exit 0";
    "fi";
    "set +e";
    path +:+ " --latest --proxy " +:+ proxy;
    "if [ $? -ne 0 ]; then";
    "set -e";
    "echo " +:+ quote +:+ "Binary execution failed. Running with an old set of arguments" +:+ quote;
    path +:+ " --create-registration-table --create-replicated-table-mapping-table --recursive --ignore-existing --proxy " +:+ proxy;
    "fi" ].

End queue_agent.

(** [yt.ACE] with its text in YSON, which the client library writes. *)
Record ACE := mkACE {
  ace_Action : string;
  ace_Subjects : list string;
  ace_Permissions : list string;
  ace_InheritanceMode : string;
}.

(** ** YQL agents *)

(** [yqla_buildPod] stands for [buildStatefulSet] with the volumes of the tokens and the
    environment of the container. *)
Record YqlAgent := mkYqlAgent {
  yqla_sc : serverComponent E;
  yqla_master : component;
  yqla_client : option (ytClientRef E);
  yqla_initEnvironment : InitJob (E:=E);
  yqla_secret : lens E (ManagedResource Secret);
  yqla_execSecret : option (lens E (ManagedResource Secret));
  yqla_addresses : list string;  (* GetYQLAgentAddresses of the generator *)
  yqla_buildPod : go W unit;
}.

Section yql_agent.
Context (yqla : YqlAgent).

Definition YqlAgent_UpdatePreCheck : go W ComponentStatus :=
  match yqla_client yqla with
  | None => mret (ComponentStatusBlocked "YtsaurusClient component is not available")
  | Some yc =>
      ready ← gets (yr_ready yc);
      count ← gets (λ w, getInstanceCount (srv_pods (sc_server (yqla_sc yqla))) w);
      err ← in_env (IsInstanceCountEqualYTSpec ready YqlAgentType (ComponentType_string YqlAgentType) count);
      mret (match err with Some err => blocked_error "Error: " err | None => ComponentStatusReady end)
  end.

(** NOTE of the code: the patch of the client copies the connection into the table of
    clusters. *)
Definition YqlAgent_GetCypressPatch : PatchSet :=
  {[ clusterConnectionPath := [Replace "/yql_agent/stages/production/channel/addresses" (strings_any (yqla_addresses yqla))] ]}.

Definition yqla_updating (dry : bool) : go W handled :=
  let sc := yqla_sc yqla in
  updating ← gets (λ w, components_IsUpdatingComponent w (sc_base sc));
  if negb updating then mret (Some (ComponentStatusReadyAfter "Not updating component"), None) else
  updateState ← gets GetUpdateState;
  match updateState with
  | UpdateStateWaitingForPodsRemoval | UpdateStateWaitingForPodsCreation =>
      handleBulkUpdatingClusterState (updating_self sc YqlAgent_UpdatePreCheck) (sc_server sc) dry
  | UpdateStateWaitingForYqlaUpdate =>
      '(status, err) ← RunUpdateScript (yqla_initEnvironment yqla) dry updateState YQLAgentUpdateScriptName None;
      mret (Some status, err)
  | _ => mret (Some ComponentStatusReady, None)
  end.

Definition sync_exec_secret (dry : bool) (k : go W syncResult) : go W syncResult :=
  match yqla_execSecret yqla with
  | Some secret => sync_secret (sc_base (yqla_sc yqla)) secret dry k
  | None => k
  end.

Definition YqlAgent_Sync (dry : bool) : go W syncResult :=
  let sc := yqla_sc yqla in
  if_status (when_updating (yqla_updating dry))
  (wait_running (yqla_master yqla)
  (sync_secret (sc_base sc) (yqla_secret yqla) dry
  (sync_exec_secret dry (
    ready ← gets IsReadyForInitJobs;
    completed ← gets (IsCompleted (yqla_initEnvironment yqla));
    unless_done
      (if ready && negb completed
       then RunScript (yqla_initEnvironment yqla) dry "YQLAgentInit" YQLAgentInitializationScriptName None
       else mret (ComponentStatusReady, None))
    (sync_server sc dry (yqla_buildPod yqla ;; srv_Sync (sc_server sc))
    (unless_done (sc_ArePodsReady sc) (mret (ComponentStatusReady, None)))))))).

Definition YqlAgent_Fetch : go W (option error) :=
  resources_Fetch [Some (srv_Fetch (sc_server (yqla_sc yqla))); Some (ij_Fetch (yqla_initEnvironment yqla));
    Some (resource_Fetch (yqla_secret yqla)); resource_Fetch <$> yqla_execSecret yqla].

(** *** Its scripts *)

Definition initUsers (w : W) : string :=
  strings_Join
    (createUserCommand sha256 "yql_agent" "" (secret_token (yqla_secret yqla) w) true ++
     match yqla_execSecret yqla with
     | Some secret => createUserCommand sha256 "yql_agent_exec" "" (secret_token secret w) false
     | None => []
     end) newline.

(** *** Access control *)

Section scripts.
Context (marshal_ace : ACE → error + string).

Definition CheckPathPermission (path subject permission : string) : string :=
  "/usr/bin/yt check-permission " +:+ subject +:+ " " +:+ permission +:+ " " +:+ path +:+ " | grep -q allow".

Definition AppendPathAcl (path : string) (acl : ACE) : error + string :=
  match marshal_ace acl with
  | inl err => inl ("failed to marshal ACL: " +:+ err)
  | inr formattedAcl => inr ("/usr/bin/yt set " +:+ path +:+ "/@acl/end '" +:+ formattedAcl +:+ "'")
  end.

(** The entry is appended unless its first subject has its first permission already; indexing
    an empty list panics, which no caller does. *)
Definition CheckAndAppendPathACLGenerator (path : string) (acl : ACE) : error + list string :=
  let testCmd := CheckPathPermission path (default "" (head (ace_Subjects acl))) (default "" (head (ace_Permissions acl))) in
  error_map (λ appendCmd, [testCmd +:+ " || " +:+ appendCmd]) (AppendPathAcl path acl).

Definition scriptDQInit : error + list string :=
  match yqla_execSecret yqla with
  | None => inr []
  | Some _ =>
      JoinTextGenerators
        [ inr ["/usr/bin/yt create map_node //sys/yql_agent/dq --ignore-existing"];
          CheckAndAppendPathACLGenerator "//sys/yql_agent/dq"
            (mkACE "allow" ["yql_agent_exec"] ["create"; "read"; "remove"; "write"] "object_and_descendants");
          CheckAndAppendPathACLGenerator "//sys/accounts/sys"
            (mkACE "allow" ["yql_agent_exec"] ["use"] "object_and_descendants") ]
  end.

Definition createInitScript (w : W) : error + list string :=
  let addresses := "[" +:+ strings_Join ((λ a, quote +:+ a +:+ quote +:+ ";") <$> yqla_addresses yqla) "" +:+ "]" in
  JoinTextGenerators
    [ inr
        [ initJobWithNativeDriverPrologue;
          initUsers w;
          "/usr/bin/yt create document //sys/yql_agent/config --attributes '{value={}}' --recursive --ignore-existing";
          "/usr/bin/yt set //sys/@cluster_connection/yql_agent '{stages={production={channel={disable_balancing_on_single_address=%false;addresses="
            +:+ addresses +:+ "}}}}'";
          "/usr/bin/yt get //sys/@cluster_connection | /usr/bin/yt set //sys/clusters/" +:+
            lab_ClusterName (cmp_labeller (sc_base (yqla_sc yqla))) ];
      scriptDQInit ].

Definition createUpdateScript (w : W) : error + list string :=
  JoinTextGenerators
    [ inr
        [ initJobWithNativeDriverPrologue;
          initUsers w;
          "/usr/bin/yt set //sys/@cluster_connection/yql_agent/stages/production/channel/disable_balancing_on_single_address '%false'" ];
      scriptDQInit ].

End scripts.

End yql_agent.

End agents.

(** ** They keep to the contract of components *)

Section kinds.
Context {E : Type} {MC : MetaConditions} {ML : MetaConditionsLaws MC} {SC : StatusClient E} {CC : CypressClient E}.
Context {Y : Ypath} {CF : ConfigCodec} {CD : ClientDeps E}.
Context `{HKC : !KubeClient E ConfigMap} `{HKJ : !KubeClient E Job} `{HKS : !KubeClient E Secret}.
Context {DB : YsonDecode bool} {DZ : YsonDecode Z} {DL : YsonDecode (list string)}.
Context {DO : YsonDecode (gmap string Any)} {DV : YsonDecode (list Any)}.
Context (path_Attr : string → string → string) (fmt_any : list Any → string) (position : string → Z → string).

Abbreviation W := (World E).

Inductive agent_kind : Type :=
  | KScheduler (s : Scheduler (E:=E)) | KQueryTracker (qt : QueryTracker (E:=E))
  | KQueueAgent (qa : QueueAgent (E:=E)) | KYqlAgent (yqla : YqlAgent (E:=E)).

Definition agent_sc (k : agent_kind) : serverComponent E :=
  match k with
  | KScheduler s => sch_sc s | KQueryTracker qt => qt_sc qt | KQueueAgent qa => qa_sc qa | KYqlAgent yqla => yqla_sc yqla
  end.

Definition agent_Sync (k : agent_kind) (dry : bool) : go W (ComponentStatus * option error) :=
  match k with
  | KScheduler s => Scheduler_Sync fmt_any s dry
  | KQueryTracker qt => QueryTracker_Sync path_Attr position qt dry
  | KQueueAgent qa => QueueAgent_Sync path_Attr position qa dry
  | KYqlAgent yqla => YqlAgent_Sync yqla dry
  end.

Definition agent_Fetch (k : agent_kind) : go W (option error) :=
  match k with
  | KScheduler s => Scheduler_Fetch s | KQueryTracker qt => QueryTracker_Fetch qt
  | KQueueAgent qa => QueueAgent_Fetch qa | KYqlAgent yqla => YqlAgent_Fetch yqla
  end.

Definition agent_UpdatePreCheck (k : agent_kind) : go W ComponentStatus :=
  match k with
  | KScheduler s => Scheduler_UpdatePreCheck fmt_any (sch_client s)
  | KQueryTracker qt => QueryTracker_UpdatePreCheck qt
  | KQueueAgent qa => QueueAgent_UpdatePreCheck qa
  | KYqlAgent yqla => YqlAgent_UpdatePreCheck yqla
  end.

Definition agent_component (k : agent_kind) : ComponentI W :=
  mkComponentI _ (sc_base (agent_sc k)) (agent_Fetch k) (gets (needUpdate (sc_server (agent_sc k)))) (agent_Sync k)
    (agent_UpdatePreCheck k).

Definition agent_outside (k : agent_kind) : Prop :=
  ServerOutside (sc_server (agent_sc k)) ∧ match k with KYqlAgent yqla => outside (yqla_buildPod yqla) | _ => True end.

Lemma outside_agent_precheck k : agent_outside k → outside (agent_UpdatePreCheck k).
Proof.
  intros [HS _]. destruct k; cbn [agent_UpdatePreCheck].
  - unfold Scheduler_UpdatePreCheck. apply outside_with_client. go_outside.
  - unfold QueryTracker_UpdatePreCheck. go_outside.
  - unfold QueueAgent_UpdatePreCheck. go_outside.
  - unfold YqlAgent_UpdatePreCheck. go_outside.
Qed.

Lemma confined_sync_secret sc secret dry (k : go W (ComponentStatus * option error)) :
  confined k → confined (sync_secret sc secret dry k).
Proof. intros Hk. unfold sync_secret, sync_if, secret_Build. go_confined. Qed.

Lemma confined_sync_token c secret data dry (k : go W (ComponentStatus * option error)) :
  confined k → confined (sync_token c secret data dry k).
Proof. intros Hk. unfold sync_token, sync_if, secret_Build. go_confined. Qed.

Lemma confined_on_client ready r : confined (on_client (E:=E) ready r).
Proof. unfold on_client. go_confined. Qed.

Lemma confined_ij_Build j : confined (ij_Build (E:=E) j).
Proof. pose proof (confined_in_jmem j). unfold ij_Build. go_confined. Qed.

Lemma confined_plain_script j dry reason file : confined (RunScript (E:=E) j dry reason file None).
Proof. apply confined_RunScript. by intros. Qed.

Lemma confined_plain_update j dry state file : confined (RunUpdateScript (E:=E) j dry state file None).
Proof. apply confined_RunUpdateScript. by intros. Qed.

Ltac agent_shape :=
  repeat match goal with
    | |- confined (if_status _ _) => apply confined_if_status
    | |- confined (or_status _ _) => apply confined_or_status
    | |- confined (when_updating _) => apply confined_when_updating
    | |- confined (wait_running _ _) => apply confined_wait_running
    | |- confined (wait_all _ _) => apply confined_wait_all
    | |- confined (unless_done _ _) => apply confined_unless_done
    | |- confined (sync_secret _ _ _ _) => apply confined_sync_secret
    | |- confined (sync_server _ _ _ _) => apply confined_sync_server
    | |- confined (sc_ArePodsReady _) => by apply confined_ArePodsReady
    | |- confined (dispatchComponentUpdate _ _ _) => by apply confined_dispatch
    | |- confined (handleBulkUpdatingClusterState _ _ _) => by apply confined_handleBulk
    | |- confined (srv_Sync _) => by apply confined_outside, so_Sync
    | |- confined (ij_Sync _ _) => apply confined_ij_Sync
    | |- confined (ij_Build _) => apply confined_ij_Build
    | |- confined (RunScript _ _ _ _ None) => apply confined_plain_script
    | |- confined (RunUpdateScript _ _ _ _ None) => apply confined_plain_update
    | |- confined (on_client _ _) => apply confined_on_client
    | |- confined (Restart _) => apply confined_RemoveStatusCondition
    | |- confined (SetStatusCondition _) => apply confined_SetStatusCondition
    | |- confined (SetUpdateStatusCondition _) => apply confined_SetUpdateStatusCondition
    | |- confined (gets _) => apply confined_gets
    | |- confined (mret _) => apply confined_ret
    | |- confined (_ ≫= _) => apply confined_bind; [|intros ?]
    | |- confined (match ?x with _ => _ end) => destruct x
    | |- confined _ => apply confined_outside; assumption
    end.

Lemma confined_agent_Sync k dry : agent_outside k → confined (agent_Sync k dry).
Proof.
  intros Hk. pose proof (outside_agent_precheck k Hk) as Hp. destruct Hk as [HS Hk].
  destruct k; cbn [agent_Sync agent_sc agent_UpdatePreCheck] in *.
  - unfold Scheduler_Sync, scheduler_updating, initOpArchive. cbv zeta. agent_shape.
  - unfold QueryTracker_Sync, qt_updating, qt_updateState, qt_setup, qt_initialize. cbv zeta. agent_shape.
  - unfold QueueAgent_Sync, qa_updating, updateQAState, qa_wait_tablet_nodes, qa_user, qa_finish, initQAState,
      setConditionQAStatePreparedForUpdating, setConditionQAStateUpdated. cbv zeta. agent_shape.
  - unfold YqlAgent_Sync, yqla_updating, sync_exec_secret. cbv zeta. agent_shape.
Qed.

Lemma confined_agent_Fetch k : agent_outside k → confined (agent_Fetch k).
Proof.
  intros [HS _]. assert (confined (srv_Fetch (sc_server (agent_sc k)))) as Hf by (apply confined_outside, so_Fetch).
  destruct k; cbn [agent_Fetch agent_sc] in *; apply confined_resources_seq;
    repeat (apply Forall_cons; split); try apply Forall_nil; try done;
    try apply confined_resource_Fetch; try apply confined_ij_Fetch.
  destruct (yqla_execSecret yqla); cbn; [apply confined_resource_Fetch|done].
Qed.

(** The agents keep the contract of components. *)
Theorem agent_component_frame k : agent_outside k → ComponentFrame (agent_component k).
Proof.
  intros Hk. pose proof (confined_agent_Fetch k Hk) as (F1 & F2 & F3).
  pose proof (λ dry, confined_agent_Sync k dry Hk) as HS. pose proof (outside_agent_precheck k Hk) as Hp.
  split; cbn [ci_Fetch ci_NeedUpdate ci_Sync ci_UpdatePreCheck agent_component]; try done.
  - intros dry. apply (HS dry).
  - intros w. apply Hp.
  - intros dry. apply (HS dry).
  - apply keeps_gets.
  - intros dry. apply (HS dry).
Qed.

(** ** The state of the query tracker during an update *)

Section query_tracker_update.
Context (qt : QueryTracker (E:=E)).

(** A pass over a query tracker that takes part in the update. *)
Definition qt_updates (w : W) : Prop :=
  IsUpdating w = true ∧ components_IsUpdatingComponent w (sc_base (qt_sc qt)) = true.

Abbreviation sync := (QueryTracker_Sync path_Attr position qt).

Lemma bulk_other_state cmp s dry (w : W) :
  GetUpdateState w ≠ UpdateStateWaitingForPodsRemoval → GetUpdateState w ≠ UpdateStateWaitingForPodsCreation →
  handleBulkUpdatingClusterState cmp s dry w = ((None, None), w).
Proof.
  intros H1 H2. unfold handleBulkUpdatingClusterState, mbind, go_bind, gets. cbn. by destruct (GetUpdateState w).
Qed.

(** The rest of a pass, after the handling of the update. *)
Definition qt_rest (dry : bool) : go W (ComponentStatus * option error) :=
  let sc := qt_sc qt in
  sync_secret (sc_base sc) (qt_secret qt) dry
  (unless_done (qt_setup path_Attr qt dry)
  (sync_server sc dry (srv_Sync (sc_server sc))
  (unless_done (sc_ArePodsReady sc) (mret (ComponentStatusReady, None))))).

(** What a pass does in the two states of the query tracker. *)
Lemma qt_prepare_pass w :
  qt_updates w → GetUpdateState w = UpdateStateWaitingForQTStateUpdatingPrepare →
  run (sync false) w =
    run (SetUpdateStatusCondition (condition ConditionQTStatePreparedForUpdating ConditionTrue
           "QTStatePreparedForUpdating" "Query Tracker state prepared for updating"))
      (run (Restart (qt_initQTState qt)) w).
Proof.
  intros [Hu Hc] Hs. unfold QueryTracker_Sync, if_status, when_updating. go_step. rewrite Hu.
  unfold qt_updating, or_status. go_step. rewrite Hc. cbn [negb]. go_step.
  unfold val_of, run. rewrite bulk_other_state by (by rewrite Hs). cbn [fst snd].
  unfold qt_updateState, mbind, go_bind, gets. cbn [fst snd]. rewrite Hs. cbn. by destruct (Restart (qt_initQTState qt) w) as [[] w1].
Qed.

Lemma qt_update_pass w :
  qt_updates w → GetUpdateState w = UpdateStateWaitingForQTStateUpdate →
  run (sync false) w =
    if IsCompleted (qt_initQTState qt) w
    then run (SetUpdateStatusCondition (condition ConditionQTStateUpdated ConditionTrue "QTStateUpdated"
                "Query tracker state updated")) w
    else run (qt_rest false) w.
Proof.
  intros [Hu Hc] Hs. unfold QueryTracker_Sync, if_status, when_updating. go_step. rewrite Hu.
  unfold qt_updating, or_status. go_step. rewrite Hc. cbn [negb]. go_step.
  unfold val_of, run. rewrite bulk_other_state by (by rewrite Hs). cbn [fst snd].
  unfold qt_updateState, mbind, go_bind, gets. cbn [fst snd]. rewrite Hs.
  destruct (IsCompleted (qt_initQTState qt) w); cbn [negb]; [done|]. cbn. by rewrite Hs.
Qed.

End query_tracker_update.
End kinds.

(** ** Update steps of the query tracker *)

Section query_tracker_evidence.
Context {E : Type} {MC : MetaConditions} {ML : MetaConditionsLaws MC} {SC : StatusClient E} {CC : CypressClient E}.
Context {Y : Ypath} {CF : ConfigCodec} {CD : ClientDeps E}.
Context `{HKC : !KubeClient E ConfigMap} `{HKJ : !KubeClient E Job} `{HKS : !KubeClient E Secret}.
Context {DZ : YsonDecode Z} {DL : YsonDecode (list string)} {DO : YsonDecode (gmap string Any)}.
Context (path_Attr : string → string → string) (position : string → Z → string).
Context (qt : QueryTracker (E:=E)) {SO : ServerOutside (sc_server (qt_sc qt))}.

Abbreviation W := (World E).
Abbreviation sync := (QueryTracker_Sync path_Attr position qt).
Abbreviation rest := (qt_rest path_Attr qt).

Lemma outside_yts {A} (m : go W A) : outside m → preserves w_yts m.
Proof. intros H w. apply H. Qed.

Lemma outside_update {A} (m : go W A) : outside m → preserves w_update_status m.
Proof. intros H. by apply update_status_of_yts, outside_yts. Qed.

Lemma outside_in_resource {T} `{KubeObject T} (cell : lens E (ManagedResource T)) f : outside (in_resource cell f).
Proof. by intros w. Qed.

Lemma outside_resource_Sync {T} `{KubeObject T} `{!KubeClient E T} (cell : lens E (ManagedResource T)) :
  outside (resource_Sync cell).
Proof.
  intros w. split; [apply (resource_Sync_yts cell w)|]. apply (confined_resource_Sync cell).
Qed.

Lemma outside_sync_secret sc secret dry (k : go W (ComponentStatus * option error)) :
  outside k → outside (sync_secret sc secret dry k).
Proof.
  intros Hk. pose proof (@outside_in_resource Secret _ secret). pose proof (@outside_resource_Sync Secret _ _ secret).
  unfold sync_secret, sync_if, secret_Build. go_outside.
Qed.

Lemma outside_sync_server sc dry sync_ (k : go W (ComponentStatus * option error)) :
  outside sync_ → outside k → outside (sync_server sc dry sync_ k).
Proof. unfold sync_server, sync_if. go_outside. Qed.

Lemma outside_unless_done (m k : go W (ComponentStatus * option error)) :
  outside m → outside k → outside (unless_done m k).
Proof. unfold unless_done. go_outside. Qed.

Lemma outside_ArePodsReady : outside (sc_ArePodsReady (qt_sc qt)).
Proof. unfold sc_ArePodsReady, arePodsReady. go_outside. Qed.

(** The rest of a pass reports no update step as done. *)
Lemma qt_setup_update dry : preserves w_update_status (qt_setup path_Attr qt dry).
Proof.
  pose proof (ij_Sync_update (qt_initQTState qt)). pose proof (update_status_of_yts _ (ij_Build_yts (qt_initQTState qt))).
  assert (∀ ready r, preserves w_update_status (on_client (E:=E) ready r)) as Ho.
  { intros ready r. apply outside_update. unfold on_client. go_outside. }
  assert (preserves w_update_status (qt_initialize path_Attr qt dry)) as Hi.
  { unfold qt_initialize. go_frame. }
  assert (∀ l (k : go W (ComponentStatus * option error)), preserves w_update_status k →
            preserves w_update_status (wait_all l k)) as Hw.
  { intros l k Hk. induction l as [|c l IH]; cbn [wait_all]; [done|]. unfold wait_running. go_frame. }
  unfold qt_setup. go_frame; apply Hw; go_frame.
Qed.

Lemma qt_rest_update dry : preserves w_update_status (rest dry).
Proof.
  assert (preserves w_update_status (unless_done (qt_setup path_Attr qt dry)
    (sync_server (qt_sc qt) dry (srv_Sync (sc_server (qt_sc qt)))
      (unless_done (sc_ArePodsReady (qt_sc qt)) (mret (ComponentStatusReady, None)))))) as Hk.
  { pose proof (qt_setup_update dry). unfold unless_done at 1. apply preserves_bind; [done|]. intros [status err].
    case_match; [done|]. apply outside_update, outside_sync_server; [apply so_Sync|].
    apply outside_unless_done; [apply outside_ArePodsReady|apply outside_ret]. }
  pose proof (@outside_in_resource Secret _ (qt_secret qt)) as H1.
  pose proof (@outside_resource_Sync Secret _ _ (qt_secret qt)) as H2.
  unfold qt_rest, sync_secret, sync_if. do 2 (apply preserves_bind; [done|]; intros ?). case_match; [|done].
  apply outside_update. unfold secret_Build. go_outside.
Qed.

(** The step that migrates the tables of the query tracker is reported done only on the
    evidence of a run of its job made during this update: the step before it forgets the
    completion of any earlier run, and the step itself is reported done only in a pass that
    finds the job completed. *)
Theorem qt_update_evidence w :
  conditions_ok w → qt_updates qt w →
  (GetUpdateState w = UpdateStateWaitingForQTStateUpdatingPrepare →
     IsUpdateStatusConditionTrue (run (sync false) w) ConditionQTStatePreparedForUpdating = true ∧
     IsCompleted (qt_initQTState qt) (run (sync false) w) = false) ∧
  (GetUpdateState w = UpdateStateWaitingForQTStateUpdate →
     IsUpdateStatusConditionTrue w ConditionQTStateUpdated = false →
     IsUpdateStatusConditionTrue (run (sync false) w) ConditionQTStateUpdated = true →
     IsCompleted (qt_initQTState qt) w = true).
Proof.
  intros [Hs Hu] Hq. split.
  - intros Hst. rewrite (qt_prepare_pass path_Attr position qt w Hq Hst). set (w1 := run (Restart _) w).
    split.
    + rewrite IsUpdateStatusConditionTrue_set by done. by rewrite bool_decide_true.
    + unfold IsCompleted. apply andb_false_intro2. change (IsStatusConditionTrue w1 (ij_statusCondition (qt_initQTState qt)) = false).
      rewrite IsStatusConditionTrue_find. unfold GetStatusCondition. change (st_Conditions (w_status w1)) with
        (meta_RemoveStatusCondition (w_conditions w) (ij_statusCondition (qt_initQTState qt))). by rewrite remove_same.
  - intros Hst Hf. rewrite (qt_update_pass path_Attr position qt w Hq Hst).
    destruct (IsCompleted (qt_initQTState qt) w); [done|].
    unfold IsUpdateStatusConditionTrue in *. rewrite (qt_rest_update false w). by rewrite Hf.
Qed.

(** A query tracker without instances: [setup] is skipped, the job is never run, and no pass
    changes anything of the resource, so that the update waits in this step for ever. *)
Lemma qt_without_instances_stuck w :
  qt_updates qt w → GetUpdateState w = UpdateStateWaitingForQTStateUpdate →
  getInstanceCount (srv_pods (sc_server (qt_sc qt))) w = 0%Z →
  IsStatusConditionTrue w (ij_statusCondition (qt_initQTState qt)) = false →
  w_yts (run (sync false) w) = w_yts w.
Proof.
  intros Hq Hst Hn Hf. rewrite (qt_update_pass path_Attr position qt w Hq Hst). unfold IsCompleted. rewrite Hf, andb_false_r.
  pose proof (@outside_in_resource Secret _ (qt_secret qt)) as H1.
  pose proof (@outside_resource_Sync Secret _ _ (qt_secret qt)) as H2.
  unfold qt_rest, sync_secret, sync_if. go_step. case_match.
  - apply outside_yts. unfold secret_Build. go_outside.
  - unfold unless_done at 1, qt_setup. go_step. rewrite Hn. rewrite bool_decide_true by done. go_step. cbn.
    apply outside_yts, outside_sync_server; [apply so_Sync|].
    apply outside_unless_done; [apply outside_ArePodsReady|apply outside_ret].
Qed.

End query_tracker_evidence.

(** ** Example *)

Section example.

#[local] Existing Instance flat_status.
#[local] Existing Instance flat_cms.
#[local] Existing Instance flat_deps.
#[local] Existing Instance flat_decode_int.
#[local] Existing Instance flat_decode_strings.
#[local] Existing Instance flat_decode_map.
#[local] Instance flat_jobs : KubeClient FlatCypress Job := {
  client_Get _ := λ e, (inl NotFound, e);
  client_Create o := λ e, ((None, o), e);
  client_Update o := λ e, ((None, o), e);
  client_Delete _ := λ e, (None, e);
  SetControllerReference _ o := inr o;
}.
#[local] Instance flat_secrets : KubeClient FlatCypress Secret := {
  client_Get _ := λ e, (inl NotFound, e);
  client_Create o := λ e, ((None, o), e);
  client_Update o := λ e, ((None, o), e);
  client_Delete _ := λ e, (None, e);
  SetControllerReference _ o := inr o;
}.

Definition example_query_tracker : QueryTracker (E:=FlatCypress) :=
  mkQueryTracker (example_sc QueryTrackerType) None [] example_init_user
    (const_lens (mkManagedResource "secret" SecretZero SecretZero)) [].

(** An update of the query tracker whose job was completed at an earlier update. *)
Definition qt_world : World FlatCypress :=
  mkWorld (mkYtsaurus "minisaurus" "default" 7 YtsaurusSpecZero
    (mkYtsaurusStatus ClusterStateUpdating
       [mkCondition (ij_statusCondition example_init_user) ConditionTrue 6 100 "Done" "done"] 6
       (us_set_State UpdateStateWaitingForQTStateUpdatingPrepare
          (us_set_UpdatingComponents [mkComponent QueryTrackerType ""] "" UpdateStatusZero)))) [] 200 ∅ ∅.

Lemma qt_update_evidence_witness :
  IsUpdateStatusConditionTrue (run (QueryTracker_Sync flat_Attr (λ _ _, "") example_query_tracker false) qt_world)
    ConditionQTStatePreparedForUpdating = true ∧
  IsCompleted example_init_user (run (QueryTracker_Sync flat_Attr (λ _ _, "") example_query_tracker false) qt_world)
    = false.
Proof.
  apply (qt_update_evidence flat_Attr (λ _ _, "") example_query_tracker (SO:=example_server_outside) qt_world).
  - split; apply (bool_decide_unpack _); vm_compute; exact I.
  - split; reflexivity.
  - reflexivity.
Defined.

End example.
