(* ===== verification/Rolling.v ===== *)
(** * Rolling updates (src/pkg/components/helpers.go, [handleRollingUpdatingClusterState])

    What a pass of the rolling handler asks of its server, as an exact function of what it
    observes; and that a rolling update of a healthy component completes, one pod at a time.
    The stateful set is changed by Kubernetes between the passes: the first theorem holds for
    whatever the handler observes, the second names what Kubernetes has to do. *)

From S2P Require Import Prelude Kubernetes ApiTypes Labeller Status ApiProxy Components PodsManager UpdateModes.

Section rolling.
Context {E : Type} {MC : MetaConditions} {ML : MetaConditionsLaws MC} {SC : StatusClient E}.

Abbreviation W := (World E).

Context (cmp : ComponentI W) (s : server W).

(** ** What a pass asks for *)

(** Pods outside the partition that do not run the new revision yet, and pods that are not
    available. *)
Definition in_progress (r : stsRollingStatus) : Z := roll_totalCount r - roll_partition r - roll_updatedReplicas r.
Definition unavailable (r : stsRollingStatus) : Z := roll_totalCount r - roll_availableReplicas r.

(** The observed numbers are counts of type [int32], as are the sums the code forms. *)
Definition sts_counts (r : stsRollingStatus) : Prop :=
  (0 ≤ roll_partition r)%Z ∧ (0 ≤ roll_totalCount r < 2 ^ 31)%Z ∧ (0 ≤ roll_updatedReplicas r)%Z ∧
  (roll_partition r + roll_updatedReplicas r < 2 ^ 31)%Z ∧ (0 ≤ roll_availableReplicas r < 2 ^ 31)%Z.

Lemma wasted_exact r b :
  sts_counts r → (0 < b)%Z →
  (b <=? UnavailableOrInProgressReplicas r)%Z = negb ((in_progress r <? b)%Z && (unavailable r <? b)%Z).
Proof.
  intros (H1 & H2 & H3 & H4 & H5) Hb. unfold UnavailableOrInProgressReplicas, UnavailableReplicas,
    InProgressReplicas, in_progress, unavailable.
  rewrite (i32_id (roll_totalCount r - roll_availableReplicas r)) by (unfold in_i32; lia).
  rewrite (i32_id (roll_totalCount r - roll_partition r)) by (unfold in_i32; lia).
  rewrite i32_id by (unfold in_i32; lia). lia.
Qed.




(** A history of the rolling strategies with which the server was synced: a partition and a
    bound on unavailable pods each, whether or not the sync succeeded.  Reading the status of
    the stateful set, the status of the cluster and the pre-checks leave it alone. *)
Class RecordedServer (history : E → list (Z * Z)) : Prop := {
  rec_sync : ∀ w p m,
    history (w_env (run (srv_Sync s) (run (setUpdateStrategy s RollingUpdateStatefulSetStrategyType p m) w))) =
    history (w_env w) ++ [(p, m)];
  rec_status : preserves (λ w : W, history (w_env w)) (getRollingUpdateStatus s);
  rec_precheck : preserves (λ w : W, history (w_env w)) (ci_UpdatePreCheck cmp);
}.

Section requests.
Context (history : E → list (Z * Z)) `{!RecordedServer history}.



End requests.

(** ** Completion *)

Definition set_partition (p : Z) (r : stsRollingStatus) : stsRollingStatus :=
  mkRollingStatus p (roll_availableReplicas r) (roll_updatedReplicas r) (roll_totalCount r)
    (roll_updateRevision r) (roll_currentRevision r).

(** What completion needs of a server over a stateful set whose observed state is [sts]:
    reading the status and choosing a strategy do not change it, and a successful sync of a
    server whose pods are up to date and whose instance count is that of the set writes the
    chosen partition and nothing else that the handler reads (a sync writes the instance count as the number
    of replicas, and Kubernetes alone writes the status of the set). *)
Class RollingServer (sts : E → stsRollingStatus) : Prop := {
  rs_frame :: ServerFrame s;
  rs_status_sts : preserves (λ w : W, sts (w_env w)) (getRollingUpdateStatus s);
  rs_strategy_sts : ∀ t p m, preserves (λ w : W, sts (w_env w)) (setUpdateStrategy s t p m);
  rs_sync : ∀ w p m,
    let w1 := run (setUpdateStrategy s RollingUpdateStatefulSetStrategyType p m) w in
    IsNeedUpdate (needUpdate s w) = false → getInstanceCount (srv_pods s) w = roll_totalCount (sts (w_env w)) →
    val_of (srv_Sync s) w1 = None → sts (w_env (run (srv_Sync s) w1)) = set_partition p (sts (w_env w));
}.

Section completion.
Context (sts : E → stsRollingStatus) `{!RollingServer sts} `{!ComponentFrame cmp}.

(** Pre-checks do not touch the stateful set. *)
Context (precheck_sts : preserves (λ w : W, sts (w_env w)) (ci_UpdatePreCheck cmp)).

(** The specification does not change under way: the number of instances and the budget. *)
Context (count budget : Z) (Hcount : ∀ w, getInstanceCount (srv_pods s) w = count)
  (Hbudget : ∀ w, rollingMaxUnavailable s w = budget).

Lemma runPrechecks_sts : preserves (λ w : W, sts (w_env w)) (runPrechecks cmp).
Proof.
  unfold runPrechecks. apply preserves_bind; [done|]. intros _. apply preserves_bind; [done|].
  intros st. apply preserves_if; (apply preserves_bind; [done|]); intros; apply preserves_ret.
Qed.

(** A cluster in which requests succeed, pre-checks pass and Kubernetes brings the pods
    outside the partition up at the new revision between passes. *)

Context (settle : E → E).

Definition settled (r : stsRollingStatus) : Prop :=
  roll_updatedReplicas r = (roll_totalCount r - roll_partition r)%Z ∧
  roll_availableReplicas r = roll_totalCount r.

Record healthy : Prop := {
  h_status : ∀ w, val_of (getRollingUpdateStatus s) w = (Some (sts (w_env w)), None);
  h_sync : ∀ w, val_of (srv_Sync s) w = None;
  h_template : ∀ w, IsNeedUpdate (needUpdate s w) = false;
  h_precheck : ∀ w, cs_SyncStatus (val_of (ci_UpdatePreCheck cmp) w) = SyncStatusReady;
  h_settle : ∀ e, settled (sts (settle e)) ∧
    roll_totalCount (sts (settle e)) = roll_totalCount (sts e) ∧
    roll_partition (sts (settle e)) = roll_partition (sts e);
}.

Definition rolling_round (w : W) : W :=
  let w' := run (handleRollingUpdatingClusterState cmp s false) w in w_set_env (settle (w_env w')) w'.

Lemma healthy_prechecks : healthy → ∀ w, val_of (runPrechecks cmp) w = (None, None).
Proof. intros H w. unfold runPrechecks. go_step. by rewrite (h_precheck H). Qed.

Lemma withPrechecks_passes (k : go W _) w :
  healthy → ∃ w0, withPrechecks cmp k w = k w0 ∧ sts (w_env w0) = sts (w_env w).
Proof.
  intros H. unfold withPrechecks. rewrite go_bind_run, val_gets, run_gets.
  destruct (ShouldRunPreChecks w _ _); [|by exists w].
  exists (run (runPrechecks cmp) w). rewrite go_bind_run, healthy_prechecks by done.
  split; [done|]. apply runPrechecks_sts.
Qed.

(** One pass over a settled stateful set with protected pods lowers the partition by one. *)
Lemma healthy_round w :
  healthy → (0 < budget)%Z → GetUpdateState w = UpdateStateWaitingForPodsRemoval →
  roll_totalCount (sts (w_env w)) = count → sts_counts (sts (w_env w)) → settled (sts (w_env w)) →
  roll_partition (sts (w_env w)) ≠ 0%Z →
  sts (w_env (run (handleRollingUpdatingClusterState cmp s false) w)) =
    set_partition (roll_partition (sts (w_env w)) - 1) (sts (w_env w)).
Proof.
  intros H Hb Hstate Htotal Hc [Hu Ha] Hp. unfold handleRollingUpdatingClusterState. go_step.
  rewrite Hstate, (bool_decide_eq_true_2 _ eq_refl). cbn [negb]. go_step. rewrite Hbudget.
  rewrite (proj2 (Z.leb_gt budget 0)) by lia. go_step. rewrite (h_status H).
  go_step. rewrite (h_template H).
  pose proof (rs_status_sts w) as Hst. cbv beta in Hst.
  set (w1 := run (getRollingUpdateStatus s) w) in *. set (r := sts (w_env w)) in *.
  assert (IsFinished r = false) as ->.
  { unfold IsFinished. by rewrite (bool_decide_eq_false_2 _ Hp). }
  rewrite wasted_exact by done. unfold in_progress, unavailable. rewrite Hu, Ha.
  rewrite (proj2 (Z.ltb_lt (_ - _ - (_ - _)) budget)), (proj2 (Z.ltb_lt (_ - _) budget)) by lia. cbn [negb andb].
  rewrite (bool_decide_eq_false_2 _ Hp). cbn [negb].
  set (k := setUpdateStrategy s _ _ _ ≫= _).
  destruct (withPrechecks_passes k w1 H) as (w0 & Hk & Hs0). unfold run at 1. rewrite Hk.
  subst k. go_step. rewrite (h_sync H). cbn.
  rewrite (rs_sync w0 (i32 (roll_partition r - 1)) budget); [|apply (h_template H)| |apply (h_sync H)].
  - rewrite Hs0, Hst, i32_id; [done|]. destruct Hc as (? & ? & ? & ? & ?). unfold in_i32. lia.
  - by rewrite Hcount, Hs0, Hst.
Qed.

Lemma healthy_finished w :
  healthy → (0 < budget)%Z → GetUpdateState w = UpdateStateWaitingForPodsRemoval →
  settled (sts (w_env w)) → roll_partition (sts (w_env w)) = 0%Z →
  unique_types (w_update_conditions w) →
  val_of (handleRollingUpdatingClusterState cmp s false) w = (None, None) ∧
  IsUpdateStatusConditionTrue (run (handleRollingUpdatingClusterState cmp s false) w)
    (GetPodsUpdatedCondition (cmp_labeller (ci_base cmp))) = true.
Proof.
  intros H Hb Hstate [Hu Ha] Hp Huniq. unfold handleRollingUpdatingClusterState. go_step.
  rewrite Hstate, (bool_decide_eq_true_2 _ eq_refl). cbn [negb]. go_step. rewrite Hbudget.
  rewrite (proj2 (Z.leb_gt budget 0)) by lia. go_step. rewrite (h_status H).
  go_step. rewrite (h_template H).
  assert (IsFinished (sts (w_env w)) = true) as ->.
  { unfold IsFinished. rewrite Hu, Hp, Z.sub_0_r. by rewrite !bool_decide_eq_true_2. }
  go_step. split; [done|]. unfold setPodsUpdatedCondition.
  rewrite IsUpdateStatusConditionTrue_set.
  - by rewrite (bool_decide_eq_true_2 (_ = cond_Type _)).
  - by rewrite (update_conditions_of_yts _ (getRollingUpdateStatus_frame) w).
Qed.

Lemma handleRolling_unique dry : keeps update_unique (handleRollingUpdatingClusterState cmp s dry).
Proof. unfold handleRollingUpdatingClusterState, withPrechecks, runPrechecks. go_keeps. Qed.

(** C21.  A rolling update of a healthy component completes, one pod at a time: starting from
    a settled stateful set with as many replicas as the specification asks for and [n] pods
    still protected, after exactly [n] passes (with Kubernetes bringing up the exposed pod in
    between) the next pass reports no status of its own and records that the pods of the
    component are updated.  Healthy means that requests succeed, the status of the set is
    available, the pods do not differ from the specification, pre-checks pass and the
    specification does not change. *)
Theorem rolling_completes n w :
  healthy → (0 < budget)%Z → GetUpdateState w = UpdateStateWaitingForPodsRemoval →
  roll_totalCount (sts (w_env w)) = count → (0 ≤ count < 2 ^ 31)%Z → settled (sts (w_env w)) →
  roll_partition (sts (w_env w)) = Z.of_nat n → (Z.of_nat n ≤ roll_totalCount (sts (w_env w)))%Z →
  unique_types (w_update_conditions w) →
  let w' := Nat.iter n rolling_round w in
  val_of (handleRollingUpdatingClusterState cmp s false) w' = (None, None) ∧
  IsUpdateStatusConditionTrue (run (handleRollingUpdatingClusterState cmp s false) w')
    (GetPodsUpdatedCondition (cmp_labeller (ci_base cmp))) = true.
Proof.
  intros H Hb. revert w. induction n as [|n IH]; intros w Hstate Htotal Ht Hset Hp Hle Hu; cbv zeta.
  { by apply healthy_finished. }
  rewrite Nat.iter_succ_r.
  assert (sts_counts (sts (w_env w))) as Hc.
  { destruct Hset. unfold sts_counts. rewrite <- Htotal in Ht. lia. }
  pose proof (healthy_round w H Hb Hstate Htotal Hc Hset ltac:(lia)) as Hround.
  destruct (h_settle H (w_env (run (handleRollingUpdatingClusterState cmp s false) w)))
    as (Hset' & Ht' & Hp'). rewrite Hround in Ht', Hp'. cbn in Ht', Hp'.
  apply IH; unfold rolling_round; cbn [w_env w_set_env]; try done; try lia.
  - etrans; [|exact Hstate].
    exact (f_equal (λ c, c.1.2) (handleRollingUpdatingClusterState_core cmp s false w)).
  - apply handleRolling_unique. exact Hu.
Qed.

End completion.
End rolling.

(** ** A simulated stateful set *)

(** [sim_outdated] is whether the pods differ from the specification. *)
Record SimSts := mkSimSts {
  sim_sts : stsRollingStatus; sim_strategy : Z * Z; sim_outdated : bool; sim_history : list (Z * Z) }.

#[global] Instance SimClient : StatusClient SimSts := {
  Status_Update := λ _ e, (None, e);
  GetVersion := "0.30.0";
}.

Definition sim_server (outdated : SimSts → bool) (instanceCount : Z) (minReady : option Z) : server (World SimSts) := {|
  srv_pods := {|
    getInstanceCount := λ _, instanceCount;
    setInstanceCount := λ _, mret tt;
    getMinReadyInstanceCount := λ _ margin, minReadyInstanceCount instanceCount minReady margin;
    getPodAnnotation := λ _ _, "";
    listPods := mret ([], None);
    pm_removePods := mret None;
    arePodsUpdatedToNewRevision := mret false |};
  srv_Fetch := mret None;
  srv_Exists := λ _, true;
  srv_Sync := in_env (λ e, (None, mkSimSts (set_partition (sim_strategy e).1 (sim_sts e)) (sim_strategy e) false
    (sim_history e ++ [sim_strategy e])));
  setUpdateStrategy := λ _ p m, in_env (λ e, (tt, mkSimSts (sim_sts e) (p, m) (sim_outdated e) (sim_history e)));
  getRollingUpdateStatus := in_env (λ e, ((Some (sim_sts e), None), e));
  needUpdate := λ w, if outdated (w_env w) then ComponentStatusNeedUpdate "image update" else ComponentStatusReady;
  needSync := λ _ _, false;
|}.

#[global] Instance sim_server_rolling o n m : RollingServer (sim_server o n m) sim_sts.
Proof. by split. Qed.

Definition sim_component : ComponentI (World SimSts) := {|
  ci_base := example_component 0 DataNodeType "";
  ci_Fetch := mret None;
  ci_NeedUpdate := mret ComponentStatusReady;
  ci_Sync := λ _, mret (ComponentStatusReady, None);
  ci_UpdatePreCheck := mret ComponentStatusReady;
|}.

#[global] Instance sim_component_frame : ComponentFrame sim_component.
Proof. split; try done; intros; apply keeps_ret. Qed.

#[global] Instance sim_server_recorded o n m : RecordedServer sim_component (sim_server o n m) sim_history.
Proof. by split. Qed.

(** Kubernetes brings up everything outside the partition. *)
Definition sim_settle (e : SimSts) : SimSts :=
  let r := sim_sts e in
  mkSimSts (mkRollingStatus (roll_partition r) (roll_totalCount r) (roll_totalCount r - roll_partition r)
    (roll_totalCount r) (roll_updateRevision r) (roll_currentRevision r)) (sim_strategy e) (sim_outdated e) (sim_history e).

Definition sim_world (r : stsRollingStatus) (outdated : bool) : World SimSts :=
  mkWorld (yts_set_Status (λ st, st_set_UpdateStatus (us_set_State UpdateStateWaitingForPodsRemoval) st)
    example_yts) [] 200 ∅ (mkSimSts r (0, 0)%Z outdated []).

Definition sim_start : stsRollingStatus := mkRollingStatus 3 3 0 3 "r2" "r1".



Lemma rolling_completes_witness :
  IsUpdateStatusConditionTrue (run (handleRollingUpdatingClusterState sim_component (sim_server (λ _, false) 3 None)
    false) (Nat.iter 3 (rolling_round sim_component (sim_server (λ _, false) 3 None) sim_settle) (sim_world sim_start false)))
    "DataNodePodsUpdated" = true.
Proof.
  apply (rolling_completes sim_component (sim_server (λ _, false) 3 None) sim_sts (λ _, eq_refl)
    3 1 (λ _, eq_refl) (λ _, eq_refl) sim_settle 3 (sim_world sim_start false)); try reflexivity; try (by split).
  - apply (bool_decide_unpack _). vm_compute. exact I.
Defined.
