(* ===== verification/UpdatePlan.v ===== *)
(** * Choosing the components to update (src/controllers/component_manager.go)

    [applyUpdatePlan] walks the components that need an update and gives each the first
    selector of the update plan that allows it and has concurrency left.  The plan of a
    component also decides which preparations an update needs. *)

From S2P Require Import Prelude Kubernetes ApiTypes.

Definition canUpdateComponent (selector : ComponentUpdateSelector) (component : Component) : bool :=
  match sel_Class selector with
  | ComponentClassUnspecified =>
      (component_Type (sel_Component selector) == component_Type component) &&
      ((component_Name (sel_Component selector) == "") ||
       (component_Name (sel_Component selector) == component_Name component))
  | ComponentClassEverything => true
  | ComponentClassNothing => false
  | ComponentClassStateless =>
      match component_Type component with
      | DataNodeType | TabletNodeType | MasterType => false
      | _ => true
      end
  | ComponentClassOther _ => false
  end.

(** [selector.Concurrency != nil && *selector.Concurrency <= count[i]]. *)
Definition exhausted (selector : ComponentUpdateSelector) (count : Z) : bool :=
  match sel_Concurrency selector with
  | Some concurrency => (concurrency <=? count)%Z
  | None => false
  end.

(** The inner loop: the index of the first selector that takes the component. *)
Fixpoint findSelector (updatePlan : list ComponentUpdateSelector) (count : list Z)
    (component : Component) : option nat :=
  match updatePlan, count with
  | selector :: plan, n :: count =>
      if negb (canUpdateComponent selector component) then S <$> findSelector plan count component
      else if exhausted selector n then S <$> findSelector plan count component
      else Some 0%nat
  | _, _ => None
  end.

(** The outer loop, with its state [count], [canUpdate] and [cannotUpdate]. *)
Fixpoint applyLoop (updatePlan : list ComponentUpdateSelector) (needUpdate : list Component)
    (count : list Z) (canUpdate cannotUpdate : list Component) : list Component * list Component :=
  match needUpdate with
  | [] => (canUpdate, cannotUpdate)
  | component :: rest =>
      match findSelector updatePlan count component with
      | Some index =>
          applyLoop updatePlan rest (alter (λ n, i32 (n + 1)) index count)
            (canUpdate ++ [component]) cannotUpdate
      | None => applyLoop updatePlan rest count canUpdate (cannotUpdate ++ [component])
      end
  end.

(** [(canUpdate, cannotUpdate)] of [cm.applyUpdatePlan]. *)
Definition applyUpdatePlan (updatePlan : list ComponentUpdateSelector) (needUpdate : list Component)
    : list Component * list Component :=
  applyLoop updatePlan needUpdate (replicate (length updatePlan) 0%Z) [] [].

(** The selector scan for one component: whether its first allowing selector is not OnDelete. *)
Fixpoint firstSelectorNotOnDelete (updatePlan : list ComponentUpdateSelector) (component : Component) : bool :=
  match updatePlan with
  | [] => false
  | selector :: plan =>
      if negb (canUpdateComponent selector component) then firstSelectorNotOnDelete plan component
      else match sel_Strategy selector with
           | None => true
           | Some strategy => ComponentUpdateStrategy_Type strategy != ComponentUpdateModeTypeOnDelete
           end
  end.

Fixpoint shouldRunPreUpdateStepsFor (componentType : ComponentType)
    (updatePlan : list ComponentUpdateSelector) (updatingComponents : list Component) : bool :=
  match updatingComponents with
  | [] => false
  | component :: rest =>
      if component_Type component != componentType
      then shouldRunPreUpdateStepsFor componentType updatePlan rest
      else if firstSelectorNotOnDelete updatePlan component then true
      else shouldRunPreUpdateStepsFor componentType updatePlan rest
  end.

Definition shouldRemoveTabletCellsOnUpdate (updatePlan : list ComponentUpdateSelector)
    (updatingComponents : list Component) : bool :=
  shouldRunPreUpdateStepsFor TabletNodeType updatePlan updatingComponents.

Definition shouldUseMasterHotUpdate (updatePlan : list ComponentUpdateSelector)
    (updatingComponents : list Component) : bool :=
  negb (shouldRunPreUpdateStepsFor MasterType updatePlan updatingComponents).

(** ** Specification

    An assignment gives each component the index of its selector, or none. *)

Definition assignment : Type := list (option nat).

Definition uses (i : nat) (a : assignment) : Z := Z.of_nat (length (List.filter (λ x, x == Some i) a)).

(** The assignment the two loops compute. *)
Fixpoint assign (plan : list ComponentUpdateSelector) (need : list Component) (count : list Z)
    : assignment :=
  match need with
  | [] => []
  | c :: rest =>
      match findSelector plan count c with
      | Some i => Some i :: assign plan rest (alter (λ n, i32 (n + 1)) i count)
      | None => None :: assign plan rest count
      end
  end.

(** The components an assignment takes, and those it leaves. *)
Definition taken (need : list Component) (a : assignment) : list Component :=
  omap (λ '(c, x), match x with Some _ => Some c | None => None end) (zip need a).
Definition left_out (need : list Component) (a : assignment) : list Component :=
  omap (λ '(c, x), match x with Some _ => None | None => Some c end) (zip need a).

Lemma applyLoop_assign plan need count can cannot :
  applyLoop plan need count can cannot =
    (can ++ taken need (assign plan need count), cannot ++ left_out need (assign plan need count)).
Proof.
  revert count can cannot. induction need as [|c need IH]; intros count can cannot; cbn.
  { unfold taken, left_out. cbn. by rewrite !app_nil_r. }
  destruct (findSelector plan count c) as [i|]; rewrite IH; unfold taken, left_out; cbn;
    by rewrite <- app_assoc.
Qed.

Lemma findSelector_Some plan count c i :
  findSelector plan count c = Some i →
  ∃ sel n, plan !! i = Some sel ∧ count !! i = Some n ∧
    canUpdateComponent sel c = true ∧ exhausted sel n = false.
Proof.
  revert count i. induction plan as [|sel plan IH]; intros [|n count] i; cbn; try done.
  destruct (canUpdateComponent sel c) eqn:Hc; cbn;
    [destruct (exhausted sel n) eqn:He|]; cbn.
  2: { intros [= <-]. cbn. eauto 10. }
  all: destruct (findSelector plan count c) as [j|] eqn:Hf; cbn; [|done];
    intros [= <-]; exact (IH count j Hf).
Qed.

Lemma findSelector_None plan count c i sel :
  length count = length plan → findSelector plan count c = None →
  plan !! i = Some sel → canUpdateComponent sel c = true →
  ∃ n, count !! i = Some n ∧ exhausted sel n = true.
Proof.
  revert count i. induction plan as [|s plan IH]; intros [|n count] i Hlen; cbn; try done.
  destruct (canUpdateComponent s c) eqn:Hc; cbn; [destruct (exhausted s n) eqn:He; cbn; [|done]|];
    destruct (findSelector plan count c) as [j|] eqn:Hf; cbn; try done; intros _;
    (destruct i as [|i]; cbn; intros Hi Hcan; [injection Hi as <-; first [congruence|eauto]|apply (IH count i); auto]).
Qed.

Lemma uses_cons i x a : uses i (x :: a) = ((if x == Some i then 1 else 0) + uses i a)%Z.
Proof. unfold uses. cbn. destruct (_ == Some i); cbn; lia. Qed.

Lemma uses_bound i a : (0 ≤ uses i a ≤ Z.of_nat (length a))%Z.
Proof. unfold uses. pose proof (filter_length_le (λ x, x == Some i) a). lia. Qed.

Lemma assign_length plan need count : length (assign plan need count) = length need.
Proof.
  revert count. induction need as [|c need IH]; intros count; cbn; [done|].
  case_match; cbn; by rewrite IH.
Qed.

(** Counters stay within the concurrency, counting the uses to come. *)
Lemma assign_concurrency plan need count i sel k n :
  length count = length plan → (∀ j m, count !! j = Some m → 0 ≤ m ∧ m + Z.of_nat (length need) < 2 ^ 31)%Z →
  plan !! i = Some sel → sel_Concurrency sel = Some k → count !! i = Some n → (n ≤ Z.max 0 k)%Z →
  (n + uses i (assign plan need count) ≤ Z.max 0 k)%Z.
Proof.
  revert count n. induction need as [|c need IH]; intros count n Hlen Hcount Hsel Hk Hn Hle; cbn.
  { unfold uses. cbn. lia. }
  cbn in Hcount. destruct (findSelector plan count c) as [j|] eqn:Hf; rewrite uses_cons.
  2: { cbn. rewrite Z.add_0_l. apply IH; try done. intros j m Hj. specialize (Hcount j m Hj). lia. }
  apply findSelector_Some in Hf as (selj & m & Hplanj & Hcj & _ & Hex).
  assert (0 ≤ m ∧ m + 1 < 2 ^ 31)%Z as Hm by (specialize (Hcount j m Hcj); lia).
  assert (∀ j' m', alter (λ n, i32 (n + 1)) j count !! j' = Some m' →
    0 ≤ m' ∧ m' + Z.of_nat (length need) < 2 ^ 31)%Z as Hcount'.
  { intros j' m'. destruct (decide (j = j')) as [->|Hne].
    - rewrite list_lookup_alter_eq, Hcj. intros [= <-]. rewrite i32_id by (unfold in_i32; lia).
      specialize (Hcount j' m Hcj). lia.
    - rewrite list_lookup_alter_ne by done. intros Hj'. specialize (Hcount j' m' Hj'). lia. }
  destruct (bool_decide_reflect (Some j = Some i)) as [[= ->]|Hne].
  - rewrite Hn in Hcj. injection Hcj as <-. rewrite Hsel in Hplanj. injection Hplanj as <-.
    unfold exhausted in Hex. rewrite Hk in Hex. apply Z.leb_gt in Hex.
    rewrite Z.add_assoc. apply IH; try done; [by rewrite length_alter| |lia].
    rewrite list_lookup_alter_eq, Hn. cbn. f_equal. apply i32_id. unfold in_i32. lia.
  - rewrite Z.add_0_l. apply IH; try done; [by rewrite length_alter|].
    rewrite list_lookup_alter_ne; [done|congruence].
Qed.

(** The counter a selector has when a component is looked at never exceeds its uses. *)
Lemma assign_greedy plan need count q c i sel :
  length count = length plan → (∀ j m, count !! j = Some m → 0 ≤ m ∧ m + Z.of_nat (length need) < 2 ^ 31)%Z →
  need !! q = Some c → assign plan need count !! q = Some None →
  plan !! i = Some sel → canUpdateComponent sel c = true →
  ∃ k n, sel_Concurrency sel = Some k ∧ count !! i = Some n ∧
    (k ≤ n + uses i (assign plan need count))%Z.
Proof.
  revert count q. induction need as [|c' need IH]; intros count q Hlen Hcount; [done|].
  cbn [assign length] in *. destruct (findSelector plan count c') as [j|] eqn:Hf.
  - apply findSelector_Some in Hf as (selj & m & Hplanj & Hcj & _ & _).
    destruct q as [|q]; cbn; [done|]. intros Hq Ha Hsel Hcan.
    assert (∀ j' m', alter (λ n, i32 (n + 1)) j count !! j' = Some m' →
      0 ≤ m' ∧ m' + Z.of_nat (length need) < 2 ^ 31)%Z as Hcount'.
    { intros j' m'. destruct (decide (j = j')) as [->|Hne].
      - rewrite list_lookup_alter_eq, Hcj. intros [= <-]. specialize (Hcount j' m Hcj).
        rewrite i32_id by (unfold in_i32; lia). lia.
      - rewrite list_lookup_alter_ne by done. intros Hj'. specialize (Hcount j' m' Hj'). lia. }
    destruct (IH _ q ltac:(by rewrite length_alter) Hcount' Hq Ha Hsel Hcan) as (k & n & Hk & Hn & Hle).
    destruct (bool_decide_reflect (Some j = Some i)) as [[= ->]|Hne]; rewrite uses_cons.
    + rewrite list_lookup_alter_eq, Hcj in Hn. injection Hn as <-. specialize (Hcount i m Hcj).
      rewrite i32_id in Hle by (unfold in_i32; lia). exists k, m.
      rewrite (bool_decide_eq_true_2 _ eq_refl). split_and!; [done..|lia].
    + exists k, n. rewrite list_lookup_alter_ne in Hn by congruence.
      rewrite (bool_decide_eq_false_2 _ Hne). split_and!; [done..|lia].
  - assert (∀ j m, count !! j = Some m → 0 ≤ m ∧ m + Z.of_nat (length need) < 2 ^ 31)%Z as Hcount'.
    { intros j m Hj. specialize (Hcount j m Hj). lia. }
    destruct q as [|q]; cbn.
    + intros [= ->] _ Hsel Hcan. destruct (findSelector_None _ _ _ _ _ Hlen Hf Hsel Hcan) as (n & Hn & Hex).
      unfold exhausted in Hex. destruct (sel_Concurrency sel) as [k|]; [|done]. apply Z.leb_le in Hex.
      exists k, n. pose proof (uses_bound i (None :: assign plan need count)). split_and!; [done..|lia].
    + intros Hq Ha Hsel Hcan. rewrite uses_cons. cbn. by apply (IH count q).
Qed.

Lemma taken_left_Permutation need a :
  length a = length need → taken need a ++ left_out need a ≡ₚ need.
Proof.
  revert a. induction need as [|c need IH]; intros [|x a] Hlen; try done.
  unfold taken, left_out in *. cbn in *. destruct x; cbn.
  - by rewrite IH by lia.
  - rewrite <- Permutation_middle. by rewrite IH by lia.
Qed.

Lemma assign_allowed plan need count q c i :
  need !! q = Some c → assign plan need count !! q = Some (Some i) →
  ∃ sel, plan !! i = Some sel ∧ canUpdateComponent sel c = true.
Proof.
  revert count q. induction need as [|c' need IH]; intros count q; [done|]. cbn [assign].
  destruct (findSelector plan count c') as [j|] eqn:Hf; destruct q as [|q]; cbn; try done; try apply IH.
  intros [= ->] [= ->]. apply findSelector_Some in Hf as (sel & n & ? & ? & ? & ?). eauto.
Qed.

(** C3.  The update plan is applied exactly and greedily.  There is an assignment of
    selectors to the components that need an update such that
    - the components that can be updated are those with a selector and the rest are blocked,
      both in the order of the list, and together they are the whole list;
    - every selector used allows its component;
    - no selector is used more often than its concurrency;
    - a component is blocked only if each selector that allows it has a concurrency, and it
      is used up. *)
Theorem applyUpdatePlan_spec plan need :
  (Z.of_nat (length need) < 2 ^ 31)%Z →
  ∃ a : assignment,
    length a = length need ∧
    applyUpdatePlan plan need = (taken need a, left_out need a) ∧
    taken need a ++ left_out need a ≡ₚ need ∧
    (∀ q c i, need !! q = Some c → a !! q = Some (Some i) →
       ∃ sel, plan !! i = Some sel ∧ canUpdateComponent sel c = true) ∧
    (∀ i sel k, plan !! i = Some sel → sel_Concurrency sel = Some k → (uses i a ≤ Z.max 0 k)%Z) ∧
    (∀ q c i sel, need !! q = Some c → a !! q = Some None →
       plan !! i = Some sel → canUpdateComponent sel c = true →
       ∃ k, sel_Concurrency sel = Some k ∧ (k ≤ uses i a)%Z).
Proof.
  intros Hlen. set (count := replicate (length plan) 0%Z). exists (assign plan need count).
  assert (length count = length plan) as Hc by apply length_replicate.
  assert (∀ j m, count !! j = Some m → m = 0%Z) as Hzero.
  { intros j m Hj. by apply lookup_replicate in Hj as [-> _]. }
  assert (∀ j m, count !! j = Some m → 0 ≤ m ∧ m + Z.of_nat (length need) < 2 ^ 31)%Z as Hcount.
  { intros j m Hj. rewrite (Hzero j m Hj). lia. }
  split_and!.
  - apply assign_length.
  - unfold applyUpdatePlan. by rewrite applyLoop_assign.
  - apply taken_left_Permutation, assign_length.
  - intros q c i. apply assign_allowed.
  - intros i sel k Hi Hk. destruct (lookup_lt_is_Some_2 count i) as [n Hn].
    { rewrite Hc. by eapply lookup_lt_Some. }
    pose proof (Hzero i n Hn) as ->.
    apply (assign_concurrency plan need count i sel k 0); try done. lia.
  - intros q c i sel Hq Ha Hi Hcan.
    destruct (assign_greedy plan need count q c i sel Hc Hcount Hq Ha Hi Hcan) as (k & n & Hk & Hn & Hle).
    rewrite (Hzero i n Hn) in Hle. eauto.
Qed.

Definition example_need : list Component :=
  [mkComponent DataNodeType "a"; mkComponent DataNodeType "b"; mkComponent SchedulerType ""].

Definition example_plan : list ComponentUpdateSelector :=
  [mkSelector ComponentClassUnspecified (mkComponent DataNodeType "") (Some 1%Z) None;
   mkSelector ComponentClassStateless (mkComponent ComponentTypeEmpty "") None None].

Lemma applyUpdatePlan_spec_witness :
  applyUpdatePlan example_plan example_need =
    ([mkComponent DataNodeType "a"; mkComponent SchedulerType ""], [mkComponent DataNodeType "b"]) ∧
  ∃ a : assignment, length a = 3%nat ∧
    applyUpdatePlan example_plan example_need = (taken example_need a, left_out example_need a).
Proof.
  split; [reflexivity|].
  destruct (applyUpdatePlan_spec example_plan example_need eq_refl) as (a & Hl & Ha & _).
  exists a. split; [exact Hl|exact Ha].
Defined.

(** ** Preparations *)

(** The strategy that governs a component: that of its first allowing selector. *)
Definition governing (plan : list ComponentUpdateSelector) (c : Component) : option ComponentUpdateSelector :=
  List.find (λ sel, canUpdateComponent sel c) plan.

Lemma firstSelectorNotOnDelete_governing plan c :
  firstSelectorNotOnDelete plan c =
    match governing plan c with
    | None => false
    | Some sel => GetUpdateStrategyType (Some sel) != ComponentUpdateModeTypeOnDelete
    end.
Proof.
  unfold governing. induction plan as [|sel plan IH]; [done|]. cbn.
  destruct (canUpdateComponent sel c); cbn; [|done]. by destruct (sel_Strategy sel).
Qed.

(** Masters are hot-updated (without safe mode, snapshots and exit from read-only) only
    if the user takes the restarts over: when a master is among the updating components,
    the hot update is used exactly if each updating master is governed by an OnDelete
    selector or by none. *)
Theorem shouldUseMasterHotUpdate_spec plan updating :
  shouldUseMasterHotUpdate plan updating = true ↔
    ∀ c, c ∈ updating → component_Type c = MasterType →
      ∀ sel, governing plan c = Some sel →
        GetUpdateStrategyType (Some sel) = ComponentUpdateModeTypeOnDelete.
Proof.
  unfold shouldUseMasterHotUpdate. rewrite negb_true_iff.
  induction updating as [|c updating IH]; cbn [shouldRunPreUpdateStepsFor].
  { split; [|done]. intros _ c Hc. by apply elem_of_nil in Hc. }
  destruct (bool_decide_reflect (component_Type c = MasterType)) as [Ht|Ht]; cbn [negb].
  - rewrite firstSelectorNotOnDelete_governing.
    destruct (governing plan c) as [sel|] eqn:Hg.
    + destruct (bool_decide_reflect (GetUpdateStrategyType (Some sel) = ComponentUpdateModeTypeOnDelete))
        as [Hs|Hs]; cbn [negb].
      * rewrite IH. setoid_rewrite elem_of_cons. naive_solver.
      * split; [done|]. intros H. exfalso. apply Hs, (H c); [by left|done..].
    + rewrite IH. setoid_rewrite elem_of_cons. naive_solver.
  - rewrite IH. setoid_rewrite elem_of_cons. naive_solver.
Qed.
