(* ===== verification/ComponentManager.v ===== *)
(** * The component manager (src/controllers/component_manager.go)

    Collects the statuses of all components of the cluster at the start of a reconcile
    pass ([FetchStatus]), and drives the components that want to make progress at its end
    ([Sync]). *)

From S2P Require Import Prelude Kubernetes ApiTypes Labeller Status ApiProxy Components UpdatePlan.

Record ComponentManagerStatus := mkCMStatus {
  cms_masterReady : bool;
  cms_allStarted : bool;
  cms_allRunning : bool;
  cms_allReady : bool;
  cms_pending : list Component;
  cms_blocked : list Component;
  cms_started : list Component;
  cms_needUpdate : list Component;
  cms_canUpdate : list Component;
  cms_cannotUpdate : list Component;
  cms_nowUpdating : list Component;
  cms_clusterMaintenance : bool;
  cms_mastersMaintenance : bool;
  cms_shutdownStorage : bool;
  cms_shutdownTablets : bool;
  cms_shutdownCompute : bool;
  cms_removeTabletCellsOnUpdate : bool;
  cms_masterHotUpdate : bool;
}.

(** The status [FetchStatus] starts from. *)
Definition initialStatus (shutdown : ClusterShutdown) : ComponentManagerStatus :=
  let exceptMasters := shutdown == ClusterShutdownExceptMasters in
  let everything := shutdown == ClusterShutdownEverything in
  mkCMStatus true true true true [] [] [] [] [] [] []
    (shutdown != ClusterShutdownNone)
    exceptMasters
    (exceptMasters || everything)
    (exceptMasters || everything || (shutdown == ClusterShutdownTablets))
    (exceptMasters || everything || (shutdown == ClusterShutdownCompute))
    false false.

(** The effect of one component on the flags and lists: masters, ready, running and started
    flags are cleared, the lists extended. *)
Definition cms_update (masterReady allStarted allRunning allReady : bool)
    (pending blocked started needUpdate : list Component) (s : ComponentManagerStatus)
    : ComponentManagerStatus :=
  mkCMStatus (cms_masterReady s && masterReady) (cms_allStarted s && allStarted)
    (cms_allRunning s && allRunning) (cms_allReady s && allReady)
    (cms_pending s ++ pending) (cms_blocked s ++ blocked) (cms_started s ++ started)
    (cms_needUpdate s ++ needUpdate) (cms_canUpdate s) (cms_cannotUpdate s) (cms_nowUpdating s)
    (cms_clusterMaintenance s) (cms_mastersMaintenance s) (cms_shutdownStorage s)
    (cms_shutdownTablets s) (cms_shutdownCompute s) (cms_removeTabletCellsOnUpdate s)
    (cms_masterHotUpdate s).

(** [cm.applyUpdatePlan]. *)
Definition cms_applyUpdatePlan (plan : list ComponentUpdateSelector) (s : ComponentManagerStatus)
    : ComponentManagerStatus :=
  let '(canUpdate, cannotUpdate) := applyUpdatePlan plan (cms_needUpdate s) in
  mkCMStatus (cms_masterReady s) (cms_allStarted s) (cms_allRunning s) (cms_allReady s)
    (cms_pending s) (cms_blocked s) (cms_started s) (cms_needUpdate s) canUpdate cannotUpdate
    (cms_nowUpdating s) (cms_clusterMaintenance s) (cms_mastersMaintenance s)
    (cms_shutdownStorage s) (cms_shutdownTablets s) (cms_shutdownCompute s)
    (cms_removeTabletCellsOnUpdate s) (cms_masterHotUpdate s).

(** The assignments to [cm.status] at the start of an update pass. *)
Definition cms_set_update (nowUpdating : list Component) (removeTabletCellsOnUpdate masterHotUpdate : bool)
    (s : ComponentManagerStatus) : ComponentManagerStatus :=
  mkCMStatus (cms_masterReady s) (cms_allStarted s) (cms_allRunning s) (cms_allReady s)
    (cms_pending s) (cms_blocked s) (cms_started s) (cms_needUpdate s) (cms_canUpdate s)
    (cms_cannotUpdate s) nowUpdating (cms_clusterMaintenance s) (cms_mastersMaintenance s)
    (cms_shutdownStorage s) (cms_shutdownTablets s) (cms_shutdownCompute s)
    removeTabletCellsOnUpdate masterHotUpdate.

(** The accounting of one status, [None] for a sync status without a case. *)
Definition accountStatus (c : Component) (status : ComponentStatus) (s : ComponentManagerStatus)
    : option ComponentManagerStatus :=
  if (component_Type c == YtsaurusClientType) && negb (IsReady status) then
    Some (cms_update true true true false [c] [] [] [] s)
  else
    let masterReady := negb ((component_Type c == MasterType) && negb (IsReady status)) in
    match cs_SyncStatus status with
    | SyncStatusReady => Some (cms_update masterReady true true true [] [] [] [] s)
    | SyncStatusNeedUpdate => Some (cms_update masterReady true true false [] [] [] [c] s)
    | SyncStatusStarted => Some (cms_update masterReady true false false [] [] [c] [] s)
    | SyncStatusPending | SyncStatusUpdating =>
        Some (cms_update masterReady false false false [c] [] [] [] s)
    | SyncStatusBlocked => Some (cms_update masterReady false false false [] [c] [] [] s)
    | _ => None
    end.

(** [ctrl.Result]; durations are in seconds. *)
Record Result := mkResult { res_Requeue : bool; res_RequeueAfter : Z }.

#[global] Instance Result_eq_dec : EqDecision Result.
Proof. solve_decision. Defined.

Definition DefaultClusterStatusPollPeriod : Z := 60.

Section manager.
Context {E : Type} {MC : MetaConditions} {SC : StatusClient E}.

Abbreviation W := (World E).

(** The fields of the manager other than its status. *)
Record ComponentManager := mkComponentManager {
  cm_allComponents : list (ComponentI W);
  cm_getHeaterStatus : option (W → Component → ComponentStatus);
}.

(** The status of one component: an update is looked for only in the states that may start
    one, anything else is asked with a dry sync. *)
Definition componentStatus (c : ComponentI W) : go W (ComponentStatus * option error) :=
  readyToUpdate ← gets IsReadyToUpdate;
  status ← (if readyToUpdate : bool then ci_NeedUpdate c else mret ComponentStatusZero);
  if IsNeedUpdate status then mret (status, None) else ci_Sync c true.

Fixpoint fetchLoop (components : list (ComponentI W)) (s : ComponentManagerStatus)
    : go W (option error * ComponentManagerStatus) :=
  match components with
  | [] => mret (None, s)
  | c :: rest =>
      let base := ci_base c in
      err ← ci_Fetch c;
      match err with
      | Some e => mret (Some ("failed to fetch component " +:+ GetFullName base +:+ ": " +:+ e), s)
      | None =>
          '(status, err) ← componentStatus c;
          match err with
          | Some e => mret (Some ("failed to get component " +:+ GetFullName base +:+ " status: " +:+ e), s)
          | None =>
              SetStatus base status ;;
              SetReadyCondition base status ;;
              match accountStatus (GetComponent base) status s with
              | Some s' => fetchLoop rest s'
              | None =>
                  mret (Some ("component " +:+ GetFullName base +:+ " has unknown sync status: " +:+
                              SyncStatus_string (cs_SyncStatus status)), s)
              end
          end
      end
  end.

Definition FetchStatus (cm : ComponentManager) : go W (option error * ComponentManagerStatus) :=
  shutdown ← gets (λ w, cmt_Shutdown (GetClusterMaintenance w));
  fetchLoop (cm_allComponents cm) (initialStatus shutdown).

(** *** Sync *)

Record SyncState := mkSyncState {
  sy_hasPending : bool;
  sy_hasStarted : bool;
  sy_err : option error;
}.

(** Whether the image heater stops the loop while the cluster is initialized. *)
Definition waitsForHeater (c : component) (w : W) : option string :=
  if IsInitializing w && (GetType c == ImageHeaterType) then
    match GetStatusCondition w ConditionImageHeaterComplete with
    | Some complete => if cond_Status complete != ConditionTrue then Some (cond_Message complete) else None
    | None => None
    end
  else None.

(** The loop over the components; [inl] is a status error that returns at once. *)
Fixpoint syncLoop (components : list (ComponentI W)) (s : SyncState) : go W (error + SyncState) :=
  match components with
  | [] => mret (inr s)
  | c :: rest =>
      '(status, err) ← ci_Sync c true;
      match err with
      | Some e => mret (inl ("failed to get status for " +:+ GetFullName (ci_base c) +:+ ": " +:+ e))
      | None =>
          SetStatus (ci_base c) status ;;
          s ← (match cs_SyncStatus status with
               | SyncStatusPending | SyncStatusUpdating =>
                   '(_, syncErr) ← ci_Sync c false;
                   mret (mkSyncState true (sy_hasStarted s) syncErr)
               | SyncStatusStarted => mret (mkSyncState (sy_hasPending s) true (sy_err s))
               | _ => mret s
               end);
          match sy_err s with
          | Some _ => mret (inr s)
          | None =>
              waits ← gets (waitsForHeater (ci_base c));
              match waits with
              | Some message =>
                  RecordNormal "Initialization" ("Waiting for image heater completion: " +:+ message) ;;
                  mret (inr s)
              | None => syncLoop rest s
              end
          end
      end
  end.

Definition syncMaintenanceCondition (cms : ComponentManagerStatus) : go W unit :=
  if cms_clusterMaintenance cms then
    shutdown ← gets (λ w, ClusterShutdown_string (cmt_Shutdown (GetClusterMaintenance w)));
    SetStatusCondition (condition ConditionClusterMaintenance ConditionTrue shutdown
      ("Cluster is under maintenance, shutdown " +:+ shutdown))
  else RemoveStatusCondition ConditionClusterMaintenance.

Definition cm_Sync (cm : ComponentManager) (cms : ComponentManagerStatus)
    : go W (Result * option error) :=
  heater ← gets (λ w, GetImageHeater w "");
  match heater with
  | Some _ => mret tt
  | None => RemoveStatusCondition ConditionImageHeaterReady ;;
            RemoveStatusCondition ConditionImageHeaterComplete
  end ;;
  syncMaintenanceCondition cms ;;
  result ← syncLoop (cm_allComponents cm) (mkSyncState false false None);
  match result with
  | inl e => mret (mkResult true 0, Some e)
  | inr s =>
      err ← UpdateStatus_;
      match err with
      | Some e => mret (mkResult true 0, Some e)
      | None =>
          mret (match sy_err s with
                | Some e => (mkResult true 0, Some e)
                | None =>
                    if sy_hasPending s then (mkResult false 1, None)
                    else if sy_hasStarted s then (mkResult false 5, None)
                    else (mkResult false DefaultClusterStatusPollPeriod, None)
                end)
      end
  end.

(** *** Questions the update flow asks *)

Definition allUpdatingImagesAreHeated (cm : ComponentManager) (cms : ComponentManagerStatus) (w : W) : bool :=
  match cm_getHeaterStatus cm with
  | Some getHeaterStatus => forallb (λ c, IsReady (getHeaterStatus w c)) (cms_nowUpdating cms)
  | None => true
  end.

Definition areComponentPodsRemoved (w : W) (c : component) : bool :=
  IsUpdateStatusConditionTrue w (GetPodsRemovedCondition (cmp_labeller c)) ||
  IsUpdateStatusConditionTrue w (GetPodsUpdatedCondition (cmp_labeller c)).

Definition arePodsRemoved (cm : ComponentManager) (w : W) : bool :=
  forallb (λ cmp, let c := ci_base cmp in
    if (GetType c == YtsaurusClientType) || (GetType c == ImageHeaterType) then true
    else negb (components_IsUpdatingComponent w c && negb (areComponentPodsRemoved w c)))
    (cm_allComponents cm).


Definition snapshotCondition (name : string) : go W unit :=
  c ← gets (λ w, GetStatusCondition w name);
  match c with
  | Some condition => SetUpdateStatusCondition condition
  | None => mret tt
  end.

Definition initUpdateConditions : go W unit :=
  snapshotCondition ConditionMasterCellsPreparation ;;
  snapshotCondition ConditionMasterCellsRegistration ;;
  snapshotCondition ConditionMasterCellsCompletion.

End manager.
Arguments mkComponentManager {E} _ _.
Arguments cm_allComponents {E} _.
Arguments cm_getHeaterStatus {E} _.
Arguments ComponentManager E : clear implicits.

(** ** The status of the cluster is the status of its components *)

Definition observed : Type := list (Component * ComponentStatus).

Definition accountAll (l : observed) (s : ComponentManagerStatus) : option ComponentManagerStatus :=
  fold_left (λ acc '(c, st), s ← acc; accountStatus c st s) l (Some s).

Definition is_client (c : Component) : bool := component_Type c == YtsaurusClientType.
Definition is_status (x : SyncStatus) (st : ComponentStatus) : bool := cs_SyncStatus st == x.

(** The classes of the Go comments on [ComponentManagerStatus]. *)
Definition obs_ready (o : Component * ComponentStatus) : bool := IsReady o.2.
Definition obs_running (o : Component * ComponentStatus) : bool := is_client o.1 || IsRunning o.2.
Definition obs_started (o : Component * ComponentStatus) : bool :=
  obs_running o || is_status SyncStatusStarted o.2.
Definition obs_master_ready (o : Component * ComponentStatus) : bool :=
  negb (component_Type o.1 == MasterType) || IsReady o.2.
Definition obs_need_update (o : Component * ComponentStatus) : bool :=
  negb (is_client o.1) && IsNeedUpdate o.2.

Record accounts (l : observed) (s0 s : ComponentManagerStatus) : Prop := {
  acc_ready : cms_allReady s = cms_allReady s0 && forallb obs_ready l;
  acc_running : cms_allRunning s = cms_allRunning s0 && forallb obs_running l;
  acc_started : cms_allStarted s = cms_allStarted s0 && forallb obs_started l;
  acc_master : cms_masterReady s = cms_masterReady s0 && forallb obs_master_ready l;
  acc_need : cms_needUpdate s = cms_needUpdate s0 ++ (fst <$> List.filter obs_need_update l);
  acc_lists : Permutation
    (cms_pending s ++ cms_blocked s ++ cms_started s ++ cms_needUpdate s)
    (cms_pending s0 ++ cms_blocked s0 ++ cms_started s0 ++ cms_needUpdate s0 ++
     (fst <$> List.filter (λ o, negb (obs_ready o)) l));
  acc_maintenance : cms_clusterMaintenance s = cms_clusterMaintenance s0 ∧
    cms_mastersMaintenance s = cms_mastersMaintenance s0 ∧
    cms_shutdownTablets s = cms_shutdownTablets s0;
}.

Lemma accounts_nil s : accounts [] s s.
Proof. split; rewrite ?andb_true_r, ?app_nil_r; done. Qed.

Lemma accountStatus_accounts c st s0 s :
  accountStatus c st s0 = Some s → accounts [(c, st)] s0 s.
Proof.
  unfold accountStatus, IsReady.
  destruct (bool_decide_reflect (component_Type c = YtsaurusClientType)) as [Hc|Hc];
    [pose proof (bool_decide_eq_true_2 _ Hc) as Hd|pose proof (bool_decide_eq_false_2 _ Hc) as Hd];
    destruct (cs_SyncStatus st) eqn:Hst; cbn; intros; simplify_eq/=; split; cbn;
    unfold obs_started, obs_ready, obs_running, obs_master_ready, obs_need_update, is_client,
      is_status, IsReady, IsRunning, IsNeedUpdate; cbn; rewrite ?Hst, ?Hd; cbn;
    rewrite ?andb_true_r, ?andb_false_r, ?app_nil_r, ?orb_true_r, ?orb_false_r; try done;
    try (by destruct (_ == MasterType)); try (by rewrite Hc, ?andb_true_r);
    rewrite <- ?app_assoc; repeat apply Permutation_app_head;
    (etrans; [apply Permutation_cons_append|]); by rewrite <- ?app_assoc.
Qed.

Lemma accounts_app l1 l2 s0 s1 s2 :
  accounts l1 s0 s1 → accounts l2 s1 s2 → accounts (l1 ++ l2) s0 s2.
Proof.
  intros [R1 U1 S1 M1 N1 L1 (C1 & D1 & T1)] [R2 U2 S2 M2 N2 L2 (C2 & D2 & T2)].
  split; rewrite ?forallb_app, ?List.filter_app, ?fmap_app, ?andb_assoc.
  - by rewrite R2, R1.
  - by rewrite U2, U1.
  - by rewrite S2, S1.
  - by rewrite M2, M1.
  - by rewrite N2, N1, app_assoc.
  - rewrite L2, !app_assoc. rewrite !app_assoc in L1. by rewrite L1, ?app_assoc.
  - by rewrite C2, D2, T2.
Qed.

Section fetch.
Context {E : Type} {MC : MetaConditions} {ML : MetaConditionsLaws MC} {SC : StatusClient E}.

Abbreviation W := (World E).

(** The statuses of the components as the world holds them. *)
Definition reported (w : W) (components : list (ComponentI W)) : observed :=
  (λ c, (GetComponent (ci_base c), GetStatus w (ci_base c))) <$> components.

Definition component_ids (components : list (ComponentI W)) : list nat :=
  (λ c, cmp_id (ci_base c)) <$> components.

Lemma componentStatus_core (c : ComponentI W) `{!ComponentFrame c} : preserves w_core (componentStatus c).
Proof. unfold componentStatus. go_frame. Qed.

Lemma componentStatus_statuses (c : ComponentI W) `{!ComponentFrame c} :
  preserves w_statuses (componentStatus c).
Proof. unfold componentStatus. go_frame. Qed.

Lemma fetchLoop_core (components : list (ComponentI W)) s :
  Forall ComponentFrame components → preserves w_core (fetchLoop components s).
Proof.
  intros Hf. revert s. induction Hf as [|c components Hc Hf IH]; intros s; cbn [fetchLoop]; [done|].
  pose proof (componentStatus_core c). go_frame.
Qed.

Lemma FetchStatus_core (cm : ComponentManager E) :
  Forall ComponentFrame (cm_allComponents cm) → preserves w_core (FetchStatus cm).
Proof. intros Hf. unfold FetchStatus. apply preserves_bind; [done|]. intros. by apply fetchLoop_core. Qed.

(** The loop touches only the statuses of the components it visits. *)
Lemma fetchLoop_statuses (components : list (ComponentI W)) s w id :
  Forall ComponentFrame components → id ∉ component_ids components →
  w_statuses (run (fetchLoop components s) w) !! id = w_statuses w !! id.
Proof.
  intros Hf. revert s w. induction Hf as [|c components Hc Hf IH]; intros s w Hid; [done|].
  cbn [fetchLoop component_ids fmap list_fmap] in *. rewrite not_elem_of_cons in Hid.
  destruct Hid as [Hne Hid]. rewrite run_bind. case_match.
  { by rewrite run_ret, (ci_Fetch_statuses (c:=c) w). }
  rewrite run_bind. destruct (val_of (componentStatus c) _) as [st [e|]].
  { by rewrite run_ret, (componentStatus_statuses c _), (ci_Fetch_statuses (c:=c) w). }
  rewrite !run_bind. set (w3 := run (SetReadyCondition _ _) _).
  assert (w_statuses w3 !! id = w_statuses w !! id) as H3.
  { subst w3. change (w_statuses (run (SetReadyCondition _ _) ?x)) with (w_statuses x).
    change (w_statuses (run (SetStatus ?b ?s) ?x)) with (<[cmp_id b := mkComponentStatus (GetFullName b)
      (cs_SyncStatus s) (cs_Message s)]> (w_statuses x)).
    rewrite lookup_insert_ne by done.
    by rewrite (componentStatus_statuses c _), (ci_Fetch_statuses (c:=c) w). }
  destruct (accountStatus _ st s) as [s'|]; [|by rewrite run_ret, H3].
  by rewrite IH, H3.
Qed.

Lemma accountStatus_sync c st st' s :
  cs_SyncStatus st = cs_SyncStatus st' → accountStatus c st s = accountStatus c st' s.
Proof. intros H. unfold accountStatus, IsReady. by rewrite H. Qed.

Lemma SetStatus_sync c st (w : W) :
  cs_SyncStatus (GetStatus (run (SetStatus c st) w) c) = cs_SyncStatus st.
Proof.
  unfold GetStatus, run, SetStatus. cbn. rewrite lookup_insert_eq. cbn.
  by destruct (bool_decide_reflect (cs_SyncStatus st = SyncStatusUndefined)) as [->|].
Qed.

Lemma fetchLoop_spec (components : list (ComponentI W)) s w :
  Forall ComponentFrame components → NoDup (component_ids components) →
  let '(err, s') := val_of (fetchLoop components s) w in
  err = None → accounts (reported (run (fetchLoop components s) w) components) s s'.
Proof.
  intros Hf. revert s w. induction Hf as [|c components Hc Hf IH]; intros s w Hids.
  { intros _. apply accounts_nil. }
  cbn [fetchLoop component_ids fmap list_fmap] in *. apply NoDup_cons in Hids as [Hid Hids].
  rewrite val_bind, run_bind. destruct (val_of (ci_Fetch c) w) as [e|]; [done|].
  rewrite val_bind, run_bind. destruct (val_of (componentStatus c) _) as [st [e|]]; [done|].
  rewrite !val_bind, !run_bind. set (w2 := run (componentStatus c) _).
  destruct (accountStatus _ st s) as [s1|] eqn:Hacc; [|done].
  set (w4 := run (SetReadyCondition _ _) _). specialize (IH s1 w4 Hids).
  destruct (val_of (fetchLoop components s1) w4) as [err s']. intros ->. specialize (IH eq_refl).
  change (reported ?x (c :: components)) with
    ([(GetComponent (ci_base c), GetStatus x (ci_base c))] ++ reported x components).
  eapply accounts_app; [|exact IH]. apply accountStatus_accounts. rewrite <- Hacc.
  apply accountStatus_sync. rewrite <- (SetStatus_sync (ci_base c) st w2).
  unfold GetStatus. by rewrite fetchLoop_statuses.
Qed.

(** The status of the cluster is exactly the status of its components.  When
    [FetchStatus] succeeds, with the statuses the components then report:
    - everything is ready iff every component is Ready; an update may start (allRunning) iff
      every component other than the virtual client is Ready or NeedUpdate; allStarted
      likewise admits Started; masters are ready iff every master is Ready;
    - the components that need an update are those reporting NeedUpdate, in order;
    - every component that is not Ready is in exactly one of the lists pending, blocked,
      started and needUpdate.
    Fetching changes neither the specification nor the cluster or update state. *)
Theorem FetchStatus_spec (cm : ComponentManager E) w :
  Forall ComponentFrame (cm_allComponents cm) → NoDup (component_ids (cm_allComponents cm)) →
  let '((err, s), w') := FetchStatus cm w in
  w_core w' = w_core w ∧
  (err = None →
   let l := reported w' (cm_allComponents cm) in
   cms_allReady s = forallb obs_ready l ∧
   cms_allRunning s = forallb obs_running l ∧
   cms_allStarted s = forallb obs_started l ∧
   cms_masterReady s = forallb obs_master_ready l ∧
   cms_needUpdate s = fst <$> List.filter obs_need_update l ∧
   cms_pending s ++ cms_blocked s ++ cms_started s ++ cms_needUpdate s ≡ₚ
     fst <$> List.filter (λ o, negb (obs_ready o)) l).
Proof.
  intros Hf Hids. rewrite go_eta. destruct (val_of (FetchStatus cm) w) as [err s] eqn:Hv.
  split; [by apply FetchStatus_core|]. intros ->. cbv zeta.
  unfold FetchStatus in Hv |- *. rewrite val_bind, val_gets, run_gets in Hv.
  rewrite run_bind, val_gets, run_gets.
  pose proof (fetchLoop_spec (cm_allComponents cm) (initialStatus (cmt_Shutdown (GetClusterMaintenance w)))
    w Hf Hids) as Hspec. rewrite Hv in Hspec. specialize (Hspec eq_refl).
  destruct Hspec as [R U S M N L _]. by split_and!.
Qed.

(** ** Driving the components *)

Lemma syncLoop_core (components : list (ComponentI W)) s :
  Forall ComponentFrame components → preserves w_core (syncLoop components s).
Proof.
  intros Hf. revert s. induction Hf as [|c components Hc Hf IH]; intros s; cbn [syncLoop]; [done|].
  go_frame.
Qed.

Lemma cm_Sync_core (cm : ComponentManager E) cms :
  Forall ComponentFrame (cm_allComponents cm) → preserves w_core (cm_Sync cm cms).
Proof.
  intros Hf. pose proof (syncLoop_core _ (mkSyncState false false None) Hf).
  unfold cm_Sync, syncMaintenanceCondition. go_frame.
Qed.

(** *** The manager keeps the condition maps *)

Lemma fetchLoop_ok (components : list (ComponentI W)) s :
  Forall ComponentFrame components → keeps conditions_ok (fetchLoop components s).
Proof.
  intros Hf. revert s. induction Hf as [|c components Hc Hf IH]; intros s; cbn [fetchLoop].
  { apply keeps_ret. }
  unfold componentStatus, SetReadyCondition. pose proof (SetStatus_yts (E:=E)). go_keeps.
Qed.

Lemma FetchStatus_ok (cm : ComponentManager E) :
  Forall ComponentFrame (cm_allComponents cm) → keeps conditions_ok (FetchStatus cm).
Proof. intros Hf. unfold FetchStatus. apply keeps_bind; [apply keeps_gets|]. intros. by apply fetchLoop_ok. Qed.

Lemma syncLoop_ok (components : list (ComponentI W)) s :
  Forall ComponentFrame components → keeps conditions_ok (syncLoop components s).
Proof.
  intros Hf. revert s. induction Hf as [|c components Hc Hf IH]; intros s; cbn [syncLoop].
  { apply keeps_ret. }
  pose proof (SetStatus_yts (E:=E)). go_keeps.
Qed.

Lemma cm_Sync_ok (cm : ComponentManager E) cms :
  Forall ComponentFrame (cm_allComponents cm) → keeps conditions_ok (cm_Sync cm cms).
Proof.
  intros Hf. pose proof (syncLoop_ok _ (mkSyncState false false None) Hf).
  unfold cm_Sync, syncMaintenanceCondition. go_keeps.
Qed.

(** The pods of an update are gone exactly when every component being updated, apart
    from the virtual client and the image heater, has reported its pods removed (bulk) or
    replaced (rolling, OnDelete). *)
Theorem arePodsRemoved_spec (cm : ComponentManager E) w :
  arePodsRemoved cm w = true ↔
    ∀ c, c ∈ cm_allComponents cm →
      GetType (ci_base c) ≠ YtsaurusClientType → GetType (ci_base c) ≠ ImageHeaterType →
      GetComponent (ci_base c) ∈ GetUpdatingComponents w →
      areComponentPodsRemoved w (ci_base c) = true.
Proof.
  unfold arePodsRemoved. rewrite forallb_forall.
  assert (∀ c : ComponentI W, components_IsUpdatingComponent w (ci_base c) = true ↔
    GetComponent (ci_base c) ∈ GetUpdatingComponents w) as Hup.
  { intros c. unfold components_IsUpdatingComponent, IsUpdatingComponent. rewrite ContainsFunc_true. split.
    - intros ([t n] & Hin & Heq). apply andb_true_iff in Heq as [H1 H2].
      apply bool_decide_eq_true in H1, H2. cbn in *. subst. exact Hin.
    - intros Hin. eexists. split; [exact Hin|]. cbn. by rewrite !(bool_decide_eq_true_2 (_ = _)). }
  setoid_rewrite <- list_elem_of_In. split.
  - intros H c Hc Ht1 Ht2 Hin. specialize (H c Hc). cbv zeta in H.
    rewrite (bool_decide_eq_false_2 _ Ht1), (bool_decide_eq_false_2 _ Ht2) in H. cbn in H.
    apply Hup in Hin. rewrite Hin in H. cbn in H. by apply negb_true_iff, negb_false_iff in H.
  - intros H c Hc. cbv zeta. specialize (H c Hc).
    destruct (bool_decide_reflect (GetType (ci_base c) = YtsaurusClientType)); [done|].
    destruct (bool_decide_reflect (GetType (ci_base c) = ImageHeaterType)); [done|]. cbn.
    destruct (components_IsUpdatingComponent w (ci_base c)) eqn:Hu; [|done].
    rewrite H; [done..|]. by apply Hup.
Qed.

(** *** The snapshot of master cell conditions *)

Lemma snapshotCondition_true name (w : W) t :
  status_unique w → update_unique w →
  IsUpdateStatusConditionTrue (run (snapshotCondition name) w) t =
    match GetStatusCondition w name with
    | Some c => if t == name then cond_Status c == ConditionTrue else IsUpdateStatusConditionTrue w t
    | None => IsUpdateStatusConditionTrue w t
    end.
Proof.
  intros Hs Hu. unfold snapshotCondition. go_step.
  destruct (GetStatusCondition w name) as [c|] eqn:Hc; [|done].
  apply find_Some in Hc as [_ <-]. by rewrite IsUpdateStatusConditionTrue_set.
Qed.

Lemma snapshotCondition_keeps name :
  keeps (λ w : W, status_unique w ∧ update_unique w) (snapshotCondition name).
Proof.
  intros w [Hs Hu]. unfold snapshotCondition. go_step.
  destruct (GetStatusCondition w name); [|done].
  split; [done|by apply SetUpdateStatusCondition_keeps_update].
Qed.

Lemma snapshotCondition_status name (w : W) t :
  GetStatusCondition (run (snapshotCondition name) w) t = GetStatusCondition w t.
Proof. unfold snapshotCondition. go_step. by destruct (GetStatusCondition w name). Qed.

(** The conditions that steer the extension of master cells are frozen when an update
    starts: after [initUpdateConditions] on a cleared update status, an update condition is
    true exactly for those of MasterCellsPreparation, MasterCellsRegistration and
    MasterCellsCompletion that are true in the cluster status, so changing the status
    during the update does not change its flow. *)
Theorem initUpdateConditions_spec (w : W) t :
  status_unique w → w_update_conditions w = [] →
  IsUpdateStatusConditionTrue (run initUpdateConditions w) t =
    bool_decide (t ∈ [ConditionMasterCellsPreparation; ConditionMasterCellsRegistration;
                      ConditionMasterCellsCompletion]) && IsStatusConditionTrue w t.
Proof.
  intros Hs Hempty. assert (update_unique w) as Hu by (unfold update_unique; rewrite Hempty; constructor).
  assert (IsUpdateStatusConditionTrue w t = false) as Hnone.
  { rewrite IsUpdateStatusConditionTrue_find. unfold GetUpdateStatusCondition.
    change (us_Conditions (w_update_status w)) with (w_update_conditions w). rewrite Hempty.
    destruct (FindStatusCondition [] t) as [c|] eqn:Hc; [|done].
    apply find_Some in Hc as [Hc _]. by apply elem_of_nil in Hc. }
  unfold initUpdateConditions. rewrite !run_bind.
  destruct (snapshotCondition_keeps ConditionMasterCellsPreparation w (conj Hs Hu)) as [Hs1 Hu1].
  destruct (snapshotCondition_keeps ConditionMasterCellsRegistration _ (conj Hs1 Hu1)) as [Hs2 Hu2].
  rewrite !snapshotCondition_true, !snapshotCondition_status, Hnone by done.
  rewrite IsStatusConditionTrue_find.
  destruct (bool_decide_reflect (t = ConditionMasterCellsPreparation)) as [->|H1];
    [|destruct (bool_decide_reflect (t = ConditionMasterCellsRegistration)) as [->|H2];
      [|destruct (bool_decide_reflect (t = ConditionMasterCellsCompletion)) as [->|H3]]].
  1-3: rewrite (bool_decide_eq_true_2 (_ ∈ _)) by set_solver; cbn [andb]; by repeat case_match.
  rewrite (bool_decide_eq_false_2 (_ ∈ _)) by set_solver. by repeat case_match.
Qed.

End fetch.

(** ** A concrete manager *)

Definition const_component (id : nat) (t : ComponentType) (group : string)
    (need sync : ComponentStatus) : ComponentI (World unit) := {|
  ci_base := example_component id t group;
  ci_Fetch := mret None;
  ci_NeedUpdate := mret need;
  ci_Sync := λ _, mret (sync, None);
  ci_UpdatePreCheck := mret ComponentStatusReady;
|}.

#[global] Instance const_component_frame id t g n s : ComponentFrame (const_component id t g n s).
Proof. split; try done; intros; apply keeps_ret. Qed.

Definition example_cm : ComponentManager unit := mkComponentManager
  [const_component 0 MasterType "" ComponentStatusReady ComponentStatusReady;
   const_component 1 YtsaurusClientType "" ComponentStatusReady (ComponentStatusPending "init");
   const_component 2 DataNodeType "ssd" (ComponentStatusNeedUpdate "image update") ComponentStatusReady]
  None.

Lemma example_cm_frame : Forall ComponentFrame (cm_allComponents example_cm).
Proof. repeat (apply Forall_cons_2; [apply const_component_frame|]). apply Forall_nil_2. Qed.

Lemma FetchStatus_spec_witness :
  cms_needUpdate (val_of (FetchStatus example_cm) example_world).2 = [mkComponent DataNodeType "ssd"] ∧
  cms_allRunning (val_of (FetchStatus example_cm) example_world).2 =
    forallb obs_running (reported (run (FetchStatus example_cm) example_world)
      (cm_allComponents example_cm)).
Proof.
  split; [reflexivity|].
  pose proof (FetchStatus_spec example_cm example_world example_cm_frame) as H.
  rewrite go_eta in H.
  exact (proj1 (proj2 (proj2 (H ltac:(apply (bool_decide_unpack _); vm_compute; exact I)) eq_refl))).
Defined.

Definition cells_world : World unit :=
  run (SetStatusCondition (condition ConditionMasterCellsRegistration ConditionTrue "Update" "")) example_world.

Lemma initUpdateConditions_spec_witness :
  IsUpdateStatusConditionTrue (run initUpdateConditions cells_world) ConditionMasterCellsRegistration = true.
Proof.
  rewrite (initUpdateConditions_spec cells_world ConditionMasterCellsRegistration);
    [reflexivity| |reflexivity].
  apply (bool_decide_unpack _). vm_compute. exact I.
Defined.
