(* ===== verification/ImageHeater.v ===== *)
(** * Image heater (src/pkg/components/image_heater.go, src/pkg/resources/daemonset.go, hash.go)

    Before an update the operator pulls the new images on the nodes by means of daemon sets.
    Components with the same images and node constraints share one daemon set, which lists the
    components it serves in an annotation; daemon sets nobody needs are deleted.  The heaters
    built by a pass live in the memory of the component, where the table from targets to
    heaters refers to them, so that writing a daemon set changes what the table shows. *)

From S2P Require Import Prelude Kubernetes ApiTypes Labeller Status Ordered Ypatch ApiProxy Resources Components ComponentManager.

Definition ImageHeaterLabelName := "ytsaurus.tech/image-heater".
Definition ImageHeaterTargetsAnnotationName := "ytsaurus.tech/image-heater-targets".
Definition DefaultImageHeaterConcurrency : Z := 100.

Definition GetImageHeaterName (l : Labeller) : string := GetComponentShortName l.

(** ** Daemon sets *)

Record SecurityContext := mkSecurityContext {
  sctx_Privileged : bool;
  sctx_AllowPrivilegeEscalation : bool;
  sctx_RunAsNonRoot : bool;
  sctx_RunAsUser : Z;
  sctx_RunAsGroup : Z;
  sctx_ReadOnlyRootFilesystem : bool;
}.

Record HeaterContainer := mkHeaterContainer {
  hct_Name : string;
  hct_Image : string;
  hct_ImagePullPolicy : string;
  hct_Command : list string;
  hct_Requests : gmap string string;
  hct_Limits : gmap string string;
  hct_SecurityContext : SecurityContext;
}.

(** The fields of [corev1.PodSpec] that a heater sets; tolerations and node affinities are
    opaque values. *)
Record HeaterPodSpec := mkHeaterPodSpec {
  hps_EnableServiceLinks : bool;
  hps_AutomountServiceAccountToken : bool;
  hps_TerminationGracePeriodSeconds : Z;
  hps_ImagePullSecrets : list string;
  hps_Tolerations : list string;
  hps_NodeSelector : gmap string string;
  hps_NodeAffinity : option string;
  hps_Containers : list HeaterContainer;
}.

Definition HeaterPodSpecZero : HeaterPodSpec := mkHeaterPodSpec false false 0 [] [] ∅ None [].

Record DaemonSetStatus := mkDaemonSetStatus {
  dst_ObservedGeneration : Z;
  dst_DesiredNumberScheduled : Z;
  dst_CurrentNumberScheduled : Z;
  dst_UpdatedNumberScheduled : Z;
  dst_NumberReady : Z;
  dst_NumberAvailable : Z;
}.

Definition DaemonSetStatusZero : DaemonSetStatus := mkDaemonSetStatus 0 0 0 0 0 0.

Record DaemonSet := mkDaemonSet {
  ds_meta : ObjectMeta;
  ds_Labels : gmap string string;
  ds_Generation : Z;
  ds_DeletionTimestamp : option Z;
  ds_Selector : gmap string string;
  ds_MaxUnavailable : Z;  (* of the rolling update strategy *)
  ds_PodLabels : gmap string string;
  ds_PodAnnotations : gmap string string;
  ds_PodSpec : HeaterPodSpec;
  ds_Status : DaemonSetStatus;
}.

Definition DaemonSetZero : DaemonSet :=
  mkDaemonSet ObjectMetaZero ∅ 0 None ∅ 0 ∅ ∅ HeaterPodSpecZero DaemonSetStatusZero.

#[global] Instance DaemonSet_object : KubeObject DaemonSet := {
  obj_meta := ds_meta;
  obj_set_meta m d := mkDaemonSet m (ds_Labels d) (ds_Generation d) (ds_DeletionTimestamp d) (ds_Selector d)
    (ds_MaxUnavailable d) (ds_PodLabels d) (ds_PodAnnotations d) (ds_PodSpec d) (ds_Status d);
  obj_type := "*v1.DaemonSet";
}.

(** What the API server stores as it is written, apart from annotations: labels and the selector.  It
    fills in fields of the pod template and of the update strategy. *)
Definition ds_content (d : DaemonSet) := (ds_Labels d, ds_Selector d, ds_PodLabels d).

Definition NewDaemonSet (name : string) : ManagedResource DaemonSet :=
  mkManagedResource name DaemonSetZero DaemonSetZero.

(** [DaemonSet.Build]; the labels of an image heater are defined, so their panic cannot happen. *)
Definition DaemonSet_Build (l : Labeller) (name : string) (maxUnavailable : Z) : DaemonSet :=
  let labels := default ∅ (GetMetaLabelMap l false) in
  mkDaemonSet (mkObjectMeta name "" (lab_Annotations l) []) labels 0 None (default ∅ (GetSelectorLabelMap l))
    maxUnavailable labels (lab_Annotations l) HeaterPodSpecZero DaemonSetStatusZero.

Definition ds_message (d : DaemonSet) (rest : string) : string := "daemon set " +:+ GetName d +:+ " " +:+ rest.

Definition pods_of (what : string) (n desired : Z) : string := what +:+ " pods: " +:+ fmt_d n +:+ " of " +:+ fmt_d desired.

Definition GetDaemonSetStatus (d : DaemonSet) : bool * string :=
  let st := ds_Status d in
  let desired := dst_DesiredNumberScheduled st in
  if GetResourceVersion d == "" then (false, ds_message d "does not exist")
  else if bool_decide (is_Some (ds_DeletionTimestamp d)) then (false, ds_message d "is deleted")
  else if dst_ObservedGeneration st != ds_Generation d then (false, ds_message d "is not observed")
  else if desired == 0%Z then (true, ds_message d "has no desired nodes")
  else if (dst_CurrentNumberScheduled st <? desired)%Z then
    (false, ds_message d (pods_of "scheduled" (dst_CurrentNumberScheduled st) desired))
  else if (dst_UpdatedNumberScheduled st <? desired)%Z then
    (false, ds_message d (pods_of "updated" (dst_UpdatedNumberScheduled st) desired))
  else if (dst_NumberReady st <? desired)%Z then
    (false, ds_message d (pods_of "ready" (dst_NumberReady st) desired))
  else if (dst_NumberAvailable st <? desired)%Z then
    (false, ds_message d (pods_of "available" (dst_NumberAvailable st) desired))
  else (true, ds_message d ("is ready at " +:+ fmt_d desired +:+ " nodes")).

(** ** [strings.FieldsSeq]: the maximal runs of characters that are not white space *)

Definition is_space (a : Ascii.ascii) : bool :=
  let n := Ascii.nat_of_ascii a in (n =? 32)%nat || ((9 <=? n)%nat && (n <=? 13)%nat).

(** [word] is the run being read. *)
Fixpoint fields_loop (s : string) (word : string) : list string :=
  match s with
  | "" => if word == "" then [] else [word]
  | String a s =>
      if is_space a then (if word == "" then fields_loop s "" else word :: fields_loop s "")
      else fields_loop s (word +:+ String a "")
  end.

Definition Fields (s : string) : list string := fields_loop s "".

(** ** [resources.Hash] (hash.go)

    An item is nil, or the outcome of its JSON encoding. *)

Definition trailing_nil_cut {A} (items : list (option A)) : list (option A) :=
  foldr (λ i rest, match i, rest with None, [] => [] | _, _ => i :: rest end) [] items.

(** JSON writes nil as [null]. *)
Fixpoint hash_data (items : list (option (error + string))) : error + string :=
  match items with
  | [] => inr ""
  | i :: rest =>
      match default (inr "null") i with
      | inl err => inl err
      | inr data => match hash_data rest with inl err => inl err | inr more => inr (data +:+ more) end
      end
  end.

Definition Hash (sha256_hex : string → string) (items : list (option (error + string))) : error + string :=
  match trailing_nil_cut items with
  | [] => inr ""
  | items => match hash_data items with inl err => inl err | inr data => inr (sha256_hex data) end
  end.

(** The encodings of the parts of a daemon set that its hash covers, and the hash function. *)
Class HeaterCodec := {
  json_Tolerations : list string → error + string;
  json_NodeSelector : gmap string string → error + string;
  json_Affinity : option string → error + string;
  json_ImagePullSecrets : list string → error + string;
  json_Containers : list HeaterContainer → error + string;
  json_UpdateStrategy : Z → error + string;
  sha256_hex : string → string;
}.

(** ** The component *)

Record ImageHeaterTarget := mkImageHeaterTarget {
  iht_Images : gmap string string;
  iht_ImagePullSecrets : list string;
  iht_NodeSelector : gmap string string;
  iht_Tolerations : list string;
  iht_NodeAffinity : option string;
}.

(** What the heater reads of a component: its labeller and its target, nil for a component
    without images. *)
Record heatable := mkHeatable { ht_labeller : Labeller; ht_target : option ImageHeaterTarget }.

(** A pointer to a daemon set: an item of the list that was fetched, or the new object of a
    heater that was built. *)
Inductive heaterRef : Type := Listed (i : nat) | Built (i : nat).

(** The fields of [ImageHeater], and the heaters that were built. *)
Record heaterMem := mkHeaterMem {
  hm_list : list DaemonSet;
  hm_names : gmap string heaterRef;
  hm_built : list (ManagedResource DaemonSet);
}.

Definition hm_set_list (l : list DaemonSet) (m : heaterMem) := mkHeaterMem l (hm_names m) (hm_built m).
Definition hm_set_names (n : gmap string heaterRef) (m : heaterMem) := mkHeaterMem (hm_list m) n (hm_built m).
Definition hm_set_built (b : list (ManagedResource DaemonSet)) (m : heaterMem) :=
  mkHeaterMem (hm_list m) (hm_names m) b.

Definition deref_heater (m : heaterMem) (r : heaterRef) : DaemonSet :=
  match r with
  | Listed i => default DaemonSetZero (hm_list m !! i)
  | Built i => default DaemonSetZero (res_newObject <$> hm_built m !! i)
  end.

(** The table built by [Fetch]: later items overwrite earlier ones. *)
Definition listed_names (i : nat) (d : DaemonSet) (names : gmap string heaterRef) : gmap string heaterRef :=
  foldl (λ names name, <[name := Listed i]> names) names
    (Fields (default "" (obj_GetAnnotations d !! ImageHeaterTargetsAnnotationName))).

Fixpoint index_names (i : nat) (l : list DaemonSet) (names : gmap string heaterRef) : gmap string heaterRef :=
  match l with
  | [] => names
  | d :: l => index_names (S i) l (listed_names i d names)
  end.

Definition heater_container (name image : string) : HeaterContainer :=
  mkHeaterContainer name image "Always" ["sleep"; "inf"] {[ "cpu" := "0"; "memory" := "0" ]}
    {[ "cpu" := "100m"; "memory" := "32Mi" ]} (mkSecurityContext false false true 1000 1000 true).

(** A heater that a pass considers: its hash, the target it was built for, its place in memory
    and what [Name], [Exists] and [OldObject] return, which do not change during the pass. *)
Record candidate := mkCandidate {
  cd_hash : string;
  cd_name : string;
  cd_index : nat;
  cd_Name : string;
  cd_Exists : bool;
  cd_OldObject : DaemonSet;
}.

#[global] Instance ObjectMeta_eq_dec : EqDecision ObjectMeta.
Proof. solve_decision. Defined.
#[global] Instance HeaterPodSpec_eq_dec : EqDecision HeaterPodSpec.
Proof.
  assert (EqDecision SecurityContext) by solve_decision. assert (EqDecision HeaterContainer) by solve_decision.
  solve_decision.
Defined.
#[global] Instance DaemonSetStatus_eq_dec : EqDecision DaemonSetStatus.
Proof. solve_decision. Defined.
#[global] Instance DaemonSet_eq_dec : EqDecision DaemonSet.
Proof. solve_decision. Defined.
#[global] Instance candidate_eq_dec : EqDecision candidate.
Proof. solve_decision. Defined.

(** [hashToHeater], [hashToNames] and [toDelete]. *)
Record heaterPlan := mkHeaterPlan {
  hp_heater : gmap string candidate;
  hp_names : gmap string (list string);
  hp_delete : gmap string DaemonSet;
}.

Definition heaterPlanZero : heaterPlan := mkHeaterPlan ∅ ∅ ∅.

Definition delete_if_exists (c : candidate) (toDelete : gmap string DaemonSet) : gmap string DaemonSet :=
  if cd_Exists c then <[cd_Name c := cd_OldObject c]> toDelete else toDelete.

(** Whether a heater takes the place of another one with the same hash. *)
Definition takes_over (heater other : candidate) : bool :=
  (string_compare (cd_Name heater) (cd_Name other) <? 0)%Z && (cd_Exists heater || negb (cd_Exists other)).

(** One heater in the loop that removes duplicates. *)
Definition deduplicate (p : heaterPlan) (heater : candidate) : heaterPlan :=
  let hash := cd_hash heater in
  let names := default [] (hp_names p !! hash) ++ [cd_name heater] in
  match hp_heater p !! hash with
  | None => mkHeaterPlan (<[hash := heater]> (hp_heater p)) (<[hash := [cd_name heater]]> (hp_names p)) (hp_delete p)
  | Some other =>
      if takes_over heater other
      then mkHeaterPlan (<[hash := heater]> (hp_heater p)) (<[hash := names]> (hp_names p))
             (delete_if_exists other (hp_delete p))
      else mkHeaterPlan (hp_heater p) (<[hash := names]> (hp_names p)) (delete_if_exists heater (hp_delete p))
  end.

Section image_heater.
Context {E : Type} {MC : MetaConditions} {SC : StatusClient E} {HC : HeaterCodec} `{HKD : !KubeClient E DaemonSet}.
(** [client.List] of the daemon sets of a namespace with a label value and a label present, and
    the order in which [range] goes through a map. *)
Context (ListDaemonSets : string → string * string → string → go E (error + list DaemonSet)).
Context (range_map : gmap string candidate → list (string * candidate)).
(** The component: its labeller, its memory and [getAllComponents]. *)
Context (l : Labeller) (mem : lens E heaterMem) (getAllComponents : list heatable).

Abbreviation W := (World E).

Definition hmem (w : W) : heaterMem := lget mem (w_env w).
Definition in_hmem (f : heaterMem → heaterMem) : go W unit :=
  modify (λ w, w_set_env (lset mem (f (hmem w)) (w_env w)) w).

(** The heater with index [i]. *)
Definition built_cell (i : nat) : lens E (ManagedResource DaemonSet) :=
  mkLens (λ e, default (NewDaemonSet "") (hm_built (lget mem e) !! i))
    (λ r e, lset mem (hm_set_built (<[i := r]> (hm_built (lget mem e))) (lget mem e)) e).

Definition ih_Fetch : go W (option error) :=
  result ← in_env (ListDaemonSets (lab_Namespace l) (YTClusterLabelName, lab_ClusterName l) ImageHeaterLabelName);
  match result with
  | inl err => mret (Some err)
  | inr items => in_hmem (λ m, hm_set_names (index_names 0 items ∅) (hm_set_list items m)) ;; mret None
  end.

Definition ih_Exists (w : W) : bool := IsStatusConditionTrue w ConditionImageHeaterReady.

Definition ih_NeedSync (w : W) : bool :=
  negb (IsStatusConditionTrueAndObservedGeneration w ConditionImageHeaterComplete).

Definition ih_NeedUpdate : ComponentStatus := ComponentStatusReady.

Definition GetHeaterStatus (w : W) (c : Component) : ComponentStatus :=
  let name := GetImageHeaterName (ForComponent l (component_Type c) (component_Name c)) in
  match hm_names (hmem w) !! name with
  | None => ComponentStatusReadyAfter ("No active image heater for " +:+ name)
  | Some heater =>
      let '(ready, message) := GetDaemonSetStatus (deref_heater (hmem w) heater) in
      if ready : bool then ComponentStatusReadyAfter ("Image heater ready: " +:+ message)
      else ComponentStatusPending ("Waiting image heater: " +:+ message)
  end.

(** *** Building *)

Definition heater_labeller (name : string) : Labeller := ForComponent l ImageHeaterType name.

Definition heater_pod_spec (target : ImageHeaterTarget) : HeaterPodSpec :=
  mkHeaterPodSpec false false 0 (iht_ImagePullSecrets target) (iht_Tolerations target) (iht_NodeSelector target)
    (iht_NodeAffinity target)
    ((λ name, heater_container name (default "" (iht_Images target !! name))) <$> sorted_keys (iht_Images target)).

Definition buildImageHeater (name : string) (selector : ComponentUpdateSelector) (target : ImageHeaterTarget)
    : error + (ManagedResource DaemonSet * string) :=
  let lab := heater_labeller name in
  let d := DaemonSet_Build lab (GetComponentShortName lab) (Deref (sel_Concurrency selector) DefaultImageHeaterConcurrency) in
  let spec := heater_pod_spec target in
  let d := mkDaemonSet (ds_meta d) (<[ImageHeaterLabelName := name]> (ds_Labels d)) (ds_Generation d)
    (ds_DeletionTimestamp d) (ds_Selector d) (ds_MaxUnavailable d) (<[ImageHeaterLabelName := name]> (ds_PodLabels d))
    (ds_PodAnnotations d) spec (ds_Status d) in
  match Hash sha256_hex
      [ Some (json_Tolerations (hps_Tolerations spec)); Some (json_NodeSelector (hps_NodeSelector spec));
        Some (json_Affinity (hps_NodeAffinity spec)); Some (json_ImagePullSecrets (hps_ImagePullSecrets spec));
        Some (json_Containers (hps_Containers spec)); Some (json_UpdateStrategy (ds_MaxUnavailable d)) ] with
  | inl err => inl err
  | inr hash => inr (res_set_new (SetMetaDataAnnotation InstanceHashAnnotationName hash d)
                       (NewDaemonSet (GetComponentShortName lab)), hash)
  end.

(** *** Sync *)

(** The message of an early return and its error. *)
Definition failure : Type := string * error.

Fixpoint collect (components : list heatable) (p : heaterPlan) : go W (failure + heaterPlan) :=
  match components with
  | [] => mret (inr p)
  | c :: rest =>
      let name := GetImageHeaterName (ht_labeller c) in
      selector ← gets (λ w, GetImageHeater w name);
      match selector, ht_target c with
      | Some selector, Some target =>
          match buildImageHeater name selector target with
          | inl err => mret (inl ("Cannot build image heater", err))
          | inr (heater, hash) =>
              i ← gets (λ w, length (hm_built (hmem w)));
              in_hmem (λ m, hm_set_built (hm_built m ++ [heater]) m) ;;
              err ← resource_Fetch (built_cell i);
              match err with
              | Some err => mret (inl ("Cannot fetch image heater", err))
              | None =>
                  cd ← gets (λ w, mkCandidate hash name i (res_name (resource (built_cell i) w))
                                    (resource_Exists (built_cell i) w) (OldObject (built_cell i) w));
                  collect rest (deduplicate p cd)
              end
          end
      | _, _ => collect rest p
      end
  end.

Definition heater_targets (p : heaterPlan) (hash : string) : list string :=
  SortStableFunc string_compare (default [] (hp_names p !! hash)).

Definition annotate (p : heaterPlan) (entry : string * candidate) : go W unit :=
  let names := heater_targets p entry.1 in
  in_resource (built_cell (cd_index entry.2)) (λ r, res_set_new
    (SetMetaDataAnnotation ImageHeaterTargetsAnnotationName (strings_Join names " ") (res_newObject r)) r) ;;
  in_hmem (λ m, hm_set_names (foldl (λ t name, <[name := Built (cd_index entry.2)]> t) (hm_names m) names) m).

Definition plan_apply (p : heaterPlan) : gmap string candidate :=
  foldl (λ toApply entry, <[cd_Name entry.2 := entry.2]> toApply) ∅ (range_map (hp_heater p)).

Definition plan_delete (p : heaterPlan) (listed : list DaemonSet) : gmap string DaemonSet :=
  foldl (λ toDelete d, if bool_decide (is_Some (plan_apply p !! GetName d)) then toDelete
                       else <[GetName d := d]> toDelete) (hp_delete p) listed.

Fixpoint delete_heaters (toDelete : gmap string DaemonSet) (names : list string) : go W (option failure) :=
  match names with
  | [] => mret None
  | name :: rest =>
      let d := default DaemonSetZero (toDelete !! name) in
      err ← DeleteObject d;
      match err with
      | Some err => mret (Some ("Cannot delete " +:+ GetName d, err))
      | None => delete_heaters toDelete rest
      end
  end.

(** [progress], [syncStatus], [complete] and [report]. *)
Record heaterReport := mkHeaterReport {
  hr_progress : Z;
  hr_syncStatus : SyncStatus;
  hr_complete : bool;
  hr_report : string;
}.

Definition heater_changed (w : W) (i : nat) : bool :=
  negb (resource_Exists (built_cell i) w) || IsAnnotationChanged (built_cell i) w InstanceHashAnnotationName ||
  IsAnnotationChanged (built_cell i) w ImageHeaterTargetsAnnotationName.

Fixpoint apply_heaters (dry : bool) (toApply : list candidate) (r : heaterReport) : go W (failure + heaterReport) :=
  match toApply with
  | [] => mret (inr r)
  | heater :: rest =>
      let cell := built_cell (cd_index heater) in
      '(ready, message) ← gets (λ w, GetDaemonSetStatus (OldObject cell w));
      changed ← gets (λ w, heater_changed w (cd_index heater));
      err ← (if changed && negb dry then resource_Sync cell else mret None);
      match err with
      | Some err => mret (inl ("Cannot create " +:+ cd_Name heater, err))
      | None =>
          let ready := if changed : bool then false else ready : bool in
          let message := if changed : bool then "daemon set " +:+ cd_Name heater +:+ " need sync" else message in
          apply_heaters dry rest
            (mkHeaterReport (if ready then hr_progress r + 1 else hr_progress r)%Z
               (if changed then SyncStatusPending else hr_syncStatus r) (hr_complete r && ready)
               (hr_report r +:+ "; " +:+ message))
      end
  end.

Definition sorted_values {A} (m : gmap string A) : list A := omap (λ k, m !! k) (sorted_keys m).

Definition report_heaters (total : nat) (r : heaterReport) : go W (ComponentStatus * option error) :=
  let status := ComponentStatusSprintf (hr_syncStatus r)
    ("Ready " +:+ fmt_d (hr_progress r) +:+ " of " +:+ fmt_d (Z.of_nat total) +:+ hr_report r) in
  RecordNormal "ImageHeater" (cs_Message status) ;;
  SetStatusCondition (condition ConditionImageHeaterComplete
    (if hr_complete r then ConditionTrue else ConditionFalse) "Sync" (cs_Message status)) ;;
  mret (status, None).

Definition execute_plan (dry : bool) (toApply : gmap string candidate) (toDelete : gmap string DaemonSet)
    : go W (ComponentStatus * option error) :=
  failed ← (if dry then mret None else delete_heaters toDelete (sorted_keys toDelete));
  match failed with
  | Some (message, err) => mret (ComponentStatusPending message, Some err)
  | None =>
      let idle := bool_decide (toDelete = ∅) in
      result ← apply_heaters dry (sorted_values toApply)
        (mkHeaterReport 0 (if idle then SyncStatusReady else SyncStatusPending) idle "");
      match result with
      | inl (message, err) => mret (ComponentStatusPending message, Some err)
      | inr r => report_heaters (size toApply) r
      end
  end.

Definition ih_Sync (dry : bool) : go W (ComponentStatus * option error) :=
  need ← gets ih_NeedSync;
  if negb need then mret (ComponentStatusReadyAfter "Image heating is complete", None) else
  collected ← collect getAllComponents heaterPlanZero;
  match collected with
  | inl (message, err) => mret (ComponentStatusPending message, Some err)
  | inr p =>
      mapM_unit (annotate p) (range_map (hp_heater p)) ;;
      listed ← gets (λ w, hm_list (hmem w));
      execute_plan dry (plan_apply p) (plan_delete p listed)
  end.

(** The heater as a component; it is virtual, with the pre-check of the base. *)
Definition ih_component (base : component) : ComponentI W :=
  mkComponentI _ base ih_Fetch (mret ih_NeedUpdate) ih_Sync (mret ComponentStatusReady).

End image_heater.

(** ** When a daemon set is ready *)

(** A daemon set is ready exactly when it exists, is not being deleted, its controller has seen
    the current generation, and pods for all desired nodes are scheduled, updated, ready and
    available. *)
Theorem GetDaemonSetStatus_ready d :
  (GetDaemonSetStatus d).1 = true ↔
  GetResourceVersion d ≠ "" ∧ ds_DeletionTimestamp d = None ∧
  dst_ObservedGeneration (ds_Status d) = ds_Generation d ∧
  (dst_DesiredNumberScheduled (ds_Status d) = 0%Z ∨
   Forall (λ n, dst_DesiredNumberScheduled (ds_Status d) ≤ n)%Z
     [ dst_CurrentNumberScheduled (ds_Status d); dst_UpdatedNumberScheduled (ds_Status d);
       dst_NumberReady (ds_Status d); dst_NumberAvailable (ds_Status d) ]).
Proof.
  assert (∀ o : option Z, o = None ↔ ¬ is_Some o) as Ho by (intros o; by rewrite eq_None_not_Some).
  rewrite Ho, !Forall_cons, Forall_nil. unfold GetDaemonSetStatus.
  repeat first [case_bool_decide | case_match]; cbn; split; intros; rewrite ?Z.ltb_lt, ?Z.ltb_ge in *;
    try naive_solver lia.
Qed.

(** ** The list of targets survives the annotation *)

Definition no_space (s : string) : Prop := Forall (λ a, is_space a = false) (String.list_ascii_of_string s).

(** A name as [FieldsSeq] can return it. *)
Definition clean_name (s : string) : Prop := s ≠ "" ∧ no_space s.

Lemma fields_loop_word s word rest :
  no_space s → fields_loop (s +:+ rest) word = fields_loop rest (word +:+ s).
Proof.
  revert word. induction s as [|a s IH]; intros word Hs.
  - by rewrite string_app_nil_r.
  - apply Forall_cons in Hs as [Ha Hs]. rewrite string_app_cons. cbn [fields_loop]. rewrite Ha.
    rewrite IH by done. by rewrite string_app_assoc.
Qed.

Lemma Fields_Join names : Forall clean_name names → Fields (strings_Join names " ") = names.
Proof.
  unfold Fields. induction 1 as [|s names [Hne Hs] _ IH]; [done|].
  destruct names as [|t names].
  - cbn [strings_Join]. rewrite <- (string_app_nil_r s), fields_loop_word by done. cbn.
    by rewrite string_app_nil_r, (bool_decide_eq_false_2 _ Hne).
  - change (strings_Join (s :: t :: names) " ") with (s +:+ " " +:+ strings_Join (t :: names) " ").
    rewrite fields_loop_word by done. rewrite string_app_cons. cbn [fields_loop is_space].
    change (is_space _) with true. cbv iota. cbn [String.append].
    change ("" +:+ s) with s. rewrite (bool_decide_eq_false_2 _ Hne). f_equal. exact IH.
Qed.

(** *** The table of [Fetch] *)

Definition targets_of (d : DaemonSet) : list string :=
  Fields (default "" (obj_GetAnnotations d !! ImageHeaterTargetsAnnotationName)).

Lemma foldl_insert_const {A} (ks : list string) (v : A) (m : gmap string A) k :
  foldl (λ m k, <[k := v]> m) m ks !! k = if bool_decide (k ∈ ks) then Some v else m !! k.
Proof.
  revert m. induction ks as [|k' ks IH]; intros m; cbn.
  - by rewrite bool_decide_eq_false_2 by apply not_elem_of_nil.
  - rewrite IH. destruct (decide (k ∈ ks)) as [Hk|Hk].
    + rewrite !bool_decide_eq_true_2; [done|by right|done].
    + rewrite (bool_decide_eq_false_2 (k ∈ ks)) by done. destruct (decide (k = k')) as [->|Hne].
      * rewrite lookup_insert_eq, bool_decide_eq_true_2; [done|by left].
      * rewrite lookup_insert_ne by done. rewrite bool_decide_eq_false_2; [done|].
        by intros [->|?]%elem_of_cons.
Qed.

Lemma index_names_None i l names k :
  index_names i l names !! k = None ↔ names !! k = None ∧ ∀ d, d ∈ l → k ∉ targets_of d.
Proof.
  revert i names. induction l as [|d l IH]; intros i names; cbn.
  - split; [intros ->; split; [done|]; intros d Hd; by apply elem_of_nil in Hd|by intros [-> _]].
  - rewrite IH. unfold listed_names. rewrite foldl_insert_const. fold (targets_of d).
    setoid_rewrite elem_of_cons. case_bool_decide; naive_solver.
Qed.

Lemma index_names_Some i l names k r :
  index_names i l names !! k = Some r →
  names !! k = Some r ∨ ∃ j d, r = Listed (i + j) ∧ l !! j = Some d ∧ k ∈ targets_of d.
Proof.
  revert i names. induction l as [|d l IH]; intros i names; cbn; [by left|].
  intros Hk. apply IH in Hk as [Hk|(j & d' & -> & Hl & Hk)].
  - unfold listed_names in Hk. rewrite foldl_insert_const in Hk. fold (targets_of d) in Hk.
    case_bool_decide; simplify_eq; [|by left]. right. exists 0, d. by rewrite Nat.add_0_r.
  - right. exists (S j), d'. by rewrite Nat.add_succ_r.
Qed.

(** ** One heater per hash *)

Section plan.

Implicit Types (c : candidate) (p : heaterPlan).

(** What a pass has decided for the heaters [cands]. *)
Record plan_for (cands : list candidate) (p : heaterPlan) : Prop := {
  plan_from : ∀ h c, hp_heater p !! h = Some c → c ∈ cands ∧ cd_hash c = h;
  plan_covers : ∀ c, c ∈ cands → is_Some (hp_heater p !! cd_hash c);
  plan_names : ∀ h, default [] (hp_names p !! h) = cd_name <$> filter (λ c, cd_hash c = h) cands;
  plan_deletes : ∀ n o, hp_delete p !! n = Some o ↔
    ∃ c, c ∈ cands ∧ cd_Name c = n ∧ cd_Exists c = true ∧ cd_OldObject c = o ∧
         hp_heater p !! cd_hash c ≠ Some c;
}.

Lemma plan_for_nil : plan_for [] heaterPlanZero.
Proof.
  split; cbn; try done; [by intros c ?%elem_of_nil|].
  intros n o. split; [done|]. by intros (c & ?%elem_of_nil & _).
Qed.

Lemma filter_snoc cands c h :
  cd_name <$> filter (λ c, cd_hash c = h) (cands ++ [c]) =
  (cd_name <$> filter (λ c, cd_hash c = h) cands) ++ (if bool_decide (cd_hash c = h) then [cd_name c] else []).
Proof.
  rewrite filter_app, fmap_app. f_equal. rewrite filter_cons, filter_nil.
  by destruct (bool_decide_reflect (cd_hash c = h)) as [E|E]; [rewrite decide_True|rewrite decide_False].
Qed.

Lemma delete_if_exists_lookup c m n o :
  delete_if_exists c m !! n = Some o ↔
  (cd_Exists c = true ∧ cd_Name c = n ∧ cd_OldObject c = o) ∨
  (m !! n = Some o ∧ ¬ (cd_Exists c = true ∧ cd_Name c = n)).
Proof.
  unfold delete_if_exists. destruct (cd_Exists c); [|naive_solver].
  destruct (decide (cd_Name c = n)) as [<-|Hn];
    [rewrite lookup_insert_eq|rewrite lookup_insert_ne by done]; naive_solver.
Qed.

(** Names determine the candidates of a pass. *)
Lemma same_candidate cands c c' :
  NoDup (cd_Name <$> cands) → c ∈ cands → c' ∈ cands → cd_Name c = cd_Name c' → c = c'.
Proof.
  intros Hn [i Hi]%list_elem_of_lookup [j Hj]%list_elem_of_lookup He.
  assert (i = j) as ->; [|naive_solver].
  eapply NoDup_lookup; [exact Hn| |]; rewrite list_lookup_fmap; [by rewrite Hi|by rewrite Hj, He].
Qed.

(** A heater with a new hash becomes its representative. *)
Lemma plan_for_new cands p c :
  plan_for cands p → NoDup (cd_Name <$> (cands ++ [c])) → hp_heater p !! cd_hash c = None →
  plan_for (cands ++ [c]) (deduplicate p c).
Proof.
  intros [Hf Hc Hn Hd] Hnd Hh. unfold deduplicate. rewrite Hh.
  assert (∀ c', c' ∈ cands → cd_hash c' ≠ cd_hash c) as Hother.
  { intros c' Hc' He. destruct (Hc c' Hc') as [x Hx]. congruence. }
  split; cbn [hp_heater hp_names hp_delete].
  - intros h c'. rewrite lookup_insert_Some, elem_of_app, list_elem_of_singleton. naive_solver.
  - intros c' [Hc'|Hc']%elem_of_app.
    + rewrite lookup_insert_ne by by apply not_eq_sym, Hother. by apply Hc.
    + apply list_elem_of_singleton in Hc' as ->. rewrite lookup_insert_eq. eauto.
  - intros h. rewrite filter_snoc, <- Hn. case_bool_decide as He.
    + subst h. rewrite lookup_insert_eq. cbn. specialize (Hn (cd_hash c)).
      assert (filter (λ c', cd_hash c' = cd_hash c) cands = []) as Hnil.
      { destruct (filter _ cands) as [|x rest] eqn:Hx; [done|]. exfalso.
        assert (x ∈ filter (λ c', cd_hash c' = cd_hash c) cands) as [He Hin]%list_elem_of_filter; [rewrite Hx; by left|].
        by apply (Hother x). }
      rewrite Hnil in Hn. cbn in Hn. by rewrite Hn.
    + by rewrite lookup_insert_ne, app_nil_r.
  - intros n o. rewrite Hd. setoid_rewrite elem_of_app. setoid_rewrite list_elem_of_singleton.
    split; intros (c' & Hc' & E1 & E2 & E3 & E4); exists c'.
    + split_and!; try done; [by left|]. rewrite lookup_insert_ne; [done|by apply not_eq_sym, Hother].
    + destruct Hc' as [Hc'| ->]; [|by rewrite lookup_insert_eq in E4].
      rewrite lookup_insert_ne in E4 by by apply not_eq_sym, Hother. by split_and!.
Qed.

(** A heater with a known hash wins or loses against the representative; the loser is deleted if
    it exists. *)
Lemma plan_for_known cands p c other (winner loser : candidate) :
  plan_for cands p → NoDup (cd_Name <$> (cands ++ [c])) → hp_heater p !! cd_hash c = Some other →
  (winner, loser) = (if takes_over c other then (c, other) else (other, c)) →
  plan_for (cands ++ [c])
    (mkHeaterPlan (<[cd_hash c := winner]> (hp_heater p))
       (<[cd_hash c := default [] (hp_names p !! cd_hash c) ++ [cd_name c]]> (hp_names p))
       (delete_if_exists loser (hp_delete p))).
Proof.
  intros [Hf Hc Hn Hd] Hnd Hh Hw. destruct (Hf _ _ Hh) as [Ho Hoh].
  assert (c ∈ cands ++ [c] ∧ other ∈ cands ++ [c]) as [Hc1 Ho1].
  { rewrite !elem_of_app, list_elem_of_singleton. by split; [right|left]. }
  assert (c ∉ cands) as Hfresh.
  { intros Hin. rewrite fmap_app, NoDup_app in Hnd. destruct Hnd as (_ & Hdis & _).
    apply (Hdis (cd_Name c)); [by apply list_elem_of_fmap_2|by left]. }
  assert (winner ∈ cands ++ [c] ∧ loser ∈ cands ++ [c] ∧ cd_hash winner = cd_hash c ∧ cd_hash loser = cd_hash c ∧
    winner ≠ loser ∧ ∀ x, x ∈ cands ++ [c] ↔ x ∈ cands ∧ x ≠ other ∨ x = winner ∨ x = loser) as (Hwi & Hlo & Hwh & Hlh & Hne & Hall).
  { assert (∀ x, x ∈ cands ++ [c] ↔ x ∈ cands ∧ x ≠ other ∨ x = other ∨ x = c) as Hx.
    { intros x. rewrite elem_of_app, list_elem_of_singleton. destruct (decide (x = other)); naive_solver. }
    destruct (takes_over c other); injection Hw as -> ->; split_and!; try done; try congruence;
      intros x; rewrite Hx; naive_solver. }
  split; cbn [hp_heater hp_names hp_delete].
  - intros h c'. rewrite lookup_insert_Some. intros [[<- <-]|[Hne' Hc']]; [done|].
    apply Hf in Hc' as [? ?]. rewrite elem_of_app. by split; [left|].
  - intros c' Hc'. destruct (decide (cd_hash c = cd_hash c')) as [<-|He]; [rewrite lookup_insert_eq; eauto|].
    rewrite lookup_insert_ne by done. apply Hc. apply elem_of_app in Hc' as [?|Hc']; [done|].
    apply list_elem_of_singleton in Hc'. congruence.
  - intros h. rewrite filter_snoc, <- !Hn. case_bool_decide as He.
    + subst h. by rewrite lookup_insert_eq.
    + by rewrite lookup_insert_ne, app_nil_r.
  - intros n o. rewrite delete_if_exists_lookup, Hd. split.
    + intros [(E1 & E2 & E3)|[(c' & Hc' & E1 & E2 & E3 & E4) _]].
      * exists loser. rewrite Hlh, lookup_insert_eq. split_and!; try done. congruence.
      * exists c'. split_and!; try done; [rewrite elem_of_app; by left|].
        destruct (decide (cd_hash c = cd_hash c')) as [He|He]; [|by rewrite lookup_insert_ne].
        rewrite <- He, lookup_insert_eq. rewrite <- He, Hh in E4. intros [= Hwc].
        destruct (takes_over c other); congruence.
    + intros (c' & Hc' & E1 & E2 & E3 & E4). apply Hall in Hc' as [[Hc' Hco]|[->| ->]].
      * right. split.
        -- exists c'. split_and!; try done. destruct (decide (cd_hash c = cd_hash c')) as [He|He].
           ++ rewrite <- He, Hh. congruence.
           ++ by rewrite lookup_insert_ne in E4.
        -- intros [_ He]. assert (c' = loser) as ->.
           { eapply same_candidate; [exact Hnd| |done|congruence]. rewrite elem_of_app. by left. }
           destruct (takes_over c other); injection Hw as -> ->; congruence.
      * by rewrite Hwh, lookup_insert_eq in E4.
      * by left.
Qed.

Lemma deduplicate_plan cands p c :
  plan_for cands p → NoDup (cd_Name <$> (cands ++ [c])) → plan_for (cands ++ [c]) (deduplicate p c).
Proof.
  intros Hp Hnd. destruct (hp_heater p !! cd_hash c) as [other|] eqn:Hh; [|by apply plan_for_new].
  pose proof (plan_for_known cands p c other) as Hk. unfold deduplicate. rewrite Hh.
  destruct (takes_over c other) eqn:Ht; [by apply (Hk c other)|].
  rewrite <- (insert_id (hp_heater p) _ _ Hh). by apply (Hk other c).
Qed.

Lemma deduplicate_all cands :
  NoDup (cd_Name <$> cands) → plan_for cands (foldl deduplicate heaterPlanZero cands).
Proof.
  induction cands as [|c cands IH] using rev_ind; intros Hnd; [apply plan_for_nil|].
  rewrite foldl_app. cbn. apply deduplicate_plan; [|done]. apply IH.
  rewrite fmap_app, NoDup_app in Hnd. apply Hnd.
Qed.

End plan.

(** ** The effect of a pass *)

(** Deleting: the name is free or the object carries its deletion time; other names and the
    memory of the operator are left alone.  Reading returns the object of that name. *)
Class HeaterClientLaws (E : Type) `{!KubeClient E DaemonSet} (mem : lens E heaterMem) : Prop := {
  hcl_client :: KubeClientLaws E DaemonSet _ ds_content;
  hcl_memory :: ClientMemory E DaemonSet mem;
  hcl_lens :: LensLaws mem;
  hcl_name : ∀ n e (o : DaemonSet), val_of (client_Get n) e = inr o → GetName o = n;
  hcl_delete : ∀ (o : DaemonSet) e,
    val_of (client_Delete o) e = None ∨ val_of (client_Delete o) e = Some NotFound →
    val_of (client_Get (T:=DaemonSet) (GetName o)) (run (client_Delete o) e) = inl NotFound ∨
    ∃ d : DaemonSet, val_of (client_Get (GetName o)) (run (client_Delete o) e) = inr d ∧ is_Some (ds_DeletionTimestamp d);
  hcl_delete_other : ∀ (o : DaemonSet) e n, n ≠ GetName o →
    val_of (client_Get (T:=DaemonSet) n) (run (client_Delete o) e) = val_of (client_Get n) e;
  hcl_delete_mem : ∀ o : DaemonSet, preserves (lget mem) (client_Delete (E:=E) o);
}.

Section pass.
Context {E : Type} {MC : MetaConditions} {SC : StatusClient E} {HC : HeaterCodec} `{HKD : !KubeClient E DaemonSet}.
Context (l : Labeller) (mem : lens E heaterMem) `{HL : !HeaterClientLaws E mem}.

Abbreviation W := (World E).
Abbreviation cell := (built_cell mem).
Abbreviation memory := (hmem mem).

(** What the server returns for a name. *)
Definition server_view (w : W) (n : string) : apierror + DaemonSet := val_of (client_Get n) (w_env w).

Definition gone (w : W) (n : string) : Prop :=
  server_view w n = inl NotFound ∨ ∃ d, server_view w n = inr d ∧ is_Some (ds_DeletionTimestamp d).

Lemma gone_same w w' n : server_view w' n = server_view w n → gone w n → gone w' n.
Proof. unfold gone. by intros ->. Qed.

(** *** Memory *)

Lemma hmem_in_hmem f w : memory (run (in_hmem mem f) w) = f (memory w).
Proof. unfold run, in_hmem, hmem. cbn. apply lget_lset. Qed.

Lemma view_in_hmem f w n : server_view (run (in_hmem mem f) w) n = server_view w n.
Proof. unfold server_view, run, in_hmem. cbn. apply get_mem. Qed.

Lemma in_cell_in_hmem i f w :
  run (in_resource (cell i) f) w =
  run (in_hmem mem (λ m, hm_set_built (<[i := f (default (NewDaemonSet "") (hm_built m !! i))]> (hm_built m)) m)) w.
Proof. done. Qed.

Lemma hmem_in_cell i f w :
  memory (run (in_resource (cell i) f) w) =
  hm_set_built (<[i := f (default (NewDaemonSet "") (hm_built (memory w) !! i))]> (hm_built (memory w))) (memory w).
Proof. by rewrite in_cell_in_hmem, hmem_in_hmem. Qed.

Lemma view_in_cell i f w n : server_view (run (in_resource (cell i) f) w) n = server_view w n.
Proof. by rewrite in_cell_in_hmem, view_in_hmem. Qed.

Lemma resource_cell i w : resource (cell i) w = default (NewDaemonSet "") (hm_built (memory w) !! i).
Proof. done. Qed.

(** *** What is known of a heater that was built *)

Record built_ok (v : string → apierror + DaemonSet) (built : list (ManagedResource DaemonSet)) (c : candidate)
    (r : ManagedResource DaemonSet) : Prop := {
  bo_at : built !! cd_index c = Some r;
  bo_name : res_name r = cd_Name c;
  bo_old : res_oldObject r = cd_OldObject c;
  bo_exists : cd_Exists c = (GetResourceVersion (cd_OldObject c) != "");
  bo_new : GetName (res_newObject r) = cd_Name c;
  bo_hash : obj_GetAnnotations (res_newObject r) !! InstanceHashAnnotationName = Some (cd_hash c);
  bo_view : cd_Exists c = true → v (cd_Name c) = inr (cd_OldObject c);
}.

Lemma built_ok_view v v' built c r :
  v' (cd_Name c) = v (cd_Name c) → built_ok v built c r → built_ok v' built c r.
Proof. intros Hv []. split; try done. by rewrite Hv. Qed.

Lemma built_ok_at v built built' c r :
  built' !! cd_index c = built !! cd_index c → built_ok v built c r → built_ok v built' c r.
Proof. intros Hv []. split; try done. by rewrite Hv. Qed.

(** *** Deleting *)

Lemma DeleteObject_effect (d : DaemonSet) w :
  val_of (DeleteObject d) w = None →
  gone (run (DeleteObject d) w) (GetName d) ∧
  (∀ n, n ≠ GetName d → server_view (run (DeleteObject d) w) n = server_view w n) ∧
  memory (run (DeleteObject d) w) = memory w.
Proof.
  unfold DeleteObject, gone, server_view, hmem. go_step. rewrite val_in_env, run_in_env.
  pose proof (hcl_delete d (w_env w)) as Hd. pose proof (hcl_delete_mem d (w_env w)) as Hm.
  pose proof (hcl_delete_other d (w_env w)) as Ho.
  destruct (val_of (client_Delete d) (w_env w)) as [[|e]|]; go_step; [..|done|];
    (intros _; split_and!; [apply Hd; by auto|exact Ho|exact Hm]).
Qed.

Lemma delete_heaters_effect toDelete names w :
  (∀ n d, toDelete !! n = Some d → GetName d = n) → (∀ n, n ∈ names → is_Some (toDelete !! n)) →
  val_of (delete_heaters toDelete names) w = None →
  let w' := run (delete_heaters toDelete names) w in
  (∀ n, n ∈ names → gone w' n) ∧ (∀ n, n ∉ names → server_view w' n = server_view w n) ∧ memory w' = memory w.
Proof.
  intros Hn. revert w. induction names as [|n names IH]; intros w Hin; cbn [delete_heaters].
  { intros _. go_step. split_and!; [by intros n ?%elem_of_nil|done|done]. }
  go_step. destruct (Hin n) as [d Hd]; [by left|]. rewrite Hd. change (default DaemonSetZero (Some d)) with d.
  pose proof (DeleteObject_effect d w) as Hdel. pose proof (Hn _ _ Hd) as Hname.
  destruct (val_of (DeleteObject d) w) as [e|]; [by go_step|]. destruct (Hdel eq_refl) as (Hg & Ho & Hm).
  rewrite Hname in *. cbv zeta. intros Hr.
  destruct (IH (run (DeleteObject d) w)) as (I1 & I2 & I3); [intros m Hm'; apply Hin; by right|done|].
  split_and!.
  - intros m [->|Hm']%elem_of_cons; [|by apply I1]. destruct (decide (n ∈ names)); [by apply I1|].
    by eapply gone_same; [apply I2|].
  - intros m [Hm1 Hm2]%not_elem_of_cons. rewrite I2 by done. by apply Ho.
  - etrans; [exact I3|exact Hm].
Qed.

(** *** Applying *)

(** The stored daemon set carries the hash and the targets [t]. *)
Definition stored (w : W) (c : candidate) (t : string) : Prop :=
  ∃ o, server_view w (cd_Name c) = inr o ∧
    obj_GetAnnotations o !! InstanceHashAnnotationName = Some (cd_hash c) ∧
    obj_GetAnnotations o !! ImageHeaterTargetsAnnotationName = Some t.

Lemma stored_same w w' c t :
  server_view w' (cd_Name c) = server_view w (cd_Name c) → stored w c t → stored w' c t.
Proof. unfold stored. by intros ->. Qed.

(** A heater ready to be applied with the targets [t]. *)
Definition to_apply (w : W) (t : candidate → string) (c : candidate) : Prop :=
  ∃ r, built_ok (server_view w) (hm_built (memory w)) c r ∧
    obj_GetAnnotations (res_newObject r) !! ImageHeaterTargetsAnnotationName = Some (t c).

Lemma to_apply_same w w' t c :
  server_view w' (cd_Name c) = server_view w (cd_Name c) →
  hm_built (memory w') !! cd_index c = hm_built (memory w) !! cd_index c →
  to_apply w t c → to_apply w' t c.
Proof.
  intros Hv Hm (r & Hr & Ht). exists r. split; [|done].
  eapply built_ok_view, built_ok_at; [exact Hv|exact Hm|done].
Qed.

(** Writing the object stores it and touches nothing but its name and its cell. *)
Lemma apply_write t c w :
  to_apply w t c → val_of (resource_Sync (cell (cd_index c))) w = None →
  let w' := run (resource_Sync (cell (cd_index c))) w in
  stored w' c (t c) ∧ (∀ n, n ≠ cd_Name c → server_view w' n = server_view w n) ∧
  (∀ i, i ≠ cd_index c → hm_built (memory w') !! i = hm_built (memory w) !! i).
Proof.
  intros (r & [Hat _ _ _ Hnew Hhash _] & Ht). unfold resource_Sync, OldObject, NewObject. go_step.
  rewrite !resource_cell, Hat. change (default (NewDaemonSet "") (Some r)) with r.
  set (old := res_oldObject r). set (new := res_newObject r) in *.
  pose proof (SyncObject_readable ds_content old new w) as Hread.
  pose proof (SyncObject_other ds_content old new w) as Hother.
  pose proof (SyncObject_mem mem old new w) as Hmem. rewrite Hnew in *.
  destruct (val_of (SyncObject old new) w) as [err obj] eqn:Hs. go_step. intros ->. cbv zeta.
  set (w1 := run (SyncObject old new) w) in *.
  assert (memory w1 = memory w) as Hm1 by exact Hmem.
  split_and!.
  - destruct (Hread eq_refl) as (o & Hg & _ & Ha & _). exists o. rewrite view_in_cell.
    split; [done|]. rewrite (Ha InstanceHashAnnotationName eq_refl), (Ha ImageHeaterTargetsAnnotationName eq_refl). by split; rewrite lookup_insert_ne.
  - intros n Hn. rewrite view_in_cell. by apply Hother.
  - intros i Hi. rewrite hmem_in_cell, Hm1. cbn. by rewrite list_lookup_insert_ne.
Qed.

Lemma unchanged_stored t c w :
  to_apply w t c → heater_changed mem w (cd_index c) = false →
  server_view w (cd_Name c) = inr (OldObject (cell (cd_index c)) w) ∧ stored w c (t c).
Proof.
  intros (r & [Hat _ Hold Hex Hnew Hhash Hview] & Ht). unfold heater_changed, resource_Exists, IsAnnotationChanged,
    OldObject, NewObject. rewrite !resource_cell, Hat. change (default (NewDaemonSet "") (Some r)) with r.
  rewrite Hold, <- Hex, Hhash, Ht. rewrite !orb_false_iff, !negb_false_iff, !bool_decide_eq_true.
  intros [[He H1] H2]. split; [by auto|]. exists (cd_OldObject c). by auto.
Qed.

Lemma apply_heaters_effect t cs r r' w w' :
  NoDup (cd_Name <$> cs) → NoDup (cd_index <$> cs) → Forall (to_apply w t) cs →
  apply_heaters mem false cs r w = (inr r', w') →
  Forall (λ c, stored w' c (t c)) cs ∧ (∀ n, n ∉ cd_Name <$> cs → server_view w' n = server_view w n).
Proof.
  revert r w. induction cs as [|c cs IH]; intros r w Hn Hi Ha; cbn [apply_heaters].
  { intros [= <- <-]. by split; [apply Forall_nil|]. }
  apply NoDup_cons in Hn as [Hn1 Hn2], Hi as [Hi1 Hi2].
  apply Forall_cons in Ha as [Hc Ha]. rewrite go_eta. go_step.
  destruct (GetDaemonSetStatus (OldObject (cell (cd_index c)) w)) as [ready message]. go_step.
  set (changed := heater_changed mem w (cd_index c)).
  set (step := if changed && negb false then _ else _).
  assert (val_of step w = None → stored (run step w) c (t c) ∧
    (∀ n, n ≠ cd_Name c → server_view (run step w) n = server_view w n) ∧
    (∀ i, i ≠ cd_index c → hm_built (memory (run step w)) !! i = hm_built (memory w) !! i)) as Hstep.
  { subst step. destruct changed eqn:Hch; cbn [negb andb]; [by apply apply_write|]. intros _.
    split_and!; [by apply unchanged_stored|done|done]. }
  destruct (val_of step w) as [err|]; [by go_step|]. destruct (Hstep eq_refl) as (Hs & Hv & Hm).
  rewrite <- go_eta. intros Hrest.
  assert (Forall (to_apply (run step w) t) cs) as Ha'.
  { apply Forall_forall. intros d Hd. rewrite Forall_forall in Ha. eapply to_apply_same; [..|by apply Ha].
    - apply Hv. intros Heq. apply Hn1. rewrite <- Heq. by apply list_elem_of_fmap_2.
    - apply Hm. intros Heq. apply Hi1. rewrite <- Heq. by apply list_elem_of_fmap_2. }
  destruct (IH _ _ Hn2 Hi2 Ha' Hrest) as [I1 I2]. split.
  - apply Forall_cons. split; [|done]. by eapply stored_same; [apply I2|].
  - intros n [H1 H2]%not_elem_of_cons. rewrite I2 by done. by apply Hv.
Qed.

(** *** Collecting *)

Lemma cell_Fetch i w r :
  hm_built (memory w) !! i = Some r → val_of (resource_Fetch (cell i)) w = None →
  ∃ old, let w' := run (resource_Fetch (cell i)) w in
    memory w' = hm_set_built (<[i := res_set_old old r]> (hm_built (memory w))) (memory w) ∧
    (∀ n, server_view w' n = server_view w n) ∧ w_yts w' = w_yts w ∧
    (GetResourceVersion old ≠ "" → server_view w (res_name r) = inr old).
Proof.
  intros Hi. unfold resource_Fetch. go_step. set (f := λ r, res_set_old (SetResourceVersion "" (res_oldObject r)) r).
  set (w1 := run (in_resource (cell i) f) w).
  assert (hm_built (memory w1) !! i = Some (f r)) as Hi1.
  { subst w1. rewrite hmem_in_cell, Hi. cbn. apply list_lookup_insert_eq. by eapply lookup_lt_Some. }
  unfold OldObject. rewrite resource_cell, Hi1. change (default _ (Some (f r))) with (f r). cbn [f res_name res_set_old res_oldObject].
  unfold FetchObject. go_step. rewrite val_in_env, run_in_env, (get_pure (C:=_) (content:=ds_content)).
  assert (val_of (client_Get (res_name r)) (w_env w1) = server_view w (res_name r)) as ->.
  { unfold w1. apply view_in_cell. }
  replace (w_set_env (w_env w1) w1) with w1 by by destruct w1.
  assert (∀ old, memory (run (in_resource (cell i) (res_set_old old)) w1) =
    hm_set_built (<[i := res_set_old old r]> (hm_built (memory w))) (memory w)) as Hmem.
  { intros old. rewrite hmem_in_cell, Hi1. subst w1. rewrite hmem_in_cell, Hi. cbn. by rewrite list_insert_insert_eq. }
  assert (∀ old n, server_view (run (in_resource (cell i) (res_set_old old)) w1) n = server_view w n) as Hview.
  { intros old n. rewrite view_in_cell. apply view_in_cell. }
  destruct (server_view w (res_name r)) as [[|e]|o] eqn:Ho; go_step; [|done|]; intros _.
  - exists (SetResourceVersion "" (res_oldObject r)). split_and!; try done.
  - exists o. by split_and!.
Qed.

(** The target and the hash a component asks for. *)
Definition wanted (w : W) (c : heatable) : option (string * string) :=
  let name := GetImageHeaterName (ht_labeller c) in
  match GetImageHeater w name, ht_target c with
  | Some selector, Some target =>
      match buildImageHeater l name selector target with
      | inl _ => None
      | inr (_, hash) => Some (name, hash)
      end
  | _, _ => None
  end.

Lemma wanted_same w w' c : w_yts w' = w_yts w → wanted w' c = wanted w c.
Proof. intros H. unfold wanted, GetImageHeater, GetClusterFeatures. by rewrite H. Qed.

(** The name of the daemon set of a target. *)
Definition heater_name (name : string) : string := GetComponentShortName (heater_labeller l name).

Lemma buildImageHeater_built name selector target r hash :
  buildImageHeater l name selector target = inr (r, hash) →
  res_name r = heater_name name ∧ GetName (res_newObject r) = heater_name name ∧
  obj_GetAnnotations (res_newObject r) !! InstanceHashAnnotationName = Some hash.
Proof.
  unfold buildImageHeater. case_match; [done|]. intros [= <- <-]. split_and!; try done.
  cbn. apply lookup_insert_eq.
Qed.

(** The candidates [cands] were built one after the other from memory index [n] on. *)
Record collected (w w' : W) (cs : list heatable) (cands : list candidate) : Prop := {
  co_wanted : (λ c, (cd_name c, cd_hash c)) <$> cands = omap (wanted w) cs;
  co_names : Forall (λ c, cd_Name c = heater_name (cd_name c)) cands;
  co_index : cd_index <$> cands = seq (length (hm_built (memory w))) (length cands);
  co_built : Forall (λ c, ∃ r, built_ok (server_view w) (hm_built (memory w')) c r) cands;
  co_before : ∀ i, i < length (hm_built (memory w)) → hm_built (memory w') !! i = hm_built (memory w) !! i;
  co_length : length (hm_built (memory w')) = length (hm_built (memory w)) + length cands;
  co_list : hm_list (memory w') = hm_list (memory w);
  co_view : ∀ n, server_view w' n = server_view w n;
  co_yts : w_yts w' = w_yts w;
}.

Lemma collect_cons w w1 w' c cs cd cands :
  collected w1 w' cs cands → wanted w c = Some (cd_name cd, cd_hash cd) →
  cd_Name cd = heater_name (cd_name cd) → cd_index cd = length (hm_built (memory w)) →
  (∃ r, built_ok (server_view w) (hm_built (memory w1)) cd r) →
  (∃ r, hm_built (memory w1) = hm_built (memory w) ++ [r]) →
  hm_list (memory w1) = hm_list (memory w) → (∀ n, server_view w1 n = server_view w n) → w_yts w1 = w_yts w →
  collected w w' (c :: cs) (cd :: cands).
Proof.
  intros [C1 C2 C3 C4 C5 C6 C7 C8 C9] Hw Hn Hi [r Hr] [r1 Hb] Hl Hv Hy.
  rewrite Hb, length_app in *. cbn [length] in *. rewrite Nat.add_1_r in *.
  split.
  - cbn. rewrite Hw. f_equal. etrans; [exact C1|]. clear - Hy. induction cs as [|d cs IH]; cbn; [done|].
    rewrite (wanted_same w w1 d Hy). by rewrite IH.
  - by apply Forall_cons.
  - cbn. by rewrite Hi, <- C3.
  - apply Forall_cons. split.
    + exists r. eapply built_ok_at; [|exact Hr]. apply C5. rewrite Hi. lia.
    + eapply Forall_impl; [exact C4|]. intros d [r' Hr']. exists r'. eapply built_ok_view; [|exact Hr'].
      by rewrite Hv.
  - intros i Hlt. rewrite C5 by lia. by rewrite lookup_app_l.
  - cbn. lia.
  - by rewrite C7.
  - intros n. by rewrite C8.
  - by rewrite C9.
Qed.

Lemma collect_effect cs p p' w w' :
  collect l mem cs p w = (inr p', w') →
  ∃ cands, p' = foldl deduplicate p cands ∧ collected w w' cs cands.
Proof.
  revert p w. induction cs as [|c cs IH]; intros p w; cbn [collect].
  { intros [= <- <-]. exists []. split; [done|]. split; cbn; rewrite ?Nat.add_0_r; done. }
  rewrite go_eta. go_step.
  assert (∀ x, x = wanted w c → x = None → collect l mem cs p w = (inr p', w') →
    ∃ cands, p' = foldl deduplicate p cands ∧ collected w w' (c :: cs) cands) as Hskip.
  { intros x -> Hx Hc. destruct (IH _ _ Hc) as (cands & -> & []). exists cands. split; [done|].
    split; try done. cbn. by rewrite Hx. }
  destruct (GetImageHeater w _) as [selector|] eqn:Hs;
    [|rewrite <- go_eta; apply (Hskip None); [|done]; unfold wanted; by rewrite Hs].
  destruct (ht_target c) as [target|] eqn:Ht;
    [|rewrite <- go_eta; apply (Hskip None); [|done]; unfold wanted; by rewrite Hs, Ht].
  destruct (buildImageHeater l _ selector target) as [e|[r hash]] eqn:Hb; [by go_step|].
  destruct (buildImageHeater_built _ _ _ _ _ Hb) as (Hn & Hnew & Hhash). go_step.
  set (i := length (hm_built (memory w))). set (name := GetImageHeaterName _) in *.
  set (w1 := run (in_hmem mem _) w).
  assert (hm_built (memory w1) = hm_built (memory w) ++ [r]) as Hb1 by (subst w1; by rewrite hmem_in_hmem).
  pose proof (cell_Fetch i w1 r) as Hf. rewrite Hb1 in Hf. specialize (Hf (list_lookup_middle _ [] _ _ eq_refl)).
  destruct (val_of (resource_Fetch (cell i)) w1) as [e|]; [by go_step|]. destruct (Hf eq_refl) as (old & Hm & Hv & Hy & Hold).
  clear Hf. go_step. rewrite <- go_eta. set (w2 := run (resource_Fetch (cell i)) w1) in *.
  assert (hm_built (memory w2) = hm_built (memory w) ++ [res_set_old old r]) as Hb2.
  { rewrite Hm. cbn. by rewrite insert_app_r_alt, Nat.sub_diag. }
  assert (resource (cell i) w2 = res_set_old old r) as Hr2.
  { rewrite resource_cell, Hb2. by rewrite list_lookup_middle. }
  unfold resource_Exists, OldObject. rewrite Hr2. cbn [res_name res_set_old res_oldObject].
  set (cd := mkCandidate _ _ _ _ _ _). intros Hrest. destruct (IH _ _ Hrest) as (cands & -> & Hco).
  assert (∀ n, server_view w1 n = server_view w n) as Hv1 by (intros n; apply view_in_hmem).
  exists (cd :: cands). split; [done|]. eapply collect_cons; [exact Hco|..].
  - unfold wanted. fold name. cbv zeta. by rewrite Hs, Ht, Hb.
  - exact Hn.
  - done.
  - exists (res_set_old old r). split; try done; cbn.
    + by rewrite Hb2, list_lookup_middle.
    + by rewrite Hn.
    + intros He. rewrite <- Hv1. apply Hold. apply negb_true_iff, bool_decide_eq_false in He. done.
  - eauto.
  - rewrite Hm. subst w1. by rewrite hmem_in_hmem.
  - intros n. by rewrite Hv.
  - by rewrite Hy.
Qed.

(** *** Annotating *)

Lemma annotate_step p h c r w :
  hm_built (memory w) !! cd_index c = Some r →
  let w' := run (annotate mem p (h, c)) w in
  hm_built (memory w') = <[cd_index c := res_set_new (SetMetaDataAnnotation ImageHeaterTargetsAnnotationName
    (strings_Join (heater_targets p h) " ") (res_newObject r)) r]> (hm_built (memory w)) ∧
  hm_list (memory w') = hm_list (memory w) ∧ (∀ n, server_view w' n = server_view w n) ∧ w_yts w' = w_yts w.
Proof.
  intros Hi. unfold annotate. go_step. cbv zeta. split_and!.
  - rewrite hmem_in_hmem. cbn [hm_built hm_set_names]. rewrite hmem_in_cell. cbn [hm_built hm_set_built fst snd]. by rewrite Hi.
  - rewrite hmem_in_hmem. cbn [hm_list hm_set_names]. by rewrite hmem_in_cell.
  - intros n. rewrite view_in_hmem. apply view_in_cell.
  - done.
Qed.

Definition plan_targets (p : heaterPlan) (c : candidate) : string := strings_Join (heater_targets p (cd_hash c)) " ".

Lemma annotate_effect p entries w :
  NoDup ((λ e, cd_index e.2) <$> entries) →
  Forall (λ e, e.1 = cd_hash e.2 ∧ ∃ r, built_ok (server_view w) (hm_built (memory w)) e.2 r) entries →
  let w' := run (mapM_unit (annotate mem p) entries) w in
  Forall (λ e, to_apply w' (plan_targets p) e.2) entries ∧
  (∀ i, i ∉ (λ e, cd_index e.2) <$> entries → hm_built (memory w') !! i = hm_built (memory w) !! i) ∧
  hm_list (memory w') = hm_list (memory w) ∧ (∀ n, server_view w' n = server_view w n) ∧ w_yts w' = w_yts w.
Proof.
  revert w. induction entries as [|[h c] entries IH]; intros w Hnd Hall; cbn [mapM_unit].
  { by split_and!. }
  apply NoDup_cons in Hnd as [Hn1 Hn2]. apply Forall_cons in Hall as [[Hh (r & Hr)] Hall]. cbn in Hh, Hn1. subst h.
  cbn [snd] in Hr. destruct (annotate_step p (cd_hash c) c r w) as (B1 & B2 & B3 & B4); [apply Hr|].
  set (w1 := run (annotate mem p (cd_hash c, c)) w) in *.
  assert (∀ i, i ≠ cd_index c → hm_built (memory w1) !! i = hm_built (memory w) !! i) as Hsame.
  { intros i Hi. by rewrite B1, list_lookup_insert_ne. }
  destruct (IH w1) as (I1 & I2 & I3 & I4 & I5); [done| |].
  { rewrite Forall_forall in Hall |- *. intros e He. destruct (Hall e He) as (Hh & r' & Hr'). split; [done|].
    exists r'. eapply built_ok_view, built_ok_at; [by rewrite B3| |exact Hr'].
    apply Hsame. intros Heq. apply Hn1. rewrite <- Heq. by apply (list_elem_of_fmap_2 (λ e, cd_index e.2)). }
  go_step. fold w1. split_and!.
  - apply Forall_cons. split; [|done]. destruct Hr as [A1 A2 A3 A4 A5 A6 A7].
    assert (hm_built (memory (run (mapM_unit (annotate mem p) entries) w1)) !! cd_index c =
      hm_built (memory w1) !! cd_index c) as Hkeep by by apply I2.
    rewrite B1, list_lookup_insert_eq in Hkeep by by eapply lookup_lt_Some. eexists. split.
    + split; [exact Hkeep|done|done|done|exact A5| |].
      * cbn. rewrite lookup_insert_ne by done. exact A6.
      * cbn. rewrite I4, B3. exact A7.
    + cbn. by rewrite lookup_insert_eq.
  - intros i [H1 H2]%not_elem_of_cons. rewrite I2 by done. by apply Hsame.
  - by rewrite I3.
  - intros n. by rewrite I4.
  - by rewrite I5.
Qed.

End pass.

(** *** The maps of a plan *)

Lemma foldl_insert_lookup {B} (ks : list B) (key : B → string) {A} (value : B → A) (m : gmap string A) k v :
  NoDup (key <$> ks) →
  foldl (λ m e, <[key e := value e]> m) m ks !! k = Some v ↔
  (∃ e, e ∈ ks ∧ key e = k ∧ value e = v) ∨ (m !! k = Some v ∧ k ∉ key <$> ks).
Proof.
  revert m. induction ks as [|e ks IH]; intros m Hnd; cbn.
  { split; [intros H; right; split; [done|apply not_elem_of_nil]|]. intros [(e & He & _)|[H _]]; [by apply elem_of_nil in He|done]. }
  apply NoDup_cons in Hnd as [H1 H2]. rewrite IH by done. setoid_rewrite elem_of_cons.
  rewrite lookup_insert_Some. split.
  - intros [(e' & He & Hk & Hv)|[[[Hk Hv]|[Hne Hm]] Hk']]; [left; eauto|left; by eauto|].
    right. split; [done|]. by intros [?|?].
  - intros [(e' & [->|He] & Hk & Hv)|[Hm Hk]]; [right|left; by eauto|right].
    + split; [by left|]. by rewrite <- Hk.
    + split; [right; split; [intros He; apply Hk; by left|done]|]. intros Hin. apply Hk. by right.
Qed.

Lemma sorted_values_elem {A} (m : gmap string A) x : x ∈ sorted_values m ↔ ∃ k, m !! k = Some x.
Proof.
  unfold sorted_values. rewrite list_elem_of_omap. setoid_rewrite sorted_keys_elem.
  split; [intros (k & _ & H); eauto|]. intros (k & H). exists k. by rewrite H.
Qed.

Lemma sorted_values_keys {A} (m : gmap string A) (key : A → string) :
  (∀ k x, m !! k = Some x → key x = k) → key <$> sorted_values m = sorted_keys m.
Proof.
  intros Hk. unfold sorted_values.
  assert (∀ k, k ∈ sorted_keys m → is_Some (m !! k)) as Hin by (intros k; apply sorted_keys_elem).
  induction (sorted_keys m) as [|k ks IH]; [done|]. cbn. destruct (Hin k) as [x Hx]; [by left|]. rewrite Hx. cbn.
  rewrite (Hk _ _ Hx). f_equal. apply IH. intros k' Hk'. apply Hin. by right.
Qed.

Section plan_maps.
Context (range_map : gmap string candidate → list (string * candidate)).
Context (Hrange : ∀ m, range_map m ≡ₚ map_to_list m).
Context (cands : list candidate) (p : heaterPlan) (Hp : plan_for cands p) (Hnd : NoDup (cd_Name <$> cands)).

Lemma range_elem h c : (h, c) ∈ range_map (hp_heater p) ↔ hp_heater p !! h = Some c.
Proof. by rewrite Hrange, elem_of_map_to_list. Qed.

Lemma range_nodup {B} (f : candidate → B) :
  (∀ c c', c ∈ cands → c' ∈ cands → f c = f c' → c = c') → NoDup ((λ e, f e.2) <$> range_map (hp_heater p)).
Proof.
  intros Hf. apply NoDup_fmap_2_strong.
  - intros [h c] [h' c'] H1 H2. cbn. apply range_elem, (plan_from _ _ Hp) in H1 as [H1 <-].
    apply range_elem, (plan_from _ _ Hp) in H2 as [H2 <-]. intros He. by rewrite (Hf c c' H1 H2 He).
  - rewrite Hrange. apply NoDup_map_to_list.
Qed.

Lemma plan_apply_lookup n c :
  plan_apply range_map p !! n = Some c ↔ hp_heater p !! cd_hash c = Some c ∧ cd_Name c = n.
Proof.
  unfold plan_apply. rewrite (foldl_insert_lookup _ (λ e, cd_Name e.2) snd).
  - rewrite lookup_empty. split.
    + intros [([h c'] & Hin & Hn & Hc)|[? _]]; [|done]. cbn in *. subst. apply range_elem in Hin.
      by destruct (plan_from _ _ Hp _ _ Hin) as [_ <-].
    + intros [Hc Hn]. left. exists (cd_hash c, c). by rewrite range_elem.
  - apply range_nodup. intros c1 c2. by apply same_candidate.
Qed.

Lemma plan_delete_lookup listed n :
  (∃ d, d ∈ listed ∧ GetName d = n) ∨ is_Some (hp_delete p !! n) → plan_apply range_map p !! n = None →
  is_Some (plan_delete range_map p listed !! n).
Proof.
  unfold plan_delete. intros Hin Hno. revert Hin. generalize (hp_delete p). induction listed as [|d listed IH]; intros m.
  - intros [(d & Hd & _)|H]; [by apply elem_of_nil in Hd|done].
  - intros Hin. cbn. apply IH. destruct (decide (GetName d = n)) as [Hd|Hd].
    + right. rewrite bool_decide_eq_false_2 by (rewrite Hd, Hno; by intros []). rewrite Hd. by rewrite lookup_insert_eq.
    + destruct Hin as [(d' & [->|Hd']%elem_of_cons & Hn)|Hm]; [done|left; eauto|].
      right. case_bool_decide; [done|]. by rewrite lookup_insert_ne.
Qed.

Lemma plan_delete_from listed n d :
  plan_delete range_map p listed !! n = Some d →
  hp_delete p !! n = Some d ∨ GetName d = n ∧ plan_apply range_map p !! n = None.
Proof.
  unfold plan_delete. generalize (hp_delete p). induction listed as [|d' listed IH]; intros m; cbn; [by left|].
  intros [H|H]%IH; [|by right]. case_bool_decide as Hno; [by left|].
  apply lookup_insert_Some in H as [[<- ->]|[_ H]]; [|by left]. right. split; [done|]. by apply eq_None_not_Some.
Qed.

(** Nothing that is needed is deleted. *)
Lemma plan_disjoint listed n d : plan_delete range_map p listed !! n = Some d → plan_apply range_map p !! n = None.
Proof.
  intros [H|[_ H]]%plan_delete_from; [|done].
  apply (plan_deletes _ _ Hp) in H as (c & Hc & Hn & _ & _ & Hne).
  destruct (plan_apply range_map p !! n) as [c'|] eqn:Hc'; [|done]. exfalso.
  apply plan_apply_lookup in Hc' as [Hh Hn']. destruct (plan_from _ _ Hp _ _ Hh) as [Hin _].
  assert (c' = c) as -> by (eapply same_candidate; [exact Hnd|done|done|congruence]). done.
Qed.

End plan_maps.

Section converge.
Context {E : Type} {MC : MetaConditions} {SC : StatusClient E} {HC : HeaterCodec} `{HKD : !KubeClient E DaemonSet}.
Context (range_map : gmap string candidate → list (string * candidate)).
Context (Hrange : ∀ m, range_map m ≡ₚ map_to_list m).
Context (l : Labeller) (mem : lens E heaterMem) `{HL : !HeaterClientLaws E mem}.

Abbreviation W := (World E).
Abbreviation memory := (hmem mem).

Lemma report_heaters_view total r w w' res n :
  report_heaters total r w = (res, w') → server_view (E:=E) w' n = server_view w n.
Proof. intros H. assert (w' = run (report_heaters total r) w) as -> by (unfold run; by rewrite H). done. Qed.

(** The heaters of a plan are stored and what it deletes is gone. *)
Lemma execute_plan_effect t toApply toDelete w w' status :
  (∀ n c, toApply !! n = Some c → cd_Name c = n ∧ to_apply mem w t c) →
  (∀ n c n' c', toApply !! n = Some c → toApply !! n' = Some c' → cd_index c = cd_index c' → c = c') →
  (∀ n d, toDelete !! n = Some d → GetName d = n ∧ toApply !! n = None) →
  execute_plan mem false toApply toDelete w = ((status, None), w') →
  (∀ n c, toApply !! n = Some c → stored w' c (t c)) ∧ (∀ n d, toDelete !! n = Some d → gone w' n).
Proof.
  intros Ha Hi Hd. unfold execute_plan.
  destruct (delete_heaters toDelete (sorted_keys toDelete) w) as [failed w1] eqn:Hdel.
  rewrite (go_bind_eq _ _ _ _ _ Hdel). destruct failed as [[message err]|]; [done|].
  destruct (delete_heaters_effect mem toDelete (sorted_keys toDelete) w) as (D1 & D2 & D3).
  { intros n d H. by apply Hd. }
  { intros n. apply sorted_keys_elem. }
  { unfold val_of. by rewrite Hdel. }
  assert (run (delete_heaters toDelete (sorted_keys toDelete)) w = w1) as E1 by (unfold run; by rewrite Hdel).
  rewrite E1 in *. cbv zeta. set (r0 := mkHeaterReport 0 _ _ "").
  destruct (apply_heaters mem false (sorted_values toApply) r0 w1) as [[[message err]|r] w2] eqn:Happly;
    rewrite (go_bind_eq _ _ _ _ _ Happly); [done|]. intros Hrep.
  assert (∀ n, server_view w' n = server_view w2 n) as Hv by (intros n; by eapply report_heaters_view).
  apply (apply_heaters_effect mem t) in Happly as [A1 A2].
  - rewrite (sorted_values_keys toApply cd_Name) in A2 by (intros k c H; by apply Ha). split.
    + intros n c H. rewrite Forall_forall in A1. eapply stored_same; [apply Hv|]. apply A1, sorted_values_elem. eauto.
    + intros n d H. eapply gone_same; [apply Hv|]. eapply gone_same; [apply A2|].
      * rewrite sorted_keys_elem. destruct (Hd _ _ H) as [_ ->]. by intros [].
      * apply D1, sorted_keys_elem. eauto.
  - rewrite (sorted_values_keys toApply cd_Name) by (intros k c H; by apply Ha). apply sorted_keys_NoDup.
  - apply NoDup_fmap_2_strong.
    + intros c c' [n H]%sorted_values_elem [n' H']%sorted_values_elem. by eapply Hi.
    + apply (NoDup_fmap_1 cd_Name). rewrite (sorted_values_keys toApply cd_Name) by (intros k c H; by apply Ha).
      apply sorted_keys_NoDup.
  - apply Forall_forall. intros c [n H]%sorted_values_elem. destruct (Ha _ _ H) as [Hn Hc].
    eapply to_apply_same; [| |exact Hc]; [|by rewrite D3]. apply D2. rewrite sorted_keys_elem, Hn.
    intros [d Hdd]. destruct (Hd _ _ Hdd). congruence.
Qed.

(** The daemon sets of a plan carry the names of exactly the targets that want their hash. *)
Lemma plan_targets_names cands p (want : list (string * string)) c name :
  plan_for cands p → (λ c, (cd_name c, cd_hash c)) <$> cands = want → Forall clean_name want.*1 →
  name ∈ Fields (plan_targets p c) ↔ (name, cd_hash c) ∈ want.
Proof.
  intros Hp Hw Hcl. unfold plan_targets, heater_targets.
  assert (∀ x, x ∈ default [] (hp_names p !! cd_hash c) ↔ (x, cd_hash c) ∈ want) as Hx.
  { intros x. rewrite (plan_names _ _ Hp), <- Hw, !list_elem_of_fmap. setoid_rewrite list_elem_of_filter.
    split; [intros (d & -> & <- & Hd); by exists d|]. intros (d & [= -> He] & Hd). exists d. by rewrite He. }
  rewrite Fields_Join; [by rewrite SortStableFunc_Permutation|].
  apply Forall_forall. intros x. rewrite SortStableFunc_Permutation. intros Hin%Hx.
  rewrite Forall_forall in Hcl. apply Hcl. by apply (list_elem_of_fmap_2 fst _ (x, cd_hash c)).
Qed.

(** Everything an effective pass decides and does. *)
Lemma ih_Sync_effect comps (w w' : W) status :
  NoDup ((λ x, heater_name l x.1) <$> omap (wanted l w) comps) → ih_NeedSync w = true →
  ih_Sync range_map l mem comps false w = ((status, None), w') →
  ∃ cands p w2, plan_for cands p ∧ NoDup (cd_Name <$> cands) ∧
    (λ c, (cd_name c, cd_hash c)) <$> cands = omap (wanted l w) comps ∧
    (∀ h c, hp_heater p !! h = Some c → to_apply mem w2 (plan_targets p) c ∧ stored w' c (plan_targets p c)) ∧
    (∀ d, d ∈ hm_list (memory w) → plan_apply range_map p !! GetName d = None → gone w' (GetName d)) ∧
    (∀ n, server_view w2 n = server_view w n) ∧ w_yts w2 = w_yts w ∧
    execute_plan mem false (plan_apply range_map p) (plan_delete range_map p (hm_list (memory w))) w2 = ((status, None), w').
Proof.
  intros Hnd Hneed. unfold ih_Sync. rewrite (go_bind_eq _ _ _ _ _ (eq_refl : gets ih_NeedSync w = (_, w))).
  rewrite Hneed. cbn [negb]. destruct (collect l mem comps heaterPlanZero w) as [[[message err]|p] w1] eqn:Hc;
    rewrite (go_bind_eq _ _ _ _ _ Hc); [done|].
  apply collect_effect in Hc as (cands & Hplan & [C1 C2 C3 C4 C5 C6 C7 C8 C9]); [|done].
  assert (NoDup (cd_Name <$> cands)) as Hnames.
  { rewrite <- C1, <- list_fmap_compose in Hnd. erewrite list_fmap_ext; [exact Hnd|].
    intros i c Hi. rewrite Forall_forall in C2. cbn. apply C2. by eapply list_elem_of_lookup_2. }
  assert (plan_for cands p) as Hp by (subst p; by apply deduplicate_all). clear Hplan.
  assert (∀ c c', c ∈ cands → c' ∈ cands → cd_index c = cd_index c' → c = c') as Hidx.
  { intros c c' [i Hi]%list_elem_of_lookup [j Hj]%list_elem_of_lookup He.
    assert (i = j) as ->; [|naive_solver]. eapply (NoDup_lookup (cd_index <$> cands)); [rewrite C3; apply NoDup_seq| |];
      rewrite list_lookup_fmap; [by rewrite Hi|by rewrite Hj, He]. }
  destruct (annotate_effect mem p (range_map (hp_heater p)) w1) as (A1 & _ & A3 & A4 & A5).
  { by eapply range_nodup. }
  { apply Forall_forall. intros [h c] Hin%range_elem; [|done]. destruct (plan_from _ _ Hp _ _ Hin) as [Hin' Hh]. cbn.
    split; [done|]. rewrite Forall_forall in C4. destruct (C4 c Hin') as [r Hr]. exists r. eapply built_ok_view; [apply C8|exact Hr]. }
  destruct (mapM_unit (annotate mem p) (range_map (hp_heater p)) w1) as [[] w2] eqn:Hann.
  rewrite (go_bind_eq _ _ _ _ _ Hann), (go_bind_eq _ _ _ _ _ (eq_refl : gets _ w2 = (_, w2))).
  assert (run (mapM_unit (annotate mem p) (range_map (hp_heater p))) w1 = w2) as E2 by (unfold run; by rewrite Hann).
  rewrite E2 in *. rewrite A3, C7. intros Hexec. exists cands, p, w2.
  pose proof (plan_apply_lookup range_map Hrange cands p Hp Hnames) as Happly.
  assert (∀ h c, hp_heater p !! h = Some c → to_apply mem w2 (plan_targets p) c) as Hto.
  { intros h c Hh. rewrite Forall_forall in A1. apply (A1 (h, c)). by apply range_elem. }
  pose proof Hexec as Hexec'. apply (execute_plan_effect (plan_targets p)) in Hexec' as [X1 X2].
  - split_and!; try done; [..|intros n; by rewrite A4|by rewrite A5].
    + intros h c Hh. split; [by eapply Hto|]. destruct (plan_from _ _ Hp _ _ Hh) as [_ <-]. eapply X1. by apply Happly.
    + intros d Hd Hno. destruct (plan_delete_lookup range_map p (hm_list (memory w)) (GetName d)) as [d' Hd']; eauto.
  - intros n c [Hh Hn]%Happly. split; [done|]. by eapply Hto.
  - intros n c n' c' [Hh _]%Happly [Hh' _]%Happly. apply Hidx; by eapply plan_from.
  - intros n d Hdel. split; [|by eapply plan_disjoint].
    apply plan_delete_from in Hdel as [Hdel|[Hn _]]; [|done].
    apply (plan_deletes _ _ Hp) in Hdel as (c & Hin & Hn & He & <- & _). rewrite Forall_forall in C4.
    destruct (C4 c Hin) as [r Hr]. rewrite <- Hn. eapply hcl_name. by apply (bo_view _ _ _ _ Hr).
Qed.

(** C22. Image heaters are brought in line with the specification.  Take a pass that is not dry, of a
    heater that has something to do (it has not completed for the current generation of the resource;
    afterwards a pass does nothing, and daemon sets that go missing are not recreated), that succeeds,
    where the daemon sets of different components have different names and these names are words.  It
    leaves one daemon set for each hash that some component asks for, the hash of what the daemon set
    would run: images, pull secrets, node constraints and the bound on concurrent pulls.  That daemon
    set carries the hash, and its annotation names exactly the components that share the hash, so that
    every component that asks for heating has one heater and components that ask for the same share
    it; every other daemon set of a heater that the pass had found is gone or being deleted.  This
    holds for any order in which the maps of the pass are traversed. *)
Theorem heaters_converge comps (w w' : W) status :
  NoDup ((λ x, heater_name l x.1) <$> omap (wanted l w) comps) → Forall clean_name (omap (wanted l w) comps).*1 →
  ih_NeedSync w = true → ih_Sync range_map l mem comps false w = ((status, None), w') →
  ∃ heaters : gmap string string,
    (∀ h, is_Some (heaters !! h) ↔ ∃ name, (name, h) ∈ omap (wanted l w) comps) ∧
    (∀ h n, heaters !! h = Some n → ∃ d, server_view w' n = inr d ∧
      obj_GetAnnotations d !! InstanceHashAnnotationName = Some h ∧
      ∀ name, name ∈ targets_of d ↔ (name, h) ∈ omap (wanted l w) comps) ∧
    (∀ h h' n, heaters !! h = Some n → heaters !! h' = Some n → h = h') ∧
    (∀ d, d ∈ hm_list (memory w) → (∃ h, heaters !! h = Some (GetName d)) ∨ gone w' (GetName d)).
Proof.
  intros Hnd Hcl Hneed Hsync.
  destruct (ih_Sync_effect _ _ _ _ Hnd Hneed Hsync) as (cands & p & w2 & Hp & Hnames & C1 & Hst & Hgone & _).
  pose proof (plan_apply_lookup range_map Hrange cands p Hp Hnames) as Happly.
  exists (cd_Name <$> hp_heater p). split_and!.
  - intros h. rewrite lookup_fmap, fmap_is_Some. split.
    + intros [c Hh]. destruct (plan_from _ _ Hp _ _ Hh) as [Hin <-]. exists (cd_name c).
      rewrite <- C1. by apply (list_elem_of_fmap_2 (λ c, (cd_name c, cd_hash c))).
    + intros [name Hin]. rewrite <- C1 in Hin. apply list_elem_of_fmap in Hin as (c & [= -> ->] & Hin).
      by apply (plan_covers _ _ Hp).
  - intros h n. rewrite lookup_fmap_Some. intros (c & <- & Hh). destruct (Hst _ _ Hh) as [_ (d & Hd & Hhash & Ht)].
    destruct (plan_from _ _ Hp _ _ Hh) as [Hin <-]. exists d. split_and!; [done|done|].
    intros name. unfold targets_of. rewrite Ht. by eapply plan_targets_names.
  - intros h h' n. rewrite !lookup_fmap_Some. intros (c & <- & Hh) (c' & Hcc & Hh').
    destruct (plan_from _ _ Hp _ _ Hh) as [Hin <-]. destruct (plan_from _ _ Hp _ _ Hh') as [Hin' <-].
    by rewrite (same_candidate cands c' c Hnames Hin' Hin Hcc).
  - intros d Hd. destruct (plan_apply range_map p !! GetName d) as [c|] eqn:Hap; [left|right; by apply Hgone].
    apply Happly in Hap as [Hh Hn]. exists (cd_hash c). rewrite lookup_fmap, Hh. cbn. by rewrite Hn.
Qed.

(** *** Completion *)

(** The loop keeps [complete] only while it finds heaters that are stored as they should be and
    ready; then it writes nothing. *)
Lemma apply_heaters_complete dry cs r r' w w' :
  apply_heaters mem dry cs r w = (inr r', w') → hr_complete r' = true →
  hr_complete r = true ∧ w' = w ∧ hr_syncStatus r' = hr_syncStatus r ∧
  Forall (λ c, heater_changed mem w (cd_index c) = false ∧
               (GetDaemonSetStatus (OldObject (built_cell mem (cd_index c)) w)).1 = true) cs.
Proof.
  revert r w. induction cs as [|c cs IH]; intros r w; cbn [apply_heaters].
  { intros [= <- <-] H. by split_and!. }
  rewrite go_eta. go_step. destruct (GetDaemonSetStatus _) as [ready message] eqn:Hs. go_step.
  destruct (heater_changed mem w (cd_index c)) eqn:Hch; cbn [andb negb].
  - destruct (val_of _ w); [by go_step|]. rewrite <- go_eta. intros Hr Hc. destruct (IH _ _ Hr Hc) as [Hf _].
    cbn in Hf. by rewrite andb_false_r in Hf.
  - go_step. rewrite <- go_eta. intros Hr Hc. destruct (IH _ _ Hr Hc) as (Hf & -> & Hsy & Hall).
    cbn in Hf. apply andb_true_iff in Hf as [Hf Hready]. split_and!; [done|done|done|]. apply Forall_cons. by rewrite Hs.
Qed.

Lemma delete_heaters_yts toDelete names : preserves w_yts (delete_heaters (E:=E) toDelete names).
Proof. induction names as [|n names IH]; cbn [delete_heaters]; unfold DeleteObject; go_frame. Qed.

Lemma apply_heaters_yts dry cs r : preserves w_yts (apply_heaters mem dry cs r).
Proof.
  pose proof (λ i, resource_Sync_yts (built_cell mem i)) as Hs. revert r.
  induction cs as [|c cs IH]; intros r; cbn [apply_heaters]; go_frame.
Qed.

Lemma report_heaters_complete {ML : MetaConditionsLaws MC} total r (w : W) :
  unique_types (w_conditions w) →
  IsStatusConditionTrue (run (report_heaters total r) w) ConditionImageHeaterComplete = hr_complete r.
Proof.
  intros Hu. unfold report_heaters. cbv zeta. go_step.
  set (c := condition ConditionImageHeaterComplete _ _ _). set (w1 := run (RecordNormal _ _) w).
  destruct (SetStatusCondition_find c w1 Hu) as [(c' & Hc & Hcc) _].
  unfold IsStatusConditionTrue, meta_IsStatusConditionTrue, meta_IsStatusConditionPresentAndEqual.
  unfold GetStatusCondition in Hc. change (cond_Type c) with ConditionImageHeaterComplete in Hc. rewrite Hc.
  injection Hcc as _ Hst _ _ _. rewrite Hst. by destruct (hr_complete r).
Qed.

Lemma execute_plan_complete {ML : MetaConditionsLaws MC} toApply toDelete (w w' : W) status :
  unique_types (w_conditions w) → execute_plan mem false toApply toDelete w = ((status, None), w') →
  IsStatusConditionTrue w' ConditionImageHeaterComplete = true →
  cs_SyncStatus status = SyncStatusReady ∧ (∀ n, server_view w' n = server_view w n) ∧
  Forall (λ c, heater_changed mem w (cd_index c) = false ∧
               (GetDaemonSetStatus (OldObject (built_cell mem (cd_index c)) w)).1 = true) (sorted_values toApply).
Proof.
  intros Hu. unfold execute_plan. cbv zeta.
  destruct (delete_heaters toDelete (sorted_keys toDelete) w) as [failed w1] eqn:Hdel.
  rewrite (go_bind_eq _ _ _ _ _ Hdel). destruct failed as [[m e]|]; [done|]. set (r0 := mkHeaterReport 0 _ _ "").
  destruct (apply_heaters mem false (sorted_values toApply) r0 w1) as [[[m e]|r] w2] eqn:Ha;
    rewrite (go_bind_eq _ _ _ _ _ Ha); [done|]. rewrite go_eta. intros [= <- <-] Hcomp.
  rewrite report_heaters_complete in Hcomp.
  - destruct (apply_heaters_complete _ _ _ _ _ _ Ha Hcomp) as (Hidle & -> & Hsy & Hall). cbn in Hidle.
    apply bool_decide_eq_true in Hidle as Hnil. subst toDelete. injection Hdel as <-.
    split_and!; [|done|done]. cbn. rewrite Hsy. cbn. by rewrite bool_decide_eq_true_2.
  - pose proof (apply_heaters_yts false (sorted_values toApply) r0 w1) as Hy2.
    pose proof (delete_heaters_yts toDelete (sorted_keys toDelete) w) as Hy1.
    unfold run in Hy1, Hy2. rewrite Hdel in Hy1. rewrite Ha in Hy2. unfold w_conditions, w_status in *.
    cbn in Hy1, Hy2. by rewrite Hy2, Hy1.
Qed.

(** The image heater is declared complete only when it is: a successful pass that records
    the condition as true deleted nothing and wrote nothing, and every component that asks for
    a heater is served by a stored daemon set with the hash of its images whose pods are
    running on all desired nodes. *)
Theorem heaters_complete {ML : MetaConditionsLaws MC} comps (w w' : W) status :
  NoDup ((λ x, heater_name l x.1) <$> omap (wanted l w) comps) → Forall clean_name (omap (wanted l w) comps).*1 →
  unique_types (w_conditions w) → ih_NeedSync w = true → ih_Sync range_map l mem comps false w = ((status, None), w') →
  IsStatusConditionTrue w' ConditionImageHeaterComplete = true →
  cs_SyncStatus status = SyncStatusReady ∧
  ∀ name h, (name, h) ∈ omap (wanted l w) comps →
    ∃ n d, server_view w n = inr d ∧ server_view w' n = inr d ∧ (GetDaemonSetStatus d).1 = true ∧
      name ∈ targets_of d ∧ obj_GetAnnotations d !! InstanceHashAnnotationName = Some h.
Proof.
  intros Hnd Hcl Hu Hneed Hsync Hcomp.
  destruct (ih_Sync_effect _ _ _ _ Hnd Hneed Hsync) as (cands & p & w2 & Hp & Hnames & C1 & Hst & _ & Hv & Hy & Hexec).
  apply execute_plan_complete in Hexec as (Hready & Hv' & Hall); [|unfold w_conditions, w_status in *; by rewrite Hy|done].
  split; [done|]. intros name h Hin. pose proof Hin as Hwant. rewrite <- C1 in Hin.
  apply list_elem_of_fmap in Hin as (c & [= -> ->] & Hin). destruct (plan_covers _ _ Hp _ Hin) as [c0 Hh].
  destruct (plan_from _ _ Hp _ _ Hh) as [Hin0 He]. destruct (Hst _ _ Hh) as [Hto (d & Hd & Hhash & Ht)].
  rewrite Forall_forall in Hall. destruct (Hall c0) as [Hch Hok].
  { apply sorted_values_elem. exists (cd_Name c0). apply (plan_apply_lookup range_map Hrange cands p Hp Hnames). by rewrite He. }
  destruct (unchanged_stored mem (plan_targets p) c0 w2 Hto Hch) as [Hold _]. rewrite <- Hv' in Hold.
  assert (d = OldObject (built_cell mem (cd_index c0)) w2) as Hdo by congruence. rewrite Hv', Hv in Hd.
  exists (cd_Name c0), d. rewrite Hv', Hv. split_and!; [done|done|by rewrite Hdo| |by rewrite <- He].
  unfold targets_of. rewrite Ht. rewrite <- He in Hwant. by eapply plan_targets_names.
Qed.

End converge.

(** ** The contract of a component, and what an update waits for *)

Section contract.
Context {E : Type} {MC : MetaConditions} {ML : MetaConditionsLaws MC} {SC : StatusClient E} {HC : HeaterCodec}.
Context `{HKD : !KubeClient E DaemonSet}.
Context (ListDaemonSets : string → string * string → string → go E (error + list DaemonSet)).
Context (range_map : gmap string candidate → list (string * candidate)).
Context (l : Labeller) (mem : lens E heaterMem) (comps : list heatable).

Lemma confined_in_hmem f : confined (in_hmem mem f).
Proof. apply confined_set_env. Qed.

Lemma confined_collect cs p : confined (collect l mem cs p).
Proof.
  pose proof confined_in_hmem. revert p. induction cs as [|c cs IH]; intros p; cbn [collect]; go_confined.
Qed.

Lemma confined_annotate p es : confined (mapM_unit (annotate mem p) es).
Proof.
  pose proof confined_in_hmem. induction es as [|e es IH]; cbn [mapM_unit]; unfold annotate; go_confined.
Qed.

Lemma confined_delete_heaters m names : confined (delete_heaters (E:=E) m names).
Proof. induction names as [|n names IH]; cbn [delete_heaters]; go_confined. Qed.

Lemma confined_apply_heaters dry cs r : confined (apply_heaters mem dry cs r).
Proof. revert r. induction cs as [|c cs IH]; intros r; cbn [apply_heaters]; go_confined. Qed.

Lemma confined_ih_Sync dry : confined (ih_Sync range_map l mem comps dry).
Proof.
  pose proof confined_collect. pose proof confined_annotate. pose proof confined_delete_heaters.
  pose proof confined_apply_heaters. unfold ih_Sync, execute_plan, report_heaters. go_confined.
Qed.

Lemma confined_ih_Fetch : confined (ih_Fetch ListDaemonSets l mem).
Proof. pose proof confined_in_hmem. unfold ih_Fetch. go_confined. Qed.

(** The image heater keeps the contract of a component. *)
Lemma ih_component_frame base : ComponentFrame (ih_component ListDaemonSets range_map l mem comps base).
Proof.
  destruct confined_ih_Fetch as (F1 & F2 & F3). pose proof confined_ih_Sync as HS.
  split; cbn [ci_Fetch ci_NeedUpdate ci_Sync ci_UpdatePreCheck ih_component]; try done;
    try (intros dry; apply (HS dry)); first [apply preserves_ret | apply keeps_ret].
Qed.

(** *** The table of heaters *)

Lemma ih_Fetch_table (w : World E) :
  val_of (ih_Fetch ListDaemonSets l mem) w = None → LensLaws mem →
  let m := hmem mem (run (ih_Fetch ListDaemonSets l mem) w) in
  hm_names m = index_names 0 (hm_list m) ∅.
Proof.
  intros Hf Hl. unfold ih_Fetch in *. revert Hf. go_step. destruct (val_of (in_env _) w) as [e|items]; [done|].
  go_step. intros _. cbv zeta. unfold hmem, run at 1 3, in_hmem. cbn. by rewrite !lget_lset.
Qed.

(** C23. No component is updated before its images are on the nodes: when the update flow leaves
    the state that waits for image heaters after the heater has been fetched, every component
    about to be updated either is named by none of the daemon sets that were found, or is
    served by one that exists, is not being deleted, has been observed by its controller and
    runs updated, ready and available pods on all desired nodes. *)
Theorem heated_before_update {Hl : LensLaws mem} cm cms (w : World E) :
  cm_getHeaterStatus cm = Some (GetHeaterStatus l mem) →
  val_of (ih_Fetch ListDaemonSets l mem) w = None →
  allUpdatingImagesAreHeated cm cms (run (ih_Fetch ListDaemonSets l mem) w) = true →
  ∀ c, c ∈ cms_nowUpdating cms →
    let name := GetImageHeaterName (ForComponent l (component_Type c) (component_Name c)) in
    let found := hm_list (hmem mem (run (ih_Fetch ListDaemonSets l mem) w)) in
    (∀ d, d ∈ found → name ∉ targets_of d) ∨
    ∃ d, d ∈ found ∧ name ∈ targets_of d ∧ GetResourceVersion d ≠ "" ∧ ds_DeletionTimestamp d = None ∧
      dst_ObservedGeneration (ds_Status d) = ds_Generation d ∧
      (dst_DesiredNumberScheduled (ds_Status d) = 0%Z ∨
       Forall (λ n, dst_DesiredNumberScheduled (ds_Status d) ≤ n)%Z
         [ dst_CurrentNumberScheduled (ds_Status d); dst_UpdatedNumberScheduled (ds_Status d);
           dst_NumberReady (ds_Status d); dst_NumberAvailable (ds_Status d) ]).
Proof.
  intros Hcm Hf Hall c Hc name found. unfold allUpdatingImagesAreHeated in Hall. rewrite Hcm, forallb_forall in Hall.
  specialize (Hall c (proj1 (list_elem_of_In _ _) Hc)). unfold GetHeaterStatus in Hall. fold name in Hall.
  rewrite (ih_Fetch_table w Hf Hl) in Hall. fold found in Hall.
  destruct (index_names 0 found ∅ !! name) as [r|] eqn:Hr.
  - right. apply index_names_Some in Hr as [Hr|(j & d & -> & Hj & Hin)]; [done|]. cbn [Nat.add] in Hall.
    assert (deref_heater (hmem mem (run (ih_Fetch ListDaemonSets l mem) w)) (Listed j) = d) as Hd.
    { cbn. fold found. by rewrite Hj. }
    rewrite Hd in Hall. exists d. split; [by eapply list_elem_of_lookup_2|]. split; [done|].
    apply GetDaemonSetStatus_ready. by destruct (GetDaemonSetStatus d) as [[] message].
  - left. by apply index_names_None in Hr as [_ Hr].
Qed.

End contract.

(** ** Heaters on a small Kubernetes *)

Lemma outcome_without_error {S A} (m : go S (A * option error)) (s : S) :
  (val_of m s).2 = None → m s = (((val_of m s).1, None), run m s).
Proof. unfold val_of, run. destruct (m s) as [[a e] s']. cbn. by intros ->. Qed.

Record HeaterKube := mkHeaterKube { hk_store : gmap string DaemonSet; hk_mem : heaterMem }.

Definition hk_cell : lens HeaterKube heaterMem := mkLens hk_mem (λ m e, mkHeaterKube (hk_store e) m).

Definition hk_get (n : string) (e : HeaterKube) : option DaemonSet :=
  d ← hk_store e !! n; if GetName d == n then Some d else None.

Definition hk_put (d : DaemonSet) (e : HeaterKube) : HeaterKube :=
  mkHeaterKube (<[GetName d := SetResourceVersion "1" d]> (hk_store e)) (hk_mem e).

#[export] Instance hk_client : KubeClient HeaterKube DaemonSet := {
  client_Get n e := (match hk_get n e with Some d => inr d | None => inl NotFound end, e);
  client_Create d e := ((None, SetResourceVersion "1" d), hk_put d e);
  client_Update d e := ((None, SetResourceVersion "1" d), hk_put d e);
  client_Delete d e := (None, mkHeaterKube (delete (GetName d) (hk_store e)) (hk_mem e));
  SetControllerReference _ d := inr d;
}.

#[export] Instance hk_status : StatusClient HeaterKube := { Status_Update _ e := (None, e); GetVersion := "1" }.

Lemma hk_get_put d e : hk_get (GetName d) (hk_put d e) = Some (SetResourceVersion "1" d).
Proof.
  unfold hk_get, hk_put. cbn [hk_store]. rewrite lookup_insert_eq. cbn [mbind option_bind].
  rewrite bool_decide_eq_true_2; reflexivity.
Qed.

Lemma hk_get_other d n e : n ≠ GetName d → hk_get n (hk_put d e) = hk_get n e.
Proof. intros Hn. unfold hk_get, hk_put. cbn [hk_store]. by rewrite lookup_insert_ne. Qed.

#[export] Instance hk_laws : HeaterClientLaws HeaterKube hk_cell.
Proof.
  split; try done.
  - split; try done.
    + by intros y d d' [= ->].
    + intros d e _. exists (SetResourceVersion "1" d). unfold val_of, run. cbn [fst snd client_Get client_Create hk_client].
      by rewrite hk_get_put.
    + intros d e _. exists (SetResourceVersion "1" d). unfold val_of, run. cbn [fst snd client_Get client_Update hk_client].
      by rewrite hk_get_put.
    + intros d e n Hn. unfold val_of, run. cbn [fst snd client_Get client_Create hk_client]. by rewrite hk_get_other.
    + intros d e n Hn. unfold val_of, run. cbn [fst snd client_Get client_Update hk_client]. by rewrite hk_get_other.
  - split; [done|]. by intros [].
  - intros n e o. unfold val_of. cbn [fst client_Get hk_client]. unfold hk_get.
    destruct (hk_store e !! n) as [d|]; cbn [mbind option_bind]; [|discriminate].
    case_bool_decide; [|discriminate]. by intros [= <-].
  - intros d e _. left. unfold val_of, run. cbn [fst snd client_Get client_Delete hk_client]. unfold hk_get. cbn [hk_store].
    by rewrite lookup_delete_eq.
  - intros d e n Hn. unfold val_of, run. cbn [fst snd client_Get client_Delete hk_client]. unfold hk_get. cbn [hk_store]. by rewrite lookup_delete_ne.
Qed.

(** Encodings that keep what differs in the example. *)
#[export] Instance hk_codec : HeaterCodec := {
  json_Tolerations l := inr (fmt_strings l);
  json_NodeSelector m := inr (fmt_strings (sorted_keys m));
  json_Affinity o := inr (default "null" o);
  json_ImagePullSecrets l := inr (fmt_strings l);
  json_Containers l := inr (fmt_strings (hct_Image <$> l));
  json_UpdateStrategy n := inr (fmt_d n);
  sha256_hex s := s;
}.

Definition heater_plan_spec : YtsaurusSpec :=
  spec_set_UpdatePlan [mkSelector ComponentClassUnspecified (mkComponent ImageHeaterType "") None None] YtsaurusSpecZero.

Definition hk_world (e : HeaterKube) : World HeaterKube :=
  mkWorld (mkYtsaurus "minisaurus" "default" 7 heater_plan_spec (yts_Status example_yts)) [] 200 ∅ e.

Definition example_target (image : string) : option ImageHeaterTarget :=
  Some (mkImageHeaterTarget {[ "image" := image ]} [] ∅ [] None).

(** Masters and data nodes share an image, exec nodes have their own, the client has none. *)
Definition example_heatables : list heatable :=
  [ mkHeatable (example_labeller MasterType "") (example_target "ytsaurus:25.1");
    mkHeatable (example_labeller YtsaurusClientType "") None;
    mkHeatable (example_labeller DataNodeType "") (example_target "ytsaurus:25.1");
    mkHeatable (example_labeller ExecNodeType "") (example_target "jobs:1") ].

Definition heater_l : Labeller := example_labeller ImageHeaterType "".

(** The heater of an earlier image of the masters. *)
Definition stale_heater : DaemonSet :=
  mkDaemonSet (mkObjectMeta "ih-old-cluster" "1" {[ ImageHeaterTargetsAnnotationName := "ms-cluster" ]} []) ∅ 0 None ∅ 100 ∅ ∅
    HeaterPodSpecZero DaemonSetStatusZero.

(** What [List] returns here: the whole store, which holds heaters only. *)
Definition hk_list (_ : string) (_ : string * string) (_ : string) : go HeaterKube (error + list DaemonSet) :=
  λ e, (inr (map_to_list (hk_store e)).*2, e).

Definition hk_empty_mem : heaterMem := mkHeaterMem [] ∅ [].

Definition fetched (e : HeaterKube) : World HeaterKube := run (ih_Fetch hk_list heater_l hk_cell) (hk_world e).

Definition first_world : World HeaterKube := fetched (mkHeaterKube {[ "ih-old-cluster" := stale_heater ]} hk_empty_mem).

Abbreviation example_heater_pass := (ih_Sync map_to_list heater_l hk_cell example_heatables false).

Definition example_want : list (string * string) := omap (wanted heater_l first_world) example_heatables.

Lemma example_want_names : example_want.*1 = ["ms-cluster"; "dnd-cluster"; "end-cluster"].
Proof. vm_compute. reflexivity. Qed.

#[export] Instance clean_name_dec s : Decision (clean_name s).
Proof. unfold clean_name, no_space. apply _. Defined.

Lemma heaters_converge_witness :
  let w' := run example_heater_pass first_world in
  (∃ heaters : gmap string string,
    (∀ h, is_Some (heaters !! h) ↔ ∃ name, (name, h) ∈ example_want) ∧
    (∀ h n, heaters !! h = Some n → ∃ d, server_view w' n = inr d ∧
      obj_GetAnnotations d !! InstanceHashAnnotationName = Some h ∧
      ∀ name, name ∈ targets_of d ↔ (name, h) ∈ example_want) ∧
    (∀ h h' n, heaters !! h = Some n → heaters !! h' = Some n → h = h') ∧
    (∀ d, d ∈ hm_list (hmem hk_cell first_world) → (∃ h, heaters !! h = Some (GetName d)) ∨ gone w' (GetName d))).
Proof.
  refine (heaters_converge map_to_list (λ m, reflexivity _) heater_l hk_cell example_heatables first_world _
            (val_of example_heater_pass first_world).1 _ _ _ _).
  - apply (bool_decide_unpack _). vm_compute. exact I.
  - apply (bool_decide_unpack _). vm_compute. exact I.
  - vm_compute. reflexivity.
  - apply outcome_without_error. vm_compute. reflexivity.
Defined.

(** After the pass the pods come up. *)
Definition all_up (d : DaemonSet) : DaemonSet :=
  mkDaemonSet (ds_meta d) (ds_Labels d) (ds_Generation d) (ds_DeletionTimestamp d) (ds_Selector d) (ds_MaxUnavailable d)
    (ds_PodLabels d) (ds_PodAnnotations d) (ds_PodSpec d) (mkDaemonSetStatus 0 3 3 3 3 3).

Definition heated_store : gmap string DaemonSet := all_up <$> hk_store (w_env (run example_heater_pass first_world)).

Definition heated_world : World HeaterKube := fetched (mkHeaterKube heated_store hk_empty_mem).

Lemma heaters_complete_witness :
  IsStatusConditionTrue (run example_heater_pass heated_world) ConditionImageHeaterComplete = true ∧
  cs_SyncStatus (val_of example_heater_pass heated_world).1 = SyncStatusReady ∧
  ∀ name h, (name, h) ∈ omap (wanted heater_l heated_world) example_heatables →
    ∃ n d, server_view heated_world n = inr d ∧ server_view (run example_heater_pass heated_world) n = inr d ∧
      (GetDaemonSetStatus d).1 = true ∧ name ∈ targets_of d ∧
      obj_GetAnnotations d !! InstanceHashAnnotationName = Some h.
Proof.
  split; [vm_compute; reflexivity|].
  refine (heaters_complete map_to_list (λ m, reflexivity _) heater_l hk_cell example_heatables heated_world _
            (val_of example_heater_pass heated_world).1 _ _ _ _ _ _).
  - apply (bool_decide_unpack _). vm_compute. exact I.
  - apply (bool_decide_unpack _). vm_compute. exact I.
  - apply (bool_decide_unpack _). vm_compute. exact I.
  - vm_compute. reflexivity.
  - apply outcome_without_error. vm_compute. reflexivity.
  - vm_compute. reflexivity.
Defined.

(** The masters and the exec nodes are about to be updated. *)
Definition updating_status : ComponentManagerStatus :=
  mkCMStatus true true true true [] [] [] [] [] [] [mkComponent MasterType ""; mkComponent ExecNodeType ""]
    false false false false false false false.

Definition heater_manager : ComponentManager HeaterKube := mkComponentManager [] (Some (GetHeaterStatus heater_l hk_cell)).

Definition heated_env : World HeaterKube := hk_world (mkHeaterKube heated_store hk_empty_mem).

Lemma heated_before_update_witness :
  ∃ d, d ∈ hm_list (hmem hk_cell (run (ih_Fetch hk_list heater_l hk_cell) heated_env)) ∧
    "ms-cluster" ∈ targets_of d ∧ GetResourceVersion d ≠ "".
Proof.
  destruct (heated_before_update hk_list heater_l hk_cell (Hl := hcl_lens) heater_manager updating_status heated_env)
    with (c := mkComponent MasterType "") as [Hno|(d & Hd & Ht & Hv & _)].
  - reflexivity.
  - vm_compute. reflexivity.
  - vm_compute. reflexivity.
  - left.
  - exfalso. assert (∃ d, d ∈ hm_list (hmem hk_cell (run (ih_Fetch hk_list heater_l hk_cell) heated_env)) ∧
      "ms-cluster" ∈ targets_of d) as (d & Hd & Ht).
    { apply Exists_exists. apply (bool_decide_unpack _). vm_compute. exact I. }
    exact (Hno d Hd Ht).
  - by exists d.
Defined.
