(* ===== verification/Timbertruck.v ===== *)
(** * Structured-log delivery (src/pkg/components/timbertruck.go)

    Which components deliver structured logs with a timbertruck sidecar.  The same
    resolution decides the sidecars, the virtual Timbertruck component, its step of the
    update flow and the preparation of its tables. *)

From S2P Require Import Prelude Kubernetes ApiTypes Labeller.

Record timbertruckDelivery := mkDelivery {
  ttd_Image : string;
  ttd_LogsDirectory : string;
  ttd_LogsDeliveryPath : string;
  ttd_Loggers : list StructuredLoggerSpec;
}.

Definition DefaultTimbertruckDirectoryPath := "//sys/admin/logs".

(** [p != nil && *p != ""]. *)
Definition nonempty (p : option string) : option string :=
  match p with Some s => if s != "" then Some s else None | None => None end.

Definition effectiveTimbertruckImage (componentTT commonTT : option TimbertruckSpec) : string :=
  match componentTT ≫= (λ tt, nonempty (tts_Image tt)), commonTT ≫= (λ tt, nonempty (tts_Image tt)) with
  | Some image, _ => image
  | None, Some image => image
  | None, None => ""
  end.

Definition effectiveLogsDeliveryPath (componentTT commonTT : option TimbertruckSpec) : string :=
  match componentTT ≫= (λ tt, nonempty (tts_DirectoryPath tt)),
        commonTT ≫= (λ tt, nonempty (tts_DirectoryPath tt)) with
  | Some path, _ => path
  | None, Some path => path
  | None, None => DefaultTimbertruckDirectoryPath
  end.

Definition deliveredStructuredLoggers (componentTT : option TimbertruckSpec)
    (loggers : list StructuredLoggerSpec) : list StructuredLoggerSpec :=
  let explicit := List.filter (λ l, Deref (sl_EnableDelivery l) false) loggers in
  let anyExplicit := ContainsFunc loggers (λ l, match sl_EnableDelivery l with Some _ => true | None => false end) in
  if anyExplicit then explicit
  else match componentTT with Some _ => loggers | None => [] end.

Definition resolveTimbertruckDelivery (componentTT commonTT : option TimbertruckSpec)
    (instanceSpec : InstanceSpec) : option timbertruckDelivery :=
  match deliveredStructuredLoggers componentTT (is_StructuredLoggers instanceSpec) with
  | [] => None
  | delivered =>
      let image := effectiveTimbertruckImage componentTT commonTT in
      if image == "" then None else
      match FindFirstLocation (is_Locations instanceSpec) LocationTypeLogs with
      | None => None
      | Some logsLocation =>
          Some (mkDelivery image (loc_Path logsLocation) (effectiveLogsDeliveryPath componentTT commonTT)
                  delivered)
      end
  end.

(** The labeller of a source is determined by its component type and instance group; a
    master's group by its cell tag. *)
Record timbertruckLoggerSource := mkSource {
  src_componentTT : option TimbertruckSpec;
  src_instanceSpec : InstanceSpec;
  src_type : ComponentType;
  src_group : string;
}.

(** The instance group [GetMasterLabeller] gives a cell (src/pkg/ytconfig/generator.go). *)
Definition masterInstanceGroup (primaryCellTag cellTag : Z) : string :=
  if cellTag != primaryCellTag then GetCellName LabellerZero cellTag else "".

Definition timbertruckLoggerSources (spec : YtsaurusSpec) : list timbertruckLoggerSource :=
  let primaryTag := ms_CellTag (spec_PrimaryMasters spec) in
  let addMaster (m : MastersSpec) :=
    mkSource (ms_Timbertruck m) (ms_InstanceSpec m) MasterType (masterInstanceGroup primaryTag (ms_CellTag m)) in
  let add t group i := mkSource None i t group in
  let addOptional t (i : option InstanceSpec) :=
    match i with Some i => [add t "" i] | None => [] end in
  [addMaster (spec_PrimaryMasters spec)] ++
  (addMaster <$> spec_SecondaryMasters spec) ++
  addOptional MasterCacheType (mcs_InstanceSpec <$> spec_MasterCaches spec) ++
  [add DiscoveryType "" (spec_Discovery spec)] ++
  ((λ p, add HttpProxyType (hps_Role p) (hps_InstanceSpec p)) <$> spec_HTTPProxies spec) ++
  ((λ p, add RpcProxyType (rps_Role p) (rps_InstanceSpec p)) <$> spec_RPCProxies spec) ++
  ((λ p, add TcpProxyType (tps_Role p) (tps_InstanceSpec p)) <$> spec_TCPProxies spec) ++
  ((λ p, add KafkaProxyType (kps_Role p) (kps_InstanceSpec p)) <$> spec_KafkaProxies spec) ++
  ((λ p, add DataNodeType (dns_Name p) (dns_InstanceSpec p)) <$> spec_DataNodes spec) ++
  ((λ p, add ExecNodeType (ens_Name p) (ens_InstanceSpec p)) <$> spec_ExecNodes spec) ++
  ((λ p, add TabletNodeType (tns_Name p) (tns_InstanceSpec p)) <$> spec_TabletNodes spec) ++
  addOptional SchedulerType (spec_Schedulers spec) ++
  addOptional ControllerAgentType (spec_ControllerAgents spec) ++
  addOptional QueryTrackerType (spec_QueryTrackers spec) ++
  addOptional YqlAgentType (yqs_InstanceSpec <$> spec_YQLAgents spec) ++
  addOptional QueueAgentType (spec_QueueAgents spec) ++
  addOptional CypressProxyType (cps_InstanceSpec <$> spec_CypressProxies spec) ++
  addOptional BundleControllerType (spec_BundleController spec) ++
  addOptional TabletBalancerType (spec_TabletBalancer spec).

Definition source_delivery (spec : YtsaurusSpec) (s : timbertruckLoggerSource) : option timbertruckDelivery :=
  resolveTimbertruckDelivery (src_componentTT s) (cs_Timbertruck (spec_CommonSpec spec)) (src_instanceSpec s).

Definition TimbertruckDeliveryEnabled (spec : YtsaurusSpec) : bool :=
  ContainsFunc (timbertruckLoggerSources spec) (λ s,
    match source_delivery spec s with Some _ => true | None => false end).

Record ComponentLoggers := mkComponentLoggers {
  cl_ComponentName : option string;  (* [None]: the name function panics *)
  cl_StructuredLoggers : list StructuredLoggerSpec;
  cl_LogsDeliveryPath : string;
}.

Definition GetDeliveryLoggers (spec : YtsaurusSpec) : list ComponentLoggers :=
  omap (λ s, match source_delivery spec s with
             | None => None
             | Some delivery =>
                 Some (mkComponentLoggers (GetServiceKebabCase (src_type s)) (ttd_Loggers delivery)
                         (ttd_LogsDeliveryPath delivery))
             end) (timbertruckLoggerSources spec).

(** ** Delivery is decided consistently *)

Lemma resolveTimbertruckDelivery_Some componentTT commonTT i d :
  resolveTimbertruckDelivery componentTT commonTT i = Some d →
  ttd_Loggers d ≠ [] ∧ ttd_Image d ≠ "" ∧
  ttd_Loggers d = deliveredStructuredLoggers componentTT (is_StructuredLoggers i) ∧
  ∃ l, FindFirstLocation (is_Locations i) LocationTypeLogs = Some l ∧ ttd_LogsDirectory d = loc_Path l.
Proof.
  unfold resolveTimbertruckDelivery.
  destruct (deliveredStructuredLoggers _ _) as [|x loggers] eqn:Hd; [done|].
  destruct (bool_decide_reflect (effectiveTimbertruckImage componentTT commonTT = "")); [done|].
  destruct (FindFirstLocation _ _) as [l|]; [|done]. intros [= <-]. cbn. split_and!; eauto.
Qed.

(** No component type that may deliver lacks a delivery name. *)
Lemma sources_named spec s :
  s ∈ timbertruckLoggerSources spec → GetServiceKebabCase (src_type s) ≠ None.
Proof.
  revert s. apply Forall_forall. unfold timbertruckLoggerSources. rewrite !Forall_app.
  split_and!; try (apply Forall_fmap, Forall_true; done); try (by repeat constructor);
    case_match; by repeat constructor.
Qed.

(** The operator prepares log delivery exactly when some sidecar delivers: the
    virtual Timbertruck component and its update step are enabled if and only if at least
    one component has loggers to prepare tables for, and each entry has a delivery name and
    at least one logger. *)
Theorem timbertruck_delivery_agrees spec :
  (TimbertruckDeliveryEnabled spec = true ↔ GetDeliveryLoggers spec ≠ []) ∧
  ∀ e, e ∈ GetDeliveryLoggers spec → cl_ComponentName e ≠ None ∧ cl_StructuredLoggers e ≠ [].
Proof.
  assert (∀ e, e ∈ GetDeliveryLoggers spec ↔ ∃ s d, s ∈ timbertruckLoggerSources spec ∧
    source_delivery spec s = Some d ∧
    e = mkComponentLoggers (GetServiceKebabCase (src_type s)) (ttd_Loggers d) (ttd_LogsDeliveryPath d))
    as Hin.
  { intros e. unfold GetDeliveryLoggers. rewrite list_elem_of_omap. split.
    - intros (s & Hs & He). destruct (source_delivery spec s) as [d|] eqn:Hd; [|done].
      injection He as <-. eauto.
    - intros (s & d & Hs & Hd & ->). exists s. split; [done|]. by rewrite Hd. }
  split.
  - unfold TimbertruckDeliveryEnabled. rewrite ContainsFunc_true. split.
    + intros (s & Hs & Hd). destruct (source_delivery spec s) as [d|] eqn:E1; [|done].
      intros Hnil. assert (mkComponentLoggers (GetServiceKebabCase (src_type s)) (ttd_Loggers d)
        (ttd_LogsDeliveryPath d) ∈ GetDeliveryLoggers spec) as He by (apply Hin; eauto).
      rewrite Hnil in He. by apply elem_of_nil in He.
    + intros Hne. destruct (GetDeliveryLoggers spec) as [|e l] eqn:Hl; [done|].
      destruct (proj1 (Hin e) ltac:(left)) as (s & d & Hs & Hd & _). exists s. by rewrite Hd.
  - intros e He. apply Hin in He as (s & d & Hs & Hd & ->). cbn. split; [by eapply sources_named|].
    unfold source_delivery in Hd. by apply resolveTimbertruckDelivery_Some in Hd as (? & _).
Qed.
