(* ===== verification/Validators.v ===== *)
(** * The admission webhook (src/validators)

    What the API server accepts as a Ytsaurus resource: one function per check, each
    returning the list of field errors of the Go code, and the composition that rejects
    the resource when the list is not empty.  The label and annotation rules of the API
    machinery, the YAML decoder of the sidecars, the semantic-version library and the
    client's [List] are the class [WebhookDeps].

    The theorems read the checks as guarantees to the rest of the operator: a resize of a
    master cell keeps a quorum, an update plan is well formed, cluster transports are
    secure when they have to be, log delivery the webhook lets through is delivery the
    operator resolves, and every location lies in the mount the operator will find. *)

From S2P Require Import Prelude Kubernetes ApiTypes Consts UpdatePlan Timbertruck.

(** ** Field errors (k8s.io/apimachinery field.Error) *)

Inductive ErrorType : Type :=
  | ErrorTypeNotFound | ErrorTypeRequired | ErrorTypeDuplicate | ErrorTypeInvalid
  | ErrorTypeForbidden | ErrorTypeTooMany | ErrorTypeInternal.

Record FieldError := mkFieldError {
  fe_Type : ErrorType;
  fe_Field : string;
  fe_Detail : string;
}.

Abbreviation ErrorList := (list FieldError) (only parsing).

(** A [*field.Path] is the string it prints. *)
Definition Child (path name : string) : string := path +:+ "." +:+ name.
Definition Index (path : string) (i : nat) : string := path +:+ "[" +:+ pretty i +:+ "]".

Definition Required (path detail : string) : FieldError := mkFieldError ErrorTypeRequired path detail.
Definition Forbidden (path detail : string) : FieldError := mkFieldError ErrorTypeForbidden path detail.
Definition Invalid (path detail : string) : FieldError := mkFieldError ErrorTypeInvalid path detail.
Definition NotFound (path : string) : FieldError := mkFieldError ErrorTypeNotFound path "".
Definition Duplicate (path : string) : FieldError := mkFieldError ErrorTypeDuplicate path "".
Definition TooMany (path : string) (max : Z) : FieldError :=
  mkFieldError ErrorTypeTooMany path ("must have at most " +:+ fmt_d max +:+ " items").
Definition InternalError (path detail : string) : FieldError := mkFieldError ErrorTypeInternal path detail.

(** [if cond { allErrors = append(allErrors, err) }]. *)
Definition err_if (cond : bool) (err : FieldError) : ErrorList := if cond then [err] else [].

(** ** What the webhook calls *)

Class WebhookDeps := {
  (** [metav1validation.ValidateLabels] and [validation.ValidateAnnotations]. *)
  ValidateLabels : gmap string string → string → ErrorList;
  ValidateAnnotations : gmap string string → string → ErrorList;
  (** [yaml.UnmarshalStrict] into a container: the error and the name it decoded. *)
  UnmarshalStrict : string → option error * string;
  (** Constraints of the semantic-version library, and the build's own version. *)
  Constraints : Type;
  ParseConstraints : string → Constraints + error;
  Constraints_Validate : Constraints → bool * string;
  currentVersion_Original : string;
  (** [client.List] of Ytsaurus objects in a namespace: the names found, and the error
      with whether it is a not-found error. *)
  List_Ytsaurus : string → list string * option (error * bool);
}.

(** ** Unique values (helpers.go)

    A Go map from a value to the path it was first seen at; iteration order is not
    specified, insertion order is the one chosen here. *)

Definition UniqueValues (T : Type) : Type := list (T * string).

Section unique_values.
Context {T : Type} `{EqDecision T}.

Fixpoint uv_find (u : UniqueValues T) (value : T) : option string :=
  match u with
  | [] => None
  | (v, path) :: rest => if v == value then Some path else uv_find rest value
  end.

Definition uv_Count (u : UniqueValues T) (values : list T) : Z :=
  Z.of_nat (length (List.filter (λ v, match uv_find u v with Some _ => true | None => false end) values)).

Definition uv_Insert (u : UniqueValues T) (value : T) (path : string) : ErrorList * UniqueValues T :=
  match uv_find u value with
  | Some dup => ([mkFieldError ErrorTypeDuplicate path ("duplicates: " +:+ dup)], u)
  | None => ([], u ++ [(value, path)])
  end.

Fixpoint uv_InsertAll_from (u : UniqueValues T) (i : nat) (slice : list T) (path : string)
    : ErrorList * UniqueValues T :=
  match slice with
  | [] => ([], u)
  | value :: rest =>
      let '(errs, u) := uv_Insert u value (Index path i) in
      let '(more, u) := uv_InsertAll_from u (S i) rest path in
      (errs ++ more, u)
  end.

Definition uv_InsertAll (u : UniqueValues T) (slice : list T) (path : string)
    : ErrorList * UniqueValues T := uv_InsertAll_from u 0 slice path.

End unique_values.

(** The loops that look for duplicate names: [names] is the set of names seen so far. *)
Fixpoint range_unique {A} (name : A → string) (dupPath : nat → string) (body : nat → A → ErrorList)
    (i : nat) (names : gset string) (l : list A) : ErrorList :=
  match l with
  | [] => []
  | x :: rest =>
      err_if (bool_decide (name x ∈ names)) (Duplicate (dupPath i))
        ++ body i x
        ++ range_unique name dupPath body (S i) ({[name x]} ∪ names) rest
  end.

(** [for i, x := range l] with no state of its own. *)
Fixpoint range_from {A} (body : nat → A → ErrorList) (i : nat) (l : list A) : ErrorList :=
  match l with
  | [] => []
  | x :: rest => body i x ++ range_from body (S i) rest
  end.

(** ** Limits and names (src/pkg/consts, src/api/v1) *)

Definition MinValidCellTag : Z := 0x0001.
Definition MaxValidCellTag : Z := 0xf000.
Definition MaxSecondaryMasterCells : Z := 48.

Definition MasterCellRole_string (r : MasterCellRole) : string :=
  match r with
  | MasterCellRoleCypressNodeHost => "cypress_node_host"
  | MasterCellRoleTransactionCoordinator => "transaction_coordinator"
  | MasterCellRoleChunkHost => "chunk_host"
  | MasterCellRoleDedicatedChunkHost => "dedicated_chunk_host"
  | MasterCellRoleOther s => s
  end.

Definition isSome {A} (x : option A) : bool := match x with Some _ => true | None => false end.
Definition isNone {A} (x : option A) : bool := negb (isSome x).

(** [strings.HasPrefix] and [strings.HasSuffix]. *)
Definition HasPrefix (s p : string) : bool := String.prefix p s.
Fixpoint HasSuffix (s p : string) : bool :=
  (s == p) || match s with String _ s => HasSuffix s p | EmptyString => false end.

(** Mounts are scanned backward (src/pkg/components/volume.go). *)
Definition FindVolumeMountForPath (volumeMounts : list VolumeMount) (path : string) : option VolumeMount :=
  List.find (λ mount, (path == vm_MountPath mount) || HasPrefix path (vm_MountPath mount +:+ "/"))
    (rev volumeMounts).

(** ** Instance specifications *)

Definition features_of (commonSpec : CommonSpec) : ClusterFeatures :=
  Deref (cs_ClusterFeatures commonSpec) ClusterFeaturesZero.

Definition validateTransportSecurity (spec : option RPCTransportSpec) (commonSpec : CommonSpec)
    (path : string) : ErrorList :=
  let features := features_of commonSpec in
  let spec := match spec with None => cs_NativeTransport commonSpec | Some _ => spec end in
  match spec with
  | None =>
      err_if (cf_SecureClusterTransports features)
        (Required path "Secure cluster transport demands TLS setup")
  | Some spec =>
      let secretPath := Child path "tlsSecret" in
      let clientSecretPath := Child path "tlsClientSecret" in
      err_if (isNone (rpct_TLSSecret spec) && (rpct_TLSRequired spec || negb (rpct_TLSInsecure spec)))
        (Required secretPath "TLS certificate for native transport is required")
      ++ err_if (isNone (rpct_TLSClientSecret spec) && (rpct_TLSRequired spec && negb (rpct_TLSInsecure spec)))
        (Required clientSecretPath "Client TLS certificate for native transport is required")
      ++ (if cf_SecureClusterTransports features then
            err_if (negb (rpct_TLSRequired spec))
              (Forbidden (Child path "tlsRequired") "Secure cluster transport demands TLS-only native transport")
            ++ err_if (rpct_TLSInsecure spec)
              (Forbidden (Child path "tlsInsecure") "Secure cluster transport demands TLS certificate validation")
            ++ err_if (isNone (rpct_TLSSecret spec))
              (Required secretPath "Secure cluster transport demands TLS certificate for native transport")
            ++ err_if (isNone (rpct_TLSClientSecret spec))
              (Required clientSecretPath "Secure cluster transport demands client TLS certificate for native transport")
          else [])
  end.

Definition requireLocations (locationsPath : string) (locations : list LocationSpec) (reason : string)
    (locationTypes : list LocationType) : ErrorList :=
  concat (map (λ locationType,
    err_if (isNone (FindFirstLocation locations locationType))
      (Required locationsPath (LocationType_string locationType +:+ " location must be configured for " +:+ reason)))
    locationTypes).

Definition validateHydraPersistenceUploaderSpec (uploader : option HydraPersistenceUploaderSpec)
    (locations : list LocationSpec) (parentPath : string) : ErrorList :=
  match uploader with
  | None => []
  | Some uploader =>
      err_if (isNone (hpu_Image uploader))
        (Required (Child (Child parentPath "hydraPersistenceUploader") "image")
           "hydraPersistenceUploader image is required")
      ++ requireLocations (Child parentPath "locations") locations "hydraPersistenceUploader"
           [LocationTypeMasterSnapshots; LocationTypeMasterChangelogs]
  end.

(** The closure [hasImage]. *)
Definition hasImage (timbertruck : option TimbertruckSpec) : bool :=
  match timbertruck with
  | Some spec => match tts_Image spec with Some image => image != "" | None => false end
  | None => false
  end.

Definition validateTimbertruckSpec (componentTimbertruck commonTimbertruck : option TimbertruckSpec)
    (structuredLoggers : list StructuredLoggerSpec) (locations : list LocationSpec)
    (parentPath : string) : ErrorList :=
  let anyPerLogDelivery := ContainsFunc structuredLoggers (λ logger, Deref (sl_EnableDelivery logger) false) in
  let legacyMaster := isSome componentTimbertruck in
  if negb anyPerLogDelivery && negb legacyMaster then [] else
  err_if (negb (hasImage componentTimbertruck) && negb (hasImage commonTimbertruck))
    (Required (Child (Child parentPath "timbertruck") "image")
       "timbertruck image is required (set it here or in spec.timbertruck.image) when log delivery is enabled")
  ++ err_if (legacyMaster && (length structuredLoggers == 0%nat))
    (Required (Child parentPath "structuredLoggers")
       "structuredLoggers must be configured when timbertruck is enabled")
  ++ requireLocations (Child parentPath "locations") locations "timbertruck" [LocationTypeLogs].

Definition validateStructuredLoggers (structuredLoggers : list StructuredLoggerSpec) (parentPath : string)
    : ErrorList :=
  range_from (λ loggerIdx logger,
    let loggerPath := Index (Child parentPath "structuredLoggers") loggerIdx in
    err_if (isSome (sl_Category logger) == isSome (sl_CategoriesFilter logger))
      (Invalid loggerPath "exactly one of category and categoriesFilter must be set")
    ++ err_if (sl_Category logger == Some "")
      (Required (Child loggerPath "category") "category must not be empty")
    ++ err_if (match sl_CategoriesFilter logger with
               | Some filter => (cf_Type filter == "") || (length (cf_Values filter) == 0%nat)
               | None => false
               end)
      (Required (Child loggerPath "categoriesFilter") "categoriesFilter requires type and values"))
    0 structuredLoggers.

(** The check of the remote node and gateway resources (remote_timbertruck_webhook.go). *)
Definition validateRemoteTimbertruck (commonSpec : CommonSpec) (instanceSpec : InstanceSpec) : ErrorList :=
  err_if (isSome (cs_Timbertruck commonSpec))
    (Forbidden (Child "spec" "timbertruck") "timbertruck delivery is not supported for remote resources")
  ++ range_from (λ i logger,
       err_if (isSome (sl_EnableDelivery logger))
         (Forbidden (Child (Index (Child "spec" "structuredLoggers") i) "enableDelivery")
            "timbertruck delivery is not supported for remote resources")) 0 (is_StructuredLoggers instanceSpec)
  ++ validateStructuredLoggers (is_StructuredLoggers instanceSpec) "spec".

Section webhook.
Context `{WebhookDeps}.

Definition ValidateVersionConstraint (constraintStr : string) : ErrorList :=
  if constraintStr == "" then [] else
  let path := Child "spec" "requiresOperatorVersion" in
  match ParseConstraints constraintStr with
  | inr err => [Invalid path err]
  | inl constraints =>
      let '(ok, errors) := Constraints_Validate constraints in
      if ok then [] else
      [Forbidden path ("current operator version " +:+ fmt_q currentVersion_Original
         +:+ " does not satisfy the spec version constraint: " +:+ errors)]
  end.

Definition validatePodSpec (podSpec : PodSpec) (path : string) : ErrorList :=
  ValidateLabels (ps_PodLabels podSpec) (Child path "podLabels")
  ++ ValidateAnnotations (ps_PodAnnotations podSpec) (Child path "podAnnotations").

(** The nested loop over the volume mounts: [previous] holds the mounts before [mountIdx]. *)
Fixpoint validateVolumeMounts (path : string) (mountIdx : nat) (previous mounts : list VolumeMount)
    : ErrorList :=
  match mounts with
  | [] => []
  | volumeMount :: rest =>
      err_if (HasSuffix (vm_MountPath volumeMount) "/")
        (Invalid (Index (Child path "volumeMounts") mountIdx) "mount path must not end with '/'")
      ++ concat (map (λ previousMount,
           err_if ((vm_MountPath previousMount == vm_MountPath volumeMount)
                   || HasPrefix (vm_MountPath previousMount) (vm_MountPath volumeMount +:+ "/"))
             (Invalid (Index (Child path "volumeMounts") mountIdx)
                ("volume mount completely covers previous volume mount " +:+ fmt_q (vm_MountPath previousMount))))
           previous)
      ++ validateVolumeMounts path (S mountIdx) (previous ++ [volumeMount]) rest
  end.

Definition validateInstanceSpecWithTimbertruck (instanceSpec : InstanceSpec) (commonSpec : CommonSpec)
    (componentTimbertruck : option TimbertruckSpec) (path : string) : ErrorList :=
  validatePodSpec (is_PodSpec instanceSpec) path
  ++ validateTimbertruckSpec componentTimbertruck (cs_Timbertruck commonSpec)
       (is_StructuredLoggers instanceSpec) (is_Locations instanceSpec) path
  ++ validateStructuredLoggers (is_StructuredLoggers instanceSpec) path
  ++ err_if (isSome (is_EnableAntiAffinity instanceSpec))
       (Invalid (Child path "EnableAntiAffinity") "EnableAntiAffinity is deprecated, use Affinity instead")
  ++ validateTransportSecurity (is_NativeTransport instanceSpec) commonSpec (Child path "nativeTransport")
  ++ validateVolumeMounts path 0 [] (is_VolumeMounts instanceSpec)
  ++ range_from (λ locationIdx location,
       err_if (HasSuffix (loc_Path location) "/")
         (Invalid (Index (Child path "locations") locationIdx) "location path must not end with '/'")
       ++ err_if (isNone (FindVolumeMountForPath (is_VolumeMounts instanceSpec) (loc_Path location)))
         (Invalid (Index (Child path "locations") locationIdx) "location path is not in any volume mount"))
       0 (is_Locations instanceSpec).

Definition validateInstanceSpec (instanceSpec : InstanceSpec) (commonSpec : CommonSpec) (path : string)
    : ErrorList :=
  validateInstanceSpecWithTimbertruck instanceSpec commonSpec None path.

Definition validateSidecars (sidecars : list string) (path : string) : ErrorList :=
  (fix loop (i : nat) (names : gset string) (sidecars : list string) : ErrorList :=
     match sidecars with
     | [] => []
     | sidecarSpec :: rest =>
         let '(err, name) := UnmarshalStrict sidecarSpec in
         match err with Some err => [Invalid (Index path i) err] | None => [] end
         ++ err_if (bool_decide (name ∈ names)) (Duplicate (Child (Index path i) "name"))
         ++ loop (S i) ({[name]} ∪ names) rest
     end) 0%nat ∅ sidecars.

(** ** Masters *)

Definition validateHostAddresses (newYtsaurus : Ytsaurus) (mastersSpec : MastersSpec) (fieldPath : string)
    : ErrorList :=
  let hostAddressesFieldPath := Child fieldPath "hostAddresses" in
  let hostNetwork := Deref (ps_HostNetwork (is_PodSpec (ms_InstanceSpec mastersSpec)))
                       (Deref (ps_HostNetwork (spec_PodSpec (yts_Spec newYtsaurus))) false) in
  let count := Z.of_nat (length (ms_HostAddresses mastersSpec)) in
  err_if (negb hostNetwork && (count != 0%Z))
    (Required (Child "spec" "hostNetwork")
       (hostAddressesFieldPath +:+ " doesn't make sense without hostNetwork=true"))
  ++ err_if ((count != 0%Z) && (count != is_InstanceCount (ms_InstanceSpec mastersSpec)))
    (Invalid hostAddressesFieldPath
       (hostAddressesFieldPath +:+ " list length should be equal to " +:+ Child fieldPath "instanceCount")).

Definition chunkHostRoles : list MasterCellRole := [MasterCellRoleChunkHost; MasterCellRoleDedicatedChunkHost].

(** The roles block: its errors and [cellRolesChanged]. *)
Definition validateMasterRoles (newYtsaurus : Ytsaurus) (oldYtsaurus : option Ytsaurus)
    (mastersSpec : MastersSpec) (oldMastersSpec : option MastersSpec) (path : string) : ErrorList * bool :=
  let rolesPath := Child path "roles" in
  let isPrimary := ms_CellTag mastersSpec == ms_CellTag (spec_PrimaryMasters (yts_Spec newYtsaurus)) in
  let isMulticell := negb (length (spec_SecondaryMasters (yts_Spec newYtsaurus)) == 0%nat) in
  let '(errs, cellRoles) := uv_InsertAll [] (GetMasterCellRoles (ms_Roles mastersSpec) isPrimary isMulticell) rolesPath in
  let errs := errs ++ err_if (1 <? uv_Count cellRoles chunkHostRoles)%Z
    (Forbidden rolesPath ("Master cell " +:+ fmt_d (ms_CellTag mastersSpec) +:+ " has role conflict: "
       +:+ MasterCellRole_string MasterCellRoleChunkHost +:+ " "
       +:+ MasterCellRole_string MasterCellRoleDedicatedChunkHost)) in
  match oldMastersSpec, oldYtsaurus with
  | Some oldMastersSpec, Some oldYtsaurus =>
      if (0 <? is_InstanceCount (ms_InstanceSpec oldMastersSpec))%Z then
        let wasMulticell := negb (length (spec_SecondaryMasters (yts_Spec oldYtsaurus)) == 0%nat) in
        let oldCellRoles := GetMasterCellRoles (ms_Roles oldMastersSpec) isPrimary wasMulticell in
        let missing := List.filter (λ role, isNone (uv_find cellRoles role)) oldCellRoles in
        let cellRolesChanged := (length cellRoles != length oldCellRoles) || (0 <? length missing)%nat in
        (errs
         ++ concat (map (λ role,
              if ((role == MasterCellRoleChunkHost) || (role == MasterCellRoleDedicatedChunkHost))
                 && (0 <? uv_Count cellRoles chunkHostRoles)%Z then []
              else [Forbidden rolesPath ("Cell " +:+ fmt_d (ms_CellTag mastersSpec)
                      +:+ " role could not be removed: " +:+ MasterCellRole_string role)]) missing)
         ++ err_if (isPrimary && isMulticell && negb wasMulticell && isNone (ms_Roles mastersSpec))
              (Required rolesPath "Upgrade to multicell requires filling roles for primary cell"),
         cellRolesChanged)
      else (errs, false)
  | _, _ => (errs, false)
  end.

(** [min(count, ptr.Deref(minReady, count))]. *)
Definition minReady (spec : MastersSpec) : Z :=
  Z.min (is_InstanceCount (ms_InstanceSpec spec))
    (Deref (is_MinReadyInstanceCount (ms_InstanceSpec spec)) (is_InstanceCount (ms_InstanceSpec spec))).

Definition maintenance_of (y : Ytsaurus) : ClusterMaintenance :=
  Deref (cs_ClusterMaintenance (spec_CommonSpec (yts_Spec y))) ClusterMaintenanceZero.

(** The changes of the instance count allowed from one specification to the next. *)
Definition validateMasterResize (newYtsaurus oldYtsaurus : Ytsaurus) (mastersSpec oldMastersSpec : MastersSpec)
    (cellRolesChanged : bool) (path : string) : ErrorList :=
  let rolesPath := Child path "roles" in
  let instanceCountPath := Child path "instanceCount" in
  let isPrimary := ms_CellTag mastersSpec == ms_CellTag (spec_PrimaryMasters (yts_Spec newYtsaurus)) in
  let newInstanceCount := is_InstanceCount (ms_InstanceSpec mastersSpec) in
  let oldInstanceCount := is_InstanceCount (ms_InstanceSpec oldMastersSpec) in
  let oldMinReady := minReady oldMastersSpec in
  let oldMaintenance := maintenance_of oldYtsaurus in
  let newMaintenance := maintenance_of newYtsaurus in
  err_if (negb isPrimary && (newInstanceCount != 0%Z) && (oldInstanceCount == 0%Z)
          && negb (ContainsFunc (us_MasterCellsMaintenance (st_UpdateStatus (yts_Status newYtsaurus)))
                     (λ info, (mcm_CellTag info == ms_CellTag mastersSpec) && mcm_Unregistered info)))
    (Invalid instanceCountPath "Master cell must be unregistered")
  ++ err_if ((newInstanceCount <? 1)%Z && (0 <? oldInstanceCount)%Z)
    (Invalid instanceCountPath "Cannot remove last instance")
  ++ err_if (Z.quot newInstanceCount 2 <? i32 (oldInstanceCount - oldMinReady))%Z
    (Invalid instanceCountPath
       "Cannot shrink without possibility of losing quorum, increase minReadyInstanceCount first")
  ++ err_if ((i32 (i32 (oldMinReady * 2) - 1) <? newInstanceCount)%Z && (1 <? oldInstanceCount)%Z)
    (Invalid instanceCountPath ("Cannot grow bigger than previous minReadyInstanceCount*2-1 ("
       +:+ fmt_d (i32 (i32 (oldMinReady * 2) - 1)) +:+ ") in one step"))
  ++ (if (cmt_Shutdown oldMaintenance != ClusterShutdownExceptMasters)
         || (cmt_Shutdown newMaintenance != ClusterShutdownExceptMasters) then
        err_if (oldInstanceCount != newInstanceCount)
          (Forbidden instanceCountPath "Could be changed only during master cells maintenance")
        ++ err_if cellRolesChanged
          (Forbidden rolesPath "Could be changed only during master cells maintenance")
      else [])
  ++ err_if ((0 <? oldInstanceCount)%Z && cellRolesChanged
             && (cmt_AssignMasterCellsRoles oldMaintenance || negb (cmt_AssignMasterCellsRoles newMaintenance)))
    (Forbidden rolesPath "Could be changed only together with enabling assignMasterCellsRoles").

Definition validateMasterSpec (newYtsaurus : Ytsaurus) (oldYtsaurus : option Ytsaurus)
    (mastersSpec : MastersSpec) (oldMastersSpec : option MastersSpec) (path : string) : ErrorList :=
  let instanceSpec := ms_InstanceSpec mastersSpec in
  let commonSpec := spec_CommonSpec (yts_Spec newYtsaurus) in
  let isPrimary := ms_CellTag mastersSpec == ms_CellTag (spec_PrimaryMasters (yts_Spec newYtsaurus)) in
  let '(roleErrors, cellRolesChanged) :=
    validateMasterRoles newYtsaurus oldYtsaurus mastersSpec oldMastersSpec path in
  let newInstanceCount := is_InstanceCount instanceSpec in
  let newMinReady := minReady mastersSpec in
  validateInstanceSpecWithTimbertruck instanceSpec commonSpec (ms_Timbertruck mastersSpec) path
  ++ validateHostAddresses newYtsaurus mastersSpec path
  ++ err_if (isNone (FindFirstLocation (is_Locations instanceSpec) LocationTypeMasterChangelogs))
       (NotFound (Child path "locations"))
  ++ err_if (isNone (FindFirstLocation (is_Locations instanceSpec) LocationTypeMasterSnapshots))
       (NotFound (Child path "locations"))
  ++ err_if (match oldMastersSpec with
             | Some oldMastersSpec => ms_CellTag oldMastersSpec != ms_CellTag mastersSpec
             | None => false
             end)
       (Invalid (Child path "cellTag") "Could not be changed")
  ++ roleErrors
  ++ err_if ((0 <? newInstanceCount)%Z && (newMinReady <=? Z.quot newInstanceCount 2)%Z
             && negb (cs_EphemeralCluster commonSpec))
       (Invalid (Child path "minReadyInstanceCount") "Must be bigger than half of instanceCount")
  ++ err_if (newInstanceCount <? newMinReady)%Z
       (Invalid (Child path "minReadyInstanceCount") "Cannot be bigger than instanceCount")
  ++ match oldMastersSpec, oldYtsaurus with
     | None, _ =>
         err_if (isSome oldYtsaurus && negb isPrimary && (newInstanceCount != 0%Z))
           (Forbidden (Child path "instanceCount") "New secondary master cell initially must have instanceCount = 0")
     | Some oldMastersSpec, Some oldYtsaurus =>
         validateMasterResize newYtsaurus oldYtsaurus mastersSpec oldMastersSpec cellRolesChanged path
     | Some _, None => []
     end
  ++ err_if ((1 <? newInstanceCount)%Z && negb (cs_EphemeralCluster commonSpec)
             && isNone (is_Affinity instanceSpec ≫= aff_PodAntiAffinity))
       (Required (Child (Child path "affinity") "podAntiAffinity") "Masters should be placed on different nodes")
  ++ validateHydraPersistenceUploaderSpec (ms_HydraPersistenceUploader mastersSpec) (is_Locations instanceSpec) path
  ++ validateSidecars (ms_Sidecars mastersSpec) (Child path "sidecars").

Definition validatePrimaryMasters (newYtsaurus : Ytsaurus) (oldYtsaurus : option Ytsaurus) : ErrorList :=
  let mastersSpec := spec_PrimaryMasters (yts_Spec newYtsaurus) in
  let path := Child "spec" "primaryMasters" in
  let oldMastersSpec := (λ y, spec_PrimaryMasters (yts_Spec y)) <$> oldYtsaurus in
  validateMasterSpec newYtsaurus oldYtsaurus mastersSpec oldMastersSpec path
  ++ err_if (is_InstanceCount (ms_InstanceSpec mastersSpec) <? 1)%Z
       (Invalid (Child path "instanceCount") "Cannot be below 1").

(** The loop over the secondary cells, with its maps of cell tags and host addresses. *)
Fixpoint validateSecondaryLoop (newYtsaurus : Ytsaurus) (oldYtsaurus : option Ytsaurus)
    (cellTags : UniqueValues Z) (hostAddresses : UniqueValues string) (i : nat) (cells : list MastersSpec)
    : ErrorList * UniqueValues Z :=
  match cells with
  | [] => ([], cellTags)
  | mastersSpec :: rest =>
      let path := Index (Child "spec" "secondaryMasters") i in
      let oldMastersSpec := oldYtsaurus ≫= λ y, spec_SecondaryMasters (yts_Spec y) !! i in
      let errs := validateMasterSpec newYtsaurus oldYtsaurus mastersSpec oldMastersSpec path in
      let '(tagErrors, cellTags) := uv_Insert cellTags (ms_CellTag mastersSpec) (Child path "cellTag") in
      let '(hostErrors, hostAddresses) :=
        uv_InsertAll hostAddresses (ms_HostAddresses mastersSpec) (Child path "hostAddresses") in
      let '(more, cellTags) :=
        validateSecondaryLoop newYtsaurus oldYtsaurus cellTags hostAddresses (S i) rest in
      (errs ++ tagErrors ++ hostErrors ++ more, cellTags)
  end.

Definition validateSecondaryMasters (newYtsaurus : Ytsaurus) (oldYtsaurus : option Ytsaurus) : ErrorList :=
  let primary := spec_PrimaryMasters (yts_Spec newYtsaurus) in
  let secondary := spec_SecondaryMasters (yts_Spec newYtsaurus) in
  let primaryPath := Child "spec" "primaryMasters" in
  let secondaryMastersPath := Child "spec" "secondaryMasters" in
  let '(_, cellTags) := uv_Insert [] (ms_CellTag primary) (Child primaryPath "cellTag") in
  let '(hostErrors, hostAddresses) :=
    uv_InsertAll [] (ms_HostAddresses primary) (Child primaryPath "hostAddresses") in
  let '(cellErrors, cellTags) :=
    validateSecondaryLoop newYtsaurus oldYtsaurus cellTags hostAddresses 0 secondary in
  let cnt := (Z.of_nat (length cellTags) - 1)%Z in
  hostErrors
  ++ cellErrors
  ++ err_if (MaxSecondaryMasterCells <? cnt)%Z (TooMany secondaryMastersPath MaxSecondaryMasterCells)
  ++ concat (map (λ tag : Z * string,
       err_if ((tag.1 <? MinValidCellTag)%Z || (MaxValidCellTag <? tag.1)%Z)
         (Invalid tag.2 ("Cell tag must be in range " +:+ fmt_d MinValidCellTag +:+ ".." +:+ fmt_d MaxValidCellTag)))
       cellTags)
  ++ match oldYtsaurus with
     | None => []
     | Some oldYtsaurus =>
         range_from (λ i oldMastersSpec,
           err_if (0 <? is_InstanceCount (ms_InstanceSpec oldMastersSpec))%Z
             (Forbidden (Index secondaryMastersPath i) "Cannot remove cell with instances"))
           (length secondary) (drop (length secondary) (spec_SecondaryMasters (yts_Spec oldYtsaurus)))
     end.

(** ** Proxies and nodes *)

Definition specPath (name : string) : string := Child "spec" name.

Definition validateDiscovery (newYtsaurus : Ytsaurus) : ErrorList :=
  validateInstanceSpec (spec_Discovery (yts_Spec newYtsaurus)) (spec_CommonSpec (yts_Spec newYtsaurus))
    (specPath "discovery").

Definition validateHTTPProxies (newYtsaurus : Ytsaurus) : ErrorList :=
  let commonSpec := spec_CommonSpec (yts_Spec newYtsaurus) in
  let features := features_of commonSpec in
  let path := Index (specPath "httpProxies") in
  range_unique hps_Role (λ i, Child (path i) "role") (λ i hp,
    validateInstanceSpec (hps_InstanceSpec hp) commonSpec (path i)
    ++ err_if (cf_HTTPProxyHaveHTTPSAddress features && isNone (hps_HTTPSSecret hp))
         (Required (Child (Child (path i) "transport") "httpsSecret")
            "Cluster feature httpProxyHaveHttpsAddress requires HTTPS for all HTTP proxies")
    ++ err_if (cf_SecureClusterTransports features && negb (hps_DisableHTTP hp))
         (Forbidden (Child (Child (path i) "transport") "disableHttp")
            "Secure cluster transport demands HTTPS-only proxies"))
    0 ∅ (spec_HTTPProxies (yts_Spec newYtsaurus))
  ++ err_if (negb (existsb (λ hp, hps_Role hp == DefaultHTTPProxyRole) (spec_HTTPProxies (yts_Spec newYtsaurus))))
       (Required (specPath "httpProxies")
          ("HTTP proxy with `" +:+ DefaultHTTPProxyRole +:+ "` role should exist")).

Definition validateRPCProxies (newYtsaurus : Ytsaurus) : ErrorList :=
  let commonSpec := spec_CommonSpec (yts_Spec newYtsaurus) in
  let features := features_of commonSpec in
  let path := Index (specPath "rpcProxies") in
  range_unique rps_Role (λ i, Child (path i) "role") (λ i rp,
    let transportPath := Child (path i) "transport" in
    let transport := rps_Transport rp in
    validateInstanceSpec (rps_InstanceSpec rp) commonSpec (path i)
    ++ err_if (rpct_TLSRequired transport && isNone (rpct_TLSSecret transport))
         (Required (Child transportPath "tlsSecret") "TLS-only RPC proxy requires certificate")
    ++ (if cf_SecureClusterTransports features then
          err_if (negb (rpct_TLSRequired transport))
            (Required (Child transportPath "tlsRequired") "Secure cluster transport demands TLS-only RPC proxies")
          ++ err_if (rpct_TLSInsecure transport)
            (Forbidden (Child transportPath "tlsInsecure") "Secure cluster transport demands TLS certificate validation")
          ++ err_if (isNone (rpct_TLSSecret transport))
            (Required (Child transportPath "tlsSecret") "Secure cluster transport demands RPC proxy certificate")
        else []))
    0 ∅ (spec_RPCProxies (yts_Spec newYtsaurus)).

Definition validateTCPProxies (newYtsaurus : Ytsaurus) : ErrorList :=
  let path := Index (specPath "tcpProxies") in
  range_unique tps_Role (λ i, Child (path i) "role") (λ i rp,
    validateInstanceSpec (tps_InstanceSpec rp) (spec_CommonSpec (yts_Spec newYtsaurus)) (path i))
    0 ∅ (spec_TCPProxies (yts_Spec newYtsaurus)).

Definition validateDataNodes (newYtsaurus : Ytsaurus) : ErrorList :=
  let path := Index (specPath "dataNodes") in
  range_unique dns_Name (λ i, Child (path i) "name") (λ i dn,
    validateInstanceSpec (dns_InstanceSpec dn) (spec_CommonSpec (yts_Spec newYtsaurus)) (path i)
    ++ err_if (isNone (FindFirstLocation (is_Locations (dns_InstanceSpec dn)) LocationTypeChunkStore))
         (NotFound (Child (path i) "locations")))
    0 ∅ (spec_DataNodes (yts_Spec newYtsaurus)).

Definition validateExecNodes (newYtsaurus : Ytsaurus) : ErrorList :=
  let path := Index (specPath "execNodes") in
  range_unique ens_Name (λ i, Child (path i) "name") (λ i en,
    validateInstanceSpec (ens_InstanceSpec en) (spec_CommonSpec (yts_Spec newYtsaurus)) (path i)
    ++ err_if (isNone (FindFirstLocation (is_Locations (ens_InstanceSpec en)) LocationTypeChunkCache))
         (NotFound (Child (path i) "locations"))
    ++ err_if (isNone (FindFirstLocation (is_Locations (ens_InstanceSpec en)) LocationTypeSlots))
         (NotFound (Child (path i) "locations"))
    ++ validateSidecars (ens_InitContainers en) (Child (path i) "initContainers")
    ++ validateSidecars (ens_Sidecars en) (Child (path i) "sidecars"))
    0 ∅ (spec_ExecNodes (yts_Spec newYtsaurus))
  ++ err_if ((0 <? length (spec_ExecNodes (yts_Spec newYtsaurus)))%nat
             && isNone (spec_Schedulers (yts_Spec newYtsaurus)))
       (Required (specPath "schedulers") "execNodes doesn't make sense without schedulers").

Definition validateTabletNodes (newYtsaurus : Ytsaurus) : ErrorList :=
  let path := Index (specPath "tabletNodes") in
  range_unique tns_Name (λ i, Child (path i) "name") (λ i tn,
    validateInstanceSpec (tns_InstanceSpec tn) (spec_CommonSpec (yts_Spec newYtsaurus)) (path i))
    0 ∅ (spec_TabletNodes (yts_Spec newYtsaurus)).

(** ** Singletons *)

(** A component given by an optional pointer: its own checks when it is there. *)
Definition if_present {A} (x : option A) (check : A → ErrorList) : ErrorList :=
  match x with Some x => check x | None => [] end.

Definition validateSchedulers (newYtsaurus : Ytsaurus) : ErrorList :=
  let spec := yts_Spec newYtsaurus in
  if_present (spec_Schedulers spec) (λ schedulers,
    validateInstanceSpec schedulers (spec_CommonSpec spec) (specPath "schedulers")
    ++ err_if (isNone (spec_ControllerAgents spec))
         (Required (specPath "controllerAgents") "schedulers doesn't make sense without controllerAgents")).

Definition validateControllerAgents (newYtsaurus : Ytsaurus) : ErrorList :=
  let spec := yts_Spec newYtsaurus in
  if_present (spec_ControllerAgents spec) (λ agents,
    validateInstanceSpec agents (spec_CommonSpec spec) (specPath "controllerAgents")
    ++ err_if (isNone (spec_Schedulers spec))
         (Required (specPath "schedulers") "controllerAgents doesn't make sense without schedulers")).

Definition validateChyt (newYtsaurus : Ytsaurus) : ErrorList := [].

Definition validateStrawberry (newYtsaurus : Ytsaurus) : ErrorList :=
  err_if (isSome (spec_StrawberryController (yts_Spec newYtsaurus)) && isNone (spec_Schedulers (yts_Spec newYtsaurus)))
    (Required (specPath "schedulers") "schedulers are required for strawberry").

Definition validateQueryTrackers (newYtsaurus : Ytsaurus) : ErrorList :=
  let spec := yts_Spec newYtsaurus in
  if_present (spec_QueryTrackers spec) (λ trackers,
    validateInstanceSpec trackers (spec_CommonSpec spec) (specPath "queryTrackers")
    ++ err_if (length (spec_TabletNodes spec) == 0%nat)
         (Required (specPath "tabletNodes") "tabletNodes are required for queryTrackers")
    ++ err_if (isNone (spec_Schedulers spec))
         (Required (specPath "schedulers") "schedulers are required for queryTrackers")).

Definition validateQueueAgents (newYtsaurus : Ytsaurus) : ErrorList :=
  let spec := yts_Spec newYtsaurus in
  if_present (spec_QueueAgents spec) (λ agents,
    validateInstanceSpec agents (spec_CommonSpec spec) (specPath "queueAgents")
    ++ err_if (length (spec_TabletNodes spec) == 0%nat)
         (Required (specPath "tabletNodes") "tabletNodes are required for queueAgents")).

Definition validateSpyt (newYtsaurus : Ytsaurus) : ErrorList :=
  err_if (spec_Spyt (yts_Spec newYtsaurus))
    (Invalid (specPath "spyt") "spyt is deprecated here, use Spyt resource instead").

Definition validateYQLAgents (newYtsaurus : Ytsaurus) : ErrorList :=
  let spec := yts_Spec newYtsaurus in
  if_present (spec_YQLAgents spec) (λ agents,
    validateInstanceSpec (yqs_InstanceSpec agents) (spec_CommonSpec spec) (specPath "YQLAgents")
    ++ err_if (isNone (spec_QueryTrackers spec))
         (Required (specPath "queryTrackers") "yqlAgents doesn't make sense without queryTrackers")).

(** The loop stops at the first proxy of the default role. *)
Fixpoint validateUi_loop (i : nat) (proxies : list HTTPProxiesSpec) : ErrorList :=
  match proxies with
  | [] => []
  | hp :: rest =>
      if hps_Role hp != DefaultHTTPProxyRole then validateUi_loop (S i) rest
      else err_if (isNone (hps_HTTPSSecret hp))
             (Required (Child (Child (Index (specPath "httpProxies") i) "transport") "httpsSecret")
                ("configured HTTPS for proxy with `" +:+ DefaultHTTPProxyRole +:+ "` role is required for ui.secure"))
  end.

Definition validateUi (newYtsaurus : Ytsaurus) : ErrorList :=
  if match spec_UI (yts_Spec newYtsaurus) with Some ui => ui_Secure ui | None => false end
  then validateUi_loop 0 (spec_HTTPProxies (yts_Spec newYtsaurus)) else [].

Definition validateExtraTimbertruckComponents (newYtsaurus : Ytsaurus) : ErrorList :=
  let spec := yts_Spec newYtsaurus in
  let validate (instanceSpec : InstanceSpec) (path : string) :=
    validateTimbertruckSpec None (cs_Timbertruck (spec_CommonSpec spec))
      (is_StructuredLoggers instanceSpec) (is_Locations instanceSpec) path
    ++ validateStructuredLoggers (is_StructuredLoggers instanceSpec) path in
  if_present (spec_MasterCaches spec) (λ mc, validate (mcs_InstanceSpec mc) (specPath "masterCaches"))
  ++ range_from (λ i kp, validate (kps_InstanceSpec kp) (Index (specPath "kafkaProxies") i))
       0 (spec_KafkaProxies spec)
  ++ if_present (spec_CypressProxies spec) (λ cp, validate (cps_InstanceSpec cp) (specPath "cypressProxies"))
  ++ if_present (spec_BundleController spec) (λ bc, validate bc (specPath "bundleController"))
  ++ if_present (spec_TabletBalancer spec) (λ tb, validate tb (specPath "tabletBalancers")).

(** ** The cluster as a whole *)

Definition validateExistsYtsaurus (newYtsaurus : Ytsaurus) : ErrorList :=
  let '(items, err) := List_Ytsaurus (yts_Namespace newYtsaurus) in
  match err with
  | Some (message, false) => [InternalError "k8sClient" message]
  | _ =>
      if items == [yts_Name newYtsaurus] then []
      else if items == [] then []
      else [Forbidden (Child "metadata" "namespace")
              ("A Ytsaurus object already exists in the given namespace " +:+ yts_Namespace newYtsaurus)]
  end.

Definition validateCommonSpec (spec : CommonSpec) : ErrorList :=
  if_present (cs_ClusterFeatures spec) (λ features,
    if cf_SecureClusterTransports features then
      err_if (negb (cf_RPCProxyHavePublicAddress features))
        (Required (Child (specPath "clusterFeatures") "rpcProxyHavePublicAddress")
           "Secure cluster transport demands public address for RPC proxies")
      ++ err_if (negb (cf_HTTPProxyHaveHTTPSAddress features))
        (Required (Child (specPath "clusterFeatures") "httpProxyHaveHttpsAddress")
           "Secure cluster transport demands HTTPS for HTTP proxies")
    else [])
  ++ ValidateAnnotations (cs_ExtraPodAnnotations spec) (specPath "extraPodAnnotations")
  ++ validateTransportSecurity (cs_NativeTransport spec) spec (specPath "nativeTransport").

Definition bulkOnlyComponentTypes : list ComponentType := [QueueAgentType; QueryTrackerType; YqlAgentType].

Definition validateUpdateModeForSelector (newYtsaurus : Ytsaurus) (selector : ComponentUpdateSelector)
    (path : string) : ErrorList :=
  let modeType := GetUpdateStrategyType (Some selector) in
  let componentType := component_Type (sel_Component selector) in
  if (sel_Class selector != ComponentClassUnspecified) && (modeType != ComponentUpdateModeTypeNone) then
    [Invalid (Child path "strategy") "strategy is supported only for specific components, not for component classes"]
  else if (sel_Class selector == ComponentClassUnspecified)
          && ((componentType == ComponentTypeEmpty) && isSome (sel_Strategy selector)) then
    [Invalid path "component.type must be set to use strategy"]
  else if (sel_Class selector == ComponentClassUnspecified)
          && (bool_decide (componentType ∈ bulkOnlyComponentTypes)
              && (modeType != ComponentUpdateModeTypeNone)
              && (modeType != ComponentUpdateModeTypeBulkUpdate)) then
    [Invalid (Child path "strategy") (ComponentType_string componentType +:+ " supports only BulkUpdate mode")]
  else
  match modeType with
  | ComponentUpdateModeTypeBulkUpdate =>
      err_if (isSome (sel_Strategy selector ≫= strat_RollingUpdate))
        (Invalid (Child path "rollingUpdate") "rolling configuration is not valid for BulkUpdate")
  | ComponentUpdateModeTypeRollingUpdate =>
      err_if (componentType == ComponentTypeEmpty)
        (Invalid (Child path "type") "rolling update requires a concrete component selector")
      ++ err_if ((componentType == DataNodeType) && (component_Name (sel_Component selector) == "")
                 && (1 <? length (spec_DataNodes (yts_Spec newYtsaurus)))%nat && isNone (sel_Concurrency selector))
        (Invalid (Child path "concurrency") "rolling update for several data node groups requires concurrency limit")
  | ComponentUpdateModeTypeOnDelete =>
      err_if (componentType == ComponentTypeEmpty)
        (Invalid (Child path "type") "onDelete update requires a concrete component selector")
  | ComponentUpdateModeTypeNone => []
  end.

(** The loop over the plan, with its variable [exclusiveClass]. *)
Fixpoint validateUpdatePlan_loop (newYtsaurus : Ytsaurus) (exclusiveClass : ComponentClass) (i : nat)
    (plan : list ComponentUpdateSelector) : ErrorList :=
  match plan with
  | [] => []
  | entry :: rest =>
      let entryPath := Index (specPath "updatePlan") i in
      let componentPath := Child entryPath "component" in
      let component := sel_Component entry in
      let noComponent := (component_Type component == ComponentTypeEmpty) && (component_Name component == "") in
      let exclusive := (sel_Class entry == ComponentClassNothing) || (sel_Class entry == ComponentClassEverything) in
      err_if ((sel_Class entry != ComponentClassUnspecified) && negb noComponent)
        (Invalid componentPath "Only one of component or class should be specified")
      ++ err_if ((sel_Class entry == ComponentClassUnspecified) && noComponent)
        (Invalid componentPath "Either component or class should be specified")
      ++ err_if ((component_Type component != ComponentTypeEmpty)
                 && negb (bool_decide (component_Type component ∈ LocalComponentTypes)))
        (Invalid (Child componentPath "type") "Unknown component type")
      ++ err_if (exclusiveClass != ComponentClassUnspecified)
        (Invalid entryPath ("Update plan already contains class " +:+ ComponentClass_string exclusiveClass))
      ++ match sel_Class entry with
         | ComponentClassNothing | ComponentClassEverything =>
             err_if (0 <? i)%nat (Invalid (Child entryPath "class") "Should be first and only entry")
         | ComponentClassStateless | ComponentClassUnspecified => []
         | ComponentClassOther _ => [Invalid (Child entryPath "class") "Unknown class"]
         end
      ++ validateUpdateModeForSelector newYtsaurus entry (Child entryPath "updateMode")
      ++ validateUpdatePlan_loop newYtsaurus (if exclusive then sel_Class entry else exclusiveClass) (S i) rest
  end.

Definition validateUpdatePlan (newYtsaurus : Ytsaurus) : ErrorList :=
  validateUpdatePlan_loop newYtsaurus ComponentClassUnspecified 0 (spec_UpdatePlan (yts_Spec newYtsaurus)).

Definition validateYtsaurus (newYtsaurus : Ytsaurus) (oldYtsaurus : option Ytsaurus) : ErrorList :=
  ValidateVersionConstraint (spec_RequiresOperatorVersion (yts_Spec newYtsaurus))
  ++ validateCommonSpec (spec_CommonSpec (yts_Spec newYtsaurus))
  ++ validatePodSpec (spec_PodSpec (yts_Spec newYtsaurus)) "spec"
  ++ validateDiscovery newYtsaurus
  ++ validatePrimaryMasters newYtsaurus oldYtsaurus
  ++ validateSecondaryMasters newYtsaurus oldYtsaurus
  ++ validateHTTPProxies newYtsaurus
  ++ validateRPCProxies newYtsaurus
  ++ validateTCPProxies newYtsaurus
  ++ validateDataNodes newYtsaurus
  ++ validateExecNodes newYtsaurus
  ++ validateSchedulers newYtsaurus
  ++ validateControllerAgents newYtsaurus
  ++ validateTabletNodes newYtsaurus
  ++ validateChyt newYtsaurus
  ++ validateStrawberry newYtsaurus
  ++ validateQueryTrackers newYtsaurus
  ++ validateQueueAgents newYtsaurus
  ++ validateSpyt newYtsaurus
  ++ validateYQLAgents newYtsaurus
  ++ validateUi newYtsaurus
  ++ validateExtraTimbertruckComponents newYtsaurus
  ++ validateExistsYtsaurus newYtsaurus
  ++ validateUpdatePlan newYtsaurus.

(** The error of an admission request: an object of another type, or
    [apierrors.NewInvalid] with the object's name. *)
Inductive AdmissionError : Type :=
  | UnexpectedType
  | NewInvalid (name : string) (errs : ErrorList).

Definition evaluateYtsaurusValidation (newYtsaurus oldYtsaurus : option Ytsaurus) : option AdmissionError :=
  match newYtsaurus with
  | None => None
  | Some newYtsaurus =>
      match validateYtsaurus newYtsaurus oldYtsaurus with
      | [] => None
      | errs => Some (NewInvalid (yts_Name newYtsaurus) errs)
      end
  end.

(** ** The handlers (webhook.go)

    A [runtime.Object] is [Some] object of the validator's type, or [None] for any other. *)

Definition ValidateCreate (obj : option Ytsaurus) : option AdmissionError :=
  match obj with
  | None => Some UnexpectedType
  | Some newObject => evaluateYtsaurusValidation (Some newObject) None
  end.

Definition ValidateUpdate (oldObj newObj : option Ytsaurus) : option AdmissionError :=
  match oldObj, newObj with
  | Some oldObject, Some newObject => evaluateYtsaurusValidation (Some newObject) (Some oldObject)
  | _, _ => Some UnexpectedType
  end.

Definition ValidateDelete (oldObj : option Ytsaurus) : option AdmissionError :=
  match oldObj with
  | None => Some UnexpectedType
  | Some oldObject => evaluateYtsaurusValidation None (Some oldObject)
  end.

End webhook.

(** ** Empty error lists

    A check accepts when its list is empty; [accept] splits such a hypothesis along the
    concatenations of the check. *)

Lemma err_if_nil b e : err_if b e = [] ↔ b = false.
Proof. by destruct b. Qed.

Lemma isNone_false {A} (x : option A) : isNone x = false ↔ ∃ y, x = Some y.
Proof. destruct x; cbn; naive_solver. Qed.

Lemma range_from_nil {A} (body : nat → A → ErrorList) i l :
  range_from body i l = [] ↔ ∀ j x, l !! j = Some x → body (i + j)%nat x = [].
Proof.
  revert i. induction l as [|x l IH]; intros i; cbn; [done|]. rewrite app_nil, IH. split.
  - intros [Hx Hl] [|j] y; cbn; [intros [= <-]; by rewrite Nat.add_0_r|].
    intros Hj. rewrite <- Nat.add_succ_comm. by apply Hl.
  - intros Hall. split; [rewrite <- (Nat.add_0_r i); by apply (Hall 0%nat)|].
    intros j y Hj. rewrite Nat.add_succ_comm. by apply Hall.
Qed.

Lemma concat_map_nil {A} (f : A → ErrorList) l :
  concat (map f l) = [] ↔ ∀ x, x ∈ l → f x = [].
Proof.
  induction l as [|x l IH]; cbn; [split; [by intros _ x ?%elem_of_nil|done]|].
  rewrite app_nil, IH. setoid_rewrite elem_of_cons. naive_solver.
Qed.

Lemma range_unique_nil {A} (name : A → string) dupPath body i names l :
  range_unique name dupPath body i names l = [] →
  NoDup (name <$> l) ∧ (∀ x, x ∈ l → name x ∉ names) ∧ ∀ x, x ∈ l → ∃ j, body j x = [].
Proof.
  revert i names. induction l as [|x l IH]; intros i names; cbn.
  { intros _. split_and!; [constructor|by intros x ?%elem_of_nil..]. }
  rewrite !app_nil, err_if_nil, bool_decide_eq_false.
  intros (Hx & Hb & (Hnd & Hnot & Hall)%IH). split_and!.
  - constructor; [|done]. intros (y & Hy & Hin)%list_elem_of_fmap. apply (Hnot y Hin). set_solver.
  - intros y [->|Hy]%elem_of_cons; [done|]. specialize (Hnot y Hy). set_solver.
  - intros y [->|Hy]%elem_of_cons; [by exists i|by apply Hall].
Qed.

Lemma if_present_nil {A} (x : option A) check : if_present x check = [] → ∀ y, x = Some y → check y = [].
Proof. by intros H y ->. Qed.

(** Take the hypothesis [H : l1 ++ ... ++ ln = []] apart. *)
Ltac accept H :=
  repeat match type of H with
  | _ ++ _ = [] => let H' := fresh "Hok" in apply app_nil in H as [H' H]
  end.

(** Find an element in a concatenation by the piece it comes from. *)
Ltac in_app :=
  lazymatch goal with
  | |- _ ∈ _ ++ _ => apply elem_of_app; first [left; in_app | right; in_app]
  | |- _ ∈ _ :: _ => apply elem_of_cons; first [left; reflexivity | right; in_app]
  | |- _ ∈ _ <$> _ => apply list_elem_of_fmap; eexists; split; [reflexivity|eassumption]
  end.

Section acceptance.
Context `{WebhookDeps}.

Lemma evaluate_accepted newY oldY :
  evaluateYtsaurusValidation (Some newY) oldY = None → validateYtsaurus newY oldY = [].
Proof. cbn. by destruct (validateYtsaurus newY oldY). Qed.

(** *** Which specifications the instance checks cover *)

Definition validated_instances (spec : YtsaurusSpec) : list (InstanceSpec * option TimbertruckSpec) :=
  let plain (i : InstanceSpec) := (i, None) in
  let optional (i : option InstanceSpec) := match i with Some i => [plain i] | None => [] end in
  let master (m : MastersSpec) := (ms_InstanceSpec m, ms_Timbertruck m) in
  [plain (spec_Discovery spec); master (spec_PrimaryMasters spec)]
  ++ (master <$> spec_SecondaryMasters spec)
  ++ ((λ p, plain (hps_InstanceSpec p)) <$> spec_HTTPProxies spec)
  ++ ((λ p, plain (rps_InstanceSpec p)) <$> spec_RPCProxies spec)
  ++ ((λ p, plain (tps_InstanceSpec p)) <$> spec_TCPProxies spec)
  ++ ((λ p, plain (dns_InstanceSpec p)) <$> spec_DataNodes spec)
  ++ ((λ p, plain (ens_InstanceSpec p)) <$> spec_ExecNodes spec)
  ++ ((λ p, plain (tns_InstanceSpec p)) <$> spec_TabletNodes spec)
  ++ optional (spec_Schedulers spec) ++ optional (spec_ControllerAgents spec)
  ++ optional (spec_QueryTrackers spec) ++ optional (yqs_InstanceSpec <$> spec_YQLAgents spec) ++ optional (spec_QueueAgents spec).

Definition instance_accepted (commonSpec : CommonSpec) (i : InstanceSpec * option TimbertruckSpec) : Prop :=
  ∃ path, validateInstanceSpecWithTimbertruck i.1 commonSpec i.2 path = [].

Lemma validateMasterSpec_instance newY oldY ms oms path :
  validateMasterSpec newY oldY ms oms path = [] →
  instance_accepted (spec_CommonSpec (yts_Spec newY)) (ms_InstanceSpec ms, ms_Timbertruck ms).
Proof.
  unfold validateMasterSpec. destruct (validateMasterRoles _ _ _ _ _). intros Hv.
  apply app_nil in Hv as [Hv _]. by exists path.
Qed.

(** Every secondary cell is checked, against the cell at its index before. *)
Lemma validateSecondaryLoop_cells newY oldY tags hosts i cells :
  (validateSecondaryLoop newY oldY tags hosts i cells).1 = [] →
  ∀ j ms, cells !! j = Some ms →
  ∃ path, validateMasterSpec newY oldY ms
            (oldY ≫= λ y, spec_SecondaryMasters (yts_Spec y) !! (i + j)%nat) path = [].
Proof.
  revert tags hosts i. induction cells as [|c cells IH]; intros tags hosts i; [done|].
  cbn -[validateMasterSpec]. destruct (uv_Insert _ _ _) as [e1 tags'].
  destruct (uv_InsertAll _ _ _) as [e2 hosts'].
  destruct (validateSecondaryLoop newY oldY tags' hosts' (S i) cells) as [e3 tags''] eqn:Hrec.
  cbn -[validateMasterSpec]. rewrite !app_nil. intros (Hc & _ & _ & Hmore) [|j] ms.
  - intros [= <-]. rewrite Nat.add_0_r. eauto.
  - cbn. intros Hj. rewrite <- Nat.add_succ_comm. eapply IH; [|done]. by rewrite Hrec.
Qed.

Lemma validateSecondaryMasters_loop newY oldY :
  validateSecondaryMasters newY oldY = [] →
  ∃ tags hosts, (validateSecondaryLoop newY oldY tags hosts 0 (spec_SecondaryMasters (yts_Spec newY))).1 = [].
Proof.
  unfold validateSecondaryMasters. destruct (uv_Insert _ _ _) as [? tags].
  destruct (uv_InsertAll _ _ _) as [? hosts].
  destruct (validateSecondaryLoop _ _ _ _ _ _) as [e tags'] eqn:Hl. rewrite !app_nil.
  intros (_ & He & _). exists tags, hosts. by rewrite Hl.
Qed.

Lemma accepted_secondary newY oldY :
  validateYtsaurus newY oldY = [] →
  ∀ j ms, spec_SecondaryMasters (yts_Spec newY) !! j = Some ms →
  ∃ path, validateMasterSpec newY oldY ms
            (oldY ≫= λ y, spec_SecondaryMasters (yts_Spec y) !! j) path = [].
Proof.
  unfold validateYtsaurus. rewrite !app_nil. intros (_ & _ & _ & _ & _ & Hs & _).
  apply validateSecondaryMasters_loop in Hs as (tags & hosts & Hs).
  intros j ms Hj. exact (validateSecondaryLoop_cells _ _ _ _ _ _ Hs j ms Hj).
Qed.

Lemma instance_accepted_plain commonSpec i path :
  validateInstanceSpec i commonSpec path = [] → instance_accepted commonSpec (i, None).
Proof. by exists path. Qed.

(** The instance check is the first check of a group. *)
Ltac first_check Hj :=
  first [eapply instance_accepted_plain, Hj
        |apply app_nil in Hj as [Hj _]; eapply instance_accepted_plain, Hj].

Lemma accepted_instances newY oldY :
  validateYtsaurus newY oldY = [] →
  ∀ i, i ∈ validated_instances (yts_Spec newY) → instance_accepted (spec_CommonSpec (yts_Spec newY)) i.
Proof.
  intros Hv. pose proof (accepted_secondary _ _ Hv) as Hsec.
  unfold validateYtsaurus in Hv. rewrite !app_nil in Hv.
  destruct Hv as (_ & _ & _ & Hdisc & Hprim & _ & Hhttp & Hrpc & Htcp & Hdata & Hexec & Hsched & Hca
    & Htab & _ & _ & Hqt & Hqa & _ & Hyql & _).
  apply app_nil in Hprim as [Hprim _]. apply app_nil in Hhttp as [Hhttp _].
  apply app_nil in Hexec as [Hexec _].
  apply range_unique_nil in Hhttp as (_ & _ & Hhttp), Hrpc as (_ & _ & Hrpc), Htcp as (_ & _ & Htcp),
    Hdata as (_ & _ & Hdata), Hexec as (_ & _ & Hexec), Htab as (_ & _ & Htab).
  apply Forall_forall. unfold validated_instances. rewrite !Forall_app, !Forall_fmap, !Forall_forall.
  assert (∀ A (part : A → InstanceSpec) o (check : A → ErrorList),
    if_present o check = [] → (∀ x, check x = [] → instance_accepted (spec_CommonSpec (yts_Spec newY)) (part x, None)) →
    ∀ y, y ∈ match part <$> o with Some i => [(i, None : option TimbertruckSpec)] | None => [] end →
    instance_accepted (spec_CommonSpec (yts_Spec newY)) y) as Hopt'.
  { intros A part [o|] check Hc Hx y; [intros ->%list_elem_of_singleton; by apply Hx|by intros ?%elem_of_nil]. }
  assert (∀ o (check : InstanceSpec → ErrorList),
    if_present o check = [] → (∀ x, check x = [] → instance_accepted (spec_CommonSpec (yts_Spec newY)) (x, None)) →
    ∀ y, y ∈ match o with Some i => [(i, None : option TimbertruckSpec)] | None => [] end →
    instance_accepted (spec_CommonSpec (yts_Spec newY)) y) as Hopt.
  { intros o check Hc Hx. specialize (Hopt' _ id o check Hc Hx). by destruct o. }
  split_and!.
  - intros x [->|[->|[]%elem_of_nil]%elem_of_cons]%elem_of_cons;
      [first_check Hdisc|exact (validateMasterSpec_instance _ _ _ _ _ Hprim)].
  - intros ms [j Hj]%list_elem_of_lookup. destruct (Hsec j ms Hj) as [path Hp].
    exact (validateMasterSpec_instance _ _ _ _ _ Hp).
  - intros p Hp. destruct (Hhttp p Hp) as [j Hj]. first_check Hj.
  - intros p Hp. destruct (Hrpc p Hp) as [j Hj]. first_check Hj.
  - intros p Hp. destruct (Htcp p Hp) as [j Hj]. first_check Hj.
  - intros p Hp. destruct (Hdata p Hp) as [j Hj]. first_check Hj.
  - intros p Hp. destruct (Hexec p Hp) as [j Hj]. first_check Hj.
  - intros p Hp. destruct (Htab p Hp) as [j Hj]. first_check Hj.
  - apply (Hopt _ _ Hsched). intros x Hx. first_check Hx.
  - apply (Hopt _ _ Hca). intros x Hx. first_check Hx.
  - apply (Hopt _ _ Hqt). intros x Hx. first_check Hx.
  - apply (Hopt' _ yqs_InstanceSpec _ _ Hyql). intros x Hx. first_check Hx.
  - apply (Hopt _ _ Hqa). intros x Hx. first_check Hx.
Qed.

(** *** Master quorums *)

Local Notation count ms := (is_InstanceCount (ms_InstanceSpec ms)).

(** The instances of a cell, by ordinal. *)
Definition instances (ms : MastersSpec) : gset nat :=
  set_seq 0 (Z.to_nat (count ms)).

(** A cell before and after: the primary cell, or the secondary cell at one index. *)
Inductive same_cell (oldY newY : Ytsaurus) : MastersSpec → MastersSpec → Prop :=
  | same_primary :
      same_cell oldY newY (spec_PrimaryMasters (yts_Spec oldY)) (spec_PrimaryMasters (yts_Spec newY))
  | same_secondary j oms ms :
      spec_SecondaryMasters (yts_Spec oldY) !! j = Some oms →
      spec_SecondaryMasters (yts_Spec newY) !! j = Some ms →
      same_cell oldY newY oms ms.

(** The bounds of the API schema, and counts below the 32-bit overflow of [minReady*2]. *)
Definition counts_ok (ms : MastersSpec) : Prop :=
  (0 ≤ count ms < 2 ^ 30 ∧
   0 ≤ Deref (is_MinReadyInstanceCount (ms_InstanceSpec ms)) 0)%Z.

Lemma accepted_cell oldY newY oms ms :
  validateYtsaurus newY (Some oldY) = [] → same_cell oldY newY oms ms →
  ∃ path, validateMasterSpec newY (Some oldY) ms (Some oms) path = [].
Proof.
  intros Hv [|j oms' ms' Ho Hn].
  - unfold validateYtsaurus in Hv. rewrite !app_nil in Hv. destruct Hv as (_ & _ & _ & _ & Hp & _).
    apply app_nil in Hp as [Hp _]. eauto.
  - destruct (accepted_secondary _ _ Hv j ms' Hn) as [path Hp]. cbn in Hp. rewrite Ho in Hp. eauto.
Qed.

Lemma minReady_bounds ms :
  counts_ok ms → (0 ≤ minReady ms ≤ count ms)%Z.
Proof.
  unfold counts_ok, minReady. destruct (is_MinReadyInstanceCount (ms_InstanceSpec ms)); cbn; lia.
Qed.

(** Two sets of ordinals below [n] with more than [n] elements together meet. *)
Lemma sets_meet (n : nat) (R Q : gset nat) :
  R ⊆ set_seq 0 n → Q ⊆ set_seq 0 n → (n < size R + size Q)%nat → ∃ i, i ∈ R ∧ i ∈ Q.
Proof.
  intros HR HQ Hn. destruct (decide (R ## Q)) as [Hd|Hd].
  - exfalso. pose proof (size_union R Q Hd) as Hu.
    assert (size (R ∪ Q) ≤ size (set_seq 0 n : gset nat))%nat as Hs by (apply subseteq_size; set_solver).
    assert (size (set_seq 0 n : gset nat) = n) as Hq.
    { rewrite <- list_to_set_seq, size_list_to_set; [apply length_seq|apply NoDup_seq]. }
    lia.
  - destruct (set_choose_L (R ∩ Q)) as [i Hi]; [intros He; apply Hd; set_solver|].
    exists i. set_solver.
Qed.

(** C12.  An accepted update of a master cell of more than one instance cannot lose its quorum.
    The instances that were ready at least (minReadyInstanceCount of the old cell) are a majority
    of the resized cell, and whatever instances of the old cell were ready, every majority of the
    resized cell contains one of them, so no majority can form from instances that missed committed
    mutations.  A cell of one instance is not covered: the webhook lets it grow to any size
    ([single_master_growth]).  For every cell: it keeps its tag, its size changes only while every
    component but the masters is shut down before and after, and in a cluster that is not ephemeral
    the instances that must be ready after the update are a majority.  Instance counts are not
    negative and below 2^30. *)
Theorem accepted_resize_keeps_quorum newY oldY oms ms :
  ValidateUpdate (Some oldY) (Some newY) = None →
  same_cell oldY newY oms ms → counts_ok oms → counts_ok ms →
  ms_CellTag ms = ms_CellTag oms ∧
  (count ms ≠ count oms →
     cmt_Shutdown (maintenance_of oldY) = ClusterShutdownExceptMasters ∧
     cmt_Shutdown (maintenance_of newY) = ClusterShutdownExceptMasters) ∧
  (cs_EphemeralCluster (spec_CommonSpec (yts_Spec newY)) = false →
   0 < count ms →
   count ms < 2 * minReady ms)%Z ∧
  ((1 < count oms)%Z →
   (count ms < 2 * minReady oms)%Z ∧
   ∀ ready majority : gset nat,
     ready ⊆ instances oms → (minReady oms ≤ Z.of_nat (size ready))%Z →
     majority ⊆ instances ms →
     (count ms < 2 * Z.of_nat (size majority))%Z →
     ∃ i, i ∈ ready ∧ i ∈ majority).
Proof.
  intros Hv%evaluate_accepted Hcell Ho Hn.
  destruct (accepted_cell _ _ _ _ Hv Hcell) as [path Hm].
  pose proof (minReady_bounds _ Ho) as Hmo. pose proof (minReady_bounds _ Hn) as Hmn.
  destruct Ho as [Ho _], Hn as [Hn _].
  unfold validateMasterSpec in Hm. destruct (validateMasterRoles _ _ _ _ _) as [re changed].
  rewrite !app_nil, !err_if_nil in Hm.
  destruct Hm as (_ & _ & _ & _ & Htag & _ & Hmaj & _ & Hres & _).
  unfold validateMasterResize in Hres. rewrite !app_nil, !err_if_nil in Hres.
  destruct Hres as (_ & _ & Hshrink & Hgrow & Hmaint & _).
  rewrite !i32_id in Hshrink by (unfold in_i32; lia). rewrite !i32_id in Hgrow by (rewrite ?i32_id; unfold in_i32; lia).
  apply negb_false_iff, bool_decide_eq_true in Htag. split_and!; [done| | |].
  - intros Hne. destruct (bool_decide_reflect (cmt_Shutdown (maintenance_of oldY) = ClusterShutdownExceptMasters)),
      (bool_decide_reflect (cmt_Shutdown (maintenance_of newY) = ClusterShutdownExceptMasters)); cbn in Hmaint; try done.
    all: rewrite app_nil, err_if_nil, negb_false_iff, bool_decide_eq_true in Hmaint; destruct Hmaint; congruence.
  - intros He Hpos. rewrite He in Hmaj. rewrite Z.quot_div_nonneg in Hmaj by lia.
    pose proof (Z.div_mod (count ms) 2). pose proof (Z.mod_pos_bound (count ms) 2). lia.
  - intros Hold. split; [lia|]. intros ready majority Hr Hrs Hq Hqs. unfold instances in *.
    rewrite Z.quot_div_nonneg in Hshrink by lia.
    pose proof (Z.div_mod (count ms) 2). pose proof (Z.mod_pos_bound (count ms) 2).
    apply (sets_meet (Z.to_nat (Z.max (count oms) (count ms)))).
    + intros i Hi. apply Hr in Hi. rewrite elem_of_set_seq in *. lia.
    + intros i Hi. apply Hq in Hi. rewrite elem_of_set_seq in *. lia.
    + lia.
Qed.

(** *** Update plans *)

Definition exclusive_entry (e : ComponentUpdateSelector) : Prop :=
  sel_Class e = ComponentClassNothing ∨ sel_Class e = ComponentClassEverything.

(** What the operator may assume of an entry: it selects by class or by component and not
    by both, its class is known and its component type too, and a strategy other than the
    bulk update is given only to a component type that supports it. *)
Record entry_ok (y : Ytsaurus) (e : ComponentUpdateSelector) : Prop := {
  eo_class : sel_Class e ≠ ComponentClassUnspecified ↔ sel_Component e = mkComponent ComponentTypeEmpty "";
  eo_known : sel_Class e ∈ [ComponentClassUnspecified; ComponentClassStateless; ComponentClassNothing;
                            ComponentClassEverything];
  eo_type : component_Type (sel_Component e) ∈ ComponentTypeEmpty :: LocalComponentTypes;
  eo_strategy : GetUpdateStrategyType (Some e) ≠ ComponentUpdateModeTypeNone →
    component_Type (sel_Component e) ∈ LocalComponentTypes;
  eo_bulk : component_Type (sel_Component e) ∈ bulkOnlyComponentTypes →
    GetUpdateStrategyType (Some e) ∈ [ComponentUpdateModeTypeNone; ComponentUpdateModeTypeBulkUpdate];
  eo_data_nodes : GetUpdateStrategyType (Some e) = ComponentUpdateModeTypeRollingUpdate →
    sel_Component e = mkComponent DataNodeType "" → (1 < length (spec_DataNodes (yts_Spec y)))%nat →
    is_Some (sel_Concurrency e);
}.

Lemma isSome_strategy e :
  isSome (sel_Strategy e) = negb (GetUpdateStrategyType (Some e) == ComponentUpdateModeTypeNone).
Proof.
  unfold GetUpdateStrategyType, ComponentUpdateStrategy_Type.
  destruct (sel_Strategy e) as [m|]; [|done]. by destruct (strat_RollingUpdate m), (strat_OnDelete m).
Qed.

Lemma mode_checks y e path :
  validateUpdateModeForSelector y e path = [] →
  (GetUpdateStrategyType (Some e) ≠ ComponentUpdateModeTypeNone →
     sel_Class e = ComponentClassUnspecified ∧ component_Type (sel_Component e) ≠ ComponentTypeEmpty) ∧
  (sel_Class e = ComponentClassUnspecified → component_Type (sel_Component e) ∈ bulkOnlyComponentTypes →
     GetUpdateStrategyType (Some e) ∈ [ComponentUpdateModeTypeNone; ComponentUpdateModeTypeBulkUpdate]) ∧
  (GetUpdateStrategyType (Some e) = ComponentUpdateModeTypeRollingUpdate →
     sel_Component e = mkComponent DataNodeType "" → (1 < length (spec_DataNodes (yts_Spec y)))%nat →
     is_Some (sel_Concurrency e)).
Proof.
  unfold validateUpdateModeForSelector. rewrite isSome_strategy.
  generalize (GetUpdateStrategyType (Some e)). intros m.
  destruct (bool_decide_reflect (m = ComponentUpdateModeTypeNone)) as [->|Hm].
  { intros _. split_and!; [done|set_solver|done]. }
  destruct (bool_decide_reflect (sel_Class e = ComponentClassUnspecified)) as [Hc|Hc]; cbn; [|done].
  destruct (bool_decide_reflect (component_Type (sel_Component e) = ComponentTypeEmpty)) as [Ht|Ht]; cbn; [done|].
  destruct (bool_decide_reflect (component_Type (sel_Component e) ∈ bulkOnlyComponentTypes)) as [Hb|Hb];
    destruct (bool_decide_reflect (m = ComponentUpdateModeTypeBulkUpdate)) as [->|Hm']; cbn; intros Hmode;
    try done; split_and!; try done; try (by intros _ ?); try (by intros _ _; right; left).
  intros -> He Hlen. rewrite He in Hmode. cbn in Hmode. apply err_if_nil in Hmode.
  rewrite !bool_decide_true in Hmode by done.
  destruct (length (spec_DataNodes (yts_Spec y))) as [|[|k]]; [lia..|].
  by apply isNone_false in Hmode as [n ->].
Qed.

Lemma entry_checks y e (excl : ComponentClass) i rest :
  validateUpdatePlan_loop y excl i (e :: rest) = [] →
  entry_ok y e ∧ excl = ComponentClassUnspecified ∧ (exclusive_entry e → i = 0%nat) ∧
  ∃ excl', validateUpdatePlan_loop y excl' (S i) rest = [] ∧
           (exclusive_entry e → excl' ≠ ComponentClassUnspecified).
Proof.
  cbn -[validateUpdateModeForSelector]. rewrite !app_nil, !err_if_nil.
  intros (Hboth & Hneither & Htype & Hexcl & Hclass & (Hm1 & Hm2 & Hm3)%mode_checks & Hrest).
  apply negb_false_iff, bool_decide_eq_true in Hexcl.
  assert (component_Type (sel_Component e) ∈ ComponentTypeEmpty :: LocalComponentTypes) as Ht.
  { rewrite elem_of_cons. apply andb_false_iff in Htype as [Ht|Ht]; revert Ht;
      rewrite negb_false_iff, bool_decide_eq_true; tauto. }
  assert (sel_Class e ≠ ComponentClassUnspecified ↔ sel_Component e = mkComponent ComponentTypeEmpty "") as Hc.
  { revert Hboth Hneither. destruct (sel_Component e) as [t n]. cbn.
    bool_cases; cbn; intros; try done; naive_solver congruence. }
  split_and!; [|done| |].
  - split; try done.
    + destruct (sel_Class e); try done; apply (bool_decide_unpack _); vm_compute; exact I.
    + intros Hm. destruct (Hm1 Hm) as [_ Hne]. apply elem_of_cons in Ht as [?|?]; done.
    + intros Hb. apply Hm2; [|done]. destruct (decide (sel_Class e = ComponentClassUnspecified)) as [|Hn]; [done|].
      apply Hc in Hn. rewrite Hn in Hb. cbn in Hb. set_solver.
  - intros [He|He]; rewrite He in Hclass; by destruct i.
  - eexists. split; [exact Hrest|]. intros [He|He]; by rewrite He.
Qed.

Lemma plan_checks y excl i plan :
  validateUpdatePlan_loop y excl i plan = [] →
  Forall (entry_ok y) plan ∧ (plan ≠ [] → excl = ComponentClassUnspecified) ∧
  (∀ e, e ∈ plan → exclusive_entry e → plan = [e] ∧ i = 0%nat).
Proof.
  revert excl i. induction plan as [|e plan IH]; intros excl i.
  { intros _. split_and!; [constructor|done|by intros e ?%elem_of_nil]. }
  intros (He & Hx & Hi & excl' & (Hp & Hne & Hex)%IH & Hx')%entry_checks. split_and!; [by constructor|done|].
  intros e' [->|Hin]%elem_of_cons Hexe.
  - split; [|by apply Hi]. destruct plan as [|e1 plan]; [done|]. by destruct (Hx' Hexe), Hne.
  - destruct (Hex e' Hin Hexe) as [_ ?]. lia.
Qed.

Lemma applyLoop_nothing e need cannot :
  sel_Class e = ComponentClassNothing → applyLoop [e] need [0%Z] [] cannot = ([], cannot ++ need).
Proof.
  intros He. revert cannot. induction need as [|c need IH]; intros cannot; cbn; [by rewrite app_nil_r|].
  unfold canUpdateComponent. rewrite He. cbn. rewrite IH. by rewrite <- app_assoc.
Qed.

(** An accepted update plan is well formed: every entry names a known class or a known
    component and not both, strategies are given only to component types that support
    them, a rolling update of several data node groups is limited, and an entry for
    Nothing or Everything stands alone.  A plan that says Nothing therefore lets no
    component update. *)
Theorem accepted_update_plan newY oldY :
  evaluateYtsaurusValidation (Some newY) oldY = None →
  Forall (entry_ok newY) (spec_UpdatePlan (yts_Spec newY)) ∧
  (∀ e, e ∈ spec_UpdatePlan (yts_Spec newY) → exclusive_entry e → spec_UpdatePlan (yts_Spec newY) = [e]) ∧
  (∀ e need, e ∈ spec_UpdatePlan (yts_Spec newY) → sel_Class e = ComponentClassNothing →
     applyUpdatePlan (GetUpdatePlan newY) need = ([], need)).
Proof.
  intros Hv%evaluate_accepted. unfold validateYtsaurus in Hv. rewrite !app_nil in Hv.
  repeat match type of Hv with _ ∧ _ => destruct Hv as [_ Hv] end. apply plan_checks in Hv as (Hok & _ & Hex). split_and!; [done| |].
  - intros e He Hx. by apply Hex.
  - intros e need He Hc. destruct (Hex e He) as [Hp _]; [by left|].
    unfold GetUpdatePlan. rewrite Hp. exact (applyLoop_nothing e need [] Hc).
Qed.

(** *** Secure transports *)

(** The transport a component uses: its own, or the cluster-wide one. *)
Definition effectiveTransport (commonSpec : CommonSpec) (i : InstanceSpec) : option RPCTransportSpec :=
  match is_NativeTransport i with Some t => Some t | None => cs_NativeTransport commonSpec end.

(** TLS only, with verified peers and both certificates. *)
Definition secure_transport (t : RPCTransportSpec) : Prop :=
  rpct_TLSRequired t = true ∧ rpct_TLSInsecure t = false ∧
  is_Some (rpct_TLSSecret t) ∧ is_Some (rpct_TLSClientSecret t).

Lemma secure_checks spec commonSpec path :
  cf_SecureClusterTransports (features_of commonSpec) = true →
  validateTransportSecurity spec commonSpec path = [] →
  ∃ t, match spec with Some t => Some t | None => cs_NativeTransport commonSpec end = Some t ∧ secure_transport t.
Proof.
  intros Hs. unfold validateTransportSecurity. rewrite Hs.
  assert (match spec with Some _ => spec | None => cs_NativeTransport commonSpec end =
          match spec with Some t => Some t | None => cs_NativeTransport commonSpec end) as -> by by destruct spec.
  destruct (match spec with Some t => _ | None => _ end) as [t|]; [|done].
  rewrite !app_nil, !err_if_nil. intros (_ & _ & Hr & Hi & [s Hts]%isNone_false & [c Htc]%isNone_false).
  exists t. unfold secure_transport. rewrite Hts, Htc. apply negb_false_iff in Hr. eauto 10.
Qed.

(** With SecureClusterTransports, an accepted cluster talks TLS only: every component
    whose instances are checked has a native transport, its own or the cluster's, that
    requires TLS, verifies its peers and has both certificates; every HTTP proxy serves
    HTTPS only, with a certificate, and every RPC proxy requires TLS with a certificate. *)
Theorem accepted_secure_transports newY oldY :
  evaluateYtsaurusValidation (Some newY) oldY = None →
  cf_SecureClusterTransports (features_of (spec_CommonSpec (yts_Spec newY))) = true →
  (∀ i tt, (i, tt) ∈ validated_instances (yts_Spec newY) →
     ∃ t, effectiveTransport (spec_CommonSpec (yts_Spec newY)) i = Some t ∧ secure_transport t) ∧
  (∀ hp, hp ∈ spec_HTTPProxies (yts_Spec newY) → hps_DisableHTTP hp = true ∧ is_Some (hps_HTTPSSecret hp)) ∧
  (∀ rp, rp ∈ spec_RPCProxies (yts_Spec newY) →
     rpct_TLSRequired (rps_Transport rp) = true ∧ rpct_TLSInsecure (rps_Transport rp) = false ∧
     is_Some (rpct_TLSSecret (rps_Transport rp))).
Proof.
  intros Hv%evaluate_accepted Hs. split.
  { intros i tt Hi. destruct (accepted_instances _ _ Hv _ Hi) as [path Hp].
    unfold validateInstanceSpecWithTimbertruck in Hp. rewrite !app_nil in Hp.
    destruct Hp as (_ & _ & _ & _ & Ht & _). exact (secure_checks _ _ _ Hs Ht). }
  unfold validateYtsaurus in Hv. rewrite !app_nil in Hv.
  destruct Hv as (_ & Hcommon & _ & _ & _ & _ & Hhttp & Hrpc & _). split.
  - assert (cf_HTTPProxyHaveHTTPSAddress (features_of (spec_CommonSpec (yts_Spec newY))) = true) as Hfeat.
    { apply app_nil in Hcommon as [Hc _]. revert Hs Hc. unfold features_of.
      destruct (cs_ClusterFeatures _) as [f|]; cbn; [|done]. intros ->.
      rewrite app_nil, !err_if_nil. by intros [_ ?%negb_false_iff]. }
    apply app_nil in Hhttp as [Hhttp _]. apply range_unique_nil in Hhttp as (_ & _ & Hhttp).
    intros hp Hin. destruct (Hhttp hp Hin) as [j Hj]. rewrite !app_nil, !err_if_nil, Hs, Hfeat in Hj.
    destruct Hj as (_ & [c Hsec]%isNone_false & Hd%negb_false_iff). by rewrite Hsec.
  - apply range_unique_nil in Hrpc as (_ & _ & Hrpc). intros rp Hin.
    destruct (Hrpc rp Hin) as [j Hj]. rewrite Hs, !app_nil, !err_if_nil in Hj.
    destruct Hj as (_ & _ & Hr%negb_false_iff & Hi & [c Hsec]%isNone_false). by rewrite Hsec.
Qed.

(** *** Log delivery *)

Lemma requireLocations_ok path locations reason t :
  requireLocations path locations reason [t] = [] → is_Some (FindFirstLocation locations t).
Proof.
  unfold requireLocations. cbn. rewrite app_nil_r, err_if_nil. by intros [l ->]%isNone_false.
Qed.

Lemma effective_image componentTT commonTT :
  negb (hasImage componentTT) && negb (hasImage commonTT) = false →
  effectiveTimbertruckImage componentTT commonTT ≠ "".
Proof.
  unfold effectiveTimbertruckImage, hasImage, nonempty.
  destruct componentTT as [[[a|] ?]|], commonTT as [[[b|] ?]|]; cbn; bool_cases; cbn; intros; congruence.
Qed.

Lemma delivery_checks componentTT commonTT i path :
  validateTimbertruckSpec componentTT commonTT (is_StructuredLoggers i) (is_Locations i) path = [] →
  deliveredStructuredLoggers componentTT (is_StructuredLoggers i) ≠ [] →
  is_Some (resolveTimbertruckDelivery componentTT commonTT i).
Proof.
  unfold validateTimbertruckSpec, resolveTimbertruckDelivery. intros Hv Hd.
  assert (negb (ContainsFunc (is_StructuredLoggers i) (λ logger, Deref (sl_EnableDelivery logger) false))
          && negb (isSome componentTT) = false) as Henabled.
  { revert Hd. unfold deliveredStructuredLoggers.
    destruct (ContainsFunc (is_StructuredLoggers i) (λ l, Deref _ false)) eqn:Hany; [done|].
    rewrite ContainsFunc_false in Hany. destruct componentTT as [tt|]; [done|]. cbn.
    assert (List.filter (λ l, Deref (sl_EnableDelivery l) false) (is_StructuredLoggers i) = []) as ->.
    { destruct (List.filter _ _) as [|x l] eqn:Hf; [done|].
      assert (In x (List.filter (λ l, Deref (sl_EnableDelivery l) false) (is_StructuredLoggers i))) as Hin
        by (rewrite Hf; by left).
      apply filter_In in Hin as [Hin Hx]. by rewrite Hany in Hx by by apply list_elem_of_In. }
    destruct (ContainsFunc _ _); by intros []. }
  rewrite Henabled in Hv. rewrite !app_nil, !err_if_nil in Hv.
  destruct Hv as (Himage%effective_image & _ & [l Hl]%requireLocations_ok).
  destruct (deliveredStructuredLoggers _ _); [done|]. rewrite bool_decide_false by done. rewrite Hl. eauto.
Qed.

(** The components only their log delivery is checked of. *)
Definition extra_instances (spec : YtsaurusSpec) : list InstanceSpec :=
  option_list (mcs_InstanceSpec <$> spec_MasterCaches spec) ++ (kps_InstanceSpec <$> spec_KafkaProxies spec)
  ++ option_list (cps_InstanceSpec <$> spec_CypressProxies spec) ++ option_list (spec_BundleController spec)
  ++ option_list (spec_TabletBalancer spec).

Lemma extra_checks newY :
  validateExtraTimbertruckComponents newY = [] → ∀ i, i ∈ extra_instances (yts_Spec newY) →
  ∃ path, validateTimbertruckSpec None (cs_Timbertruck (spec_CommonSpec (yts_Spec newY)))
            (is_StructuredLoggers i) (is_Locations i) path = [].
Proof.
  unfold validateExtraTimbertruckComponents. rewrite !app_nil, range_from_nil.
  intros (Hmc & Hk & Hcp & Hbc & Htb). apply Forall_forall. unfold extra_instances.
  rewrite !Forall_app, Forall_fmap. split_and!.
  2: { apply Forall_forall. intros k [j Hj]%list_elem_of_lookup. specialize (Hk j k Hj).
       apply app_nil in Hk as [Hk _]. eauto. }
  all: match goal with
       | |- Forall _ (option_list (_ <$> ?o)) => destruct o; [|constructor]
       | |- Forall _ (option_list ?o) => destruct o; [|constructor] end.
  all: constructor; [|constructor]; cbn -[validateTimbertruckSpec validateStructuredLoggers] in *;
    match goal with H : _ ++ _ = [] |- _ => apply app_nil in H as [H _]; eauto end.
Qed.

(** Every component the operator enumerates for delivery is checked by the webhook. *)
Lemma sources_checked spec s :
  s ∈ timbertruckLoggerSources spec →
  (src_instanceSpec s, src_componentTT s) ∈ validated_instances spec ∨
  (src_componentTT s = None ∧ src_instanceSpec s ∈ extra_instances spec).
Proof.
  pose (P s := (src_instanceSpec s, src_componentTT s) ∈ validated_instances spec ∨
    (src_componentTT s = None ∧ src_instanceSpec s ∈ extra_instances spec)).
  enough (Forall P (timbertruckLoggerSources spec)) as HP by exact (proj1 (Forall_forall _ _) HP s).
  unfold timbertruckLoggerSources. rewrite !Forall_app, !Forall_fmap, !Forall_forall.
  split_and!; intros x Hx;
    try match type of Hx with
    | _ ∈ match ?o with _ => _ end => destruct o eqn:?; [|by apply elem_of_nil in Hx]
    end;
    try apply list_elem_of_singleton in Hx as ->;
    unfold P, validated_instances, extra_instances;
    repeat match goal with E : _ = Some _ |- _ => rewrite E; clear E end; cbn -[app fmap];
    first [left; in_app | right; split; [reflexivity|in_app]].
Qed.

(** The webhook and the operator agree on log delivery: in an accepted cluster, every
    component with loggers to deliver gets its delivery resolved, with an image and a
    directory, in each place the operator enumerates. *)
Theorem accepted_delivery_resolves newY oldY s :
  evaluateYtsaurusValidation (Some newY) oldY = None →
  s ∈ timbertruckLoggerSources (yts_Spec newY) →
  deliveredStructuredLoggers (src_componentTT s) (is_StructuredLoggers (src_instanceSpec s)) ≠ [] →
  is_Some (source_delivery (yts_Spec newY) s).
Proof.
  intros Hv%evaluate_accepted Hs Hd.
  assert (∃ path, validateTimbertruckSpec (src_componentTT s) (cs_Timbertruck (spec_CommonSpec (yts_Spec newY)))
    (is_StructuredLoggers (src_instanceSpec s)) (is_Locations (src_instanceSpec s)) path = []) as [path Hp];
    [|by eapply delivery_checks].
  destruct (sources_checked _ _ Hs) as [Hi|[Htt Hi]].
  - destruct (accepted_instances _ _ Hv _ Hi) as [path Hp]. exists path.
    unfold validateInstanceSpecWithTimbertruck in Hp. rewrite !app_nil in Hp. tauto.
  - rewrite Htt. unfold validateYtsaurus in Hv. rewrite !app_nil in Hv. apply extra_checks; tauto.
Qed.

(** *** Volume mounts *)

(** [mount] covers [path], as [FindVolumeMountForPath] tests it. *)
Definition covers (path : string) (mount : VolumeMount) : bool :=
  (path == vm_MountPath mount) || HasPrefix path (vm_MountPath mount +:+ "/").

Lemma mounts_not_covered path i previous mounts :
  validateVolumeMounts path i previous mounts = [] →
  (∀ p m, p ∈ previous → m ∈ mounts → covers (vm_MountPath p) m = false) ∧
  (∀ before m after, mounts = before ++ m :: after →
     ∀ later, later ∈ after → covers (vm_MountPath m) later = false).
Proof.
  revert i previous. induction mounts as [|v mounts IH]; intros i previous.
  { intros _. split; [by intros p m _ ?%elem_of_nil|]. by intros [|? ?]. }
  cbn. rewrite !app_nil, concat_map_nil. intros (_ & Hv & (Hprev & Hin)%IH).
  split.
  - intros p m Hp [->|Hm]%elem_of_cons.
    + specialize (Hv p Hp). by rewrite err_if_nil in Hv.
    + apply Hprev; [|done]. apply elem_of_app. by left.
  - intros [|b before] m after; cbn; intros [= <- Heq] later Hl.
    + apply Hprev; [apply elem_of_app; right; by left|]. by rewrite Heq.
    + by eapply Hin.
Qed.

Lemma find_uncovered path (l1 l2 : list VolumeMount) m :
  (∀ later, later ∈ l2 → covers path later = false) → covers path m = true →
  FindVolumeMountForPath (l1 ++ m :: l2) path = Some m.
Proof.
  intros Hl Hm. unfold FindVolumeMountForPath. rewrite rev_app_distr. cbn. rewrite <- app_assoc.
  assert (∀ later, later ∈ rev l2 → covers path later = false) as Hr.
  { intros later Hin%list_elem_of_In. apply Hl, list_elem_of_In. by apply in_rev in Hin. }
  induction (rev l2) as [|x l IH]; cbn.
  - unfold covers in Hm. by rewrite Hm.
  - pose proof (Hr x ltac:(left)) as Hx. unfold covers in Hx. rewrite Hx. apply IH.
    intros later Hin. apply Hr. by right.
Qed.

(** In an accepted cluster no mount hides another and every location has a mount: the
    backward scan of the operator finds each volume mount at its own path, and finds some
    mount for every location. *)
Theorem accepted_mounts_visible newY oldY i tt :
  evaluateYtsaurusValidation (Some newY) oldY = None →
  (i, tt) ∈ validated_instances (yts_Spec newY) →
  (∀ m, m ∈ is_VolumeMounts i → FindVolumeMountForPath (is_VolumeMounts i) (vm_MountPath m) = Some m) ∧
  (∀ l, l ∈ is_Locations i → is_Some (FindVolumeMountForPath (is_VolumeMounts i) (loc_Path l))).
Proof.
  intros Hv%evaluate_accepted Hi. destruct (accepted_instances _ _ Hv _ Hi) as [path Hp].
  unfold validateInstanceSpecWithTimbertruck in Hp. rewrite !app_nil, (range_from_nil _ 0) in Hp.
  destruct Hp as (_ & _ & _ & _ & _ & (_ & Hm)%mounts_not_covered & Hl). split.
  - intros m Hin. apply list_elem_of_split in Hin as (before & after & Heq). cbn in Heq. rewrite Heq.
    apply find_uncovered; [by eapply Hm|]. unfold covers. by rewrite bool_decide_true.
  - intros l [j Hj]%list_elem_of_lookup. specialize (Hl j l Hj). rewrite app_nil, !err_if_nil in Hl.
    destruct Hl as [_ [m Hf]%isNone_false]. cbn in Hf. by rewrite Hf.
Qed.

(** *** Names, tags and addresses *)

Section unique_lemmas.
Context {T : Type} `{EqDecision T}.
Implicit Types (u : UniqueValues T).

Lemma uv_find_None u v : uv_find u v = None ↔ v ∉ u.*1.
Proof.
  induction u as [|[w p] u IH]; cbn; [split; [by intros _ ?%elem_of_nil|done]|].
  rewrite not_elem_of_cons. destruct (bool_decide_reflect (w = v)) as [->|]; naive_solver.
Qed.

(** An insertion that reports nothing adds a value that was not there. *)
Lemma uv_Insert_ok u v path u' :
  uv_Insert u v path = ([], u') → NoDup (u.*1) → u'.*1 = u.*1 ++ [v] ∧ NoDup (u'.*1).
Proof.
  unfold uv_Insert. destruct (uv_find u v) eqn:Hf; [done|]. intros [= <-] Hnd.
  apply uv_find_None in Hf. rewrite fmap_app. cbn. split; [done|].
  apply NoDup_app. split_and!; [done| |apply NoDup_singleton].
  intros x Hx ->%list_elem_of_singleton. done.
Qed.

Lemma uv_InsertAll_ok u i slice path u' :
  uv_InsertAll_from u i slice path = ([], u') → NoDup (u.*1) → u'.*1 = u.*1 ++ slice ∧ NoDup (u'.*1).
Proof.
  revert u i. induction slice as [|v slice IH]; intros u i; cbn.
  { intros [= <-]. by rewrite app_nil_r. }
  destruct (uv_Insert u v (Index path i)) as [e1 u1] eqn:H1.
  destruct (uv_InsertAll_from u1 (S i) slice path) as [e2 u2] eqn:H2.
  intros [= [-> ->]%app_nil <-] Hnd. destruct (uv_Insert_ok _ _ _ _ H1 Hnd) as [He Hnd1].
  destruct (IH _ _ H2 Hnd1) as [-> Hnd2]. split; [by rewrite He, <- app_assoc|done].
Qed.

End unique_lemmas.

Lemma secondary_loop_unique newY oldY tags hosts i cells tags' :
  validateSecondaryLoop newY oldY tags hosts i cells = ([], tags') →
  NoDup (tags.*1) → NoDup (hosts.*1) →
  tags'.*1 = tags.*1 ++ (ms_CellTag <$> cells) ∧ NoDup (tags'.*1) ∧
  NoDup (hosts.*1 ++ concat (ms_HostAddresses <$> cells)).
Proof.
  revert tags hosts i. induction cells as [|c cells IH]; intros tags hosts i.
  { cbn. intros [= <-]. by rewrite !app_nil_r. }
  cbn -[validateMasterSpec]. destruct (uv_Insert _ _ _) as [e1 tags1] eqn:H1.
  destruct (uv_InsertAll _ _ _) as [e2 hosts1] eqn:H2.
  destruct (validateSecondaryLoop _ _ tags1 _ _ _) as [e3 tags2] eqn:H3.
  intros [= Happ <-] Ht Hh. apply app_nil in Happ as [_ Happ]. apply app_nil in Happ as [-> Happ].
  apply app_nil in Happ as [-> ->].
  destruct (uv_Insert_ok _ _ _ _ H1 Ht) as [He Ht1].
  destruct (uv_InsertAll_ok _ _ _ _ _ H2 Hh) as [Hhe Hh1].
  destruct (IH _ _ _ H3 Ht1 Hh1) as (Htag & Hnd & Hhosts).
  rewrite Htag, He, <- app_assoc. rewrite Hhe, <- app_assoc in Hhosts. rewrite Htag, He, <- app_assoc in Hnd.
  done.
Qed.

Lemma secondary_checks_unique newY oldY :
  validateSecondaryMasters newY oldY = [] →
  let tags := ms_CellTag <$> (spec_PrimaryMasters (yts_Spec newY) :: spec_SecondaryMasters (yts_Spec newY)) in
  NoDup tags ∧ Forall (λ tag, (MinValidCellTag ≤ tag ≤ MaxValidCellTag)%Z) tags ∧
  (Z.of_nat (length (spec_SecondaryMasters (yts_Spec newY))) ≤ MaxSecondaryMasterCells)%Z ∧
  NoDup (concat (ms_HostAddresses <$>
    (spec_PrimaryMasters (yts_Spec newY) :: spec_SecondaryMasters (yts_Spec newY)))).
Proof.
  unfold validateSecondaryMasters. cbn [uv_Insert uv_find app fmap list_fmap concat].
  destruct (uv_InsertAll [] _ _) as [e1 hosts] eqn:H1.
  destruct (validateSecondaryLoop _ _ _ _ _ _) as [e2 tags] eqn:H2.
  rewrite !app_nil, err_if_nil, concat_map_nil. intros (-> & -> & Hcnt & Hrange & _).
  destruct (uv_InsertAll_ok _ _ _ _ _ H1 ltac:(constructor)) as [Hhosts Hnd]. cbn [fmap list_fmap app] in Hhosts.
  destruct (secondary_loop_unique _ _ _ _ _ _ _ H2) as (Htags & Hndt & Hndh); [apply NoDup_singleton|done|].
  cbn [fmap list_fmap app fst] in Htags. rewrite <- Htags. split_and!; [done| | |by rewrite Hhosts in Hndh].
  - apply Forall_fmap, Forall_forall. intros tag Ht%Hrange. rewrite err_if_nil in Ht. cbn. lia.
  - assert (length tags = S (length (spec_SecondaryMasters (yts_Spec newY)))) as Hlen.
    { rewrite <- (length_fmap fst), Htags. cbn. by rewrite length_fmap. }
    lia.
Qed.

(** Components of an accepted cluster are told apart by what identifies them: cell
    tags are distinct and in range, with at most 48 secondary cells, master host addresses
    are distinct across cells, proxies of one kind have distinct roles with a default HTTP
    role among them, and node groups of one kind have distinct names. *)
Theorem accepted_names_unique newY oldY :
  evaluateYtsaurusValidation (Some newY) oldY = None →
  let spec := yts_Spec newY in
  let cells := spec_PrimaryMasters spec :: spec_SecondaryMasters spec in
  NoDup (ms_CellTag <$> cells) ∧
  Forall (λ c, (MinValidCellTag ≤ ms_CellTag c ≤ MaxValidCellTag)%Z) cells ∧
  (Z.of_nat (length (spec_SecondaryMasters spec)) ≤ MaxSecondaryMasterCells)%Z ∧
  NoDup (concat (ms_HostAddresses <$> cells)) ∧
  NoDup (hps_Role <$> spec_HTTPProxies spec) ∧ DefaultHTTPProxyRole ∈ (hps_Role <$> spec_HTTPProxies spec) ∧
  NoDup (rps_Role <$> spec_RPCProxies spec) ∧ NoDup (tps_Role <$> spec_TCPProxies spec) ∧
  NoDup (dns_Name <$> spec_DataNodes spec) ∧ NoDup (ens_Name <$> spec_ExecNodes spec) ∧
  NoDup (tns_Name <$> spec_TabletNodes spec).
Proof.
  intros Hv%evaluate_accepted. unfold validateYtsaurus in Hv. rewrite !app_nil in Hv. cbv zeta.
  destruct Hv as (_ & _ & _ & _ & _ & Hsec & Hhttp & Hrpc & Htcp & Hdata & Hexec & _ & _ & Htab & _).
  apply secondary_checks_unique in Hsec as (Ht & Hr & Hc & Hh).
  apply app_nil in Hhttp as [Hhttp Hdef], Hexec as [Hexec _].
  apply range_unique_nil in Hhttp as [? _], Hrpc as [? _], Htcp as [? _], Hdata as [? _], Hexec as [? _],
    Htab as [? _].
  split_and!; try done.
  - by rewrite Forall_fmap in Hr.
  - rewrite err_if_nil, negb_false_iff in Hdef. apply existsb_exists in Hdef as (hp & Hin & Hrole).
    apply bool_decide_eq_true in Hrole. apply list_elem_of_fmap. exists hp.
    split; [done|by apply list_elem_of_In].
Qed.

End acceptance.

(** ** Witnesses *)

(** A development build: labels and sidecars are accepted as they are, the operator
    satisfies every version constraint, and the namespace holds one cluster. *)
Definition DevWebhook : WebhookDeps := {|
  ValidateLabels _ _ := [];
  ValidateAnnotations _ _ := [];
  UnmarshalStrict s := (None, s);
  Constraints := unit;
  ParseConstraints _ := inl tt;
  Constraints_Validate _ := (true, "");
  currentVersion_Original := "0.0.0-devel";
  List_Ytsaurus _ := (["ytsaurus"], None);
|}.

(** A secure cluster in master maintenance, with log delivery. *)
Definition example_transport : RPCTransportSpec := mkRPCTransportSpec (Some "tls") (Some "client-tls") true false "".

Definition example_logger : StructuredLoggerSpec := mkStructuredLoggerSpec (BaseLoggerNamed "access") (Some "Access") None (Some true).

Definition example_masters (count : Z) : MastersSpec :=
  mkMastersSpec
    (mkInstanceSpec PodSpecZero None [volumeMount "data" "/yt/data" false; volumeMount "logs" "/yt/data/logs" false] count
       (Some 3%Z)
       [mkLocationSpec LocationTypeMasterChangelogs "/yt/data/changelogs" "default" None None None;
        mkLocationSpec LocationTypeMasterSnapshots "/yt/data/snapshots" "default" None None None;
        mkLocationSpec LocationTypeLogs "/yt/data/logs" "default" None None None]
       None [example_logger] (Some (mkAffinity None (Some tt))) None [] ResourceRequirementsZero [] None None []
       [] None)
    1 [] None None None [] None None "".

Definition example_common : CommonSpec :=
  mkCommonSpec "" (Some (mkClusterFeatures true true true false false false))
    (Some (mkClusterMaintenance ClusterShutdownExceptMasters false))
    (Some (mkTimbertruckSpec (Some "timbertruck:1") None)) (Some example_transport) false ∅ None
    None None None None false false None None false false [].

Definition example_cluster (masters : Z) : Ytsaurus :=
  mkYtsaurus "ytsaurus" "ns" 1
    (mkYtsaurusSpec example_common PodSpecZero "" None
       [mkSelector ComponentClassNothing (mkComponent ComponentTypeEmpty "") None None]
       InstanceSpecZero (example_masters masters) [] None
       [mkHTTPProxiesSpec InstanceSpecZero "default" (Some "https") true None None None ServiceTypeEmpty None None]
       [mkRPCProxiesSpec InstanceSpecZero "default" example_transport None None]
       [] [] [] [] None None [] None None false None None None None None None None "")
    YtsaurusStatusZero.

Lemma example_accepted : @evaluateYtsaurusValidation DevWebhook (Some (example_cluster 3)) None = None.
Proof. vm_compute. reflexivity. Qed.

(** Growing the masters from three to five instances. *)
Lemma accepted_resize_keeps_quorum_witness :
  @ValidateUpdate DevWebhook (Some (example_cluster 3)) (Some (example_cluster 5)) = None ∧
  (∀ ready majority : gset nat, ready ⊆ instances (example_masters 3) → (3 ≤ Z.of_nat (size ready))%Z →
     majority ⊆ instances (example_masters 5) → (5 < 2 * Z.of_nat (size majority))%Z →
     ∃ i, i ∈ ready ∧ i ∈ majority).
Proof.
  assert (@ValidateUpdate DevWebhook (Some (example_cluster 3)) (Some (example_cluster 5)) = None) as Hv
    by (vm_compute; reflexivity).
  split; [exact Hv|].
  destruct (@accepted_resize_keeps_quorum DevWebhook (example_cluster 5) (example_cluster 3)
    (example_masters 3) (example_masters 5) Hv (same_primary _ _)) as (_ & _ & _ & Hq);
    [unfold counts_ok; cbn; lia..|].
  apply Hq. cbn. lia.
Defined.

(** A single master may grow to three at once: the one old instance is no majority of the new
    cell, and two instances without its mutations are one. *)
Lemma single_master_growth :
  @ValidateUpdate DevWebhook (Some (example_cluster 1)) (Some (example_cluster 3)) = None ∧
  (2 * minReady (example_masters 1) < is_InstanceCount (ms_InstanceSpec (example_masters 3)))%Z.
Proof. split; by vm_compute. Qed.

Lemma accepted_update_plan_witness :
  applyUpdatePlan (GetUpdatePlan (example_cluster 3)) [mkComponent MasterType ""] = ([], [mkComponent MasterType ""]).
Proof.
  destruct (@accepted_update_plan DevWebhook (example_cluster 3) None example_accepted) as (_ & _ & Hn).
  eapply Hn; [left|reflexivity].
Defined.

Lemma accepted_secure_transports_witness :
  ∃ t, effectiveTransport example_common InstanceSpecZero = Some t ∧ secure_transport t.
Proof.
  destruct (@accepted_secure_transports DevWebhook (example_cluster 3) None example_accepted eq_refl) as [Hi _].
  apply (Hi InstanceSpecZero None). left.
Defined.

Lemma accepted_delivery_resolves_witness :
  is_Some (source_delivery (yts_Spec (example_cluster 3))
    (mkSource None (ms_InstanceSpec (example_masters 3)) MasterType "")).
Proof.
  apply (@accepted_delivery_resolves DevWebhook (example_cluster 3) None); [exact example_accepted| |discriminate].
  left.
Defined.

Lemma accepted_mounts_visible_witness :
  FindVolumeMountForPath (is_VolumeMounts (ms_InstanceSpec (example_masters 3))) "/yt/data" =
    Some (volumeMount "data" "/yt/data" false).
Proof.
  destruct (@accepted_mounts_visible DevWebhook (example_cluster 3) None
    (ms_InstanceSpec (example_masters 3)) None example_accepted) as [Hm _]; [right; left|].
  apply (Hm (volumeMount "data" "/yt/data" false)). left.
Defined.

Lemma accepted_names_unique_witness : DefaultHTTPProxyRole ∈ (hps_Role <$> spec_HTTPProxies (yts_Spec (example_cluster 3))).
Proof. apply (@accepted_names_unique DevWebhook (example_cluster 3) None example_accepted). Defined.
