(* ===== verification/ServerImpl.v ===== *)
(** * Servers over stateful sets (src/pkg/components/server.go)

    The implementation of the [server] interface: a stateful set with its configuration
    and its services.  Of the pod template the parts the operator reads back are kept: the
    replica count, the update strategy, labels and annotations, and the containers with
    their images; the whole pod specification (volumes, probes, resources, init containers)
    is built in [ServerPods.v], which shows that its containers are the ones kept here.  The
    server always has a configuration generator, so the panic on an empty list is left out. *)

From S2P Require Import Prelude Kubernetes ApiTypes Labeller Status ApiProxy Resources ConfigMaps Components PodsManager UpdatePlan ComponentManager Timbertruck.

(** ** Stateful sets *)

Record Container := mkContainer { ctn_Name : string; ctn_Image : string }.

Record RollingUpdateStrategy := mkRollingUpdateStrategy {
  rus_Partition : option Z;
  rus_MaxUnavailable : option Z;
}.

Record StatefulSetUpdateStrategy := mkStatefulSetUpdateStrategy {
  sus_Type : StatefulSetUpdateStrategyType;
  sus_RollingUpdate : option RollingUpdateStrategy;
}.

(** The zero value: the API server defaults the type. *)
Definition UpdateStrategyZero : StatefulSetUpdateStrategy :=
  mkStatefulSetUpdateStrategy (StatefulSetStrategyOther "") None.

Record StatefulSet := mkStatefulSet {
  sts_meta : ObjectMeta;
  sts_Generation : Z;
  (* Spec *)
  sts_Replicas : option Z;
  sts_ServiceName : string;
  sts_UpdateStrategy : StatefulSetUpdateStrategy;
  sts_TemplateLabels : gmap string string;
  sts_TemplateAnnotations : gmap string string;
  sts_Containers : list Container;
  (* Status *)
  sts_ObservedGeneration : Z;
  sts_CurrentRevision : string;
  sts_UpdateRevision : string;
  sts_AvailableReplicas : Z;
  sts_UpdatedReplicas : Z;
}.

Definition StatefulSetZero : StatefulSet :=
  mkStatefulSet ObjectMetaZero 0 None "" UpdateStrategyZero ∅ ∅ [] 0 "" "" 0 0.

Definition sts_set_meta (m : ObjectMeta) (o : StatefulSet) : StatefulSet :=
  mkStatefulSet m (sts_Generation o) (sts_Replicas o) (sts_ServiceName o) (sts_UpdateStrategy o)
    (sts_TemplateLabels o) (sts_TemplateAnnotations o) (sts_Containers o) (sts_ObservedGeneration o)
    (sts_CurrentRevision o) (sts_UpdateRevision o) (sts_AvailableReplicas o) (sts_UpdatedReplicas o).

Definition sts_set_Replicas (n : Z) (o : StatefulSet) : StatefulSet :=
  mkStatefulSet (sts_meta o) (sts_Generation o) (Some n) (sts_ServiceName o) (sts_UpdateStrategy o)
    (sts_TemplateLabels o) (sts_TemplateAnnotations o) (sts_Containers o) (sts_ObservedGeneration o)
    (sts_CurrentRevision o) (sts_UpdateRevision o) (sts_AvailableReplicas o) (sts_UpdatedReplicas o).

Definition sts_set_UpdateStrategy (u : StatefulSetUpdateStrategy) (o : StatefulSet) : StatefulSet :=
  mkStatefulSet (sts_meta o) (sts_Generation o) (sts_Replicas o) (sts_ServiceName o) u
    (sts_TemplateLabels o) (sts_TemplateAnnotations o) (sts_Containers o) (sts_ObservedGeneration o)
    (sts_CurrentRevision o) (sts_UpdateRevision o) (sts_AvailableReplicas o) (sts_UpdatedReplicas o).

Definition sts_set_template (labels annotations : gmap string string) (o : StatefulSet) : StatefulSet :=
  mkStatefulSet (sts_meta o) (sts_Generation o) (sts_Replicas o) (sts_ServiceName o) (sts_UpdateStrategy o)
    labels annotations (sts_Containers o) (sts_ObservedGeneration o)
    (sts_CurrentRevision o) (sts_UpdateRevision o) (sts_AvailableReplicas o) (sts_UpdatedReplicas o).

Definition sts_set_pods (serviceName : string) (containers : list Container) (o : StatefulSet) : StatefulSet :=
  mkStatefulSet (sts_meta o) (sts_Generation o) (sts_Replicas o) serviceName (sts_UpdateStrategy o)
    (sts_TemplateLabels o) (sts_TemplateAnnotations o) containers (sts_ObservedGeneration o)
    (sts_CurrentRevision o) (sts_UpdateRevision o) (sts_AvailableReplicas o) (sts_UpdatedReplicas o).

#[global] Instance StatefulSet_object : KubeObject StatefulSet := {
  obj_meta := sts_meta;
  obj_set_meta := sts_set_meta;
  obj_type := "*v1.StatefulSet";
}.

(** What a strategy asks for, up to what the API server fills in (an empty type is a rolling update,
    an absent partition is 0).  The bound on unavailable pods is not part of it: an API server drops
    that field unless its feature gate is on. *)
Definition strategy_request (u : StatefulSetUpdateStrategy) : StatefulSetUpdateStrategyType * Z :=
  (if sus_Type u == StatefulSetStrategyOther "" then RollingUpdateStatefulSetStrategyType else sus_Type u,
   match sus_RollingUpdate u with Some r => Deref (rus_Partition r) 0%Z | None => 0%Z end).

(** What the operator asks of a stateful set, up to the same: one replica if none are given. *)
Definition sts_request (o : StatefulSet) : Z * (StatefulSetUpdateStrategyType * Z) * list Container :=
  (Deref (sts_Replicas o) 1%Z, strategy_request (sts_UpdateStrategy o), sts_Containers o).

Definition YTServerContainerName := "ytserver".
Definition HydraPersistenceUploaderContainerName := "hydra-persistence-uploader".
Definition TimbertruckContainerName := "timbertruck".

(** ** Construction *)

(** [newServerConfigured]: the number of instances under cluster maintenance. *)
Definition effectiveInstanceCount (commonSpec : CommonSpec) (componentType : ComponentType)
    (instanceCount : Z) : Z :=
  match cs_ClusterMaintenance commonSpec with
  | None => instanceCount
  | Some maintenance =>
      match cmt_Shutdown maintenance with
      | ClusterShutdownCompute =>
          match componentType with ExecNodeType | YqlAgentType => 0%Z | _ => instanceCount end
      | ClusterShutdownEverything => 0%Z
      | ClusterShutdownExceptMasters => if componentType != MasterType then 0%Z else instanceCount
      | ClusterShutdownTablets => if componentType == TabletNodeType then 0%Z else instanceCount
      | _ => instanceCount
      end
  end.

Definition effectiveImage (commonSpec : CommonSpec) (instanceSpec : InstanceSpec) : string :=
  Deref (is_Image instanceSpec) (cs_CoreImage commonSpec).

(** A resource of which only the operations matter here: the headless and the monitoring
    service. *)
Record resourceOps (E : Type) := mkResourceOps {
  ro_Name : string;
  ro_Fetch : go (World E) (option error);
  ro_Exists : World E → bool;
  ro_Build : go (World E) unit;
  ro_Sync : go (World E) (option error);
}.
Arguments ro_Name {E} _.
Arguments ro_Fetch {E} _ _.
Arguments ro_Exists {E} _ _.
Arguments ro_Build {E} _ _.
Arguments ro_Sync {E} _ _.

(** The fields of [serverImpl] that change: [builtStatefulSet] points to the new object of
    the resource when [sm_builtStatefulSet]; [sm_built] is the flag of the resource. *)
Record serverMem := mkServerMem {
  sm_instanceCount : Z;
  sm_updateStrategy : option StatefulSetUpdateStrategy;
  sm_builtStatefulSet : bool;
  sm_built : bool;
}.

Section server.
Context {CC : ConfigCodec} {E : Type} {MC : MetaConditions} {SC : StatusClient E}.
Context `{HKC : !KubeClient E ConfigMap} `{HKS : !KubeClient E StatefulSet}.
(** [client.List] with the selector of the labeller, and the hash of a pod template. *)
Context (ListPods : Labeller → go E (list Pod * option error)) (HashTemplate : StatefulSet → error + string).

Abbreviation W := (World E).

Record serverImpl := mkServerImpl {
  si_image : string;
  si_sidecarImages : gmap string string;
  si_labeller : Labeller;
  si_metaLabels : gmap string string;  (* GetMetaLabelMap(false) of the labeller *)
  si_commonPodSpec : PodSpec;
  si_instanceSpec : InstanceSpec;
  si_configs : ConfigMapBuilder E;
  si_timbertruck : option (timbertruckDelivery * ConfigMapBuilder E);
  si_headlessService : resourceOps E;
  si_monitoringService : resourceOps E;
  si_statefulSet : lens E (ManagedResource StatefulSet);
  si_mem : lens E serverMem;
}.

Context (s : serverImpl).

Definition mem (w : W) : serverMem := lget (si_mem s) (w_env w).
Definition in_mem (f : serverMem → serverMem) : go W unit :=
  modify (λ w, w_set_env (lset (si_mem s) (f (mem w)) (w_env w)) w).

Abbreviation oldSts := (OldObject (si_statefulSet s)).
Abbreviation newSts := (NewObject (si_statefulSet s)).
Abbreviation in_newSts f := (in_resource (si_statefulSet s) (λ r, res_set_new (f (res_newObject r)) r)).

Definition timbertruckConfigs : option (ConfigMapBuilder E) := snd <$> si_timbertruck s.

Definition impl_Fetch : go W (option error) :=
  err ← resources_Fetch
    [ Some (resource_Fetch (si_statefulSet s)); Some (cb_Fetch (si_configs s));
      cb_Fetch <$> timbertruckConfigs;
      Some (ro_Fetch (si_headlessService s)); Some (ro_Fetch (si_monitoringService s)) ];
  match err, timbertruckConfigs with
  | Some e, _ => mret (Some e)
  | None, Some configs =>
      exists_ ← gets (cb_Exists configs);
      if exists_ : bool then
        '(_, err) ← needReload configs;
        mret ((λ e, "failed to check timbertruck configuration: " +:+ e) <$> err)
      else mret None
  | None, None => mret None
  end.

Definition impl_Exists (w : W) : bool :=
  resources_Exists w
    [ Some (resource_Exists (si_statefulSet s)); Some (cb_Exists (si_configs s));
      cb_Exists <$> timbertruckConfigs;
      Some (ro_Exists (si_headlessService s)); Some (ro_Exists (si_monitoringService s)) ].

Definition impl_getPodAnnotation (w : W) (name : string) : string :=
  default "" (sts_TemplateAnnotations (oldSts w) !! name).

Definition timbertruckConfigNeedsReload : go W bool :=
  match timbertruckConfigs with
  | None => mret false
  | Some configs =>
      exists_ ← gets (cb_Exists configs);
      if negb exists_ then mret true
      else
        '(status, err) ← needReload configs;
        mret ((err == None) && IsNeedUpdate status)
  end.

(** The containers of the pods: [None] when an image differs, otherwise the number of
    tracked sidecars found. *)
Fixpoint countSidecars (containers : list Container) (found : Z) : option Z :=
  match containers with
  | [] => Some found
  | container :: rest =>
      if ctn_Name container == YTServerContainerName then
        if ctn_Image container != si_image s then None else countSidecars rest found
      else if (ctn_Name container == HydraPersistenceUploaderContainerName) ||
              (ctn_Name container == TimbertruckContainerName) then
        if si_sidecarImages s !! ctn_Name container == Some (ctn_Image container)
        then countSidecars rest (found + 1)%Z else None
      else countSidecars rest found
  end.

Definition podsImageCorrespondsToSpec (w : W) : bool :=
  match countSidecars (sts_Containers (oldSts w)) 0%Z with
  | None => false
  | Some found => found == Z.of_nat (size (si_sidecarImages s))
  end.

Definition impl_needUpdate : go W ComponentStatus :=
  exists_ ← gets impl_Exists;
  images ← gets podsImageCorrespondsToSpec;
  if negb exists_ then mret (ComponentStatusPending "init")
  else if negb images then mret (ComponentStatusNeedUpdate "image update")
  else
    '(status, err) ← needReload (si_configs s);
    mret (if (err == None) && IsNeedUpdate status then status else ComponentStatusReady).

Definition GetReplicas (w : W) : Z := Deref (sts_Replicas (oldSts w)) 1%Z.

Definition impl_getInstanceCount (w : W) : Z := sm_instanceCount (mem w).

Definition impl_setInstanceCount (n : Z) : go W unit :=
  in_mem (λ m, mkServerMem n (sm_updateStrategy m) (sm_builtStatefulSet m) (sm_built m)).

Definition impl_getMinReadyInstanceCount (w : W) (margin : Z) : Z :=
  minReadyInstanceCount (impl_getInstanceCount w) (is_MinReadyInstanceCount (si_instanceSpec s)) margin.

(** Whether the first reason is enough to sync; the others are evaluated in order. *)
Definition impl_needSync (updating : bool) : go W bool :=
  update ← (if updating then impl_needUpdate else mret ComponentStatusZero);
  if updating && IsNeedUpdate update then mret true
  else
    exists_ ← gets impl_Exists;
    if negb exists_ then mret true
    else
      reload ← timbertruckConfigNeedsReload;
      if reload : bool then mret true
      else gets (λ w, GetReplicas w != impl_getInstanceCount w).

Definition impl_listPods : go W (list Pod * option error) := in_env (ListPods (si_labeller s)).

(** *** Building *)

(** [resources.StatefulSet.Build]. *)
Definition sts_Build : go W unit :=
  m ← gets mem;
  (if sm_built m then mret tt
   else in_resource (si_statefulSet s) (λ r, res_set_new
     (sts_set_template (si_metaLabels s) (lab_Annotations (si_labeller s))
        (sts_set_meta (mkObjectMeta (res_name r) "" (lab_Annotations (si_labeller s)) [])
           (mkStatefulSet ObjectMetaZero (sts_Generation (res_newObject r)) None "" UpdateStrategyZero ∅ ∅ []
              (sts_ObservedGeneration (res_newObject r)) (sts_CurrentRevision (res_newObject r))
              (sts_UpdateRevision (res_newObject r)) (sts_AvailableReplicas (res_newObject r))
              (sts_UpdatedReplicas (res_newObject r))))) r)) ;;
  in_mem (λ m, mkServerMem (sm_instanceCount m) (sm_updateStrategy m) (sm_builtStatefulSet m) true).

(** The containers of the template: the server and, with log delivery, its sidecar. *)
Definition template_containers : list Container :=
  mkContainer YTServerContainerName (si_image s) ::
  match si_timbertruck s with
  | Some (delivery, _) => [mkContainer TimbertruckContainerName (ttd_Image delivery)]
  | None => []
  end.

Definition rebuildStatefulSet : go W unit :=
  sts_Build ;;
  instanceCount ← gets impl_getInstanceCount;
  m ← gets mem;
  in_newSts (λ o,
    let o := sts_set_template
      (ps_PodLabels (is_PodSpec (si_instanceSpec s)) ∪ (ps_PodLabels (si_commonPodSpec s) ∪ sts_TemplateLabels o))
      (ps_PodAnnotations (is_PodSpec (si_instanceSpec s)) ∪
         (ps_PodAnnotations (si_commonPodSpec s) ∪ sts_TemplateAnnotations o)) o in
    let o := sts_set_Replicas instanceCount o in
    let o := match sm_updateStrategy m with Some u => sts_set_UpdateStrategy u o | None => o end in
    sts_set_pods (ro_Name (si_headlessService s)) template_containers o) ;;
  in_mem (λ m, mkServerMem (sm_instanceCount m) (sm_updateStrategy m) true (sm_built m)).

Definition buildStatefulSet : go W unit :=
  m ← gets mem; if sm_builtStatefulSet m then mret tt else rebuildStatefulSet.

Definition setConfigHash : go W (option error) :=
  cm ← gets (NewObject (cb_configMap (si_configs s)));
  let configHash := default "" (obj_GetAnnotations cm !! ConfigHashAnnotationName) in
  if configHash == "" then mret (Some ("config hash is not found for " +:+ GetName cm))
  else
    in_newSts (λ o, sts_set_template (sts_TemplateLabels o)
      (<[ConfigHashAnnotationName := configHash]> (sts_TemplateAnnotations o)) o) ;;
    mret None.

Definition setInstanceHash : go W (option error) :=
  o ← gets newSts;
  match HashTemplate o with
  | inl err => mret (Some err)
  | inr hash => in_newSts (SetMetaDataAnnotation InstanceHashAnnotationName hash) ;; mret None
  end.

(** Steps that return the first error. *)
Definition go_err (m k : go W (option error)) : go W (option error) :=
  err ← m; match err with Some e => mret (Some e) | None => k end.

Definition impl_Sync : go W (option error) :=
  go_err (Build (si_configs s))
  (go_err (match timbertruckConfigs with Some configs => Build configs | None => mret None end)
  (ro_Build (si_headlessService s) ;;
   ro_Build (si_monitoringService s) ;;
   buildStatefulSet ;;
   go_err setConfigHash
  (go_err setInstanceHash
  (resources_Sync
     [ Some (resource_Sync (si_statefulSet s)); Some (cb_Sync (si_configs s));
       cb_Sync <$> timbertruckConfigs;
       Some (ro_Sync (si_headlessService s)); Some (ro_Sync (si_monitoringService s)) ])))).

Definition impl_removePods : go W (option error) :=
  rebuildStatefulSet ;;
  in_newSts (sts_set_Replicas 0) ;;
  impl_Sync.

Definition impl_setUpdateStrategy (strategy : StatefulSetUpdateStrategyType) (partition maxUnavailable : Z)
    : go W unit :=
  let u := mkStatefulSetUpdateStrategy strategy
    (if strategy == RollingUpdateStatefulSetStrategyType
     then Some (mkRollingUpdateStrategy (Some partition) (Some maxUnavailable)) else None) in
  in_mem (λ m, mkServerMem (sm_instanceCount m) (Some u) (sm_builtStatefulSet m) (sm_built m)) ;;
  m ← gets mem;
  if sm_builtStatefulSet m then in_newSts (sts_set_UpdateStrategy u) else mret tt.

(** *** Reading back *)

Definition fetchAndValidateStatefulSet : go W (option StatefulSet * option error) :=
  exists_ ← gets (resource_Exists (si_statefulSet s));
  if negb exists_ then mret (None, None)
  else
    err ← resource_Fetch (si_statefulSet s);
    match err with
    | Some e => mret (None, Some e)
    | None =>
        sts ← gets oldSts;
        if sts_UpdateRevision sts == "" then mret (None, None)
        else if sts_Generation sts != sts_ObservedGeneration sts then mret (None, None)
        else mret (Some sts, None)
    end.

Definition impl_getRollingUpdateStatus : go W (option stsRollingStatus * option error) :=
  '(sts, err) ← fetchAndValidateStatefulSet;
  mret (match err, sts with
        | Some e, _ => (None, Some e)
        | None, None => (None, None)
        | None, Some sts =>
            let partition := match sus_RollingUpdate (sts_UpdateStrategy sts) with
                             | Some r => Deref (rus_Partition r) 0%Z
                             | None => 0%Z
                             end in
            (Some (mkRollingStatus partition (sts_AvailableReplicas sts) (sts_UpdatedReplicas sts)
                     (Deref (sts_Replicas sts) 1%Z) (sts_UpdateRevision sts) (sts_CurrentRevision sts)), None)
        end).

(** The replica count of an existing stateful set is never nil, the API server defaults it. *)
Definition impl_arePodsUpdatedToNewRevision : go W bool :=
  '(sts, err) ← fetchAndValidateStatefulSet;
  match err, sts with
  | None, Some sts =>
      if sus_Type (sts_UpdateStrategy sts) == OnDeleteStatefulSetStrategyType then
        '(pods, err) ← impl_listPods;
        match err with
        | Some _ => mret false
        | None =>
            minReady ← gets (λ w, impl_getMinReadyInstanceCount w 0);
            mret (evaluateOnDeleteCompletion pods (sts_UpdateRevision sts) (Deref (sts_Replicas sts) 1%Z) minReady).1
        end
      else mret (sts_CurrentRevision sts == sts_UpdateRevision sts)
  | _, _ => mret false
  end.

End server.
Arguments serverImpl E : clear implicits.

(** ** Images *)

Definition tracked (c : Container) : bool :=
  negb (ctn_Name c == YTServerContainerName) &&
  ((ctn_Name c == HydraPersistenceUploaderContainerName) || (ctn_Name c == TimbertruckContainerName)).

(** The sidecars of the pods whose images the operator manages. *)
Definition tracked_images (containers : list Container) : gmap string string :=
  list_to_map ((λ c, (ctn_Name c, ctn_Image c)) <$> List.filter tracked containers).

Definition server_images_ok (image : string) (containers : list Container) : Prop :=
  ∀ c, c ∈ containers → ctn_Name c = YTServerContainerName → ctn_Image c = image.

Section images.
Context {E : Type} {MC : MetaConditions} {SC : StatusClient E}.
Context `{HKC : !KubeClient E ConfigMap} `{HKS : !KubeClient E StatefulSet}.
Context (s : serverImpl E).

Abbreviation W := (World E).

Lemma countSidecars_spec l found n :
  countSidecars s l found = Some n ↔
    server_images_ok (si_image s) l ∧
    (∀ c, c ∈ l → tracked c = true → si_sidecarImages s !! ctn_Name c = Some (ctn_Image c)) ∧
    n = (found + Z.of_nat (length (List.filter tracked l)))%Z.
Proof.
  revert found. induction l as [|c l IH]; intros found; cbn [countSidecars List.filter].
  { unfold server_images_ok. split.
    - intros [= <-]. split_and!; [by intros c Hc%elem_of_nil..|cbn; lia].
    - intros (_ & _ & ->). f_equal. cbn. lia. }
  unfold server_images_ok in *. setoid_rewrite elem_of_cons.
  destruct (bool_decide_reflect (ctn_Name c = YTServerContainerName)) as [Hs|Hs]; cbn [negb andb].
  - destruct (bool_decide_reflect (ctn_Image c = si_image s)) as [Hi|Hi]; cbn [negb].
    + rewrite IH. assert (tracked c = false) as Ht.
      { unfold tracked. by rewrite (bool_decide_eq_true_2 _ Hs). }
      rewrite Ht. split; intros (H1 & H2 & ->); (split_and!; [| |done]).
      * intros c' [->|Hc']; [done|by apply H1].
      * intros c' [->|Hc']; [by rewrite Ht|by apply H2].
      * intros c' Hc'. apply H1. by right.
      * intros c' Hc'. apply H2. by right.
    + split; [done|]. intros (H1 & _). exfalso. apply Hi, (H1 c); [by left|done].
  - assert (tracked c = (ctn_Name c == HydraPersistenceUploaderContainerName) ||
                        (ctn_Name c == TimbertruckContainerName)) as Ht.
    { unfold tracked. by rewrite (bool_decide_eq_false_2 _ Hs). }
    destruct ((ctn_Name c == HydraPersistenceUploaderContainerName) || (ctn_Name c == TimbertruckContainerName)).
    + destruct (bool_decide_reflect (si_sidecarImages s !! ctn_Name c = Some (ctn_Image c))) as [Hi|Hi].
      * rewrite IH, Ht. cbn [length].
        split; intros (H1 & H2 & ->); (split_and!; [| |lia]).
        -- intros c' [->|Hc']; [done|by apply H1].
        -- intros c' [->|Hc']; [done|by apply H2].
        -- intros c' Hc'. apply H1. by right.
        -- intros c' Hc'. apply H2. by right.
      * split; [done|]. intros (_ & H2 & _). exfalso. apply Hi, (H2 c); [by left|done].
    + rewrite IH, Ht. split; intros (H1 & H2 & ->); (split_and!; [| |done]).
      * intros c' [->|Hc']; [done|by apply H1].
      * intros c' [->|Hc']; [by rewrite Ht|by apply H2].
      * intros c' Hc'. apply H1. by right.
      * intros c' Hc'. apply H2. by right.
Qed.

(** Container names of a pod are unique, so the tracked ones make a map. *)
Lemma tracked_images_lookup l :
  NoDup (ctn_Name <$> l) →
  NoDup ((λ c, (ctn_Name c, ctn_Image c)) <$> List.filter tracked l).*1 ∧
  ∀ name image, tracked_images l !! name = Some image ↔
    ∃ c, c ∈ l ∧ tracked c = true ∧ ctn_Name c = name ∧ ctn_Image c = image.
Proof.
  intros Hn.
  assert (NoDup ((λ c, (ctn_Name c, ctn_Image c)) <$> List.filter tracked l).*1) as Hnd.
  { rewrite <- list_fmap_compose. eapply sublist_NoDup; [exact Hn|]. apply fmap_sublist.
    clear Hn. induction l as [|c l IH]; cbn; [done|]. case_match; by constructor. }
  split; [done|]. intros name image. unfold tracked_images.
  rewrite <- elem_of_list_to_map by exact Hnd. rewrite list_elem_of_fmap.
  setoid_rewrite list_elem_of_In. setoid_rewrite filter_In. naive_solver.
Qed.

(** The image check is exact.  For pods with unique container names, the operator finds
    the images up to date exactly when every server container runs the image of the
    specification and the tracked sidecars of the pods, with their images, are exactly the
    sidecars it wants: a missing, extra or outdated sidecar is an update, nothing else is. *)
Theorem podsImageCorrespondsToSpec_spec (w : W) :
  let containers := sts_Containers (OldObject (si_statefulSet s) w) in
  NoDup (ctn_Name <$> containers) →
  podsImageCorrespondsToSpec s w = true ↔
    server_images_ok (si_image s) containers ∧ tracked_images containers = si_sidecarImages s.
Proof.
  cbv zeta. set (l := sts_Containers _). intros Hn. destruct (tracked_images_lookup l Hn) as [Hnd Hlook].
  assert (size (tracked_images l) = length (List.filter tracked l)) as Hsize.
  { unfold tracked_images. rewrite map_size_list_to_map by exact Hnd. by rewrite length_fmap. }
  unfold podsImageCorrespondsToSpec. fold l. split.
  - destruct (countSidecars s l 0) as [n|] eqn:Hc; [|done]. intros Heq%bool_decide_eq_true.
    apply countSidecars_spec in Hc as (H1 & H2 & ->). split; [done|].
    apply map_subseteq_size_eq; [|lia]. apply map_subseteq_spec. intros name image Hi.
    apply Hlook in Hi as (c & Hin & Ht & <- & <-). by apply H2.
  - intros [H1 Heq]. destruct (countSidecars s l 0) as [n|] eqn:Hc.
    + apply countSidecars_spec in Hc as (_ & _ & ->). apply bool_decide_eq_true. rewrite <- Heq. lia.
    + exfalso.
      assert (countSidecars s l 0 = Some (Z.of_nat (length (List.filter tracked l)))) as Hs; [|congruence].
      apply countSidecars_spec. split_and!; [done| |lia]. intros c Hin Ht. rewrite <- Heq. apply Hlook. by exists c.
Qed.

End images.

(** ** Maintenance *)

Definition scaled_to_zero (commonSpec : CommonSpec) (t : ComponentType) : Prop :=
  ∀ n, effectiveInstanceCount commonSpec t n = 0%Z.

(** The manager and the servers agree on what a maintenance shuts down: for every
    shutdown mode, the flags the component manager derives say that tablets, compute or
    storage are down exactly when the tablet nodes, exec nodes or data nodes are scaled to
    zero, masters are kept while everything else is down exactly in the mode of the master
    maintenance, and without maintenance no server is scaled. *)
Theorem shutdown_flags_agree (commonSpec : CommonSpec) :
  let shutdown := cmt_Shutdown (Deref (cs_ClusterMaintenance commonSpec) ClusterMaintenanceZero) in
  let cms := initialStatus shutdown in
  (cms_shutdownTablets cms = true ↔ scaled_to_zero commonSpec TabletNodeType) ∧
  (cms_shutdownCompute cms = true ↔ scaled_to_zero commonSpec ExecNodeType) ∧
  (cms_shutdownStorage cms = true ↔ scaled_to_zero commonSpec DataNodeType) ∧
  (cms_mastersMaintenance cms = true ↔
     scaled_to_zero commonSpec DiscoveryType ∧ ∀ n, effectiveInstanceCount commonSpec MasterType n = n) ∧
  (cms_clusterMaintenance cms = false → ∀ t n, effectiveInstanceCount commonSpec t n = n).
Proof.
  cbv zeta. unfold scaled_to_zero, effectiveInstanceCount.
  destruct (cs_ClusterMaintenance commonSpec) as [m|]; cbn [Deref].
  2: { cbn. split_and!; try done; split; try done; intros H; try (by specialize (H 1%Z)).
       destruct H as [H _]. by specialize (H 1%Z). }
  change (Deref (Some m) ClusterMaintenanceZero) with m.
  destruct (cmt_Shutdown m); cbn; split_and!; try done; split; intros H; try done;
    try (by specialize (H 1%Z)); try (destruct H as [H1 H2]; first [by specialize (H1 1%Z)|by specialize (H2 1%Z)]).
Qed.

(** ** What Kubernetes is asked for *)

Section requests.
Context {CC : ConfigCodec} {E : Type} {MC : MetaConditions} {SC : StatusClient E}.
Context `{HKC : !KubeClient E ConfigMap} `{HKS : !KubeClient E StatefulSet}.
Context `{HKL : !KubeClientLaws E StatefulSet _ sts_request}.
Context (HashTemplate : StatefulSet → error + string) (s : serverImpl E).

Abbreviation W := (World E).
Abbreviation cell := (si_statefulSet s).
Abbreviation Sync := (impl_Sync HashTemplate s).
Abbreviation removePods := (impl_removePods HashTemplate s).

(** The memory of the stateful set and the stateful sets Kubernetes stores. *)
Definition sts_memory (w : W) : ManagedResource StatefulSet * serverMem := (resource cell w, mem s w).
Definition sts_stored (w : W) (name : string) : apierror + StatefulSet := val_of (client_Get name) (w_env w).

(** The other resources of the server leave the stateful set alone. *)
Class ServerResources : Prop := {
  sr_sts :: LensLaws cell;
  sr_mem :: LensLaws (si_mem s);
  sr_disjoint :: Disjoint_lenses cell (si_mem s);
  sr_client :: ClientMemory E StatefulSet cell;
  sr_configs_Build : preserves sts_memory (Build (si_configs s));
  sr_timbertruck_Build : ∀ c, timbertruckConfigs s = Some c → preserves sts_memory (Build c);
  sr_headless_Build : preserves sts_memory (ro_Build (si_headlessService s));
  sr_monitoring_Build : preserves sts_memory (ro_Build (si_monitoringService s));
  sr_configs_Sync : ∀ n, preserves (λ w, sts_stored w n) (cb_Sync (si_configs s));
  sr_timbertruck_Sync : ∀ c n, timbertruckConfigs s = Some c → preserves (λ w, sts_stored w n) (cb_Sync c);
  sr_headless_Sync : ∀ n, preserves (λ w, sts_stored w n) (ro_Sync (si_headlessService s));
  sr_monitoring_Sync : ∀ n, preserves (λ w, sts_stored w n) (ro_Sync (si_monitoringService s));
}.

Context `{HSR : !ServerResources}.

Definition new_of (m : ManagedResource StatefulSet * serverMem) : StatefulSet := res_newObject m.1.

(** The object is built under the name of the resource. *)
Definition named (m : ManagedResource StatefulSet * serverMem) : Prop :=
  (sm_builtStatefulSet m.2 = true → sm_built m.2 = true) ∧
  (sm_built m.2 = true → GetName (new_of m) = res_name m.1).

(** What a rebuilt object asks for. *)
Definition rebuilt_request (m : ManagedResource StatefulSet * serverMem)
    : Z * (StatefulSetUpdateStrategyType * Z) * list Container :=
  (sm_instanceCount m.2,
   strategy_request match sm_updateStrategy m.2 with
   | Some u => u
   | None => if sm_built m.2 then sts_UpdateStrategy (new_of m) else UpdateStrategyZero
   end,
   template_containers s).

(** What a sync asks for: an object that is built already is taken as it is. *)
Definition built_request (m : ManagedResource StatefulSet * serverMem)
    : Z * (StatefulSetUpdateStrategyType * Z) * list Container :=
  if sm_builtStatefulSet m.2 then sts_request (new_of m) else rebuilt_request m.

Lemma in_sts_memory f (w : W) :
  sts_memory (run (in_resource cell f) w) = (f (sts_memory w).1, (sts_memory w).2).
Proof. unfold sts_memory, mem, in_resource, resource. cbn. rewrite lget_lset, disjoint_l. done. Qed.

Lemma in_mem_memory f (w : W) :
  sts_memory (run (in_mem s f) w) = ((sts_memory w).1, f (sts_memory w).2).
Proof. unfold sts_memory, in_mem, mem, resource. cbn. rewrite lget_lset, disjoint_r. done. Qed.

Lemma rebuild_memory (w : W) :
  let m := sts_memory w in
  let m' := sts_memory (run (rebuildStatefulSet s) w) in
  named m →
  named m' ∧ sm_builtStatefulSet m'.2 = true ∧ res_name m'.1 = res_name m.1 ∧
  sts_request (new_of m') = rebuilt_request m.
Proof.
  cbv zeta. intros [Hn1 Hn2]. unfold rebuildStatefulSet. rewrite run_bind.
  set (w1 := run (sts_Build s) w).
  assert (sm_built (sts_memory w1).2 = true ∧ sm_instanceCount (sts_memory w1).2 = sm_instanceCount (sts_memory w).2 ∧
    sm_updateStrategy (sts_memory w1).2 = sm_updateStrategy (sts_memory w).2 ∧
    res_name (sts_memory w1).1 = res_name (sts_memory w).1 ∧
    GetName (new_of (sts_memory w1)) = res_name (sts_memory w).1 ∧
    sts_UpdateStrategy (new_of (sts_memory w1)) =
      (if sm_built (sts_memory w).2 then sts_UpdateStrategy (new_of (sts_memory w)) else UpdateStrategyZero))
    as (Hb & Hi & Hu & Hr & Hname & Hus).
  { subst w1. unfold sts_Build. rewrite run_bind, val_gets, run_gets.
    change (mem s w) with (sts_memory w).2. rewrite run_bind.
    destruct (sm_built (sts_memory w).2) eqn:Hbuilt.
    - rewrite run_ret, in_mem_memory. cbn. split_and!; try done. unfold new_of in *. by apply Hn2.
    - rewrite in_mem_memory. unfold sts_memory, mem, in_resource, resource. cbn. rewrite lget_lset, disjoint_l. done. }
  rewrite run_bind, val_gets, run_gets, run_bind, val_gets, run_gets. rewrite run_bind.
  change (impl_getInstanceCount s w1) with (sm_instanceCount (sts_memory w1).2).
  change (mem s w1) with (sts_memory w1).2.
  rewrite in_mem_memory, in_sts_memory. cbn [fst snd].
  unfold named, new_of, rebuilt_request, sts_request in *. cbn [fst snd res_newObject res_set_new res_name].
  rewrite Hi, Hu. split_and!; try done.
  - intros _. rewrite Hr. destruct (sm_updateStrategy (sts_memory w).2); exact Hname.
  - destruct (sm_updateStrategy (sts_memory w).2); [done|]. do 3 f_equal. exact Hus.
Qed.

Lemma build_memory (w : W) :
  let m := sts_memory w in
  let m' := sts_memory (run (buildStatefulSet s) w) in
  named m →
  named m' ∧ sm_builtStatefulSet m'.2 = true ∧ res_name m'.1 = res_name m.1 ∧
  sts_request (new_of m') = built_request m.
Proof.
  cbv zeta. intros Hn. unfold buildStatefulSet, built_request. rewrite run_bind, val_gets, run_gets.
  change (mem s w) with (sts_memory w).2. destruct (sm_builtStatefulSet (sts_memory w).2) eqn:Hb.
  - by rewrite run_ret.
  - by apply rebuild_memory.
Qed.

(** The hashes only annotate. *)
Lemma annotate_memory f (w : W) :
  (∀ o, sts_request (f o) = sts_request o ∧ GetName (f o) = GetName o) →
  let m := sts_memory w in
  let m' := sts_memory (run (in_resource cell (λ r, res_set_new (f (res_newObject r)) r)) w) in
  named m → named m' ∧ m'.2 = m.2 ∧ res_name m'.1 = res_name m.1 ∧ sts_request (new_of m') = sts_request (new_of m).
Proof.
  intros Hf. cbv zeta. rewrite in_sts_memory. unfold named, new_of. cbn.
  intros [H1 H2]. split_and!; try done; [|apply Hf]. intros Hb. rewrite (proj2 (Hf _)). by apply H2.
Qed.

Lemma go_err_None (m k : go W (option error)) (w : W) :
  val_of (go_err m k) w = None →
  val_of m w = None ∧ val_of k (run m w) = None ∧ run (go_err m k) w = run k (run m w).
Proof.
  unfold go_err. rewrite val_bind, run_bind. destruct (val_of m w); [by rewrite val_ret|done].
Qed.

(** A request that has reached Kubernetes. *)
Definition requested (w : W) (name : string) (r : Z * (StatefulSetUpdateStrategyType * Z) * list Container) : Prop :=
  ∃ o', sts_stored w name = inr o' ∧ sts_request o' = r ∧ GetResourceVersion o' ≠ "".

Lemma resource_Sync_requested (w : W) :
  val_of (resource_Sync cell) w = None →
  requested (run (resource_Sync cell) w) (GetName (NewObject cell w)) (sts_request (NewObject cell w)).
Proof.
  unfold resource_Sync. repeat rewrite val_bind, val_gets, run_gets. repeat rewrite run_bind, val_gets, run_gets.
  rewrite val_bind, run_bind.
  pose proof (SyncObject_readable sts_request (OldObject cell w) (NewObject cell w) w) as Hread.
  destruct (val_of (SyncObject _ _) w) as [err obj]. rewrite val_bind, val_ret, run_bind, run_ret. intros ->.
  destruct (Hread eq_refl) as (o' & Hget & Hc & _ & Hrv). exists o'. split_and!; try done.
  rewrite <- Hget. unfold sts_stored, in_resource. cbn. apply get_mem.
Qed.

Lemma tail_preserves n :
  preserves (λ w, sts_stored w n) (resources_seq
    [ Some (cb_Sync (si_configs s)); cb_Sync <$> timbertruckConfigs s;
      Some (ro_Sync (si_headlessService s)); Some (ro_Sync (si_monitoringService s)) ]).
Proof.
  apply resources_seq_preserves. repeat apply Forall_cons_2; [apply sr_configs_Sync| | | |apply Forall_nil_2].
  - destruct (timbertruckConfigs s) as [c|] eqn:Hc; [|done]. by apply sr_timbertruck_Sync.
  - apply sr_headless_Sync.
  - apply sr_monitoring_Sync.
Qed.

Lemma resources_Sync_requested (w : W) :
  let objects := [ Some (resource_Sync cell); Some (cb_Sync (si_configs s)); cb_Sync <$> timbertruckConfigs s;
                   Some (ro_Sync (si_headlessService s)); Some (ro_Sync (si_monitoringService s)) ] in
  val_of (resources_Sync objects) w = None →
  requested (run (resources_Sync objects) w) (GetName (NewObject cell w)) (sts_request (NewObject cell w)).
Proof.
  cbv zeta. unfold resources_Sync. cbn [resources_seq]. intros Hv.
  destruct (go_err_None _ _ _ Hv) as (H1 & _ & Hrun). unfold go_err in Hrun. rewrite Hrun.
  destruct (resource_Sync_requested w H1) as (o' & Hget & Hr & Hrv). exists o'. split_and!; try done.
  rewrite <- Hget. apply (tail_preserves (GetName (NewObject cell w)) (run (resource_Sync cell) w)).
Qed.

Lemma setConfigHash_memory (w : W) :
  let m := sts_memory w in
  let m' := sts_memory (run (setConfigHash s) w) in
  named m → named m' ∧ m'.2 = m.2 ∧ res_name m'.1 = res_name m.1 ∧ sts_request (new_of m') = sts_request (new_of m).
Proof.
  cbv zeta. intros Hn. unfold setConfigHash. rewrite run_bind, val_gets, run_gets. cbv beta.
  set (hash := default "" _). destruct (hash == ""); [done|]. rewrite run_bind, run_ret.
  by apply (annotate_memory (λ o, sts_set_template (sts_TemplateLabels o)
    (<[ConfigHashAnnotationName := hash]> (sts_TemplateAnnotations o)) o)).
Qed.

Lemma setInstanceHash_memory (w : W) :
  let m := sts_memory w in
  let m' := sts_memory (run (setInstanceHash HashTemplate s) w) in
  named m → named m' ∧ m'.2 = m.2 ∧ res_name m'.1 = res_name m.1 ∧ sts_request (new_of m') = sts_request (new_of m).
Proof.
  cbv zeta. intros Hn. unfold setInstanceHash. rewrite run_bind, val_gets, run_gets.
  destruct (HashTemplate _); [done|]. rewrite run_bind, run_ret. by apply annotate_memory.
Qed.

Lemma Sync_requested (w : W) :
  named (sts_memory w) → val_of Sync w = None →
  requested (run Sync w) (res_name (sts_memory w).1) (built_request (sts_memory w)).
Proof.
  intros Hn Hv. unfold impl_Sync in *.
  apply go_err_None in Hv as (_ & Hv & ->). set (w1 := run (Build (si_configs s)) w) in *.
  assert (sts_memory w1 = sts_memory w) as H1 by apply sr_configs_Build.
  apply go_err_None in Hv as (_ & Hv & ->). set (w2 := run (match timbertruckConfigs s with _ => _ end) w1) in *.
  assert (sts_memory w2 = sts_memory w1) as H2.
  { subst w2. destruct (timbertruckConfigs s) as [c|] eqn:Hc; [by apply sr_timbertruck_Build|done]. }
  rewrite val_bind in Hv. rewrite run_bind. set (w3 := run (ro_Build (si_headlessService s)) w2) in *.
  assert (sts_memory w3 = sts_memory w2) as H3 by apply sr_headless_Build.
  rewrite val_bind in Hv. rewrite run_bind. set (w4 := run (ro_Build (si_monitoringService s)) w3) in *.
  assert (sts_memory w4 = sts_memory w3) as H4 by apply sr_monitoring_Build.
  rewrite val_bind in Hv. rewrite run_bind. set (w5 := run (buildStatefulSet s) w4) in *.
  destruct (build_memory w4) as (Hn5 & Hb5 & Hr5 & Hq5); [by rewrite H4, H3, H2, H1|]. fold w5 in Hn5, Hb5, Hr5, Hq5.
  apply go_err_None in Hv as (_ & Hv & ->). set (w6 := run (setConfigHash s) w5) in *.
  destruct (setConfigHash_memory w5 Hn5) as (Hn6 & Hb6 & Hr6 & Hq6). fold w6 in Hn6, Hb6, Hr6, Hq6.
  apply go_err_None in Hv as (_ & Hv & ->). set (w7 := run (setInstanceHash HashTemplate s) w6) in *.
  destruct (setInstanceHash_memory w6 Hn6) as (Hn7 & Hb7 & Hr7 & Hq7). fold w7 in Hn7, Hb7, Hr7, Hq7.
  pose proof (resources_Sync_requested w7 Hv) as Hreq.
  change (NewObject cell w7) with (new_of (sts_memory w7)) in Hreq.
  assert (sm_built (sts_memory w7).2 = true) as Hbuilt.
  { apply Hn7. by rewrite Hb7, Hb6. }
  rewrite (proj2 Hn7 Hbuilt), Hr7, Hr6, Hr5, Hq7, Hq6, Hq5, H4, H3, H2, H1 in Hreq. exact Hreq.
Qed.

(** C34.  Kubernetes is asked for what the operator decided.  When a server syncs without an error,
    the stateful set that Kubernetes returns afterwards has the replica count, the update strategy
    (its type and partition) and the names and images of containers of the object the server has
    built, which for a server that has not built one is the current instance count, the strategy
    chosen last and the images of the specification; and removing pods asks for zero replicas with the
    same strategy and containers, whatever the instance count is.  Strategies and replica counts are
    compared up to the defaults of the API server, which is taken to store these fields otherwise as
    they are written; the object a server has built has the name of its resource, and the other
    objects of the server are stored apart from its stateful set. *)
Theorem server_requests (w : W) :
  named (sts_memory w) →
  let m := sts_memory w in
  let name := res_name m.1 in
  (val_of Sync w = None → requested (run Sync w) name (built_request m)) ∧
  (val_of removePods w = None →
   requested (run removePods w) name (0%Z, (rebuilt_request m).1.2, template_containers s)).
Proof.
  intros Hn. cbv zeta. split; [by apply Sync_requested|].
  unfold impl_removePods. rewrite val_bind, run_bind. set (w1 := run (rebuildStatefulSet s) w).
  destruct (rebuild_memory w Hn) as (Hn1 & Hb1 & Hr1 & Hq1). fold w1 in Hn1, Hb1, Hr1, Hq1.
  rewrite val_bind, run_bind. set (w2 := run (in_resource _ _) w1). intros Hv.
  assert (sts_memory w2 = (res_set_new (sts_set_Replicas 0 (new_of (sts_memory w1))) (sts_memory w1).1,
    (sts_memory w1).2)) as H2 by (subst w2; by rewrite in_sts_memory).
  pose proof (Sync_requested w2) as Hreq. rewrite H2 in Hreq.
  unfold built_request, named, new_of in Hreq. cbn [fst snd res_name res_set_new res_newObject] in Hreq.
  rewrite Hb1, Hr1 in Hreq.
  replace (0%Z, (rebuilt_request (sts_memory w)).1.2, template_containers s)
    with (sts_request (sts_set_Replicas 0 (new_of (sts_memory w1)))).
  2: { transitivity (0%Z, (sts_request (new_of (sts_memory w1))).1.2, (sts_request (new_of (sts_memory w1))).2);
       [done|]. by rewrite Hq1. }
  apply Hreq; [|done]. destruct Hn1 as [Ha Hb]. split; [intros _; by apply Ha|].
  intros Hbuilt. rewrite <- Hr1. by apply Hb.
Qed.

End requests.

(** ** A server over an API server in memory *)

Record SrvKube := mkSrvKube {
  sk_cm : MemKube;
  sk_store : gmap string StatefulSet;
  sk_sts : ManagedResource StatefulSet;
  sk_mem : serverMem;
}.

Definition sk_set_cm (k : MemKube) (e : SrvKube) : SrvKube := mkSrvKube k (sk_store e) (sk_sts e) (sk_mem e).

(** A cell of the config map part. *)
Definition sk_lift {A} (l : lens MemKube A) : lens SrvKube A :=
  mkLens (λ e, lget l (sk_cm e)) (λ a e, sk_set_cm (lset l a (sk_cm e)) e).
Definition sk_sts_cell : lens SrvKube (ManagedResource StatefulSet) :=
  mkLens sk_sts (λ a e, mkSrvKube (sk_cm e) (sk_store e) a (sk_mem e)).
Definition sk_mem_cell : lens SrvKube serverMem :=
  mkLens sk_mem (λ a e, mkSrvKube (sk_cm e) (sk_store e) (sk_sts e) a).

Definition sk_go {A} (m : go MemKube A) : go SrvKube A := λ e,
  let '(x, k) := m (sk_cm e) in (x, sk_set_cm k e).

#[global] Instance SrvKube_cm : KubeClient SrvKube ConfigMap := {
  client_Get name := sk_go (client_Get name);
  client_Create o := sk_go (client_Create o);
  client_Update o := sk_go (client_Update o);
  client_Delete o := sk_go (client_Delete o);
  SetControllerReference _ o := inr o;
}.

(** The API server fills in the strategy and has the gate of [maxUnavailable] off. *)
Definition sk_defaults (o : StatefulSet) : StatefulSet :=
  let '(type, partition) := strategy_request (sts_UpdateStrategy o) in
  SetResourceVersion "1" (sts_set_Replicas (Deref (sts_Replicas o) 1%Z)
    (sts_set_UpdateStrategy (mkStatefulSetUpdateStrategy type
       (if type == RollingUpdateStatefulSetStrategyType then Some (mkRollingUpdateStrategy (Some partition) None)
        else sus_RollingUpdate (sts_UpdateStrategy o))) o)).

Definition sk_put (o : StatefulSet) (e : SrvKube) : SrvKube :=
  mkSrvKube (sk_cm e) (<[GetName o := sk_defaults o]> (sk_store e)) (sk_sts e) (sk_mem e).

Lemma sk_defaults_request o : sts_request (sk_defaults o) = sts_request o.
Proof.
  destruct o as [meta gen reps service [type rolling] ? ? ? ? ? ? ? ?].
  unfold sts_request, sk_defaults, strategy_request. cbn.
  by repeat (case_bool_decide; subst; cbn); destruct rolling as [[[]]|].
Qed.

#[global] Instance SrvKube_sts : KubeClient SrvKube StatefulSet := {
  client_Get name e := (match sk_store e !! name with Some o => inr o | None => inl NotFound end, e);
  client_Create o e :=
    match sk_store e !! GetName o with
    | Some _ => ((Some "already exists", o), e)
    | None => ((None, sk_defaults o), sk_put o e)
    end;
  client_Update o e :=
    match sk_store e !! GetName o with
    | None => ((Some "not found", o), e)
    | Some _ => ((None, sk_defaults o), sk_put o e)
    end;
  client_Delete o e := (None, mkSrvKube (sk_cm e) (delete (GetName o) (sk_store e)) (sk_sts e) (sk_mem e));
  SetControllerReference _ o := inr o;
}.

#[global] Instance SrvKube_laws : KubeClientLaws SrvKube StatefulSet _ sts_request.
Proof.
  split; try done.
  - by intros y o o' [= ->].
  - intros o e. unfold val_of, run. cbn. destruct (sk_store e !! GetName o); [done|]. intros _.
    exists (sk_defaults o). split_and!; [|apply sk_defaults_request|done..]. cbn. by rewrite lookup_insert_eq.
  - intros o e. unfold val_of, run. cbn. destruct (sk_store e !! GetName o); [|done]. intros _.
    exists (sk_defaults o). split_and!; [|apply sk_defaults_request|done..]. cbn. by rewrite lookup_insert_eq.
  - intros o e name Hne. unfold val_of, run. cbn. destruct (sk_store e !! GetName o); [done|].
    cbn. by rewrite lookup_insert_ne.
  - intros o e name Hne. unfold val_of, run. cbn. destruct (sk_store e !! GetName o); [|done].
    cbn. by rewrite lookup_insert_ne.
Qed.

#[global] Instance SrvKube_status : StatusClient SrvKube := {
  Status_Update := λ _ e, (None, e);
  GetVersion := "0.30.0";
}.

Definition no_service (name : string) : resourceOps SrvKube :=
  mkResourceOps SrvKube name (mret None) (λ _, true) (mret tt) (mret None).

Definition example_server : serverImpl SrvKube :=
  mkServerImpl "ytsaurus:25.1" ∅ (example_labeller DataNodeType "") ∅ PodSpecZero InstanceSpecZero
    (mkConfigMapBuilder (example_labeller DataNodeType "") "yt-data-node-config" None
       [YsonConfigGenerator "ytserver-data-node.yson" (inr (Some "{a=1}"))] (sk_lift mk_cell) (sk_lift mk_ovcell))
    None (no_service "data-nodes") (no_service "monitoring") sk_sts_cell sk_mem_cell.

(** What the stateful set side sees of the environment. *)
Definition sk_view (w : World SrvKube) : gmap string StatefulSet * ManagedResource StatefulSet * serverMem :=
  (sk_store (w_env w), sk_sts (w_env w), sk_mem (w_env w)).

Lemma sk_go_view {A} (m : go MemKube A) : preserves sk_view (in_env (sk_go m)).
Proof. intros w. rewrite run_in_env. unfold sk_view, sk_go, run. cbn. by destruct (m _). Qed.

Lemma view_of_env {A} (m : go (World SrvKube) A) : preserves w_env m → preserves sk_view m.
Proof. intros H w. unfold sk_view. by rewrite (H w). Qed.

Lemma sk_Build_view : preserves sk_view (Build (si_configs example_server)).
Proof.
  assert (∀ f, preserves sk_view (in_resource (sk_lift mk_cell) f)) by done.
  assert (∀ d, preserves sk_view (getConfig (si_configs example_server) d)).
  { intros d. apply view_of_env, getConfig_env. }
  unfold Build, resource_Build, setAnnotation, buildLoop, example_server. cbn. go_frame.
Qed.

Lemma sk_Sync_view : preserves sk_view (cb_Sync (si_configs example_server)).
Proof.
  assert (∀ f, preserves sk_view (in_resource (sk_lift mk_cell) f)) by done.
  assert (preserves sk_view (needReload (si_configs example_server))) by apply view_of_env, needReload_env.
  assert (∀ r m, preserves sk_view (RecordNormal r m)) by done.
  assert (∀ r m, preserves sk_view (RecordWarning r m)) by done.
  pose proof @sk_go_view. unfold cb_Sync, resource_Sync, SyncObject, createAndReferenceObject, updateObject.
  go_frame; cbn; go_frame.
Qed.

Lemma example_server_resources : ServerResources example_server.
Proof.
  assert (∀ A (m : go (World SrvKube) A), preserves sk_view m → preserves (sts_memory example_server) m) as Hmem.
  { intros A m H w. specialize (H w). unfold sk_view in H. injection H as _ H1 H2.
    unfold sts_memory, resource, mem. cbn. by rewrite H1, H2. }
  assert (∀ A (m : go (World SrvKube) A) n, preserves sk_view m → preserves (λ w, sts_stored w n) m) as Hst.
  { intros A m n H w. specialize (H w). unfold sk_view in H. injection H as H1 _ _.
    unfold sts_stored, val_of. cbn. by rewrite H1. }
  split; try done.
  - split; [done|]. by intros [].
  - split; [done|]. by intros [].
  - split; try done; intros o e; unfold run; cbn; by destruct (sk_store e !! GetName o).
  - apply Hmem, sk_Build_view.
  - intros n. apply Hst, sk_Sync_view.
Qed.

(** A running data node of three instances, asked to take a rolling strategy. *)
Definition example_sts : StatefulSet :=
  mkStatefulSet (mkObjectMeta "dnd" "7" ∅ []) 1 (Some 3%Z) "data-nodes" UpdateStrategyZero ∅ ∅
    [mkContainer YTServerContainerName "ytsaurus:24.2"] 1 "r1" "r1" 3 3.

Definition example_servers : World SrvKube :=
  mkWorld example_yts [] 200 ∅ (mkSrvKube (mkMemKube ∅ (newConfigMap "yt-data-node-config") ConfigMapZero)
    {[ "dnd" := example_sts ]} (mkManagedResource "dnd" example_sts StatefulSetZero)
    (mkServerMem 3 None false false)).

Lemma podsImageCorrespondsToSpec_spec_witness :
  podsImageCorrespondsToSpec example_server example_servers = false ∧
  ¬ (server_images_ok "ytsaurus:25.1" [mkContainer YTServerContainerName "ytsaurus:24.2"] ∧
     tracked_images [mkContainer YTServerContainerName "ytsaurus:24.2"] = ∅).
Proof.
  split; [reflexivity|]. intros H.
  assert (podsImageCorrespondsToSpec example_server example_servers = true) as Ht; [|discriminate].
  apply (podsImageCorrespondsToSpec_spec example_server example_servers); [|exact H].
  apply (bool_decide_unpack _). vm_compute. exact I.
Defined.

(** The same server in the middle of a rolling update. *)
Definition example_rolling : World SrvKube :=
  run (impl_setUpdateStrategy example_server RollingUpdateStatefulSetStrategyType 2 1) example_servers.

Lemma server_requests_witness :
  requested (run (impl_Sync (λ _, inr "hash") example_server) example_rolling) "dnd"
    (3%Z, (RollingUpdateStatefulSetStrategyType, 2%Z), [mkContainer YTServerContainerName "ytsaurus:25.1"]) ∧
  requested (run (impl_removePods (λ _, inr "hash") example_server) example_rolling) "dnd"
    (0%Z, (RollingUpdateStatefulSetStrategyType, 2%Z), [mkContainer YTServerContainerName "ytsaurus:25.1"]).
Proof.
  destruct (server_requests (λ _, inr "hash") example_server (HSR := example_server_resources)
    example_rolling ltac:(split; discriminate)) as [Hsync Hremove].
  split; [apply Hsync|apply Hremove]; vm_compute; reflexivity.
Defined.
