(* ===== verification/UpdateFlow.v ===== *)
(** * The update flow (src/controllers/update_flow_steps.go)

    A cluster update is a walk through a graph of steps.  The Go code builds the graph out
    of mutable steps that point to each other, with an index by update state; here the
    steps live in a heap (a pointer is a position in it) and building the graph mutates
    that heap.  [flowStates] and [masterFlowStates] are the flows as plain lists; the
    graph is shown to be the list with one fork. *)

From S2P Require Import Prelude Kubernetes ApiTypes Labeller Status ApiProxy Components UpdatePlan ComponentManager Timbertruck.

(** ** Steps and trees *)

Inductive stepResultMark : Type :=
  stepResultMarkUnsatisfied | stepResultMarkHappy | stepResultMarkUnhappy.

#[global] Instance stepResultMark_eq_dec : EqDecision stepResultMark.
Proof. solve_decision. Defined.

(** [nextSteps] is a map with the keys happy and unhappy; a nil map has neither. *)
Record flowStep := mkFlowStep {
  fs_updateState : UpdateState;
  fs_happy : option nat;
  fs_unhappy : option nat;
}.

Abbreviation Heap := (list flowStep).

Definition newSimpleStep (updateState : UpdateState) : go Heap nat :=
  λ h, (length h, h ++ [mkFlowStep updateState None None]).

Definition newConditionalForkStep (updateState : UpdateState) (unhappyNext : nat) : go Heap nat :=
  λ h, (length h, h ++ [mkFlowStep updateState None (Some unhappyNext)]).

Definition step_next (s : flowStep) (mark : stepResultMark) : option nat :=
  match mark with
  | stepResultMarkUnsatisfied => None
  | stepResultMarkHappy => fs_happy s
  | stepResultMarkUnhappy => fs_unhappy s
  end.

Definition addHappyPath (s next : nat) : go Heap unit :=
  modify (alter (λ st, mkFlowStep (fs_updateState st) (Some next) (fs_unhappy st)) s).

(** [flowStep.chain]. *)
Fixpoint step_chain (current : nat) (steps : list nat) : go Heap unit :=
  match steps with
  | [] => mret tt
  | step :: rest => addHappyPath current step ;; step_chain step rest
  end.

Record flowTree := mkFlowTree {
  ft_index : UpdateState → option nat;
  ft_head : nat;
  ft_tail : nat;
}.

Definition index_set (i : UpdateState → option nat) (s : UpdateState) (p : nat) : UpdateState → option nat :=
  λ s', if s' == s then Some p else i s'.

Definition state_of (h : Heap) (p : nat) : UpdateState :=
  match h !! p with Some st => fs_updateState st | None => UpdateStateUndefined end.

Definition newFlowTree (head : nat) : go Heap flowTree := λ h,
  (mkFlowTree (index_set (λ _, None) (state_of h head) head) head head, h).

(** One iteration of [flowTree.chain]. *)
Definition tree_chain1 (f : flowTree) (step : nat) : go Heap flowTree :=
  h ← gets id;
  let index := index_set (ft_index f) (state_of h step) step in
  let index :=
    match h !! step ≫= fs_unhappy with
    | Some unhappyStep => index_set index (state_of h unhappyStep) unhappyStep
    | None => index
    end in
  step_chain (ft_tail f) [step] ;;
  mret (mkFlowTree index (ft_head f) step).

Fixpoint tree_chain (f : flowTree) (steps : list nat) : go Heap flowTree :=
  match steps with
  | [] => mret f
  | step :: rest => f' ← tree_chain1 f step; tree_chain f' rest
  end.

Definition tree_chainIf (f : flowTree) (cond : bool) (steps : list nat) : go Heap flowTree :=
  if cond then tree_chain f steps else mret f.

(** [tree.chainIf(cond, st(s1), st(s2), ...)]: the arguments are allocated first. *)
Definition chainStates (cond : bool) (states : list UpdateState) (f : flowTree) : go Heap flowTree :=
  steps ← mapM newSimpleStep states;
  tree_chainIf f cond steps.

(** [tree.chainIf(cond, newConditionalForkStep(s, st(unhappy)))]. *)
Definition chainFork (cond : bool) (state unhappy : UpdateState) (f : flowTree) : go Heap flowTree :=
  u ← newSimpleStep unhappy;
  step ← newConditionalForkStep state u;
  tree_chainIf f cond [step].

Section flow.
Context {E : Type} {MC : MetaConditions} {SC : StatusClient E}.

Abbreviation W := (World E).
Abbreviation flowCondition := (W → ComponentManager E → ComponentManagerStatus → stepResultMark).

Definition happyIf (b : bool) : stepResultMark :=
  if b then stepResultMarkHappy else stepResultMarkUnsatisfied.

Definition flowCheckStatusCondition (conditionName : string) : flowCondition := λ w _ _,
  happyIf (IsUpdateStatusConditionTrue w conditionName).

Definition flowUpdateStateCondition (updateState : UpdateState) : flowCondition := λ w _ _,
  happyIf (IsUpdateStatusConditionTrue w (GetUpdateStateCompleteCondition updateState)).

(** The map of conditions; a state without an entry, or with a nil one, is [None]. *)
Definition flowConditions (s : UpdateState) : option flowCondition :=
  match s with
  | UpdateStateNone => Some (λ _ _ _, stepResultMarkHappy)
  | UpdateStateWaitingForImageHeater => Some (λ w cm cms, happyIf (allUpdatingImagesAreHeated cm cms w))
  | UpdateStatePossibilityCheck => Some (λ w _ _,
      if IsStatusConditionTrueAndObservedGeneration w ConditionUpdateIsPossible then stepResultMarkHappy
      else if IsStatusConditionFalse w ConditionUpdateIsPossible then stepResultMarkUnhappy
      else stepResultMarkUnsatisfied)
  | UpdateStateImpossibleToStart => Some (λ _ _ cms, happyIf (cms_allReady cms))
  | UpdateStateWaitingForSafeModeEnabled => Some (flowCheckStatusCondition ConditionSafeModeEnabled)
  | UpdateStateWaitingForTabletCellsSaving => Some (flowCheckStatusCondition ConditionTabletCellsSaved)
  | UpdateStateWaitingForTabletCellsRemovingStart =>
      Some (flowCheckStatusCondition ConditionTabletCellsRemovingStarted)
  | UpdateStateWaitingForTabletCellsRemoved => Some (flowCheckStatusCondition ConditionTabletCellsRemoved)
  | UpdateStateWaitingForImaginaryChunksAbsence =>
      Some (flowCheckStatusCondition ConditionDataNodesWithImaginaryChunksAbsent)
  | UpdateStateWaitingForSnapshots => Some (flowCheckStatusCondition ConditionSnaphotsSaved)
  | UpdateStateWaitingForTabletCellsRecovery => Some (flowCheckStatusCondition ConditionTabletCellsRecovered)
  | UpdateStateWaitingForOpArchiveUpdate => Some (flowUpdateStateCondition UpdateStateWaitingForOpArchiveUpdate)
  | UpdateStateWaitingForSidecarsInitializingPrepare => None
  | UpdateStateWaitingForSidecarsInitialize =>
      Some (flowUpdateStateCondition UpdateStateWaitingForSidecarsInitialize)
  | UpdateStateWaitingForQTStateUpdatingPrepare =>
      Some (flowCheckStatusCondition ConditionQTStatePreparedForUpdating)
  | UpdateStateWaitingForQTStateUpdate => Some (flowCheckStatusCondition ConditionQTStateUpdated)
  | UpdateStateWaitingForYqlaUpdate => Some (flowUpdateStateCondition UpdateStateWaitingForYqlaUpdate)
  | UpdateStateWaitingForQAStateUpdatingPrepare =>
      Some (flowCheckStatusCondition ConditionQAStatePreparedForUpdating)
  | UpdateStateWaitingForQAStateUpdate => Some (flowCheckStatusCondition ConditionQAStateUpdated)
  | UpdateStateWaitingForSafeModeDisabled => Some (flowCheckStatusCondition ConditionSafeModeDisabled)
  | UpdateStateWaitingForMasterReady => Some (λ _ _ cms, happyIf (cms_masterReady cms))
  | UpdateStateWaitingForMasterEnterReadOnly
  | UpdateStateWaitingForMasterExitReadOnly
  | UpdateStateWaitingForMasterCellsEnterReadOnly
  | UpdateStateWaitingForMasterCellsExitReadOnly
  | UpdateStateWaitingForMasterCellsPreparation
  | UpdateStateWaitingForMasterCellsAcception
  | UpdateStateWaitingForMasterCellsRegistration
  | UpdateStateWaitingForMasterCellsSettlement
  | UpdateStateWaitingForMasterCellsCompletion => Some (flowUpdateStateCondition s)
  | UpdateStateWaitingForCypressPatch => Some (flowCheckStatusCondition ConditionCypressPatchApplied)
  | UpdateStateWaitingForTimbertruckPrepared => Some (λ w _ _,
      happyIf (negb (TimbertruckDeliveryEnabled (yts_Spec (w_yts w))) ||
               IsUpdateStatusConditionTrue w ConditionTimbertruckPrepared))
  | UpdateStateWaitingForPodsRemoval => Some (λ w cm _, happyIf (arePodsRemoved cm w))
  | UpdateStateWaitingForPodsCreation => Some (λ _ _ cms, happyIf (cms_allStarted cms))
  | UpdateStateUndefined | UpdateStateOther _ => None
  end.

Definition checkCondition (s : UpdateState) : flowCondition := λ w cm cms,
  match flowConditions s with
  | None => stepResultMarkUnsatisfied
  | Some condition => condition w cm cms
  end.

(** ** Execution of one step *)

(** [terminateTransitions], with the default of [execute]. *)
Definition terminateTransition (s : UpdateState) : ClusterState :=
  match s with
  | UpdateStateImpossibleToStart => ClusterStateUpdateCanceled
  | _ => ClusterStateUpdateFinished
  end.

(** What a Go pointer to a step dereferences to. *)
Definition deref_step (h : Heap) (p : option nat) : option flowStep := p ≫= λ p, h !! p.

Definition execute (f : flowTree) (h : Heap) (cm : ComponentManager E) (cms : ComponentManagerStatus)
    : go W (bool * option error) :=
  currentState ← gets GetUpdateState;
  match deref_step h (ft_index f currentState) with
  | None =>
      mret (false, Some ("unexpected update state: " +:+ fmt_q (UpdateState_string currentState)))
  | Some currentStep =>
      mark ← gets (λ w, checkCondition (fs_updateState currentStep) w cm cms);
      if mark == stepResultMarkUnsatisfied then
        LogUpdate ("Update flow: condition not met for " +:+ UpdateState_string currentState) ;;
        mret (false, None)
      else
        match deref_step h (step_next currentStep mark) with
        | None =>
            let clusterState := terminateTransition currentState in
            LogUpdate ("Update flow finishing with cluster state: " +:+ ClusterState_string clusterState) ;;
            err ← SaveClusterState clusterState;
            match err with
            | Some e => mret (false, Some e)
            | None => mret (true, None)
            end
        | Some nextStep =>
            LogUpdate ("Update flow advance " +:+ UpdateState_string currentState +:+ " -> " +:+
                       UpdateState_string (fs_updateState nextStep)) ;;
            err ← SaveUpdateState (fs_updateState nextStep);
            match err with
            | Some e => mret (false, Some e)
            | None => mret (true, None)
            end
        end
  end.

(** ** The flows *)

Definition hasComponent (updatingComponents : list Component) (componentType : ComponentType) : bool :=
  ContainsFunc updatingComponents (λ c, component_Type c == componentType).

Definition buildFlowTree (cm : ComponentManager E) (cms : ComponentManagerStatus) : go Heap flowTree :=
  let updatingComponents := cms_nowUpdating cms in
  head ← newSimpleStep UpdateStateNone;
  tree ← newFlowTree head;
  let updMaster := hasComponent updatingComponents MasterType in
  let updTablet := hasComponent updatingComponents TabletNodeType in
  let updDataNodes := hasComponent updatingComponents DataNodeType in
  let updScheduler := hasComponent updatingComponents SchedulerType in
  let updQueryTracker := hasComponent updatingComponents QueryTrackerType in
  let updYqlAgent := hasComponent updatingComponents YqlAgentType in
  let updQueueAgent := hasComponent updatingComponents QueueAgentType in
  let removeTabletCells := cms_removeTabletCellsOnUpdate cms in
  let masterHotUpdate := cms_masterHotUpdate cms in
  tree ← chainStates (match cm_getHeaterStatus cm with Some _ => true | None => false end)
    [UpdateStateWaitingForImageHeater] tree;
  tree ← chainFork ((updMaster || updTablet) && negb (cms_mastersMaintenance cms))
    UpdateStatePossibilityCheck UpdateStateImpossibleToStart tree;
  tree ← chainStates (updMaster && negb masterHotUpdate) [UpdateStateWaitingForSafeModeEnabled] tree;
  tree ← chainStates (updTablet && negb (cms_shutdownTablets cms) && removeTabletCells)
    [UpdateStateWaitingForTabletCellsSaving; UpdateStateWaitingForTabletCellsRemovingStart;
     UpdateStateWaitingForTabletCellsRemoved] tree;
  tree ← chainStates (updDataNodes || updMaster) [UpdateStateWaitingForImaginaryChunksAbsence] tree;
  tree ← chainStates (updMaster && negb masterHotUpdate) [UpdateStateWaitingForSnapshots] tree;
  tree ← chainStates true [UpdateStateWaitingForPodsRemoval] tree;
  tree ← chainStates updMaster [UpdateStateWaitingForMasterReady] tree;
  tree ← chainStates (updMaster && negb masterHotUpdate) [UpdateStateWaitingForMasterExitReadOnly] tree;
  tree ← chainStates true [UpdateStateWaitingForPodsCreation] tree;
  tree ← chainStates updMaster [UpdateStateWaitingForSidecarsInitialize] tree;
  tree ← chainStates true [UpdateStateWaitingForCypressPatch] tree;
  tree ← chainStates (updTablet && negb (cms_shutdownTablets cms) && removeTabletCells)
    [UpdateStateWaitingForTabletCellsRecovery] tree;
  tree ← chainStates (updScheduler && negb (cms_clusterMaintenance cms))
    [UpdateStateWaitingForOpArchiveUpdate] tree;
  tree ← chainStates (updQueryTracker && negb (cms_clusterMaintenance cms))
    [UpdateStateWaitingForQTStateUpdatingPrepare; UpdateStateWaitingForQTStateUpdate] tree;
  tree ← chainStates (updYqlAgent && negb (cms_clusterMaintenance cms))
    [UpdateStateWaitingForYqlaUpdate] tree;
  tree ← chainStates (updQueueAgent && negb (cms_clusterMaintenance cms))
    [UpdateStateWaitingForQAStateUpdatingPrepare; UpdateStateWaitingForQAStateUpdate] tree;
  tree ← chainStates (updMaster && negb masterHotUpdate) [UpdateStateWaitingForSafeModeDisabled] tree;
  chainStates true [UpdateStateWaitingForTimbertruckPrepared] tree.

Definition masterMaintenanceFlow (w : W) (cms : ComponentManagerStatus) : go Heap flowTree :=
  let updMaster := hasComponent (cms_nowUpdating cms) MasterType in
  let preparation := updMaster && IsUpdateStatusConditionTrue w ConditionMasterCellsPreparation in
  let registration := updMaster && IsUpdateStatusConditionTrue w ConditionMasterCellsRegistration in
  let completion := updMaster && IsUpdateStatusConditionTrue w ConditionMasterCellsCompletion in
  head ← newSimpleStep UpdateStateNone;
  tree ← newFlowTree head;
  tree ← chainStates preparation [UpdateStateWaitingForMasterCellsPreparation] tree;
  tree ← chainStates registration [UpdateStateWaitingForMasterCellsRegistration] tree;
  tree ← chainStates updMaster [UpdateStateWaitingForMasterCellsEnterReadOnly] tree;
  tree ← chainStates true [UpdateStateWaitingForPodsRemoval; UpdateStateWaitingForPodsCreation;
    UpdateStateWaitingForMasterReady] tree;
  tree ← chainStates updMaster [UpdateStateWaitingForMasterCellsExitReadOnly] tree;
  tree ← chainStates preparation [UpdateStateWaitingForMasterCellsAcception] tree;
  tree ← chainStates registration [UpdateStateWaitingForMasterCellsSettlement] tree;
  chainStates completion [UpdateStateWaitingForMasterCellsCompletion] tree.

End flow.

(** ** The flows as lists *)

Definition when {A} (b : bool) (l : list A) : list A := if b then l else [].

(** A flow is a list of sections, each with the condition under which it is part of it. *)
Definition sections : Type := list (bool * list UpdateState).

Definition select (secs : sections) : list UpdateState :=
  foldr (λ '(b, l) acc, when b l ++ acc) [] secs.

Section flow_lists.
Context {E : Type} {MC : MetaConditions}.

Definition flowSections (cm : ComponentManager E) (cms : ComponentManagerStatus) : sections :=
  let upd := hasComponent (cms_nowUpdating cms) in
  let cold := upd MasterType && negb (cms_masterHotUpdate cms) in
  let cells := upd TabletNodeType && negb (cms_shutdownTablets cms) && cms_removeTabletCellsOnUpdate cms in
  let up := negb (cms_clusterMaintenance cms) in
  [ (true, [UpdateStateNone]);
    (match cm_getHeaterStatus cm with Some _ => true | None => false end,
      [UpdateStateWaitingForImageHeater]);
    ((upd MasterType || upd TabletNodeType) && negb (cms_mastersMaintenance cms),
      [UpdateStatePossibilityCheck]);
    (cold, [UpdateStateWaitingForSafeModeEnabled]);
    (cells, [UpdateStateWaitingForTabletCellsSaving; UpdateStateWaitingForTabletCellsRemovingStart;
             UpdateStateWaitingForTabletCellsRemoved]);
    (upd DataNodeType || upd MasterType, [UpdateStateWaitingForImaginaryChunksAbsence]);
    (cold, [UpdateStateWaitingForSnapshots]);
    (true, [UpdateStateWaitingForPodsRemoval]);
    (upd MasterType, [UpdateStateWaitingForMasterReady]);
    (cold, [UpdateStateWaitingForMasterExitReadOnly]);
    (true, [UpdateStateWaitingForPodsCreation]);
    (upd MasterType, [UpdateStateWaitingForSidecarsInitialize]);
    (true, [UpdateStateWaitingForCypressPatch]);
    (cells, [UpdateStateWaitingForTabletCellsRecovery]);
    (upd SchedulerType && up, [UpdateStateWaitingForOpArchiveUpdate]);
    (upd QueryTrackerType && up,
      [UpdateStateWaitingForQTStateUpdatingPrepare; UpdateStateWaitingForQTStateUpdate]);
    (upd YqlAgentType && up, [UpdateStateWaitingForYqlaUpdate]);
    (upd QueueAgentType && up,
      [UpdateStateWaitingForQAStateUpdatingPrepare; UpdateStateWaitingForQAStateUpdate]);
    (cold, [UpdateStateWaitingForSafeModeDisabled]);
    (true, [UpdateStateWaitingForTimbertruckPrepared]) ].

Definition flowStates (cm : ComponentManager E) (cms : ComponentManagerStatus) : list UpdateState :=
  select (flowSections cm cms).

Definition masterFlowSections (w : World E) (cms : ComponentManagerStatus) : sections :=
  let master := hasComponent (cms_nowUpdating cms) MasterType in
  let phase c := master && IsUpdateStatusConditionTrue w c in
  [ (true, [UpdateStateNone]);
    (phase ConditionMasterCellsPreparation, [UpdateStateWaitingForMasterCellsPreparation]);
    (phase ConditionMasterCellsRegistration, [UpdateStateWaitingForMasterCellsRegistration]);
    (master, [UpdateStateWaitingForMasterCellsEnterReadOnly]);
    (true, [UpdateStateWaitingForPodsRemoval; UpdateStateWaitingForPodsCreation;
            UpdateStateWaitingForMasterReady]);
    (master, [UpdateStateWaitingForMasterCellsExitReadOnly]);
    (phase ConditionMasterCellsPreparation, [UpdateStateWaitingForMasterCellsAcception]);
    (phase ConditionMasterCellsRegistration, [UpdateStateWaitingForMasterCellsSettlement]);
    (phase ConditionMasterCellsCompletion, [UpdateStateWaitingForMasterCellsCompletion]) ].

Definition masterFlowStates (w : World E) (cms : ComponentManagerStatus) : list UpdateState :=
  select (masterFlowSections w cms).

End flow_lists.

(** The condition under which a state is selected. *)
Definition selected (secs : sections) (s : UpdateState) : bool :=
  existsb (λ '(b, l), existsb (λ x, x == s) l && b) secs.

Lemma elem_of_select secs s : s ∈ select secs ↔ selected secs s = true.
Proof.
  unfold select, selected. induction secs as [|[b l] secs IH]; cbn.
  - rewrite elem_of_nil. done.
  - rewrite elem_of_app, IH, orb_true_iff, andb_true_iff. apply or_iff_compat_r.
    rewrite existsb_exists. destruct b; cbn; [|rewrite elem_of_nil; naive_solver]. split.
    + intros Hin. split; [|done]. exists s. rewrite <- list_elem_of_In. split; [done|].
      by apply bool_decide_eq_true.
    + intros ((x & Hx & Heq) & _). apply bool_decide_eq_true in Heq as ->. by apply list_elem_of_In.
Qed.

Lemma when_sublist {A} b (l : list A) : when b l `sublist_of` l.
Proof. destruct b; cbn; [done|]. apply sublist_nil_l. Qed.

(** A selection keeps the order of the sections. *)
Lemma select_sublist secs : select secs `sublist_of` concat (snd <$> secs).
Proof.
  induction secs as [|[b l] secs IH]; cbn; [done|]. apply sublist_app; [apply when_sublist|done].
Qed.

(** ** The tree is the list

    [rep h f L ps q]: the steps of [L] are at the pointers [ps], each pointing to the next,
    indexed by their states; the possibility check, if present, forks to [q]. *)

Record rep (h : Heap) (f : flowTree) (L : list UpdateState) (ps : list nat) (q : nat) : Prop := {
  rep_length : length ps = length L;
  rep_step : ∀ i s p, L !! i = Some s → ps !! i = Some p →
    ft_index f s = Some p ∧
    h !! p = Some (mkFlowStep s (ps !! S i) (if s == UpdateStatePossibilityCheck then Some q else None));
  rep_fork : UpdateStatePossibilityCheck ∈ L →
    ft_index f UpdateStateImpossibleToStart = Some q ∧
    h !! q = Some (mkFlowStep UpdateStateImpossibleToStart None None);
  rep_index : ∀ s, ft_index f s ≠ None →
    s ∈ L ∨ (s = UpdateStateImpossibleToStart ∧ UpdateStatePossibilityCheck ∈ L);
  rep_tail : last ps = Some (ft_tail f);
  rep_nodup : NoDup L;
  rep_clean : UpdateStateImpossibleToStart ∉ L;
}.

Definition tree_of (h : Heap) (f : flowTree) (L : list UpdateState) : Prop := ∃ ps q, rep h f L ps q.

Lemma rep_extend h h' f L ps q : rep h f L ps q → rep (h ++ h') f L ps q.
Proof.
  intros [Hl Hs Hf Hi Ht Hn Hc]. split; try done.
  - intros i s p Hi' Hp. destruct (Hs i s p Hi' Hp) as [? ?]. split; [done|]. by apply lookup_app_l_Some.
  - intros Hin. destruct (Hf Hin). split; [done|]. by apply lookup_app_l_Some.
Qed.

Section rep_facts.
Context (h : Heap) (f : flowTree) (L : list UpdateState) (ps : list nat) (q : nat).
Context (Hrep : rep h f L ps q).

(** A pointer of the list holds a state of the list. *)
Lemma rep_pointer p : p ∈ ps → ∃ i s, L !! i = Some s ∧ ps !! i = Some p ∧
  h !! p = Some (mkFlowStep s (ps !! S i) (if s == UpdateStatePossibilityCheck then Some q else None)).
Proof.
  intros Hp. apply list_elem_of_lookup in Hp as [i Hi].
  destruct (lookup_lt_is_Some_2 L i) as [s Hs].
  { rewrite <- (rep_length _ _ _ _ _ Hrep). by eapply lookup_lt_Some. }
  exists i, s. split_and!; try done. by apply (rep_step _ _ _ _ _ Hrep i s p).
Qed.

Lemma rep_fresh p s a b : h !! p = Some (mkFlowStep s a b) → s ∉ L → p ∉ ps.
Proof.
  intros Hp Hs Hin. destruct (rep_pointer p Hin) as (i & s' & HL & _ & Hh).
  rewrite Hp in Hh. injection Hh as <- _ _. by apply Hs, list_elem_of_lookup_2 with i.
Qed.

Lemma rep_tail_elem : ft_tail f ∈ ps.
Proof. apply last_Some_elem_of. apply (rep_tail _ _ _ _ _ Hrep). Qed.

Lemma rep_tail_index i p : ps !! i = Some p → p = ft_tail f ↔ i = pred (length ps).
Proof.
  intros Hi. pose proof (rep_tail _ _ _ _ _ Hrep) as Ht. rewrite last_lookup in Ht. split; [|naive_solver].
  intros ->. destruct (lookup_lt_is_Some_2 L i) as [s Hs].
  { rewrite <- (rep_length _ _ _ _ _ Hrep). by eapply lookup_lt_Some. }
  destruct (lookup_lt_is_Some_2 L (pred (length ps))) as [s' Hs'].
  { rewrite <- (rep_length _ _ _ _ _ Hrep). by eapply lookup_lt_Some. }
  destruct (rep_step _ _ _ _ _ Hrep _ _ _ Hs Hi) as [_ H1].
  destruct (rep_step _ _ _ _ _ Hrep _ _ _ Hs' Ht) as [_ H2].
  rewrite H1 in H2. injection H2 as -> _ _. eapply NoDup_lookup; [apply (rep_nodup _ _ _ _ _ Hrep)|done..].
Qed.

End rep_facts.

Lemma tree_chain1_run f p h :
  tree_chain1 f p h =
    (mkFlowTree
       (match h !! p ≫= fs_unhappy with
        | Some u => index_set (index_set (ft_index f) (state_of h p) p) (state_of h u) u
        | None => index_set (ft_index f) (state_of h p) p
        end) (ft_head f) p,
     alter (λ st, mkFlowStep (fs_updateState st) (Some p) (fs_unhappy st)) (ft_tail f) h).
Proof. reflexivity. Qed.

(** Linking a fresh step [p] behind the tail. *)
Section link.
Context (h : Heap) (f : flowTree) (L : list UpdateState) (ps : list nat) (q : nat).
Context (Hrep : rep h f L ps q).
Context (p : nat) (s : UpdateState) (u : option nat).
Context (Hp : h !! p = Some (mkFlowStep s None u)) (Hs : s ∉ L) (Hsi : s ≠ UpdateStateImpossibleToStart).

Let h' := run (tree_chain1 f p) h.

(** Steps other than the tail are not touched. *)
Lemma link_other r : r ≠ ft_tail f → h' !! r = h !! r.
Proof. intros Hr. subst h'. unfold run. rewrite tree_chain1_run. cbn. by apply list_lookup_alter_ne. Qed.

Lemma link_new : h' !! p = Some (mkFlowStep s None u).
Proof.
  rewrite link_other; [done|]. intros ->.
  by apply (rep_fresh h f L ps q Hrep (ft_tail f) s None u Hp Hs), (rep_tail_elem h f L ps q Hrep).
Qed.

Lemma link_old i s' r :
  L !! i = Some s' → ps !! i = Some r →
  h' !! r = Some (mkFlowStep s' ((ps ++ [p]) !! S i)
    (if s' == UpdateStatePossibilityCheck then Some q else None)).
Proof.
  intros HL Hr. destruct (rep_step _ _ _ _ _ Hrep i s' r HL Hr) as [_ Hh].
  pose proof (rep_tail_index h f L ps q Hrep i r Hr) as Htail.
  pose proof (lookup_lt_Some _ _ _ Hr) as Hlt.
  destruct (decide (r = ft_tail f)) as [->|Hne].
  - pose proof (proj1 Htail eq_refl) as Hi. subst h'. unfold run. rewrite tree_chain1_run. cbn [snd].
    rewrite list_lookup_alter_eq, Hh. cbn. rewrite Hi, lookup_app_r by lia.
    by replace (S (pred (length ps)) - length ps)%nat with 0%nat by lia.
  - rewrite link_other by done. rewrite Hh. rewrite lookup_app_l; [done|].
    assert (i ≠ pred (length ps)) by (intros Hi; by apply Hne, Htail). lia.
Qed.

Lemma link_impossible r :
  h !! r = Some (mkFlowStep UpdateStateImpossibleToStart None None) →
  h' !! r = Some (mkFlowStep UpdateStateImpossibleToStart None None).
Proof.
  intros Hr. rewrite link_other; [done|]. intros ->.
  by apply (rep_fresh h f L ps q Hrep _ _ _ _ Hr (rep_clean _ _ _ _ _ Hrep)),
    (rep_tail_elem h f L ps q Hrep).
Qed.

Lemma state_of_p : state_of h p = s.
Proof. unfold state_of. by rewrite Hp. Qed.

Lemma tail_app : last (ps ++ [p]) = Some p.
Proof. by rewrite last_snoc. Qed.

(** A step without a fork. *)
Lemma link_simple :
  s ≠ UpdateStatePossibilityCheck → u = None →
  rep h' (val_of (tree_chain1 f p) h) (L ++ [s]) (ps ++ [p]) q.
Proof.
  intros Hpc Hu. pose proof (rep_length _ _ _ _ _ Hrep) as Hlen.
  assert (ft_index (val_of (tree_chain1 f p) h) = index_set (ft_index f) s p) as Hidx.
  { unfold val_of. rewrite tree_chain1_run. cbn. rewrite Hp, Hu. cbn. by rewrite state_of_p. }
  split.
  - rewrite !length_app. cbn. lia.
  - intros i s' r HL Hr. rewrite Hidx. unfold index_set.
    apply lookup_snoc_Some in HL as [[Hi HL]|[Hi <-]]; apply lookup_snoc_Some in Hr as [[Hi' Hr]|[Hi' <-]];
      try lia.
    + split; [|by apply link_old]. rewrite bool_decide_eq_false_2.
      * by apply (rep_step _ _ _ _ _ Hrep i).
      * intros ->. by apply Hs, list_elem_of_lookup_2 with i.
    + rewrite bool_decide_eq_true_2 by done. split; [done|]. rewrite link_new, Hu, Hi'.
      rewrite bool_decide_eq_false_2 by done. f_equal. f_equal.
      symmetry. apply lookup_ge_None_2. rewrite length_app. cbn. lia.
  - rewrite elem_of_app, list_elem_of_singleton. intros [Hin|]; [|congruence].
    destruct (rep_fork _ _ _ _ _ Hrep Hin) as [H1 H2]. split; [|by apply link_impossible].
    rewrite Hidx. unfold index_set. by rewrite bool_decide_eq_false_2.
  - intros s'. rewrite Hidx. unfold index_set. rewrite !elem_of_app, list_elem_of_singleton.
    destruct (bool_decide_reflect (s' = s)) as [->|Hne]; [by left; right|].
    intros H. destruct (rep_index _ _ _ _ _ Hrep s' H) as [|[]]; tauto.
  - by rewrite tail_app.
  - apply NoDup_app. split_and!; [apply (rep_nodup _ _ _ _ _ Hrep)| |apply NoDup_singleton].
    intros x Hx Hx'. apply list_elem_of_singleton in Hx' as ->. done.
  - rewrite elem_of_app, list_elem_of_singleton. intros [H|H]; [by apply (rep_clean _ _ _ _ _ Hrep)|congruence].
Qed.

(** The possibility check, forking to the step [r]. *)
Lemma link_fork r :
  s = UpdateStatePossibilityCheck → u = Some r →
  h !! r = Some (mkFlowStep UpdateStateImpossibleToStart None None) →
  rep h' (val_of (tree_chain1 f p) h) (L ++ [s]) (ps ++ [p]) r.
Proof.
  intros Hpc Hu Hr. pose proof (rep_length _ _ _ _ _ Hrep) as Hlen.
  assert (ft_index (val_of (tree_chain1 f p) h) =
    index_set (index_set (ft_index f) s p) UpdateStateImpossibleToStart r) as Hidx.
  { unfold val_of. rewrite tree_chain1_run. cbn. rewrite Hp, Hu. cbn. rewrite state_of_p.
    unfold state_of. by rewrite Hr. }
  split.
  - rewrite !length_app. cbn. lia.
  - intros i s' x HL Hx. rewrite Hidx. unfold index_set.
    apply lookup_snoc_Some in HL as [[Hi HL]|[Hi <-]]; apply lookup_snoc_Some in Hx as [[Hi' Hx]|[Hi' <-]];
      try lia.
    + assert (s' ∈ L) as Hin by by apply list_elem_of_lookup_2 with i.
      assert (s' ≠ s) as Hne by by intros ->.
      assert (s' ≠ UpdateStateImpossibleToStart) by (intros ->; by apply (rep_clean _ _ _ _ _ Hrep)).
      rewrite !bool_decide_eq_false_2 by done. rewrite (link_old i s' x HL Hx).
      rewrite bool_decide_eq_false_2 by congruence. split; [|done].
      by apply (rep_step _ _ _ _ _ Hrep i).
    + rewrite bool_decide_eq_false_2 by done. rewrite (bool_decide_eq_true_2 (s = s)) by done.
      rewrite (bool_decide_eq_true_2 _ Hpc). split; [done|]. rewrite link_new, Hu, Hi'. f_equal. f_equal.
      symmetry. apply lookup_ge_None_2. rewrite length_app. cbn. lia.
  - intros _. rewrite Hidx. unfold index_set. rewrite bool_decide_eq_true_2 by done.
    split; [done|by apply link_impossible].
  - intros s'. rewrite Hidx. unfold index_set. rewrite !elem_of_app, !list_elem_of_singleton.
    destruct (bool_decide_reflect (s' = UpdateStateImpossibleToStart)) as [->|Hne1]; [by right; auto|].
    destruct (bool_decide_reflect (s' = s)) as [->|Hne]; [by left; right|].
    intros H. destruct (rep_index _ _ _ _ _ Hrep s' H) as [|[]]; tauto.
  - by rewrite tail_app.
  - apply NoDup_app. split_and!; [apply (rep_nodup _ _ _ _ _ Hrep)| |apply NoDup_singleton].
    intros x Hx Hx'. apply list_elem_of_singleton in Hx' as ->. done.
  - rewrite elem_of_app, list_elem_of_singleton. intros [H|H]; [by apply (rep_clean _ _ _ _ _ Hrep)|congruence].
Qed.

End link.

(** Linking several fresh steps. *)
Lemma tree_chain_rep steps S h f L ps q :
  rep h f L ps q →
  Forall2 (λ p s, h !! p = Some (mkFlowStep s None None)) steps S →
  NoDup (L ++ S) → UpdateStatePossibilityCheck ∉ S → UpdateStateImpossibleToStart ∉ S →
  tree_of (run (tree_chain f steps) h) (val_of (tree_chain f steps) h) (L ++ S).
Proof.
  intros Hrep Hsteps. revert h f L ps Hrep Hsteps.
  induction steps as [|p steps IH] in S |- *; intros h f L ps Hrep Hsteps Hnd Hpc Him;
    inversion Hsteps as [|? s ? S' Hp Hrest]; subst.
  { rewrite app_nil_r. by exists ps, q. }
  cbn [tree_chain]. rewrite run_bind, val_bind.
  apply not_elem_of_cons in Hpc as [Hpc Hpc']. apply not_elem_of_cons in Him as [Him Him'].
  assert (s ∉ L) as Hs.
  { intros Hin. apply NoDup_app in Hnd as (_ & Hd & _). by apply (Hd s Hin); left. }
  replace (L ++ s :: S') with ((L ++ [s]) ++ S') in Hnd |- * by by rewrite <- app_assoc.
  apply (IH S' _ _ (L ++ [s]) (ps ++ [p])); try done.
  - by apply (link_simple h f L ps q Hrep p s None Hp).
  - apply Forall2_same_length_lookup. apply Forall2_same_length_lookup in Hrest as [Hl Hlk].
    split; [done|]. intros i r x Hr Hx. rewrite (link_other h f); [by apply (Hlk i)|]. intros ->.
    pose proof (Hlk i _ x Hr Hx) as Hh.
    assert (x ∉ L) as HxL.
    { intros Hin. rewrite <- app_assoc in Hnd. apply NoDup_app in Hnd as (_ & Hd & _).
      apply (Hd x Hin). rewrite elem_of_app. right. by apply list_elem_of_lookup_2 with i. }
    by apply (rep_fresh h f L ps q Hrep _ _ _ _ Hh HxL), (rep_tail_elem h f L ps q Hrep).
Qed.

Lemma mapM_newSimpleStep S h :
  mapM newSimpleStep S h = (seq (length h) (length S), h ++ ((λ s, mkFlowStep s None None) <$> S)).
Proof.
  revert h. induction S as [|s S IH]; intros h; [by rewrite app_nil_r|].
  cbn [mapM length seq fmap list_fmap]. rewrite go_bind_run. cbn. rewrite go_bind_run.
  unfold val_of, run. cbn. rewrite IH. cbn. rewrite length_app. cbn.
  rewrite Nat.add_1_r, <- app_assoc. done.
Qed.

(** [grows m L L']: applied to a tree of [L], [m] leaves a tree of [L']. *)
Definition grows (m : flowTree → go Heap flowTree) (L L' : list UpdateState) : Prop :=
  ∀ h f, tree_of h f L → tree_of (run (m f) h) (val_of (m f) h) L'.

Lemma chainStates_grows cond S L :
  NoDup (L ++ S) → UpdateStatePossibilityCheck ∉ S → UpdateStateImpossibleToStart ∉ S →
  grows (chainStates cond S) L (L ++ when cond S).
Proof.
  intros Hnd Hpc Him h f (ps & q & Hrep). unfold chainStates, tree_chainIf.
  rewrite run_bind, val_bind.
  replace (val_of (mapM newSimpleStep S) h) with (seq (length h) (length S))
    by (unfold val_of; by rewrite mapM_newSimpleStep).
  replace (run (mapM newSimpleStep S) h) with (h ++ ((λ s, mkFlowStep s None None) <$> S))
    by (unfold run; by rewrite mapM_newSimpleStep).
  set (h' := h ++ _). assert (rep h' f L ps q) as Hrep' by by apply rep_extend.
  destruct cond; cbn [when].
  - apply tree_chain_rep with ps q; try done. apply Forall2_same_length_lookup.
    rewrite length_seq. split; [done|]. intros i p s Hi Hs. apply lookup_seq in Hi as [-> Hlt].
    subst h'. rewrite lookup_app_r by lia. replace (length h + i - length h)%nat with i by lia.
    by rewrite list_lookup_fmap, Hs.
  - rewrite app_nil_r. by exists ps, q.
Qed.

Lemma chainFork_grows cond L :
  NoDup (L ++ [UpdateStatePossibilityCheck]) →
  grows (chainFork cond UpdateStatePossibilityCheck UpdateStateImpossibleToStart) L
    (L ++ when cond [UpdateStatePossibilityCheck]).
Proof.
  intros Hnd h f (ps & q & Hrep). unfold chainFork, tree_chainIf. rewrite !run_bind, !val_bind.
  change (val_of (newConditionalForkStep ?s ?u) ?h0) with (length h0).
  change (run (newConditionalForkStep ?s ?u) ?h0) with (h0 ++ [mkFlowStep s None (Some u)]).
  change (val_of (newSimpleStep _) h) with (length h).
  change (run (newSimpleStep ?s) h) with (h ++ [mkFlowStep s None None]).
  set (st := mkFlowStep UpdateStateImpossibleToStart None None). set (h1 := h ++ [st]).
  set (fork := mkFlowStep UpdateStatePossibilityCheck None (Some (length h))). set (h2 := h1 ++ [fork]).
  assert (rep h2 f L ps q) as Hrep' by by apply rep_extend, rep_extend.
  destruct cond; cbn [when]; [|rewrite app_nil_r; by exists ps, q].
  cbn [tree_chain]. rewrite run_bind, val_bind, run_ret, val_ret.
  exists (ps ++ [length h1]), (length h).
  apply (link_fork h2 f L ps q Hrep' (length h1) UpdateStatePossibilityCheck (Some (length h))); try done.
  - subst h2. rewrite lookup_app_r by done. by rewrite Nat.sub_diag.
  - intros Hin. apply NoDup_app in Hnd as (_ & Hd & _). by apply (Hd _ Hin); left.
  - subst h2. rewrite lookup_app_l by (subst h1; rewrite length_app; cbn; lia).
    subst h1. rewrite lookup_app_r by done. by rewrite Nat.sub_diag.
Qed.

Lemma grows_bind (m k : flowTree → go Heap flowTree) L L1 L2 :
  grows m L L1 → grows k L1 L2 → grows (λ f, f' ← m f; k f') L L2.
Proof. intros Hm Hk h f Hf. rewrite run_bind, val_bind. by apply Hk, Hm. Qed.

Lemma new_tree_of :
  tree_of (run (head ← newSimpleStep UpdateStateNone; newFlowTree head) [])
    (val_of (head ← newSimpleStep UpdateStateNone; newFlowTree head) []) [UpdateStateNone].
Proof.
  exists [0%nat], 0%nat. split; try done.
  - by intros [|i] s p; cbn; intros; simplify_eq.
  - intros H. by apply list_elem_of_singleton in H.
  - intros s. change (ft_index _ s) with (if s == UpdateStateNone then Some 0%nat else None).
    destruct (bool_decide_reflect (s = UpdateStateNone)) as [->|]; [|by intros []]. by left; left.
  - apply NoDup_singleton.
  - intros H. by apply list_elem_of_singleton in H.
Qed.

(** Side conditions of the growth lemmas: the flow is a selection of a duplicate-free list. *)
Ltac flow_nodup :=
  eapply sublist_NoDup;
  [|repeat first [apply sublist_app | apply when_sublist | reflexivity]];
  apply (bool_decide_unpack _); vm_compute; exact I.

Ltac flow_grow :=
  repeat lazymatch goal with
  | |- grows (chainStates _ _) _ _ =>
      apply chainStates_grows; [flow_nodup|apply (bool_decide_unpack _); vm_compute; exact I..]
  | |- grows (chainFork _ _ _) _ _ => apply chainFork_grows; flow_nodup
  | |- grows (λ f, chainStates ?c ?l f ≫= _) _ _ => eapply (grows_bind (chainStates c l))
  | |- grows (λ f, chainFork ?c ?s ?u f ≫= _) _ _ => eapply (grows_bind (chainFork c s u))
  end.

Section refinement.
Context {E : Type} {MC : MetaConditions} {ML : MetaConditionsLaws MC} {SC : StatusClient E}.

Abbreviation W := (World E).

Lemma build_from (k : flowTree → go Heap flowTree) L :
  grows k [UpdateStateNone] L →
  tree_of (run (head ← newSimpleStep UpdateStateNone; f ← newFlowTree head; k f) [])
    (val_of (head ← newSimpleStep UpdateStateNone; f ← newFlowTree head; k f) []) L.
Proof. intros H. apply (H _ _ new_tree_of). Qed.

Lemma buildFlowTree_tree_of (cm : ComponentManager E) cms :
  tree_of (run (buildFlowTree cm cms) []) (val_of (buildFlowTree cm cms) []) (flowStates cm cms).
Proof.
  unfold buildFlowTree. eapply eq_ind; [apply build_from; flow_grow|].
  rewrite <- !app_assoc, <- (app_nil_r [UpdateStateWaitingForTimbertruckPrepared]). reflexivity.
Qed.

Lemma masterMaintenanceFlow_tree_of (w : W) cms :
  tree_of (run (masterMaintenanceFlow w cms) []) (val_of (masterMaintenanceFlow w cms) [])
    (masterFlowStates w cms).
Proof.
  unfold masterMaintenanceFlow. eapply eq_ind; [apply build_from; flow_grow|].
  unfold masterFlowStates, masterFlowSections, select. cbn [foldr]. rewrite app_nil_r.
  rewrite <- !app_assoc. reflexivity.
Qed.

(** ** Execution on the list *)

(** The state after [s]. *)
Fixpoint successor (L : list UpdateState) (s : UpdateState) : option UpdateState :=
  match L with
  | [] => None
  | a :: rest => if a == s then head rest else successor rest s
  end.

Definition in_flow (L : list UpdateState) (s : UpdateState) : bool :=
  bool_decide (s ∈ L) ||
  ((s == UpdateStateImpossibleToStart) && bool_decide (UpdateStatePossibilityCheck ∈ L)).

Definition flow_next (L : list UpdateState) (s : UpdateState) (mark : stepResultMark) : option UpdateState :=
  match mark with
  | stepResultMarkUnsatisfied => None
  | stepResultMarkHappy => if s == UpdateStateImpossibleToStart then None else successor L s
  | stepResultMarkUnhappy =>
      if s == UpdateStatePossibilityCheck then Some UpdateStateImpossibleToStart else None
  end.

(** One pass over a flow given as a list. *)
Definition execute_list (L : list UpdateState) (cm : ComponentManager E) (cms : ComponentManagerStatus)
    : go W (bool * option error) :=
  s ← gets GetUpdateState;
  if negb (in_flow L s) then
    mret (false, Some ("unexpected update state: " +:+ fmt_q (UpdateState_string s)))
  else
    mark ← gets (λ w, checkCondition s w cm cms);
    if mark == stepResultMarkUnsatisfied then
      LogUpdate ("Update flow: condition not met for " +:+ UpdateState_string s) ;; mret (false, None)
    else
      err ← match flow_next L s mark with
            | None =>
                LogUpdate ("Update flow finishing with cluster state: " +:+
                           ClusterState_string (terminateTransition s)) ;;
                SaveClusterState (terminateTransition s)
            | Some s' =>
                LogUpdate ("Update flow advance " +:+ UpdateState_string s +:+ " -> " +:+
                           UpdateState_string s') ;;
                SaveUpdateState s'
            end;
      mret (match err with Some e => (false, Some e) | None => (true, None) end).

Lemma successor_lookup L i s : NoDup L → L !! i = Some s → successor L s = L !! S i.
Proof.
  revert i. induction L as [|a L IH]; intros [|i] Hn Hi; try done; apply NoDup_cons in Hn as [Ha Hn].
  - injection Hi as ->. cbn. rewrite bool_decide_eq_true_2 by done. by destruct L.
  - cbn in Hi |- *. rewrite bool_decide_eq_false_2; [by apply IH|].
    intros ->. by apply Ha, list_elem_of_lookup_2 with i.
Qed.

(** What the tree holds for a state of the flow. *)
Lemma tree_lookup h f L s :
  tree_of h f L →
  match deref_step h (ft_index f s) with
  | None => in_flow L s = false
  | Some st =>
      in_flow L s = true ∧ fs_updateState st = s ∧
      ∀ mark, fs_updateState <$> deref_step h (step_next st mark) = flow_next L s mark
  end.
Proof.
  intros (ps & q & Hrep). unfold deref_step, in_flow.
  destruct (ft_index f s) as [p|] eqn:Hidx.
  - destruct (rep_index _ _ _ _ _ Hrep s) as [Hin|[-> Hpc]]; [by rewrite Hidx| |].
    + apply list_elem_of_lookup in Hin as [i Hi].
      destruct (lookup_lt_is_Some_2 ps i) as [p' Hp].
      { rewrite (rep_length _ _ _ _ _ Hrep). by eapply lookup_lt_Some. }
      destruct (rep_step _ _ _ _ _ Hrep i s p' Hi Hp) as [Hidx' Hh].
      rewrite Hidx in Hidx'. injection Hidx' as <-. cbn. rewrite Hh. cbn.
      rewrite (bool_decide_eq_true_2 (s ∈ L)) by by apply list_elem_of_lookup_2 with i.
      split_and!; [done..|]. intros mark. destruct mark; cbn; [done| |].
      * rewrite bool_decide_eq_false_2
          by (intros ->; by apply (rep_clean _ _ _ _ _ Hrep), list_elem_of_lookup_2 with i).
        rewrite (successor_lookup L i s (rep_nodup _ _ _ _ _ Hrep) Hi).
        destruct (ps !! S i) as [p''|] eqn:Hp''; cbn.
        -- destruct (lookup_lt_is_Some_2 L (S i)) as [s'' Hs''].
           { rewrite <- (rep_length _ _ _ _ _ Hrep). by eapply lookup_lt_Some. }
           destruct (rep_step _ _ _ _ _ Hrep (S i) s'' p'' Hs'' Hp'') as [_ ->]. by rewrite Hs''.
        -- symmetry. apply lookup_ge_None. rewrite <- (rep_length _ _ _ _ _ Hrep). by apply lookup_ge_None.
      * destruct (bool_decide_reflect (s = UpdateStatePossibilityCheck)) as [->|]; [|done].
        destruct (rep_fork _ _ _ _ _ Hrep) as [_ Hq]; [by apply list_elem_of_lookup_2 with i|].
        cbn. by rewrite Hq.
    + destruct (rep_fork _ _ _ _ _ Hrep Hpc) as [Hq1 Hq2]. rewrite Hidx in Hq1. injection Hq1 as ->.
      cbn. rewrite Hq2. rewrite (bool_decide_eq_true_2 _ Hpc), orb_true_r. split_and!; [done..|].
      by intros [].
  - cbn. apply orb_false_iff. rewrite bool_decide_eq_false. split.
    + intros Hin. apply list_elem_of_lookup in Hin as [i Hi].
      destruct (lookup_lt_is_Some_2 ps i) as [p' Hp].
      { rewrite (rep_length _ _ _ _ _ Hrep). by eapply lookup_lt_Some. }
      destruct (rep_step _ _ _ _ _ Hrep i s p' Hi Hp). congruence.
    + destruct (bool_decide_reflect (s = UpdateStateImpossibleToStart)) as [->|]; [|done].
      rewrite bool_decide_eq_false_2; [done|]. intros Hpc.
      destruct (rep_fork _ _ _ _ _ Hrep Hpc). congruence.
Qed.

Lemma execute_refines h f L cm cms w :
  tree_of h f L → execute f h cm cms w = execute_list L cm cms w.
Proof.
  intros Ht. unfold execute, execute_list. rewrite !go_bind_run, val_gets, run_gets.
  pose proof (tree_lookup h f L (GetUpdateState w) Ht) as Hl.
  destruct (deref_step h (ft_index f (GetUpdateState w))) as [st|]; [|by rewrite Hl].
  destruct Hl as (-> & Hst & Hnext). cbn [negb]. rewrite !go_bind_run, !val_gets, !run_gets, Hst.
  set (mark := checkCondition _ w cm cms). destruct (mark == stepResultMarkUnsatisfied); [done|].
  rewrite <- (Hnext mark). rewrite !go_bind_run.
  destruct (deref_step h (step_next st mark)) as [next|]; cbn [fmap option_fmap option_map];
    rewrite !go_bind_run, ?run_bind, ?val_bind; by destruct (val_of _ _).
Qed.

(** C11.  The graph of update steps behaves as the plain list of its states: whatever the
    cluster looks like, a pass over the flow built by [buildFlowTree] (mutable steps, index
    and fork included) does exactly what a pass over [flowStates] does; the same holds for
    the master-cells flow. *)
Theorem flow_trees_refine_lists cm cms (w0 w : W) :
  execute (val_of (buildFlowTree cm cms) []) (run (buildFlowTree cm cms) []) cm cms w =
    execute_list (flowStates cm cms) cm cms w ∧
  execute (val_of (masterMaintenanceFlow w0 cms) []) (run (masterMaintenanceFlow w0 cms) []) cm cms w =
    execute_list (masterFlowStates w0 cms) cm cms w.
Proof.
  split; apply execute_refines; [apply buildFlowTree_tree_of|apply masterMaintenanceFlow_tree_of].
Qed.

(** *** The order of an update *)

(** Every step a cluster update can have, in the only order it can have them. *)
Definition update_order : list UpdateState :=
  [UpdateStateNone; UpdateStateWaitingForImageHeater; UpdateStatePossibilityCheck;
   UpdateStateWaitingForSafeModeEnabled; UpdateStateWaitingForTabletCellsSaving;
   UpdateStateWaitingForTabletCellsRemovingStart; UpdateStateWaitingForTabletCellsRemoved;
   UpdateStateWaitingForImaginaryChunksAbsence; UpdateStateWaitingForSnapshots;
   UpdateStateWaitingForPodsRemoval; UpdateStateWaitingForMasterReady;
   UpdateStateWaitingForMasterExitReadOnly; UpdateStateWaitingForPodsCreation;
   UpdateStateWaitingForSidecarsInitialize; UpdateStateWaitingForCypressPatch;
   UpdateStateWaitingForTabletCellsRecovery; UpdateStateWaitingForOpArchiveUpdate;
   UpdateStateWaitingForQTStateUpdatingPrepare; UpdateStateWaitingForQTStateUpdate;
   UpdateStateWaitingForYqlaUpdate; UpdateStateWaitingForQAStateUpdatingPrepare;
   UpdateStateWaitingForQAStateUpdate; UpdateStateWaitingForSafeModeDisabled;
   UpdateStateWaitingForTimbertruckPrepared].

Definition cold_master (cms : ComponentManagerStatus) : bool :=
  hasComponent (cms_nowUpdating cms) MasterType && negb (cms_masterHotUpdate cms).
Definition moves_tablet_cells (cms : ComponentManagerStatus) : bool :=
  hasComponent (cms_nowUpdating cms) TabletNodeType && negb (cms_shutdownTablets cms) &&
  cms_removeTabletCellsOnUpdate cms.

(** An update takes its precautions, in order, and undoes them.  The steps of any
    update are a selection of [update_order] that starts with None and always removes pods,
    creates pods and applies the Cypress patch.  Masters that are not hot-updated go
    through safe mode, snapshots, removal, exit from read-only and leaving safe mode;
    safe mode is enabled iff it is later disabled, snapshots are built iff masters later
    leave read-only mode, and tablet cells are saved iff they are removed iff they are
    recovered. *)
Theorem flowStates_safe (cm : ComponentManager E) cms :
  let L := flowStates cm cms in
  L `sublist_of` update_order ∧ head L = Some UpdateStateNone ∧
  UpdateStateWaitingForPodsRemoval ∈ L ∧ UpdateStateWaitingForPodsCreation ∈ L ∧
  UpdateStateWaitingForCypressPatch ∈ L ∧
  (UpdateStateWaitingForSafeModeEnabled ∈ L ↔ cold_master cms = true) ∧
  (UpdateStateWaitingForSafeModeDisabled ∈ L ↔ cold_master cms = true) ∧
  (UpdateStateWaitingForSnapshots ∈ L ↔ cold_master cms = true) ∧
  (UpdateStateWaitingForMasterExitReadOnly ∈ L ↔ cold_master cms = true) ∧
  (UpdateStateWaitingForTabletCellsSaving ∈ L ↔ moves_tablet_cells cms = true) ∧
  (UpdateStateWaitingForTabletCellsRemoved ∈ L ↔ moves_tablet_cells cms = true) ∧
  (UpdateStateWaitingForTabletCellsRecovery ∈ L ↔ moves_tablet_cells cms = true).
Proof.
  cbv zeta. split; [apply select_sublist|]. split; [done|].
  unfold flowStates. rewrite !elem_of_select. unfold selected, flowSections, cold_master, moves_tablet_cells. cbv zeta.
  generalize (hasComponent (cms_nowUpdating cms)). intros upd.
  generalize (upd MasterType && negb (cms_masterHotUpdate cms)).
  generalize (upd TabletNodeType && negb (cms_shutdownTablets cms) && cms_removeTabletCellsOnUpdate cms).
  intros cells cold. vm_compute. by destruct cells, cold.
Qed.

(** No step of an update is a dead end: every state of both flows, and the state an
    impossible update is parked in, has a condition that is checked. *)
Theorem flow_states_have_conditions (cm : ComponentManager E) cms (w : W) s :
  s ∈ UpdateStateImpossibleToStart :: flowStates cm cms ++ masterFlowStates w cms →
  flowConditions (E:=E) s ≠ None.
Proof.
  rewrite elem_of_cons, elem_of_app. intros [->|[H|H]]; [done| |].
  - by destruct s; try done; apply elem_of_select in H.
  - by destruct s; try done; apply elem_of_select in H.
Qed.

(** *** Outcomes of a pass *)

Lemma SetClusterState_core_parts st (w : W) :
  let w' := run (SetClusterState st) w in
  yts_Spec (w_yts w') = yts_Spec (w_yts w) ∧ GetClusterState w' = st ∧
  w_update_status w' = w_update_status w.
Proof.
  cbv zeta. unfold run, SetClusterState.
  by destruct (bool_decide_reflect (GetClusterState w = st)).
Qed.

Lemma SaveClusterState_spec st (w : W) :
  let w' := run (SaveClusterState st) w in
  GetClusterState w' = st ∧ GetUpdateState w' = GetUpdateState w ∧
  GetUpdatingComponents w' = GetUpdatingComponents w ∧ yts_Spec (w_yts w') = yts_Spec (w_yts w).
Proof.
  cbv zeta. unfold SaveClusterState. rewrite run_bind.
  destruct (SetClusterState_core_parts st w) as (Hs & Hc & Hu).
  pose proof (UpdateStatus_core (run (SetClusterState st) w)) as Hcore.
  unfold w_core in Hcore. injection Hcore as _ _ Hspec Hst Hus Hup.
  split_and!; etrans; try eassumption; unfold GetUpdateState, GetUpdatingComponents; by rewrite Hu.
Qed.

Lemma SaveUpdateState_spec st (w : W) :
  let w' := run (SaveUpdateState st) w in
  GetClusterState w' = GetClusterState w ∧ GetUpdateState w' = st ∧
  GetUpdatingComponents w' = GetUpdatingComponents w ∧ yts_Spec (w_yts w') = yts_Spec (w_yts w).
Proof.
  cbv zeta. unfold SaveUpdateState. rewrite run_bind.
  pose proof (UpdateStatus_core (run (SetUpdateState st) w)) as Hcore.
  unfold w_core in Hcore. injection Hcore as _ _ Hspec Hst Hus Hup. by split_and!.
Qed.

(** The states a pass may leave the cluster in. *)
Lemma execute_list_outcomes L cm cms (w : W) :
  let s := GetUpdateState w in
  let '((progressed, err), w') := execute_list L cm cms w in
  if negb (in_flow L s) then progressed = false ∧ err ≠ None ∧ w' = w
  else
    (err = None → progressed = negb (checkCondition s w cm cms == stepResultMarkUnsatisfied)) ∧
    GetUpdatingComponents w' = GetUpdatingComponents w ∧
    yts_Spec (w_yts w') = yts_Spec (w_yts w) ∧
    if checkCondition s w cm cms == stepResultMarkUnsatisfied
    then progressed = false ∧ err = None ∧ w_yts w' = w_yts w
    else match flow_next L s (checkCondition s w cm cms) with
         | Some s' => GetUpdateState w' = s' ∧ GetClusterState w' = GetClusterState w
         | None => GetUpdateState w' = s ∧ GetClusterState w' = terminateTransition s
         end.
Proof.
  cbv zeta. rewrite (go_eta (execute_list L cm cms)). unfold execute_list. go_step.
  destruct (in_flow L (GetUpdateState w)); cbn [negb]; [|by go_step]. go_step.
  set (mark := checkCondition (GetUpdateState w) w cm cms).
  destruct (mark == stepResultMarkUnsatisfied); [by go_step|]. go_step.
  destruct (flow_next L (GetUpdateState w) mark) as [s'|]; go_step.
  - destruct (SaveUpdateState_spec s' (run (LogUpdate ("Update flow advance " +:+
      UpdateState_string (GetUpdateState w) +:+ " -> " +:+ UpdateState_string s')) w)) as (? & ? & ? & ?).
    destruct (val_of (SaveUpdateState s') _); go_step; by split_and!.
  - destruct (SaveClusterState_spec (terminateTransition (GetUpdateState w))
      (run (LogUpdate ("Update flow finishing with cluster state: " +:+
        ClusterState_string (terminateTransition (GetUpdateState w)))) w)) as (? & ? & ? & ?).
    destruct (val_of (SaveClusterState _) _); go_step; by split_and!.
Qed.

(** *** Termination *)

(** A pass of an updating cluster whose step is satisfied and whose status is saved; before
    it, the components may have changed anything but the core of the resource. *)
Definition happy_pass (cm : ComponentManager E) (L : list UpdateState) (w w' : W) : Prop :=
  ∃ w1 cms,
    GetClusterState w = ClusterStateUpdating ∧ w_core w1 = w_core w ∧ flowStates cm cms = L ∧
    checkCondition (GetUpdateState w1) w1 cm cms = stepResultMarkHappy ∧
    let m := execute (val_of (buildFlowTree cm cms) []) (run (buildFlowTree cm cms) []) cm cms in
    (val_of m w1).2 = None ∧ w' = run m w1.

Lemma happy_pass_step cm L w w' i s :
  happy_pass cm L w w' → NoDup L → UpdateStateImpossibleToStart ∉ L →
  L !! i = Some s → GetUpdateState w = s →
  match L !! S i with
  | Some s' => GetUpdateState w' = s' ∧ GetClusterState w' = ClusterStateUpdating
  | None => GetClusterState w' = ClusterStateUpdateFinished
  end.
Proof.
  intros (w1 & cms & Hupd & Hcore & HL & Hmark & Herr & ->) Hn Him Hi Hs.
  unfold w_core in Hcore. injection Hcore as _ _ _ Hst Hus _. rewrite Hs in Hus.
  pose proof (execute_refines _ _ _ cm cms w1 (buildFlowTree_tree_of cm cms)) as Href. rewrite HL in Href.
  rewrite (go_eta (execute _ _ _ _)) in Href.
  pose proof (execute_list_outcomes L cm cms w1) as Hout. cbv zeta in Hout. rewrite <- Href in Hout.
  destruct (val_of (execute _ _ _ _) w1) as [progressed err]. cbn in Herr. subst err.
  rewrite Hus in Hout, Hmark. rewrite Hmark in Hout.
  assert (in_flow L s = true) as Hin.
  { unfold in_flow. by rewrite bool_decide_eq_true_2 by by apply list_elem_of_lookup_2 with i. }
  rewrite Hin in Hout. cbn [negb] in Hout. destruct Hout as (_ & _ & _ & Hout).
  assert (s ≠ UpdateStateImpossibleToStart) as Hne by (intros ->; by apply Him, list_elem_of_lookup_2 with i).
  cbn in Hout. rewrite (bool_decide_eq_false_2 _ Hne), (successor_lookup L i s Hn Hi) in Hout.
  destruct (L !! S i) as [s'|].
  - destruct Hout as [-> ->]. split; [done|]. congruence.
  - destruct Hout as [_ ->]. by destruct s.
Qed.

Lemma flowStates_NoDup (cm : ComponentManager E) cms :
  NoDup (flowStates cm cms) ∧ UpdateStateImpossibleToStart ∉ flowStates cm cms.
Proof.
  split.
  - eapply sublist_NoDup; [|apply select_sublist]. apply (bool_decide_unpack _). vm_compute. exact I.
  - unfold flowStates. rewrite elem_of_select. unfold selected, flowSections. done.
Qed.

(** C10.  An update terminates after exactly as many satisfied passes as its flow has steps,
    visiting them in order: after [n] such passes from the initial state, the cluster is in
    step [n] of the flow and still updating while [n] is less than the number of steps, and
    the update is finished when [n] reaches it (and cannot exceed it). *)
Theorem update_flow_terminates cm cms n (w w' : W) :
  let L := flowStates cm cms in
  GetClusterState w = ClusterStateUpdating → GetUpdateState w = UpdateStateNone →
  nsteps (happy_pass cm L) n w w' →
  n ≤ length L ∧
  (n < length L → L !! n = Some (GetUpdateState w') ∧ GetClusterState w' = ClusterStateUpdating) ∧
  (n = length L → GetClusterState w' = ClusterStateUpdateFinished).
Proof.
  cbv zeta. intros Hcl Hst Hsteps. destruct (flowStates_NoDup cm cms) as [Hn Him].
  set (L := flowStates cm cms) in *.
  assert (L !! 0 = Some UpdateStateNone ∧ 0 < length L) as [H0 Hlen] by (split; [done|cbn; lia]).
  revert w' Hsteps. induction n as [|n IH]; intros w' Hsteps.
  { inversion Hsteps; subst. split_and!; [lia| |lia]. intros _. by rewrite Hst. }
  apply nsteps_inv_r in Hsteps as (w1 & Hsteps & Hpass). destruct (IH w1 Hsteps) as (Hle & Hlt & Hfin).
  assert (n < length L) as Hnlt.
  { destruct (decide (n = length L)) as [Heq|]; [|lia]. specialize (Hfin Heq).
    destruct Hpass as (? & ? & Hup & _). congruence. }
  destruct (Hlt Hnlt) as [HLn _].
  pose proof (happy_pass_step cm L w1 w' n _ Hpass Hn Him HLn eq_refl) as Hnext.
  destruct (L !! S n) as [s'|] eqn:HS.
  - pose proof (lookup_lt_Some _ _ _ HS). destruct Hnext as [-> ->]. split_and!; [lia|done|lia].
  - apply lookup_ge_None in HS. split_and!; [lia|lia|done].
Qed.

End refinement.

(** ** A concrete update *)

Definition updating_world : World unit :=
  w_set_update_status (us_set_State UpdateStateNone)
    (w_set_update_status (us_set_UpdatingComponents [mkComponent DataNodeType "ssd"] "")
      (w_set_status (st_set_State ClusterStateUpdating) example_world)).

Definition updating_cms : ComponentManagerStatus :=
  cms_set_update [mkComponent DataNodeType "ssd"] false false (initialStatus ClusterShutdownNone).

Example example_flow :
  flowStates example_cm updating_cms =
    [UpdateStateNone; UpdateStateWaitingForImaginaryChunksAbsence; UpdateStateWaitingForPodsRemoval;
     UpdateStateWaitingForPodsCreation; UpdateStateWaitingForCypressPatch;
     UpdateStateWaitingForTimbertruckPrepared].
Proof. reflexivity. Qed.

Lemma flow_states_have_conditions_witness :
  flowConditions (E:=unit) UpdateStateWaitingForPodsRemoval ≠ None.
Proof.
  apply (flow_states_have_conditions example_cm updating_cms updating_world).
  apply (bool_decide_unpack _). vm_compute. exact I.
Defined.

Lemma update_flow_terminates_witness :
  GetUpdateState (run (execute (val_of (buildFlowTree example_cm updating_cms) [])
    (run (buildFlowTree example_cm updating_cms) []) example_cm updating_cms) updating_world) =
  UpdateStateWaitingForImaginaryChunksAbsence.
Proof.
  pose proof (update_flow_terminates example_cm updating_cms 1 updating_world
    (run (execute (val_of (buildFlowTree example_cm updating_cms) [])
      (run (buildFlowTree example_cm updating_cms) []) example_cm updating_cms) updating_world)
    eq_refl eq_refl) as H.
  assert (happy_pass example_cm (flowStates example_cm updating_cms) updating_world
    (run (execute (val_of (buildFlowTree example_cm updating_cms) [])
      (run (buildFlowTree example_cm updating_cms) []) example_cm updating_cms) updating_world)) as Hp.
  { exists updating_world, updating_cms. by split_and!. }
  destruct (H (nsteps_once _ _ Hp)) as (_ & H1 & _).
  destruct (H1 ltac:(rewrite example_flow; cbn; lia)) as [H2 _].
  rewrite example_flow in H2. apply (inj Some). rewrite <- H2. reflexivity.
Defined.
