(* ===== verification/Reconciler.v ===== *)
(** * The reconciler of the cluster (src/controllers/ytsaurus_controller.go)

    One reconcile pass: fetch the statuses of all components, move the state machine of
    the cluster, and let the components make progress.  The components of a manager are
    arbitrary implementations of the interface; constructing them is the argument
    [newComponents]. *)

From S2P Require Import Prelude Kubernetes ApiTypes Labeller Status ApiProxy Components UpdatePlan ComponentManager Timbertruck UpdateFlow.

Section reconciler.
Context {E : Type} {MC : MetaConditions} {SC : StatusClient E}.

Abbreviation W := (World E).
Abbreviation outcome := (Result * option error)%type.

Context (newComponents : W → ComponentManager E).

Definition NewComponentManager (clusterDomain : string) (w : W) : ComponentManager E + error :=
  if clusterDomain == "" then inr "cluster domain is not defined" else inl (newComponents w).

(** [err := ytsaurus.SaveClusterState(...); return ctrl.Result{Requeue: true}, err]. *)
Definition saveAndRequeue (s : ClusterState) : go W (option outcome) :=
  err ← SaveClusterState s; mret (Some (mkResult true 0, err)).

(** The switch over what the components report, in the states that may start an update;
    the result is [needStatusUpdate]. *)
Definition chooseClusterState (cms : ComponentManagerStatus) (needStatusUpdate : bool) : go W bool :=
  w ← gets id;
  if cms_allReady cms && cms_clusterMaintenance cms then
    changed ← SetClusterState ClusterStateMaintenance;
    if changed : bool then
      RecordNormal "Maintenance" ("Ytsaurus cluster is under maintenance, shutdown " +:+
        ClusterShutdown_string (cmt_Shutdown (GetClusterMaintenance w))) ;;
      mret true
    else mret needStatusUpdate
  else if cms_allReady cms then
    changed ← SetClusterState ClusterStateRunning;
    mret (if changed : bool then true else needStatusUpdate)
  else if negb (cms_allRunning cms) then
    RecordNormal "Reconfiguration" ("Components pending: " +:+ BuildComponentsSummary (cms_pending cms) +:+
      ", blocked: " +:+ BuildComponentsSummary (cms_blocked cms) +:+
      ", started: " +:+ BuildComponentsSummary (cms_started cms)) ;;
    changed ← SetClusterState ClusterStateReconfiguration;
    mret (if changed : bool then true else needStatusUpdate)
  else if (length (cms_needUpdate cms) == 0%nat) && negb (cms_allReady cms) then
    if GetClusterState w == ClusterStateRunning then SetClusterState ClusterStatePreparing
    else mret needStatusUpdate
  else if length (cms_needUpdate cms) == 0%nat then
    changed ← SetClusterState ClusterStateRunning;
    mret (if changed : bool then true else needStatusUpdate)
  else if negb (IsStatusConditionTrue w ConditionUpdateIsPossible) then
    if IsStatusConditionFalse w ConditionUpdateIsPossible then
      changed ← SetClusterState ClusterStateUpdateBlocked;
      mret (if changed : bool then true else needStatusUpdate)
    else mret needStatusUpdate
  else if length (cms_canUpdate cms) != 0%nat then
    SetUpdatingComponents (cms_canUpdate cms) ;;
    SetUpdateState UpdateStateNone ;;
    SetClusterState ClusterStateUpdating ;;
    initUpdateConditions ;;
    mret true
  else if length (cms_cannotUpdate cms) != 0%nat then
    changed ← SetClusterState ClusterStateUpdateBlocked;
    mret (if changed : bool then true else needStatusUpdate)
  else mret needStatusUpdate.

(** The case of the states that are ready to update; [None] goes on to [cm.Sync]. *)
Definition reconcileReady (cms0 : ComponentManagerStatus) : go W (option outcome) :=
  plan ← gets (λ w, GetUpdatePlan (w_yts w));
  let cms := cms_applyUpdatePlan plan cms0 in
  generationChanged ← SyncObservedGeneration;
  blockedChanged ← SetBlockedComponents (cms_cannotUpdate cms);
  needStatusUpdate ← chooseClusterState cms (if blockedChanged : bool then true else generationChanged);
  if needStatusUpdate : bool then
    err ← UpdateStatus_; mret (Some (mkResult true 0, err))
  else if cms_allReady cms then mret (Some (mkResult false 0, None))
  else mret None.

(** The status the update flow is built from. *)
Definition updatePassStatus (w : W) (cms : ComponentManagerStatus) : ComponentManagerStatus :=
  let nowUpdating := GetUpdatingComponents w in
  let plan := GetUpdatePlan (w_yts w) in
  cms_set_update nowUpdating (shouldRemoveTabletCellsOnUpdate plan nowUpdating)
    (shouldUseMasterHotUpdate plan nowUpdating) cms.

Definition reconcileUpdating (cm : ComponentManager E) (cms0 : ComponentManagerStatus)
    : go W (option outcome) :=
  w ← gets id;
  let cms := updatePassStatus w cms0 in
  RecordNormal "Update" ("Update flow starting with " +:+ UpdateState_string (GetUpdateState w) +:+
    ", for updating components: " +:+ BuildComponentsSummary (cms_nowUpdating cms) +:+
    ", pending: " +:+ BuildComponentsSummary (cms_pending cms) +:+
    ", blocked: " +:+ BuildComponentsSummary (cms_blocked cms) +:+
    ", started: " +:+ BuildComponentsSummary (cms_started cms)) ;;
  let '(updateFlow, heap) :=
    if cms_mastersMaintenance cms then masterMaintenanceFlow w cms [] else buildFlowTree cm cms [] in
  '(progressed, err) ← execute updateFlow heap cm cms;
  match err with
  | Some e => mret (Some (mkResult false 0, Some e))
  | None => if progressed : bool then mret (Some (mkResult true 0, None)) else mret None
  end.

(** The manager status the components of a pass see afterwards: [cm.Sync] reads only the
    maintenance flag, which none of the cases changes. *)
Definition reconcileStates (cm : ComponentManager E) (cms : ComponentManagerStatus)
    : go W (option outcome) :=
  state ← gets GetClusterState;
  match state with
  | ClusterStateCreated | ClusterStateEmpty => saveAndRequeue ClusterStateInitializing
  | ClusterStateInitializing =>
      if cms_allRunning cms then saveAndRequeue ClusterStatePreparing else mret None
  | ClusterStatePreparing | ClusterStateRunning | ClusterStateUpdateBlocked | ClusterStateMaintenance =>
      reconcileReady cms
  | ClusterStateReconfiguration =>
      if cms_allRunning cms then saveAndRequeue ClusterStatePreparing else mret None
  | ClusterStateUpdating => reconcileUpdating cm cms
  | ClusterStateUpdateFinished | ClusterStateUpdateCanceled =>
      ClearUpdateStatus ;; saveAndRequeue ClusterStatePreparing
  | ClusterStateOther s => mret (Some (mkResult false 0, Some ("unknown cluster state: " +:+ fmt_q s)))
  end.

Definition reconciler_Sync (clusterDomain : string) : go W outcome :=
  w ← gets id;
  match NewComponentManager clusterDomain w with
  | inr err => mret (mkResult true 0, Some err)
  | inl cm =>
      '(err, cms) ← FetchStatus cm;
      match err with
      | Some e => mret (mkResult true 0, Some e)
      | None =>
          early ← reconcileStates cm cms;
          match early with
          | Some out => mret out
          | None => cm_Sync cm cms
          end
      end
  end.

(** [Reconcile]: what fetching the resource returned, the operator instance it is labelled
    with and the one this operator watches, and the verdict on the version constraint are
    arguments. *)
Inductive GetResult : Type := GetOK | GetNotFound | GetError (e : error).

Definition Reconcile (clusterDomain : string) (got : GetResult) (resourceInstance watchInstance : string)
    (ValidateVersionConstraint : string → option error) : go W outcome :=
  match got with
  | GetNotFound => mret (mkResult false 0, None)
  | GetError e => mret (mkResult false 0, Some e)
  | GetOK =>
      w ← gets id;
      let spec := yts_Spec (w_yts w) in
      if negb (Deref (spec_IsManaged spec) true) || (resourceInstance != watchInstance) then
        mret (mkResult false DefaultClusterStatusPollPeriod, None)
      else
        match ValidateVersionConstraint (spec_RequiresOperatorVersion spec) with
        | Some e => mret (mkResult false 0, Some e)
        | None => reconciler_Sync clusterDomain
        end
  end.

End reconciler.

(** ** The state machine of the cluster *)

(** The transitions of the cluster state. *)
Definition allowed (s s' : ClusterState) : bool :=
  (s == s') ||
  match s, s' with
  | (ClusterStateCreated | ClusterStateEmpty), ClusterStateInitializing => true
  | (ClusterStateInitializing | ClusterStateReconfiguration), ClusterStatePreparing => true
  | (ClusterStatePreparing | ClusterStateRunning | ClusterStateUpdateBlocked | ClusterStateMaintenance),
    (ClusterStateMaintenance | ClusterStateRunning | ClusterStateReconfiguration |
     ClusterStateUpdateBlocked | ClusterStateUpdating) => true
  | ClusterStateRunning, ClusterStatePreparing => true
  | ClusterStateUpdating, (ClusterStateUpdateFinished | ClusterStateUpdateCanceled) => true
  | (ClusterStateUpdateFinished | ClusterStateUpdateCanceled), ClusterStatePreparing => true
  | _, _ => false
  end.

(** When an update starts, and the state the switch chooses. *)
Definition starts_update (cms : ComponentManagerStatus) (possible : bool) : bool :=
  negb (cms_allReady cms) && cms_allRunning cms && negb (length (cms_needUpdate cms) == 0%nat) &&
  possible && negb (length (cms_canUpdate cms) == 0%nat).

Definition chosenState (cms : ComponentManagerStatus) (possible impossible : bool) (s : ClusterState)
    : ClusterState :=
  if cms_allReady cms then if cms_clusterMaintenance cms then ClusterStateMaintenance else ClusterStateRunning
  else if negb (cms_allRunning cms) then ClusterStateReconfiguration
  else if length (cms_needUpdate cms) == 0%nat then
    if s == ClusterStateRunning then ClusterStatePreparing else s
  else if negb possible then if impossible then ClusterStateUpdateBlocked else s
  else if length (cms_canUpdate cms) != 0%nat then ClusterStateUpdating
  else if length (cms_cannotUpdate cms) != 0%nat then ClusterStateUpdateBlocked
  else s.

Section theorems.
Context {E : Type} {MC : MetaConditions} {ML : MetaConditionsLaws MC} {SC : StatusClient E}.

Abbreviation W := (World E).

Lemma SetClusterState_state s (w : W) : GetClusterState (run (SetClusterState s) w) = s.
Proof. apply (SetClusterState_core_parts s w). Qed.

Lemma SetClusterState_update s (w : W) : w_update_status (run (SetClusterState s) w) = w_update_status w.
Proof. apply (SetClusterState_core_parts s w). Qed.

Lemma initUpdateConditions_core : preserves w_core (initUpdateConditions (E:=E)).
Proof. unfold initUpdateConditions, snapshotCondition. go_frame. Qed.

Lemma chooseClusterState_state cms b (w : W) :
  GetClusterState (run (chooseClusterState cms b) w) =
    chosenState cms (IsStatusConditionTrue w ConditionUpdateIsPossible)
      (IsStatusConditionFalse w ConditionUpdateIsPossible) (GetClusterState w).
Proof.
  unfold chooseClusterState, chosenState. go_step. unfold id.
  destruct (cms_allReady cms), (cms_clusterMaintenance cms); cbn [andb negb].
  - go_step. case_match; go_step; apply SetClusterState_state.
  - go_step. apply SetClusterState_state.
  - destruct (cms_allRunning cms); cbn [negb]; [|go_step; apply SetClusterState_state].
    destruct (length (cms_needUpdate cms) == 0%nat); cbn [andb].
    { case_match; [apply SetClusterState_state|done]. }
    destruct (IsStatusConditionTrue w ConditionUpdateIsPossible); cbn [negb].
    2: { case_match; go_step; [apply SetClusterState_state|done]. }
    destruct (length (cms_canUpdate cms) != 0%nat).
    { go_step. etrans; [exact (f_equal (λ c, c.1.1.2) (initUpdateConditions_core _))|].
      apply SetClusterState_state. }
    case_match; go_step; [apply SetClusterState_state|done].
  - destruct (cms_allRunning cms); cbn [negb]; [|go_step; apply SetClusterState_state].
    destruct (length (cms_needUpdate cms) == 0%nat); cbn [andb].
    { case_match; [apply SetClusterState_state|done]. }
    destruct (IsStatusConditionTrue w ConditionUpdateIsPossible); cbn [negb].
    2: { case_match; go_step; [apply SetClusterState_state|done]. }
    destruct (length (cms_canUpdate cms) != 0%nat).
    { go_step. etrans; [exact (f_equal (λ c, c.1.1.2) (initUpdateConditions_core _))|].
      apply SetClusterState_state. }
    case_match; go_step; [apply SetClusterState_state|done].
Qed.

(** What choosing the state does to the update status. *)
Lemma chooseClusterState_update cms b (w : W) :
  let w' := run (chooseClusterState cms b) w in
  if starts_update cms (IsStatusConditionTrue w ConditionUpdateIsPossible)
  then GetUpdatingComponents w' = cms_canUpdate cms ∧ GetUpdateState w' = UpdateStateNone
  else w_update_status w' = w_update_status w.
Proof.
  cbv zeta. unfold chooseClusterState, starts_update. go_step. unfold id.
  destruct (cms_allReady cms); cbn [andb negb].
  { destruct (cms_clusterMaintenance cms); go_step; [case_match; go_step|]; apply SetClusterState_update. }
  destruct (cms_allRunning cms); cbn [andb negb]; [|go_step; rewrite SetClusterState_update; done].
  destruct (length (cms_needUpdate cms) == 0%nat); cbn [andb negb].
  { case_match; [apply SetClusterState_update|done]. }
  destruct (IsStatusConditionTrue w ConditionUpdateIsPossible); cbn [andb negb].
  2: { case_match; go_step; [apply SetClusterState_update|done]. }
  destruct (length (cms_canUpdate cms) == 0%nat); cbn [negb].
  { case_match; go_step; [apply SetClusterState_update|done]. }
  go_step. set (w1 := run (SetUpdateState _) _). set (w2 := run (SetClusterState _) w1).
  pose proof (initUpdateConditions_core w2) as Hc. unfold w_core in Hc. injection Hc as _ _ _ _ Hus Hup.
  rewrite Hus, Hup. unfold GetUpdatingComponents, GetUpdateState. subst w2.
  by rewrite SetClusterState_update.
Qed.

Lemma chosenState_allowed cms p i s :
  match s with
  | ClusterStatePreparing | ClusterStateRunning | ClusterStateUpdateBlocked | ClusterStateMaintenance => True
  | _ => False
  end → allowed s (chosenState cms p i s) = true.
Proof.
  unfold chosenState. intros Hs. repeat case_match; destruct s; try done.
Qed.

Lemma chosenState_updating cms p i s :
  s ≠ ClusterStateUpdating →
  chosenState cms p i s = ClusterStateUpdating → starts_update cms p = true.
Proof.
  unfold chosenState, starts_update. intros Hs H.
  destruct (cms_allReady cms); [by destruct (cms_clusterMaintenance cms)|].
  destruct (cms_allRunning cms); [|done]. destruct (length (cms_needUpdate cms) == 0%nat).
  { by destruct (s == ClusterStateRunning). }
  destruct p; [|by destruct i]. cbn in *. destruct (length (cms_canUpdate cms) == 0%nat); [|done].
  cbn in H. by destruct (length (cms_cannotUpdate cms) != 0%nat).
Qed.

(** The part of a ready pass that precedes the switch. *)
Definition readyPrefix (cannotUpdate : list Component) : go W bool :=
  generationChanged ← SyncObservedGeneration;
  blockedChanged ← SetBlockedComponents cannotUpdate;
  mret (if blockedChanged : bool then true else generationChanged).

Lemma readyPrefix_core l : preserves w_core (readyPrefix l).
Proof. unfold readyPrefix. go_frame. Qed.

Definition plannedStatus (w : W) (cms : ComponentManagerStatus) : ComponentManagerStatus :=
  cms_applyUpdatePlan (GetUpdatePlan (w_yts w)) cms.

Definition readyTail (cms : ComponentManagerStatus) (changed : bool) : go W (option (Result * option error)) :=
  needStatusUpdate ← chooseClusterState cms changed;
  if needStatusUpdate : bool then
    err ← UpdateStatus_; mret (Some (mkResult true 0, err))
  else if cms_allReady cms then mret (Some (mkResult false 0, None))
  else mret None.

Lemma reconcileReady_eq cms (w : W) :
  reconcileReady cms w =
    let cms' := plannedStatus w cms in
    readyTail cms' (val_of (readyPrefix (cms_cannotUpdate cms')) w)
      (run (readyPrefix (cms_cannotUpdate cms')) w).
Proof.
  cbv zeta. unfold reconcileReady, readyPrefix, readyTail. rewrite go_bind_run, run_gets, val_gets.
  fold (plannedStatus w cms). set (cms' := plannedStatus w cms).
  rewrite go_bind_run, run_bind, val_bind, go_bind_run, run_bind, val_bind, run_ret, val_ret. done.
Qed.

Lemma readyTail_after cms changed (w : W) :
  let w' := run (readyTail cms changed) w in
  w_core w' = w_core (run (chooseClusterState cms changed) w).
Proof.
  cbv zeta. unfold readyTail. rewrite run_bind.
  destruct (val_of (chooseClusterState cms changed) w); [|by destruct (cms_allReady cms)].
  rewrite run_bind, run_ret. apply UpdateStatus_core.
Qed.

(** *** The transitions of a pass *)

Lemma w_core_state (w1 w2 : W) : w_core w1 = w_core w2 → GetClusterState w1 = GetClusterState w2.
Proof. unfold w_core. intros H. by injection H. Qed.

Lemma w_core_spec (w1 w2 : W) : w_core w1 = w_core w2 → yts_Spec (w_yts w1) = yts_Spec (w_yts w2).
Proof. unfold w_core. intros H. by injection H. Qed.

(** The world in which the switch of a ready pass runs, and what it leaves. *)
Lemma reconcileReady_core cms (w : W) :
  let cms' := plannedStatus w cms in
  let w1 := run (readyPrefix (cms_cannotUpdate cms')) w in
  w_core (run (reconcileReady cms) w) =
    w_core (run (chooseClusterState cms' (val_of (readyPrefix (cms_cannotUpdate cms')) w)) w1).
Proof. cbv zeta. unfold run at 1. rewrite reconcileReady_eq. cbv zeta. apply readyTail_after. Qed.

Lemma reconcileReady_state cms (w : W) :
  let cms' := plannedStatus w cms in
  let w1 := run (readyPrefix (cms_cannotUpdate cms')) w in
  GetClusterState (run (reconcileReady cms) w) =
    chosenState cms' (IsStatusConditionTrue w1 ConditionUpdateIsPossible)
      (IsStatusConditionFalse w1 ConditionUpdateIsPossible) (GetClusterState w).
Proof.
  cbv zeta. rewrite (w_core_state _ _ (reconcileReady_core cms w)), chooseClusterState_state.
  by rewrite (w_core_state _ _ (readyPrefix_core _ w)).
Qed.

Definition updateFlowStates (cm : ComponentManager E) (cms : ComponentManagerStatus) (w : W)
    : list UpdateState :=
  if cms_mastersMaintenance cms then masterFlowStates w cms else flowStates cm cms.

(** An update pass, with the flow as a list. *)
Lemma reconcileUpdating_eq cm cms0 (w : W) :
  let cms := updatePassStatus w cms0 in
  ∃ e, let w1 := w_add_event e w in
  let L := updateFlowStates cm cms w in
  let '((progressed, err), w2) := execute_list L cm cms w1 in
  reconcileUpdating cm cms0 w =
    (match err with
     | Some e => Some (mkResult false 0, Some e)
     | None => if progressed then Some (mkResult true 0, None) else None
     end, w2).
Proof.
  cbv zeta. eexists. unfold reconcileUpdating, updateFlowStates.
  rewrite go_bind_run, val_gets, run_gets. unfold id. rewrite go_bind_run.
  lazymatch goal with
  | |- context [RecordNormal ?r ?m] => instantiate (1 := mkEvent EventTypeNormal r m)
  end.
  set (w1 := run (RecordNormal _ _) w). set (cms := updatePassStatus w cms0).
  change (run (RecordNormal _ _) w) with w1. fold w1.
  set (mk := if cms_mastersMaintenance cms then masterMaintenanceFlow w cms else buildFlowTree cm cms).
  replace (if cms_mastersMaintenance cms then masterMaintenanceFlow w cms [] else buildFlowTree cm cms [])
    with (val_of mk [], run mk []) by (subst mk; destruct (cms_mastersMaintenance cms); symmetry; apply go_eta).
  assert (execute (val_of mk []) (run mk []) cm cms w1 =
    execute_list (if cms_mastersMaintenance cms then masterFlowStates w cms else flowStates cm cms) cm cms w1)
    as Hex.
  { apply execute_refines. subst mk. case_match;
      [apply masterMaintenanceFlow_tree_of|apply buildFlowTree_tree_of]. }
  change (w_add_event _ w) with w1. rewrite <- Hex. cbv iota beta. rewrite go_bind_run. unfold val_of, run.
  by destruct (execute _ _ cm cms w1) as [[[|] [err|]] w2].
Qed.

Lemma reconcileUpdating_state cm cms (w : W) :
  GetClusterState w = ClusterStateUpdating →
  allowed ClusterStateUpdating (GetClusterState (run (reconcileUpdating cm cms) w)) = true ∧
  GetUpdatingComponents (run (reconcileUpdating cm cms) w) = GetUpdatingComponents w.
Proof.
  intros Hs. destruct (reconcileUpdating_eq cm cms w) as [e Heq]. cbv zeta in Heq.
  set (L := updateFlowStates cm (updatePassStatus w cms) w) in *.
  set (cms' := updatePassStatus w cms) in *. set (w1 := w_add_event e w) in *.
  pose proof (execute_list_outcomes L cm cms' w1) as Hout. cbv zeta in Hout.
  destruct (execute_list L cm cms' w1) as [[progressed err] w2]. unfold run. rewrite Heq. cbn [snd].
  destruct (in_flow L (GetUpdateState w1)); cbn [negb] in Hout.
  2: { destruct Hout as (_ & _ & ->). change (GetClusterState w1) with (GetClusterState w). by rewrite Hs. }
  destruct Hout as (_ & Hup & _ & Hout). split; [|done].
  destruct (checkCondition (GetUpdateState w1) w1 cm cms' == stepResultMarkUnsatisfied).
  { destruct Hout as (_ & _ & Hy). unfold GetClusterState, w_status. rewrite Hy.
    change (yts_Status (w_yts w1)) with (w_status w). fold (GetClusterState w). by rewrite Hs. }
  destruct (flow_next L _ _) as [s'|]; destruct Hout as [_ ->].
  - change (GetClusterState w1) with (GetClusterState w). by rewrite Hs.
  - by destruct (GetUpdateState w1).
Qed.

Lemma saveAndRequeue_state s (w : W) : GetClusterState (run (saveAndRequeue s) w) = s.
Proof. unfold saveAndRequeue. go_step. apply SaveClusterState_spec. Qed.

Lemma reconcileStates_state cm cms (w : W) :
  allowed (GetClusterState w) (GetClusterState (run (reconcileStates cm cms) w)) = true.
Proof.
  unfold reconcileStates. go_step. destruct (GetClusterState w) eqn:Hs;
    try (go_step; rewrite saveAndRequeue_state; done);
    try (destruct (cms_allRunning cms); rewrite ?saveAndRequeue_state, ?run_ret, ?Hs; done);
    try (rewrite reconcileReady_state, Hs; by apply chosenState_allowed).
  - by apply reconcileUpdating_state.
  - rewrite run_ret, Hs. unfold allowed. by rewrite bool_decide_eq_true_2.
Qed.

Lemma readyPrefix_possible l (w : W) :
  unique_types (w_conditions w) →
  IsStatusConditionTrue (run (readyPrefix l) w) ConditionUpdateIsPossible =
    IsStatusConditionTrue w ConditionUpdateIsPossible.
Proof.
  intros Hu. unfold readyPrefix, SyncObservedGeneration. rewrite !run_bind, !run_ret.
  set (w0 := run observeGeneration w).
  assert (w_conditions w0 = w_conditions w) as H0.
  { subst w0. unfold run, observeGeneration. by case_match. }
  set (w1 := run updateOperatorVersion w0).
  assert (∀ w2 : W, w_conditions (run (SetBlockedComponents l) w2) = w_conditions w2) as Hb.
  { intros w2. unfold run, SetBlockedComponents. by case_match. }
  unfold IsStatusConditionTrue, meta_IsStatusConditionTrue, meta_IsStatusConditionPresentAndEqual.
  fold (w_conditions (run (SetBlockedComponents l) w1)). rewrite Hb.
  change (FindStatusCondition (w_conditions w1) ?t) with (GetStatusCondition w1 t).
  subst w1. rewrite updateOperatorVersion_other; [|by rewrite H0|done].
  unfold GetStatusCondition. fold (w_conditions w0). by rewrite H0.
Qed.

Lemma plannedStatus_core (w1 w2 : W) cms : w_core w1 = w_core w2 → plannedStatus w1 cms = plannedStatus w2 cms.
Proof. intros H. unfold plannedStatus, GetUpdatePlan. by rewrite (w_core_spec _ _ H). Qed.

(** What a ready pass does to the update status. *)
Lemma reconcileReady_update cms (w : W) :
  let cms' := plannedStatus w cms in
  unique_types (w_conditions w) →
  starts_update cms' (IsStatusConditionTrue w ConditionUpdateIsPossible) = true →
  let w' := run (reconcileReady cms) w in
  GetClusterState w' = ClusterStateUpdating ∧
  GetUpdatingComponents w' = cms_canUpdate cms' ∧ GetUpdateState w' = UpdateStateNone.
Proof.
  cbv zeta. intros Hu Hst. split.
  - rewrite reconcileReady_state, readyPrefix_possible by done.
    unfold starts_update in Hst. unfold chosenState.
    repeat (apply andb_prop in Hst as [Hst ?]). apply negb_true_iff in Hst. rewrite Hst.
    match goal with H : cms_allRunning _ = true |- _ => rewrite H end. cbn [negb].
    match goal with H : negb (length (cms_needUpdate _) == _) = true |- _ =>
      apply negb_true_iff in H; rewrite H end.
    match goal with H : IsStatusConditionTrue _ _ = true |- _ => rewrite H end. cbn [negb].
    match goal with H : negb (length (cms_canUpdate _) == _) = true |- _ => rewrite H end. done.
  - pose proof (reconcileReady_core cms w) as Hc. cbv zeta in Hc.
    set (cms' := plannedStatus w cms) in *. set (w1 := run (readyPrefix _) w) in *.
    pose proof (chooseClusterState_update cms' (val_of (readyPrefix (cms_cannotUpdate cms')) w) w1) as Hup.
    cbv zeta in Hup. subst w1. rewrite (readyPrefix_possible _ w Hu), Hst in Hup.
    unfold w_core in Hc. injection Hc as _ _ _ _ -> ->. done.
Qed.

(** *** A settled cluster is left alone *)

(** The state a cluster whose components are all ready ends in. *)
Definition finalState (cms : ComponentManagerStatus) : ClusterState :=
  if cms_clusterMaintenance cms then ClusterStateMaintenance else ClusterStateRunning.

Record settled (cms : ComponentManagerStatus) (w : W) : Prop := {
  settled_generation : observeGeneration w = (false, w);
  settled_version : updateOperatorVersion w = (false, w);
  settled_blocked : SetBlockedComponents (cms_cannotUpdate (plannedStatus w cms)) w = (false, w);
  settled_state : GetClusterState w = finalState cms;
}.

Lemma plannedStatus_flags (w : W) cms :
  cms_allReady (plannedStatus w cms) = cms_allReady cms ∧
  cms_clusterMaintenance (plannedStatus w cms) = cms_clusterMaintenance cms.
Proof. unfold plannedStatus, cms_applyUpdatePlan. by destruct (applyUpdatePlan _ _). Qed.

(** With every component ready, choosing the state is setting the final state. *)
Lemma chooseClusterState_ready cms b (w : W) :
  cms_allReady cms = true →
  val_of (chooseClusterState cms b) w = (if GetClusterState w == finalState cms then b else true) ∧
  w_yts (run (chooseClusterState cms b) w) = w_yts (run (SetClusterState (finalState cms)) w) ∧
  (GetClusterState w = finalState cms → run (chooseClusterState cms b) w = w).
Proof.
  intros Hr. set (s := finalState cms). unfold chooseClusterState. rewrite Hr. cbn [andb]. go_step. unfold id.
  destruct (bool_decide_reflect (GetClusterState w = s)) as [Hs|Hs].
  - pose proof (SetClusterState_same s w Hs) as Heq. subst s. unfold finalState in *.
    destruct (cms_clusterMaintenance cms); go_step; unfold val_of, run; by rewrite Heq.
  - pose proof (SetClusterState_changed s w Hs) as Heq. cbv zeta in Heq. subst s. unfold finalState in *.
    destruct (cms_clusterMaintenance cms); go_step; unfold val_of, run; by rewrite Heq.
Qed.

Lemma settled_pass cms (w : W) :
  cms_allReady cms = true → settled cms w → reconcileReady cms w = (Some (mkResult false 0, None), w).
Proof.
  intros Hr [Hg Hv Hb Hs]. rewrite reconcileReady_eq. cbv zeta.
  destruct (plannedStatus_flags w cms) as [Hready Hmaint].
  assert (readyPrefix (cms_cannotUpdate (plannedStatus w cms)) w = (false, w)) as Hp.
  { unfold readyPrefix, SyncObservedGeneration. rewrite (go_bind_eq _ _ w false w).
    - by rewrite (go_bind_eq _ _ w _ _ Hb).
    - rewrite (go_bind_eq _ _ w _ _ Hg). by rewrite (go_bind_eq _ _ w _ _ Hv). }
  set (cms' := plannedStatus w cms) in *. unfold val_of, run. rewrite Hp. cbn [fst snd].
  unfold readyTail. rewrite go_bind_run. rewrite <- Hready in Hr.
  destruct (chooseClusterState_ready cms' false w Hr) as (Hval & _ & Hrun).
  assert (GetClusterState w = finalState cms') as Hs' by (rewrite Hs; unfold finalState; by rewrite Hmaint).
  rewrite Hval, (Hrun Hs'), (bool_decide_eq_true_2 _ Hs'), Hr. done.
Qed.

(** What [settled] says depends on the resource only. *)
Lemma settled_yts cms (w : W) :
  settled cms w ↔
    st_ObservedGeneration (w_status w) = yts_Generation (w_yts w) ∧
    updateOperatorVersion w = (false, w) ∧
    us_BlockedComponentsSummary (w_update_status w) =
      BuildComponentsSummary (cms_cannotUpdate (plannedStatus w cms)) ∧
    GetClusterState w = finalState cms.
Proof.
  split.
  - intros [Hg Hv Hb Hs]. split_and!; [|done| |done].
    + unfold observeGeneration in Hg.
      by destruct (bool_decide_reflect (st_ObservedGeneration (w_status w) = yts_Generation (w_yts w))).
    + unfold SetBlockedComponents in Hb. by destruct (bool_decide_reflect
        (us_BlockedComponentsSummary (w_update_status w) =
         BuildComponentsSummary (cms_cannotUpdate (plannedStatus w cms)))).
  - intros (Hg & Hv & Hb & Hs). split; [|done| |done].
    + unfold observeGeneration. by rewrite (bool_decide_eq_true_2 _ Hg).
    + unfold SetBlockedComponents. by rewrite (bool_decide_eq_true_2 _ Hb).
Qed.

Lemma updateOperatorVersion_env e (w : W) :
  updateOperatorVersion w = (false, w) → updateOperatorVersion (w_set_env e w) = (false, w_set_env e w).
Proof.
  intros H. pose proof (updateOperatorVersion_run w) as Hr. unfold run in Hr. rewrite H in Hr. cbn in Hr.
  unfold updateOperatorVersion in *. change (w_status (w_set_env e w)) with (w_status w) in *.
  change (w_yts (w_set_env e w)) with (w_yts w). change (w_now (w_set_env e w)) with (w_now w).
  destruct (meta_SetStatusCondition _ _ _) as [l b]. injection H as -> Hw. f_equal.
  change (w_set_status (st_set_Conditions l) (w_set_env e w)) with
    (w_set_env e (w_set_status (st_set_Conditions l) w)). by rewrite Hw.
Qed.

(** The parts of the resource that setting the state keeps. *)
Lemma SetClusterState_parts s (w : W) :
  let w' := run (SetClusterState s) w in
  GetClusterState w' = s ∧ yts_Spec (w_yts w') = yts_Spec (w_yts w) ∧
  st_ObservedGeneration (w_status w') = st_ObservedGeneration (w_status w) ∧
  yts_Generation (w_yts w') = yts_Generation (w_yts w) ∧
  w_update_status w' = w_update_status w ∧
  (unique_types (w_conditions w) → unique_types (w_conditions w')).
Proof.
  cbv zeta. unfold run. destruct (bool_decide_reflect (GetClusterState w = s)) as [H|H].
  - by rewrite SetClusterState_same.
  - rewrite SetClusterState_changed by done. cbv zeta. split_and!; try done.
    intros Hu. apply SetStatusCondition_unique. exact Hu.
Qed.

(** Writing the status settles the operator version. *)
Lemma settled_after_write cms r (w : W) :
  unique_types (w_conditions w) →
  st_ObservedGeneration (w_status w) = yts_Generation (w_yts w) →
  us_BlockedComponentsSummary (w_update_status w) =
    BuildComponentsSummary (cms_cannotUpdate (plannedStatus w cms)) →
  GetClusterState w = finalState cms →
  let w' := run (err ← UpdateStatus_; mret (Some (mkResult true r, err))) w in
  st_ObservedGeneration (w_status w') = yts_Generation (w_yts w') ∧
  updateOperatorVersion w' = (false, w') ∧
  us_BlockedComponentsSummary (w_update_status w') =
    BuildComponentsSummary (cms_cannotUpdate (plannedStatus w' cms)) ∧
  GetClusterState w' = finalState cms.
Proof.
  intros Hu Hg Hb Hs. cbv zeta. rewrite run_bind, run_ret.
  unfold UpdateStatus_. rewrite run_bind, run_bind, run_gets, val_gets.
  destruct (updateOperatorVersion_spec w Hu) as [Hu1 Hv1].
  pose proof (updateOperatorVersion_core w) as Hc. pose proof (updateOperatorVersion_update w) as Hup.
  assert (st_ObservedGeneration (w_status (run updateOperatorVersion w)) =
          yts_Generation (w_yts (run updateOperatorVersion w))) as Hg1.
  { rewrite updateOperatorVersion_run. exact Hg. }
  set (w1 := run updateOperatorVersion w) in *. unfold run. rewrite !in_env_run. cbn [snd].
  set (e := (Status_Update (w_yts w1) (w_env w1)).2).
  split_and!.
  - exact Hg1.
  - by apply updateOperatorVersion_env.
  - change (w_update_status (w_set_env e w1)) with (w_update_status w1). rewrite Hup, Hb.
    by rewrite (plannedStatus_core w w1 cms (eq_sym Hc)).
  - by rewrite <- Hs, <- (w_core_state _ _ Hc).
Qed.

(** What the first half of a ready pass establishes. *)
Lemma readyPrefix_spec l (w : W) :
  unique_types (w_conditions w) →
  let w1 := run (readyPrefix l) w in
  st_ObservedGeneration (w_status w1) = yts_Generation (w_yts w1) ∧
  us_BlockedComponentsSummary (w_update_status w1) = BuildComponentsSummary l ∧
  unique_types (w_conditions w1) ∧
  (val_of (readyPrefix l) w = false → updateOperatorVersion w1 = (false, w1)).
Proof.
  intros Hu. cbv zeta. unfold readyPrefix, SyncObservedGeneration.
  go_step. set (w0 := run observeGeneration w).
  assert (st_ObservedGeneration (w_status w0) = yts_Generation (w_yts w0) ∧ unique_types (w_conditions w0))
    as [Hg0 Hu0].
  { subst w0. unfold run, observeGeneration.
    by destruct (bool_decide_reflect (st_ObservedGeneration (w_status w) = yts_Generation (w_yts w))). }
  destruct (updateOperatorVersion_spec w0 Hu0) as [Hu1 Hv1].
  assert (st_ObservedGeneration (w_status (run updateOperatorVersion w0)) =
          yts_Generation (w_yts (run updateOperatorVersion w0))) as Hg1.
  { rewrite updateOperatorVersion_run. exact Hg0. }
  set (w1 := run updateOperatorVersion w0) in *. unfold run, val_of, SetBlockedComponents.
  destruct (bool_decide_reflect (us_BlockedComponentsSummary (w_update_status w1) = BuildComponentsSummary l));
    split_and!; done.
Qed.

Lemma ready_pass_settled cms (w : W) :
  unique_types (w_conditions w) → cms_allReady cms = true → settled cms (run (reconcileReady cms) w).
Proof.
  intros Hu Hr. unfold run at 1. rewrite reconcileReady_eq. cbv zeta.
  destruct (plannedStatus_flags w cms) as [Hready Hmaint].
  set (cms' := plannedStatus w cms) in *.
  destruct (readyPrefix_spec (cms_cannotUpdate cms') w Hu) as (Hg & Hb & Hu1 & Hv).
  pose proof (w_core_spec _ _ (readyPrefix_core (cms_cannotUpdate cms') w)) as Hspec1.
  set (w1 := run (readyPrefix (cms_cannotUpdate cms')) w) in *.
  set (b := val_of (readyPrefix (cms_cannotUpdate cms')) w) in *. rewrite <- Hready in Hr.
  destruct (chooseClusterState_ready cms' b w1 Hr) as (Hval & Hyts & Hsame).
  assert (finalState cms' = finalState cms) as Hf by (unfold finalState; by rewrite Hmaint).
  set (w2 := run (chooseClusterState cms' b) w1) in *.
  destruct (SetClusterState_parts (finalState cms') w1) as (Hs2 & Hsp2 & Hg2 & Hgen2 & Hup2 & Hu2).
  assert (settled_but_version : st_ObservedGeneration (w_status w2) = yts_Generation (w_yts w2) ∧
    us_BlockedComponentsSummary (w_update_status w2) = BuildComponentsSummary (cms_cannotUpdate cms') ∧
    yts_Spec (w_yts w2) = yts_Spec (w_yts w) ∧ GetClusterState w2 = finalState cms ∧
    unique_types (w_conditions w2)).
  { unfold GetClusterState, w_conditions, w_update_status, w_status in *. rewrite Hyts.
    split_and!; [congruence|congruence|congruence|congruence|by apply Hu2]. }
  destruct settled_but_version as (Hg3 & Hb3 & Hsp3 & Hs3 & Hu3).
  assert (plannedStatus w2 cms = cms') as Hplan.
  { subst cms'. unfold plannedStatus, GetUpdatePlan. by rewrite Hsp3. }
  apply settled_yts. fold (run (readyTail cms' b) w1). unfold readyTail. rewrite run_bind. fold w2.
  rewrite Hval. destruct (bool_decide_reflect (GetClusterState w1 = finalState cms')) as [Hst|Hst].
  - (* nothing to do in the switch *)
    assert (w2 = w1) as Hw by by apply Hsame.
    destruct b; [|rewrite Hr, run_ret, Hplan; split_and!; try done; rewrite Hw; by apply Hv].
    apply settled_after_write; by rewrite ?Hplan.
  - apply settled_after_write; by rewrite ?Hplan.
Qed.

Lemma execute_list_ok L cm cms : keeps conditions_ok (execute_list (E:=E) L cm cms).
Proof. unfold execute_list, SaveClusterState, SaveUpdateState, LogUpdate. go_keeps. Qed.

Lemma reconcileUpdating_ok cm cms : keeps conditions_ok (reconcileUpdating (E:=E) cm cms).
Proof.
  intros w Hw. destruct (reconcileUpdating_eq cm cms w) as [e Heq]. cbv zeta in Heq.
  set (cms' := updatePassStatus w cms) in *. set (L := updateFlowStates cm cms' w) in *.
  pose proof (execute_list_ok L cm cms' (w_add_event e w) Hw) as Hok. unfold run in Hok |- *.
  destruct (execute_list L cm cms' (w_add_event e w)) as [[progressed err] w2]. by rewrite Heq.
Qed.

Lemma reconcileReady_ok cms : keeps conditions_ok (reconcileReady (E:=E) cms).
Proof.
  unfold reconcileReady, chooseClusterState, initUpdateConditions, snapshotCondition. go_keeps.
Qed.

Lemma reconcileStates_ok cm cms : keeps conditions_ok (reconcileStates (E:=E) cm cms).
Proof.
  pose proof (reconcileUpdating_ok cm cms). pose proof (reconcileReady_ok cms).
  unfold reconcileStates, saveAndRequeue, SaveClusterState. go_keeps.
Qed.

Section pass.
Context (newComponents : W → ComponentManager E) (clusterDomain : string).
Context (Hframe : ∀ w, Forall ComponentFrame (cm_allComponents (newComponents w))).

Abbreviation Sync := (reconciler_Sync newComponents clusterDomain).

(** A pass is fetching, then the state machine, then driving the components. *)
Lemma reconciler_Sync_core (w : W) :
  let cm := newComponents w in
  let w1 := run (FetchStatus cm) w in
  let cms := (val_of (FetchStatus cm) w).2 in
  ((clusterDomain = "" ∨ (val_of (FetchStatus cm) w).1 ≠ None) ∧ w_core (run Sync w) = w_core w) ∨
  (clusterDomain ≠ "" ∧ (val_of (FetchStatus cm) w).1 = None ∧
   w_core (run Sync w) = w_core (run (reconcileStates cm cms) w1)).
Proof.
  cbv zeta. unfold reconciler_Sync. go_step. unfold id, NewComponentManager.
  destruct (bool_decide_reflect (clusterDomain = "")) as [Hd|Hd]; [left; split; [by left|by go_step]|]. go_step.
  pose proof (FetchStatus_core _ (Hframe w) w) as Hf.
  destruct (val_of (FetchStatus (newComponents w)) w) as [[e|] cms]; [left; split; [by right|by go_step]|].
  right. split; [done|]. split; [done|]. go_step. cbn [snd].
  destruct (val_of (reconcileStates _ cms) _); [done|]. by apply cm_Sync_core.
Qed.

(** C1.  The cluster moves only along the documented state machine.  Whatever the
    components report and whichever writes fail, a reconcile pass takes the cluster from
    its state to the same state or along one of the transitions of [allowed]: a new cluster
    is initialised, then prepared; only a cluster in a state that may start an update
    becomes Running, Maintenance, Reconfiguration, UpdateBlocked or Updating; an update ends
    Finished or Canceled, and then the cluster is prepared again. *)
Theorem Reconcile_transitions got resourceInstance watchInstance validate (w : W) :
  allowed (GetClusterState w)
    (GetClusterState (run (Reconcile newComponents clusterDomain got resourceInstance watchInstance validate) w))
  = true.
Proof.
  assert (∀ w0 : W, allowed (GetClusterState w0) (GetClusterState w0) = true) as Hrefl.
  { intros w0. unfold allowed. by rewrite bool_decide_eq_true_2. }
  unfold Reconcile. destruct got; rewrite ?run_ret; [|apply Hrefl..].
  rewrite run_bind, run_gets, val_gets. unfold id. cbv zeta.
  case_match; [by rewrite run_ret|]. case_match; [by rewrite run_ret|].
  destruct (reconciler_Sync_core w) as [(_ & Hc)|(_ & _ & Hc)]; apply w_core_state in Hc; rewrite Hc.
  - apply Hrefl.
  - rewrite <- (w_core_state _ _ (FetchStatus_core _ (Hframe w) w)). apply reconcileStates_state.
Qed.

(** C2.  When and how an update starts.  A pass brings a cluster into Updating exactly when
    the cluster is in a state that may start an update, fetching the components succeeded,
    all of them are running and not all are ready, the condition UpdateIsPossible holds and
    the update plan selects at least one component that needs an update; the update then
    starts at its first step with exactly the components the plan selected. *)
Theorem Sync_starts_update (w : W) :
  conditions_ok w → GetClusterState w ≠ ClusterStateUpdating →
  let cm := newComponents w in
  let w1 := run (FetchStatus cm) w in
  let cms := plannedStatus w (val_of (FetchStatus cm) w).2 in
  let w' := run Sync w in
  (GetClusterState w' = ClusterStateUpdating ↔
     clusterDomain ≠ "" ∧ (val_of (FetchStatus cm) w).1 = None ∧ IsReadyToUpdate w = true ∧
     starts_update cms (IsStatusConditionTrue w1 ConditionUpdateIsPossible) = true) ∧
  (GetClusterState w' = ClusterStateUpdating →
     GetUpdatingComponents w' = cms_canUpdate cms ∧ GetUpdateState w' = UpdateStateNone).
Proof.
  intros Hok Hne. cbv zeta. set (cm := newComponents w).
  pose proof (FetchStatus_core cm (Hframe w) w) as Hc1.
  pose proof (proj1 (FetchStatus_ok cm (Hframe w) w Hok)) as Hu1.
  pose proof (reconciler_Sync_core w) as Hcase. cbv zeta in Hcase. fold cm in Hcase.
  set (w1 := run (FetchStatus cm) w) in *. set (cms0 := (val_of (FetchStatus cm) w).2) in *.
  pose proof (w_core_state _ _ Hc1) as Hs1.
  rewrite <- (plannedStatus_core _ _ cms0 Hc1) in *.
  assert (IsReadyToUpdate w = true → reconcileStates cm cms0 w1 = reconcileReady cms0 w1) as Hready.
  { unfold IsReadyToUpdate. rewrite <- Hs1. intros Hr. unfold reconcileStates.
    rewrite go_bind_run, val_gets, run_gets. by destruct (GetClusterState w1). }
  assert (GetClusterState (run Sync w) = ClusterStateUpdating →
     clusterDomain ≠ "" ∧ (val_of (FetchStatus cm) w).1 = None ∧ IsReadyToUpdate w = true ∧
     starts_update (plannedStatus w1 cms0) (IsStatusConditionTrue w1 ConditionUpdateIsPossible) = true ∧
     w_core (run Sync w) = w_core (run (reconcileReady cms0) w1)) as Hstart.
  { intros Hupd. destruct Hcase as [[_ H]|(Hd & Herr & H)].
    { apply w_core_state in H. congruence. }
    assert (IsReadyToUpdate w = true) as Hr.
    { pose proof (reconcileStates_state cm cms0 w1) as Ha. rewrite <- (w_core_state _ _ H), Hupd, Hs1 in Ha.
      unfold IsReadyToUpdate. by destruct (GetClusterState w). }
    unfold run at 2 in H. rewrite (Hready Hr) in H. split_and!; try done.
    rewrite (w_core_state _ _ H) in Hupd. fold (run (reconcileReady cms0) w1) in Hupd.
    rewrite reconcileReady_state, readyPrefix_possible in Hupd by done.
    eapply chosenState_updating; [|exact Hupd]. by rewrite Hs1. }
  split; [split|].
  - intros H. by destruct (Hstart H) as (? & ? & ? & ? & _).
  - intros (Hd & Herr & Hr & Hst). destruct Hcase as [[[?|?] _]|(_ & _ & H)]; [done..|].
    unfold run at 2 in H. rewrite (Hready Hr) in H. rewrite (w_core_state _ _ H). by apply reconcileReady_update.
  - intros H. destruct (Hstart H) as (_ & _ & _ & Hst & Hc). unfold w_core in Hc.
    injection Hc as _ _ _ _ -> ->. by apply reconcileReady_update.
Qed.

(** Every condition of the resource stays a map: if the conditions of the cluster and
    of the update have one entry per type, they still have after any reconcile pass, failed
    ones included. *)
Theorem Sync_keeps_conditions (w : W) :
  conditions_ok w → conditions_ok (run (reconciler_Sync newComponents clusterDomain) w).
Proof.
  intros Hw. unfold reconciler_Sync. rewrite run_bind, run_gets, val_gets. unfold id.
  unfold NewComponentManager. case_match; [|done]. case_match; [done|].
  pose proof (FetchStatus_ok _ (Hframe w) w Hw) as Hf. simplify_eq.
  rewrite run_bind. destruct (val_of (FetchStatus (newComponents w)) w) as [[e|] cms]; [done|].
  rewrite run_bind. pose proof (reconcileStates_ok (newComponents w) cms _ Hf) as Hr.
  case_match; [done|]. by apply (cm_Sync_ok _ _ (Hframe w)).
Qed.

End pass.

(** A cluster whose components are all ready settles in one pass.  Whatever the state
    it was in when it entered the ready case, after the pass has run, the next one with the
    same reports finds nothing to do: it writes nothing, records no event and returns
    without asking for another reconcile, so the operator neither loops nor rewrites the
    status of a healthy cluster. *)
Theorem ready_pass_settles cms (w : W) :
  unique_types (w_conditions w) → cms_allReady cms = true →
  let w1 := run (reconcileReady cms) w in
  GetClusterState w1 = finalState cms ∧
  reconcileReady cms w1 = (Some (mkResult false 0, None), w1).
Proof.
  intros Hu Hr. cbv zeta. pose proof (ready_pass_settled cms w Hu Hr) as Hs.
  split; [apply Hs|]. by apply settled_pass.
Qed.

End theorems.

(** ** A concrete pass *)

(** The example cluster with a plan that allows everything. *)
Definition planned_world : World unit :=
  w_set_yts (λ y, mkYtsaurus (yts_Name y) (yts_Namespace y) (yts_Generation y)
    (spec_set_UpdatePlan [mkSelector ComponentClassEverything (mkComponent ComponentTypeEmpty "") None None]
       YtsaurusSpecZero)
    (yts_Status y)) example_world.

Lemma Reconcile_transitions_witness :
  allowed ClusterStatePreparing ClusterStateUpdating = true ∧
  GetClusterState (run (Reconcile (λ _, example_cm) "cluster.local" GetOK "" "" (λ _, None)) planned_world)
    = ClusterStateUpdating.
Proof.
  pose proof (Reconcile_transitions (λ _, example_cm) "cluster.local" (λ _, example_cm_frame)
    GetOK "" "" (λ _, None) planned_world) as H.
  split; [|vm_compute; reflexivity]. exact H.
Defined.

Lemma planned_world_ok : conditions_ok planned_world.
Proof. apply (bool_decide_unpack _). vm_compute. exact I. Qed.

Lemma Sync_starts_update_witness :
  GetUpdatingComponents (run (reconciler_Sync (λ _, example_cm) "cluster.local") planned_world) =
    [mkComponent DataNodeType "ssd"].
Proof.
  pose proof (Sync_starts_update (λ _, example_cm) "cluster.local" (λ _, example_cm_frame)
    planned_world planned_world_ok ltac:(done)) as [_ H].
  exact (proj1 (H ltac:(vm_compute; reflexivity))).
Defined.

Lemma Sync_keeps_conditions_witness :
  conditions_ok (run (reconciler_Sync (λ _, example_cm) "cluster.local") planned_world).
Proof.
  exact (Sync_keeps_conditions (λ _, example_cm) "cluster.local" (λ _, example_cm_frame)
    planned_world planned_world_ok).
Defined.

Lemma ready_pass_settles_witness :
  GetClusterState (run (reconcileReady (initialStatus ClusterShutdownNone)) planned_world) = ClusterStateRunning.
Proof.
  exact (proj1 (ready_pass_settles (initialStatus ClusterShutdownNone) planned_world
    (proj1 planned_world_ok) eq_refl)).
Defined.
