(* ===== verification/Releases.v ===== *)
(** * Releases of CHYT and SPYT, remote nodes (src/pkg/components/chyt.go, spyt.go,
    src/pkg/apiproxy/chyt.go, spyt.go, src/controllers/*_controller.go, *_sync.go)

    The smaller resources of the operator have one component each and no update flow.  A
    release of CHYT or SPYT goes through its steps once, records how far it is in its status
    and stops when it is finished; a group of remote nodes is synced on every pass and reports
    whether it is running.  The objects these resources own, their conditions and their events
    go through the same proxy as those of a cluster: in the world of the proxy the name, the
    generation and the conditions are those of the resource. *)

From S2P Require Import Prelude Kubernetes ApiTypes Labeller Status Checks CypressActions ApiProxy Resources ConfigMaps InitJob Components YtsaurusClient Master ComponentManager Reconciler.

Definition YTOperatorInstanceLabelName := "ytsaurus.tech/operator-instance".

(** ** Resources *)

Inductive ChytReleaseStatus : Type :=
  | ChytReleaseStatusNone | ChytReleaseStatusCreatingUserSecret | ChytReleaseStatusCreatingUser
  | ChytReleaseStatusUploadingIntoCypress | ChytReleaseStatusCreatingChPublicClique
  | ChytReleaseStatusFinished | ChytReleaseStatusOther (s : string).

Inductive SpytReleaseStatus : Type :=
  | SpytReleaseStatusNone | SpytReleaseStatusCreatingUserSecret | SpytReleaseStatusCreatingUser
  | SpytReleaseStatusUploadingIntoCypress | SpytReleaseStatusFinished | SpytReleaseStatusOther (s : string).

Inductive RemoteNodeReleaseStatus : Type :=
  | RemoteNodeReleaseStatusNone | RemoteNodeReleaseStatusPending | RemoteNodeReleaseStatusRunning
  | RemoteNodeReleaseStatusOther (s : string).

#[global] Instance ChytReleaseStatus_eq_dec : EqDecision ChytReleaseStatus.
Proof. solve_decision. Defined.
#[global] Instance SpytReleaseStatus_eq_dec : EqDecision SpytReleaseStatus.
Proof. solve_decision. Defined.
#[global] Instance RemoteNodeReleaseStatus_eq_dec : EqDecision RemoteNodeReleaseStatus.
Proof. solve_decision. Defined.

(** References to other resources are pointers to a name. *)
Record ChytSpec := mkChytSpec {
  chs_Ytsaurus : option string;
  chs_Image : string;
  chs_MakeDefault : bool;
  chs_CreatePublicClique : option bool;
}.

Record SpytSpec := mkSpytSpec {
  sps_Ytsaurus : option string;
  sps_Image : string;
  sps_SparkVersions : list string;
  sps_SparkDistribOffline : bool;
}.

(** The world of a resource: its proxy and the release status, which the component changes in
    memory and the controller saves. *)
Record ReleaseWorld (E R : Type) := mkReleaseWorld { rw_proxy : World E; rw_ReleaseStatus : R }.
Arguments mkReleaseWorld {E R} _ _.
Arguments rw_proxy {E R} _.
Arguments rw_ReleaseStatus {E R} _.

(** [client.Status().Update] of the resource. *)
Class ReleaseClient (E R : Type) := { release_Status_Update : Ytsaurus → R → go E (option error) }.

Abbreviation syncResult := (ComponentStatus * option error)%type.
Abbreviation outcome := (Result * option error)%type.

Section release_world.
Context {E R : Type} {MC : MetaConditions} {SC : StatusClient E} {RC : ReleaseClient E R}.

Abbreviation RW := (ReleaseWorld E R).

Definition in_proxy {A} (m : go (World E) A) : go RW A := λ rw,
  let '(x, w) := m (rw_proxy rw) in (x, mkReleaseWorld w (rw_ReleaseStatus rw)).

Definition set_ReleaseStatus (r : R) : go RW unit := modify (λ rw, mkReleaseWorld (rw_proxy rw) r).

(** [UpdateStatus] of the proxy of a release. *)
Definition release_UpdateStatus : go RW (option error) :=
  in_proxy updateOperatorVersion ;;
  owner ← gets (λ rw, w_yts (rw_proxy rw));
  status ← gets rw_ReleaseStatus;
  in_proxy (in_env (release_Status_Update owner status)).

Definition SaveReleaseStatus (r : R) : go RW (option error) :=
  set_ReleaseStatus r ;; release_UpdateStatus.

End release_world.

(** [BaseReconciler.ShouldIgnoreResource]. *)
Definition ShouldIgnoreResource (labels : gmap string string) (watchOperatorInstance : string) : bool :=
  default "" (labels !! YTOperatorInstanceLabelName) != watchOperatorInstance.

(** ** The components *)

Section components.
Context {E : Type} {MC : MetaConditions} {SC : StatusClient E} {CF : ConfigCodec} {CD : ClientDeps E}.
Context `{HKC : !KubeClient E ConfigMap} `{HKJ : !KubeClient E Job} `{HKS : !KubeClient E Secret}.

(** A token for the user of the release. *)
Definition write_token (l : Labeller) (secret : lens E (ManagedResource Secret)) : go (World E) (option error) :=
  secret_Build l secret ;;
  token ← in_env GenerateToken;
  in_resource secret (λ r, res_set_new
    (mkSecret (sec_meta (res_newObject r)) (sec_Type (res_newObject r)) (sec_Data (res_newObject r))
       {[ TokenSecretKey := token ]}) r) ;;
  resource_Sync secret.

Definition release_token (secret : lens E (ManagedResource Secret)) (w : World E) : string :=
  default "" (GetValue (OldObject secret w) TokenSecretKey).

(** *** CHYT *)

Record Chyt := mkChyt {
  ch_labeller : Labeller;
  ch_Spec : ChytSpec;
  ch_State : ClusterState;  (* Status.State of the cluster *)
  ch_StrawberryController : bool;  (* whether the cluster has one *)
  ch_secret : lens E (ManagedResource Secret);
  ch_initUser : InitJob (E:=E);
  ch_initEnvironment : InitJob (E:=E);
  ch_initChPublicJob : InitJob (E:=E);
}.

Definition chyt_createInitUserScript (c : Chyt) (w : World E) : string :=
  strings_Join (initJobWithNativeDriverPrologue ::
    createUserCommand sha256 "chyt_releaser" "" (release_token (ch_secret c) w) true) newline.

Definition chyt_createInitScript (spec : ChytSpec) : string :=
  "/setup_cluster_for_chyt.sh" +:+ (if chs_MakeDefault spec then " --make-default" else "").

Definition clique_option (option value : string) : string :=
  "yt clickhouse ctl set-option --alias ch_public " +:+ option +:+ " " +:+ value.

Definition createInitChPublicScript (httpProxiesAddress strawberryAddress : string) : string :=
  strings_Join
    [ initJobPrologue;
      "export YT_PROXY=" +:+ httpProxiesAddress +:+ " CHYT_CTL_ADDRESS=" +:+ strawberryAddress +:+ " YT_LOG_LEVEL=debug";
      "yt create scheduler_pool --attributes '{name=chyt; pool_tree=default}' --ignore-existing";
      "yt clickhouse ctl create ch_public || true";
      clique_option "pool" "chyt";
      clique_option "enable_geodata" "'%false'";
      clique_option "instance_cpu" "1";
      clique_option "instance_memory" ("'{reader=100000000;chunk_meta_cache=100000000;compressed_cache=100000000;" +:+
        "clickhouse=100000000;clickhouse_watermark=10;footprint=500000000;log_tailer=100000000;" +:+
        "watchdog_oom_watermark=0;watchdog_oom_window_watermark=0}'");
      clique_option "instance_count" "1";
      "yt set //sys/access_control_object_namespaces/chyt/ch_public/principal/@acl/end '{action=" +:+ quote +:+ "allow" +:+
        quote +:+ "; subjects=[" +:+ quote +:+ "everyone" +:+ quote +:+ ";]; permissions=[" +:+ quote +:+ "use" +:+ quote +:+
        ";]}'";
      "yt clickhouse ctl start ch_public" ] newline.

(** Whether the public clique is asked for and can be created. *)
Definition wants_clique (c : Chyt) : bool :=
  ch_StrawberryController c && Deref (chs_CreatePublicClique (ch_Spec c)) false.

Abbreviation CW := (ReleaseWorld E ChytReleaseStatus).

(** The variables added to the container of a job are not part of the model of a job. *)
Definition chyt_Sync (c : Chyt) (dry : bool) : go CW syncResult :=
  if ch_State c != ClusterStateRunning then mret (ComponentStatusBlockedBy "ytsaurus is not running", None) else
  need ← in_proxy (gets (λ w, secret_NeedSync (ch_secret c) w TokenSecretKey ""));
  name ← in_proxy (gets (λ w, res_name (resource (ch_secret c) w)));
  if need : bool then
    err ← (if dry then mret None else in_proxy (write_token (ch_labeller c) (ch_secret c)));
    set_ReleaseStatus ChytReleaseStatusCreatingUserSecret ;;
    mret (ComponentStatusWaitingFor name, err)
  else
  '(status, err) ← in_proxy (ij_Sync (ch_initUser c) dry);
  if cs_SyncStatus status != SyncStatusReady then
    set_ReleaseStatus ChytReleaseStatusCreatingUser ;; mret (status, err)
  else
  (if dry then mret tt else in_proxy (ij_Build (ch_initEnvironment c))) ;;
  '(status, err) ← in_proxy (ij_Sync (ch_initEnvironment c) dry);
  if (err != None) || (cs_SyncStatus status != SyncStatusReady) then
    set_ReleaseStatus ChytReleaseStatusUploadingIntoCypress ;; mret (status, err)
  else if wants_clique c then
    (if dry then mret tt else in_proxy (ij_Build (ch_initChPublicJob c))) ;;
    '(status, err) ← in_proxy (ij_Sync (ch_initChPublicJob c) dry);
    if (err != None) || (cs_SyncStatus status != SyncStatusReady) then
      set_ReleaseStatus ChytReleaseStatusCreatingChPublicClique ;; mret (status, err)
    else set_ReleaseStatus ChytReleaseStatusFinished ;; mret (ComponentStatusReady, err)
  else set_ReleaseStatus ChytReleaseStatusFinished ;; mret (ComponentStatusReady, err).

Definition chyt_Fetch (c : Chyt) : go CW (option error) :=
  in_proxy (resources_Fetch [Some (ij_Fetch (ch_initUser c)); Some (ij_Fetch (ch_initEnvironment c));
    Some (ij_Fetch (ch_initChPublicJob c)); Some (resource_Fetch (ch_secret c))]).

(** *** SPYT *)

Record Spyt := mkSpyt {
  sp_labeller : Labeller;
  sp_Spec : SpytSpec;
  sp_ytsaurusName : string;
  sp_State : ClusterState;
  sp_secret : lens E (ManagedResource Secret);
  sp_initUser : InitJob (E:=E);
  sp_initEnvironment : InitJob (E:=E);
}.

(** [ExtractImageTag] of the image library, empty when there is no tag. *)
Definition buildQueryTrackerDynamicConfigCommand (ExtractImageTag : string → string) (spec : SpytSpec) : string :=
  match sps_SparkVersions spec with
  | [] => ""
  | sparkVersion :: _ =>
      let spytVersion := ExtractImageTag (sps_Image spec) in
      if spytVersion == "" then "" else
      "/usr/bin/yt create document //sys/query_tracker/config --attributes '{value={}}' --recursive --ignore-existing" +:+
      newline +:+ "/usr/bin/yt set -r //sys/query_tracker/config/query_tracker/spyt_connect_engine '{spark_version=" +:+
      quote +:+ sparkVersion +:+ quote +:+ ";spyt_version=" +:+ quote +:+ spytVersion +:+ quote +:+ ";}'"
  end.

Definition spyt_createInitUserScript (ExtractImageTag : string → string) (s : Spyt) (w : World E) : string :=
  let commands := createUserCommand sha256 "spyt_releaser" "" (release_token (sp_secret s) w) true in
  let qtConfigCommand := buildQueryTrackerDynamicConfigCommand ExtractImageTag (sp_Spec s) in
  let commands := if qtConfigCommand != "" then commands ++ [qtConfigCommand] else commands in
  strings_Join (initJobWithNativeDriverPrologue :: commands) newline.

(** The variables of the container that uploads SPYT. *)
Definition spyt_env (spec : SpytSpec) (httpProxiesAddress : string) : list (string * string) :=
  [("YT_PROXY", httpProxiesAddress); ("EXTRA_PUBLISH_CLUSTER_OPTIONS", "--ignore-existing")] ++
  (if sps_SparkDistribOffline spec then [("SPARK_DISTRIB_OFFLINE", "true")] else []) ++
  (match sps_SparkVersions spec with
   | [] => []
   | versions => [("SPARK_DISTRIB_VERSIONS", strings_Join versions " ")]
   end).

Abbreviation SW := (ReleaseWorld E SpytReleaseStatus).

Definition spyt_Sync (s : Spyt) (dry : bool) : go SW syncResult :=
  if sp_State s != ClusterStateRunning then mret (ComponentStatusBlockedBy (sp_ytsaurusName s), None) else
  release ← gets rw_ReleaseStatus;
  if release == SpytReleaseStatusFinished then mret (ComponentStatusReady, None) else
  need ← in_proxy (gets (λ w, secret_NeedSync (sp_secret s) w TokenSecretKey ""));
  name ← in_proxy (gets (λ w, res_name (resource (sp_secret s) w)));
  if need : bool then
    err ← (if dry then mret None else in_proxy (write_token (sp_labeller s) (sp_secret s)));
    set_ReleaseStatus SpytReleaseStatusCreatingUserSecret ;;
    mret (ComponentStatusWaitingFor name, err)
  else
  '(status, err) ← in_proxy (ij_Sync (sp_initUser s) dry);
  if cs_SyncStatus status != SyncStatusReady then
    set_ReleaseStatus SpytReleaseStatusCreatingUser ;; mret (status, err)
  else
  (if dry then mret tt else in_proxy (ij_Build (sp_initEnvironment s))) ;;
  '(status, err) ← in_proxy (ij_Sync (sp_initEnvironment s) dry);
  if cs_SyncStatus status != SyncStatusReady then
    set_ReleaseStatus SpytReleaseStatusUploadingIntoCypress ;; mret (status, err)
  else set_ReleaseStatus SpytReleaseStatusFinished ;; mret (ComponentStatusReady, None).

Definition spyt_Fetch (s : Spyt) : go SW (option error) :=
  in_proxy (resources_Fetch [Some (ij_Fetch (sp_initUser s)); Some (ij_Fetch (sp_initEnvironment s));
    Some (resource_Fetch (sp_secret s))]).

End components.

(** ** The controllers of releases *)

Section release_controllers.
Context {E R : Type} `{HR : EqDecision R} {MC : MetaConditions} {SC : StatusClient E} {RC : ReleaseClient E R}.
Context (finished : R).

Abbreviation RW := (ReleaseWorld E R).

(** The two controllers are the same code over their component. *)
Definition release_Sync (labels : gmap string string) (watchOperatorInstance : string)
    (fetch : go RW (option error)) (sync : bool → go RW syncResult) : go RW outcome :=
  if ShouldIgnoreResource labels watchOperatorInstance then mret (mkResult false 60, None) else
  err ← fetch;
  match err with
  | Some err => mret (mkResult true 0, Some err)
  | None =>
      release ← gets rw_ReleaseStatus;
      if release == finished then mret (mkResult false 0, None) else
      '(status, err) ← sync true;
      if (err != None) || (cs_SyncStatus status == SyncStatusBlocked) then mret (mkResult false 10, err)
      else if cs_SyncStatus status == SyncStatusReady then
        err ← SaveReleaseStatus finished; mret (mkResult true 0, err)
      else
      '(_, err) ← sync false;
      match err with
      | Some err => mret (mkResult true 0, Some err)
      | None => err ← release_UpdateStatus; mret (mkResult true 0, err)
      end
  end.

(** [Reconcile]: the outcomes of the two requests are arguments; [None] is the panic of a
    dereference of the nil reference to the cluster. *)
Definition release_Reconcile (got : GetResult) (ytsaurusRef : option string) (gotYtsaurus : string → GetResult)
    (sync : go RW outcome) : go RW (option outcome) :=
  match got with
  | GetNotFound => mret (Some (mkResult false 0, None))
  | GetError e => mret (Some (mkResult false 0, Some e))
  | GetOK =>
      match ytsaurusRef with
      | None => mret None
      | Some name =>
          match gotYtsaurus name with
          | GetOK => out ← sync; mret (Some out)
          | GetNotFound => mret (Some (mkResult false 10, Some ("resource " +:+ name +:+ " not found")))
          | GetError e => mret (Some (mkResult false 10, Some e))
          end
      end
  end.

End release_controllers.

Section chyt_spyt.
Context {E : Type} {MC : MetaConditions} {SC : StatusClient E} {CF : ConfigCodec} {CD : ClientDeps E}.
Context `{HKC : !KubeClient E ConfigMap} `{HKJ : !KubeClient E Job} `{HKS : !KubeClient E Secret}.
Context {RCC : ReleaseClient E ChytReleaseStatus} {RCS : ReleaseClient E SpytReleaseStatus}.

Definition ChytReconciler_Sync (labels : gmap string string) (watch : string) (c : Chyt (E:=E))
    : go (ReleaseWorld E ChytReleaseStatus) outcome :=
  release_Sync ChytReleaseStatusFinished labels watch (chyt_Fetch c) (chyt_Sync c).

Definition ChytReconciler_Reconcile (got : GetResult) (gotYtsaurus : string → GetResult) (labels : gmap string string)
    (watch : string) (c : Chyt (E:=E)) : go (ReleaseWorld E ChytReleaseStatus) (option outcome) :=
  release_Reconcile got (chs_Ytsaurus (ch_Spec c)) gotYtsaurus (ChytReconciler_Sync labels watch c).

Definition SpytReconciler_Sync (labels : gmap string string) (watch : string) (s : Spyt (E:=E))
    : go (ReleaseWorld E SpytReleaseStatus) outcome :=
  release_Sync SpytReleaseStatusFinished labels watch (spyt_Fetch s) (spyt_Sync s).

Definition SpytReconciler_Reconcile (got : GetResult) (gotYtsaurus : string → GetResult) (labels : gmap string string)
    (watch : string) (s : Spyt (E:=E)) : go (ReleaseWorld E SpytReleaseStatus) (option outcome) :=
  release_Reconcile got (sps_Ytsaurus (sp_Spec s)) gotYtsaurus (SpytReconciler_Sync labels watch s).

End chyt_spyt.

(** ** Remote nodes and gateways *)

Section remote.
Context {E : Type} {MC : MetaConditions} {SC : StatusClient E} {RC : ReleaseClient E RemoteNodeReleaseStatus}.

Abbreviation NW := (ReleaseWorld E RemoteNodeReleaseStatus).

(** The pass the four controllers share; [observe] records the observed generation. *)
Definition remote_pass (observe : go NW unit) (labels : gmap string string) (watchOperatorInstance : string)
    (component : ComponentI (World E)) : go NW outcome :=
  if ShouldIgnoreResource labels watchOperatorInstance then mret (mkResult false 60, None) else
  err ← in_proxy (ci_Fetch component);
  match err with
  | Some err => mret (mkResult true 0, Some err)
  | None =>
      '(status, err) ← in_proxy (ci_Sync component false);
      match err with
      | Some err => mret (mkResult true 0, Some err)
      | None =>
          let requeue := cs_SyncStatus status != SyncStatusReady in
          set_ReleaseStatus (if requeue then RemoteNodeReleaseStatusPending else RemoteNodeReleaseStatusRunning) ;;
          observe ;;
          owner ← gets (λ rw, w_yts (rw_proxy rw));
          release ← gets rw_ReleaseStatus;
          err ← in_proxy (in_env (release_Status_Update owner release));
          match err with
          | Some err => mret (mkResult true 0, Some err)
          | None => mret (mkResult requeue 0, None)
          end
      end
  end.

Definition RemoteExecNodesReconciler_Sync := remote_pass (in_proxy SyncObservedGeneration ;; mret tt).
Definition RemoteDataNodesReconciler_Sync := remote_pass (in_proxy SyncObservedGeneration ;; mret tt).
Definition RemoteTabletNodesReconciler_Sync := remote_pass (in_proxy SyncObservedGeneration ;; mret tt).

(** Gateways set the field only. *)
Definition OffshoreDataGatewaysReconciler_Sync := remote_pass (in_proxy (modify (λ w,
  w_set_status (st_set_ObservedGeneration (yts_Generation (w_yts w))) w))).

(** [Reconcile] of the four controllers; the reference is that to the remote cluster. *)
Definition RemoteExecNodesReconciler_Reconcile (got : GetResult) (remoteClusterSpec : option string)
    (gotRemote : string → GetResult) (labels : gmap string string) (watch : string) (component : ComponentI (World E))
    : go NW (option outcome) :=
  release_Reconcile got remoteClusterSpec gotRemote (RemoteExecNodesReconciler_Sync labels watch component).

Definition RemoteDataNodesReconciler_Reconcile (got : GetResult) (remoteClusterSpec : option string)
    (gotRemote : string → GetResult) (labels : gmap string string) (watch : string) (component : ComponentI (World E))
    : go NW (option outcome) :=
  release_Reconcile got remoteClusterSpec gotRemote (RemoteDataNodesReconciler_Sync labels watch component).

Definition RemoteTabletNodesReconciler_Reconcile (got : GetResult) (remoteClusterSpec : option string)
    (gotRemote : string → GetResult) (labels : gmap string string) (watch : string) (component : ComponentI (World E))
    : go NW (option outcome) :=
  release_Reconcile got remoteClusterSpec gotRemote (RemoteTabletNodesReconciler_Sync labels watch component).

Definition OffshoreDataGatewaysReconciler_Reconcile (got : GetResult) (remoteClusterSpec : option string)
    (gotRemote : string → GetResult) (labels : gmap string string) (watch : string) (component : ComponentI (World E))
    : go NW (option outcome) :=
  release_Reconcile got remoteClusterSpec gotRemote (OffshoreDataGatewaysReconciler_Sync labels watch component).

End remote.

(** *** Watching the remote cluster *)

Record RemoteNodes := mkRemoteNodes { rn_Namespace : string; rn_Name : string; rn_RemoteClusterSpec : option string }.

(** The index over the field [remoteClusterSpec]. *)
Definition remote_index (n : RemoteNodes) : list string :=
  match rn_RemoteClusterSpec n with None => [] | Some name => [name] end.

(** [findRemoteNodesForRemoteYtsaurus]: the requests, as names in a namespace. *)
Definition findRemoteNodesForRemoteYtsaurus (List_ : string → string → error + list RemoteNodes)
    (remoteName remoteNamespace : string) : list (string * string) :=
  match List_ remoteName remoteNamespace with
  | inl _ => []
  | inr items => (λ item, (rn_Name item, rn_Namespace item)) <$> items
  end.

Definition findRemoteGatewaysForRemoteYtsaurus := findRemoteNodesForRemoteYtsaurus.

(** ** Soundness of releases *)

Section release_facts.
Context {E R : Type} `{HR : EqDecision R} {MC : MetaConditions} {SC : StatusClient E} {RC : ReleaseClient E R}.

Abbreviation RW := (ReleaseWorld E R).
Implicit Types rw : RW.

Lemma val_in_proxy {A} (m : go (World E) A) rw : val_of (in_proxy m) rw = val_of m (rw_proxy rw).
Proof. unfold val_of, in_proxy. by destruct (m (rw_proxy rw)). Qed.

Lemma run_in_proxy {A} (m : go (World E) A) rw :
  run (in_proxy m) rw = mkReleaseWorld (run m (rw_proxy rw)) (rw_ReleaseStatus rw).
Proof. unfold run, in_proxy. by destruct (m (rw_proxy rw)). Qed.

Lemma run_set_ReleaseStatus (r : R) rw : run (set_ReleaseStatus r) rw = mkReleaseWorld (rw_proxy rw) r.
Proof. done. Qed.

Lemma release_UpdateStatus_status rw : rw_ReleaseStatus (run release_UpdateStatus rw) = rw_ReleaseStatus rw.
Proof. unfold release_UpdateStatus. go_step. by rewrite !run_in_proxy. Qed.

(** What a component promises to the controller of its release, [done] being the state in which
    the release may be called finished. *)
Class ReleaseComponent (finished : R) (fetch : go RW (option error)) (sync : bool → go RW syncResult)
    (done_ : World E → Prop) : Prop := {
  rc_fetch : ∀ rw, rw_ReleaseStatus (run fetch rw) = rw_ReleaseStatus rw;
  rc_dry : ∀ rw, rw_proxy (run (sync true) rw) = rw_proxy rw;
  rc_status : ∀ dry rw, rw_ReleaseStatus (run (sync dry) rw) = finished →
    rw_ReleaseStatus rw = finished ∨ done_ (rw_proxy rw);
  rc_ready : ∀ dry rw, cs_SyncStatus (val_of (sync dry) rw).1 = SyncStatusReady →
    rw_ReleaseStatus rw = finished ∨ done_ (rw_proxy rw);
}.

Lemma release_Sync_sound finished fetch sync done_ `{!ReleaseComponent finished fetch sync done_} labels watch rw :
  rw_ReleaseStatus rw ≠ finished →
  rw_ReleaseStatus (run (release_Sync finished labels watch fetch sync) rw) = finished →
  ShouldIgnoreResource labels watch = false ∧ val_of fetch rw = None ∧ done_ (rw_proxy (run fetch rw)).
Proof.
  intros Hne. unfold release_Sync. destruct (ShouldIgnoreResource labels watch); [done|]. go_step.
  destruct (val_of fetch rw) as [e|]; go_step; [by rewrite rc_fetch|]. rewrite rc_fetch.
  rewrite bool_decide_eq_false_2 by done. set (rw1 := run fetch rw).
  assert (rw_ReleaseStatus rw1 ≠ finished) as Hne1 by (subst rw1; by rewrite rc_fetch).
  pose proof (rc_status true rw1) as Hst. pose proof (rc_ready true rw1) as Hrd. go_step.
  destruct (val_of (sync true) rw1) as [status err]. cbn [fst] in Hrd.
  destruct (_ || _); go_step; [intros [?|?]%Hst; by split_and!|].
  destruct (bool_decide_reflect (cs_SyncStatus status = SyncStatusReady)) as [Hr|Hr].
  { intros _. destruct (Hrd Hr); by split_and!. }
  go_step. set (rw2 := run (sync true) rw1). pose proof (rc_status false rw2) as Hst2.
  assert (rw_ReleaseStatus (run (sync false) rw2) = finished → done_ (rw_proxy rw1)) as Hfin.
  { intros [H|H]%Hst2; [by apply Hst in H as [?|?]|]. subst rw2. by rewrite rc_dry in H. }
  destruct (val_of (sync false) rw2) as [status2 [err2|]]; go_step; [|rewrite release_UpdateStatus_status];
    intros H; split_and!; try done; by apply Hfin.
Qed.

(** A release that is finished is left alone: the controller fetches its objects and returns
    without asking to be called again. *)
Lemma release_Sync_finished finished fetch sync done_ `{!ReleaseComponent finished fetch sync done_} labels watch rw :
  rw_ReleaseStatus rw = finished → ShouldIgnoreResource labels watch = false → val_of fetch rw = None →
  release_Sync finished labels watch fetch sync rw = ((mkResult false 0, None), run fetch rw).
Proof.
  intros Hf Hi Hok. unfold release_Sync. rewrite Hi, go_eta. go_step. rewrite Hok. go_step.
  by rewrite rc_fetch, Hf, bool_decide_eq_true_2.
Qed.

End release_facts.

(** *** The two releases *)

Section sound.
Context {E : Type} {MC : MetaConditions} {SC : StatusClient E} {CF : ConfigCodec} {CD : ClientDeps E}.
Context `{HKC : !KubeClient E ConfigMap} `{HKJ : !KubeClient E Job} `{HKS : !KubeClient E Secret}.
Context {RCC : ReleaseClient E ChytReleaseStatus} {RCS : ReleaseClient E SpytReleaseStatus}.

Implicit Types (w : World E) (c : Chyt (E:=E)) (s : Spyt (E:=E)).

(** A job whose completion is recorded in the conditions of the resource. *)
Definition job_done (j : InitJob (E:=E)) w : Prop := IsStatusConditionTrue w (ij_statusCondition j) = true.

Lemma job_done_same j w w' : w_yts w' = w_yts w → job_done j w' → job_done j w.
Proof. unfold job_done, IsStatusConditionTrue, w_status. by intros ->. Qed.

Lemma ij_Sync_Ready j dry w :
  cs_SyncStatus (val_of (ij_Sync j dry) w).1 = SyncStatusReady →
  job_done j w ∧ run (ij_Sync j dry) w = w ∧ (val_of (ij_Sync j dry) w).2 = None.
Proof.
  intros Hr. assert (IsReady (val_of (ij_Sync j dry) w).1 = true) as Hr' by by apply bool_decide_eq_true_2.
  apply ij_Sync_ready in Hr' as (He & cd & Hc & Hreason & Hst). split.
  - unfold job_done, IsStatusConditionTrue, meta_IsStatusConditionTrue, meta_IsStatusConditionPresentAndEqual.
    unfold GetStatusCondition in Hc. rewrite Hc, Hst. by apply bool_decide_eq_true_2.
  - unfold ij_Sync. go_step. rewrite Hc, He, Hreason, Hst. by rewrite !bool_decide_eq_true_2.
Qed.

(** When CHYT may be called released. *)
Definition chyt_released c w : Prop :=
  ch_State c = ClusterStateRunning ∧ secret_NeedSync (ch_secret c) w TokenSecretKey "" = false ∧
  job_done (ch_initUser c) w ∧ job_done (ch_initEnvironment c) w ∧
  (wants_clique c = true → job_done (ch_initChPublicJob c) w).

Definition spyt_released s w : Prop :=
  sp_State s = ClusterStateRunning ∧ secret_NeedSync (sp_secret s) w TokenSecretKey "" = false ∧
  job_done (sp_initUser s) w ∧ job_done (sp_initEnvironment s) w.

#[local] Hint Rewrite @val_in_proxy @run_in_proxy @run_set_ReleaseStatus : go.
Ltac release_step := go_step; cbn [rw_proxy rw_ReleaseStatus fst snd].

Lemma Build_if_yts (dry : bool) j w : w_yts (run (if dry then mret tt else ij_Build j) w) = w_yts w.
Proof. destruct dry; [done|]. apply ij_Build_yts. Qed.

(** Building the next job does not undo the evidence for it. *)
Lemma next_job (R : Type) (dry : bool) j (rw : ReleaseWorld E R) :
  ∃ w', run (if dry then mret tt else in_proxy (ij_Build j)) rw = mkReleaseWorld w' (rw_ReleaseStatus rw) ∧
    w_yts w' = w_yts (rw_proxy rw) ∧ (dry = true → w' = rw_proxy rw).
Proof.
  destruct dry.
  - exists (rw_proxy rw). by destruct rw.
  - rewrite run_in_proxy. eexists. split_and!; [done| |done]. apply ij_Build_yts.
Qed.

Lemma chyt_Sync_cases c dry (rw : ReleaseWorld E ChytReleaseStatus) :
  let r := rw_ReleaseStatus (run (chyt_Sync c dry) rw) in
  let status := (val_of (chyt_Sync c dry) rw).1 in
  (r = rw_ReleaseStatus rw ∧ cs_SyncStatus status = SyncStatusBlocked) ∨
  (r ≠ ChytReleaseStatusFinished ∧ cs_SyncStatus status ≠ SyncStatusReady) ∨ chyt_released c (rw_proxy rw).
Proof.
  unfold chyt_Sync. destruct (bool_decide_reflect (ch_State c = ClusterStateRunning)) as [Hrun|]; [|by left].
  cbn [negb]. release_step. right. destruct (secret_NeedSync _ _ _ _) eqn:Hneed.
  { left. by destruct dry; release_step. }
  release_step. pose proof (ij_Sync_Ready (ch_initUser c) dry (rw_proxy rw)) as Huser.
  destruct (val_of (ij_Sync (ch_initUser c) dry) (rw_proxy rw)) as [status err]. cbn [fst] in Huser.
  destruct (bool_decide_reflect (cs_SyncStatus status = SyncStatusReady)) as [Hr|]; [|left; by release_step].
  destruct (Huser Hr) as (Hu & -> & _). cbn [negb]. release_step.
  destruct (next_job _ dry (ch_initEnvironment c) (mkReleaseWorld (rw_proxy rw) (rw_ReleaseStatus rw))) as (w1 & -> & Hy1 & _).
  release_step. pose proof (ij_Sync_Ready (ch_initEnvironment c) dry w1) as Henv.
  destruct (val_of (ij_Sync (ch_initEnvironment c) dry) w1) as [status1 err1]. cbn [fst snd] in Henv.
  destruct (bool_decide_reflect (cs_SyncStatus status1 = SyncStatusReady)) as [Hr1|];
    [|left; rewrite orb_true_r; by release_step].
  destruct (Henv Hr1) as (He & -> & ->). apply (job_done_same _ _ _ Hy1) in He. cbn [negb orb].
  rewrite bool_decide_eq_true_2 by done. cbn [negb orb rw_proxy] in *.
  destruct (wants_clique c) eqn:Hclique; [|right; split_and!; try done; congruence]. release_step.
  destruct (next_job _ dry (ch_initChPublicJob c) (mkReleaseWorld w1 (rw_ReleaseStatus rw))) as (w2 & -> & Hy2 & _).
  release_step. pose proof (ij_Sync_Ready (ch_initChPublicJob c) dry w2) as Hcl.
  destruct (val_of (ij_Sync (ch_initChPublicJob c) dry) w2) as [status2 err2]. cbn [fst snd] in Hcl.
  destruct (bool_decide_reflect (cs_SyncStatus status2 = SyncStatusReady)) as [Hr2|];
    [|left; rewrite orb_true_r; by release_step].
  right. destruct (Hcl Hr2) as (Hc & _). apply (job_done_same _ _ _ Hy2), (job_done_same _ _ _ Hy1) in Hc.
  by split_and!.
Qed.

Lemma spyt_Sync_cases s dry (rw : ReleaseWorld E SpytReleaseStatus) :
  let r := rw_ReleaseStatus (run (spyt_Sync s dry) rw) in
  let status := (val_of (spyt_Sync s dry) rw).1 in
  (r = rw_ReleaseStatus rw ∧ cs_SyncStatus status = SyncStatusBlocked) ∨
  (r ≠ SpytReleaseStatusFinished ∧ cs_SyncStatus status ≠ SyncStatusReady) ∨
  rw_ReleaseStatus rw = SpytReleaseStatusFinished ∨ spyt_released s (rw_proxy rw).
Proof.
  unfold spyt_Sync. destruct (bool_decide_reflect (sp_State s = ClusterStateRunning)) as [Hrun|]; [|by left].
  cbn [negb]. release_step. right.
  destruct (bool_decide_reflect (rw_ReleaseStatus rw = SpytReleaseStatusFinished)) as [|Hnf]; [by right; left|].
  release_step. destruct (secret_NeedSync _ _ _ _) eqn:Hneed.
  { left. by destruct dry; release_step. }
  release_step. pose proof (ij_Sync_Ready (sp_initUser s) dry (rw_proxy rw)) as Huser.
  destruct (val_of (ij_Sync (sp_initUser s) dry) (rw_proxy rw)) as [status err]. cbn [fst] in Huser.
  destruct (bool_decide_reflect (cs_SyncStatus status = SyncStatusReady)) as [Hr|]; [|left; by release_step].
  destruct (Huser Hr) as (Hu & -> & _). cbn [negb]. release_step.
  destruct (next_job _ dry (sp_initEnvironment s) (mkReleaseWorld (rw_proxy rw) (rw_ReleaseStatus rw))) as (w1 & -> & Hy1 & _).
  release_step. pose proof (ij_Sync_Ready (sp_initEnvironment s) dry w1) as Henv.
  destruct (val_of (ij_Sync (sp_initEnvironment s) dry) w1) as [status1 err1]. cbn [fst] in Henv.
  destruct (bool_decide_reflect (cs_SyncStatus status1 = SyncStatusReady)) as [Hr1|]; [|left; by release_step].
  right. right. destruct (Henv Hr1) as (He & _). apply (job_done_same _ _ _ Hy1) in He. by split_and!.
Qed.

(** *** A dry pass only notes how far the release is *)

Lemma chyt_Sync_dry c (rw : ReleaseWorld E ChytReleaseStatus) : rw_proxy (run (chyt_Sync c true) rw) = rw_proxy rw.
Proof.
  unfold chyt_Sync. repeat first [progress release_step | rewrite ij_Sync_dry | case_match]; done.
Qed.

Lemma spyt_Sync_dry s (rw : ReleaseWorld E SpytReleaseStatus) : rw_proxy (run (spyt_Sync s true) rw) = rw_proxy rw.
Proof.
  unfold spyt_Sync. repeat first [progress release_step | rewrite ij_Sync_dry | case_match]; done.
Qed.

#[export] Instance chyt_component c :
  ReleaseComponent ChytReleaseStatusFinished (chyt_Fetch c) (chyt_Sync c) (chyt_released c).
Proof.
  split; [intros rw; unfold chyt_Fetch; by rewrite run_in_proxy|apply chyt_Sync_dry| |]; intros dry rw H;
    destruct (chyt_Sync_cases c dry rw) as [[Hr Hs]|[[Hr Hs]|Hd]]; first [by auto | left; congruence | congruence].
Qed.

#[export] Instance spyt_component s :
  ReleaseComponent SpytReleaseStatusFinished (spyt_Fetch s) (spyt_Sync s) (spyt_released s).
Proof.
  split; [intros rw; unfold spyt_Fetch; by rewrite run_in_proxy|apply spyt_Sync_dry| |]; intros dry rw H;
    destruct (spyt_Sync_cases s dry rw) as [[Hr Hs]|[[Hr Hs]|[Hd|Hd]]]; first [by auto | left; congruence | congruence].
Qed.

(** C27. A release of CHYT is called finished only when it is: a pass of its controller that
    turns the release status to finished belongs to this operator, could fetch the objects of
    the release, found the cluster running, the token of the releaser stored, and recorded in
    the conditions the completion of the job that creates the user, of the job that uploads
    CHYT and, when a public clique is asked for and can be created, of the job that creates
    it. *)
Theorem chyt_release_sound labels watch c (rw : ReleaseWorld E ChytReleaseStatus) :
  rw_ReleaseStatus rw ≠ ChytReleaseStatusFinished →
  rw_ReleaseStatus (run (ChytReconciler_Sync labels watch c) rw) = ChytReleaseStatusFinished →
  ShouldIgnoreResource labels watch = false ∧ val_of (chyt_Fetch c) rw = None ∧
  chyt_released c (rw_proxy (run (chyt_Fetch c) rw)).
Proof. apply release_Sync_sound. apply _. Qed.

(** The same for SPYT. *)
Theorem spyt_release_sound labels watch s (rw : ReleaseWorld E SpytReleaseStatus) :
  rw_ReleaseStatus rw ≠ SpytReleaseStatusFinished →
  rw_ReleaseStatus (run (SpytReconciler_Sync labels watch s) rw) = SpytReleaseStatusFinished →
  ShouldIgnoreResource labels watch = false ∧ val_of (spyt_Fetch s) rw = None ∧
  spyt_released s (rw_proxy (run (spyt_Fetch s) rw)).
Proof. apply release_Sync_sound. apply _. Qed.

End sound.

(** ** Remote nodes report their state *)

Section remote_facts.
Context {E : Type} {MC : MetaConditions} {SC : StatusClient E} {RC : ReleaseClient E RemoteNodeReleaseStatus}.

#[local] Hint Rewrite @val_in_proxy @run_in_proxy @run_set_ReleaseStatus : go.

Lemma SyncObservedGeneration_observes (w : World E) :
  st_ObservedGeneration (w_status (run SyncObservedGeneration w)) = yts_Generation (w_yts w).
Proof.
  assert (∀ w' : World E, st_ObservedGeneration (w_status (run updateOperatorVersion w')) =
    st_ObservedGeneration (w_status w')) as Hv.
  { intros w'. unfold run, updateOperatorVersion. by destruct (meta_SetStatusCondition _ _ _). }
  unfold SyncObservedGeneration. go_step. rewrite Hv. unfold run, observeGeneration.
  by destruct (bool_decide_reflect (st_ObservedGeneration (w_status w) = yts_Generation (w_yts w))).
Qed.

(** A pass over remote exec, data or tablet nodes that ends without an error saves a status
    that is true: it says running exactly when the component reported ready, carries the
    generation that was observed, and is the last thing the pass does; the pass asks to be
    repeated exactly when the component is not ready.  When the resource belongs to another
    operator, or the objects of the component cannot be fetched or synced, no status is
    saved. *)
Theorem remote_pass_reports labels watch (component : ComponentI (World E)) (rw : ReleaseWorld E RemoteNodeReleaseStatus) :
  let pass := RemoteExecNodesReconciler_Sync labels watch component in
  let w1 := run (ci_Fetch component) (rw_proxy rw) in
  let w2 := run (ci_Sync component false) w1 in
  let w3 := run SyncObservedGeneration w2 in
  let ready := cs_SyncStatus (val_of (ci_Sync component false) w1).1 == SyncStatusReady in
  let release := if ready then RemoteNodeReleaseStatusRunning else RemoteNodeReleaseStatusPending in
  if ShouldIgnoreResource labels watch then run pass rw = rw else
  match val_of (ci_Fetch component) (rw_proxy rw), (val_of (ci_Sync component false) w1).2 with
  | Some err, _ => val_of pass rw = (mkResult true 0, Some err) ∧ run pass rw = mkReleaseWorld w1 (rw_ReleaseStatus rw)
  | None, Some err => val_of pass rw = (mkResult true 0, Some err) ∧ run pass rw = mkReleaseWorld w2 (rw_ReleaseStatus rw)
  | None, None =>
      st_ObservedGeneration (w_status w3) = yts_Generation (w_yts w2) ∧
      run pass rw = mkReleaseWorld (run (in_env (release_Status_Update (w_yts w3) release)) w3) release ∧
      val_of pass rw =
        match val_of (release_Status_Update (w_yts w3) release) (w_env w3) with
        | Some err => (mkResult true 0, Some err)
        | None => (mkResult (negb ready) 0, None)
        end
  end.
Proof.
  cbv zeta. unfold RemoteExecNodesReconciler_Sync, remote_pass. destruct (ShouldIgnoreResource labels watch); [done|].
  go_step. destruct (val_of (ci_Fetch component) (rw_proxy rw)) as [e|] eqn:Hf; [done|]. go_step.
  cbn [rw_proxy rw_ReleaseStatus].
  destruct (val_of (ci_Sync component false) (run (ci_Fetch component) (rw_proxy rw))) as [status [e|]] eqn:Hs;
    cbn [fst snd]; [done|].
  go_step. cbn [rw_proxy rw_ReleaseStatus]. split; [apply SyncObservedGeneration_observes|].
  destruct (bool_decide_reflect (cs_SyncStatus status = SyncStatusReady)); cbn [negb rw_ReleaseStatus rw_proxy];
    rewrite !val_in_env; by destruct (val_of (release_Status_Update _ _) _).
Qed.

End remote_facts.

(** The watch on a remote cluster wakes exactly the nodes that refer to it, when the server
    answers by the index. *)
Lemma remote_watch_exact List_ (all : list RemoteNodes) name ns :
  List_ name ns = inr (filter (λ n, rn_Namespace n = ns ∧ name ∈ remote_index n) all) →
  ∀ r, r ∈ findRemoteNodesForRemoteYtsaurus List_ name ns ↔
    ∃ n, n ∈ all ∧ r = (rn_Name n, ns) ∧ rn_Namespace n = ns ∧ rn_RemoteClusterSpec n = Some name.
Proof.
  intros Hl r. unfold findRemoteNodesForRemoteYtsaurus. rewrite Hl, list_elem_of_fmap.
  setoid_rewrite list_elem_of_filter. unfold remote_index. split.
  - intros (n & -> & [Hns Hin] & Hn). exists n. destruct (rn_RemoteClusterSpec n) as [x|].
    + apply list_elem_of_singleton in Hin as ->. by rewrite Hns.
    + by apply elem_of_nil in Hin.
  - intros (n & Hn & -> & Hns & Hx). exists n. rewrite Hx, Hns. split_and!; try done. by left.
Qed.

(** A CHYT resource without a reference to a cluster, which its schema allows, makes the
    controller dereference a nil pointer. *)
Lemma chyt_without_ytsaurus_panics {E : Type} {MC : MetaConditions} {SC : StatusClient E} {CF : ConfigCodec}
    {CD : ClientDeps E} `{!KubeClient E ConfigMap} `{!KubeClient E Job} `{!KubeClient E Secret}
    {RCC : ReleaseClient E ChytReleaseStatus} gotYtsaurus labels watch (c : Chyt (E:=E)) rw :
  chs_Ytsaurus (ch_Spec c) = None → ChytReconciler_Reconcile GetOK gotYtsaurus labels watch c rw = (None, rw).
Proof. intros Hn. unfold ChytReconciler_Reconcile, release_Reconcile. by rewrite Hn. Qed.

(** ** A release on a small Kubernetes *)

(** Objects by name, and the memory of each job. *)
Record RelKube := mkRelKube {
  rk_jobs : gmap string Job;
  rk_cms : gmap string ConfigMap;
  rk_secrets : gmap string Secret;
  rk_cells : list JobKube;
  rk_secret : ManagedResource Secret;
}.

Definition map_Get {T} (m : gmap string T) (n : string) : apierror + T :=
  match m !! n with Some o => inr o | None => inl NotFound end.

Definition rk_set_jobs m e := mkRelKube m (rk_cms e) (rk_secrets e) (rk_cells e) (rk_secret e).
Definition rk_set_cms m e := mkRelKube (rk_jobs e) m (rk_secrets e) (rk_cells e) (rk_secret e).
Definition rk_set_secrets m e := mkRelKube (rk_jobs e) (rk_cms e) m (rk_cells e) (rk_secret e).

#[export] Instance rk_job_client : KubeClient RelKube Job := {
  client_Get n e := (map_Get (rk_jobs e) n, e);
  client_Create o e := ((None, o), rk_set_jobs (<[GetName o := SetResourceVersion "1" o]> (rk_jobs e)) e);
  client_Update o e := ((None, o), rk_set_jobs (<[GetName o := SetResourceVersion "1" o]> (rk_jobs e)) e);
  client_Delete o e := (None, rk_set_jobs (delete (GetName o) (rk_jobs e)) e);
  SetControllerReference _ o := inr o;
}.
#[export] Instance rk_cm_client : KubeClient RelKube ConfigMap := {
  client_Get n e := (map_Get (rk_cms e) n, e);
  client_Create o e := ((None, o), rk_set_cms (<[GetName o := SetResourceVersion "1" o]> (rk_cms e)) e);
  client_Update o e := ((None, o), rk_set_cms (<[GetName o := SetResourceVersion "1" o]> (rk_cms e)) e);
  client_Delete o e := (None, rk_set_cms (delete (GetName o) (rk_cms e)) e);
  SetControllerReference _ o := inr o;
}.
#[export] Instance rk_secret_client : KubeClient RelKube Secret := {
  client_Get n e := (map_Get (rk_secrets e) n, e);
  client_Create o e := ((None, o), rk_set_secrets (<[GetName o := SetResourceVersion "1" o]> (rk_secrets e)) e);
  client_Update o e := ((None, o), rk_set_secrets (<[GetName o := SetResourceVersion "1" o]> (rk_secrets e)) e);
  client_Delete o e := (None, rk_set_secrets (delete (GetName o) (rk_secrets e)) e);
  SetControllerReference _ o := inr o;
}.
#[export] Instance rk_status : StatusClient RelKube := { Status_Update _ e := (None, e); GetVersion := "1" }.
#[export] Instance rk_release {R} : ReleaseClient RelKube R := { release_Status_Update _ _ e := (None, e) }.
#[export] Instance rk_deps : ClientDeps RelKube :=
  {| GenerateToken := mret "token"; NewClient := mret None; sha256 s := s; caller line := fmt_d line |}.

Definition rk_cell (i : nat) {A} (k : lens JobKube A) : lens RelKube A :=
  mkLens (λ e, lget k (default example_job_env (rk_cells e !! i)))
    (λ a e, mkRelKube (rk_jobs e) (rk_cms e) (rk_secrets e)
       (<[i := lset k a (default example_job_env (rk_cells e !! i))]> (rk_cells e)) (rk_secret e)).

Definition rk_secret_cell : lens RelKube (ManagedResource Secret) :=
  mkLens rk_secret (λ a e, mkRelKube (rk_jobs e) (rk_cms e) (rk_secrets e) (rk_cells e) a).

Definition rk_init_job (i : nat) (name : string) : InitJob (E:=RelKube) :=
  NewInitJob (example_labeller ChytType "chyt") name ("job-" +:+ name) ("job-" +:+ name +:+ "-config") "image" "" None
    [TextConfigGenerator InitJobScriptName (inr ["true"])]
    (rk_cell i jk_cm_cell) (rk_cell i jk_ov_cell) (rk_cell i jk_job_cell) (rk_cell i jk_mem_cell).

Definition example_chyt : Chyt (E:=RelKube) :=
  mkChyt (example_labeller ChytType "chyt") (mkChytSpec (Some "minisaurus") "chyt:2.16" false (Some true))
    ClusterStateRunning true rk_secret_cell (rk_init_job 0 "user") (rk_init_job 1 "release") (rk_init_job 2 "ch-public").

Definition rk_new_cell (name : string) : JobKube :=
  mkJobKube None None (mkManagedResource ("job-" +:+ name) JobZero JobZero) (newConfigMap ("job-" +:+ name +:+ "-config"))
    ConfigMapZero newInitJobMem.

Definition rk_fresh_cells : list JobKube := rk_new_cell <$> ["user"; "release"; "ch-public"].

(** A reconciliation starts from fresh components; between two of them the jobs complete. *)
Definition rk_next (rw : ReleaseWorld RelKube ChytReleaseStatus) : ReleaseWorld RelKube ChytReleaseStatus :=
  let rw := run (ChytReconciler_Sync ∅ "" example_chyt) rw in
  let w := rw_proxy rw in
  let jobs := (λ o, mkJob (job_meta o) (job_Spec o)
    (mkJobStatus [(JobComplete, ConditionTrue)] 0 0 (Some 10%Z) (Some 75%Z))) <$> rk_jobs (w_env w) in
  mkReleaseWorld (w_set_env (mkRelKube jobs (rk_cms (w_env w)) (rk_secrets (w_env w)) rk_fresh_cells
    (mkManagedResource "chyt-secret" SecretZero SecretZero)) w) (rw_ReleaseStatus rw).

Definition rk_start : ReleaseWorld RelKube ChytReleaseStatus :=
  mkReleaseWorld (mkWorld example_yts [] 200 ∅
    (mkRelKube ∅ ∅ ∅ rk_fresh_cells (mkManagedResource "chyt-secret" SecretZero SecretZero))) ChytReleaseStatusNone.

Fixpoint rk_passes (n : nat) : ReleaseWorld RelKube ChytReleaseStatus :=
  match n with O => rk_start | S n => rk_next (rk_passes n) end.

(** The release goes through its steps in order and is finished in eleven passes. *)
Lemma rk_progress :
  (λ n, rw_ReleaseStatus (rk_passes n)) <$> [0; 1; 2; 4; 5; 7; 8; 10; 11] =
    [ ChytReleaseStatusNone; ChytReleaseStatusCreatingUserSecret; ChytReleaseStatusCreatingUser;
      ChytReleaseStatusCreatingUser; ChytReleaseStatusUploadingIntoCypress; ChytReleaseStatusUploadingIntoCypress;
      ChytReleaseStatusCreatingChPublicClique; ChytReleaseStatusCreatingChPublicClique; ChytReleaseStatusFinished ].
Proof. vm_compute. reflexivity. Qed.

Lemma chyt_release_sound_witness :
  wants_clique example_chyt = true ∧
  chyt_released example_chyt (rw_proxy (run (chyt_Fetch example_chyt) (rk_passes 10))).
Proof.
  split; [reflexivity|].
  apply (chyt_release_sound ∅ "" example_chyt (rk_passes 10)).
  - apply (bool_decide_unpack _). vm_compute. exact I.
  - vm_compute. reflexivity.
Defined.
