(* ===== verification/Values.v ===== *)
(** * Values of generated configurations

    What the configuration generator (src/pkg/ytconfig) computes with: results that may be
    an error or a panic, slash-separated paths (package path), hexadecimal text, quantities
    of resources and floating-point numbers. *)

From S2P Require Import Prelude Kubernetes ApiTypes.

(** ** Results

    A generator returns a value or an error, or panics. *)

Inductive outcome (A : Type) : Type :=
  | Returned (x : A)
  | Failed (err : error)
  | Panicked.

Arguments Returned {A}.
Arguments Failed {A}.
Arguments Panicked {A}.

#[global] Instance outcome_ret : MRet outcome := λ A x, Returned x.
#[global] Instance outcome_bind : MBind outcome := λ A B f m,
  match m with Returned x => f x | Failed err => Failed err | Panicked => Panicked end.

(** A function that panics where it has no value. *)
Definition or_panic {A} (x : option A) : outcome A :=
  match x with Some x => Returned x | None => Panicked end.

Lemma outcome_bind_Returned {A B} (m : outcome A) (f : A → outcome B) y :
  (m ≫= f) = Returned y ↔ ∃ x, m = Returned x ∧ f x = Returned y.
Proof. destruct m; cbn; split; [eauto|by intros (? & [= ->] & ?)|done|naive_solver|done|naive_solver]. Qed.

Lemma or_panic_Returned {A} (x : option A) y : or_panic x = Returned y ↔ x = Some y.
Proof. destruct x; cbn; naive_solver. Qed.

(** Whether a computation returns something with a property that can be tested. *)
Definition returned_with {A} (test : A → bool) (m : outcome A) : bool :=
  match m with Returned x => test x | _ => false end.

Lemma returned_with_true {A} (test : A → bool) m : returned_with test m = true → ∃ x, m = Returned x ∧ test x = true.
Proof. destruct m; [eauto|discriminate..]. Qed.

(** Take a computation that returned apart into its steps. *)
Ltac returned_inv :=
  repeat match goal with
  | H : (_ ≫= _) = Returned _ |- _ =>
      let x := fresh "x" in let Hx := fresh "Hx" in apply outcome_bind_Returned in H as (x & Hx & H)
  | H : or_panic _ = Returned _ |- _ => apply or_panic_Returned in H
  | H : mret _ = Returned _ |- _ => injection H as H
  | H : Returned _ = Returned _ |- _ => injection H as H
  end.

(** ** Paths (package path) *)

Definition slash : Ascii.ascii := Ascii.ascii_of_nat 47.

(** The elements between slashes, [word] being the one under way. *)
Fixpoint path_elements (s : string) (word : string) : list string :=
  match s with
  | "" => [word]
  | String a s => if decide (a = slash) then word :: path_elements s "" else path_elements s (word +:+ String a "")
  end.

(** [path.Clean] keeps a stack of the elements so far, the last one first. *)
Definition clean_step (rooted : bool) (stack : list string) (element : string) : list string :=
  if (element == "") || (element == ".") then stack
  else if element == ".." then
    match stack with
    | top :: rest => if top == ".." then ".." :: stack else rest
    | [] => if rooted then [] else [".."]
    end
  else element :: stack.

Definition path_Clean (s : string) : string :=
  let rooted := match s with String a _ => bool_decide (a = slash) | "" => false end in
  let body := strings_Join (rev (foldl (clean_step rooted) [] (path_elements s ""))) "/" in
  if rooted then "/" +:+ body else if body == "" then "." else body.

(** [path.Join]. *)
Definition path_Join_all (elements : list string) : string :=
  match List.filter (λ e, e != "") elements with
  | [] => ""
  | present => path_Clean (strings_Join present "/")
  end.

Definition path_Join2 (dir file : string) : string := path_Join_all [dir; file].

Lemma path_Join2_examples :
  path_Join2 "/tls/bus_secret" "tls.crt" = "/tls/bus_secret/tls.crt" ∧
  path_Join2 "/yt//logs/" "./../master.info.log" = "/yt/master.info.log" ∧
  path_Join2 "" "a/./b" = "a/b" ∧ path_Join2 "/" ".." = "/" ∧ path_Join_all [""; ""] = "".
Proof. vm_compute. done. Qed.

(** ** Hexadecimal text *)

Definition hex_digit (n : Z) : Ascii.ascii :=
  Ascii.ascii_of_nat (Z.to_nat (if (n <? 10)%Z then 48 + n else 87 + n)).

(** [%02x] of a byte. *)
Definition fmt_02x (byte : Z) : string := String (hex_digit (byte / 16)) (String (hex_digit (byte mod 16)) "").

(** [strings.TrimLeft(s, cutset)] for a set of one character. *)
Fixpoint TrimLeft (s : string) (cut : Ascii.ascii) : string :=
  match s with
  | String a rest => if decide (a = cut) then TrimLeft rest cut else s
  | "" => ""
  end.

(** ** Quantities of resources

    [resource.Quantity] of apimachinery: [Value] is the number rounded up to an integer,
    [AsApproximateFloat64] an approximation of it. *)

(** A finite floating-point number: [f_num / 2 ^ f_scale]. *)
Record float := mkFloat { f_num : Z; f_scale : Z }.

Class QuantityArith := {
  Quantity_Value : Quantity → Z;
  Quantity_IsZero : Quantity → bool;
  Quantity_Add : Quantity → Quantity → Quantity;
  Quantity_AsApproximateFloat64 : Quantity → float;
}.

Definition giga : Z := 1000000000.

(** A quantity whose value is an [int64]. *)
Definition in_int64 (q : Quantity) : Prop := (0 ≤ q_nano q ≤ (2 ^ 63 - 1) * giga)%Z.

Class QuantityLaws (Q : QuantityArith) := {
  quantity_value_up q : in_int64 q → ((Quantity_Value q - 1) * giga < q_nano q ≤ Quantity_Value q * giga)%Z;
  quantity_zero q : Quantity_IsZero q = true ↔ q_nano q = 0%Z;
  quantity_add q q' : q_nano (Quantity_Add q q') = (q_nano q + q_nano q')%Z;
  quantity_float q : (0 ≤ f_scale (Quantity_AsApproximateFloat64 q))%Z;
  quantity_float_whole q n : (0 ≤ n < 2 ^ 53)%Z → q_nano q = (n * giga)%Z →
    f_num (Quantity_AsApproximateFloat64 q) = (n * 2 ^ f_scale (Quantity_AsApproximateFloat64 q))%Z;
}.

Section quantity_facts.
Context {Q : QuantityArith} {QL : QuantityLaws Q}.

Lemma Value_range q : in_int64 q → (0 ≤ Quantity_Value q < 2 ^ 63)%Z.
Proof. intros H. pose proof (quantity_value_up q H). unfold in_int64, giga in *. lia. Qed.

Lemma Value_whole n : (0 ≤ n < 2 ^ 63)%Z → Quantity_Value (mkQuantity (n * giga)) = n.
Proof.
  intros H. assert (in_int64 (mkQuantity (n * giga))) as Hq by (unfold in_int64; cbn; unfold giga; lia).
  pose proof (quantity_value_up _ Hq) as Hv. cbn in Hv. unfold giga in *. lia.
Qed.

End quantity_facts.

(** ** Floating point

    IEEE 754 arithmetic of the numbers that occur, which are far from overflow and from
    denormals: an operation computes the exact result and rounds it to the precision of the
    type, to the nearest number and to the even one of two. *)

Definition round_mantissa (prec n : Z) : Z :=
  let a := Z.abs n in
  let k := Z.max 0 (Z.log2 a + 1 - prec) in
  let q := (a / 2 ^ k)%Z in
  let r := (a mod 2 ^ k)%Z in
  let up := ((2 ^ k <? 2 * r)%Z || ((2 * r =? 2 ^ k)%Z && Z.odd q)) in
  (Z.sgn n * ((if up then q + 1 else q) * 2 ^ k))%Z.

Definition float64_of_int (z : Z) : float := mkFloat (round_mantissa 53 z) 0.
Definition float32_of_int (z : Z) : float := mkFloat (round_mantissa 24 z) 0.
Definition float32_of_float64 (x : float) : float := mkFloat (round_mantissa 24 (f_num x)) (f_scale x).

Definition float_mul (prec : Z) (x y : float) : float :=
  mkFloat (round_mantissa prec (f_num x * f_num y)) (f_scale x + f_scale y).

Definition float_sub (prec : Z) (x y : float) : float :=
  mkFloat (round_mantissa prec (f_num x * 2 ^ f_scale y - f_num y * 2 ^ f_scale x)) (f_scale x + f_scale y).

Definition float_ltb (x y : float) : bool := (f_num x * 2 ^ f_scale y <? f_num y * 2 ^ f_scale x)%Z.

Definition float_min (x y : float) : float := if float_ltb x y then x else y.
Definition float_max (x y : float) : float := if float_ltb x y then y else x.

(** Conversion to an integer type truncates. *)
Definition int_of_float (x : float) : Z := Z.quot (f_num x) (2 ^ f_scale x).

(** The [float64] nearest to 0.1. *)
Definition tenth : float := mkFloat 3602879701896397 55.

Lemma tenth_nearest : round_mantissa 53 (2 ^ 200 / 10) = (f_num tenth * 2 ^ (200 - f_scale tenth))%Z.
Proof. vm_compute. reflexivity. Qed.

(** *** Rounding *)

Section rounding.
Local Open Scope Z_scope.

(** The rounding of a positive number: up or down to a multiple of the last place. *)
Lemma round_mantissa_cases prec n :
  0 < prec → 0 < n →
  ∃ k q r, 0 ≤ k ∧ n = q * 2 ^ k + r ∧ 0 ≤ r < 2 ^ k ∧ (k = 0 ∨ 2 ^ (prec - 1) ≤ q) ∧
    ((round_mantissa prec n = q * 2 ^ k ∧ 2 * r ≤ 2 ^ k) ∨
     (round_mantissa prec n = (q + 1) * 2 ^ k ∧ 2 ^ k ≤ 2 * r)).
Proof.
  intros Hp Hn. set (k := Z.max 0 (Z.log2 n + 1 - prec)). exists k, (n / 2 ^ k), (n mod 2 ^ k).
  assert (0 < 2 ^ k) as Hk by (apply Z.pow_pos_nonneg; lia).
  pose proof (Z.div_mod n (2 ^ k)) as Hdm. pose proof (Z.mod_pos_bound n (2 ^ k) Hk).
  split_and!; [lia|lia|lia|lia| |].
  - destruct (Z.eq_dec k 0) as [|Hk0]; [by left|right]. apply Z.div_le_lower_bound; [done|].
    rewrite <- Z.pow_add_r by lia. pose proof (Z.log2_spec n Hn) as [Hl _].
    replace (k + (prec - 1)) with (Z.log2 n) by lia. lia.
  - unfold round_mantissa. rewrite Z.abs_eq by lia. fold k. rewrite (Z.sgn_pos n Hn), Z.mul_1_l.
    destruct (Z.ltb_spec (2 ^ k) (2 * (n mod 2 ^ k))); cbn [orb]; [right; lia|].
    destruct (Z.eqb_spec (2 * (n mod 2 ^ k)) (2 ^ k)); cbn [andb]; [|left; lia].
    destruct (Z.odd _); [right|left]; lia.
Qed.

Lemma round_mantissa_0 prec : round_mantissa prec 0 = 0.
Proof. reflexivity. Qed.

(** The relative error is at most [2 ^ -prec]. *)
Lemma round_mantissa_error prec n :
  0 < prec → 0 ≤ n → 2 ^ prec * Z.abs (round_mantissa prec n - n) ≤ n.
Proof.
  intros Hp Hn. destruct (Z.eq_dec n 0) as [->|Hn0]; [rewrite round_mantissa_0; lia|].
  destruct (round_mantissa_cases prec n Hp) as (k & q & r & Hk & -> & Hr & Hq & Hround); [lia|].
  destruct Hq as [->|Hq]; [rewrite Z.pow_0_r in *; nia|].
  assert (0 < 2 ^ k) by (apply Z.pow_pos_nonneg; lia).
  assert (2 ^ prec = 2 * 2 ^ (prec - 1)) as -> by (rewrite <- Z.pow_succ_r by lia; f_equal; lia).
  assert (2 * Z.abs (round_mantissa prec (q * 2 ^ k + r) - (q * 2 ^ k + r)) ≤ 2 ^ k) as He by lia.
  assert (2 ^ (prec - 1) * 2 ^ k ≤ q * 2 ^ k) by (apply Z.mul_le_mono_nonneg_r; lia).
  assert (0 < 2 ^ (prec - 1)) by (apply Z.pow_pos_nonneg; lia). nia.
Qed.

Lemma round_mantissa_nonneg prec n : 0 < prec → 0 ≤ n → 0 ≤ round_mantissa prec n.
Proof.
  intros Hp Hn. destruct (Z.eq_dec n 0) as [->|Hn0]; [by rewrite round_mantissa_0|].
  destruct (round_mantissa_cases prec n Hp) as (k & q & r & Hk & -> & Hr & _ & Hround); [lia|].
  assert (0 < 2 ^ k) by (apply Z.pow_pos_nonneg; lia). assert (0 ≤ q) by nia. nia.
Qed.

(** Rounding does not go below a number with few enough digits. *)
Lemma round_mantissa_ge prec j i n :
  0 < prec → 0 ≤ i → 0 < j < 2 ^ prec → j * 2 ^ i ≤ n → j * 2 ^ i ≤ round_mantissa prec n.
Proof.
  intros Hp Hi Hj Hn. assert (0 < 2 ^ i) by (apply Z.pow_pos_nonneg; lia).
  destruct (round_mantissa_cases prec n Hp) as (k & q & r & Hk & -> & Hr & Hq & Hround); [nia|].
  assert (0 < 2 ^ k) by (apply Z.pow_pos_nonneg; lia).
  enough (j * 2 ^ i ≤ q * 2 ^ k) by nia.
  destruct (Z.le_gt_cases k i) as [Hki|Hki].
  - replace i with ((i - k) + k) in Hn |- * by lia. rewrite Z.pow_add_r in Hn |- * by lia.
    rewrite Z.mul_assoc in Hn |- *. apply Z.mul_le_mono_nonneg_r; [lia|]. nia.
  - destruct Hq as [->|Hq]; [lia|].
    assert (j * 2 ^ i ≤ 2 ^ prec * 2 ^ i) as Hj' by nia. rewrite <- Z.pow_add_r in Hj' by lia.
    assert (2 ^ (prec + i) ≤ 2 ^ (prec - 1 + k)) as Hm by (apply Z.pow_le_mono_r; lia).
    rewrite (Z.pow_add_r 2 (prec - 1)) in Hm by lia. nia.
Qed.

(** Small integers are exact. *)
Lemma round_mantissa_exact prec n : 0 ≤ n < 2 ^ prec → round_mantissa prec n = n.
Proof.
  intros Hn. unfold round_mantissa. rewrite Z.abs_eq by lia.
  assert (0 ≤ prec) by (destruct (Z.le_gt_cases 0 prec); [done|]; rewrite Z.pow_neg_r in Hn; lia).
  assert (Z.log2 n < prec ∨ prec = 0) as Hl.
  { destruct (Z.eq_dec prec 0); [by right|left]. destruct (Z.eq_dec n 0) as [->|]; [cbn; lia|]. apply Z.log2_lt_pow2; lia. }
  destruct (Z.eq_dec prec 0) as [->|]; [replace n with 0 by (cbn in *; lia); done|].
  replace (Z.max 0 (Z.log2 n + 1 - prec)) with 0 by lia. rewrite Z.pow_0_r, Z.mod_1_r, Z.div_1_r.
  change (1 <? 2 * 0) with false. change (2 * 0 =? 1) with false. cbn [orb andb].
  destruct (Z.eq_dec n 0) as [->|]; [done|]. rewrite Z.sgn_pos by lia. lia.
Qed.

(** So are the small integers times a power of two. *)
Lemma round_mantissa_scaled prec i n : 0 < prec → 0 ≤ i → 0 ≤ n < 2 ^ prec → round_mantissa prec (n * 2 ^ i) = n * 2 ^ i.
Proof.
  intros Hp Hi Hn. destruct (Z.eq_dec n 0) as [->|Hn0]; [by rewrite Z.mul_0_l, round_mantissa_0|].
  assert (0 < 2 ^ i) by (apply Z.pow_pos_nonneg; lia). assert (0 < n * 2 ^ i) by nia.
  unfold round_mantissa. rewrite Z.abs_eq, Z.log2_mul_pow2, Z.sgn_pos by lia.
  assert (Z.log2 n < prec) by (apply Z.log2_lt_pow2; lia).
  set (k := Z.max 0 (i + Z.log2 n + 1 - prec)). assert (0 ≤ k ≤ i) as Hk by lia.
  assert (0 < 2 ^ k) by (apply Z.pow_pos_nonneg; lia).
  replace (n * 2 ^ i) with (n * 2 ^ (i - k) * 2 ^ k)
    by (rewrite <- Z.mul_assoc, <- Z.pow_add_r by lia; do 2 f_equal; lia).
  rewrite Z.div_mul, Z.mod_mul by lia. destruct (Z.ltb_spec (2 ^ k) (2 * 0)); [lia|].
  destruct (Z.eqb_spec (2 * 0) (2 ^ k)); [lia|]. cbn [orb andb]. lia.
Qed.

End rounding.

(** A tenth of a number computed in [float64], cut off at [bound], as an integer. *)
Definition tenth_of (request bound : Z) : Z :=
  int_of_float (float_min (float_mul 53 tenth (float64_of_int request)) (float64_of_int bound)).

(** The floating-point tenth is the integer tenth or one below it, as long as it is below the
    cut-off, and the cut-off otherwise. *)
Lemma tenth_of_bounds request bound :
  (0 ≤ request < 2 ^ 63)%Z → (0 ≤ bound ≤ 2 ^ 48)%Z →
  (0 ≤ tenth_of request bound ≤ Z.min (request / 10) bound)%Z ∧
  (Z.min (request / 10 - 1) bound ≤ tenth_of request bound)%Z.
Proof.
  intros Hr Hb. unfold tenth_of, int_of_float, float_min, float_ltb, float_mul, float64_of_int. cbn [f_num f_scale tenth].
  rewrite (round_mantissa_exact 53 bound) by lia. set (c := 3602879701896397%Z).
  set (x := round_mantissa 53 request). set (p := round_mantissa 53 (c * x)).
  rewrite !Z.add_0_r, Z.pow_0_r, Z.mul_1_r.
  assert (0 ≤ x)%Z as Hx by (apply round_mantissa_nonneg; lia).
  assert (0 ≤ p)%Z as Hp by (apply round_mantissa_nonneg; lia).
  assert (request < 2 ^ 52 → 10 * p < 2 ^ 55 * (10 * (request / 10) + 10) ∧ 2 ^ 55 * (request / 10 - 1) ≤ p)%Z as Hsmall.
  { intros Hs. assert (x = request) as Hxr by (apply round_mantissa_exact; lia).
    assert (2 ^ 53 * Z.abs (p - c * request) ≤ c * request)%Z as He.
    { rewrite <- Hxr. apply round_mantissa_error; lia. }
    clearbody p x. subst c x. pose proof (Z.div_mod request 10). pose proof (Z.mod_pos_bound request 10). lia. }
  assert (2 ^ 52 ≤ request → c * 2 ^ 52 ≤ p)%Z as Hlarge.
  { intros Hs. apply round_mantissa_ge; [lia|lia|subst c; lia|].
    assert (1 * 2 ^ 52 ≤ x)%Z by (apply round_mantissa_ge; lia). subst c. lia. }
  destruct (Z.ltb_spec p (bound * 2 ^ 55)) as [Hlt|Hge]; cbn [f_num f_scale]; rewrite ?Z.add_0_r, ?Z.pow_0_r, ?Z.quot_1_r.
  - rewrite Z.quot_div_nonneg by lia. destruct (Z.lt_ge_cases request (2 ^ 52)) as [Hs|Hs].
    + destruct (Hsmall Hs) as [H1 H2].
      assert (p / 2 ^ 55 ≤ request / 10)%Z by (apply Z.lt_succ_r, Z.div_lt_upper_bound; lia).
      assert (request / 10 - 1 ≤ p / 2 ^ 55)%Z by (apply Z.div_le_lower_bound; lia).
      assert (p / 2 ^ 55 ≤ bound)%Z by (apply Z.div_le_upper_bound; lia).
      assert (0 ≤ p / 2 ^ 55)%Z by (apply Z.div_pos; lia). lia.
    + pose proof (Hlarge Hs). subst c. lia.
  - destruct (Z.lt_ge_cases request (2 ^ 52)) as [Hs|Hs]; [destruct (Hsmall Hs); lia|].
    assert (2 ^ 48 + 1 ≤ request / 10)%Z by (apply Z.div_le_lower_bound; lia). lia.
Qed.

(** ** A reference arithmetic of quantities: exact in nano units *)

#[global] Instance ReferenceQuantity : QuantityArith := {
  Quantity_Value q := (Z.sgn (q_nano q) * ((Z.abs (q_nano q) + (giga - 1)) / giga))%Z;
  Quantity_IsZero q := (q_nano q =? 0)%Z;
  Quantity_Add q q' := mkQuantity (q_nano q + q_nano q')%Z;
  Quantity_AsApproximateFloat64 q := mkFloat (round_mantissa 53 (q_nano q * 2 ^ 64 / giga)) 64;
}.

#[global] Instance ReferenceQuantity_laws : QuantityLaws ReferenceQuantity.
Proof.
  split; cbn.
  - intros q [H0 H1]. rewrite Z.abs_eq by done. destruct (Z.eq_dec (q_nano q) 0) as [->|Hn]; [cbn; unfold giga; lia|].
    rewrite Z.sgn_pos by lia. unfold giga. pose proof (Z.div_mod (q_nano q + (1000000000 - 1)) 1000000000).
    pose proof (Z.mod_pos_bound (q_nano q + (1000000000 - 1)) 1000000000). lia.
  - intros q. apply Z.eqb_eq.
  - done.
  - done.
  - intros q n Hn ->. replace (n * giga * 2 ^ 64)%Z with (n * 2 ^ 64 * giga)%Z by lia.
    rewrite Z.div_mul by done. by apply round_mantissa_scaled.
Qed.

(** ** Durations

    [time.Duration.String] of a number of nanoseconds that is not negative. *)

(** The fraction [v / 10 ^ prec] without trailing zeros: the point and the digits, or nothing. *)
Fixpoint duration_fraction (prec : nat) (v : Z) (started : bool) : string :=
  match prec with
  | O => ""
  | S prec =>
      let digit := (v mod 10)%Z in
      let started := started || (digit != 0%Z) in
      let rest := duration_fraction prec (v / 10) started in
      let rest := if started && (prec =? 0)%nat then "." +:+ rest else rest in
      if started then rest +:+ fmt_d digit else rest
  end.

Definition Duration_String (d : Z) : string :=
  if (d =? 0)%Z then "0s"
  else if (d <? 1000)%Z then fmt_d d +:+ "ns"
  else if (d <? 1000000)%Z then fmt_d (d / 1000) +:+ duration_fraction 3 (d mod 1000) false +:+ "µs"
  else if (d <? 1000000000)%Z then fmt_d (d / 1000000) +:+ duration_fraction 6 (d mod 1000000) false +:+ "ms"
  else
    let seconds := (d / 1000000000)%Z in
    let fraction := duration_fraction 9 (d mod 1000000000) false in
    let minutes := (seconds / 60)%Z in
    let hours := (minutes / 60)%Z in
    (if (0 <? hours)%Z then fmt_d hours +:+ "h" else "")
    +:+ (if (0 <? minutes)%Z then fmt_d (minutes mod 60) +:+ "m" else "")
    +:+ fmt_d (seconds mod 60) +:+ fraction +:+ "s".

Lemma Duration_String_examples :
  Duration_String 1500000 = "1.5ms" ∧ Duration_String 90000000000 = "1m30s" ∧
  Duration_String 3600000000000 = "1h0m0s" ∧ Duration_String 2040000000 = "2.04s" ∧ Duration_String 12 = "12ns".
Proof. vm_compute. done. Qed.
