(* ===== verification/Logging.v ===== *)
(** * Logging sections of server configurations (src/pkg/ytconfig/logging.go, timbertruck.go)

    The loggers of a component become writers and rules that refer to them by name; the
    sidecar that delivers structured logs gets a configuration of its own that must name the
    very files the server writes. *)

From S2P Require Import Prelude Kubernetes ApiTypes Labeller Timbertruck Values.

Section logging.
Context {Q : QuantityArith}.

(** ** Documents *)

Definition LogFamilyPlainText := "plain_text".
Definition LogFamilyStructured := "structured".

Record LoggingRule := mkLoggingRule {
  lr_ExcludeCategories : list string;
  lr_IncludeCategories : list string;
  lr_MinLevel : string;
  lr_Writers : list string;
  lr_Family : option string;
}.

Record LogRotationPolicy := mkLogRotationPolicy {
  lrp_RotationPeriodMilliseconds : option Z;
  lrp_MaxSegmentSize : option Z;
  lrp_MaxTotalSizeToKeep : option Z;
  lrp_MaxSegmentCountToKeep : option Z;
}.

Record LoggingWriter := mkLoggingWriter {
  lw_WriterType : string;
  lw_FileName : string;
  lw_Format : string;
  lw_CompressionMethod : string;
  lw_EnableCompression : bool;
  lw_UseTimestampSuffix : bool;
  lw_UseDateTimeSuffix : bool;
  lw_EnableSystemMessages : bool;
  lw_RotationPolicy : option LogRotationPolicy;
}.

Record Logging := mkLogging {
  lg_Writers : gmap string LoggingWriter;
  lg_Rules : list LoggingRule;
  lg_FlushPeriod : Z;
  lg_EnableAnchorProfiling : bool;
}.

(** The zero value, with the empty map the builders start from. *)
Definition LoggingZero : Logging := mkLogging ∅ [] 0 false.

Record JobProxyLogging := mkJobProxyLogging {
  jpl_Logging : Logging;
  jpl_LogManagerTemplate : Logging;
  jpl_Mode : string;
}.

Record loggingBuilder := mkLoggingBuilder {
  lb_loggingDirectory : string;
  lb_componentName : string;
  lb_logging : Logging;
}.

Record LogDump := mkLogDump { ld_BufferSize : Z; ld_LogWriterName : string }.

(** Durations are in nanoseconds. *)
Record JobProxyLogManager := mkJobProxyLogManager {
  jpm_Directory : string;
  jpm_Locations : list string;
  jpm_JobProxyLogSymlinksPath : string;
  jpm_ShardingKeyLength : Z;
  jpm_LogsStoragePeriod : Z;
  jpm_DirectoryTraversalConcurrency : Z;
  jpm_LogDump : LogDump;
}.

(** ** Default loggers *)

Definition defaultStderrLoggerSpec : TextLoggerSpec :=
  mkTextLoggerSpec
    (mkBaseLoggerSpec "stderr" LogFormatPlainText LogLevelError LogCompressionNone false false None None)
    LogWriterTypeStderr None.

Definition defaultDebugLoggerSpec : TextLoggerSpec :=
  mkTextLoggerSpec
    (mkBaseLoggerSpec "debug" LogFormatPlainText LogLevelDebug LogCompressionNone false false None None)
    LogWriterTypeFile None.

Definition defaultInfoLoggerSpec : TextLoggerSpec :=
  mkTextLoggerSpec
    (mkBaseLoggerSpec "info" LogFormatPlainText LogLevelInfo LogCompressionNone false false None None)
    LogWriterTypeFile None.

(** ** Rules and writers *)

Definition ChooseLoggingPath (location : option LocationSpec) : string :=
  match location with Some location => loc_Path location | None => "/var/log" end.

Definition ChooseJobProxyLoggingPath (spec : InstanceSpec) : string :=
  match FindFirstLocation (is_Locations spec) LocationTypeLogs with
  | Some location => loc_Path location +:+ "/job-proxy"
  | None => "/var/log/job-proxy"
  end.

Definition JobProxyLogSymlinksPath := "/var/log/job-proxy-logs".

Definition createBaseLoggingRule (spec : BaseLoggerSpec) : LoggingRule :=
  mkLoggingRule [] [] (bl_MinLogLevel spec) [bl_Name spec] None.

Definition applyCategoriesFilter (rule : LoggingRule) (filter : option CategoriesFilter) : LoggingRule :=
  match filter with
  | None => rule
  | Some filter =>
      if cf_Type filter == CategoriesFilterTypeExclude then
        mkLoggingRule (lr_ExcludeCategories rule ++ cf_Values filter) (lr_IncludeCategories rule)
          (lr_MinLevel rule) (lr_Writers rule) (lr_Family rule)
      else if cf_Type filter == CategoriesFilterTypeInclude then
        mkLoggingRule (lr_ExcludeCategories rule) (lr_IncludeCategories rule ++ cf_Values filter)
          (lr_MinLevel rule) (lr_Writers rule) (lr_Family rule)
      else rule
  end.

Definition lr_set_Family (family : string) (rule : LoggingRule) : LoggingRule :=
  mkLoggingRule (lr_ExcludeCategories rule) (lr_IncludeCategories rule) (lr_MinLevel rule) (lr_Writers rule)
    (Some family).

Definition lr_set_IncludeCategories (categories : list string) (rule : LoggingRule) : LoggingRule :=
  mkLoggingRule (lr_ExcludeCategories rule) categories (lr_MinLevel rule) (lr_Writers rule) (lr_Family rule).

Definition createLoggingRule (spec : TextLoggerSpec) : LoggingRule :=
  applyCategoriesFilter (lr_set_Family LogFamilyPlainText (createBaseLoggingRule (tl_BaseLoggerSpec spec)))
    (tl_CategoriesFilter spec).

Definition createStructuredLoggingRule (spec : StructuredLoggerSpec) : LoggingRule :=
  let rule := lr_set_Family LogFamilyStructured (createBaseLoggingRule (sl_BaseLoggerSpec spec)) in
  match sl_CategoriesFilter spec with
  | Some filter => applyCategoriesFilter rule (Some filter)
  | None => lr_set_IncludeCategories [Deref (sl_Category spec) ""] rule
  end.

Definition createRotationPolicy (policy : LogRotationPolicySpec) : LogRotationPolicy :=
  mkLogRotationPolicy (lrs_RotationPeriodMilliseconds policy) (Quantity_Value <$> lrs_MaxSegmentSize policy)
    (Quantity_Value <$> lrs_MaxTotalSizeToKeep policy) (lrs_MaxSegmentCountToKeep policy).

Definition createBaseLoggingWriter (componentName loggingDirectory writerType : string)
    (loggerSpec : BaseLoggerSpec) : LoggingWriter :=
  let FileName := if writerType == LogWriterTypeFile
    then path_Join2 loggingDirectory (componentName +:+ "." +:+ bl_Name loggerSpec +:+ ".log") else "" in
  let FileName := if bl_Format loggerSpec != LogFormatPlainText
    then FileName +:+ "." +:+ bl_Format loggerSpec else FileName in
  let compressed := bl_Compression loggerSpec != LogCompressionNone in
  let CompressionMethod := if compressed then bl_Compression loggerSpec else "" in
  let FileName := if compressed then FileName +:+ "." +:+ CompressionMethod else FileName in
  mkLoggingWriter writerType FileName (bl_Format loggerSpec) CompressionMethod compressed
    (bl_UseTimestampSuffix loggerSpec) (bl_UseDateTimeSuffix loggerSpec) false
    (createRotationPolicy <$> bl_RotationPolicy loggerSpec).

Definition lw_set_EnableSystemMessages (b : bool) (w : LoggingWriter) : LoggingWriter :=
  mkLoggingWriter (lw_WriterType w) (lw_FileName w) (lw_Format w) (lw_CompressionMethod w)
    (lw_EnableCompression w) (lw_UseTimestampSuffix w) (lw_UseDateTimeSuffix w) b (lw_RotationPolicy w).

Definition createLoggingWriter (componentName loggingDirectory : string) (loggerSpec : TextLoggerSpec) : LoggingWriter :=
  lw_set_EnableSystemMessages true
    (createBaseLoggingWriter componentName loggingDirectory (tl_WriterType loggerSpec) (tl_BaseLoggerSpec loggerSpec)).

Definition createStructuredLoggingWriter (componentName loggingDirectory : string)
    (loggerSpec : StructuredLoggerSpec) : LoggingWriter :=
  lw_set_EnableSystemMessages false
    (createBaseLoggingWriter componentName loggingDirectory LogWriterTypeFile (sl_BaseLoggerSpec loggerSpec)).

(** ** Builders *)

Definition newLoggingBuilder (location : option LocationSpec) (componentName : string) : loggingBuilder :=
  mkLoggingBuilder (ChooseLoggingPath location) componentName LoggingZero.

(** A rule and the writer of the same name: what both kinds of loggers add. *)
Definition lg_add (rule : LoggingRule) (name : string) (writer : LoggingWriter) (l : Logging) : Logging :=
  mkLogging (<[name := writer]> (lg_Writers l)) (lg_Rules l ++ [rule]) (lg_FlushPeriod l)
    (lg_EnableAnchorProfiling l).

Definition lb_update (f : Logging → Logging) (b : loggingBuilder) : loggingBuilder :=
  mkLoggingBuilder (lb_loggingDirectory b) (lb_componentName b) (f (lb_logging b)).

Definition addLogger (loggerSpec : TextLoggerSpec) (b : loggingBuilder) : loggingBuilder :=
  lb_update (lg_add (createLoggingRule loggerSpec) (bl_Name (tl_BaseLoggerSpec loggerSpec))
    (createLoggingWriter (lb_componentName b) (lb_loggingDirectory b) loggerSpec)) b.

Definition addStructuredLogger (loggerSpec : StructuredLoggerSpec) (b : loggingBuilder) : loggingBuilder :=
  lb_update (lg_add (createStructuredLoggingRule loggerSpec) (sl_Name loggerSpec)
    (createStructuredLoggingWriter (lb_componentName b) (lb_loggingDirectory b) loggerSpec)) b.

Definition lg_set_FlushPeriod (period : Z) (l : Logging) : Logging :=
  mkLogging (lg_Writers l) (lg_Rules l) period (lg_EnableAnchorProfiling l).

Definition lg_set_EnableAnchorProfiling (b : bool) (l : Logging) : Logging :=
  mkLogging (lg_Writers l) (lg_Rules l) (lg_FlushPeriod l) b.

(** The body of the loop over [spec.Loggers] (common.go). *)
Definition addConfiguredLogger (b : loggingBuilder) (loggerSpec : TextLoggerSpec) : loggingBuilder :=
  let b := addLogger loggerSpec b in
  if Deref (bl_EnableAnchorProfiling (tl_BaseLoggerSpec loggerSpec)) false
  then lb_update (lg_set_EnableAnchorProfiling true) b else b.

Definition createLogging (spec : InstanceSpec) (componentName : string)
    (defaultLoggerSpecs : list TextLoggerSpec) : Logging :=
  let b := newLoggingBuilder (FindFirstLocation (is_Locations spec) LocationTypeLogs) componentName in
  let b := match is_Loggers spec with
           | [] => foldl (flip addLogger) b defaultLoggerSpecs
           | loggers => foldl addConfiguredLogger b loggers
           end in
  let b := foldl (flip addStructuredLogger) b (is_StructuredLoggers spec) in
  lg_set_FlushPeriod 3000 (lb_logging b).

(** ** Job proxies *)

Definition jp_getMode (spec : ExecNodesSpec) : JobProxyLoggingMode :=
  match ens_JobProxyLogManager spec with
  | Some m => if jlm_Mode m != JobProxyLoggingModeOther "" then jlm_Mode m else JobProxyLoggingModeSimple
  | None => JobProxyLoggingModeSimple
  end.

(** The embedded builder has no logging directory. *)
Definition newJobProxyLoggingBuilder (spec : ExecNodesSpec) : loggingBuilder :=
  let b := mkLoggingBuilder "" "job-proxy" LoggingZero in
  let loggers := match ens_JobProxyLoggers spec with
    | [] => [defaultInfoLoggerSpec; defaultStderrLoggerSpec]
            ++ (if jp_getMode spec == JobProxyLoggingModePerJobDirectory then [defaultDebugLoggerSpec] else [])
    | loggers => loggers
    end in
  lb_update (lg_set_FlushPeriod 3000) (foldl (flip addLogger) b loggers).

Definition buildJobProxyLogging (spec : ExecNodesSpec) : JobProxyLogging :=
  let logging := lb_logging (newJobProxyLoggingBuilder spec) in
  mkJobProxyLogging logging logging (JobProxyLoggingMode_string (jp_getMode spec)).

Definition millisecond : Z := 1000000.
Definition hour : Z := 3600 * 1000 * millisecond.

(** [time.Duration] arithmetic wraps to 64 bits. *)
Definition i64 (z : Z) : Z := wrap_signed 64 z.

Definition buildJobProxyLogManager (spec : ExecNodesSpec) : JobProxyLogManager :=
  let manager := ens_JobProxyLogManager spec in
  let logsStoragePeriod := match manager ≫= jlm_LogsStoragePeriodMilliseconds with
    | Some ms => i64 (ms * millisecond) | None => (7 * 24 * hour)%Z end in
  let directoryTraversalConcurrency := Deref (manager ≫= jlm_DirectoryTraversalConcurrency) 4%Z in
  let symlinks := Deref (manager ≫= jlm_JobProxyLogSymlinksPath) JobProxyLogSymlinksPath in
  let locations := if jp_getMode spec == JobProxyLoggingModePerJobDirectory
    then loc_Path <$> FindAllLocations (is_Locations (ens_InstanceSpec spec)) LocationTypeJobProxyLogs else [] in
  let '(symlinks, directory) := match locations with
    | first :: _ => (symlinks, first)
    | [] => ("", ChooseJobProxyLoggingPath (ens_InstanceSpec spec)) end in
  mkJobProxyLogManager directory locations symlinks 2 logsStoragePeriod directoryTraversalConcurrency
    (mkLogDump (1024 * 1024) "debug").

(** ** The sidecar that delivers structured logs *)

Definition timbertruckQueueBatchSize : Z := 8 * 1024 * 1024.

Record TimbertruckYTQueueConfig := mkTimbertruckYTQueueConfig {
  ttq_Cluster : string;
  ttq_QueuePath : string;
  ttq_ProducerPath : string;
}.

Record TimbertruckBaseLogConfig := mkTimbertruckBaseLogConfig {
  ttl_Name : string;
  ttl_LogFile : string;
  ttl_QueueBatchSize : Z;
  ttl_YTQueue : list TimbertruckYTQueueConfig;
}.

Record TimbertruckConfig := mkTimbertruckConfig {
  ttc_WorkDir : string;
  ttc_JsonLogs : list TimbertruckBaseLogConfig;
  ttc_YsonLogs : list TimbertruckBaseLogConfig;
}.

Definition BaseLogConfigs (c : TimbertruckConfig) : list TimbertruckBaseLogConfig := ttc_JsonLogs c ++ ttc_YsonLogs c.

(** The configuration of one logger. *)
Definition deliveryLogConfig (componentName logsDirectory deliveryProxy logsDeliveryPath : string)
    (structuredLogger : StructuredLoggerSpec) : TimbertruckBaseLogConfig :=
  let base := sl_BaseLoggerSpec structuredLogger in
  let deliveryName := componentName +:+ "-" +:+ bl_Name base in
  let fileName := path_Join2 logsDirectory (componentName +:+ "." +:+ bl_Name base +:+ ".log") in
  let fileName := if bl_Format base != LogFormatPlainText then fileName +:+ "." +:+ bl_Format base else fileName in
  let fileName := if bl_Compression base != LogCompressionNone
    then fileName +:+ "." +:+ bl_Compression base else fileName in
  let deliveryPath := logsDeliveryPath +:+ "/" +:+ deliveryName in
  mkTimbertruckBaseLogConfig deliveryName fileName timbertruckQueueBatchSize
    [mkTimbertruckYTQueueConfig deliveryProxy (deliveryPath +:+ "/queue") (deliveryPath +:+ "/producer")].

Definition addDeliveryLog (componentName logsDirectory deliveryProxy logsDeliveryPath : string)
    (c : TimbertruckConfig) (structuredLogger : StructuredLoggerSpec) : TimbertruckConfig :=
  let log := deliveryLogConfig componentName logsDirectory deliveryProxy logsDeliveryPath structuredLogger in
  if bl_Format (sl_BaseLoggerSpec structuredLogger) == LogFormatYson
  then mkTimbertruckConfig (ttc_WorkDir c) (ttc_JsonLogs c) (ttc_YsonLogs c ++ [log])
  else mkTimbertruckConfig (ttc_WorkDir c) (ttc_JsonLogs c ++ [log]) (ttc_YsonLogs c).

Definition NewTimbertruckConfig (structuredLoggers : list StructuredLoggerSpec)
    (workDir componentName logsDirectory deliveryProxy logsDeliveryPath : string) : option TimbertruckConfig :=
  let c := foldl (addDeliveryLog componentName logsDirectory deliveryProxy logsDeliveryPath)
    (mkTimbertruckConfig workDir [] []) structuredLoggers in
  if ((length (ttc_JsonLogs c) =? 0)%nat && (length (ttc_YsonLogs c) =? 0)%nat) then None else Some c.

(** ** The shape of a logging section *)

(** What a logger contributes: its rule, the name of its writer and the writer. *)
Record entry := mkEntry { en_rule : LoggingRule; en_name : string; en_writer : LoggingWriter }.

Definition text_entry (componentName dir : string) (l : TextLoggerSpec) : entry :=
  mkEntry (createLoggingRule l) (bl_Name (tl_BaseLoggerSpec l)) (createLoggingWriter componentName dir l).

Definition structured_entry (componentName dir : string) (l : StructuredLoggerSpec) : entry :=
  mkEntry (createStructuredLoggingRule l) (sl_Name l) (createStructuredLoggingWriter componentName dir l).

Definition logging_entries (spec : InstanceSpec) (componentName : string) (defaults : list TextLoggerSpec) : list entry :=
  let dir := ChooseLoggingPath (FindFirstLocation (is_Locations spec) LocationTypeLogs) in
  (text_entry componentName dir <$> match is_Loggers spec with [] => defaults | loggers => loggers end)
  ++ (structured_entry componentName dir <$> is_StructuredLoggers spec).

Definition lg_add_entry (l : Logging) (e : entry) : Logging := lg_add (en_rule e) (en_name e) (en_writer e) l.

(** The writers of a list of entries: of two with the same name the later one counts. *)
Definition entry_writers (es : list entry) : gmap string LoggingWriter :=
  foldl (λ m e, <[en_name e := en_writer e]> m) ∅ es.

Lemma lg_add_entries es l :
  lg_Rules (foldl lg_add_entry l es) = lg_Rules l ++ (en_rule <$> es) ∧
  lg_Writers (foldl lg_add_entry l es) = foldl (λ m e, <[en_name e := en_writer e]> m) (lg_Writers l) es.
Proof.
  revert l. induction es as [|e es IH]; intros l; cbn; [by rewrite app_nil_r|].
  destruct (IH (lg_add_entry l e)) as [-> ->]. cbn. by rewrite <- app_assoc.
Qed.

Definition same_logging (b : loggingBuilder) (l : Logging) : Prop :=
  lg_Rules (lb_logging b) = lg_Rules l ∧ lg_Writers (lb_logging b) = lg_Writers l.

Lemma fold_loggers {A} (step : loggingBuilder → A → loggingBuilder) (to_entry : string → string → A → entry) xs :
  (∀ b x, lb_componentName (step b x) = lb_componentName b ∧ lb_loggingDirectory (step b x) = lb_loggingDirectory b ∧
     same_logging (step b x) (lg_add_entry (lb_logging b) (to_entry (lb_componentName b) (lb_loggingDirectory b) x))) →
  ∀ b l, same_logging b l →
  let b' := foldl step b xs in
  lb_componentName b' = lb_componentName b ∧ lb_loggingDirectory b' = lb_loggingDirectory b ∧
  same_logging b' (foldl lg_add_entry l (to_entry (lb_componentName b) (lb_loggingDirectory b) <$> xs)).
Proof.
  intros Hstep. induction xs as [|x xs IH]; intros b l Hb; [done|]. cbn.
  destruct (Hstep b x) as (Hc & Hd & Hr & Hw).
  destruct (IH (step b x) (lg_add_entry l (to_entry (lb_componentName b) (lb_loggingDirectory b) x))) as (-> & -> & H).
  - split; [rewrite Hr|rewrite Hw]; destruct Hb as [Hb1 Hb2]; cbn; by rewrite ?Hb1, ?Hb2.
  - rewrite Hc, Hd in *. done.
Qed.

Lemma createLogging_entries spec componentName defaults :
  lg_Rules (createLogging spec componentName defaults) = en_rule <$> logging_entries spec componentName defaults ∧
  lg_Writers (createLogging spec componentName defaults) = entry_writers (logging_entries spec componentName defaults).
Proof.
  unfold createLogging. set (b0 := newLoggingBuilder _ _).
  set (dir := ChooseLoggingPath (FindFirstLocation (is_Locations spec) LocationTypeLogs)).
  assert (let b := match is_Loggers spec with [] => foldl (flip addLogger) b0 defaults
                   | loggers => foldl addConfiguredLogger b0 loggers end in
    lb_componentName b = componentName ∧ lb_loggingDirectory b = dir ∧
    same_logging b (foldl lg_add_entry LoggingZero
      (text_entry componentName dir <$> match is_Loggers spec with [] => defaults | loggers => loggers end))) as (Hc & Hd & Hs).
  { destruct (is_Loggers spec).
    - by apply (fold_loggers (flip addLogger) text_entry).
    - apply (fold_loggers addConfiguredLogger text_entry); [|done]. intros b x. unfold addConfiguredLogger.
      by destruct (Deref _ _). }
  set (b := match is_Loggers spec with [] => _ | _ => _ end) in *.
  destruct (fold_loggers (flip addStructuredLogger) structured_entry (is_StructuredLoggers spec))
    with (b := b) (l := foldl lg_add_entry LoggingZero
      (text_entry componentName dir <$> match is_Loggers spec with [] => defaults | loggers => loggers end))
    as (_ & _ & Hr & Hw); [done|done|].
  cbn. rewrite Hr, Hw, Hc, Hd, <- foldl_app. unfold logging_entries, entry_writers. fold dir.
  destruct (lg_add_entries ((text_entry componentName dir <$> match is_Loggers spec with [] => defaults | loggers => loggers end)
    ++ (structured_entry componentName dir <$> is_StructuredLoggers spec)) LoggingZero) as [-> ->]. done.
Qed.

Lemma applyCategoriesFilter_keeps rule f :
  lr_Writers (applyCategoriesFilter rule f) = lr_Writers rule ∧ lr_Family (applyCategoriesFilter rule f) = lr_Family rule.
Proof. unfold applyCategoriesFilter. repeat case_match; done. Qed.

Lemma entry_rule_writers spec componentName defaults e :
  e ∈ logging_entries spec componentName defaults → lr_Writers (en_rule e) = [en_name e].
Proof.
  unfold logging_entries. rewrite elem_of_app, !list_elem_of_fmap. intros [(l & -> & _)|(l & -> & _)]; cbn.
  - unfold createLoggingRule. by rewrite (proj1 (applyCategoriesFilter_keeps _ _)).
  - unfold createStructuredLoggingRule. destruct (sl_CategoriesFilter l); [|done].
    by rewrite (proj1 (applyCategoriesFilter_keeps _ _)).
Qed.

Lemma foldl_writers_lookup es (m : gmap string LoggingWriter) n :
  foldl (λ m e, <[en_name e := en_writer e]> m) m es !! n =
  match last (List.filter (λ e, en_name e == n) es) with Some e => Some (en_writer e) | None => m !! n end.
Proof.
  revert m. induction es as [|e es IH]; intros m; [done|]. cbn [foldl List.filter]. rewrite IH.
  destruct (bool_decide_reflect (en_name e = n)) as [<-|Hne].
  - rewrite last_cons. destruct (last _); [done|]. by rewrite lookup_insert_eq.
  - destruct (last _); [done|]. by rewrite lookup_insert_ne.
Qed.

(** With different names every writer is the one of its own logger. *)
Lemma entry_writers_lookup es e : NoDup (en_name <$> es) → e ∈ es → entry_writers es !! en_name e = Some (en_writer e).
Proof.
  unfold entry_writers. rewrite foldl_writers_lookup. intros Hnd He.
  assert (List.filter (λ e', en_name e' == en_name e) es = [e]) as ->; [|done].
  induction es as [|e' es IH]; [by apply elem_of_nil in He|].
  rewrite fmap_cons, NoDup_cons in Hnd. destruct Hnd as [Hn Hnd]. cbn [List.filter].
  apply elem_of_cons in He as [<-|He].
  - rewrite bool_decide_eq_true_2 by done. f_equal. clear IH Hnd.
    induction es as [|e' es IH]; [done|]. cbn [List.filter]. rewrite fmap_cons, elem_of_cons in Hn.
    rewrite bool_decide_eq_false_2 by naive_solver. apply IH. naive_solver.
  - rewrite bool_decide_eq_false_2; [by apply IH|]. intros Heq. destruct Hn. rewrite Heq. by apply list_elem_of_fmap_2.
Qed.

Lemma entry_writers_dom es n : is_Some (entry_writers es !! n) ↔ n ∈ en_name <$> es.
Proof.
  unfold entry_writers. rewrite foldl_writers_lookup, list_elem_of_fmap, lookup_empty.
  destruct (last (List.filter (λ e, en_name e == n) es)) as [e|] eqn:Hl.
  - split; [intros _|by eexists]. exists e. apply last_Some_elem_of in Hl.
    apply list_elem_of_In, filter_In in Hl as [Hl Hb]. apply bool_decide_eq_true in Hb. by rewrite list_elem_of_In.
  - split; [by intros []|]. intros (e & -> & He). apply last_None in Hl.
    assert (e ∈ List.filter (λ e', en_name e' == en_name e) es) as Hin.
    { apply list_elem_of_In, filter_In. rewrite <- list_elem_of_In. by rewrite bool_decide_eq_true_2. }
    rewrite Hl in Hin. by apply elem_of_nil in Hin.
Qed.

(** C14. A logging section is well formed whatever loggers a component has: there is one rule per
    logger in the order of the specification, the default loggers standing in for no text
    loggers; every rule refers to exactly one writer and that writer is defined; every writer
    is referred to; and when the names of the loggers differ, the writer a rule refers to is
    the one described by the same logger. *)
Theorem logging_well_formed spec componentName defaults :
  let section := createLogging spec componentName defaults in
  let entries := logging_entries spec componentName defaults in
  lg_Rules section = en_rule <$> entries ∧
  (∀ rule, rule ∈ lg_Rules section → ∃ name, lr_Writers rule = [name] ∧ is_Some (lg_Writers section !! name)) ∧
  (∀ name, is_Some (lg_Writers section !! name) → ∃ rule, rule ∈ lg_Rules section ∧ lr_Writers rule = [name]) ∧
  (NoDup (en_name <$> entries) → ∀ e, e ∈ entries → lg_Writers section !! en_name e = Some (en_writer e)).
Proof.
  cbv zeta. destruct (createLogging_entries spec componentName defaults) as [-> ->].
  split_and!; [done|..].
  - intros rule (e & -> & He)%list_elem_of_fmap. exists (en_name e). split; [by eapply entry_rule_writers|].
    apply entry_writers_dom, list_elem_of_fmap. eauto.
  - intros name (e & -> & He)%entry_writers_dom%list_elem_of_fmap. exists (en_rule e).
    split; [by apply list_elem_of_fmap_2|by eapply entry_rule_writers].
  - intros Hnd e He. by apply entry_writers_lookup.
Qed.

(** ** File names *)

Fixpoint slash_free (s : string) : bool :=
  match s with "" => true | String a s => bool_decide (a ≠ slash) && slash_free s end.

Lemma slash_free_app s t : slash_free (s +:+ t) = slash_free s && slash_free t.
Proof. induction s as [|a s IH]; [done|]. rewrite string_app_cons. cbn [slash_free]. by rewrite IH, andb_assoc. Qed.

Lemma path_elements_slash s t w : path_elements (s +:+ String slash t) w = path_elements s w ++ path_elements t "".
Proof.
  revert w. induction s as [|a s IH]; intros w.
  { change ("" +:+ String slash t) with (String slash t). cbn [path_elements]. by rewrite decide_True. }
  rewrite string_app_cons. cbn [path_elements]. destruct (decide (a = slash)); [|apply IH].
  cbn [app]. by rewrite IH.
Qed.

Lemma path_elements_leaf s w : slash_free s = true → path_elements s w = [w +:+ s].
Proof.
  revert w. induction s as [|a s IH]; intros w Hs; [cbn; by rewrite string_app_nil_r|].
  cbn [slash_free] in Hs. apply andb_true_iff in Hs as [Ha Hs]. apply bool_decide_eq_true in Ha.
  cbn [path_elements]. rewrite decide_False by done. rewrite IH, string_app_assoc by done. done.
Qed.

Lemma strings_Join_snoc l x sep :
  strings_Join (l ++ [x]) sep = (if l == [] then "" else strings_Join l sep +:+ sep) +:+ x.
Proof.
  induction l as [|y l IH]; [done|]. destruct l as [|z l]; [cbn; by rewrite string_app_assoc|].
  change ((y :: z :: l) ++ [x]) with (y :: ((z :: l) ++ [x])).
  assert (strings_Join (y :: ((z :: l) ++ [x])) sep = y +:+ sep +:+ strings_Join ((z :: l) ++ [x]) sep) as -> by done.
  rewrite IH. rewrite !bool_decide_eq_false_2 by done. cbn [strings_Join]. by rewrite !string_app_assoc.
Qed.

(** A plain file name that [path.Clean] keeps. *)
Definition leaf (file : string) : bool :=
  slash_free file && (file != "") && (file != ".") && (file != "..").

Lemma clean_step_leaf rooted stack file : leaf file = true → clean_step rooted stack file = file :: stack.
Proof.
  unfold leaf, clean_step. rewrite !andb_true_iff, !negb_true_iff. intros (((_ & H1) & H2) & H3).
  by rewrite H1, H2, H3.
Qed.

(** Joining a file name to a directory puts something in front that depends on the directory
    alone. *)
Lemma path_Join2_leaf dir : ∃ prefix, ∀ file, leaf file = true → path_Join2 dir file = prefix +:+ file.
Proof.
  pose (rooted := match dir with String a _ => bool_decide (a = slash) | "" => false end).
  pose (stack := foldl (clean_step rooted) [] (path_elements dir "")).
  destruct (decide (dir = "")) as [->|Hdir].
  - exists "". intros file Hl. pose proof (clean_step_leaf false [] file Hl) as Hc. unfold leaf in Hl.
    rewrite !andb_true_iff, !negb_true_iff in Hl. destruct Hl as (((Hs & H1) & _) & _).
    unfold path_Join2, path_Join_all. cbn [List.filter]. rewrite bool_decide_eq_true_2 by done. rewrite H1. cbn [negb strings_Join].
    unfold path_Clean. assert (match file with String a _ => bool_decide (a = slash) | "" => false end = false) as ->.
    { destruct file as [|a f]; [done|]. cbn in Hs. apply andb_true_iff in Hs as [Ha _].
      apply bool_decide_eq_true in Ha. by apply bool_decide_eq_false. }
    rewrite path_elements_leaf by done. cbn [foldl]. change ("" +:+ file) with file. rewrite Hc. cbn [rev app strings_Join].
    by rewrite H1.
  - exists ((if rooted then "/" else "") +:+ (if rev stack == [] then "" else strings_Join (rev stack) "/" +:+ "/")).
    intros file Hl. pose proof (clean_step_leaf rooted stack file Hl) as Hc. unfold leaf in Hl.
    rewrite !andb_true_iff, !negb_true_iff in Hl. destruct Hl as (((Hs & H1) & _) & _).
    unfold path_Join2, path_Join_all. cbn [List.filter]. rewrite (bool_decide_eq_false_2 (dir = "")), H1 by done. cbn [negb strings_Join].
    change (dir +:+ "/" +:+ file) with (dir +:+ String slash file).
    unfold path_Clean. rewrite path_elements_slash, foldl_app, (path_elements_leaf file) by done. cbn [foldl].
    change ("" +:+ file) with file.
    assert (match dir +:+ String slash file with String a _ => bool_decide (a = slash) | "" => false end = rooted) as ->.
    { unfold rooted. by destruct dir. }
    fold stack. rewrite Hc. cbn [rev]. rewrite strings_Join_snoc, string_app_assoc.
    destruct rooted; [done|]. rewrite bool_decide_eq_false_2; [done|].
    intros Hnil. apply (f_equal String.length) in Hnil. rewrite string_length_app in Hnil.
    apply bool_decide_eq_false in H1. destruct file; [done|]. cbn in Hnil. lia.
Qed.

(** The end of a file name. *)
Definition log_suffix (base : BaseLoggerSpec) : string :=
  ".log" +:+ (if bl_Format base != LogFormatPlainText then "." +:+ bl_Format base else "")
  +:+ (if bl_Compression base != LogCompressionNone then "." +:+ bl_Compression base else "").

(** A logger as the schema allows it, with a name that is no path. *)
Definition known_logger (base : BaseLoggerSpec) : Prop :=
  slash_free (bl_Name base) = true ∧
  bl_Format base ∈ [LogFormatPlainText; LogFormatYson; LogFormatJson] ∧
  bl_Compression base ∈ [LogCompressionNone; LogCompressionGzip; LogCompressionZstd].

Lemma file_name_shape componentName dir :
  slash_free componentName = true →
  ∃ prefix, (∀ base', slash_free (bl_Name base') = true →
    lw_FileName (createBaseLoggingWriter componentName dir LogWriterTypeFile base') =
      prefix +:+ bl_Name base' +:+ log_suffix base').
Proof.
  intros Hc. destruct (path_Join2_leaf dir) as [prefix Hp]. exists (prefix +:+ componentName +:+ ".").
  intros base' Hn. unfold createBaseLoggingWriter. cbv zeta. cbn [lw_FileName].
  rewrite (bool_decide_eq_true_2 (LogWriterTypeFile = LogWriterTypeFile)) by done.
  rewrite Hp.
  - unfold log_suffix. destruct (bl_Format base' != LogFormatPlainText), (bl_Compression base' != LogCompressionNone);
      cbv iota; rewrite ?string_app_nil_r, !string_app_assoc; reflexivity.
  - unfold leaf. rewrite !slash_free_app, Hc, Hn. cbn [andb].
    assert (4 < String.length (componentName +:+ "." +:+ bl_Name base' +:+ ".log")) as Hlen.
    { rewrite !string_length_app. cbn. lia. }
    rewrite !bool_decide_eq_false_2; [done|..]; intros Heq; rewrite Heq in Hlen; cbn in Hlen; lia.
Qed.

Fixpoint string_drop (n : nat) (s : string) : string :=
  match n, s with S n, String _ s => string_drop n s | _, _ => s end.

Lemma string_drop_app s t : string_drop (String.length s) (s +:+ t) = t.
Proof. induction s as [|a s IH]; [by destruct t|]. by rewrite string_app_cons. Qed.

Lemma string_app_split x y s t :
  x +:+ s = y +:+ t → (String.length y ≤ String.length x)%nat → ∃ u, x = y +:+ u ∧ t = u +:+ s.
Proof.
  revert x. induction y as [|a y IH]; intros x H Hl; [by exists x|].
  destruct x as [|b x]; [cbn in Hl; lia|]. rewrite !string_app_cons in H. injection H as -> H.
  destruct (IH x H) as (u & -> & ->); [cbn in Hl; lia|]. by exists u.
Qed.

(** Of two ends of the same string the shorter one ends the longer one. *)
Lemma suffix_cmp x y s t :
  x +:+ s = y +:+ t → (String.length s ≤ String.length t)%nat →
  string_drop (String.length t - String.length s) t = s.
Proof.
  intros H Hl. pose proof (f_equal String.length H) as Hlen. rewrite !string_length_app in Hlen.
  destruct (string_app_split x y s t H) as (u & _ & ->); [lia|].
  rewrite string_length_app. replace (_ - _)%nat with (String.length u) by lia. apply string_drop_app.
Qed.

(** The names of known loggers can be read off their file names. *)
Lemma log_suffix_inj n1 n2 b1 b2 :
  known_logger b1 → known_logger b2 → n1 +:+ log_suffix b1 = n2 +:+ log_suffix b2 → n1 = n2.
Proof.
  intros (_ & Hf1 & Hc1) (_ & Hf2 & Hc2). unfold log_suffix.
  set_unfold. destruct Hf1 as [->|[->|[->|[]]]], Hc1 as [->|[->|[->|[]]]], Hf2 as [->|[->|[->|[]]]], Hc2 as [->|[->|[->|[]]]];
    match goal with |- _ +:+ ?s = _ +:+ ?t → _ =>
      let s' := eval vm_compute in s in let t' := eval vm_compute in t in change s with s'; change t with t' end;
    intros H; first [by apply string_app_inj_r in H
      | apply suffix_cmp in H; [vm_compute in H; discriminate H|vm_compute; lia]
      | symmetry in H; apply suffix_cmp in H; [vm_compute in H; discriminate H|vm_compute; lia]].
Qed.

(** The loggers a component uses. *)
Definition used_loggers (spec : InstanceSpec) (defaults : list TextLoggerSpec) : list BaseLoggerSpec :=
  (tl_BaseLoggerSpec <$> match is_Loggers spec with [] => defaults | loggers => loggers end)
  ++ (sl_BaseLoggerSpec <$> is_StructuredLoggers spec).

Lemma entry_writer_shape spec componentName defaults e :
  e ∈ logging_entries spec componentName defaults → lw_WriterType (en_writer e) = LogWriterTypeFile →
  ∃ base, base ∈ used_loggers spec defaults ∧ en_name e = bl_Name base ∧
    lw_FileName (en_writer e) = lw_FileName (createBaseLoggingWriter componentName
      (ChooseLoggingPath (FindFirstLocation (is_Locations spec) LocationTypeLogs)) LogWriterTypeFile base).
Proof.
  unfold logging_entries, used_loggers. rewrite elem_of_app, !list_elem_of_fmap.
  intros [(l & -> & Hl)|(l & -> & Hl)] Ht.
  - exists (tl_BaseLoggerSpec l). rewrite elem_of_app. split_and!; [left; by apply list_elem_of_fmap_2|done|].
    unfold text_entry, createLoggingWriter in *. cbn [en_writer lw_set_EnableSystemMessages lw_WriterType lw_FileName createBaseLoggingWriter] in *.
    by rewrite Ht.
  - exists (sl_BaseLoggerSpec l). rewrite elem_of_app. split_and!; [right; by apply list_elem_of_fmap_2|done|done].
Qed.

(** No two loggers of a server write into the same file: writers of different names that
    write to files have different file names, provided the names are no paths and format and
    compression are among the values the schema allows.  The suffixes for format and
    compression that the generator appends never make two names meet. *)
Theorem log_files_distinct spec componentName defaults name1 name2 w1 w2 :
  slash_free componentName = true → Forall known_logger (used_loggers spec defaults) →
  lg_Writers (createLogging spec componentName defaults) !! name1 = Some w1 →
  lg_Writers (createLogging spec componentName defaults) !! name2 = Some w2 →
  lw_WriterType w1 = LogWriterTypeFile → lw_WriterType w2 = LogWriterTypeFile →
  name1 ≠ name2 → lw_FileName w1 ≠ lw_FileName w2.
Proof.
  intros Hc Hk. rewrite (proj2 (createLogging_entries spec componentName defaults)).
  assert (∀ n w, entry_writers (logging_entries spec componentName defaults) !! n = Some w →
    ∃ e, e ∈ logging_entries spec componentName defaults ∧ en_name e = n ∧ en_writer e = w) as Hlook.
  { intros n w. unfold entry_writers. rewrite foldl_writers_lookup, lookup_empty.
    destruct (last _) as [e|] eqn:Hl; [|done]. intros [= <-]. exists e. apply last_Some_elem_of in Hl.
    apply list_elem_of_In, filter_In in Hl as [Hl Hb]. apply bool_decide_eq_true in Hb. by rewrite list_elem_of_In. }
  intros (e1 & He1 & <- & <-)%Hlook (e2 & He2 & <- & <-)%Hlook Ht1 Ht2 Hne Hf. apply Hne. revert Hf.
  destruct (entry_writer_shape _ _ _ _ He1 Ht1) as (b1 & Hb1 & -> & ->).
  destruct (entry_writer_shape _ _ _ _ He2 Ht2) as (b2 & Hb2 & -> & ->).
  rewrite Forall_forall in Hk. pose proof (Hk _ Hb1) as Hk1. pose proof (Hk _ Hb2) as Hk2.
  destruct (file_name_shape componentName
    (ChooseLoggingPath (FindFirstLocation (is_Locations spec) LocationTypeLogs)) Hc) as [prefix Hp].
  rewrite (Hp b1), (Hp b2) by apply Hk1 || apply Hk2. intros H. apply string_app_inj_l in H.
  by eapply log_suffix_inj in H.
Qed.

(** ** Delivered logs *)

Lemma fold_delivery componentName dir proxy path loggers c :
  let to := deliveryLogConfig componentName dir proxy path in
  let yson l := bl_Format (sl_BaseLoggerSpec l) == LogFormatYson in
  let c' := foldl (addDeliveryLog componentName dir proxy path) c loggers in
  ttc_JsonLogs c' = ttc_JsonLogs c ++ (to <$> List.filter (λ l, negb (yson l)) loggers) ∧
  ttc_YsonLogs c' = ttc_YsonLogs c ++ (to <$> List.filter yson loggers).
Proof.
  cbv zeta. revert c. induction loggers as [|l loggers IH]; intros c; [by rewrite !app_nil_r|].
  cbn [foldl List.filter]. destruct (IH (addDeliveryLog componentName dir proxy path c l)) as [-> ->].
  unfold addDeliveryLog. destruct (bl_Format (sl_BaseLoggerSpec l) == LogFormatYson); cbn [negb ttc_JsonLogs ttc_YsonLogs];
    rewrite ?fmap_cons, <- ?app_assoc; done.
Qed.

Lemma filter_partition {A} (f : A → bool) (l : list A) :
  List.filter (λ x, negb (f x)) l ++ List.filter f l ≡ₚ l.
Proof.
  induction l as [|x l IH]; [done|]. cbn. destruct (f x); cbn; [|by rewrite IH].
  rewrite <- Permutation_middle. by rewrite IH.
Qed.

Lemma deliveryLogConfig_file componentName dir proxy path l :
  ttl_LogFile (deliveryLogConfig componentName dir proxy path l) =
  lw_FileName (createStructuredLoggingWriter componentName dir l).
Proof.
  unfold createStructuredLoggingWriter, createBaseLoggingWriter, deliveryLogConfig. cbv zeta.
  cbn [ttl_LogFile lw_FileName lw_set_EnableSystemMessages].
  rewrite (bool_decide_eq_true_2 (LogWriterTypeFile = LogWriterTypeFile)) by done.
  by destruct (bl_Compression (sl_BaseLoggerSpec l) != LogCompressionNone).
Qed.

Lemma resolved_loggers componentTT commonTT spec d :
  resolveTimbertruckDelivery componentTT commonTT spec = Some d →
  ttd_Loggers d ≠ [] ∧ (∀ l, l ∈ ttd_Loggers d → l ∈ is_StructuredLoggers spec) ∧
  ttd_LogsDirectory d = ChooseLoggingPath (FindFirstLocation (is_Locations spec) LocationTypeLogs).
Proof.
  unfold resolveTimbertruckDelivery. destruct (deliveredStructuredLoggers _ _) as [|l0 ls] eqn:Hd; [done|].
  case_bool_decide; [done|]. destruct (FindFirstLocation _ _) as [loc|] eqn:Hloc; [|done]. intros [= <-]. cbn.
  split_and!; [done| |done]. rewrite <- Hd. unfold deliveredStructuredLoggers. intros l.
  destruct (ContainsFunc _ _); [|destruct componentTT; [done|by intros ?%elem_of_nil]].
  rewrite !list_elem_of_In. by intros [? _]%filter_In.
Qed.

(** A configuration of the sidecar has one entry per logger, whatever the directories. *)
Lemma NewTimbertruckConfig_logs loggers workDir componentName dir proxy path :
  loggers ≠ [] → ∃ c, NewTimbertruckConfig loggers workDir componentName dir proxy path = Some c ∧
    BaseLogConfigs c ≡ₚ (deliveryLogConfig componentName dir proxy path <$> loggers).
Proof.
  intros Hne. unfold NewTimbertruckConfig. set (c := foldl _ _ _).
  destruct (fold_delivery componentName dir proxy path loggers (mkTimbertruckConfig workDir [] [])) as [Hj Hy].
  fold c in Hj, Hy. cbn [app ttc_JsonLogs ttc_YsonLogs] in Hj, Hy.
  assert (BaseLogConfigs c ≡ₚ (deliveryLogConfig componentName dir proxy path <$> loggers)) as Hperm.
  { unfold BaseLogConfigs. rewrite Hj, Hy, <- fmap_app. by rewrite filter_partition. }
  exists c. split; [|done]. destruct ((length _ =? 0)%nat && _) eqn:Hlen; [|done]. apply andb_true_iff in Hlen as [H1 H2].
  apply Nat.eqb_eq in H1, H2. apply Permutation_length in Hperm. unfold BaseLogConfigs in Hperm.
  rewrite length_app, H1, H2, length_fmap in Hperm. by destruct loggers.
Qed.

(** C33. The sidecar delivers what the server writes: when log delivery is enabled for a component
    whose loggers have different names, the configuration of the sidecar exists and has one
    entry per delivered logger; each entry follows exactly the file of the writer that the
    configuration of the server defines for that logger, stands in the section of the
    format that writer uses, and has queues of its own under the delivery path. *)
Theorem delivery_follows_writers componentTT commonTT spec d workDir componentName proxy defaults :
  resolveTimbertruckDelivery componentTT commonTT spec = Some d →
  NoDup (en_name <$> logging_entries spec componentName defaults) →
  let to := deliveryLogConfig componentName (ttd_LogsDirectory d) proxy (ttd_LogsDeliveryPath d) in
  ∃ c, NewTimbertruckConfig (ttd_Loggers d) workDir componentName (ttd_LogsDirectory d) proxy
         (ttd_LogsDeliveryPath d) = Some c ∧
    BaseLogConfigs c ≡ₚ (to <$> ttd_Loggers d) ∧
    ∀ l, l ∈ ttd_Loggers d → ∃ w,
      lg_Writers (createLogging spec componentName defaults) !! sl_Name l = Some w ∧
      lw_WriterType w = LogWriterTypeFile ∧ ttl_LogFile (to l) = lw_FileName w ∧
      (if lw_Format w == LogFormatYson then to l ∈ ttc_YsonLogs c else to l ∈ ttc_JsonLogs c).
Proof.
  intros Hd Hnd to. destruct (resolved_loggers _ _ _ _ Hd) as (Hne & Hin & Hdir).
  destruct (NewTimbertruckConfig_logs (ttd_Loggers d) workDir componentName (ttd_LogsDirectory d) proxy
    (ttd_LogsDeliveryPath d) Hne) as (c & Hc & Hperm). exists c. split_and!; [done|done|].
  unfold NewTimbertruckConfig in Hc. destruct (_ && _); [done|]. injection Hc as Hc.
  destruct (fold_delivery componentName (ttd_LogsDirectory d) proxy (ttd_LogsDeliveryPath d) (ttd_Loggers d)
    (mkTimbertruckConfig workDir [] [])) as [Hj Hy]. rewrite Hc in Hj, Hy. fold to in Hj, Hy.
  cbn [app ttc_JsonLogs ttc_YsonLogs] in Hj, Hy.
  intros l Hl. exists (createStructuredLoggingWriter componentName (ttd_LogsDirectory d) l).
  split_and!; [|done|apply deliveryLogConfig_file|].
  - rewrite (proj2 (createLogging_entries _ _ _)), Hdir.
    apply (entry_writers_lookup _ (structured_entry componentName _ l) Hnd).
    unfold logging_entries. apply elem_of_app. right. apply list_elem_of_fmap_2. by apply Hin.
  - cbn [lw_Format createStructuredLoggingWriter lw_set_EnableSystemMessages createBaseLoggingWriter].
    rewrite Hj, Hy. destruct (bl_Format (sl_BaseLoggerSpec l) == LogFormatYson) eqn:Hf;
      apply list_elem_of_fmap_2, list_elem_of_In, filter_In; rewrite <- list_elem_of_In, Hf; done.
Qed.

End logging.

(** ** Examples *)

Definition example_text (name fmt compression : string) : TextLoggerSpec :=
  mkTextLoggerSpec (mkBaseLoggerSpec name fmt LogLevelInfo compression false false None None) LogWriterTypeFile None.

Definition example_structured (name fmt : string) : StructuredLoggerSpec :=
  mkStructuredLoggerSpec (mkBaseLoggerSpec name fmt LogLevelInfo LogCompressionZstd false false None None)
    (Some "Access") None (Some true).

(** A component with a logs location, two text loggers and two delivered structured loggers. *)
Definition example_logs : InstanceSpec :=
  let i := InstanceSpecZero in
  mkInstanceSpec (is_PodSpec i) (is_Image i) (is_VolumeMounts i) 1 (is_MinReadyInstanceCount i)
    [mkLocationSpec LocationTypeLogs "/yt/logs/" "default" None None None] (is_EnableAntiAffinity i)
    [example_structured "access" LogFormatYson; example_structured "security" LogFormatJson]
    (is_Affinity i) (is_NativeTransport i) [] ResourceRequirementsZero [] None None
    [example_text "info" LogFormatPlainText LogCompressionNone; example_text "debug" LogFormatPlainText LogCompressionZstd] [] None.

Lemma example_files :
  (lw_FileName ∘ en_writer) <$> logging_entries example_logs "master" [] =
    ["/yt/logs/master.info.log"; "/yt/logs/master.debug.log.zstd"; "/yt/logs/master.access.log.yson.zstd";
     "/yt/logs/master.security.log.json.zstd"].
Proof. vm_compute. reflexivity. Qed.

Lemma logging_well_formed_witness :
  NoDup (en_name <$> logging_entries example_logs "master" []) ∧
  (∀ e, e ∈ logging_entries example_logs "master" [] →
    lg_Writers (createLogging example_logs "master" []) !! en_name e = Some (en_writer e)).
Proof.
  assert (NoDup (en_name <$> logging_entries example_logs "master" [])) as Hnd
    by (apply (bool_decide_unpack _); vm_compute; exact I).
  split; [exact Hnd|]. exact (proj2 (proj2 (proj2 (logging_well_formed example_logs "master" []))) Hnd).
Defined.

Lemma example_known : Forall known_logger (used_loggers example_logs []).
Proof.
  repeat constructor; cbn; set_solver.
Qed.

Lemma log_files_distinct_witness :
  ("access" : string) ≠ "security" ∧
  lw_FileName (createStructuredLoggingWriter "master" "/yt/logs/" (example_structured "access" LogFormatYson)) ≠
  lw_FileName (createStructuredLoggingWriter "master" "/yt/logs/" (example_structured "security" LogFormatJson)).
Proof.
  assert (("access" : string) ≠ "security") as Hne by discriminate. split; [exact Hne|].
  exact (log_files_distinct example_logs "master" [] "access" "security"
    (createStructuredLoggingWriter "master" "/yt/logs/" (example_structured "access" LogFormatYson))
    (createStructuredLoggingWriter "master" "/yt/logs/" (example_structured "security" LogFormatJson))
    eq_refl example_known ltac:(vm_compute; reflexivity) ltac:(vm_compute; reflexivity) eq_refl eq_refl Hne).
Defined.

Definition example_delivery : timbertruckDelivery :=
  mkDelivery "timbertruck:1" "/yt/logs/" "//sys/admin/logs" (is_StructuredLoggers example_logs).

Lemma delivery_follows_writers_witness :
  ∃ c, NewTimbertruckConfig (ttd_Loggers example_delivery) "/yt/logs/timbertruck" "master" "/yt/logs/" "proxy"
         "//sys/admin/logs" = Some c ∧
    (ttl_LogFile <$> BaseLogConfigs c) ≡ₚ ["/yt/logs/master.security.log.json.zstd"; "/yt/logs/master.access.log.yson.zstd"].
Proof.
  destruct (delivery_follows_writers None (Some (mkTimbertruckSpec (Some "timbertruck:1") None)) example_logs
    example_delivery "/yt/logs/timbertruck" "master" "proxy" []) as (c & Hc & Hp & _);
    [reflexivity|apply (bool_decide_unpack _); vm_compute; exact I|].
  exists c. split; [exact Hc|]. rewrite Hp. vm_compute. apply Permutation_swap.
Defined.

(** A writer that has no file still gets the suffixes of its format and compression as a file
    name. *)
Lemma stderr_writer_file_name componentName dir :
  lw_FileName (createBaseLoggingWriter componentName dir LogWriterTypeStderr
    (mkBaseLoggerSpec "stderr" LogFormatJson LogLevelError LogCompressionNone false false None None)) = ".json".
Proof. reflexivity. Qed.
