(* ===== verification/Connection.v ===== *)
(** * The configuration generator: the cluster as every server sees it
    (src/pkg/ytconfig/generator.go, common.go, keyring.go, cell_id.go)

    A generator is made once per pass from the resource, of the cluster itself or of a remote
    one.  It knows the master cells, the discovery servers, the caches and proxies, and fills
    the part of a configuration that all servers share: the connection to the cluster with
    its encryption, the address resolver, exporters, tracing. *)

From S2P Require Import Prelude Kubernetes ApiTypes Consts Labeller Timbertruck Values Logging.

(** ** Cell ids (cell_id.go) *)

(** The uuid library: the sixteen bytes of a random UUID drawn from a reader, none when the
    reader ends too early. *)
Class UUIDs := { NewRandomFromReader : string → option (list Z) }.

Definition is_byte (b : Z) : Prop := (0 ≤ b < 256)%Z.

Class UUIDLaws (U : UUIDs) := {
  uuid_reads s : (16 ≤ String.length s)%nat → is_Some (NewRandomFromReader s);
  uuid_bytes s bytes : NewRandomFromReader s = Some bytes → length bytes = 16%nat ∧ Forall is_byte bytes;
}.

Definition masterCellType : Z := 601.

Definition getGUIDPart (data : list Z) : string :=
  TrimLeft (foldl (λ part value, part +:+ fmt_02x value) "" data) (Ascii.ascii_of_nat 48).

(** [data[i:j]]. *)
Definition slice {A} (data : list A) (i j : nat) : list A := take (j - i) (drop i data).

(** [byte(z)]. *)
Definition to_byte (z : Z) : Z := (z mod 256)%Z.

Definition generateCellID {U : UUIDs} (cellTag : Z) : option string :=
  uuidBytes ← NewRandomFromReader "ytsaurus-kubernetes-operator";
  let uuidBytes := <[4%nat := to_byte (Z.shiftr cellTag 8)]> uuidBytes in
  let uuidBytes := <[5%nat := to_byte (Z.land cellTag 255)]> uuidBytes in
  let uuidBytes := <[6%nat := to_byte (Z.shiftr masterCellType 8)]> uuidBytes in
  let uuidBytes := <[7%nat := to_byte (Z.land masterCellType 255)]> uuidBytes in
  Some (getGUIDPart (slice uuidBytes 12 16) +:+ "-" +:+ getGUIDPart (slice uuidBytes 8 12) +:+ "-"
        +:+ getGUIDPart (slice uuidBytes 4 8) +:+ "-" +:+ getGUIDPart (slice uuidBytes 0 4)).

(** ** Documents (common.go) *)

Record PemBlob := mkPemBlob {
  pem_EnvironmentVariable : string;
  pem_FileName : string;
  pem_Value : string;
}.

Definition pem_file (name : string) : PemBlob := mkPemBlob "" name "".
Definition pem_vault (variable name : string) : PemBlob := mkPemBlob variable name "".

Inductive EncryptionMode : Type :=
  | EncryptionModeUnset | EncryptionModeDisabled | EncryptionModeOptional | EncryptionModeRequired.

Inductive VerificationMode : Type :=
  | VerificationModeUnset | VerificationModeNone | VerificationModeCa | VerificationModeFull.

#[global] Instance EncryptionMode_eq_dec : EqDecision EncryptionMode.
Proof. solve_decision. Defined.
#[global] Instance VerificationMode_eq_dec : EqDecision VerificationMode.
Proof. solve_decision. Defined.

Record Bus := mkBus {
  bus_EncryptionMode : EncryptionMode;
  bus_CertChain : option PemBlob;
  bus_PrivateKey : option PemBlob;
  bus_CipherList : list string;
  bus_CA : option PemBlob;
  bus_VerificationMode : VerificationMode;
  bus_PeerAlternativeHostName : string;
}.

Definition BusZero : Bus := mkBus EncryptionModeUnset None None [] None VerificationModeUnset "".

Record MasterCellPeer := mkMasterCellPeer { peer_Address : string; peer_Voting : bool }.

Record MasterCell := mkMasterCell {
  cell_Addresses : list string;
  cell_Peers : list MasterCellPeer;
  cell_CellID : string;
}.

Record MasterCacheConfig := mkMasterCacheConfig {
  mcc_Addresses : list string;
  mcc_CellID : string;
  mcc_EnableMasterCacheDiscover : bool;
}.

Record ClusterConnection := mkClusterConnection {
  cc_ClusterName : string;
  cc_PrimaryMaster : MasterCell;
  cc_SecondaryMasters : list MasterCell;
  cc_DiscoveryConnection : list string;
  cc_BusClient : option Bus;
  cc_MasterCache : MasterCacheConfig;
  cc_TimestampProviders : option (list string);
  cc_CypressProxy : option (list string);
}.

Record AddressResolver := mkAddressResolver {
  ar_EnableIPv4 : bool;
  ar_EnableIPv6 : bool;
  ar_KeepSocket : option bool;
  ar_ForceTCP : option bool;
  ar_Retries : option Z;
  ar_LocalhostNameOverride : option string;
}.

Definition AddressResolverZero : AddressResolver := mkAddressResolver false false None None None None.

Record SolomonShard := mkSolomonShard { sos_Filter : list string; sos_GridStep : Z }.

Record SolomonExporter := mkSolomonExporter {
  soe_Host : option string;
  soe_InstanceTags : gmap string string;
  soe_Shards : gmap string SolomonShard;
  soe_GridStep : Z;
}.

Definition SolomonExporterZero : SolomonExporter := mkSolomonExporter None ∅ ∅ 0.

Record Jaeger := mkJaeger {
  jg_CollectorAddress : string;
  jg_ServiceName : string;
  jg_MaxMemory : option Z;
  jg_ProcessTags : gmap string string;
}.

(** [CommonServer] with the embedded [BasicServer]. *)
Record CommonServer := mkCommonServer {
  srv_AddressResolver : AddressResolver;
  srv_Stockpile : option Z;
  srv_SolomonExporter : SolomonExporter;
  srv_Logging : Logging;
  srv_MonitoringPort : Z;
  srv_RPCPort : Z;
  srv_BusServer : option Bus;
  srv_TimestampProviders : list string;
  srv_ClusterConnection : ClusterConnection;
  srv_CypressAnnotations : gmap string string;
  srv_Jaeger : option Jaeger;
}.

Record BindMount := mkBindMount { bm_ExternalPath : string; bm_InternalPath : string; bm_ReadOnly : bool }.

Record IOEngine := mkIOEngine { io_EnableSync : option bool }.

(** ** Keyrings (keyring.go) *)

Record Keyring := mkKeyring {
  kr_BusCABundle : option PemBlob;
  kr_BusClientCertificate : option PemBlob;
  kr_BusClientPrivateKey : option PemBlob;
  kr_BusServerCertificate : option PemBlob;
  kr_BusServerPrivateKey : option PemBlob;
}.

(** The transport a keyring is made for. *)
Definition keyringTransport (commonSpec : CommonSpec) (transportSpec : option RPCTransportSpec) : RPCTransportSpec :=
  match transportSpec with
  | Some s => s
  | None => match cs_NativeTransport commonSpec with Some s => s | None => RPCTransportSpecZero end
  end.

Definition getMountKeyring (commonSpec : CommonSpec) (transportSpec : option RPCTransportSpec) : Keyring :=
  let transportSpec := keyringTransport commonSpec transportSpec in
  let server file := (λ _, pem_file (path_Join2 BusServerSecretMountPoint file)) <$> rpct_TLSSecret transportSpec in
  let client file := (λ _, pem_file (path_Join2 BusClientSecretMountPoint file)) <$> rpct_TLSClientSecret transportSpec in
  mkKeyring
    (Some match cs_CABundle commonSpec with
          | Some _ => pem_file (path_Join2 CABundleMountPoint CABundleFileName)
          | None => pem_file DefaultCABundlePath end)
    (client TLSCertKey) (client TLSPrivateKeyKey) (server TLSCertKey) (server TLSPrivateKeyKey).

Definition getVaultKeyring (commonSpec : CommonSpec) (transportSpec : option RPCTransportSpec) : Keyring :=
  let transportSpec := keyringTransport commonSpec transportSpec in
  let server vault file :=
    (λ _, pem_vault (SecureVaultEnvPrefix +:+ vault) (path_Join2 BusServerSecretMountPoint file))
      <$> rpct_TLSSecret transportSpec in
  let client vault file :=
    (λ _, pem_vault (SecureVaultEnvPrefix +:+ vault) (path_Join2 BusClientSecretMountPoint file))
      <$> rpct_TLSClientSecret transportSpec in
  mkKeyring
    (Some match cs_CABundle commonSpec with
          | Some _ => pem_vault (SecureVaultEnvPrefix +:+ BusCABundleVaultName)
                        (path_Join2 CABundleMountPoint CABundleFileName)
          | None => pem_file DefaultCABundlePath end)
    (client BusClientCertificateVaultName TLSCertKey) (client BusClientPrivateKeyVaultName TLSPrivateKeyKey)
    (server BusServerCertificateVaultName TLSCertKey) (server BusServerPrivateKeyVaultName TLSPrivateKeyKey).

Definition getTokenVolumePath (name : string) : string := path_Join_all [SecretsMountBase; name; TokenFileName].

(** ** The generator (generator.go) *)

Record masterCellInfo := mkMasterCellInfo {
  mci_MasterConnectionSpec : MasterConnectionSpec;
  mci_InstanceCount : Z;
}.

Definition mci_CellTag (i : masterCellInfo) : Z := mc_CellTag (mci_MasterConnectionSpec i).
Definition mci_HostAddresses (i : masterCellInfo) : list string := mc_HostAddresses (mci_MasterConnectionSpec i).

Record masterCacheInfo := mkMasterCacheInfo {
  mcai_InstanceCount : Z;
  mcai_HostAddresses : list string;
}.

Record NodeGenerator := mkNodeGenerator {
  ng_baseLabeller : Labeller;
  ng_timbertruckDeliveryProxy : string;
  ng_commonSpec : CommonSpec;
  ng_clusterFeatures : ClusterFeatures;
  ng_primaryMaster : masterCellInfo;
  ng_secondaryMasters : list masterCellInfo;
  ng_unregisteredMasters : list masterCellInfo;
  ng_masterCache : option masterCacheInfo;
  ng_cypressProxiesSpec : option CypressProxiesSpec;
  ng_discoveryInstanceCount : Z;
  ng_dataNodesInstanceCount : Z;
  ng_bundleControllerInstanceCount : option Z;
}.

Record Generator := mkGenerator {
  gen_NodeGenerator : NodeGenerator;
  gen_ytsaurus : Ytsaurus;
}.

(** The configuration of the sidecar that delivers logs (timbertruck.go). *)
Definition GetTimbertruckConfig (g : NodeGenerator) (structuredLoggers : list StructuredLoggerSpec)
    (workDir componentName logsDirectory logsDeliveryPath : string) : option TimbertruckConfig :=
  NewTimbertruckConfig structuredLoggers workDir componentName logsDirectory (ng_timbertruckDeliveryProxy g) logsDeliveryPath.

Definition gen_spec (g : Generator) : YtsaurusSpec := yts_Spec (gen_ytsaurus g).

(** [RemoteYtsaurus]: the description of a cluster this operator does not run. *)
Record RemoteYtsaurusSpec := mkRemoteYtsaurusSpec {
  rys_PrimaryMaster : option MasterConnectionSpec;
  rys_SecondaryMasters : list MasterConnectionSpec;
  rys_MasterCaches : option (list string);
  rys_CellTag : Z;
  rys_HostAddresses : list string;
  rys_HostAddressesMasterCaches : list string;
}.

Record RemoteYtsaurus := mkRemoteYtsaurus {
  ry_Name : string;
  ry_Namespace : string;
  ry_Spec : RemoteYtsaurusSpec;
}.

Section generator.
Context {Q : QuantityArith} {U : UUIDs}.

(** *** Addresses *)

Definition GetComponentLabeller (g : NodeGenerator) (component : ComponentType) (instanceGroup : string) : Labeller :=
  ForComponent (ng_baseLabeller g) component instanceGroup.

Definition getComponentAddresses (g : NodeGenerator) (ct : ComponentType) (instanceCount port : Z) : outcome (list string) :=
  or_panic (GetInstanceAddresses (GetComponentLabeller g ct "") instanceCount port).

Definition GetMasterLabeller (g : NodeGenerator) (cellTag : Z) : Labeller :=
  let instanceGroup := if cellTag != mci_CellTag (ng_primaryMaster g)
    then GetCellName (ng_baseLabeller g) cellTag else "" in
  GetComponentLabeller g MasterType instanceGroup.

(** Addresses given by host names. *)
Definition host_addresses (hosts : list string) (port : Z) : list string :=
  (λ host, host +:+ ":" +:+ fmt_d port) <$> hosts.

Definition getMasterAddresses (g : NodeGenerator) (masterCell : masterCellInfo) : outcome (list string) :=
  match mci_HostAddresses masterCell with
  | [] => or_panic (GetInstanceAddresses (GetMasterLabeller g (mci_CellTag masterCell))
                      (mci_InstanceCount masterCell) MasterRPCPort)
  | hosts => mret (host_addresses hosts MasterRPCPort)
  end.

Definition masterCellOf (spec : MastersSpec) : masterCellInfo :=
  mkMasterCellInfo (ms_MasterConnectionSpec spec) (is_InstanceCount (ms_InstanceSpec spec)).

Definition GetMasterCellAddresses (g : NodeGenerator) (spec : MastersSpec) : outcome (list string) :=
  getMasterAddresses g (masterCellOf spec).

(** [slices.Sort] of numbers and their JSON. *)
Definition GetMasterCellTagsAsSortedJSON (g : NodeGenerator) (unregistered : bool) : string :=
  let cellTags := (mci_CellTag <$> ng_secondaryMasters g)
    ++ (if unregistered then mci_CellTag <$> ng_unregisteredMasters g else []) in
  "[" +:+ strings_Join (fmt_d <$> SortStableFunc Z.sub cellTags) "," +:+ "]".

Definition getMasterCachesAddresses (g : NodeGenerator) : outcome (list string) :=
  match ng_masterCache g with
  | None => mret []
  | Some cache =>
      match mcai_HostAddresses cache with
      | [] => getComponentAddresses g MasterCacheType (mcai_InstanceCount cache) MasterCachesRPCPort
      | hosts => mret (host_addresses hosts MasterCachesRPCPort)
      end
  end.

Definition getDiscoveryAddresses (g : NodeGenerator) : outcome (list string) :=
  getComponentAddresses g DiscoveryType (ng_discoveryInstanceCount g) DiscoveryRPCPort.

(** [None] is a nil slice. *)
Definition getCypressProxiesAddresses (g : NodeGenerator) : outcome (option (list string)) :=
  match ng_cypressProxiesSpec g with
  | None => mret None
  | Some spec =>
      if Deref (cps_Disable spec) false then mret None
      else addresses ← getComponentAddresses g CypressProxyType (is_InstanceCount (cps_InstanceSpec spec)) CypressProxyRPCPort;
           mret (Some addresses)
  end.

Definition GetMaxReplicationFactor (g : NodeGenerator) : Z := ng_dataNodesInstanceCount g.

(** The loop stops at the first group of the role. *)
Fixpoint findHTTPProxy (proxies : list HTTPProxiesSpec) (role : string) : option HTTPProxiesSpec :=
  match proxies with
  | [] => None
  | p :: rest => if hps_Role p == role then Some p else findHTTPProxy rest role
  end.

Definition getHTTPProxyPort (ytsaurus : YtsaurusSpec) (role portName : string) : outcome Z :=
  let p := findHTTPProxy (spec_HTTPProxies ytsaurus) role in
  let chyt p := Deref (hps_ChytProxy p) CHYTProxySpecZero in
  if portName == HTTPPortName then mret (Deref (p ≫= hps_HttpPort) HTTPProxyHTTPPort)
  else if portName == HTTPSPortName then mret (Deref (p ≫= hps_HttpsPort) HTTPProxyHTTPSPort)
  else if portName == CHYTHttpProxyName then mret (Deref (p ≫= chp_HttpPort ∘ chyt) HTTPProxyChytHttpPort)
  else if portName == CHYTHttpsProxyName then mret (Deref (p ≫= chp_HttpsPort ∘ chyt) HTTPProxyChytHttpsPort)
  else Panicked.

Definition getHTTPProxyAddress (features : ClusterFeatures) (ytsaurus : YtsaurusSpec) (role hostname : string)
    : outcome string :=
  let https := cf_HTTPProxyHaveHTTPSAddress features in
  let portName := if https then HTTPSPortName else HTTPPortName in
  let defaultPort := if https then HTTPProxyHTTPSPort else HTTPProxyHTTPPort in
  port ← getHTTPProxyPort ytsaurus role portName;
  mret ((if https then "https://" else "") +:+ hostname
        +:+ (if port != defaultPort then ":" +:+ fmt_d port else "")).

Definition ng_GetHTTPProxiesAddress (g : NodeGenerator) (ytsaurus : YtsaurusSpec) (role : string) : outcome string :=
  hostname ← or_panic (GetBalancerServiceAddress (GetComponentLabeller g HttpProxyType role));
  getHTTPProxyAddress (ng_clusterFeatures g) ytsaurus role hostname.

Definition GetHTTPProxiesAddress (g : Generator) (role : string) : outcome string :=
  ng_GetHTTPProxiesAddress (gen_NodeGenerator g) (gen_spec g) role.

Definition GetHTTPProxiesServiceAddress (g : Generator) (role : string) : outcome string :=
  hostname ← or_panic (GetHeadlessServiceAddress (GetComponentLabeller (gen_NodeGenerator g) HttpProxyType role));
  getHTTPProxyAddress (ng_clusterFeatures (gen_NodeGenerator g)) (gen_spec g) role hostname.

(** The services of the proxies and of the strawberry controller. *)
Definition GetHTTPProxiesServiceName (g : Generator) (role : string) : option string :=
  GetBalancerServiceName (GetComponentLabeller (gen_NodeGenerator g) HttpProxyType role).
Definition GetRPCProxiesServiceName (g : Generator) (role : string) : option string :=
  GetBalancerServiceName (GetComponentLabeller (gen_NodeGenerator g) RpcProxyType role).
Definition GetTCPProxiesServiceName (g : Generator) (role : string) : option string :=
  GetBalancerServiceName (GetComponentLabeller (gen_NodeGenerator g) TcpProxyType role).
Definition GetKafkaProxiesServiceName (g : Generator) (role : string) : option string :=
  GetBalancerServiceName (GetComponentLabeller (gen_NodeGenerator g) KafkaProxyType role).
Definition GetStrawberryControllerServiceAddress (g : NodeGenerator) : option string :=
  GetHeadlessServiceAddress (GetComponentLabeller g StrawberryControllerType "").

(** A nil specification is dereferenced. *)
Definition GetYQLAgentAddresses (g : Generator) : outcome (list string) :=
  spec ← or_panic (spec_YQLAgents (gen_spec g));
  getComponentAddresses (gen_NodeGenerator g) YqlAgentType (is_InstanceCount (yqs_InstanceSpec spec)) YQLAgentRPCPort.
Definition GetQueryTrackerAddresses (g : Generator) : outcome (list string) :=
  spec ← or_panic (spec_QueryTrackers (gen_spec g));
  getComponentAddresses (gen_NodeGenerator g) QueryTrackerType (is_InstanceCount spec) QueryTrackerRPCPort.
Definition GetQueueAgentAddresses (g : Generator) : outcome (list string) :=
  spec ← or_panic (spec_QueueAgents (gen_spec g));
  getComponentAddresses (gen_NodeGenerator g) QueueAgentType (is_InstanceCount spec) QueueAgentRPCPort.

(** *** Construction *)

Definition cell_registered (maintenance : list MasterCellMaintenanceInfo) (spec : MastersSpec) : bool :=
  negb (ContainsFunc maintenance (λ info, (mcm_CellTag info == ms_CellTag spec) && mcm_Unregistered info)).

Definition NewLocalNodeGenerator (ytsaurus : Ytsaurus) (resourceName clusterDomain : string) : outcome NodeGenerator :=
  let spec := yts_Spec ytsaurus in
  let common := spec_CommonSpec spec in
  let dataNodesInstanceCount :=
    foldl (λ sum dataNodes, i32 (sum + is_InstanceCount (dns_InstanceSpec dataNodes))) 0%Z (spec_DataNodes spec) in
  let bundleControllerInstanceCount :=
    match spec_BundleController spec with Some spec => is_InstanceCount spec | None => 0%Z end in
  let running := List.filter (λ m, is_InstanceCount (ms_InstanceSpec m) != 0%Z) (spec_SecondaryMasters spec) in
  let maintenance := us_MasterCellsMaintenance (st_UpdateStatus (yts_Status ytsaurus)) in
  let masterCache := (λ m, mkMasterCacheInfo (is_InstanceCount (mcs_InstanceSpec m))
    (match mcs_HostAddresses m with [] => mcs_HostAddressesMasterCaches m | hosts => hosts end)) <$> spec_MasterCaches spec in
  let generator proxy := mkNodeGenerator
    (mkLabeller (yts_Namespace ytsaurus) (yts_Name ytsaurus) resourceName ComponentTypeEmpty "" clusterDomain
       (cs_ExtraPodAnnotations common) (cs_UseShortNames common))
    proxy common (Deref (cs_ClusterFeatures common) ClusterFeaturesZero)
    (masterCellOf (spec_PrimaryMasters spec))
    (masterCellOf <$> List.filter (cell_registered maintenance) running)
    (masterCellOf <$> List.filter (λ m, negb (cell_registered maintenance m)) running)
    masterCache (spec_CypressProxies spec) (is_InstanceCount (spec_Discovery spec)) dataNodesInstanceCount
    (Some bundleControllerInstanceCount) in
  proxy ← ng_GetHTTPProxiesAddress (generator "") spec DefaultHTTPProxyRole;
  mret (generator proxy).

Definition NewGenerator (ytsaurus : Ytsaurus) (clusterDomain : string) : outcome Generator :=
  generator ← NewLocalNodeGenerator ytsaurus (yts_Name ytsaurus) clusterDomain;
  mret (mkGenerator generator ytsaurus).

Definition remoteCell (spec : MasterConnectionSpec) : masterCellInfo :=
  mkMasterCellInfo spec (i32 (Z.of_nat (length (mc_HostAddresses spec)))).

Definition NewRemoteNodeGenerator (ytsaurus : RemoteYtsaurus) (resourceName clusterDomain : string)
    (commonSpec : CommonSpec) : NodeGenerator :=
  let spec := ry_Spec ytsaurus in
  let primary := Deref (rys_PrimaryMaster spec) (mkMasterConnectionSpec (rys_CellTag spec) (rys_HostAddresses spec)) in
  let caches := Deref (rys_MasterCaches spec) (rys_HostAddressesMasterCaches spec) in
  mkNodeGenerator
    (mkLabeller (ry_Namespace ytsaurus) (ry_Name ytsaurus) resourceName ComponentTypeEmpty "" clusterDomain
       (cs_ExtraPodAnnotations commonSpec) (cs_UseShortNames commonSpec))
    "" commonSpec (Deref (cs_ClusterFeatures commonSpec) ClusterFeaturesZero)
    (remoteCell primary) (remoteCell <$> rys_SecondaryMasters spec) []
    (match caches with [] => None | _ => Some (mkMasterCacheInfo (i32 (Z.of_nat (length caches))) caches) end)
    None 0 0 None.

(** *** The common part of a server *)

Definition fillIOEngine (g : NodeGenerator) (ioEngine : option IOEngine) : option IOEngine :=
  if cs_EphemeralCluster (ng_commonSpec g) then Some (mkIOEngine (Some false)) else ioEngine.

Definition fillAddressResolver (g : NodeGenerator) (c : AddressResolver) : AddressResolver :=
  let common := ng_commonSpec g in
  mkAddressResolver (cs_UseIPv4 common || (negb (cs_UseIPv6 common) && negb (cs_UseIPv4 common))) (cs_UseIPv6 common)
    (cs_KeepSocket common) (cs_ForceTCP common) (Some 1000%Z) (ar_LocalhostNameOverride c).

Definition fillSolomonExporter (m : option MetricExporter) : SolomonExporter :=
  let host := match m ≫= me_Host with Some host => host | None => "{POD_SHORT_HOSTNAME}" end in
  let tags := {[ "pod" := "{" +:+ ENV_K8S_POD_NAME +:+ "}" ]} in
  let shard (s : MetricShard) := mkSolomonShard (msh_Filter s) (Z.max 0 (msh_GridStep s)) in
  match m with
  | None => mkSolomonExporter (Some host) tags ∅ 0
  | Some m => mkSolomonExporter (Some host) (me_InstanceTags m ∪ tags) (shard <$> me_Shards m) (Z.max 0 (me_GridStep m))
  end.

Definition fillMasterCell (g : NodeGenerator) (s : masterCellInfo) : outcome MasterCell :=
  id ← or_panic (generateCellID (mci_CellTag s));
  addresses ← getMasterAddresses g s;
  mret (mkMasterCell addresses ((λ address, mkMasterCellPeer address true) <$> addresses) id).

(** The cells of a list, in order. *)
Fixpoint fillMasterCells (g : NodeGenerator) (cells : list masterCellInfo) : outcome (list MasterCell) :=
  match cells with
  | [] => mret []
  | s :: rest => cell ← fillMasterCell g s; cells ← fillMasterCells g rest; mret (cell :: cells)
  end.

(** The transport of a component: its own or the one of the cluster. *)
Definition busTransport (g : NodeGenerator) (s : option RPCTransportSpec) : option RPCTransportSpec :=
  match s with Some s => Some s | None => cs_NativeTransport (ng_commonSpec g) end.

Definition fillClusterConnectionEncryption (g : NodeGenerator) (s : option RPCTransportSpec) (keyring : Keyring)
    (busClient : option Bus) : option Bus :=
  match busTransport g s with
  | None => busClient
  | Some s =>
      match rpct_TLSSecret s with
      | None => busClient
      | Some _ =>
          let c := default BusZero busClient in
          let verified := rpct_TLSRequired s || negb (rpct_TLSInsecure s) in
          Some (mkBus (if verified then EncryptionModeRequired else EncryptionModeOptional)
            (kr_BusClientCertificate keyring) (kr_BusClientPrivateKey keyring) (bus_CipherList c)
            (if verified then kr_BusCABundle keyring else bus_CA c)
            (if verified then VerificationModeFull else VerificationModeNone)
            (if verified then rpct_TLSPeerAlternativeHostName s else bus_PeerAlternativeHostName c))
      end
  end.

(** Every caller passes the zero value of the connection. *)
Definition fillClusterConnection (g : NodeGenerator) (s : option RPCTransportSpec) (keyring : Keyring)
    : outcome ClusterConnection :=
  primary ← fillMasterCell g (ng_primaryMaster g);
  secondary ← fillMasterCells g (ng_secondaryMasters g);
  discovery ← getDiscoveryAddresses g;
  caches ← getMasterCachesAddresses g;
  cypress ← getCypressProxiesAddresses g;
  mret (mkClusterConnection (lab_ClusterName (ng_baseLabeller g)) primary secondary discovery
    (fillClusterConnectionEncryption g s keyring None)
    (mkMasterCacheConfig (match caches with [] => cell_Addresses primary | _ => caches end) (cell_CellID primary) false)
    None cypress).

Definition fillCypressAnnotations : gmap string string :=
  list_to_map [ ("k8s_pod_name", "{" +:+ ENV_K8S_POD_NAME +:+ "}");
                ("k8s_pod_namespace", "{" +:+ ENV_K8S_POD_NAMESPACE +:+ "}");
                ("k8s_node_name", "{" +:+ ENV_K8S_NODE_NAME +:+ "}");
                ("physical_host", "{" +:+ ENV_K8S_NODE_NAME +:+ "}") ].

Definition fillTracing (g : NodeGenerator) (component : ComponentType) (jaeger : option Jaeger) : outcome (option Jaeger) :=
  match cs_Tracing (ng_commonSpec g) with
  | None => mret jaeger
  | Some spec =>
      name ← or_panic (GetServiceKebabCase component);
      mret (Some (mkJaeger (tr_CollectorAddress spec) ("yt-" +:+ name) (Quantity_Value <$> tr_MaxMemory spec)
              (tr_ProcessTags spec)))
  end.

(** What the skeleton of a server has set before the common part is filled in. *)
Record Carcass := mkCarcass { car_RPCPort : Z; car_MonitoringPort : Z; car_Logging : Logging }.

Definition fillCommonService (g : NodeGenerator) (c : Carcass) (s : InstanceSpec) (component : ComponentType)
    : outcome CommonServer :=
  let keyring := getMountKeyring (ng_commonSpec g) (is_NativeTransport s) in
  connection ← fillClusterConnection g (is_NativeTransport s) keyring;
  timestamps ← getMasterAddresses g (ng_primaryMaster g);
  jaeger ← fillTracing g component None;
  mret (mkCommonServer (fillAddressResolver g AddressResolverZero) (Some 0%Z)
    (fillSolomonExporter (is_MetricExporter s)) (car_Logging c) (car_MonitoringPort c) (car_RPCPort c) None
    timestamps connection fillCypressAnnotations jaeger).

(** [fillBusServer] on a bus. *)
Definition fillBus (b : Bus) (s : RPCTransportSpec) (keyring : Keyring) : Bus :=
  let verified := rpct_TLSRequired s && negb (rpct_TLSInsecure s) in
  mkBus (if rpct_TLSRequired s then EncryptionModeRequired else EncryptionModeOptional)
    (kr_BusServerCertificate keyring) (kr_BusServerPrivateKey keyring) (bus_CipherList b)
    (if verified then kr_BusCABundle keyring else bus_CA b)
    (if verified then VerificationModeFull else VerificationModeNone)
    (if verified then rpct_TLSPeerAlternativeHostName s else bus_PeerAlternativeHostName b).

Definition srv_set_BusServer (b : option Bus) (c : CommonServer) : CommonServer :=
  mkCommonServer (srv_AddressResolver c) (srv_Stockpile c) (srv_SolomonExporter c) (srv_Logging c)
    (srv_MonitoringPort c) (srv_RPCPort c) b (srv_TimestampProviders c) (srv_ClusterConnection c)
    (srv_CypressAnnotations c) (srv_Jaeger c).

Definition fillBusServer (g : NodeGenerator) (s : option RPCTransportSpec) (c : CommonServer) : CommonServer :=
  match busTransport g s with
  | None => c
  | Some s =>
      match rpct_TLSSecret s with
      | None => c
      | Some _ =>
          let keyring := getMountKeyring (ng_commonSpec g) (Some s) in
          srv_set_BusServer (Some (fillBus (default BusZero (srv_BusServer c)) s keyring)) c
      end
  end.

Definition GetClusterConnection (g : NodeGenerator) : outcome ClusterConnection :=
  fillClusterConnection g None (getVaultKeyring (ng_commonSpec g) None).

End generator.
(** ** Cell ids identify their cells *)

Definition dash : Ascii.ascii := Ascii.ascii_of_nat 45.

Definition hex_value (a : Ascii.ascii) : option Z :=
  let n := Z.of_nat (Ascii.nat_of_ascii a) in
  if ((48 <=? n) && (n <=? 57))%Z then Some (n - 48)%Z
  else if ((97 <=? n) && (n <=? 102))%Z then Some (n - 87)%Z else None.

Fixpoint parse_hex (s : string) (acc : Z) : option Z :=
  match s with
  | "" => Some acc
  | String a s => match hex_value a with Some d => parse_hex s (16 * acc + d)%Z | None => None end
  end.

Fixpoint split_dash (s word : string) : list string :=
  match s with
  | "" => [word]
  | String a s => if decide (a = dash) then word :: split_dash s "" else split_dash s (word +:+ String a "")
  end.

(** How the servers read an object id: four hexadecimal numbers, of which the third holds the
    cell tag and the type of the object. *)
Definition decodeCellID (id : string) : option (Z * Z) :=
  match split_dash id "" with
  | [_; _; part; _] => v ← parse_hex part 0; Some (v / 2 ^ 16, v mod 2 ^ 16)%Z
  | _ => None
  end.

Fixpoint all_hex (s : string) : bool :=
  match s with "" => true | String a s => bool_decide (is_Some (hex_value a)) && all_hex s end.

Lemma hex_digit_value n : (0 ≤ n < 16)%Z → hex_value (hex_digit n) = Some n.
Proof.
  intros H. replace n with (Z.of_nat (Z.to_nat n)) by lia. assert (Z.to_nat n < 16)%nat as Hn by lia.
  generalize dependent (Z.to_nat n). intros k Hk. do 16 (destruct k as [|k]; [done|]). lia.
Qed.

Lemma all_hex_app s t : all_hex (s +:+ t) = all_hex s && all_hex t.
Proof. induction s as [|a s IH]; [done|]. rewrite string_app_cons. cbn [all_hex]. by rewrite IH, andb_assoc. Qed.

Lemma byte_digits b : is_byte b → (0 ≤ b / 16 < 16 ∧ 0 ≤ b mod 16 < 16 ∧ b = 16 * (b / 16) + b mod 16)%Z.
Proof.
  unfold is_byte. intros H. pose proof (Z.mod_pos_bound b 16). pose proof (Z.div_mod b 16).
  pose proof (Z.div_lt_upper_bound b 16 16). pose proof (Z.div_pos b 16). lia.
Qed.

Lemma all_hex_02x b : is_byte b → all_hex (fmt_02x b) = true.
Proof.
  intros (H1 & H2 & _)%byte_digits. cbn. rewrite !hex_digit_value by done.
  by rewrite !bool_decide_eq_true_2 by by eexists.
Qed.

Lemma parse_hex_02x b s acc : is_byte b → parse_hex (fmt_02x b +:+ s) acc = parse_hex s (256 * acc + b).
Proof.
  intros (H1 & H2 & Hb)%byte_digits. unfold fmt_02x. rewrite !string_app_cons. cbn [parse_hex].
  rewrite !hex_digit_value by done. change ("" +:+ s) with s. f_equal. lia.
Qed.

(** The text of bytes, and the number it stands for. *)
Definition hex_text (data : list Z) : string := foldr (λ value text, fmt_02x value +:+ text) "" data.

Lemma foldl_hex_text data s : foldl (λ part value, part +:+ fmt_02x value) s data = s +:+ hex_text data.
Proof.
  revert s. induction data as [|b data IH]; intros s; cbn; [by rewrite string_app_nil_r|].
  by rewrite IH, string_app_assoc.
Qed.

Lemma parse_hex_text data acc :
  Forall is_byte data → parse_hex (hex_text data) acc = Some (foldl (λ v b, 256 * v + b)%Z acc data).
Proof.
  intros H. revert acc. induction H as [|b data Hb _ IH]; intros acc; [done|]. cbn [hex_text foldr foldl].
  rewrite parse_hex_02x by done. apply IH.
Qed.

Lemma all_hex_text data : Forall is_byte data → all_hex (hex_text data) = true.
Proof.
  induction 1 as [|b data Hb _ IH]; [done|]. cbn [hex_text foldr]. rewrite all_hex_app, all_hex_02x by done. exact IH.
Qed.

(** Leading zeros do not matter. *)
Lemma parse_hex_TrimLeft s : parse_hex (TrimLeft s (Ascii.ascii_of_nat 48)) 0 = parse_hex s 0.
Proof. induction s as [|a s IH]; [done|]. cbn [TrimLeft]. destruct (decide _) as [->|]; [|done]. rewrite IH. done. Qed.

Lemma all_hex_TrimLeft s a : all_hex s = true → all_hex (TrimLeft s a) = true.
Proof.
  induction s as [|b s IH]; [done|]. intros H. cbn [TrimLeft]. destruct (decide _); [|done].
  apply IH. cbn [all_hex] in H. by apply andb_true_iff in H as [_ H].
Qed.

Lemma split_dash_app s t w : all_hex s = true → split_dash (s +:+ "-" +:+ t) w = (w +:+ s) :: split_dash t "".
Proof.
  change ("-" +:+ t) with (String dash t).
  revert w. induction s as [|a s IH]; intros w Hs.
  - change ("" +:+ String dash t) with (String dash t). cbn [split_dash]. by rewrite decide_True, string_app_nil_r.
  - cbn [all_hex] in Hs. apply andb_true_iff in Hs as [Ha Hs]. apply bool_decide_eq_true in Ha.
    rewrite string_app_cons. cbn [split_dash]. rewrite decide_False; [by rewrite IH, string_app_assoc|].
    intros ->. by destruct Ha.
Qed.

Lemma split_dash_last s w : all_hex s = true → split_dash s w = [w +:+ s].
Proof.
  revert w. induction s as [|a s IH]; intros w Hs; [cbn; by rewrite string_app_nil_r|].
  cbn [all_hex] in Hs. apply andb_true_iff in Hs as [Ha Hs]. apply bool_decide_eq_true in Ha.
  cbn [split_dash]. rewrite decide_False; [by rewrite IH, string_app_assoc|]. intros ->. by destruct Ha.
Qed.

Section cell_ids.
Context {U : UUIDs} {UL : UUIDLaws U}.

Lemma GUIDPart_hex data : Forall is_byte data → all_hex (getGUIDPart data) = true.
Proof.
  intros H. unfold getGUIDPart. rewrite foldl_hex_text. apply all_hex_TrimLeft. by apply all_hex_text.
Qed.

Lemma GUIDPart_value data :
  Forall is_byte data → parse_hex (getGUIDPart data) 0 = Some (foldl (λ v b, 256 * v + b)%Z 0%Z data).
Proof.
  intros H. unfold getGUIDPart. rewrite foldl_hex_text, parse_hex_TrimLeft. by apply parse_hex_text.
Qed.

Lemma to_byte_is_byte z : is_byte (to_byte z).
Proof. unfold is_byte, to_byte. apply Z.mod_pos_bound. lia. Qed.

(** The id of a cell can be read back. *)
Lemma generateCellID_decodes cellTag :
  (0 ≤ cellTag < 2 ^ 16)%Z →
  ∃ id, generateCellID cellTag = Some id ∧ decodeCellID id = Some (cellTag, masterCellType).
Proof.
  intros Htag. unfold generateCellID.
  destruct (uuid_reads "ytsaurus-kubernetes-operator") as [bytes Hb]; [cbn; lia|]. rewrite Hb. cbn [mbind option_bind].
  apply uuid_bytes in Hb as [Hlen Hbytes].
  do 16 (destruct bytes as [|? bytes]; [done|]). destruct bytes; [|done]. clear Hlen. cbn [insert list_insert slice take drop Nat.sub].
  repeat match goal with H : Forall _ (_ :: _) |- _ => apply Forall_cons in H as [? H] end.
  assert (∀ a b c d, is_byte a → is_byte b → is_byte c → is_byte d → Forall is_byte [a; b; c; d]) as Hfour
    by (intros; rewrite !Forall_cons, Forall_nil; done).
  eexists. split; [reflexivity|]. unfold decodeCellID.
  rewrite !split_dash_app by (apply GUIDPart_hex; apply Hfour; auto using to_byte_is_byte).
  rewrite split_dash_last by (apply GUIDPart_hex; apply Hfour; auto using to_byte_is_byte).
  change ("" +:+ ?s) with s. rewrite GUIDPart_value by (apply Hfour; auto using to_byte_is_byte).
  cbn [mbind option_bind foldl]. unfold to_byte, masterCellType.
  rewrite Z.shiftr_div_pow2 by lia. change 255%Z with (Z.ones 8). rewrite !Z.land_ones by lia.
  change (601 mod 2 ^ 8 mod 256)%Z with 89%Z. change (Z.shiftr 601 8 mod 256)%Z with 2%Z.
  change (601 / 2 ^ 8)%Z with 2%Z.
  assert (cellTag / 2 ^ 8 < 256)%Z by (apply Z.div_lt_upper_bound; lia). assert (0 ≤ cellTag / 2 ^ 8)%Z by (apply Z.div_pos; lia).
  pose proof (Z.div_mod cellTag (2 ^ 8)). pose proof (Z.mod_pos_bound cellTag (2 ^ 8)).
  rewrite (Z.mod_small (cellTag / 2 ^ 8) 256), (Z.mod_small (cellTag mod 2 ^ 8) 256) by lia.
  set (hi := (cellTag / 2 ^ 8)%Z) in *. set (lo := (cellTag mod 2 ^ 8)%Z) in *.
  replace (256 * (256 * (256 * (256 * 0 + hi) + lo) + 2) + 89)%Z with (601 + cellTag * 2 ^ 16)%Z by lia.
  rewrite Z.div_add, Z.mod_add by lia. change (601 / 2 ^ 16)%Z with 0%Z. by rewrite Z.add_0_l.
Qed.

(** C40. A cell id can be read back: for every cell tag the generator produces an id, the id
    decodes to that tag and to the type of a master cell, and no other cell gets the same id,
    whatever bytes the uuid library makes of the fixed seed. *)
Theorem cell_id_roundtrip cellTag :
  (0 ≤ cellTag < 2 ^ 16)%Z →
  ∃ id, generateCellID cellTag = Some id ∧ decodeCellID id = Some (cellTag, masterCellType) ∧
    ∀ cellTag', (0 ≤ cellTag' < 2 ^ 16)%Z → generateCellID cellTag' = Some id → cellTag' = cellTag.
Proof.
  intros Htag. destruct (generateCellID_decodes cellTag Htag) as (id & Hid & Hdec). exists id. split_and!; [done|done|].
  intros cellTag' Htag' Hid'. destruct (generateCellID_decodes cellTag' Htag') as (id' & H1 & H2). congruence.
Qed.

End cell_ids.

(** ** A remote description of a cluster gives the same view of it *)

Section views.
Context {U : UUIDs}.

(** The remote resource describes the cluster: its name, its cells with their hosts and its
    caches.  Cells without instances and cells that are being added are not part of the
    description, and hosts are given, not derived from pods. *)
Record describes (r : RemoteYtsaurus) (y : Ytsaurus) : Prop := {
  desc_name : ry_Name r = yts_Name y;
  desc_primary : Deref (rys_PrimaryMaster (ry_Spec r))
      (mkMasterConnectionSpec (rys_CellTag (ry_Spec r)) (rys_HostAddresses (ry_Spec r))) =
    ms_MasterConnectionSpec (spec_PrimaryMasters (yts_Spec y));
  desc_secondary : rys_SecondaryMasters (ry_Spec r) =
    ms_MasterConnectionSpec <$> spec_SecondaryMasters (yts_Spec y);
  desc_running : ∀ m, m ∈ spec_SecondaryMasters (yts_Spec y) → is_InstanceCount (ms_InstanceSpec m) ≠ 0%Z ∧
    cell_registered (us_MasterCellsMaintenance (st_UpdateStatus (yts_Status y))) m = true;
  desc_hosts : ∀ m, m = spec_PrimaryMasters (yts_Spec y) ∨ m ∈ spec_SecondaryMasters (yts_Spec y) →
    ms_HostAddresses m ≠ [];
  desc_caches : Deref (rys_MasterCaches (ry_Spec r)) (rys_HostAddressesMasterCaches (ry_Spec r)) =
    match spec_MasterCaches (yts_Spec y) with
    | Some m => match mcs_HostAddresses m with [] => mcs_HostAddressesMasterCaches m | hosts => hosts end
    | None => []
    end;
  desc_cache_hosts : ∀ m, spec_MasterCaches (yts_Spec y) = Some m →
    mcs_HostAddresses m ≠ [] ∨ mcs_HostAddressesMasterCaches m ≠ [];
}.

(** Cells with given hosts look the same from every generator. *)
Lemma fillMasterCell_hosts g g' c n n' :
  mc_HostAddresses c ≠ [] → fillMasterCell g (mkMasterCellInfo c n) = fillMasterCell g' (mkMasterCellInfo c n').
Proof.
  intros Hc. unfold fillMasterCell, getMasterAddresses, mci_CellTag, mci_HostAddresses. cbn [mci_MasterConnectionSpec].
  by destruct (mc_HostAddresses c).
Qed.

Lemma fillMasterCells_hosts g g' ms :
  (∀ m, m ∈ ms → ms_HostAddresses m ≠ []) →
  fillMasterCells g (masterCellOf <$> ms) = fillMasterCells g' (remoteCell <$> (ms_MasterConnectionSpec <$> ms)).
Proof.
  induction ms as [|m ms IH]; intros Hm; [done|]. cbn [fmap list_fmap fillMasterCells].
  rewrite IH by (intros; apply Hm; by right). unfold masterCellOf, remoteCell.
  rewrite (fillMasterCell_hosts g g' (ms_MasterConnectionSpec m) _ (i32 (Z.of_nat (length (mc_HostAddresses
    (ms_MasterConnectionSpec m)))))); [done|]. apply Hm. by left.
Qed.

Lemma filter_all {A} (f : A → bool) l : (∀ x, x ∈ l → f x = true) → List.filter f l = l.
Proof.
  induction l as [|x l IH]; intros H; [done|]. cbn. rewrite (H x) by left. f_equal. apply IH. intros. apply H. by right.
Qed.

Lemma filter_none {A} (f : A → bool) l : (∀ x, x ∈ l → f x = false) → List.filter f l = [].
Proof.
  induction l as [|x l IH]; intros H; [done|]. cbn. rewrite (H x) by left. apply IH. intros. apply H. by right.
Qed.

Lemma described_secondary r y :
  describes r y →
  List.filter (cell_registered (us_MasterCellsMaintenance (st_UpdateStatus (yts_Status y))))
    (List.filter (λ m, is_InstanceCount (ms_InstanceSpec m) != 0%Z) (spec_SecondaryMasters (yts_Spec y))) =
  spec_SecondaryMasters (yts_Spec y).
Proof.
  intros D. pose proof (desc_running _ _ D) as Hr. rewrite (filter_all (λ m, is_InstanceCount (ms_InstanceSpec m) != 0%Z)).
  - apply filter_all. intros m Hm. by apply Hr.
  - intros m Hm. by rewrite bool_decide_eq_false_2 by by apply Hr.
Qed.

Lemma described_caches r y g g' :
  describes r y →
  ng_masterCache g = ((λ m, mkMasterCacheInfo (is_InstanceCount (mcs_InstanceSpec m))
    (match mcs_HostAddresses m with [] => mcs_HostAddressesMasterCaches m | hosts => hosts end))
      <$> spec_MasterCaches (yts_Spec y)) →
  ng_masterCache g' =
    (let caches := Deref (rys_MasterCaches (ry_Spec r)) (rys_HostAddressesMasterCaches (ry_Spec r)) in
     match caches with [] => None | _ => Some (mkMasterCacheInfo (i32 (Z.of_nat (length caches))) caches) end) →
  getMasterCachesAddresses g = getMasterCachesAddresses g'.
Proof.
  intros D Hg Hg'. unfold getMasterCachesAddresses. rewrite Hg, Hg'. cbv zeta. rewrite (desc_caches _ _ D).
  pose proof (desc_cache_hosts _ _ D) as Hh. destruct (spec_MasterCaches (yts_Spec y)) as [m|]; [|done].
  cbn. destruct (Hh m eq_refl) as [H|H]; destruct (mcs_HostAddresses m), (mcs_HostAddressesMasterCaches m); done.
Qed.

(** C26. Remote nodes join the same cluster: when a RemoteYtsaurus resource describes a cluster by
    the hosts of its masters and caches, a server configured from the description connects
    to the same primary and secondary cells with the same ids and peers, and to the same
    caches, as a server configured from the cluster itself. *)
Theorem remote_view_agrees r y resource resource' domain domain' common g s s' k k' c :
  describes r y → NewLocalNodeGenerator y resource domain = Returned g →
  fillClusterConnection g s k = Returned c →
  ∃ c', fillClusterConnection (NewRemoteNodeGenerator r resource' domain' common) s' k' = Returned c' ∧
    cc_ClusterName c' = cc_ClusterName c ∧ cc_PrimaryMaster c' = cc_PrimaryMaster c ∧
    cc_SecondaryMasters c' = cc_SecondaryMasters c ∧ cc_MasterCache c' = cc_MasterCache c.
Proof.
  intros D Hg Hc. unfold NewLocalNodeGenerator in Hg. apply outcome_bind_Returned in Hg as (proxy & _ & Hg).
  injection Hg as <-. set (g := mkNodeGenerator _ proxy _ _ _ _ _ _ _ _ _ _) in Hc.
  set (g' := NewRemoteNodeGenerator r resource' domain' common).
  assert (fillMasterCell g' (ng_primaryMaster g') = fillMasterCell g (ng_primaryMaster g)) as Hp.
  { unfold g' at 2. cbn [ng_primaryMaster NewRemoteNodeGenerator]. rewrite (desc_primary _ _ D).
    apply fillMasterCell_hosts. apply (desc_hosts _ _ D). by left. }
  assert (fillMasterCells g' (ng_secondaryMasters g') = fillMasterCells g (ng_secondaryMasters g)) as Hs.
  { cbn [ng_secondaryMasters g]. rewrite (described_secondary _ _ D).
    unfold g' at 2. cbn [ng_secondaryMasters NewRemoteNodeGenerator]. rewrite (desc_secondary _ _ D). symmetry.
    apply fillMasterCells_hosts. intros m Hm. apply (desc_hosts _ _ D). by right. }
  assert (getMasterCachesAddresses g' = getMasterCachesAddresses g) as Hcache by (symmetry; by eapply described_caches).
  assert (lab_ClusterName (ng_baseLabeller g') = lab_ClusterName (ng_baseLabeller g)) as Hname by apply (desc_name _ _ D).
  unfold fillClusterConnection in Hc |- *. rewrite Hp, Hs, Hcache. clearbody g.
  apply outcome_bind_Returned in Hc as (primary & -> & Hc). apply outcome_bind_Returned in Hc as (secondary & -> & Hc).
  apply outcome_bind_Returned in Hc as (discovery & _ & Hc). apply outcome_bind_Returned in Hc as (caches & -> & Hc).
  apply outcome_bind_Returned in Hc as (cypress & _ & Hc). injection Hc as <-.
  eexists. split; [reflexivity|]. split_and!; done.
Qed.

End views.

(** ** Examples *)

(** Version 4 of RFC 4122 over the characters of the reader. *)
Definition uuid_of_text (s : string) : list Z :=
  let bytes := (λ a, Z.of_nat (Ascii.nat_of_ascii a)) <$> take 16 (String.list_ascii_of_string s) in
  <[8%nat := (Z.lor (Z.land (default 0%Z (bytes !! 8%nat)) 63) 128)]>
    (<[6%nat := (Z.lor (Z.land (default 0%Z (bytes !! 6%nat)) 15) 64)]> bytes).

#[global] Instance ReferenceUUID : UUIDs :=
  { NewRandomFromReader s := if (String.length s <? 16)%nat then None else Some (uuid_of_text s) }.

Lemma ascii_is_byte a : is_byte (Z.of_nat (Ascii.nat_of_ascii a)).
Proof. unfold is_byte. pose proof (Ascii.nat_ascii_bounded a). lia. Qed.

Lemma list_ascii_length s : length (String.list_ascii_of_string s) = String.length s.
Proof. induction s as [|a s IH]; [done|]. cbn. by rewrite IH. Qed.

Lemma byte_bits b m k : is_byte b → (0 ≤ m < 256)%Z → (0 ≤ k < 256)%Z → is_byte (Z.lor (Z.land b m) k).
Proof.
  unfold is_byte. intros Hb Hm Hk. assert (0 ≤ Z.lor (Z.land b m) k)%Z as Hnn.
  { apply Z.lor_nonneg. split; [|lia]. apply Z.land_nonneg. lia. }
  split; [done|]. change 256%Z with (2 ^ 8)%Z. apply Z.log2_lt_cancel. change (Z.log2 (2 ^ 8)) with 8%Z.
  rewrite Z.log2_lor by (try apply Z.land_nonneg; lia).
  assert (∀ z, (0 ≤ z < 256)%Z → (Z.log2 z < 8)%Z) as Hlog.
  { intros z Hz. destruct (Z.eq_dec z 0) as [->|]; [cbn; lia|]. apply Z.log2_lt_pow2; lia. }
  apply Z.max_lub_lt; [|by apply Hlog]. eapply Z.le_lt_trans; [apply Z.log2_land; lia|].
  apply Z.min_lt_iff. left. by apply Hlog.
Qed.

#[global] Instance ReferenceUUID_laws : UUIDLaws ReferenceUUID.
Proof.
  split; unfold NewRandomFromReader, ReferenceUUID.
  - intros s Hs. destruct (Nat.ltb_spec (String.length s) 16); [lia|]. by eexists.
  - intros s bytes. destruct (Nat.ltb_spec (String.length s) 16); [done|]. intros [= <-]. unfold uuid_of_text. cbv zeta.
    set (l := (λ a, Z.of_nat (Ascii.nat_of_ascii a)) <$> take 16 (String.list_ascii_of_string s)).
    assert (Forall is_byte l) as Hl by (apply Forall_fmap, Forall_forall; intros; apply ascii_is_byte).
    assert (∀ i, is_byte (default 0%Z (l !! i))) as Hi.
    { intros i. destruct (l !! i) eqn:E; [|unfold is_byte; cbn; lia].
      rewrite Forall_forall in Hl. apply Hl. by eapply list_elem_of_lookup_2. }
    split.
    + rewrite !length_insert. unfold l. rewrite length_fmap, length_take, list_ascii_length. lia.
    + repeat apply Forall_insert; try done; apply byte_bits; first [lia|apply Hi].
Qed.

(** The id of the cell with tag 1, as in the canonical configurations of the tests. *)
Lemma cell_id_1 : generateCellID 1 = Some "65726e65-ad6b7562-10259-79747361".
Proof. vm_compute. reflexivity. Qed.

Lemma cell_id_roundtrip_witness :
  ∃ id, generateCellID 61440 = Some id ∧ decodeCellID id = Some (61440%Z, masterCellType).
Proof. destruct (cell_id_roundtrip 61440 ltac:(lia)) as (id & H1 & H2 & _). exists id. split; [exact H1|exact H2]. Defined.

Definition example_hosts (tag : Z) (hosts : list string) : MastersSpec :=
  mkMastersSpec (is_set_InstanceCount (Z.of_nat (length hosts)) InstanceSpecZero) tag hosts None None None [] None None "".

(** A cluster of one primary and one secondary cell on given hosts. *)
Definition example_multicell : Ytsaurus :=
  let z := YtsaurusSpecZero in
  mkYtsaurus "minisaurus" "default" 1
    (mkYtsaurusSpec (spec_CommonSpec z) (spec_PodSpec z) "" None [] (is_set_InstanceCount 1 InstanceSpecZero)
       (example_hosts 1 ["m0"; "m1"; "m2"]) [example_hosts 2 ["s0"]] None [] [] [] [] [] [] None None [] None None false
       None None None None None None None "")
    YtsaurusStatusZero.

Definition example_remote : RemoteYtsaurus :=
  mkRemoteYtsaurus "minisaurus" "remote" (mkRemoteYtsaurusSpec (Some (mkMasterConnectionSpec 1 ["m0"; "m1"; "m2"]))
    [mkMasterConnectionSpec 2 ["s0"]] None 0 [] []).

Lemma example_describes : describes example_remote example_multicell.
Proof.
  split; try done.
  - intros m [->|[]%elem_of_nil]%elem_of_cons. done.
  - intros m [->|[->|[]%elem_of_nil]%elem_of_cons]; done.
Qed.

Definition example_generator : NodeGenerator :=
  match NewLocalNodeGenerator example_multicell "minisaurus" "cluster.local" with
  | Returned g => g | _ => NewRemoteNodeGenerator example_remote "" "" CommonSpecZero end.

Lemma remote_view_agrees_witness :
  ∃ c c', GetClusterConnection example_generator = Returned c ∧
    GetClusterConnection (NewRemoteNodeGenerator example_remote "remote-nodes" "cluster.local" CommonSpecZero) = Returned c' ∧
    cc_PrimaryMaster c' = cc_PrimaryMaster c ∧ cell_Addresses (cc_PrimaryMaster c') = ["m0:9010"; "m1:9010"; "m2:9010"].
Proof.
  destruct (GetClusterConnection example_generator) as [c| |] eqn:Hc; [|vm_compute in Hc; discriminate Hc..].
  destruct (remote_view_agrees example_remote example_multicell "minisaurus" "remote-nodes" "cluster.local" "cluster.local"
    CommonSpecZero example_generator None None (getVaultKeyring CommonSpecZero None) (getVaultKeyring CommonSpecZero None) c
    example_describes ltac:(vm_compute; reflexivity) ltac:(vm_compute in Hc |- *; exact Hc)) as (c' & Hc' & _ & Hp & _).
  exists c, c'. split_and!; [reflexivity|exact Hc'|exact Hp|]. rewrite Hp.
  vm_compute in Hc. injection Hc as <-. reflexivity.
Defined.
