(* ===== verification/LogDelivery.v ===== *)
(** * The preparation of log delivery (src/pkg/components/timbertruck.go)

    The virtual component Timbertruck makes the cluster ready for the sidecars that deliver
    structured logs: a user with a token, directories with access rights, and for every
    delivered logger a queue, a producer and the destination the queue is exported to.  The
    theorem connects what it prepares with the configuration each sidecar gets. *)

From S2P Require Import Prelude Kubernetes ApiTypes Consts Labeller Status Ordered Ypatch Checks CypressActions ApiProxy Resources ConfigMaps InitJob Components YtsaurusClient PodsManager UpdateModes Services Master ServerComponents AgentComponents Timbertruck Values Logging Connection.

(** The rest of [yt.Client] that log delivery needs. *)
Class TableClient (E : Type) := {
  cy_NodeExists : string → go E (yterror + bool);
  cy_MountTable : string → go E (option yterror);
}.

Definition TimbertruckUserName := "robot-timbertruck".
Definition buildUserCredentialsSecretname (username : string) : string := username +:+ "-secret".

(** A column of a table schema (src/pkg/consts/schemas.go). *)
Inductive ColumnType : Type :=
  | TypeString | TypeUint64 | TypeInt64 | OptionalAny.

Record Column := mkColumn { col_Name : string; col_Type : ColumnType }.

Definition RawLogsQueueSchema : list Column :=
  [mkColumn "value" TypeString; mkColumn "codec" TypeString; mkColumn "source_uri" TypeString;
   mkColumn "meta" OptionalAny; mkColumn "$timestamp" TypeUint64; mkColumn "$cumulative_data_weight" TypeInt64].

Section delivery.
Context {E : Type} {MC : MetaConditions} {SC : StatusClient E} {CC : CypressClient E} {TC : TableClient E}.
Context {CD : ClientDeps E} `{HKS : !KubeClient E Secret} {DS : YsonDecode string}.
(** [ypath.Path.Attr], the position of a call, the YSON of a schema and of an access control
    entry, and the order in which Go visits the keys of a map. *)
Context (path_Attr : string → string → string) (position : string → Z → string).
Context (schema_any : list Column → Any) (ace_any : ACE → Any) (range_keys : gset string → list string).

Abbreviation W := (World E).
Abbreviation syncResult := (ComponentStatus * option error)%type.

(** A request whose error is wrapped with [fmt.Errorf]. *)
Definition wrapped (message : string) (r : go E (option yterror)) : go E (option yterror) :=
  err ← r; mret (wrapf message <$> err).

(** ** Queues *)

Definition queueAttributes (exportPath : string) : gmap string Any :=
  {[ "dynamic" := VBool true;
     "schema" := schema_any RawLogsQueueSchema;
     "auto_trim_config" := VMap {[ "enable" := VBool true; "retained_lifetime_duration" := VInt64 (24 * 60 * 60 * 1000) ]};
     "static_export_config" := VMap {[ "default" := VMap
       {[ "export_directory" := VString exportPath; "export_period" := VInt64 (30 * 60 * 1000);
          "export_ttl" := VInt64 (14 * 24 * 60 * 60 * 1000) ]} ]};
     "tablet_cell_bundle" := VString "sys";
     "commit_ordering" := VString "strong";
     "optimize_for" := VString "scan" ]}.

Definition prepareQueue (queuePath exportPath : string) : go E (option yterror) :=
  requests
    [wrapped ("failed to create YT queue " +:+ queuePath +:+ ": ")
       (cy_CreateNode queuePath "table" (mkCreateNodeOptions true true (queueAttributes exportPath)));
     wrapped ("failed to mount YT queue " +:+ queuePath +:+ ": ") (cy_MountTable queuePath)].

Definition producerAttributes : gmap string Any :=
  {[ "min_data_versions" := VInt64 0; "min_data_ttl" := VInt64 0; "max_data_ttl" := VInt64 2592000000;
     "tablet_cell_bundle" := VString "sys" ]}.

Definition prepareProducer (producerPath : string) : go E (option yterror) :=
  requests
    [wrapped ("failed to create YT producer (this functionality is supported on YTsaurus versions 24.1 and higher) "
                +:+ producerPath +:+ ": ")
       (cy_CreateNode producerPath "queue_producer" (mkCreateNodeOptions true true producerAttributes));
     wrapped ("failed to mount YT producer " +:+ producerPath +:+ ": ") (cy_MountTable producerPath)].

Definition exportDestination := "queue_static_export_destination".

(** The destination is told the id of its queue. *)
Definition setDestination (queuePath exportPath : string) : go E (option yterror) :=
  queueId ← GetNode (A:=string) (path_Attr queuePath "id");
  match queueId with
  | inl err => mret (Some (wrapf ("failed to get queue ID for " +:+ queuePath +:+ ": ") err))
  | inr queueId =>
      wrapped ("failed to set originating queue ID for export destination " +:+ exportPath +:+ ": ")
        (cy_SetNode (path_Attr exportPath exportDestination) (VMap {[ "originating_queue_id" := VString queueId ]})
           (Some (mkSetNodeOptions true false)))
  end.

Definition prepareExportDestination (queuePath exportPath : string) : go E (option yterror) :=
  requests
    [wrapped ("failed to create export destination " +:+ exportPath +:+ ": ")
       (cy_CreateNode exportPath "map_node" (mkCreateNodeOptions true true ∅));
     setDestination queuePath exportPath].

Definition exportPathOf (logsDeliveryPath name : string) : string := logsDeliveryPath +:+ "/export/" +:+ name.

(** What is prepared for one queue of a logger. *)
Definition prepareLogQueue (exportPath : string) (ytQueue : TimbertruckYTQueueConfig) : list (go E (option yterror)) :=
  let queuePath := ttq_QueuePath ytQueue in
  let producerPath := ttq_ProducerPath ytQueue in
  [wrapped ("failed to prepare YT queue " +:+ queuePath +:+ " with export destination " +:+ exportPath +:+ ": ")
     (prepareQueue queuePath exportPath);
   wrapped ("failed to prepare YT producer " +:+ producerPath +:+ ": ") (prepareProducer producerPath);
   wrapped ("failed to prepare export destination " +:+ exportPath +:+ " for YT queue " +:+ queuePath +:+ ": ")
     (prepareExportDestination queuePath exportPath)].

Definition prepareTimbertruckTablesFromConfig (timbertruckConfig : TimbertruckConfig) (logsDeliveryPath : string)
    : go E (option yterror) :=
  requests (logConfig ← BaseLogConfigs timbertruckConfig; ytQueue ← ttl_YTQueue logConfig;
            prepareLogQueue (exportPathOf logsDeliveryPath (ttl_Name logConfig)) ytQueue).

(** ** The component *)

Record TimbertruckComponent := mkTimbertruck {
  tt_base : component;
  tt_cfgen : Generator;
  tt_tabletNodes : list component;
  tt_client : ytClientRef E;
  tt_secret : lens E (ManagedResource Secret);
}.

Context (tt : TimbertruckComponent).

(** A panic of the generator ends the pass as an error would. *)
Definition panic : error := "runtime error".

(** The tables of one component. *)
Definition prepareLoggers (e : ComponentLoggers) : list (go E (option yterror)) :=
  match cl_ComponentName e, GetHTTPProxiesAddress (tt_cfgen tt) DefaultHTTPProxyRole with
  | Some name, Returned address =>
      match NewTimbertruckConfig (cl_StructuredLoggers e) "" name "" address (cl_LogsDeliveryPath e) with
      | None => []
      | Some timbertruckConfig =>
          [wrapped "failed to prepare timbertruck tables: "
             (prepareTimbertruckTablesFromConfig timbertruckConfig (cl_LogsDeliveryPath e))]
      end
  | _, _ => [mret (Some (errorf panic))]
  end.

Definition prepareTimbertruckTables : go W (option error) :=
  w ← gets id;
  if negb (yr_ready (tt_client tt) w) then mret (Some "ytClient is not initialized") else
  err ← in_env (requests (GetDeliveryLoggers (yts_Spec (w_yts w)) ≫= prepareLoggers));
  mret (err_of err).

(** ** The user *)

Definition deliveryACE : ACE :=
  mkACE "allow" [TimbertruckUserName] ["read"; "write"; "remove"; "create"] "object_and_descendants".
Definition accountACE : ACE := mkACE "allow" [TimbertruckUserName] ["use"] "".

Definition prepareDeliveryPath (logsDeliveryPath : string) : list (go E (option yterror)) :=
  [wrapped ("failed to create logs delivery path " +:+ logsDeliveryPath +:+ ": ")
     (cy_CreateNode logsDeliveryPath "map_node" (mkCreateNodeOptions true true ∅));
   wrapped ("failed to set ACL for logs delivery path " +:+ logsDeliveryPath +:+ ": ")
     (cy_SetNode (logsDeliveryPath +:+ "/@acl") (VList [ace_any deliveryACE]) (Some (mkSetNodeOptions true false)))].

Definition setupUser (token : string) (deliveryLoggers : list ComponentLoggers) : go E (option yterror) :=
  requests
    ([wrapped "failed to create timbertruck user: " (CreateUser sha256 path_Attr TimbertruckUserName token false)] ++
     (range_keys (list_to_set (cl_LogsDeliveryPath <$> deliveryLoggers)) ≫= prepareDeliveryPath) ++
     [wrapped "failed to set sys account ACL: "
        (cy_SetNode "//sys/accounts/sys/@acl/end" (ace_any accountACE) (Some (mkSetNodeOptions true false)))]).

Definition initUser (token : string) (deliveryLoggers : list ComponentLoggers) : go E (option yterror) :=
  ok ← cy_NodeExists ("//sys/users/" +:+ TimbertruckUserName);
  match ok with
  | inl err => mret (Some (wrapf "failed to check if timbertruck user exists: " err))
  | inr true => mret None
  | inr false => setupUser token deliveryLoggers
  end.

Definition initTimbertruckUser (deliveryLoggers : list ComponentLoggers) : go W (option error) :=
  w ← gets id;
  on_client (yr_ready (tt_client tt) w) (initUser (secret_token (tt_secret tt) w) deliveryLoggers).

(** ** The pass *)

Definition tt_updating (line : Z) : ComponentStatus := SimpleStatus SyncStatusUpdating (position "timbertruck.go" line).

Definition tt_handleUpdatingState (dry : bool) : go W syncResult :=
  w ← gets id;
  if (GetUpdateState w == UpdateStateWaitingForTimbertruckPrepared)
     && negb (IsUpdateStatusConditionTrue w ConditionTimbertruckPrepared) then
    if dry then mret (tt_updating 117, None) else
    err ← prepareTimbertruckTables;
    match err with
    | Some err => mret (tt_updating 120, Some err)
    | None =>
        SetUpdateStatusCondition (condition ConditionTimbertruckPrepared ConditionTrue "Update"
          "Timbertruck prepared successfully") ;;
        mret (tt_updating 129, None)
    end
  else mret (ComponentStatusReady, None).

(** [if !condition { if !dry { err := work(); ...; SetStatusCondition } return WaitingFor }]. *)
Definition tt_initialize (conditionType message waiting : string) (line : Z) (dry : bool) (work : go W (option error))
    : go W syncResult :=
  if dry then mret (ComponentStatusWaitingFor waiting, None) else
  err ← work;
  match err with
  | Some err => mret (tt_updating line, Some err)
  | None =>
      SetStatusCondition (condition conditionType ConditionTrue "Initialization" message) ;;
      mret (ComponentStatusWaitingFor waiting, None)
  end.

Definition handleTabletNodes (dry : bool) : go W syncResult :=
  wait_all (tt_tabletNodes tt) (
    w ← gets id;
    let deliveryLoggers := GetDeliveryLoggers (yts_Spec (w_yts w)) in
    if (length deliveryLoggers =? 0)%nat || ShouldSkipCypressOperations w then mret (ComponentStatusReady, None)
    else if negb (IsStatusConditionTrue w ConditionTimbertruckUserInitialized) then
      tt_initialize ConditionTimbertruckUserInitialized "Timbertruck user initialized successfully"
        "waiting for timbertruck user initialization" 186 dry (initTimbertruckUser deliveryLoggers)
    else if negb (IsStatusConditionTrueAndObservedGeneration w ConditionTimbertruckPrepared) then
      tt_initialize ConditionTimbertruckPrepared "Timbertruck prepared successfully"
        "waiting for timbertruck preparation" 201 dry prepareTimbertruckTables
    else mret (ComponentStatusReady, None)).

Definition Timbertruck_Sync (dry : bool) : go W syncResult :=
  updating ← gets IsUpdating;
  if updating : bool then
    state ← gets GetUpdateState;
    if state == UpdateStateImpossibleToStart then mret (ComponentStatusReady, None) else tt_handleUpdatingState dry
  else
  sync_token (tt_base tt) (tt_secret tt) (λ token, {[ TokenSecretKey := token ]}) dry
  (wait_running (yr_base (tt_client tt))
  (if (length (tt_tabletNodes tt) =? 0)%nat then mret (ComponentStatusReady, None) else
   '(status, err) ← handleTabletNodes dry;
   if negb (bool_decide (err = None)) || (cs_SyncStatus status != SyncStatusReady) then mret (status, err)
   else mret (ComponentStatusReady, None))).

Definition Timbertruck_Fetch : go W (option error) := resource_Fetch (tt_secret tt).

Definition Timbertruck_component : ComponentI W :=
  mkComponentI _ (tt_base tt) Timbertruck_Fetch (mret ComponentStatusReady) Timbertruck_Sync (mret ComponentStatusReady).

End delivery.

(** ** Requests in sequence *)

Section sequences.
Context {E : Type}.

(** What a request that was answered without an error leaves behind, and what it leaves alone. *)
Definition ensures (r : go E (option yterror)) (I : E → Prop) : Prop := ∀ e e', r e = (None, e') → I e'.
Definition maintains (r : go E (option yterror)) (I : E → Prop) : Prop := ∀ e e', I e → r e = (None, e') → I e'.

Lemma wrapped_done m r (e e' : E) : wrapped m r e = (None, e') → r e = (None, e').
Proof.
  unfold wrapped. rewrite go_bind_run. unfold val_of, run. destruct (r e) as [[err|] e1]; [done|]. by intros [= ->].
Qed.

Lemma requests_cons r l (e e' : E) :
  requests (r :: l) e = (None, e') → ∃ e1, r e = (None, e1) ∧ requests l e1 = (None, e').
Proof.
  cbn [requests]. rewrite go_bind_run. unfold val_of, run. destruct (r e) as [[err|] e1]; [done|]. eauto.
Qed.

Lemma ensures_wrapped m r I : ensures r I → ensures (wrapped m r) I.
Proof. intros H e e' ?%wrapped_done. by eapply H. Qed.

Lemma maintains_wrapped m r I : maintains r I → maintains (wrapped m r) I.
Proof. intros H e e' HI ?%wrapped_done. by eapply H. Qed.

Lemma requests_maintain l I : Forall (λ r, maintains r I) l → maintains (requests l) I.
Proof.
  induction 1 as [|r l Hr _ IH]; intros e e' HI; [by intros [= <-]|].
  intros (e1 & H1 & H2)%requests_cons. eapply IH; [|done]. by eapply Hr.
Qed.

Lemma requests_ensure l r I :
  r ∈ l → ensures r I → Forall (λ r, maintains r I) l → ensures (requests l) I.
Proof.
  intros Hin Hr Hall. induction Hall as [|r' l Hr' Hall IH]; intros e e'; [by apply elem_of_nil in Hin|].
  intros (e1 & H1 & H2)%requests_cons. apply elem_of_cons in Hin as [->|Hin]; [|by eapply IH].
  eapply requests_maintain; [done| |done]. by eapply Hr.
Qed.

End sequences.

Create HintDb requests.
#[export] Hint Resolve ensures_wrapped maintains_wrapped : requests.

(** ** What the cluster promises of tables *)

(** The attributes of a node that change by [SetNode] only, if at all. *)
Definition lasting (a : string) : Prop := a = "id" ∨ a = exportDestination.

(** What the operator may observe of a cluster: the type of the node at a path, whether the
    cluster has taken a request to mount a table, and attributes.  A created node has the type
    asked for, also when it existed (a node of another type is an error); creating and mounting
    disturb nothing that exists, and an attribute is what was set last.  A mount that was
    requested is not a mount that was done: the cluster mounts tablets in the background, and
    whether a table is mounted is no part of what is observed here. *)
Class TableStore (E : Type) {CC : CypressClient E} {TC : TableClient E} (path_Attr : string → string → string) := {
  node_type : E → string → option string;
  mount_requested : E → string → bool;
  node_attr : E → string → string → option Any;

  create_type p t o e e' : cy_CreateNode p t o e = (None, e') → node_type e' p = Some t;
  mount_accepted p e e' : cy_MountTable p e = (None, e') → mount_requested e' p = true;
  set_attr p v o e e' : cy_SetNode (path_Attr p exportDestination) v o e = (None, e') → node_attr e' p exportDestination = Some v;
  get_attr p a v e e' : cy_GetNode (path_Attr p a) e = (inr v, e') → node_attr e p a = Some v ∧ e' = e;

  create_keeps p t o e e' : cy_CreateNode p t o e = (None, e') →
    (∀ p' t', node_type e p' = Some t' → node_type e' p' = Some t') ∧
    (∀ p', mount_requested e p' = true → mount_requested e' p' = true) ∧
    (∀ p' a v, lasting a → node_attr e p' a = Some v → node_attr e' p' a = Some v);
  mount_keeps p e e' : cy_MountTable p e = (None, e') →
    (∀ p' t', node_type e p' = Some t' → node_type e' p' = Some t') ∧
    (∀ p', mount_requested e p' = true → mount_requested e' p' = true) ∧
    (∀ p' a v, lasting a → node_attr e p' a = Some v → node_attr e' p' a = Some v);
  set_keeps p v o e e' : cy_SetNode (path_Attr p exportDestination) v o e = (None, e') →
    (∀ p' t', node_type e p' = Some t' → node_type e' p' = Some t') ∧
    (∀ p', mount_requested e p' = true → mount_requested e' p' = true) ∧
    (∀ p' a v, lasting a → (p', a) ≠ (p, exportDestination) → node_attr e p' a = Some v → node_attr e' p' a = Some v);
}.

Section prepared.
Context {E : Type} {CC : CypressClient E} {TC : TableClient E} {DS : YsonDecode string}.
Context (path_Attr : string → string → string) (schema_any : list Column → Any).
Context {TS : TableStore E path_Attr}.

(** A node of its type whose mount was requested. *)
Definition table_prepared (type path : string) (e : E) : Prop := node_type e path = Some type ∧ mount_requested e path = true.

(** A directory that is the destination of the exports of a queue. *)
Definition export_ready (queuePath exportPath : string) (e : E) : Prop :=
  node_type e exportPath = Some "map_node" ∧
  ∃ v id, node_attr e queuePath "id" = Some v ∧ yson_decode v = inr id ∧
    node_attr e exportPath exportDestination = Some (VMap {[ "originating_queue_id" := VString id ]}).

Lemma create_ensures p t o : ensures (cy_CreateNode p t o) (λ e, node_type e p = Some t).
Proof. intros e e'. apply create_type. Qed.

Lemma create_maintains_table p t o type path : maintains (cy_CreateNode p t o) (table_prepared type path).
Proof. intros e e' [H1 H2] H. destruct (create_keeps _ _ _ _ _ H) as (K1 & K2 & _). split; auto. Qed.

Lemma mount_maintains_table p type path : maintains (cy_MountTable p) (table_prepared type path).
Proof. intros e e' [H1 H2] H. destruct (mount_keeps _ _ _ H) as (K1 & K2 & _). split; auto. Qed.

Lemma create_maintains_export p t o q x : maintains (cy_CreateNode p t o) (export_ready q x).
Proof.
  intros e e' (H1 & v & id & H2 & H3 & H4) H. destruct (create_keeps _ _ _ _ _ H) as (K1 & _ & K3).
  split; [auto|]. exists v, id. split_and!; [|done|]; apply K3; unfold lasting; auto.
Qed.

Lemma mount_maintains_export p q x : maintains (cy_MountTable p) (export_ready q x).
Proof.
  intros e e' (H1 & v & id & H2 & H3 & H4) H. destruct (mount_keeps _ _ _ H) as (K1 & _ & K3).
  split; [auto|]. exists v, id. split_and!; [|done|]; apply K3; unfold lasting; auto.
Qed.

(** The request that sets a destination, taken apart. *)
Lemma setDestination_done q x (e e' : E) :
  setDestination path_Attr q x e = (None, e') →
  ∃ v id, node_attr e q "id" = Some v ∧ yson_decode v = inr id ∧
    cy_SetNode (path_Attr x exportDestination) (VMap {[ "originating_queue_id" := VString id ]})
      (Some (mkSetNodeOptions true false)) e = (None, e').
Proof.
  unfold setDestination. rewrite go_bind_run. unfold val_of, run.
  assert (GetNode (A:=string) (path_Attr q "id") e =
    (decoded (cy_GetNode (path_Attr q "id") e).1, (cy_GetNode (path_Attr q "id") e).2)) as ->
    by (unfold GetNode; by rewrite go_bind_run).
  destruct (cy_GetNode (path_Attr q "id") e) as [[err|v] e1] eqn:Hg; cbn [fst snd decoded]; [done|].
  destruct (yson_decode v) as [err|id] eqn:Hd; [done|]. intros Hs%wrapped_done.
  destruct (get_attr _ _ _ _ _ Hg) as [Ha ->]. exists v, id. done.
Qed.

Lemma set_maintains_table q x type path : maintains (setDestination path_Attr q x) (table_prepared type path).
Proof.
  intros e e' [H1 H2] (v & id & _ & _ & H)%setDestination_done. destruct (set_keeps _ _ _ _ _ H) as (K1 & K2 & _). split; auto.
Qed.

Lemma set_ensures_export q x (e e' : E) :
  node_type e x = Some "map_node" → setDestination path_Attr q x e = (None, e') → export_ready q x e'.
Proof.
  intros Ht (v & id & Ha & Hd & H)%setDestination_done. destruct (set_keeps _ _ _ _ _ H) as (K1 & _ & K3).
  split; [auto|]. exists v, id. split_and!; [|done|by eapply set_attr].
  apply K3; [by left| |done]. intros [= _ [=]].
Qed.

Lemma set_maintains_export q x q' x' :
  (x' = x → q' = q) → maintains (setDestination path_Attr q' x') (export_ready q x).
Proof.
  intros Hinj e e' (H1 & v & id & H2 & H3 & H4) Hs. pose proof Hs as (v' & id' & Ha & Hd & H)%setDestination_done.
  destruct (bool_decide_reflect (x' = x)) as [->|Hne].
  - rewrite (Hinj eq_refl) in Hs. by apply set_ensures_export in Hs.
  - destruct (set_keeps _ _ _ _ _ H) as (K1 & _ & K3). split; [auto|]. exists v, id.
    split_and!; [apply K3; [by left|intros [= _ [=]]|done]|done|]. apply K3; [by right|congruence|done].
Qed.

#[local] Hint Resolve create_maintains_table mount_maintains_table create_maintains_export mount_maintains_export
  set_maintains_table set_maintains_export : requests.

Ltac maintain := repeat (apply Forall_cons; split); try apply Forall_nil_2; eauto with requests.

(** *** Each step of the preparation *)

Lemma prepareQueue_maintains q x I :
  (∀ p t o, maintains (cy_CreateNode p t o) I) → (∀ p, maintains (cy_MountTable p) I) →
  maintains (prepareQueue schema_any q x) I.
Proof. intros H1 H2. apply requests_maintain. maintain. Qed.

Lemma prepareProducer_maintains p I :
  (∀ p t o, maintains (cy_CreateNode p t o) I) → (∀ p, maintains (cy_MountTable p) I) →
  maintains (prepareProducer p) I.
Proof. intros H1 H2. apply requests_maintain. maintain. Qed.

Lemma prepareExport_maintains q x I :
  (∀ p t o, maintains (cy_CreateNode p t o) I) → maintains (setDestination path_Attr q x) I →
  maintains (prepareExportDestination path_Attr q x) I.
Proof. intros H1 H2. apply requests_maintain. maintain. Qed.

(** A table is created, then its mount is requested. *)
Lemma created_and_mount_requested m1 m2 p t o :
  ensures (requests [wrapped m1 (cy_CreateNode p t o); wrapped m2 (cy_MountTable p)]) (table_prepared t p).
Proof.
  intros e e' (e1 & H1%wrapped_done & (e2 & H2%wrapped_done & H3)%requests_cons)%requests_cons.
  injection H3 as <-. split; [|by eapply mount_accepted].
  destruct (mount_keeps _ _ _ H2) as (K & _). apply K. by eapply create_type.
Qed.

Lemma prepareExport_ensures q x : ensures (prepareExportDestination path_Attr q x) (export_ready q x).
Proof.
  intros e e' (e1 & H1%wrapped_done & (e2 & H2 & H3)%requests_cons)%requests_cons.
  injection H3 as <-. eapply set_ensures_export; [|done]. by eapply create_type.
Qed.

(** What one queue of a logger needs. *)
Definition queue_ready (x : string) (q : TimbertruckYTQueueConfig) (e : E) : Prop :=
  table_prepared "table" (ttq_QueuePath q) e ∧ table_prepared "queue_producer" (ttq_ProducerPath q) e ∧
  export_ready (ttq_QueuePath q) x e.

(** The preparation of a queue leaves what was prepared for others, unless it exports another
    queue to the same place. *)
Lemma prepareLogQueue_maintains x q x' q' r :
  r ∈ prepareLogQueue path_Attr schema_any x' q' → (x' = x → ttq_QueuePath q' = ttq_QueuePath q) →
  maintains r (queue_ready x q).
Proof.
  intros Hr Hinj. revert r Hr. apply Forall_forall.
  assert (∀ r, maintains r (table_prepared "table" (ttq_QueuePath q)) → maintains r (table_prepared "queue_producer" (ttq_ProducerPath q)) →
    maintains r (export_ready (ttq_QueuePath q) x) → maintains r (queue_ready x q)) as Hall.
  { intros r H1 H2 H3 e e' (I1 & I2 & I3) Hr. split_and!; [by eapply H1|by eapply H2|by eapply H3]. }
  unfold prepareLogQueue. repeat (apply Forall_cons; split); try apply Forall_nil_2; apply maintains_wrapped, Hall;
    first [apply prepareQueue_maintains | apply prepareProducer_maintains | apply prepareExport_maintains]; eauto with requests.
Qed.

Lemma prepareLogQueue_ensures x q : ensures (requests (prepareLogQueue path_Attr schema_any x q)) (queue_ready x q).
Proof.
  intros e e' H. unfold prepareLogQueue in H. cbv zeta in H.
  apply requests_cons in H as (e1 & H1%wrapped_done & H). apply requests_cons in H as (e2 & H2%wrapped_done & H).
  apply requests_cons in H as (e3 & H3%wrapped_done & H). injection H as <-.
  apply created_and_mount_requested in H1. assert (table_prepared "table" (ttq_QueuePath q) e2) as H2'.
  { eapply prepareProducer_maintains; [| |exact H1|exact H2]; eauto with requests. }
  apply created_and_mount_requested in H2.
  split_and!.
  - eapply prepareExport_maintains; [| |exact H2'|exact H3]; eauto with requests.
  - eapply prepareExport_maintains; [| |exact H2|exact H3]; eauto with requests.
  - by eapply prepareExport_ensures.
Qed.

End prepared.

(** ** Everything a sidecar writes to is prepared *)

Lemma requests_app {E} (l1 l2 : list (go E (option yterror))) e e' :
  requests (l1 ++ l2) e = (None, e') → ∃ e1, requests l1 e = (None, e1) ∧ requests l2 e1 = (None, e').
Proof.
  revert e. induction l1 as [|r l1 IH]; intros e; [by exists e|]. intros (e1 & H1 & H2)%requests_cons.
  destruct (IH e1 H2) as (e2 & H3 & H4). exists e2. split; [|done]. cbn [requests]. by rewrite (go_bind_eq _ _ _ _ _ H1).
Qed.

(** One of several groups of requests does the work, the others respect it. *)
Lemma requests_group {E A} (f : A → list (go E (option yterror))) xs x I :
  x ∈ xs → ensures (requests (f x)) I → (∀ y, y ∈ xs → Forall (λ r, maintains r I) (f y)) →
  ensures (requests (xs ≫= f)) I.
Proof.
  intros (a & b & ->)%list_elem_of_split Hx Hall e e'. rewrite bind_app, bind_cons.
  intros (e1 & _ & (e2 & H2 & H3)%requests_app)%requests_app.
  eapply requests_maintain; [|by eapply Hx|exact H3].
  apply Forall_forall. intros r (y & Hr & Hy)%list_elem_of_bind.
  specialize (Hall y ltac:(set_solver)). rewrite Forall_forall in Hall. by apply Hall.
Qed.

(** The text after the last slash. *)
Lemma last_element_inj s s' n n' :
  slash_free n = true → slash_free n' = true → s +:+ "/" +:+ n = s' +:+ "/" +:+ n' → s = s' ∧ n = n'.
Proof.
  intros Hn Hn'. assert (∀ t m, slash_free m = true → m ≠ t +:+ "/" +:+ n') as Hno.
  { intros t m Hm ->. rewrite !slash_free_app in Hm. by rewrite andb_false_r in Hm. }
  assert (∀ t m, slash_free m = true → m ≠ t +:+ "/" +:+ n) as Hno'.
  { intros t m Hm ->. rewrite !slash_free_app in Hm. by rewrite andb_false_r in Hm. }
  revert s'. induction s as [|a s IH]; intros [|b s']; rewrite ?string_app_cons.
  - intros [= ?]. done.
  - intros [= _ H]. by apply Hno in H.
  - intros [= _ H]. symmetry in H. by apply Hno' in H.
  - intros [= -> H]. by destruct (IH s' H) as [-> ->].
Qed.

Lemma exportPath_inj p p' n n' :
  slash_free n = true → slash_free n' = true → exportPathOf p n = exportPathOf p' n' → p = p' ∧ n = n'.
Proof.
  intros Hn Hn'. unfold exportPathOf. change ("/export/" +:+ n) with ("/export" +:+ ("/" +:+ n)).
  change ("/export/" +:+ n') with ("/export" +:+ ("/" +:+ n')). rewrite <- (string_app_assoc p), <- (string_app_assoc p').
  intros [H ->]%last_element_inj; [|done..]. by apply string_app_inj_r in H.
Qed.

Section sidecars.
Context {E : Type} {MC : MetaConditions} {ML : MetaConditionsLaws MC} {SC : StatusClient E} {CC : CypressClient E} {TC : TableClient E}.
Context {CD : ClientDeps E} `{HKS : !KubeClient E Secret} {DS : YsonDecode string}.
Context (path_Attr : string → string → string) (position : string → Z → string).
Context (schema_any : list Column → Any) (ace_any : ACE → Any) (range_keys : gset string → list string).
Context {TS : TableStore E path_Attr}.
Context (tt : TimbertruckComponent (E:=E)).

Abbreviation W := (World E).
Abbreviation sync := (Timbertruck_Sync path_Attr position schema_any ace_any range_keys tt).

(** The name a logger is delivered under. *)
Definition deliveryName (componentName : string) (l : StructuredLoggerSpec) : string :=
  componentName +:+ "-" +:+ bl_Name (sl_BaseLoggerSpec l).

(** The entries of any configuration for the same loggers have the same names and queues. *)
Lemma config_queue loggers workDir name dir proxy path c log q :
  NewTimbertruckConfig loggers workDir name dir proxy path = Some c → log ∈ BaseLogConfigs c → q ∈ ttl_YTQueue log →
  ∃ l, l ∈ loggers ∧ ttl_Name log = deliveryName name l ∧
    ttq_QueuePath q = path +:+ "/" +:+ deliveryName name l +:+ "/queue" ∧
    ttq_ProducerPath q = path +:+ "/" +:+ deliveryName name l +:+ "/producer".
Proof.
  intros Hc Hlog Hq. destruct loggers as [|l0 ls] eqn:El; [done|].
  destruct (NewTimbertruckConfig_logs (l0 :: ls) workDir name dir proxy path) as (c' & Hc' & Hp); [done|].
  rewrite Hc in Hc'. injection Hc' as <-. rewrite Hp in Hlog. apply list_elem_of_fmap in Hlog as (l & -> & Hl).
  cbn in Hq. apply list_elem_of_singleton in Hq as ->. exists l. split_and!; [done|done| |]; cbn; by rewrite string_app_assoc.
Qed.

(** The loggers of an entry have names that are no paths. *)
Definition plain_names (e : ComponentLoggers) : Prop :=
  ∀ name l, cl_ComponentName e = Some name → l ∈ cl_StructuredLoggers e → slash_free (deliveryName name l) = true.

(** The queue of a logger delivered to a directory, with its producer, ready. *)
Definition delivered (path name : string) (l : StructuredLoggerSpec) : E → Prop :=
  queue_ready path_Attr (exportPathOf path (deliveryName name l))
    (mkTimbertruckYTQueueConfig "" (path +:+ "/" +:+ deliveryName name l +:+ "/queue")
       (path +:+ "/" +:+ deliveryName name l +:+ "/producer")).

Lemma prepareLoggers_maintains e path name l :
  plain_names e → slash_free (deliveryName name l) = true →
  Forall (λ r, maintains r (delivered path name l)) (prepareLoggers path_Attr schema_any tt e).
Proof.
  intros He Hl. unfold prepareLoggers. destruct (cl_ComponentName e) as [name'|] eqn:Hn; [|by repeat constructor].
  destruct (GetHTTPProxiesAddress _ _) as [address| |]; [|by repeat constructor..].
  destruct (NewTimbertruckConfig _ _ _ _ _ _) as [c|] eqn:Hc; [|by constructor].
  apply Forall_singleton, maintains_wrapped, requests_maintain, Forall_forall.
  intros r (log & (q & Hr & Hq)%list_elem_of_bind & Hlog)%list_elem_of_bind.
  destruct (config_queue _ _ _ _ _ _ _ _ _ Hc Hlog Hq) as (l' & Hl' & Hname & Hqueue & _).
  eapply prepareLogQueue_maintains; [exact Hr|].
  rewrite Hname, Hqueue. cbn [ttq_QueuePath].
  intros [-> Hsame]%exportPath_inj; [|by eapply He|done]. by rewrite Hsame.
Qed.

Lemma prepareLoggers_ensures e name l :
  plain_names e → cl_ComponentName e = Some name → l ∈ cl_StructuredLoggers e →
  ensures (requests (prepareLoggers path_Attr schema_any tt e)) (delivered (cl_LogsDeliveryPath e) name l).
Proof.
  intros He Hn Hl. pose proof (He _ _ Hn Hl) as Hfree. unfold prepareLoggers. rewrite Hn.
  destruct (GetHTTPProxiesAddress _ _) as [address| |]; [|by intros ? ? [=]..].
  destruct (NewTimbertruckConfig_logs (cl_StructuredLoggers e) "" name "" address (cl_LogsDeliveryPath e)) as (c & Hc & Hp).
  { intros Hnil. rewrite Hnil in Hl. by apply elem_of_nil in Hl. }
  rewrite Hc. intros e0 e1 (e2 & H1%wrapped_done & [= <-])%requests_cons. revert e0 e2 H1.
  set (log := deliveryLogConfig name "" address (cl_LogsDeliveryPath e) l).
  assert (log ∈ BaseLogConfigs c) as Hlog by (rewrite Hp; by apply list_elem_of_fmap_2).
  apply (requests_group _ _ log); [done| |].
  - intros e0 e2 H. unfold log in H. cbn [ttl_YTQueue deliveryLogConfig ttl_Name] in H. rewrite bind_cons in H. cbn [mbind list_bind] in H. rewrite app_nil_r in H.
    apply (prepareLogQueue_ensures path_Attr schema_any) in H. unfold delivered. unfold queue_ready in *. cbn [ttq_QueuePath ttq_ProducerPath] in *.
    unfold deliveryName. rewrite !string_app_assoc in *. exact H.
  - intros log' Hlog'. apply Forall_forall. intros r (q & Hr & Hq)%list_elem_of_bind.
    destruct (config_queue _ _ _ _ _ _ _ _ _ Hc Hlog' Hq) as (l' & Hl' & Hname & Hqueue & _).
    eapply prepareLogQueue_maintains; [exact Hr|].
    rewrite Hname, Hqueue. cbn [ttq_QueuePath]. intros [_ Hsame]%exportPath_inj; [|by eapply He|done]. by rewrite Hsame.
Qed.

(** Whenever the tables were prepared without an error, each of them is ready. *)
Lemma prepareTables_ensures (w : W) e name l :
  (∀ e, e ∈ GetDeliveryLoggers (yts_Spec (w_yts w)) → plain_names e) →
  val_of (prepareTimbertruckTables path_Attr schema_any tt) w = None →
  e ∈ GetDeliveryLoggers (yts_Spec (w_yts w)) → cl_ComponentName e = Some name → l ∈ cl_StructuredLoggers e →
  delivered (cl_LogsDeliveryPath e) name l (w_env (run (prepareTimbertruckTables path_Attr schema_any tt) w)).
Proof.
  intros Hplain. unfold prepareTimbertruckTables. go_step. cbn [id].
  destruct (yr_ready (tt_client tt) w); cbn [negb]; [|done]. go_step. rewrite val_in_env, run_in_env. cbn [w_env w_set_env].
  set (l0 := GetDeliveryLoggers (yts_Spec (w_yts w)) ≫= prepareLoggers path_Attr schema_any tt). intros Hv He Hn Hl.
   assert (requests l0 (w_env w) = (None, run (requests l0) (w_env w))) as Hrun.
  { rewrite go_eta. by destruct (val_of (requests l0) (w_env w)). }
  eapply (requests_group _ _ e); [exact He| | |exact Hrun].
  - apply prepareLoggers_ensures; auto.
  - intros e' He'. apply prepareLoggers_maintains; [by apply Hplain|]. by eapply (Hplain e).
Qed.

(** *** The pass *)

Lemma outside_prepareTables : outside (prepareTimbertruckTables path_Attr schema_any tt).
Proof. unfold prepareTimbertruckTables. go_outside. Qed.

Lemma outside_initUser l : outside (initTimbertruckUser path_Attr ace_any range_keys tt l).
Proof. unfold initTimbertruckUser, on_client. go_outside. Qed.

Lemma run_wait_all l (k : go W (ComponentStatus * option error)) w :
  run (wait_all l k) w = w ∨ run (wait_all l k) w = run k w.
Proof.
  induction l as [|c l IH]; [by right|]. cbn [wait_all]. unfold wait_running. go_step.
  destruct (negb _); [by left|done].
Qed.

(** The two records of the preparation: the step of an update, and the condition that holds for
    the current generation of the resource. *)
Definition recorded (w : W) : bool :=
  IsUpdateStatusConditionTrue w ConditionTimbertruckPrepared.
Definition recorded_now (w : W) : bool :=
  IsStatusConditionTrueAndObservedGeneration w ConditionTimbertruckPrepared.

Definition newly_recorded (w w' : W) : Prop :=
  (recorded w = false ∧ recorded w' = true) ∨ (recorded_now w = false ∧ recorded_now w' = true).

Lemma nothing_recorded w w' : w_yts w' = w_yts w → ¬ newly_recorded w w'.
Proof.
  intros H. unfold newly_recorded, recorded, recorded_now, IsUpdateStatusConditionTrue,
    IsStatusConditionTrueAndObservedGeneration, GetStatusCondition, w_update_status, w_status. rewrite H. intros [[? ?]|[? ?]]; congruence.
Qed.

Lemma other_recorded c (w w1 : W) :
  conditions_ok w → w_yts w1 = w_yts w → cond_Type c ≠ ConditionTimbertruckPrepared →
  ¬ newly_recorded w (run (SetStatusCondition c) w1).
Proof.
  intros [Hu _] Hy Hc. assert (unique_types (w_conditions w1)) as Hu1 by (unfold w_conditions, w_status in *; by rewrite Hy).
  destruct (SetStatusCondition_spec c w1 Hu1) as (_ & _ & _ & Hother & Hup & _).
  assert (yts_Generation (w_yts (run (SetStatusCondition c) w1)) = yts_Generation (w_yts w)) as Hg by (rewrite <- Hy; done).
  unfold newly_recorded, recorded, recorded_now, IsUpdateStatusConditionTrue, IsStatusConditionTrueAndObservedGeneration.
  rewrite Hup, Hother, Hg by done. unfold GetStatusCondition, w_update_status, w_status. rewrite Hy.
  intros [[? ?]|[? ?]]; congruence.
Qed.

(** A pass that records the preparation has just made it. *)
Lemma Sync_prepares w :
  conditions_ok w → newly_recorded w (run (sync false) w) →
  val_of (prepareTimbertruckTables path_Attr schema_any tt) w = None ∧
  w_env (run (sync false) w) = w_env (run (prepareTimbertruckTables path_Attr schema_any tt) w).
Proof.
  intros Hok. unfold Timbertruck_Sync. go_step.
  assert (w_yts (run (prepareTimbertruckTables path_Attr schema_any tt) w) = w_yts w) as Hy by apply outside_prepareTables.
  destruct (IsUpdating w); go_step.
  - destruct (GetUpdateState w == _); [by intros []%nothing_recorded|]. unfold tt_handleUpdatingState. go_step. cbn [id].
    destruct (_ && _); [|by intros []%nothing_recorded]. go_step.
    destruct (val_of (prepareTimbertruckTables _ _ _) w); [|done]. by intros []%nothing_recorded.
  - unfold sync_token, sync_if. go_step. destruct (secret_NeedSync _ _ _ _).
    { intros H. exfalso. revert H. apply nothing_recorded.
      match goal with |- w_yts (run ?m w) = _ => assert (outside m) as Hm; [|apply Hm] end.
      pose proof (@outside_in_resource E Secret _ (tt_secret tt)). pose proof (@outside_resource_Sync E Secret _ _ (tt_secret tt)).
      unfold secret_Build. go_outside. }
    unfold wait_running. go_step. destruct (negb _); [by intros []%nothing_recorded|].
    destruct (length _ =? 0)%nat; [by intros []%nothing_recorded|]. go_step.
    assert (∀ x w', run (let '(status, err) := x in
      if negb (bool_decide (err = None)) || (cs_SyncStatus status != SyncStatusReady) then mret (status, err)
      else mret (ComponentStatusReady, None) : go W (ComponentStatus * option error)) w' = w') as Hret.
    { intros [status err] w'. by destruct (_ || _). }
    rewrite Hret. clear Hret. unfold handleTabletNodes.
    match goal with |- context [wait_all _ ?k] => destruct (run_wait_all (tt_tabletNodes tt) k w) as [-> | ->] end;
      [by intros []%nothing_recorded|].
    go_step. cbn [id]. cbv zeta. destruct (_ || _); [by intros []%nothing_recorded|].
    destruct (negb (IsStatusConditionTrue _ _)).
    + unfold tt_initialize. go_step. set (m := initTimbertruckUser _ _ _ _ _).
      assert (w_yts (run m w) = w_yts w) as Hm by apply outside_initUser.
      destruct (val_of m w); [by intros []%nothing_recorded|]. go_step. by intros []%other_recorded.
    + destruct (negb _); [|by intros []%nothing_recorded]. unfold tt_initialize. go_step.
      destruct (val_of (prepareTimbertruckTables _ _ _) w); [by intros []%nothing_recorded|done].
Qed.

Lemma service_names_plain t name : GetServiceKebabCase t = Some name → slash_free name = true.
Proof. destruct t; cbn; intros [= <-]; reflexivity. Qed.

(** The loggers a component delivers are entries of the preparation. *)
Lemma source_entry spec s d :
  s ∈ timbertruckLoggerSources spec → source_delivery spec s = Some d →
  mkComponentLoggers (GetServiceKebabCase (src_type s)) (ttd_Loggers d) (ttd_LogsDeliveryPath d) ∈ GetDeliveryLoggers spec.
Proof. intros Hs Hd. apply list_elem_of_omap. exists s. by rewrite Hd. Qed.

Lemma entry_source spec e :
  e ∈ GetDeliveryLoggers spec → ∃ s, cl_ComponentName e = GetServiceKebabCase (src_type s).
Proof.
  intros (s & _ & H)%list_elem_of_omap. exists s. destruct (source_delivery spec s); [|done]. by injection H as <-.
Qed.

(** C15. Logs are delivered to queues that exist: when a pass records that log delivery is prepared,
    be it as the step of an update or for a new generation of the resource, then for every
    component that runs a sidecar, every queue and producer named in the configuration of
    that sidecar exists with its type (a table, a queue producer), the cluster has taken the
    request to mount it, and the queue is exported to a directory that knows its id.  That the
    mount is over is not claimed: tablets are mounted in the background and the code does not
    wait for them.  Loggers whose names are paths are excluded, and the status is one that
    holds at most one condition of each type. *)
Theorem log_queues_prepared w s d name workDir proxy c log q :
  let spec := yts_Spec (w_yts w) in
  conditions_ok w → newly_recorded w (run (sync false) w) →
  (∀ e l, e ∈ GetDeliveryLoggers spec → l ∈ cl_StructuredLoggers e → slash_free (bl_Name (sl_BaseLoggerSpec l)) = true) →
  s ∈ timbertruckLoggerSources spec → source_delivery spec s = Some d → GetServiceKebabCase (src_type s) = Some name →
  NewTimbertruckConfig (ttd_Loggers d) workDir name (ttd_LogsDirectory d) proxy (ttd_LogsDeliveryPath d) = Some c →
  log ∈ BaseLogConfigs c → q ∈ ttl_YTQueue log →
  queue_ready path_Attr (exportPathOf (ttd_LogsDeliveryPath d) (ttl_Name log)) q (w_env (run (sync false) w)).
Proof.
  intros spec Hok Hrec Hplain Hs Hd Hname Hc Hlog Hq. destruct (Sync_prepares w Hok Hrec) as [Hval ->].
  destruct (config_queue _ _ _ _ _ _ _ _ _ Hc Hlog Hq) as (l & Hl & -> & Hqueue & Hproducer).
  assert (∀ e, e ∈ GetDeliveryLoggers spec → plain_names e) as Hp.
  { intros e He n l' Hn Hl'. destruct (entry_source _ _ He) as (s' & Hs'). rewrite Hn in Hs'. symmetry in Hs'.
    unfold deliveryName. rewrite !slash_free_app, (service_names_plain _ _ Hs'), (Hplain e) by done. done. }
  pose proof (prepareTables_ensures w _ name l Hp Hval (source_entry _ _ _ Hs Hd) Hname Hl) as Hready.
  unfold delivered, queue_ready in *. cbn [ttq_QueuePath ttq_ProducerPath cl_LogsDeliveryPath] in Hready.
  by rewrite Hqueue, Hproducer.
Qed.

(** *** The contract of components *)

Lemma confined_Timbertruck_Sync dry : confined (sync dry).
Proof.
  pose proof (confined_outside _ outside_prepareTables) as Hp.
  pose proof (λ l, confined_outside _ (outside_initUser l)) as Hi.
  unfold Timbertruck_Sync. apply confined_bind; [apply confined_gets|intros updating]. destruct updating.
  - unfold tt_handleUpdatingState. go_confined.
  - apply confined_sync_token, confined_wait_running. destruct (_ =? 0)%nat; [apply confined_ret|].
    apply confined_bind; [|go_confined]. unfold handleTabletNodes, tt_initialize. apply confined_wait_all. cbv zeta. go_confined.
Qed.

(** The component keeps the contract of components. *)
Theorem timbertruck_component_frame :
  ComponentFrame (Timbertruck_component path_Attr position schema_any ace_any range_keys tt).
Proof.
  pose proof (confined_resource_Fetch (E:=E) (tt_secret tt)) as (F1 & F2 & F3).
  split; cbn; try done; try (intros dry; apply (confined_Timbertruck_Sync dry)); apply keeps_ret.
Qed.

(** A user that exists is taken for a user that was set up: the directories and rights that an
    earlier pass failed to create are not created any more. *)
Lemma existing_user_skips token l (e e' : E) :
  cy_NodeExists ("//sys/users/" +:+ TimbertruckUserName) e = (inr true, e') →
  initUser path_Attr ace_any range_keys token l e = (None, e').
Proof. intros H. unfold initUser. by rewrite (go_bind_eq _ _ _ _ _ H). Qed.

End sidecars.

(** ** Example: a cluster that keeps nodes, requested mounts and attributes *)

Section example.

Record TableCypress := mkTableCypress {
  tc_nodes : gmap string string;
  tc_mounts : gset string;
  tc_attrs : gmap string Any;
}.

Definition tc_missing (path : string) : yterror := mkYtError ("no such node: " +:+ path) true false.

(** A new node has its path for an id. *)
Definition tc_create (path type : string) (e : TableCypress) : option yterror * TableCypress :=
  match tc_nodes e !! path with
  | Some type' => if type' == type then (None, e) else (Some (mkYtError "already exists" false true), e)
  | None =>
      let id := flat_Attr path "id" in
      (None, mkTableCypress (<[path := type]> (tc_nodes e)) (tc_mounts e)
        (match tc_attrs e !! id with Some _ => tc_attrs e | None => <[id := VString path]> (tc_attrs e) end))
  end.

#[local] Instance tc_client : CypressClient TableCypress := {
  cy_GetNode path := λ e, (match tc_attrs e !! path with Some v => inr v | None => inl (tc_missing path) end, e);
  cy_SetNode path v _ := λ e, (None, mkTableCypress (tc_nodes e) (tc_mounts e) (<[path := v]> (tc_attrs e)));
  cy_RemoveNode path _ := λ e, (None, mkTableCypress (delete path (tc_nodes e)) (tc_mounts e) (tc_attrs e));
  cy_CreateNode path type _ := tc_create path type;
  cy_ListNode path _ := λ e, (inl (tc_missing path), e);
  cy_CreateObject _ _ := λ e, (None, e);
  cy_AddMember _ _ := λ e, (None, e);
}.

#[local] Instance tc_tables : TableClient TableCypress := {
  cy_NodeExists path := λ e, (inr (bool_decide (is_Some (tc_nodes e !! path))), e);
  cy_MountTable path := λ e, (None, mkTableCypress (tc_nodes e) ({[path]} ∪ tc_mounts e) (tc_attrs e));
}.

Fixpoint last_ascii (s : string) : option Ascii.ascii :=
  match s with "" => None | String a "" => Some a | String _ s => last_ascii s end.

Lemma last_ascii_app s t : t ≠ "" → last_ascii (s +:+ t) = last_ascii t.
Proof.
  intros Ht. induction s as [|a s IH]; [done|]. rewrite string_app_cons. cbn [last_ascii].
  destruct (s +:+ t) as [|b u] eqn:H; [|done]. by destruct s, t.
Qed.

Lemma lasting_attr_inj p p' a :
  lasting a → (p', a) ≠ (p, exportDestination) → flat_Attr p exportDestination ≠ flat_Attr p' a.
Proof.
  intros [->| ->] Hne H; unfold flat_Attr in H.
  - apply (f_equal last_ascii) in H. rewrite !last_ascii_app in H by done. discriminate H.
  - apply string_app_inj_r in H. congruence.
Qed.

#[local] Program Instance tc_store : TableStore TableCypress flat_Attr := {
  node_type e p := tc_nodes e !! p;
  mount_requested e p := bool_decide (p ∈ tc_mounts e);
  node_attr e p a := tc_attrs e !! flat_Attr p a;
}.
Next Obligation.
  intros p t o e e'. cbn. unfold tc_create. destruct (tc_nodes e !! p) as [t'|] eqn:Hp.
  - case_bool_decide; intros [= <-]; congruence.
  - intros [= <-]. cbn. by rewrite lookup_insert_eq.
Qed.
Next Obligation. intros p e e'. cbn. intros [= <-]. apply bool_decide_eq_true. cbn. set_solver. Qed.
Next Obligation. intros p v o e e'. cbn. intros [= <-]. cbn. apply lookup_insert_eq. Qed.
Next Obligation. intros p a v e e'. cbn. destruct (tc_attrs e !! flat_Attr p a); [|done]. by intros [= <- <-]. Qed.
Next Obligation.
  intros p t o e e'. cbn. unfold tc_create. destruct (tc_nodes e !! p) as [t'|] eqn:Hp.
  - case_bool_decide; intros [= <-]. done.
  - intros [= <-]. cbn. split_and!; [|done|].
    + intros p' t' H. rewrite lookup_insert_ne; [done|congruence].
    + intros p' a v _ H. destruct (tc_attrs e !! flat_Attr p "id") eqn:Hid; [done|]. rewrite lookup_insert_ne; [done|congruence].
Qed.
Next Obligation.
  intros p e e'. cbn. intros [= <-]. cbn. split_and!; [done| |done]. intros p' H%bool_decide_eq_true. apply bool_decide_eq_true. set_solver.
Qed.
Next Obligation.
  intros p v o e e'. cbn. intros [= <-]. cbn. split_and!; [done|done|]. intros p' a v' Ha Hne H.
  rewrite lookup_insert_ne; [done|]. by apply lasting_attr_inj.
Qed.

#[local] Instance tc_status : StatusClient TableCypress := { Status_Update _ e := (None, e); GetVersion := "1" }.
#[local] Instance tc_deps : ClientDeps TableCypress := {|
  GenerateToken e := ("token", e); NewClient e := (None, e); sha256 s := s; caller _ := "" |}.
#[local] Instance tc_secrets : KubeClient TableCypress Secret := {
  client_Get _ := λ e, (inl NotFound, e);
  client_Create o := λ e, ((None, o), e);
  client_Update o := λ e, ((None, o), e);
  client_Delete _ := λ e, (None, e);
  SetControllerReference _ o := inr o;
}.
#[local] Instance tc_decode : YsonDecode string :=
  {| yson_decode v := match v with VString s => inr s | _ => inl "not a string" end |}.

(** Masters whose two structured loggers are delivered. *)
Definition delivering_spec : YtsaurusSpec :=
  let z := YtsaurusSpecZero in
  mkYtsaurusSpec (spec_CommonSpec z) (spec_PodSpec z) "" None [] InstanceSpecZero
    (mkMastersSpec example_logs 1 [] None None (Some (mkTimbertruckSpec (Some "timbertruck:1") None)) [] None None "")
    [] None [] [] [] [] [] [] None None [] None None false None None None None None None None "".

Definition delivering_world : World TableCypress :=
  mkWorld (mkYtsaurus "minisaurus" "default" 7 delivering_spec
    (mkYtsaurusStatus ClusterStateUpdating [] 6 (us_set_State UpdateStateWaitingForTimbertruckPrepared UpdateStatusZero)))
    [] 200 ∅ (mkTableCypress ∅ ∅ ∅).

Definition example_timbertruck : TimbertruckComponent (E:=TableCypress) :=
  mkTimbertruck (example_component 0 TimbertruckType "") (mkGenerator example_generator example_multicell) []
    (mkYtClientRef (example_component 1 YtsaurusClientType "") (λ _, true))
    (const_lens (mkManagedResource "robot-timbertruck-secret" SecretZero SecretZero)).

Abbreviation example_sync :=
  (Timbertruck_Sync flat_Attr (λ _ _, "") (λ _, VNil) (λ _, VNil) (λ s, elements s) example_timbertruck false).

Lemma log_queues_prepared_witness :
  queue_ready flat_Attr "//sys/admin/logs/export/master-access"
    (mkTimbertruckYTQueueConfig "proxy" "//sys/admin/logs/master-access/queue" "//sys/admin/logs/master-access/producer")
    (w_env (run example_sync delivering_world)).
Proof.
  refine (log_queues_prepared flat_Attr (λ _ _, "") (λ _, VNil) (λ _, VNil) (λ s, elements s) example_timbertruck
    delivering_world
    (mkSource (Some (mkTimbertruckSpec (Some "timbertruck:1") None)) example_logs MasterType "")
    (mkDelivery "timbertruck:1" "/yt/logs/" "//sys/admin/logs" (is_StructuredLoggers example_logs))
    "master" "/yt/logs/timbertruck" "proxy"
    (mkTimbertruckConfig "/yt/logs/timbertruck"
       [deliveryLogConfig "master" "/yt/logs/" "proxy" "//sys/admin/logs" (example_structured "security" LogFormatJson)]
       [deliveryLogConfig "master" "/yt/logs/" "proxy" "//sys/admin/logs" (example_structured "access" LogFormatYson)])
    (deliveryLogConfig "master" "/yt/logs/" "proxy" "//sys/admin/logs" (example_structured "access" LogFormatYson))
    (mkTimbertruckYTQueueConfig "proxy" "//sys/admin/logs/master-access/queue" "//sys/admin/logs/master-access/producer")
    _ _ _ _ _ _ _ _ _).
  - split; constructor.
  - left. split; vm_compute; reflexivity.
  - intros e l He Hl. assert (e = mkComponentLoggers (Some "master") (is_StructuredLoggers example_logs) "//sys/admin/logs") as ->.
    { apply list_elem_of_singleton. exact He. }
    apply elem_of_cons in Hl as [->|Hl]; [reflexivity|]. apply list_elem_of_singleton in Hl as ->. reflexivity.
  - left.
  - reflexivity.
  - reflexivity.
  - reflexivity.
  - right. left.
  - left.
Defined.

End example.
