(* ===== verification/CriConfig.v ===== *)
(** * Container runtime services (src/pkg/ytconfig/cri.go)

    Exec nodes may run jobs in containers through a CRI service in the same pod: the operator
    generates its configuration, its command and the environment of the tools that talk to
    it. *)

From S2P Require Import Prelude Ordered Kubernetes ApiTypes Consts Values Connection.

Definition runtimeTypeOCI := "oci".
Definition runtimeNameRunc := "runc".
Definition crioRuntimePathRunc := "/usr/libexec/crio/runc".
Definition runtimeNameCrun := "crun".
Definition crioRuntimePathCrun := "/usr/libexec/crio/crun".
Definition runtimeNameNvidia := "nvidia".
Definition runtimePathNvidia := "/usr/bin/nvidia-container-runtime".
Definition runtimeNameMetax := "metax".
Definition runtimePathMetax := "/usr/bin/mx-container-runtime".
Definition crioMonitorCgroup := "pod".
Definition crioMonitorPath := "/usr/libexec/crio/conmon".
Definition shmSizeAnnotation := "io.kubernetes.cri-o.ShmSize".

Definition SetupCgroupScriptName := "setup-cgroup.sh".
Definition CRIServiceSocketName := "cri.sock".
Definition CRIOConfigMountPoint := "/config/crio".
Definition CRIOConfigFileName := "crio.conf".
Definition CRIOSignaturePolicyFileName := "policy.json".
Definition CRIOSeccompPrivilegedFileName := "seccomp-privileged.json".
Definition CRINamespace := "yt".
Definition CRIBaseCgroup := "/yt".
Definition ContainerdConfigMountPoint := "/config/containerd".
Definition ContainerdSocketName := "containerd.sock".
Definition ContainerdConfigFileName := "containerd.toml".
Definition DockerSecretMountPath := "/config/image-pull-secret".
Definition DockerSecretFileName := "config.json".

Record CRIConfigGenerator := mkCRIConfigGenerator {
  crg_Service : CRIServiceType;
  crg_Spec : CRIJobEnvironmentSpec;
  crg_NRISpec : option NRIPluginsSpec;
  crg_Runtime : option JobRuntimeSpec;
  crg_Isolated : bool;
  crg_StoragePath : option string;
  crg_MonitoringPort : Z;
}.

Definition NewCRIConfigGenerator (spec : ExecNodesSpec) : CRIConfigGenerator :=
  let none := mkCRIConfigGenerator CRIServiceNone CRIJobEnvironmentSpecZero None None false None 0 in
  match ens_JobEnvironment spec with
  | None => none
  | Some envSpec =>
      match jes_CRI envSpec with
      | None => none
      | Some criSpec =>
          mkCRIConfigGenerator (Deref (cri_CRIService criSpec) CRIServiceContainerd) criSpec (jes_NRI envSpec)
            (jes_Runtime envSpec) (Deref (jes_Isolated envSpec) true)
            (loc_Path <$> FindFirstLocation (is_Locations (ens_InstanceSpec spec)) LocationTypeImageCache)
            (Deref (cri_MonitoringPort criSpec) CRIServiceMonitoringPort)
      end
  end.

Definition GetSocketPath (cri : CRIConfigGenerator) : string :=
  let socketName := if crg_Service cri == CRIServiceContainerd then ContainerdSocketName else CRIServiceSocketName in
  match crg_StoragePath cri with
  | Some path => path_Join2 path socketName
  | None => path_Join2 ConfigMountPoint socketName
  end.

(** Name and value of environment variables; the first case falls through to the second. *)
Definition GetCRIToolsEnv (cri : CRIConfigGenerator) : list (string * string) :=
  let crictl := [("CONTAINER_RUNTIME_ENDPOINT", "unix://" +:+ GetSocketPath cri)] in
  match crg_Service cri with
  | CRIServiceContainerd =>
      [("CONTAINERD_ADDRESS", GetSocketPath cri); ("CONTAINERD_NAMESPACE", "k8s.io")] ++ crictl
  | CRIServiceCRIO => crictl
  | _ => []
  end.

Definition any_map (l : list (string * Any)) : Any := VMap (list_to_map l).

(** An entry of a map that is there when the pointer is not nil. *)
Definition if_set {A} (key : string) (to : A → Any) (x : option A) : list (string * Any) :=
  match x with Some x => [(key, to x)] | None => [] end.

Definition GetCRIOSignaturePolicy : Any :=
  any_map [("default", VList [any_map [("type", VString "insecureAcceptAnything")]])].

Definition GetCRIOSeccompPrivilegedPolicy : Any := any_map [("defaultAction", VString "SCMP_ACT_ALLOW")].

Definition crio_runtime (path : string) : Any :=
  any_map [ ("runtime_type", VString runtimeTypeOCI); ("runtime_path", VString path);
            ("allowed_annotations", VList [VString shmSizeAnnotation]);
            ("monitor_cgroup", VString crioMonitorCgroup); ("monitor_path", VString crioMonitorPath) ].

Definition has_nvidia (cri : CRIConfigGenerator) : bool :=
  match crg_Runtime cri ≫= jrs_Nvidia with Some _ => true | None => false end.

Definition has_metax (cri : CRIConfigGenerator) : bool :=
  match crg_Runtime cri ≫= jrs_Metax with Some _ => true | None => false end.

Definition crio_runtimes (cri : CRIConfigGenerator) : gmap string Any :=
  let runtimes := list_to_map [(runtimeNameRunc, crio_runtime crioRuntimePathRunc);
                               (runtimeNameCrun, crio_runtime crioRuntimePathCrun)] in
  if has_nvidia cri then <[runtimeNameNvidia := crio_runtime runtimePathNvidia]> runtimes else runtimes.

Definition crio_default_runtime (cri : CRIConfigGenerator) : string :=
  if has_nvidia cri then runtimeNameNvidia else runtimeNameCrun.

Definition isSet {A} (x : option A) : bool := match x with Some _ => true | None => false end.

Definition crio_nri (nriSpec : NRIPluginsSpec) : Any :=
  any_map ([ ("enable_nri", VBool (isSet (nri_SocketPath nriSpec) || isSet (nri_PluginDir nriSpec)));
             ("nri_disable_connections", VBool (negb (isSet (nri_SocketPath nriSpec)))) ]
    ++ if_set "nri_listen" VString (nri_SocketPath nriSpec)
    ++ if_set "nri_plugin_dir" VString (nri_PluginDir nriSpec)
    ++ if_set "nri_plugin_config_dir" VString (nri_ConfigDir nriSpec)
    ++ if_set "nri_plugin_registration_timeout" (VString ∘ Duration_String) (nri_RegistrationTimeout nriSpec)
    ++ if_set "nri_plugin_request_timeout" (VString ∘ Duration_String) (nri_RequestTimeout nriSpec)).

Definition GetCRIOConfig (cri : CRIConfigGenerator) : Any :=
  let secretPath := path_Join2 DockerSecretMountPath DockerSecretFileName in
  let crioImage := any_map ([("signature_policy", VString (path_Join2 CRIOConfigMountPoint CRIOSignaturePolicyFileName))]
    ++ if_set "global_auth_file" (λ _, VString secretPath) (cri_ImagePullSecret (crg_Spec cri))
    ++ if_set "pause_image_auth_file" (λ _, VString secretPath) (cri_ImagePullSecret (crg_Spec cri))
    ++ if_set "pause_image" VString (cri_SandboxImage (crg_Spec cri))) in
  let crioMetrics := any_map (if crg_MonitoringPort cri != 0%Z then
    [("enable_metrics", VBool true); ("metrics_host", VString ""); ("metrics_port", VInt64 (crg_MonitoringPort cri))]
    else []) in
  let crioRuntime := any_map [ ("cgroup_manager", VString "cgroupfs"); ("conmon_cgroup", VString crioMonitorCgroup);
    ("default_runtime", VString (crio_default_runtime cri)); ("runtimes", VMap (crio_runtimes cri));
    ("privileged_seccomp_profile", VString (path_Join2 CRIOConfigMountPoint CRIOSeccompPrivilegedFileName)) ] in
  any_map [("crio", any_map ([ ("api", any_map [("listen", VString (GetSocketPath cri))]);
    ("image", crioImage); ("metrics", crioMetrics); ("runtime", crioRuntime) ]
    ++ if_set "root" VString (crg_StoragePath cri)
    ++ if_set "nri" crio_nri (crg_NRISpec cri)))].

Definition containerd_runtime (option_ : string * Any) : Any :=
  any_map [ ("runtime_type", VString "io.containerd.runc.v2"); ("sandbox_mode", VString "podsandbox");
            ("options", any_map [option_]) ].

Definition getContainerdRuntimes (cri : CRIConfigGenerator) : gmap string Any * string :=
  let runtimes := list_to_map [(runtimeNameRunc, containerd_runtime ("SystemdCgroup", VBool false))] in
  let '(runtimes, name) := if has_nvidia cri
    then (<[runtimeNameNvidia := containerd_runtime ("BinaryName", VString runtimePathNvidia)]> runtimes, runtimeNameNvidia)
    else (runtimes, runtimeNameRunc) in
  if has_metax cri
  then (<[runtimeNameMetax := containerd_runtime ("BinaryName", VString runtimePathMetax)]> runtimes, runtimeNameMetax)
  else (runtimes, name).

(** A pointer in a document; a nil pointer is an entity. *)
Definition any_ptr {A} (to : A → Any) (x : option A) : Any := match x with Some x => to x | None => VNil end.

Definition containerd_nri (nriSpec : NRIPluginsSpec) : Any :=
  any_map ([ ("disable", VBool (negb (isSet (nri_SocketPath nriSpec)) && negb (isSet (nri_PluginDir nriSpec))));
             ("disable_connections", VBool (negb (isSet (nri_SocketPath nriSpec)))) ]
    ++ if_set "socket_path" VString (nri_SocketPath nriSpec)
    ++ if_set "plugin_path" VString (nri_PluginDir nriSpec)
    ++ if_set "plugin_config_path" VString (nri_ConfigDir nriSpec)
    ++ if_set "plugin_registration_timeout" (VString ∘ Duration_String) (nri_RegistrationTimeout nriSpec)
    ++ if_set "plugin_request_timeout" (VString ∘ Duration_String) (nri_RequestTimeout nriSpec)).

Definition GetContainerdConfig (cri : CRIConfigGenerator) : Any :=
  let '(runtimes, defaultRuntimeName) := getContainerdRuntimes cri in
  let criPlugin := any_map [ ("sandbox_image", any_ptr VString (cri_SandboxImage (crg_Spec cri)));
    ("restrict_oom_score_adj", VBool true); ("image_pull_progress_timeout", VString "5m0s");
    ("cni", any_map [("conf_dir", VString "/etc/cni/net.d"); ("bin_dir", VString "/usr/local/lib/cni")]);
    ("containerd", any_map [("default_runtime_name", VString defaultRuntimeName); ("runtimes", VMap runtimes)]);
    ("registry", any_map [("config_path", any_ptr VString (cri_RegistryConfigPath (crg_Spec cri)))]) ] in
  let plugins := any_map ([("io.containerd.grpc.v1.cri", criPlugin)]
    ++ if_set "io.containerd.nri.v1.nri" containerd_nri (crg_NRISpec cri)) in
  any_map ([ ("version", VInt64 2); ("root", any_ptr VString (crg_StoragePath cri));
    ("grpc", any_map [("address", VString (GetSocketPath cri)); ("uid", VInt64 0); ("gid", VInt64 0)]);
    ("plugins", plugins) ]
    ++ (if crg_MonitoringPort cri != 0%Z
        then [("metrics", any_map [("address", VString (":" +:+ fmt_d (crg_MonitoringPort cri)))])] else [])).

Definition GetAdditionalEnvironmentVariables (cri : CRIConfigGenerator) (spec : ExecNodesSpec) : gmap string string :=
  match crg_Runtime cri with
  | None => ∅
  | Some runtime =>
      if match ens_GPUManager spec with
         | Some m => Deref (gms_GPUInfoProvider m) GPUInfoProviderGPUAgent != GPUInfoProviderGPUAgent
         | None => false end then ∅
      else match jrs_Nvidia runtime, jrs_Metax runtime with
           | Some _, _ => {[ "YT_GPU_PROVIDER" := "nvidia" ]}
           | None, Some _ => {[ "YT_GPU_PROVIDER" := "metax" ]}
           | None, None => ∅
           end
  end.

Definition cri_GetCommand (cri : CRIConfigGenerator) (wrapper : list string) : list string * list string :=
  let '(configs, args) := match crg_Service cri with
    | CRIServiceContainerd =>
        (ContainerdConfigMountPoint, ["--config"; path_Join2 ContainerdConfigMountPoint ContainerdConfigFileName])
    | CRIServiceCRIO =>
        (CRIOConfigMountPoint, ["--config"; path_Join2 CRIOConfigMountPoint CRIOConfigFileName; "--config-dir"; ""])
    | _ => ("", [])
    end in
  let command := ["/bin/bash"; path_Join2 configs SetupCgroupScriptName] ++ wrapper in
  let command := if bool_decide ("tini" ∈ command) then command else command ++ ["tini"; "--"] in
  (command ++ [CRIServiceType_string (crg_Service cri)], args).
