(* ===== verification/Pods.v ===== *)
(** * Pods: containers, volumes and mounts

    The parts pods are assembled from: volumes and volume mounts (src/pkg/components/volume.go),
    bundles of certificates and secrets that are mounted as files (ca_bundle.go, tls_secret.go and
    docker_secret.go of src/pkg/resources), the scripts of init containers, and the resolution of
    the locations a sidecar shares with its server.

    Of [corev1.Container] and [corev1.PodSpec] the fields the operator sets are kept.  A slice of
    mounts that several containers share is only ever appended to through one of them, so each
    container has a list of its own here. *)

From S2P Require Import Prelude Kubernetes ApiTypes Consts Labeller ConfigMaps Timbertruck Validators Values InitJob Master Logging CriConfig.

(** ** Containers and pods *)

Inductive IntOrString := PortNumber (port : Z) | PortName (name : string).

(** The protocol is always TCP. *)
Record ContainerPort := mkContainerPort { cp_Name : string; cp_ContainerPort : Z }.

Inductive ProbeHandler := HTTPGet (port : IntOrString) (path : string) | TCPSocket (port : Z).

Record Probe := mkProbe { prb_Handler : ProbeHandler; prb_Params : HealthcheckProbeParams }.

(** A resource list is a map, which can be nil: [None]. *)
Record ContainerResources := mkContainerResources {
  cr_Requests : option (gmap string Quantity);
  cr_Limits : option (gmap string Quantity);
}.

Definition ContainerResourcesZero : ContainerResources := mkContainerResources None None.

(** A list that the manifest leaves out is decoded as nil. *)
Definition resource_list (l : gmap string Quantity) : option (gmap string Quantity) :=
  if decide (l = ∅) then None else Some l.

Definition resources_of (r : ResourceRequirements) : ContainerResources :=
  mkContainerResources (resource_list (rr_Requests r)) (resource_list (rr_Limits r)).

Record PodContainer := mkPodContainer {
  pc_Name : string;
  pc_Image : string;
  pc_Command : list string;
  pc_Args : list string;
  pc_Env : list EnvVar;
  pc_EnvFrom : list string;  (* secrets whose keys become variables *)
  pc_VolumeMounts : list VolumeMount;
  pc_Ports : list ContainerPort;
  pc_Resources : ContainerResources;
  pc_ReadinessProbe : option Probe;
  pc_Privileged : option bool;
  pc_PostStart : option (list string);
  pc_ImagePullPolicy : string;
}.

Definition container (name image : string) (command : list string) (env : list EnvVar) (mounts : list VolumeMount)
    : PodContainer :=
  mkPodContainer name image command [] env [] mounts [] ContainerResourcesZero None None None "".

Definition pc_set_VolumeMounts (mounts : list VolumeMount) (c : PodContainer) : PodContainer :=
  mkPodContainer (pc_Name c) (pc_Image c) (pc_Command c) (pc_Args c) (pc_Env c) (pc_EnvFrom c) mounts (pc_Ports c)
    (pc_Resources c) (pc_ReadinessProbe c) (pc_Privileged c) (pc_PostStart c) (pc_ImagePullPolicy c).

Definition pc_set_Env (env : list EnvVar) (c : PodContainer) : PodContainer :=
  mkPodContainer (pc_Name c) (pc_Image c) (pc_Command c) (pc_Args c) env (pc_EnvFrom c) (pc_VolumeMounts c) (pc_Ports c)
    (pc_Resources c) (pc_ReadinessProbe c) (pc_Privileged c) (pc_PostStart c) (pc_ImagePullPolicy c).

Definition pc_set_Ports (ports : list ContainerPort) (c : PodContainer) : PodContainer :=
  mkPodContainer (pc_Name c) (pc_Image c) (pc_Command c) (pc_Args c) (pc_Env c) (pc_EnvFrom c) (pc_VolumeMounts c) ports
    (pc_Resources c) (pc_ReadinessProbe c) (pc_Privileged c) (pc_PostStart c) (pc_ImagePullPolicy c).

Definition pc_set_Resources (r : ContainerResources) (c : PodContainer) : PodContainer :=
  mkPodContainer (pc_Name c) (pc_Image c) (pc_Command c) (pc_Args c) (pc_Env c) (pc_EnvFrom c) (pc_VolumeMounts c) (pc_Ports c)
    r (pc_ReadinessProbe c) (pc_Privileged c) (pc_PostStart c) (pc_ImagePullPolicy c).

Definition pc_set_Privileged (p : option bool) (c : PodContainer) : PodContainer :=
  mkPodContainer (pc_Name c) (pc_Image c) (pc_Command c) (pc_Args c) (pc_Env c) (pc_EnvFrom c) (pc_VolumeMounts c) (pc_Ports c)
    (pc_Resources c) (pc_ReadinessProbe c) p (pc_PostStart c) (pc_ImagePullPolicy c).

Definition pc_set_PostStart (command : list string) (c : PodContainer) : PodContainer :=
  mkPodContainer (pc_Name c) (pc_Image c) (pc_Command c) (pc_Args c) (pc_Env c) (pc_EnvFrom c) (pc_VolumeMounts c) (pc_Ports c)
    (pc_Resources c) (pc_ReadinessProbe c) (pc_Privileged c) (Some command) (pc_ImagePullPolicy c).

Definition pc_add_mount (m : VolumeMount) (c : PodContainer) : PodContainer :=
  pc_set_VolumeMounts (pc_VolumeMounts c ++ [m]) c.

Definition pc_add_env (env : list EnvVar) (c : PodContainer) : PodContainer := pc_set_Env (pc_Env c ++ env) c.

(** The sources of a volume: those of a volume of the specification, which are copied, or one
    the operator makes. *)
Inductive VolumeSource :=
  | SpecSource (volume : Volume)
  | ConfigMapSource (name : string) (items : list KeyToPath) (mode : option Z)
  | SecretSource (name : string) (items : list KeyToPath)
  | EmptyDirSource (sizeLimit : option Quantity)
  | ClaimSource (claimName : string).

Record PodVolume := mkPodVolume { pv_Name : string; pv_Source : VolumeSource }.

Record PodTemplate := mkPodTemplate {
  pod_RuntimeClassName : option string;
  pod_ImagePullSecrets : list string;
  pod_SetHostnameAsFQDN : option bool;
  pod_EnableServiceLinks : option bool;
  pod_TerminationGracePeriodSeconds : option Z;
  pod_Containers : list PodContainer;
  pod_InitContainers : list PodContainer;
  pod_Volumes : list PodVolume;
  pod_Affinity : option Affinity;
  pod_NodeSelector : gmap string string;
  pod_Tolerations : list Toleration;
  pod_DNSConfig : option PodDNSConfig;
  pod_HostNetwork : bool;
  pod_DNSPolicy : string;
}.

Definition pod_set_Containers (containers : list PodContainer) (p : PodTemplate) : PodTemplate :=
  mkPodTemplate (pod_RuntimeClassName p) (pod_ImagePullSecrets p) (pod_SetHostnameAsFQDN p) (pod_EnableServiceLinks p)
    (pod_TerminationGracePeriodSeconds p) containers (pod_InitContainers p) (pod_Volumes p) (pod_Affinity p)
    (pod_NodeSelector p) (pod_Tolerations p) (pod_DNSConfig p) (pod_HostNetwork p) (pod_DNSPolicy p).

Definition pod_set_InitContainers (containers : list PodContainer) (p : PodTemplate) : PodTemplate :=
  mkPodTemplate (pod_RuntimeClassName p) (pod_ImagePullSecrets p) (pod_SetHostnameAsFQDN p) (pod_EnableServiceLinks p)
    (pod_TerminationGracePeriodSeconds p) (pod_Containers p) containers (pod_Volumes p) (pod_Affinity p)
    (pod_NodeSelector p) (pod_Tolerations p) (pod_DNSConfig p) (pod_HostNetwork p) (pod_DNSPolicy p).

Definition pod_set_Volumes (volumes : list PodVolume) (p : PodTemplate) : PodTemplate :=
  mkPodTemplate (pod_RuntimeClassName p) (pod_ImagePullSecrets p) (pod_SetHostnameAsFQDN p) (pod_EnableServiceLinks p)
    (pod_TerminationGracePeriodSeconds p) (pod_Containers p) (pod_InitContainers p) volumes (pod_Affinity p)
    (pod_NodeSelector p) (pod_Tolerations p) (pod_DNSConfig p) (pod_HostNetwork p) (pod_DNSPolicy p).

Definition pod_set_Affinity (affinity : option Affinity) (p : PodTemplate) : PodTemplate :=
  mkPodTemplate (pod_RuntimeClassName p) (pod_ImagePullSecrets p) (pod_SetHostnameAsFQDN p) (pod_EnableServiceLinks p)
    (pod_TerminationGracePeriodSeconds p) (pod_Containers p) (pod_InitContainers p) (pod_Volumes p) affinity
    (pod_NodeSelector p) (pod_Tolerations p) (pod_DNSConfig p) (pod_HostNetwork p) (pod_DNSPolicy p).

Definition pod_add_volumes (volumes : list PodVolume) (p : PodTemplate) : PodTemplate :=
  pod_set_Volumes (pod_Volumes p ++ volumes) p.

Definition pod_add_containers (containers : list PodContainer) (p : PodTemplate) : PodTemplate :=
  pod_set_Containers (pod_Containers p ++ containers) p.

(** [&podSpec.Containers[0]]: indexing an empty slice panics. *)
Definition pod_first_container (f : PodContainer → PodContainer) (p : PodTemplate) : outcome PodTemplate :=
  match pod_Containers p with
  | [] => Panicked
  | c :: rest => Returned (pod_set_Containers (f c :: rest) p)
  end.

(** ** Volumes (volume.go) *)

Definition createVolumes (specVolumes : list Volume) : list PodVolume :=
  (λ volume, mkPodVolume (vol_Name volume) (SpecSource volume)) <$> specVolumes.

Definition createConfigTemplateVolumeMount : VolumeMount :=
  volumeMount ConfigTemplateVolumeName ConfigTemplateMountPoint true.

Definition createConfigVolumeMount : VolumeMount := volumeMount ConfigVolumeName ConfigMountPoint false.

Definition createVolumeMounts (specVolumeMounts : list VolumeMount) : list VolumeMount :=
  specVolumeMounts ++ [createConfigTemplateVolumeMount; createConfigVolumeMount].

Definition createConfigVolume (volumeName configMapName : string) (mode : option Z) : PodVolume :=
  mkPodVolume volumeName (ConfigMapSource configMapName [] mode).

Definition createConfigEmptyDir : PodVolume := mkPodVolume ConfigVolumeName (EmptyDirSource None).

Definition createServerVolumes (specVolumes : list Volume) (configMapName : string) : list PodVolume :=
  createVolumes specVolumes ++ [createConfigVolume ConfigTemplateVolumeName configMapName None; createConfigEmptyDir].

(** What follows a prefix of a text. *)
Fixpoint strip_prefix (p s : string) : option string :=
  match p, s with
  | "", _ => Some s
  | String a p, String b s => if decide (a = b) then strip_prefix p s else None
  | String _ _, "" => None
  end.

(** [strings.TrimPrefix]. *)
Definition TrimPrefix (s p : string) : string := default s (strip_prefix p s).

(** The path of a location below the mount it resides in. *)
Definition relative_path (mount : VolumeMount) (path : string) : string :=
  TrimPrefix (TrimPrefix path (vm_MountPath mount)) "/".

(** The mount that gives a sidecar the directory of a location. *)
Definition location_mount (mount : VolumeMount) (path : string) : VolumeMount :=
  let relPath := relative_path mount path in
  if vm_SubPathExpr mount != "" then
    mkVolumeMount (vm_Name mount) path None false "" (path_Join2 (vm_SubPathExpr mount) relPath)
  else mkVolumeMount (vm_Name mount) path None false (path_Join2 (vm_SubPath mount) relPath) "".

Fixpoint resolve_locations (volumeMounts : list VolumeMount) (required : list LocationType)
    (locations : list LocationSpec) (mounts : list VolumeMount) : error + list VolumeMount :=
  match locations with
  | [] => inr mounts
  | location :: rest =>
      if negb (bool_decide (loc_LocationType location ∈ required)) then
        resolve_locations volumeMounts required rest mounts
      else
        match FindVolumeMountForPath volumeMounts (loc_Path location) with
        | None => inl ("no volume mount covers location " +:+ fmt_q (LocationType_string (loc_LocationType location)) +:+
                       " (path " +:+ fmt_q (loc_Path location) +:+ ")")
        | Some mount =>
            if ContainsFunc mounts (λ m, vm_MountPath m == loc_Path location)
            then resolve_locations volumeMounts required rest mounts
            else resolve_locations volumeMounts required rest (mounts ++ [location_mount mount (loc_Path location)])
        end
  end.

(** [slices.SortStableFunc] by the length of the mount path. *)
Fixpoint insert_mount (m : VolumeMount) (l : list VolumeMount) : list VolumeMount :=
  match l with
  | [] => [m]
  | x :: rest =>
      if (String.length (vm_MountPath m) <=? String.length (vm_MountPath x))%nat then m :: x :: rest
      else x :: insert_mount m rest
  end.

Definition sort_mounts (l : list VolumeMount) : list VolumeMount := foldr insert_mount [] l.

Definition resolveLocationMounts (instanceSpec : InstanceSpec) (requiredLocations : list LocationType)
    : error + list VolumeMount :=
  match List.find (λ t, isNone (FindFirstLocation (is_Locations instanceSpec) t)) requiredLocations with
  | Some requiredLocation => inl ("no location of type " +:+ fmt_q (LocationType_string requiredLocation) +:+ " found")
  | None =>
      match resolve_locations (is_VolumeMounts instanceSpec) requiredLocations (is_Locations instanceSpec) [] with
      | inl err => inl err
      | inr mounts => inr (sort_mounts mounts)
      end
  end.

Definition resolveVolumeMounts (instanceSpec : InstanceSpec) (volumeMounts : list VolumeMount) (pvcSuffix : string)
    : list PodVolume :=
  mnt ← volumeMounts;
  createVolumes (List.filter (λ vol, vol_Name vol == vm_Name mnt) (is_Volumes instanceSpec)) ++
  ((λ vol, mkPodVolume (pvc_Name vol) (ClaimSource (pvc_Name vol +:+ pvcSuffix))) <$>
     List.filter (λ vol, pvc_Name vol == vm_Name mnt) (is_VolumeClaimTemplates instanceSpec)).

(** *** Scripts of init containers *)

Definition getLocationInitCommand (locations : list LocationSpec) : string :=
  "echo 'Init locations'; " +:+
  strings_Join ((λ location, "mkdir -p " +:+ loc_Path location +:+ "; ") <$> locations) "".

Definition getDefaultEnv : list EnvVar :=
  [ mkEnvVar ENV_K8S_POD_NAME (EnvField "metadata.name");
    mkEnvVar ENV_K8S_POD_NAMESPACE (EnvField "metadata.namespace");
    mkEnvVar ENV_K8S_NODE_NAME (EnvField "spec.nodeName") ].

Definition getNativeClientConfigEnv : list EnvVar :=
  [mkEnvVar ClientConfigPathEnv (EnvValue (path_Join2 ConfigTemplateMountPoint ClientConfigFileName))].

(** [path.Base]: the last element that is not empty. *)
Definition path_Base (s : string) : string :=
  if s == "" then "." else List.last (List.filter (λ e, e != "") (path_elements s "")) "/".

Definition getConfigPostprocessingCommand (postprocessScriptName configTemplatePath : string) : string :=
  let configFileName := path_Base configTemplatePath in
  let configPath := path_Join2 ConfigMountPoint configFileName in
  let postprocessScriptPath := path_Join2 ConfigMountPoint postprocessScriptName in
  let sed pattern text :=
    "sed -i -s " +:+ quote +:+ "s/{" +:+ pattern +:+ "}/" +:+ text +:+ "/g" +:+ quote +:+ " " +:+ configPath +:+ "; " in
  let postprocessScript := strings_Join
    (["cp " +:+ configTemplatePath +:+ " " +:+ configPath +:+ "; "]
     ++ ((λ envVar, sed (env_Name envVar) ("${" +:+ env_Name envVar +:+ "}")) <$> getDefaultEnv)
     ++ [sed "POD_FQDN" "$(hostname -f)"; sed "POD_SHORT_HOSTNAME" "$(hostname -s)"]) "" in
  strings_Join
    [ "echo 'Postprocess config " +:+ configFileName +:+ "';";
      "echo '" +:+ postprocessScript +:+ "' > " +:+ postprocessScriptPath +:+ "; ";
      "chmod +x '" +:+ postprocessScriptPath +:+ "'; ";
      "source " +:+ postprocessScriptPath +:+ "; ";
      "cat " +:+ configPath +:+ "; " ] "".

(** ** Bundles of certificates (ca_bundle.go) *)

Record CABundle := mkCABundle {
  cab_Source : FileObjectReference;
  cab_VolumeName : string;
  cab_MountPath : string;
  cab_FileName : string;
}.

Definition NewCABundle (source : option FileObjectReference) : option CABundle :=
  (λ source, mkCABundle source CABundleVolumeName CABundleMountPoint CABundleFileName) <$> source.

Definition NewCARootBundle (source : option FileObjectReference) : option CABundle :=
  (λ source, mkCABundle source CARootBundleVolumeName CARootBundleMountPoint CARootBundleFileName) <$> source.

(** An unknown kind adds no volume. *)
Definition cab_volumes (t : CABundle) : list PodVolume :=
  let source := cab_Source t in
  let items := if (length (for_Items source) == 0%nat) && (for_Key source != "")
               then [mkKeyToPath (for_Key source) (cab_FileName t) None] else for_Items source in
  if (for_Kind source == "") || (for_Kind source == "ConfigMap") then
    [mkPodVolume (cab_VolumeName t) (ConfigMapSource (for_Name source) items None)]
  else if for_Kind source == "Secret" then [mkPodVolume (cab_VolumeName t) (SecretSource (for_Name source) items)]
  else [].

(** The methods do nothing on a nil receiver. *)
Definition cab_AddVolume (t : option CABundle) (podSpec : PodTemplate) : PodTemplate :=
  match t with None => podSpec | Some t => pod_add_volumes (cab_volumes t) podSpec end.

Definition cab_AddVolumeMount (t : option CABundle) (c : PodContainer) : PodContainer :=
  match t with None => c | Some t => pc_add_mount (volumeMount (cab_VolumeName t) (cab_MountPath t) true) c end.

Definition cab_AddContainerEnv (t : option CABundle) (c : PodContainer) : PodContainer :=
  match t with
  | None => c
  | Some t =>
      pc_add_env
        [ mkEnvVar SSLCertFileKey (EnvValue (path_Join2 (cab_MountPath t) (cab_FileName t)));
          mkEnvVar SSLCertDirKey (EnvValue (cab_MountPath t));
          mkEnvVar RequestsCABundleKey (EnvValue (path_Join2 (cab_MountPath t) (cab_FileName t))) ] c
  end.

(** ** Secrets as files (tls_secret.go, docker_secret.go) *)

Record TLSSecret := mkTLSSecret { tls_SecretName : string; tls_VolumeName : string; tls_MountPath : string }.

Definition NewTLSSecretOrNil (source : option string) (volumeName mountPath : string) : option TLSSecret :=
  (λ name, mkTLSSecret name volumeName mountPath) <$> source.

Definition tls_AddVolume (t : option TLSSecret) (podSpec : PodTemplate) : PodTemplate :=
  match t with
  | None => podSpec
  | Some t => pod_add_volumes [mkPodVolume (tls_VolumeName t) (SecretSource (tls_SecretName t) [])] podSpec
  end.

Definition tls_AddVolumeMount (t : option TLSSecret) (c : PodContainer) : PodContainer :=
  match t with None => c | Some t => pc_add_mount (volumeMount (tls_VolumeName t) (tls_MountPath t) true) c end.

Definition DockerConfigJsonKey := ".dockerconfigjson".

Record DockerSecret := mkDockerSecret { dks_SecretName : string; dks_VolumeName : string; dks_MountPath : string }.

Definition dks_AddVolume (t : option DockerSecret) (podSpec : PodTemplate) : PodTemplate :=
  match t with
  | None => podSpec
  | Some t => pod_add_volumes [mkPodVolume (dks_VolumeName t)
      (SecretSource (dks_SecretName t) [mkKeyToPath DockerConfigJsonKey DockerSecretFileName (Some 256%Z)])] podSpec
  end.

Definition dks_AddVolumeMount (t : option DockerSecret) (c : PodContainer) : PodContainer :=
  match t with None => c | Some t => pc_add_mount (volumeMount (dks_VolumeName t) (dks_MountPath t) true) c end.

Definition dks_GetPath (t : option DockerSecret) : string :=
  match t with None => "" | Some t => path_Join2 (dks_MountPath t) DockerSecretFileName end.

(** ** Cleaning a path twice

    What [path.Clean] returns is a path that it returns unchanged. *)

(** A stack of [path.Clean]: names over dots that lead out of the starting directory. *)
Definition normal_stack (rooted : bool) (stack : list string) : Prop :=
  ∃ names dots, stack = names ++ dots ∧ Forall (λ e, leaf e = true) names ∧ Forall (λ e, e = "..") dots ∧
    (rooted = true → dots = []).

Lemma normal_stack_step rooted stack element :
  slash_free element = true → normal_stack rooted stack → normal_stack rooted (clean_step rooted stack element).
Proof.
  intros Hs (names & dots & -> & Hn & Hd & Hr). unfold clean_step.
  destruct (bool_decide_reflect (element = "")); cbn [orb]; [by exists names, dots|].
  destruct (bool_decide_reflect (element = ".")); [by exists names, dots|].
  destruct (bool_decide_reflect (element = "..")).
  - destruct names as [|top names]; cbn [app].
    + destruct dots as [|top dots]; [destruct rooted; [by exists [], []|exists [], [".."]; by repeat constructor]|].
      pose proof Hd as [-> ?]%Forall_cons. exists [], (".." :: ".." :: dots). split_and!; [done|done|by constructor|].
      intros Hroot. by specialize (Hr Hroot).
    + pose proof Hn as [Htop Hn']%Forall_cons. destruct (bool_decide_reflect (top = "..")) as [->|]; [done|].
      by exists names, dots.
  - exists (element :: names), dots. split_and!; [done| |done|done]. constructor; [|done].
    unfold leaf. by rewrite Hs, !bool_decide_eq_false_2.
Qed.

Lemma path_elements_slash_free s word :
  slash_free word = true → Forall (λ e, slash_free e = true) (path_elements s word).
Proof.
  revert word. induction s as [|a s IH]; intros word Hw; cbn; [by repeat constructor|].
  destruct (decide (a = slash)); [constructor; [done|by apply IH]|]. apply IH.
  rewrite slash_free_app, Hw. cbn. by rewrite bool_decide_eq_true_2.
Qed.

Lemma foldl_normal_stack rooted elements stack :
  Forall (λ e, slash_free e = true) elements → normal_stack rooted stack →
  normal_stack rooted (foldl (clean_step rooted) stack elements).
Proof.
  revert stack. induction elements as [|e elements IH]; intros stack; cbn; [done|].
  intros [He Hl]%Forall_cons Hs. by apply IH, normal_stack_step.
Qed.

Lemma foldl_names rooted names stack :
  Forall (λ e, leaf e = true) names → foldl (clean_step rooted) stack (rev names) = names ++ stack.
Proof.
  induction names as [|e names IH]; intros Hn; [done|]. apply Forall_cons in Hn as [He Hn].
  cbn [rev]. rewrite foldl_app, IH by done. cbn. by apply clean_step_leaf.
Qed.

Lemma foldl_dots dots : Forall (λ e, e = "..") dots → foldl (clean_step false) [] (rev dots) = dots.
Proof.
  induction dots as [|e dots IH]; intros Hd; [done|]. apply Forall_cons in Hd as [-> Hd].
  cbn [rev]. rewrite foldl_app, IH by done. cbn. destruct dots as [|d dots]; [done|].
  apply Forall_cons in Hd as [-> _]. done.
Qed.

(** Building the stack again from what is in it. *)
Lemma foldl_normal rooted stack :
  normal_stack rooted stack → foldl (clean_step rooted) [] (rev stack) = stack.
Proof.
  intros (names & dots & -> & Hn & Hd & Hr). rewrite rev_app_distr, foldl_app.
  destruct rooted; [rewrite Hr by done; by rewrite foldl_names|]. by rewrite foldl_dots, foldl_names.
Qed.

Lemma path_elements_Join l :
  l ≠ [] → Forall (λ e, slash_free e = true) l → path_elements (strings_Join l "/") "" = l.
Proof.
  induction l as [|e l IH]; [done|]. intros _ [He Hl]%Forall_cons. destruct l as [|f l].
  { cbn [strings_Join]. by rewrite path_elements_leaf. }
  assert (strings_Join (e :: f :: l) "/" = e +:+ String slash (strings_Join (f :: l) "/")) as -> by done.
  rewrite path_elements_slash, path_elements_leaf, IH by done. done.
Qed.

Lemma normal_stack_slash_free rooted stack :
  normal_stack rooted stack → Forall (λ e, slash_free e = true ∧ e ≠ "") (rev stack).
Proof.
  intros (names & dots & -> & Hn & Hd & _). apply Forall_forall. intros e He.
  apply list_elem_of_In, in_rev, list_elem_of_In, elem_of_app in He as [He|He].
  - rewrite Forall_forall in Hn. specialize (Hn e He). unfold leaf in Hn.
    rewrite !andb_true_iff, !negb_true_iff in Hn. destruct Hn as (((? & ?%bool_decide_eq_false) & _) & _). done.
  - rewrite Forall_forall in Hd. by rewrite (Hd e He).
Qed.

Lemma path_Clean_idempotent s : path_Clean (path_Clean s) = path_Clean s.
Proof.
  set (rooted := match s with String a _ => bool_decide (a = slash) | "" => false end).
  set (stack := foldl (clean_step rooted) [] (path_elements s "")).
  assert (normal_stack rooted stack) as Hn.
  { apply foldl_normal_stack; [by apply path_elements_slash_free|]. by exists [], []. }
  assert (path_Clean s = if rooted then "/" +:+ strings_Join (rev stack) "/"
          else if strings_Join (rev stack) "/" == "" then "." else strings_Join (rev stack) "/") as Heq by done.
  pose proof (normal_stack_slash_free _ _ Hn) as Hf.
  assert (Forall (λ e, slash_free e = true) (rev stack)) as Hsf by (eapply Forall_impl; [exact Hf|]; by intros e [? _]).
  destruct (rev stack) as [|e l] eqn:Hrev.
  { rewrite Heq. cbn [strings_Join]. by destruct rooted. }
  pose proof (foldl_normal _ _ Hn) as Hfold. rewrite Hrev in Hfold.
  pose proof (path_elements_Join (e :: l) ltac:(done) Hsf) as Hel.
  apply Forall_cons in Hf as [[Hsfe Hne] _]. rewrite Heq. destruct rooted.
  - unfold path_Clean at 1. change ("/" +:+ strings_Join (e :: l) "/") with (String slash (strings_Join (e :: l) "/")).
    cbv beta iota zeta. rewrite bool_decide_eq_true_2 by done. cbn [path_elements]. rewrite decide_True by done. rewrite Hel.
    change (foldl (clean_step true) [] ("" :: e :: l)) with (foldl (clean_step true) [] (e :: l)). by rewrite Hfold, Hrev.
  - destruct e as [|a e]; [done|]. cbn in Hsfe. apply andb_true_iff in Hsfe as [Ha%bool_decide_eq_true _].
    assert (∃ t, strings_Join (String a e :: l) "/" = String a t) as [t Ht] by (destruct l; cbn; eauto).
    rewrite bool_decide_eq_false_2 by (by rewrite Ht). unfold path_Clean. cbv zeta. rewrite Hel, Ht.
    rewrite bool_decide_eq_false_2 by done. rewrite Hfold, Hrev, Ht. by rewrite bool_decide_eq_false_2.
Qed.

Lemma path_Clean_nonempty s : path_Clean s ≠ "".
Proof.
  unfold path_Clean. destruct (match s with String a _ => bool_decide (a = slash) | "" => false end); [done|].
  case_match eqn:Hb; [done|]. by apply bool_decide_eq_false in Hb.
Qed.

Lemma path_Join2_again dir file : path_Join2 (path_Join2 dir file) "" = path_Join2 dir file.
Proof.
  unfold path_Join2, path_Join_all at 1.
  destruct (decide (path_Join_all [dir; file] = "")) as [Hnil|Hne].
  { rewrite Hnil. done. }
  cbn [List.filter]. rewrite bool_decide_eq_false_2 by done. cbn [negb]. rewrite bool_decide_eq_true_2 by done.
  cbn [negb strings_Join]. unfold path_Join_all in *. destruct (List.filter _ _); [done|]. apply path_Clean_idempotent.
Qed.

Lemma path_Join2_nonempty dir file : dir ≠ "" → path_Join2 dir file ≠ "".
Proof.
  intros Hd. unfold path_Join2, path_Join_all. cbn [List.filter]. rewrite bool_decide_eq_false_2 by done.
  cbn [negb]. apply path_Clean_nonempty.
Qed.

(** ** What a path shows

    The directory of a volume that is visible at a path through a list of mounts: the volume, whether
    the directory is given by an expression, and the directory. *)

Definition mount_directory (m : VolumeMount) (path : string) : string * bool * string :=
  if vm_SubPathExpr m != "" then (vm_Name m, true, path_Join2 (vm_SubPathExpr m) (relative_path m path))
  else (vm_Name m, false, path_Join2 (vm_SubPath m) (relative_path m path)).

Definition visible (mounts : list VolumeMount) (path : string) : option (string * bool * string) :=
  (λ m, mount_directory m path) <$> FindVolumeMountForPath mounts path.

Lemma strip_prefix_self s : strip_prefix s s = Some "".
Proof. induction s as [|a s IH]; [done|]. cbn. by rewrite decide_True. Qed.

Lemma relative_path_self m : relative_path m (vm_MountPath m) = "".
Proof. unfold relative_path, TrimPrefix. by rewrite strip_prefix_self. Qed.

Lemma location_mount_path m path : vm_MountPath (location_mount m path) = path.
Proof. unfold location_mount. by case_match. Qed.

(** The mount of a location shows at its path what the mount it was resolved to shows there. *)
Lemma location_mount_directory m path : mount_directory (location_mount m path) path = mount_directory m path.
Proof.
  unfold mount_directory. assert (relative_path (location_mount m path) path = "") as Hrel.
  { rewrite <- (location_mount_path m path) at 2. apply relative_path_self. }
  rewrite Hrel. unfold location_mount. destruct (bool_decide_reflect (vm_SubPathExpr m = "")) as [He|He]; cbn [negb].
  - cbn [vm_SubPathExpr vm_Name vm_SubPath]. rewrite bool_decide_eq_true_2 by done. cbn [negb].
    by rewrite path_Join2_again.
  - cbn [vm_SubPathExpr vm_Name vm_SubPath]. rewrite bool_decide_eq_false_2 by (by apply path_Join2_nonempty).
    cbn [negb]. by rewrite path_Join2_again.
Qed.

(** *** The loop over the locations *)

Definition resolved (volumeMounts : list VolumeMount) (m : VolumeMount) : Prop :=
  ∃ mount, FindVolumeMountForPath volumeMounts (vm_MountPath m) = Some mount ∧
           m = location_mount mount (vm_MountPath m).

Definition required_paths (required : list LocationType) (locations : list LocationSpec) : list string :=
  loc_Path <$> List.filter (λ l, bool_decide (loc_LocationType l ∈ required)) locations.

Lemma resolve_locations_spec volumeMounts required locations acc mounts :
  resolve_locations volumeMounts required locations acc = inr mounts →
  Forall (resolved volumeMounts) acc → NoDup (vm_MountPath <$> acc) →
  Forall (resolved volumeMounts) mounts ∧ NoDup (vm_MountPath <$> mounts) ∧
  ∀ path, path ∈ vm_MountPath <$> mounts ↔ path ∈ vm_MountPath <$> acc ∨ path ∈ required_paths required locations.
Proof.
  revert acc. induction locations as [|location rest IH]; intros acc; cbn [resolve_locations].
  { intros [= <-] Hr Hnd. split_and!; [done..|]. intros path. cbn. rewrite elem_of_nil. naive_solver. }
  unfold required_paths. cbn [List.filter]. destruct (bool_decide (loc_LocationType location ∈ required)); cbn [negb].
  2: { intros H Hr Hnd. by apply IH. }
  destruct (FindVolumeMountForPath _ _) as [mount|] eqn:Hf; [|done].
  assert (∀ path, path ∈ loc_Path <$> location :: List.filter (λ l, bool_decide (loc_LocationType l ∈ required)) rest ↔
    path = loc_Path location ∨ path ∈ required_paths required rest) as Hcons.
  { intros path. rewrite fmap_cons, elem_of_cons. done. }
  setoid_rewrite Hcons. destruct (ContainsFunc _ _) eqn:Hc; intros H Hr Hnd.
  - destruct (IH _ H Hr Hnd) as (H1 & H2 & H3). split_and!; [done..|]. intros path. rewrite H3.
    apply ContainsFunc_true in Hc as (m & Hm & Hp%bool_decide_eq_true).
    assert (loc_Path location ∈ vm_MountPath <$> acc) as Hin by (apply list_elem_of_fmap; eauto). naive_solver.
  - assert (loc_Path location ∉ vm_MountPath <$> acc) as Hnin.
    { intros (m & Hp & Hm)%list_elem_of_fmap. assert (ContainsFunc acc (λ m, vm_MountPath m == loc_Path location) = true) as Ht.
      { apply ContainsFunc_true. exists m. split; [done|]. by rewrite bool_decide_eq_true_2. }
      congruence. }
    destruct (IH _ H) as (H1 & H2 & H3).
    + apply Forall_app. split; [done|]. apply Forall_singleton. exists mount. by rewrite location_mount_path.
    + rewrite fmap_app. cbn. rewrite location_mount_path. apply NoDup_app. split_and!; [done| |apply NoDup_singleton].
      intros x Hx ->%list_elem_of_singleton. done.
    + split_and!; [done..|]. intros path. rewrite H3, fmap_app, elem_of_app. cbn. rewrite location_mount_path.
      rewrite list_elem_of_singleton. tauto.
Qed.

(** *** Sorting *)

Lemma insert_mount_perm m l : insert_mount m l ≡ₚ m :: l.
Proof.
  induction l as [|x l IH]; [done|]. cbn. case_match; [done|]. rewrite IH. apply Permutation_swap.
Qed.

Lemma sort_mounts_perm l : sort_mounts l ≡ₚ l.
Proof. induction l as [|m l IH]; [done|]. cbn. by rewrite insert_mount_perm, IH. Qed.

Definition shorter (a b : VolumeMount) : Prop :=
  (String.length (vm_MountPath a) ≤ String.length (vm_MountPath b))%nat.

Lemma insert_mount_sorted m l : StronglySorted shorter l → StronglySorted shorter (insert_mount m l).
Proof.
  induction 1 as [|x l Hs IH Hx]; cbn; [by repeat constructor|].
  destruct (Nat.leb_spec (String.length (vm_MountPath m)) (String.length (vm_MountPath x))) as [Hle|Hlt].
  - constructor; [by constructor|]. constructor; [done|]. eapply Forall_impl; [exact Hx|].
    intros y Hy. unfold shorter in *. lia.
  - constructor; [done|]. rewrite insert_mount_perm. constructor; [|done]. unfold shorter. lia.
Qed.

Lemma sort_mounts_sorted l : StronglySorted shorter (sort_mounts l).
Proof. induction l as [|m l IH]; cbn; [constructor|]. by apply insert_mount_sorted. Qed.

Lemma HasPrefix_length s p : HasPrefix s p = true → (String.length p ≤ String.length s)%nat.
Proof.
  unfold HasPrefix. revert s. induction p as [|a p IH]; intros [|b s]; cbn; [lia|lia|done|].
  destruct (Ascii.ascii_dec a b); [|done]. intros H%IH. lia.
Qed.

(** Sorted by length, no mount hides one before it at that one's own path. *)
Lemma sorted_mount_found l m :
  StronglySorted shorter l → NoDup (vm_MountPath <$> l) → m ∈ l → FindVolumeMountForPath l (vm_MountPath m) = Some m.
Proof.
  intros Hs Hnd (before & after & ->)%list_elem_of_split. apply find_uncovered.
  2: { unfold covers. by rewrite bool_decide_eq_true_2. }
  intros later Hl. rewrite fmap_app, fmap_cons in Hnd. apply NoDup_app in Hnd as (_ & _ & [Hnin _]%NoDup_cons).
  assert (shorter m later) as Hsh.
  { apply StronglySorted_app in Hs as (_ & _ & Hs). apply StronglySorted_inv in Hs as [_ Hf]. rewrite Forall_forall in Hf. by apply Hf. }
  unfold covers. apply orb_false_iff. split.
  - apply bool_decide_eq_false. intros Heq. apply Hnin, list_elem_of_fmap. eauto.
  - apply not_true_iff_false. intros H%HasPrefix_length. rewrite string_length_app in H. unfold shorter in Hsh. cbn in H. lia.
Qed.

(** ** Shared locations *)

Lemma resolve_locations_error volumeMounts required locations acc err :
  resolve_locations volumeMounts required locations acc = inl err →
  ∃ l, l ∈ locations ∧ loc_LocationType l ∈ required ∧ visible volumeMounts (loc_Path l) = None.
Proof.
  revert acc. induction locations as [|location rest IH]; intros acc; cbn [resolve_locations]; [done|].
  destruct (bool_decide_reflect (loc_LocationType location ∈ required)) as [Hr|Hr]; cbn [negb].
  - destruct (FindVolumeMountForPath _ _) as [mount|] eqn:Hf.
    + case_match; intros (l & Hl & Hv)%IH; exists l; (split; [by right|done]).
    + intros _. exists location. unfold visible. rewrite Hf. split_and!; [by left|done..].
  - intros (l & Hl & H)%IH. exists l. split; [by right|done].
Qed.

Lemma required_paths_spec required locations path :
  path ∈ required_paths required locations ↔
  ∃ l, l ∈ locations ∧ loc_LocationType l ∈ required ∧ loc_Path l = path.
Proof.
  unfold required_paths. rewrite list_elem_of_fmap. setoid_rewrite list_elem_of_In. setoid_rewrite filter_In.
  setoid_rewrite bool_decide_eq_true. setoid_rewrite <- list_elem_of_In. naive_solver.
Qed.

Lemma resolveLocationMounts_inr instanceSpec required mounts :
  resolveLocationMounts instanceSpec required = inr mounts →
  List.find (λ t, isNone (FindFirstLocation (is_Locations instanceSpec) t)) required = None ∧
  StronglySorted shorter mounts ∧ Forall (resolved (is_VolumeMounts instanceSpec)) mounts ∧
  NoDup (vm_MountPath <$> mounts) ∧
  ∀ path, path ∈ vm_MountPath <$> mounts ↔
    ∃ l, l ∈ is_Locations instanceSpec ∧ loc_LocationType l ∈ required ∧ loc_Path l = path.
Proof.
  unfold resolveLocationMounts. destruct (List.find _ _); [done|]. destruct (resolve_locations _ _ _ _) as [|ms] eqn:Hres; [done|].
  intros [= <-]. destruct (resolve_locations_spec _ _ _ _ _ Hres) as (Hr & Hnd & Hpaths); [apply Forall_nil_2|apply NoDup_nil_2|].
  split_and!; [done|apply sort_mounts_sorted|by rewrite sort_mounts_perm|by rewrite sort_mounts_perm|].
  intros path. rewrite <- required_paths_spec, sort_mounts_perm, Hpaths, fmap_nil, elem_of_nil. tauto.
Qed.

(** The volume of a resolved mount is one the server mounts. *)
Lemma resolved_volume instanceSpec required mounts m :
  resolveLocationMounts instanceSpec required = inr mounts → m ∈ mounts →
  ∃ mount, mount ∈ is_VolumeMounts instanceSpec ∧ vm_Name m = vm_Name mount.
Proof.
  intros (_ & _ & Hr & _)%resolveLocationMounts_inr Hm. rewrite Forall_forall in Hr.
  destruct (Hr m Hm) as (mount & Hf & Heq). exists mount. split.
  - apply find_some in Hf as [Hin _]. by apply list_elem_of_In, in_rev.
  - rewrite Heq. unfold location_mount. by case_match.
Qed.

(** C16. The mounts a sidecar gets for the locations it shares with its server (the logs for the log
    delivery, snapshots and changelogs for the uploader of masters).  They fail to resolve only when
    a type of location is not configured or a location lies on no volume mount.  Otherwise there is
    exactly one mount for each distinct path of these locations and none besides, and at the path of
    every such location the sidecar sees the same directory of the same volume as the server does,
    whatever the order, the nesting and the sub-paths of the mounts in the specification. *)
Theorem shared_locations_exact instanceSpec required :
  match resolveLocationMounts instanceSpec required with
  | inl _ =>
      (∃ t, t ∈ required ∧ FindFirstLocation (is_Locations instanceSpec) t = None) ∨
      (∃ l, l ∈ is_Locations instanceSpec ∧ loc_LocationType l ∈ required ∧
            visible (is_VolumeMounts instanceSpec) (loc_Path l) = None)
  | inr mounts =>
      (∀ t, t ∈ required → FindFirstLocation (is_Locations instanceSpec) t ≠ None) ∧
      NoDup (vm_MountPath <$> mounts) ∧
      (∀ path, path ∈ vm_MountPath <$> mounts ↔
         ∃ l, l ∈ is_Locations instanceSpec ∧ loc_LocationType l ∈ required ∧ loc_Path l = path) ∧
      (∀ l, l ∈ is_Locations instanceSpec → loc_LocationType l ∈ required →
         is_Some (visible mounts (loc_Path l)) ∧
         visible mounts (loc_Path l) = visible (is_VolumeMounts instanceSpec) (loc_Path l))
  end.
Proof.
  destruct (resolveLocationMounts instanceSpec required) as [err|mounts] eqn:Hres.
  { unfold resolveLocationMounts in Hres. destruct (List.find _ required) as [t|] eqn:Hfind.
    - apply find_some in Hfind as [Hin Hn]. left. exists t. split; [by apply list_elem_of_In|]. by destruct (FindFirstLocation _ t).
    - right. destruct (resolve_locations _ _ _ _) eqn:Herr; [|done]. by eapply resolve_locations_error. }
  apply resolveLocationMounts_inr in Hres as (Hfind & Hsorted & Hr & Hnd & Hp). split_and!; [|done|done|].
  { intros t Ht HN. pose proof (find_none _ _ Hfind t (proj1 (list_elem_of_In _ _) Ht)) as Hx. cbn in Hx. by rewrite HN in Hx. }
  intros l Hl Ht. assert (loc_Path l ∈ vm_MountPath <$> mounts) as Hin by (apply Hp; eauto).
  apply list_elem_of_fmap in Hin as (m & Hm & Hin). rewrite Hm. unfold visible.
  rewrite sorted_mount_found by done. rewrite Forall_forall in Hr. destruct (Hr m Hin) as (mount & Hf & Heq).
  rewrite Hf. cbn. split; [done|]. f_equal. rewrite Heq at 1. apply location_mount_directory.
Qed.
