(* ===== verification/ServerPods.v ===== *)
(** * The pods of servers

    The pod template that a server requests (src/pkg/components/server.go: [newServer],
    [newServerConfigured], [newServerOptions] and the pod specification of [rebuildStatefulSet]) and
    what components add to it: the sidecar of log delivery (timbertruck.go), the uploader and the
    host affinity of masters (master.go), the certificates of proxies (httpproxy.go, rpcproxy.go),
    the tokens of YQL agents (yql_agent.go), job resources and the container runtime of exec nodes
    (exec_node_base.go).  The stateful set itself is in ServerImpl.v, which keeps of the template the
    names and the images of the containers. *)

From S2P Require Import Prelude Kubernetes ApiTypes Consts Labeller Status ApiProxy Resources ConfigMaps Timbertruck Validators Values InitJob YtsaurusClient Master AgentComponents ServerImpl Logging Connection CriConfig LogDelivery Pods.

(** ** Options of servers (serveroptions.go) *)

Record options := mkOptions {
  opt_containerPorts : list ContainerPort;
  opt_monitoringPort : Z;
  opt_readinessProbeEndpointPort : IntOrString;
  opt_readinessProbeEndpointPath : string;
  opt_sidecarImages : gmap string string;
  opt_timbertruck : option TimbertruckSpec;
}.

Definition Option : Type := options → options.

Definition WithCustomReadinessProbeEndpointPort (port : Z) : Option := λ o,
  mkOptions (opt_containerPorts o) (opt_monitoringPort o) (PortNumber port) (opt_readinessProbeEndpointPath o)
    (opt_sidecarImages o) (opt_timbertruck o).

Definition WithCustomReadinessProbeEndpointPath (path : string) : Option := λ o,
  mkOptions (opt_containerPorts o) (opt_monitoringPort o) (opt_readinessProbeEndpointPort o) path
    (opt_sidecarImages o) (opt_timbertruck o).

Definition WithContainerPorts (ports : list ContainerPort) : Option := λ o,
  mkOptions (opt_containerPorts o ++ ports) (opt_monitoringPort o) (opt_readinessProbeEndpointPort o)
    (opt_readinessProbeEndpointPath o) (opt_sidecarImages o) (opt_timbertruck o).

Definition WithSidecarImage (name image : string) : Option := λ o,
  mkOptions (opt_containerPorts o) (opt_monitoringPort o) (opt_readinessProbeEndpointPort o)
    (opt_readinessProbeEndpointPath o) (<[name := image]> (opt_sidecarImages o)) (opt_timbertruck o).

Definition WithTimbertruck (timbertruck : option TimbertruckSpec) : Option := λ o,
  mkOptions (opt_containerPorts o) (opt_monitoringPort o) (opt_readinessProbeEndpointPort o)
    (opt_readinessProbeEndpointPath o) (opt_sidecarImages o) timbertruck.

Definition readinessProbeHTTPPath := "/orchid/service".

Definition newServerOptions (instanceSpec : InstanceSpec) (defaultMonitoringPort : Z) (optFuncs : list Option) : options :=
  let monitoringPort := Deref (is_MonitoringPort instanceSpec) defaultMonitoringPort in
  foldl (λ o (fn : Option), fn o)
    (mkOptions [mkContainerPort YTMonitoringContainerPortName monitoringPort] monitoringPort
       (PortName YTMonitoringContainerPortName) readinessProbeHTTPPath ∅ None) optFuncs.

(** ** Servers *)

(** The fields of [serverImpl] the pod template is made of; [sp_fileNames] are the names of the
    files its configuration generators make. *)
Record serverPod := mkServerPod {
  sp_labeller : Labeller;
  sp_image : string;
  sp_sidecarImages : gmap string string;
  sp_commonSpec : CommonSpec;
  sp_commonPodSpec : PodSpec;
  sp_instanceSpec : InstanceSpec;
  sp_instanceCount : Z;
  sp_binaryPath : string;
  sp_fileNames : list string;
  sp_caRootBundle : option CABundle;
  sp_caBundle : option CABundle;
  sp_busServerSecret : option TLSSecret;
  sp_busClientSecret : option TLSSecret;
  sp_timbertruck : option (timbertruckDelivery * list VolumeMount);
  sp_componentContainerPorts : list ContainerPort;
  sp_readinessProbePort : IntOrString;
  sp_readinessProbeHTTPPath : string;
}.

(** Loggers that leave anchor profiling open get it where the cluster enables it by default.  The
    loggers are changed in place, so that the configuration generators see it too. *)
Definition profiled (commonSpec : CommonSpec) (l : TextLoggerSpec) : TextLoggerSpec :=
  let b := tl_BaseLoggerSpec l in
  if cf_EnableAnchorProfilingByDefault (Deref (cs_ClusterFeatures commonSpec) ClusterFeaturesZero)
     && isNone (bl_EnableAnchorProfiling b)
  then mkTextLoggerSpec (mkBaseLoggerSpec (bl_Name b) (bl_Format b) (bl_MinLogLevel b) (bl_Compression b)
         (bl_UseTimestampSuffix b) (bl_UseDateTimeSuffix b) (Some true) (bl_RotationPolicy b))
         (tl_WriterType l) (tl_CategoriesFilter l)
  else l.

Definition is_set_Loggers (loggers : list TextLoggerSpec) (i : InstanceSpec) : InstanceSpec :=
  mkInstanceSpec (is_PodSpec i) (is_Image i) (is_VolumeMounts i) (is_InstanceCount i) (is_MinReadyInstanceCount i)
    (is_Locations i) (is_EnableAntiAffinity i) (is_StructuredLoggers i) (is_Affinity i) (is_NativeTransport i)
    (is_Volumes i) (is_Resources i) (is_VolumeClaimTemplates i) (is_MonitoringPort i) (is_MetricExporter i)
    loggers (is_EntrypointWrapper i) (is_ReadinessProbeParams i).

Definition newServerConfigured (l : Labeller) (commonSpec : CommonSpec) (commonPodSpec : PodSpec)
    (instanceSpec : InstanceSpec) (binaryPath : string) (generators : list string)
    (timbertruck : option (timbertruckDelivery * list VolumeMount)) (opts : options) : serverPod :=
  let transportSpec := match is_NativeTransport instanceSpec with
                       | Some s => Some s
                       | None => cs_NativeTransport commonSpec end in
  mkServerPod l (effectiveImage commonSpec instanceSpec) (opt_sidecarImages opts) commonSpec commonPodSpec
    (is_set_Loggers (profiled commonSpec <$> is_Loggers instanceSpec) instanceSpec)
    (effectiveInstanceCount commonSpec (lab_ComponentType l) (is_InstanceCount instanceSpec))
    binaryPath generators
    (NewCARootBundle (cs_CARootBundle commonSpec)) (NewCABundle (cs_CABundle commonSpec))
    (NewTLSSecretOrNil (transportSpec ≫= rpct_TLSSecret) BusServerSecretVolumeName BusServerSecretMountPoint)
    (NewTLSSecretOrNil (transportSpec ≫= rpct_TLSClientSecret) BusClientSecretVolumeName BusClientSecretMountPoint)
    timbertruck (opt_containerPorts opts) (opt_readinessProbeEndpointPort opts) (opt_readinessProbeEndpointPath opts).

(** *** The sidecar of log delivery (timbertruck.go) *)

Definition timbertruckConfigVolumeName := "timbertruck-config".
Definition timbertruckPostprocessConfigScriptName := "postprocess-timbertruck-config.sh".

Definition timbertruckConfigFileName (l : Labeller) : outcome string :=
  label ← or_panic (GetFullComponentLabel l); mret (label +:+ "-timbertruck.yaml").

Definition timbertruckConfigPostprocessingCommand (l : Labeller) : outcome string :=
  file ← timbertruckConfigFileName l;
  mret (getConfigPostprocessingCommand timbertruckPostprocessConfigScriptName (path_Join2 TimbertruckConfigMountPoint file)).

Definition timbertruckConfigTemplateVolumeMount : VolumeMount :=
  volumeMount timbertruckConfigVolumeName TimbertruckConfigMountPoint true.

Definition buildTimbertruckVolumeMounts (instanceSpec : InstanceSpec) : error + list VolumeMount :=
  match resolveLocationMounts instanceSpec [LocationTypeLogs] with
  | inl err => inl ("failed to resolve mounts for timbertruck: " +:+ err)
  | inr logMounts => inr (logMounts ++ [timbertruckConfigTemplateVolumeMount; createConfigVolumeMount])
  end.

Definition PullIfNotPresent := "IfNotPresent".

Definition timbertruck_container (image : string) (volumeMounts : list VolumeMount) (configFileName : string) : PodContainer :=
  let postprocessScriptPath := path_Join2 ConfigMountPoint timbertruckPostprocessConfigScriptName in
  let configPath := path_Join2 ConfigMountPoint configFileName in
  mkPodContainer TimbertruckContainerName image
    ["bash"; "-c"; "source " +:+ postprocessScriptPath +:+ "; exec /usr/bin/timbertruck_os -config " +:+ configPath] []
    ([mkEnvVar TokenSecretKey (EnvSecretKey (buildUserCredentialsSecretname TimbertruckUserName) TokenSecretKey)] ++ getDefaultEnv)
    [] volumeMounts [] ContainerResourcesZero None None None PullIfNotPresent.

Definition addTimbertruckSidecar (podSpec : PodTemplate) (image : string) (volumeMounts : list VolumeMount)
    (configMapName configFileName : string) : PodTemplate :=
  pod_add_containers [timbertruck_container image volumeMounts configFileName]
    (pod_add_volumes [createConfigVolume timbertruckConfigVolumeName configMapName None] podSpec).

(** [timbertruckGenerator != nil] is [delivers]: only remote nodes have no generator.  A delivery
    whose mounts do not resolve is switched off. *)
Definition newServer (l : Labeller) (commonSpec : CommonSpec) (commonPodSpec : PodSpec) (instanceSpec : InstanceSpec)
    (binaryPath : string) (generators : list string) (delivers : bool) (defaultMonitoringPort : Z)
    (optFuncs : list Option) : serverPod :=
  let opts := newServerOptions instanceSpec defaultMonitoringPort optFuncs in
  let resolved :=
    if delivers then
      match resolveTimbertruckDelivery (opt_timbertruck opts) (cs_Timbertruck commonSpec) instanceSpec with
      | None => None
      | Some delivery =>
          match buildTimbertruckVolumeMounts instanceSpec with
          | inl _ => None
          | inr volumeMounts => Some (delivery, volumeMounts)
          end
      end
    else None in
  let opts := match resolved with
              | Some (delivery, _) => WithSidecarImage TimbertruckContainerName (ttd_Image delivery) opts
              | None => opts end in
  newServerConfigured l commonSpec commonPodSpec instanceSpec binaryPath generators resolved opts.

(** ** The pod template *)

(** Helpers of src/pkg/components/helpers.go. *)
Definition ptrDefault {T} (ptr def : option T) : option T := match ptr with Some _ => ptr | None => def end.

Definition getTolerationsWithDefault (componentTolerations defaultTolerations : list Toleration) : list Toleration :=
  if length componentTolerations != 0%nat then componentTolerations else defaultTolerations.

Definition getNodeSelectorWithDefault (componentNodeSelector defaultNodeSelector : gmap string string)
    : gmap string string :=
  if size componentNodeSelector != 0%nat then componentNodeSelector else defaultNodeSelector.

Definition setContainerResources (containers : list PodContainer) (resources : ContainerResources) : list PodContainer :=
  pc_set_Resources resources <$> containers.

Definition DNSClusterFirstWithHostNet := "ClusterFirstWithHostNet".

Section server_pod.
Context (s : serverPod).

Definition addCARootBundle (c : PodContainer) : PodContainer :=
  cab_AddContainerEnv (sp_caRootBundle s) (cab_AddVolumeMount (sp_caRootBundle s) c).

Definition addTlsSecretMount (c : PodContainer) : PodContainer :=
  tls_AddVolumeMount (sp_busClientSecret s) (tls_AddVolumeMount (sp_busServerSecret s) (cab_AddVolumeMount (sp_caBundle s) c)).

Abbreviation instanceSpec := (sp_instanceSpec s).
Abbreviation podOf := (is_PodSpec (sp_instanceSpec s)).
Abbreviation common := (sp_commonPodSpec s).

Definition server_container (filename : string) : PodContainer :=
  mkPodContainer YTServerContainerName (sp_image s)
    (is_EntrypointWrapper instanceSpec ++ [sp_binaryPath s; "--config"; path_Join2 ConfigMountPoint filename]) []
    getDefaultEnv [] (createVolumeMounts (is_VolumeMounts instanceSpec)) (sp_componentContainerPorts s)
    (resources_of (is_Resources instanceSpec))
    (Some (mkProbe (HTTPGet (sp_readinessProbePort s) (sp_readinessProbeHTTPPath s))
             (Deref (is_ReadinessProbeParams instanceSpec) HealthcheckProbeParamsZero)))
    None None "".

(** The containers before certificates and sidecars are added. *)
Definition init_containers (configPostprocessingCommand : string) : list PodContainer :=
  let volumeMounts := createVolumeMounts (is_VolumeMounts instanceSpec) in
  let postprocessVolumeMounts :=
    volumeMounts ++ match sp_timbertruck s with Some _ => [timbertruckConfigTemplateVolumeMount] | None => [] end in
  setContainerResources
    [ container PrepareLocationsContainerName (sp_image s)
        ["bash"; "-xc"; getLocationInitCommand (is_Locations instanceSpec)] getDefaultEnv volumeMounts;
      container PostprocessConfigContainerName (sp_image s)
        ["bash"; "-xc"; configPostprocessingCommand] getDefaultEnv postprocessVolumeMounts ]
    (resources_of (is_Resources instanceSpec)).

Definition base_template (configMapName filename configPostprocessingCommand : string) : PodTemplate :=
  let hostNetwork := Deref (ps_HostNetwork podOf) (Deref (ps_HostNetwork common) false) in
  let dnsPolicy := if hostNetwork : bool then DNSClusterFirstWithHostNet else "" in
  mkPodTemplate
    (ptrDefault (ps_RuntimeClassName podOf) (ps_RuntimeClassName common))
    (cs_ImagePullSecrets (sp_commonSpec s))
    (Some (Deref (ps_SetHostnameAsFQDN podOf) (Deref (ps_SetHostnameAsFQDN common) true)))
    (Some false)
    (ptrDefault (ps_TerminationGracePeriodSeconds podOf) (ps_TerminationGracePeriodSeconds common))
    [server_container filename] (init_containers configPostprocessingCommand)
    (createServerVolumes (is_Volumes instanceSpec) configMapName)
    (is_Affinity instanceSpec)
    (getNodeSelectorWithDefault (ps_NodeSelector podOf) (ps_NodeSelector common))
    (getTolerationsWithDefault (ps_Tolerations podOf) (ps_Tolerations common))
    (ptrDefault (ps_DNSConfig podOf) (ps_DNSConfig common))
    hostNetwork
    (Deref (ps_DNSPolicy podOf) (Deref (ps_DNSPolicy common) dnsPolicy)).

Definition with_certificates (podSpec : PodTemplate) : outcome PodTemplate :=
  let podSpec := tls_AddVolume (sp_busClientSecret s) (tls_AddVolume (sp_busServerSecret s)
    (cab_AddVolume (sp_caBundle s) (cab_AddVolume (sp_caRootBundle s) podSpec))) in
  let podSpec := pod_set_Containers (addCARootBundle <$> pod_Containers podSpec) podSpec in
  let podSpec := pod_set_InitContainers (addCARootBundle <$> pod_InitContainers podSpec) podSpec in
  pod_first_container addTlsSecretMount podSpec.

(** The sidecar is the last container; the root bundle is added to it. *)
Definition with_delivery (podSpec : PodTemplate) : outcome PodTemplate :=
  match sp_timbertruck s with
  | None => mret podSpec
  | Some (delivery, volumeMounts) =>
      configMapName ← or_panic (GetSidecarConfigMapName (sp_labeller s) TimbertruckContainerName);
      configFileName ← timbertruckConfigFileName (sp_labeller s);
      let podSpec := addTimbertruckSidecar podSpec (ttd_Image delivery) volumeMounts configMapName configFileName in
      mret (match rev (pod_Containers podSpec) with
            | sidecar :: others => pod_set_Containers (rev others ++ [addCARootBundle sidecar]) podSpec
            | [] => podSpec end)
  end.

(** The pod specification of [rebuildStatefulSet]. *)
Definition rebuildPodSpec : outcome PodTemplate :=
  configMapName ← or_panic (GetMainConfigMapName (sp_labeller s));
  match sp_fileNames s with
  | [] => Panicked
  | filename :: _ =>
      let command := getConfigPostprocessingCommand PostprocessConfigScriptName (path_Join2 ConfigTemplateMountPoint filename) in
      delivery ← match sp_timbertruck s with
                 | Some _ => timbertruckConfigPostprocessingCommand (sp_labeller s)
                 | None => mret "" end;
      podSpec ← with_certificates (base_template configMapName filename (command +:+ delivery));
      with_delivery podSpec
  end.

End server_pod.

(** ** Containers from the specification (helpers.go)

    [decode] is [yaml.UnmarshalStrict] into a container. *)

Section decoded_containers.
Context (decode : string → error + PodContainer).

Definition DecodeSidecar (sidecarSpec : string) : outcome PodContainer :=
  match decode sidecarSpec with
  | inl err => Failed ("failed to parse sidecar: " +:+ err)
  | inr sidecarContainer => mret sidecarContainer
  end.

Fixpoint AddSidecarsToPodSpec (sidecars : list string) (podSpec : PodTemplate) : outcome PodTemplate :=
  match sidecars with
  | [] => mret podSpec
  | sidecarSpec :: rest =>
      sidecar ← DecodeSidecar sidecarSpec;
      AddSidecarsToPodSpec rest (pod_add_containers [sidecar] podSpec)
  end.

Fixpoint decode_all (specs : list string) : outcome (list PodContainer) :=
  match specs with
  | [] => mret []
  | spec :: rest =>
      match decode spec with
      | inl err => Failed err
      | inr c => cs ← decode_all rest; mret (c :: cs)
      end
  end.

(** New containers go in front. *)
Definition AddInitContainersToPodSpec (initContainers : list string) (podSpec : PodTemplate) : outcome PodTemplate :=
  containers ← decode_all initContainers;
  mret (pod_set_InitContainers (containers ++ pod_InitContainers podSpec) podSpec).

(** ** Masters (master.go) *)

Definition defaultHostAddressLabel := "kubernetes.io/hostname".
Definition NodeSelectorOpIn := "In".

(** A term for the hosts is appended to the required terms of the specification.  The affinity
    object of the specification, when there is one, is changed in place. *)
Definition AddAffinity (affinity : option Affinity) (key : string) (values : list string) : Affinity :=
  let affinity := match affinity with Some a => a | None => mkAffinity None None end in
  let nodeAffinity := match aff_NodeAffinity affinity with Some n => n | None => None end in
  let terms := match nodeAffinity with Some terms => terms | None => [] end in
  mkAffinity (Some (Some (terms ++ [[mkNodeSelectorRequirement key NodeSelectorOpIn values]]))) (aff_PodAntiAffinity affinity).

Definition getHostAddressLabel (label : string) : string := if label != "" then label else defaultHostAddressLabel.

Definition add_host_affinity (label : string) (hosts : list string) (podSpec : PodTemplate) : PodTemplate :=
  if length hosts != 0%nat
  then pod_set_Affinity (Some (AddAffinity (pod_Affinity podSpec) (getHostAddressLabel label) hosts)) podSpec
  else podSpec.

Definition vm_set_ReadOnly (m : VolumeMount) : VolumeMount :=
  mkVolumeMount (vm_Name m) (vm_MountPath m) (vm_MountPropagation m) true (vm_SubPath m) (vm_SubPathExpr m).

Definition SharedBinaries := "shared-binaries".
Definition SharedBinariesMountPoint := "/shared-binaries".

Definition uploader_lifecycle : list string :=
  [ "/bin/bash"; "-c";
    "nohup bash -c '" +:+ strings_Join
      [ "rm /shared-binaries/*"; "cp /usr/bin/ytserver-all /shared-binaries/ytserver-all";
        "ln /shared-binaries/ytserver-all /shared-binaries/ytserver-master" ] "; " +:+ "' > /dev/null 2>&1 &" ].

(** The first container with the name of the server. *)
Fixpoint on_server (f : PodContainer → PodContainer) (containers : list PodContainer) : list PodContainer :=
  match containers with
  | [] => []
  | c :: rest => if pc_Name c == YTServerContainerName then f c :: rest else c :: on_server f rest
  end.

Definition uploader_container (hydraImage proxy secretKey : string) (masterDataMounts : list VolumeMount) : PodContainer :=
  mkPodContainer HydraPersistenceUploaderContainerName hydraImage ["/usr/bin/hydra_persistence_uploader"] []
    ([mkEnvVar TokenSecretKey (EnvSecretKey secretKey TokenSecretKey); mkEnvVar "YT_PROXY" (EnvValue proxy)] ++ getDefaultEnv)
    [] ([volumeMount ConfigTemplateVolumeName ConfigMountPoint true] ++ (vm_set_ReadOnly <$> masterDataMounts)
        ++ [volumeMount SharedBinaries SharedBinariesMountPoint false])
    [] ContainerResourcesZero None None None PullIfNotPresent.

Definition addHydraPersistenceUploaderToPodSpec (hydraImage : string) (podSpec : PodTemplate) (proxy secretKey : string)
    (masterInstanceSpec : InstanceSpec) : outcome PodTemplate :=
  match resolveLocationMounts masterInstanceSpec [LocationTypeMasterSnapshots; LocationTypeMasterChangelogs] with
  | inl err => Failed ("failed to resolve mounts for hydra persistence uploader: " +:+ err)
  | inr masterDataMounts =>
      let podSpec := pod_add_containers [uploader_container hydraImage proxy secretKey masterDataMounts] podSpec in
      let podSpec := pod_set_Containers
        (on_server (λ c, pc_add_mount (volumeMount SharedBinaries SharedBinariesMountPoint false)
                           (pc_set_PostStart uploader_lifecycle c)) (pod_Containers podSpec)) podSpec in
      mret (pod_add_volumes [mkPodVolume SharedBinaries (EmptyDirSource None)] podSpec)
  end.

Definition HydraPersistenceUploaderImage (mastersSpec : MastersSpec) : option string :=
  ms_HydraPersistenceUploader mastersSpec ≫= hpu_Image.

Definition buildMasterOptions (mastersSpec : MastersSpec) : list Option :=
  [WithContainerPorts [mkContainerPort YTRPCPortName MasterRPCPort]]
  ++ match HydraPersistenceUploaderImage mastersSpec with
     | Some image => [WithSidecarImage HydraPersistenceUploaderContainerName image]
     | None => [] end
  ++ [WithTimbertruck (ms_Timbertruck mastersSpec)].

(** What [doServerSync] of a master adds to the pod specification. *)
Definition master_pod (mastersSpec : MastersSpec) (proxy uploaderSecret : string) (podSpec : PodTemplate) : outcome PodTemplate :=
  podSpec ← pod_first_container (pc_add_env getNativeClientConfigEnv) podSpec;
  podSpec ← match HydraPersistenceUploaderImage mastersSpec with
            | Some image =>
                addHydraPersistenceUploaderToPodSpec image podSpec proxy uploaderSecret (ms_InstanceSpec mastersSpec)
            | None => mret podSpec end;
  podSpec ← AddSidecarsToPodSpec (ms_Sidecars mastersSpec) podSpec;
  mret (add_host_affinity (ms_HostAddressLabel mastersSpec) (ms_HostAddresses mastersSpec) podSpec).

(** ** Proxies and agents *)

(** The certificate of HTTP and RPC proxies. *)
Definition proxy_pod (secret : option TLSSecret) (podSpec : PodTemplate) : outcome PodTemplate :=
  match secret with
  | None => mret podSpec
  | Some _ => pod_first_container (tls_AddVolumeMount secret) (tls_AddVolume secret podSpec)
  end.

(** [StringSecret.GetTokenVolume] and [GetTokenVolumeMount] (src/pkg/resources/string_secret.go). *)
Definition GetTokenVolume (secretName name : string) : PodVolume :=
  mkPodVolume name (SecretSource secretName [mkKeyToPath TokenSecretKey TokenFileName (Some 256%Z)]).

Definition GetTokenVolumeMount (name : string) : VolumeMount := volumeMount name (path_Join2 SecretsMountBase name) true.

Definition yql_agent_pod (secretName : string) (execSecretName : option string) (commonSpec : CommonSpec)
    (podSpec : PodTemplate) : outcome PodTemplate :=
  let tokens := (YQLAgentTokenVolumeName, secretName) ::
    match execSecretName with Some exec => [(YQLExecTokenVolumeName, exec)] | None => [] end in
  let forceIPv6 := if cs_UseIPv6 commonSpec && negb (cs_UseIPv4 commonSpec) then "1" else "0" in
  let forceIPv4 := if negb (cs_UseIPv6 commonSpec) && cs_UseIPv4 commonSpec then "1" else "0" in
  pod_first_container (λ c,
    pc_add_env [mkEnvVar "YT_FORCE_IPV4" (EnvValue forceIPv4); mkEnvVar "YT_FORCE_IPV6" (EnvValue forceIPv6)]
      (pc_set_VolumeMounts (pc_VolumeMounts c ++ ((λ t, GetTokenVolumeMount t.1) <$> tokens)) c))
    (pod_add_volumes ((λ t, GetTokenVolume t.2 t.1) <$> tokens) podSpec).

(** ** Exec nodes (exec_node_base.go) *)

Record baseExecNodePod := mkBaseExecNodePod {
  ben_server : serverPod;
  ben_criConfig : CRIConfigGenerator;
  ben_spec : ExecNodesSpec;
  ben_sidecarConfigMap : option string;  (* [None] without a container runtime *)
  ben_jobHTTPSCertificateSecret : option TLSSecret;
}.

(** [NewExecNode]: everything of the pod; the server delivers logs unless the node is remote. *)
Definition newBaseExecNode (l : Labeller) (commonSpec : CommonSpec) (commonPodSpec : PodSpec) (spec : ExecNodesSpec)
    (delivers : bool) (fileName : string) (sidecarConfigMap : string) : baseExecNodePod :=
  let criConfig := NewCRIConfigGenerator spec in
  mkBaseExecNodePod
    (newServer l commonSpec commonPodSpec (ens_InstanceSpec spec) "/usr/bin/ytserver-node" [fileName] delivers
       ExecNodeMonitoringPort [WithContainerPorts [mkContainerPort YTRPCPortName ExecNodeRPCPort]])
    criConfig spec
    (if crg_Service criConfig == CRIServiceNone then None else Some sidecarConfigMap)
    (NewTLSSecretOrNil (ens_JobHTTPSCertificateSecret spec) JobHTTPSSecretVolumeName JobHTTPSSecretMountPoint).

Section exec_pod.
Context (n : baseExecNodePod).

Definition setContainerPrivileged (c : PodContainer) : PodContainer :=
  match pc_Privileged c with Some _ => c | None => pc_set_Privileged (Some (ens_Privileged (ben_spec n))) c end.

(** Writing into a nil map panics; reading from it does not. *)
Definition addResourceList (list newList : option (gmap string Quantity)) : outcome (option (gmap string Quantity)) :=
  match newList with
  | None => mret list
  | Some new =>
      if decide (new = ∅) then mret list
      else match list with
           | None => Panicked
           | Some old => mret (Some (union_with (λ x y, Some (mkQuantity (q_nano x + q_nano y))) old new))
           end
  end.

Definition add_job_resources (podSpec : PodTemplate) : outcome PodTemplate :=
  match ens_JobResources (ben_spec n), pod_Containers podSpec with
  | None, _ => mret podSpec
  | Some _, [] => Panicked
  | Some job, c :: rest =>
      if crg_Isolated (ben_criConfig n) then mret podSpec
      else
        requests ← addResourceList (cr_Requests (pc_Resources c)) (cr_Requests (resources_of job));
        limits ← addResourceList (cr_Limits (pc_Resources c)) (cr_Limits (resources_of job));
        mret (pod_set_Containers (pc_set_Resources (mkContainerResources requests limits) c :: rest) podSpec)
  end.

Definition imagePullSecret : option DockerSecret :=
  (λ secret, mkDockerSecret secret DockerSecretVolumeName DockerSecretMountPath) <$> cri_ImagePullSecret (crg_Spec (ben_criConfig n)).

(** The volume and the mount of the configuration of the runtime. *)
Definition cri_config_volume : option (string * string) :=
  match crg_Service (ben_criConfig n) with
  | CRIServiceCRIO => Some (CRIOConfigVolumeName, CRIOConfigMountPoint)
  | CRIServiceContainerd => Some (ContainerdConfigVolumeName, ContainerdConfigMountPoint)
  | _ => None
  end.

Definition addCRIServiceConfig (podSpec : PodTemplate) (c : PodContainer) : PodTemplate * PodContainer :=
  match ben_sidecarConfigMap n with
  | None => (podSpec, c)
  | Some configMapName =>
      let c := dks_AddVolumeMount imagePullSecret c in
      let '(podSpec, c) := match cri_config_volume with
        | Some (volume, mountPoint) =>
            (pod_add_volumes [createConfigVolume volume configMapName None] podSpec,
             pc_add_mount (volumeMount volume mountPoint true) c)
        | None => (podSpec, c) end in
      (podSpec,
       if crg_MonitoringPort (ben_criConfig n) != 0%Z
       then pc_set_Ports (pc_Ports c ++ [mkContainerPort CRIServiceMonitoringPortName (crg_MonitoringPort (ben_criConfig n))]) c
       else c)
  end.

Definition MountPropagationBidirectional := "Bidirectional".
Definition MountPropagationHostToContainer := "HostToContainer".

Definition host_to_container (m : VolumeMount) : VolumeMount :=
  if vm_MountPropagation m == Some MountPropagationBidirectional then
    mkVolumeMount (vm_Name m) (vm_MountPath m) (Some MountPropagationHostToContainer) (vm_ReadOnly m) (vm_SubPath m) (vm_SubPathExpr m)
  else m.

(** Without resources of their own jobs get the limits of the node and zero requests. *)
Definition jobs_resources : ContainerResources :=
  match ens_JobResources (ben_spec n) with
  | Some job => resources_of job
  | None =>
      let limits := rr_Limits (is_Resources (ens_InstanceSpec (ben_spec n))) in
      mkContainerResources (Some ((λ _, mkQuantity 0) <$> limits)) (resource_list limits)
  end.

Definition addCRIServiceSidecar (podSpec : PodTemplate) : outcome PodTemplate :=
  match pod_Containers podSpec with
  | [] => Panicked
  | node :: _ =>
      let cri := ben_criConfig n in
      let '(command, args) := cri_GetCommand cri (cri_EntrypointWrapper (crg_Spec cri)) in
      let env := getDefaultEnv ++
        ((λ '(name, value), mkEnvVar name (EnvValue value)) <$> map_to_list (GetAdditionalEnvironmentVariables cri (ben_spec n))) in
      let c := mkPodContainer JobsContainerName (pc_Image node) command args env []
        (createVolumeMounts (is_VolumeMounts (ens_InstanceSpec (ben_spec n)))) [] ContainerResourcesZero None (Some true) None "" in
      let '(podSpec, c) := addCRIServiceConfig podSpec c in
      let c := tls_AddVolumeMount (ben_jobHTTPSCertificateSecret n) (addCARootBundle (ben_server n) c) in
      let c := pc_set_VolumeMounts (host_to_container <$> pc_VolumeMounts c) c in
      mret (pod_add_containers [pc_set_Resources jobs_resources c] podSpec)
  end.

Definition cri_tools_env : list EnvVar :=
  (λ '(name, value), mkEnvVar name (EnvValue value)) <$> GetCRIToolsEnv (ben_criConfig n).

(** The runtime: in a sidecar, or started by the entrypoint wrapper of the node. *)
Definition add_cri_service (podSpec : PodTemplate) : outcome PodTemplate :=
  let podSpec := dks_AddVolume imagePullSecret podSpec in
  podSpec ←
    (if crg_Isolated (ben_criConfig n) then addCRIServiceSidecar podSpec
     else match pod_Containers podSpec with
          | [] => Panicked
          | node :: rest =>
              let '(podSpec, node) := addCRIServiceConfig podSpec node in
              mret (pod_set_Containers (tls_AddVolumeMount (ben_jobHTTPSCertificateSecret n) node :: rest) podSpec)
          end);
  mret (pod_set_Containers (pc_add_env cri_tools_env <$> pod_Containers podSpec) podSpec).

(** Building the sidecar's configuration, the last step, is in ConfigMaps.v. *)
Definition doBuildBase_pod (podSpec : PodTemplate) : outcome PodTemplate :=
  if length (pod_Containers podSpec) != 1%nat then Panicked
  else
    podSpec ← AddInitContainersToPodSpec (ens_InitContainers (ben_spec n)) podSpec;
    podSpec ← AddSidecarsToPodSpec (ens_Sidecars (ben_spec n)) podSpec;
    let podSpec := pod_set_InitContainers (setContainerPrivileged <$> pod_InitContainers podSpec) podSpec in
    let podSpec := pod_set_Containers (setContainerPrivileged <$> pod_Containers podSpec) podSpec in
    podSpec ← add_job_resources podSpec;
    let podSpec := tls_AddVolume (ben_jobHTTPSCertificateSecret n) podSpec in
    if crg_Service (ben_criConfig n) != CRIServiceNone then add_cri_service podSpec
    else pod_first_container (tls_AddVolumeMount (ben_jobHTTPSCertificateSecret n)) podSpec.

End exec_pod.
End decoded_containers.

(** ** Well-formed pods

    What the API server demands of a pod: volumes and containers have names of their own, every mount
    is of a volume of the pod or of a claim of the stateful set, and the mount paths of a container
    are distinct. *)

Record container_ok (names : list string) (c : PodContainer) : Prop := {
  co_names : ∀ m, m ∈ pc_VolumeMounts c → vm_Name m ∈ names;
  co_paths : NoDup (vm_MountPath <$> pc_VolumeMounts c);
}.

Definition volume_names (i : InstanceSpec) (p : PodTemplate) : list string :=
  (pv_Name <$> pod_Volumes p) ++ (pvc_Name <$> is_VolumeClaimTemplates i).

Record pod_ok (i : InstanceSpec) (p : PodTemplate) : Prop := {
  po_volumes : NoDup (volume_names i p);
  po_names : NoDup (pc_Name <$> pod_InitContainers p ++ pod_Containers p);
  po_containers : ∀ c, c ∈ pod_InitContainers p ++ pod_Containers p → container_ok (volume_names i p) c;
}.

(** The names and paths the operator keeps for itself. *)
Definition server_volumes : list string :=
  [ ConfigTemplateVolumeName; ConfigVolumeName; CARootBundleVolumeName; CABundleVolumeName; BusServerSecretVolumeName;
    BusClientSecretVolumeName; timbertruckConfigVolumeName ].

Definition server_paths : list string :=
  [ ConfigTemplateMountPoint; ConfigMountPoint; CARootBundleMountPoint; CABundleMountPoint; BusServerSecretMountPoint;
    BusClientSecretMountPoint ].

Definition reserved_volumes : list string :=
  server_volumes ++ [ HTTPSSecretVolumeName; RPCProxySecretVolumeName; SharedBinaries; YQLAgentTokenVolumeName;
    YQLExecTokenVolumeName; JobHTTPSSecretVolumeName; DockerSecretVolumeName; CRIOConfigVolumeName; ContainerdConfigVolumeName ].

Definition reserved_paths : list string :=
  server_paths ++ [ TimbertruckConfigMountPoint; HTTPSSecretMountPoint; RPCProxySecretMountPoint; SharedBinariesMountPoint;
    path_Join2 SecretsMountBase YQLAgentTokenVolumeName; path_Join2 SecretsMountBase YQLExecTokenVolumeName;
    JobHTTPSSecretMountPoint; DockerSecretMountPath; CRIOConfigMountPoint; ContainerdConfigMountPoint ].

(** Volumes and mounts of a specification that stay clear of them. *)
Record spec_ok (i : InstanceSpec) : Prop := {
  so_volumes : NoDup ((vol_Name <$> is_Volumes i) ++ (pvc_Name <$> is_VolumeClaimTemplates i));
  so_names : ∀ m, m ∈ is_VolumeMounts i →
    vm_Name m ∈ (vol_Name <$> is_Volumes i) ++ (pvc_Name <$> is_VolumeClaimTemplates i);
  so_paths : NoDup (vm_MountPath <$> is_VolumeMounts i);
  so_free_volumes : ∀ name, name ∈ (vol_Name <$> is_Volumes i) ++ (pvc_Name <$> is_VolumeClaimTemplates i) →
    name ∉ reserved_volumes;
  so_free_paths : ∀ m, m ∈ is_VolumeMounts i → vm_MountPath m ∉ reserved_paths;
  so_free_locations : ∀ l, l ∈ is_Locations i → loc_Path l ∉ reserved_paths;
}.

Definition known_bundle (source : option FileObjectReference) : Prop :=
  match source with None => True | Some s => for_Kind s ∈ [""; "ConfigMap"; "Secret"] end.

(** A pod as the operator builds it: the volumes of the specification and then operator volumes in
    the order of [RV]; the server is the first container, with the mounts of the specification and
    then operator mounts in the order of [RP]; the other containers are in order. *)
Record pod_shape (i : InstanceSpec) (RV RP : list string) (p : PodTemplate) : Prop := {
  ps_extra : ∃ extra, pv_Name <$> pod_Volumes p = (vol_Name <$> is_Volumes i) ++ extra ∧ sublist extra RV;
  ps_server : ∃ c rest extra, pod_Containers p = c :: rest ∧ pc_Name c = YTServerContainerName ∧
    pc_VolumeMounts c = is_VolumeMounts i ++ extra ∧ sublist (vm_MountPath <$> extra) RP ∧
    (∀ m, m ∈ extra → vm_Name m ∈ pv_Name <$> pod_Volumes p) ∧
    (∀ c', c' ∈ pod_InitContainers p ++ rest → container_ok (volume_names i p) c');
  ps_container_names : NoDup (pc_Name <$> pod_InitContainers p ++ pod_Containers p);
}.

Lemma NoDup_clear (spec extra R : list string) :
  NoDup spec → sublist extra R → NoDup R → (∀ x, x ∈ spec → x ∉ R) → NoDup (spec ++ extra).
Proof.
  intros Hs He HR Hd. apply NoDup_app. split_and!; [done| |by eapply sublist_NoDup].
  intros x Hx Hin. eapply Hd; [done|]. by eapply elem_of_sublist.
Qed.

Lemma shape_ok i RV RP p :
  spec_ok i → pod_shape i RV RP p → NoDup RV → NoDup RP →
  (∀ x, x ∈ RV → x ∈ reserved_volumes) → (∀ x, x ∈ RP → x ∈ reserved_paths) → pod_ok i p.
Proof.
  intros Hi [(ev & Hv & Hsv) (c & rest & em & Hc & _ & Hm & Hsm & Hn & Hrest) Hnames] HRV HRP Hrv Hrp.
  assert (NoDup (volume_names i p)) as Hvol.
  { unfold volume_names. rewrite Hv, <- app_assoc, (Permutation_app_comm ev), app_assoc.
    eapply NoDup_clear; [apply (so_volumes i Hi)|exact Hsv|done|].
    intros x Hx Hin. by eapply (so_free_volumes i Hi), Hrv. }
  split; [done|done|]. intros c' Hin. rewrite Hc in Hin.
  assert (c' = c ∨ c' ∈ pod_InitContainers p ++ rest) as [->|Hin']; [|..|by apply Hrest].
  { rewrite elem_of_app, elem_of_cons in Hin. rewrite elem_of_app. tauto. }
  split; rewrite Hm.
  - intros m [Hmi|Hme]%elem_of_app; unfold volume_names.
    + apply (so_names i Hi) in Hmi. rewrite Hv, !elem_of_app in *. tauto.
    + apply elem_of_app. left. by apply Hn.
  - rewrite fmap_app. eapply NoDup_clear; [apply (so_paths i Hi)|exact Hsm|done|].
    intros x (m & -> & Hmi)%list_elem_of_fmap Hin2. by eapply (so_free_paths i Hi), Hrp.
Qed.

(** *** Steps that keep the shape *)

Lemma container_ok_mono names names' c : (∀ x, x ∈ names → x ∈ names') → container_ok names c → container_ok names' c.
Proof. intros H [H1 H2]. split; auto. Qed.

Lemma volume_names_add i vs p x : x ∈ volume_names i p → x ∈ volume_names i (pod_add_volumes vs p).
Proof. unfold volume_names. cbn. rewrite fmap_app, !elem_of_app. tauto. Qed.

Lemma shape_add_volumes i RV RP vs new p :
  pod_shape i RV RP p → sublist (pv_Name <$> vs) new → pod_shape i (RV ++ new) RP (pod_add_volumes vs p).
Proof.
  intros [(ev & Hv & Hsv) (c & rest & em & Hc & Hnm & Hm & Hsm & Hn & Hrest) Hnames] Hs. split; cbn.
  - exists (ev ++ (pv_Name <$> vs)). rewrite fmap_app, Hv, app_assoc. split; [done|]. by apply sublist_app.
  - exists c, rest, em. split_and!; [done..| |].
    + intros m Hin%Hn. rewrite fmap_app. set_solver.
    + intros c' Hc'%Hrest. eapply container_ok_mono; [|exact Hc']. intros x. apply volume_names_add.
  - done.
Qed.

Lemma shape_first i RV RP f ms new p p' :
  pod_first_container f p = Returned p' → pod_shape i RV RP p →
  (∀ c, pc_Name (f c) = pc_Name c ∧ pc_VolumeMounts (f c) = pc_VolumeMounts c ++ ms) →
  sublist (vm_MountPath <$> ms) new → (∀ m, m ∈ ms → vm_Name m ∈ pv_Name <$> pod_Volumes p) →
  pod_shape i RV (RP ++ new) p'.
Proof.
  unfold pod_first_container. intros Hp [Hv (c & rest & em & Hc & Hnm & Hm & Hsm & Hn & Hrest) Hnames] Hf Hs Hin.
  rewrite Hc in *. injection Hp as <-. destruct (Hf c) as [Hfn Hfm]. split; cbn; [done| |].
  - exists (f c), rest, (em ++ ms). rewrite Hfn, Hfm, Hm, app_assoc, fmap_app. split_and!; [done|done|done| | |done].
    + by apply sublist_app.
    + intros m [|]%elem_of_app; auto.
  - rewrite fmap_app in *. cbn in *. by rewrite Hfn.
Qed.

Lemma shape_add_container i RV RP c p :
  pod_shape i RV RP p → container_ok (volume_names i p) c → pc_Name c ∉ pc_Name <$> pod_InitContainers p ++ pod_Containers p →
  pod_shape i RV RP (pod_add_containers [c] p).
Proof.
  intros [Hv (c0 & rest & em & Hc & Hnm & Hm & Hsm & Hn & Hrest) Hnames] Hok Hfresh. split; cbn; [done| |].
  - exists c0, (rest ++ [c]), em. rewrite Hc. split_and!; [done..|]. intros c' Hin.
    rewrite app_assoc, elem_of_app, list_elem_of_singleton in Hin. destruct Hin as [Hin| ->]; [by apply Hrest|done].
  - rewrite app_assoc, fmap_app. apply NoDup_app. split_and!; [done| |apply NoDup_singleton].
    intros x Hx ->%list_elem_of_singleton. done.
Qed.

(** *** Certificates *)

Definition opt_mount {A} (o : option A) (name path : string) : list VolumeMount :=
  match o with Some _ => [volumeMount name path true] | None => [] end.

Definition opt_name {A} (o : option A) (name : string) : list string := match o with Some _ => [name] | None => [] end.

Ltac solve_sublist :=
  cbn; repeat first [apply sublist_nil_l | apply sublist_skip | apply sublist_cons].

Lemma opt_mount_paths {A} (o : option A) name path : vm_MountPath <$> opt_mount o name path = opt_name o path.
Proof. by destruct o. Qed.

Lemma opt_mount_names {A} (o : option A) name path m : m ∈ opt_mount o name path → vm_Name m ∈ opt_name o name.
Proof. destruct o; cbn; [|by intros ?%elem_of_nil]. intros ->%list_elem_of_singleton. by left. Qed.

Lemma opt_name_sublist {A} (o : option A) name : sublist (opt_name o name) [name].
Proof. destruct o; solve_sublist. Qed.

Lemma cab_AddVolume_names t p name :
  match t with Some t => cab_VolumeName t = name ∧ for_Kind (cab_Source t) ∈ [""; "ConfigMap"; "Secret"] | None => True end →
  pv_Name <$> pod_Volumes (cab_AddVolume t p) = (pv_Name <$> pod_Volumes p) ++ opt_name t name.
Proof.
  destruct t as [t|]; [|by rewrite app_nil_r]. intros [<- Hk]. cbn. rewrite fmap_app. f_equal. unfold cab_volumes.
  rewrite !elem_of_cons in Hk. destruct Hk as [->|[->|[->|[]%elem_of_nil]]]; done.
Qed.

Lemma tls_AddVolume_names t p name :
  match t with Some t => tls_VolumeName t = name | None => True end →
  pv_Name <$> pod_Volumes (tls_AddVolume t p) = (pv_Name <$> pod_Volumes p) ++ opt_name t name.
Proof. destruct t as [t|]; [|by rewrite app_nil_r]. intros <-. cbn. by rewrite fmap_app. Qed.

(** *** The pod of a server *)

Section server_pod_shape.
Context (l : Labeller) (commonSpec : CommonSpec) (commonPodSpec : PodSpec) (i : InstanceSpec) (binaryPath : string)
  (generators : list string) (delivers : bool) (port : Z) (optFuncs : list Option).

Let s := newServer l commonSpec commonPodSpec i binaryPath generators delivers port optFuncs.

Context (Hi : spec_ok i) (Hroot : known_bundle (cs_CARootBundle commonSpec)) (Hca : known_bundle (cs_CABundle commonSpec)).

Lemma addCARootBundle_mounts c :
  pc_VolumeMounts (addCARootBundle s c) =
  pc_VolumeMounts c ++ opt_mount (sp_caRootBundle s) CARootBundleVolumeName CARootBundleMountPoint.
Proof.
  unfold addCARootBundle. change (sp_caRootBundle s) with (NewCARootBundle (cs_CARootBundle commonSpec)).
  destruct (cs_CARootBundle commonSpec); cbn; [done|by rewrite app_nil_r].
Qed.

Lemma addTlsSecretMount_mounts c :
  pc_VolumeMounts (addTlsSecretMount s c) =
  pc_VolumeMounts c ++ opt_mount (sp_caBundle s) CABundleVolumeName CABundleMountPoint ++
    opt_mount (sp_busServerSecret s) BusServerSecretVolumeName BusServerSecretMountPoint ++
    opt_mount (sp_busClientSecret s) BusClientSecretVolumeName BusClientSecretMountPoint.
Proof.
  unfold addTlsSecretMount. change (sp_caBundle s) with (NewCABundle (cs_CABundle commonSpec)).
  unfold s, newServer, newServerConfigured. cbn [sp_busServerSecret sp_busClientSecret]. unfold NewTLSSecretOrNil.
  repeat (destruct (_ ≫= _)); destruct (cs_CABundle commonSpec); cbn; rewrite <- ?app_assoc, ?app_nil_r; done.
Qed.

Lemma addTlsSecretMount_name c : pc_Name (addTlsSecretMount s c) = pc_Name c.
Proof.
  unfold addTlsSecretMount. destruct (sp_busClientSecret s), (sp_busServerSecret s), (sp_caBundle s); done.
Qed.

Lemma addCARootBundle_name c : pc_Name (addCARootBundle s c) = pc_Name c.
Proof. unfold addCARootBundle. by destruct (sp_caRootBundle s). Qed.

Lemma cab_AddVolume_keeps t p :
  pod_Containers (cab_AddVolume t p) = pod_Containers p ∧ pod_InitContainers (cab_AddVolume t p) = pod_InitContainers p.
Proof. by destruct t. Qed.

Lemma tls_AddVolume_keeps t p :
  pod_Containers (tls_AddVolume t p) = pod_Containers p ∧ pod_InitContainers (tls_AddVolume t p) = pod_InitContainers p.
Proof. by destruct t. Qed.

(** The volumes of certificates. *)
Definition certificate_volumes : list PodVolume :=
  from_option cab_volumes [] (sp_caRootBundle s) ++ from_option cab_volumes [] (sp_caBundle s) ++
  from_option (λ t, [mkPodVolume (tls_VolumeName t) (SecretSource (tls_SecretName t) [])]) [] (sp_busServerSecret s) ++
  from_option (λ t, [mkPodVolume (tls_VolumeName t) (SecretSource (tls_SecretName t) [])]) [] (sp_busClientSecret s).

Lemma with_certificates_spec p c :
  pod_Containers p = [c] → ∃ p', with_certificates s p = Returned p' ∧
    pod_Containers p' = [addTlsSecretMount s (addCARootBundle s c)] ∧
    pod_InitContainers p' = addCARootBundle s <$> pod_InitContainers p ∧
    pv_Name <$> pod_Volumes p' = (pv_Name <$> pod_Volumes p) ++ opt_name (sp_caRootBundle s) CARootBundleVolumeName ++
      opt_name (sp_caBundle s) CABundleVolumeName ++ opt_name (sp_busServerSecret s) BusServerSecretVolumeName ++
      opt_name (sp_busClientSecret s) BusClientSecretVolumeName ∧
    pod_Volumes p' = pod_Volumes p ++ certificate_volumes.
Proof.
  intros Hc. unfold with_certificates.
  set (p1 := cab_AddVolume (sp_caRootBundle s) p). set (p2 := cab_AddVolume (sp_caBundle s) p1).
  set (p3 := tls_AddVolume (sp_busServerSecret s) p2). set (p4 := tls_AddVolume (sp_busClientSecret s) p3).
  assert (pod_Containers p4 = [c] ∧ pod_InitContainers p4 = pod_InitContainers p) as [H4 H4'].
  { unfold p4, p3, p2, p1. rewrite !(proj1 (tls_AddVolume_keeps _ _)), !(proj1 (cab_AddVolume_keeps _ _)).
    rewrite !(proj2 (tls_AddVolume_keeps _ _)), !(proj2 (cab_AddVolume_keeps _ _)). done. }
  unfold pod_first_container. cbn [pod_set_InitContainers pod_set_Containers pod_Containers pod_InitContainers]. rewrite H4, H4'. eexists.
  split_and!; [done..| |].
  2: { change (pod_Volumes p4 = pod_Volumes p ++ certificate_volumes). unfold p4, p3, p2, p1, certificate_volumes.
       destruct (sp_caRootBundle s), (sp_caBundle s), (sp_busServerSecret s), (sp_busClientSecret s); cbn;
         rewrite <- ?app_assoc, ?app_nil_r; done. }
  change (pod_Volumes _) with (pod_Volumes p4) at 1. unfold p4, p3, p2, p1.
  rewrite (tls_AddVolume_names _ _ BusClientSecretVolumeName), (tls_AddVolume_names _ _ BusServerSecretVolumeName),
    (cab_AddVolume_names _ _ CABundleVolumeName), (cab_AddVolume_names _ _ CARootBundleVolumeName), <- !app_assoc; [done|..].
  - clear -Hroot. change (sp_caRootBundle s) with (NewCARootBundle (cs_CARootBundle commonSpec)).
    destruct (cs_CARootBundle commonSpec); cbn; [by split|done].
  - clear -Hca. change (sp_caBundle s) with (NewCABundle (cs_CABundle commonSpec)).
    destruct (cs_CABundle commonSpec); cbn; [by split|done].
  - unfold s, newServer, newServerConfigured. cbn [sp_busServerSecret]. unfold NewTLSSecretOrNil. destruct (_ ≫= _); done.
  - unfold s, newServer, newServerConfigured. cbn [sp_busClientSecret]. unfold NewTLSSecretOrNil. destruct (_ ≫= _); done.
Qed.

(** Names of the volumes of a server. *)
Definition pod_volume_names : list string :=
  (vol_Name <$> is_Volumes i) ++ [ConfigTemplateVolumeName; ConfigVolumeName] ++
  opt_name (sp_caRootBundle s) CARootBundleVolumeName ++ opt_name (sp_caBundle s) CABundleVolumeName ++
  opt_name (sp_busServerSecret s) BusServerSecretVolumeName ++ opt_name (sp_busClientSecret s) BusClientSecretVolumeName ++
  opt_name (sp_timbertruck s) timbertruckConfigVolumeName.

(** A container with mounts of the specification and operator mounts of known volumes. *)
Lemma operator_container_ok names c base extra :
  pc_VolumeMounts c = base ++ extra → NoDup (vm_MountPath <$> base) → NoDup (vm_MountPath <$> extra) →
  (∀ m, m ∈ base → vm_MountPath m ∉ reserved_paths) → (∀ m, m ∈ extra → vm_MountPath m ∈ reserved_paths) →
  (∀ m, m ∈ base → vm_Name m ∈ names) → (∀ m, m ∈ extra → vm_Name m ∈ names) → container_ok names c.
Proof.
  intros Hm H1 H2 Hb He Hnb Hne. split; rewrite Hm.
  - intros m [|]%elem_of_app; auto.
  - rewrite fmap_app. apply NoDup_app. split_and!; [done| |done].
    intros x (m & -> & Hin)%list_elem_of_fmap (m' & Heq & Hin')%list_elem_of_fmap. apply (Hb m Hin). rewrite Heq. by apply He.
Qed.

Lemma timbertruck_mounts d mounts :
  sp_timbertruck s = Some (d, mounts) → ∃ logs, resolveLocationMounts i [LocationTypeLogs] = inr logs ∧
    mounts = logs ++ [timbertruckConfigTemplateVolumeMount; createConfigVolumeMount].
Proof.
  unfold s, newServer. cbv zeta. cbn [newServerConfigured sp_timbertruck]. destruct delivers; [|done].
  destruct (resolveTimbertruckDelivery _ _ _) as [d'|]; [|done]. unfold buildTimbertruckVolumeMounts.
  destruct (resolveLocationMounts i _) as [|logs]; [done|]. intros [= <- <-]. eauto.
Qed.

Lemma rebuild_spec label :
  GetFullComponentLabel l = Some label → generators ≠ [] →
  ∃ p file cmd, rebuildPodSpec s = Returned p ∧
    pod_Containers p = addTlsSecretMount s (addCARootBundle s (server_container s file)) ::
      match sp_timbertruck s with
      | None => []
      | Some (d, mounts) => [addCARootBundle s (timbertruck_container (ttd_Image d) mounts (label +:+ "-timbertruck.yaml"))]
      end ∧
    pod_InitContainers p = addCARootBundle s <$> init_containers s cmd ∧
    pv_Name <$> pod_Volumes p = pod_volume_names ∧
    ∀ v, v ∈ certificate_volumes → v ∈ pod_Volumes p.
Proof.
  intros Hl Hg. unfold rebuildPodSpec. change (sp_labeller s) with l. 
  assert (∃ file gs, sp_fileNames s = file :: gs) as (file & gs & ->).
  { change (sp_fileNames s) with generators. clear -Hg. destruct generators; [done|eauto]. }
  unfold GetMainConfigMapName. rewrite Hl. cbn [or_panic fmap option_fmap option_map].
  set (cmd := getConfigPostprocessingCommand _ _). unfold timbertruckConfigPostprocessingCommand, with_delivery, timbertruckConfigFileName.
  change (sp_labeller s) with l. rewrite Hl. unfold GetSidecarConfigMapName. rewrite Hl.
  pose proof (λ cm cmd, with_certificates_spec (base_template s cm file cmd) _ eq_refl) as Hcert.
  unfold pod_volume_names.
  destruct (sp_timbertruck s) as [[d mounts]|]; cbn [mbind outcome_bind or_panic mret outcome_ret fmap option_fmap option_map].
  - edestruct Hcert as (p & -> & Hc & Hi' & Hv & Hvs). eexists _, file, _. cbn [mbind outcome_bind]. split; [done|].
    unfold addTimbertruckSidecar. cbn [pod_add_containers pod_add_volumes pod_set_Containers pod_set_Volumes pod_Containers].
    rewrite Hc. cbn [app rev]. split_and!; [done|exact Hi'| |].
    2: { intros v Hin. cbn. rewrite Hvs. rewrite !elem_of_app. tauto. }
    cbn [pod_Volumes pod_set_Containers pod_set_Volumes pod_add_containers pod_add_volumes]. rewrite fmap_app, Hv.
    unfold base_template, createServerVolumes, createVolumes. cbn [pod_Volumes]. rewrite fmap_app, <- list_fmap_compose.
    cbn. by rewrite <- !app_assoc.
  - edestruct Hcert as (p & -> & Hc & Hi' & Hv & Hvs). eexists _, file, _. split; [done|]. split_and!; [done|exact Hi'| |].
    2: { intros v Hin. rewrite Hvs. rewrite elem_of_app. by right. }
    rewrite Hv. unfold base_template, createServerVolumes, createVolumes. cbn [pod_Volumes]. rewrite fmap_app, <- list_fmap_compose.
    cbn. by rewrite <- !app_assoc, app_nil_r.
Qed.

(** The volumes of the specification and those the operator mounts are volumes of the pod. *)
Lemma spec_volume_named p m :
  pv_Name <$> pod_Volumes p = pod_volume_names → m ∈ is_VolumeMounts i → vm_Name m ∈ volume_names i p.
Proof.
  intros Hv Hm. apply (so_names i Hi) in Hm. unfold volume_names. rewrite Hv. unfold pod_volume_names.
  rewrite !elem_of_app in *. tauto.
Qed.

(** A container with the root bundle, with mounts of the specification or resolved from it and the
    operator mounts [extra]. *)
Lemma bundled_container_ok p c base extra :
  pv_Name <$> pod_Volumes p = pod_volume_names → pc_VolumeMounts c = base ++ extra →
  NoDup (vm_MountPath <$> base) → (∀ m, m ∈ base → vm_MountPath m ∉ reserved_paths ∧ vm_Name m ∈ volume_names i p) →
  sublist extra ([createConfigTemplateVolumeMount; timbertruckConfigTemplateVolumeMount; createConfigVolumeMount]) ∨
    sublist extra ([createConfigTemplateVolumeMount; createConfigVolumeMount; timbertruckConfigTemplateVolumeMount]) →
  (timbertruckConfigTemplateVolumeMount ∈ extra → sp_timbertruck s ≠ None) →
  container_ok (volume_names i p) (addCARootBundle s c).
Proof.
  intros Hv Hm Hnd Hbase Hsub Htt.
  assert (∀ m, m ∈ extra → m ∈ [createConfigTemplateVolumeMount; createConfigVolumeMount; timbertruckConfigTemplateVolumeMount]) as Hin.
  { intros m Hm'. destruct Hsub as [Hs|Hs]; pose proof (elem_of_sublist _ _ _ Hm' Hs) as He; set_solver. }
  eapply (operator_container_ok _ _ base (extra ++ opt_mount (sp_caRootBundle s) CARootBundleVolumeName CARootBundleMountPoint)).
  - rewrite addCARootBundle_mounts, Hm. by rewrite app_assoc.
  - done.
  - rewrite fmap_app, opt_mount_paths. destruct Hsub as [Hs|Hs];
      (eapply sublist_NoDup; [|apply sublist_app; [apply (fmap_sublist vm_MountPath), Hs|apply opt_name_sublist]]); by apply (bool_decide_unpack _).
  - intros m Hm'. by apply Hbase.
  - intros m [Hm'%Hin|Hm']%elem_of_app.
    + rewrite !elem_of_cons in Hm'. destruct Hm' as [->|[->|[->|[]%elem_of_nil]]]; by apply (bool_decide_unpack _).
    + destruct (sp_caRootBundle s); cbn in Hm'; [|by apply elem_of_nil in Hm']. apply list_elem_of_singleton in Hm' as ->.
      by apply (bool_decide_unpack _).
  - intros m Hm'. by apply Hbase.
  - intros m Hm'. unfold volume_names. apply elem_of_app. left. rewrite Hv. unfold pod_volume_names. rewrite !elem_of_app, !elem_of_cons.
    apply elem_of_app in Hm' as [Hm'|Hm'%opt_mount_names]; [|tauto]. pose proof (Hin m Hm') as He. rewrite !elem_of_cons in He.
    destruct He as [->|[->|[->|[]%elem_of_nil]]]; [tauto..|]. apply Htt in Hm'. destruct (sp_timbertruck s); [|done].
    do 6 right. by left.
Qed.

Lemma server_shape p file cmd label :
  pod_Containers p = addTlsSecretMount s (addCARootBundle s (server_container s file)) ::
    match sp_timbertruck s with
    | None => []
    | Some (d, mounts) => [addCARootBundle s (timbertruck_container (ttd_Image d) mounts (label +:+ "-timbertruck.yaml"))]
    end →
  pod_InitContainers p = addCARootBundle s <$> init_containers s cmd →
  pv_Name <$> pod_Volumes p = pod_volume_names →
  pod_shape i server_volumes server_paths p.
Proof.
  intros Hc Hinit Hv.
  assert (∀ x, x ∈ pv_Name <$> pod_Volumes p → x ∈ volume_names i p) as Hvol.
  { intros x Hx. unfold volume_names. apply elem_of_app. by left. }
  assert (∀ m, m ∈ opt_mount (sp_caRootBundle s) CARootBundleVolumeName CARootBundleMountPoint → vm_Name m ∈ pv_Name <$> pod_Volumes p) as Hr.
  { intros m Hm%opt_mount_names. rewrite Hv. unfold pod_volume_names. set_solver. }
  assert (∀ m, m ∈ [createConfigTemplateVolumeMount; createConfigVolumeMount] → vm_Name m ∈ pv_Name <$> pod_Volumes p) as Hcfg.
  { intros m Hm. rewrite Hv. unfold pod_volume_names. rewrite !elem_of_cons in Hm.
    destruct Hm as [->|[->|[]%elem_of_nil]]; set_solver. }
  split.
  - exists (drop (length (is_Volumes i)) pod_volume_names). rewrite Hv. unfold pod_volume_names.
    rewrite drop_app_length' by (by rewrite length_fmap). split; [done|]. unfold server_volumes.
    destruct (sp_caRootBundle s), (sp_caBundle s), (sp_busServerSecret s), (sp_busClientSecret s), (sp_timbertruck s); solve_sublist.
  - eexists _, _, _. split; [exact Hc|]. rewrite addTlsSecretMount_name, addCARootBundle_name, addTlsSecretMount_mounts, addCARootBundle_mounts.
    change (pc_VolumeMounts (server_container s file)) with
      (is_VolumeMounts i ++ [createConfigTemplateVolumeMount; createConfigVolumeMount]).
    rewrite <- !app_assoc. split_and!; [done|done|..].
    + rewrite !fmap_app, !opt_mount_paths. unfold server_paths.
      destruct (sp_caRootBundle s), (sp_caBundle s), (sp_busServerSecret s), (sp_busClientSecret s); solve_sublist.
    + intros m. rewrite !elem_of_app.
      intros [Hm|[Hm|[Hm%opt_mount_names|[Hm%opt_mount_names|Hm%opt_mount_names]]]]; [by apply Hcfg|by apply Hr|..];
        rewrite Hv; unfold pod_volume_names; rewrite !elem_of_app; tauto.
    + rewrite Hinit. intros c' Hin.
      assert (∀ m, m ∈ is_VolumeMounts i → vm_MountPath m ∉ reserved_paths ∧ vm_Name m ∈ volume_names i p) as Hspec.
      { intros m Hm. split; [by apply (so_free_paths i Hi)|by apply spec_volume_named]. }
      apply elem_of_app in Hin as [(c & -> & Hc')%list_elem_of_fmap|Hside].
      * unfold init_containers, setContainerResources in Hc'. apply list_elem_of_fmap in Hc' as (c0 & -> & Hc0).
        rewrite !elem_of_cons in Hc0. destruct Hc0 as [->|[->|[]%elem_of_nil]].
        -- eapply (bundled_container_ok p _ (is_VolumeMounts i) [createConfigTemplateVolumeMount; createConfigVolumeMount]);
             [done|done|apply (so_paths i Hi)|done|right; solve_sublist|]. intros Hx. rewrite !elem_of_cons in Hx. destruct Hx as [|[|[]%elem_of_nil]]; done.
        -- eapply (bundled_container_ok p _ (is_VolumeMounts i) ([createConfigTemplateVolumeMount; createConfigVolumeMount] ++
             match sp_timbertruck s with Some _ => [timbertruckConfigTemplateVolumeMount] | None => [] end));
             [done| |apply (so_paths i Hi)|done|right; destruct (sp_timbertruck s); solve_sublist|].
           ++ cbn [pc_set_Resources pc_VolumeMounts container]. unfold createVolumeMounts. by rewrite <- app_assoc.
           ++ intros Hx. destruct (sp_timbertruck s); [done|]. cbn in Hx. rewrite !elem_of_cons in Hx. destruct Hx as [|[|[]%elem_of_nil]]; done.
      * destruct (sp_timbertruck s) as [[d mounts]|] eqn:Htt; [|by apply elem_of_nil in Hside].
        apply list_elem_of_singleton in Hside as ->. destruct (timbertruck_mounts _ _ Htt) as (logs & Hlogs & ->).
        pose proof (resolveLocationMounts_inr _ _ _ Hlogs) as (_ & _ & _ & Hnd & Hpaths).
        eapply (bundled_container_ok p _ logs [timbertruckConfigTemplateVolumeMount; createConfigVolumeMount]); [done|done|done| |left; solve_sublist|by rewrite Htt].
        intros m Hm. split.
        -- assert (vm_MountPath m ∈ vm_MountPath <$> logs) as (loc & Hloc & _ & <-)%Hpaths by (by apply list_elem_of_fmap_2).
           by apply (so_free_locations i Hi).
        -- destruct (resolved_volume _ _ _ _ Hlogs Hm) as (mount & Hmount & ->). by apply spec_volume_named.
  - rewrite Hc, Hinit, fmap_app. unfold init_containers, setContainerResources. cbn [fmap list_fmap].
    rewrite addTlsSecretMount_name, !addCARootBundle_name.
    destruct (sp_timbertruck s) as [[d mounts]|]; cbn [fmap list_fmap]; rewrite ?addCARootBundle_name; by apply (bool_decide_unpack _).
Qed.
End server_pod_shape.

(** *** The pods of components *)

(** Changes of containers that keep their names and mounts. *)
Definition keeps_mounts (f : PodContainer → PodContainer) : Prop :=
  ∀ c, pc_Name (f c) = pc_Name c ∧ pc_VolumeMounts (f c) = pc_VolumeMounts c.

Lemma keeps_ok f names c : keeps_mounts f → container_ok names c → container_ok names (f c).
Proof. intros Hf [H1 H2]. destruct (Hf c) as [_ Hm]. split; by rewrite Hm. Qed.

Lemma keeps_names f (l : list PodContainer) : keeps_mounts f → pc_Name <$> (f <$> l) = pc_Name <$> l.
Proof. intros Hf. rewrite <- list_fmap_compose. apply list_fmap_ext. intros j c _. apply Hf. Qed.

Lemma shape_map i RV RP f g p :
  keeps_mounts f → keeps_mounts g → pod_shape i RV RP p →
  pod_shape i RV RP (pod_set_Containers (f <$> pod_Containers p) (pod_set_InitContainers (g <$> pod_InitContainers p) p)).
Proof.
  intros Hf Hg [Hv (c & rest & em & Hc & Hnm & Hm & Hsm & Hn & Hrest) Hnames]. destruct (Hf c) as [Hfn Hfm]. split; cbn; [done| |].
  - exists (f c), (f <$> rest), em. rewrite Hc, Hfn, Hfm. split_and!; [done..|].
    intros c'. rewrite elem_of_app, !list_elem_of_fmap. intros [(c0 & -> & H0)|(c0 & -> & H0)];
      (apply keeps_ok; [done|]; apply Hrest; apply elem_of_app; tauto).
  - rewrite fmap_app, !keeps_names by done. by rewrite <- fmap_app.
Qed.

Lemma keeps_id : keeps_mounts (λ c, c).
Proof. done. Qed.
Lemma keeps_env env : keeps_mounts (pc_add_env env).
Proof. done. Qed.
Lemma keeps_privileged n : keeps_mounts (setContainerPrivileged n).
Proof. intros c. unfold setContainerPrivileged. by case_match. Qed.

Lemma shape_weaken i RV RP p : pod_shape i (RV ++ []) (RP ++ []) p ↔ pod_shape i RV RP p.
Proof. by rewrite !app_nil_r. Qed.

Lemma pod_first_Returned f p : pod_Containers p ≠ [] → ∃ p', pod_first_container f p = Returned p'.
Proof. unfold pod_first_container. destruct (pod_Containers p); [done|eauto]. Qed.

Lemma shape_nonempty i RV RP p : pod_shape i RV RP p → pod_Containers p ≠ [].
Proof. intros [_ (c & rest & em & -> & _) _]. done. Qed.

(** A secret as a volume of the pod and a mount of the server. *)
Lemma shape_secret i RV RP secret p :
  pod_shape i RV RP p →
  ∃ p', proxy_pod secret p = Returned p' ∧
    pod_shape i (RV ++ match secret with Some t => [tls_VolumeName t] | None => [] end)
      (RP ++ match secret with Some t => [tls_MountPath t] | None => [] end) p'.
Proof.
  intros Hs. unfold proxy_pod. destruct secret as [t|]; [|exists p; rewrite !app_nil_r; by split].
  assert (pod_shape i (RV ++ [tls_VolumeName t]) RP (tls_AddVolume (Some t) p)) as Hs' by (by apply shape_add_volumes).
  destruct (pod_first_Returned (tls_AddVolumeMount (Some t)) _ (shape_nonempty _ _ _ _ Hs')) as [p' Hp].
  exists p'. split; [done|]. eapply shape_first; [exact Hp|done|..].
  - intros c. by split.
  - done.
  - intros m ->%list_elem_of_singleton. cbn. rewrite fmap_app. apply elem_of_app. right. by left.
Qed.

(** *** Masters *)

Lemma on_server_first f c rest : pc_Name c = YTServerContainerName → on_server f (c :: rest) = f c :: rest.
Proof. intros H. cbn. by rewrite bool_decide_eq_true_2. Qed.

Lemma shape_uploader i RV RP image proxy secretKey mounts p :
  spec_ok i → pod_shape i RV RP p → resolveLocationMounts i [LocationTypeMasterSnapshots; LocationTypeMasterChangelogs] = inr mounts →
  ConfigTemplateVolumeName ∈ pv_Name <$> pod_Volumes p →
  HydraPersistenceUploaderContainerName ∉ pc_Name <$> pod_InitContainers p ++ pod_Containers p →
  ∃ p', addHydraPersistenceUploaderToPodSpec image p proxy secretKey i = Returned p' ∧
    pod_shape i (RV ++ [SharedBinaries]) (RP ++ [SharedBinariesMountPoint]) p'.
Proof.
  intros Hi Hs Hres Hcfg Hfresh. unfold addHydraPersistenceUploaderToPodSpec. rewrite Hres.
  set (vol := mkPodVolume SharedBinaries (EmptyDirSource None)).
  pose proof (shape_add_volumes _ _ _ [vol] [SharedBinaries] _ Hs ltac:(solve_sublist)) as Hs1.
  assert (SharedBinaries ∈ volume_names i (pod_add_volumes [vol] p) ∧ ConfigTemplateVolumeName ∈ volume_names i (pod_add_volumes [vol] p)) as [Hn1 Hn2].
  { unfold volume_names. cbn. rewrite fmap_app, !elem_of_app. split; left; [right; by left|by left]. }
  pose proof (shape_add_container _ _ _ (uploader_container image proxy secretKey mounts) _ Hs1) as Hs2.
  eassert (pod_shape i _ RP _) as Hs3.
  { apply Hs2; [|exact Hfresh]. pose proof (resolveLocationMounts_inr _ _ _ Hres) as (_ & _ & _ & Hnd & Hpaths). split.
    - intros m. cbn. rewrite elem_of_cons, elem_of_app, list_elem_of_singleton. intros [->|[(m' & -> & Hm')%list_elem_of_fmap| ->]]; [done| |done].
      destruct (resolved_volume _ _ _ _ Hres Hm') as (mount & Hmount & Hnm). cbn. rewrite Hnm. apply volume_names_add.
      destruct Hs as [(ev & Hv & _) _ _]. unfold volume_names. rewrite Hv. apply (so_names i Hi) in Hmount. rewrite !elem_of_app in *. tauto.
    - cbn. rewrite fmap_app, <- list_fmap_compose. cbn. change (vm_MountPath ∘ vm_set_ReadOnly) with vm_MountPath.
      assert (∀ x, x ∈ vm_MountPath <$> mounts → x ∉ reserved_paths) as Hfree.
      { intros x (loc & Hloc & _ & <-)%Hpaths. by apply (so_free_locations i Hi). }
      assert (ConfigMountPoint ∈ reserved_paths ∧ SharedBinariesMountPoint ∈ reserved_paths) as [Hr1 Hr2] by (split; by apply (bool_decide_unpack _)).
      apply NoDup_cons. split.
      + rewrite elem_of_app, list_elem_of_singleton. intros [Hx|Hx]; [by eapply Hfree|done].
      + apply NoDup_app. split_and!; [done| |apply NoDup_singleton]. intros x Hx ->%list_elem_of_singleton. by eapply Hfree. }
  destruct (ps_server _ _ _ _ Hs) as (c & rest & em & Hc & Hnm & _).
  set (f := λ c, pc_add_mount (volumeMount SharedBinaries SharedBinariesMountPoint false) (pc_set_PostStart uploader_lifecycle c)).
  edestruct (pod_first_Returned f) as [p' Hp']; [by eapply shape_nonempty|]. exists p'. split.
  - revert Hp'. unfold pod_first_container.
    cbn [pod_add_containers pod_add_volumes pod_set_Containers pod_set_Volumes pod_Containers]. rewrite Hc. cbn [app].
    intros [= <-]. by rewrite on_server_first.
  - eapply (shape_first _ _ _ f [volumeMount SharedBinaries SharedBinariesMountPoint false]); [exact Hp'|exact Hs3|by split|done|].
    intros m ->%list_elem_of_singleton. cbn. rewrite fmap_app. apply elem_of_app. right. by left.
Qed.

(** *** Exec nodes *)

Lemma shape_sublist i RV RV' RP RP' p :
  sublist RV RV' → sublist RP RP' → pod_shape i RV RP p → pod_shape i RV' RP' p.
Proof.
  intros H1 H2 [(ev & Hv & Hsv) (c & rest & em & Hc & Hnm & Hm & Hsm & Hn & Hrest) Hnames]. split; [|exists c, rest, em|done].
  - exists ev. split; [done|]. by etrans.
  - split_and!; [done..| |done|done]. by etrans.
Qed.

Lemma host_to_container_keeps m : vm_Name (host_to_container m) = vm_Name m ∧ vm_MountPath (host_to_container m) = vm_MountPath m.
Proof. unfold host_to_container. by case_match. Qed.

Section exec_shape.
Context (decode : string → error + PodContainer) (n : baseExecNodePod) (i : InstanceSpec).
Context (Hi : spec_ok i) (Hspec : ens_InstanceSpec (ben_spec n) = i)
  (Hsecret : match ben_jobHTTPSCertificateSecret n with
             | Some t => tls_VolumeName t = JobHTTPSSecretVolumeName ∧ tls_MountPath t = JobHTTPSSecretMountPoint
             | None => True end).

(** Job resources can be added to the lists of the node. *)
Definition resources_addable (p : PodTemplate) : Prop :=
  match ens_JobResources (ben_spec n), pod_Containers p with
  | Some job, c :: _ => crg_Isolated (ben_criConfig n) = true ∨
      ((rr_Requests job = ∅ ∨ cr_Requests (pc_Resources c) ≠ None) ∧ (rr_Limits job = ∅ ∨ cr_Limits (pc_Resources c) ≠ None))
  | _, _ => True
  end.

Lemma addResourceList_Returned list new :
  (new = ∅ ∨ list ≠ None) → ∃ list', addResourceList list (resource_list new) = Returned list'.
Proof.
  unfold addResourceList, resource_list. intros H. destruct (decide (new = ∅)) as [|Hne]; [eauto|].
  rewrite decide_False by done. destruct list; [eauto|]. by destruct H.
Qed.

Lemma shape_job_resources RV RP p :
  pod_shape i RV RP p → resources_addable p →
  ∃ p', add_job_resources n p = Returned p' ∧ pod_shape i RV RP p' ∧ pod_Volumes p' = pod_Volumes p.
Proof.
  intros Hs Hr. unfold add_job_resources, resources_addable in *. destruct (ens_JobResources (ben_spec n)) as [job|]; [|eauto].
  destruct (ps_server _ _ _ _ Hs) as (c & rest & em & Hc & _). rewrite Hc in Hr |- *.
  destruct (crg_Isolated _) eqn:Hiso; [eauto|]. destruct Hr as [|[Hq Hl]]; [done|].
  destruct (addResourceList_Returned _ _ Hq) as [requests Hreq]. destruct (addResourceList_Returned _ _ Hl) as [limits Hlim].
  cbn [resources_of cr_Requests cr_Limits]. rewrite Hreq. cbn [mbind outcome_bind]. rewrite Hlim. cbn [mbind outcome_bind].
  eexists. split_and!; [done| |done].
  rewrite <- shape_weaken, app_nil_r. eapply (shape_first _ _ _ (pc_set_Resources (mkContainerResources requests limits)) []); [|exact Hs|..].
  - unfold pod_first_container. by rewrite Hc.
  - intros c0. cbn. by rewrite app_nil_r.
  - done.
  - by intros m ?%elem_of_nil.
Qed.

Lemma shape_tls_volume RV RP p :
  pod_shape i RV RP p →
  pod_shape i (RV ++ [JobHTTPSSecretVolumeName]) RP (tls_AddVolume (ben_jobHTTPSCertificateSecret n) p).
Proof.
  intros Hs. destruct (ben_jobHTTPSCertificateSecret n) as [t|]; cbn.
  - apply shape_add_volumes; [done|]. cbn. by rewrite (proj1 Hsecret).
  - destruct Hs as [(ev & Hv & Hsv) Hc Hn]. split; [|done..]. exists ev. split; [done|]. by apply sublist_inserts_r.
Qed.

(** Operator mounts of a container that runs the container runtime. *)
Definition runtime_mounts : list VolumeMount :=
  match ben_sidecarConfigMap n with
  | None => []
  | Some _ =>
      opt_mount (imagePullSecret n) DockerSecretVolumeName DockerSecretMountPath ++
      match cri_config_volume n with Some (volume, path) => [volumeMount volume path true] | None => [] end
  end.

Definition runtime_volumes : list PodVolume :=
  match ben_sidecarConfigMap n, cri_config_volume n with
  | Some configMapName, Some (volume, _) => [createConfigVolume volume configMapName None]
  | _, _ => []
  end.

Lemma addCRIServiceConfig_spec p c p' c' :
  addCRIServiceConfig n p c = (p', c') →
  p' = pod_add_volumes runtime_volumes p ∧ pc_Name c' = pc_Name c ∧ pc_VolumeMounts c' = pc_VolumeMounts c ++ runtime_mounts.
Proof.
  unfold addCRIServiceConfig, runtime_volumes, runtime_mounts.
  assert (∀ q, pod_add_volumes [] q = q) as Hnil.
  { intros []. unfold pod_add_volumes, pod_set_Volumes. cbn. by rewrite app_nil_r. }
  destruct (ben_sidecarConfigMap n); [|intros [= <- <-]; by rewrite Hnil, app_nil_r].
  unfold imagePullSecret. destruct (cri_config_volume n) as [[v m]|], (cri_ImagePullSecret _), (crg_MonitoringPort (ben_criConfig n) != 0%Z);
    cbn; intros [= <- <-]; cbn; rewrite ?Hnil, <- ?app_assoc, ?app_nil_r; done.
Qed.

Definition cri_volume_name : string := match cri_config_volume n with Some (volume, _) => volume | None => CRIOConfigVolumeName end.
Definition cri_mount_point : string := match cri_config_volume n with Some (_, path) => path | None => CRIOConfigMountPoint end.

Lemma runtime_sublists :
  sublist (pv_Name <$> runtime_volumes) [cri_volume_name] ∧
  sublist (vm_MountPath <$> runtime_mounts) [DockerSecretMountPath; cri_mount_point] ∧
  (∀ m, m ∈ runtime_mounts → vm_Name m ∈ opt_name (imagePullSecret n) DockerSecretVolumeName ++ (pv_Name <$> runtime_volumes)).
Proof.
  unfold runtime_volumes, runtime_mounts, cri_volume_name, cri_mount_point. destruct (ben_sidecarConfigMap n).
  2: { split_and!; [solve_sublist..|]. by intros m ?%elem_of_nil. }
  destruct (cri_config_volume n) as [[v mp]|], (imagePullSecret n); cbn;
    (split_and!; [solve_sublist..|]); intros m; rewrite ?elem_of_cons, ?elem_of_nil; intros Hm; naive_solver.
Qed.

Definition job_secret_mounts : list VolumeMount :=
  opt_mount (ben_jobHTTPSCertificateSecret n) JobHTTPSSecretVolumeName JobHTTPSSecretMountPoint.

Lemma job_secret_mount c :
  pc_Name (tls_AddVolumeMount (ben_jobHTTPSCertificateSecret n) c) = pc_Name c ∧
  pc_VolumeMounts (tls_AddVolumeMount (ben_jobHTTPSCertificateSecret n) c) = pc_VolumeMounts c ++ job_secret_mounts.
Proof.
  unfold job_secret_mounts. destruct (ben_jobHTTPSCertificateSecret n) as [t|]; cbn; [|by rewrite app_nil_r].
  destruct Hsecret as [-> ->]. done.
Qed.

Context (source : option FileObjectReference) (Hroot : sp_caRootBundle (ben_server n) = NewCARootBundle source).

Definition root_mounts : list VolumeMount := opt_mount source CARootBundleVolumeName CARootBundleMountPoint.

Lemma root_mount c :
  pc_Name (addCARootBundle (ben_server n) c) = pc_Name c ∧
  pc_VolumeMounts (addCARootBundle (ben_server n) c) = pc_VolumeMounts c ++ root_mounts.
Proof. unfold addCARootBundle, root_mounts. rewrite Hroot. destruct source; cbn; [done|by rewrite app_nil_r]. Qed.

(** The volumes that are there when the container runtime is added. *)
Definition volumes_there (p : PodTemplate) : Prop :=
  ∀ x, x ∈ [ConfigTemplateVolumeName; ConfigVolumeName] ++ opt_name source CARootBundleVolumeName ++
         opt_name (ben_jobHTTPSCertificateSecret n) JobHTTPSSecretVolumeName → x ∈ pv_Name <$> pod_Volumes p.

Lemma jobs_container_ok p c c0 :
  pc_VolumeMounts c0 = createVolumeMounts (is_VolumeMounts i) →
  pc_VolumeMounts c = host_to_container <$> (((pc_VolumeMounts c0 ++ runtime_mounts) ++ root_mounts) ++ job_secret_mounts) →
  volumes_there p → (∀ m, m ∈ is_VolumeMounts i → vm_Name m ∈ volume_names i p) →
  (∀ x, x ∈ opt_name (imagePullSecret n) DockerSecretVolumeName ++ (pv_Name <$> runtime_volumes) → x ∈ volume_names i p) →
  container_ok (volume_names i p) c.
Proof.
  intros Hc0 Hc Hthere Hsp Hrt. destruct (runtime_sublists) as (_ & Hrp & Hrn).
  set (extra := [createConfigTemplateVolumeMount; createConfigVolumeMount] ++ runtime_mounts ++ root_mounts ++ job_secret_mounts).
  assert (pc_VolumeMounts c = (host_to_container <$> is_VolumeMounts i) ++ (host_to_container <$> extra)) as Hm.
  { rewrite Hc, Hc0. unfold createVolumeMounts, extra. by rewrite <- !app_assoc, <- fmap_app. }
  assert (∀ l : list VolumeMount, vm_MountPath <$> (host_to_container <$> l) = vm_MountPath <$> l) as Hpaths.
  { intros l. rewrite <- list_fmap_compose. apply list_fmap_ext. intros j m _. apply host_to_container_keeps. }
  assert (sublist (vm_MountPath <$> extra) ([ConfigTemplateMountPoint; ConfigMountPoint] ++ [DockerSecretMountPath; cri_mount_point] ++
    [CARootBundleMountPoint] ++ [JobHTTPSSecretMountPoint])) as Hsub.
  { unfold extra, root_mounts, job_secret_mounts. rewrite !fmap_app, !opt_mount_paths.
    repeat apply sublist_app; [solve_sublist|done|apply opt_name_sublist..]. }
  assert (∀ m, m ∈ extra → vm_Name m ∈ volume_names i p) as Hnames.
  { intros m. unfold extra. rewrite !elem_of_app.
    intros [Hx|[Hx|[Hx%opt_mount_names|Hx%opt_mount_names]]]; [|by apply Hrt, Hrn|..];
      unfold volume_names; apply elem_of_app; left; apply Hthere; rewrite !elem_of_app; [|tauto..].
    left. rewrite !elem_of_cons in *. destruct Hx as [->|[->|[]%elem_of_nil]]; [by left|right; by left]. }
  eapply operator_container_ok; [exact Hm| | |..].
  - rewrite Hpaths. apply (so_paths i Hi).
  - rewrite Hpaths. eapply sublist_NoDup; [|exact Hsub]. unfold cri_mount_point, cri_config_volume.
    destruct (crg_Service (ben_criConfig n)); by apply (bool_decide_unpack _).
  - intros m (m' & -> & Hm')%list_elem_of_fmap. rewrite (proj2 (host_to_container_keeps m')). by apply (so_free_paths i Hi).
  - intros m (m' & -> & Hm')%list_elem_of_fmap. rewrite (proj2 (host_to_container_keeps m')).
    assert (vm_MountPath m' ∈ vm_MountPath <$> extra) as Hx by (by apply list_elem_of_fmap_2).
    eapply elem_of_sublist in Hx; [|exact Hsub]. revert Hx. unfold cri_mount_point, cri_config_volume.
    generalize (vm_MountPath m') as x. apply Forall_forall. destruct (crg_Service (ben_criConfig n)); by apply (bool_decide_unpack _).
  - intros m (m' & -> & Hm')%list_elem_of_fmap. rewrite (proj1 (host_to_container_keeps m')). by apply Hsp.
  - intros m (m' & -> & Hm')%list_elem_of_fmap. rewrite (proj1 (host_to_container_keeps m')). by apply Hnames.
Qed.

Lemma volumes_there_add vs p : volumes_there p → volumes_there (pod_add_volumes vs p).
Proof. intros H x Hx%H. cbn. rewrite fmap_app. apply elem_of_app. by left. Qed.

Lemma shape_pull_secret RV RP p :
  pod_shape i RV RP p → pod_shape i (RV ++ [DockerSecretVolumeName]) RP (dks_AddVolume (imagePullSecret n) p) ∧
  pv_Name <$> pod_Volumes (dks_AddVolume (imagePullSecret n) p) =
    (pv_Name <$> pod_Volumes p) ++ opt_name (imagePullSecret n) DockerSecretVolumeName.
Proof.
  intros Hs. unfold imagePullSecret. destruct (cri_ImagePullSecret _); cbn.
  - split; [apply shape_add_volumes; [done|solve_sublist]|by rewrite fmap_app].
  - rewrite app_nil_r. split; [|done]. eapply shape_sublist; [by apply sublist_inserts_r|done|done].
Qed.

Lemma spec_mount_named RV RP p m : pod_shape i RV RP p → m ∈ is_VolumeMounts i → vm_Name m ∈ volume_names i p.
Proof.
  intros [(ev & Hv & _) _ _] Hm%(so_names i Hi). unfold volume_names. rewrite Hv, !elem_of_app in *. tauto.
Qed.

(** The runtime in a container of its own. *)
Lemma shape_cri_sidecar RV RP p :
  pod_shape i RV RP p → volumes_there p →
  (∀ x, x ∈ opt_name (imagePullSecret n) DockerSecretVolumeName → x ∈ pv_Name <$> pod_Volumes p) →
  JobsContainerName ∉ pc_Name <$> pod_InitContainers p ++ pod_Containers p →
  ∃ p', addCRIServiceSidecar n p = Returned p' ∧ pod_shape i (RV ++ [cri_volume_name]) RP p'.
Proof.
  intros Hs Hthere Hpull Hfresh. unfold addCRIServiceSidecar. destruct (ps_server _ _ _ _ Hs) as (node & rest & em & Hc & _).
  rewrite Hc. destruct (cri_GetCommand _ _) as [command args]. rewrite Hspec.
  set (c0 := mkPodContainer JobsContainerName _ _ _ _ _ _ _ _ _ _ _ _).
  destruct (addCRIServiceConfig n p c0) as [p1 c1] eqn:Hcfg. apply addCRIServiceConfig_spec in Hcfg as (-> & Hn1 & Hm1).
  eexists. split; [done|]. apply shape_add_container.
  - apply shape_add_volumes; [done|]. apply runtime_sublists.
  - eapply (jobs_container_ok _ _ c0); [done| |by apply volumes_there_add|..].
    + cbn [pc_set_Resources pc_set_VolumeMounts pc_VolumeMounts]. rewrite (proj2 (job_secret_mount _)), (proj2 (root_mount _)), Hm1. done.
    + intros m Hm. apply volume_names_add. by eapply spec_mount_named.
    + intros x. rewrite elem_of_app. intros [Hx|Hx]; unfold volume_names; apply elem_of_app; left; cbn; rewrite fmap_app; apply elem_of_app; auto.
  - cbn [pc_set_Resources pc_set_VolumeMounts pc_Name]. rewrite (proj1 (job_secret_mount _)), (proj1 (root_mount _)), Hn1. done.
Qed.

(** The runtime in the container of the node. *)
Lemma shape_cri_node RV RP p node rest :
  pod_shape i RV RP p → volumes_there p →
  (∀ x, x ∈ opt_name (imagePullSecret n) DockerSecretVolumeName → x ∈ pv_Name <$> pod_Volumes p) →
  pod_Containers p = node :: rest →
  ∃ p1 node1, addCRIServiceConfig n p node = (p1, node1) ∧
    pod_shape i (RV ++ [cri_volume_name]) (RP ++ [DockerSecretMountPath; cri_mount_point; JobHTTPSSecretMountPoint])
      (pod_set_Containers (tls_AddVolumeMount (ben_jobHTTPSCertificateSecret n) node1 :: rest) p1).
Proof.
  intros Hs Hthere Hpull Hc. destruct (addCRIServiceConfig n p node) as [p1 node1] eqn:Hcfg. exists p1, node1. split; [done|].
  set (f := λ c, tls_AddVolumeMount (ben_jobHTTPSCertificateSecret n) (addCRIServiceConfig n p c).2).
  pose proof (addCRIServiceConfig_spec _ _ _ _ Hcfg) as (-> & _ & _). destruct (runtime_sublists) as (Hrv & Hrp & Hrn).
  eapply (shape_first _ _ _ f (runtime_mounts ++ job_secret_mounts) _ (pod_add_volumes runtime_volumes p)).
  - unfold pod_first_container. cbn [pod_add_volumes pod_set_Volumes pod_Containers]. rewrite Hc. unfold f. by rewrite Hcfg.
  - by apply shape_add_volumes.
  - intros c. unfold f. destruct (addCRIServiceConfig n p c) as [p2 c2] eqn:H2. cbn [snd].
    apply addCRIServiceConfig_spec in H2 as (_ & Hn2 & Hm2). rewrite (proj1 (job_secret_mount _)), (proj2 (job_secret_mount _)), Hn2, Hm2.
    by rewrite app_assoc.
  - rewrite fmap_app. change [DockerSecretMountPath; cri_mount_point; JobHTTPSSecretMountPoint] with
      ([DockerSecretMountPath; cri_mount_point] ++ [JobHTTPSSecretMountPoint]). apply sublist_app; [done|].
    unfold job_secret_mounts. rewrite opt_mount_paths. apply opt_name_sublist.
  - intros m. cbn. rewrite fmap_app, !elem_of_app. intros [Hm%Hrn|Hm%opt_mount_names].
    + apply elem_of_app in Hm as [Hm%Hpull|Hm]; tauto.
    + left. apply Hthere. rewrite !elem_of_app. tauto.
Qed.

Lemma shape_cri RV RP p :
  pod_shape i RV RP p → volumes_there p → JobsContainerName ∉ pc_Name <$> pod_InitContainers p ++ pod_Containers p →
  ∃ p', add_cri_service n p = Returned p' ∧
    pod_shape i (RV ++ [DockerSecretVolumeName; cri_volume_name])
      (RP ++ [DockerSecretMountPath; cri_mount_point; JobHTTPSSecretMountPoint]) p'.
Proof.
  intros Hs Hthere Hfresh. unfold add_cri_service. destruct (shape_pull_secret _ _ _ Hs) as [Hs1 Hv1].
  assert (volumes_there (dks_AddVolume (imagePullSecret n) p)) as Ht1.
  { intros x Hx%Hthere. rewrite Hv1. apply elem_of_app. by left. }
  assert (∀ x, x ∈ opt_name (imagePullSecret n) DockerSecretVolumeName →
    x ∈ pv_Name <$> pod_Volumes (dks_AddVolume (imagePullSecret n) p)) as Hpull.
  { intros x Hx. rewrite Hv1. apply elem_of_app. by right. }
  change [DockerSecretVolumeName; cri_volume_name] with ([DockerSecretVolumeName] ++ [cri_volume_name]). rewrite app_assoc.
  destruct (crg_Isolated (ben_criConfig n)).
  - destruct (shape_cri_sidecar _ _ _ Hs1 Ht1 Hpull) as (p' & -> & Hs').
    { destruct (imagePullSecret n); exact Hfresh. }
    cbn [mbind outcome_bind]. eexists. split; [done|]. eapply shape_sublist; [done|by apply sublist_inserts_r|].
    pose proof (shape_map _ _ _ _ _ _ (keeps_env (cri_tools_env n)) keeps_id Hs') as Hm. rewrite list_fmap_id in Hm. by destruct p'.
  - destruct (ps_server _ _ _ _ Hs1) as (node & rest & em & Hc & _). rewrite Hc.
    destruct (shape_cri_node _ _ _ _ _ Hs1 Ht1 Hpull Hc) as (p1 & node1 & -> & Hs').
    cbn [mbind outcome_bind mret outcome_ret]. eexists. split; [done|].
    pose proof (shape_map _ _ _ _ _ _ (keeps_env (cri_tools_env n)) keeps_id Hs') as Hm. rewrite list_fmap_id in Hm. by destruct p1.
Qed.

Lemma tls_AddVolume_there p :
  (∀ x, x ∈ [ConfigTemplateVolumeName; ConfigVolumeName] ++ opt_name source CARootBundleVolumeName → x ∈ pv_Name <$> pod_Volumes p) →
  volumes_there (tls_AddVolume (ben_jobHTTPSCertificateSecret n) p).
Proof.
  intros H x. rewrite app_assoc, elem_of_app. rewrite (tls_AddVolume_names _ _ JobHTTPSSecretVolumeName).
  - intros [Hx%H|Hx]; apply elem_of_app; tauto.
  - destruct (ben_jobHTTPSCertificateSecret n); [|done]. apply Hsecret.
Qed.

Lemma shape_exec RV RP p :
  pod_shape i RV RP p → length (pod_Containers p) = 1%nat →
  ens_InitContainers (ben_spec n) = [] → ens_Sidecars (ben_spec n) = [] → resources_addable p →
  JobsContainerName ∉ pc_Name <$> pod_InitContainers p ++ pod_Containers p →
  (∀ x, x ∈ [ConfigTemplateVolumeName; ConfigVolumeName] ++ opt_name source CARootBundleVolumeName → x ∈ pv_Name <$> pod_Volumes p) →
  ∃ p', doBuildBase_pod decode n p = Returned p' ∧
    pod_shape i (RV ++ [JobHTTPSSecretVolumeName; DockerSecretVolumeName; cri_volume_name])
      (RP ++ [DockerSecretMountPath; cri_mount_point; JobHTTPSSecretMountPoint]) p'.
Proof.
  intros Hs Hone Hinit Hside Hres Hfresh Hthere. unfold doBuildBase_pod. rewrite bool_decide_eq_true_2 by done. cbn [negb].
  rewrite Hinit, Hside. cbn [AddInitContainersToPodSpec decode_all AddSidecarsToPodSpec mbind outcome_bind mret outcome_ret app].
  set (q := pod_set_Containers _ _).
  pose proof (shape_map _ _ _ _ _ _ (keeps_privileged n) (keeps_privileged n) Hs) as Hq. fold q in Hq.
  assert (pod_shape i RV RP q) as Hq' by exact Hq.
  assert (pod_Volumes q = pod_Volumes p) as Hvq by done.
  assert (pc_Name <$> pod_InitContainers q ++ pod_Containers q = pc_Name <$> pod_InitContainers p ++ pod_Containers p) as Hnq.
  { cbn. rewrite !fmap_app. rewrite !keeps_names by apply keeps_privileged. done. }
  destruct (shape_job_resources _ _ q Hq') as (p1 & Hp1 & Hs1 & Hv1).
  { revert Hres. unfold resources_addable, q. destruct (ens_JobResources _); [|done]. cbn. destruct (pod_Containers p) as [|c l]; [done|].
    cbn. unfold setContainerPrivileged. destruct (pc_Privileged c); exact (λ h, h). }
  rewrite Hp1. cbn [mbind outcome_bind].
  assert (pc_Name <$> pod_InitContainers p1 ++ pod_Containers p1 = pc_Name <$> pod_InitContainers q ++ pod_Containers q) as Hn1.
  { revert Hp1. unfold add_job_resources. destruct (ens_JobResources _); [|by intros [= <-]].
    destruct (pod_Containers q) as [|c l] eqn:Hcq; [done|]. destruct (crg_Isolated _); [intros [= <-]; by rewrite Hcq|].
    intros H. apply outcome_bind_Returned in H as (r1 & _ & H). apply outcome_bind_Returned in H as (r2 & _ & H). injection H as <-.
    cbn. by rewrite !fmap_app. }
  pose proof (shape_tls_volume _ _ _ Hs1) as Hs2.
  assert (volumes_there (tls_AddVolume (ben_jobHTTPSCertificateSecret n) p1)) as Ht2.
  { apply tls_AddVolume_there. rewrite Hv1, Hvq. exact Hthere. }
  change [JobHTTPSSecretVolumeName; DockerSecretVolumeName; cri_volume_name] with
    ([JobHTTPSSecretVolumeName] ++ [DockerSecretVolumeName; cri_volume_name]). rewrite app_assoc.
  destruct (crg_Service (ben_criConfig n) != CRIServiceNone).
  - apply shape_cri; [done|done|]. rewrite (proj1 (tls_AddVolume_keeps _ _)), (proj2 (tls_AddVolume_keeps _ _)), Hn1, Hnq. done.
  - destruct (pod_first_Returned (tls_AddVolumeMount (ben_jobHTTPSCertificateSecret n)) _ (shape_nonempty _ _ _ _ Hs2)) as [p' Hp'].
    exists p'. split; [done|].
    eapply (shape_sublist _ (RV ++ [JobHTTPSSecretVolumeName]) _ (RP ++ [JobHTTPSSecretMountPoint])); [by apply sublist_inserts_r|..].
    + apply sublist_app; [done|]. solve_sublist.
    + eapply shape_first; [exact Hp'|exact Hs2|apply job_secret_mount|..].
      * unfold job_secret_mounts. rewrite opt_mount_paths. apply opt_name_sublist.
      * intros m Hm%opt_mount_names. apply Ht2. rewrite !elem_of_app. tauto.
Qed.
End exec_shape.

(** *** All components *)

Inductive component_kind :=
  | PlainServer
  | HTTPProxyServer (httpsSecret : option string)
  | RPCProxyServer (tlsSecret : option string)
  | YQLAgentServer (secretName : string) (execSecretName : option string)
  | MasterServer (mastersSpec : MastersSpec) (proxy uploaderSecret : string)
  | ExecNodeServer (n : baseExecNodePod).

Definition component_pod (decode : string → error + PodContainer) (kind : component_kind) (commonSpec : CommonSpec)
    (podSpec : PodTemplate) : outcome PodTemplate :=
  match kind with
  | PlainServer => mret podSpec
  | HTTPProxyServer secret => proxy_pod (NewTLSSecretOrNil secret HTTPSSecretVolumeName HTTPSSecretMountPoint) podSpec
  | RPCProxyServer secret => proxy_pod (NewTLSSecretOrNil secret RPCProxySecretVolumeName RPCProxySecretMountPoint) podSpec
  | YQLAgentServer secretName execSecretName => yql_agent_pod secretName execSecretName commonSpec podSpec
  | MasterServer mastersSpec proxy uploaderSecret => master_pod decode mastersSpec proxy uploaderSecret podSpec
  | ExecNodeServer n => doBuildBase_pod decode n podSpec
  end.

(** When the additions of a component succeed: masters can resolve the locations of the uploader,
    exec nodes deliver no logs and have resource lists where job resources are added; the manifest
    gives masters no sidecars and exec nodes neither sidecars nor init containers. *)
Definition kind_ready (s : serverPod) (i : InstanceSpec) (kind : component_kind) : Prop :=
  match kind with
  | MasterServer m _ _ =>
      ms_InstanceSpec m = i ∧ ms_Sidecars m = [] ∧
      (HydraPersistenceUploaderImage m = None ∨
       ∃ mounts, resolveLocationMounts i [LocationTypeMasterSnapshots; LocationTypeMasterChangelogs] = inr mounts)
  | ExecNodeServer n =>
      ben_server n = s ∧ ens_InstanceSpec (ben_spec n) = i ∧
      ben_jobHTTPSCertificateSecret n =
        NewTLSSecretOrNil (ens_JobHTTPSCertificateSecret (ben_spec n)) JobHTTPSSecretVolumeName JobHTTPSSecretMountPoint ∧
      ens_InitContainers (ben_spec n) = [] ∧ ens_Sidecars (ben_spec n) = [] ∧ sp_timbertruck s = None ∧
      match ens_JobResources (ben_spec n) with
      | None => True
      | Some job => crg_Isolated (ben_criConfig n) = true ∨
          ((rr_Requests job = ∅ ∨ rr_Requests (is_Resources i) ≠ ∅) ∧ (rr_Limits job = ∅ ∨ rr_Limits (is_Resources i) ≠ ∅))
      end
  | _ => True
  end.

Lemma shape_ok_server i RVx RPx p :
  spec_ok i → pod_shape i (server_volumes ++ RVx) (server_paths ++ RPx) p →
  bool_decide (NoDup (server_volumes ++ RVx)) && bool_decide (NoDup (server_paths ++ RPx)) &&
  bool_decide (Forall (λ x, x ∈ reserved_volumes) RVx) && bool_decide (Forall (λ x, x ∈ reserved_paths) RPx) = true →
  pod_ok i p.
Proof.
  rewrite !andb_true_iff, !bool_decide_eq_true, !Forall_forall. intros Hi Hs (((H1 & H2) & H3) & H4).
  eapply shape_ok; [done|exact Hs|done|done|..].
  - intros x [Hx|Hx]%elem_of_app; [|by apply H3]. unfold reserved_volumes. apply elem_of_app. by left.
  - intros x [Hx|Hx]%elem_of_app; [|by apply H4]. unfold reserved_paths. apply elem_of_app. by left.
Qed.

Section component_pods.
Context (decode : string → error + PodContainer) (l : Labeller) (commonSpec : CommonSpec) (commonPodSpec : PodSpec)
  (i : InstanceSpec) (binaryPath : string) (generators : list string) (delivers : bool) (port : Z) (optFuncs : list Option).

Abbreviation s := (newServer l commonSpec commonPodSpec i binaryPath generators delivers port optFuncs).

Lemma yql_pod_shape RV RP secretName execSecretName p :
  pod_shape i RV RP p → ∃ p', yql_agent_pod secretName execSecretName commonSpec p = Returned p' ∧
    pod_shape i (RV ++ [YQLAgentTokenVolumeName; YQLExecTokenVolumeName])
      (RP ++ [path_Join2 SecretsMountBase YQLAgentTokenVolumeName; path_Join2 SecretsMountBase YQLExecTokenVolumeName]) p'.
Proof.
  intros Hs. unfold yql_agent_pod. set (tokens := (_ :: _) : list (string * string)). cbv zeta.
  set (vs := (λ t, GetTokenVolume t.2 t.1) <$> tokens). set (f := λ c, pc_add_env _ _).
  pose proof (shape_add_volumes _ _ _ vs [YQLAgentTokenVolumeName; YQLExecTokenVolumeName] _ Hs) as Hs1.
  destruct (pod_first_Returned f (pod_add_volumes vs p)) as [p' Hp']; [apply (shape_nonempty _ _ _ _ Hs)|]. exists p'. split; [done|].
  eapply (shape_first _ _ _ f ((λ t, GetTokenVolumeMount t.1) <$> tokens)); [exact Hp'|apply Hs1|..].
  - unfold vs, tokens. destruct execSecretName; solve_sublist.
  - by intros c.
  - unfold tokens. destruct execSecretName; solve_sublist.
  - intros m (t & -> & Ht)%list_elem_of_fmap. change (t.1 ∈ pv_Name <$> (pod_Volumes p ++ vs)). rewrite fmap_app. apply elem_of_app. right.
    apply list_elem_of_fmap. exists (GetTokenVolume t.2 t.1). split; [done|]. unfold vs. by apply (list_elem_of_fmap_2 (λ t, GetTokenVolume t.2 t.1)).
Qed.

Lemma master_pod_shape m proxy uploaderSecret p :
  spec_ok i → pod_shape i server_volumes server_paths p → kind_ready s i (MasterServer m proxy uploaderSecret) →
  ConfigTemplateVolumeName ∈ pv_Name <$> pod_Volumes p →
  HydraPersistenceUploaderContainerName ∉ pc_Name <$> pod_InitContainers p ++ pod_Containers p →
  ∃ p', master_pod decode m proxy uploaderSecret p = Returned p' ∧
    pod_shape i (server_volumes ++ [SharedBinaries]) (server_paths ++ [SharedBinariesMountPoint]) p'.
Proof.
  intros Hi Hs (Hm & Hside & Hup) Hcfg Hfresh. unfold master_pod.
  destruct (pod_first_Returned (pc_add_env getNativeClientConfigEnv) _ (shape_nonempty _ _ _ _ Hs)) as [p1 Hp1]. rewrite Hp1.
  assert (pod_Volumes p1 = pod_Volumes p ∧ pc_Name <$> pod_InitContainers p1 ++ pod_Containers p1 =
    pc_Name <$> pod_InitContainers p ++ pod_Containers p) as [Hv1 Hn1].
  { revert Hp1. unfold pod_first_container. destruct (pod_Containers p) as [|c rest] eqn:Hc; [done|]. intros [= <-]. cbn. by rewrite !fmap_app. }
  assert (pod_shape i server_volumes server_paths p1) as Hs1.
  { rewrite <- shape_weaken, app_nil_r. eapply (shape_first _ _ _ _ []); [exact Hp1|done| |done|by intros ? ?%elem_of_nil].
    intros c. cbn. by rewrite app_nil_r. }
  cbn [mbind outcome_bind]. rewrite Hside.
  assert (∀ q RV RP, pod_shape i RV RP q → pod_shape i RV RP (add_host_affinity (ms_HostAddressLabel m) (ms_HostAddresses m) q)) as Haff.
  { intros q RV RP [H1 H2 H3]. unfold add_host_affinity. case_match; by split. }
  destruct (HydraPersistenceUploaderImage m) as [image|].
  - destruct Hup as [|[mounts Hres]]; [done|]. rewrite Hm.
    destruct (shape_uploader i _ _ image proxy uploaderSecret mounts p1 Hi Hs1 Hres) as (p2 & -> & Hs2);
      [by rewrite Hv1|by rewrite Hn1|]. eexists. split; [done|]. by apply Haff.
  - eexists. split; [done|]. apply Haff.
    apply (shape_sublist _ server_volumes _ server_paths); [by apply sublist_inserts_r..|done].
Qed.

(** C8. The pods the operator builds from its own containers are well formed.  Take a server whose
    volumes and mounts have distinct names and paths, refer to each other and stay clear of the names
    the operator keeps for itself ([spec_ok]); whose certificate bundles, if any, are of a kind the
    operator knows; whose component has a label; and that has a configuration.  Then its pod is built.
    So is the pod with what the component adds (the certificate of HTTP and RPC proxies, the tokens of
    YQL agents, the uploader and the host affinity of masters, the container runtime, the image pull
    secret and the certificate of jobs of exec nodes), under [kind_ready]: the sidecars that the
    manifest gives masters and the sidecars and init containers it gives exec nodes are left out (the
    lists are empty); the snapshot and changelog locations of masters with an uploader lie on their
    mounts; exec nodes deliver no logs (one that does panics here, [accepted_exec_node_panics]) and,
    where job resources are added to the server container, it has resource lists to add them to.  In
    both pods the names of volumes and of containers are distinct, every mount of every container is
    of a volume of the pod or of a claim, and no container mounts two volumes at one path. *)
Theorem component_pods_well_formed label kind :
  spec_ok i → known_bundle (cs_CARootBundle commonSpec) → known_bundle (cs_CABundle commonSpec) →
  GetFullComponentLabel l = Some label → generators ≠ [] → kind_ready s i kind →
  ∃ p p', rebuildPodSpec s = Returned p ∧ component_pod decode kind commonSpec p = Returned p' ∧ pod_ok i p ∧ pod_ok i p'.
Proof.
  intros Hi Hroot Hca Hl Hg Hready.
  destruct (rebuild_spec l commonSpec commonPodSpec i binaryPath generators delivers port optFuncs Hroot Hca label Hl Hg)
    as (p & file & cmd & Hp & Hc & Hinit & Hv & _).
  pose proof (server_shape _ _ _ _ _ _ _ _ _ Hi Hroot Hca p file cmd label Hc Hinit Hv) as Hs. exists p.
  assert (pod_ok i p) as Hok.
  { eapply (shape_ok_server _ [] []); [done|by rewrite !app_nil_r|]. vm_compute. done. }
  assert (∀ secret volume path, bool_decide (NoDup (server_volumes ++ [volume])) && bool_decide (NoDup (server_paths ++ [path])) &&
    bool_decide (Forall (λ x, x ∈ reserved_volumes) [volume]) && bool_decide (Forall (λ x, x ∈ reserved_paths) [path]) = true →
    ∃ p', proxy_pod (NewTLSSecretOrNil secret volume path) p = Returned p' ∧ pod_ok i p') as Hproxy.
  { intros secret volume path Hb. destruct (shape_secret _ _ _ (NewTLSSecretOrNil secret volume path) _ Hs) as (p' & Hp' & Hs').
    exists p'. split; [done|]. eapply shape_ok_server; [done| |exact Hb]. eapply shape_sublist; [..|exact Hs'];
      (apply sublist_app; [done|destruct secret; solve_sublist]). }
  assert (pc_Name <$> pod_InitContainers p ++ pod_Containers p =
    [PrepareLocationsContainerName; PostprocessConfigContainerName; YTServerContainerName] ++
    match sp_timbertruck s with Some _ => [TimbertruckContainerName] | None => [] end) as Hnames.
  { rewrite Hc, Hinit, fmap_app. unfold init_containers, setContainerResources. cbn [fmap list_fmap].
    rewrite addTlsSecretMount_name, !addCARootBundle_name.
    destruct (sp_timbertruck s) as [[d mounts]|]; cbn [fmap list_fmap]; rewrite ?addCARootBundle_name; done. }
  assert (∀ x, x ∈ [ConfigTemplateVolumeName; ConfigVolumeName] ++ opt_name (sp_caRootBundle s) CARootBundleVolumeName →
    x ∈ pv_Name <$> pod_Volumes p) as Hthere.
  { intros x Hx. rewrite Hv. unfold pod_volume_names. rewrite !elem_of_app in *. tauto. }
  destruct kind as [|secret|secret|secretName exec|m proxy uploaderSecret|n]; cbn [component_pod].
  - by exists p.
  - destruct (Hproxy secret HTTPSSecretVolumeName HTTPSSecretMountPoint) as (p' & ? & ?); [by vm_compute|]. by exists p'.
  - destruct (Hproxy secret RPCProxySecretVolumeName RPCProxySecretMountPoint) as (p' & ? & ?); [by vm_compute|]. by exists p'.
  - destruct (yql_pod_shape _ _ secretName exec _ Hs) as (p' & Hp' & Hs'). exists p'. split_and!; [done..|].
    eapply shape_ok_server; [done|exact Hs'|by vm_compute].
  - destruct (master_pod_shape m proxy uploaderSecret p Hi Hs Hready) as (p' & Hp' & Hs').
    + apply Hthere. by left.
    + rewrite Hnames. destruct (sp_timbertruck s); by apply (bool_decide_unpack _).
    + exists p'. split_and!; [done..|]. eapply shape_ok_server; [done|exact Hs'|by vm_compute].
  - destruct Hready as (Hsrv & Hspec & Hsec & Hi0 & Hs0 & Htt & Hjob). rewrite Htt in Hc, Hnames.
    destruct (shape_exec decode n i Hi Hspec) with (source := cs_CARootBundle commonSpec) (p := p) (RV := server_volumes) (RP := server_paths)
      as (p' & Hp' & Hs'); try done.
    + rewrite Hsec. unfold NewTLSSecretOrNil. by destruct (ens_JobHTTPSCertificateSecret _).
    + by rewrite Hsrv.
    + by rewrite Hc.
    + unfold resources_addable. destruct (ens_JobResources _) as [job|]; [|done]. rewrite Hc.
      assert (pc_Resources (addTlsSecretMount s (addCARootBundle s (server_container s file))) = resources_of (is_Resources i)) as ->.
      { unfold addTlsSecretMount, addCARootBundle. by destruct (sp_busClientSecret s), (sp_busServerSecret s), (sp_caBundle s), (sp_caRootBundle s). }
      unfold resources_of, resource_list. cbn. destruct Hjob as [|[H1 H2]]; [by left|]. right.
      split; [destruct H1; [by left|right]|destruct H2; [by left|right]]; by rewrite decide_False.
    + rewrite Hnames. by apply (bool_decide_unpack _).
    + intros x Hx. apply Hthere. revert Hx. change (sp_caRootBundle s) with (NewCARootBundle (cs_CARootBundle commonSpec)).
      by destruct (cs_CARootBundle commonSpec).
    + exists p'. split_and!; [done..|]. eapply shape_ok_server; [done|exact Hs'|]. unfold cri_volume_name, cri_mount_point, cri_config_volume.
      destruct (crg_Service (ben_criConfig n)); by vm_compute.
Qed.
End component_pods.

(** ** Files named by configurations *)

(** In the first container, the server, [file] lies on a volume with the given source, and no other
    mount hides it. *)
Definition shows (p : PodTemplate) (file : string) (source : VolumeSource) : Prop :=
  ∃ c rest m v, pod_Containers p = c :: rest ∧ pc_Name c = YTServerContainerName ∧
    FindVolumeMountForPath (pc_VolumeMounts c) file = Some m ∧ vm_SubPath m = "" ∧ vm_SubPathExpr m = "" ∧
    v ∈ pod_Volumes p ∧ pv_Name v = vm_Name m ∧ pv_Source v = source.

(** A list of mounts in which a later one does not cover the file. *)
Lemma find_last_mount (before after : list VolumeMount) m file :
  covers file m = true → forallb (λ x, negb (covers file x)) after = true →
  FindVolumeMountForPath (before ++ m :: after) file = Some m.
Proof.
  intros Hm Ha. apply find_uncovered; [|done]. intros later Hl. rewrite forallb_forall in Ha.
  apply list_elem_of_In in Hl. apply Ha in Hl. by apply negb_true_iff.
Qed.

Section mounted_files.
Context (l : Labeller) (commonSpec : CommonSpec) (commonPodSpec : PodSpec) (i : InstanceSpec) (binaryPath : string)
  (generators : list string) (delivers : bool) (port : Z) (optFuncs : list Option).

Abbreviation s := (newServer l commonSpec commonPodSpec i binaryPath generators delivers port optFuncs).

(** C9. Every certificate and key file that the configuration of a server names is in its container.
    The keyring of the configuration (getMountKeyring) has the server and the client certificate with
    their keys exactly when the transport of the component, or else the common one, has the secret, and
    the bundle of trusted certificates: each of these files lies on a mount of that very secret or
    bundle in the server container, and no other mount of the container hides it. *)
Theorem keyring_files_mounted label :
  known_bundle (cs_CARootBundle commonSpec) → known_bundle (cs_CABundle commonSpec) →
  GetFullComponentLabel l = Some label → generators ≠ [] →
  ∃ p, rebuildPodSpec s = Returned p ∧
    let transport := keyringTransport commonSpec (is_NativeTransport i) in
    let keyring := getMountKeyring commonSpec (is_NativeTransport i) in
    (∀ blob, blob ∈ [kr_BusServerCertificate keyring; kr_BusServerPrivateKey keyring] →
       match rpct_TLSSecret transport with
       | None => blob = None
       | Some name => ∃ pem, blob = Some pem ∧ shows p (pem_FileName pem) (SecretSource name [])
       end) ∧
    (∀ blob, blob ∈ [kr_BusClientCertificate keyring; kr_BusClientPrivateKey keyring] →
       match rpct_TLSClientSecret transport with
       | None => blob = None
       | Some name => ∃ pem, blob = Some pem ∧ shows p (pem_FileName pem) (SecretSource name [])
       end) ∧
    ∃ ca, kr_BusCABundle keyring = Some ca ∧
      match cs_CABundle commonSpec with
      | None => pem_FileName ca = DefaultCABundlePath
      | Some bundle => ∃ v, cab_volumes (mkCABundle bundle CABundleVolumeName CABundleMountPoint CABundleFileName) = [v] ∧
          shows p (pem_FileName ca) (pv_Source v)
      end.
Proof.
  intros Hroot Hca Hl Hg.
  destruct (rebuild_spec l commonSpec commonPodSpec i binaryPath generators delivers port optFuncs Hroot Hca label Hl Hg)
    as (p & file & cmd & Hp & Hc & _ & _ & Hvs).
  exists p. split; [done|]. cbv zeta.
  set (c := addTlsSecretMount s (addCARootBundle s (server_container s file))) in Hc.
  set (base := pc_VolumeMounts (addCARootBundle s (server_container s file))).
  set (transport := keyringTransport commonSpec (is_NativeTransport i)).
  assert (pc_Name c = YTServerContainerName) as Hn by (unfold c; by rewrite addTlsSecretMount_name, addCARootBundle_name).
  assert (sp_busServerSecret s = NewTLSSecretOrNil (rpct_TLSSecret transport) BusServerSecretVolumeName BusServerSecretMountPoint ∧
          sp_busClientSecret s = NewTLSSecretOrNil (rpct_TLSClientSecret transport) BusClientSecretVolumeName BusClientSecretMountPoint)
    as [Hsrv Hcli].
  { unfold newServer, newServerConfigured, transport, keyringTransport. cbn [sp_busServerSecret sp_busClientSecret].
    destruct (is_NativeTransport i); [done|]. by destruct (cs_NativeTransport commonSpec). }
  assert (pc_VolumeMounts c = base ++ opt_mount (cs_CABundle commonSpec) CABundleVolumeName CABundleMountPoint ++
    opt_mount (rpct_TLSSecret transport) BusServerSecretVolumeName BusServerSecretMountPoint ++
    opt_mount (rpct_TLSClientSecret transport) BusClientSecretVolumeName BusClientSecretMountPoint) as Hm.
  { unfold c. rewrite addTlsSecretMount_mounts, Hsrv, Hcli by done. fold base. change (sp_caBundle s) with (NewCABundle (cs_CABundle commonSpec)).
    destruct (cs_CABundle commonSpec), (rpct_TLSSecret transport), (rpct_TLSClientSecret transport); done. }
  unfold certificate_volumes in Hvs. rewrite Hsrv, Hcli in Hvs.
  assert (∀ m v before after f source, pc_VolumeMounts c = before ++ m :: after → covers f m = true →
    forallb (λ x, negb (covers f x)) after = true → vm_SubPath m = "" → vm_SubPathExpr m = "" →
    v ∈ pod_Volumes p → pv_Name v = vm_Name m → pv_Source v = source → shows p f source) as Hshow.
  { intros m v before after f source Hmounts Hcov Hafter H1 H2 Hin Hnm Hsrc. eexists c, _, m, v. split_and!; [exact Hc|done| |done..].
    rewrite Hmounts. by apply find_last_mount. }
  unfold getMountKeyring. fold transport. cbv zeta. cbn [kr_BusServerCertificate kr_BusServerPrivateKey kr_BusClientCertificate
    kr_BusClientPrivateKey kr_BusCABundle].
  split_and!.
  - intros blob. destruct (rpct_TLSSecret transport) as [name|]; cbn [fmap option_fmap option_map]; rewrite !elem_of_cons, elem_of_nil;
      [|by intros [->|[->|[]]]].
    assert (mkPodVolume BusServerSecretVolumeName (SecretSource name []) ∈ pod_Volumes p) as Hin.
    { apply Hvs. rewrite !elem_of_app. right; right; left. by left. }
    intros [->|[->|[]]]; (eexists; split; [done|]);
      (eapply (Hshow (volumeMount BusServerSecretVolumeName BusServerSecretMountPoint true)); [|..|exact Hin|done|done];
       [rewrite Hm, app_assoc; done|by vm_compute|destruct (rpct_TLSClientSecret transport); by vm_compute|done|done]).
  - intros blob. destruct (rpct_TLSClientSecret transport) as [name|]; cbn [fmap option_fmap option_map]; rewrite !elem_of_cons, elem_of_nil;
      [|by intros [->|[->|[]]]].
    assert (mkPodVolume BusClientSecretVolumeName (SecretSource name []) ∈ pod_Volumes p) as Hin.
    { apply Hvs. rewrite !elem_of_app. right; right; right. by left. }
    intros [->|[->|[]]]; (eexists; split; [done|]);
      (eapply (Hshow (volumeMount BusClientSecretVolumeName BusClientSecretMountPoint true)); [|..|exact Hin|done|done];
       [rewrite Hm, !app_assoc; done|by vm_compute|by vm_compute|done|done]).
  - eexists. split; [done|]. change (sp_caBundle s) with (NewCABundle (cs_CABundle commonSpec)) in Hvs.
    destruct (cs_CABundle commonSpec) as [bundle|]; [|done]. cbn [NewCABundle fmap option_fmap option_map from_option] in Hvs.
    set (b := mkCABundle _ _ _ _) in *. assert (∃ v, cab_volumes b = [v] ∧ pv_Name v = CABundleVolumeName) as (v & Hv & Hvn).
    { cbn in Hca. unfold cab_volumes. rewrite !elem_of_cons, elem_of_nil in Hca. cbn [cab_Source b].
      destruct Hca as [->|[->|[->|[]]]]; eexists; (split; [done|done]). }
    exists v. split; [done|].
    eapply (Hshow (volumeMount CABundleVolumeName CABundleMountPoint true) v base); [rewrite Hm; done|by vm_compute| |done|done| |done|done].
    + destruct (rpct_TLSSecret transport), (rpct_TLSClientSecret transport); by vm_compute.
    + apply Hvs. rewrite Hv, !elem_of_app. right; left. by left.
Qed.
End mounted_files.

(** ** The containers the stateful set keeps *)

Definition container_summary (c : PodContainer) : Container := mkContainer (pc_Name c) (pc_Image c).

(** The names and images of the containers of the pod are those of the stateful set in ServerImpl.v. *)
Lemma pod_containers_refine {E : Type} {MC : MetaConditions} {SC : StatusClient E}
    (S : serverImpl E) l commonSpec commonPodSpec i binaryPath generators delivers port optFuncs label :
  let s := newServer l commonSpec commonPodSpec i binaryPath generators delivers port optFuncs in
  known_bundle (cs_CARootBundle commonSpec) → known_bundle (cs_CABundle commonSpec) →
  GetFullComponentLabel l = Some label → generators ≠ [] →
  si_image S = sp_image s → fst <$> si_timbertruck S = fst <$> sp_timbertruck s →
  ∃ p, rebuildPodSpec s = Returned p ∧ container_summary <$> pod_Containers p = template_containers S.
Proof.
  intros s Hroot Hca Hl Hg Himg Htt.
  destruct (rebuild_spec l commonSpec commonPodSpec i binaryPath generators delivers port optFuncs Hroot Hca label Hl Hg)
    as (p & file & cmd & Hp & Hc & _). exists p. split; [done|]. fold s in Hc. rewrite Hc. unfold template_containers. rewrite Himg.
  assert (∀ c, container_summary (addCARootBundle s c) = container_summary c) as Hr.
  { intros c. unfold addCARootBundle, container_summary. by destruct (sp_caRootBundle s). }
  assert (∀ c, container_summary (addTlsSecretMount s c) = container_summary c) as Ht.
  { intros c. unfold addTlsSecretMount, container_summary. by destruct (sp_busClientSecret s), (sp_busServerSecret s), (sp_caBundle s). }
  cbn [fmap list_fmap]. rewrite Ht, Hr. f_equal.
  destruct (sp_timbertruck s) as [[d mounts]|], (si_timbertruck S) as [[d' configs]|]; cbn in Htt; try done.
  injection Htt as ->. cbn [fmap list_fmap]. by rewrite Hr.
Qed.

(** The bare template, without what [doServerSync] adds, never satisfies a master with an uploader:
    a stateful set synced with it is reported for another update of its image. *)
Lemma bare_template_outdated {E : Type} {MC : MetaConditions} {SC : StatusClient E}
    `{HKC : !KubeClient E ConfigMap} `{HKS : !KubeClient E StatefulSet} (S : serverImpl E) (w : World E) :
  is_Some (si_sidecarImages S !! HydraPersistenceUploaderContainerName) →
  sts_Containers (OldObject (si_statefulSet S) w) = template_containers S →
  podsImageCorrespondsToSpec S w = false.
Proof.
  intros [image Hup] Hold. apply not_true_iff_false. intros H. apply podsImageCorrespondsToSpec_spec in H as [_ H].
  - rewrite Hold in H. rewrite <- H in Hup. unfold template_containers, tracked_images in Hup.
    destruct (si_timbertruck S) as [[d configs]|]; by vm_compute in Hup.
  - rewrite Hold. unfold template_containers. destruct (si_timbertruck S) as [[d configs]|]; cbn; by apply (bool_decide_unpack _).
Qed.

(** ** Host affinity

    A node fits an affinity when it fits one of the required terms, that is, all requirements of it;
    [matches] is the evaluation of a requirement on the labels of a node. *)

Section host_affinity.
Context (matches : gmap string string → NodeSelectorRequirement → bool).

Definition admits (a : Affinity) (labels : gmap string string) : bool :=
  match aff_NodeAffinity a with
  | Some (Some terms) => existsb (forallb (matches labels)) terms
  | _ => true
  end.

(** Without required terms of its own, a master is kept to its hosts. *)
Lemma hosts_required key hosts antiAffinity labels :
  admits (AddAffinity (Some (mkAffinity None antiAffinity)) key hosts) labels =
  matches labels (mkNodeSelectorRequirement key NodeSelectorOpIn hosts).
Proof. cbn. by rewrite orb_false_r, andb_true_r. Qed.

(** With required terms, the hosts are only one more alternative. *)
Lemma hosts_not_required terms key hosts antiAffinity labels :
  let a := mkAffinity (Some (Some terms)) antiAffinity in
  admits a labels = true → admits (AddAffinity (Some a) key hosts) labels = true.
Proof. cbv zeta. unfold admits, AddAffinity. cbn [aff_NodeAffinity]. intros H. rewrite existsb_app. apply orb_true_iff. by left. Qed.
End host_affinity.

(** ** Exec nodes that cannot be built *)

(** With log delivery the pod has a second container, and the additions of exec nodes panic. *)
Lemma exec_delivery_panics decode l commonSpec commonPodSpec spec file cm label :
  let n := newBaseExecNode l commonSpec commonPodSpec spec true file cm in
  known_bundle (cs_CARootBundle commonSpec) → known_bundle (cs_CABundle commonSpec) →
  GetFullComponentLabel l = Some label → sp_timbertruck (ben_server n) ≠ None →
  ∃ p, rebuildPodSpec (ben_server n) = Returned p ∧ doBuildBase_pod decode n p = Panicked.
Proof.
  intros n Hroot Hca Hl Htt. edestruct rebuild_spec as (p & f & cmd & Hp & Hc & _); [exact Hroot|exact Hca|exact Hl| |].
  2: { exists p. split; [exact Hp|]. unfold doBuildBase_pod. change (newServer _ _ _ _ _ _ _ _ _) with (ben_server n) in Hc.
       destruct (sp_timbertruck (ben_server n)) as [[d mounts]|]; [|done]. rewrite Hc. done. }
  done.
Qed.

(** Without resource limits of the node, job limits cannot be poured into its container. *)
Lemma job_resources_panic n p c rest job :
  pod_Containers p = c :: rest → ens_JobResources (ben_spec n) = Some job → crg_Isolated (ben_criConfig n) = false →
  cr_Limits (pc_Resources c) = None → rr_Limits job ≠ ∅ → rr_Requests job = ∅ → add_job_resources n p = Panicked.
Proof.
  intros Hc Hj Hiso Hlim Hne Hreq. unfold add_job_resources. rewrite Hj, Hc, Hiso. cbn [resources_of cr_Requests cr_Limits].
  assert (resource_list (rr_Limits job) = Some (rr_Limits job)) as -> by (unfold resource_list; by rewrite decide_False).
  rewrite Hreq, Hlim. change (resource_list ∅) with (@None (gmap string Quantity)).
  cbn [addResourceList mbind outcome_bind mret outcome_ret]. by rewrite decide_False.
Qed.

(** ** Examples *)

Definition example_pod_instance (loggers : list StructuredLoggerSpec) : InstanceSpec :=
  mkInstanceSpec PodSpecZero None
    [volumeMount "node-data" "/yt/node-data" false; volumeMount "logs" "/yt/node-logs" false] 1 None
    [ mkLocationSpec LocationTypeChunkCache "/yt/node-data/chunk-cache" "default" None None None;
      mkLocationSpec LocationTypeSlots "/yt/node-data/slots" "default" None None None;
      mkLocationSpec LocationTypeImageCache "/yt/node-data/image-cache" "default" None None None;
      mkLocationSpec LocationTypeLogs "/yt/node-logs" "default" None None None ]
    None loggers None None [mkVolume "logs" None None] ResourceRequirementsZero
    [mkEmbeddedPersistentVolumeClaim "node-data" ResourceRequirementsZero] None None [] [] None.

Definition example_pod_exec (loggers : list StructuredLoggerSpec) : ExecNodesSpec :=
  mkExecNodesSpec (example_pod_instance loggers) ClusterNodesSpecZero "default" [] [] true None [] None None None
    (Some (mkJobEnvironmentSpec None None (Some CRIJobEnvironmentSpecZero) None None None None)) (Some "job-tls").

Definition example_pod_common : CommonSpec :=
  mkCommonSpec "core:1" None None (Some (mkTimbertruckSpec (Some "timbertruck:1") None))
    (Some (mkRPCTransportSpec (Some "tls") (Some "tls-client") true false "")) false ∅ None None
    (Some (mkFileObjectReference "ConfigMap" "roots" "bundle.pem" []))
    (Some (mkFileObjectReference "Secret" "ca" "ca.crt" [])) None false true None None false false [].

Definition example_exec_labeller : Labeller := ForComponent LabellerZero ExecNodeType "default".

Definition example_exec_pod (loggers : list StructuredLoggerSpec) : baseExecNodePod :=
  newBaseExecNode example_exec_labeller example_pod_common PodSpecZero (example_pod_exec loggers) true
    "ytserver-exec-node.yson" "jobs-config".

Lemma example_pod_spec_ok loggers : spec_ok (example_pod_instance loggers).
Proof.
  split; [by apply (bool_decide_unpack _)|..|]; [|by apply (bool_decide_unpack _)|..];
    cbn; rewrite <- Forall_forall; by apply (bool_decide_unpack _).
Qed.

Lemma component_pods_well_formed_witness :
  ∃ p p', rebuildPodSpec (ben_server (example_exec_pod [])) = Returned p ∧
    component_pod (λ _, inl "") (ExecNodeServer (example_exec_pod [])) example_pod_common p = Returned p' ∧
    pod_ok (example_pod_instance []) p ∧ pod_ok (example_pod_instance []) p'.
Proof.
  refine (component_pods_well_formed (λ _, inl "") example_exec_labeller example_pod_common PodSpecZero (example_pod_instance [])
    "/usr/bin/ytserver-node" ["ytserver-exec-node.yson"] true ExecNodeMonitoringPort
    [WithContainerPorts [mkContainerPort YTRPCPortName ExecNodeRPCPort]] "yt-exec-node"
    (ExecNodeServer (example_exec_pod [])) (example_pod_spec_ok []) _ _ eq_refl _ _).
  - by apply (bool_decide_unpack _).
  - by apply (bool_decide_unpack _).
  - done.
  - split_and!; done.
Defined.

Lemma keyring_files_mounted_witness :
  ∃ p, rebuildPodSpec (ben_server (example_exec_pod [])) = Returned p ∧
    shows p "/tls/bus_secret/tls.crt" (SecretSource "tls" []) ∧ shows p "/tls/bus_client_secret/tls.key" (SecretSource "tls-client" []).
Proof.
  destruct (keyring_files_mounted example_exec_labeller example_pod_common PodSpecZero (example_pod_instance [])
    "/usr/bin/ytserver-node" ["ytserver-exec-node.yson"] true ExecNodeMonitoringPort
    [WithContainerPorts [mkContainerPort YTRPCPortName ExecNodeRPCPort]] "yt-exec-node") as (p & Hp & Hs & Hc & _).
  - by apply (bool_decide_unpack _).
  - by apply (bool_decide_unpack _).
  - done.
  - done.
  - exists p. split; [exact Hp|]. cbn in Hs, Hc. split.
    + destruct (Hs _ ltac:(left)) as (pem & [= <-] & H). exact H.
    + destruct (Hc _ ltac:(right; left)) as (pem & [= <-] & H). exact H.
Defined.

(** An exec node that delivers a log: the webhook accepts it, building its pod panics. *)
Definition example_delivered : StructuredLoggerSpec :=
  mkStructuredLoggerSpec (BaseLoggerNamed "jobs") (Some "Jobs") None (Some true).

Lemma accepted_exec_node_panics :
  @validateInstanceSpec DevWebhook (example_pod_instance [example_delivered]) example_pod_common "spec.execNodes[0]" = [] ∧
  ∃ p, rebuildPodSpec (ben_server (example_exec_pod [example_delivered])) = Returned p ∧
    doBuildBase_pod (λ _, inl "") (example_exec_pod [example_delivered]) p = Panicked.
Proof.
  split; [by vm_compute|]. eapply (exec_delivery_panics _ _ _ _ (example_pod_exec [example_delivered]));
    [by apply (bool_decide_unpack _)|by apply (bool_decide_unpack _)|done|by vm_compute].
Qed.
