(* ===== verification/NodeConfig.v ===== *)
(** * Configurations of cluster nodes (src/pkg/ytconfig/node.go)

    Data, exec and tablet nodes: what the specification says about disks, memory, processors
    and the environment of jobs becomes limits, quotas, reserves and watermarks. *)

From S2P Require Import Prelude Ordered Kubernetes ApiTypes Consts Labeller Timbertruck Values Logging Connection CriConfig.

(** ** Documents *)

Inductive NodeFlavor : Type := NodeFlavorData | NodeFlavorExec | NodeFlavorTablet.

Record DiskLocation := mkDiskLocation {
  dl_Path : string;
  dl_MinDiskSpace : Z;
  dl_MediumName : string;
}.

Record CacheLocation := mkCacheLocation {
  cal_DiskLocation : DiskLocation;
  cal_Quota : Z;
  cal_IOEngine : option IOEngine;
}.

Record StoreLocation := mkStoreLocation {
  stl_DiskLocation : DiskLocation;
  stl_Quota : Z;
  stl_IOEngine : option IOEngine;
  stl_HighWatermark : Z;
  stl_LowWatermark : Z;
  stl_DisableWritesWatermark : Z;
  stl_TrashCleanupWatermark : Z;
  stl_MaxTrashTtl : option Z;
}.

Record SlotLocation := mkSlotLocation {
  sll_DiskLocation : DiskLocation;
  sll_DiskQuota : option Z;
  sll_DiskUsageWatermark : option Z;
  sll_EnableDiskQuota : option bool;
}.

(** Of the memory categories only the one of user jobs is limited. *)
Record ResourceLimits := mkResourceLimits {
  rl_TotalMemory : Z;
  rl_TotalCpu : option float;
  rl_NodeDedicatedCpu : option float;
  rl_UserJobsMemoryLimit : option Z;
}.

Record Cache := mkCache { cache_Capacity : option Z }.

Definition NoCache : Cache := mkCache (Some 0%Z).

(** The compressed and the uncompressed blocks. *)
Record BlockCache := mkBlockCache { bc_Compressed : Cache; bc_Uncompressed : Cache }.

Record DataNode := mkDataNode {
  dno_StoreLocations : list StoreLocation;
  dno_CacheLocations : list CacheLocation;
  dno_BlockCache : BlockCache;
  dno_BlocksExtCache : Cache;
  dno_ChunkMetaCache : Cache;
  dno_BlockMetaCache : Cache;
}.

Inductive JobEnvironmentType : Type := JobEnvironmentTypeSimple | JobEnvironmentTypePorto | JobEnvironmentTypeCRI.

#[global] Instance JobEnvironmentType_eq_dec : EqDecision JobEnvironmentType.
Proof. solve_decision. Defined.

(** Durations are in nanoseconds. *)
Record RetryingChannel := mkRetryingChannel {
  rtc_RetryBackoffTime : Z;
  rtc_RetryAttempts : Z;
  rtc_RetryTimeout : Z;
}.

Record CriExecutor := mkCriExecutor {
  cre_RetryingChannel : RetryingChannel;
  cre_RuntimeEndpoint : string;
  cre_ImageEndpoint : string;
  cre_Namespace : string;
  cre_BaseCgroup : string;
  cre_MemoryOOMGroup : option bool;
}.

Record CriImageCache := mkCriImageCache {
  cic_Capacity : option Z;
  cic_AlwaysPullLatest : option bool;
  cic_PullPeriod : Z;
  cic_ImageSizeEstimation : option Z;
  cic_ImageCompressionRatioEstimation : option float;
}.

(** [JobEnvironment] with the embedded [CriJobEnvironment]. *)
Record JobEnvironment := mkJobEnvironment {
  je_Type : JobEnvironmentType;
  je_StartUID : Z;
  je_CriExecutor : option CriExecutor;
  je_CriImageCache : option CriImageCache;
  je_JobProxyImage : string;
  je_JobProxyBindMounts : list BindMount;
  je_UseJobProxyFromImage : option bool;
}.

Record SlotManager := mkSlotManager {
  sm_Locations : list SlotLocation;
  sm_JobEnvironment : JobEnvironment;
  sm_DefaultMediumName : string;
  sm_DoNotSetUserId : option bool;
  sm_EnableTmpfs : option bool;
}.

Record JobResourceManager := mkJobResourceManager {
  jrm_UserSlots : option Z;
  jrm_Network : option Z;
  jrm_StartPort : option Z;
  jrm_PortCount : option Z;
}.

Record GpuManager := mkGpuManager {
  gpu_InfoSourceType : GPUInfoProviderType;
  gpu_InfoSourceAddress : string;
  gpu_InfoSourceServiceName : string;
  gpu_Flavor : option string;
  gpu_UseInfoProviderForDeviceDiscovery : bool;
}.

Record EnvironmentVariable := mkEnvironmentVariable {
  env_Name : string;
  env_Value : option string;
  env_FileName : option string;
  env_Export : option bool;
}.

(** Of [Auth] what a skeleton sets. *)
Record Auth := mkAuth { auth_Secure : bool; auth_RequireAuthentication : bool }.

(** A connection of a bus: the address and the bus. *)
Record BusClient := mkBusClient { bcl_Address : string; bcl_Bus : Bus }.

Record JobProxy := mkJobProxy {
  jp_AuthenticationManager : Auth;
  jp_Logging : JobProxyLogging;
  jp_EnvironmentVariables : list EnvironmentVariable;
  jp_ForwardAllEnvironmentVariables : option bool;
  jp_ClusterConnection : option ClusterConnection;
  jp_SupervisorConnection : option BusClient;
}.

(** The legacy fields repeat parts of the configuration at their former places. *)
Record LegacyFields := mkLegacyFields {
  leg_ResourceLimits : option Z * option Z;
  leg_GpuManager : GpuManager;
  leg_JobProxyLogging : Logging;
  leg_AuthenticationManager : Auth;
  leg_DoNotSetUserId : option bool;
  leg_ForwardAllEnvironmentVariables : option bool;
  leg_UseArtifactBinds : option bool;
}.

Record ExecNode := mkExecNode {
  exn_SlotManager : SlotManager;
  exn_GpuManager : GpuManager;
  exn_JobProxy : JobProxy;
  exn_RootFSBinds : list BindMount;
  exn_JobProxyLogManager : JobProxyLogManager;
  exn_Legacy : LegacyFields;
}.

(** [NodeServer] without the embedded server, of which the skeleton knows the ports. *)
Record NodeServer := mkNodeServer {
  nd_RPCPort : Z;
  nd_MonitoringPort : Z;
  nd_SkynetHttpPort : Z;
  nd_Flavors : list NodeFlavor;
  nd_Tags : list string;
  nd_Rack : string;
}.

Record DataNodeServer := mkDataNodeServer {
  dn_NodeServer : NodeServer;
  dn_ResourceLimits : ResourceLimits;
  dn_DataNode : DataNode;
  dn_Logging : Logging;
}.

Record ExecNodeServer := mkExecNodeServer {
  en_NodeServer : NodeServer;
  en_ResourceLimits : ResourceLimits;
  en_JobResourceManager : JobResourceManager;
  en_ExecNode : ExecNode;
  en_DataNode : DataNode;
  en_VersionedChunkMetaCache : Cache;
  en_CachingObjectService : Cache;
  en_Logging : Logging;
}.

Record TabletNodeServer := mkTabletNodeServer {
  tn_NodeServer : NodeServer;
  tn_ResourceLimits : ResourceLimits;
  tn_Slots : option Z;
  tn_DeduceProfilingTagFromBundleName : option bool;
  tn_CachingObjectService : Cache;
  tn_Logging : Logging;
}.

(** A server: its own part and the part it has in common with all servers. *)
Record Configured (A : Type) := mkConfigured {
  cfg_CommonServer : CommonServer;
  cfg_Server : A;
}.

Arguments mkConfigured {A}.
Arguments cfg_CommonServer {A}.
Arguments cfg_Server {A}.

Definition StartUID : Z := 19500.
Definition MaxChunkStoreLocationReserve : Z := Z.shiftl 25 30.
Definition MaxSlotLocationReserve : Z := Z.shiftl 10 30.
Definition GpuAgentPort : Z := 23105.
Definition JobHTTPSCertificateFileKey := "YT_JOB_HTTPS_CERTIFICATE_FILE".
Definition JobHTTPSPrivateKeyFileKey := "YT_JOB_HTTPS_PRIVATE_KEY_FILE".

(** [corev1.ResourceMemory], [ResourceCPU], [ResourceStorage] and the mount propagation. *)
Definition ResourceMemory := "memory".
Definition ResourceCPU := "cpu".
Definition ResourceStorage := "storage".
Definition MountPropagationBidirectional := "Bidirectional".

(** ** Volumes and quotas *)

Fixpoint findVolumeMountForPath_in (mounts : list VolumeMount) (locationPath : string) : option VolumeMount :=
  match mounts with
  | [] => None
  | mount :: rest =>
      if String.prefix (vm_MountPath mount) locationPath then Some mount else findVolumeMountForPath_in rest locationPath
  end.

Definition findVolumeMountForPath (locationPath : string) (spec : InstanceSpec) : option VolumeMount :=
  findVolumeMountForPath_in (is_VolumeMounts spec) locationPath.

Fixpoint find_named {A} (name_of : A → string) (l : list A) (name : string) : option A :=
  match l with
  | [] => None
  | x :: rest => if name_of x == name then Some x else find_named name_of rest name
  end.

Definition findVolumeClaimTemplate (volumeName : string) (spec : InstanceSpec) : option EmbeddedPersistentVolumeClaim :=
  find_named pvc_Name (is_VolumeClaimTemplates spec) volumeName.

Definition findVolume (volumeName : string) (spec : InstanceSpec) : option Volume :=
  find_named vol_Name (is_Volumes spec) volumeName.

Section node.
Context {Q : QuantityArith} {U : UUIDs}.

(** The value of a resource, unless it is missing or zero. *)
Definition storage_value (l : gmap string Quantity) : option Z :=
  match l !! ResourceStorage with
  | Some q => if Quantity_IsZero q then None else Some (Quantity_Value q)
  | None => None
  end.

(** Request and limit. *)
Definition findQuotaForLocation (location : LocationSpec) (spec : InstanceSpec) : option Z * option Z :=
  match loc_Quota location with
  | Some quota => (Some (Quantity_Value quota), Some (Quantity_Value quota))
  | None =>
      match findVolumeMountForPath (loc_Path location) spec with
      | None => (None, None)
      | Some mount =>
          let of_resources resources :=
            match resources with
            | Some r => (storage_value (rr_Requests r), storage_value (rr_Limits r))
            | None => (None, None)
            end in
          match findVolumeClaimTemplate (vm_Name mount) spec with
          | Some claim => of_resources (Some (pvc_Resources claim))
          | None =>
              match findVolume (vm_Name mount) spec with
              | None => (None, None)
              | Some volume =>
                  match vol_EmptyDir volume with
                  | Some (Some sizeLimit) => (Some (Quantity_Value sizeLimit), Some (Quantity_Value sizeLimit))
                  | _ => of_resources (match vol_Ephemeral volume with Some (Some r) => Some r | _ => None end)
                  end
              end
          end
      end
  end.

Definition fillClusterNodeServerCarcass (flavor : NodeFlavor) (spec : ClusterNodesSpec) (inst : InstanceSpec) : NodeServer :=
  let '(RPCPort, SkynetHttpPort, MonitoringPort) := match flavor with
    | NodeFlavorData => (DataNodeRPCPort, DataNodeSkynetPort, DataNodeMonitoringPort)
    | NodeFlavorExec => (ExecNodeRPCPort, ExecNodeSkynetPort, ExecNodeMonitoringPort)
    | NodeFlavorTablet => (TabletNodeRPCPort, TabletNodeSkynetPort, TabletNodeMonitoringPort)
    end in
  mkNodeServer RPCPort (Deref (is_MonitoringPort inst) MonitoringPort) SkynetHttpPort [flavor] (cns_Tags spec) (cns_Rack spec).

Definition getResourceQuantity (resources : ResourceRequirements) (name : string) : Quantity :=
  let nonzero (l : gmap string Quantity) :=
    match l !! name with Some q => if Quantity_IsZero q then None else Some q | None => None end in
  match nonzero (rr_Requests resources) with
  | Some request => request
  | None => default QuantityZero (nonzero (rr_Limits resources))
  end.

(** [float32(q.AsApproximateFloat64())]. *)
Definition as_float32 (q : Quantity) : float := float32_of_float64 (Quantity_AsApproximateFloat64 q).

(** The logging section of a server of a type, with the loggers it has by default. *)
Definition serviceLogging (component : ComponentType) (spec : InstanceSpec) (defaults : list TextLoggerSpec) : outcome Logging :=
  name ← or_panic (GetServiceKebabCase component);
  mret (createLogging spec name defaults).

Definition defaultLoggers : list TextLoggerSpec := [defaultInfoLoggerSpec; defaultStderrLoggerSpec].

(** ** Data nodes *)

Definition getDataNodeResourceLimits (spec : DataNodesSpec) : ResourceLimits :=
  let nodeMemory := getResourceQuantity (is_Resources (dns_InstanceSpec spec)) ResourceMemory in
  let nodeCPU := getResourceQuantity (is_Resources (dns_InstanceSpec spec)) ResourceCPU in
  mkResourceLimits (Quantity_Value nodeMemory) (Some (as_float32 nodeCPU)) (Some (as_float32 nodeCPU)) None.

Definition getDataNodeLogging (spec : DataNodesSpec) : outcome Logging :=
  serviceLogging DataNodeType (dns_InstanceSpec spec) defaultLoggers.

(** One turn of the loop over the chunk store locations. *)
Definition storeLocation (spec : InstanceSpec) (location : LocationSpec) : StoreLocation :=
  let '(request, limit) := findQuotaForLocation location spec in
  let LowWatermark := match loc_LowWatermark location, request with
    | Some w, _ => Quantity_Value w
    | None, Some request => tenth_of request MaxChunkStoreLocationReserve
    | None, None => 0%Z
    end in
  let HighWatermark := if LowWatermark != 0%Z then Z.quot LowWatermark 2 else 0%Z in
  mkStoreLocation (mkDiskLocation (loc_Path location) LowWatermark (loc_Medium location))
    (default 0%Z limit) None HighWatermark LowWatermark
    (if LowWatermark != 0%Z then Z.quot HighWatermark 2 else 0%Z) LowWatermark
    (loc_MaxTrashMilliseconds location).

Definition noCaches (stores : list StoreLocation) (caches : list CacheLocation) : DataNode :=
  mkDataNode stores caches (mkBlockCache NoCache NoCache) NoCache NoCache NoCache.

Definition getDataNodeServerCarcass (spec : DataNodesSpec) : outcome DataNodeServer :=
  let n := fillClusterNodeServerCarcass NodeFlavorData (dns_ClusterNodesSpec spec) (dns_InstanceSpec spec) in
  let stores := storeLocation (dns_InstanceSpec spec)
    <$> FindAllLocations (is_Locations (dns_InstanceSpec spec)) LocationTypeChunkStore in
  match stores with
  | [] => Failed "error creating data node config: no storage locations provided"
  | _ =>
      logging ← getDataNodeLogging spec;
      mret (mkDataNodeServer n (getDataNodeResourceLimits spec) (noCaches stores []) logging)
  end.

(** ** Exec nodes *)

Definition getExecNodeResourceLimits (spec : ExecNodesSpec) : ResourceLimits :=
  let resources := is_Resources (ens_InstanceSpec spec) in
  let nodeMemory := getResourceQuantity resources ResourceMemory in
  let nodeCPU := getResourceQuantity resources ResourceCPU in
  let limits totalMemory totalCPU dedicated userJobs :=
    mkResourceLimits (Quantity_Value totalMemory)
      (if Quantity_IsZero totalCPU then None else Some (as_float32 totalCPU)) (Some dedicated) userJobs in
  match ens_JobResources spec with
  | Some jobResources =>
      let jobMemory := getResourceQuantity jobResources ResourceMemory in
      let jobCPU := getResourceQuantity jobResources ResourceCPU in
      limits (Quantity_Add nodeMemory jobMemory) (Quantity_Add nodeCPU jobCPU) (as_float32 nodeCPU)
        (Some (Quantity_Value jobMemory))
  | None => limits nodeMemory nodeCPU (mkFloat 0 0) None
  end.

Definition getExecNodeLogging (spec : ExecNodesSpec) : outcome Logging :=
  serviceLogging ExecNodeType (ens_InstanceSpec spec) defaultLoggers.

Definition second : Z := 1000 * millisecond.

(** What [fillJobEnvironment] sets: the environment, fields of the slot manager and of the
    node. *)
Record FilledEnvironment := mkFilledEnvironment {
  fe_JobEnvironment : JobEnvironment;
  fe_DoNotSetUserId : option bool;
  fe_EnableTmpfs : option bool;
  fe_ForwardAllEnvironmentVariables : option bool;
  fe_UseArtifactBindsLegacy : option bool;
}.

(** Enable tmpfs if the node can mount and propagate into the job container. *)
Definition criTmpfs (spec : ExecNodesSpec) (envSpec : JobEnvironmentSpec) : bool :=
  if negb (ens_Privileged spec) then false
  else if negb (Deref (jes_Isolated envSpec) true) then true
  else forallb (λ location,
         match findVolumeMountForPath (loc_Path location) (ens_InstanceSpec spec) with
         | Some mount =>
             match vm_MountPropagation mount with Some p => p == MountPropagationBidirectional | None => false end
         | None => false
         end) (FindAllLocations (is_Locations (ens_InstanceSpec spec)) LocationTypeSlots).

(** Durations are int64 numbers of nanoseconds. *)
Definition criImageCache (spec : ExecNodesSpec) (criSpec : CRIJobEnvironmentSpec) : option CriImageCache :=
  location ← FindFirstLocation (is_Locations (ens_InstanceSpec spec)) LocationTypeImageCache;
  let '(quota, _) := findQuotaForLocation location (ens_InstanceSpec spec) in
  Some (mkCriImageCache quota (cri_AlwaysPullLatestImage criSpec)
    (match cri_ImagePullPeriodSeconds criSpec with Some period => i64 (period * second) | None => 0%Z end)
    (cri_ImageSizeEstimation criSpec) (float32_of_int <$> cri_ImageCompressionRatioEstimation criSpec)).

Definition fillJobEnvironmentCRI (spec : ExecNodesSpec) (commonSpec : CommonSpec) (envSpec : JobEnvironmentSpec)
    (criSpec : CRIJobEnvironmentSpec) : FilledEnvironment :=
  let cri := NewCRIConfigGenerator spec in
  let image := match cs_JobImage commonSpec with
    | Some jobImage => jobImage
    | None => Deref (is_Image (ens_InstanceSpec spec)) (cs_CoreImage commonSpec) end in
  let rootBundle := match cs_CARootBundle commonSpec with
    | Some _ => [mkBindMount CARootBundleMountPoint CARootBundleMountPoint true] | None => [] end in
  let endpoint := "unix://" +:+ GetSocketPath cri in
  let channel := match cri_APIRetryTimeoutSeconds criSpec with
    | Some timeout => mkRetryingChannel second timeout (i64 (timeout * second))
    | None => mkRetryingChannel 0 0 0 end in
  let executor := mkCriExecutor channel endpoint endpoint (Deref (cri_CRINamespace criSpec) CRINamespace)
    (Deref (cri_BaseCgroup criSpec) CRIBaseCgroup) (Some (negb (cri_DeprecatedCgroupV1 criSpec))) in
  let artifactBinds := Deref (jes_UseArtifactBinds envSpec) true in
  let cacheBinds := if artifactBinds then [] else
    (λ location, mkBindMount (loc_Path location) (loc_Path location) true)
      <$> FindAllLocations (is_Locations (ens_InstanceSpec spec)) LocationTypeChunkCache in
  mkFilledEnvironment
    (mkJobEnvironment JobEnvironmentTypeCRI StartUID (Some executor) (criImageCache spec criSpec) image
       (rootBundle ++ cacheBinds) (Some false))
    (Some (Deref (jes_DoNotSetUserId envSpec) true)) (Some (criTmpfs spec envSpec)) (Some true) (Some artifactBinds).

Definition fillJobEnvironment (spec : ExecNodesSpec) (commonSpec : CommonSpec) : FilledEnvironment :=
  let plain type tmpfs := mkFilledEnvironment (mkJobEnvironment type StartUID None None "" [] None) None (Some tmpfs) None None in
  match ens_JobEnvironment spec with
  | Some envSpec =>
      match jes_CRI envSpec with
      | Some criSpec => fillJobEnvironmentCRI spec commonSpec envSpec criSpec
      | None => if cs_UsePorto commonSpec then plain JobEnvironmentTypePorto true
                else plain JobEnvironmentTypeSimple (ens_Privileged spec)
      end
  | None => if cs_UsePorto commonSpec then plain JobEnvironmentTypePorto true
            else plain JobEnvironmentTypeSimple (ens_Privileged spec)
  end.

(** The first statement of [fillJobEnvironment] after the user id. *)
Definition rootFSBinds (spec : ExecNodesSpec) : list BindMount :=
  match ens_JobHTTPSCertificateSecret spec with
  | Some _ => [mkBindMount JobHTTPSSecretMountPoint JobHTTPSSecretMountPoint true]
  | None => []
  end.

Definition cacheLocation (spec : InstanceSpec) (location : LocationSpec) : CacheLocation :=
  mkCacheLocation (mkDiskLocation (loc_Path location) (default 0%Z (Quantity_Value <$> loc_LowWatermark location))
    (loc_Medium location)) (default 0%Z (findQuotaForLocation location spec).1) None.

Definition slotLocation (spec : InstanceSpec) (location : LocationSpec) : SlotLocation :=
  let disk := mkDiskLocation (loc_Path location) (default 0%Z (Quantity_Value <$> loc_LowWatermark location))
    (loc_Medium location) in
  match (findQuotaForLocation location spec).1 with
  | Some quota => mkSlotLocation disk (Some quota) (Some (Z.min (Z.quot quota 10) MaxSlotLocationReserve)) (Some false)
  | None => mkSlotLocation disk None (Some 0%Z) (Some false)
  end.

Definition getUserSlots (spec : ExecNodesSpec) (limits : ResourceLimits) : Z :=
  match ens_JobEnvironment spec ≫= jes_UserSlots with
  | Some userSlots => userSlots
  | None =>
      let jobCPU := float_sub 24 (Deref (rl_TotalCpu limits) (mkFloat 0 0)) (Deref (rl_NodeDedicatedCpu limits) (mkFloat 0 0)) in
      int_of_float (float_mul 24 (mkFloat 5 0) (float_max (mkFloat 1 0) jobCPU))
  end.

Definition getJobResourceManager (spec : ExecNodesSpec) (limits : ResourceLimits) : JobResourceManager :=
  let jobNetwork := Deref (ens_JobNetwork spec) JobNetworkSpecZero in
  mkJobResourceManager (Some (getUserSlots spec limits)) (jns_NetworkCapacity jobNetwork)
    (jns_StartPort jobNetwork) (jns_PortCount jobNetwork).

Definition getGpuManager (spec : ExecNodesSpec) : GpuManager :=
  let runtime := ens_JobEnvironment spec ≫= jes_Runtime in
  let agent flavor := mkGpuManager GPUInfoProviderGPUAgent ("localhost:" +:+ fmt_d GpuAgentPort)
    "NYT.NGpuAgent.NProto.GpuAgent" flavor true in
  let by_runtime := match runtime ≫= jrs_Nvidia, runtime ≫= jrs_Metax with
    | Some _, _ => agent None
    | None, Some _ => agent (Some "other")
    | None, None => mkGpuManager GPUInfoProviderNvidiaSMI "" "" None false
    end in
  match ens_GPUManager spec ≫= gms_GPUInfoProvider with
  | Some provider =>
      if provider != GPUInfoProviderGPUAgent then mkGpuManager provider "" "" None false else by_runtime
  | None => by_runtime
  end.

(** The part of the node that is filled in after the locations are known. *)
Definition getExecNode (spec : ExecNodesSpec) (commonSpec : CommonSpec) (slots : list SlotLocation)
    (defaultMedium : string) (manager : JobResourceManager) : ExecNode :=
  let env := fillJobEnvironment spec commonSpec in
  let auth := mkAuth true true in
  let gpu := getGpuManager spec in
  mkExecNode
    (mkSlotManager slots (fe_JobEnvironment env) defaultMedium (fe_DoNotSetUserId env) (fe_EnableTmpfs env)) gpu
    (mkJobProxy auth (buildJobProxyLogging spec) [] (fe_ForwardAllEnvironmentVariables env) None None)
    (rootFSBinds spec) (buildJobProxyLogManager spec)
    (mkLegacyFields (jrm_UserSlots manager, jrm_Network manager) gpu (lb_logging (newJobProxyLoggingBuilder spec)) auth
       (fe_DoNotSetUserId env) (fe_ForwardAllEnvironmentVariables env) (fe_UseArtifactBindsLegacy env)).

Definition getExecNodeServerCarcass (spec : ExecNodesSpec) (commonSpec : CommonSpec) : outcome ExecNodeServer :=
  let inst := ens_InstanceSpec spec in
  let n := fillClusterNodeServerCarcass NodeFlavorExec (ens_ClusterNodesSpec spec) inst in
  let limits := getExecNodeResourceLimits spec in
  match cacheLocation inst <$> FindAllLocations (is_Locations inst) LocationTypeChunkCache with
  | [] => Failed "error creating exec node config: no cache locations provided"
  | caches =>
      match FindAllLocations (is_Locations inst) LocationTypeSlots with
      | [] => Failed "error creating exec node config: no slot locations provided"
      | (first :: _) as slotLocations =>
          let manager := getJobResourceManager spec limits in
          logging ← getExecNodeLogging spec;
          mret (mkExecNodeServer n limits manager
            (getExecNode spec commonSpec (slotLocation inst <$> slotLocations) (loc_Medium first) manager)
            (noCaches [] caches) NoCache NoCache logging)
      end
  end.

(** ** Tablet nodes *)

Definition getTabletNodeLogging (spec : TabletNodesSpec) : outcome Logging :=
  serviceLogging TabletNodeType (tns_InstanceSpec spec) defaultLoggers.

Definition getTabletNodeServerCarcass (spec : TabletNodesSpec) : outcome TabletNodeServer :=
  let n := fillClusterNodeServerCarcass NodeFlavorTablet (tns_ClusterNodesSpec spec) (tns_InstanceSpec spec) in
  let nodeMemory := getResourceQuantity (is_Resources (tns_InstanceSpec spec)) ResourceMemory in
  let nodeCPU := getResourceQuantity (is_Resources (tns_InstanceSpec spec)) ResourceCPU in
  logging ← getTabletNodeLogging spec;
  mret (mkTabletNodeServer n
    (mkResourceLimits (Quantity_Value nodeMemory) (Some (as_float32 nodeCPU)) (Some (as_float32 nodeCPU)) None)
    (tns_TabletCellSlots spec) None NoCache logging).

(** ** Configurations (generator.go) *)

Definition node_carcass (n : NodeServer) (logging : Logging) : Carcass :=
  mkCarcass (nd_RPCPort n) (nd_MonitoringPort n) logging.

(** The common part of a server with a bus. *)
Definition fillServer (g : NodeGenerator) (c : Carcass) (s : InstanceSpec) (component : ComponentType)
    : outcome CommonServer :=
  common ← fillCommonService g c s component;
  mret (fillBusServer g (is_NativeTransport s) common).

Definition fillStoreEngines (g : NodeGenerator) (d : DataNode) : DataNode :=
  mkDataNode
    ((λ l, mkStoreLocation (stl_DiskLocation l) (stl_Quota l) (fillIOEngine g (stl_IOEngine l)) (stl_HighWatermark l)
       (stl_LowWatermark l) (stl_DisableWritesWatermark l) (stl_TrashCleanupWatermark l) (stl_MaxTrashTtl l))
     <$> dno_StoreLocations d)
    (dno_CacheLocations d) (dno_BlockCache d) (dno_BlocksExtCache d) (dno_ChunkMetaCache d) (dno_BlockMetaCache d).

Definition fillCacheEngines (g : NodeGenerator) (d : DataNode) : DataNode :=
  mkDataNode (dno_StoreLocations d)
    ((λ l, mkCacheLocation (cal_DiskLocation l) (cal_Quota l) (fillIOEngine g (cal_IOEngine l))) <$> dno_CacheLocations d)
    (dno_BlockCache d) (dno_BlocksExtCache d) (dno_ChunkMetaCache d) (dno_BlockMetaCache d).

Definition getDataNodeConfigImpl (g : NodeGenerator) (spec : DataNodesSpec) : outcome (Configured DataNodeServer) :=
  c ← getDataNodeServerCarcass spec;
  common ← fillServer g (node_carcass (dn_NodeServer c) (dn_Logging c)) (dns_InstanceSpec spec) DataNodeType;
  mret (mkConfigured common
    (mkDataNodeServer (dn_NodeServer c) (dn_ResourceLimits c) (fillStoreEngines g (dn_DataNode c)) (dn_Logging c))).

Definition getExecNodeConfigImpl (g : NodeGenerator) (spec : ExecNodesSpec) : outcome (Configured ExecNodeServer) :=
  c ← getExecNodeServerCarcass spec (ng_commonSpec g);
  common ← fillServer g (node_carcass (en_NodeServer c) (en_Logging c)) (ens_InstanceSpec spec) ExecNodeType;
  mret (mkConfigured common
    (mkExecNodeServer (en_NodeServer c) (en_ResourceLimits c) (en_JobResourceManager c) (en_ExecNode c)
      (fillCacheEngines g (en_DataNode c)) (en_VersionedChunkMetaCache c) (en_CachingObjectService c) (en_Logging c))).

Definition getTabletNodeConfigImpl (g : NodeGenerator) (spec : TabletNodesSpec) : outcome (Configured TabletNodeServer) :=
  c ← getTabletNodeServerCarcass spec;
  let deduce := match ng_bundleControllerInstanceCount g with
    | Some count => if count == 0%Z then Some false else None | None => None end in
  common ← fillServer g (node_carcass (tn_NodeServer c) (tn_Logging c)) (tns_InstanceSpec spec) TabletNodeType;
  mret (mkConfigured common
    (mkTabletNodeServer (tn_NodeServer c) (tn_ResourceLimits c) (tn_Slots c) deduce (tn_CachingObjectService c) (tn_Logging c))).

(** *** What job proxies get *)

Definition env_value (name value : string) : EnvironmentVariable := mkEnvironmentVariable name (Some value) None (Some true).

Definition rootBundleVariables (commonSpec : CommonSpec) : list EnvironmentVariable :=
  match cs_CARootBundle commonSpec with
  | Some _ =>
      [ env_value SSLCertFileKey (path_Join2 CARootBundleMountPoint CARootBundleFileName);
        env_value SSLCertDirKey CARootBundleMountPoint;
        env_value RequestsCABundleKey (path_Join2 CARootBundleMountPoint CARootBundleFileName) ]
  | None => []
  end.

Definition jobHTTPSVariables (spec : ExecNodesSpec) : list EnvironmentVariable :=
  match ens_JobHTTPSCertificateSecret spec with
  | Some _ =>
      [ env_value JobHTTPSCertificateFileKey (path_Join2 JobHTTPSSecretMountPoint TLSCertKey);
        env_value JobHTTPSPrivateKeyFileKey (path_Join2 JobHTTPSSecretMountPoint TLSPrivateKeyKey) ]
  | None => []
  end.

Definition forwardSecret (node proxy : option PemBlob) : list EnvironmentVariable :=
  match node, proxy with
  | Some node, Some proxy =>
      if pem_EnvironmentVariable proxy != ""
      then [mkEnvironmentVariable (pem_EnvironmentVariable proxy) None (Some (pem_FileName node)) (Some false)] else []
  | _, _ => []
  end.

(** [net.JoinHostPort]. *)
Definition JoinHostPort (host port : string) : string :=
  if bool_decide (Ascii.ascii_of_nat 58 ∈ String.list_ascii_of_string host)
  then "[" +:+ host +:+ "]:" +:+ port else host +:+ ":" +:+ port.

Definition jp_set_variables (vars : list EnvironmentVariable) (connection : option ClusterConnection)
    (supervisor : option BusClient) (j : JobProxy) : JobProxy :=
  mkJobProxy (jp_AuthenticationManager j) (jp_Logging j) (jp_EnvironmentVariables j ++ vars)
    (jp_ForwardAllEnvironmentVariables j) connection supervisor.

Definition en_set_JobProxy (f : JobProxy → JobProxy) (c : ExecNodeServer) : ExecNodeServer :=
  let e := en_ExecNode c in
  mkExecNodeServer (en_NodeServer c) (en_ResourceLimits c) (en_JobResourceManager c)
    (mkExecNode (exn_SlotManager e) (exn_GpuManager e) (f (exn_JobProxy e)) (exn_RootFSBinds e) (exn_JobProxyLogManager e)
       (exn_Legacy e))
    (en_DataNode c) (en_VersionedChunkMetaCache c) (en_CachingObjectService c) (en_Logging c).

Definition GetExecNodeConfig (g : NodeGenerator) (spec : ExecNodesSpec) : outcome (Configured ExecNodeServer) :=
  c ← getExecNodeConfigImpl g spec;
  let vars := rootBundleVariables (ng_commonSpec g) ++ jobHTTPSVariables spec in
  match cc_BusClient (srv_ClusterConnection (cfg_CommonServer c)) with
  | None => mret (mkConfigured (cfg_CommonServer c) (en_set_JobProxy (jp_set_variables vars None None) (cfg_Server c)))
  | Some _ =>
      let keyring := getMountKeyring (ng_commonSpec g) (is_NativeTransport (ens_InstanceSpec spec)) in
      let jobProxyKeyring := getVaultKeyring (ng_commonSpec g) (is_NativeTransport (ens_InstanceSpec spec)) in
      clusterConnection ← fillClusterConnection g (is_NativeTransport (ens_InstanceSpec spec)) jobProxyKeyring;
      let secrets := forwardSecret (kr_BusCABundle keyring) (kr_BusCABundle jobProxyKeyring)
        ++ forwardSecret (kr_BusClientCertificate keyring) (kr_BusClientCertificate jobProxyKeyring)
        ++ forwardSecret (kr_BusClientPrivateKey keyring) (kr_BusClientPrivateKey jobProxyKeyring) in
      let localAddress := JoinHostPort (if cs_UseIPv6 (ng_commonSpec g) then "::1" else "127.0.0.1")
        (fmt_d (srv_RPCPort (cfg_CommonServer c))) in
      bus ← or_panic (cc_BusClient clusterConnection);
      mret (mkConfigured (cfg_CommonServer c)
        (en_set_JobProxy (jp_set_variables (vars ++ secrets) (Some clusterConnection)
          (Some (mkBusClient localAddress bus))) (cfg_Server c)))
  end.

End node.

(** ** Quotas *)

(** All the sizes an instance specification gives (quotas and low watermarks of locations, storage
    of claims and of volumes) are sizes: not negative, and in the range of int64 in bytes.  Neither the
    schema, whose pattern of a quantity admits a sign, nor the webhook demands it. *)
Definition requirements_ok (r : ResourceRequirements) : Prop :=
  map_Forall (λ _, in_int64) (rr_Requests r) ∧ map_Forall (λ _, in_int64) (rr_Limits r).

Record sizes_ok (spec : InstanceSpec) : Prop := {
  sizes_locations : ∀ l, l ∈ is_Locations spec →
    (∀ q, loc_Quota l = Some q → in_int64 q) ∧ (∀ q, loc_LowWatermark l = Some q → in_int64 q);
  sizes_claims : ∀ c, c ∈ is_VolumeClaimTemplates spec → requirements_ok (pvc_Resources c);
  sizes_volumes : ∀ v, v ∈ is_Volumes spec →
    (∀ q, vol_EmptyDir v = Some (Some q) → in_int64 q) ∧ (∀ r, vol_Ephemeral v = Some (Some r) → requirements_ok r);
}.

Lemma find_named_elem {A} (name_of : A → string) l name x : find_named name_of l name = Some x → x ∈ l ∧ name_of x = name.
Proof.
  induction l as [|y l IH]; [done|]. cbn. destruct (bool_decide_reflect (name_of y = name)) as [<-|].
  - intros [= ->]. split; [by left|done].
  - intros [H ?]%IH. split; [by right|done].
Qed.

Section quotas.
Context {Q : QuantityArith} {QL : QuantityLaws Q}.

Definition is_size (z : Z) : Prop := (0 ≤ z < 2 ^ 63)%Z.

Lemma storage_value_range m z : map_Forall (λ _, in_int64) m → storage_value m = Some z → is_size z.
Proof.
  intros Hm. unfold storage_value. destruct (m !! _) as [q|] eqn:E; [|done]. destruct (Quantity_IsZero q); [done|].
  intros [= <-]. apply Value_range. by apply (Hm _ _ E).
Qed.

(** A quota is a size. *)
Lemma findQuota_range location spec z :
  sizes_ok spec → location ∈ is_Locations spec →
  (findQuotaForLocation location spec).1 = Some z ∨ (findQuotaForLocation location spec).2 = Some z → is_size z.
Proof.
  intros [Hl Hc Hv] Hin. specialize (Hl _ Hin) as [Hq _]. unfold findQuotaForLocation.
  assert (∀ r, requirements_ok r →
    storage_value (rr_Requests r) = Some z ∨ storage_value (rr_Limits r) = Some z → is_size z) as Hr.
  { intros r [H1 H2] [H|H]; [by apply (storage_value_range _ _ H1)|by apply (storage_value_range _ _ H2)]. }
  destruct (loc_Quota location) as [q|]; [intros [[= <-]|[= <-]]; by apply Value_range, Hq|].
  destruct (findVolumeMountForPath _ _) as [mount|]; [|by intros [|]].
  destruct (findVolumeClaimTemplate _ _) as [claim|] eqn:Ec; [by apply Hr, Hc, (find_named_elem _ _ _ _ Ec)|].
  destruct (findVolume _ _) as [volume|] eqn:Ev; [|by intros [|]].
  apply find_named_elem in Ev as [Ev _]. specialize (Hv _ Ev) as [Hd He].
  destruct (vol_EmptyDir volume) as [[q|]|]; [intros [[= <-]|[= <-]]; by apply Value_range, Hd|..];
    (destruct (vol_Ephemeral volume) as [[r|]|]; [apply Hr, (He r eq_refl)|by intros [|]..]).
Qed.

(** ** Watermarks of chunk stores *)

(** The thresholds of a location are in order: writes stop after the location counts as full,
    and it counts as full after trash is removed. *)
Record watermarks_ok (spec : InstanceSpec) (location : LocationSpec) (s : StoreLocation) : Prop := {
  wm_path : dl_Path (stl_DiskLocation s) = loc_Path location ∧ dl_MediumName (stl_DiskLocation s) = loc_Medium location;
  wm_order : (0 ≤ stl_DisableWritesWatermark s ≤ stl_HighWatermark s ∧ stl_HighWatermark s ≤ stl_LowWatermark s)%Z;
  wm_trash : stl_TrashCleanupWatermark s = stl_LowWatermark s ∧ dl_MinDiskSpace (stl_DiskLocation s) = stl_LowWatermark s;
  wm_given : ∀ q, loc_LowWatermark location = Some q → stl_LowWatermark s = Quantity_Value q;
  wm_default : ∀ request, loc_LowWatermark location = None → (findQuotaForLocation location spec).1 = Some request →
    (Z.min (request / 10 - 1) (25 * 2 ^ 30) ≤ stl_LowWatermark s ≤ Z.min (request / 10) (25 * 2 ^ 30))%Z;
  wm_unknown : loc_LowWatermark location = None → (findQuotaForLocation location spec).1 = None → stl_LowWatermark s = 0%Z;
}.

Lemma storeLocation_ok spec location :
  sizes_ok spec → location ∈ is_Locations spec → watermarks_ok spec location (storeLocation spec location).
Proof.
  intros Hs Hin. unfold storeLocation. destruct (findQuotaForLocation location spec) as [request limit] eqn:E.
  set (low := match loc_LowWatermark location, request with
    | Some w, _ => Quantity_Value w | None, Some r => tenth_of r MaxChunkStoreLocationReserve | None, None => 0%Z end).
  assert (∀ r, request = Some r →
    (0 ≤ tenth_of r MaxChunkStoreLocationReserve ≤ Z.min (r / 10) (25 * 2 ^ 30))%Z ∧
    (Z.min (r / 10 - 1) (25 * 2 ^ 30) ≤ tenth_of r MaxChunkStoreLocationReserve)%Z) as Ht.
  { intros r ->. change MaxChunkStoreLocationReserve with (25 * 2 ^ 30)%Z. apply tenth_of_bounds; [|lia].
    apply (findQuota_range location spec); [done|done|]. rewrite E. by left. }
  assert (0 ≤ low)%Z as Hlow.
  { unfold low. destruct (loc_LowWatermark location) as [q|] eqn:Ew.
    - apply Value_range. by eapply sizes_locations.
    - destruct request as [r|]; [|done]. by apply (Ht r). }
  assert (∀ z, (0 ≤ z → 0 ≤ Z.quot z 2 ≤ z))%Z as Hq by (intros z Hz; rewrite Z.quot_div_nonneg by lia;
      pose proof (Z.div_mod z 2); pose proof (Z.mod_pos_bound z 2); lia).
  split; cbn [stl_DiskLocation stl_HighWatermark stl_LowWatermark stl_DisableWritesWatermark stl_TrashCleanupWatermark
    dl_Path dl_MediumName dl_MinDiskSpace]; fold low.
  - done.
  - destruct (bool_decide_reflect (low = 0%Z)) as [->|]; [done|]. cbn [negb].
    pose proof (Hq low Hlow). pose proof (Hq (Z.quot low 2)). lia.
  - done.
  - intros q Hw. unfold low. by rewrite Hw.
  - intros r Hw. rewrite E. cbn [fst]. intros Hr. unfold low. rewrite Hw, Hr. destruct (Ht r Hr). lia.
  - intros Hw. rewrite E. cbn [fst]. intros Hr. unfold low. by rewrite Hw, Hr.
Qed.

Lemma FindAllLocations_elem l locations t : l ∈ FindAllLocations locations t → l ∈ locations ∧ loc_LocationType l = t.
Proof.
  unfold FindAllLocations. rewrite list_elem_of_In, filter_In, <- list_elem_of_In.
  intros [? H]. apply bool_decide_eq_true in H. done.
Qed.

(** A negative low watermark, which the schema and the webhook accept, turns the order round. *)
Lemma negative_watermark spec location w :
  loc_LowWatermark location = Some w → (Quantity_Value w < 0)%Z →
  (stl_LowWatermark (storeLocation spec location) < stl_HighWatermark (storeLocation spec location))%Z.
Proof.
  intros Hw Hneg. unfold storeLocation. rewrite Hw. destruct (findQuotaForLocation location spec) as [request limit].
  cbn [stl_LowWatermark stl_HighWatermark].
  rewrite bool_decide_false by lia. cbn [negb]. Z.to_euclidean_division_equations. lia.
Qed.

(** C19. The disk thresholds of a data node are in order, provided that the sizes of the specification
    (quotas, low watermarks, storage of claims and volumes) are not negative and fit in int64
    ([sizes_ok]; a negative low watermark is accepted and breaks the order, [negative_watermark]): for
    every chunk store location of the specification the node gets one location, whose write, high and
    low watermarks are ordered and not negative; the low watermark is the given one, or a tenth of the
    requested size (rounded down, or one byte below, floating point being what it is) but at most
    25 GiB, or absent when the size is unknown.  A configuration without chunk store locations is not
    generated. *)
Theorem store_watermarks {U : UUIDs} g spec c :
  sizes_ok (dns_InstanceSpec spec) → getDataNodeConfigImpl g spec = Returned c →
  Forall2 (watermarks_ok (dns_InstanceSpec spec))
    (FindAllLocations (is_Locations (dns_InstanceSpec spec)) LocationTypeChunkStore)
    (dno_StoreLocations (dn_DataNode (cfg_Server c))) ∧
  dno_StoreLocations (dn_DataNode (cfg_Server c)) ≠ [].
Proof.
  intros Hs H. unfold getDataNodeConfigImpl, getDataNodeServerCarcass in H. cbv zeta in H.
  apply outcome_bind_Returned in H as (d & Hd & H). apply outcome_bind_Returned in H as (common & _ & H).
  injection H as <-. cbn [cfg_Server dn_DataNode fillStoreEngines dno_StoreLocations].
  set (inst := dns_InstanceSpec spec) in *. set (locations := FindAllLocations (is_Locations inst) LocationTypeChunkStore) in *.
  assert (dno_StoreLocations (dn_DataNode d) = storeLocation inst <$> locations ∧ locations ≠ []) as [-> Hne].
  { destruct locations as [|l ls]; [done|]. cbn [fmap list_fmap] in Hd.
    apply outcome_bind_Returned in Hd as (logging & _ & Hd). injection Hd as <-. done. }
  split; [|by destruct locations].
  rewrite <- list_fmap_compose. apply Forall2_fmap_r, Forall2_same_length_lookup. split; [done|].
  intros i x y Hx Hy. simplify_eq. assert (x ∈ is_Locations inst) as Hin.
  { apply list_elem_of_lookup_2, FindAllLocations_elem in Hx. apply Hx. }
  destruct (storeLocation_ok inst x Hs Hin). by split.
Qed.

End quotas.

(** ** Resources of exec nodes *)

Section exec_resources.
Context {Q : QuantityArith} {QL : QuantityLaws Q} {U : UUIDs}.

(** The processors of a specification, when they are a whole number. *)
Definition whole_cpu (resources : ResourceRequirements) (n : Z) : Prop :=
  q_nano (getResourceQuantity resources ResourceCPU) = (n * giga)%Z.

Lemma as_float32_whole q n :
  (0 ≤ n < 2 ^ 24)%Z → q_nano q = (n * giga)%Z →
  f_num (as_float32 q) = (n * 2 ^ f_scale (as_float32 q))%Z ∧ (0 ≤ f_scale (as_float32 q))%Z.
Proof.
  intros Hn Hq. unfold as_float32, float32_of_float64. cbn [f_num f_scale].
  pose proof (quantity_float q) as Hs. rewrite (quantity_float_whole q n) by (done || lia).
  split; [|done]. by apply round_mantissa_scaled.
Qed.

(** The value of a float that stands for a small integer. *)
Definition float_is (x : float) (n : Z) : Prop := f_num x = (n * 2 ^ f_scale x)%Z ∧ (0 ≤ f_scale x)%Z.

Lemma float_sub_whole x y n m :
  float_is x n → float_is y m → (0 ≤ n - m < 2 ^ 24)%Z → float_is (float_sub 24 x y) (n - m).
Proof.
  intros [Hx Sx] [Hy Sy] Hnm. unfold float_is, float_sub. cbn [f_num f_scale]. rewrite Hx, Hy.
  replace (n * 2 ^ f_scale x * 2 ^ f_scale y - m * 2 ^ f_scale y * 2 ^ f_scale x)%Z
    with ((n - m) * 2 ^ (f_scale x + f_scale y))%Z by (rewrite Z.pow_add_r by lia; lia).
  split; [|lia]. apply round_mantissa_scaled; lia.
Qed.

Lemma float_ltb_whole x y n m : float_is x n → float_is y m → float_ltb x y = (n <? m)%Z.
Proof.
  intros [Hx Sx] [Hy Sy]. unfold float_ltb. rewrite Hx, Hy.
  assert (0 < 2 ^ f_scale x)%Z by (apply Z.pow_pos_nonneg; lia). assert (0 < 2 ^ f_scale y)%Z by (apply Z.pow_pos_nonneg; lia).
  assert (0 < 2 ^ f_scale x * 2 ^ f_scale y)%Z by nia.
  destruct (Z.ltb_spec n m), (Z.ltb_spec (n * 2 ^ f_scale x * 2 ^ f_scale y) (m * 2 ^ f_scale y * 2 ^ f_scale x));
    try done; nia.
Qed.

Lemma five_times x n : float_is x n → (0 ≤ 5 * n < 2 ^ 24)%Z → int_of_float (float_mul 24 (mkFloat 5 0) x) = (5 * n)%Z.
Proof.
  intros [Hx Sx] Hn. unfold int_of_float, float_mul. cbn [f_num f_scale]. rewrite Hx, Z.add_0_l.
  replace (5 * (n * 2 ^ f_scale x))%Z with (5 * n * 2 ^ f_scale x)%Z by lia. rewrite round_mantissa_scaled by lia.
  rewrite Z.quot_mul; [done|]. assert (0 < 2 ^ f_scale x)%Z by (apply Z.pow_pos_nonneg; lia). lia.
Qed.

(** Five slots per processor that is left to jobs, and five at least. *)
Lemma slots_per_cpu spec limits total dedicated :
  ens_JobEnvironment spec ≫= jes_UserSlots = None →
  float_is (Deref (rl_TotalCpu limits) (mkFloat 0 0)) total →
  float_is (Deref (rl_NodeDedicatedCpu limits) (mkFloat 0 0)) dedicated →
  (0 ≤ total - dedicated < 2 ^ 20)%Z → getUserSlots spec limits = (5 * Z.max 1 (total - dedicated))%Z.
Proof.
  intros Hu Ht Hd Hr. unfold getUserSlots. rewrite Hu. cbv zeta.
  pose proof (float_sub_whole _ _ _ _ Ht Hd ltac:(lia)) as Hs. set (jobCPU := float_sub _ _ _) in *.
  assert (float_is (mkFloat 1 0) 1) as H1 by (split; cbn; lia).
  unfold float_max. rewrite (float_ltb_whole _ _ _ _ H1 Hs).
  destruct (Z.ltb_spec 1 (total - dedicated)).
  - rewrite (five_times _ _ Hs) by lia. f_equal. lia.
  - rewrite (five_times _ _ H1) by lia. f_equal. lia.
Qed.

(** What a slot location promises about its reserve. *)
Definition slot_reserve_ok (spec : InstanceSpec) (location : LocationSpec) (s : SlotLocation) : Prop :=
  dl_Path (sll_DiskLocation s) = loc_Path location ∧ sll_DiskQuota s = (findQuotaForLocation location spec).1 ∧
  ∃ reserve, sll_DiskUsageWatermark s = Some reserve ∧
    match sll_DiskQuota s with
    | Some quota => reserve = Z.min (quota / 10) (10 * 2 ^ 30)%Z ∧ (0 ≤ reserve ≤ quota)%Z
    | None => reserve = 0%Z
    end.

Lemma slotLocation_ok spec location :
  sizes_ok spec → location ∈ is_Locations spec → slot_reserve_ok spec location (slotLocation spec location).
Proof.
  intros Hs Hin. unfold slot_reserve_ok, slotLocation.
  destruct (findQuotaForLocation location spec).1 as [quota|] eqn:E; cbn; [|by eauto].
  split_and!; [done|done|]. eexists. split; [done|].
  assert (is_size quota) as Hq by (apply (findQuota_range location spec); auto). unfold is_size in Hq.
  rewrite Z.quot_div_nonneg by lia. change MaxSlotLocationReserve with (10 * 2 ^ 30)%Z.
  pose proof (Z.div_mod quota 10). pose proof (Z.mod_pos_bound quota 10). lia.
Qed.

(** The processors of a node and of its jobs. *)
Definition node_cpu (spec : ExecNodesSpec) (node jobs : Z) : Prop :=
  whole_cpu (is_Resources (ens_InstanceSpec spec)) node ∧
  match ens_JobResources spec with Some r => whole_cpu r jobs | None => jobs = 0%Z end.

Lemma exec_limits_slots spec node jobs :
  node_cpu spec node jobs → (0 ≤ node)%Z → (0 ≤ jobs)%Z → (node + jobs < 2 ^ 20)%Z →
  ens_JobEnvironment spec ≫= jes_UserSlots = None →
  getUserSlots spec (getExecNodeResourceLimits spec) =
    (5 * Z.max 1 (match ens_JobResources spec with Some _ => jobs | None => node end))%Z.
Proof.
  intros [Hn Hj] Hn0 Hj0 Hr Hu. unfold getExecNodeResourceLimits. cbv zeta.
  assert (∀ q n, q_nano q = (n * giga)%Z → (0 ≤ n < 2 ^ 20)%Z →
    float_is (Deref (if Quantity_IsZero q then None else Some (as_float32 q)) (mkFloat 0 0)) n) as Htotal.
  { intros q n Hq Hrange. destruct (Quantity_IsZero q) eqn:E; cbn.
    - apply quantity_zero in E. rewrite E in Hq. replace n with 0%Z by (unfold giga in Hq; lia). split; cbn; lia.
    - apply as_float32_whole; [lia|done]. }
  destruct (ens_JobResources spec) as [r|].
  - rewrite (slots_per_cpu _ _ (node + jobs) node); cbn [rl_TotalCpu rl_NodeDedicatedCpu]; [f_equal; lia|done| | |lia].
    + apply Htotal; [rewrite quantity_add, Hn, Hj; lia|lia].
    + apply as_float32_whole; [lia|done].
  - subst jobs. rewrite (slots_per_cpu _ _ node 0); cbn [rl_TotalCpu rl_NodeDedicatedCpu]; [f_equal; lia|done| | |lia].
    + apply Htotal; [done|lia].
    + split; cbn; lia.
Qed.

(** C20. What an exec node offers to jobs, provided that the sizes of the specification (quotas, low
    watermarks, storage of claims and volumes) are not negative and fit in int64 ([sizes_ok]): every
    slot location of the specification becomes a location of the node that reserves a tenth of its
    quota but at most 10 GiB, never more than the quota, and nothing when the size of the disk is
    unknown.  The slots are the given ones; when none are given, and the node and its jobs have whole
    processors, fewer than 2^20 together, there are five slots per processor of the jobs (of the node
    when jobs have no resources of their own), five at least. *)
Theorem exec_node_slots g spec c :
  sizes_ok (ens_InstanceSpec spec) → GetExecNodeConfig g spec = Returned c →
  let slots := jrm_UserSlots (en_JobResourceManager (cfg_Server c)) in
  Forall2 (slot_reserve_ok (ens_InstanceSpec spec))
    (FindAllLocations (is_Locations (ens_InstanceSpec spec)) LocationTypeSlots)
    (sm_Locations (exn_SlotManager (en_ExecNode (cfg_Server c)))) ∧
  match ens_JobEnvironment spec ≫= jes_UserSlots with
  | Some given => slots = Some given
  | None => ∀ node jobs, node_cpu spec node jobs → (0 ≤ node)%Z → (0 ≤ jobs)%Z → (node + jobs < 2 ^ 20)%Z →
      slots = Some (5 * Z.max 1 (match ens_JobResources spec with Some _ => jobs | None => node end))%Z
  end.
Proof.
  intros Hs H slots. subst slots.
  assert (∃ c', getExecNodeServerCarcass spec (ng_commonSpec g) = Returned c' ∧
    en_JobResourceManager (cfg_Server c) = en_JobResourceManager c' ∧
    exn_SlotManager (en_ExecNode (cfg_Server c)) = exn_SlotManager (en_ExecNode c')) as (c' & Hc' & -> & ->).
  { unfold GetExecNodeConfig, getExecNodeConfigImpl in H. apply outcome_bind_Returned in H as (c0 & H0 & H).
    apply outcome_bind_Returned in H0 as (c' & Hc' & H0). apply outcome_bind_Returned in H0 as (common & _ & H0).
    injection H0 as <-. exists c'. split; [done|]. cbn [cfg_CommonServer cfg_Server] in H.
    destruct (cc_BusClient _); returned_inv; by subst c. }
  unfold getExecNodeServerCarcass in Hc'. cbv zeta in Hc'. destruct (cacheLocation _ <$> _) as [|cache caches]; [discriminate Hc'|].
  set (locations := FindAllLocations (is_Locations (ens_InstanceSpec spec)) LocationTypeSlots) in *.
  assert (∀ l, l ∈ locations → l ∈ is_Locations (ens_InstanceSpec spec)) as Hin by (intros l Hl; by eapply FindAllLocations_elem).
  destruct locations as [|first rest]; [done|]. apply outcome_bind_Returned in Hc' as (logging & _ & Hc'). injection Hc' as <-.
  cbn [en_ExecNode getExecNode exn_SlotManager sm_Locations en_JobResourceManager getJobResourceManager jrm_UserSlots]. split.
  - set (locations := first :: rest) in *. change (Forall2 (slot_reserve_ok (ens_InstanceSpec spec)) locations
      (slotLocation (ens_InstanceSpec spec) <$> locations)).
    apply Forall2_fmap_r, Forall2_same_length_lookup. split; [done|].
    intros i x y Hx Hy. simplify_eq. apply slotLocation_ok; [done|]. apply Hin. by eapply list_elem_of_lookup_2.
  - destruct (ens_JobEnvironment spec ≫= jes_UserSlots) as [slots|] eqn:E; [unfold getUserSlots; by rewrite E|].
    intros node jobs Hcpu Hn Hj Hr. f_equal. by apply exec_limits_slots.
Qed.

End exec_resources.

(** ** Secrets of job proxies *)

Section secrets.
Context {Q : QuantityArith} {U : UUIDs}.

(** The secrets of a bus client. *)
Inductive bus_secret : (Bus → option PemBlob) → Prop :=
  | secret_CA : bus_secret bus_CA
  | secret_CertChain : bus_secret bus_CertChain
  | secret_PrivateKey : bus_secret bus_PrivateKey.

(** A job proxy gets at a secret of the node: by the same file, or by a variable that is read
    from that file and not exported to jobs. *)
Definition forwarded (vars : list EnvironmentVariable) (node proxy : PemBlob) : Prop :=
  (pem_EnvironmentVariable proxy = "" ∧ proxy = node) ∨
  mkEnvironmentVariable (pem_EnvironmentVariable proxy) None (Some (pem_FileName node)) (Some false) ∈ vars.

(** The three secrets of two keyrings, one after the other. *)
Definition forwardKeyring (node proxy : Keyring) : list EnvironmentVariable :=
  forwardSecret (kr_BusCABundle node) (kr_BusCABundle proxy)
  ++ forwardSecret (kr_BusClientCertificate node) (kr_BusClientCertificate proxy)
  ++ forwardSecret (kr_BusClientPrivateKey node) (kr_BusClientPrivateKey proxy).

Lemma forwardSecret_forwarded node proxy vars :
  (pem_EnvironmentVariable proxy = "" → proxy = node) → forwardSecret (Some node) (Some proxy) ⊆ vars →
  forwarded vars node proxy.
Proof.
  unfold forwardSecret, forwarded. destruct (bool_decide_reflect (pem_EnvironmentVariable proxy = "")); [by auto|].
  intros _ H. right. apply H. by left.
Qed.

Lemma keyrings_forwarded common s vars :
  forwardKeyring (getMountKeyring common s) (getVaultKeyring common s) ⊆ vars →
  ∀ kr, kr ∈ [kr_BusCABundle; kr_BusClientCertificate; kr_BusClientPrivateKey] →
  match kr (getMountKeyring common s), kr (getVaultKeyring common s) with
  | Some node, Some proxy => forwarded vars node proxy
  | None, None => True
  | _, _ => False
  end.
Proof.
  unfold forwardKeyring. intros Hv kr Hkr. apply list_subseteq_app_iff_l in Hv as [H1 Hv].
  apply list_subseteq_app_iff_l in Hv as [H2 H3].
  rewrite !elem_of_cons in Hkr. destruct Hkr as [->|[->|[->|[]%elem_of_nil]]];
    cbn [getMountKeyring getVaultKeyring kr_BusCABundle kr_BusClientCertificate kr_BusClientPrivateKey] in *;
    [destruct (cs_CABundle common)|destruct (rpct_TLSClientSecret _)..]; cbn [fmap option_fmap option_map] in *;
    try done; (apply forwardSecret_forwarded; [|done]); intros Hempty; vm_compute in Hempty; try discriminate Hempty; done.
Qed.

Lemma fillClusterConnection_bus g s k c :
  fillClusterConnection g s k = Returned c → cc_BusClient c = fillClusterConnectionEncryption g s k None.
Proof. unfold fillClusterConnection. intros H. returned_inv. by subst c. Qed.

(** The bus a server listens on. *)
Definition serverBus (g : NodeGenerator) (s : option RPCTransportSpec) : option Bus :=
  tr ← busTransport g s; _ ← rpct_TLSSecret tr; Some (fillBus BusZero tr (getMountKeyring (ng_commonSpec g) (Some tr))).

Lemma fillServer_connection g c s t common :
  fillServer g c s t = Returned common →
  srv_RPCPort common = car_RPCPort c ∧
  cc_BusClient (srv_ClusterConnection common) =
    fillClusterConnectionEncryption g (is_NativeTransport s) (getMountKeyring (ng_commonSpec g) (is_NativeTransport s)) None ∧
  srv_BusServer common = serverBus g (is_NativeTransport s).
Proof.
  unfold fillServer, fillCommonService. intros H. returned_inv. subst.
  apply fillClusterConnection_bus in Hx0. unfold fillBusServer, serverBus.
  destruct (busTransport g _) as [tr|]; [|done]. cbn [mbind option_bind]. by destruct (rpct_TLSSecret tr).
Qed.

(** C25. Job proxies reach the cluster the way their node does: with native encryption a job
    proxy gets a connection of its own with the encryption and the verification of the node,
    which it also uses to reach the node, and every certificate and key in it can be read: it
    is the file the node uses, or a variable filled from that file that jobs do not see.
    Without encryption there is no such connection. *)
Theorem job_proxy_secrets g spec c :
  GetExecNodeConfig g spec = Returned c →
  let proxy := exn_JobProxy (en_ExecNode (cfg_Server c)) in
  match cc_BusClient (srv_ClusterConnection (cfg_CommonServer c)) with
  | None => jp_ClusterConnection proxy = None ∧ jp_SupervisorConnection proxy = None
  | Some node => ∃ connection bus address, jp_ClusterConnection proxy = Some connection ∧ cc_BusClient connection = Some bus ∧
      jp_SupervisorConnection proxy = Some (mkBusClient address bus) ∧
      bus_EncryptionMode bus = bus_EncryptionMode node ∧ bus_VerificationMode bus = bus_VerificationMode node ∧
      ∀ secret, bus_secret secret →
        match secret node, secret bus with
        | Some p, Some p' => forwarded (jp_EnvironmentVariables proxy) p p'
        | None, None => True
        | _, _ => False
        end
  end.
Proof.
  intros H. cbv zeta. unfold GetExecNodeConfig in H. apply outcome_bind_Returned in H as (c0 & Hc0 & H). cbv zeta in H.
  destruct (cc_BusClient (srv_ClusterConnection (cfg_CommonServer c0))) as [node|] eqn:Ebus;
    [|injection H as <-; cbn [cfg_CommonServer]; rewrite Ebus; done].
  apply outcome_bind_Returned in H as (connection & Hconn & H). apply outcome_bind_Returned in H as (bus & Hbus & H).
  apply or_panic_Returned in Hbus. injection H as <-. cbn [cfg_CommonServer]. rewrite Ebus.
  cbn [cfg_Server en_set_JobProxy en_ExecNode exn_JobProxy jp_set_variables jp_ClusterConnection jp_SupervisorConnection
    jp_EnvironmentVariables].
  do 3 eexists. split_and!; [reflexivity|exact Hbus|reflexivity|..].
  all: unfold getExecNodeConfigImpl in Hc0; apply outcome_bind_Returned in Hc0 as (c' & _ & Hc0);
    apply outcome_bind_Returned in Hc0 as (common & Hcommon & Hc0); injection Hc0 as <-; cbn [cfg_CommonServer] in Ebus;
    apply fillServer_connection in Hcommon as (_ & Hcommon & _); rewrite Ebus in Hcommon;
    apply fillClusterConnection_bus in Hconn; rewrite Hbus in Hconn;
    set (s := is_NativeTransport (ens_InstanceSpec spec)) in *;
    unfold fillClusterConnectionEncryption in Hcommon, Hconn;
    (destruct (busTransport g s) as [tr|]; [|discriminate]); (destruct (rpct_TLSSecret tr); [|discriminate]);
    injection Hcommon as ->; injection Hconn as ->; cbn [bus_EncryptionMode bus_VerificationMode]; try done.
  intros secret Hsecret.
  match goal with |- context [forwarded ?v] => set (vars := v) end.
  assert (forwardKeyring (getMountKeyring (ng_commonSpec g) s) (getVaultKeyring (ng_commonSpec g) s) ⊆ vars) as Hv.
  { unfold vars, forwardKeyring. set_solver. }
  clearbody vars. pose proof (keyrings_forwarded _ _ _ Hv) as Hk.
  destruct Hsecret; cbn [bus_CA bus_CertChain bus_PrivateKey].
  - destruct (rpct_TLSRequired tr || negb (rpct_TLSInsecure tr)); [|done]. apply (Hk kr_BusCABundle). set_solver.
  - apply (Hk kr_BusClientCertificate). set_solver.
  - apply (Hk kr_BusClientPrivateKey). set_solver.
Qed.

End secrets.

(** ** The CRI service *)

(** The entry of a document at a path of keys. *)
Fixpoint any_at (path : list string) (v : Any) : option Any :=
  match path with
  | [] => Some v
  | key :: rest => match v with VMap m => m !! key ≫= any_at rest | _ => None end
  end.

Lemma any_map_head path k v l : any_at (k :: path) (any_map ((k, v) :: l)) = any_at path v.
Proof. cbn. by rewrite lookup_insert_eq. Qed.

Lemma any_map_tail path k k' v l : k' ≠ k → any_at (k :: path) (any_map ((k', v) :: l)) = any_at (k :: path) (any_map l).
Proof. intros Hk. cbn. by rewrite lookup_insert_ne by done. Qed.

(** Walk down a document whose keys are known. *)
Ltac any_walk := repeat first [progress cbn [app] | rewrite any_map_head | rewrite any_map_tail by discriminate].

Section cri_service.
Context {Q : QuantityArith} {U : UUIDs}.

(** The runtimes of the two services. *)
Lemma crio_default_runtime_there cri : is_Some (crio_runtimes cri !! crio_default_runtime cri).
Proof. unfold crio_runtimes, crio_default_runtime. destruct (has_nvidia cri); vm_compute; by eexists. Qed.

Lemma containerd_default_runtime_there cri :
  is_Some ((getContainerdRuntimes cri).1 !! (getContainerdRuntimes cri).2).
Proof. unfold getContainerdRuntimes. destruct (has_nvidia cri), (has_metax cri); vm_compute; by eexists. Qed.

(** The exec node, the container service and the tools agree on the socket: the endpoint in
    the configuration of a node with a CRI environment is the socket both kinds of service are
    configured to listen on, and the one the environment of the command line tools names; and
    the runtime a service uses by default is one it is configured with. *)
Theorem cri_endpoint_agrees g spec c env criSpec :
  GetExecNodeConfig g spec = Returned c → ens_JobEnvironment spec = Some env → jes_CRI env = Some criSpec →
  let cri := NewCRIConfigGenerator spec in
  ∃ executor socket,
    je_CriExecutor (sm_JobEnvironment (exn_SlotManager (en_ExecNode (cfg_Server c)))) = Some executor ∧
    cre_RuntimeEndpoint executor = "unix://" +:+ socket ∧ cre_ImageEndpoint executor = "unix://" +:+ socket ∧
    any_at ["crio"; "api"; "listen"] (GetCRIOConfig cri) = Some (VString socket) ∧
    any_at ["grpc"; "address"] (GetContainerdConfig cri) = Some (VString socket) ∧
    (crg_Service cri = CRIServiceContainerd ∨ crg_Service cri = CRIServiceCRIO →
     ("CONTAINER_RUNTIME_ENDPOINT", "unix://" +:+ socket) ∈ GetCRIToolsEnv cri) ∧
    (∃ name, any_at ["crio"; "runtime"; "default_runtime"] (GetCRIOConfig cri) = Some (VString name) ∧
             is_Some (any_at ["crio"; "runtime"; "runtimes"; name] (GetCRIOConfig cri))) ∧
    (∃ name, any_at ["plugins"; "io.containerd.grpc.v1.cri"; "containerd"; "default_runtime_name"] (GetContainerdConfig cri)
               = Some (VString name) ∧
             is_Some (any_at ["plugins"; "io.containerd.grpc.v1.cri"; "containerd"; "runtimes"; name] (GetContainerdConfig cri))).
Proof.
  intros H Henv Hcri cri.
  assert (∃ slots medium manager, exn_SlotManager (en_ExecNode (cfg_Server c)) =
    exn_SlotManager (getExecNode spec (ng_commonSpec g) slots medium manager)) as (slots & medium & manager & ->).
  { unfold GetExecNodeConfig, getExecNodeConfigImpl in H. apply outcome_bind_Returned in H as (c0 & H0 & H).
    apply outcome_bind_Returned in H0 as (c' & Hc' & H0). apply outcome_bind_Returned in H0 as (common & _ & H0).
    injection H0 as <-. unfold getExecNodeServerCarcass in Hc'. cbv zeta in Hc'.
    destruct (cacheLocation _ <$> _); [discriminate Hc'|]. destruct (FindAllLocations _ LocationTypeSlots); [discriminate Hc'|].
    returned_inv. subst c'. cbn [cfg_CommonServer cfg_Server] in H.
    destruct (cc_BusClient _); returned_inv; subst c; do 3 eexists; reflexivity. }
  cbn [exn_SlotManager getExecNode sm_JobEnvironment]. unfold fillJobEnvironment. cbv zeta. rewrite Henv, Hcri.
  cbn [fillJobEnvironmentCRI fe_JobEnvironment je_CriExecutor]. do 2 eexists. split; [reflexivity|].
  cbn [cre_RuntimeEndpoint cre_ImageEndpoint]. fold cri. clearbody cri. split_and!; [reflexivity|reflexivity|..].
  - unfold GetCRIOConfig. cbv zeta. by any_walk.
  - unfold GetContainerdConfig. destruct (getContainerdRuntimes cri). cbv zeta. by any_walk.
  - unfold GetCRIToolsEnv. intros [->| ->]; set_solver.
  - exists (crio_default_runtime cri). unfold GetCRIOConfig. cbv zeta. any_walk. split; [done|].
    destruct (crio_default_runtime_there cri) as [r Hr]. cbn. rewrite Hr. by eexists.
  - pose proof (containerd_default_runtime_there cri) as [r Hr]. unfold GetContainerdConfig.
    destruct (getContainerdRuntimes cri) as [runtimes name]. cbv zeta. cbn [fst snd] in Hr. exists name. any_walk.
    split; [done|]. cbn. rewrite Hr. by eexists.
Qed.

End cri_service.

(** ** Examples *)

Definition gib (n : Z) : Quantity := mkQuantity (n * 2 ^ 30 * giga).

Definition example_location (t : LocationType) (path : string) : LocationSpec := mkLocationSpec t path "default" None None None.

(** A node with a disk of 5 GiB and a disk of unknown size. *)
Definition example_node_instance (locations : list LocationSpec) : InstanceSpec :=
  mkInstanceSpec PodSpecZero None [volumeMount "node-data" "/yt/node-data" false; volumeMount "hostpath" "/yt/host" false]
    1 None locations None [] None None [mkVolume "hostpath" None None]
    (mkResourceRequirements {[ ResourceCPU := mkQuantity (4 * giga) ]} ∅)
    [mkEmbeddedPersistentVolumeClaim "node-data" (mkResourceRequirements {[ ResourceStorage := gib 5 ]} ∅)] None None [] [] None.

Definition example_data_nodes : DataNodesSpec :=
  mkDataNodesSpec (example_node_instance [ example_location LocationTypeChunkStore "/yt/node-data/chunk-store";
    example_location LocationTypeChunkStore "/yt/host/chunk-store"; example_location LocationTypeLogs "/yt/host/logs" ])
    ClusterNodesSpecZero "default".

(** Jobs in containers, with two processors of their own. *)
Definition example_exec_nodes : ExecNodesSpec :=
  mkExecNodesSpec (example_node_instance [ example_location LocationTypeChunkCache "/yt/node-data/chunk-cache";
    example_location LocationTypeSlots "/yt/node-data/slots"; example_location LocationTypeImageCache "/yt/host/images" ])
    ClusterNodesSpecZero "default" [] [] true None [] None
    (Some (mkResourceRequirements ∅ {[ ResourceCPU := mkQuantity (2 * giga) ]})) None
    (Some (mkJobEnvironmentSpec None None (Some CRIJobEnvironmentSpecZero) None None None None)) None.

Definition example_tls : RPCTransportSpec := mkRPCTransportSpec (Some "tls") (Some "tls-client") true false "".

Definition example_secure_common : CommonSpec :=
  mkCommonSpec "core:1" None None None (Some example_tls) false ∅ None None None
    (Some (mkFileObjectReference "" "ca" "ca.crt" [])) None false true None None false false [].

Definition example_secure_generator : NodeGenerator :=
  NewRemoteNodeGenerator example_remote "remote-nodes" "cluster.local" example_secure_common.

Lemma requirements_single name q : in_int64 q → requirements_ok (mkResourceRequirements {[ name := q ]} ∅).
Proof. intros H. split; cbn; [by apply map_Forall_singleton|apply map_Forall_empty]. Qed.

Lemma example_sizes locations :
  Forall (λ l, loc_Quota l = None ∧ loc_LowWatermark l = None) locations → sizes_ok (example_node_instance locations).
Proof.
  rewrite Forall_forall. intros Hl. split; cbn.
  - intros l [Hq Hw]%Hl. split; congruence.
  - intros c Hc. apply list_elem_of_singleton in Hc as ->. apply requirements_single. unfold in_int64, gib, giga. cbn [q_nano]. lia.
  - intros v Hv. apply list_elem_of_singleton in Hv as ->. done.
Qed.

Lemma store_watermarks_witness :
  ∃ c s s', getDataNodeConfigImpl example_secure_generator example_data_nodes = Returned c ∧
    dno_StoreLocations (dn_DataNode (cfg_Server c)) = [s; s'] ∧
    stl_LowWatermark s = 536870912%Z ∧ stl_LowWatermark s' = 0%Z ∧
    watermarks_ok (dns_InstanceSpec example_data_nodes) (example_location LocationTypeChunkStore "/yt/node-data/chunk-store") s.
Proof.
  assert (returned_with (λ c, bool_decide (stl_LowWatermark <$> dno_StoreLocations (dn_DataNode (cfg_Server c))
    = [536870912; 0]%Z)) (getDataNodeConfigImpl example_secure_generator example_data_nodes) = true) as Hret by (vm_compute; reflexivity).
  apply returned_with_true in Hret as (c & Hc & Hlow). cbv beta in Hlow. apply bool_decide_eq_true in Hlow.
  destruct (store_watermarks example_secure_generator example_data_nodes c
    ltac:(apply example_sizes; repeat constructor) Hc) as [Hw _].
  destruct (dno_StoreLocations (dn_DataNode (cfg_Server c))) as [|s [|s' [|? ?]]] eqn:Hs; try discriminate Hlow.
  injection Hlow as H1 H2. exists c, s, s'. split; [exact Hc|]. split; [exact Hs|]. split; [exact H1|]. split; [exact H2|].
  apply Forall2_cons in Hw as [Hs1 _]. exact Hs1.
Defined.

Lemma exec_node_slots_witness :
  ∃ c, GetExecNodeConfig example_secure_generator example_exec_nodes = Returned c ∧
    jrm_UserSlots (en_JobResourceManager (cfg_Server c)) = Some 10%Z ∧
    Forall2 (slot_reserve_ok (ens_InstanceSpec example_exec_nodes)) [example_location LocationTypeSlots "/yt/node-data/slots"]
      (sm_Locations (exn_SlotManager (en_ExecNode (cfg_Server c)))).
Proof.
  assert (returned_with (λ _, true) (GetExecNodeConfig example_secure_generator example_exec_nodes) = true) as Hret by (vm_compute; reflexivity).
  apply returned_with_true in Hret as (c & Hc & _).
  destruct (exec_node_slots example_secure_generator example_exec_nodes c
    ltac:(apply example_sizes; repeat constructor) Hc) as [Hw Hu].
  exists c. split; [exact Hc|]. split; [|exact Hw].
  apply (Hu 4%Z 2%Z); [split; [vm_compute; reflexivity|unfold whole_cpu; vm_compute; reflexivity]|lia|lia|lia].
Defined.

Lemma job_proxy_secrets_witness :
  ∃ c connection bus, GetExecNodeConfig example_secure_generator example_exec_nodes = Returned c ∧
    jp_ClusterConnection (exn_JobProxy (en_ExecNode (cfg_Server c))) = Some connection ∧
    cc_BusClient connection = Some bus ∧ bus_EncryptionMode bus = EncryptionModeRequired.
Proof.
  assert (returned_with
    (λ c, bool_decide (bus_EncryptionMode <$> cc_BusClient (srv_ClusterConnection (cfg_CommonServer c)) = Some EncryptionModeRequired))
    (GetExecNodeConfig example_secure_generator example_exec_nodes) = true) as Hret by (vm_compute; reflexivity).
  apply returned_with_true in Hret as (c & Hc & Hm). cbv beta in Hm. apply bool_decide_eq_true in Hm.
  pose proof (job_proxy_secrets example_secure_generator example_exec_nodes c Hc) as H. cbv zeta in H.
  destruct (cc_BusClient (srv_ClusterConnection (cfg_CommonServer c))) as [node|]; [|discriminate Hm]. injection Hm as Hm.
  destruct H as (connection & bus & address & H1 & H2 & _ & H3 & _).
  exists c, connection, bus. split; [exact Hc|]. split; [exact H1|]. split; [exact H2|]. rewrite H3. exact Hm.
Defined.

Lemma cri_endpoint_agrees_witness :
  ∃ c executor socket, GetExecNodeConfig example_secure_generator example_exec_nodes = Returned c ∧
    je_CriExecutor (sm_JobEnvironment (exn_SlotManager (en_ExecNode (cfg_Server c)))) = Some executor ∧
    cre_RuntimeEndpoint executor = "unix://" +:+ socket ∧
    any_at ["grpc"; "address"] (GetContainerdConfig (NewCRIConfigGenerator example_exec_nodes)) = Some (VString socket).
Proof.
  assert (returned_with (λ _, true) (GetExecNodeConfig example_secure_generator example_exec_nodes) = true) as Hret by (vm_compute; reflexivity).
  apply returned_with_true in Hret as (c & Hc & _).
  destruct (cri_endpoint_agrees example_secure_generator example_exec_nodes c
    (mkJobEnvironmentSpec None None (Some CRIJobEnvironmentSpecZero) None None None None) CRIJobEnvironmentSpecZero Hc
    eq_refl eq_refl) as (executor & socket & H1 & H2 & _ & _ & H3 & _).
  exists c, executor, socket. split; [exact Hc|]. split; [exact H1|]. split; [exact H2|exact H3].
Defined.

(** ** Two surprises *)

(** The mount of a location is the first one whose path is a prefix of it as text, be it of a
    directory with a longer name: the second disk gets the quota of the first. *)
Lemma mount_of_sibling (claim1 claim2 : ResourceRequirements) :
  let spec := mkInstanceSpec PodSpecZero None [volumeMount "disk1" "/yt/disk1" false; volumeMount "disk10" "/yt/disk10" false]
    1 None [] None [] None None [] ResourceRequirementsZero
    [mkEmbeddedPersistentVolumeClaim "disk1" claim1; mkEmbeddedPersistentVolumeClaim "disk10" claim2] None None [] [] None in
  findVolumeMountForPath "/yt/disk10/chunk-store" spec = Some (volumeMount "disk1" "/yt/disk1" false) ∧
  findQuotaForLocation (example_location LocationTypeChunkStore "/yt/disk10/chunk-store") spec =
    (storage_value (rr_Requests claim1), storage_value (rr_Limits claim1)).
Proof. split; reflexivity. Qed.

(** An agent that is asked for is not used unless a runtime is given as well. *)
Lemma gpu_agent_needs_runtime spec m :
  ens_GPUManager spec = Some m → gms_GPUInfoProvider m = Some GPUInfoProviderGPUAgent →
  ens_JobEnvironment spec ≫= jes_Runtime = None → gpu_InfoSourceType (getGpuManager spec) = GPUInfoProviderNvidiaSMI.
Proof. intros Hm Hp Hr. unfold getGpuManager. rewrite Hm, Hr. cbn [mbind option_bind]. by rewrite Hp. Qed.
