(* ===== verification/ServerConfigs.v ===== *)
(** * Configurations of servers and services
    (src/pkg/ytconfig/master.go, proxy.go, scheduler.go, discovery.go, master_caches.go, cypress_proxies.go,
    query_tracker.go, queue_agent.go, bundle_controller.go, tablet_balancer.go, offshore_data_gateways.go,
    strawberry.go, ui.go, yql_agent.go and their part of generator.go)

    Every server gets the common part and the fields of its own kind.  A configuration is the
    document itself; its encoding as YSON text is not part of the model. *)

From S2P Require Import Prelude Ordered Kubernetes ApiTypes Consts Labeller Timbertruck Values Logging Connection CriConfig NodeConfig.

(** ** Documents *)

Record HydraManager := mkHydraManager {
  hm_MaxChangelogCountToKeep : Z;
  hm_MaxChangelogSizeToKeep : option Z;
  hm_MaxSnapshotCountToKeep : Z;
  hm_MaxSnapshotSizeToKeep : option Z;
}.

Record CypressManager := mkCypressManager {
  cm_DefaultTableReplicationFactor : Z;
  cm_DefaultFileReplicationFactor : Z;
  cm_DefaultJournalReplicationFactor : Z;
  cm_DefaultJournalReadQuorum : Z;
  cm_DefaultJournalWriteQuorum : Z;
}.

Record MasterServer := mkMasterServer {
  ma_BusClient : option Bus;
  ma_Snapshots : string;
  ma_Changelogs : string;
  ma_ChangelogsIOEngine : option IOEngine;
  ma_UseNewHydra : bool;
  ma_HydraManager : HydraManager;
  ma_CypressManager : CypressManager;
  ma_PrimaryMaster : MasterCell;
  ma_SecondaryMasters : list MasterCell;
  ma_DiscoveryServer : option (list string);
}.

(** What the skeleton of a master sets. *)
Record MasterCarcass := mkMasterCarcass {
  mac_Carcass : Carcass;
  mac_HydraManager : HydraManager;
  mac_Snapshots : string;
  mac_Changelogs : string;
}.

Record OauthService := mkOauthService {
  oa_Host : string;
  oa_Port : Z;
  oa_Secure : bool;
  oa_UserInfoEndpoint : string;
  oa_UserInfoLoginField : string;
  oa_UserInfoErrorField : option string;
  oa_LoginTransformations : list (string * string);
}.

(** An authenticator: whether it creates users. *)
Record OauthAuthenticator := mkOauthAuthenticator { oaa_CreateUserIfNotExists : option bool }.

Record Coordinator := mkCoordinator {
  co_Enable : bool;
  co_DefaultRoleFilter : string;
  co_ShowPorts : option bool;
}.

Record HTTPAuth := mkHTTPAuth {
  ha_Auth : Auth;
  ha_OauthService : option OauthService;
  ha_OauthCookieAuthenticator : option OauthAuthenticator;
  ha_OauthTokenAuthenticator : option OauthAuthenticator;
}.

(** The period is in nanoseconds. *)
Record HTTPSServer := mkHTTPSServer {
  hs_Port : Z;
  hs_CertChain : PemBlob;
  hs_PrivateKey : PemBlob;
  hs_UpdatePeriod : Z;
}.

Record Driver := mkDriver { dr_APIVersion : Z; dr_DefaultRpcProxyAddressType : option string }.

Record HTTPProxyServer := mkHTTPProxyServer {
  hp_Port : Z;
  hp_Auth : HTTPAuth;
  hp_Coordinator : Coordinator;
  hp_Driver : Driver;
  hp_Role : string;
  hp_MemoryLimits : option Z;
  hp_HTTPSServer : option HTTPSServer;
  hp_ChytHttpServer : option Z;
  hp_ChytHttpsServer : option HTTPSServer;
}.

Record RPCProxyServer := mkRPCProxyServer {
  rp_Role : string;
  rp_MemoryLimits : option Z;
  rp_Secure : bool;
  rp_OauthService : option OauthService;
  rp_OauthTokenAuthenticator : option OauthAuthenticator;
  rp_RequireAuthentication : option bool;
  rp_PublicRPCPort : Z;
  rp_PublicBusServer : option Bus;
}.

Record KafkaProxyServer := mkKafkaProxyServer { kp_Role : string; kp_Port : Z; kp_Auth : Auth }.

Record ControllerAgent := mkControllerAgent {
  ca_EnableTmpfs : bool;
  ca_UseColumnarStatisticsDefault : bool;
  ca_LowCpuUsageAlertStatisics : list string;
}.

Record DiscoveryServer := mkDiscoveryServer { di_BusClient : option Bus; di_Addresses : list string }.

Record QueueAgentServer := mkQueueAgentServer { qa_BusClient : option Bus; qa_User : string; qa_Stage : string }.

Record QueryTrackerServer := mkQueryTrackerServer { qt_User : string; qt_CreateStateTablesOnStartup : bool }.

Record BundleController := mkBundleController {
  bcs_Cluster : string;
  bcs_RootPath : string;
  bcs_BundleScanPeriod : Z;
  bcs_HulkAllocationsPath : string;
  bcs_HulkAllocationsHistoryPath : string;
  bcs_HulkDeallocationsPath : string;
  bcs_HulkDeallocationsHistoryPath : string;
  bcs_HasInstanceAllocatorService : bool;
  bcs_EnableSpareNodeAssignment : bool;
  bcs_LockPath : string;
  bcs_EnableBundleController : bool;
  bcs_EnableCellBalancer : bool;
}.

Record NativeClientConfig := mkNativeClientConfig {
  nc_AddressResolver : AddressResolver;
  nc_Logging : Logging;
  nc_Driver : Driver;
  nc_ClusterConnection : ClusterConnection;
}.

(** Versions of images: the semver and reference packages. *)
Class ImageVersions := {
  Version : Type;
  ParseVersion : string → option Version;
  LessThan : Version → Version → bool;
  ExtractImageTag : string → string;
}.

Definition DefaultMasterChangelogsCountToKeep : Z := 10.
Definition DefaultMasterSnapshotsCountToKeep : Z := 10.
Definition AddressTypePublicRPC := "public_rpc".
Definition HTTPSSecretUpdatePeriod : Z := 60 * second.
Definition StrawberryControllerUserName := "robot-strawberry-controller".
Definition YQLAgentUserName := "yql_agent".
Definition YQLAgentExecUserName := "yql_agent_exec".
Definition DefaultStrawberryControllerFamily := "chyt".
Definition GetDefaultStrawberryControllerFamilies : list string := ["chyt"; "jupyt"].

Section servers.
Context {Q : QuantityArith} {U : UUIDs}.

(** The skeleton of a server that listens on a port. *)
Definition serverCarcass (rpcPort monitoringPort : Z) (component : ComponentType) (spec : InstanceSpec)
    (loggers : list TextLoggerSpec) : outcome Carcass :=
  logging ← serviceLogging component spec loggers;
  mret (mkCarcass rpcPort (Deref (is_MonitoringPort spec) monitoringPort) logging).

(** ** Masters *)

Definition getMasterServerCarcass (spec : MastersSpec) : outcome MasterCarcass :=
  let inst := ms_InstanceSpec spec in
  match FindFirstLocation (is_Locations inst) LocationTypeMasterChangelogs with
  | None => Failed "error creating master config: changelog location not found"
  | Some changelogs =>
      match FindFirstLocation (is_Locations inst) LocationTypeMasterSnapshots with
      | None => Failed "error creating master config: snapshot location not found"
      | Some snapshots =>
          c ← serverCarcass MasterRPCPort MasterMonitoringPort MasterType inst defaultLoggers;
          mret (mkMasterCarcass c
            (mkHydraManager (Deref (ms_MaxChangelogCountToKeep spec) DefaultMasterChangelogsCountToKeep)
               (Quantity_Value <$> loc_Quota changelogs)
               (Deref (ms_MaxSnapshotCountToKeep spec) DefaultMasterSnapshotsCountToKeep)
               (Quantity_Value <$> loc_Quota snapshots))
            (loc_Path snapshots) (loc_Path changelogs))
      end
  end.

(** Table and file factor, journal factor, read and write quorum. *)
Definition configureMasterServerCypressManager (maxReplicationFactor : Z) : CypressManager :=
  if (maxReplicationFactor <=? 1)%Z then mkCypressManager 1 1 1 1 1
  else if maxReplicationFactor == 2%Z then mkCypressManager 2 2 2 2 2
  else if ((3 <=? maxReplicationFactor) && (maxReplicationFactor <? 5))%Z then mkCypressManager 3 3 3 2 2
  else mkCypressManager 3 3 5 3 3.

(** Only the roles of a descriptor are set. *)
Definition GetMasterCellDescriptors (primary : MastersSpec) (secondary : list MastersSpec) : gmap string (list MasterCellRole) :=
  foldl (λ descriptors cell, <[fmt_d (ms_CellTag cell) := GetMasterCellRoles (ms_Roles cell) false true]> descriptors)
    (match ms_Roles primary with Some roles => {[ fmt_d (ms_CellTag primary) := roles ]} | None => ∅ end) secondary.

Definition srv_set_SecondaryMasters (cells : list MasterCell) (c : CommonServer) : CommonServer :=
  let k := srv_ClusterConnection c in
  mkCommonServer (srv_AddressResolver c) (srv_Stockpile c) (srv_SolomonExporter c) (srv_Logging c) (srv_MonitoringPort c)
    (srv_RPCPort c) (srv_BusServer c) (srv_TimestampProviders c)
    (mkClusterConnection (cc_ClusterName k) (cc_PrimaryMaster k) cells (cc_DiscoveryConnection k) (cc_BusClient k)
       (cc_MasterCache k) (cc_TimestampProviders k) (cc_CypressProxy k))
    (srv_CypressAnnotations c) (srv_Jaeger c).

Definition srv_set_LocalhostNameOverride (name : string) (c : CommonServer) : CommonServer :=
  let r := srv_AddressResolver c in
  mkCommonServer (mkAddressResolver (ar_EnableIPv4 r) (ar_EnableIPv6 r) (ar_KeepSocket r) (ar_ForceTCP r) (ar_Retries r)
      (Some name))
    (srv_Stockpile c) (srv_SolomonExporter c) (srv_Logging c) (srv_MonitoringPort c)
    (srv_RPCPort c) (srv_BusServer c) (srv_TimestampProviders c) (srv_ClusterConnection c)
    (srv_CypressAnnotations c) (srv_Jaeger c).

(** The name a master on the host network goes by. *)
Definition masterNameOverride (g : NodeGenerator) (spec : MastersSpec) : outcome string :=
  let l := GetMasterLabeller g (ms_CellTag spec) in
  service ← or_panic (GetHeadlessServiceName l);
  mret ("{" +:+ ENV_K8S_POD_NAME +:+ "}." +:+ service +:+ "." +:+ lab_Namespace l +:+ ".svc." +:+ lab_ClusterDomain l).

Definition getMasterConfigImpl (g : Generator) (spec : MastersSpec) : outcome (Configured MasterServer) :=
  let n := gen_NodeGenerator g in
  c ← getMasterServerCarcass spec;
  common ← fillCommonService n (mac_Carcass c) (ms_InstanceSpec spec) MasterType;
  unregistered ← fillMasterCells n (ng_unregisteredMasters n);
  let common := srv_set_SecondaryMasters (cc_SecondaryMasters (srv_ClusterConnection common) ++ unregistered) common in
  let common := fillBusServer n (is_NativeTransport (ms_InstanceSpec spec)) common in
  primary ← fillMasterCell n (ng_primaryMaster n);
  addresses ← getDiscoveryAddresses n;
  let server := mkMasterServer (cc_BusClient (srv_ClusterConnection common)) (mac_Snapshots c) (mac_Changelogs c)
    (fillIOEngine n None) true (mac_HydraManager c) (configureMasterServerCypressManager (GetMaxReplicationFactor n))
    primary (cc_SecondaryMasters (srv_ClusterConnection common))
    (match addresses with [] => None | _ => Some addresses end) in
  if Deref (ps_HostNetwork (is_PodSpec (ms_InstanceSpec spec))) (Deref (ps_HostNetwork (spec_PodSpec (gen_spec g))) false)
     && (length (ms_HostAddresses spec) =? 0)%nat
  then name ← masterNameOverride n spec; mret (mkConfigured (srv_set_LocalhostNameOverride name common) server)
  else mret (mkConfigured common server).

(** ** Proxies *)

Definition fillDriverConfig (g : NodeGenerator) : Driver :=
  mkDriver 4 (if cf_RPCProxyHavePublicAddress (ng_clusterFeatures g) then Some AddressTypePublicRPC else None).

Definition getOauthService (spec : OauthServiceSpec) : OauthService :=
  mkOauthService (oas_Host spec) (oas_Port spec) (oas_Secure spec) (oui_Endpoint (oas_UserInfo spec))
    (oui_LoginField (oas_UserInfo spec)) (oui_ErrorField (oas_UserInfo spec))
    ((λ tr, (olt_MatchPattern tr, olt_Replacement tr)) <$> oui_LoginTransformations (oas_UserInfo spec)).

Definition createUsers (spec : OauthServiceSpec) : OauthAuthenticator :=
  mkOauthAuthenticator (negb <$> oas_DisableUserCreation spec).

(** Credentials of the HTTPS secret. *)
Definition httpsServer (port : Z) : HTTPSServer :=
  mkHTTPSServer port (pem_file (path_Join2 HTTPSSecretMountPoint TLSCertKey))
    (pem_file (path_Join2 HTTPSSecretMountPoint TLSPrivateKeyKey)) HTTPSSecretUpdatePeriod.

Definition memoryLimits (spec : InstanceSpec) : option Z :=
  let memory := getResourceQuantity (is_Resources spec) ResourceMemory in
  if Quantity_IsZero memory then None else Some (Quantity_Value memory).

(** [x != nil && *x != y]. *)
Definition given_not (x : option Z) (y : Z) : bool := match x with Some x => x != y | None => false end.

Definition getHTTPProxyServerCarcass (spec : HTTPProxiesSpec) : outcome (Carcass * HTTPProxyServer) :=
  c ← serverCarcass HTTPProxyRPCPort HTTPProxyMonitoringPort HttpProxyType (hps_InstanceSpec spec) defaultLoggers;
  mret (c, mkHTTPProxyServer (Deref (hps_HttpPort spec) HTTPProxyHTTPPort) (mkHTTPAuth (mkAuth true true) None None None)
    (mkCoordinator true DefaultHTTPProxyRole
       (if given_not (hps_HttpPort spec) HTTPProxyHTTPPort || given_not (hps_HttpsPort spec) HTTPProxyHTTPSPort
        then Some true else None))
    (mkDriver 0 None) (hps_Role spec) (memoryLimits (hps_InstanceSpec spec))
    ((λ _, httpsServer (Deref (hps_HttpsPort spec) HTTPProxyHTTPSPort)) <$> hps_HTTPSSecret spec) None None).

(** The HTTPS server is given the port of the HTTP server. *)
Definition fillChytServer (spec : HTTPProxiesSpec) : option Z * option HTTPSServer :=
  let chytProxy := Deref (hps_ChytProxy spec) CHYTProxySpecZero in
  (Some (Deref (chp_HttpPort chytProxy) HTTPProxyChytHttpPort),
   (λ _, httpsServer (Deref (chp_HttpPort chytProxy) HTTPProxyChytHttpsPort)) <$> hps_HTTPSSecret spec).

Definition getHTTPProxyConfigImpl (g : Generator) (spec : HTTPProxiesSpec) : outcome (Configured HTTPProxyServer) :=
  let n := gen_NodeGenerator g in
  '(carcass, c) ← getHTTPProxyServerCarcass spec;
  common ← fillServer n carcass (hps_InstanceSpec spec) HttpProxyType;
  let driver := mkDriver 0 (dr_DefaultRpcProxyAddressType (fillDriverConfig n)) in
  let auth := match spec_OauthService (gen_spec g) with
    | Some oauth => mkHTTPAuth (ha_Auth (hp_Auth c)) (Some (getOauthService oauth)) (Some (createUsers oauth))
                      (Some (createUsers oauth))
    | None => hp_Auth c end in
  let '(chytHttp, chytHttps) := if cf_HTTPProxyHaveChytAddress (ng_clusterFeatures n) then fillChytServer spec else (None, None) in
  mret (mkConfigured common (mkHTTPProxyServer (hp_Port c) auth (hp_Coordinator c) driver (hp_Role c) (hp_MemoryLimits c)
    (hp_HTTPSServer c) chytHttp chytHttps)).

Definition getRPCProxyServerCarcass (spec : RPCProxiesSpec) : outcome Carcass :=
  serverCarcass RPCProxyInternalRPCPort RPCProxyMonitoringPort RpcProxyType (rps_InstanceSpec spec) defaultLoggers.

(** A bus with the certificate of the public address. *)
Definition fillPublicBus (t : RPCTransportSpec) (b : Bus) : Bus :=
  match rpct_TLSSecret t with
  | None => b
  | Some _ =>
      mkBus (if rpct_TLSRequired t then EncryptionModeRequired else EncryptionModeOptional)
        (Some (pem_file (path_Join2 RPCProxySecretMountPoint TLSCertKey)))
        (Some (pem_file (path_Join2 RPCProxySecretMountPoint TLSPrivateKeyKey)))
        (bus_CipherList b) (bus_CA b) (bus_VerificationMode b) (bus_PeerAlternativeHostName b)
  end.

Definition srv_set_RPCPort (port : Z) (c : CommonServer) : CommonServer :=
  mkCommonServer (srv_AddressResolver c) (srv_Stockpile c) (srv_SolomonExporter c) (srv_Logging c) (srv_MonitoringPort c)
    port (srv_BusServer c) (srv_TimestampProviders c) (srv_ClusterConnection c) (srv_CypressAnnotations c) (srv_Jaeger c).

Definition getRPCProxyConfigImpl (g : Generator) (spec : RPCProxiesSpec) : outcome (Configured RPCProxyServer) :=
  let n := gen_NodeGenerator g in
  c ← getRPCProxyServerCarcass spec;
  common ← fillCommonService n c (rps_InstanceSpec spec) RpcProxyType;
  let '(common, port, publicBus) :=
    if cf_RPCProxyHavePublicAddress (ng_clusterFeatures n) then
      (fillBusServer n (is_NativeTransport (rps_InstanceSpec spec)) common, RPCProxyPublicRPCPort,
       Some (fillPublicBus (rps_Transport spec) BusZero))
    else
      let common := srv_set_RPCPort RPCProxyPublicRPCPort common in
      (match rpct_TLSSecret (rps_Transport spec) with
       | Some _ => srv_set_BusServer (Some (fillPublicBus (rps_Transport spec) (default BusZero (srv_BusServer common)))) common
       | None => common end, 0%Z, None) in
  let oauth := spec_OauthService (gen_spec g) in
  mret (mkConfigured common (mkRPCProxyServer (rps_Role spec) (memoryLimits (rps_InstanceSpec spec)) true
    (getOauthService <$> oauth) (createUsers <$> oauth) ((λ _, true) <$> oauth) port publicBus)).

Definition getTCPProxyServerCarcass (spec : TCPProxiesSpec) : outcome Carcass :=
  serverCarcass 0 TCPProxyMonitoringPort TcpProxyType (tps_InstanceSpec spec) defaultLoggers.

(** A TCP proxy has no RPC port. *)
Definition getTCPProxyConfigImpl (g : Generator) (spec : TCPProxiesSpec) : outcome (Configured string) :=
  c ← getTCPProxyServerCarcass spec;
  common ← fillCommonService (gen_NodeGenerator g) c (tps_InstanceSpec spec) TcpProxyType;
  mret (mkConfigured common (tps_Role spec)).

Definition getKafkaProxyServerCarcass (spec : KafkaProxiesSpec) : outcome Carcass :=
  serverCarcass KafkaProxyRPCPort KafkaProxyMonitoringPort KafkaProxyType (kps_InstanceSpec spec)
    [defaultInfoLoggerSpec; defaultStderrLoggerSpec; defaultDebugLoggerSpec].

Definition getKafkaProxyConfigImpl (g : Generator) (spec : KafkaProxiesSpec) : outcome (Configured KafkaProxyServer) :=
  c ← getKafkaProxyServerCarcass spec;
  common ← fillCommonService (gen_NodeGenerator g) c (kps_InstanceSpec spec) KafkaProxyType;
  mret (mkConfigured common (mkKafkaProxyServer (kps_Role spec) KafkaProxyKafkaPort (mkAuth true true))).

(** ** Scheduling *)

Definition getSchedulerServerCarcass (spec : InstanceSpec) : outcome Carcass :=
  serverCarcass SchedulerRPCPort SchedulerMonitoringPort SchedulerType spec defaultLoggers.

(** Whether operations are archived; [None] leaves the default. *)
Definition getSchedulerConfigImpl (g : Generator) (spec : InstanceSpec) : outcome (Configured (option bool)) :=
  c ← getSchedulerServerCarcass spec;
  common ← fillServer (gen_NodeGenerator g) c spec SchedulerType;
  mret (mkConfigured common (match spec_TabletNodes (gen_spec g) with [] => Some false | _ => None end)).

Definition getControllerAgentServerCarcass (spec : InstanceSpec) : outcome Carcass :=
  serverCarcass ControllerAgentRPCPort ControllerAgentMonitoringPort ControllerAgentType spec defaultLoggers.

Definition getControllerAgentConfigImpl (g : Generator) (spec : InstanceSpec) : outcome (Configured ControllerAgent) :=
  c ← getControllerAgentServerCarcass spec;
  common ← fillServer (gen_NodeGenerator g) c spec ControllerAgentType;
  mret (mkConfigured common (mkControllerAgent true true ["/job/cpu/system"; "/job/cpu/user"])).

(** ** Discovery and caches *)

Definition getDiscoveryServerCarcass (spec : InstanceSpec) : outcome Carcass :=
  serverCarcass DiscoveryRPCPort DiscoveryMonitoringPort DiscoveryType spec defaultLoggers.

Definition getDiscoveryConfigImpl (g : Generator) (spec : InstanceSpec) : outcome (Configured DiscoveryServer) :=
  c ← getDiscoveryServerCarcass spec;
  common ← fillServer (gen_NodeGenerator g) c spec DiscoveryType;
  addresses ← getDiscoveryAddresses (gen_NodeGenerator g);
  mret (mkConfigured common (mkDiscoveryServer (cc_BusClient (srv_ClusterConnection common)) addresses)).

(** Servers whose own part is the bus client of the cluster connection. *)
Definition withBusClient (common : CommonServer) : Configured (option Bus) :=
  mkConfigured common (cc_BusClient (srv_ClusterConnection common)).

Definition getMasterCachesCarcass (spec : MasterCachesSpec) : outcome Carcass :=
  serverCarcass MasterCachesRPCPort MasterCachesMonitoringPort MasterCacheType (mcs_InstanceSpec spec) defaultLoggers.

Definition getMasterCachesConfigImpl (g : Generator) (spec : MasterCachesSpec) : outcome (Configured (option Bus)) :=
  c ← getMasterCachesCarcass spec;
  common ← fillServer (gen_NodeGenerator g) c (mcs_InstanceSpec spec) MasterCacheType;
  mret (withBusClient common).

Definition getCypressProxiesCarcass (spec : CypressProxiesSpec) : Carcass :=
  mkCarcass CypressProxyRPCPort (Deref (is_MonitoringPort (cps_InstanceSpec spec)) CypressProxyMonitoringPort)
    (createLogging (cps_InstanceSpec spec) "cypress-proxy" defaultLoggers).

Definition getCypressProxiesConfigImpl (g : Generator) (spec : CypressProxiesSpec) : outcome (Configured (option Bus)) :=
  common ← fillServer (gen_NodeGenerator g) (getCypressProxiesCarcass spec) (cps_InstanceSpec spec) CypressProxyType;
  mret (withBusClient common).

Definition getOffshoreDataGatewaysCarcass (spec : InstanceSpec) : Carcass :=
  mkCarcass OffshoreDataGatewayRPCPort (Deref (is_MonitoringPort spec) OffshoreDataGatewayMonitoringPort)
    (createLogging spec "offshore-data-gateway" defaultLoggers).

Definition getOffshoreDataGatewaysConfigImpl (g : NodeGenerator) (spec : InstanceSpec) : outcome (Configured (option Bus)) :=
  common ← fillServer g (getOffshoreDataGatewaysCarcass spec) spec OffshoreDataGatewayType;
  mret (withBusClient common).

(** ** Queues, queries and tablets *)

Definition getQueryTrackerServerCarcass (spec : InstanceSpec) : outcome Carcass :=
  serverCarcass QueryTrackerRPCPort QueryTrackerMonitoringPort QueryTrackerType spec defaultLoggers.

Definition getQueryTrackerConfigImpl (g : Generator) (spec : InstanceSpec) : outcome (Configured QueryTrackerServer) :=
  c ← getQueryTrackerServerCarcass spec;
  common ← fillServer (gen_NodeGenerator g) c spec QueryTrackerType;
  mret (mkConfigured common (mkQueryTrackerServer "query_tracker" true)).

Definition getQueueAgentServerCarcass (spec : InstanceSpec) : outcome Carcass :=
  serverCarcass QueueAgentRPCPort QueueAgentMonitoringPort QueueAgentType spec defaultLoggers.

Definition getQueueAgentConfigImpl (g : Generator) (spec : InstanceSpec) : outcome (Configured QueueAgentServer) :=
  c ← getQueueAgentServerCarcass spec;
  common ← fillServer (gen_NodeGenerator g) c spec QueueAgentType;
  mret (mkConfigured common (mkQueueAgentServer (cc_BusClient (srv_ClusterConnection common)) "queue_agent" "production")).

Definition bundleControllerDocument (cluster : string) : BundleController :=
  mkBundleController cluster "//sys/bundle_controller/controller" 1000
    "//sys/bundle_controller/internal_allocations/allocation_requests"
    "//sys/bundle_controller/internal_allocations/allocation_requests_history"
    "//sys/bundle_controller/internal_allocations/deallocation_requests"
    "//sys/bundle_controller/internal_allocations/deallocation_requests_history" false false
    "//sys/bundle_controller/coordinator/lock" true false.

Definition getBundleControllerServerCarcass (spec : InstanceSpec) : outcome Carcass :=
  serverCarcass BundleControllerRPCPort BundleControllerMonitoringPort BundleControllerType spec defaultLoggers.

Definition getBundleControllerConfigImpl (g : Generator) (spec : InstanceSpec) : outcome (Configured BundleController) :=
  c ← getBundleControllerServerCarcass spec;
  common ← fillServer (gen_NodeGenerator g) c spec BundleControllerType;
  mret (mkConfigured common (bundleControllerDocument (yts_Name (gen_ytsaurus g)))).

Definition getTabletBalancerServerCarcass (spec : InstanceSpec) : outcome Carcass :=
  serverCarcass TabletBalancerRPCPort TabletBalancerMonitoringPort TabletBalancerType spec defaultLoggers.

(** The size of the pool of workers. *)
Definition getTabletBalancerConfigImpl (g : Generator) (spec : InstanceSpec) : outcome (Configured Z) :=
  c ← getTabletBalancerServerCarcass spec;
  common ← fillServer (gen_NodeGenerator g) c spec TabletBalancerType;
  mret (mkConfigured common 3%Z).

(** ** Clients *)

Definition GetNativeClientConfig (g : NodeGenerator) : outcome NativeClientConfig :=
  connection ← fillClusterConnection g None (getMountKeyring (ng_commonSpec g) None);
  mret (mkNativeClientConfig (fillAddressResolver g AddressResolverZero) (lb_logging (newLoggingBuilder None "client"))
    (fillDriverConfig g) connection).

(** *** The strawberry controller *)

Record StrawberryControllerFamiliesConfig := mkFamilies {
  fam_ControllerFamilies : list string;
  fam_DefaultRouteFamily : string;
  fam_ExternalProxy : option string;
}.

Record ChytConfig := mkChytConfig {
  ch_AddressResolver : AddressResolver;
  ch_BusServer : option Bus;
  ch_SecureVaultFiles : gmap string string;
}.

(** The configuration of a family: an empty struct but for CHYT. *)
Record StrawberryController := mkStrawberryController {
  str_LocationProxies : list string;
  str_Root : string;
  str_Stage : string;
  str_RobotUsername : string;
  str_Controllers : gmap string (option ChytConfig);
  str_HTTPAPIEndpoint : string;
  str_HTTPLocationAliases : gmap string (list string);
  str_HTTPControllerMappings : gmap string string;
}.

Record StrawberryInitCluster := mkStrawberryInitCluster {
  sti_Proxy : string;
  sti_StrawberryRoot : string;
  sti_Families : list string;
}.

Definition fillStrawberryControllerFamiliesConfig (s : StrawberryControllerSpec) : StrawberryControllerFamiliesConfig :=
  mkFamilies (Deref (sbc_ControllerFamilies s) GetDefaultStrawberryControllerFamilies)
    (Deref (sbc_DefaultRouteFamily s) DefaultStrawberryControllerFamily) (sbc_ExternalProxy s).

Definition vault_file (name : string) (p : option PemBlob) : list (string * string) :=
  match p with Some p => [(name, pem_FileName p)] | None => [] end.

Definition chytVault (keyring : Keyring) : gmap string string :=
  list_to_map ((match kr_BusCABundle keyring with
    | Some p => if pem_FileName p != DefaultCABundlePath then [(BusCABundleVaultName, pem_FileName p)] else []
    | None => [] end)
    ++ vault_file BusClientCertificateVaultName (kr_BusClientCertificate keyring)
    ++ vault_file BusClientPrivateKeyVaultName (kr_BusClientPrivateKey keyring)
    ++ vault_file BusServerCertificateVaultName (kr_BusServerCertificate keyring)
    ++ vault_file BusServerPrivateKeyVaultName (kr_BusServerPrivateKey keyring)).

Definition controllerMappings (f : StrawberryControllerFamiliesConfig) : gmap string string :=
  match fam_ExternalProxy f with
  | Some proxy =>
      foldl (λ m family, if family == fam_DefaultRouteFamily f then <["*" := family]> m
                         else <[family +:+ "." +:+ proxy := family]> m) ∅ (fam_ControllerFamilies f)
  | None => {[ "*" := fam_DefaultRouteFamily f ]}
  end.

(** The proxies and their aliases are set by the caller. *)
Definition getStrawberryController (f : StrawberryControllerFamiliesConfig) (resolver : AddressResolver)
    (busServer : option Bus) (keyring : Keyring) (proxies : list string) (aliases : gmap string (list string))
    : StrawberryController :=
  let controllers := foldl (λ m family,
    <[family := if family == "chyt" then Some (mkChytConfig resolver busServer (chytVault keyring)) else None]> m)
    ∅ (fam_ControllerFamilies f) in
  mkStrawberryController proxies "//sys/strawberry" "production" StrawberryControllerUserName controllers
    (":" +:+ fmt_d StrawberryHTTPAPIPort) aliases (controllerMappings f).

(** A cluster without a controller has no specification to dereference. *)
Definition GetStrawberryControllerConfig (g : Generator) : outcome StrawberryController :=
  let n := gen_NodeGenerator g in
  spec ← or_panic (spec_StrawberryController (gen_spec g));
  let busServer := (λ t, fillBus BusZero t (getVaultKeyring (ng_commonSpec n) None)) <$> cs_NativeTransport (ng_commonSpec n) in
  proxy ← GetHTTPProxiesAddress g DefaultHTTPProxyRole;
  mret (getStrawberryController (fillStrawberryControllerFamiliesConfig spec) (fillAddressResolver n AddressResolverZero)
    busServer (getMountKeyring (ng_commonSpec n) None) [proxy] {[ proxy := [yts_Name (gen_ytsaurus g)] ]}).

Definition GetStrawberryInitClusterConfig (g : Generator) : outcome StrawberryInitCluster :=
  spec ← or_panic (spec_StrawberryController (gen_spec g));
  proxy ← GetHTTPProxiesAddress g DefaultHTTPProxyRole;
  mret (mkStrawberryInitCluster proxy "//sys/strawberry"
    (fam_ControllerFamilies (fillStrawberryControllerFamiliesConfig spec))).

(** *** The user interface *)

Record UICluster := mkUICluster {
  uic_ID : string;
  uic_Name : string;
  uic_Proxy : string;
  uic_ExternalProxy : option string;
  uic_Secure : bool;
  uic_Authentication : string;
  uic_Group : string;
  uic_Theme : string;
  uic_Environment : string;
  uic_Description : string;
  uic_CellTag : Z;
  uic_URLs : option UIClusterURLsSpec;
}.

(** Direct download is the only setting. *)
Record UICustom := mkUICustom { uim_OdinBaseUrl : option string; uim_Settings : option bool }.

Definition uiAuthenticationBasic := "basic".
Definition uiDefaultGroup := "My YTsaurus clusters".
Definition uiDefaultDescription := "My first YTsaurus. Handle with care.".

(** [None] is an empty document. *)
Definition GetUIClustersConfig (g : Generator) : outcome (option (list UICluster)) :=
  match spec_UI (gen_spec g) with
  | None => mret None
  | Some ui =>
      proxy ← GetHTTPProxiesAddress g DefaultHTTPProxyRole;
      let name := yts_Name (gen_ytsaurus g) in
      mret (Some [mkUICluster name name proxy (ui_ExternalProxy ui) (ui_Secure ui) uiAuthenticationBasic
        (Deref (ui_Group ui) uiDefaultGroup) (ui_Theme ui) (ui_Environment ui) (Deref (ui_Description ui) uiDefaultDescription)
        (ms_CellTag (spec_PrimaryMasters (gen_spec g))) (ui_URLs ui)])
  end.

Definition GetUICustomConfig (g : Generator) : option UICustom :=
  (λ ui, mkUICustom (ui_OdinBaseUrl ui) (ui_DirectDownload ui)) <$> spec_UI (gen_spec g).

(** ** YQL agents *)

Context {V : ImageVersions}.

(** The prefix of a tag: lower case letters and a dash. *)
Definition is_lower (a : Ascii.ascii) : bool := let n := Ascii.nat_of_ascii a in ((97 <=? n) && (n <=? 122))%nat.

Fixpoint drop_prefix (s : string) : option string :=
  match s with
  | "" => None
  | String a rest => if decide (a = dash) then Some rest else if is_lower a then drop_prefix rest else None
  end.

(** [ReplaceAllString] with the empty string of the expression that is anchored at the start. *)
Definition ytsaurusVersionPrefix (s : string) : string :=
  match s with
  | String a rest => if is_lower a then default s (drop_prefix rest) else s
  | "" => s
  end.

Definition ParseYtsaurusVersion (version : string) : option Version := ParseVersion (ytsaurusVersionPrefix version).

Definition ParseImageVersion (image : string) : option Version :=
  let tag := ExtractImageTag image in
  if tag == "" then None else ParseYtsaurusVersion tag.

Record DQYTBackend := mkDQYTBackend {
  dqb_ClusterName : string;
  dqb_ProxyAddress : string;
  dqb_User : string;
  dqb_TokenFile : string;
  dqb_VanillaJobLite : string;
  dqb_VanillaJobFiles : list (string * string);
  dqb_MaxJobs : Z;
  dqb_JobsPerOperation : Z;
  dqb_WorkerCapacity : Z;
  dqb_Pool : string;
  dqb_PoolTrees : list string;
  dqb_SchedulingTagFilter : string;
  dqb_CPULimit : Z;
  dqb_MemoryLimit : Z;
  dqb_CacheSize : Z;
  dqb_UseTmpFS : option bool;
  dqb_UploadReplicationFactor : Z;
}.

Record DQYTCoordinator := mkDQYTCoordinator {
  dqc_ClusterName : string;
  dqc_ProxyAddress : string;
  dqc_User : string;
  dqc_TokenFile : string;
}.

Record DQManagerConfig := mkDQManagerConfig {
  dqm_InterconnectPort : Z;
  dqm_GrpcPort : Z;
  dqm_UseIPv4 : bool;
  dqm_YTCoordinator : DQYTCoordinator;
  dqm_YTBackends : list DQYTBackend;
}.

(** The gateway of DQ and its manager. *)
Record DQEngine := mkDQEngine { dq_DefaultSettings : list (string * string); dq_Manager : DQManagerConfig }.

Record YQLAgent := mkYQLAgent {
  ya_User : string;
  ya_YTTokenPath : string;
  ya_MRJobBin : string;
  ya_MRJobUDFsDir : string;
  ya_ClusterMapping : list (string * string * bool);
  ya_YqlPluginSharedLibrary : string;
  ya_AdditionalSystemLibs : list string;
  ya_EnableDQ : bool;
  ya_DQ : option DQEngine;
  ya_MRJobBinary : string;
  ya_UDFDirectory : string;
  ya_AdditionalClusters : gmap string string;
  ya_DefaultCluster : string;
}.


(** Whether the version of an agent is at least 0.6; [MustParse] panics. *)
Definition YQLAgentVersion06 : outcome Version := or_panic (ParseVersion "0.6.0").

Definition fillYQLAgentDQEngine (g : Generator) (dq : YQLDQEngineSpec) (agentVersion : option Version) : outcome DQEngine :=
  let n := gen_NodeGenerator g in
  proxyAddress ← GetHTTPProxiesAddress g DefaultHTTPProxyRole;
  version06 ← YQLAgentVersion06;
  let old := match agentVersion with Some v => LessThan v version06 | None => true end in
  if old && cf_HTTPProxyHaveHTTPSAddress (ng_clusterFeatures n)
  then Failed "require YQL agent version >= 0.6 to support HTTPS proxy address"
  else
    let clusterName := if old then proxyAddress else yts_Name (gen_ytsaurus g) in
    let proxyAddress := if old then "" else proxyAddress in
    let value q := Quantity_Value (Deref q QuantityZero) in
    let common := ng_commonSpec n in
    mret (mkDQEngine ((λ a, (yga_Name a, yga_Value a)) <$> dqe_GatewayDefaultSettings dq)
      (mkDQManagerConfig YQLAgentDQInterconnectPort YQLAgentDQgRPCPort (cs_UseIPv4 common && negb (cs_UseIPv6 common))
        (mkDQYTCoordinator clusterName proxyAddress YQLAgentUserName (getTokenVolumePath YQLAgentTokenVolumeName))
        [mkDQYTBackend clusterName proxyAddress YQLAgentExecUserName (getTokenVolumePath YQLExecTokenVolumeName)
           "/usr/bin/dq_vanilla_job.lite" [("dq_vanilla_job", "/usr/bin/dq_vanilla_job")]
           (Deref (dqe_MaxJobs dq) 0%Z) (Deref (dqe_JobsPerOperation dq) 0%Z) (Deref (dqe_WorkerCapacity dq) 0%Z)
           (dqe_Pool dq) (dqe_PoolTrees dq) (dqe_SchedulingTagFilter dq)
           (value (dqe_CPULimit dq)) (value (dqe_MemoryLimit dq)) (value (dqe_CacheSize dq)) (dqe_UseTmpFS dq)
           (Deref (dqe_UploadReplicationFactor dq) (Z.min 10 (GetMaxReplicationFactor n)))])).

Definition getYQLAgentServerCarcass (spec : YQLAgentSpec) : outcome Carcass :=
  serverCarcass YQLAgentRPCPort YQLAgentMonitoringPort YqlAgentType (yqs_InstanceSpec spec)
    [defaultInfoLoggerSpec; defaultDebugLoggerSpec; defaultStderrLoggerSpec].

Definition getYQLAgentConfigImpl (g : Generator) (spec : YQLAgentSpec) : outcome (Configured YQLAgent) :=
  c ← getYQLAgentServerCarcass spec;
  common ← fillServer (gen_NodeGenerator g) c (yqs_InstanceSpec spec) YqlAgentType;
  let agentVersion := ParseImageVersion (Deref (is_Image (yqs_InstanceSpec spec)) "") in
  let clusterName := yts_Name (gen_ytsaurus g) in
  clusterAddress ← GetHTTPProxiesServiceAddress g DefaultHTTPProxyRole;
  let agent enableDQ dq := mkYQLAgent YQLAgentUserName (getTokenVolumePath YQLAgentTokenVolumeName)
    "/usr/bin/mrjob" "/usr/lib/yql" [(clusterName, clusterAddress, true)] "/usr/lib/yql/libyqlplugin.so"
    ["/usr/lib/yql/libiconv.so"; "/usr/lib/yql/liblibidn-dynamic.so"] enableDQ dq "/usr/bin/mrjob" "/usr/lib/yql"
    {[ clusterName := clusterAddress ]} clusterName in
  match yqs_DQEngine spec with
  | Some dq => engine ← fillYQLAgentDQEngine g dq agentVersion; mret (mkConfigured common (agent true (Some engine)))
  | None => mret (mkConfigured common (agent false None))
  end.

End servers.
