(* ===== verification/Generator.v ===== *)
(** * The configuration generator as a whole (src/pkg/ytconfig/generator.go)

    Which instance groups a component has, and the configuration of each; and what the checks
    of the webhook mean for the configurations of a cluster it accepts. *)

From S2P Require Import Prelude Ordered Kubernetes ApiTypes Consts Labeller Timbertruck Validators Values Logging Connection CriConfig.
From S2P Require Import NodeConfig ServerConfigs.

(** A document of one of the kinds; [CfgEmpty] is an empty one. *)
Inductive ServerConfig `{V : ImageVersions} : Type :=
  | CfgEmpty
  | CfgConnection (c : ClusterConnection)
  | CfgNativeClient (c : NativeClientConfig)
  | CfgControllerAgent (c : Configured ControllerAgent)
  | CfgCypressProxy (c : Configured (option Bus))
  | CfgDataNode (c : Configured DataNodeServer)
  | CfgDiscovery (c : Configured DiscoveryServer)
  | CfgExecNode (c : Configured ExecNodeServer)
  | CfgHttpProxy (c : Configured HTTPProxyServer)
  | CfgMasterCache (c : Configured (option Bus))
  | CfgMaster (c : Configured MasterServer)
  | CfgQueryTracker (c : Configured QueryTrackerServer)
  | CfgQueueAgent (c : Configured QueueAgentServer)
  | CfgRpcProxy (c : Configured RPCProxyServer)
  | CfgScheduler (c : Configured (option bool))
  | CfgStrawberry (c : StrawberryController)
  | CfgTabletNode (c : Configured TabletNodeServer)
  | CfgTcpProxy (c : Configured string)
  | CfgKafkaProxy (c : Configured KafkaProxyServer)
  | CfgYqlAgent (c : Configured YQLAgent)
  | CfgBundleController (c : Configured BundleController)
  | CfgTabletBalancer (c : Configured Z).

Section components.
Context {Q : QuantityArith} {U : UUIDs} {V : ImageVersions}.

(** The name of a component that is there or not. *)
Definition names_if {A} (spec : option A) : list string := match spec with Some _ => [""] | None => [] end.

Definition GetComponentNames (g : Generator) (component : ComponentType) : outcome (list string) :=
  let s := gen_spec g in
  match component with
  | ClusterConnectionType => mret [""]
  | NativeClientConfigType => mret [""]
  | ControllerAgentType => mret (names_if (spec_ControllerAgents s))
  | CypressProxyType => mret (names_if (spec_CypressProxies s))
  | DataNodeType => mret (dns_Name <$> spec_DataNodes s)
  | DiscoveryType => mret [""]
  | ExecNodeType => mret (ens_Name <$> spec_ExecNodes s)
  | HttpProxyType => mret (hps_Role <$> spec_HTTPProxies s)
  | MasterCacheType => mret (names_if (spec_MasterCaches s))
  | MasterType => mret ("" :: ((λ m, GetCellName (ng_baseLabeller (gen_NodeGenerator g)) (ms_CellTag m)) <$> spec_SecondaryMasters s))
  | QueryTrackerType => mret (names_if (spec_QueryTrackers s))
  | QueueAgentType => mret (names_if (spec_QueueAgents s))
  | RpcProxyType => mret (rps_Role <$> spec_RPCProxies s)
  | SchedulerType => mret (names_if (spec_Schedulers s))
  | StrawberryControllerType => mret (names_if (spec_StrawberryController s))
  | TabletNodeType => mret (tns_Name <$> spec_TabletNodes s)
  | TcpProxyType => mret (tps_Role <$> spec_TCPProxies s)
  | KafkaProxyType => mret (kps_Role <$> spec_KafkaProxies s)
  | YqlAgentType => mret (names_if (spec_YQLAgents s))
  | BundleControllerType => mret (names_if (spec_BundleController s))
  | TabletBalancerType => mret (names_if (spec_TabletBalancer s))
  | ImageHeaterType => mret [""]
  | _ => Failed ("unknown component " +:+ ComponentType_string component)
  end.

(** A configuration as a document. *)
Definition document {A} (doc : A → ServerConfig) (m : outcome A) : outcome ServerConfig := c ← m; mret (doc c).

(** The configuration of a component that is there; an empty document when it is not. *)
Definition configIf {A B} (spec : option A) (impl : A → outcome B) (doc : B → ServerConfig) : outcome ServerConfig :=
  match spec with Some spec => document doc (impl spec) | None => mret CfgEmpty end.

(** The configuration of the first group of the name. *)
Fixpoint configNamed {A B} (name_of : A → string) (impl : A → outcome B) (doc : B → ServerConfig) (unknown : outcome ServerConfig)
    (specs : list A) (name : string) : outcome ServerConfig :=
  match specs with
  | [] => unknown
  | spec :: rest =>
      if name_of spec == name then document doc (impl spec)
      else configNamed name_of impl doc unknown rest name
  end.

Definition GetComponentConfig (g : Generator) (component : ComponentType) (name : string) : outcome ServerConfig :=
  let s := gen_spec g in
  let n := gen_NodeGenerator g in
  let unknown := Failed ("unknown component " +:+ ComponentType_string component +:+ " name " +:+ name) in
  let single (m : outcome ServerConfig) := if name == "" then m else unknown in
  match component with
  | ClusterConnectionType => single (document CfgConnection (GetClusterConnection n))
  | NativeClientConfigType => single (document CfgNativeClient (GetNativeClientConfig n))
  | ControllerAgentType => single (configIf (spec_ControllerAgents s) (getControllerAgentConfigImpl g) CfgControllerAgent)
  | CypressProxyType => single (configIf (spec_CypressProxies s) (getCypressProxiesConfigImpl g) CfgCypressProxy)
  | DataNodeType => configNamed dns_Name (getDataNodeConfigImpl n) CfgDataNode unknown (spec_DataNodes s) name
  | DiscoveryType => single (document CfgDiscovery (getDiscoveryConfigImpl g (spec_Discovery s)))
  | ExecNodeType => configNamed ens_Name (GetExecNodeConfig n) CfgExecNode unknown (spec_ExecNodes s) name
  | HttpProxyType => configNamed hps_Role (getHTTPProxyConfigImpl g) CfgHttpProxy unknown (spec_HTTPProxies s) name
  | MasterCacheType => single (configIf (spec_MasterCaches s) (getMasterCachesConfigImpl g) CfgMasterCache)
  | MasterType =>
      if name == "" then document CfgMaster (getMasterConfigImpl g (spec_PrimaryMasters s))
      else configNamed (λ m, GetCellName (ng_baseLabeller n) (ms_CellTag m)) (getMasterConfigImpl g) CfgMaster unknown
             (spec_SecondaryMasters s) name
  | QueryTrackerType => single (configIf (spec_QueryTrackers s) (getQueryTrackerConfigImpl g) CfgQueryTracker)
  | QueueAgentType => single (configIf (spec_QueueAgents s) (getQueueAgentConfigImpl g) CfgQueueAgent)
  | RpcProxyType => configNamed rps_Role (getRPCProxyConfigImpl g) CfgRpcProxy unknown (spec_RPCProxies s) name
  | SchedulerType => single (configIf (spec_Schedulers s) (getSchedulerConfigImpl g) CfgScheduler)
  | StrawberryControllerType => single (document CfgStrawberry (GetStrawberryControllerConfig g))
  | TabletNodeType => configNamed tns_Name (getTabletNodeConfigImpl n) CfgTabletNode unknown (spec_TabletNodes s) name
  | TcpProxyType => configNamed tps_Role (getTCPProxyConfigImpl g) CfgTcpProxy unknown (spec_TCPProxies s) name
  | KafkaProxyType => configNamed kps_Role (getKafkaProxyConfigImpl g) CfgKafkaProxy unknown (spec_KafkaProxies s) name
  | YqlAgentType => single (configIf (spec_YQLAgents s) (getYQLAgentConfigImpl g) CfgYqlAgent)
  | BundleControllerType =>
      (* a nil specification is dereferenced *)
      single (document CfgBundleController (spec ← or_panic (spec_BundleController s); getBundleControllerConfigImpl g spec))
  | TabletBalancerType =>
      single (document CfgTabletBalancer (spec ← or_panic (spec_TabletBalancer s); getTabletBalancerConfigImpl g spec))
  | ImageHeaterType => single (mret CfgEmpty)
  | _ => unknown
  end.

(** The part all servers have in common, of the documents that are of servers. *)
Definition config_common (c : ServerConfig) : option CommonServer :=
  match c with
  | CfgControllerAgent c => Some (cfg_CommonServer c)
  | CfgCypressProxy c => Some (cfg_CommonServer c)
  | CfgDataNode c => Some (cfg_CommonServer c)
  | CfgDiscovery c => Some (cfg_CommonServer c)
  | CfgExecNode c => Some (cfg_CommonServer c)
  | CfgHttpProxy c => Some (cfg_CommonServer c)
  | CfgMasterCache c => Some (cfg_CommonServer c)
  | CfgMaster c => Some (cfg_CommonServer c)
  | CfgQueryTracker c => Some (cfg_CommonServer c)
  | CfgQueueAgent c => Some (cfg_CommonServer c)
  | CfgRpcProxy c => Some (cfg_CommonServer c)
  | CfgScheduler c => Some (cfg_CommonServer c)
  | CfgTabletNode c => Some (cfg_CommonServer c)
  | CfgTcpProxy c => Some (cfg_CommonServer c)
  | CfgKafkaProxy c => Some (cfg_CommonServer c)
  | CfgYqlAgent c => Some (cfg_CommonServer c)
  | CfgBundleController c => Some (cfg_CommonServer c)
  | CfgTabletBalancer c => Some (cfg_CommonServer c)
  | CfgEmpty | CfgConnection _ | CfgNativeClient _ | CfgStrawberry _ => None
  end.

End components.

(** ** What the configurations of servers have in common *)

(** The instances of a component. *)
Definition component_instances (s : YtsaurusSpec) (t : ComponentType) : list InstanceSpec :=
  match t with
  | ControllerAgentType => option_list (spec_ControllerAgents s)
  | CypressProxyType => option_list (cps_InstanceSpec <$> spec_CypressProxies s)
  | DataNodeType => dns_InstanceSpec <$> spec_DataNodes s
  | DiscoveryType => [spec_Discovery s]
  | ExecNodeType => ens_InstanceSpec <$> spec_ExecNodes s
  | HttpProxyType => hps_InstanceSpec <$> spec_HTTPProxies s
  | MasterCacheType => option_list (mcs_InstanceSpec <$> spec_MasterCaches s)
  | MasterType => ms_InstanceSpec <$> spec_PrimaryMasters s :: spec_SecondaryMasters s
  | QueryTrackerType => option_list (spec_QueryTrackers s)
  | QueueAgentType => option_list (spec_QueueAgents s)
  | RpcProxyType => rps_InstanceSpec <$> spec_RPCProxies s
  | SchedulerType => option_list (spec_Schedulers s)
  | TabletNodeType => tns_InstanceSpec <$> spec_TabletNodes s
  | TcpProxyType => tps_InstanceSpec <$> spec_TCPProxies s
  | KafkaProxyType => kps_InstanceSpec <$> spec_KafkaProxies s
  | YqlAgentType => option_list (yqs_InstanceSpec <$> spec_YQLAgents s)
  | BundleControllerType => option_list (spec_BundleController s)
  | TabletBalancerType => option_list (spec_TabletBalancer s)
  | _ => []
  end.

(** Whether servers of the type listen on the internal bus. *)
Definition has_bus_server (g : NodeGenerator) (t : ComponentType) : bool :=
  match t with
  | TcpProxyType | KafkaProxyType => false
  | RpcProxyType => cf_RPCProxyHavePublicAddress (ng_clusterFeatures g)
  | _ => true
  end.

Section common_parts.
Context {Q : QuantityArith} {U : UUIDs} {V : ImageVersions}.

Record common_part (g : NodeGenerator) (t : ComponentType) (i : InstanceSpec) (common : CommonServer) : Prop := {
  cp_client : cc_BusClient (srv_ClusterConnection common) =
    fillClusterConnectionEncryption g (is_NativeTransport i) (getMountKeyring (ng_commonSpec g) (is_NativeTransport i)) None;
  cp_server : has_bus_server g t = true → srv_BusServer common = serverBus g (is_NativeTransport i);
  cp_cells : ∃ registered unregistered,
    fillMasterCells g (ng_secondaryMasters g) = Returned registered ∧
    (if t == MasterType then fillMasterCells g (ng_unregisteredMasters g) = Returned unregistered else unregistered = []) ∧
    cc_SecondaryMasters (srv_ClusterConnection common) = registered ++ unregistered;
}.

(** The parts of the common service. *)
Lemma fillCommonService_parts g c i t common :
  fillCommonService g c i t = Returned common →
  cc_BusClient (srv_ClusterConnection common) =
    fillClusterConnectionEncryption g (is_NativeTransport i) (getMountKeyring (ng_commonSpec g) (is_NativeTransport i)) None ∧
  srv_BusServer common = None ∧
  fillMasterCells g (ng_secondaryMasters g) = Returned (cc_SecondaryMasters (srv_ClusterConnection common)).
Proof.
  unfold fillCommonService, fillClusterConnection. intros H. returned_inv. subst. cbn.
  match goal with H : fillMasterCells _ _ = Returned _ |- _ => by rewrite H end.
Qed.

Lemma fillBusServer_parts g s common :
  srv_BusServer common = None →
  srv_BusServer (fillBusServer g s common) = serverBus g s ∧
  srv_ClusterConnection (fillBusServer g s common) = srv_ClusterConnection common.
Proof.
  unfold fillBusServer, serverBus. intros Hn. destruct (busTransport g s) as [tr|]; [|done]. cbn [mbind option_bind].
  destruct (rpct_TLSSecret tr); [|done]. cbn. by rewrite Hn.
Qed.

(** A server with a bus, other than a master. *)
Lemma fillServer_common g c i t common :
  t ≠ MasterType → fillServer g c i t = Returned common → common_part g t i common.
Proof.
  unfold fillServer. intros Ht H. returned_inv. subst.
  apply fillCommonService_parts in Hx as (Hc & Hb & Hm).
  destruct (fillBusServer_parts g (is_NativeTransport i) x Hb) as [Hs Hk]. split; [by rewrite Hk|done|].
  rewrite bool_decide_eq_false_2, Hk by done. eexists _, []. by rewrite app_nil_r.
Qed.

(** A server without a bus. *)
Lemma fillCommonService_common g c i t common :
  t = TcpProxyType ∨ t = KafkaProxyType → fillCommonService g c i t = Returned common → common_part g t i common.
Proof.
  intros Ht (Hc & Hb & Hm)%fillCommonService_parts. split; [done| |].
  - destruct Ht as [->| ->]; discriminate.
  - rewrite bool_decide_eq_false_2 by (destruct Ht as [->| ->]; discriminate). eexists _, []. by rewrite app_nil_r.
Qed.

Lemma rpc_proxy_common g spec c :
  getRPCProxyConfigImpl g spec = Returned c →
  common_part (gen_NodeGenerator g) RpcProxyType (rps_InstanceSpec spec) (cfg_CommonServer c).
Proof.
  unfold getRPCProxyConfigImpl. intros H. cbv zeta in H. apply outcome_bind_Returned in H as (k & _ & H).
  apply outcome_bind_Returned in H as (common & Hcommon & H).
  apply fillCommonService_parts in Hcommon as (Hc & Hb & Hm).
  destruct (cf_RPCProxyHavePublicAddress (ng_clusterFeatures (gen_NodeGenerator g))) eqn:Epub.
  - injection H as <-. cbn [cfg_CommonServer].
    destruct (fillBusServer_parts (gen_NodeGenerator g) (is_NativeTransport (rps_InstanceSpec spec)) common Hb) as [Hs Hk].
    split; [by rewrite Hk|done|]. rewrite bool_decide_eq_false_2, Hk by done. eexists _, []. by rewrite app_nil_r.
  - injection H as <-. cbn [cfg_CommonServer]. split.
    + by destruct (rpct_TLSSecret (rps_Transport spec)).
    + cbn. by rewrite Epub.
    + rewrite bool_decide_eq_false_2 by done. eexists _, []. rewrite app_nil_r. split_and!; [exact Hm|done|].
      by destruct (rpct_TLSSecret (rps_Transport spec)).
Qed.

Lemma master_common g spec c :
  getMasterConfigImpl g spec = Returned c →
  common_part (gen_NodeGenerator g) MasterType (ms_InstanceSpec spec) (cfg_CommonServer c).
Proof.
  unfold getMasterConfigImpl. intros H. cbv zeta in H. apply outcome_bind_Returned in H as (k & _ & H).
  apply outcome_bind_Returned in H as (common & Hcommon & H). apply outcome_bind_Returned in H as (unreg & Hu & H).
  apply outcome_bind_Returned in H as (primary & _ & H). apply outcome_bind_Returned in H as (addresses & _ & H).
  apply fillCommonService_parts in Hcommon as (Hc & Hb & Hm).
  set (common' := srv_set_SecondaryMasters _ common) in *.
  destruct (fillBusServer_parts (gen_NodeGenerator g) (is_NativeTransport (ms_InstanceSpec spec)) common' Hb) as [Hs Hk].
  assert (common_part (gen_NodeGenerator g) MasterType (ms_InstanceSpec spec)
    (fillBusServer (gen_NodeGenerator g) (is_NativeTransport (ms_InstanceSpec spec)) common')) as Hall.
  { split; [by rewrite Hk|done|]. rewrite bool_decide_eq_true_2, Hk by done. by eexists _, unreg. }
  destruct (_ && _); [|by injection H as <-].
  apply outcome_bind_Returned in H as (name & _ & H). injection H as <-. cbn [cfg_CommonServer]. destruct Hall. by split.
Qed.

Lemma document_Returned {A} (doc : A → ServerConfig) m c : document doc m = Returned c ↔ ∃ b, m = Returned b ∧ doc b = c.
Proof.
  unfold document. rewrite outcome_bind_Returned. split; intros (b & Hb & H); exists b; split; try done.
  - by injection H.
  - by subst.
Qed.

Lemma configIf_Returned {A B} (spec : option A) (impl : A → outcome B) doc c common :
  configIf spec impl doc = Returned c → config_common c = Some common →
  ∃ s b, spec = Some s ∧ impl s = Returned b ∧ doc b = c.
Proof.
  destruct spec as [s|]; cbn.
  - intros (b & Hb & H)%document_Returned _. eauto.
  - by intros [= <-].
Qed.

Lemma configNamed_Returned {A B} (name_of : A → string) (impl : A → outcome B) doc err specs name c :
  configNamed name_of impl doc (Failed err) specs name = Returned c →
  ∃ s b, s ∈ specs ∧ impl s = Returned b ∧ doc b = c.
Proof.
  induction specs as [|s specs IH]; [done|]. cbn. destruct (_ == _).
  - intros (b & Hb & H)%document_Returned. exists s, b. split; [by left|done].
  - intros (s' & b & Hin & H)%IH. exists s', b. split; [by right|done].
Qed.

End common_parts.

Section common_of_all.
Context {Q : QuantityArith} {U : UUIDs} {V : ImageVersions}.

Lemma exec_node_common g spec c :
  GetExecNodeConfig g spec = Returned c → common_part g ExecNodeType (ens_InstanceSpec spec) (cfg_CommonServer c).
Proof.
  unfold GetExecNodeConfig, getExecNodeConfigImpl. intros H. apply outcome_bind_Returned in H as (c0 & H0 & H).
  apply outcome_bind_Returned in H0 as (k & _ & H0). apply outcome_bind_Returned in H0 as (common & Hcommon & H0).
  injection H0 as <-. cbn [cfg_CommonServer cfg_Server] in H.
  assert (cfg_CommonServer c = common) as -> by (destruct (cc_BusClient _); returned_inv; by subst c).
  by apply fillServer_common in Hcommon.
Qed.

(** The common part of an implementation that fills it in by [fillServer] or
    [fillCommonService]. *)
Ltac impl_common H :=
  repeat first
    [ progress returned_inv
    | match type of H with
      | match ?x with _ => _ end = Returned _ => destruct x; try discriminate H
      end ];
  match type of H with _ = ?c => is_var c; subst c end; cbn [cfg_CommonServer withBusClient];
  first [eapply fillServer_common; [discriminate|eassumption]
        |eapply fillCommonService_common; [by auto|eassumption]].

Lemma config_common_part g t name c common :
  GetComponentConfig g t name = Returned c → config_common c = Some common →
  ∃ i, i ∈ component_instances (gen_spec g) t ∧ common_part (gen_NodeGenerator g) t i common.
Proof.
  intros H Hc. destruct t; cbn [GetComponentConfig] in H; try discriminate H;
    try (destruct (name == ""); [|discriminate H]); try (injection H as <-; discriminate Hc);
    try (destruct (name == "")); unfold component_instances;
    match type of H with
    | configIf _ _ _ = _ => destruct (configIf_Returned _ _ _ _ _ H Hc) as (s & b & Hs & Hb & <-)
    | configNamed _ _ _ _ _ _ = _ => apply configNamed_Returned in H as (s & b & Hs & Hb & <-)
    | document _ _ = _ => apply document_Returned in H as (b & Hb & <-)
    end;
    try discriminate Hc; injection Hc as <-.
  all: try (apply outcome_bind_Returned in Hb as (s & Hs%or_panic_Returned & Hb)).
  all: eexists; split;
    [ try rewrite Hs; first [by apply list_elem_of_fmap_2 | by right; apply list_elem_of_fmap_2 | by left]
    | first [by apply exec_node_common | by apply rpc_proxy_common | by apply master_common | idtac]].
  all: unfold getBundleControllerConfigImpl, getControllerAgentConfigImpl, getCypressProxiesConfigImpl, getDataNodeConfigImpl,
    getDiscoveryConfigImpl, getHTTPProxyConfigImpl, getMasterCachesConfigImpl, getQueryTrackerConfigImpl,
    getQueueAgentConfigImpl, getSchedulerConfigImpl, getTabletNodeConfigImpl, getTCPProxyConfigImpl, getKafkaProxyConfigImpl,
    getYQLAgentConfigImpl, getTabletBalancerConfigImpl in Hb; cbv zeta in Hb; impl_common Hb.
Qed.

End common_of_all.

(** ** Accepted clusters *)

Section accepted.
Context {Q : QuantityArith} {U : UUIDs} {V : ImageVersions} {W : WebhookDeps}.

Lemma NewGenerator_parts y domain g :
  NewGenerator y domain = Returned g →
  gen_ytsaurus g = y ∧ ng_commonSpec (gen_NodeGenerator g) = spec_CommonSpec (yts_Spec y) ∧
  ng_clusterFeatures (gen_NodeGenerator g) = features_of (spec_CommonSpec (yts_Spec y)).
Proof. unfold NewGenerator, NewLocalNodeGenerator. intros H. cbv zeta in H. returned_inv. by subst. Qed.

(** The instances of a component are among those the webhook knows. *)
Lemma component_instances_known s t i :
  i ∈ component_instances s t → (∃ tt, (i, tt) ∈ validated_instances s) ∨ i ∈ extra_instances s.
Proof.
  destruct t; unfold component_instances; intros Hi; try by apply elem_of_nil in Hi.
  all: try (apply list_elem_of_fmap in Hi as (x & -> & Hi)).
  all: try (match type of Hi with _ ∈ option_list (_ <$> ?o) => destruct o as [x|] eqn:E
            | _ ∈ option_list ?o => destruct o as [x|] eqn:E end; cbn [option_list fmap option_fmap option_map] in Hi;
            [apply list_elem_of_singleton in Hi as ->|by apply elem_of_nil in Hi]).
  all: try apply list_elem_of_singleton in Hi as ->.
  all: try (apply elem_of_cons in Hi as [->|Hi]).
  all: unfold validated_instances, extra_instances; try rewrite E;
    try match goal with |- context [?f <$> Some ?a] => change (f <$> Some a) with (Some (f a)) end; cbn -[app fmap].
  all: first [left; eexists; in_app | right; in_app].
Qed.

(** TLS on both sides, with a certificate and the authorities to verify the peer. *)
Definition mutual_tls (b : Bus) : Prop :=
  bus_EncryptionMode b = EncryptionModeRequired ∧ bus_VerificationMode b = VerificationModeFull ∧
  is_Some (bus_CertChain b) ∧ is_Some (bus_PrivateKey b) ∧ is_Some (bus_CA b).

Lemma secure_bus g s t :
  busTransport g s = Some t → secure_transport t →
  (∃ client, fillClusterConnectionEncryption g s (getMountKeyring (ng_commonSpec g) s) None = Some client ∧ mutual_tls client) ∧
  (∃ server, serverBus g s = Some server ∧ mutual_tls server).
Proof.
  intros Ht (Hr & Hi & [secret Hs] & [client Hc]). unfold fillClusterConnectionEncryption, serverBus. rewrite Ht.
  cbn [mbind option_bind]. rewrite Hs, Hr, Hi.
  assert (keyringTransport (ng_commonSpec g) s = t) as Hk.
  { revert Ht. unfold busTransport, keyringTransport. destruct s; [by intros [= ->]|]. by intros ->. }
  split; (eexists; split; [reflexivity|]).
  - unfold mutual_tls, getMountKeyring. cbn. rewrite Hk, Hc. cbn. split_and!; try done; by eexists.
  - unfold mutual_tls, fillBus. rewrite Hr, Hi. unfold getMountKeyring. cbn. rewrite Hs. cbn.
    split_and!; try done; by eexists.
Qed.

Lemma secure_features newY oldY :
  validateYtsaurus newY oldY = [] → cf_SecureClusterTransports (features_of (spec_CommonSpec (yts_Spec newY))) = true →
  cf_RPCProxyHavePublicAddress (features_of (spec_CommonSpec (yts_Spec newY))) = true ∧
  ∃ t, cs_NativeTransport (spec_CommonSpec (yts_Spec newY)) = Some t ∧ secure_transport t.
Proof.
  unfold validateYtsaurus. rewrite !app_nil. intros (_ & Hcommon & _) Hs. unfold validateCommonSpec in Hcommon.
  rewrite !app_nil in Hcommon. destruct Hcommon as (Hf & _ & Ht). split.
  - revert Hs Hf. unfold features_of. destruct (cs_ClusterFeatures _) as [f|]; cbn; [|done]. intros ->.
    rewrite app_nil, !err_if_nil. by intros [?%negb_false_iff _].
  - destruct (secure_checks _ _ _ Hs Ht) as (t & E & Hsec). exists t. split; [|done].
    by destruct (cs_NativeTransport _).
Qed.

(** What a proxy offers to clients outside. *)
Definition public_tls (c : ServerConfig) : Prop :=
  match c with
  | CfgHttpProxy c => is_Some (hp_HTTPSServer (cfg_Server c))
  | CfgRpcProxy c => ∃ b, rp_PublicBusServer (cfg_Server c) = Some b ∧ bus_EncryptionMode b = EncryptionModeRequired
  | _ => True
  end.

(** The component whose configuration a document of a given kind is. *)
Ltac document_of_kind t name H :=
  destruct t; cbn [GetComponentConfig] in H; try discriminate H; try (destruct (name == ""); [|discriminate H]);
    try (destruct (name == "")); unfold configIf in H;
    try (match type of H with match ?o with _ => _ end = _ => destruct o end);
    try (apply document_Returned in H as (? & ? & H)); try (apply configNamed_Returned in H as (? & ? & ? & ? & H));
    try discriminate H; injection H as <-; eauto.

Lemma secure_public g t name c :
  cf_RPCProxyHavePublicAddress (ng_clusterFeatures (gen_NodeGenerator g)) = true →
  (∀ hp, hp ∈ spec_HTTPProxies (gen_spec g) → is_Some (hps_HTTPSSecret hp)) →
  (∀ rp, rp ∈ spec_RPCProxies (gen_spec g) → rpct_TLSRequired (rps_Transport rp) = true ∧
     is_Some (rpct_TLSSecret (rps_Transport rp))) →
  GetComponentConfig g t name = Returned c → public_tls c.
Proof.
  intros Hpub Hhttp Hrpc H. destruct c as [| | | | | | | |c| | | | |c| | | | | | | |]; cbn [public_tls]; try done.
  - assert (∃ spec, spec ∈ spec_HTTPProxies (gen_spec g) ∧ getHTTPProxyConfigImpl g spec = Returned c) as (spec & Hin & Hc).
    { document_of_kind t name H. }
    destruct (Hhttp spec Hin) as [secret Hs]. unfold getHTTPProxyConfigImpl, getHTTPProxyServerCarcass in Hc. cbv zeta in Hc.
    apply outcome_bind_Returned in Hc as ([k server] & Hk & Hc). apply outcome_bind_Returned in Hk as (? & _ & Hk).
    injection Hk as <- <-. apply outcome_bind_Returned in Hc as (common & _ & Hc).
    destruct (if cf_HTTPProxyHaveChytAddress _ then _ else _). injection Hc as <-. cbn. rewrite Hs. by eexists.
  - assert (∃ spec, spec ∈ spec_RPCProxies (gen_spec g) ∧ getRPCProxyConfigImpl g spec = Returned c) as (spec & Hin & Hc).
    { document_of_kind t name H. }
    destruct (Hrpc spec Hin) as [Hr [secret Hs]]. unfold getRPCProxyConfigImpl in Hc. cbv zeta in Hc.
    apply outcome_bind_Returned in Hc as (k & _ & Hc). apply outcome_bind_Returned in Hc as (common & _ & Hc).
    rewrite Hpub in Hc. injection Hc as <-. cbn [cfg_Server rp_PublicBusServer]. eexists. split; [reflexivity|].
    unfold fillPublicBus. rewrite Hs, Hr. done.
Qed.

(** C6. SecureClusterTransports holds of the configurations that are generated: in a cluster the
    webhook accepts with this feature, whose components without transport checks have no
    transport of their own, every server connects to the cluster by TLS only, with a client
    certificate and verifying its peer, every server with an internal bus demands the same of
    its clients, HTTP proxies serve HTTPS and the public address of RPC proxies requires TLS.
    The exceptions are TCP proxies, which have no bus, and Kafka proxies. *)
Theorem secure_cluster_configured newY oldY domain g t name c :
  evaluateYtsaurusValidation (Some newY) oldY = None →
  cf_SecureClusterTransports (features_of (spec_CommonSpec (yts_Spec newY))) = true →
  (∀ i, i ∈ extra_instances (yts_Spec newY) → is_NativeTransport i = None) →
  NewGenerator newY domain = Returned g → GetComponentConfig g t name = Returned c →
  public_tls c ∧
  ∀ common, config_common c = Some common →
    (∃ client, cc_BusClient (srv_ClusterConnection common) = Some client ∧ mutual_tls client) ∧
    (t ≠ TcpProxyType → t ≠ KafkaProxyType → ∃ server, srv_BusServer common = Some server ∧ mutual_tls server).
Proof.
  intros Hv Hs Hextra (Hy & Hcommon & Hfeat)%NewGenerator_parts Hc.
  destruct (accepted_secure_transports newY oldY Hv Hs) as (Hinst & Hhttp & Hrpc).
  destruct (secure_features newY oldY (evaluate_accepted _ _ Hv) Hs) as (Hpub & tc & Htc & Hsec).
  unfold gen_spec in *. split.
  { apply (secure_public g t name c); unfold gen_spec; rewrite ?Hy, ?Hfeat; [done| | |done].
    - intros hp Hin. by apply Hhttp.
    - intros rp Hin. split; by apply Hrpc. }
  intros common Hcc. destruct (config_common_part g t name c common Hc Hcc) as (i & Hi & [Hclient Hserver _]).
  unfold gen_spec in Hi. rewrite Hy in Hi.
  assert (∃ tr, busTransport (gen_NodeGenerator g) (is_NativeTransport i) = Some tr ∧ secure_transport tr) as (tr & Htr & Hsecure).
  { unfold busTransport. rewrite Hcommon. destruct (component_instances_known _ _ _ Hi) as [[tt Hval]|Hex].
    - apply (Hinst i tt Hval).
    - rewrite (Hextra i Hex). eauto. }
  destruct (secure_bus _ _ _ Htr Hsecure) as [HC HS]. rewrite Hclient. split; [done|].
  intros Ht1 Ht2. rewrite Hserver; [done|]. unfold has_bus_server. rewrite Hfeat. by destruct t.
Qed.

End accepted.

(** ** Every accepted cluster can be configured *)

Section returns.
Context {Q : QuantityArith} {U : UUIDs} {UL : UUIDLaws U} {V : ImageVersions} {W : WebhookDeps}.

Definition returns {A} (m : outcome A) : Prop := ∃ x, m = Returned x.

Lemma returns_bind {A B} (m : outcome A) (f : A → outcome B) : returns m → (∀ x, m = Returned x → returns (f x)) → returns (m ≫= f).
Proof. intros [x Hx] Hf. destruct (Hf x Hx) as [y Hy]. exists y. by rewrite Hx. Qed.

Lemma returns_mret {A} (x : A) : returns (mret x).
Proof. by exists x. Qed.

Lemma returns_or_panic {A} (x : option A) : is_Some x → returns (or_panic x).
Proof. intros [y ->]. by exists y. Qed.

(** Types with pods of their own. *)
Definition has_instances (t : ComponentType) : Prop := is_Some (ComponentStatefulSetPrefix t) ∧ is_Some (ComponentServicePrefix t).

Lemma instance_addresses_return l n port :
  (0 ≤ n)%Z → has_instances (lab_ComponentType l) → is_Some (GetInstanceAddresses l n port).
Proof.
  intros Hn [[p Hp] [s Hs]]. unfold GetInstanceAddresses. destruct (Z.ltb_spec n 0); [lia|].
  apply mapM_is_Some, Forall_forall. intros index _.
  unfold GetInstanceAddressPort, GetServerStatefulSetName, GetHeadlessServiceName. rewrite Hp, Hs. by eexists.
Qed.

(** The counts a generator makes addresses from. *)
Record addressable (g : NodeGenerator) : Prop := {
  ad_masters : Forall (λ m, 0 ≤ mci_InstanceCount m)%Z
    (ng_primaryMaster g :: ng_secondaryMasters g ++ ng_unregisteredMasters g);
  ad_discovery : (0 ≤ ng_discoveryInstanceCount g)%Z;
  ad_caches : ∀ m, ng_masterCache g = Some m → (0 ≤ mcai_InstanceCount m)%Z;
  ad_cypress : ∀ m, ng_cypressProxiesSpec g = Some m → (0 ≤ is_InstanceCount (cps_InstanceSpec m))%Z;
}.

Lemma component_addresses_return g t n port : (0 ≤ n)%Z → has_instances t → returns (getComponentAddresses g t n port).
Proof. intros Hn Ht. by apply returns_or_panic, instance_addresses_return. Qed.

Lemma master_addresses_return g m : (0 ≤ mci_InstanceCount m)%Z → returns (getMasterAddresses g m).
Proof.
  intros Hn. unfold getMasterAddresses. destruct (mci_HostAddresses m); [|apply returns_mret].
  apply returns_or_panic, instance_addresses_return; [done|]. by split; eexists.
Qed.

Lemma master_cell_returns g m : (0 ≤ mci_InstanceCount m)%Z → returns (fillMasterCell g m).
Proof.
  intros Hn. unfold fillMasterCell. apply returns_bind.
  - apply returns_or_panic. unfold generateCellID. destruct (uuid_reads "ytsaurus-kubernetes-operator") as [bytes ->]; [cbn; lia|].
    cbn. by eexists.
  - intros id _. apply returns_bind; [by apply master_addresses_return|]. intros; apply returns_mret.
Qed.

Lemma master_cells_return g ms : Forall (λ m, 0 ≤ mci_InstanceCount m)%Z ms → returns (fillMasterCells g ms).
Proof.
  induction 1 as [|m ms Hm _ IH]; [apply returns_mret|]. cbn. apply returns_bind; [by apply master_cell_returns|].
  intros cell _. apply returns_bind; [done|]. intros; apply returns_mret.
Qed.

Lemma connection_returns g s k : addressable g → returns (fillClusterConnection g s k).
Proof.
  intros [Hm Hd Hc Hp]. apply Forall_cons in Hm as [Hprimary Hm]. apply Forall_app in Hm as [Hsec _].
  assert (has_instances DiscoveryType ∧ has_instances MasterCacheType ∧ has_instances CypressProxyType) as (H1 & H2 & H3)
    by (split_and!; split; eexists; reflexivity).
  unfold fillClusterConnection. apply returns_bind; [by apply master_cell_returns|]. intros primary _.
  apply returns_bind; [by apply master_cells_return|]. intros secondary _.
  apply returns_bind; [by apply component_addresses_return|]. intros discovery _.
  apply returns_bind.
  { unfold getMasterCachesAddresses. destruct (ng_masterCache g) as [m|]; [|apply returns_mret].
    destruct (mcai_HostAddresses m); [|apply returns_mret]. apply component_addresses_return; auto. }
  intros caches _. apply returns_bind; [|intros; apply returns_mret].
  unfold getCypressProxiesAddresses. destruct (ng_cypressProxiesSpec g) as [m|]; [|apply returns_mret].
  destruct (Deref _ _); [apply returns_mret|]. apply returns_bind; [apply component_addresses_return; auto|].
  intros; apply returns_mret.
Qed.

(** Servers the common part can be filled for. *)
Definition is_service (t : ComponentType) : Prop := is_Some (GetServiceKebabCase t).

Lemma common_returns g c i t : addressable g → is_service t → returns (fillCommonService g c i t).
Proof.
  intros Hg Ht. unfold fillCommonService. cbv zeta. apply returns_bind; [by apply connection_returns|]. intros connection _.
  apply returns_bind. { apply master_addresses_return. by apply ad_masters, Forall_cons in Hg as [? _]. }
  intros timestamps _. apply returns_bind; [|intros; apply returns_mret].
  unfold fillTracing. destruct (cs_Tracing _); [|apply returns_mret].
  apply returns_bind; [by apply returns_or_panic|]. intros; apply returns_mret.
Qed.

Lemma server_returns g c i t : addressable g → is_service t → returns (fillServer g c i t).
Proof. intros Hg Ht. apply returns_bind; [by apply common_returns|]. intros; apply returns_mret. Qed.

Lemma logging_returns t i l : is_service t → returns (serviceLogging t i l).
Proof. intros Ht. apply returns_bind; [by apply returns_or_panic|]. intros; apply returns_mret. Qed.

Lemma carcass_returns p m t i l : is_service t → returns (serverCarcass p m t i l).
Proof. intros Ht. apply returns_bind; [by apply logging_returns|]. intros; apply returns_mret. Qed.

(** The address of the proxies is always there. *)
Lemma proxies_address_returns g role :
  returns (GetHTTPProxiesAddress g role) ∧ returns (GetHTTPProxiesServiceAddress g role).
Proof.
  assert (∀ features ytsaurus hostname, returns (getHTTPProxyAddress features ytsaurus role hostname)) as Haddr.
  { intros features ytsaurus hostname. unfold getHTTPProxyAddress. cbv zeta. apply returns_bind; [|intros; apply returns_mret].
    unfold getHTTPProxyPort. by destruct (cf_HTTPProxyHaveHTTPSAddress features); eexists. }
  split; (apply returns_bind; [apply returns_or_panic; by eexists|intros; apply Haddr]).
Qed.

Lemma FindAllLocations_first locations t : is_Some (FindFirstLocation locations t) → FindAllLocations locations t ≠ [].
Proof.
  induction locations as [|l locations IH]; [by intros []|]. cbn. destruct (_ == _); [done|]. apply IH.
Qed.

End returns.

(** One step of a computation that returns. *)
Create HintDb returns.
#[export] Hint Resolve returns_mret server_returns common_returns connection_returns carcass_returns logging_returns
  component_addresses_return master_cells_return master_cell_returns : returns.

Ltac returns_step :=
  first
    [ apply returns_mret
    | lazymatch goal with
      | |- returns (_ ≫= _) => apply returns_bind; [|intros]
      | |- is_service _ => by eexists
      | |- has_instances _ => by split; eexists
      | |- returns (if ?b then _ else _) => destruct b
      end
    | solve [eauto with returns] | apply server_returns | apply common_returns | apply carcass_returns | apply logging_returns ].

Section configures.
Context {Q : QuantityArith} {U : UUIDs} {UL : UUIDLaws U} {V : ImageVersions} {W : WebhookDeps}.

(** Numbers of instances are not negative, as the schema of the resource demands. *)
Record nonneg_counts (s : YtsaurusSpec) : Prop := {
  nn_discovery : (0 ≤ is_InstanceCount (spec_Discovery s))%Z;
  nn_masters : ∀ m, m ∈ spec_PrimaryMasters s :: spec_SecondaryMasters s → (0 ≤ is_InstanceCount (ms_InstanceSpec m))%Z;
  nn_caches : ∀ m, spec_MasterCaches s = Some m → (0 ≤ is_InstanceCount (mcs_InstanceSpec m))%Z;
  nn_cypress : ∀ m, spec_CypressProxies s = Some m → (0 ≤ is_InstanceCount (cps_InstanceSpec m))%Z;
}.

(** Agents with a DQ engine are new enough for the addresses of the proxies. *)
Definition dq_supported (s : YtsaurusSpec) : Prop :=
  ∀ agents, spec_YQLAgents s = Some agents → yqs_DQEngine agents ≠ None →
  ∃ v06, ParseVersion "0.6.0" = Some v06 ∧
    (cf_HTTPProxyHaveHTTPSAddress (features_of (spec_CommonSpec s)) = false ∨
     ∃ v, ParseImageVersion (Deref (is_Image (yqs_InstanceSpec agents)) "") = Some v ∧ LessThan v v06 = false).

Lemma masters_filtered f s :
  nonneg_counts s →
  Forall (λ m, 0 ≤ mci_InstanceCount m)%Z (masterCellOf <$> List.filter f
    (List.filter (λ m, is_InstanceCount (ms_InstanceSpec m) != 0%Z) (spec_SecondaryMasters s))).
Proof.
  intros Hs. apply Forall_fmap, Forall_forall. intros m. rewrite !list_elem_of_In, !filter_In, <- !list_elem_of_In.
  intros [[Hm _] _]. apply (nn_masters _ Hs). by right.
Qed.

Lemma NewGenerator_returns y domain :
  nonneg_counts (yts_Spec y) →
  ∃ g, NewGenerator y domain = Returned g ∧ addressable (gen_NodeGenerator g).
Proof.
  intros Hs. unfold NewGenerator, NewLocalNodeGenerator. cbv zeta.
  match goal with |- context [ng_GetHTTPProxiesAddress ?g0 ?s ?r] =>
    destruct (proj1 (proxies_address_returns (mkGenerator g0 y) r)) as [proxy Hproxy] end.
  unfold GetHTTPProxiesAddress, gen_spec in Hproxy. cbn [gen_NodeGenerator gen_ytsaurus] in Hproxy. rewrite Hproxy.
  eexists. split; [reflexivity|]. split; cbn [gen_NodeGenerator ng_primaryMaster ng_secondaryMasters ng_unregisteredMasters
    ng_discoveryInstanceCount ng_masterCache ng_cypressProxiesSpec].
  - constructor; [apply (nn_masters _ Hs); by left|]. apply Forall_app. split; by apply masters_filtered.
  - apply (nn_discovery _ Hs).
  - intros m Hm. apply fmap_Some in Hm as (c & Hc & ->). cbn. by apply (nn_caches _ Hs).
  - apply (nn_cypress _ Hs).
Qed.

(** *** Locations the webhook demands *)

Record located (s : YtsaurusSpec) : Prop := {
  lo_masters : ∀ m, m ∈ spec_PrimaryMasters s :: spec_SecondaryMasters s →
    is_Some (FindFirstLocation (is_Locations (ms_InstanceSpec m)) LocationTypeMasterChangelogs) ∧
    is_Some (FindFirstLocation (is_Locations (ms_InstanceSpec m)) LocationTypeMasterSnapshots);
  lo_data : ∀ d, d ∈ spec_DataNodes s → is_Some (FindFirstLocation (is_Locations (dns_InstanceSpec d)) LocationTypeChunkStore);
  lo_exec : ∀ e, e ∈ spec_ExecNodes s →
    is_Some (FindFirstLocation (is_Locations (ens_InstanceSpec e)) LocationTypeChunkCache) ∧
    is_Some (FindFirstLocation (is_Locations (ens_InstanceSpec e)) LocationTypeSlots);
}.

Lemma validateMasterSpec_locations newY oldY ms oms path :
  validateMasterSpec newY oldY ms oms path = [] →
  is_Some (FindFirstLocation (is_Locations (ms_InstanceSpec ms)) LocationTypeMasterChangelogs) ∧
  is_Some (FindFirstLocation (is_Locations (ms_InstanceSpec ms)) LocationTypeMasterSnapshots).
Proof.
  unfold validateMasterSpec. destruct (validateMasterRoles _ _ _ _ _). rewrite !app_nil, !err_if_nil.
  by intros (_ & _ & [c ->]%isNone_false & [s ->]%isNone_false & _).
Qed.

Lemma accepted_located newY oldY : validateYtsaurus newY oldY = [] → located (yts_Spec newY).
Proof.
  intros Hv. pose proof (accepted_secondary _ _ Hv) as Hsec. unfold validateYtsaurus in Hv. rewrite !app_nil in Hv.
  destruct Hv as (_ & _ & _ & _ & Hprim & _ & _ & _ & _ & Hdata & Hexec & _).
  apply app_nil in Hprim as [Hprim _]. apply app_nil in Hexec as [Hexec _].
  apply range_unique_nil in Hdata as (_ & _ & Hdata), Hexec as (_ & _ & Hexec). split.
  - intros m [->|[j Hj]%list_elem_of_lookup]%elem_of_cons; [exact (validateMasterSpec_locations _ _ _ _ _ Hprim)|].
    destruct (Hsec j m Hj) as [path Hp]. exact (validateMasterSpec_locations _ _ _ _ _ Hp).
  - intros d Hd. destruct (Hdata d Hd) as [j Hj]. rewrite !app_nil, !err_if_nil in Hj.
    destruct Hj as (_ & [l ->]%isNone_false). by eexists.
  - intros e He. destruct (Hexec e He) as [j Hj]. rewrite !app_nil, !err_if_nil in Hj.
    destruct Hj as (_ & [l ->]%isNone_false & [l' ->]%isNone_false & _). by eauto.
Qed.

(** *** The components *)

Context (g : Generator) (Hg : addressable (gen_NodeGenerator g)).

Lemma master_returns m :
  is_Some (FindFirstLocation (is_Locations (ms_InstanceSpec m)) LocationTypeMasterChangelogs) ∧
  is_Some (FindFirstLocation (is_Locations (ms_InstanceSpec m)) LocationTypeMasterSnapshots) →
  returns (getMasterConfigImpl g m).
Proof.
  intros [[c Hc] [s Hs]]. unfold getMasterConfigImpl, getMasterServerCarcass. cbv zeta. rewrite Hc, Hs.
  pose proof (ad_masters _ Hg) as Hm. apply Forall_cons in Hm as [Hprimary Hm]. apply Forall_app in Hm as [_ Hun].
  repeat returns_step; try done; try (apply component_addresses_return; [apply Hg|returns_step]).
Qed.

Lemma data_node_returns d :
  is_Some (FindFirstLocation (is_Locations (dns_InstanceSpec d)) LocationTypeChunkStore) →
  returns (getDataNodeConfigImpl (gen_NodeGenerator g) d).
Proof.
  intros Hl%FindAllLocations_first. unfold getDataNodeConfigImpl, getDataNodeServerCarcass. cbv zeta.
  destruct (FindAllLocations _ LocationTypeChunkStore); [done|]. cbn [fmap list_fmap]. unfold getDataNodeLogging.
  repeat returns_step; done.
Qed.

Lemma exec_node_common_bus e c :
  getExecNodeConfigImpl (gen_NodeGenerator g) e = Returned c →
  cc_BusClient (srv_ClusterConnection (cfg_CommonServer c)) =
    fillClusterConnectionEncryption (gen_NodeGenerator g) (is_NativeTransport (ens_InstanceSpec e))
      (getMountKeyring (ng_commonSpec (gen_NodeGenerator g)) (is_NativeTransport (ens_InstanceSpec e))) None.
Proof.
  unfold getExecNodeConfigImpl. intros H. apply outcome_bind_Returned in H as (k & _ & H).
  apply outcome_bind_Returned in H as (common & Hcommon & H). injection H as <-.
  by apply fillServer_connection in Hcommon as (_ & Hcommon & _).
Qed.

Lemma exec_node_returns e :
  is_Some (FindFirstLocation (is_Locations (ens_InstanceSpec e)) LocationTypeChunkCache) ∧
  is_Some (FindFirstLocation (is_Locations (ens_InstanceSpec e)) LocationTypeSlots) →
  returns (GetExecNodeConfig (gen_NodeGenerator g) e).
Proof.
  intros [Hc%FindAllLocations_first Hs%FindAllLocations_first]. unfold GetExecNodeConfig. apply returns_bind.
  - unfold getExecNodeConfigImpl, getExecNodeServerCarcass. cbv zeta.
    destruct (FindAllLocations _ LocationTypeChunkCache); [done|]. destruct (FindAllLocations _ LocationTypeSlots); [done|].
    cbn [fmap list_fmap]. unfold getExecNodeLogging. repeat returns_step; done.
  - intros c Hcfg. apply exec_node_common_bus in Hcfg. cbv zeta.
    destruct (cc_BusClient (srv_ClusterConnection (cfg_CommonServer c))) as [b|]; [|apply returns_mret].
    apply returns_bind; [by apply connection_returns|]. intros k Hk%fillClusterConnection_bus.
    apply returns_bind; [|intros; apply returns_mret]. apply returns_or_panic. rewrite Hk.
    unfold fillClusterConnectionEncryption in Hcfg |- *.
    destruct (busTransport _ _) as [tr|]; [|discriminate]. destruct (rpct_TLSSecret tr); [|discriminate]. by eexists.
Qed.

Lemma yql_agent_returns agents :
  (yqs_DQEngine agents ≠ None → ∃ v06, ParseVersion "0.6.0" = Some v06 ∧
     (cf_HTTPProxyHaveHTTPSAddress (ng_clusterFeatures (gen_NodeGenerator g)) = false ∨
      ∃ v, ParseImageVersion (Deref (is_Image (yqs_InstanceSpec agents)) "") = Some v ∧ LessThan v v06 = false)) →
  returns (getYQLAgentConfigImpl g agents).
Proof.
  intros Hdq. unfold getYQLAgentConfigImpl, getYQLAgentServerCarcass. cbv zeta.
  destruct (proxies_address_returns g DefaultHTTPProxyRole) as [Ha Hs].
  repeat returns_step; try done. destruct (yqs_DQEngine agents) as [dq|]; [|apply returns_mret].
  destruct (Hdq ltac:(discriminate)) as (v06 & Hv06 & Hver). repeat returns_step.
  unfold fillYQLAgentDQEngine, YQLAgentVersion06. cbv zeta. apply returns_bind; [done|]. intros proxy _. rewrite Hv06.
  cbn [or_panic mbind outcome_bind]. destruct Hver as [->|(v & -> & ->)]; [rewrite andb_false_r|]; apply returns_mret.
Qed.

Lemma rpc_proxy_returns p : returns (getRPCProxyConfigImpl g p).
Proof.
  unfold getRPCProxyConfigImpl, getRPCProxyServerCarcass. cbv zeta. repeat returns_step; try done.
  destruct (cf_RPCProxyHavePublicAddress _); apply returns_mret.
Qed.

Lemma http_proxy_returns p : returns (getHTTPProxyConfigImpl g p).
Proof.
  unfold getHTTPProxyConfigImpl, getHTTPProxyServerCarcass. cbv zeta. apply returns_bind; [repeat returns_step|].
  intros [k server] _. repeat returns_step; try done. destruct (if cf_HTTPProxyHaveChytAddress _ then _ else _). apply returns_mret.
Qed.

Lemma named_returns {A B} (name_of : A → string) (impl : A → outcome B) doc err specs name :
  (∀ s, s ∈ specs → returns (impl s)) → name ∈ name_of <$> specs →
  returns (configNamed name_of impl doc (Failed err) specs name).
Proof.
  intros Himpl Hname. induction specs as [|s specs IH]; [by apply elem_of_nil in Hname|]. cbn.
  destruct (bool_decide_reflect (name_of s = name)) as [E|E].
  - apply returns_bind; [apply Himpl; by left|]. intros; apply returns_mret.
  - apply IH; [intros; apply Himpl; by right|]. rewrite fmap_cons, elem_of_cons in Hname. destruct Hname; [congruence|done].
Qed.

Lemma component_config_returns t names name :
  located (gen_spec g) →
  (∀ agents, spec_YQLAgents (gen_spec g) = Some agents → returns (getYQLAgentConfigImpl g agents)) →
  GetComponentNames g t = Returned names → name ∈ names → returns (GetComponentConfig g t name).
Proof.
  intros [Hm Hd He] Hyql Hnames Hin. destruct (proxies_address_returns g DefaultHTTPProxyRole) as [Ha _].
  destruct t; cbn [GetComponentNames] in Hnames; try discriminate Hnames; injection Hnames as <-; cbn [GetComponentConfig].
  all: try match type of Hin with
    | _ ∈ names_if ?o => destruct o as [spec|] eqn:Espec; [|by apply elem_of_nil in Hin] end.
  all: try (unfold names_if in Hin; apply list_elem_of_singleton in Hin as ->).
  all: try rewrite bool_decide_eq_true_2 by done.
  all: try (apply named_returns; [|done]; intros s Hs).
  all: try apply returns_mret.
  all: try (unfold configIf; apply returns_bind; [|intros; apply returns_mret]).
  all: try (by auto using master_returns, data_node_returns, exec_node_returns, rpc_proxy_returns, http_proxy_returns).
  all: try (unfold getBundleControllerConfigImpl, getControllerAgentConfigImpl, getCypressProxiesConfigImpl,
    getDiscoveryConfigImpl, getMasterCachesConfigImpl, getQueryTrackerConfigImpl, getTabletNodeServerCarcass, getTabletNodeLogging,
    getQueueAgentConfigImpl, getSchedulerConfigImpl, getTabletNodeConfigImpl, getTCPProxyConfigImpl, getKafkaProxyConfigImpl,
    getTabletBalancerConfigImpl, GetStrawberryControllerConfig, GetClusterConnection, GetNativeClientConfig; cbv zeta;
    rewrite ?Espec; cbn [or_panic]; repeat returns_step; try done;
    try (apply component_addresses_return; [apply Hg|returns_step]); fail).
  destruct (bool_decide_reflect (name = "")) as [->|Hne].
  - apply returns_bind; [apply master_returns, Hm; by left|]. intros; apply returns_mret.
  - apply elem_of_cons in Hin as [?|Hin]; [done|]. apply named_returns; [|done]. intros m Hs. apply master_returns, Hm. by right.
Qed.

End configures.

(** C5. Every cluster the webhook accepts can be configured: when the numbers of instances are
    not negative and agents with a DQ engine are new enough for HTTPS, a generator can be made
    for the cluster, and for every component and every instance group it lists the generator
    produces a configuration: no error, no panic. *)
Theorem accepted_cluster_configures {Q : QuantityArith} {U : UUIDs} {UL : UUIDLaws U} {V : ImageVersions} {W : WebhookDeps}
    newY oldY domain :
  evaluateYtsaurusValidation (Some newY) oldY = None → nonneg_counts (yts_Spec newY) → dq_supported (yts_Spec newY) →
  ∃ g, NewGenerator newY domain = Returned g ∧
    ∀ t names name, GetComponentNames g t = Returned names → name ∈ names → ∃ c, GetComponentConfig g t name = Returned c.
Proof.
  intros Hv%evaluate_accepted Hn Hdq. destruct (NewGenerator_returns newY domain Hn) as (g & Hg & Ha).
  exists g. split; [done|]. destruct (NewGenerator_parts newY domain g Hg) as (Hy & _ & Hf).
  intros t names name Hnames Hin. apply (component_config_returns g Ha t names name); try done; unfold gen_spec; rewrite Hy.
  - by eapply accepted_located.
  - intros agents Hagents. apply yql_agent_returns; [done|]. intros Hd. rewrite Hf. by apply (Hdq agents).
Qed.

(** ** Which master cells a server knows *)

Section cells.
Context {Q : QuantityArith} {U : UUIDs} {UL : UUIDLaws U} {V : ImageVersions}.

(** The cell an id names. *)
Definition cell_of (m : MastersSpec) : option (Z * Z) := Some (ms_CellTag m, masterCellType).

Lemma master_cells_decoded g ms cells :
  Forall (λ m, 0 ≤ ms_CellTag m < 2 ^ 16)%Z ms → fillMasterCells g (masterCellOf <$> ms) = Returned cells →
  (λ cell, decodeCellID (cell_CellID cell)) <$> cells = cell_of <$> ms.
Proof.
  intros Hms. revert cells. induction Hms as [|m ms Hm _ IH]; intros cells H; [by injection H as <-|].
  cbn [fmap list_fmap fillMasterCells] in H. apply outcome_bind_Returned in H as (cell & Hcell & H).
  apply outcome_bind_Returned in H as (rest & Hrest & H). injection H as <-. cbn [fmap list_fmap]. f_equal; [|by apply IH].
  unfold fillMasterCell in Hcell. apply outcome_bind_Returned in Hcell as (id & Hid%or_panic_Returned & Hcell).
  apply outcome_bind_Returned in Hcell as (addresses & _ & Hcell). injection Hcell as <-. cbn [cell_CellID].
  destruct (generateCellID_decodes (ms_CellTag m) Hm) as (id' & Hid' & Hdec). unfold mci_CellTag in Hid. cbn in Hid.
  unfold cell_of. congruence.
Qed.

(** C13. Servers do not see master cells that are not registered yet: the secondary cells in the
    cluster connection of every server are those with instances that are registered, in the
    order of the specification; only masters, which have to register the others, know them
    too, after the registered ones. *)
Theorem unregistered_cells_hidden y domain g t name c common :
  Forall (λ m, 0 ≤ ms_CellTag m < 2 ^ 16)%Z (spec_SecondaryMasters (yts_Spec y)) →
  NewGenerator y domain = Returned g → GetComponentConfig g t name = Returned c → config_common c = Some common →
  let running := List.filter (λ m, is_InstanceCount (ms_InstanceSpec m) != 0%Z) (spec_SecondaryMasters (yts_Spec y)) in
  let registered := cell_registered (us_MasterCellsMaintenance (st_UpdateStatus (yts_Status y))) in
  (λ cell, decodeCellID (cell_CellID cell)) <$> cc_SecondaryMasters (srv_ClusterConnection common) =
  cell_of <$> List.filter registered running ++
    (if t == MasterType then List.filter (λ m, negb (registered m)) running else []).
Proof.
  intros Htags Hg Hc Hcommon running registered.
  assert (ng_secondaryMasters (gen_NodeGenerator g) = masterCellOf <$> List.filter registered running ∧
    ng_unregisteredMasters (gen_NodeGenerator g) = masterCellOf <$> List.filter (λ m, negb (registered m)) running) as [Hs Hu].
  { unfold NewGenerator, NewLocalNodeGenerator in Hg. cbv zeta in Hg. returned_inv. by subst. }
  destruct (config_common_part g t name c common Hc Hcommon) as (i & _ & [_ _ (regs & unregs & Hregs & Hunregs & ->)]).
  assert (∀ f, Forall (λ m, 0 ≤ ms_CellTag m < 2 ^ 16)%Z (List.filter f running)) as Hf.
  { intros f. unfold running. apply Forall_forall. intros m. rewrite !list_elem_of_In, !filter_In, <- list_elem_of_In.
    intros [[Hm _] _]. by rewrite Forall_forall in Htags; apply Htags. }
  rewrite !fmap_app. f_equal.
  - rewrite Hs in Hregs. by eapply master_cells_decoded.
  - destruct (t == MasterType); [|by subst]. rewrite Hu in Hunregs. by eapply master_cells_decoded.
Qed.

End cells.

(** ** Examples *)

(** Versions as numbers between dots, and tags after the last colon. *)
Fixpoint split_on (a : Ascii.ascii) (s word : string) : list string :=
  match s with
  | "" => [word]
  | String b s => if decide (b = a) then word :: split_on a s "" else split_on a s (word +:+ String b "")
  end.

Fixpoint parse_number (s : string) (acc : Z) : option Z :=
  match s with
  | "" => Some acc
  | String a s =>
      let n := Z.of_nat (Ascii.nat_of_ascii a) in
      if ((48 <=? n) && (n <=? 57))%Z then parse_number s (10 * acc + (n - 48))%Z else None
  end.

Fixpoint version_ltb (v w : list Z) : bool :=
  match v, w with
  | _, [] => false
  | [], _ :: _ => true
  | x :: v, y :: w => (x <? y)%Z || ((x =? y)%Z && version_ltb v w)
  end.

#[global] Instance ReferenceVersions : ImageVersions := {
  Version := list Z;
  ParseVersion s := mapM (λ part, parse_number part 0) (split_on (Ascii.ascii_of_nat 46) s "");
  LessThan := version_ltb;
  ExtractImageTag s := match split_on (Ascii.ascii_of_nat 58) s "" with [_; tag] => tag | _ => "" end;
}.

Lemma image_version_examples :
  ParseImageVersion "registry/query-tracker:relwithdebinfo-0.10.2" = Some [0; 10; 2]%Z ∧
  ParseImageVersion "registry/query-tracker" = None ∧ ytsaurusVersionPrefix "dev-23.1.0" = "23.1.0" ∧
  ytsaurusVersionPrefix "stable1-0" = "stable1-0" ∧ LessThan [0; 5; 9]%Z [0; 6; 0]%Z = true.
Proof. vm_compute. done. Qed.

Lemma example_cluster_counts : nonneg_counts (yts_Spec (example_cluster 3)).
Proof.
  split; [cbn; lia| |done|done]. intros m. cbn [spec_PrimaryMasters spec_SecondaryMasters yts_Spec example_cluster].
  intros ->%list_elem_of_singleton. cbn. lia.
Qed.

Lemma accepted_cluster_configures_witness :
  ∃ g c, NewGenerator (example_cluster 3) "cluster.local" = Returned g ∧ GetComponentConfig g MasterType "" = Returned c.
Proof.
  destruct (@accepted_cluster_configures ReferenceQuantity ReferenceUUID ReferenceUUID_laws ReferenceVersions DevWebhook
    (example_cluster 3) None "cluster.local" example_accepted example_cluster_counts ltac:(intros agents; discriminate))
    as (g & Hg & Hall).
  destruct (Hall MasterType [""] "") as (c & Hc); [|by left|].
  - unfold GetComponentNames, gen_spec. rewrite (proj1 (NewGenerator_parts _ _ _ Hg)). reflexivity.
  - exists g, c. split; [exact Hg|exact Hc].
Defined.

(** The generator of the secure cluster. *)
Definition example_secure : Generator :=
  match NewGenerator (example_cluster 3) "cluster.local" with
  | Returned g => g | _ => mkGenerator example_secure_generator (example_cluster 3) end.

(** A configuration of a server. *)
Definition has_common (c : ServerConfig) : bool := match config_common c with Some _ => true | None => false end.

Lemma secure_cluster_configured_witness :
  ∃ c, GetComponentConfig example_secure HttpProxyType "default" = Returned c ∧ public_tls c ∧
    ∃ common server, config_common c = Some common ∧ srv_BusServer common = Some server ∧ mutual_tls server.
Proof.
  assert (returned_with has_common (GetComponentConfig example_secure HttpProxyType "default") = true) as Hret by (vm_compute; reflexivity).
  apply returned_with_true in Hret as (c & Hc & Hcommon).
  destruct (@secure_cluster_configured ReferenceQuantity ReferenceUUID ReferenceVersions DevWebhook (example_cluster 3) None
    "cluster.local" example_secure HttpProxyType "default" c example_accepted eq_refl
    ltac:(intros i Hi; by apply elem_of_nil in Hi) ltac:(vm_compute; reflexivity) Hc) as [Hpub Hall].
  exists c. split; [exact Hc|]. split; [exact Hpub|].
  unfold has_common in Hcommon. destruct (config_common c) as [common|]; [|discriminate Hcommon].
  destruct (Hall common eq_refl) as [_ Hserver]. destruct (Hserver ltac:(discriminate) ltac:(discriminate)) as (server & Hs & Ht).
  exists common, server. split; [reflexivity|]. split; [exact Hs|exact Ht].
Defined.

(** The cluster of two cells while the second is being registered. *)
Definition example_registering : Ytsaurus :=
  yts_set_Status (st_set_UpdateStatus (us_set_MasterCellsMaintenance [mkMasterCellMaintenanceInfo 2 true])) example_multicell.

Definition example_registering_generator : Generator :=
  match NewGenerator example_registering "cluster.local" with
  | Returned g => g | _ => mkGenerator example_secure_generator example_registering end.

Lemma unregistered_cells_hidden_witness :
  ∃ c common, GetComponentConfig example_registering_generator DiscoveryType "" = Returned c ∧
    config_common c = Some common ∧ cc_SecondaryMasters (srv_ClusterConnection common) = [].
Proof.
  assert (returned_with has_common (GetComponentConfig example_registering_generator DiscoveryType "") = true) as Hret by (vm_compute; reflexivity).
  apply returned_with_true in Hret as (c & Hc & Hcommon).
  unfold has_common in Hcommon. destruct (config_common c) as [common|] eqn:E; [|discriminate Hcommon].
  pose proof (unregistered_cells_hidden example_registering "cluster.local" example_registering_generator DiscoveryType "" c common
    ltac:(repeat constructor; discriminate) ltac:(vm_compute; reflexivity) Hc E) as H.
  exists c, common. split; [exact Hc|]. split; [exact E|]. apply fmap_nil_inv in H. exact H.
Defined.

(** ** A bus in the clear *)

(** A Kafka proxy has an RPC port but no configuration of its bus: it is not encrypted,
    whatever the transport of the cluster. *)
Lemma kafka_bus_plain g spec c :
  getKafkaProxyConfigImpl g spec = Returned c →
  srv_RPCPort (cfg_CommonServer c) = KafkaProxyRPCPort ∧ srv_BusServer (cfg_CommonServer c) = None.
Proof.
  unfold getKafkaProxyConfigImpl, getKafkaProxyServerCarcass, serverCarcass, fillCommonService. cbv zeta. intros H. returned_inv. by subst.
Qed.

(** The HTTPS port of CHYT is the HTTP port once one is given, not the port clients are told. *)
Lemma chyt_https_port_taken spec proxy port httpsPort secret :
  hps_ChytProxy spec = Some proxy → chp_HttpPort proxy = Some port → chp_HttpsPort proxy = Some httpsPort →
  hps_HTTPSSecret spec = Some secret →
  hs_Port <$> (fillChytServer spec).2 = Some port ∧ (fillChytServer spec).1 = Some port.
Proof. intros Hc Hp _ Hs. unfold fillChytServer. rewrite Hc, Hs. cbn. by rewrite Hp. Qed.
