(* ===== verification/Assembly.v ===== *)
(** * The components of a cluster (src/controllers/component_manager.go: [NewComponentManager])

    Which components the manager of a cluster has, in which order it visits them and which of them
    each component is given to wait for.  The components themselves are modelled in the files named
    after them; here a call of a constructor is kept as data, with its arguments: a reference to a
    component is its position in the list of all components.  Constructors.v runs the constructors. *)

From S2P Require Import Prelude Kubernetes ApiTypes Labeller ApiProxy Timbertruck Validators Values Connection Generator.

(** ** Calls of constructors *)

Inductive blueprint : Type :=
  | BImageHeater
  | BMaster (spec : MastersSpec) (secondaryMasters : list nat)
  | BHTTPProxy (m : nat) (spec : HTTPProxiesSpec)
  | BYtsaurusClient (m httpProxy : nat)
  | BDiscovery (yc m : nat)
  | BDataNode (m yc : nat) (spec : DataNodesSpec)
  | BUI (m : nat)
  | BRPCProxy (m : nat) (spec : RPCProxiesSpec)
  | BTCPProxy (m : nat) (spec : TCPProxiesSpec)
  | BKafkaProxy (m : nat) (spec : KafkaProxiesSpec)
  | BExecNode (m : nat) (spec : ExecNodesSpec) (yc : nat)
  | BTabletNode (yc m : nat) (spec : TabletNodesSpec) (doInitialization : bool)
  | BScheduler (m yc : nat) (tnds : list nat)
  | BControllerAgent (m yc : nat)
  | BQueryTracker (yc : nat) (tnds : list nat)
  | BQueueAgent (yc m : nat) (tnds : list nat)
  | BYQLAgent (yc m : nat)
  | BStrawberryController (m sch : nat) (dnds : list nat)
  | BMasterCache (yc m : nat)
  | BCypressProxy
  | BBundleController
  | BTabletBalancer
  | BTimbertruck (tnds : list nat) (yc : nat).

(** The component type and the instance group a constructor passes to [GetComponentLabeller], or for
    masters the labeller of the cell. *)
Definition blueprint_type (b : blueprint) : ComponentType :=
  match b with
  | BImageHeater => ImageHeaterType | BMaster _ _ => MasterType | BHTTPProxy _ _ => HttpProxyType
  | BYtsaurusClient _ _ => YtsaurusClientType | BDiscovery _ _ => DiscoveryType | BDataNode _ _ _ => DataNodeType
  | BUI _ => UIType | BRPCProxy _ _ => RpcProxyType | BTCPProxy _ _ => TcpProxyType | BKafkaProxy _ _ => KafkaProxyType
  | BExecNode _ _ _ => ExecNodeType | BTabletNode _ _ _ _ => TabletNodeType | BScheduler _ _ _ => SchedulerType
  | BControllerAgent _ _ => ControllerAgentType | BQueryTracker _ _ => QueryTrackerType | BQueueAgent _ _ _ => QueueAgentType
  | BYQLAgent _ _ => YqlAgentType | BStrawberryController _ _ _ => StrawberryControllerType | BMasterCache _ _ => MasterCacheType
  | BCypressProxy => CypressProxyType | BBundleController => BundleControllerType | BTabletBalancer => TabletBalancerType
  | BTimbertruck _ _ => TimbertruckType
  end.

Definition blueprint_labeller (g : NodeGenerator) (b : blueprint) : Labeller :=
  match b with
  | BMaster spec _ => GetMasterLabeller g (ms_CellTag spec)
  | BHTTPProxy _ spec => GetComponentLabeller g HttpProxyType (hps_Role spec)
  | BRPCProxy _ spec => GetComponentLabeller g RpcProxyType (rps_Role spec)
  | BTCPProxy _ spec => GetComponentLabeller g TcpProxyType (tps_Role spec)
  | BKafkaProxy _ spec => GetComponentLabeller g KafkaProxyType (kps_Role spec)
  | BDataNode _ _ spec => GetComponentLabeller g DataNodeType (dns_Name spec)
  | BExecNode _ spec _ => GetComponentLabeller g ExecNodeType (ens_Name spec)
  | BTabletNode _ _ spec _ => GetComponentLabeller g TabletNodeType (tns_Name spec)
  | b => GetComponentLabeller g (blueprint_type b) ""
  end.

(** The components a constructor is given, with their types. *)
Definition blueprint_deps (b : blueprint) : list (nat * ComponentType) :=
  let master m := (m, MasterType) in
  let client yc := (yc, YtsaurusClientType) in
  let tablets tnds := (λ t, (t, TabletNodeType)) <$> tnds in
  match b with
  | BMaster _ secondaryMasters => master <$> secondaryMasters
  | BHTTPProxy m _ | BRPCProxy m _ | BTCPProxy m _ | BKafkaProxy m _ | BUI m => [master m]
  | BYtsaurusClient m httpProxy => [master m; (httpProxy, HttpProxyType)]
  | BDiscovery yc m | BDataNode m yc _ | BExecNode m _ yc | BTabletNode yc m _ _ | BControllerAgent m yc
  | BYQLAgent yc m | BMasterCache yc m => [client yc; master m]
  | BScheduler m yc tnds | BQueueAgent yc m tnds => master m :: client yc :: tablets tnds
  | BQueryTracker yc tnds | BTimbertruck tnds yc => client yc :: tablets tnds
  | BStrawberryController m sch dnds => master m :: (sch, SchedulerType) :: ((λ d, (d, DataNodeType)) <$> dnds)
  | BImageHeater | BCypressProxy | BBundleController | BTabletBalancer => []
  end.

(** ** [NewComponentManager] *)

Abbreviation assembly := (go (list blueprint)).

(** [allComponents = append(allComponents, ...)]: the positions of what is added. *)
Definition append (l : list blueprint) : assembly (list nat) := λ all, (seq (length all) (length l), all ++ l).

(** The same for one component. *)
Definition append1 (b : blueprint) : assembly nat := λ all, (length all, all ++ [b]).

(** [if p != nil { ... }]. *)
Definition append_if (present : bool) (b : blueprint) : assembly (option nat) :=
  if present then i ← append1 b; mret (Some i) else mret None.

(** The tablet node with the first index does the initialization. *)
Definition tablet_nodes (yc m : nat) (specs : list TabletNodesSpec) : list blueprint :=
  imap (λ idx spec, BTabletNode yc m spec (idx == 0%nat)) specs.

(** The HTTP proxy [hps[0]] is given apart: indexing an empty slice panics. *)
Definition assemble (spec : YtsaurusSpec) (heater : bool) : assembly unit :=
  append_if heater BImageHeater ;;
  secondaryMasters ← append ((λ s, BMaster s []) <$> spec_SecondaryMasters spec);
  m ← append1 (BMaster (spec_PrimaryMasters spec) secondaryMasters);
  hps ← append (BHTTPProxy m <$> spec_HTTPProxies spec);
  yc ← append1 (BYtsaurusClient m (default 0%nat (head hps)));
  append1 (BDiscovery yc m) ;;
  dnds ← append (BDataNode m yc <$> spec_DataNodes spec);
  append_if (isSome (spec_UI spec)) (BUI m) ;;
  append (BRPCProxy m <$> spec_RPCProxies spec) ;;
  append (BTCPProxy m <$> spec_TCPProxies spec) ;;
  append (BKafkaProxy m <$> spec_KafkaProxies spec) ;;
  append ((λ s, BExecNode m s yc) <$> spec_ExecNodes spec) ;;
  tnds ← append (tablet_nodes yc m (spec_TabletNodes spec));
  sch ← append_if (isSome (spec_Schedulers spec)) (BScheduler m yc tnds);
  append_if (isSome (spec_ControllerAgents spec)) (BControllerAgent m yc) ;;
  append_if (isSome (spec_QueryTrackers spec) && isSome (spec_Schedulers spec) && (0 <? length (spec_TabletNodes spec))%nat)
    (BQueryTracker yc tnds) ;;
  append_if (isSome (spec_QueueAgents spec) && (0 <? length (spec_TabletNodes spec))%nat) (BQueueAgent yc m tnds) ;;
  append_if (isSome (spec_YQLAgents spec)) (BYQLAgent yc m) ;;
  append_if (isSome (spec_StrawberryController spec) && isSome (spec_Schedulers spec))
    (BStrawberryController m (default 0%nat sch) dnds) ;;
  append_if (isSome (spec_MasterCaches spec)) (BMasterCache yc m) ;;
  append_if (isSome (spec_CypressProxies spec)) BCypressProxy ;;
  append_if (isSome (spec_BundleController spec)) BBundleController ;;
  append_if (isSome (spec_TabletBalancer spec)) BTabletBalancer ;;
  append_if (TimbertruckDeliveryEnabled spec) (BTimbertruck tnds yc) ;;
  mret tt.

(** ** Components are given what was built before them *)

Definition at_type (all : list blueprint) (p : nat * ComponentType) : Prop := blueprint_type <$> all !! p.1 = Some p.2.

(** Every component that is referred to stands earlier in the list and has the type it is used as. *)
Definition wired (all : list blueprint) : Prop :=
  ∀ i b, all !! i = Some b → ∀ p, p ∈ blueprint_deps b → p.1 < i ∧ at_type all p.

(** A wired list in which some positions are known. *)
Definition knows (known : list (nat * ComponentType)) (all : list blueprint) : Prop :=
  wired all ∧ ∀ p, p ∈ known → at_type all p.

Lemma at_type_app all l p : at_type all p → at_type (all ++ l) p.
Proof.
  unfold at_type. intros H. destruct (all !! p.1) as [b|] eqn:Hb; [|done]. by rewrite (lookup_app_l_Some _ _ _ _ Hb).
Qed.

Lemma wired_app all l : wired all → (∀ b, b ∈ l → ∀ p, p ∈ blueprint_deps b → at_type all p) → wired (all ++ l).
Proof.
  intros Hw Hl i b Hi p Hp. apply lookup_app_Some in Hi as [Hi|[Hlen Hi]].
  - destruct (Hw i b Hi p Hp). split; [done|by apply at_type_app].
  - apply list_elem_of_lookup_2 in Hi. pose proof (Hl b Hi p Hp) as Ht. split; [|by apply at_type_app].
    unfold at_type in Ht. destruct (all !! p.1) eqn:Hb; [|done]. apply lookup_lt_Some in Hb. lia.
Qed.

Lemma append_knows known l t all :
  (∀ b, b ∈ l → blueprint_type b = t ∧ ∀ p, p ∈ blueprint_deps b → p ∈ known) → knows known all →
  knows (((λ j, (j, t)) <$> val_of (append l) all) ++ known) (run (append l) all).
Proof.
  intros Hl [Hw Hk]. split.
  - apply wired_app; [done|]. intros b Hb p Hp. apply Hk. by apply (Hl b Hb).
  - intros p [Hp|Hp]%elem_of_app; [|by apply at_type_app, Hk].
    apply list_elem_of_fmap in Hp as (j & -> & Hj). apply elem_of_seq in Hj as [H1 H2]. unfold at_type. cbn.
    destruct (lookup_lt_is_Some_2 l (j - length all)) as [b Hb]; [lia|].
    rewrite lookup_app_r by done. rewrite Hb. cbn. f_equal. apply (Hl b). by eapply list_elem_of_lookup_2.
Qed.

Lemma append1_knows known b all :
  (∀ p, p ∈ blueprint_deps b → p ∈ known) → knows known all →
  knows ((val_of (append1 b) all, blueprint_type b) :: known) (run (append1 b) all).
Proof.
  intros Hb [Hw Hk]. split.
  - apply wired_app; [done|]. intros b' ->%list_elem_of_singleton p Hp. by apply Hk, Hb.
  - intros p [->|Hp]%elem_of_cons; [|by apply at_type_app, Hk]. unfold at_type. cbn.
    rewrite lookup_app_r, Nat.sub_diag by lia. done.
Qed.

Lemma append_if_knows known (present : bool) b all :
  (present = true → ∀ p, p ∈ blueprint_deps b → p ∈ known) → knows known all →
  knows (option_list ((λ i, (i, blueprint_type b)) <$> val_of (append_if present b) all) ++ known) (run (append_if present b) all).
Proof.
  intros Hb Hk. unfold append_if. destruct present; [|done]. rewrite val_bind, run_bind, val_ret, run_ret.
  by apply append1_knows; [apply Hb|].
Qed.

(** From what is known on, a list stays wired. *)
Definition good {A} (known : list (nat * ComponentType)) (c : assembly A) : Prop :=
  ∀ all, knows known all → wired (run c all).

Lemma good_append {A} known l t (f : list nat → assembly A) :
  (∀ b, b ∈ l → blueprint_type b = t ∧ ∀ p, p ∈ blueprint_deps b → p ∈ known) →
  (∀ ids, (l ≠ [] → default 0%nat (head ids) ∈ ids) → good (((λ j, (j, t)) <$> ids) ++ known) (f ids)) →
  good known (append l ≫= f).
Proof.
  intros Hl Hf all K. rewrite run_bind. apply (Hf (val_of (append l) all)); [|by apply append_knows].
  destruct l; [done|]. intros _. cbn. by left.
Qed.

Lemma good_append1 {A} known b (f : nat → assembly A) :
  (∀ p, p ∈ blueprint_deps b → p ∈ known) → (∀ i, good ((i, blueprint_type b) :: known) (f i)) → good known (append1 b ≫= f).
Proof. intros Hb Hf all K. rewrite run_bind. by apply Hf, append1_knows. Qed.

Lemma good_append_if {A} known (present : bool) b (f : option nat → assembly A) :
  (present = true → ∀ p, p ∈ blueprint_deps b → p ∈ known) →
  (∀ o, isSome o = present → good (option_list ((λ i, (i, blueprint_type b)) <$> o) ++ known) (f o)) →
  good known (append_if present b ≫= f).
Proof.
  intros Hb Hf all K. rewrite run_bind. apply (Hf (val_of (append_if present b) all)); [|by apply append_if_knows].
  by destruct present.
Qed.

Ltac find_known :=
  first
    [ assumption
    | apply list_elem_of_fmap; eexists; split; [reflexivity|assumption]
    | apply elem_of_cons; left; reflexivity | apply elem_of_cons; right; find_known
    | apply elem_of_app; left; find_known | apply elem_of_app; right; find_known ].

Ltac in_known :=
  intros; cbn [blueprint_type blueprint_deps] in *;
  repeat match goal with
    | H : _ ∈ _ <$> _ |- _ => apply list_elem_of_fmap in H as (? & -> & ?); cbn [blueprint_type blueprint_deps] in *
    | H : _ ∈ [] |- _ => by apply elem_of_nil in H
    | H : _ ∈ _ :: _ |- _ => apply elem_of_cons in H as [->|H]
    | |- _ ∧ _ => split; [reflexivity|intros]
    end; find_known.

Lemma tablet_nodes_elem yc m specs b : b ∈ tablet_nodes yc m specs → ∃ s first, b = BTabletNode yc m s first.
Proof.
  unfold tablet_nodes. intros (i & Hi)%list_elem_of_lookup. rewrite list_lookup_imap in Hi.
  destruct (specs !! i) as [s|]; [|done]. injection Hi as <-. by eexists _, _.
Qed.

Lemma assemble_wired spec heater : spec_HTTPProxies spec ≠ [] → wired (run (assemble spec heater) []).
Proof.
  intros Hhttp. enough (good [] (assemble spec heater)) as H.
  { apply H. split; [by intros i b Hi|by intros p Hp%elem_of_nil]. }
  unfold assemble. apply good_append_if; [in_known|intros o0 _].
  apply (good_append _ _ MasterType); [in_known|intros sec _].
  apply good_append1; [in_known|intros m].
  apply (good_append _ _ HttpProxyType); [in_known|intros hps Hhps].
  assert (default 0%nat (head hps) ∈ hps) as Hfirst by (apply Hhps; by destruct (spec_HTTPProxies spec)). clear Hhps.
  apply good_append1; [in_known|intros yc].
  apply good_append1; [in_known|intros d].
  apply (good_append _ _ DataNodeType); [in_known|intros dnds _].
  apply good_append_if; [in_known|intros ui _].
  apply (good_append _ _ RpcProxyType); [in_known|intros rps _].
  apply (good_append _ _ TcpProxyType); [in_known|intros tps _].
  apply (good_append _ _ KafkaProxyType); [in_known|intros kps _].
  apply (good_append _ _ ExecNodeType); [in_known|intros ends _].
  apply (good_append _ _ TabletNodeType); [intros b (s & first & ->)%tablet_nodes_elem; in_known|intros tnds _].
  apply good_append_if; [in_known|intros sch Hsch].
  apply good_append_if; [in_known|intros ca _].
  apply good_append_if; [in_known|intros qt _].
  apply good_append_if; [in_known|intros qa _].
  apply good_append_if; [in_known|intros yqla _].
  apply good_append_if.
  { intros [_ Hs]%andb_true_iff. rewrite Hs in Hsch. destruct sch as [i|]; [|done]. cbn [default]. in_known. }
  intros sb _.
  apply good_append_if; [in_known|intros mc _].
  do 3 (apply good_append_if; [in_known|intros ? _]).
  apply good_append_if; [in_known|intros tt _].
  intros all [Hw _]. exact Hw.
Qed.

(** ** Which components there are *)

Section groups.
Context (g : NodeGenerator).

(** The instance groups of the components of a type, in order. *)
Definition groups (t : ComponentType) (all : list blueprint) : list string :=
  (λ b, lab_InstanceGroup (blueprint_labeller g b)) <$> List.filter (λ b, blueprint_type b == t) all.

Lemma groups_app t l1 l2 : groups t (l1 ++ l2) = groups t l1 ++ groups t l2.
Proof. unfold groups. by rewrite List.filter_app, fmap_app. Qed.

Lemma groups_all t l : (∀ b, b ∈ l → blueprint_type b = t) →
  groups t l = (λ b, lab_InstanceGroup (blueprint_labeller g b)) <$> l.
Proof.
  intros Hl. unfold groups. f_equal. induction l as [|b l IH]; [done|]. cbn.
  rewrite bool_decide_eq_true_2 by (apply Hl; by left). f_equal. apply IH. intros b' Hb'. apply Hl. by right.
Qed.

Lemma groups_none t l : (∀ b, b ∈ l → blueprint_type b ≠ t) → groups t l = [].
Proof.
  intros Hl. unfold groups. induction l as [|b l IH]; [done|]. cbn.
  rewrite bool_decide_eq_false_2 by (apply Hl; by left). apply IH. intros b' Hb'. apply Hl. by right.
Qed.

(** A part of the list whose components have one type and known groups. *)
Lemma groups_part {A} t t' (mk : A → blueprint) (name : A → string) (specs : list A) :
  (∀ s, blueprint_type (mk s) = t') → (∀ s, lab_InstanceGroup (blueprint_labeller g (mk s)) = name s) →
  groups t (mk <$> specs) = if t == t' then name <$> specs else [].
Proof.
  intros Ht Hn. destruct (bool_decide_reflect (t = t')) as [->|Hne].
  - rewrite groups_all.
    + rewrite <- list_fmap_compose. apply list_fmap_ext. intros i s _. apply Hn.
    + intros b (s & -> & _)%list_elem_of_fmap. apply Ht.
  - apply groups_none. intros b (s & -> & _)%list_elem_of_fmap. rewrite Ht. congruence.
Qed.

Lemma groups_tablets t yc m specs :
  groups t (tablet_nodes yc m specs) = if t == TabletNodeType then tns_Name <$> specs else [].
Proof.
  destruct (bool_decide_reflect (t = TabletNodeType)) as [->|Hne].
  - rewrite groups_all by (by intros b (s & first & ->)%tablet_nodes_elem). unfold tablet_nodes.
    rewrite fmap_imap. unfold compose. cbn [blueprint_labeller]. apply list_eq. intros i.
    rewrite list_lookup_imap, list_lookup_fmap. by destruct (specs !! i).
  - apply groups_none. intros b (s & first & ->)%tablet_nodes_elem. cbn. congruence.
Qed.

(** Where a component is left out although the specification has it. *)
Definition runs (spec : YtsaurusSpec) (t : ComponentType) : bool :=
  match t with
  | QueryTrackerType => isSome (spec_Schedulers spec) && (0 <? length (spec_TabletNodes spec))%nat
  | QueueAgentType => (0 <? length (spec_TabletNodes spec))%nat
  | StrawberryControllerType => isSome (spec_Schedulers spec)
  | _ => true
  end.

(** What the list of a cluster has of every type. *)
Definition expected (spec : YtsaurusSpec) (heater : bool) (t : ComponentType) : list string :=
  let one (b : bool) := if b then [""] else [] in
  match t with
  | ImageHeaterType => one heater
  | MasterType => ((λ m, lab_InstanceGroup (GetMasterLabeller g (ms_CellTag m))) <$> spec_SecondaryMasters spec)
                  ++ [lab_InstanceGroup (GetMasterLabeller g (ms_CellTag (spec_PrimaryMasters spec)))]
  | HttpProxyType => hps_Role <$> spec_HTTPProxies spec
  | YtsaurusClientType => [""]
  | DiscoveryType => [""]
  | DataNodeType => dns_Name <$> spec_DataNodes spec
  | UIType => one (isSome (spec_UI spec))
  | RpcProxyType => rps_Role <$> spec_RPCProxies spec
  | TcpProxyType => tps_Role <$> spec_TCPProxies spec
  | KafkaProxyType => kps_Role <$> spec_KafkaProxies spec
  | ExecNodeType => ens_Name <$> spec_ExecNodes spec
  | TabletNodeType => tns_Name <$> spec_TabletNodes spec
  | SchedulerType => one (isSome (spec_Schedulers spec))
  | ControllerAgentType => one (isSome (spec_ControllerAgents spec))
  | QueryTrackerType => one (isSome (spec_QueryTrackers spec) && runs spec t)
  | QueueAgentType => one (isSome (spec_QueueAgents spec) && runs spec t)
  | YqlAgentType => one (isSome (spec_YQLAgents spec))
  | StrawberryControllerType => one (isSome (spec_StrawberryController spec) && runs spec t)
  | MasterCacheType => one (isSome (spec_MasterCaches spec))
  | CypressProxyType => one (isSome (spec_CypressProxies spec))
  | BundleControllerType => one (isSome (spec_BundleController spec))
  | TabletBalancerType => one (isSome (spec_TabletBalancer spec))
  | TimbertruckType => one (TimbertruckDeliveryEnabled spec)
  | _ => []
  end.

(** What a step adds of a type. *)
Definition adds {A} (t : ComponentType) (names : list string) (c : assembly A) : Prop :=
  ∀ all, groups t (run c all) = groups t all ++ names.

Lemma adds_bind {A B} t names names' (c : assembly A) (f : A → assembly B) :
  adds t names c → (∀ x, adds t names' (f x)) → adds t (names ++ names') (c ≫= f).
Proof. intros Hc Hf all. by rewrite run_bind, Hf, Hc, app_assoc. Qed.

Lemma adds_part {A} t t' (mk : A → blueprint) (name : A → string) (specs : list A) :
  (∀ s, blueprint_type (mk s) = t') → (∀ s, lab_InstanceGroup (blueprint_labeller g (mk s)) = name s) →
  adds t (if t == t' then name <$> specs else []) (append (mk <$> specs)).
Proof. intros Ht Hn all. change (run (append ?l) ?a) with (a ++ l). by rewrite groups_app, (groups_part t t' mk name). Qed.

Lemma adds_tablets t yc m specs :
  adds t (if t == TabletNodeType then tns_Name <$> specs else []) (append (tablet_nodes yc m specs)).
Proof. intros all. change (run (append ?l) ?a) with (a ++ l). by rewrite groups_app, groups_tablets. Qed.

Lemma adds_one t b t' name :
  blueprint_type b = t' → lab_InstanceGroup (blueprint_labeller g b) = name → adds t (if t == t' then [name] else []) (append1 b).
Proof.
  intros Ht Hn all. change (run (append1 b) all) with (all ++ ((λ _ : unit, b) <$> [tt])).
  by rewrite groups_app, (groups_part t t' _ (λ _, name)).
Qed.

Lemma adds_if t (present : bool) b t' :
  blueprint_type b = t' → lab_InstanceGroup (blueprint_labeller g b) = "" →
  adds t (if t == t' then if present then [""] else [] else []) (append_if present b).
Proof.
  intros Ht Hn all. unfold append_if. destruct present; [|by rewrite run_ret; case_match; rewrite app_nil_r].
  rewrite run_bind, run_ret. by apply adds_one.
Qed.

Lemma assemble_groups spec heater t : groups t (run (assemble spec heater) []) = expected spec heater t.
Proof.
  enough (∃ names, adds t names (assemble spec heater) ∧ names = expected spec heater t) as (names & Hn & <-) by apply Hn.
  unfold assemble. eexists. split.
  { repeat first
      [ eapply (adds_bind t); [|intros ?]
      | eapply adds_if; cbn; reflexivity
      | apply adds_tablets
      | eapply adds_part; intros ?; cbn [blueprint_type blueprint_labeller GetComponentLabeller ForComponent lab_InstanceGroup]; reflexivity
      | eapply adds_one; cbn [blueprint_type blueprint_labeller GetComponentLabeller ForComponent lab_InstanceGroup]; reflexivity
      | by intros all; rewrite run_ret, (app_nil_r (groups t all)) ]. }
  destruct t; repeat (rewrite bool_decide_eq_false_2 by done); rewrite ?bool_decide_eq_true_2 by done;
    cbn [app expected runs]; rewrite ?app_nil_r, ?andb_assoc; reflexivity.
Qed.
End groups.

(** ** They are told apart *)

(** The name of a group as it identifies a component. *)
Definition group_key (name : string) : string := if name == DefaultName then "" else name.

Lemma group_key_inj a b : a ≠ "" → b ≠ "" → group_key a = group_key b → a = b.
Proof. unfold group_key. intros Ha Hb. repeat case_bool_decide; congruence. Qed.

Lemma blueprint_key g b :
  component_key (blueprint_labeller g b) = (blueprint_type b, group_key (lab_InstanceGroup (blueprint_labeller g b))).
Proof. by destruct b. Qed.

(** The components of every type but one. *)
Definition but (t : ComponentType) (all : list blueprint) : list blueprint := List.filter (λ b, blueprint_type b != t) all.

Lemma groups_but g t t' all : groups g t' (but t all) = if t' == t then [] else groups g t' all.
Proof.
  unfold groups, but. induction all as [|b all IH]; [by destruct (t' == t)|]. cbn [List.filter].
  destruct (bool_decide_reflect (blueprint_type b = t)) as [Hb|Hb]; cbn [negb List.filter].
  - rewrite IH. destruct (bool_decide_reflect (t' = t)) as [->|Ht]; [done|]. by rewrite bool_decide_eq_false_2 by congruence.
  - destruct (bool_decide_reflect (blueprint_type b = t')) as [Hb'|Hb']; cbn [fmap list_fmap]; [|exact IH].
    rewrite bool_decide_eq_false_2 in IH |- * by congruence. by f_equal.
Qed.

Lemma keys_NoDup g all :
  (∀ t, NoDup (group_key <$> groups g t all)) → NoDup ((λ b, component_key (blueprint_labeller g b)) <$> all).
Proof.
  induction all as [|b all IH]; intros H; [constructor|]. cbn [fmap list_fmap]. constructor.
  - intros (b' & Hk & Hb')%list_elem_of_fmap. rewrite !blueprint_key in Hk. injection Hk as Ht Hg.
    specialize (H (blueprint_type b)). unfold groups in H. cbn [List.filter] in H. rewrite bool_decide_eq_true_2 in H by done.
    cbn [fmap list_fmap] in H. apply NoDup_cons in H as [H _]. apply H, list_elem_of_fmap. eexists. split; [exact Hg|].
    apply list_elem_of_fmap. exists b'. split; [done|]. apply list_elem_of_In, filter_In. split; [by apply list_elem_of_In|].
    by apply bool_decide_eq_true_2.
  - apply IH. intros t. specialize (H t). unfold groups in *. cbn [List.filter] in H. destruct (bool_decide _); [|done].
    cbn [fmap list_fmap] in H. by apply NoDup_cons in H as [_ H].
Qed.

(** Names of cells are numbers. *)
Lemma pretty_N_go_app x s : ∃ p, pretty.pretty_N_go x s = p +:+ s.
Proof.
  revert s. induction (N.lt_wf_0 x) as [x _ IH]; intros s. destruct (decide (x = 0)%N) as [->|Hx].
  - exists "". by rewrite pretty.pretty_N_go_0.
  - rewrite pretty.pretty_N_go_step by lia.
    destruct (IH (x / 10)%N) with (s := String (pretty.pretty_N_char (x `mod` 10)) s) as [p Hp].
    { apply N.div_lt; lia. }
    rewrite Hp. exists (p +:+ String (pretty.pretty_N_char (x `mod` 10)) ""). rewrite string_app_assoc. by rewrite string_app_cons.
Qed.

Lemma fmt_d_digit z : (0 < z)%Z → ∃ p d, (d < 10)%N ∧ fmt_d z = p +:+ String (pretty.pretty_N_char d) "".
Proof.
  intros Hz. destruct z as [|x|x]; try lia. unfold fmt_d, pretty, pretty.pretty_Z, pretty, pretty.pretty_positive, pretty, pretty.pretty_N.
  rewrite decide_False by lia. rewrite pretty.pretty_N_go_step by lia.
  destruct (pretty_N_go_app (N.pos x / 10) (String (pretty.pretty_N_char (N.pos x `mod` 10)) "")) as [p ->].
  exists p, (N.pos x `mod` 10)%N. split; [apply N.mod_lt; lia|done].
Qed.

Lemma string_snoc_inj p q a b : p +:+ String a "" = q +:+ String b "" → a = b.
Proof.
  intros H. assert (String.length p = String.length q) as Hl.
  { pose proof (f_equal String.length H) as Hl. rewrite !string_length_app in Hl. cbn in Hl. lia. }
  apply string_app_inj in H as [_ H]; [|done]. by injection H.
Qed.

Lemma cell_name_plain z : (0 < z)%Z → fmt_d z ≠ "" ∧ fmt_d z ≠ DefaultName.
Proof.
  intros Hz. destruct (fmt_d_digit z Hz) as (p & d & Hd & ->). split; intros H.
  - apply (f_equal String.length) in H. rewrite string_length_app in H. cbn in H. lia.
  - change DefaultName with ("defaul" +:+ String (Ascii.ascii_of_nat 116) "") in H. apply string_snoc_inj in H.
    assert (d = 0 ∨ d = 1 ∨ d = 2 ∨ d = 3 ∨ d = 4 ∨ d = 5 ∨ d = 6 ∨ d = 7 ∨ d = 8 ∨ d = 9)%N as Hc by lia.
    repeat (destruct Hc as [->|Hc]; [vm_compute in H; discriminate H|]). subst d. vm_compute in H. discriminate H.
Qed.

(** ** The components of an accepted cluster *)

Section accepted.
Context {WD : WebhookDeps}.

(** What the schema of the resource demands of the names of groups ([MinLength:=1]). *)
Definition groups_named (spec : YtsaurusSpec) : Prop :=
  ∀ name, name ∈ (hps_Role <$> spec_HTTPProxies spec) ++ (rps_Role <$> spec_RPCProxies spec) ++
    (tps_Role <$> spec_TCPProxies spec) ++ (kps_Role <$> spec_KafkaProxies spec) ++ (dns_Name <$> spec_DataNodes spec) ++
    (ens_Name <$> spec_ExecNodes spec) ++ (tns_Name <$> spec_TabletNodes spec) → name ≠ "".

Lemma group_keys_NoDup names : NoDup names → (∀ n, n ∈ names → n ≠ "") → NoDup (group_key <$> names).
Proof. intros Hn Hne. apply NoDup_fmap_2_strong; [|done]. intros a b Ha Hb. apply group_key_inj; by apply Hne. Qed.

Lemma NoDup_fmap_same {A B} (f : A → B) l a b : NoDup (f <$> l) → a ∈ l → b ∈ l → f a = f b → a = b.
Proof.
  induction l as [|x l IH]; [by intros _ ?%elem_of_nil|]. cbn [fmap list_fmap]. intros [Hx Hl]%NoDup_cons.
  intros [->|Ha]%elem_of_cons [->|Hb]%elem_of_cons Heq; [done| | |by apply IH].
  - destruct Hx. rewrite Heq. apply list_elem_of_fmap. by exists b.
  - destruct Hx. rewrite <- Heq. apply list_elem_of_fmap. by exists a.
Qed.

Lemma NewGenerator_primary y domain g :
  NewGenerator y domain = Returned g → mci_CellTag (ng_primaryMaster (gen_NodeGenerator g)) = ms_CellTag (spec_PrimaryMasters (yts_Spec y)).
Proof. unfold NewGenerator, NewLocalNodeGenerator. intros H. cbv zeta in H. returned_inv. by subst. Qed.

Section cluster.
Context (y : Ytsaurus) (oldY : option Ytsaurus) (domain : string) (g : Generator).
Context (Hv : evaluateYtsaurusValidation (Some y) oldY = None) (Hg : NewGenerator y domain = Returned g).

Abbreviation spec := (yts_Spec y).
Abbreviation ng := (gen_NodeGenerator g).

Lemma primary_group : lab_InstanceGroup (GetMasterLabeller ng (ms_CellTag (spec_PrimaryMasters spec))) = "".
Proof. unfold GetMasterLabeller. by rewrite (NewGenerator_primary _ _ _ Hg), bool_decide_eq_true_2. Qed.

Lemma secondary_groups :
  (λ m, lab_InstanceGroup (GetMasterLabeller ng (ms_CellTag m))) <$> spec_SecondaryMasters spec =
  (λ m, fmt_d (ms_CellTag m)) <$> spec_SecondaryMasters spec.
Proof.
  destruct (accepted_names_unique y oldY Hv) as (Hn & _). cbn [fmap list_fmap] in Hn. apply NoDup_cons in Hn as [Hn _].
  apply list_fmap_ext. intros i m Hm. unfold GetMasterLabeller. rewrite (NewGenerator_primary _ _ _ Hg).
  rewrite bool_decide_eq_false_2; [done|]. intros He. apply Hn. rewrite <- He. apply list_elem_of_fmap. exists m.
  split; [done|by eapply list_elem_of_lookup_2].
Qed.

Lemma expected_keys heater t :
  groups_named spec → (t = KafkaProxyType → NoDup (kps_Role <$> spec_KafkaProxies spec)) →
  NoDup (group_key <$> expected ng spec heater t).
Proof.
  intros Hne Hkafka.
  destruct (accepted_names_unique y oldY Hv) as (Htags & Hrange & _ & _ & Hhttp & _ & Hrpc & Htcp & Hdata & Hexec & Htab).
  assert (∀ names, NoDup names → (∀ n, n ∈ names → n ∈ (hps_Role <$> spec_HTTPProxies spec) ++ (rps_Role <$> spec_RPCProxies spec) ++
    (tps_Role <$> spec_TCPProxies spec) ++ (kps_Role <$> spec_KafkaProxies spec) ++ (dns_Name <$> spec_DataNodes spec) ++
    (ens_Name <$> spec_ExecNodes spec) ++ (tns_Name <$> spec_TabletNodes spec)) → NoDup (group_key <$> names)) as Hlist.
  { intros names Hn Hin. apply group_keys_NoDup; [done|]. intros n Hn'. by apply Hne, Hin. }
  destruct t; cbn [expected]; try (case_match; apply (bool_decide_unpack _); done); try (apply (bool_decide_unpack _); done);
    try (apply Hlist; [by try apply Hkafka|]; intros n Hn; rewrite !elem_of_app; tauto).
  rewrite primary_group, secondary_groups, fmap_app. cbn [fmap list_fmap].
  cbn [fmap list_fmap] in Htags. apply NoDup_cons in Htags as [_ Htags]. inversion_clear Hrange as [|? ? _ Hsec].
  rewrite Forall_forall in Hsec.
  assert (∀ m, m ∈ spec_SecondaryMasters spec → group_key (fmt_d (ms_CellTag m)) = fmt_d (ms_CellTag m) ∧ fmt_d (ms_CellTag m) ≠ "") as Hcell.
  { intros m Hm. destruct (cell_name_plain (ms_CellTag m)) as [H1 H2]; [specialize (Hsec m Hm); unfold MinValidCellTag in Hsec; lia|].
    unfold group_key. by rewrite bool_decide_eq_false_2. }
  rewrite <- list_fmap_compose. apply NoDup_app. split_and!; [| |apply NoDup_singleton].
  - apply NoDup_fmap_2_strong; [|by apply (NoDup_fmap_1 ms_CellTag)]. intros a b Ha Hb. unfold compose.
    rewrite (proj1 (Hcell a Ha)), (proj1 (Hcell b Hb)). intros Heq. apply (inj pretty) in Heq.
    apply (NoDup_fmap_same _ _ a b Htags Ha Hb Heq).
  - intros n (m & -> & Hm)%list_elem_of_fmap Hn%list_elem_of_singleton. unfold compose in Hn.
    rewrite (proj1 (Hcell m Hm)) in Hn. by destruct (Hcell m Hm).
Qed.
End cluster.

End accepted.
