(* ===== verification/Microservices.v ===== *)
(** * Services that are deployments (src/pkg/components: microservice.go, ui.go,
    strawberry_controller.go; src/pkg/resources/deployment.go)

    The web interface and the controller of CHYT cliques are not servers of the cluster: each is a
    deployment behind an HTTP service with a configuration, a token in a secret and jobs that
    create its user.  The deployment is kept with its whole pod specification; the old object of
    the resource and the object being built share the template after pods were removed, and a
    write through one is seen through the other. *)

From S2P Require Import Prelude Kubernetes ApiTypes Consts Labeller Status Ypatch Checks CypressActions ApiProxy Resources Services ConfigMaps InitJob Components YtsaurusClient PodsManager UpdateModes Master ServerComponents AgentComponents ServerImpl Releases Values Connection Pods ServerPods ServerConfigs.

(** ** Deployments (deployment.go) *)

(** The labels are [None] for a component type without a label, where the code panics. *)
Record Deployment := mkDeployment {
  dep_meta : ObjectMeta;
  dep_Replicas : option Z;
  dep_Selector : option (gmap string string);
  dep_TemplateLabels : option (gmap string string);
  dep_TemplateAnnotations : gmap string string;
  dep_PodSpec : PodTemplate;
}.

Definition PodTemplateZero : PodTemplate :=
  mkPodTemplate None [] None None None [] [] [] None ∅ [] None false "".

Definition DeploymentZero : Deployment := mkDeployment ObjectMetaZero None None None ∅ PodTemplateZero.

#[global] Instance Deployment_object : KubeObject Deployment := {
  obj_meta := dep_meta;
  obj_set_meta m o := mkDeployment m (dep_Replicas o) (dep_Selector o) (dep_TemplateLabels o) (dep_TemplateAnnotations o)
    (dep_PodSpec o);
  obj_type := "*v1.Deployment";
}.

Definition dep_set_Replicas (n : Z) (o : Deployment) : Deployment :=
  mkDeployment (dep_meta o) (Some n) (dep_Selector o) (dep_TemplateLabels o) (dep_TemplateAnnotations o) (dep_PodSpec o).

Definition dep_set_PodSpec (p : PodTemplate) (o : Deployment) : Deployment :=
  mkDeployment (dep_meta o) (dep_Replicas o) (dep_Selector o) (dep_TemplateLabels o) (dep_TemplateAnnotations o) p.

Definition dep_annotate (name value : string) (o : Deployment) : Deployment :=
  mkDeployment (dep_meta o) (dep_Replicas o) (dep_Selector o) (dep_TemplateLabels o)
    (<[name := value]> (dep_TemplateAnnotations o)) (dep_PodSpec o).

(** [o.Spec = old.Spec]. *)
Definition dep_set_Spec (old o : Deployment) : Deployment :=
  mkDeployment (dep_meta o) (dep_Replicas old) (dep_Selector old) (dep_TemplateLabels old) (dep_TemplateAnnotations old)
    (dep_PodSpec old).

(** ** The microservice (microservice.go) *)

(** The fields that change: [builtDeployment] and [builtService] point to the new objects of the
    resources when set, [mm_built] is the flag of the deployment resource, and [mm_shared] says that
    the template annotations of the new deployment are the map of the old one. *)
Record microMem := mkMicroMem {
  mm_instanceCount : Z;
  mm_builtDeployment : bool;
  mm_builtService : bool;
  mm_built : bool;
  mm_shared : bool;
}.

Definition mm_set_instanceCount (n : Z) (m : microMem) : microMem :=
  mkMicroMem n (mm_builtDeployment m) (mm_builtService m) (mm_built m) (mm_shared m).
Definition mm_set_builtDeployment (m : microMem) : microMem :=
  mkMicroMem (mm_instanceCount m) true (mm_builtService m) (mm_built m) (mm_shared m).
Definition mm_set_builtService (m : microMem) : microMem :=
  mkMicroMem (mm_instanceCount m) (mm_builtDeployment m) true (mm_built m) (mm_shared m).
Definition mm_set_built (m : microMem) : microMem :=
  mkMicroMem (mm_instanceCount m) (mm_builtDeployment m) (mm_builtService m) true (mm_shared m).
Definition mm_set_shared (m : microMem) : microMem :=
  mkMicroMem (mm_instanceCount m) (mm_builtDeployment m) (mm_builtService m) (mm_built m) true.

Record microserviceImpl (E : Type) := mkMicroservice {
  ms_labeller : Labeller;
  ms_image : string;
  ms_deployment : lens E (ManagedResource Deployment);
  ms_http : HTTPService;
  ms_service : lens E (ManagedResource Service);
  ms_configs : ConfigMapBuilder E;
  ms_tolerations : list Toleration;
  ms_nodeSelector : gmap string string;
  ms_mem : lens E microMem;
}.
Arguments mkMicroservice {E} _ _ _ _ _ _ _ _ _.
Arguments ms_labeller {E} _.
Arguments ms_image {E} _.
Arguments ms_deployment {E} _.
Arguments ms_http {E} _.
Arguments ms_service {E} _.
Arguments ms_configs {E} _.
Arguments ms_tolerations {E} _.
Arguments ms_nodeSelector {E} _.
Arguments ms_mem {E} _.

(** The cells a microservice keeps its objects in. *)
Record microCells (E : Type) := mkMicroCells {
  mc_deployment : lens E (ManagedResource Deployment);
  mc_service : lens E (ManagedResource Service);
  mc_configMap : lens E (ManagedResource ConfigMap);
  mc_overrides : lens E ConfigMap;
  mc_mem : lens E microMem;
}.
Arguments mc_deployment {E} _.
Arguments mc_service {E} _.
Arguments mc_configMap {E} _.
Arguments mc_overrides {E} _.
Arguments mc_mem {E} _.

(** A service without transport settings, as [NewHTTPService] makes it from a nil transport. *)
Definition HTTPServiceZero : HTTPService := mkHTTPService false None None None None None None None None None.

Definition SetHttpNodePort (port : option Z) (s : HTTPService) : HTTPService :=
  mkHTTPService (hs_DisableHTTP s) (hs_HTTPSSecret s) (hs_httpPort s) (hs_httpsPort s) port (hs_httpsNodePort s)
    (hs_chytHttpProxyPort s) (hs_chytHttpProxyNodePort s) (hs_chytHttpsProxyPort s) (hs_chytHttpsProxyNodePort s).

(** The generators come sorted by file name, and the name of the config map exists for both
    component types. *)
Definition newMicroservice {E} (l : Labeller) (image : string) (configOverrides : option string)
    (generators : list ConfigGenerator) (tolerations : list Toleration) (nodeSelector : gmap string string)
    (cells : microCells E) : microserviceImpl E :=
  mkMicroservice l image (mc_deployment cells) HTTPServiceZero (mc_service cells)
    (mkConfigMapBuilder l (default "" (GetMainConfigMapName l)) configOverrides generators (mc_configMap cells)
       (mc_overrides cells)) tolerations nodeSelector (mc_mem cells).

Definition newMicroMem (instanceCount : Z) : microMem := mkMicroMem instanceCount false false false false.

Section microservice.
Context {CC : ConfigCodec} {E : Type} {MC : MetaConditions} {SC : StatusClient E}.
Context `{HKC : !KubeClient E ConfigMap} `{HKD : !KubeClient E Deployment} `{HKV : !KubeClient E Service}.
(** [client.List] with the selector of the labeller, and the hash of a pod template. *)
Context (ListPods : Labeller → go E (list Pod * option error)) (HashTemplate : Deployment → error + string).

Abbreviation W := (World E).

Context (m : microserviceImpl E).

Definition ms_memory (w : W) : microMem := lget (ms_mem m) (w_env w).
Definition in_micro (f : microMem → microMem) : go W unit :=
  modify (λ w, w_set_env (lset (ms_mem m) (f (ms_memory w)) (w_env w)) w).

Abbreviation oldDep := (OldObject (ms_deployment m)).
Abbreviation newDep := (NewObject (ms_deployment m)).
Abbreviation in_newDep f := (in_resource (ms_deployment m) (λ r, res_set_new (f (res_newObject r)) r)).

Definition ms_Fetch : go W (option error) :=
  resources_Fetch
    [ Some (resource_Fetch (ms_deployment m)); Some (cb_Fetch (ms_configs m)); Some (resource_Fetch (ms_service m)) ].

Definition ms_Exists (w : W) : bool :=
  resources_Exists w
    [ Some (resource_Exists (ms_deployment m)); Some (cb_Exists (ms_configs m)); Some (resource_Exists (ms_service m)) ].

Definition ms_getInstanceCount (w : W) : Z := mm_instanceCount (ms_memory w).
Definition ms_setInstanceCount (n : Z) : go W unit := in_micro (mm_set_instanceCount n).

Definition ms_getMinReadyInstanceCount (w : W) (margin : Z) : Z := Z.max (i32 (ms_getInstanceCount w - margin)) 0.

Definition ms_listPods : go W (list Pod * option error) := in_env (ListPods (ms_labeller m)).

Definition dep_GetReplicas (w : W) : Z := Deref (dep_Replicas (oldDep w)) 1%Z.

Definition ms_needSync : go W bool :=
  '(configStatus, err) ← needReload (ms_configs m);
  w ← gets id;
  mret (negb (ms_Exists w) || (IsUpdating w && (err == None) && IsNeedUpdate configStatus)
        || (dep_GetReplicas w != ms_getInstanceCount w)).

(** [resources.Deployment.Build]. *)
Definition dep_Build : go W unit :=
  w ← gets id;
  (if mm_built (ms_memory w) then mret tt
   else in_resource (ms_deployment m) (λ r, res_set_new
     (mkDeployment (mkObjectMeta (res_name r) "" (lab_Annotations (ms_labeller m)) []) None
        (GetSelectorLabelMap (ms_labeller m)) (GetMetaLabelMap (ms_labeller m) false) (lab_Annotations (ms_labeller m))
        (mkPodTemplate None (cs_ImagePullSecrets (spec_CommonSpec (yts_Spec (w_yts w)))) None None None [] [] [] None
           (ms_nodeSelector m) (ms_tolerations m) None false "")) r)) ;;
  in_micro mm_set_built.

Definition rebuildDeployment : go W unit :=
  dep_Build ;;
  in_micro mm_set_builtDeployment ;;
  instanceCount ← gets ms_getInstanceCount;
  in_newDep (λ o, dep_set_PodSpec (pod_set_Containers [container "" (ms_image m) [] [] []] (dep_PodSpec o))
                    (dep_set_Replicas instanceCount o)).

Definition buildDeployment : go W unit :=
  built ← gets (λ w, mm_builtDeployment (ms_memory w)); if built : bool then mret tt else rebuildDeployment.

Definition buildService : go W unit :=
  built ← gets (λ w, mm_builtService (ms_memory w));
  if built : bool then mret tt
  else http_Build (ms_labeller m) (ms_service m) (ms_http m) ;; in_micro mm_set_builtService.

(** The map of template annotations is written in place; a nil map, which is empty, is replaced
    by a new one and not shared. *)
Definition ms_setConfigHash : go W (option error) :=
  cm ← gets (NewObject (cb_configMap (ms_configs m)));
  let configHash := default "" (obj_GetAnnotations cm !! ConfigHashAnnotationName) in
  if configHash == "" then mret (Some ("config hash is not found for " +:+ GetName cm)) else
  w ← gets id;
  (if mm_shared (ms_memory w) && (dep_TemplateAnnotations (oldDep w) != ∅)
   then in_resource (ms_deployment m) (λ r, res_set_old (dep_annotate ConfigHashAnnotationName configHash (res_oldObject r)) r)
   else mret tt) ;;
  in_newDep (dep_annotate ConfigHashAnnotationName configHash) ;;
  mret None.

Definition ms_setInstanceHash : go W (option error) :=
  o ← gets newDep;
  match HashTemplate o with
  | inl err => mret (Some err)
  | inr hash => in_newDep (SetMetaDataAnnotation InstanceHashAnnotationName hash) ;; mret None
  end.

Definition ms_Sync : go W (option error) :=
  go_err (Build (ms_configs m))
  (buildDeployment ;;
   buildService ;;
   go_err ms_setConfigHash
  (go_err ms_setInstanceHash
  (resources_Sync
     [ Some (resource_Sync (ms_deployment m)); Some (cb_Sync (ms_configs m)); Some (resource_Sync (ms_service m)) ]))).

Definition ms_removePods : go W (option error) :=
  dep_Build ;;
  in_micro mm_set_builtDeployment ;;
  old ← gets oldDep;
  in_newDep (dep_set_Spec old) ;;
  in_micro mm_set_shared ;;
  in_newDep (dep_set_Replicas 0) ;;
  ms_Sync.

Definition ms_getPodAnnotation (w : W) (name : string) : string :=
  default "" (dep_TemplateAnnotations (oldDep w) !! name).

(** The API server stores no deployment without containers; indexing an empty slice would panic. *)
Definition ms_podsImageCorrespondsToSpec (w : W) : bool :=
  match pod_Containers (dep_PodSpec (oldDep w)) with
  | c :: _ => pc_Image c == ms_image m
  | [] => false
  end.

Definition ms_needUpdate : go W ComponentStatus :=
  exists_ ← gets ms_Exists;
  images ← gets ms_podsImageCorrespondsToSpec;
  if negb exists_ then mret (ComponentStatusPending "init")
  else if negb images then mret (ComponentStatusNeedUpdate "image update")
  else
    '(status, err) ← needReload (ms_configs m);
    mret (if (err == None) && IsNeedUpdate status then status else ComponentStatusReady).

(** The interface of pods; [arePodsUpdatedToNewRevision] is not implemented and says yes. *)
Definition ms_pods : podsManager W :=
  mkPodsManager W ms_getInstanceCount ms_setInstanceCount ms_getMinReadyInstanceCount ms_getPodAnnotation ms_listPods
    ms_removePods (mret true).

(** [microserviceComponent.ArePodsReady]. *)
Definition ms_ArePodsReady : go W (ComponentStatus * option error) := arePodsReady ms_pods [].

End microservice.

(** ** The shared part of both components *)

Section components.
Context {CC : ConfigCodec} {E : Type} {MC : MetaConditions} {SC : StatusClient E} {CD : ClientDeps E}.
Context `{HKC : !KubeClient E ConfigMap} `{HKD : !KubeClient E Deployment} `{HKV : !KubeClient E Service}.
Context `{HKS : !KubeClient E Secret} `{HKJ : !KubeClient E Job}.
Context (ListPods : Labeller → go E (list Pod * option error)) (HashTemplate : Deployment → error + string).

Abbreviation W := (World E).
Abbreviation syncResult := (ComponentStatus * option error)%type.
Abbreviation handled := (option ComponentStatus * option error)%type.

(** The part of [Sync] for a cluster that updates. *)
Definition micro_updating (c : component) (m : microserviceImpl E) (dry : bool) : go W handled :=
  when_updating (
    updating ← gets (λ w, components_IsUpdatingComponent w c);
    if negb updating then mret (Some (ComponentStatusReadyAfter "Not updating component"), None) else
    state ← gets GetUpdateState;
    if state == UpdateStateWaitingForPodsRemoval then
      err ← (if dry then mret None else removePods (ms_pods ListPods HashTemplate m) c);
      mret (Some (ComponentStatusUpdateStep "pods removal"), err)
    else if state != UpdateStateWaitingForPodsCreation then mret (Some ComponentStatusReady, None)
    else mret (None, None)).

(** [status, err := job.Sync(ctx, dry); if err != nil || status.SyncStatus != SyncStatusReady { return }]. *)
Definition after_job (j : InitJob (E:=E)) (dry : bool) (k : go W syncResult) : go W syncResult :=
  '(status, err) ← ij_Sync j dry;
  if (err != None) || (cs_SyncStatus status != SyncStatusReady) then mret (status, err) else k.

(** [if NeedSync() { if !dry { err = syncComponents() }; return WaitingFor("components") }]. *)
Definition sync_micro (m : microserviceImpl E) (dry : bool) (syncComponents : go W (option error)) (k : go W syncResult)
    : go W syncResult :=
  need ← ms_needSync m; sync_if need dry "components" syncComponents k.

Definition in_podSpec (m : microserviceImpl E) (f : PodTemplate → PodTemplate) : go W unit :=
  in_resource (ms_deployment m) (λ r, let o := res_newObject r in res_set_new (dep_set_PodSpec (f (dep_PodSpec o)) o) r).

(** ** The web interface (ui.go) *)

Definition UIClustersConfigFileName := "clusters-config.json".
Definition UICustomConfigFileName := "common.js".
Definition UIUserName := "robot-ui".

Record UI := mkUI {
  uic_base : component;
  uic_micro : microserviceImpl E;
  uic_initJob : InitJob (E:=E);
  uic_master : component;
  uic_secret : lens E (ManagedResource Secret);
  uic_caRootBundle : option CABundle;
  uic_caBundle : option CABundle;
  uic_spec : UISpec;  (* resource.Spec.UI, not nil for a component that is created *)
}.

(** *** [NewUI] *)

Definition NewUI_image (spec : YtsaurusSpec) (ui : UISpec) : string := Deref (ui_Image ui) (spec_UIImage spec).

Definition maintenance_of (spec : YtsaurusSpec) : ClusterMaintenance :=
  Deref (cs_ClusterMaintenance (spec_CommonSpec spec)) ClusterMaintenanceZero.

Definition NewUI_instanceCount (spec : YtsaurusSpec) (ui : UISpec) : Z :=
  match cmt_Shutdown (maintenance_of spec) with
  | ClusterShutdownExceptMasters | ClusterShutdownEverything => 0%Z
  | _ => ui_InstanceCount ui
  end.

(** The generated configurations come encoded; [initJob] is the job [NewInitJobForYtsaurus] makes. *)
Definition NewUI (spec : YtsaurusSpec) (ui : UISpec) (base master : component) (clustersConfig customConfig : error + bytes)
    (cells : microCells E) (initJob : InitJob (E:=E)) (secret : lens E (ManagedResource Secret)) : UI :=
  let m := newMicroservice (cmp_labeller base) (NewUI_image spec ui) (cs_ConfigOverrides (spec_CommonSpec spec))
    [ mkConfigGenerator UIClustersConfigFileName "" "" ConfigFormatJson clustersConfig;
      mkConfigGenerator UICustomConfigFileName "" "" ConfigFormatJsonWithJsPrologue customConfig ]
    (ps_Tolerations (ui_PodSpec ui)) (ps_NodeSelector (ui_PodSpec ui)) cells in
  mkUI base
    (mkMicroservice (ms_labeller m) (ms_image m) (ms_deployment m) (SetHttpNodePort (ui_HttpNodePort ui) (ms_http m))
       (ms_service m) (ms_configs m) (ms_tolerations m) (ms_nodeSelector m) (ms_mem m))
    initJob master secret (NewCARootBundle (cs_CARootBundle (spec_CommonSpec spec)))
    (NewCABundle (cs_CABundle (spec_CommonSpec spec))) ui.

Definition UI_Fetch (u : UI) : go W (option error) :=
  resources_Fetch [Some (ms_Fetch (uic_micro u)); Some (ij_Fetch (uic_initJob u)); Some (resource_Fetch (uic_secret u))].

Definition UI_Exists (u : UI) (w : W) : bool :=
  resources_Exists w [Some (ms_Exists (uic_micro u)); Some (ij_Exists (uic_initJob u)); Some (resource_Exists (uic_secret u))].

Definition ui_initUser (u : UI) (w : W) : string :=
  strings_Join (createUserCommand sha256 UIUserName "" (secret_token (uic_secret u) w) false) newline.

Definition ui_createInitScript (u : UI) (w : W) : string :=
  strings_Join [initJobWithNativeDriverPrologue; ui_initUser u w] newline.

(** *** Its pod *)

Section ui_pod.
Context (resourceName image configMapName secretName : string) (ui : UISpec) (caRootBundle nativeBundle : option CABundle).

Definition ui_volumeMounts : list VolumeMount :=
  [ mkVolumeMount ConfigVolumeName (path_Join2 UIClustersConfigMountPoint UIClustersConfigFileName) None true
      UIClustersConfigFileName "";
    mkVolumeMount ConfigVolumeName (path_Join2 UICustomConfigMountPoint UICustomConfigFileName) None true
      UICustomConfigFileName "";
    volumeMount UIVaultVolumeName UIVaultMountPoint true;
    volumeMount UISecretsVolumeName UISecretsMountPoint false ].

(** For compatibility the bundle of the native transport stands in for a missing root bundle. *)
Definition ui_bundle : option CABundle :=
  match caRootBundle with Some b => Some b | None => nativeBundle end.

Definition ui_env : list EnvVar :=
  [ mkEnvVar "YT_AUTH_CLUSTER_ID" (EnvValue resourceName);
    mkEnvVar "ALLOW_PASSWORD_AUTH" (EnvValue "1");
    mkEnvVar "APP_INSTALLATION" (EnvValue "custom") ]
  ++ (if ui_UseInsecureCookies ui then [mkEnvVar "YT_AUTH_ALLOW_INSECURE" (EnvValue "1")] else [])
  ++ match ui_bundle with
     | Some b => [mkEnvVar "NODE_EXTRA_CA_CERTS" (EnvValue (path_Join2 (cab_MountPath b) (cab_FileName b)))]
     | None => [] end
  ++ ui_ExtraEnvVariables ui ++ getDefaultEnv.

Definition ui_init_container : PodContainer :=
  container PrepareSecretContainerName image
    ["bash"; "-c"; "cp " +:+ path_Join2 UIVaultMountPoint UISecretFileName +:+ " " +:+ UISecretsMountPoint]
    getDefaultEnv ui_volumeMounts.

Definition ui_container : PodContainer :=
  mkPodContainer UIContainerName image ["supervisord"] [] ui_env [] ui_volumeMounts
    [mkContainerPort HTTPPortName UIHTTPPort] ContainerResourcesZero
    (Some (mkProbe (HTTPGet (PortNumber UIHTTPPort) "/readyz") HealthcheckProbeParamsZero)) None None "".

(** [resource.MustParse("1Mi")]. *)
Definition secretsVolumeSize : Quantity := mkQuantity (2 ^ 20 * giga)%Z.

Definition ui_volumes : list PodVolume :=
  [ mkPodVolume ConfigVolumeName (ConfigMapSource configMapName [] None);
    mkPodVolume UIVaultVolumeName (SecretSource secretName []);
    mkPodVolume UISecretsVolumeName (EmptyDirSource (Some secretsVolumeSize)) ].

(** What [syncComponents] makes of the pod specification. *)
Definition ui_pod (podSpec : PodTemplate) : PodTemplate :=
  let podSpec := pod_set_InitContainers [ui_init_container] podSpec in
  let podSpec := pod_set_Containers [ui_container] podSpec in
  let podSpec := cab_AddVolume ui_bundle (pod_set_Volumes ui_volumes podSpec) in
  pod_set_Containers ((λ ct, cab_AddContainerEnv caRootBundle (cab_AddVolumeMount ui_bundle ct)) <$> pod_Containers podSpec)
    podSpec.

End ui_pod.

Definition ui_syncComponents (u : UI) : go W (option error) :=
  let m := uic_micro u in
  resourceName ← gets (λ w, yts_Name (w_yts w));
  secretName ← gets (λ w, res_name (resource (uic_secret u) w));
  buildService m ;;
  set_type (ms_service m) (ui_ServiceType (uic_spec u)) ;;
  buildDeployment m ;;
  in_podSpec m (ui_pod resourceName (ms_image m) (default "" (GetMainConfigMapName (cmp_labeller (uic_base u)))) secretName
    (uic_spec u) (uic_caRootBundle u) (uic_caBundle u)) ;;
  ms_Sync HashTemplate m.

(** The secret holds the token and the same in the form the interface reads. *)
Definition ui_secretData (token : string) : gmap string string :=
  <[ UISecretFileName := "{" +:+ quote +:+ "oauthToken" +:+ quote +:+ " : " +:+ quote +:+ token +:+ quote +:+ "}" ]>
    {[ TokenSecretKey := token ]}.

Definition UI_Sync (u : UI) (dry : bool) : go W syncResult :=
  let m := uic_micro u in
  if_status (micro_updating (uic_base u) m dry)
  (wait_running (uic_master u)
  (sync_token (uic_base u) (uic_secret u) ui_secretData dry
  (after_job (uic_initJob u) dry
  (sync_micro m dry (ui_syncComponents u)
  (ms_ArePodsReady ListPods HashTemplate m))))).

(** ** The controller of cliques (strawberry_controller.go) *)

Definition ControllerConfigFileName := "strawberry-controller.yson".
Definition ChytInitClusterJobConfigFileName := "chyt-init-cluster.yson".

Record StrawberryComponent := mkStrawberryComponent {
  sbw_base : component;
  sbw_micro : microserviceImpl E;
  sbw_initUserAndUrlJob : InitJob (E:=E);
  sbw_initChytClusterJob : InitJob (E:=E);
  sbw_secret : lens E (ManagedResource Secret);
  sbw_caRootBundle : option CABundle;
  sbw_caBundle : option CABundle;
  sbw_busClientSecret : option TLSSecret;
  sbw_busServerSecret : option TLSSecret;
  sbw_master : component;
  sbw_scheduler : component;
  sbw_dataNodes : list component;
  sbw_spec : StrawberryControllerSpec;
}.

(** *** [NewStrawberryController] *)

Definition strawberry_busSecret (secret : RPCTransportSpec → option string) (volumeName mountPath : string)
    (transport : option RPCTransportSpec) : option TLSSecret :=
  match transport with
  | Some transport => NewTLSSecretOrNil (secret transport) volumeName mountPath
  | None => None
  end.

Definition strawberry_image (spec : YtsaurusSpec) (s : StrawberryControllerSpec) : string :=
  Deref (sbc_Image s) (cs_CoreImage (spec_CommonSpec spec)).

Definition strawberry_instanceCount (spec : YtsaurusSpec) : Z :=
  if cmt_Shutdown (maintenance_of spec) != ClusterShutdownNone then 0%Z else 1%Z.

Definition NewStrawberryController (spec : YtsaurusSpec) (s : StrawberryControllerSpec) (base master scheduler : component)
    (dataNodes : list component) (config : error + bytes) (cells : microCells E)
    (initUserAndUrlJob initChytClusterJob : InitJob (E:=E)) (secret : lens E (ManagedResource Secret)) : StrawberryComponent :=
  let common := spec_CommonSpec spec in
  mkStrawberryComponent base
    (newMicroservice (cmp_labeller base) (strawberry_image spec s) (cs_ConfigOverrides common)
       [mkConfigGenerator ControllerConfigFileName "" "" ConfigFormatYson config]
       (ps_Tolerations (sbc_PodSpec s)) (ps_NodeSelector (sbc_PodSpec s)) cells)
    initUserAndUrlJob initChytClusterJob secret (NewCARootBundle (cs_CARootBundle common)) (NewCABundle (cs_CABundle common))
    (strawberry_busSecret rpct_TLSClientSecret BusClientSecretVolumeName BusClientSecretMountPoint (cs_NativeTransport common))
    (strawberry_busSecret rpct_TLSSecret BusServerSecretVolumeName BusServerSecretMountPoint (cs_NativeTransport common))
    master scheduler dataNodes s.

Definition Strawberry_Fetch (c : StrawberryComponent) : go W (option error) :=
  resources_Fetch [Some (ms_Fetch (sbw_micro c)); Some (ij_Fetch (sbw_initUserAndUrlJob c));
    Some (ij_Fetch (sbw_initChytClusterJob c)); Some (resource_Fetch (sbw_secret c))].

Definition Strawberry_Exists (c : StrawberryComponent) (w : W) : bool :=
  resources_Exists w [Some (ms_Exists (sbw_micro c)); Some (ij_Exists (sbw_initUserAndUrlJob c));
    Some (ij_Exists (sbw_initChytClusterJob c)); Some (resource_Exists (sbw_secret c))].

Definition strawberry_initUsers (c : StrawberryComponent) (w : W) : string :=
  strings_Join (createUserCommand sha256 StrawberryControllerUserName "" (secret_token (sbw_secret c) w) true) newline.

Definition createInitUserAndUrlScript (c : StrawberryComponent) (w : W) : string :=
  let l := cmp_labeller (sbw_base c) in
  strings_Join
    [ initJobWithNativeDriverPrologue;
      strawberry_initUsers c w;
      RunIfNonexistent "//sys/@ui_config" ["yt set //sys/@ui_config '{}'"];
      "yt set //sys/@ui_config/chyt_controller_base_url '" +:+ quote +:+ "http://" +:+
        res_name (resource (ms_service (sbw_micro c)) w) +:+ "." +:+ lab_Namespace l +:+ ".svc." +:+ lab_ClusterDomain l +:+
        ":" +:+ fmt_d StrawberryHTTPAPIPort +:+ quote +:+ "'" ] newline.

Definition strawberry_getCommand (s : StrawberryControllerSpec) (action config : string) : list string :=
  ["/usr/bin/chyt-controller"; action; "--config-path"; path_Join2 ConfigMountPoint config]
  ++ (if sbc_LogToStderr s then ["--log-to-stderr"] else []).

Definition createInitChytClusterScript (s : StrawberryControllerSpec) : string :=
  strings_Join
    [initJobPrologue; strings_Join (strawberry_getCommand s "init-cluster" ChytInitClusterJobConfigFileName) " "] newline.

(** The job takes its environment from the secret, which the model of jobs leaves out. *)
Definition prepareInitChytClusterJob (c : StrawberryComponent) : go W unit := ij_Build (sbw_initChytClusterJob c).

(** *** Its pod *)

Section strawberry_pod.
Context (image configMapName secretName : string) (s : StrawberryControllerSpec).
Context (caRootBundle caBundle : option CABundle) (busClientSecret busServerSecret : option TLSSecret).

Definition strawberry_container : PodContainer :=
  mkPodContainer StrawberryContainerName image (strawberry_getCommand s "run" ControllerConfigFileName) [] getDefaultEnv
    [secretName] [createConfigVolumeMount] [mkContainerPort HTTPPortName StrawberryHTTPAPIPort] ContainerResourcesZero
    (Some (mkProbe (TCPSocket StrawberryHTTPAPIPort) HealthcheckProbeParamsZero)) None None "".

Definition strawberry_pod (podSpec : PodTemplate) : PodTemplate :=
  let podSpec := pod_set_Volumes [createConfigVolume ConfigVolumeName configMapName None]
                   (pod_set_Containers [strawberry_container] podSpec) in
  let podSpec := tls_AddVolume busServerSecret (tls_AddVolume busClientSecret
                   (cab_AddVolume caBundle (cab_AddVolume caRootBundle podSpec))) in
  pod_set_Containers ((λ ct,
    tls_AddVolumeMount busServerSecret (tls_AddVolumeMount busClientSecret
      (cab_AddVolumeMount caBundle (cab_AddContainerEnv caRootBundle (cab_AddVolumeMount caRootBundle ct)))))
    <$> pod_Containers podSpec) podSpec.

End strawberry_pod.

Definition strawberry_syncComponents (c : StrawberryComponent) : go W (option error) :=
  let m := sbw_micro c in
  secretName ← gets (λ w, res_name (resource (sbw_secret c) w));
  buildService m ;;
  set_type (ms_service m) ServiceTypeClusterIP ;;
  buildDeployment m ;;
  in_podSpec m (strawberry_pod (ms_image m) (default "" (GetMainConfigMapName (cmp_labeller (sbw_base c)))) secretName
    (sbw_spec c) (sbw_caRootBundle c) (sbw_caBundle c) (sbw_busClientSecret c) (sbw_busServerSecret c)) ;;
  ms_Sync HashTemplate m.

Definition Strawberry_Sync (c : StrawberryComponent) (dry : bool) : go W syncResult :=
  let m := sbw_micro c in
  if_status (micro_updating (sbw_base c) m dry)
  (wait_running (sbw_master c)
  (wait_running (sbw_scheduler c)
  (wait_all (sbw_dataNodes c)
  (sync_secret (sbw_base c) (sbw_secret c) dry
  (after_job (sbw_initUserAndUrlJob c) dry
  ((if dry then mret tt else prepareInitChytClusterJob c) ;;
   after_job (sbw_initChytClusterJob c) dry
  (sync_micro m dry (strawberry_syncComponents c)
  (mret (ComponentStatusReady, None))))))))).

End components.

(** ** What is kept apart

    An observation of the environment that neither the requests for one kind of objects nor the
    cells of the operator's memory that are named change. *)

Class ClientApart (E T : Type) `{!KubeClient E T} {O} (obs : E → O) : Prop := {
  apart_Get : ∀ name, preserves obs (client_Get (E:=E) (T:=T) name);
  apart_Create : ∀ o : T, preserves obs (client_Create (E:=E) o);
  apart_Update : ∀ o : T, preserves obs (client_Update (E:=E) o);
  apart_Delete : ∀ o : T, preserves obs (client_Delete (E:=E) o);
}.

(** The parts of a pod that the API server stores as they are written: of every container the name, the
    image, the command, the volumes and paths of mounts and the numbers of ports, and the names of
    volumes. *)
Definition containerContent : Type := string * string * list string * list (string * string) * list Z.

Definition container_content (c : PodContainer) : containerContent :=
  (pc_Name c, pc_Image c, pc_Command c, (λ m, (vm_Name m, vm_MountPath m)) <$> pc_VolumeMounts c, cp_ContainerPort <$> pc_Ports c).

Definition pod_content (p : PodTemplate) : list containerContent * list containerContent * list string :=
  (container_content <$> pod_InitContainers p, container_content <$> pod_Containers p, pv_Name <$> pod_Volumes p).

Lemma same_fmap_elem {A B} (f : A → B) (l l' : list A) x : f <$> l = f <$> l' → x ∈ l → ∃ y, y ∈ l' ∧ f x = f y.
Proof. intros H Hx. apply (list_elem_of_fmap_2 f) in Hx. rewrite H in Hx. apply list_elem_of_fmap in Hx as (y & ? & ?). by exists y. Qed.

Lemma pod_content_containers p q :
  pod_content p = pod_content q →
  container_content <$> pod_InitContainers p ++ pod_Containers p = container_content <$> pod_InitContainers q ++ pod_Containers q.
Proof. intros [= H1 H2 _]. by rewrite !fmap_app, H1, H2. Qed.

(** Whether a pod is well formed depends on these parts only. *)
Lemma pod_ok_content i p q : pod_content p = pod_content q → pod_ok i q → pod_ok i p.
Proof.
  intros Hc [H1 H2 H3]. pose proof (pod_content_containers _ _ Hc) as Hall.
  assert (volume_names i p = volume_names i q) as Hv by (unfold volume_names; by injection Hc as _ _ ->).
  split; rewrite ?Hv; [done| |].
  - apply (f_equal (fmap (λ t : containerContent, t.1.1.1.1))) in Hall. rewrite <- !list_fmap_compose in Hall.
    change (pc_Name <$> pod_InitContainers p ++ pod_Containers p = pc_Name <$> pod_InitContainers q ++ pod_Containers q) in Hall.
    by rewrite Hall.
  - intros c (c' & Hin & Heq)%(same_fmap_elem _ _ _ _ Hall). destruct (H3 c' Hin) as [Hn Hp].
    injection Heq as _ _ _ Hm _. split.
    + intros m Hm'. destruct (same_fmap_elem _ _ _ _ Hm Hm') as (m' & Hin' & [= -> _]). by apply Hn.
    + apply (f_equal (fmap snd)) in Hm. rewrite <- !list_fmap_compose in Hm.
      change (vm_MountPath <$> pc_VolumeMounts c = vm_MountPath <$> pc_VolumeMounts c') in Hm. by rewrite Hm.
Qed.

Class CellApart {E A O} (cell : lens E A) (obs : E → O) : Prop := apart_lset : ∀ a e, obs (lset cell a e) = obs e.

Section apart.
Context {CC : ConfigCodec} {E : Type} {MC : MetaConditions} {SC : StatusClient E} {O : Type} (obs : E → O).

Abbreviation W := (World E).
Abbreviation seen := (λ w : W, obs (w_env w)).

Lemma apart_env {A} (m : go W A) : preserves w_env m → preserves seen m.
Proof. intros H w. by rewrite (H w). Qed.

Lemma apart_in_env {A} (m : go E A) : preserves obs m → preserves seen (in_env m).
Proof. intros H w. rewrite run_in_env. apply H. Qed.

Lemma apart_record r m : preserves seen (RecordNormal r m) ∧ preserves seen (RecordWarning r m).
Proof. done. Qed.

Lemma apart_SetStatusCondition c : preserves seen (SetStatusCondition c).
Proof. unfold SetStatusCondition. go_frame; done. Qed.

Section resource.
Context {T : Type} `{HO : KubeObject T} `{HK : !KubeClient E T} `{HA : !ClientApart E T obs}.
Context (cell : lens E (ManagedResource T)) `{HCell : !CellApart cell obs}.

Lemma apart_in_resource f : preserves seen (in_resource cell f).
Proof. intros w. apply apart_lset. Qed.

Lemma apart_SyncObject (old new : T) : preserves seen (SyncObject (E:=E) old new).
Proof.
  pose proof (λ o, apart_in_env _ (apart_Create (T:=T) o)). pose proof (λ o, apart_in_env _ (apart_Update (T:=T) o)).
  pose proof (λ r m, proj1 (apart_record r m)). pose proof (λ r m, proj2 (apart_record r m)).
  unfold SyncObject, createAndReferenceObject, updateObject. go_frame.
Qed.

Lemma apart_resource_Sync : preserves seen (resource_Sync cell).
Proof. pose proof apart_SyncObject. pose proof apart_in_resource. unfold resource_Sync. go_frame. Qed.

Lemma apart_resource_Delete : preserves seen (resource_Delete cell).
Proof.
  pose proof (λ o, apart_in_env _ (apart_Delete (T:=T) o)).
  pose proof (λ r m, proj1 (apart_record r m)). pose proof (λ r m, proj2 (apart_record r m)).
  unfold resource_Delete, DeleteObject. go_frame.
Qed.
End resource.

#[local] Hint Resolve apart_in_resource apart_resource_Sync apart_resource_Delete apart_SetStatusCondition : go_preserves.

Section configs.
Context `{HKC : !KubeClient E ConfigMap} `{HAC : !ClientApart E ConfigMap obs}.
Context (h : ConfigMapBuilder E) `{HCell : !CellApart (cb_configMap h) obs}.

Lemma apart_Build : preserves seen (Build h).
Proof.
  assert (∀ l, preserves seen (buildLoop h l)).
  { pose proof (λ d, apart_env _ (getConfig_env h d)). intros l. induction l as [|d l IH]; cbn [buildLoop]; go_frame. }
  unfold Build, resource_Build, setAnnotation. go_frame.
Qed.

Lemma apart_cb_Sync : preserves seen (cb_Sync h).
Proof. pose proof (apart_env _ (needReload_env h)). unfold cb_Sync. go_frame. Qed.
End configs.

Section job.
Context `{HKC : !KubeClient E ConfigMap} `{HAC : !ClientApart E ConfigMap obs}.
Context `{HKJ : !KubeClient E Job} `{HAJ : !ClientApart E Job obs}.
Context (j : InitJob (E:=E)) `{HC1 : !CellApart (cb_configMap (ij_configs j)) obs} `{HC2 : !CellApart (ij_job j) obs}
  `{HC3 : !CellApart (ij_mem j) obs}.

Lemma apart_in_jmem f : preserves seen (in_jmem j f).
Proof. intros w. apply apart_lset. Qed.

Lemma apart_ij_Build : preserves seen (ij_Build j).
Proof. pose proof apart_in_jmem. unfold ij_Build. go_frame. Qed.

Lemma apart_ij_Sync dry : preserves seen (ij_Sync j dry).
Proof.
  pose proof (apart_Build (ij_configs j)). pose proof (apart_cb_Sync (ij_configs j)). pose proof apart_ij_Build.
  pose proof (λ r m, proj1 (apart_record r m)).
  unfold ij_Sync, start, setAnnotation. go_frame.
Qed.
End job.
End apart.

(** ** The two components as one *)

Section kinds.
Context {CC : ConfigCodec} {E : Type} {MC : MetaConditions} {SC : StatusClient E} {CD : ClientDeps E}.
Context `{HKC : !KubeClient E ConfigMap} `{HKD : !KubeClient E Deployment} `{HKV : !KubeClient E Service}.
Context `{HKS : !KubeClient E Secret} `{HKJ : !KubeClient E Job}.
Context (ListPods : Labeller → go E (list Pod * option error)) (HashTemplate : Deployment → error + string).

Abbreviation W := (World E).

Inductive micro_kind : Type := KUI (u : UI (E:=E)) | KStrawberry (c : StrawberryComponent (E:=E)).

Definition micro_base (k : micro_kind) : component := match k with KUI u => uic_base u | KStrawberry c => sbw_base c end.

Definition micro_of (k : micro_kind) : microserviceImpl E :=
  match k with KUI u => uic_micro u | KStrawberry c => sbw_micro c end.

Definition micro_secret (k : micro_kind) : lens E (ManagedResource Secret) :=
  match k with KUI u => uic_secret u | KStrawberry c => sbw_secret c end.

Definition micro_Sync (k : micro_kind) (dry : bool) : go W (ComponentStatus * option error) :=
  match k with
  | KUI u => UI_Sync ListPods HashTemplate u dry
  | KStrawberry c => Strawberry_Sync ListPods HashTemplate c dry
  end.

Definition micro_Fetch (k : micro_kind) : go W (option error) :=
  match k with KUI u => UI_Fetch u | KStrawberry c => Strawberry_Fetch c end.

Definition micro_syncComponents (k : micro_kind) : go W (option error) :=
  match k with
  | KUI u => ui_syncComponents HashTemplate u
  | KStrawberry c => strawberry_syncComponents HashTemplate c
  end.

(** The pod specification the component makes of the one the deployment starts with. *)
Definition micro_pod (k : micro_kind) (w : W) : PodTemplate → PodTemplate :=
  let image := ms_image (micro_of k) in
  let configMapName := default "" (GetMainConfigMapName (cmp_labeller (micro_base k))) in
  let secretName := res_name (resource (micro_secret k) w) in
  match k with
  | KUI u => ui_pod (yts_Name (w_yts w)) image configMapName secretName (uic_spec u) (uic_caRootBundle u) (uic_caBundle u)
  | KStrawberry c => strawberry_pod image configMapName secretName (sbw_spec c) (sbw_caRootBundle c) (sbw_caBundle c)
                       (sbw_busClientSecret c) (sbw_busServerSecret c)
  end.

(** The components that have to run and the jobs that have to be done first. *)
Definition micro_requires (k : micro_kind) : list component :=
  match k with
  | KUI u => [uic_master u]
  | KStrawberry c => sbw_master c :: sbw_scheduler c :: sbw_dataNodes c
  end.

Definition micro_jobs (k : micro_kind) : list (InitJob (E:=E)) :=
  match k with
  | KUI u => [uic_initJob u]
  | KStrawberry c => [sbw_initUserAndUrlJob c; sbw_initChytClusterJob c]
  end.

(** The components embed no pre-check of their own. *)
Definition micro_component (k : micro_kind) : ComponentI W :=
  mkComponentI _ (micro_base k) (micro_Fetch k) (ms_needUpdate (micro_of k)) (micro_Sync k) (mret ComponentStatusReady).

(** *** What Kubernetes is asked for *)

(** The parts of a deployment that the API server stores as they are written; it fills in others, such
    as the DNS policy of a pod, and one replica if none are given. *)
Definition dep_content (o : Deployment)
    : Z * option (gmap string string) * option (gmap string string) * gmap string string *
      (list containerContent * list containerContent * list string) :=
  (Deref (dep_Replicas o) 1%Z, dep_Selector o, dep_TemplateLabels o, dep_TemplateAnnotations o, pod_content (dep_PodSpec o)).

Context `{HKL : !KubeClientLaws E Deployment _ dep_content}.

Definition dep_stored (w : W) (name : string) : apierror + Deployment := val_of (client_Get name) (w_env w).

(** The stored deployments and the two cells of a microservice. *)
Definition micro_view (m : microserviceImpl E) (name : string) (e : E)
    : (apierror + Deployment) * ManagedResource Deployment * microMem :=
  (val_of (client_Get name) e, lget (ms_deployment m) e, lget (ms_mem m) e).

(** The two cells of its config map. *)
Definition config_cells (m : microserviceImpl E) (e : E) : ManagedResource ConfigMap * ConfigMap :=
  (lget (cb_configMap (ms_configs m)) e, lget (cb_overridesMap (ms_configs m)) e).

(** The objects of a microservice are stored apart from each other. *)
Class MicroResources (m : microserviceImpl E) : Prop := {
  mr_deployment :: LensLaws (ms_deployment m);
  mr_mem :: LensLaws (ms_mem m);
  mr_disjoint :: Disjoint_lenses (ms_deployment m) (ms_mem m);
  mr_client :: ClientMemory E Deployment (ms_deployment m);
  mr_client_mem :: ClientMemory E Deployment (ms_mem m);
  mr_configs name :: ClientApart E ConfigMap (micro_view m name);
  mr_services name :: ClientApart E Service (micro_view m name);
  mr_configs_cell name :: CellApart (cb_configMap (ms_configs m)) (micro_view m name);
  mr_services_cell name :: CellApart (ms_service m) (micro_view m name);
  mr_config_map :: LensLaws (cb_configMap (ms_configs m));
  mr_config_overrides :: Disjoint_lenses (cb_configMap (ms_configs m)) (cb_overridesMap (ms_configs m));
  mr_config_client :: ClientMemory E ConfigMap (cb_configMap (ms_configs m));
  mr_config_deployment :: CellApart (ms_deployment m) (config_cells m);
  mr_config_service :: CellApart (ms_service m) (config_cells m);
  mr_config_mem :: CellApart (ms_mem m) (config_cells m);
}.

Section requests.
Context (m : microserviceImpl E) `{HMR : !MicroResources m}.

Definition dep_memory (w : W) : ManagedResource Deployment * microMem := (resource (ms_deployment m) w, ms_memory m w).

Definition new_dep (d : ManagedResource Deployment * microMem) : Deployment := res_newObject d.1.

Lemma view_memory {A} (c : go W A) : preserves (λ w, micro_view m "" (w_env w)) c → preserves dep_memory c.
Proof. intros H w. specialize (H w). unfold micro_view in H. injection H as _ H1 H2. unfold dep_memory, resource, ms_memory. by rewrite H1, H2. Qed.

Lemma view_stored {A} (c : go W A) name : preserves (λ w, micro_view m name (w_env w)) c → preserves (λ w, dep_stored w name) c.
Proof. intros H w. specialize (H w). unfold micro_view in H. by injection H. Qed.

Lemma in_dep_memory f (w : W) :
  dep_memory (run (in_resource (ms_deployment m) f) w) = (f (dep_memory w).1, (dep_memory w).2).
Proof. unfold dep_memory, ms_memory, in_resource, resource. cbn. by rewrite lget_lset, disjoint_l. Qed.

Lemma in_micro_memory f (w : W) : dep_memory (run (in_micro m f) w) = ((dep_memory w).1, f (dep_memory w).2).
Proof. unfold dep_memory, in_micro, ms_memory, resource. cbn. by rewrite lget_lset, disjoint_r. Qed.

(** The deployment a component starts with. *)
Definition base_deployment (w : W) : Deployment :=
  let l := ms_labeller m in
  mkDeployment (mkObjectMeta (res_name (resource (ms_deployment m) w)) "" (lab_Annotations l) [])
    (Some (ms_getInstanceCount m w)) (GetSelectorLabelMap l) (GetMetaLabelMap l false) (lab_Annotations l)
    (mkPodTemplate None (cs_ImagePullSecrets (spec_CommonSpec (yts_Spec (w_yts w)))) None None None
       [container "" (ms_image m) [] [] []] [] [] None (ms_nodeSelector m) (ms_tolerations m) None false "").

(** Nothing was built in this pass. *)
Definition unbuilt (w : W) : Prop :=
  mm_builtDeployment (ms_memory m w) = false ∧ mm_built (ms_memory m w) = false ∧ mm_shared (ms_memory m w) = false.

Lemma buildService_memory (w : W) :
  (dep_memory (run (buildService m) w)).1 = (dep_memory w).1 ∧
  ∃ b, (dep_memory (run (buildService m) w)).2 = mkMicroMem (mm_instanceCount (ms_memory m w))
    (mm_builtDeployment (ms_memory m w)) b (mm_built (ms_memory m w)) (mm_shared (ms_memory m w)).
Proof.
  unfold buildService. rewrite run_bind, val_gets, run_gets.
  destruct (mm_builtService (ms_memory m w)) eqn:Hb; cbv beta.
  - split; [done|]. exists true. rewrite run_ret. unfold dep_memory. rewrite <- Hb. by destruct (ms_memory m w).
  - rewrite run_bind, in_micro_memory.
    assert (dep_memory (run (http_Build (ms_labeller m) (ms_service m) (ms_http m)) w) = dep_memory w) as Hh.
    { apply (view_memory (http_Build _ _ _)). unfold http_Build, service_Build. apply apart_in_resource, _. }
    unfold dep_memory in *. injection Hh as H1 H2. cbn [fst snd]. rewrite H1, H2. split; [done|]. by exists true.
Qed.

Lemma dep_Build_memory (w : W) :
  mm_built (ms_memory m w) = false →
  dep_memory (run (dep_Build m) w) =
    (res_set_new (dep_set_PodSpec (pod_set_Containers [] (dep_PodSpec (base_deployment w)))
       (mkDeployment (dep_meta (base_deployment w)) None (dep_Selector (base_deployment w)) (dep_TemplateLabels (base_deployment w))
          (dep_TemplateAnnotations (base_deployment w)) PodTemplateZero)) (dep_memory w).1,
     mm_set_built (dep_memory w).2).
Proof.
  intros Hb. unfold dep_Build. rewrite run_bind, val_gets, run_gets. cbn [id]. rewrite Hb. cbv beta.
  rewrite run_bind, in_micro_memory, in_dep_memory. done.
Qed.

Lemma buildDeployment_memory (w : W) :
  mm_builtDeployment (ms_memory m w) = false → mm_built (ms_memory m w) = false →
  dep_memory (run (buildDeployment m) w) =
    (res_set_new (base_deployment w) (dep_memory w).1, mm_set_builtDeployment (mm_set_built (dep_memory w).2)).
Proof.
  intros Hd Hb. unfold buildDeployment. rewrite run_bind, val_gets, run_gets. cbv beta. rewrite Hd.
  unfold rebuildDeployment. rewrite !run_bind, val_gets, run_gets, in_dep_memory, in_micro_memory, (dep_Build_memory w Hb).
  set (w1 := run (in_micro m mm_set_builtDeployment) (run (dep_Build m) w)).
  assert (ms_getInstanceCount m w1 = ms_getInstanceCount m w) as ->.
  { change (ms_getInstanceCount m w1) with (mm_instanceCount (dep_memory w1).2). subst w1.
    by rewrite in_micro_memory, (dep_Build_memory w Hb). }
  done.
Qed.

(** *** The configuration *)

Abbreviation configs := (λ w : W, config_cells m (w_env w)).

(** The hash of the files that are generated for the component, with the overrides of the user. *)
Definition config_hash (w : W) (hash : string) : Prop :=
  let h := ms_configs m in
  ∃ data, resources_Hash data = inr hash ∧
    (∀ d, d ∈ cb_generators h → configValue (GetConfigMapName h w) (overridesMap h w) d = inr (data !! cg_FileName d)) ∧
    (∀ f, f ∉ cg_FileName <$> cb_generators h → data !! f = None).

Lemma config_hash_same w w' hash : configs w' = configs w → config_hash w' hash → config_hash w hash.
Proof. unfold config_hash, GetConfigMapName, overridesMap, resource. intros [= H1 H2]. by rewrite H1, H2. Qed.

Lemma in_micro_configs f : preserves configs (in_micro m f).
Proof. intros w. apply (apart_lset (CellApart:=mr_config_mem)). Qed.

Lemma in_dep_configs f : preserves configs (in_resource (ms_deployment m) f).
Proof. apply apart_in_resource, _. Qed.

Lemma buildService_configs : preserves configs (buildService m).
Proof.
  pose proof in_micro_configs. assert (preserves configs (http_Build (ms_labeller m) (ms_service m) (ms_http m))).
  { unfold http_Build, service_Build. apply apart_in_resource, _. }
  unfold buildService. go_frame.
Qed.

Lemma buildDeployment_configs : preserves configs (buildDeployment m).
Proof.
  pose proof in_micro_configs. pose proof in_dep_configs. unfold buildDeployment, rebuildDeployment, dep_Build. go_frame.
Qed.

Lemma Build_config_hash (w w' : W) :
  NoDup (cg_FileName <$> cb_generators (ms_configs m)) → val_of (Build (ms_configs m)) w = None →
  configs w' = configs (run (Build (ms_configs m)) w) →
  ∃ hash, config_hash w hash ∧
    obj_GetAnnotations (NewObject (cb_configMap (ms_configs m)) w') !! ConfigHashAnnotationName = Some hash.
Proof.
  intros Hn Hv Hw. destruct (Build_spec (ms_configs m) w Hn Hv) as (_ & _ & _ & Hin & Hout & hash & Hh & Ha).
  exists hash. split; [by eexists|]. rewrite <- Ha. unfold NewObject, resource. by injection Hw as ->.
Qed.

(** The hashes only annotate. *)
Lemma ms_setConfigHash_memory (w : W) :
  val_of (ms_setConfigHash m) w = None →
  ∃ hash, hash ≠ "" ∧
    default "" (obj_GetAnnotations (NewObject (cb_configMap (ms_configs m)) w) !! ConfigHashAnnotationName) = hash ∧
    mm_builtDeployment (dep_memory (run (ms_setConfigHash m) w)).2 = mm_builtDeployment (dep_memory w).2 ∧
    new_dep (dep_memory (run (ms_setConfigHash m) w)) = dep_annotate ConfigHashAnnotationName hash (new_dep (dep_memory w)).
Proof.
  unfold ms_setConfigHash. go_step. set (hash := default "" _). destruct (bool_decide_reflect (hash = "")) as [->|Hne]; [done|].
  intros _. exists hash. do 2 (split; [done|]). go_step. rewrite in_dep_memory. unfold new_dep.
  destruct (_ && _); go_step; [rewrite in_dep_memory|]; done.
Qed.

Lemma ms_setInstanceHash_memory (w : W) :
  let w' := run (ms_setInstanceHash HashTemplate m) w in
  mm_builtDeployment (dep_memory w').2 = mm_builtDeployment (dep_memory w).2 ∧
  dep_content (new_dep (dep_memory w')) = dep_content (new_dep (dep_memory w)) ∧
  GetName (new_dep (dep_memory w')) = GetName (new_dep (dep_memory w)).
Proof.
  cbv zeta. unfold ms_setInstanceHash. go_step. destruct (HashTemplate _); [done|]. go_step. by rewrite in_dep_memory.
Qed.

(** A request that has reached Kubernetes. *)
Definition dep_requested (w : W) (name : string) (o : Deployment) : Prop :=
  ∃ o', dep_stored w name = inr o' ∧ dep_content o' = dep_content o ∧ GetResourceVersion o' ≠ "".

Lemma dep_resource_Sync_requested (w : W) :
  val_of (resource_Sync (ms_deployment m)) w = None →
  dep_requested (run (resource_Sync (ms_deployment m)) w) (GetName (new_dep (dep_memory w))) (new_dep (dep_memory w)).
Proof.
  unfold resource_Sync. repeat rewrite val_bind, val_gets, run_gets. repeat rewrite run_bind, val_gets, run_gets.
  rewrite val_bind, run_bind.
  pose proof (SyncObject_readable dep_content (OldObject (ms_deployment m) w) (NewObject (ms_deployment m) w) w) as Hread.
  destruct (val_of (SyncObject _ _) w) as [err obj]. rewrite val_bind, val_ret, run_bind, run_ret. intros ->.
  destruct (Hread eq_refl) as (o' & Hget & Hc & _ & Hrv). exists o'. split_and!; try done.
  rewrite <- Hget. unfold dep_stored, in_resource. cbn. apply get_mem.
Qed.

Lemma ms_Sync_requested (w : W) :
  NoDup (cg_FileName <$> cb_generators (ms_configs m)) →
  mm_builtDeployment (ms_memory m w) = true → val_of (ms_Sync HashTemplate m) w = None →
  ∃ hash, config_hash w hash ∧
    dep_requested (run (ms_Sync HashTemplate m) w) (GetName (new_dep (dep_memory w)))
      (dep_annotate ConfigHashAnnotationName hash (new_dep (dep_memory w))).
Proof.
  intros Hfiles Hb Hv. unfold ms_Sync in *.
  apply go_err_None in Hv as (Hbuild & Hv & ->). set (w1 := run (Build (ms_configs m)) w) in *.
  assert (dep_memory w1 = dep_memory w) as H1 by (apply view_memory, apart_Build; apply _).
  rewrite val_bind in Hv. rewrite run_bind. set (w2 := run (buildDeployment m) w1) in *.
  assert (w2 = w1) as H2.
  { subst w2. unfold buildDeployment. rewrite run_bind, val_gets, run_gets. cbv beta.
    change (ms_memory m w1) with (dep_memory w1).2. rewrite H1. cbn. by rewrite Hb. }
  rewrite val_bind in Hv. rewrite run_bind. set (w3 := run (buildService m) w2) in *.
  destruct (buildService_memory w2) as [H3 _]. fold w3 in H3.
  apply go_err_None in Hv as (Hh & Hv & ->). set (w4 := run (ms_setConfigHash m) w3) in *.
  destruct (ms_setConfigHash_memory w3 Hh) as (hash & _ & Hhash & _ & H4). fold w4 in H4.
  destruct (Build_config_hash w w3 Hfiles Hbuild) as (hash' & Hconfig & Hann).
  { unfold w3. rewrite (buildService_configs w2). by rewrite H2. }
  rewrite Hann in Hhash. cbn in Hhash. subst hash'.
  apply go_err_None in Hv as (_ & Hv & ->). set (w5 := run (ms_setInstanceHash HashTemplate m) w4) in *.
  destruct (ms_setInstanceHash_memory w4) as (_ & H5 & Hn5). fold w5 in H5, Hn5.
  assert (new_dep (dep_memory w3) = new_dep (dep_memory w)) as H6 by (unfold new_dep; by rewrite H3, H2, H1).
  exists hash. split; [done|]. unfold resources_Sync in *. cbn [resources_seq] in *.
  destruct (go_err_None _ _ _ Hv) as (Hs & _ & Hrun). unfold go_err in Hrun. rewrite Hrun.
  destruct (dep_resource_Sync_requested w5 Hs) as (o' & Hget & Hc & Hrv). rewrite H5, H4, H6 in Hc. rewrite Hn5, H4, H6 in Hget.
  exists o'. split_and!; [|done|done]. rewrite <- Hget. clear -HMR.
  set (name := GetName _). set (w6 := run _ w5).
  apply (view_stored (resources_seq [Some (cb_Sync (ms_configs m)); Some (resource_Sync (ms_service m))]) name).
  apply resources_seq_preserves. repeat apply Forall_cons_2; [..|apply Forall_nil_2].
  - apply apart_cb_Sync; apply _.
  - apply apart_resource_Sync; apply _.
Qed.

Lemma set_type_memory t (w : W) : dep_memory (run (set_type (ms_service m) t) w) = dep_memory w.
Proof. apply (view_memory (set_type _ _)). unfold set_type. apply apart_in_resource, _. Qed.

Lemma buildService_yts (w : W) : w_yts (run (buildService m) w) = w_yts w.
Proof. unfold buildService. go_step. by destruct (mm_builtService _). Qed.

(** What both components do once they have a pod specification. *)
Lemma deploy_requested (f : PodTemplate → PodTemplate) (t : ServiceType) (w : W) :
  let deploy := buildService m ;; set_type (ms_service m) t ;; buildDeployment m ;; in_podSpec m f ;; ms_Sync HashTemplate m in
  NoDup (cg_FileName <$> cb_generators (ms_configs m)) →
  mm_builtDeployment (ms_memory m w) = false → mm_built (ms_memory m w) = false → val_of deploy w = None →
  ∃ hash, config_hash w hash ∧
    dep_requested (run deploy w) (res_name (resource (ms_deployment m) w))
      (dep_annotate ConfigHashAnnotationName hash (dep_set_PodSpec (f (dep_PodSpec (base_deployment w))) (base_deployment w))).
Proof.
  cbv zeta. intros Hfiles Hd Hb. rewrite !val_bind, !run_bind. set (w1 := run (buildService m) w).
  set (w2 := run (set_type _ _) w1). set (w3 := run (buildDeployment m) w2). set (w4 := run (in_podSpec m f) w3). intros Hv.
  destruct (buildService_memory w) as (H1 & b & H1'). fold w1 in H1, H1'.
  pose proof (set_type_memory t w1) as H2. fold w2 in H2.
  assert (base_deployment w2 = base_deployment w) as Hbase.
  { unfold base_deployment, ms_getInstanceCount. change (ms_memory m w2) with (dep_memory w2).2.
    change (resource (ms_deployment m) w2) with (dep_memory w2).1. rewrite H2, H1, H1'. cbn.
    unfold w1. by rewrite buildService_yts. }
  assert (dep_memory w3 = (res_set_new (base_deployment w) (dep_memory w).1, mm_set_builtDeployment (mm_set_built (dep_memory w2).2)))
    as H3.
  { subst w3. rewrite buildDeployment_memory.
    - by rewrite Hbase, H2, H1.
    - change (ms_memory m w2) with (dep_memory w2).2. rewrite H2, H1'. done.
    - change (ms_memory m w2) with (dep_memory w2).2. rewrite H2, H1'. done. }
  assert (dep_memory w4 = (res_set_new (dep_set_PodSpec (f (dep_PodSpec (base_deployment w))) (base_deployment w)) (dep_memory w).1,
    mm_set_builtDeployment (mm_set_built (dep_memory w2).2))) as H4.
  { subst w4. unfold in_podSpec. by rewrite in_dep_memory, H3. }
  pose proof (ms_Sync_requested w4) as Hs. change (ms_memory m w4) with (dep_memory w4).2 in Hs.
  rewrite H4 in Hs. destruct (Hs Hfiles eq_refl Hv) as (hash & Hhash & Hreq). exists hash. split; [|done].
  apply (config_hash_same w w4); [|done]. unfold w4, w3, w2, w1. unfold in_podSpec, set_type.
  rewrite (in_dep_configs _ _), (buildDeployment_configs _), (apart_in_resource (config_cells m) _ _ _), (buildService_configs _). done.
Qed.

(** Removing pods sends back what was fetched with no replicas. *)
Lemma ms_removePods_requested (w : W) :
  let old := OldObject (ms_deployment m) w in
  NoDup (cg_FileName <$> cb_generators (ms_configs m)) →
  mm_built (ms_memory m w) = false → val_of (ms_removePods HashTemplate m) w = None →
  ∃ hash, config_hash w hash ∧
    dep_requested (run (ms_removePods HashTemplate m) w) (res_name (resource (ms_deployment m) w))
      (dep_annotate ConfigHashAnnotationName hash (dep_set_Replicas 0 old)).
Proof.
  cbv zeta. intros Hfiles Hb. unfold ms_removePods. rewrite !val_bind, !run_bind, !val_gets, !run_gets.
  set (w1 := run (dep_Build m) w). set (w2 := run (in_micro m mm_set_builtDeployment) w1).
  set (w3 := run (in_resource _ _) w2). set (w4 := run (in_micro m mm_set_shared) w3). set (w5 := run (in_resource _ _) w4).
  intros Hv. pose proof (dep_Build_memory w Hb) as H1. fold w1 in H1.
  assert (OldObject (ms_deployment m) w2 = OldObject (ms_deployment m) w) as Hold.
  { unfold OldObject at 1. change (resource (ms_deployment m) w2) with (dep_memory w2).1. subst w2.
    by rewrite in_micro_memory, H1. }
  pose proof (ms_Sync_requested w5) as Hs. change (ms_memory m w5) with (dep_memory w5).2 in Hs.
  assert (dep_memory w5 = (res_set_new (dep_set_Replicas 0 (dep_set_Spec (OldObject (ms_deployment m) w)
    (new_dep (dep_memory w2)))) (dep_memory w2).1, mm_set_shared (dep_memory w2).2)) as H5.
  { subst w5. rewrite in_dep_memory. subst w4. rewrite in_micro_memory. subst w3. rewrite in_dep_memory. by rewrite Hold. }
  rewrite H5 in Hs. subst w2. rewrite in_micro_memory, H1 in Hs. destruct (Hs Hfiles eq_refl Hv) as (hash & Hne & o' & Hget & Hc & Hrv).
  exists hash. split; [|by exists o']. apply (config_hash_same w w5); [|done]. unfold w5, w4, w3, w1.
  rewrite (in_dep_configs _ _), (in_micro_configs _ _), (in_dep_configs _ _), (in_micro_configs _ _).
  assert (preserves configs (dep_Build m)) as Hdb.
  { pose proof in_micro_configs. pose proof in_dep_configs. unfold dep_Build. go_frame. }
  by rewrite (Hdb w).
Qed.

End requests.
End kinds.

(** ** The pods of both components *)

Lemma listed_container_ok (vols mounts : list string * list string) names c :
  vm_Name <$> pc_VolumeMounts c = vols.1 → vm_MountPath <$> pc_VolumeMounts c = mounts.1 →
  names = vols.2 → bool_decide (Forall (λ n, n ∈ vols.2) vols.1) = true → bool_decide (NoDup mounts.1) = true →
  container_ok names c.
Proof.
  intros Hn Hp -> H1%bool_decide_eq_true H2%bool_decide_eq_true. split; [|by rewrite Hp].
  intros m Hm. rewrite Forall_forall in H1. apply H1. rewrite <- Hn. apply list_elem_of_fmap. by exists m.
Qed.

Section pods.
Context (resourceName image configMapName secretName : string) (root native : option FileObjectReference) (p : PodTemplate).
Context (Hroot : known_bundle root) (Hnative : known_bundle native).

Lemma cab_volumes_named src name path file :
  known_bundle (Some src) → pv_Name <$> cab_volumes (mkCABundle src name path file) = [name].
Proof.
  unfold known_bundle. intros Hk. unfold cab_volumes. cbn [cab_Source cab_VolumeName].
  rewrite !elem_of_cons in Hk. destruct Hk as [->|[->|[->|[]%elem_of_nil]]]; done.
Qed.

Lemma ui_pod_ok ui :
  pod_ok InstanceSpecZero (ui_pod resourceName image configMapName secretName ui (NewCARootBundle root) (NewCABundle native) p).
Proof.
  assert (pv_Name <$> pod_Volumes (ui_pod resourceName image configMapName secretName ui (NewCARootBundle root) (NewCABundle native) p) =
    [ConfigVolumeName; UIVaultVolumeName; UISecretsVolumeName] ++
    match root, native with Some _, _ => [CARootBundleVolumeName] | None, Some _ => [CABundleVolumeName] | None, None => [] end) as Hv.
  { destruct root as [r|]; [|destruct native as [n|]]; cbn; rewrite ?fmap_cons, ?cab_volumes_named; done. }
  split; unfold volume_names; rewrite ?Hv.
  - destruct root as [r|]; [|destruct native as [n|]]; by apply (bool_decide_unpack _).
  - destruct root as [r|]; [|destruct native as [n|]]; by apply (bool_decide_unpack _).
  - intros c Hc. destruct root as [r|]; [|destruct native as [n|]]; cbn in Hc;
      rewrite !elem_of_cons in Hc; destruct Hc as [->|[->|[]%elem_of_nil]];
      (eapply (listed_container_ok (_, _) (_, [])); [reflexivity|reflexivity|reflexivity|by vm_compute|by vm_compute]).
Qed.

Lemma ui_pod_images ui root' native' c :
  let q := ui_pod resourceName image configMapName secretName ui root' native' p in
  c ∈ pod_InitContainers q ++ pod_Containers q → pc_Image c = image.
Proof.
  cbv zeta. destruct root' as [r|]; [|destruct native' as [n|]]; cbn; rewrite !elem_of_cons;
    intros [->|[->|[]%elem_of_nil]]; done.
Qed.

Lemma strawberry_pod_ok s client server :
  pod_InitContainers p = [] →
  pod_ok InstanceSpecZero (strawberry_pod image configMapName secretName s (NewCARootBundle root) (NewCABundle native)
    (NewTLSSecretOrNil client BusClientSecretVolumeName BusClientSecretMountPoint)
    (NewTLSSecretOrNil server BusServerSecretVolumeName BusServerSecretMountPoint) p).
Proof.
  intros Hinit. set (q := strawberry_pod _ _ _ _ _ _ _ _ _).
  assert (pv_Name <$> pod_Volumes q = [ConfigVolumeName] ++ opt_name root CARootBundleVolumeName ++ opt_name native CABundleVolumeName ++
    opt_name client BusClientSecretVolumeName ++ opt_name server BusServerSecretVolumeName) as Hv.
  { subst q. destruct root as [r|], native as [n|], client, server; cbn; rewrite ?fmap_cons, ?fmap_app, ?cab_volumes_named; done. }
  assert (pod_InitContainers q = []) as Hi by (subst q; by destruct root, native, client, server).
  split; unfold volume_names; rewrite ?Hi, ?Hv.
  - destruct root, native, client, server; by apply (bool_decide_unpack _).
  - subst q. destruct root, native, client, server; by apply (bool_decide_unpack _).
  - intros c Hc. subst q. destruct root as [r|], native as [n|], client, server; cbn in Hc;
      rewrite !elem_of_cons in Hc; destruct Hc as [->|[]%elem_of_nil];
      (eapply (listed_container_ok (_, _) (_, [])); [reflexivity|reflexivity|reflexivity|by vm_compute|by vm_compute]).
Qed.

Lemma strawberry_pod_images s root' native' client server c :
  pod_InitContainers p = [] →
  let q := strawberry_pod image configMapName secretName s root' native' client server p in
  c ∈ pod_InitContainers q ++ pod_Containers q → pc_Image c = image.
Proof.
  cbv zeta. intros Hi. destruct root', native', client, server; cbn; rewrite Hi; cbn; rewrite !elem_of_cons;
    intros [->|[]%elem_of_nil]; done.
Qed.

End pods.

(** ** What is deployed *)

Section deployed.
Context {CC : ConfigCodec} {E : Type} {MC : MetaConditions} {SC : StatusClient E} {CD : ClientDeps E}.
Context `{HKC : !KubeClient E ConfigMap} `{HKD : !KubeClient E Deployment} `{HKV : !KubeClient E Service}.
Context `{HKS : !KubeClient E Secret} `{HKJ : !KubeClient E Job} `{HKL : !KubeClientLaws E Deployment _ dep_content}.
Context (ListPods : Labeller → go E (list Pod * option error)) (HashTemplate : Deployment → error + string).

Abbreviation W := (World E).

(** The component as its constructor makes it from a specification. *)
Definition made_from (spec : YtsaurusSpec) (k : micro_kind (E:=E)) : Prop :=
  match k with
  | KUI u => lab_ComponentType (cmp_labeller (uic_base u)) = UIType ∧ ∃ ui master clusters custom cells job secret,
      u = NewUI spec ui (uic_base u) master clusters custom cells job secret
  | KStrawberry c => lab_ComponentType (cmp_labeller (sbw_base c)) = StrawberryControllerType ∧
      ∃ s master scheduler dataNodes config cells job1 job2 secret,
        c = NewStrawberryController spec s (sbw_base c) master scheduler dataNodes config cells job1 job2 secret
  end.

Definition micro_count (spec : YtsaurusSpec) (k : micro_kind (E:=E)) : Z :=
  match k with KUI u => NewUI_instanceCount spec (uic_spec u) | KStrawberry _ => strawberry_instanceCount spec end.

Definition micro_image (spec : YtsaurusSpec) (k : micro_kind (E:=E)) : string :=
  match k with KUI u => NewUI_image spec (uic_spec u) | KStrawberry c => strawberry_image spec (sbw_spec c) end.

(** A pass starts with the component as it was constructed. *)
Definition fresh (spec : YtsaurusSpec) (k : micro_kind (E:=E)) (w : W) : Prop :=
  ms_memory (micro_of k) w = newMicroMem (micro_count spec k).

(** The service of the component leads to its pods: it selects them, and its one port goes to a
    port of a container. *)
Definition reaches (m : microserviceImpl E) (o : Deployment) : Prop :=
  (∃ selector labels, GetSelectorLabelMap (ms_labeller m) = Some selector ∧ dep_Selector o = Some selector ∧
     dep_TemplateLabels o = Some labels ∧ selector ⊆ labels) ∧
  ∃ port c, http_ports (ms_http m) = [port] ∧ c ∈ pod_Containers (dep_PodSpec o) ∧
    sp_TargetPort port ∈ cp_ContainerPort <$> pc_Ports c.

Lemma made_labels spec k :
  made_from spec k →
  ∃ selector labels, GetSelectorLabelMap (ms_labeller (micro_of k)) = Some selector ∧
    GetMetaLabelMap (ms_labeller (micro_of k)) false = Some labels ∧ selector ⊆ labels.
Proof.
  intros Hk. assert (ms_labeller (micro_of k) = cmp_labeller (micro_base k) ∧
    lab_ComponentType (cmp_labeller (micro_base k)) ∈ [UIType; StrawberryControllerType]) as [-> Ht].
  { destruct k as [u|c]; cbn; [destruct Hk as (-> & ? & ? & ? & ? & ? & ? & ? & ->)|
      destruct Hk as (-> & ? & ? & ? & ? & ? & ? & ? & ? & ? & ->)]; split; try done; by apply (bool_decide_unpack _). }
  set (l := cmp_labeller (micro_base k)) in *.
  assert (is_Some (GetSelectorLabelMap l) ∧ is_Some (GetMetaLabelMap l false) ∧ is_Some (GetMetaLabelMap l true))
    as ([sel Hs] & [labels Hl] & [job Hj]).
  { unfold GetSelectorLabelMap, GetMetaLabelMap, GetInstanceLabelValue, GetComponentTypeLabelValue, GetFullComponentLabel,
      GetComponentLabel. rewrite !elem_of_cons in Ht. destruct Ht as [->|[->|[]%elem_of_nil]]; cbn; split_and!; by eexists. }
  exists sel, labels. split_and!; [done..|]. by apply (selector_matches_only_servers l sel labels job).
Qed.

Lemma syncComponents_deploys k (w : W) :
  let m := micro_of k in
  ∃ t, run (micro_syncComponents HashTemplate k) w = run (buildService m ;; set_type (ms_service m) t ;; buildDeployment m ;;
         in_podSpec m (micro_pod k w) ;; ms_Sync HashTemplate m) w ∧
       val_of (micro_syncComponents HashTemplate k) w = val_of (buildService m ;; set_type (ms_service m) t ;; buildDeployment m ;;
         in_podSpec m (micro_pod k w) ;; ms_Sync HashTemplate m) w.
Proof. destruct k as [u|c]; [exists (ui_ServiceType (uic_spec u))|exists ServiceTypeClusterIP]; done. Qed.

(** The pod, its images and its port. *)
Lemma made_pod spec k (w : W) (base : PodTemplate) :
  known_bundle (cs_CARootBundle (spec_CommonSpec spec)) → known_bundle (cs_CABundle (spec_CommonSpec spec)) →
  made_from spec k → pod_InitContainers base = [] →
  let q := micro_pod k w base in
  pod_ok InstanceSpecZero q ∧ (∀ c, c ∈ pod_InitContainers q ++ pod_Containers q → pc_Image c = micro_image spec k) ∧
  ∃ port c, http_ports (ms_http (micro_of k)) = [port] ∧ c ∈ pod_Containers q ∧ sp_TargetPort port ∈ cp_ContainerPort <$> pc_Ports c.
Proof.
  intros Hr Hn Hk Hi. cbv zeta. destruct k as [u|c]; unfold micro_pod, micro_image; cbn [micro_of micro_base micro_secret].
  - destruct Hk as (_ & ui & master & c1 & c2 & cells & job & secret & ->). split_and!.
    + by apply ui_pod_ok.
    + intros c. apply ui_pod_images.
    + cbn. destruct (cs_CARootBundle _); [|destruct (cs_CABundle _)]; cbn;
        (eexists _, _; split_and!; [reflexivity|by left|by left]).
  - destruct Hk as (_ & s & master & sch & dn & config & cells & j1 & j2 & secret & ->).
    cbn [sbw_micro sbw_base sbw_spec sbw_caRootBundle sbw_caBundle sbw_busClientSecret sbw_busServerSecret NewStrawberryController].
    set (transport := cs_NativeTransport _).
    assert (strawberry_busSecret rpct_TLSClientSecret BusClientSecretVolumeName BusClientSecretMountPoint transport =
      NewTLSSecretOrNil (transport ≫= rpct_TLSClientSecret) BusClientSecretVolumeName BusClientSecretMountPoint) as ->
      by by destruct transport.
    assert (strawberry_busSecret rpct_TLSSecret BusServerSecretVolumeName BusServerSecretMountPoint transport =
      NewTLSSecretOrNil (transport ≫= rpct_TLSSecret) BusServerSecretVolumeName BusServerSecretMountPoint) as ->
      by by destruct transport.
    split_and!.
    + by apply strawberry_pod_ok.
    + intros x. by apply strawberry_pod_images.
    + cbn. generalize (transport ≫= rpct_TLSClientSecret), (transport ≫= rpct_TLSSecret). intros [?|] [?|];
        destruct (cs_CARootBundle _), (cs_CABundle _); cbn;
        (eexists _, _; split_and!; [reflexivity|by left|by left]).
Qed.

(** The configuration files of a component have different names. *)
Lemma made_files spec k : made_from spec k → NoDup (cg_FileName <$> cb_generators (ms_configs (micro_of k))).
Proof.
  intros Hk. destruct k as [u|c]; cbn; [destruct Hk as (_ & ? & ? & ? & ? & ? & ? & ? & ->)|
    destruct Hk as (_ & ? & ? & ? & ? & ? & ? & ? & ? & ? & ->)]; by apply (bool_decide_unpack _).
Qed.

(** C35. The web interface and the controller of cliques are deployed as the specification says.  Take
    a component as its constructor makes it, at the start of a pass, whose objects are stored apart from
    each other, in a cluster whose certificate bundles, if any, are of a known kind.  When the pass
    syncs the component without an error, Kubernetes returns a deployment with the number of replicas
    the specification asks for, or none under a maintenance that shuts the component down, all of whose
    containers run the image the specification chooses, whose pod is well formed, whose template is
    annotated with the hash of exactly the files generated for the component with the overrides of the
    user, and which the service of the component leads to.  When a pass removes its pods instead, the
    deployment has no replicas, and its selector, the labels of its template, its template annotations
    apart from that hash, and the names, images, commands, mounts and ports of its containers are those
    of the deployment that was fetched.  The API server is taken to store these parts of a deployment
    as they are written, and to fill in others. *)
Theorem microservice_deployed spec k (w : W) :
  let m := micro_of k in
  let name := res_name (resource (ms_deployment m) w) in
  MicroResources m → made_from spec k → fresh spec k w →
  known_bundle (cs_CARootBundle (spec_CommonSpec spec)) → known_bundle (cs_CABundle (spec_CommonSpec spec)) →
  (val_of (micro_syncComponents HashTemplate k) w = None →
   ∃ o, dep_stored (run (micro_syncComponents HashTemplate k) w) name = inr o ∧
     Deref (dep_Replicas o) 1%Z = micro_count spec k ∧
     (∀ c, c ∈ pod_InitContainers (dep_PodSpec o) ++ pod_Containers (dep_PodSpec o) → pc_Image c = micro_image spec k) ∧
     pod_ok InstanceSpecZero (dep_PodSpec o) ∧ reaches m o ∧
     ∃ hash, config_hash m w hash ∧ dep_TemplateAnnotations o !! ConfigHashAnnotationName = Some hash) ∧
  (val_of (ms_removePods HashTemplate m) w = None →
   ∃ o, dep_stored (run (ms_removePods HashTemplate m) w) name = inr o ∧ Deref (dep_Replicas o) 1%Z = 0%Z ∧
     pod_content (dep_PodSpec o) = pod_content (dep_PodSpec (OldObject (ms_deployment m) w)) ∧
     (∃ hash, config_hash m w hash ∧
        dep_TemplateAnnotations o = <[ConfigHashAnnotationName := hash]> (dep_TemplateAnnotations (OldObject (ms_deployment m) w))) ∧
     dep_Selector o = dep_Selector (OldObject (ms_deployment m) w) ∧
     dep_TemplateLabels o = dep_TemplateLabels (OldObject (ms_deployment m) w)).
Proof.
  cbv zeta. intros HMR Hk Hf Hr Hn. pose proof (made_files spec k Hk) as Hfiles. split; intros Hv.
  - destruct (syncComponents_deploys k w) as (t & Hrun & Hval). rewrite Hval in Hv. rewrite Hrun.
    destruct (deploy_requested HashTemplate (micro_of k) (micro_pod k w) t w) as (hash & Hhash & o & Hget & Hc & _); [done|by rewrite Hf..|done|].
    exists o. split; [done|]. unfold dep_content in Hc. apply pair_eq in Hc as [[[[H1 H2]%pair_eq H3]%pair_eq H4]%pair_eq H5].
    destruct (made_pod spec k w (dep_PodSpec (base_deployment (micro_of k) w)) Hr Hn Hk eq_refl) as (Hok & Himg & Hport).
    pose proof (pod_content_containers _ _ H5) as Hall. cbn [dep_annotate dep_set_PodSpec dep_PodSpec] in H5, Hall. split_and!.
    + rewrite H1. cbn. unfold ms_getInstanceCount. by rewrite Hf.
    + intros c (c' & Hin & [= _ -> _ _ _])%(same_fmap_elem _ _ _ _ Hall). by apply Himg.
    + by eapply pod_ok_content.
    + split.
      * destruct (made_labels spec k Hk) as (sel & labels & Hs & Hl & Hsub). exists sel, labels. by rewrite H2, H3.
      * destruct Hport as (port & c & Hport & Hin & Htarget). injection H5 as _ H5 _. symmetry in H5.
        destruct (same_fmap_elem _ _ _ _ H5 Hin) as (c' & Hin' & [= _ _ _ _ Hports]). exists port, c'. by rewrite <- Hports.
    + exists hash. split; [done|]. rewrite H4. apply lookup_insert_eq.
  - destruct (ms_removePods_requested HashTemplate (micro_of k) w) as (hash & Hhash & o & Hget & Hc & _); [done|by rewrite Hf|done|].
    exists o. split; [done|]. unfold dep_content in Hc. apply pair_eq in Hc as [[[[H1 H2]%pair_eq H3]%pair_eq H4]%pair_eq H5].
    split_and!; [done|done|by exists hash|done|done].
Qed.

End deployed.

(** ** Nothing is deployed too early *)

Section prerequisites.
Context {CC : ConfigCodec} {E : Type} {MC : MetaConditions} {ML : MetaConditionsLaws MC} {SC : StatusClient E} {CD : ClientDeps E}.
Context `{HKC : !KubeClient E ConfigMap} `{HKD : !KubeClient E Deployment} `{HKV : !KubeClient E Service}.
Context `{HKS : !KubeClient E Secret} `{HKJ : !KubeClient E Job}.
Context (ListPods : Labeller → go E (list Pod * option error)) (HashTemplate : Deployment → error + string).

Abbreviation W := (World E).
Abbreviation syncResult := (ComponentStatus * option error)%type.

Definition dep_at (name : string) (e : E) : apierror + Deployment := val_of (client_Get name) e.

(** The cells of a job are apart from an observation. *)
Definition job_apart {O} (obs : E → O) (j : InitJob (E:=E)) : Prop :=
  CellApart (cb_configMap (ij_configs j)) obs ∧ CellApart (ij_job j) obs ∧ CellApart (ij_mem j) obs.

(** Secrets, jobs, config maps and pods are not deployments. *)
Class MicroApart (k : micro_kind (E:=E)) : Prop := {
  ma_configs name :: ClientApart E ConfigMap (dep_at name);
  ma_secrets name :: ClientApart E Secret (dep_at name);
  ma_jobs name :: ClientApart E Job (dep_at name);
  ma_secret_cell name :: CellApart (micro_secret k) (dep_at name);
  ma_job_cells name : ∀ j, j ∈ micro_jobs k → job_apart (dep_at name) j;
  ma_token name : preserves (dep_at name) GenerateToken;
  ma_pods name l : preserves (dep_at name) (ListPods l);
}.

Section chain.
Context (name : string).
Abbreviation stored := (λ w : W, dep_at name (w_env w)).

(** A computation that touches the stored deployment only in a world where [P] holds. *)
Definition only_if {A} (P : W → Prop) (c : go W A) : Prop := ∀ w, stored (run c w) ≠ stored w → P w.

Lemma only_if_keeps {A} P (c : go W A) : preserves stored c → only_if P c.
Proof. intros H w Hne. by destruct Hne. Qed.

Lemma only_if_guard {A} (b : bool) P (c d : go W A) :
  preserves stored c → (b = false → only_if P d) → only_if (λ w, b = false ∧ P w) (if b then c else d).
Proof. intros Hc Hd w Hne. destruct b; [by destruct (Hne (Hc w))|]. split; [done|]. by apply Hd. Qed.

Lemma only_if_wait_running c P (k : go W syncResult) :
  only_if P k → only_if (λ w, IsRunning (GetStatus w c) = true ∧ P w) (wait_running c k).
Proof.
  intros Hk w. unfold wait_running. go_step. destruct (IsRunning (GetStatus w c)) eqn:Hr; cbn [negb]; [|by rewrite run_ret].
  intros Hne. split; [done|by apply Hk].
Qed.

Lemma only_if_wait_all l P (k : go W syncResult) :
  only_if P k → only_if (λ w, (∀ c, c ∈ l → IsRunning (GetStatus w c) = true) ∧ P w) (wait_all l k).
Proof.
  intros Hk. induction l as [|c l IH]; cbn [wait_all]; intros w Hne.
  - split; [|by apply Hk]. by intros c Hc%not_elem_of_nil.
  - destruct (only_if_wait_running c _ _ IH w Hne) as (Hc & Hl & HP). split; [|done].
    intros c' [->|Hin]%elem_of_cons; [done|by apply Hl].
Qed.

Lemma only_if_sync_if need dry what sync P (k : go W syncResult) :
  preserves stored sync → only_if P k → only_if (λ w, need = false ∧ P w) (sync_if need dry what sync k).
Proof.
  intros Hs Hk w. unfold sync_if. destruct need; [|intros Hne; split; [done|by apply Hk]].
  intros Hne. destruct Hne. go_step. destruct dry; [done|apply Hs].
Qed.

Section job.
Context (j : InitJob (E:=E)) (dry : bool) `{HAC : !ClientApart E ConfigMap (dep_at name)} `{HAJ : !ClientApart E Job (dep_at name)}.
Context (Hj : job_apart (dep_at name) j).

Lemma only_if_after_job P (k : go W syncResult) :
  only_if P k → only_if (λ w, job_done j w ∧ P w) (after_job j dry k).
Proof.
  destruct Hj as (H1 & H2 & H3). intros Hk w. unfold after_job. rewrite run_bind.
  pose proof (apart_ij_Sync (dep_at name) j dry w) as Hs. pose proof (ij_Sync_Ready j dry w) as Hr.
  destruct (val_of (ij_Sync j dry) w) as [status err] eqn:Hv. cbn [fst snd] in Hr.
  destruct (bool_decide_reflect (cs_SyncStatus status = SyncStatusReady)) as [Hready|]; rewrite ?orb_true_r.
  2: { rewrite run_ret. intros Hne. by destruct Hne. }
  destruct (Hr Hready) as (Hd & Hw & ->). cbn. rewrite Hw. intros Hne. split; [done|by apply Hk].
Qed.

Lemma only_if_ij_Build P (k : go W syncResult) :
  (∀ w w', w_yts w' = w_yts w → P w' → P w) → only_if P k → only_if P ((if dry then mret tt else ij_Build j) ;; k).
Proof.
  destruct Hj as (H1 & H2 & H3). intros HP Hk w. rewrite run_bind. set (w' := run _ w). intros Hne.
  assert (stored w' = stored w ∧ w_yts w' = w_yts w) as [Hs Hy].
  { subst w'. destruct dry; [done|]. split; [by apply (apart_ij_Build (dep_at name))|apply ij_Build_yts]. }
  apply (HP w w' Hy), Hk. by rewrite Hs.
Qed.
End job.

Lemma stored_ArePodsReady (m : microserviceImpl E) :
  (∀ l, preserves (dep_at name) (ListPods l)) → preserves stored (ms_ArePodsReady ListPods HashTemplate m).
Proof.
  intros Hl. unfold ms_ArePodsReady, arePodsReady, ms_pods. cbn [listPods getInstanceCount getMinReadyInstanceCount].
  apply preserves_bind; [apply apart_in_env, Hl|]. intros [pods [e|]]; go_frame.
Qed.

Lemma only_if_sync_micro (m : microserviceImpl E) dry sync (k : go W syncResult) :
  preserves stored k → only_if (λ _, dry = false) (sync_micro m dry sync k).
Proof.
  intros Hk w. unfold sync_micro. rewrite run_bind.
  assert (stored (run (ms_needSync m) w) = stored w) as Hs.
  { apply (apart_env (dep_at name)). unfold ms_needSync. apply preserves_bind; [apply needReload_env|]. by intros [? ?]. }
  unfold sync_if. destruct (val_of _ _); rewrite ?Hk, ?Hs; [|done]. go_step. destruct dry; [|done]. rewrite run_ret, Hs. done.
Qed.

Lemma only_if_micro_updating c (m : microserviceImpl E) dry P (k : go W syncResult) :
  only_if P k →
  only_if (λ w, if IsUpdating w
      then components_IsUpdatingComponent w c = true ∧
           (GetUpdateState w = UpdateStateWaitingForPodsRemoval ∧ dry = false ∨ GetUpdateState w = UpdateStateWaitingForPodsCreation ∧ P w)
      else P w)
    (if_status (micro_updating ListPods HashTemplate c m dry) k).
Proof.
  intros Hk w. unfold if_status, micro_updating, when_updating. go_step.
  destruct (IsUpdating w); go_step; [|by apply Hk].
  destruct (components_IsUpdatingComponent w c); cbn [negb]; go_step; [|by rewrite ?run_ret].
  destruct (bool_decide_reflect (GetUpdateState w = UpdateStateWaitingForPodsRemoval)) as [Hr|_].
  { go_step. destruct dry; go_step; intros Hne; [by destruct Hne|]. split; [done|by left]. }
  destruct (bool_decide_reflect (GetUpdateState w = UpdateStateWaitingForPodsCreation)) as [Hc|_]; cbn [negb]; go_step; [|done].
  intros Hne. split; [done|]. right. split; [done|by apply Hk].
Qed.
End chain.

(** What has to be in place before pods are created. *)
Record prepared (k : micro_kind (E:=E)) (w : W) : Prop := {
  pre_running : ∀ c, c ∈ micro_requires k → IsRunning (GetStatus w c) = true;
  pre_token : secret_NeedSync (micro_secret k) w TokenSecretKey "" = false;
  pre_jobs : ∀ j, j ∈ micro_jobs k → job_done j w;
}.

Lemma secret_step_keeps k `{HMA : !MicroApart k} c data name :
  preserves (λ w : W, dep_at name (w_env w)) (
    token ← in_env GenerateToken;
    secret_Build (cmp_labeller c) (micro_secret k) ;;
    in_resource (micro_secret k) (λ r, res_set_new
      (mkSecret (sec_meta (res_newObject r)) (sec_Type (res_newObject r)) (sec_Data (res_newObject r)) (data token)) r) ;;
    resource_Sync (micro_secret k)) ∧
  preserves (λ w : W, dep_at name (w_env w)) (
    secret_Build (cmp_labeller c) (micro_secret k) ;;
    token ← in_env GenerateToken;
    in_resource (micro_secret k) (λ r, res_set_new
      (mkSecret (sec_meta (res_newObject r)) (sec_Type (res_newObject r)) (sec_Data (res_newObject r)) (data token)) r) ;;
    resource_Sync (micro_secret k)).
Proof.
  pose proof (apart_in_env (dep_at name) _ (ma_token name)).
  pose proof (apart_in_resource (dep_at name) (micro_secret k)). pose proof (apart_resource_Sync (dep_at name) (micro_secret k)).
  unfold secret_Build. split; go_frame.
Qed.

Lemma only_if_token k `{HMA : !MicroApart k} c data dry name P (rest : go W syncResult) :
  only_if name P rest →
  only_if name (λ w, secret_NeedSync (micro_secret k) w TokenSecretKey "" = false ∧ P w)
    (sync_token c (micro_secret k) data dry rest).
Proof.
  intros Hk w. unfold sync_token. go_step. apply only_if_sync_if; [|done]. apply (secret_step_keeps k c data name).
Qed.

Lemma only_if_secret k `{HMA : !MicroApart k} c dry name P (rest : go W syncResult) :
  only_if name P rest →
  only_if name (λ w, secret_NeedSync (micro_secret k) w TokenSecretKey "" = false ∧ P w)
    (sync_secret c (micro_secret k) dry rest).
Proof.
  intros Hk w. unfold sync_secret. go_step. apply only_if_sync_if; [|done].
  apply (secret_step_keeps k c (λ token, {[ TokenSecretKey := token ]}) name).
Qed.

(** C36. No pod of the web interface or of the controller of cliques is asked for too early.  A pass
    over such a component changes a deployment only when it is not dry and either the pods are
    being removed in an update of the component, or pods may be created, that is, outside an
    update or in the step of an update of the component that creates pods, and then the masters, and
    for the controller the schedulers and all data nodes, are running, the token of the component
    is stored in its secret, and the jobs that create its user, and for the controller the state of
    CHYT in the cluster, have been completed. *)
Theorem microservice_prerequisites k dry (w : W) name :
  MicroApart k →
  let w' := run (micro_Sync ListPods HashTemplate k dry) w in
  dep_stored w' name ≠ dep_stored w name →
  dry = false ∧
  (IsUpdating w = true → components_IsUpdatingComponent w (micro_base k) = true) ∧
  (IsUpdating w = true ∧ GetUpdateState w = UpdateStateWaitingForPodsRemoval ∨
   (IsUpdating w = true → GetUpdateState w = UpdateStateWaitingForPodsCreation) ∧ prepared k w).
Proof.
  intros HMA. cbv zeta. intros Hne.
  assert (only_if name (λ w, if IsUpdating w
      then components_IsUpdatingComponent w (micro_base k) = true ∧
        (GetUpdateState w = UpdateStateWaitingForPodsRemoval ∧ dry = false ∨
         GetUpdateState w = UpdateStateWaitingForPodsCreation ∧ (prepared k w ∧ dry = false))
      else prepared k w ∧ dry = false) (micro_Sync ListPods HashTemplate k dry)) as Honly.
  { clear w Hne. destruct k as [u|c]; cbn [micro_Sync micro_base].
    - apply only_if_micro_updating.
      pose proof (only_if_sync_micro name (uic_micro u) dry (ui_syncComponents HashTemplate u) _
        (stored_ArePodsReady name (uic_micro u) (ma_pods name))) as H.
      apply (only_if_after_job name (uic_initJob u) dry (ma_job_cells (k:=KUI u) name _ ltac:(by left))) in H.
      apply (only_if_token (KUI u) (uic_base u) ui_secretData dry) in H.
      apply (only_if_wait_running name (uic_master u)) in H.
      intros w Hw. destruct (H w Hw) as (Hm & Hs & Hj & Hd). split; [|done]. split; [|done|]; cbn.
      + by intros c ->%list_elem_of_singleton.
      + by intros j ->%list_elem_of_singleton.
    - apply only_if_micro_updating.
      pose proof (only_if_sync_micro name (sbw_micro c) dry (strawberry_syncComponents HashTemplate c)
        (mret (ComponentStatusReady, None)) (preserves_ret _ _)) as H.
      apply (only_if_after_job name (sbw_initChytClusterJob c) dry (ma_job_cells (k:=KStrawberry c) name _ ltac:(by apply list_elem_of_further, list_elem_of_here))) in H.
      apply (only_if_ij_Build name (sbw_initChytClusterJob c) dry (ma_job_cells (k:=KStrawberry c) name _ ltac:(by apply list_elem_of_further, list_elem_of_here))) in H.
      2: { intros w w' Hy [Hd ->]. split; [|done]. by apply (job_done_same _ w w'). }
      apply (only_if_after_job name (sbw_initUserAndUrlJob c) dry (ma_job_cells (k:=KStrawberry c) name _ ltac:(by left))) in H.
      apply (only_if_secret (KStrawberry c) (sbw_base c) dry) in H.
      apply (only_if_wait_all name (sbw_dataNodes c)) in H.
      apply (only_if_wait_running name (sbw_scheduler c)) in H. apply (only_if_wait_running name (sbw_master c)) in H.
      intros w Hw. destruct (H w Hw) as (Hm & Hsch & Hdn & Hs & Hj1 & Hj2 & Hd). split; [|done]. split; [|done|]; cbn.
      + intros x Hx. rewrite !elem_of_cons in Hx. destruct Hx as [Hx|[Hx|Hx]]; [by rewrite Hx|by rewrite Hx|by apply Hdn].
      + intros j Hj. rewrite !elem_of_cons in Hj. destruct Hj as [Hj|[Hj|[]%elem_of_nil]]; by rewrite Hj. }
  specialize (Honly w Hne). cbv beta in Honly. destruct (IsUpdating w); [|destruct Honly; split_and!; [done|done|by right]].
  destruct Honly as (Hc & [[Hs Hd]|(Hs & Hp & Hd)]); split_and!; [done|done|by left|done|done|by right].
Qed.
End prerequisites.

(** ** The contract of components *)

Section contract.
Context {CC : ConfigCodec} {E : Type} {MC : MetaConditions} {ML : MetaConditionsLaws MC} {SC : StatusClient E} {CD : ClientDeps E}.
Context `{HKC : !KubeClient E ConfigMap} `{HKD : !KubeClient E Deployment} `{HKV : !KubeClient E Service}.
Context `{HKS : !KubeClient E Secret} `{HKJ : !KubeClient E Job}.
Context (ListPods : Labeller → go E (list Pod * option error)) (HashTemplate : Deployment → error + string).

Abbreviation W := (World E).

Section micro.
Context (m : microserviceImpl E).

Lemma confined_in_micro f : confined (in_micro m f).
Proof. apply confined_set_env. Qed.

#[local] Hint Resolve confined_in_micro confined_in_resource confined_resource_Sync confined_Build confined_cb_Sync
  confined_needReload : confined.

Lemma confined_dep_Build : confined (dep_Build m).
Proof. unfold dep_Build. go_confined. Qed.

Lemma confined_buildDeployment : confined (buildDeployment m).
Proof. pose proof confined_dep_Build. unfold buildDeployment, rebuildDeployment. go_confined. Qed.

Lemma confined_buildService : confined (buildService m).
Proof. unfold buildService, http_Build, service_Build. go_confined. Qed.

Lemma confined_ms_Sync : confined (ms_Sync HashTemplate m).
Proof.
  pose proof confined_buildDeployment. pose proof confined_buildService.
  assert (confined (ms_setConfigHash m)) by (unfold ms_setConfigHash; go_confined).
  assert (confined (ms_setInstanceHash HashTemplate m)) by (unfold ms_setInstanceHash; go_confined).
  unfold ms_Sync, go_err, resources_Sync, resources_seq. go_confined.
Qed.

Lemma confined_ms_removePods : confined (ms_removePods HashTemplate m).
Proof. pose proof confined_ms_Sync. pose proof confined_dep_Build. unfold ms_removePods. go_confined. Qed.

Lemma confined_ms_Fetch : confined (ms_Fetch m).
Proof.
  apply confined_resources_seq. repeat apply Forall_cons_2; [..|apply Forall_nil_2];
    first [apply confined_resource_Fetch|apply confined_cb_Fetch].
Qed.

Lemma confined_ms_needSync : confined (ms_needSync m).
Proof. unfold ms_needSync. go_confined. Qed.

Lemma confined_ms_needUpdate : confined (ms_needUpdate m).
Proof. unfold ms_needUpdate. go_confined. Qed.

Lemma confined_micro_updating c dry : confined (micro_updating ListPods HashTemplate c m dry).
Proof.
  pose proof confined_ms_removePods. apply confined_when_updating.
  unfold removePods, ms_pods, ms_listPods. cbn [pm_removePods listPods]. go_confined.
Qed.

Lemma confined_ms_ArePodsReady : confined (ms_ArePodsReady ListPods HashTemplate m).
Proof. unfold ms_ArePodsReady, arePodsReady, ms_pods, ms_listPods. cbn [listPods]. go_confined. Qed.

Lemma confined_deploy f t :
  confined (buildService m ;; set_type (ms_service m) t ;; buildDeployment m ;; in_podSpec m f ;; ms_Sync HashTemplate m).
Proof.
  pose proof confined_buildDeployment. pose proof confined_buildService. pose proof confined_ms_Sync.
  unfold set_type, in_podSpec. go_confined.
Qed.

Lemma confined_sync_micro dry sync k : confined sync → confined k → confined (sync_micro m dry sync k).
Proof. pose proof confined_ms_needSync. intros Hs Hk. unfold sync_micro, sync_if. go_confined. Qed.
End micro.

Lemma confined_after_job j dry (k : go W (ComponentStatus * option error)) : confined k → confined (after_job j dry k).
Proof. pose proof (confined_ij_Sync j dry). intros Hk. unfold after_job. go_confined. Qed.

Lemma confined_micro_Sync k dry : confined (micro_Sync ListPods HashTemplate k dry).
Proof.
  destruct k as [u|c]; cbn [micro_Sync].
  - unfold UI_Sync. apply confined_if_status; [apply confined_micro_updating|]. apply confined_wait_running, confined_sync_token, confined_after_job,
      confined_sync_micro, confined_ms_ArePodsReady. unfold ui_syncComponents. cbv zeta.
    do 2 (apply confined_bind; [apply confined_gets|intros ?]). apply confined_deploy.
  - unfold Strawberry_Sync. apply confined_if_status; [apply confined_micro_updating|].
    apply confined_wait_running, confined_wait_running, confined_wait_all, confined_sync_secret, confined_after_job.
    apply confined_bind; [destruct dry; [apply confined_ret|apply confined_ij_Build]|intros _].
    apply confined_after_job, confined_sync_micro, confined_ret. unfold strawberry_syncComponents. cbv zeta.
    apply confined_bind; [apply confined_gets|intros ?]. apply confined_deploy.
Qed.

(** The two components keep the contract of components. *)
Theorem micro_component_frame k : ComponentFrame (micro_component ListPods HashTemplate k).
Proof.
  assert (confined (micro_Fetch k)) as (F1 & F2 & F3).
  { destruct k as [u|c]; cbn [micro_Fetch]; apply confined_resources_seq;
      (repeat apply Forall_cons_2; [..|apply Forall_nil_2]);
      first [apply confined_ms_Fetch|apply confined_ij_Fetch|apply confined_resource_Fetch]. }
  pose proof (confined_ms_needUpdate (micro_of k)) as (U1 & U2 & U3). pose proof (confined_micro_Sync k) as HS.
  split; cbn [ci_Fetch ci_NeedUpdate ci_Sync ci_UpdatePreCheck micro_component]; try done; intros dry; apply (HS dry).
Qed.

(** A deployment that is scaled to its zero instances is not synced for a new image: the update it
    is reported for ends without it, and it is reported again. *)
Lemma idle_image_never_deployed (m : microserviceImpl E) (w : W) :
  ms_Exists m w = true → dep_GetReplicas m w = ms_getInstanceCount m w → ms_podsImageCorrespondsToSpec m w = false →
  IsNeedUpdate (val_of (needReload (ms_configs m)) w).1 = false →
  val_of (ms_needSync m) w = false ∧ val_of (ms_needUpdate m) w = ComponentStatusNeedUpdate "image update".
Proof.
  intros He Hr Hi Hc. pose proof (needReload_env (ms_configs m) w) as Henv. split.
  - unfold ms_needSync. rewrite val_bind. destruct (val_of (needReload _) w) as [status err]. cbn [fst] in Hc.
    set (w' := run _ w) in *. go_step. cbn [id].
    assert (ms_Exists m w' = ms_Exists m w ∧ dep_GetReplicas m w' = dep_GetReplicas m w ∧
      ms_getInstanceCount m w' = ms_getInstanceCount m w) as (-> & -> & ->).
    { unfold ms_Exists, dep_GetReplicas, ms_getInstanceCount, ms_memory, resources_Exists, cb_Exists, resource_Exists, OldObject, resource.
      cbn [forallb]. by rewrite Henv. }
    rewrite He, Hc, Hr, andb_false_r. cbn. by rewrite bool_decide_eq_true_2.
  - unfold ms_needUpdate. go_step. by rewrite He, Hi.
Qed.
End contract.

(** ** A cluster with deployments *)

Record DepKube := mkDepKube {
  dk_store : gmap string Deployment;
  dk_deployment : ManagedResource Deployment;
  dk_service : ManagedResource Service;
  dk_configMap : ManagedResource ConfigMap;
  dk_mem : microMem;
  dk_secret : ManagedResource Secret;
  dk_job : ManagedResource Job;
  dk_jobMap : ManagedResource ConfigMap;
  dk_jobMem : initJobMem;
}.

Definition dk_deployment_cell : lens DepKube (ManagedResource Deployment) := mkLens dk_deployment (λ a e,
  mkDepKube (dk_store e) a (dk_service e) (dk_configMap e) (dk_mem e) (dk_secret e) (dk_job e) (dk_jobMap e) (dk_jobMem e)).
Definition dk_service_cell : lens DepKube (ManagedResource Service) := mkLens dk_service (λ a e,
  mkDepKube (dk_store e) (dk_deployment e) a (dk_configMap e) (dk_mem e) (dk_secret e) (dk_job e) (dk_jobMap e) (dk_jobMem e)).
Definition dk_configMap_cell : lens DepKube (ManagedResource ConfigMap) := mkLens dk_configMap (λ a e,
  mkDepKube (dk_store e) (dk_deployment e) (dk_service e) a (dk_mem e) (dk_secret e) (dk_job e) (dk_jobMap e) (dk_jobMem e)).
Definition dk_mem_cell : lens DepKube microMem := mkLens dk_mem (λ a e,
  mkDepKube (dk_store e) (dk_deployment e) (dk_service e) (dk_configMap e) a (dk_secret e) (dk_job e) (dk_jobMap e) (dk_jobMem e)).
Definition dk_secret_cell : lens DepKube (ManagedResource Secret) := mkLens dk_secret (λ a e,
  mkDepKube (dk_store e) (dk_deployment e) (dk_service e) (dk_configMap e) (dk_mem e) a (dk_job e) (dk_jobMap e) (dk_jobMem e)).
Definition dk_job_cell : lens DepKube (ManagedResource Job) := mkLens dk_job (λ a e,
  mkDepKube (dk_store e) (dk_deployment e) (dk_service e) (dk_configMap e) (dk_mem e) (dk_secret e) a (dk_jobMap e) (dk_jobMem e)).
Definition dk_jobMap_cell : lens DepKube (ManagedResource ConfigMap) := mkLens dk_jobMap (λ a e,
  mkDepKube (dk_store e) (dk_deployment e) (dk_service e) (dk_configMap e) (dk_mem e) (dk_secret e) (dk_job e) a (dk_jobMem e)).
Definition dk_jobMem_cell : lens DepKube initJobMem := mkLens dk_jobMem (λ a e,
  mkDepKube (dk_store e) (dk_deployment e) (dk_service e) (dk_configMap e) (dk_mem e) (dk_secret e) (dk_job e) (dk_jobMap e) a).
Definition dk_overrides_cell : lens DepKube ConfigMap := mkLens (λ _, ConfigMapZero) (λ _ e, e).

(** The API server fills in the DNS policy, the grace period and the number of replicas. *)
Definition dk_defaults (o : Deployment) : Deployment :=
  let p := dep_PodSpec o in
  SetResourceVersion "1" (dep_set_Replicas (Deref (dep_Replicas o) 1%Z) (dep_set_PodSpec
    (mkPodTemplate (pod_RuntimeClassName p) (pod_ImagePullSecrets p) (pod_SetHostnameAsFQDN p) (pod_EnableServiceLinks p)
       (Some (Deref (pod_TerminationGracePeriodSeconds p) 30%Z)) (pod_Containers p) (pod_InitContainers p) (pod_Volumes p)
       (pod_Affinity p) (pod_NodeSelector p) (pod_Tolerations p) (pod_DNSConfig p) (pod_HostNetwork p)
       (if pod_DNSPolicy p == "" then "ClusterFirst" else pod_DNSPolicy p)) o)).

Definition dk_put (o : Deployment) (e : DepKube) : DepKube :=
  mkDepKube (<[GetName o := dk_defaults o]> (dk_store e)) (dk_deployment e) (dk_service e) (dk_configMap e)
    (dk_mem e) (dk_secret e) (dk_job e) (dk_jobMap e) (dk_jobMem e).

#[local] Instance dk_deployments : KubeClient DepKube Deployment := {
  client_Get name e := (match dk_store e !! name with Some o => inr o | None => inl NotFound end, e);
  client_Create o e :=
    match dk_store e !! GetName o with
    | Some _ => ((Some "already exists", o), e)
    | None => ((None, dk_defaults o), dk_put o e)
    end;
  client_Update o e :=
    match dk_store e !! GetName o with
    | None => ((Some "not found", o), e)
    | Some _ => ((None, dk_defaults o), dk_put o e)
    end;
  client_Delete o e := (None, e);
  SetControllerReference _ o := inr o;
}.

(** The other kinds are accepted. *)
Definition dk_accepts {T} : KubeClient DepKube T := {|
  client_Get _ := mret (inl NotFound);
  client_Create o := mret (None, o);
  client_Update o := mret (None, o);
  client_Delete _ := mret None;
  SetControllerReference _ o := inr o |}.

#[local] Instance dk_configMaps : KubeClient DepKube ConfigMap := dk_accepts.
#[local] Instance dk_services : KubeClient DepKube Service := dk_accepts.
#[local] Instance dk_secrets : KubeClient DepKube Secret := dk_accepts.
#[local] Instance dk_jobs : KubeClient DepKube Job := dk_accepts.
#[local] Instance dk_status : StatusClient DepKube := { Status_Update _ e := (None, e); GetVersion := "1" }.
#[local] Instance dk_deps : ClientDeps DepKube :=
  {| GenerateToken := mret "token"; NewClient := mret None; sha256 s := s; caller line := fmt_d line |}.

#[local] Instance dk_laws : KubeClientLaws DepKube Deployment _ dep_content.
Proof.
  split; try done.
  - by intros y o o' [= ->].
  - intros o e. unfold val_of, run. cbn. destruct (dk_store e !! GetName o); [done|]. intros _.
    exists (dk_defaults o). cbn. by rewrite lookup_insert_eq.
  - intros o e. unfold val_of, run. cbn. destruct (dk_store e !! GetName o); [|done]. intros _.
    exists (dk_defaults o). cbn. by rewrite lookup_insert_eq.
  - intros o e name Hne. unfold val_of, run. cbn. destruct (dk_store e !! GetName o); [done|].
    cbn. by rewrite lookup_insert_ne.
  - intros o e name Hne. unfold val_of, run. cbn. destruct (dk_store e !! GetName o); [|done].
    cbn. by rewrite lookup_insert_ne.
Qed.

Definition dk_cells : microCells DepKube :=
  mkMicroCells _ dk_deployment_cell dk_service_cell dk_configMap_cell dk_overrides_cell dk_mem_cell.

Definition example_ui_base : component := mkBase 1 (example_labeller UIType "") true.

Definition example_ui_spec : UISpec :=
  mkUISpec PodSpecZero (Some "ui:2.0") ServiceTypeNodePort (Some 30080%Z) false ResourceRequirementsZero 2 [] false None None
    "testing" "lavander" None None None None.

Definition example_ui_job : InitJob (E:=DepKube) :=
  mkInitJob (example_labeller UIType "") "initJobCompleted" "ytsaurus:25.1" ""
    (mkConfigMapBuilder (example_labeller UIType "") "ui-init-job-config" None [] dk_jobMap_cell dk_overrides_cell)
    dk_job_cell dk_jobMem_cell.

Definition example_ui : UI (E:=DepKube) :=
  NewUI YtsaurusSpecZero example_ui_spec example_ui_base (mkBase 0 (example_labeller MasterType "") true)
    (inr (Some "{clusters=[]}")) (inr (Some "{}")) dk_cells example_ui_job dk_secret_cell.

Definition stored_meta (name : string) : ObjectMeta := mkObjectMeta name "3" ∅ [].

(** The masters run, the token is stored and the user is created; nothing is deployed yet. *)
Definition example_ui_world : World DepKube :=
  mkWorld
    (mkYtsaurus "minisaurus" "default" 7 YtsaurusSpecZero
       (mkYtsaurusStatus ClusterStateRunning
          [mkCondition "initJobCompleted" ConditionTrue 6 100 InitJobDefaultReason "Job is done"] 6 UpdateStatusZero))
    [] 200 {[ 0%nat := mkComponentStatus "Master" SyncStatusReady "" ]}
    (mkDepKube ∅ (mkManagedResource "ytsaurus-ui-deployment" DeploymentZero DeploymentZero)
       (mkManagedResource "ytsaurus-ui" ServiceZero ServiceZero)
       (newConfigMap "yt-ui-config") (newMicroMem 2)
       (mkManagedResource "yt-ui-secret" (mkSecret (stored_meta "yt-ui-secret") "Opaque" {[ TokenSecretKey := "token" ]} ∅) SecretZero)
       (mkManagedResource "ui-init-job" (mkJob (stored_meta "ui-init-job") JobSpecZero JobStatusZero) JobZero)
       (mkManagedResource "ui-init-job-config" (mkConfigMap (stored_meta "ui-init-job-config") ∅) ConfigMapZero)
       newInitJobMem).

#[local] Instance example_ui_resources : MicroResources (uic_micro example_ui).
Proof.
  split; try done; try (split; [done|by intros []]);
    (split; try done; intros o e; unfold run; cbn; by destruct (dk_store e !! GetName o)).
Qed.

#[local] Instance example_ui_apart : MicroApart (λ _, mret ([], None)) (KUI example_ui).
Proof. split; try done. intros name j ->%list_elem_of_singleton. done. Qed.

Lemma microservice_deployed_witness :
  ∃ o hash, dep_stored (run (micro_syncComponents (λ _, inr "hash") (KUI example_ui)) example_ui_world) "ytsaurus-ui-deployment" = inr o ∧
    Deref (dep_Replicas o) 1%Z = 2%Z ∧ pod_ok InstanceSpecZero (dep_PodSpec o) ∧
    config_hash (uic_micro example_ui) example_ui_world hash ∧
    dep_TemplateAnnotations o !! ConfigHashAnnotationName = Some hash.
Proof.
  destruct (proj1 (microservice_deployed (λ _, inr "hash") YtsaurusSpecZero (KUI example_ui) example_ui_world _
    ltac:(split; [reflexivity|by eexists _, _, _, _, _, _, _]) eq_refl I I) ltac:(vm_compute; reflexivity))
    as (o & Ho & Hr & _ & Hok & _ & hash & Hhash & Ha).
  exists o, hash. split; [exact Ho|]. split; [exact Hr|]. split; [exact Hok|]. split; [exact Hhash|exact Ha].
Defined.

Lemma microservice_prerequisites_witness :
  prepared (KUI example_ui) example_ui_world ∧ IsUpdating example_ui_world = false.
Proof.
  split; [|reflexivity].
  refine (proj2 (or_ind (λ H, _) (λ H, H)
    (proj2 (proj2 (microservice_prerequisites (λ _, mret ([], None)) (λ _, inr "hash") (KUI example_ui) false example_ui_world
       "ytsaurus-ui-deployment" _ _))))).
  - exfalso. destruct H as [H _]. vm_compute in H. discriminate.
  - vm_compute. discriminate.
Defined.
