(* ===== verification/Constructors.v ===== *)
(** * The constructors of server components (src/pkg/components)

    What [NewMaster], [NewHTTPProxy] and the constructors of the other components with servers pass
    on: the binary, the configuration, the container ports and the probe of the server, the services
    in front of it, the initialization jobs with their files and the secrets.  The constructors are
    run on the calls that [NewComponentManager] makes (Assembly.v), and for the nodes that a cluster
    run elsewhere is given.  The theorems relate the ports of pods and services to the ports
    in the configurations of the same servers, which other code generates. *)

From S2P Require Import Microservices Prelude Kubernetes ApiTypes Consts Labeller ApiProxy Services Timbertruck InitJob Master AgentComponents LogDelivery Pods CriConfig ServerPods.
From S2P Require Import Validators Values Logging Connection NodeConfig ServerConfigs Generator Assembly.

Definition HydraPersistenceUploaderUserName := "robot-hydra-persistence-uploader".

(** ** Parts *)

(** A server with the objects made for it: the stateful set, its services and its config map. *)
Record serverParts := mkServerParts {
  sv_pod : serverPod;
  sv_statefulSet : string;
  sv_headlessService : string;
  sv_monitoringService : string;
  sv_monitoringPorts : list ServicePort;
  sv_configMap : string;
}.

(** The service that balances requests, with its name and the type that is asked for. *)
Inductive balancing : Type :=
  | BalanceHTTP (name : string) (serviceType : ServiceType) (s : HTTPService)
  | BalanceRPC (name : string) (serviceType : ServiceType) (ports : list ServicePort)
  | BalanceTCP (name : string) (s : TCPService).

(** An initialization job with the files of its config map. *)
Record jobParts := mkJobParts {
  jo_job : string;
  jo_configMap : string;
  jo_statusCondition : string;
  jo_logFilePath : string;
  jo_files : list string;
}.

(** What runs a component: a server, a deployment with its service and its config map, or nothing
    of its own. *)
Inductive workload : Type :=
  | WServer (s : serverParts)
  | WMicro (deployment service configMap : string)
  | WVirtual.

Record made := mkMade {
  made_workload : workload;
  made_balancing : option balancing;
  made_jobs : list jobParts;
  made_secrets : list string;
  made_certificate : option TLSSecret;
}.

(** The rest of [newServerConfigured]: names that are missing panic. *)
Definition with_objects (l : Labeller) (opts : options) (pod : serverPod) : outcome serverParts :=
  configMap ← or_panic (GetMainConfigMapName l);
  statefulSet ← or_panic (GetServerStatefulSetName l);
  headless ← or_panic (GetHeadlessServiceName l);
  monitoring ← or_panic (GetMonitoringServiceName l);
  mret (mkServerParts pod statefulSet headless monitoring (newMonitoringPorts (opt_monitoringPort opts)) configMap).

(** [newServer] with the file of the server first and more files after it. *)
Definition localServer (y : YtsaurusSpec) (l : Labeller) (i : InstanceSpec) (binaryPath : string) (files : list string)
    (defaultMonitoringPort : Z) (optFuncs : list Option) : outcome serverParts :=
  configName ← or_panic (GetServerConfigName l);
  with_objects l (newServerOptions i defaultMonitoringPort optFuncs)
    (newServer l (spec_CommonSpec y) (spec_PodSpec y) i binaryPath ((configName +:+ ".yson") :: files) true
       defaultMonitoringPort optFuncs).

(** [newServerConfigured] as the remote nodes call it: no pod specification of the cluster and no log delivery. *)
Definition remoteServer (commonSpec : CommonSpec) (l : Labeller) (i : InstanceSpec) (binaryPath : string)
    (defaultMonitoringPort : Z) (optFuncs : list Option) : outcome serverParts :=
  configName ← or_panic (GetServerConfigName l);
  let opts := newServerOptions i defaultMonitoringPort optFuncs in
  with_objects l opts (newServerConfigured l commonSpec PodSpecZero i binaryPath [configName +:+ ".yson"] None opts).

Definition rpcPort (port : Z) : Option := WithContainerPorts [mkContainerPort YTRPCPortName port].

(** [addMonitoringPort]. *)
Definition addMonitoringPort (port : ServicePort) (s : serverParts) : serverParts :=
  mkServerParts (sv_pod s) (sv_statefulSet s) (sv_headlessService s) (sv_monitoringService s)
    (AddPort port (sv_monitoringPorts s)) (sv_configMap s).

(** [NewInitJobForYtsaurus]; the scripts that are added afterwards stand at the end of the files. *)
Definition NewInitJobForYtsaurus (l : Labeller) (name : string) (i : InstanceSpec) (files : list string) : outcome jobParts :=
  job ← or_panic (GetInitJobName l name);
  configMap ← or_panic (GetInitJobConfigMapName l name);
  mret (mkJobParts job configMap (GetInitJobCompletedCondition l name)
    (match FindFirstLocation (is_Locations i) LocationTypeInitJobLogs with
     | Some location => path_Join2 (loc_Path location) (job +:+ ".log")
     | None => "" end) files).

Definition plain (s : serverParts) : made := mkMade (WServer s) None [] [] None.

(** ** The constructors *)

Section constructors.
Context (g : Generator) (y : YtsaurusSpec).

Abbreviation ng := (gen_NodeGenerator g).

(** A server with one RPC port and nothing besides. *)
Definition NewPlainServer (l : Labeller) (i : InstanceSpec) (binaryPath : string) (monitoringPort port : Z) : outcome made :=
  s ← localServer y l i binaryPath [] monitoringPort [rpcPort port]; mret (plain s).

(** The job of the primary master has the client configuration and all its scripts. *)
Definition NewMaster (mastersSpec : MastersSpec) : outcome made :=
  let l := GetMasterLabeller ng (ms_CellTag mastersSpec) in
  s ← localServer y l (ms_InstanceSpec mastersSpec) "/usr/bin/ytserver-master" [ClientConfigFileName]
        MasterMonitoringPort (buildMasterOptions mastersSpec);
  jobs ← (if lab_InstanceGroup l == ""
          then job ← NewInitJobForYtsaurus l "default" (ms_InstanceSpec mastersSpec) (ClientConfigFileName :: master_scripts);
               mret [job]
          else mret []);
  mret (mkMade (WServer s) None jobs
    (match ms_HydraPersistenceUploader mastersSpec with
     | Some _ => [buildUserCredentialsSecretname HydraPersistenceUploaderUserName] | None => [] end) None).

Definition http_proxy_chyt (spec : HTTPProxiesSpec) : option CHYTProxySpec :=
  if cf_HTTPProxyHaveChytAddress (Deref (cs_ClusterFeatures (spec_CommonSpec y)) ClusterFeaturesZero)
  then Some (Deref (hps_ChytProxy spec) CHYTProxySpecZero) else None.

Definition http_proxy_ports (spec : HTTPProxiesSpec) : list ContainerPort :=
  [ mkContainerPort YTRPCPortName HTTPProxyRPCPort;
    mkContainerPort HTTPPortName (Deref (hps_HttpPort spec) HTTPProxyHTTPPort);
    mkContainerPort HTTPSPortName (Deref (hps_HttpsPort spec) HTTPProxyHTTPSPort) ]
  ++ match http_proxy_chyt spec with
     | Some chytProxy =>
         [ mkContainerPort CHYTHttpProxyName (Deref (chp_HttpPort chytProxy) HTTPProxyChytHttpPort);
           mkContainerPort CHYTHttpsProxyName (Deref (chp_HttpsPort chytProxy) HTTPProxyChytHttpsPort) ]
     | None => [] end.

(** [NewHTTPService] and the setters. *)
Definition http_balancing (spec : HTTPProxiesSpec) : HTTPService :=
  let chyt (f : CHYTProxySpec → option Z) : option Z := http_proxy_chyt spec ≫= f in
  mkHTTPService (hps_DisableHTTP spec) (hps_HTTPSSecret spec) (hps_HttpPort spec) (hps_HttpsPort spec)
    (hps_HttpNodePort spec) (hps_HttpsNodePort spec)
    (chyt (λ c, Some (Deref (chp_HttpPort c) HTTPProxyChytHttpPort))) (chyt chp_HttpNodePort)
    (chyt (λ c, Some (Deref (chp_HttpsPort c) HTTPProxyChytHttpsPort))) (chyt chp_HttpsNodePort).

(** The probe of HTTP proxies asks the HTTP port. *)
Definition NewHTTPProxy (spec : HTTPProxiesSpec) : outcome made :=
  let l := GetComponentLabeller ng HttpProxyType (hps_Role spec) in
  s ← localServer y l (hps_InstanceSpec spec) "/usr/bin/ytserver-http-proxy" [] HTTPProxyMonitoringPort
        [ WithContainerPorts (http_proxy_ports spec);
          WithCustomReadinessProbeEndpointPort (Deref (hps_HttpPort spec) HTTPProxyHTTPPort);
          WithCustomReadinessProbeEndpointPath "/ping" ];
  name ← or_panic (GetHTTPProxiesServiceName g (hps_Role spec));
  mret (mkMade (WServer s) (Some (BalanceHTTP name (hps_ServiceType spec) (http_balancing spec))) [] []
    (NewTLSSecretOrNil (hps_HTTPSSecret spec) HTTPSSecretVolumeName HTTPSSecretMountPoint)).

Definition rpc_proxy_ports : list ContainerPort :=
  if cf_RPCProxyHavePublicAddress (ng_clusterFeatures ng)
  then [ mkContainerPort YTRPCPortName RPCProxyInternalRPCPort; mkContainerPort YTPublicRPCPortName RPCProxyPublicRPCPort ]
  else [ mkContainerPort YTRPCPortName RPCProxyPublicRPCPort ].

Definition NewRPCProxy (spec : RPCProxiesSpec) : outcome made :=
  let l := GetComponentLabeller ng RpcProxyType (rps_Role spec) in
  s ← localServer y l (rps_InstanceSpec spec) "/usr/bin/ytserver-proxy" [] RPCProxyMonitoringPort
        [WithContainerPorts rpc_proxy_ports];
  service ← match rps_ServiceType spec with
            | Some serviceType =>
                name ← or_panic (GetRPCProxiesServiceName g (rps_Role spec));
                mret (Some (BalanceRPC name serviceType
                  [mkServicePort YTRPCPortName RPCProxyPublicRPCPort RPCProxyPublicRPCPort (Deref (rps_NodePort spec) 0%Z)]))
            | None => mret None end;
  mret (mkMade (WServer s) service [] []
    (NewTLSSecretOrNil (rpct_TLSSecret (rps_Transport spec)) RPCProxySecretVolumeName RPCProxySecretMountPoint)).

(** TCP proxies declare no port of their own. *)
Definition NewTCPProxy (spec : TCPProxiesSpec) : outcome made :=
  let l := GetComponentLabeller ng TcpProxyType (tps_Role spec) in
  s ← localServer y l (tps_InstanceSpec spec) "/usr/bin/ytserver-tcp-proxy" [] TCPProxyMonitoringPort [];
  service ← match tps_ServiceType spec with
            | Some serviceType =>
                name ← or_panic (GetTCPProxiesServiceName g (tps_Role spec));
                mret (Some (BalanceTCP name (mkTCPService serviceType (tps_PortCount spec) (tps_MinPort spec))))
            | None => mret None end;
  mret (mkMade (WServer s) service [] [] None).

Definition NewKafkaProxy (spec : KafkaProxiesSpec) : outcome made :=
  let l := GetComponentLabeller ng KafkaProxyType (kps_Role spec) in
  s ← localServer y l (kps_InstanceSpec spec) "/usr/bin/ytserver-kafka-proxy" [] KafkaProxyMonitoringPort
        [ rpcPort KafkaProxyRPCPort; WithContainerPorts [mkContainerPort KafkaPortName KafkaProxyKafkaPort] ];
  service ← match kps_ServiceType spec with
            | Some serviceType =>
                name ← or_panic (GetKafkaProxiesServiceName g (kps_Role spec));
                mret (Some (BalanceRPC name serviceType
                  [mkServicePort KafkaPortName KafkaProxyKafkaPort KafkaProxyKafkaPort 0]))
            | None => mret None end;
  mret (mkMade (WServer s) service [] [] None).

Definition NewDataNode (spec : DataNodesSpec) : outcome made :=
  NewPlainServer (GetComponentLabeller ng DataNodeType (dns_Name spec)) (dns_InstanceSpec spec) "/usr/bin/ytserver-node"
    DataNodeMonitoringPort DataNodeRPCPort.

Definition NewTabletNode (spec : TabletNodesSpec) : outcome made :=
  NewPlainServer (GetComponentLabeller ng TabletNodeType (tns_Name spec)) (tns_InstanceSpec spec) "/usr/bin/ytserver-node"
    TabletNodeMonitoringPort TabletNodeRPCPort.

(** The port of the container runtime, where it has one. *)
Definition with_runtime_port (spec : ExecNodesSpec) (s : serverParts) : serverParts :=
  let port := crg_MonitoringPort (NewCRIConfigGenerator spec) in
  if port != 0%Z then addMonitoringPort (mkServicePort CRIServiceMonitoringPortName port port 0) s else s.

Definition NewExecNode (spec : ExecNodesSpec) : outcome made :=
  s ← localServer y (GetComponentLabeller ng ExecNodeType (ens_Name spec)) (ens_InstanceSpec spec) "/usr/bin/ytserver-node" []
        ExecNodeMonitoringPort [rpcPort ExecNodeRPCPort];
  mret (mkMade (WServer (with_runtime_port spec s)) None [] []
    (NewTLSSecretOrNil (ens_JobHTTPSCertificateSecret spec) JobHTTPSSecretVolumeName JobHTTPSSecretMountPoint)).

(** A component that is not in the specification is dereferenced. *)
Definition NewDiscovery : outcome made :=
  NewPlainServer (GetComponentLabeller ng DiscoveryType "") (spec_Discovery y) "/usr/bin/ytserver-discovery"
    DiscoveryMonitoringPort DiscoveryRPCPort.

Definition NewControllerAgent : outcome made :=
  i ← or_panic (spec_ControllerAgents y);
  NewPlainServer (GetComponentLabeller ng ControllerAgentType "") i "/usr/bin/ytserver-controller-agent"
    ControllerAgentMonitoringPort ControllerAgentRPCPort.

Definition NewMasterCache : outcome made :=
  spec ← or_panic (spec_MasterCaches y);
  NewPlainServer (GetComponentLabeller ng MasterCacheType "") (mcs_InstanceSpec spec) "/usr/bin/ytserver-master-cache"
    MasterCachesMonitoringPort MasterCachesRPCPort.

Definition NewCypressProxy : outcome made :=
  spec ← or_panic (spec_CypressProxies y);
  NewPlainServer (GetComponentLabeller ng CypressProxyType "") (cps_InstanceSpec spec) "/usr/bin/ytserver-cypress-proxy"
    CypressProxyMonitoringPort CypressProxyRPCPort.

Definition NewBundleController : outcome made :=
  i ← or_panic (spec_BundleController y);
  NewPlainServer (GetComponentLabeller ng BundleControllerType "") i "/usr/bin/ytserver-bundle-controller"
    BundleControllerMonitoringPort BundleControllerRPCPort.

Definition NewTabletBalancer : outcome made :=
  i ← or_panic (spec_TabletBalancer y);
  NewPlainServer (GetComponentLabeller ng TabletBalancerType "") i "/usr/bin/ytserver-tablet-balancer"
    TabletBalancerMonitoringPort TabletBalancerRPCPort.

Definition NewScheduler : outcome made :=
  let l := GetComponentLabeller ng SchedulerType "" in
  i ← or_panic (spec_Schedulers y);
  s ← localServer y l i "/usr/bin/ytserver-scheduler" [] SchedulerMonitoringPort [rpcPort SchedulerRPCPort];
  user ← NewInitJobForYtsaurus l "user" i [ClientConfigFileName; InitJobScriptName];
  archive ← NewInitJobForYtsaurus l "op-archive" i
    [ClientConfigFileName; OperationsArchiveInitializationScriptName; OperationsArchiveUpdateScriptName];
  secret ← or_panic (GetSecretName l);
  mret (mkMade (WServer s) None [user; archive] [secret] None).

Definition NewQueryTracker : outcome made :=
  let l := GetComponentLabeller ng QueryTrackerType "" in
  i ← or_panic (spec_QueryTrackers y);
  s ← localServer y l i "/usr/bin/ytserver-query-tracker" [] QueryTrackerMonitoringPort [rpcPort QueryTrackerRPCPort];
  job ← NewInitJobForYtsaurus l "qt-state" i [ClientConfigFileName; InitJobScriptName];
  secret ← or_panic (GetSecretName l);
  mret (mkMade (WServer s) None [job] [secret] None).

Definition NewQueueAgent : outcome made :=
  let l := GetComponentLabeller ng QueueAgentType "" in
  i ← or_panic (spec_QueueAgents y);
  s ← localServer y l i "/usr/bin/ytserver-queue-agent" [] QueueAgentMonitoringPort [rpcPort QueueAgentRPCPort];
  job ← NewInitJobForYtsaurus l "qa-state" i [ClientConfigFileName; InitJobScriptName];
  secret ← or_panic (GetSecretName l);
  mret (mkMade (WServer s) None [job] [secret] None).

Definition NewYQLAgent : outcome made :=
  let l := GetComponentLabeller ng YqlAgentType "" in
  spec ← or_panic (spec_YQLAgents y);
  s ← localServer y l (yqs_InstanceSpec spec) "/usr/bin/ytserver-yql-agent" [] YQLAgentMonitoringPort [rpcPort YQLAgentRPCPort];
  execSecret ← match yqs_DQEngine spec with
               | Some _ => secret ← or_panic (GetSidecarSecretName l "exec"); mret [secret]
               | None => mret [] end;
  job ← NewInitJobForYtsaurus l "yql-agent-environment" (yqs_InstanceSpec spec)
    [ClientConfigFileName; YQLAgentInitializationScriptName; YQLAgentUpdateScriptName];
  secret ← or_panic (GetSecretName l);
  mret (mkMade (WServer s) None [job] (secret :: execSecret) None).

(** Components without a server (ytsaurus_client.go, ui.go, strawberry_controller.go, timbertruck.go, image_heater.go). *)
Definition NewYtsaurusClient : outcome made :=
  let l := GetComponentLabeller ng YtsaurusClientType "" in
  job ← NewInitJobForYtsaurus l "user" (ms_InstanceSpec (spec_PrimaryMasters y)) [ClientConfigFileName; InitJobScriptName];
  secret ← or_panic (GetSecretName l);
  mret (mkMade WVirtual None [job] [secret] None).

(** [newMicroservice]. *)
Definition newMicro (l : Labeller) (deployment service : string) : outcome workload :=
  configMap ← or_panic (GetMainConfigMapName l); mret (WMicro deployment service configMap).

Definition NewUIParts : outcome made :=
  let l := GetComponentLabeller ng UIType "" in
  _ ← or_panic (spec_UI y);
  micro ← newMicro l "ytsaurus-ui-deployment" "ytsaurus-ui";
  job ← NewInitJobForYtsaurus l "default" InstanceSpecZero [ClientConfigFileName; InitJobScriptName];
  secret ← or_panic (GetSecretName l);
  mret (mkMade micro None [job] [secret] None).

Definition NewStrawberryParts : outcome made :=
  let l := GetComponentLabeller ng StrawberryControllerType "" in
  _ ← or_panic (spec_StrawberryController y);
  micro ← newMicro l "strawberry-controller" "strawberry";
  secret ← or_panic (GetSecretName l);
  user ← NewInitJobForYtsaurus l "user" InstanceSpecZero [ClientConfigFileName; InitJobScriptName];
  cluster ← NewInitJobForYtsaurus l "cluster" InstanceSpecZero [ChytInitClusterJobConfigFileName; InitJobScriptName];
  mret (mkMade micro None [user; cluster] [secret] None).

Definition NewTimbertruck : made := mkMade WVirtual None [] [buildUserCredentialsSecretname TimbertruckUserName] None.

Definition NewImageHeater : made := mkMade WVirtual None [] [] None.

(** The constructor that a call of [NewComponentManager] runs. *)
Definition make (b : blueprint) : outcome made :=
  match b with
  | BMaster spec _ => NewMaster spec
  | BHTTPProxy _ spec => NewHTTPProxy spec
  | BDiscovery _ _ => NewDiscovery
  | BDataNode _ _ spec => NewDataNode spec
  | BRPCProxy _ spec => NewRPCProxy spec
  | BTCPProxy _ spec => NewTCPProxy spec
  | BKafkaProxy _ spec => NewKafkaProxy spec
  | BExecNode _ spec _ => NewExecNode spec
  | BTabletNode _ _ spec _ => NewTabletNode spec
  | BScheduler _ _ _ => NewScheduler
  | BControllerAgent _ _ => NewControllerAgent
  | BQueryTracker _ _ => NewQueryTracker
  | BQueueAgent _ _ _ => NewQueueAgent
  | BYQLAgent _ _ => NewYQLAgent
  | BMasterCache _ _ => NewMasterCache
  | BCypressProxy => NewCypressProxy
  | BBundleController => NewBundleController
  | BTabletBalancer => NewTabletBalancer
  | BYtsaurusClient _ _ => NewYtsaurusClient
  | BUI _ => NewUIParts
  | BStrawberryController _ _ _ => NewStrawberryParts
  | BTimbertruck _ _ => mret NewTimbertruck
  | BImageHeater => mret NewImageHeater
  end.

End constructors.

(** ** Remote nodes (data_node_remote.go, exec_node_remote.go, tablet_node_remote.go, offshore_data_gateway.go) *)

Section remote.
Context (n : NodeGenerator) (commonSpec : CommonSpec).

Definition NewRemoteDataNodes (spec : DataNodesSpec) : outcome made :=
  s ← remoteServer commonSpec (GetComponentLabeller n DataNodeType (dns_Name spec)) (dns_InstanceSpec spec)
        "/usr/bin/ytserver-node" DataNodeMonitoringPort [rpcPort DataNodeRPCPort];
  mret (plain s).

Definition NewRemoteTabletNodes (spec : TabletNodesSpec) : outcome made :=
  s ← remoteServer commonSpec (GetComponentLabeller n TabletNodeType (tns_Name spec)) (tns_InstanceSpec spec)
        "/usr/bin/ytserver-node" TabletNodeMonitoringPort [rpcPort TabletNodeRPCPort];
  mret (plain s).

Definition NewRemoteExecNodes (spec : ExecNodesSpec) : outcome made :=
  s ← remoteServer commonSpec (GetComponentLabeller n ExecNodeType (ens_Name spec)) (ens_InstanceSpec spec)
        "/usr/bin/ytserver-node" ExecNodeMonitoringPort [rpcPort ExecNodeRPCPort];
  mret (mkMade (WServer (with_runtime_port spec s)) None [] []
    (NewTLSSecretOrNil (ens_JobHTTPSCertificateSecret spec) JobHTTPSSecretVolumeName JobHTTPSSecretMountPoint)).

Definition NewOffshoreDataGateways (spec : InstanceSpec) : outcome made :=
  s ← remoteServer commonSpec (GetComponentLabeller n OffshoreDataGatewayType "") spec
        "/usr/bin/ytserver-offshore-data-gateway" OffshoreDataGatewayMonitoringPort [rpcPort OffshoreDataGatewayRPCPort];
  mret (plain s).

End remote.

(** ** [NewComponentManager] *)

(** The constructors run in the order of the list; indexing [hps[0]] of no HTTP proxies panics. *)
Definition NewComponentManager {E} (w : World E) (clusterDomain : string) : outcome (Generator * list (blueprint * made)) :=
  let resource := w_yts w in
  if clusterDomain == "" then Failed "cluster domain is not defined" else
  cfgen ← NewGenerator resource clusterDomain;
  match spec_HTTPProxies (yts_Spec resource) with
  | [] => Panicked
  | _ =>
      let allComponents := run (assemble (yts_Spec resource) (isSome (GetImageHeater w ""))) [] in
      parts ← mapM (make cfgen (yts_Spec resource)) allComponents;
      mret (cfgen, zip allComponents parts)
  end.

(** ** The configurations *)

Section configurations.
Context {Q : QuantityArith} {U : UUIDs} {V : ImageVersions}.

(** The generator a constructor passes to [ServerConfigGenerator].  It reads the specification after
    [newServer] has set the default of anchor profiling in the loggers, which [profiled_idempotent]
    shows to change nothing in a specification that has it. *)
Definition server_config (g : Generator) (y : YtsaurusSpec) (b : blueprint) : outcome ServerConfig :=
  let n := gen_NodeGenerator g in
  match b with
  | BMaster spec _ => document CfgMaster (getMasterConfigImpl g spec)
  | BHTTPProxy _ spec => document CfgHttpProxy (getHTTPProxyConfigImpl g spec)
  | BDiscovery _ _ => document CfgDiscovery (getDiscoveryConfigImpl g (spec_Discovery y))
  | BDataNode _ _ spec => document CfgDataNode (getDataNodeConfigImpl n spec)
  | BRPCProxy _ spec => document CfgRpcProxy (getRPCProxyConfigImpl g spec)
  | BTCPProxy _ spec => document CfgTcpProxy (getTCPProxyConfigImpl g spec)
  | BKafkaProxy _ spec => document CfgKafkaProxy (getKafkaProxyConfigImpl g spec)
  | BExecNode _ spec _ => document CfgExecNode (GetExecNodeConfig n spec)
  | BTabletNode _ _ spec _ => document CfgTabletNode (getTabletNodeConfigImpl n spec)
  | BScheduler _ _ _ => configIf (spec_Schedulers y) (getSchedulerConfigImpl g) CfgScheduler
  | BControllerAgent _ _ => configIf (spec_ControllerAgents y) (getControllerAgentConfigImpl g) CfgControllerAgent
  | BQueryTracker _ _ => configIf (spec_QueryTrackers y) (getQueryTrackerConfigImpl g) CfgQueryTracker
  | BQueueAgent _ _ _ => configIf (spec_QueueAgents y) (getQueueAgentConfigImpl g) CfgQueueAgent
  | BYQLAgent _ _ => configIf (spec_YQLAgents y) (getYQLAgentConfigImpl g) CfgYqlAgent
  | BMasterCache _ _ => configIf (spec_MasterCaches y) (getMasterCachesConfigImpl g) CfgMasterCache
  | BCypressProxy => configIf (spec_CypressProxies y) (getCypressProxiesConfigImpl g) CfgCypressProxy
  | BBundleController => document CfgBundleController (spec ← or_panic (spec_BundleController y); getBundleControllerConfigImpl g spec)
  | BTabletBalancer => document CfgTabletBalancer (spec ← or_panic (spec_TabletBalancer y); getTabletBalancerConfigImpl g spec)
  | BImageHeater | BYtsaurusClient _ _ | BUI _ | BStrawberryController _ _ _ | BTimbertruck _ _ => mret CfgEmpty
  end.

(** The ports a configuration makes its server listen on, with the names pods give them. *)
Definition listening (c : ServerConfig) : list ContainerPort :=
  match config_common c with
  | None => []
  | Some common =>
      mkContainerPort YTMonitoringContainerPortName (srv_MonitoringPort common) ::
      (if srv_RPCPort common != 0%Z then [mkContainerPort YTRPCPortName (srv_RPCPort common)] else []) ++
      match c with
      | CfgHttpProxy h =>
          mkContainerPort HTTPPortName (hp_Port (cfg_Server h)) ::
          option_list ((λ s, mkContainerPort HTTPSPortName (hs_Port s)) <$> hp_HTTPSServer (cfg_Server h)) ++
          option_list (mkContainerPort CHYTHttpProxyName <$> hp_ChytHttpServer (cfg_Server h)) ++
          option_list ((λ s, mkContainerPort CHYTHttpsProxyName (hs_Port s)) <$> hp_ChytHttpsServer (cfg_Server h))
      | CfgRpcProxy r =>
          if rp_PublicRPCPort (cfg_Server r) != 0%Z
          then [mkContainerPort YTPublicRPCPortName (rp_PublicRPCPort (cfg_Server r))] else []
      | CfgKafkaProxy k => [mkContainerPort KafkaPortName (kp_Port (cfg_Server k))]
      | _ => []
      end
  end.

End configurations.
(** ** Ports of configurations *)

Section config_ports.
Context {Q : QuantityArith} {U : UUIDs} {V : ImageVersions}.

Definition has_ports (common : CommonServer) (rpc monitoring : Z) : Prop :=
  srv_RPCPort common = rpc ∧ srv_MonitoringPort common = monitoring.

Lemma fillCommonService_ports g c i t common :
  fillCommonService g c i t = Returned common → has_ports common (car_RPCPort c) (car_MonitoringPort c).
Proof. unfold fillCommonService. intros H. returned_inv. by subst. Qed.

Lemma fillBusServer_ports g s common rpc monitoring :
  has_ports common rpc monitoring → has_ports (fillBusServer g s common) rpc monitoring.
Proof. unfold fillBusServer. repeat case_match; done. Qed.

Lemma fillServer_ports g c i t common :
  fillServer g c i t = Returned common → has_ports common (car_RPCPort c) (car_MonitoringPort c).
Proof. unfold fillServer. intros H. returned_inv. subst. eapply fillBusServer_ports, fillCommonService_ports. eassumption. Qed.

Lemma serverCarcass_ports rpc monitoring t i loggers c :
  serverCarcass rpc monitoring t i loggers = Returned c →
  car_RPCPort c = rpc ∧ car_MonitoringPort c = Deref (is_MonitoringPort i) monitoring.
Proof. unfold serverCarcass. intros H. returned_inv. by subst. Qed.

End config_ports.

(** ** What pods expose *)

(** The server container as [rebuildPodSpec] leaves it. *)
Lemma server_container_ports s c :
  pc_Ports (addTlsSecretMount s (addCARootBundle s c)) = pc_Ports c ∧
  pc_ReadinessProbe (addTlsSecretMount s (addCARootBundle s c)) = pc_ReadinessProbe c.
Proof.
  unfold addTlsSecretMount, addCARootBundle.
  by destruct (sp_busClientSecret s), (sp_busServerSecret s), (sp_caBundle s), (sp_caRootBundle s).
Qed.

(** The first container of the pods of a server has the ports and the probe of the options. *)
Definition pod_exposes (pod : serverPod) (ports : list ContainerPort) (port : IntOrString) (path : string) : Prop :=
  ∃ p container rest params, rebuildPodSpec pod = Returned p ∧ pod_Containers p = container :: rest ∧
    pc_Ports container = ports ∧ pc_ReadinessProbe container = Some (mkProbe (HTTPGet port path) params).

Lemma rebuild_first s label file files :
  GetFullComponentLabel (sp_labeller s) = Some label → sp_fileNames s = file :: files →
  ∃ p rest, rebuildPodSpec s = Returned p ∧
    pod_Containers p = addTlsSecretMount s (addCARootBundle s (server_container s file)) :: rest.
Proof.
  intros Hl Hf. unfold rebuildPodSpec, GetMainConfigMapName. rewrite Hl, Hf. cbn [or_panic fmap option_fmap option_map mbind outcome_bind].
  set (cmd := getConfigPostprocessingCommand _ _).
  assert (∀ cm cmd, ∃ p, with_certificates s (base_template s cm file cmd) = Returned p ∧
    pod_Containers p = [addTlsSecretMount s (addCARootBundle s (server_container s file))]) as Hcert.
  { intros cm cmd'. unfold with_certificates, pod_first_container. cbn [pod_set_InitContainers pod_set_Containers pod_Containers].
    rewrite !(proj1 (tls_AddVolume_keeps _ _)), !(proj1 (cab_AddVolume_keeps _ _)). eexists. by split. }
  unfold with_delivery, timbertruckConfigPostprocessingCommand, timbertruckConfigFileName, GetSidecarConfigMapName. rewrite Hl.
  destruct (sp_timbertruck s) as [[d mounts]|]; cbn [or_panic fmap option_fmap option_map mbind outcome_bind mret outcome_ret];
    edestruct Hcert as (p & -> & Hc).
  - eexists _, _. split; [reflexivity|]. unfold addTimbertruckSidecar.
    cbn [pod_add_containers pod_add_volumes pod_set_Containers pod_set_Volumes pod_Containers]. rewrite Hc. done.
  - eexists p, []. by split.
Qed.

Lemma newServer_exposes l commonSpec podSpec i binaryPath file files delivers mp optFuncs label :
  GetFullComponentLabel l = Some label →
  let o := newServerOptions i mp optFuncs in
  pod_exposes (newServer l commonSpec podSpec i binaryPath (file :: files) delivers mp optFuncs)
    (opt_containerPorts o) (opt_readinessProbeEndpointPort o) (opt_readinessProbeEndpointPath o).
Proof.
  intros Hl o. set (s := newServer l commonSpec podSpec i binaryPath (file :: files) delivers mp optFuncs).
  destruct (rebuild_first s label file files Hl eq_refl) as (p & rest & Hp & Hc).
  eexists p, _, _, (Deref (is_ReadinessProbeParams i) HealthcheckProbeParamsZero). split; [exact Hp|]. split; [exact Hc|].
  destruct (server_container_ports s (server_container s file)) as [-> ->].
  unfold server_container, s, newServer. cbv zeta. cbn [pc_Ports pc_ReadinessProbe newServerConfigured sp_componentContainerPorts
    sp_readinessProbePort sp_readinessProbeHTTPPath].
  fold o. destruct (if delivers then _ else _) as [[]|]; by split.
Qed.

Definition parts_expose (s : serverParts) (o : options) : Prop :=
  pod_exposes (sv_pod s) (opt_containerPorts o) (opt_readinessProbeEndpointPort o) (opt_readinessProbeEndpointPath o) ∧
  newMonitoringPorts (opt_monitoringPort o) `prefix_of` sv_monitoringPorts s.

(** Component types with all the names of a server. *)
Definition names_server (l : Labeller) : bool :=
  isSome (GetServerConfigName l) && isSome (GetMainConfigMapName l) && isSome (GetServerStatefulSetName l) &&
  isSome (GetHeadlessServiceName l) && isSome (GetMonitoringServiceName l).

Lemma with_objects_returns l o pod :
  names_server l = true → ∃ s, with_objects l o pod = Returned s ∧ sv_pod s = pod ∧
    sv_monitoringPorts s = newMonitoringPorts (opt_monitoringPort o).
Proof.
  unfold names_server, with_objects.
  destruct (GetServerConfigName l), (GetMainConfigMapName l), (GetServerStatefulSetName l), (GetHeadlessServiceName l),
    (GetMonitoringServiceName l); try discriminate. intros _. cbn. eexists. by split_and!.
Qed.

Lemma names_server_label l : names_server l = true → ∃ file label, GetServerConfigName l = Some file ∧ GetFullComponentLabel l = Some label.
Proof.
  unfold names_server, GetMainConfigMapName.
  destruct (GetServerConfigName l), (GetFullComponentLabel l); try discriminate. eauto.
Qed.

Lemma localServer_exposes y l i binaryPath files mp optFuncs :
  names_server l = true →
  ∃ s, localServer y l i binaryPath files mp optFuncs = Returned s ∧ parts_expose s (newServerOptions i mp optFuncs).
Proof.
  intros Hn. destruct (names_server_label l Hn) as (file & label & Hf & Hl). unfold localServer. rewrite Hf.
  cbn [or_panic mbind outcome_bind]. edestruct with_objects_returns as (s & Hs & Hp & Hm); [exact Hn|]. rewrite Hs.
  exists s. split; [done|]. unfold parts_expose. rewrite Hp, Hm. split; [by eapply newServer_exposes|done].
Qed.

Lemma remoteServer_exposes commonSpec l i binaryPath mp optFuncs :
  names_server l = true →
  ∃ s, remoteServer commonSpec l i binaryPath mp optFuncs = Returned s ∧ parts_expose s (newServerOptions i mp optFuncs).
Proof.
  intros Hn. destruct (names_server_label l Hn) as (file & label & Hf & Hl). unfold remoteServer. rewrite Hf.
  cbn [or_panic mbind outcome_bind]. edestruct with_objects_returns as (s & Hs & Hp & Hm); [exact Hn|]. rewrite Hs.
  exists s. split; [done|]. unfold parts_expose. rewrite Hp, Hm.
  split; [by apply (newServer_exposes l commonSpec PodSpecZero i binaryPath (file +:+ ".yson") [] false mp optFuncs label)|done].
Qed.

(** ** Servers are reached where they listen *)

(** The ports of the balancing service that lead to ports of the configuration; those of a TCP
    proxy are opened by its dynamic configuration. *)
Definition service_ports (m : made) : list ServicePort :=
  match made_balancing m with
  | Some (BalanceHTTP _ _ s) => http_ports s
  | Some (BalanceRPC _ _ ports) => ports
  | Some (BalanceTCP _ _) | None => []
  end.

(** The configuration takes the HTTP port of the CHYT proxy for HTTPS as well, so that the two agree
    only when the same number comes out. *)
Definition chyt_https_agrees (b : blueprint) : Prop :=
  match b with
  | BHTTPProxy _ spec =>
      let chytProxy := Deref (hps_ChytProxy spec) CHYTProxySpecZero in
      Deref (chp_HttpPort chytProxy) HTTPProxyChytHttpsPort = Deref (chp_HttpsPort chytProxy) HTTPProxyChytHttpsPort
  | _ => True
  end.

Section exposed.
Context {V : ImageVersions}.

(** A probe that asks a port the server listens on. *)
Definition probe_reaches (port : IntOrString) (c : ServerConfig) : Prop :=
  match port with
  | PortNumber n => n ∈ cp_ContainerPort <$> listening c
  | PortName name => name ∈ cp_Name <$> listening c
  end.

(** Ports and probe of options, and ports of a service, against a configuration. *)
Record agrees (agreed : Prop) (o : options) (services : list ServicePort) (c : ServerConfig) : Prop := {
  ag_names : NoDup (cp_Name <$> opt_containerPorts o);
  ag_ports : ∀ port, port ∈ listening c → (cp_Name port = CHYTHttpsProxyName → agreed) → port ∈ opt_containerPorts o;
  ag_probe : probe_reaches (opt_readinessProbeEndpointPort o) c;
  ag_monitoring : ∃ common, config_common c = Some common ∧ srv_MonitoringPort common = opt_monitoringPort o;
  ag_services : ∀ port, port ∈ services → (sp_Name port = CHYTHttpsProxyName → agreed) →
    sp_TargetPort port ∈ cp_ContainerPort <$> listening c;
}.

(** A server of one RPC port. *)
Lemma agrees_plain agreed i mp port c common :
  port ≠ 0%Z → config_common c = Some common → has_ports common port (Deref (is_MonitoringPort i) mp) →
  match c with CfgHttpProxy _ | CfgRpcProxy _ | CfgKafkaProxy _ => False | _ => True end →
  agrees agreed (newServerOptions i mp [rpcPort port]) [] c.
Proof.
  intros Hp Hc [H1 H2] Hk.
  assert (listening c = [mkContainerPort YTMonitoringContainerPortName (Deref (is_MonitoringPort i) mp); mkContainerPort YTRPCPortName port]) as Hl.
  { unfold listening. rewrite Hc, H1, H2, bool_decide_eq_false_2 by done. by destruct c. }
  split; rewrite ?Hl.
  - apply (bool_decide_unpack _). done.
  - intros q Hq _. exact Hq.
  - cbn. rewrite Hl. by left.
  - eauto.
  - by intros q Hq%elem_of_nil.
Qed.

End exposed.

Section proxies.
Context {Q : QuantityArith} {U : UUIDs} {V : ImageVersions}.

Lemma http_proxy_config g spec c :
  getHTTPProxyConfigImpl g spec = Returned c →
  has_ports (cfg_CommonServer c) HTTPProxyRPCPort (Deref (is_MonitoringPort (hps_InstanceSpec spec)) HTTPProxyMonitoringPort) ∧
  hp_Port (cfg_Server c) = Deref (hps_HttpPort spec) HTTPProxyHTTPPort ∧
  hp_HTTPSServer (cfg_Server c) = (λ _, httpsServer (Deref (hps_HttpsPort spec) HTTPProxyHTTPSPort)) <$> hps_HTTPSSecret spec ∧
  (hp_ChytHttpServer (cfg_Server c), hp_ChytHttpsServer (cfg_Server c)) =
    if cf_HTTPProxyHaveChytAddress (ng_clusterFeatures (gen_NodeGenerator g)) then fillChytServer spec else (None, None).
Proof.
  unfold getHTTPProxyConfigImpl, getHTTPProxyServerCarcass. intros H. cbv zeta in H.
  apply outcome_bind_Returned in H as ([carcass h] & Hc & H). apply outcome_bind_Returned in Hc as (k & Hk & Hc).
  injection Hc as <- <-. apply serverCarcass_ports in Hk as [H1 H2].
  apply outcome_bind_Returned in H as (common & Hcommon & H). apply fillServer_ports in Hcommon. rewrite H1, H2 in Hcommon.
  destruct (if cf_HTTPProxyHaveChytAddress _ then _ else _) as [http https]. injection H as <-. by split_and!.
Qed.

Lemma rpc_proxy_config g spec c :
  getRPCProxyConfigImpl g spec = Returned c →
  let public := cf_RPCProxyHavePublicAddress (ng_clusterFeatures (gen_NodeGenerator g)) in
  has_ports (cfg_CommonServer c) (if public then RPCProxyInternalRPCPort else RPCProxyPublicRPCPort)
    (Deref (is_MonitoringPort (rps_InstanceSpec spec)) RPCProxyMonitoringPort) ∧
  rp_PublicRPCPort (cfg_Server c) = if public then RPCProxyPublicRPCPort else 0%Z.
Proof.
  unfold getRPCProxyConfigImpl, getRPCProxyServerCarcass. intros H. cbv zeta in H.
  apply outcome_bind_Returned in H as (k & Hk & H). apply serverCarcass_ports in Hk as [H1 H2].
  apply outcome_bind_Returned in H as (common & Hcommon & H). apply fillCommonService_ports in Hcommon. rewrite H1, H2 in Hcommon.
  destruct (cf_RPCProxyHavePublicAddress _).
  - injection H as <-. split; [by apply fillBusServer_ports|done].
  - destruct Hcommon as [_ Hm]. destruct (rpct_TLSSecret _); injection H as <-; by repeat split.
Qed.

Lemma agrees_http g y spec c :
  cf_HTTPProxyHaveChytAddress (ng_clusterFeatures (gen_NodeGenerator g)) =
    cf_HTTPProxyHaveChytAddress (Deref (cs_ClusterFeatures (spec_CommonSpec y)) ClusterFeaturesZero) →
  getHTTPProxyConfigImpl g spec = Returned c →
  agrees (chyt_https_agrees (BHTTPProxy 0 spec))
    (newServerOptions (hps_InstanceSpec spec) HTTPProxyMonitoringPort
       [ WithContainerPorts (http_proxy_ports y spec);
         WithCustomReadinessProbeEndpointPort (Deref (hps_HttpPort spec) HTTPProxyHTTPPort);
         WithCustomReadinessProbeEndpointPath "/ping" ])
    (http_ports (http_balancing y spec)) (CfgHttpProxy c).
Proof.
  intros Hf ([H1 H2] & Hport & Hhttps & Hchyt)%http_proxy_config. rewrite Hf in Hchyt.
  assert (listening (CfgHttpProxy c) =
    mkContainerPort YTMonitoringContainerPortName (Deref (is_MonitoringPort (hps_InstanceSpec spec)) HTTPProxyMonitoringPort) ::
    mkContainerPort YTRPCPortName HTTPProxyRPCPort :: mkContainerPort HTTPPortName (Deref (hps_HttpPort spec) HTTPProxyHTTPPort) ::
    option_list ((λ _, mkContainerPort HTTPSPortName (Deref (hps_HttpsPort spec) HTTPProxyHTTPSPort)) <$> hps_HTTPSSecret spec) ++
    option_list (mkContainerPort CHYTHttpProxyName <$> hp_ChytHttpServer (cfg_Server c)) ++
    option_list ((λ s, mkContainerPort CHYTHttpsProxyName (hs_Port s)) <$> hp_ChytHttpsServer (cfg_Server c))) as Hl.
  { unfold listening. cbn [config_common]. rewrite H1, H2, Hport, Hhttps. cbn [app]. do 3 f_equal. by destruct (hps_HTTPSSecret spec). }
  assert (http_proxy_chyt y spec = if cf_HTTPProxyHaveChytAddress (Deref (cs_ClusterFeatures (spec_CommonSpec y)) ClusterFeaturesZero)
    then Some (Deref (hps_ChytProxy spec) CHYTProxySpecZero) else None) as Hy by done.
  revert Hchyt Hy Hl. unfold fillChytServer. cbv zeta.
  set (chyt := Deref (hps_ChytProxy spec) CHYTProxySpecZero).
  destruct (cf_HTTPProxyHaveChytAddress (Deref _ _)); intros [= -> ->] Hy Hl; split; unfold probe_reaches;
    rewrite ?Hl; unfold http_proxy_ports, http_balancing, http_ports; rewrite ?Hy; cbn.
  all: try (apply (bool_decide_unpack _); done).
  all: try (eexists; by split).
  all: destruct (hps_HTTPSSecret spec), (hps_DisableHTTP spec); cbn; try (rewrite !elem_of_cons; by auto).
  all: intros port Hin Hag; fold chyt in Hag; rewrite ?elem_of_cons, ?elem_of_nil in Hin; rewrite !elem_of_cons;
    repeat (destruct Hin as [->|Hin]; [try rewrite (Hag eq_refl); cbn; by auto 12|]); by destruct Hin.
Qed.

Lemma agrees_rpc agreed g spec c (serviceType : option ServiceType) :
  getRPCProxyConfigImpl g spec = Returned c →
  agrees agreed (newServerOptions (rps_InstanceSpec spec) RPCProxyMonitoringPort [WithContainerPorts (rpc_proxy_ports g)])
    (match serviceType with
     | Some _ => [mkServicePort YTRPCPortName RPCProxyPublicRPCPort RPCProxyPublicRPCPort (Deref (rps_NodePort spec) 0%Z)]
     | None => [] end) (CfgRpcProxy c).
Proof.
  intros ([H1 H2] & Hp)%rpc_proxy_config.
  assert (listening (CfgRpcProxy c) =
    mkContainerPort YTMonitoringContainerPortName (Deref (is_MonitoringPort (rps_InstanceSpec spec)) RPCProxyMonitoringPort) ::
    rpc_proxy_ports g) as Hl.
  { unfold listening, rpc_proxy_ports. cbn [config_common]. rewrite H1, H2, Hp. by destruct (cf_RPCProxyHavePublicAddress _). }
  split; unfold probe_reaches; rewrite ?Hl.
  - unfold rpc_proxy_ports. destruct (cf_RPCProxyHavePublicAddress _); apply (bool_decide_unpack _); done.
  - by intros port Hin _.
  - by left.
  - eexists. by split.
  - intros port Hin _. destruct serviceType; [|by apply elem_of_nil in Hin]. apply list_elem_of_singleton in Hin as ->.
    unfold rpc_proxy_ports. destruct (cf_RPCProxyHavePublicAddress _); cbn; set_solver.
Qed.

Lemma agrees_tcp agreed g spec c :
  getTCPProxyConfigImpl g spec = Returned c →
  agrees agreed (newServerOptions (tps_InstanceSpec spec) TCPProxyMonitoringPort []) [] (CfgTcpProxy c).
Proof.
  unfold getTCPProxyConfigImpl, getTCPProxyServerCarcass. intros H. returned_inv. subst c.
  match goal with H : serverCarcass _ _ _ _ _ = _ |- _ => apply serverCarcass_ports in H as [H1 H2] end.
  match goal with H : fillCommonService _ _ _ _ = _ |- _ => apply fillCommonService_ports in H as [H3 H4] end.
  rewrite H1 in H3. rewrite H2 in H4.
  split; unfold probe_reaches, listening; cbn [config_common cfg_CommonServer]; rewrite ?H3, ?H4.
  - apply (bool_decide_unpack _). done.
  - by intros port Hin _.
  - by left.
  - eexists. by split.
  - by intros port ?%elem_of_nil.
Qed.

Lemma agrees_kafka agreed g spec c (serviceType : option ServiceType) :
  getKafkaProxyConfigImpl g spec = Returned c →
  agrees agreed (newServerOptions (kps_InstanceSpec spec) KafkaProxyMonitoringPort
      [ rpcPort KafkaProxyRPCPort; WithContainerPorts [mkContainerPort KafkaPortName KafkaProxyKafkaPort] ])
    (match serviceType with
     | Some _ => [mkServicePort KafkaPortName KafkaProxyKafkaPort KafkaProxyKafkaPort 0]
     | None => [] end) (CfgKafkaProxy c).
Proof.
  unfold getKafkaProxyConfigImpl, getKafkaProxyServerCarcass. intros H. returned_inv. subst c.
  match goal with H : serverCarcass _ _ _ _ _ = _ |- _ => apply serverCarcass_ports in H as [H1 H2] end.
  match goal with H : fillCommonService _ _ _ _ = _ |- _ => apply fillCommonService_ports in H as [H3 H4] end.
  rewrite H1 in H3. rewrite H2 in H4.
  split; unfold probe_reaches, listening; cbn [config_common cfg_CommonServer]; rewrite ?H3, ?H4.
  - apply (bool_decide_unpack _). done.
  - by intros port Hin _.
  - by left.
  - eexists. by split.
  - intros port Hin _. destruct serviceType; [|by apply elem_of_nil in Hin]. apply list_elem_of_singleton in Hin as ->.
    cbn. set_solver.
Qed.

End proxies.

(** ** All the components of a cluster *)

(** What the specification must have for a constructor. *)
Definition present (y : YtsaurusSpec) (b : blueprint) : Prop :=
  match b with
  | BScheduler _ _ _ => is_Some (spec_Schedulers y)
  | BControllerAgent _ _ => is_Some (spec_ControllerAgents y)
  | BQueryTracker _ _ => is_Some (spec_QueryTrackers y)
  | BQueueAgent _ _ _ => is_Some (spec_QueueAgents y)
  | BYQLAgent _ _ => is_Some (spec_YQLAgents y)
  | BMasterCache _ _ => is_Some (spec_MasterCaches y)
  | BCypressProxy => is_Some (spec_CypressProxies y)
  | BBundleController => is_Some (spec_BundleController y)
  | BTabletBalancer => is_Some (spec_TabletBalancer y)
  | BUI _ => is_Some (spec_UI y)
  | BStrawberryController _ _ _ => is_Some (spec_StrawberryController y)
  | _ => True
  end.

(** Steps that add only what has a property. *)
Definition only {A} (P : blueprint → Prop) (c : assembly A) : Prop := ∀ all, Forall P all → Forall P (run c all).

Lemma only_bind {A B} P (c : assembly A) (f : A → assembly B) : only P c → (∀ x, only P (f x)) → only P (c ≫= f).
Proof. intros Hc Hf all Hall. rewrite run_bind. by apply Hf, Hc. Qed.

Lemma only_append P l : Forall P l → only P (append l).
Proof. intros Hl all Hall. change (run (append l) all) with (all ++ l). by apply Forall_app. Qed.

Lemma only_append1 (P : blueprint → Prop) b : P b → only P (append1 b).
Proof. intros Hb all Hall. change (run (append1 b) all) with (all ++ [b]). apply Forall_app. by repeat constructor. Qed.

Lemma only_append_if (P : blueprint → Prop) (present : bool) b : (present = true → P b) → only P (append_if present b).
Proof.
  intros Hb. unfold append_if. destruct present; [|by intros all Hall; rewrite run_ret].
  apply only_bind; [by apply only_append1, Hb|]. intros i all Hall. by rewrite run_ret.
Qed.

Lemma assembled_present y heater : Forall (present y) (run (assemble y heater) []).
Proof.
  enough (only (present y) (assemble y heater)) as H by by apply H, Forall_nil.
  unfold assemble, tablet_nodes.
  repeat first
    [ apply only_bind; [|intros ?]
    | apply only_append_if; cbn [present]; rewrite ?andb_true_iff; intros Hp; try exact I
    | apply only_append1; exact I
    | apply only_append; apply Forall_fmap, Forall_true; intros ?; exact I
    | apply only_append; apply Forall_forall; intros b (k & s & -> & _)%elem_of_lookup_imap; exact I
    | by intros all Hall; rewrite run_ret ].
  all: repeat match goal with H : _ ∧ _ |- _ => destruct H end;
    match goal with H : isSome ?x = true |- is_Some ?x => destruct x; [eauto|discriminate H] end.
Qed.

(** The common part of a configuration filled in by [fillServer]. *)
Ltac plain_config H :=
  repeat first
    [ progress returned_inv
    | match type of H with
      | match ?x with _ => _ end = Returned _ => destruct x; try discriminate H
      end ];
  subst;
  try match goal with H : serverCarcass _ _ _ _ _ = Returned _ |- _ => apply serverCarcass_ports in H as [? ?] end;
  match goal with H : fillServer _ _ _ _ = Returned _ |- _ => apply fillServer_ports in H as [? ?] end;
  split; cbn in *; congruence.

Section plain_configs.
Context {Q : QuantityArith} {U : UUIDs} {V : ImageVersions}.

Lemma master_ports g spec c :
  getMasterConfigImpl g spec = Returned c →
  has_ports (cfg_CommonServer c) MasterRPCPort (Deref (is_MonitoringPort (ms_InstanceSpec spec)) MasterMonitoringPort).
Proof.
  unfold getMasterConfigImpl. intros H. cbv zeta in H. apply outcome_bind_Returned in H as (k & Hk & H).
  assert (car_RPCPort (mac_Carcass k) = MasterRPCPort ∧
    car_MonitoringPort (mac_Carcass k) = Deref (is_MonitoringPort (ms_InstanceSpec spec)) MasterMonitoringPort) as [H1 H2].
  { revert Hk. unfold getMasterServerCarcass. destruct (FindFirstLocation _ _); [|discriminate]. destruct (FindFirstLocation _ _); [|discriminate].
    intros Hk. apply outcome_bind_Returned in Hk as (carcass & Hk & [= <-]). by apply serverCarcass_ports in Hk. }
  apply outcome_bind_Returned in H as (common & Hcommon & H). apply fillCommonService_ports in Hcommon. rewrite H1, H2 in Hcommon.
  apply outcome_bind_Returned in H as (cells & _ & H). apply outcome_bind_Returned in H as (primary & _ & H).
  apply outcome_bind_Returned in H as (addresses & _ & H).
  assert (∀ s, has_ports (fillBusServer (gen_NodeGenerator g) s
    (srv_set_SecondaryMasters (cc_SecondaryMasters (srv_ClusterConnection common) ++ cells) common)) MasterRPCPort
    (Deref (is_MonitoringPort (ms_InstanceSpec spec)) MasterMonitoringPort)) as Hb by (intros s; by apply fillBusServer_ports).
  destruct (_ && _).
  - apply outcome_bind_Returned in H as (name & _ & [= <-]). apply Hb.
  - injection H as <-. apply Hb.
Qed.

(** The skeleton of a node. *)
Lemma node_ports g flavor spec inst logging i t common :
  fillServer g (node_carcass (fillClusterNodeServerCarcass flavor spec inst) logging) i t = Returned common →
  has_ports common (match flavor with NodeFlavorData => DataNodeRPCPort | NodeFlavorExec => ExecNodeRPCPort | NodeFlavorTablet => TabletNodeRPCPort end)
    (Deref (is_MonitoringPort inst)
       (match flavor with NodeFlavorData => DataNodeMonitoringPort | NodeFlavorExec => ExecNodeMonitoringPort
        | NodeFlavorTablet => TabletNodeMonitoringPort end)).
Proof. intros [H1 H2]%fillServer_ports. by destruct flavor. Qed.

Lemma data_node_ports g spec c :
  getDataNodeConfigImpl g spec = Returned c →
  has_ports (cfg_CommonServer c) DataNodeRPCPort (Deref (is_MonitoringPort (dns_InstanceSpec spec)) DataNodeMonitoringPort).
Proof.
  unfold getDataNodeConfigImpl, getDataNodeServerCarcass. intros H. apply outcome_bind_Returned in H as (k & Hk & H). cbv zeta in Hk.
  destruct (storeLocation _ <$> _); [discriminate|]. apply outcome_bind_Returned in Hk as (logging & _ & [= <-]).
  apply outcome_bind_Returned in H as (common & Hc & [= <-]). cbn [dn_NodeServer dn_Logging tn_NodeServer tn_Logging] in Hc. by apply node_ports in Hc.
Qed.

Lemma tablet_node_ports g spec c :
  getTabletNodeConfigImpl g spec = Returned c →
  has_ports (cfg_CommonServer c) TabletNodeRPCPort (Deref (is_MonitoringPort (tns_InstanceSpec spec)) TabletNodeMonitoringPort).
Proof.
  unfold getTabletNodeConfigImpl, getTabletNodeServerCarcass. intros H. cbv zeta in H. apply outcome_bind_Returned in H as (k & Hk & H).
  apply outcome_bind_Returned in Hk as (logging & _ & [= <-]).
  apply outcome_bind_Returned in H as (common & Hc & [= <-]). cbn [dn_NodeServer dn_Logging tn_NodeServer tn_Logging] in Hc. by apply node_ports in Hc.
Qed.

Lemma exec_node_ports g spec c :
  GetExecNodeConfig g spec = Returned c →
  has_ports (cfg_CommonServer c) ExecNodeRPCPort (Deref (is_MonitoringPort (ens_InstanceSpec spec)) ExecNodeMonitoringPort).
Proof.
  unfold GetExecNodeConfig, getExecNodeConfigImpl. intros H. apply outcome_bind_Returned in H as (c0 & H0 & H).
  apply outcome_bind_Returned in H0 as (k & Hk & H0). apply outcome_bind_Returned in H0 as (common & Hcommon & H0).
  injection H0 as <-. cbn [cfg_CommonServer cfg_Server] in H.
  assert (cfg_CommonServer c = common) as -> by (destruct (cc_BusClient _); returned_inv; by subst c).
  revert Hk. unfold getExecNodeServerCarcass. cbv zeta. destruct (cacheLocation _ <$> _); [discriminate|].
  destruct (FindAllLocations _ LocationTypeSlots); [discriminate|]. intros Hk.
  apply outcome_bind_Returned in Hk as (logging & _ & [= <-]). cbn [en_NodeServer en_Logging] in Hcommon. by apply node_ports in Hcommon.
Qed.

(** Servers other than proxies. *)
Lemma plain_ports g y b c i mp port :
  server_config g y b = Returned c →
  match b with
  | BMaster spec _ => (i, mp, port) = (ms_InstanceSpec spec, MasterMonitoringPort, MasterRPCPort)
  | BDiscovery _ _ => (i, mp, port) = (spec_Discovery y, DiscoveryMonitoringPort, DiscoveryRPCPort)
  | BDataNode _ _ spec => (i, mp, port) = (dns_InstanceSpec spec, DataNodeMonitoringPort, DataNodeRPCPort)
  | BExecNode _ spec _ => (i, mp, port) = (ens_InstanceSpec spec, ExecNodeMonitoringPort, ExecNodeRPCPort)
  | BTabletNode _ _ spec _ => (i, mp, port) = (tns_InstanceSpec spec, TabletNodeMonitoringPort, TabletNodeRPCPort)
  | BScheduler _ _ _ => spec_Schedulers y = Some i ∧ (mp, port) = (SchedulerMonitoringPort, SchedulerRPCPort)
  | BControllerAgent _ _ => spec_ControllerAgents y = Some i ∧ (mp, port) = (ControllerAgentMonitoringPort, ControllerAgentRPCPort)
  | BQueryTracker _ _ => spec_QueryTrackers y = Some i ∧ (mp, port) = (QueryTrackerMonitoringPort, QueryTrackerRPCPort)
  | BQueueAgent _ _ _ => spec_QueueAgents y = Some i ∧ (mp, port) = (QueueAgentMonitoringPort, QueueAgentRPCPort)
  | BYQLAgent _ _ => yqs_InstanceSpec <$> spec_YQLAgents y = Some i ∧ (mp, port) = (YQLAgentMonitoringPort, YQLAgentRPCPort)
  | BMasterCache _ _ => mcs_InstanceSpec <$> spec_MasterCaches y = Some i ∧ (mp, port) = (MasterCachesMonitoringPort, MasterCachesRPCPort)
  | BCypressProxy => cps_InstanceSpec <$> spec_CypressProxies y = Some i ∧ (mp, port) = (CypressProxyMonitoringPort, CypressProxyRPCPort)
  | BBundleController => spec_BundleController y = Some i ∧ (mp, port) = (BundleControllerMonitoringPort, BundleControllerRPCPort)
  | BTabletBalancer => spec_TabletBalancer y = Some i ∧ (mp, port) = (TabletBalancerMonitoringPort, TabletBalancerRPCPort)
  | _ => False
  end →
  agrees (chyt_https_agrees b) (newServerOptions i mp [rpcPort port]) [] c.
Proof.
  intros H Hb.
  assert (∃ common, config_common c = Some common ∧ has_ports common port (Deref (is_MonitoringPort i) mp) ∧ port ≠ 0%Z ∧
    match c with CfgHttpProxy _ | CfgRpcProxy _ | CfgKafkaProxy _ => False | _ => True end) as (common & H1 & H2 & H3 & H4).
  2: { by eapply agrees_plain. }
  destruct b; try done; cbn [server_config] in H.
  all: try match type of Hb with _ ∧ _ => destruct Hb as [Hi Hb]; unfold configIf in H end.
  all: try (apply fmap_Some in Hi as (spec & Hi & ->)); try rewrite Hi in H; clear Hi || idtac; injection Hb as ?; subst.
  all: apply document_Returned in H as (cfg & Hc & <-); cbn [or_panic mbind outcome_bind] in Hc;
    eexists; split; [reflexivity|]; (split; [|by split]).
  all: try first [by eapply master_ports | by eapply data_node_ports | by eapply exec_node_ports | by eapply tablet_node_ports].
  all: unfold getDiscoveryConfigImpl, getSchedulerConfigImpl, getControllerAgentConfigImpl, getQueryTrackerConfigImpl,
    getQueueAgentConfigImpl, getYQLAgentConfigImpl, getMasterCachesConfigImpl, getCypressProxiesConfigImpl,
    getBundleControllerConfigImpl, getTabletBalancerConfigImpl in Hc;
    unfold getDiscoveryServerCarcass, getSchedulerServerCarcass, getControllerAgentServerCarcass, getQueryTrackerServerCarcass,
      getQueueAgentServerCarcass, getYQLAgentServerCarcass, getMasterCachesCarcass, getBundleControllerServerCarcass,
      getTabletBalancerServerCarcass in Hc; cbv zeta in Hc.
  all: plain_config Hc.
Qed.
End plain_configs.

Section cluster.
Context {Q : QuantityArith} {U : UUIDs} {V : ImageVersions}.

Lemma agrees_ext agreed o o' services c :
  opt_containerPorts o' = opt_containerPorts o → opt_readinessProbeEndpointPort o' = opt_readinessProbeEndpointPort o →
  opt_monitoringPort o' = opt_monitoringPort o → agrees agreed o services c → agrees agreed o' services c.
Proof. intros H1 H2 H3 [? ? ? ? ?]. split; by rewrite ?H1, ?H2, ?H3. Qed.

(** The components that run a server. *)
Definition is_server (b : blueprint) : bool :=
  match b with
  | BImageHeater | BYtsaurusClient _ _ | BUI _ | BStrawberryController _ _ _ | BTimbertruck _ _ => false
  | _ => true
  end.

(** A component that is made, with options that agree with whatever configuration is generated. *)
Definition serves (g : Generator) (y : YtsaurusSpec) (b : blueprint) (r : outcome made) : Prop :=
  ∃ m s o, r = Returned m ∧ made_workload m = WServer s ∧ parts_expose s o ∧
    ∀ c, server_config g y b = Returned c → agrees (chyt_https_agrees b) o (service_ports m) c.

Lemma server_serves g y b l i binaryPath files mp optFuncs (k : serverParts → outcome made) :
  names_server l = true →
  (∀ s, ∃ m s', k s = Returned m ∧ made_workload m = WServer s' ∧ sv_pod s' = sv_pod s ∧
    sv_monitoringPorts s `prefix_of` sv_monitoringPorts s' ∧
    ∀ c, server_config g y b = Returned c → agrees (chyt_https_agrees b) (newServerOptions i mp optFuncs) (service_ports m) c) →
  serves g y b (localServer y l i binaryPath files mp optFuncs ≫= k).
Proof.
  intros Hn Hk. destruct (localServer_exposes y l i binaryPath files mp optFuncs Hn) as (s & Hs & He & Hm).
  destruct (Hk s) as (m & s' & Hr & Hw & H1 & H2 & H3). exists m, s', (newServerOptions i mp optFuncs). rewrite Hs.
  split_and!; [exact Hr|exact Hw| |exact H3]. split; [by rewrite H1|by etrans].
Qed.

Lemma runtime_port_keeps spec s :
  sv_pod (with_runtime_port spec s) = sv_pod s ∧ sv_monitoringPorts s `prefix_of` sv_monitoringPorts (with_runtime_port spec s).
Proof. unfold with_runtime_port. cbv zeta. case_match; split; try done. cbn. by apply prefix_app_r. Qed.

(** The constructor of a server other than a proxy. *)
Ltac plain_server :=
  apply server_serves; [reflexivity|]; intros s; eexists _, _; split; [reflexivity|]; split; [done|]; split; [done|]; split; [done|];
  intros c Hc; eapply plain_ports; [exact Hc|cbn].

Lemma make_serves g y b :
  ng_clusterFeatures (gen_NodeGenerator g) = Deref (cs_ClusterFeatures (spec_CommonSpec y)) ClusterFeaturesZero →
  present y b → is_server b = true → serves g y b (make g y b).
Proof.
  intros Hf Hp Hr. destruct b; try discriminate Hr; clear Hr; cbn [present make] in Hp |- *; try (destruct Hp as [i Hi]);
    unfold NewDiscovery, NewDataNode, NewTabletNode, NewScheduler, NewControllerAgent, NewQueryTracker, NewQueueAgent, NewYQLAgent,
      NewMasterCache, NewCypressProxy, NewBundleController, NewTabletBalancer, NewPlainServer;
    try (rewrite Hi; cbn [or_panic mbind outcome_bind]).
  all: try (plain_server; first [done|by rewrite Hi]).
  - assert (∀ c, server_config g y (BMaster spec secondaryMasters) = Returned c →
      agrees (chyt_https_agrees (BMaster spec secondaryMasters)) (newServerOptions (ms_InstanceSpec spec) MasterMonitoringPort (buildMasterOptions spec)) [] c) as Ha.
    { intros c Hc. eapply agrees_ext; [| | |by apply (plain_ports g y _ c (ms_InstanceSpec spec) MasterMonitoringPort MasterRPCPort Hc)];
        unfold buildMasterOptions; by destruct (HydraPersistenceUploaderImage spec). }
    unfold NewMaster. apply server_serves; [reflexivity|]. intros s.
    destruct (lab_InstanceGroup _ == ""); eexists _, _; (split; [reflexivity|by split_and!]).
  - unfold NewHTTPProxy. apply server_serves; [reflexivity|]. intros s. eexists _, _. split; [reflexivity|]. split; [done|]. split; [done|]. split; [done|].
    intros c (h & Hc & <-)%document_Returned. apply (agrees_http g y); [by rewrite Hf|done].
  - unfold NewRPCProxy. apply server_serves; [reflexivity|]. intros s. destruct (rps_ServiceType spec) as [t|]; eexists _, _;
      (split; [reflexivity|]); (split; [done|]); (split; [done|]); (split; [done|]); intros c (h & Hc & <-)%document_Returned;
      [apply (agrees_rpc _ g spec h (Some t) Hc)|apply (agrees_rpc _ g spec h None Hc)].
  - unfold NewTCPProxy. apply server_serves; [reflexivity|]. intros s. destruct (tps_ServiceType spec) as [t|]; eexists _, _;
      (split; [reflexivity|]); (split; [done|]); (split; [done|]); (split; [done|]); intros c (h & Hc & <-)%document_Returned; by apply (agrees_tcp _ g).
  - unfold NewKafkaProxy. apply server_serves; [reflexivity|]. intros s. destruct (kps_ServiceType spec) as [t|]; eexists _, _;
      (split; [reflexivity|]); (split; [done|]); (split; [done|]); (split; [done|]); intros c (h & Hc & <-)%document_Returned;
      [apply (agrees_kafka _ g spec h (Some t) Hc)|apply (agrees_kafka _ g spec h None Hc)].
  - unfold NewExecNode. apply server_serves; [reflexivity|]. intros s. destruct (runtime_port_keeps spec s) as [H1 H2]. eexists _, _.
    split; [reflexivity|]. split; [done|]. split; [done|]. split; [done|]. intros c Hc. by eapply plain_ports.
  - apply server_serves; [reflexivity|]. intros s. destruct (yqs_DQEngine i); eexists _, _;
      (split; [reflexivity|]); (split; [done|]); (split; [done|]); (split; [done|]); intros c Hc;
      eapply plain_ports; [exact Hc|by rewrite Hi| exact Hc|by rewrite Hi].
Qed.
End cluster.

(** ** Facts about the manager *)

Section manager.
Context {Q : QuantityArith} {U : UUIDs} {V : ImageVersions}.

Lemma outcome_mapM_Returned {A B} (f : A → outcome B) l k :
  mapM f l = Returned k ↔ Forall2 (λ x y, f x = Returned y) l k.
Proof.
  revert k. induction l as [|x l IH]; intros k; cbn.
  - split; [by intros [= <-]|by inversion 1].
  - split.
    + intros H. apply outcome_bind_Returned in H as (y & Hy & H). apply outcome_bind_Returned in H as (ys & Hys & [= <-]).
      constructor; [done|]. by apply IH.
    + inversion 1 as [|? y ? ys Hy Hys]; subst. rewrite Hy. cbn. apply IH in Hys. by rewrite Hys.
Qed.

Lemma outcome_mapM_returns {A B} (f : A → outcome B) l :
  Forall (λ x, ∃ y, f x = Returned y) l → ∃ k, mapM f l = Returned k.
Proof.
  intros H. enough (∃ k, Forall2 (λ x y, f x = Returned y) l k) as [k Hk] by (exists k; by apply outcome_mapM_Returned).
  induction H as [|x l [y Hy] _ [k Hk]]; [by exists []|]. exists (y :: k). by constructor.
Qed.

Lemma NewGenerator_features y domain g :
  NewGenerator y domain = Returned g →
  ng_clusterFeatures (gen_NodeGenerator g) = Deref (cs_ClusterFeatures (spec_CommonSpec (yts_Spec y))) ClusterFeaturesZero.
Proof. intros (_ & _ & H)%NewGenerator_parts. exact H. Qed.

(** No constructor panics on what the specification has. *)
Lemma make_returns g y b :
  ng_clusterFeatures (gen_NodeGenerator g) = Deref (cs_ClusterFeatures (spec_CommonSpec y)) ClusterFeaturesZero →
  present y b → ∃ m, make g y b = Returned m.
Proof.
  intros Hf Hp. destruct (is_server b) eqn:Hs.
  - destruct (make_serves g y b Hf Hp Hs) as (m & s & o & Hm & _). by exists m.
  - destruct b; try discriminate Hs; cbn [make]; try (by eexists); unfold NewUIParts, NewStrawberryParts;
      destruct Hp as [? ->]; by eexists.
Qed.


End manager.

(** ** The components of an accepted cluster *)

Section accepted.
Context {WD : WebhookDeps}.

(** C7. The manager of an accepted cluster is assembled completely and in order.  With a cluster
    domain, instance counts that are not negative and group names that are not empty (as the schema
    demands), the manager is made and every constructor it calls returns: no error and no panic, also
    not for the first HTTP proxy or for a component that is not in the specification.  Every component
    that another one is given to wait for stands before it in the list and has the type it is used as,
    so that its status has been found in the pass before anyone asks for it.  No two components other
    than Kafka proxies share the identity from which the names of their objects and conditions are
    made, and no two components at all when the roles of Kafka proxies are distinct, which nothing
    checks.  And the components of every type that is configured are exactly the groups the
    configuration generator lists, unless what they need (schedulers, tablet nodes) is not there, when
    there are none. *)
Theorem cluster_assembled {E} (w : World E) oldY domain :
  let spec := yts_Spec (w_yts w) in
  evaluateYtsaurusValidation (Some (w_yts w)) oldY = None → nonneg_counts spec → groups_named spec → domain ≠ "" →
  ∃ g made, NewComponentManager w domain = Returned (g, made) ∧
    let all := made.*1 in
    let keys := fmap (λ b, component_key (blueprint_labeller (gen_NodeGenerator g) b)) in
    wired all ∧ NoDup (keys (but KafkaProxyType all)) ∧
    (NoDup (kps_Role <$> spec_KafkaProxies spec) → NoDup (keys all)) ∧
    ∀ t names, GetComponentNames g t = Returned names → t ∉ [ClusterConnectionType; NativeClientConfigType; ImageHeaterType] →
      groups (gen_NodeGenerator g) t all ≡ₚ if runs spec t then names else [].
Proof.
  cbv zeta. intros Hv Hn Hnamed Hd. destruct (NewGenerator_returns (w_yts w) domain Hn) as (g & Hg & _).
  destruct (accepted_names_unique (w_yts w) oldY Hv) as (_ & _ & _ & _ & _ & Hdef & _).
  set (all := run (assemble (yts_Spec (w_yts w)) (isSome (GetImageHeater w ""))) []).
  assert (spec_HTTPProxies (yts_Spec (w_yts w)) ≠ []) as Hhttp by (by intros Hnil; rewrite Hnil in Hdef; apply elem_of_nil in Hdef).
  destruct (outcome_mapM_returns (make g (yts_Spec (w_yts w))) all) as [parts Hparts].
  { eapply Forall_impl; [apply assembled_present|]. intros b Hb. apply make_returns; [by eapply NewGenerator_features|exact Hb]. }
  assert ((zip all parts).*1 = all) as Hfst.
  { apply fst_zip. apply outcome_mapM_Returned in Hparts. apply Forall2_length in Hparts. lia. }
  exists g, (zip all parts). cbv zeta. rewrite Hfst. split_and!.
  - unfold NewComponentManager. rewrite bool_decide_eq_false_2 by done. cbv zeta. rewrite Hg. cbn [mbind outcome_bind].
    destruct (spec_HTTPProxies (yts_Spec (w_yts w))); [done|]. fold all. by rewrite Hparts.
  - by apply assemble_wired.
  - apply keys_NoDup. intros t. rewrite groups_but. case_bool_decide; [constructor|]. subst all. rewrite assemble_groups.
    by eapply expected_keys.
  - intros Hk. apply keys_NoDup. intros t. subst all. rewrite assemble_groups. by eapply expected_keys.
  - intros t names Hnames Ht. subst all. rewrite assemble_groups. unfold GetComponentNames, gen_spec in Hnames.
    rewrite (proj1 (NewGenerator_parts _ _ _ Hg)) in Hnames. unfold names_if in Hnames.
    assert (∀ (A : Type) (o : option A) (b : bool), (if isSome o && b then [""] else []) =
      (if b then match o with Some _ => [""] | None => [] end else [])) as Hif by (by intros ? [] []).
    destruct t; try discriminate Hnames; injection Hnames as <-; cbn [expected runs]; rewrite ?Hif; try done;
      try (by match goal with |- context [isSome ?o] => destruct o end);
      try (destruct Ht; by apply (bool_decide_unpack _)).
    rewrite (primary_group _ _ _ Hg), (secondary_groups _ _ _ _ Hv Hg). rewrite Permutation_app_comm. done.
Qed.

End accepted.

(** ** Examples *)

Definition example_assembly : World unit := mkWorld (example_cluster 3) [] 0 ∅ tt.

Lemma cluster_assembled_witness :
  ∃ g all, NewComponentManager example_assembly "cluster.local" = Returned (g, all) ∧ wired all.*1.
Proof.
  destruct (@cluster_assembled DevWebhook unit example_assembly None "cluster.local"
    example_accepted example_cluster_counts) as (g & all & Hm & Hw & _).
  - intros name Hname. apply list_elem_of_In in Hname. vm_compute in Hname. intuition (subst; discriminate).
  - discriminate.
  - exists g, all. split; [exact Hm|exact Hw].
Defined.

(** Two groups of Kafka proxies with one role: the webhook accepts them, and they are one component to
    everything that goes by names. *)
Definition kafka_twice : Ytsaurus :=
  let kafka := mkKafkaProxiesSpec InstanceSpecZero None "default" in
  let z := yts_Spec (example_cluster 3) in
  mkYtsaurus "ytsaurus" "ns" 1
    (mkYtsaurusSpec (spec_CommonSpec z) (spec_PodSpec z) (spec_RequiresOperatorVersion z) (spec_IsManaged z) (spec_UpdatePlan z)
      (spec_Discovery z) (spec_PrimaryMasters z) (spec_SecondaryMasters z) (spec_MasterCaches z) (spec_HTTPProxies z)
      (spec_RPCProxies z) (spec_TCPProxies z) [kafka; kafka] (spec_DataNodes z) (spec_ExecNodes z)
      (spec_Schedulers z) (spec_ControllerAgents z) (spec_TabletNodes z) (spec_StrawberryController z)
      (spec_QueryTrackers z) (spec_Spyt z) (spec_YQLAgents z) (spec_QueueAgents z) (spec_CypressProxies z)
      (spec_BundleController z) (spec_TabletBalancer z) (spec_UI z) (spec_OauthService z) (spec_UIImage z))
    YtsaurusStatusZero.

Lemma kafka_roles_collide :
  @evaluateYtsaurusValidation DevWebhook (Some kafka_twice) None = None ∧
  ∃ g all, NewComponentManager (mkWorld kafka_twice [] 0 ∅ tt) "cluster.local" = Returned (g, all) ∧
    ¬ NoDup ((λ b, component_key (blueprint_labeller (gen_NodeGenerator g) b)) <$> all.*1).
Proof.
  split; [vm_compute; reflexivity|]. eexists _, _. split; [vm_compute; reflexivity|].
  intros H. apply (bool_decide_pack _) in H. vm_compute in H. exact H.
Qed.





(** The loggers of a specification that has been through [newServer]. *)
Lemma profiled_idempotent commonSpec l : profiled commonSpec (profiled commonSpec l) = profiled commonSpec l.
Proof.
  unfold profiled. destruct (cf_EnableAnchorProfilingByDefault _); [|done]. cbn [andb].
  destruct (isNone (bl_EnableAnchorProfiling (tl_BaseLoggerSpec l))) eqn:H; [done|by rewrite H].
Qed.

(** ** Names that collide *)

(** The config map of the container runtime of one group of exec nodes is the main one of another. *)
Lemma exec_sidecar_collides g :
  GetSidecarConfigMapName (GetComponentLabeller g ExecNodeType "a") JobsContainerName =
  GetMainConfigMapName (GetComponentLabeller g ExecNodeType "a-jobs").
Proof. reflexivity. Qed.

(** Without short names the resource name tells the stateful sets of two clusters in a namespace apart,
    but not their config maps, secrets, jobs and monitoring services. *)
Lemma long_names_share_objects g g' t group :
  let l := GetComponentLabeller g t group in let l' := GetComponentLabeller g' t group in
  GetMainConfigMapName l = GetMainConfigMapName l' ∧ GetSecretName l = GetSecretName l' ∧
  GetMonitoringServiceName l = GetMonitoringServiceName l' ∧ ∀ name, GetInitJobName l name = GetInitJobName l' name.
Proof. by split_and!. Qed.
